(* ===== verification/_CoqProject ===== *)
-Q . S2P
Prelude.v
GoStrings.v
Sha256.v
GoJson.v
GoJsonParse.v
IpcJson.v
IpcGrammar.v
Redact.v
GoTime.v
ApiTypes.v
NetIP.v
Multicast.v
Mirror.v
Tunnel.v
SpanningTree.v
CandidateTypes.v
Intents.v
Snapshots.v
Planning.v
Staging.v
FieldGroups.v
Graphs.v
Topology.v
TopologyStaging.v
Planner.v
Candidates.v
Groups.v
CandidateProperties.v
PlannerProperties.v
CodecProperties.v
ExecTypes.v
Native.v
Compile.v
Compilers.v
GraphCompile.v
TopologyCompile.v
Provider.v
Preparation.v
Guards.v
CompileProofs.v
ProviderProperties.v
AuthTables.v
Store.v
Evidence.v
Reservations.v
Program.v
Requests.v
Executions.v
SafeApply.v
Admission.v
Conformance.v
System.v
Soundness.v
Transitions.v
Handlers.v
Goroutines.v
Scenario.v
Jobs.v
AuthTypes.v
IpcServer.v
AuthStore.v
AuthCommands.v
AuthSessions.v
AuthDrafts.v
AuthTLS.v
AuthService.v
AuthFrames.v
Manager.v
SafetyProperties.v
Contract.v
AuthPolicy.v
AuthInvariants.v
ManagerProperties.v
AuthCodec.v
PublicApi.v
PublicStream.v
AuthLaws.v
AuthProperties.v
SessionProperties.v
DraftProperties.v
