(* ===== verification/Prelude.v ===== *)
(** * OVS WebUI: a verification development of the manager's core

    ** The program

    OVS WebUI edits the configuration of an Open vSwitch host through two
    daemons. [ovs-webd] serves the browser; [ovs-mgrd] owns the manager
    database (SQLite), watches the switch and is the only process that writes
    to it. A user collects field changes in a _candidate_ (internal/candidate),
    whose captured originals mgrd seals; an apply submits the candidate's plan
    to the _execution engine_ (internal/repository/executions), which journals
    it, dispatches it once through the provider (internal/provider/ovsdb), and,
    for a _Safe Apply_, watches the management path and rolls the change back
    unless the user confirms it inside a window. Records, jobs and audit
    evidence (internal/repository/evidence), durable request receipts
    (internal/repository/requests) and identity reservations
    (internal/repository/inventory) are written in the same transactions.
    Every command of the browser reaches mgrd over a private socket
    (internal/ipc) and is authenticated and authorized there
    (internal/repository/auth): users, roles, sessions and tokens, drafts and
    their validation, certificates and restores.

    The development models the manager: the candidate planner with its codecs,
    the engine, Safe Apply and the transactions under them, the authenticated
    services, and the admission of requests.

    ** The files

    Foundations.
    - [Prelude]: errors and results ([let?], [fail_if]), shared automation.
    - [GoStrings], [GoJson], [GoJsonParse], [GoTime], [NetIP], [Sha256]: what
      the source uses of the Go standard library (strings, strconv,
      encoding/json, time, net/netip, crypto/sha256 and crypto/hmac), executable.
    - [ApiTypes]: internal/apitypes (identifiers, references, failures).

    The boundary of the daemons.
    - [IpcJson]: the token reader of encoding/json and what internal/ipc/json.go
      builds on it. [IpcGrammar]: the grammar of the texts it accepts, and that
      what [marshal] prints is read back.
    - [IpcServer]: the request budgets (budget.go) as a step relation, and the
      handler (server.go, auth.go, tls.go) as a tree of what it asks for and
      does.
    - [Redact]: internal/redact, what may leave in logs and exports.

    Closed native configurations.
    - [Multicast], [Mirror], [Tunnel], [SpanningTree]: internal/multicast,
      internal/mirror, internal/tunnel, internal/spanningtree. [CodecProperties]
      states what they accept and that translation loses nothing.

    The candidate (internal/candidate).
    - [CandidateTypes]: the structs and their JSON. [Intents]: the seal, the
      operation classes, bindings, after images and reversal.
    - [Planning]: Port values, comparison and gates (plan.go, bond.go, qinq.go).
    - [Snapshots]: the read snapshot that planning compares with. [Staging]:
      the commands on Port fields (plan.go), isolation.go and multicast.go.
    - [FieldGroups] (mtu.go, policing.go, spanning_tree.go), [Graphs]
      (bridge.go, bridge_delete.go, internal_port.go, internal_port_delete.go),
      [Topology] and [TopologyStaging] (topology.go, mirror.go, tunnel.go).
    - [Planner]: [Compare], [Checks] and [Prepare], which dispatch to them.
    - [Candidates], [Groups]: what each command does, branch by branch;
      [CandidateProperties], [PlannerProperties]: what planning guarantees.

    The provider (internal/provider/ovsdb).
    - [ExecTypes]: internal/execution, internal/safety, internal/tlscontrol.
    - [GoFloat], [Native]: numbers, native values, the operations of one
      transaction and the plan. [Compile], [Compilers], [GraphCompile],
      [TopologyCompile]: one compiler per group, and [compileExecution].
    - [Provider]: the attempt ([Commit], [decodeCommit]) and the later
      observation ([Observe]).
    - [Preparation]: [Prepare] with its host and deletion guards, the
      compensation of [PrepareRollback], and [verifyApplied] (applied.go): the
      read-only transaction that proves a change applied, and its verdict.
    - [Guards]: the contract between compilers and executor; [CompileProofs]:
      every compiler keeps it; [ProviderProperties].

    The execution core.
    - [AuthTables]: the tables of authentication (internal/repository/auth).
    - [Store]: the tables of the manager database and its transactions
      (repository/sqlite/store.go). [tx A] is the callback of [Store.Write]:
      it consumes the answers of an environment (clock readings, identifiers,
      authority checks, write failures) in order, and its changes are kept
      only when it succeeds.
    - [Evidence] (repository/evidence/write.go), [Reservations]
      (repository/inventory/creation.go, executions/bridge_delete.go),
      [Requests] (repository/requests).
    - [Program]: [prog] is one goroutine, the tree of its effects; a
      transaction is one atomic effect whose commit may stay unknown.
    - [Executions], [Admission] (executions/engine.go, evidence.go) and
      [SafeApply] (executions/safety.go).
    - [System]: the process: database, active transactions, what was sent,
      the goroutines; steps interleave them, crash and restart. [wp] is the
      reasoning principle, [slice] and [advance] its ownership discipline.
    - [Conformance], [Frames], [Transitions], [Handlers], [Goroutines],
      [Soundness]: every program keeps its [wp], hence every reachable process
      state satisfies the invariant, whatever the interleaving.
    - [Jobs]: the state machine of jobs. [Scenario]: two concrete runs, the
      witnesses of the properties on reachable states.

    Authentication and authorization (internal/authn, internal/repository/auth).
    - [AuthTypes] (capabilities, templates, claims, secrets), [AuthStore] (the
      claims of a credential, the check of an operation), [AuthCommands]
      (commands.go), [AuthSessions] (auth.go, password.go, safety.go),
      [AuthDrafts] (candidate.go, execution.go), [AuthTLS] (tls.go,
      restore.go): operations as parts of transactions.
    - [AuthService]: the handlers that mgrd exposes, as programs.
    - [AuthFrames], [AuthPolicy], [AuthInvariants], [AuthLaws], [AuthCodec]:
      [services_conform] lifts what every step of the services keeps to every
      transaction of every service; the relations it is applied to.

    The whole manager.
    - [Manager]: the entry points of the core and of the services, in one
      process. [Contract]: the abstract machine of one transaction, and that
      every step of the manager is a sequence of its moves.
    - [SafetyProperties], [ManagerProperties], [AuthProperties],
      [SessionProperties], [DraftProperties]: the properties.

    ** What the theorems show

    - Execution: mutation bytes are sent at most once per intent and only
      after the intent is durable; decisions are final and carry their proof;
      compensations are never withdrawn; protections and probe domains exclude
      each other; jobs follow their state machine; only admission, the ticks of
      Safe Apply and recovery send bytes ([SafetyProperties],
      [ManagerProperties]); the detailed manager refines the contract of a
      transaction ([Contract]). They quantify over every interleaving of core
      and services, every answer of provider, storage and clocks, and every
      crash.
    - Authority: an administrator always remains; nobody hands out what they
      do not have; an operation is carried out only under claims that are
      current and sufficient; what is revoked stays revoked, and a changed
      password or a disabled user loses every session; an apply is authorized
      for the draft that was validated and for nothing else, and what became of
      it is decided once ([AuthProperties], [SessionProperties],
      [DraftProperties]).
    - The boundary: ParseObject accepts exactly the stated texts, ends, and
      reads back what is marshalled ([IpcGrammar]); an operation of the manager
      is reached only over a trusted connection with a negotiated protocol, a
      free slot and a bounded body; the budgets are kept and the queue drains
      ([IpcServer]); redacted values cannot be told from the output ([Redact]).
    - Provider: every write of an accepted plan is pinned by a guard of the
      same transaction and checked in its reply; bytes leave at most once and
      after admission; committed, rejected and applied are concluded exactly
      from the stated evidence; the proof that a change is applied writes
      nothing; a compensation undoes only what is still our own change
      ([ProviderProperties]).
    - Candidates: every accepted command leaves a well-formed candidate,
      staging never replaces a captured original, a rebase decides every
      conflict, gates pass exactly for the stated configurations, the seal
      binds the document ([CandidateProperties], [CodecProperties]).
    - Codecs: validators accept exactly the stated ranges, merges and round
      trips are exact, accepted transitions can be installed and reversed.

    ** Conventions

    - A pointer is an [option]; a slice whose nilness reaches the JSON is an
      [option] of a list; a map is a [gmap], and a nil map prints like an empty
      one (it is [{}], where Go prints [null]; the digests compared by the code
      come from maps that were made).
    - Go's [int] and [int64] are [Z]; where a counter can overflow ([int64] of
      a sequence, of a duration) the wrap-around is written out.
    - A document column of the database holds the value its JSON encodes.
      Strings are byte sequences, assumed valid UTF-8 where they cross JSON.
      Times are UTC nanoseconds.
    - [any] values are the JSON values of [GoJson].
    - Digests are computed, not axiomatised: SHA-256 is executable, and a
      theorem that needs injectivity says which collision it excludes.
    - Random identifiers are answers of the environment or arguments.

    ** Fuel and termination

    [GoJsonParse.parse_json] takes twice the length of the text plus two: every
    value and every item consumes a byte. [IpcJson.ParseObject] takes two steps
    for each of the 16,384 values that it may read and one more, which is proved
    enough ([ParseObject_terminates]); a token passes over at most one colon or
    comma, so two rounds of its loop are all that Go's loop makes. The scanners
    of [GoStrings] and the hash padding of [Sha256] recurse on lists. Programs
    are finite trees, so every goroutine terminates once its effects return;
    the reads of a loop are bounded by the rows the query returns.

    ** Parameters and environment

    The provider, the clocks, the reachability probe and the storage answer
    through the environment of [Program] and [Store]; no theorem assumes that
    they answer well. A foreign key to a table that is not modelled is a write
    that the environment may refuse. Other components may change every table
    but [owned_tables] between any two effects ([Step_other]).

    The services take as arguments what internal/apicontract makes of a request
    (the operation, its parameters, its decoded body), the key derivation of
    golang.org/x/crypto/argon2 and the snapshot that the inventory projects;
    the IPC handler takes the types that [reflect] sees, the typed decoder and
    [mime.ParseMediaType]; [Preparation] takes the reading of a journaled plan
    ([decode]), the answers of the kernel and runtime probes and of the host.

    ** Not modelled

    - The client side of the private IPC, its sockets and peer credentials; the
      browser's sessions and the HTTP handlers of ovs-webd; the public API and
      its generated types; OpenAPI validation.
    - Key files, envelope encryption and the storage of certificates: built on
      crypto packages. The engine and the services see fingerprints and hashes.
    - The inventory projection: the candidate snapshot is an input of the
      planner, with the facts that planning relies on as the hypothesis
      [projected]. The OVSDB wire protocol and monitors, the checks of the host
      and of the running processes: they answer through the arguments of
      [Commit], [Observe], [Prepare] and [verifyApplied]; the engine quantifies
      over all outcomes.
    - Linux sockets, netlink and the witness stream; process start-up,
      migrations and backups; the registry of identities; the paged reads of
      journals, evidence, users and certificates; the retention of old rows
      (of them, [Step_other] covers those outside [owned_tables]). *)

From Stdlib Require Export ZArith Lia Ascii String.
From stdpp Require Export base gmap strings list fin_maps sorting.

#[global] Open Scope Z_scope.

(** ** Errors and results

    A Go function that returns [(T, error)] is modelled as [result T]: the
    value next to a non-nil error is never used by the callers modelled here.
    The constructors of [error] are the ways the source makes an error:
    [apitypes.Fail(status, code)], [errors.New(text)], and the sentinel values
    of the packages it calls. *)

Inductive error : Type :=
  | EFail (status : Z) (code : string)
  | ENew (text : string)
  | ENoRows
  | ENotFound
  | EUnavailable
  | EInvalid
  | ECanceled.

#[export] Instance error_eq_dec : EqDecision error.
Proof. solve_decision. Defined.

Inductive result (A : Type) : Type :=
  | Ok (a : A)
  | Err (e : error).
Arguments Ok {A} a.
Arguments Err {A} e.

#[export] Instance result_eq_dec {A} `{EqDecision A} : EqDecision (result A).
Proof. solve_decision. Defined.

Definition is_ok {A} (r : result A) : bool :=
  match r with Ok _ => true | Err _ => false end.

Declare Scope go_scope.
Delimit Scope go_scope with go.
#[global] Open Scope go_scope.

(** [x := c; if err != nil { return err }; k] *)
Notation "'let?' x ':=' c 'in' k" :=
  (match c with Ok x => k | Err e => Err e end)
  (at level 10, x pattern, c at level 99, k at level 200,
   format "'[v' 'let?'  x  ':='  c  'in' '/' k ']'") : go_scope.

(** [if b { return ..., e }; k] *)
Notation "'fail_if' b 'with' e ';;' k" :=
  (if b then Err e else k)
  (at level 10, b at level 99, e at level 99, k at level 200,
   format "'[v' 'fail_if'  b  'with'  e  ';;' '/' k ']'") : go_scope.

Infix "=s" := String.eqb (at level 70) : go_scope.
Notation "a <>s b" := (negb (String.eqb a b)) (at level 70) : go_scope.

(** [slices.Contains] on strings, and the nil tests on pointers. *)
Definition contains (l : list string) (x : string) : bool := existsb (String.eqb x) l.
#[global] Arguments contains : simpl never.
Definition is_nil {A} (o : option A) : bool := match o with None => true | Some _ => false end.
Definition not_nil {A} (o : option A) : bool := negb (is_nil o).
Definition is_empty {A} (l : list A) : bool := match l with [] => true | _ => false end.
Definition len {A} (l : list A) : Z := Z.of_nat (List.length l).

(** ** Automation *)

Lemma contains_In l x : contains l x = true <-> In x l.
Proof.
  unfold contains. rewrite existsb_exists. split.
  - intros (y & Hy & E). apply String.eqb_eq in E. by subst.
  - intros H. exists x. split; [done|]. apply String.eqb_refl.
Qed.

Lemma contains_not_In l x : contains l x = false <-> ~ In x l.
Proof. rewrite <- contains_In. by destruct (contains l x). Qed.

Lemma is_nil_true {A} (o : option A) : is_nil o = true <-> o = None.
Proof. by destruct o. Qed.
Lemma is_nil_false {A} (o : option A) : is_nil o = false <-> exists a, o = Some a.
Proof. destruct o; split; intros H; try done; eauto. by destruct H. Qed.
Lemma not_nil_true {A} (o : option A) : not_nil o = true <-> exists a, o = Some a.
Proof. unfold not_nil. by rewrite negb_true_iff, is_nil_false. Qed.
Lemma not_nil_false {A} (o : option A) : not_nil o = false <-> o = None.
Proof. unfold not_nil. by rewrite negb_false_iff, is_nil_true. Qed.
Lemma is_empty_true {A} (l : list A) : is_empty l = true <-> l = [].
Proof. by destruct l. Qed.
Lemma is_empty_false {A} (l : list A) : is_empty l = false <-> l <> [].
Proof. by destruct l. Qed.

Create Rewrite HintDb go_bool.
#[export] Hint Rewrite andb_true_iff andb_false_iff orb_true_iff orb_false_iff
  negb_true_iff negb_false_iff String.eqb_eq String.eqb_neq
  Z.leb_le Z.leb_gt Z.ltb_lt Z.ltb_ge Z.eqb_eq Z.eqb_neq
  bool_decide_eq_true bool_decide_eq_false @contains_In contains_not_In
  @is_nil_true @is_nil_false @not_nil_true @not_nil_false
  @is_empty_true @is_empty_false Bool.eqb_true_iff : go_bool.

(** Turn the boolean conditions of the source into propositions. *)
Ltac bsimp := autorewrite with go_bool in *.

(** Invert a guarded computation that is known to have succeeded: every
    [fail_if] and every [let?] on the way leaves its condition behind. *)
Ltac ok_step :=
  match goal with
  | H : Err _ = Ok _ |- _ => discriminate H
  | H : Ok _ = Err _ |- _ => discriminate H
  | H : Some _ = None |- _ => discriminate H
  | H : None = Some _ |- _ => discriminate H
  | H : Ok _ = Ok _ |- _ => injection H as H
  | H : context [match ?c with _ => _ end] |- _ =>
      lazymatch type of H with
      | _ = Ok _ => let E := fresh "E" in destruct c eqn:E
      | _ = Some _ => let E := fresh "E" in destruct c eqn:E
      end
  end.
Ltac ok_inv := repeat (ok_step; try discriminate); subst.

(** The other direction: the next guard of the goal does not fire. *)
Ltac ok_guard E :=
  match goal with |- (if ?b then Err _ else _) = _ => destruct b eqn:E; [exfalso|clear E] end.

Ltac destruct_ex := repeat match goal with H : exists _, _ |- _ => destruct H end.

(** ** Facts on strings shared by the components *)

(** stdpp blocks the reduction of [++] on strings; the models compute with it. *)
#[global] Arguments String.append !s1 s2 : simpl nomatch.

Lemma string_app_assoc (a b c : string) : ((a ++ b) ++ c = a ++ (b ++ c))%string.
Proof. induction a as [|x a IH]; [done|]. simpl. by f_equal. Qed.

Lemma string_app_nil_r (a : string) : (a ++ "" = a)%string.
Proof. induction a as [|x a IH]; [done|]. simpl. by f_equal. Qed.

Lemma string_length_app (a b : string) :
  String.length (a ++ b) = (String.length a + String.length b)%nat.
Proof. induction a as [|x a IH]; [done|]. simpl. by rewrite IH. Qed.

Lemma string_app_inj_l (a b c : string) : (a ++ b = a ++ c)%string -> b = c.
Proof. induction a as [|x a IH]; [done|]. simpl. intros [= H]. auto. Qed.
