(* ===== verification/GoStrings.v ===== *)
(** * Strings and numerals of the Go standard library

    Executable models of what the source uses of [strings], [strconv],
    [unicode/utf8] and [encoding/hex]. A Go string is a byte sequence; a Coq
    [string] is one too ([ascii] is an 8-bit byte). [for _, c := range s]
    iterates over runes, which [chunks] decodes the way [utf8.DecodeRune]
    does: an invalid byte is the rune U+FFFD of width one. *)

From S2P Require Import Prelude.

Definition byte_of (c : ascii) : Z := Z.of_N (N_of_ascii c).
Definition char_of (z : Z) : ascii := ascii_of_N (Z.to_N z).
Definition slen (s : string) : Z := Z.of_nat (String.length s).

(** [s[i]], with the out-of-range panic as [None]. *)
Definition index (s : string) (i : nat) : option Z := byte_of <$> String.get i s.

Fixpoint bytes (s : string) : list Z :=
  match s with
  | EmptyString => []
  | String c r => byte_of c :: bytes r
  end.

Definition of_bytes (l : list Z) : string :=
  foldr (fun b s => String (char_of b) s) EmptyString l.

(** ** Runes *)

Definition cont (b : Z) : bool := (128 <=? b) && (b <=? 191).
Definition rune_error : Z := 65533.

(** The runes of a string, each with the bytes it was decoded from. *)
Fixpoint chunks (s : string) : list (Z * string) :=
  match s with
  | EmptyString => []
  | String a r1 =>
    let x := byte_of a in
    let bad := (rune_error, String a "") in
    if x <? 128 then (x, String a "") :: chunks r1
    else if (194 <=? x) && (x <=? 223) then
      match r1 with
      | String b r2 =>
        if cont (byte_of b)
        then ((x - 192) * 64 + (byte_of b - 128), String a (String b "")) :: chunks r2
        else bad :: chunks r1
      | EmptyString => bad :: chunks r1
      end
    else if (224 <=? x) && (x <=? 239) then
      match r1 with
      | String b (String c r3) =>
        let lo := if x =? 224 then 160 else 128 in
        let hi := if x =? 237 then 159 else 191 in
        if (lo <=? byte_of b) && (byte_of b <=? hi) && cont (byte_of c)
        then (((x - 224) * 64 + (byte_of b - 128)) * 64 + (byte_of c - 128),
              String a (String b (String c ""))) :: chunks r3
        else bad :: chunks r1
      | _ => bad :: chunks r1
      end
    else if (240 <=? x) && (x <=? 244) then
      match r1 with
      | String b (String c (String d r4)) =>
        let lo := if x =? 240 then 144 else 128 in
        let hi := if x =? 244 then 143 else 191 in
        if (lo <=? byte_of b) && (byte_of b <=? hi) && cont (byte_of c) && cont (byte_of d)
        then ((((x - 240) * 64 + (byte_of b - 128)) * 64 + (byte_of c - 128)) * 64 + (byte_of d - 128),
              String a (String b (String c (String d "")))) :: chunks r4
        else bad :: chunks r1
      | _ => bad :: chunks r1
      end
    else bad :: chunks r1
  end.

Definition runes (s : string) : list Z := fst <$> chunks s.
Definition concat_chunks (l : list (Z * string)) : string :=
  foldr (fun ch acc => (snd ch ++ acc)%string) EmptyString l.

(** [utf8.ValidString]: no byte decodes to U+FFFD with width one. *)
Definition utf8_valid (s : string) : bool :=
  forallb (fun ch => negb ((fst ch =? rune_error) && (String.length (snd ch) =? 1)%nat)) (chunks s).

(** [unicode.IsSpace] and [unicode.IsControl]. *)
Definition is_space (r : Z) : bool :=
  ((9 <=? r) && (r <=? 13)) || (r =? 32) || (r =? 133) || (r =? 160) || (r =? 5760)
  || ((8192 <=? r) && (r <=? 8202)) || (r =? 8232) || (r =? 8233) || (r =? 8239)
  || (r =? 8287) || (r =? 12288).
Definition is_control (r : Z) : bool := ((0 <=? r) && (r <? 32)) || ((127 <=? r) && (r <? 160)).

(** ** Package strings *)

Fixpoint drop_space (l : list (Z * string)) : list (Z * string) :=
  match l with
  | ch :: r => if is_space (fst ch) then drop_space r else l
  | [] => []
  end.
Definition trim_space (s : string) : string :=
  concat_chunks (reverse (drop_space (reverse (drop_space (chunks s))))).

(** [strings.Fields] *)
Fixpoint fields_go (l : list (Z * string)) (cur : string) : list string :=
  match l with
  | [] => if cur =s "" then [] else [cur]
  | (r, b) :: l' =>
    if is_space r
    then if cur =s "" then fields_go l' "" else cur :: fields_go l' ""
    else fields_go l' (cur ++ b)
  end.
Definition fields (s : string) : list string := fields_go (chunks s) "".

(** [strings.Split(s, sep)] for a one-byte separator. *)
Fixpoint split_on (sep : ascii) (s : string) : list string :=
  match s with
  | EmptyString => [""]
  | String c r =>
    if Ascii.eqb c sep then "" :: split_on sep r
    else match split_on sep r with
         | h :: t => String c h :: t
         | [] => [String c ""]
         end
  end.

Definition join (sep : string) (l : list string) : string := String.concat sep l.

Definition has_prefix (s p : string) : bool := String.prefix p s.
Definition reverse_string (s : string) : string := of_bytes (reverse (bytes s)).
Definition has_suffix (s p : string) : bool := has_prefix (reverse_string s) (reverse_string p).
Definition trim_suffix (s p : string) : string :=
  if has_suffix s p then String.substring 0 (String.length s - String.length p) s else s.

(** [strings.Contains] *)
Fixpoint contains_sub (s p : string) : bool :=
  has_prefix s p ||
  match s with
  | EmptyString => false
  | String _ r => contains_sub r p
  end.
Definition contains_any (s chars : string) : bool :=
  existsb (fun b => existsb (Z.eqb b) (bytes chars)) (bytes s).

(** [strings.ReplaceAll(s, c, "")] for one byte, and [strings.ToLower] on the
    ASCII letters (the callers reject every non-ASCII byte afterwards). *)
Fixpoint remove_byte (c : ascii) (s : string) : string :=
  match s with
  | EmptyString => EmptyString
  | String d r => if Ascii.eqb d c then remove_byte c r else String d (remove_byte c r)
  end.
Definition lower_byte (c : ascii) : ascii :=
  let x := byte_of c in if (65 <=? x) && (x <=? 90) then char_of (x + 32) else c.
Fixpoint to_lower (s : string) : string :=
  match s with
  | EmptyString => EmptyString
  | String c r => String (lower_byte c) (to_lower r)
  end.

(** ** Package strconv *)

Definition is_digit (b : Z) : bool := (48 <=? b) && (b <=? 57).
Definition digit_char (d : Z) : ascii := char_of (48 + d).

Fixpoint all_digits (s : string) : bool :=
  match s with
  | EmptyString => true
  | String c r => is_digit (byte_of c) && all_digits r
  end.

Fixpoint format_go (fuel : nat) (n : Z) (acc : string) : string :=
  match fuel with
  | O => acc
  | S f =>
    let acc' := String (digit_char (n mod 10)) acc in
    if n <? 10 then acc' else format_go f (n / 10) acc'
  end.
(** [strconv.FormatUint(n, 10)]: [Z.log2 n + 1] bits bound the digits. *)
Definition format_uint (n : Z) : string := format_go (S (Z.to_nat (Z.log2 n))) n "".
(** [strconv.FormatInt(n, 10)] and [strconv.Itoa]. *)
Definition format_int (n : Z) : string :=
  if n <? 0 then ("-" ++ format_uint (- n))%string else format_uint n.

Fixpoint parse_go (s : string) (acc : Z) : option Z :=
  match s with
  | EmptyString => Some acc
  | String c r =>
    let b := byte_of c in
    if is_digit b then parse_go r (acc * 10 + (b - 48)) else None
  end.
(** [strconv.ParseUint(s, 10, bits)], [None] for any of its errors. *)
Definition parse_uint (s : string) (bits : Z) : option Z :=
  if s =s "" then None
  else match parse_go s 0 with
       | Some n => if n <? 2 ^ bits then Some n else None
       | None => None
       end.
(** [strconv.ParseInt(s, 10, bits)]. *)
Definition parse_int (s : string) (bits : Z) : option Z :=
  let signed (neg : bool) (body : string) :=
    match parse_uint body 64 with
    | Some n =>
      if neg then if n <=? 2 ^ (bits - 1) then Some (- n) else None
      else if n <? 2 ^ (bits - 1) then Some n else None
    | None => None
    end in
  match s with
  | String "+"%char r => signed false r
  | String "-"%char r => signed true r
  | _ => signed false s
  end.
Definition atoi (s : string) : option Z := parse_int s 64.
(** [n, _ := strconv.Atoi(s)]: the value next to a range error is the bound. *)
Definition atoi_value (s : string) : Z :=
  let unsigned body := match body with EmptyString => None | _ => parse_go body 0 end in
  match s with
  | String "+"%char r => match unsigned r with Some n => Z.min n (2 ^ 63 - 1) | None => 0 end
  | String "-"%char r => match unsigned r with Some n => - Z.min n (2 ^ 63) | None => 0 end
  | _ => match unsigned s with Some n => Z.min n (2 ^ 63 - 1) | None => 0 end
  end.

(** ** Package encoding/hex *)

Definition hex_digit (n : Z) : ascii := if n <? 10 then char_of (48 + n) else char_of (87 + n).
Fixpoint hex_encode (l : list Z) : string :=
  match l with
  | [] => EmptyString
  | b :: r => String (hex_digit (b / 16)) (String (hex_digit (b mod 16)) (hex_encode r))
  end.
Definition hex_value (b : Z) : option Z :=
  if is_digit b then Some (b - 48)
  else if (97 <=? b) && (b <=? 102) then Some (b - 87)
  else if (65 <=? b) && (b <=? 70) then Some (b - 55)
  else None.
Fixpoint hex_decode (s : string) : option (list Z) :=
  match s with
  | EmptyString => Some []
  | String a (String b r) =>
    match hex_value (byte_of a), hex_value (byte_of b), hex_decode r with
    | Some h, Some l, Some t => Some (h * 16 + l :: t)
    | _, _, _ => None
    end
  | String _ EmptyString => None
  end.

(** ** Facts *)

Lemma byte_of_range c : 0 <= byte_of c < 256.
Proof.
  unfold byte_of. pose proof (N_ascii_bounded c). split; [lia|].
  change 256 with (Z.of_N 256). lia.
Qed.

Lemma byte_of_char z : 0 <= z < 256 -> byte_of (char_of z) = z.
Proof.
  intros H. unfold byte_of, char_of. rewrite N_ascii_embedding by lia. lia.
Qed.

Lemma char_of_byte c : char_of (byte_of c) = c.
Proof. unfold byte_of, char_of. rewrite N2Z.id. apply ascii_N_embedding. Qed.

Lemma byte_of_inj c d : byte_of c = byte_of d -> c = d.
Proof. intros H. rewrite <- (char_of_byte c), <- (char_of_byte d). by rewrite H. Qed.

Lemma byte_of_digit n : 0 <= n < 10 -> byte_of (digit_char n) = 48 + n.
Proof. intros H. apply byte_of_char. lia. Qed.

Lemma is_digit_digit n : 0 <= n < 10 -> is_digit (byte_of (digit_char n)) = true.
Proof. intros H. rewrite byte_of_digit by done. unfold is_digit. bsimp. lia. Qed.

Lemma of_bytes_bytes s : of_bytes (bytes s) = s.
Proof. induction s as [|c s IH]; [done|]. simpl. by rewrite char_of_byte, IH. Qed.

(** Reading what [format_go] prints resumes with the number as accumulator. *)
Lemma parse_format_go fuel n acc k :
  0 <= n < 10 ^ Z.of_nat fuel -> 0 <= k ->
  exists m, parse_go (format_go fuel n acc) k = parse_go acc (k * 10 ^ Z.of_nat m + n) /\ (m <= fuel)%nat.
Proof.
  revert n acc k. induction fuel as [|f IH]; intros n acc k Hn Hk.
  { exists 0%nat. simpl. change (10 ^ Z.of_nat 0) with 1 in *.
    split; [f_equal; lia|lia]. }
  cbn [format_go]. rewrite Nat2Z.inj_succ, Z.pow_succ_r in Hn by lia.
  pose proof (Z.mod_pos_bound n 10 ltac:(lia)) as Hm.
  pose proof (Z.div_mod n 10 ltac:(lia)) as Hd.
  destruct (Z.ltb_spec n 10) as [Hlt|Hge].
  - exists 1%nat. split; [|lia]. cbn [parse_go]. rewrite is_digit_digit by done.
    rewrite byte_of_digit by done. rewrite Z.mod_small by lia.
    change (10 ^ Z.of_nat 1) with 10. f_equal. lia.
  - destruct (IH (n / 10) (String (digit_char (n mod 10)) acc) k) as (m & E & Hle); [|done|].
    { split; [apply Z.div_pos; lia|]. apply Z.div_lt_upper_bound; lia. }
    exists (S m). split; [|lia]. rewrite E. cbn [parse_go].
    rewrite is_digit_digit by done. rewrite byte_of_digit by done.
    rewrite Nat2Z.inj_succ, Z.pow_succ_r by lia. f_equal. lia.
Qed.

Lemma log2_fuel n : 0 <= n -> n < 10 ^ Z.of_nat (S (Z.to_nat (Z.log2 n))).
Proof.
  intros Hn. destruct (decide (n = 0)) as [->|Hnz]; [done|].
  rewrite Nat2Z.inj_succ, Z2Nat.id by apply Z.log2_nonneg.
  destruct (Z.log2_spec n) as [_ Hlt]; [lia|].
  eapply Z.lt_le_trans; [exact Hlt|].
  apply Z.pow_le_mono_l. lia.
Qed.

Lemma format_go_acc_ne fuel n acc : format_go (S fuel) n acc <> "".
Proof.
  revert n acc. induction fuel as [|f IH]; intros n acc; cbn [format_go].
  - destruct (n <? 10); discriminate.
  - destruct (n <? 10); [discriminate|]. apply IH.
Qed.

Lemma parse_go_format n : 0 <= n -> parse_go (format_uint n) 0 = Some n.
Proof.
  intros Hn. unfold format_uint.
  destruct (parse_format_go (S (Z.to_nat (Z.log2 n))) n "" 0) as (m & E & _); [|done|].
  { split; [done|]. by apply log2_fuel. }
  rewrite E. by rewrite Z.mul_0_l.
Qed.

(** [ParseUint(FormatUint(n, 10), 10, bits)] gives [n] back. *)
Lemma parse_format_uint n bits : 0 <= n < 2 ^ bits -> parse_uint (format_uint n) bits = Some n.
Proof.
  intros Hn. unfold parse_uint.
  destruct (String.eqb_spec (format_uint n) "") as [E|_].
  { by apply format_go_acc_ne in E. }
  rewrite parse_go_format by lia. by rewrite (proj2 (Z.ltb_lt _ _)) by lia.
Qed.

Lemma format_uint_inj n m : 0 <= n -> 0 <= m -> format_uint n = format_uint m -> n = m.
Proof.
  intros Hn Hm H. apply (f_equal (fun s => parse_go s 0)) in H.
  rewrite !parse_go_format in H by done. congruence.
Qed.

Lemma parse_go_bound s k n : 0 <= k -> parse_go s k = Some n -> k <= n.
Proof.
  revert k. induction s as [|c s IH]; intros k Hk H; simpl in H; [simplify_eq; lia|].
  destruct (is_digit (byte_of c)) eqn:E; [|done]. unfold is_digit in E. bsimp.
  apply IH in H; lia.
Qed.

Lemma parse_uint_range s bits n : parse_uint s bits = Some n -> 0 <= n < 2 ^ bits.
Proof.
  unfold parse_uint. intros H. ok_inv. bsimp. simplify_eq.
  split; [|lia]. by apply (parse_go_bound s 0).
Qed.

(** ** Canonical decimals *)

Lemma format_go_append fuel n acc rest :
  format_go fuel n (acc ++ rest) = (format_go fuel n acc ++ rest)%string.
Proof.
  revert n acc. induction fuel as [|f IH]; intros n acc; [done|]. cbn [format_go].
  change (String ?c (acc ++ rest))%string with (String c acc ++ rest)%string.
  destruct (n <? 10); [done|]. apply IH.
Qed.

(** More fuel than the digits need does not change the text. *)
Lemma format_go_fuel f1 : forall f2 n acc,
  0 <= n < 10 ^ Z.of_nat f1 -> n < 10 ^ Z.of_nat f2 -> (0 < f1)%nat -> (0 < f2)%nat ->
  format_go f1 n acc = format_go f2 n acc.
Proof.
  induction f1 as [|f1 IH]; intros [|f2] n acc H1 H2 P1 P2; [lia..|].
  cbn [format_go]. destruct (Z.ltb_spec n 10) as [|Hge]; [done|].
  rewrite Nat2Z.inj_succ, Z.pow_succ_r in H1, H2 by lia.
  assert (Hd : 0 <= n / 10 < 10 ^ Z.of_nat f1 /\ n / 10 < 10 ^ Z.of_nat f2).
  { repeat split; [apply Z.div_pos; lia| |]; apply Z.div_lt_upper_bound; lia. }
  apply IH; [lia..| |].
  - destruct f1; [|lia]. change (10 ^ Z.of_nat 0) with 1 in *. lia.
  - destruct f2; [|lia]. change (10 ^ Z.of_nat 0) with 1 in *. lia.
Qed.

Lemma format_uint_snoc n d :
  0 < n -> 0 <= d < 10 ->
  format_uint (n * 10 + d) = (format_uint n ++ String (digit_char d) "")%string.
Proof.
  intros Hn Hd. unfold format_uint. set (m := n * 10 + d).
  set (g := S (Z.to_nat (Z.log2 n))).
  assert (Hg : n < 10 ^ Z.of_nat g) by (apply log2_fuel; lia).
  rewrite (format_go_fuel _ (S g)); [|split; [lia|apply log2_fuel; lia]| |lia|lia].
  2: { rewrite Nat2Z.inj_succ, Z.pow_succ_r by lia. lia. }
  cbn [format_go]. rewrite (proj2 (Z.ltb_ge m 10)) by lia.
  assert (Hm : m mod 10 = d /\ m / 10 = n).
  { unfold m. rewrite Z.add_comm, Z.mod_add, Z.mod_small, Z.div_add, Z.div_small by lia. lia. }
  destruct Hm as [-> ->]. change (String (digit_char d) "") with ("" ++ String (digit_char d) "")%string.
  by rewrite <- format_go_append.
Qed.

Lemma format_uint_digit d : 0 <= d < 10 -> format_uint d = String (digit_char d) "".
Proof.
  intros Hd. unfold format_uint. cbn [format_go].
  by rewrite (proj2 (Z.ltb_lt _ _)), Z.mod_small by lia.
Qed.

Lemma digit_char_of c : is_digit (byte_of c) = true -> digit_char (byte_of c - 48) = c.
Proof.
  intros _. unfold digit_char. replace (48 + (byte_of c - 48)) with (byte_of c) by lia.
  apply char_of_byte.
Qed.

Lemma parse_go_canonical s : forall k m,
  0 < k -> parse_go s k = Some m -> format_uint m = (format_uint k ++ s)%string.
Proof.
  induction s as [|c s IH]; intros k m Hk H; cbn in H.
  { simplify_eq. by rewrite string_app_nil_r. }
  destruct (is_digit (byte_of c)) eqn:Ec; [|done].
  assert (Hd : 0 <= byte_of c - 48 < 10) by (unfold is_digit in Ec; bsimp; lia).
  apply IH in H; [|lia]. rewrite H, format_uint_snoc, digit_char_of, string_app_assoc by done.
  done.
Qed.

(** A numeral without a superfluous leading zero is the one its value prints as. *)
Lemma canonical_text c r n :
  (r = "" \/ byte_of c <> 48) -> parse_go (String c r) 0 = Some n -> format_uint n = String c r.
Proof.
  intros Hc H. cbn in H. destruct (is_digit (byte_of c)) eqn:Ec; [|done].
  change (0 * 10) with 0 in H. rewrite Z.add_0_l in H. assert (Hd : 0 <= byte_of c - 48 < 10) by (unfold is_digit in Ec; bsimp; lia).
  destruct (decide (byte_of c = 48)) as [E0|Hne].
  - destruct Hc as [->|]; [|done]. cbn in H. simplify_eq.
    rewrite format_uint_digit by lia. by rewrite digit_char_of.
  - apply parse_go_canonical in H; [|lia].
    rewrite H, format_uint_digit by lia. by rewrite digit_char_of.
Qed.

Lemma format_go_length f n acc :
  (String.length (format_go f n acc) <= f + String.length acc)%nat.
Proof.
  revert n acc. induction f as [|f IH]; intros n acc; cbn [format_go]; [lia|].
  destruct (n <? 10); cbn [String.length]; [lia|].
  etransitivity; [apply IH|]. cbn [String.length]. lia.
Qed.

(** The number of digits. *)
Lemma format_uint_length n k : 0 <= n < 10 ^ Z.of_nat k -> (0 < k)%nat -> slen (format_uint n) <= Z.of_nat k.
Proof.
  intros Hn Hk. unfold slen, format_uint. rewrite (format_go_fuel _ k); [|split; [lia|apply log2_fuel; lia]|lia..].
  pose proof (format_go_length k n ""). cbn [String.length] in *. lia.
Qed.

Lemma format_uint_no_zero n :
  0 <= n -> slen (format_uint n) <= 1 \/ String.get 0 (format_uint n) <> Some "0"%char.
Proof.
  intros Hn. destruct (Z.lt_ge_cases n 10).
  { left. rewrite format_uint_digit by lia. done. }
  right. revert Hn H. induction n as [n IH] using (well_founded_induction (Z.lt_wf 0)). intros Hn H.
  pose proof (Z.div_mod n 10 ltac:(lia)) as Hd. pose proof (Z.mod_pos_bound n 10 ltac:(lia)) as Hm.
  rewrite Hd, (Z.mul_comm 10), format_uint_snoc by lia.
  assert (Hq : String.get 0 (format_uint (n / 10)) <> Some "0"%char).
  { destruct (Z.lt_ge_cases (n / 10) 10) as [Hlt|Hge]; [|apply IH; lia].
    rewrite format_uint_digit by lia. cbn. intros [= E].
    apply (f_equal byte_of) in E. rewrite byte_of_digit in E by lia. change (byte_of "0"%char) with 48 in E. lia. }
  destruct (format_uint (n / 10)) as [|c r] eqn:E; [|done].
  unfold format_uint in E. by apply format_go_acc_ne in E.
Qed.

Lemma format_uint_first n : 0 <= n -> exists c r, format_uint n = String c r /\ is_digit (byte_of c) = true.
Proof.
  intros Hn. pose proof (parse_go_format n Hn) as Hp. destruct (format_uint n) as [|c r] eqn:E.
  - unfold format_uint in E. by apply format_go_acc_ne in E.
  - cbn in Hp. destruct (is_digit (byte_of c)) eqn:Ec; [|done]. by eexists _, _.
Qed.

Lemma parse_int_format n bits :
  0 <= n < 2 ^ (bits - 1) -> bits <= 64 -> parse_int (format_int n) bits = Some n.
Proof.
  intros Hn Hb. unfold format_int. rewrite (proj2 (Z.ltb_ge n 0)) by lia.
  assert (H64 : 2 ^ (bits - 1) <= 2 ^ 64) by (apply Z.pow_le_mono_r; lia).
  pose proof (parse_format_uint n 64 ltac:(lia)) as Hp.
  destruct (format_uint_first n ltac:(lia)) as (c & r & E & Hc). rewrite E in Hp |- *.
  unfold parse_int. rewrite Hp, (proj2 (Z.ltb_lt _ _)) by lia.
  by destruct c as [[] [] [] [] [] [] [] []]; vm_compute in Hc.
Qed.

(** ** The order of texts *)

#[export] Instance leb_total_instance : Total (fun a b => Is_true (String.leb a b)).
Proof. intros a b. destruct (String.leb_total a b) as [->| ->]; [left|right]; done. Qed.
#[export] Instance leb_antisym_instance : AntiSymm (=) (fun a b => Is_true (String.leb a b)).
Proof. intros a b H1%Is_true_true H2%Is_true_true. by apply String.leb_antisym. Qed.
Lemma ascii_compare_lt a b : Ascii.compare a b = Lt <-> (N_of_ascii a < N_of_ascii b)%N.
Proof. apply N.compare_lt_iff. Qed.
Lemma string_compare_trans c : forall a b, String.compare a b <> Gt -> String.compare b c <> Gt -> String.compare a c <> Gt.
Proof.
  induction c as [|z c IH]; intros [|x a] [|y b]; cbn; try done.
  destruct (Ascii.compare x y) eqn:Exy; [| |done]; destruct (Ascii.compare y z) eqn:Eyz; try done.
  - apply Ascii.compare_eq_iff in Exy, Eyz. subst. assert (Ascii.compare z z = Eq) as -> by apply N.compare_refl. apply IH.
  - apply Ascii.compare_eq_iff in Exy. subst. by rewrite Eyz.
  - apply Ascii.compare_eq_iff in Eyz. subst. by rewrite Exy.
  - apply ascii_compare_lt in Exy, Eyz. assert (Ascii.compare x z = Lt) as -> by (apply ascii_compare_lt; by eapply N.lt_trans). done.
Qed.
Lemma leb_compare a b : String.leb a b = true <-> String.compare a b <> Gt.
Proof. unfold String.leb. destruct (String.compare a b); split; done. Qed.
#[export] Instance leb_trans_instance : Transitive (fun a b => Is_true (String.leb a b)).
Proof.
  intros a b c H1%Is_true_true%leb_compare H2%Is_true_true%leb_compare. apply Is_true_true, leb_compare.
  by eapply string_compare_trans.
Qed.

(** Sorting by a text that determines the element, twice, is sorting once. *)
Section By_text.
Context {A : Type} (f : A -> string).
Let R (a b : A) : Prop := Is_true (String.leb (f a) (f b)).
#[local] Instance by_text_total : Total R.
Proof. intros a b. apply (leb_total_instance (f a) (f b)). Qed.
#[local] Instance by_text_trans : Transitive R.
Proof. intros a b c. apply (leb_trans_instance (f a) (f b) (f c)). Qed.
Lemma sorted_once l : (forall a b, a ∈ l -> b ∈ l -> f a = f b -> a = b) ->
  merge_sort (fun a b => Is_true (String.leb (f a) (f b))) (merge_sort (fun a b => Is_true (String.leb (f a) (f b))) l)
  = merge_sort (fun a b => Is_true (String.leb (f a) (f b))) l.
Proof.
  intros Hinj. apply (Sorted_unique_strong R).
  - intros x1 x2 H1 H2 L1 L2. rewrite !merge_sort_Permutation in H1. rewrite !merge_sort_Permutation in H2.
    apply Hinj; [done|done|]. by apply (leb_antisym_instance (f x1) (f x2)).
  - apply (Sorted_merge_sort R).
  - apply (Sorted_merge_sort R).
  - apply merge_sort_Permutation.
Qed.
End By_text.
