(* ===== verification/Sha256.v ===== *)
(** * SHA-256 and HMAC-SHA-256

    The standard library's [crypto/sha256] and [crypto/hmac], executable, with
    32-bit words as [Z] and their wrap-around written out. [candidate.Digest],
    the envelope seal, the request fingerprint and the commit markers use
    them; theorems that compare digests state which collision they exclude. *)

From S2P Require Import Prelude GoStrings.

Definition w32 (x : Z) : Z := Z.land x 0xffffffff.
Definition add32 (x y : Z) : Z := w32 (x + y).
Definition not32 (x : Z) : Z := Z.lxor x 0xffffffff.
Definition rotr (n x : Z) : Z := Z.lor (Z.shiftr x n) (w32 (Z.shiftl x (32 - n))).

Definition ch (x y z : Z) : Z := Z.lxor (Z.land x y) (Z.land (not32 x) z).
Definition maj (x y z : Z) : Z := Z.lxor (Z.lxor (Z.land x y) (Z.land x z)) (Z.land y z).
Definition bsig0 (x : Z) : Z := Z.lxor (Z.lxor (rotr 2 x) (rotr 13 x)) (rotr 22 x).
Definition bsig1 (x : Z) : Z := Z.lxor (Z.lxor (rotr 6 x) (rotr 11 x)) (rotr 25 x).
Definition ssig0 (x : Z) : Z := Z.lxor (Z.lxor (rotr 7 x) (rotr 18 x)) (Z.shiftr x 3).
Definition ssig1 (x : Z) : Z := Z.lxor (Z.lxor (rotr 17 x) (rotr 19 x)) (Z.shiftr x 10).

(** The standard derives its constants: the first 32 bits of the fractional
    parts of the cube roots of the first 64 primes, and of the square roots of
    the first eight. *)
Definition is_prime (n : Z) : bool :=
  forallb (fun d => negb (n mod d =? 0)) (Z.of_nat <$> seq 2 (Z.to_nat (Z.sqrt n) - 1)).
Definition primes (below : nat) : list Z := List.filter is_prime (Z.of_nat <$> seq 2 (below - 2)).
(** The greatest [r] below [2 ^ bits] with [r ^ 3 <= n]. *)
Fixpoint cube_root (bits : nat) (r n : Z) : Z :=
  match bits with
  | O => r
  | S k => let s := r + 2 ^ Z.of_nat k in cube_root k (if s * s * s <=? n then s else r) n
  end.
Definition round_constants : list Z :=
  Eval vm_compute in (fun p => w32 (cube_root 36 0 (Z.shiftl p 96))) <$> primes 312.
Definition initial_hash : list Z :=
  Eval vm_compute in (fun p => w32 (Z.sqrt (Z.shiftl p 64))) <$> primes 20.

(** The message schedule, newest word first. *)
Fixpoint extend (n : nat) (w : list Z) : list Z :=
  match n with
  | O => w
  | S k =>
    extend k (add32 (add32 (ssig1 (nth 1 w 0)) (nth 6 w 0))
                    (add32 (ssig0 (nth 14 w 0)) (nth 15 w 0)) :: w)
  end.
Definition schedule (block : list Z) : list Z := rev' (extend 48 (rev' block)).

Definition round (st : list Z) (kw : Z * Z) : list Z :=
  match st with
  | [a; b; c; d; e; f; g; h] =>
    let t1 := add32 (add32 (add32 h (bsig1 e)) (ch e f g)) (add32 (fst kw) (snd kw)) in
    let t2 := add32 (bsig0 a) (maj a b c) in
    [add32 t1 t2; a; b; c; add32 d t1; e; f; g]
  | _ => st
  end.

Definition compress (h : list Z) (block : list Z) : list Z :=
  zip_with add32 h (fold_left round (zip round_constants (schedule block)) h).

Fixpoint words (l : list Z) : list Z :=
  match l with
  | a :: b :: c :: d :: r => ((a * 256 + b) * 256 + c) * 256 + d :: words r
  | _ => []
  end.
Definition word_bytes (w : Z) : list Z :=
  [Z.shiftr w 24 mod 256; Z.shiftr w 16 mod 256; Z.shiftr w 8 mod 256; w mod 256].

Definition pad (l : list Z) : list Z :=
  let n := Z.of_nat (List.length l) in
  let zeros := Z.to_nat ((55 - n) mod 64) in
  let bits := 8 * n in
  l ++ 128 :: replicate zeros 0 ++ word_bytes (Z.shiftr bits 32) ++ word_bytes (w32 bits).

Fixpoint hash_blocks (fuel : nat) (w : list Z) (h : list Z) : list Z :=
  match fuel, w with
  | O, _ | _, [] => h
  | S f, _ => hash_blocks f (drop 16 w) (compress h (take 16 w))
  end.

Definition sha256 (msg : list Z) : list Z :=
  let w := words (pad msg) in
  concat (word_bytes <$> hash_blocks (List.length w) w initial_hash).

(** [hmac.New(sha256.New, key)] *)
Definition hmac_sha256 (key msg : list Z) : list Z :=
  let k := if (64 <? List.length key)%nat then sha256 key else key in
  let k64 := k ++ replicate (64 - List.length k) 0 in
  sha256 ((Z.lxor 0x5c <$> k64) ++ sha256 ((Z.lxor 0x36 <$> k64) ++ msg)).

Definition sha256_hex (s : string) : string := hex_encode (sha256 (bytes s)).

(** The published test vectors. *)
Example sha256_abc :
  sha256_hex "abc" = "ba7816bf8f01cfea414140de5dae2223b00361a396177a9cb410ff61f20015ad".
Proof. vm_compute. reflexivity. Qed.
Example sha256_empty :
  sha256_hex "" = "e3b0c44298fc1c149afbf4c8996fb92427ae41e4649b934ca495991b7852b855".
Proof. vm_compute. reflexivity. Qed.
Example sha256_two_blocks :
  sha256_hex "abcdbcdecdefdefgefghfghighijhijkijkljklmklmnlmnomnopnopq"
  = "248d6a61d20638b8e5c026930c3e6039a33ce45964ff2167f6ecedd419db06c1".
Proof. vm_compute. reflexivity. Qed.
Example hmac_rfc4231_2 :
  hex_encode (hmac_sha256 (bytes "Jefe") (bytes "what do ya want for nothing?"))
  = "5bdcc146bf60754e6a042426089575c75a003f089d2739839dec58b964ec3843".
Proof. vm_compute. reflexivity. Qed.

(** ** The length of a digest *)

Lemma compress_length h block :
  List.length h = 8%nat -> List.length (compress h block) = 8%nat.
Proof.
  intros H. unfold compress. rewrite length_zip_with.
  assert (Hr : forall l st, List.length st = 8%nat -> List.length (fold_left round l st) = 8%nat).
  { induction l as [|kw l IH]; intros st Hst; [done|]. cbn. apply IH.
    do 9 (destruct st as [|? st]; try discriminate Hst). done. }
  rewrite Hr by done. lia.
Qed.

Lemma hash_blocks_length fuel w h :
  List.length h = 8%nat -> List.length (hash_blocks fuel w h) = 8%nat.
Proof.
  revert w h. induction fuel as [|f IH]; intros w h H; [done|].
  cbn. destruct w; [done|]. apply IH. by apply compress_length.
Qed.

Lemma concat_word_bytes_length l :
  List.length (concat (word_bytes <$> l)) = (4 * List.length l)%nat.
Proof. induction l as [|w l IH]; [done|]. cbn -[Nat.mul]. cbn in IH. lia. Qed.

Lemma sha256_length msg : List.length (sha256 msg) = 32%nat.
Proof. unfold sha256. rewrite concat_word_bytes_length, hash_blocks_length; done. Qed.

Lemma hex_encode_length l : String.length (hex_encode l) = (2 * List.length l)%nat.
Proof. induction l as [|b l IH]; [done|]. cbn -[Nat.mul]. lia. Qed.

Lemma sha256_hex_length s : String.length (sha256_hex s) = 64%nat.
Proof. unfold sha256_hex. by rewrite hex_encode_length, sha256_length. Qed.
