(* ===== verification/GoJson.v ===== *)
(** * encoding/json as the source uses it

    [marshal] prints what [json.Marshal] prints for a value whose struct
    fields have been laid out in order ([omitempty] fields already dropped)
    and whose maps have been sorted by key. Printing is uniquely readable:
    values of the plain fragment (ASCII strings, no raw literals) that print
    alike are equal. [JLit] is a [json.Number]: its text is printed as it is,
    and [json.Marshal] refuses it when it is not a number literal
    ([GoJsonParse.encodable]). *)

From S2P Require Import Prelude GoStrings Sha256.

Inductive json : Type :=
  | JNull
  | JBool (b : bool)
  | JNum (n : Z)
  | JLit (text : string)
  | JStr (s : string)
  | JArr (l : list json)
  | JObj (l : list (string * json)).

Definition hex4 (r : Z) : string :=
  String (hex_digit (r / 4096 mod 16)) (String (hex_digit (r / 256 mod 16))
    (String (hex_digit (r / 16 mod 16)) (String (hex_digit (r mod 16)) ""))).

(** One rune of a string literal, with HTML escaping on (the default). *)
Definition escape_rune (ch : Z * string) : string :=
  let '(r, raw) := ch in
  if (r =? 34) || (r =? 92) then String "\" raw
  else if r =? 8 then "\b"
  else if r =? 12 then "\f"
  else if r =? 10 then "\n"
  else if r =? 13 then "\r"
  else if r =? 9 then "\t"
  else if (r <? 32) || (r =? 60) || (r =? 62) || (r =? 38) then String "\" (String "u" (hex4 r))
  else if (r =? rune_error) && (String.length raw =? 1)%nat then "\ufffd"
  else if (r =? 8232) || (r =? 8233) then String "\" (String "u" (hex4 r))
  else raw.

Definition quote_char : ascii := char_of 34.
Definition escape (s : string) : string :=
  foldr (fun ch acc => (escape_rune ch ++ acc)%string) "" (chunks s).
Definition quote (s : string) : string :=
  String quote_char (escape s ++ String quote_char "").

Fixpoint marshal (j : json) : string :=
  match j with
  | JNull => "null"
  | JBool true => "true"
  | JBool false => "false"
  | JNum n => format_int n
  | JLit text => text
  | JStr s => quote s
  | JArr l =>
    String "[" ((fix items (l : list json) : string :=
      match l with
      | [] => "]"
      | [x] => marshal x ++ "]"
      | x :: r => marshal x ++ String "," (items r)
      end%string) l)
  | JObj l =>
    String "{" ((fix fields (l : list (string * json)) : string :=
      match l with
      | [] => "}"
      | [(k, x)] => quote k ++ String ":" (marshal x ++ "}")
      | (k, x) :: r => quote k ++ String ":" (marshal x ++ String "," (fields r))
      end%string) l)
  end.

(** Pointers, nil slices and maps. *)
Definition jopt {A} (f : A -> json) (o : option A) : json :=
  match o with Some a => f a | None => JNull end.
Definition jlist {A} (f : A -> json) (l : list A) : json := JArr (f <$> l).
Definition jslice {A} (f : A -> json) (o : option (list A)) : json := jopt (jlist f) o.

Definition string_leb (a b : string) : bool := String.leb a b.
Fixpoint insert_key {A} (kv : string * A) (l : list (string * A)) : list (string * A) :=
  match l with
  | [] => [kv]
  | h :: t => if string_leb (fst kv) (fst h) then kv :: l else h :: insert_key kv t
  end.
Definition sort_keys {A} (l : list (string * A)) : list (string * A) := foldr insert_key [] l.
Definition jmap {A} (f : A -> json) (m : gmap string A) : json :=
  JObj (prod_map id f <$> sort_keys (map_to_list m)).

(** A struct field with [omitempty]. *)
Definition omit_nil {A} (k : string) (f : A -> json) (o : option A) : list (string * json) :=
  match o with Some a => [(k, f a)] | None => [] end.

(** [candidate.Digest]: the hash of the encoded value. *)
Definition digest_json (j : json) : string := sha256_hex (marshal j).

(** ** Unique reading *)

Definition ascii_string (s : string) : Prop := Forall (fun b => b < 128) (bytes s).

Fixpoint plain (j : json) : Prop :=
  match j with
  | JStr s => ascii_string s
  | JLit _ => False
  | JArr l => (fix all l := match l with [] => True | x :: r => plain x /\ all r end) l
  | JObj l =>
    (fix all (l : list (string * json)) :=
       match l with [] => True | (k, x) :: r => ascii_string k /\ plain x /\ all r end) l
  | _ => True
  end.

(** What may follow a number. *)
Definition delimited (r : string) : Prop :=
  match r with EmptyString => True | String c _ => is_digit (byte_of c) = false end.

Definition items : list json -> string :=
  fix items l :=
    match l with
    | [] => "]"
    | [x] => (marshal x ++ "]")%string
    | x :: r => (marshal x ++ String "," (items r))%string
    end.
Definition members : list (string * json) -> string :=
  fix members l :=
    match l with
    | [] => "}"
    | [(k, x)] => (quote k ++ String ":" (marshal x ++ "}"))%string
    | (k, x) :: r => (quote k ++ String ":" (marshal x ++ String "," (members r)))%string
    end.

(** The inverse of [escape_rune] on ASCII. *)
Definition unescape (s : string) : option (ascii * string) :=
  match s with
  | String "\" (String "u" (String _ (String _ (String h (String l r))))) =>
    match hex_value (byte_of h), hex_value (byte_of l) with
    | Some a, Some b => Some (char_of (a * 16 + b), r)
    | _, _ => None
    end
  | String "\" (String "b" r) => Some (char_of 8, r)
  | String "\" (String "f" r) => Some (char_of 12, r)
  | String "\" (String "n" r) => Some (char_of 10, r)
  | String "\" (String "r" r) => Some (char_of 13, r)
  | String "\" (String "t" r) => Some (char_of 9, r)
  | String "\" (String c r) => Some (c, r)
  | String c r => Some (c, r)
  | EmptyString => None
  end%char.

Lemma unescape_rune c X :
  byte_of c < 128 -> unescape (escape_rune (byte_of c, String c "") ++ X) = Some (c, X).
Proof. intros H. by destruct c as [[] [] [] [] [] [] [] []]; try reflexivity; vm_compute in H. Qed.

Lemma escape_rune_first c X r :
  byte_of c < 128 -> (escape_rune (byte_of c, String c "") ++ X)%string <> String quote_char r.
Proof. intros H. by destruct c as [[] [] [] [] [] [] [] []]; try discriminate; vm_compute in H. Qed.

Lemma escape_cons c s :
  byte_of c < 128 -> escape (String c s) = (escape_rune (byte_of c, String c "") ++ escape s)%string.
Proof.
  intros H. unfold escape. cbn [chunks]. by rewrite (proj2 (Z.ltb_lt _ _)) by done.
Qed.

Lemma escape_inj s1 : forall s2 r1 r2,
  ascii_string s1 -> ascii_string s2 ->
  (escape s1 ++ String quote_char r1 = escape s2 ++ String quote_char r2)%string ->
  s1 = s2 /\ r1 = r2.
Proof.
  unfold ascii_string.
  induction s1 as [|c s1 IH]; intros [|d s2] r1 r2 H1 H2 E; cbn [bytes] in *.
  - cbn in E. split; congruence.
  - inversion H2; subst. rewrite escape_cons, string_app_assoc in E by done.
    symmetry in E. by apply escape_rune_first in E.
  - inversion H1; subst. rewrite escape_cons, string_app_assoc in E by done.
    by apply escape_rune_first in E.
  - inversion H1; inversion H2; subst. rewrite !escape_cons, !string_app_assoc in E by done.
    pose proof (f_equal unescape E) as U. rewrite !unescape_rune in U by done.
    injection U as -> E'. destruct (IH s2 r1 r2) as [-> ->]; done.
Qed.

Lemma quote_inj s1 s2 r1 r2 :
  ascii_string s1 -> ascii_string s2 ->
  (quote s1 ++ r1 = quote s2 ++ r2)%string -> s1 = s2 /\ r1 = r2.
Proof.
  unfold quote. cbn. rewrite !string_app_assoc. intros H1 H2 [= E].
  by apply escape_inj in E.
Qed.

(** Numbers. *)
Lemma format_go_digits fuel n acc :
  0 <= n -> all_digits acc = true -> all_digits (format_go fuel n acc) = true.
Proof.
  revert n acc. induction fuel as [|f IH]; intros n acc Hn Ha; [done|]. cbn [format_go].
  assert (Hd : all_digits (String (digit_char (n mod 10)) acc) = true).
  { cbn. rewrite is_digit_digit, Ha; [done|]. by apply Z.mod_pos_bound. }
  destruct (n <? 10); [done|]. apply IH; [|done]. by apply Z.div_pos.
Qed.

Lemma format_uint_digits n : 0 <= n -> all_digits (format_uint n) = true.
Proof. intros H. by apply format_go_digits. Qed.

Lemma digits_span a : forall b r1 r2,
  all_digits a = true -> all_digits b = true -> delimited r1 -> delimited r2 ->
  (a ++ r1 = b ++ r2)%string -> a = b /\ r1 = r2.
Proof.
  induction a as [|c a IH]; intros [|d b] r1 r2 Ha Hb D1 D2 E; cbn in *; bsimp.
  - done.
  - subst r1. cbn in D1. destruct Hb. congruence.
  - subst r2. cbn in D2. destruct Ha. congruence.
  - injection E as -> E. destruct (IH b r1 r2) as [-> ->]; tauto.
Qed.

Lemma format_int_first n : exists c r, format_int n = String c r /\
  (if n <? 0 then c = "-"%char else is_digit (byte_of c) = true).
Proof.
  unfold format_int. destruct (Z.ltb_spec n 0); [by eexists _, _|].
  pose proof (format_uint_digits n ltac:(lia)) as Hd.
  destruct (format_uint n) as [|c r] eqn:E.
  - by apply format_go_acc_ne in E.
  - cbn in Hd. bsimp. destruct Hd. by eexists _, _.
Qed.

Lemma format_int_read n m r1 r2 :
  delimited r1 -> delimited r2 ->
  (format_int n ++ r1 = format_int m ++ r2)%string -> n = m /\ r1 = r2.
Proof.
  intros D1 D2 E.
  destruct (format_int_first n) as (c & a & En & Hc), (format_int_first m) as (d & b & Em & Hd).
  assert (c = d) as <- by (rewrite En, Em in E; cbn in E; congruence).
  unfold format_int in *.
  destruct (Z.ltb_spec n 0) as [Hn|Hn], (Z.ltb_spec m 0) as [Hm|Hm];
    subst; try discriminate.
  - cbn in E. injection E as E. apply digits_span in E as [E ->];
      [|apply format_uint_digits; lia..|done|done].
    split; [|done]. apply (format_uint_inj (- n) (- m)) in E; lia.
  - apply digits_span in E as [E ->]; [|apply format_uint_digits; lia..|done|done].
    split; [|done]. apply format_uint_inj in E; lia.
Qed.

(** The first byte tells the kind of value. *)
Definition kind_of (c : ascii) : Z :=
  let b := byte_of c in
  if b =? 110 then 0 else if b =? 116 then 1 else if b =? 102 then 2
  else if b =? 34 then 3 else if b =? 91 then 4 else if b =? 123 then 5
  else if is_digit b || (b =? 45) then 6 else 7.
Definition kind (j : json) : Z :=
  match j with
  | JNull => 0 | JBool true => 1 | JBool false => 2 | JStr _ => 3
  | JArr _ => 4 | JObj _ => 5 | JNum _ | JLit _ => 6
  end.

Lemma kind_of_digit c : is_digit (byte_of c) = true -> kind_of c = 6.
Proof. intros H. by destruct c as [[] [] [] [] [] [] [] []]; vm_compute in H. Qed.

Lemma marshal_first j : plain j -> exists c r, marshal j = String c r /\ kind_of c = kind j.
Proof.
  destruct j as [|[]|n|t|s|l|l]; try done; intros _; try (eexists _, _; split; reflexivity).
  destruct (format_int_first n) as (c & r & E & H). exists c, r. split; [done|].
  destruct (n <? 0); [by subst c|]. by apply kind_of_digit.
Qed.

Section json_ind.
Context (P : json -> Prop).
Context (HNull : P JNull) (HBool : forall b, P (JBool b)) (HNum : forall n, P (JNum n)) (HLit : forall t, P (JLit t))
  (HStr : forall s, P (JStr s)) (HArr : forall l, Forall P l -> P (JArr l))
  (HObj : forall l, Forall (fun kv => P (snd kv)) l -> P (JObj l)).

Fixpoint json_nested_ind (j : json) : P j :=
  match j with
  | JNull => HNull | JBool b => HBool b | JNum n => HNum n | JLit t => HLit t | JStr s => HStr s
  | JArr l => HArr l ((fix go l : Forall P l :=
      match l with
      | [] => List.Forall_nil _
      | x :: r => List.Forall_cons _ x r (json_nested_ind x) (go r)
      end) l)
  | JObj l => HObj l ((fix go l : Forall (fun kv => P (snd kv)) l :=
      match l with
      | [] => List.Forall_nil _
      | kv :: r => List.Forall_cons _ kv r (json_nested_ind (snd kv)) (go r)
      end) l)
  end.
End json_ind.

(** Printing is uniquely readable in every context that can follow a value. *)
Definition readable (j1 : json) : Prop := forall j2 r1 r2,
  plain j1 -> plain j2 -> delimited r1 -> delimited r2 ->
  (marshal j1 ++ r1 = marshal j2 ++ r2)%string -> j1 = j2 /\ r1 = r2.

Lemma marshal_not_kind7 j c r X : plain j -> kind_of c = 7 -> (marshal j ++ X)%string <> String c r.
Proof.
  intros Hp Hc E. destruct (marshal_first j Hp) as (d & s & Ed & Hd). rewrite Ed in E.
  cbn in E. injection E as -> _. rewrite Hc in Hd. by destruct j as [|[]| | | | |].
Qed.

Lemma same_kind j1 j2 r1 r2 : plain j1 -> plain j2 -> (marshal j1 ++ r1 = marshal j2 ++ r2)%string -> kind j1 = kind j2.
Proof.
  intros P1 P2 E. destruct (marshal_first j1 P1) as (c & s & E1 & <-), (marshal_first j2 P2) as (d & t & E2 & <-).
  rewrite E1, E2 in E. cbn in E. congruence.
Qed.

Lemma items_cons x l : items (x :: l) =
  (marshal x ++ match l with [] => "]" | _ => String "," (items l) end)%string.
Proof. by destruct l. Qed.

Lemma members_cons k x l : members ((k, x) :: l) =
  (quote k ++ String ":" (marshal x ++ match l with [] => "}" | _ => String "," (members l) end))%string.
Proof. by destruct l as [|[? ?] ?]. Qed.

Lemma items_inj l1 : forall l2 r1 r2,
  Forall readable l1 -> plain (JArr l1) -> plain (JArr l2) ->
  (items l1 ++ r1 = items l2 ++ r2)%string -> l1 = l2 /\ r1 = r2.
Proof.
  induction l1 as [|x l1 IH]; intros [|y l2] r1 r2 HF P1 P2 E.
  - cbn in E. split; congruence.
  - rewrite items_cons, string_app_assoc in E. symmetry in E. by apply (marshal_not_kind7 _ _ _ _ (proj1 P2)) in E.
  - rewrite items_cons, string_app_assoc in E. by apply (marshal_not_kind7 _ _ _ _ (proj1 P1)) in E.
  - inversion HF as [|? ? Hx HF']; subst. destruct P1 as [Px P1], P2 as [Py P2].
    rewrite !items_cons, !string_app_assoc in E.
    apply Hx in E as [<- E]; [|done|done|by destruct l1|by destruct l2].
    destruct l1 as [|x' l1], l2 as [|y' l2]; try discriminate E.
    + cbn in E. split; congruence.
    + cbn [String.append] in E. injection E as E.
      destruct (IH (y' :: l2) r1 r2) as [<- <-]; done.
Qed.

Lemma members_inj l1 : forall l2 r1 r2,
  Forall (fun kv => readable (snd kv)) l1 -> plain (JObj l1) -> plain (JObj l2) ->
  (members l1 ++ r1 = members l2 ++ r2)%string -> l1 = l2 /\ r1 = r2.
Proof.
  induction l1 as [|[k x] l1 IH]; intros [|[h y] l2] r1 r2 HF P1 P2 E.
  - cbn in E. split; congruence.
  - rewrite members_cons in E. discriminate E.
  - rewrite members_cons in E. discriminate E.
  - inversion HF as [|? ? Hx HF']; subst. destruct P1 as (Pk & Px & P1), P2 as (Ph & Py & P2).
    rewrite !members_cons, !string_app_assoc in E.
    apply quote_inj in E as [<- E]; [|done|done].
    cbn [String.append] in E. injection E as E. rewrite !string_app_assoc in E.
    apply Hx in E as [<- E]; [|done|done|by destruct l1|by destruct l2].
    destruct l1 as [|x' l1], l2 as [|y' l2]; try discriminate E.
    + cbn in E. injection E as ->. done.
    + cbn [String.append] in E. injection E as E.
      destruct (IH (y' :: l2) r1 r2) as [<- <-]; done.
Qed.

Lemma marshal_readable j : readable j.
Proof.
  induction j as [|b|n|t|s|l IH|l IH] using json_nested_ind; intros j2 r1 r2 P1 P2 D1 D2 E;
    pose proof (same_kind _ _ _ _ P1 P2 E) as K; destruct j2 as [|b2|n2|t2|s2|l2|l2]; try done;
    try (destruct b); try (destruct b2); try discriminate K.
  - cbn in E. split; congruence.
  - cbn in E. split; congruence.
  - cbn in E. split; congruence.
  - apply format_int_read in E as [<- <-]; done.
  - apply quote_inj in E as [<- <-]; done.
  - change (String "[" (items l ++ r1) = String "[" (items l2 ++ r2)) in E. injection E as E.
    by apply items_inj in E as [<- <-].
  - change (String "{" (members l ++ r1) = String "{" (members l2 ++ r2)) in E. injection E as E.
    by apply members_inj in E as [<- <-].
Qed.

(** [json.Marshal] is injective on plain values. *)
Theorem marshal_inj j1 j2 : plain j1 -> plain j2 -> marshal j1 = marshal j2 -> j1 = j2.
Proof.
  intros P1 P2 E. destruct (marshal_readable j1 j2 "" "") as [H _]; try done.
  by rewrite !string_app_nil_r.
Qed.

(** Equal digests of plain values mean equal values, unless these two very
    encodings collide under SHA-256. *)
Definition no_collision (j1 j2 : json) : Prop :=
  sha256_hex (marshal j1) = sha256_hex (marshal j2) -> marshal j1 = marshal j2.

Lemma digest_json_eq j1 j2 :
  plain j1 -> plain j2 -> no_collision j1 j2 ->
  (digest_json j1 = digest_json j2 <-> j1 = j2).
Proof.
  intros P1 P2 HC. split; [|by intros ->].
  intros E. apply marshal_inj; [done..|]. by apply HC.
Qed.
