(* ===== verification/GoJsonParse.v ===== *)
(** * Reading JSON: encoding/json's decoder with [UseNumber]

    [parse_json] reads the first value of a text as [json.Decoder.Decode]
    does; number literals stay text. Fuel is twice the length of the text plus
    two: a value and an item each consume a byte. *)

From S2P Require Import Prelude GoStrings.

Inductive value : Type :=
  | VNull
  | VBool (b : bool)
  | VNumber (text : string)
  | VString (s : string)
  | VArray (l : list value)
  | VObject (l : list (string * value)).

Definition is_json_space (c : ascii) : bool :=
  let b := byte_of c in (b =? 32) || (b =? 9) || (b =? 10) || (b =? 13).
Fixpoint skip_space (s : string) : string :=
  match s with String c r => if is_json_space c then skip_space r else s | EmptyString => s end.

Definition utf8_encode (r : Z) : string :=
  if r <? 128 then String (char_of r) ""
  else if r <? 2048 then String (char_of (192 + r / 64)) (String (char_of (128 + r mod 64)) "")
  else if r <? 65536 then
    String (char_of (224 + r / 4096)) (String (char_of (128 + r / 64 mod 64)) (String (char_of (128 + r mod 64)) ""))
  else String (char_of (240 + r / 262144)) (String (char_of (128 + r / 4096 mod 64))
         (String (char_of (128 + r / 64 mod 64)) (String (char_of (128 + r mod 64)) ""))).

(** Invalid UTF-8 becomes U+FFFD. *)
Definition coerce_utf8 (s : string) : string :=
  foldr (fun (ch : Z * string) acc => ((if ((fst ch =? rune_error)%Z) && (String.length (snd ch) =? 1)%nat
                         then utf8_encode rune_error else snd ch) ++ acc)%string) "" (chunks s).

Definition hex4_value (a b c d : ascii) : option Z :=
  match hex_value (byte_of a), hex_value (byte_of b), hex_value (byte_of c), hex_value (byte_of d) with
  | Some w, Some x, Some y, Some z => Some (((w * 16 + x) * 16 + y) * 16 + z)
  | _, _, _, _ => None
  end.
Definition high_surrogate (r : Z) : bool := (55296 <=? r) && (r <? 56320).
Definition low_surrogate (r : Z) : bool := (56320 <=? r) && (r <? 57344).
Definition unescape_char (c : ascii) : option ascii :=
  let b := byte_of c in
  if (b =? 34) || (b =? 92) || (b =? 47) then Some c
  else if b =? 98 then Some (char_of 8) else if b =? 102 then Some (char_of 12)
  else if b =? 110 then Some (char_of 10) else if b =? 114 then Some (char_of 13)
  else if b =? 116 then Some (char_of 9) else None.

(** The characters up to the closing quote, and what follows it. *)
Fixpoint string_body (s : string) : option (string * string) :=
  match s with
  | EmptyString => None
  | String c r =>
    if byte_of c =? 34 then Some (EmptyString, r)
    else if byte_of c <? 32 then None
    else if byte_of c =? 92 then
      match r with
      | String e t =>
        if byte_of e =? 117 then
          match t with
          | String a (String b (String x (String y t))) =>
            match hex4_value a b x y with
            | None => None
            | Some hi =>
              let plain := option_map (fun '(v, w) =>
                ((utf8_encode (if high_surrogate hi || low_surrogate hi then rune_error else hi) ++ v)%string, w))
                (string_body t) in
              if high_surrogate hi then
                match t with
                | String s (String u (String a (String b (String x (String y t))))) =>
                  if (byte_of s =? 92) && (byte_of u =? 117) then
                    match hex4_value a b x y with
                    | Some lo =>
                      if low_surrogate lo then
                        option_map (fun '(v, w) =>
                          ((utf8_encode (65536 + (hi - 55296) * 1024 + (lo - 56320)) ++ v)%string, w)) (string_body t)
                      else plain
                    | None => None
                    end
                  else plain
                | _ => plain
                end
              else plain
            end
          | _ => None
          end
        else match unescape_char e with
             | Some d => option_map (fun '(v, w) => (String d v, w)) (string_body t)
             | None => None
             end
      | EmptyString => None
      end
    else option_map (fun '(v, w) => (String c v, w)) (string_body r)
  end.

Fixpoint take_digits (s : string) : string * string :=
  match s with
  | String c r => if is_digit (byte_of c) then let '(x, y) := take_digits r in (String c x, y) else (EmptyString, s)
  | EmptyString => (EmptyString, EmptyString)
  end.
(** The integer part: a leading zero stands alone. *)
Definition take_whole (s : string) : string * string :=
  match s with String "0" r => ("0", r) | _ => take_digits s end.
(** A number literal: sign, integer, fraction, exponent. *)
Definition number_literal (s : string) : option (string * string) :=
  let '(sign, s) := match s with String "-" r => ("-", r) | _ => (EmptyString, s) end in
  let '(whole, s) := take_whole s in
  if whole =s "" then None
  else
    let frac := match s with
                | String "." r => let '(x, y) := take_digits r in
                                  if x =s "" then None else Some (String "." x, y)
                | _ => Some (EmptyString, s)
                end in
    match frac with
    | None => None
    | Some (frac, s) =>
      let exp (e : ascii) (r : string) :=
        let '(sg, r) := match r with
                        | String "+" t => ("+", t) | String "-" t => ("-", t) | _ => (EmptyString, r)
                        end in
        let '(x, y) := take_digits r in
        if x =s "" then None else Some (String e (sg ++ x)%string, y) in
      match match s with
            | String "e" r => exp "e"%char r
            | String "E" r => exp "E"%char r
            | _ => Some (EmptyString, s)
            end with
      | None => None
      | Some (ex, rest) => Some ((sign ++ whole ++ frac ++ ex)%string, rest)
      end
    end.

Fixpoint strip (p s : string) : option string :=
  match p, s with
  | EmptyString, _ => Some s
  | String a p', String b s' => if Ascii.eqb a b then strip p' s' else None
  | _, EmptyString => None
  end.

(** Strings, literals and numbers. *)
Definition scalar (s : string) : option (value * string) :=
  match s with
  | String c r =>
    let b := byte_of c in
    if b =? 34 then option_map (fun '(x, y) => (VString (coerce_utf8 x), y)) (string_body r)
    else if b =? 110 then option_map (fun t => (VNull, t)) (strip "null" s)
    else if b =? 116 then option_map (fun t => (VBool true, t)) (strip "true" s)
    else if b =? 102 then option_map (fun t => (VBool false, t)) (strip "false" s)
    else option_map (fun '(x, y) => (VNumber x, y)) (number_literal s)
  | EmptyString => None
  end.

Fixpoint read_value (fuel : nat) (s : string) : option (value * string) :=
  match fuel with
  | O => None
  | S f =>
    match skip_space s with
    | String c r =>
      let b := byte_of c in
      if b =? 91 then
        match skip_space r with
        | String "]" t => Some (VArray [], t)
        | _ => option_map (fun '(l, t) => (VArray l, t)) (read_items f r)
        end
      else if b =? 123 then
        match skip_space r with
        | String "}" t => Some (VObject [], t)
        | _ => option_map (fun '(l, t) => (VObject l, t)) (read_members f r)
        end
      else scalar (String c r)
    | EmptyString => None
    end
  end
with read_items (fuel : nat) (s : string) : option (list value * string) :=
  match fuel with
  | O => None
  | S f =>
    match read_value f s with
    | None => None
    | Some (v, t) =>
      match skip_space t with
      | String "," u => option_map (fun '(l, w) => (v :: l, w)) (read_items f u)
      | String "]" u => Some ([v], u)
      | _ => None
      end
    end
  end
with read_members (fuel : nat) (s : string) : option (list (string * value) * string) :=
  match fuel with
  | O => None
  | S f =>
    match skip_space s with
    | String c r =>
      if byte_of c =? 34 then
        match string_body r with
        | None => None
        | Some (k, t) =>
          match skip_space t with
          | String ":" u =>
            match read_value f u with
            | None => None
            | Some (v, w) =>
              match skip_space w with
              | String "," x => option_map (fun '(l, y) => ((coerce_utf8 k, v) :: l, y)) (read_members f x)
              | String "}" x => Some ([(coerce_utf8 k, v)], x)
              | _ => None
              end
            end
          | _ => None
          end
        end
      else None
    | EmptyString => None
    end
  end.

(** Twice the length: an item costs one step for itself and one for its value. *)
Definition json_fuel (s : string) : nat := (2 * String.length s + 2)%nat.
Definition parse_json (s : string) : option value := fst <$> read_value (json_fuel s) s.
(** [json.Valid]: one value and nothing but space after it. *)
Definition json_valid (s : string) : bool :=
  match read_value (json_fuel s) s with Some (_, r) => skip_space r =s "" | None => false end.

(** Decoding into a map: the last of several equal keys wins. *)
Definition last_wins {A} (l : list (string * A)) : gmap string A := list_to_map (reverse l).

Example parse_json_sample :
  let q := String (char_of 34) "" in
  parse_json ("{" ++ q ++ "a" ++ q ++ ": [1.0e2, -3, " ++ q ++ "x\u00e9" ++ q ++ "], " ++ q ++ "b" ++ q ++ ": {}} ")
  = Some (VObject [("a", VArray [VNumber "1.0e2"; VNumber "-3"; VString ("x" ++ utf8_encode 233)]); ("b", VObject [])]).
Proof. vm_compute. reflexivity. Qed.

(** ** UTF-8 *)

Definition code_point (r : Z) : Prop := 0 <= r < 1114112 /\ ~ (55296 <= r < 57344).

(** The four lengths of an encoding, each read back as its code point. *)
Ltac chunk_tac :=
  cbn [String.append chunks]; repeat (match goal with
    | H : ?b = true |- context [if ?b then _ else _] => rewrite H
    | H : ?b = false |- context [if ?b then _ else _] => rewrite H
    end; cbv iota).
Lemma chunk1 a x : byte_of a < 128 -> chunks (String a x) = (byte_of a, String a "") :: chunks x.
Proof. intros H. cbn [chunks]. by rewrite (proj2 (Z.ltb_lt _ _) H). Qed.
Lemma chunk2 a b x : (byte_of a <? 128) = false -> (194 <=? byte_of a) && (byte_of a <=? 223) = true -> cont (byte_of b) = true ->
  chunks (String a (String b x)) = ((byte_of a - 192) * 64 + (byte_of b - 128), String a (String b "")) :: chunks x.
Proof. intros E1 E2 Eb. by chunk_tac. Qed.
Definition second3 (a b : Z) : bool := ((if a =? 224 then 160 else 128) <=? b) && (b <=? (if a =? 237 then 159 else 191)).
Lemma chunk3 a b c x : (byte_of a <? 128) = false -> (194 <=? byte_of a) && (byte_of a <=? 223) = false ->
  (224 <=? byte_of a) && (byte_of a <=? 239) = true -> second3 (byte_of a) (byte_of b) && cont (byte_of c) = true ->
  chunks (String a (String b (String c x)))
    = (((byte_of a - 224) * 64 + (byte_of b - 128)) * 64 + (byte_of c - 128), String a (String b (String c ""))) :: chunks x.
Proof. unfold second3. intros E1 E2 E3 Eb. by chunk_tac. Qed.
Definition second4 (a b : Z) : bool := ((if a =? 240 then 144 else 128) <=? b) && (b <=? (if a =? 244 then 143 else 191)).
Lemma chunk4 a b c d x : (byte_of a <? 128) = false -> (194 <=? byte_of a) && (byte_of a <=? 223) = false ->
  (224 <=? byte_of a) && (byte_of a <=? 239) = false -> (240 <=? byte_of a) && (byte_of a <=? 244) = true ->
  second4 (byte_of a) (byte_of b) && cont (byte_of c) && cont (byte_of d) = true ->
  chunks (String a (String b (String c (String d x))))
    = ((((byte_of a - 240) * 64 + (byte_of b - 128)) * 64 + (byte_of c - 128)) * 64 + (byte_of d - 128),
       String a (String b (String c (String d "")))) :: chunks x.
Proof. unfold second4. intros E1 E2 E3 E4 Eb. by chunk_tac. Qed.

Lemma split64 q m : 0 <= m < 64 -> (q * 64 + m) / 64 = q /\ (q * 64 + m) mod 64 = m.
Proof. intros H. split; [rewrite Z.div_add_l by lia; rewrite (Z.div_small m) by done; lia|]. rewrite Z.add_comm, Z.mod_add by lia. by apply Z.mod_small. Qed.
Lemma char_byte c z : z = byte_of c -> char_of z = c.
Proof. intros ->. apply char_of_byte. Qed.
Lemma encode2 a b : 194 <= byte_of a <= 223 -> 128 <= byte_of b <= 191 ->
  utf8_encode ((byte_of a - 192) * 64 + (byte_of b - 128)) = String a (String b "").
Proof.
  intros Ha Hb. unfold utf8_encode. destruct (split64 (byte_of a - 192) (byte_of b - 128)) as [-> ->]; [lia|].
  rewrite (proj2 (Z.ltb_ge _ 128)), (proj2 (Z.ltb_lt _ 2048)) by lia. by rewrite !(char_byte a), !(char_byte b) by lia.
Qed.
Lemma encode3 a b c : 224 <= byte_of a <= 239 -> 128 <= byte_of b <= 191 -> 128 <= byte_of c <= 191 -> (byte_of a = 224 -> 160 <= byte_of b) ->
  utf8_encode (((byte_of a - 224) * 64 + (byte_of b - 128)) * 64 + (byte_of c - 128)) = String a (String b (String c "")).
Proof.
  intros Ha Hb Hc H0. unfold utf8_encode.
  destruct (split64 ((byte_of a - 224) * 64 + (byte_of b - 128)) (byte_of c - 128)) as [E1 ->]; [lia|].
  destruct (split64 (byte_of a - 224) (byte_of b - 128)) as [E2 E3]; [lia|].
  change 4096 with (64 * 64). rewrite <- Z.div_div, E1, E2, E3 by lia.
  rewrite (proj2 (Z.ltb_ge _ 128)), (proj2 (Z.ltb_ge _ 2048)), (proj2 (Z.ltb_lt _ 65536)) by lia.
  by rewrite (char_byte a), (char_byte b), (char_byte c) by lia.
Qed.
Lemma encode4 a b c d : 240 <= byte_of a <= 244 -> 128 <= byte_of b <= 191 -> 128 <= byte_of c <= 191 -> 128 <= byte_of d <= 191 ->
  (byte_of a = 240 -> 144 <= byte_of b) ->
  utf8_encode ((((byte_of a - 240) * 64 + (byte_of b - 128)) * 64 + (byte_of c - 128)) * 64 + (byte_of d - 128))
    = String a (String b (String c (String d ""))).
Proof.
  intros Ha Hb Hc Hd H0. unfold utf8_encode.
  destruct (split64 (((byte_of a - 240) * 64 + (byte_of b - 128)) * 64 + (byte_of c - 128)) (byte_of d - 128)) as [E1 ->]; [lia|].
  destruct (split64 ((byte_of a - 240) * 64 + (byte_of b - 128)) (byte_of c - 128)) as [E2 E3]; [lia|].
  destruct (split64 (byte_of a - 240) (byte_of b - 128)) as [E4 E5]; [lia|].
  change 262144 with (64 * (64 * 64)). change 4096 with (64 * 64). rewrite <- !Z.div_div, E1, E2, E3, E4, E5 by lia.
  rewrite (proj2 (Z.ltb_ge _ 128)), (proj2 (Z.ltb_ge _ 2048)), (proj2 (Z.ltb_ge _ 65536)) by lia.
  by rewrite (char_byte a), (char_byte b), (char_byte c), (char_byte d) by lia.
Qed.

(** A valid text starts with the encoding of a code point. *)
Lemma starts_with r s x : code_point r -> utf8_encode r = s -> utf8_valid (s ++ x) = true ->
  (forall x, chunks (s ++ x) = (r, s) :: chunks x) -> exists r' x', (s ++ x)%string = (utf8_encode r' ++ x')%string /\ code_point r' /\ utf8_valid x' = true.
Proof.
  intros Hr E Hv Hc. exists r, x. split_and!; [by rewrite E|done|]. unfold utf8_valid in *. rewrite Hc in Hv.
  cbn [forallb] in Hv. by apply andb_true_iff in Hv as [_ Hv].
Qed.
Ltac drop_bad H := cbn [forallb fst snd String.length Nat.eqb] in H; by rewrite andb_false_r in H.
Lemma utf8_step s : utf8_valid s = true -> s = "" \/ exists r x, s = (utf8_encode r ++ x)%string /\ code_point r /\ utf8_valid x = true.
Proof.
  destruct s as [|a s1]; [by left|]. intros Hv. right. pose proof Hv as H. unfold utf8_valid in H. cbn [chunks] in H.
  pose proof (byte_of_range a) as Ra.
  destruct (byte_of a <? 128) eqn:E1.
  { apply (starts_with (byte_of a) (String a "") s1); [|by unfold utf8_encode; rewrite E1, char_of_byte|done|].
    - apply Z.ltb_lt in E1. split; lia.
    - intros x. apply chunk1. by apply Z.ltb_lt. }
  destruct ((194 <=? byte_of a) && (byte_of a <=? 223)) eqn:E2.
  { destruct s1 as [|b s2]; [done|]. destruct (cont (byte_of b)) eqn:Eb; [|done].
    eapply (starts_with _ (String a (String b "")) s2); [|apply encode2|done|intros x; by apply chunk2];
      unfold cont, code_point in *; bsimp; lia. }
  destruct ((224 <=? byte_of a) && (byte_of a <=? 239)) eqn:E3.
  { destruct s1 as [|b [|c s3]]; [done|done|].
    change (_ && _ && cont (byte_of c)) with (second3 (byte_of a) (byte_of b) && cont (byte_of c)) in H.
    destruct (second3 (byte_of a) (byte_of b) && cont (byte_of c)) eqn:Eb; [|done].
    assert (128 <= byte_of b <= 191 /\ 128 <= byte_of c <= 191 /\ (byte_of a = 224 -> 160 <= byte_of b) /\ (byte_of a = 237 -> byte_of b <= 159))
      as (Hb & Hc & H0 & H1).
    { unfold second3, cont in Eb. destruct (Z.eqb_spec (byte_of a) 224), (Z.eqb_spec (byte_of a) 237); bsimp; lia. }
    eapply (starts_with _ (String a (String b (String c ""))) s3); [|apply encode3|done|intros x; by apply chunk3];
      unfold code_point in *; bsimp; try lia; done. }
  destruct ((240 <=? byte_of a) && (byte_of a <=? 244)) eqn:E4; [|done].
  destruct s1 as [|b [|c [|d s4]]]; [done|done|done|].
  change (_ && _ && cont (byte_of c) && cont (byte_of d)) with (second4 (byte_of a) (byte_of b) && cont (byte_of c) && cont (byte_of d)) in H.
  destruct (second4 (byte_of a) (byte_of b) && cont (byte_of c) && cont (byte_of d)) eqn:Eb; [|done].
  assert (128 <= byte_of b <= 191 /\ 128 <= byte_of c <= 191 /\ 128 <= byte_of d <= 191 /\ (byte_of a = 240 -> 144 <= byte_of b) /\
          (byte_of a = 244 -> byte_of b <= 143)) as (Hb & Hc & Hd & H0 & H1).
  { unfold second4, cont in Eb. destruct (Z.eqb_spec (byte_of a) 240), (Z.eqb_spec (byte_of a) 244); bsimp; lia. }
  eapply (starts_with _ (String a (String b (String c (String d "")))) s4); [|apply encode4|done|intros x; by apply chunk4];
    unfold code_point in *; bsimp; try lia; done.
Qed.

Lemma encode_chunk r x : code_point r -> chunks (utf8_encode r ++ x) = (r, utf8_encode r) :: chunks x.
Proof.
  intros [Hr Hs]. unfold utf8_encode. destruct (Z.ltb_spec r 128) as [Hl|Hl].
  { cbn [String.append]. rewrite chunk1 by (rewrite byte_of_char; lia). by rewrite byte_of_char by lia. }
  pose proof (Z.mod_pos_bound r 64 ltac:(lia)).
  pose proof (Z.mod_pos_bound (r / 64) 64 ltac:(lia)).
  pose proof (Z.mod_pos_bound (r / 4096) 64 ltac:(lia)).
  assert (r / 64 = 64 * (r / 4096) + r / 64 mod 64) by (rewrite (Z.div_mod (r / 64) 64) at 1 by lia; by rewrite Z.div_div by lia).
  assert (r / 4096 = 64 * (r / 262144) + r / 4096 mod 64) by (rewrite (Z.div_mod (r / 4096) 64) at 1 by lia; by rewrite Z.div_div by lia).
  pose proof (Z.div_mod r 64 ltac:(lia)).
  generalize dependent (r / 262144). generalize dependent (r / 4096 mod 64). generalize dependent (r / 4096).
  generalize dependent (r / 64 mod 64). generalize dependent (r / 64). generalize dependent (r mod 64). intros.
  destruct (Z.ltb_spec r 2048); [|destruct (Z.ltb_spec r 65536)]; cbn [String.append].
  - rewrite chunk2 by (unfold cont; rewrite ?byte_of_char by lia; repeat case_match; bsimp; lia).
    rewrite !byte_of_char by lia. do 2 f_equal. lia.
  - rewrite chunk3 by (unfold second3, cont; rewrite ?byte_of_char by lia; repeat case_match; bsimp; lia).
    rewrite !byte_of_char by lia. do 2 f_equal. lia.
  - rewrite chunk4 by (unfold second4, cont; rewrite ?byte_of_char by lia; repeat case_match; bsimp; lia).
    rewrite !byte_of_char by lia. do 2 f_equal. lia.
Qed.
Lemma encode_length r : (1 <= String.length (utf8_encode r))%nat /\ (128 <= r -> (2 <= String.length (utf8_encode r))%nat).
Proof.
  unfold utf8_encode. destruct (Z.ltb_spec r 128); [|destruct (r <? 2048); [|destruct (r <? 65536)]]; cbn; lia.
Qed.
Lemma encode_valid r x : code_point r -> utf8_valid (utf8_encode r ++ x) = utf8_valid x.
Proof.
  intros H. unfold utf8_valid. rewrite encode_chunk by done. cbn [forallb fst snd].
  destruct (Z.eqb_spec r rune_error) as [E|E]; [|done]. pose proof (proj2 (encode_length r)) as Hl.
  destruct (Nat.eqb_spec (String.length (utf8_encode r)) 1) as [E1|E1]; [|done].
  unfold rune_error in E. lia.
Qed.
(** One ASCII byte, or bytes above ASCII only. *)
Lemma encode_bytes r : code_point r -> (r < 128 /\ utf8_encode r = String (char_of r) "") \/
  128 <= r /\ Forall (fun b => 128 <= b) (bytes (utf8_encode r)).
Proof.
  intros [Hr _]. unfold utf8_encode. destruct (Z.ltb_spec r 128) as [Hl|Hl]; [by left|right]. split; [done|].
  pose proof (Z.mod_pos_bound r 64 ltac:(lia)).
  pose proof (Z.mod_pos_bound (r / 64) 64 ltac:(lia)).
  pose proof (Z.mod_pos_bound (r / 4096) 64 ltac:(lia)).
  assert (r / 64 = 64 * (r / 4096) + r / 64 mod 64) by (rewrite (Z.div_mod (r / 64) 64) at 1 by lia; by rewrite Z.div_div by lia).
  assert (r / 4096 = 64 * (r / 262144) + r / 4096 mod 64) by (rewrite (Z.div_mod (r / 4096) 64) at 1 by lia; by rewrite Z.div_div by lia).
  pose proof (Z.div_mod r 64 ltac:(lia)).
  generalize dependent (r / 262144). generalize dependent (r / 4096 mod 64). generalize dependent (r / 4096).
  generalize dependent (r / 64 mod 64). generalize dependent (r / 64). generalize dependent (r mod 64). intros.
  destruct (Z.ltb_spec r 2048); [|destruct (Z.ltb_spec r 65536)]; cbn [bytes]; rewrite !byte_of_char by lia; repeat constructor; lia.
Qed.
Lemma valid_ascii c s : byte_of c < 128 -> utf8_valid (String c s) = utf8_valid s.
Proof.
  intros H. unfold utf8_valid. rewrite chunk1 by done. cbn [forallb fst snd String.length].
  replace (byte_of c =? rune_error) with false; [done|]. symmetry. apply Z.eqb_neq. unfold rune_error. lia.
Qed.

Lemma hex_value_range b n : hex_value b = Some n -> 0 <= n < 16.
Proof. unfold hex_value, is_digit. repeat case_match; intros [= <-]; bsimp; lia. Qed.
Lemma hex4_range a b c d n : hex4_value a b c d = Some n -> 0 <= n < 65536.
Proof.
  unfold hex4_value. destruct (hex_value (byte_of a)) eqn:Ea; [|done]. destruct (hex_value (byte_of b)) eqn:Eb; [|done].
  destruct (hex_value (byte_of c)) eqn:Ec; [|done]. destruct (hex_value (byte_of d)) eqn:Ed; [|done]. intros [= <-].
  apply hex_value_range in Ea, Eb, Ec, Ed. lia.
Qed.
(** What is valid is not coerced. *)
Lemma coerce_bounded n : forall s, (String.length s < n)%nat -> utf8_valid s = true -> coerce_utf8 s = s.
Proof.
  induction n as [|n IH]; intros s Hn Hv; [lia|].
  destruct (utf8_step s Hv) as [->|(r & x & -> & Hr & Hx)]; [done|]. rewrite string_length_app in Hn.
  pose proof (encode_length r). unfold coerce_utf8 in *. rewrite encode_chunk by done. cbn [foldr fst snd].
  rewrite IH by (lia || done). destruct (Z.eqb_spec r rune_error) as [E|]; [|done]. unfold rune_error in E.
  destruct (Nat.eqb_spec (String.length (utf8_encode r)) 1); [lia|done].
Qed.
Lemma coerce_valid s : utf8_valid s = true -> coerce_utf8 s = s.
Proof. apply (coerce_bounded (S (String.length s))). lia. Qed.
