(* ===== verification/IpcJson.v ===== *)
(** * internal/ipc: the JSON boundary of the two daemons (json.go)

    What web and manager accept from each other. [Token] and [More] are the
    token reader of [encoding/json]; [ParseObject] bounds what it reads and
    refuses what a typed decoder could understand in two ways. *)

From S2P Require Import Prelude GoStrings GoJsonParse.

Module IpcJson.

(** ** json.Decoder, token by token *)

Inductive tstate := TopValue | ArrayStart | ArrayValue | ArrayComma | ObjectStart | ObjectKey | ObjectColon | ObjectValue | ObjectComma.
#[export] Instance tstate_eq_dec : EqDecision tstate.
Proof. solve_decision. Defined.
(** The unread text, [tokenState] and [tokenStack]. *)
Record decoder := mkDecoder { d_rest : string; d_state : tstate; d_stack : list tstate }.
Inductive token := Open (object : bool) | Close (object : bool) | Scalar (v : value).
Inductive reading := EndOfFile | BadToken | Read (t : token) (d : decoder).

Definition value_allowed (st : tstate) : bool :=
  match st with TopValue | ArrayStart | ArrayValue | ObjectValue => true | _ => false end.
Definition value_end (st : tstate) : tstate :=
  match st with ArrayStart | ArrayValue => ArrayComma | ObjectValue => ObjectComma | _ => st end.
(** A closing bracket returns to the state that its opening left. *)
Definition close (object : bool) (r : string) (stack : list tstate) : reading :=
  match stack with st :: stack => Read (Close object) (mkDecoder r (value_end st) stack) | [] => BadToken end.
Definition bracket (c : ascii) : bool := existsb (Ascii.eqb c) ["["; "]"; "{"; "}"; ":"; ","]%char.

(** [Decoder.Token]: the loop passes over one colon or comma, never two. *)
Fixpoint token_loop (fuel : nat) (s : string) (st : tstate) (stack : list tstate) : reading :=
  match fuel with
  | O => BadToken
  | S f =>
    match skip_space s with
    | EmptyString => EndOfFile
    | String "[" r => if value_allowed st then Read (Open false) (mkDecoder r ArrayStart (st :: stack)) else BadToken
    | String "]" r => match st with ArrayStart | ArrayComma => close false r stack | _ => BadToken end
    | String "{" r => if value_allowed st then Read (Open true) (mkDecoder r ObjectStart (st :: stack)) else BadToken
    | String "}" r => match st with ObjectStart | ObjectComma => close true r stack | _ => BadToken end
    | String ":" r => match st with ObjectColon => token_loop f r ObjectValue stack | _ => BadToken end
    | String "," r =>
      match st with
      | ArrayComma => token_loop f r ArrayValue stack
      | ObjectComma => token_loop f r ObjectKey stack
      | _ => BadToken
      end
    | String c r =>
      match st with
      | ObjectStart | ObjectKey =>
        if byte_of c =? 34 then
          match scalar (String c r) with Some (v, t) => Read (Scalar v) (mkDecoder t ObjectColon stack) | None => BadToken end
        else BadToken
      | _ =>
        if value_allowed st then
          match scalar (String c r) with Some (v, t) => Read (Scalar v) (mkDecoder t (value_end st) stack) | None => BadToken end
        else BadToken
      end
    end
  end.
Definition Token (d : decoder) : reading := token_loop 2 (d_rest d) (d_state d) (d_stack d).
(** [Decoder.More] *)
Definition More (d : decoder) : bool :=
  match skip_space (d_rest d) with String c _ => negb (Ascii.eqb c "]" || Ascii.eqb c "}") | EmptyString => false end.

(** ** protocol.go: the limits *)

(** go: internal/ipc/protocol.go:17-17 MaxBodyBytes *)
Definition MaxBodyBytes : Z := 2 ^ 20.
(** go: internal/ipc/protocol.go:21-21 MaxJSONDepth *)
Definition MaxJSONDepth : Z := 16.
(** go: internal/ipc/protocol.go:22-22 MaxJSONArray *)
Definition MaxJSONArray : Z := 4096.
(** go: internal/ipc/protocol.go:23-23 MaxJSONTokens *)
Definition MaxJSONTokens : Z := 16384.
(** go: internal/ipc/protocol.go:24-24 MaxJSONString *)
Definition MaxJSONString : Z := 64 * 1024.

(** ** Reading a value *)

(** [Exhausted] is no outcome of the code: the fuel ran out. *)
Inductive outcome (A : Type) := Done (a : A) | Invalid | Exhausted.
Arguments Done {A} a.
Arguments Invalid {A}.
Arguments Exhausted {A}.

(** [_, exists := result[name]] *)
Definition has_key (l : list (string * value)) (name : string) : bool := existsb (fun kv => fst kv =s name) l.

(** The map [result] is the list of its entries in the order of the text: the
    keys are distinct.
    go: internal/ipc/json.go readValue *)
Fixpoint readValue (fuel : nat) (d : decoder) (depth count : Z) : outcome (value * decoder * Z) :=
  match fuel with
  | O => Exhausted
  | S f =>
    let count := count + 1 in
    if (MaxJSONDepth <? depth) || (MaxJSONTokens <? count) then Invalid
    else match Token d with
         | Read (Open true) d => read_object f d depth count []
         | Read (Open false) d => read_array f d depth count []
         | Read (Scalar (VString s)) d => if MaxJSONString <? slen s then Invalid else Done (VString s, d, count)
         | Read (Scalar v) d => Done (v, d, count)
         | _ => Invalid
         end
  end
with read_object (fuel : nat) (d : decoder) (depth count : Z) (result : list (string * value)) : outcome (value * decoder * Z) :=
  match fuel with
  | O => Exhausted
  | S f =>
    if More d then
      match Token d with
      | Read (Scalar (VString name)) d =>
        if (MaxJSONString <? slen name) || (MaxJSONArray <=? len result) then Invalid
        else if has_key result name then Invalid
        else match readValue f d (depth + 1) count with
             | Done (child, d, count) => read_object f d depth count (result ++ [(name, child)])
             | Invalid => Invalid
             | Exhausted => Exhausted
             end
      | _ => Invalid
      end
    else match Token d with Read (Close true) d => Done (VObject result, d, count) | _ => Invalid end
  end
with read_array (fuel : nat) (d : decoder) (depth count : Z) (result : list value) : outcome (value * decoder * Z) :=
  match fuel with
  | O => Exhausted
  | S f =>
    if More d then
      if MaxJSONArray <=? len result then Invalid
      else match readValue f d (depth + 1) count with
           | Done (child, d, count) => read_array f d depth count (result ++ [child])
           | Invalid => Invalid
           | Exhausted => Exhausted
           end
    else match Token d with Read (Close false) d => Done (VArray result, d, count) | _ => Invalid end
  end.

(** ** Escapes *)

(** Outside of a string only quotes matter; inside, [\u] must name a code
    point, a surrogate half only as the first of a pair.
    go: internal/ipc/json.go validEscapes *)
Fixpoint escapes_from (quoted : bool) (data : string) : bool :=
  match data with
  | EmptyString => negb quoted
  | String c r =>
    if byte_of c =? 34 then escapes_from (negb quoted) r
    else if negb quoted || negb (byte_of c =? 92) then escapes_from quoted r
    else match r with
         | EmptyString => false
         | String e t =>
           if negb (byte_of e =? 117) then escapes_from quoted t
           else match t with
                | String a (String b (String x (String y t))) =>
                  match hex4_value a b x y with
                  | None => false
                  | Some code =>
                    if low_surrogate code then false
                    else if negb (high_surrogate code) then escapes_from quoted t
                    else match t with
                         | String s (String u (String a (String b (String x (String y t))))) =>
                           if negb (byte_of s =? 92) || negb (byte_of u =? 117) then false
                           else match hex4_value a b x y with
                                | Some low => if low_surrogate low then escapes_from quoted t else false
                                | None => false
                                end
                         | _ => false
                         end
                  end
                | _ => false
                end
         end
  end.
Definition validEscapes (data : string) : bool := escapes_from false data.

(** ** The boundary *)

(** Two steps for each value that may be read, and one more. *)
Definition object_fuel : nat := Z.to_nat (2 * MaxJSONTokens + 1).
(** go: internal/ipc/json.go ParseObject *)
Definition ParseObject (data : string) : outcome (list (string * value)) :=
  if (MaxBodyBytes <? slen data) || negb (utf8_valid data) || negb (validEscapes data) then Invalid
  else match readValue object_fuel (mkDecoder data TopValue []) 0 0 with
       | Exhausted => Exhausted
       | Invalid => Invalid
       | Done (v, d, _) =>
         match v, Token d with
         | VObject fields, EndOfFile => Done fields
         | _, _ => Invalid
         end
       end.

(** ** Exact field names *)

(** What [reflect] tells of a type; a struct field has its [json] tag, its
    name and whether it is exported. *)
Inductive gotype :=
  | RawMessage
  | Pointer (t : gotype)
  | MapOf (string_keys : bool) (elem : gotype)
  | StructOf (fields : list (bool * string * string * gotype))
  | SliceOf (elem : gotype)
  | OtherType.
Fixpoint deref (t : gotype) : gotype := match t with Pointer t => deref t | _ => t end.
Definition json_name (tag name : string) : string :=
  match split_on "," tag with
  | first :: _ => if first =s "" then name else first
  | [] => name
  end.
(** The map [fields]: of equal names the last counts. *)
Fixpoint field_type (fields : list (bool * string * string * gotype)) (key : string) : option gotype :=
  match fields with
  | [] => None
  | (exported, tag, name, t) :: rest =>
    match field_type rest key with
    | Some t => Some t
    | None =>
      if negb exported || (hd "" (split_on "," tag) =s "-") then None
      else if json_name tag name =s key then Some t else None
    end
  end.
(** go: internal/ipc/json.go exactFields *)
Fixpoint exactFields (v : value) (t : gotype) : bool :=
  match deref t, v with
  | RawMessage, _ => true
  | _, VNull => true
  | MapOf string_keys elem, VObject l => string_keys && forallb (fun kv => exactFields (snd kv) elem) l
  | StructOf fields, VObject l =>
    forallb (fun kv => match field_type fields (fst kv) with Some t => exactFields (snd kv) t | None => false end) l
  | _, VObject _ => false
  | SliceOf elem, VArray l => forallb (fun x => exactFields x elem) l
  | _, VArray _ => false
  | _, _ => true
  end.

(** [decode] is what [json.Decoder.Decode] makes of the text for the target's
    type, unknown fields refused.
    go: internal/ipc/json.go DecodeStrict *)
Definition DecodeStrict {A} (decode : string -> option A) (t : gotype) (data : string) : option A :=
  match ParseObject data with
  | Done fields => if exactFields (VObject fields) t then decode data else None
  | _ => None
  end.

End IpcJson.
