(* ===== verification/IpcGrammar.v ===== *)
(** * What ParseObject accepts

    The grammar of JSON as an inductive relation, independent of states,
    stacks and counters; [readValue] reads exactly the values of the grammar
    that fit the limits, and never runs out of fuel. *)

From S2P Require Import Prelude GoStrings GoJson GoJsonParse IpcJson.
Import IpcJson.

(** ** The grammar *)

(** After the opening bracket, or after an item. *)
Definition separated (first : bool) (s u : string) : Prop := if first then u = s else skip_space s = String "," u.

Section grammar.
Context (lexeme : string -> option (value * string)).
Inductive text_value : string -> value -> string -> Prop :=
  | J_scalar s v t : lexeme (skip_space s) = Some (v, t) -> text_value s v t
  | J_array s r l t : skip_space s = String "[" r -> text_items true r l t -> text_value s (VArray l) t
  | J_object s r l t : skip_space s = String "{" r -> text_members true r l t -> text_value s (VObject l) t
with text_items : bool -> string -> list value -> string -> Prop :=
  | J_items_end first s t : skip_space s = String "]" t -> text_items first s [] t
  | J_item first s u v r l t :
      separated first s u -> text_value u v r -> text_items false r l t -> text_items first s (v :: l) t
with text_members : bool -> string -> list (string * value) -> string -> Prop :=
  | J_members_end first s t : skip_space s = String "}" t -> text_members first s [] t
  | J_member first s u k a b v r l t :
      separated first s u -> lexeme (skip_space u) = Some (VString k, a) -> skip_space a = String ":" b ->
      text_value b v r -> text_members false r l t -> text_members first s ((k, v) :: l) t.
End grammar.

(** ** The limits *)

(** The number of values in a value, itself included. *)
Fixpoint nodes (v : value) : Z :=
  match v with
  | VArray l => 1 + foldr (fun x n => nodes x + n) 0 l
  | VObject l => 1 + foldr (fun kv n => nodes (snd kv) + n) 0 l
  | _ => 1
  end.
(** The limits of a value that starts at a depth. *)
Fixpoint fits (depth : Z) (v : value) : Prop :=
  depth <= MaxJSONDepth /\
  match v with
  | VString s => slen s <= MaxJSONString
  | VArray l => len l <= MaxJSONArray /\ foldr (fun x P => fits (depth + 1) x /\ P) True l
  | VObject l => len l <= MaxJSONArray /\ NoDup l.*1 /\
      foldr (fun kv P => (slen (fst kv) <= MaxJSONString /\ fits (depth + 1) (snd kv)) /\ P) True l
  | _ => True
  end.
Notation items_nodes l := (foldr (fun x n => nodes x + n) 0 l).
Notation members_nodes l := (foldr (fun (kv : string * value) n => nodes (snd kv) + n) 0 l).
Notation items_fit depth l := (foldr (fun x P => fits depth x /\ P) True l).
Notation members_fit depth l := (foldr (fun (kv : string * value) P => (slen (fst kv) <= MaxJSONString /\ fits depth (snd kv)) /\ P) True l).

(** ** Tokens *)

Lemma bracket_inv c : bracket c = true -> c = "["%char \/ c = "]"%char \/ c = "{"%char \/ c = "}"%char \/ c = ":"%char \/ c = ","%char.
Proof.
  unfold bracket. cbn. rewrite !orb_true_iff, !Ascii.eqb_eq. naive_solver.
Qed.
Lemma scalar_bracket c r v t : scalar (String c r) = Some (v, t) -> bracket c = false.
Proof.
  intros H. destruct (bracket c) eqn:E; [|done]. exfalso.
  apply bracket_inv in E as [->|[->|[->|[->|[->| ->]]]]]; by cbn in H.
Qed.
Lemma scalar_key c r k t : scalar (String c r) = Some (VString k, t) -> byte_of c = 34.
Proof.
  cbn. destruct (Z.eqb_spec (byte_of c) 34); [done|]. intros H.
  repeat (case_match; try done); try (by destruct (number_literal _) as [[]|]); by destruct (strip _ _).
Qed.

(** The tokens of a scalar, by the state. *)
Definition scalar_token (st : tstate) (stack : list tstate) (c : ascii) (r : string) : reading :=
  match st with
  | ObjectStart | ObjectKey =>
    if byte_of c =? 34 then
      match scalar (String c r) with Some (v, t) => Read (Scalar v) (mkDecoder t ObjectColon stack) | None => BadToken end
    else BadToken
  | _ =>
    if value_allowed st then
      match scalar (String c r) with Some (v, t) => Read (Scalar v) (mkDecoder t (value_end st) stack) | None => BadToken end
    else BadToken
  end.
Lemma token_scalar f s st stack c r : skip_space s = String c r -> bracket c = false ->
  token_loop (S f) s st stack = scalar_token st stack c r.
Proof. intros E Hb. cbn [token_loop]. rewrite E. by destruct c as [[] [] [] [] [] [] [] []]; vm_compute in Hb. Qed.

Lemma token_end f s st stack t d : token_loop (S f) s st stack = Read t d -> skip_space s <> "".
Proof. intros H E. cbn [token_loop] in H. by rewrite E in H. Qed.
Lemma scalar_token_inv st stack c r t d : value_allowed st = true -> scalar_token st stack c r = Read t d ->
  exists v u, t = Scalar v /\ scalar (String c r) = Some (v, u) /\ d = mkDecoder u (value_end st) stack.
Proof.
  destruct st; try done; intros _; unfold scalar_token; cbn [value_allowed];
    destruct (scalar _) as [[v u]|]; intros [= <- <-]; by exists v, u.
Qed.

Definition opener (object : bool) : ascii := if object then "{" else "[".
(** Where a value may stand, a token opens a container or is a scalar. *)
Lemma value_token_inv f s st stack t d : value_allowed st = true -> token_loop (S f) s st stack = Read t d ->
  match t with
  | Open object => exists r, skip_space s = String (opener object) r /\
      d = mkDecoder r (if object then ObjectStart else ArrayStart) (st :: stack)
  | Scalar v => exists r, scalar (skip_space s) = Some (v, r) /\ d = mkDecoder r (value_end st) stack
  | Close _ => True
  end.
Proof.
  intros Hst H. destruct (skip_space s) as [|c r] eqn:E; [by apply token_end in H|].
  destruct (bracket c) eqn:Eb.
  - cbn [token_loop] in H. rewrite E in H.
    apply bracket_inv in Eb as [->|[->|[->|[->|[->| ->]]]]]; rewrite ?Hst in H; destruct st; try done;
      try (injection H as <- <-; by exists r); unfold close in H; destruct stack; try done; by injection H as <- <-.
  - erewrite token_scalar in H by done. apply scalar_token_inv in H as (v & u & -> & Hu & ->); [|done]. by exists u.
Qed.
Lemma open_token f s st stack object r : value_allowed st = true -> skip_space s = String (opener object) r ->
  token_loop (S f) s st stack = Read (Open object) (mkDecoder r (if object then ObjectStart else ArrayStart) (st :: stack)).
Proof. intros Hst E. cbn [token_loop]. rewrite E. by destruct object; cbn; rewrite Hst. Qed.
Lemma value_scalar f s st stack v r : value_allowed st = true -> scalar (skip_space s) = Some (v, r) ->
  token_loop (S f) s st stack = Read (Scalar v) (mkDecoder r (value_end st) stack).
Proof.
  intros Hst E. destruct (skip_space s) as [|c u] eqn:Es; [done|]. pose proof (scalar_bracket _ _ _ _ E) as Hb.
  erewrite token_scalar by done. by destruct st; try done; unfold scalar_token; cbn [value_allowed]; rewrite E.
Qed.

(** *** Separators *)

(** The state after the separator that a state waits for. *)
Definition passes (st : tstate) (s u : string) (st' : tstate) : Prop :=
  match st with
  | ArrayComma => skip_space s = String "," u /\ st' = ArrayValue
  | ObjectComma => skip_space s = String "," u /\ st' = ObjectKey
  | ObjectColon => skip_space s = String ":" u /\ st' = ObjectValue
  | _ => u = s /\ st' = st
  end.
Lemma token_passes st s u st' stack : passes st s u st' ->
  exists f, Token (mkDecoder s st stack) = token_loop (S f) u st' stack.
Proof.
  unfold Token, passes. cbn [d_rest d_state d_stack].
  destruct st; intros [E ->]; try (subst u; by exists 1%nat); exists 0%nat; cbn [token_loop]; by rewrite E.
Qed.
Lemma token_passes_inv st s stack t d : Token (mkDecoder s st stack) = Read t d ->
  (exists u st' f, passes st s u st' /\ token_loop (S f) u st' stack = Read t d) \/ exists object, t = Close object.
Proof.
  intros H. unfold Token in H. cbn [d_rest d_state d_stack] in H.
  assert (value_allowed st = true \/ st = ObjectStart \/ st = ObjectKey \/ st = ArrayComma \/ st = ObjectComma \/ st = ObjectColon)
    as Hst by (destruct st; auto 6).
  destruct Hst as [Hst|[->|[->|Hst]]]; [left; exists s, st, 1%nat; by destruct st|left; by exists s, ObjectStart, 1%nat|
    left; by exists s, ObjectKey, 1%nat|].
  destruct (skip_space s) as [|c r] eqn:E; [by apply token_end in H|].
  destruct (bracket c) eqn:Eb.
  - pose proof H as H0. cbn [token_loop] in H. rewrite E in H.
    apply bracket_inv in Eb as [->|[->|[->|[->|[->| ->]]]]]; destruct Hst as [->|[->| ->]]; try done;
      try (right; unfold close in H; destruct stack; try done; injection H as <- <-; by eexists);
      left; eexists r, _, 0%nat; (split; [by split|]); exact H.
  - erewrite token_scalar in H by done. by destruct Hst as [->|[->| ->]].
Qed.

(** *** Closing brackets *)

Definition closes (object : bool) (st : tstate) : bool :=
  match st with ArrayStart | ArrayComma => negb object | ObjectStart | ObjectComma => object | _ => false end.
Definition closer (object : bool) : ascii := if object then "}" else "]".
Lemma close_token object s st outer stack r : closes object st = true -> skip_space s = String (closer object) r ->
  Token (mkDecoder s st (outer :: stack)) = Read (Close object) (mkDecoder r (value_end outer) stack).
Proof. unfold Token. cbn [d_rest d_state d_stack token_loop]. intros Hst ->. by destruct object, st. Qed.
Lemma close_loop_inv object f : forall s st stack d, token_loop f s st stack = Read (Close object) d ->
  closes object st = true /\ exists outer below r, stack = outer :: below /\ skip_space s = String (closer object) r /\
    d = mkDecoder r (value_end outer) below.
Proof.
  induction f as [|f IH]; intros s st stack d H; [done|].
  destruct (skip_space s) as [|c r] eqn:E; [by apply token_end in H|]. destruct (bracket c) eqn:Eb.
  - cbn [token_loop] in H. rewrite E in H.
    apply bracket_inv in Eb as [->|[->|[->|[->|[->| ->]]]]]; destruct st; try done; try (by apply IH in H as [? _]);
      unfold close in H; destruct stack as [|outer below]; try done; injection H as <- <-; split; try done; by exists outer, below, r.
  - erewrite token_scalar in H by done. unfold scalar_token in H. destruct st; cbn [value_allowed] in H; repeat case_match; by try discriminate.
Qed.
Lemma close_token_inv object s st outer stack d : Token (mkDecoder s st (outer :: stack)) = Read (Close object) d ->
  closes object st = true /\ exists r, skip_space s = String (closer object) r /\ d = mkDecoder r (value_end outer) stack.
Proof. intros (Hc & o & b & r & [= <- <-] & E & ->)%close_loop_inv. split; [done|]. by exists r. Qed.

Lemma more_true s st stack : More (mkDecoder s st stack) = true <->
  exists c r, skip_space s = String c r /\ c <> "]"%char /\ c <> "}"%char.
Proof.
  unfold More. cbn [d_rest]. destruct (skip_space s) as [|c r]; [split; [done|]; by intros (? & ? & ? & _)|].
  rewrite negb_true_iff, orb_false_iff, !Ascii.eqb_neq. naive_solver.
Qed.

(** ** Termination: the limit on values bounds the steps *)

Definition spent {A} (P : Z -> Prop) (r : outcome (A * decoder * Z)) : Prop :=
  match r with Exhausted => False | Invalid => True | Done (_, _, count) => P count end.
Lemma steps_bounded f :
  (forall d depth c, c <= MaxJSONTokens -> 2 * (MaxJSONTokens - c) + 1 <= Z.of_nat f ->
     spent (fun c' => c < c' <= MaxJSONTokens) (readValue f d depth c)) /\
  (forall d depth c acc, c <= MaxJSONTokens -> 2 * (MaxJSONTokens - c) + 2 <= Z.of_nat f ->
     spent (fun c' => c <= c' <= MaxJSONTokens) (read_object f d depth c acc)) /\
  (forall d depth c acc, c <= MaxJSONTokens -> 2 * (MaxJSONTokens - c) + 2 <= Z.of_nat f ->
     spent (fun c' => c <= c' <= MaxJSONTokens) (read_array f d depth c acc)).
Proof.
  induction f as [|f (IHv & IHo & IHa)]; [split_and!; intros; lia|].
  split_and!; intros d depth c; [|intros acc ..]; intros Hc Hf.
  - cbn [readValue]. destruct (Z.ltb_spec MaxJSONTokens (c + 1)); [by rewrite orb_true_r|].
    destruct (MaxJSONDepth <? depth); [done|]. cbn [orb].
    destruct (Token d) as [| |[[]|o|v] d']; try done.
    + specialize (IHo d' depth (c + 1) []). destruct (read_object _ _ _ _ _) as [[[]]| |]; cbn in *; [..|exfalso]; (done || lia || apply IHo; lia).
    + specialize (IHa d' depth (c + 1) []). destruct (read_array _ _ _ _ _) as [[[]]| |]; cbn in *; [..|exfalso]; (done || lia || apply IHa; lia).
    + destruct v; try case_match; cbn; done || lia.
  - cbn [read_object]. destruct (More d); [|destruct (Token d) as [| |[|[]|] d']; cbn; done || lia].
    destruct (Token d) as [| |[|o|[]] d']; try done. do 2 (case_match; [done|]).
    pose proof (IHv d' (depth + 1) c Hc ltac:(lia)) as Hv.
    destruct (readValue f d' (depth + 1) c) as [[[v d1] c1]| |]; [|done..]. cbn in Hv.
    pose proof (IHo d1 depth c1 (acc ++ [(s, v)]) ltac:(lia) ltac:(lia)) as Ho.
    destruct (read_object _ _ _ _ _) as [[[]]| |]; cbn in *; done || lia.
  - cbn [read_array]. destruct (More d); [|destruct (Token d) as [| |[|[]|] d']; cbn; done || lia].
    case_match; [done|].
    pose proof (IHv d (depth + 1) c Hc ltac:(lia)) as Hv.
    destruct (readValue f d (depth + 1) c) as [[[v d1] c1]| |]; [|done..]. cbn in Hv.
    pose proof (IHa d1 depth c1 (acc ++ [v]) ltac:(lia) ltac:(lia)) as Ho.
    destruct (read_array _ _ _ _ _) as [[[]]| |]; cbn in *; done || lia.
Qed.
Lemma fuel_suffices f d : 2 * MaxJSONTokens + 1 <= Z.of_nat f -> readValue f d 0 0 <> Exhausted.
Proof.
  intros Hf E. pose proof (proj1 (steps_bounded f) d 0 0 ltac:(done) ltac:(lia)) as H. by rewrite E in H.
Qed.

(** ** Soundness *)

Definition takes_value (st : tstate) : bool := value_allowed st || bool_decide (st = ArrayComma) || bool_decide (st = ObjectColon).
Definition is_first (st : tstate) : bool := match st with ArrayStart | ObjectStart => true | _ => false end.
Lemma takes_passes st s u st' : takes_value st = true -> passes st s u st' -> value_allowed st' = true.
Proof. destruct st; try done; by intros _ [_ ->]. Qed.
Notation value_text := (text_value scalar).
Notation items_text := (text_items scalar).
Notation members_text := (text_members scalar).

Lemma nodes_pos : forall v, 1 <= nodes v.
Proof.
  fix IH 1. intros [| | | |l|l]; cbn; try lia.
  - assert (0 <= items_nodes l) as H; [|lia]. induction l as [|v l H]; cbn; [lia|]. specialize (IH v). lia.
  - assert (0 <= members_nodes l) as H; [|lia]. induction l as [|[k v] l H]; cbn; [lia|]. specialize (IH v). lia.
Qed.
Lemma items_nodes_nonneg l : 0 <= items_nodes l.
Proof. induction l as [|v l IH]; cbn; [done|]. pose proof (nodes_pos v). lia. Qed.
Lemma members_nodes_nonneg l : 0 <= members_nodes l.
Proof. induction l as [|[k v] l IH]; cbn; [done|]. pose proof (nodes_pos v). lia. Qed.
Lemma has_key_false l name : has_key l name = false <-> name ∉ l.*1.
Proof.
  unfold has_key. rewrite <- not_true_iff_false, existsb_exists, list_elem_of_fmap. split; intros H E; apply H.
  - destruct E as (kv & -> & Hin). exists kv. split; [by apply list_elem_of_In|apply String.eqb_refl].
  - destruct E as (kv & Hin & Hk). apply String.eqb_eq in Hk. exists kv. split; [done|by apply list_elem_of_In].
Qed.
Lemma len_snoc {A} (l : list A) x : len (l ++ [x]) = len l + 1.
Proof. unfold len. rewrite length_app. cbn. lia. Qed.
Lemma len_app_nonneg {A} (l m : list A) : len l <= len (l ++ m).
Proof. unfold len. rewrite length_app. lia. Qed.

Record value_read (s : string) (st : tstate) (stack : list tstate) (depth c : Z) (v : value) (d : decoder) (c' : Z) : Prop := {
  vr_text : exists u st' t, passes st s u st' /\ value_text u v t /\ d = mkDecoder t (value_end st') stack;
  vr_fits : fits depth v;
  vr_count : c' = c + nodes v;
  vr_limit : c' <= MaxJSONTokens }.

Definition value_sound (f : nat) : Prop := forall s st stack depth c v d c', takes_value st = true ->
  readValue f (mkDecoder s st stack) depth c = Done (v, d, c') -> value_read s st stack depth c v d c'.
Definition object_sound (f : nat) : Prop := forall s st outer stack depth c acc w d c',
  closes true st = true -> len acc <= MaxJSONArray -> NoDup acc.*1 -> c <= MaxJSONTokens ->
  read_object f (mkDecoder s st (outer :: stack)) depth c acc = Done (w, d, c') ->
  exists l t, members_text (is_first st) s l t /\ w = VObject (acc ++ l) /\ d = mkDecoder t (value_end outer) stack /\
    c' = c + members_nodes l /\ members_fit (depth + 1) l /\ len (acc ++ l) <= MaxJSONArray /\ NoDup (acc ++ l).*1 /\ c' <= MaxJSONTokens.
Definition array_sound (f : nat) : Prop := forall s st outer stack depth c acc w d c',
  closes false st = true -> len acc <= MaxJSONArray -> c <= MaxJSONTokens ->
  read_array f (mkDecoder s st (outer :: stack)) depth c acc = Done (w, d, c') ->
  exists l t, items_text (is_first st) s l t /\ w = VArray (acc ++ l) /\ d = mkDecoder t (value_end outer) stack /\
    c' = c + items_nodes l /\ items_fit (depth + 1) l /\ len (acc ++ l) <= MaxJSONArray /\ c' <= MaxJSONTokens.

Lemma scalar_shape s v t : scalar s = Some (v, t) -> match v with VArray _ | VObject _ => False | _ => True end.
Proof.
  destruct s as [|c s]; [done|]. cbn. intros H.
  repeat (case_match; try done);
    (destruct (string_body _) as [[]|]; done) || (destruct (strip _ _); done) || (destruct (number_literal _) as [[]|]; done).
Qed.
Lemma first_separated object st s u st' : closes object st = true -> passes st s u st' -> separated (is_first st) s u.
Proof. destruct object, st; try done; by intros _ [? ->]. Qed.
(** In an object a token is a key or closes it. *)
Lemma key_token_inv s st stack v d : closes true st = true -> Token (mkDecoder s st stack) = Read (Scalar v) d ->
  exists u r, separated (is_first st) s u /\ scalar (skip_space u) = Some (v, r) /\ d = mkDecoder r ObjectColon stack.
Proof.
  intros Hst [(u & st' & g & Hp & Et)|[o [=]]]%token_passes_inv. exists u.
  destruct (skip_space u) as [|ch u'] eqn:Eu; [by apply token_end in Et|].
  assert (st' = ObjectStart \/ st' = ObjectKey) as Hs by (destruct st; try done; destruct Hp as [? ->]; auto).
  destruct (bracket ch) eqn:Eb.
  { cbn [token_loop] in Et. rewrite Eu in Et.
    apply bracket_inv in Eb as [->|[->|[->|[->|[->| ->]]]]]; destruct Hs as [->| ->]; try done;
      unfold close in Et; destruct stack; done. }
  erewrite token_scalar in Et by done.
  assert (exists t, scalar (String ch u') = Some (v, t) /\ d = mkDecoder t ObjectColon stack) as (t & E & ->).
  { destruct Hs as [->| ->]; unfold scalar_token in Et; destruct (byte_of ch =? 34); try done;
      destruct (scalar _) as [[v' t']|]; try done; injection Et as -> <-; by exists t'. }
  exists t. split_and!; [by eapply first_separated|done|done].
Qed.

Lemma value_step f : object_sound f -> array_sound f -> value_sound (S f).
Proof.
  intros IHo IHa s st stack depth c v d c' Hst H. cbn [readValue] in H.
  destruct (Z.ltb_spec MaxJSONDepth depth); [done|]. destruct (Z.ltb_spec MaxJSONTokens (c + 1)); [done|]. cbn [orb] in H.
  destruct (Token _) as [| |t d1] eqn:Et; try done.
  apply token_passes_inv in Et as [(u & st' & g & Hp & Et)|[o ->]]; [|done].
  pose proof (takes_passes _ _ _ _ Hst Hp) as Ha. apply value_token_inv in Et; [|done].
  destruct t as [[]|o|w]; [..|done|]; destruct Et as (r & Er & ->).
  - apply IHo in H as (l & t & Ht & -> & -> & -> & Hf & Hl & Hk & Hm); [|done|done|constructor|lia].
    split; [exists u, st', t; split_and!; [done|by econstructor|done]|by split_and!|cbn; lia|lia].
  - apply IHa in H as (l & t & Ht & -> & -> & -> & Hf & Hl & Hm); [|done|done|lia].
    split; [exists u, st', t; split_and!; [done|by econstructor|done]|by split_and!|cbn; lia|lia].
  - pose proof (scalar_shape _ _ _ Er) as Hw.
    assert (w = v /\ d = mkDecoder r (value_end st') stack /\ c' = c + 1 /\
      match v with VString s => slen s <= MaxJSONString | VArray _ | VObject _ => False | _ => True end) as (-> & -> & -> & Hv).
    { destruct w as [| | |x| |]; try done; try (injection H as <- <- <-; by split_and!).
      destruct (Z.ltb_spec MaxJSONString (slen x)); [done|]. injection H as <- <- <-. by split_and!. }
    split; [exists u, st', r; split_and!; [done|by econstructor|done]|by destruct v|by destruct v|lia].
Qed.
Lemma object_step f : value_sound f -> object_sound f -> object_sound (S f).
Proof.
  intros IHv IHo s st outer stack depth c acc w d c' Hst Hl Hk Hc H. cbn [read_object] in H. destruct (More _) eqn:Em.
  - destruct (Token _) as [| |[|o|[| | |name| |]] d1] eqn:Et; try done.
    destruct (Z.ltb_spec MaxJSONString (slen name)); [done|]. destruct (Z.leb_spec MaxJSONArray (len acc)); [done|]. cbn [orb] in H.
    destruct (has_key acc name) eqn:Ek; [done|]. apply has_key_false in Ek.
    destruct (readValue f d1 (depth + 1) c) as [[[v d2] c2]| |] eqn:Ev; try done.
    apply key_token_inv in Et as (u & r & Hp & Er & ->); [|done].
    apply IHv in Ev as [(b & st2 & t2 & [Hb ->] & Ht2 & ->) Hf Hn Hm]; [|done]. cbn [value_end] in *.
    apply IHo in H as (l & t & Ht & -> & -> & -> & Hf' & Hl' & Hk' & Hm'); [|done|rewrite len_snoc; lia| |lia].
    2: { rewrite fmap_app. cbn. apply NoDup_app. split_and!; [done| |apply NoDup_singleton]. intros x Hx ->%list_elem_of_singleton. done. }
    exists ((name, v) :: l), t. rewrite <- app_assoc in *. split_and!; try done; [by econstructor|cbn; lia].
  - destruct (Token _) as [| |[|[]|] d1] eqn:Et; try done. injection H as <- <- <-.
    apply close_token_inv in Et as (_ & r & Er & ->). exists [], r. rewrite app_nil_r.
    split_and!; try done; [by constructor|cbn; lia].
Qed.
Lemma array_step f : value_sound f -> array_sound f -> array_sound (S f).
Proof.
  intros IHv IHa s st outer stack depth c acc w d c' Hst Hl Hc H. cbn [read_array] in H. destruct (More _) eqn:Em.
  - destruct (Z.leb_spec MaxJSONArray (len acc)); [done|].
    destruct (readValue f _ (depth + 1) c) as [[[v d2] c2]| |] eqn:Ev; try done.
    apply IHv in Ev as [(u & st2 & t2 & Hp & Ht2 & ->) Hf Hn Hm]; [|by destruct st].
    assert (value_end st2 = ArrayComma) as E2 by (destruct st; try done; by destruct Hp as [? ->]). rewrite E2 in H.
    apply IHa in H as (l & t & Ht & -> & -> & -> & Hf' & Hl' & Hm'); [|done|rewrite len_snoc; lia|lia].
    exists (v :: l), t. rewrite <- app_assoc in *. apply (first_separated false) in Hp; [|done].
    split_and!; try done; [by econstructor|cbn; lia].
  - destruct (Token _) as [| |[|[]|] d1] eqn:Et; try done. injection H as <- <- <-.
    apply close_token_inv in Et as (_ & r & Er & ->). exists [], r. rewrite app_nil_r.
    split_and!; try done; [by constructor|cbn; lia].
Qed.
Lemma reads_sound f : value_sound f /\ object_sound f /\ array_sound f.
Proof.
  induction f as [|f (IHv & IHo & IHa)]; [by split_and!|].
  split_and!; [by apply value_step|by apply object_step|by apply array_step].
Qed.

(** ** Completeness *)

Definition value_complete (f : nat) : Prop := forall s st stack depth c u st' v t,
  passes st s u st' -> value_allowed st' = true -> value_text u v t -> fits depth v -> c + nodes v <= MaxJSONTokens ->
  readValue f (mkDecoder s st stack) depth c = Exhausted \/
  readValue f (mkDecoder s st stack) depth c = Done (v, mkDecoder t (value_end st') stack, c + nodes v).
Definition object_complete (f : nat) : Prop := forall s st outer stack depth c acc l t,
  closes true st = true -> members_text (is_first st) s l t -> len (acc ++ l) <= MaxJSONArray -> NoDup (acc ++ l).*1 ->
  members_fit (depth + 1) l -> c + members_nodes l <= MaxJSONTokens ->
  read_object f (mkDecoder s st (outer :: stack)) depth c acc = Exhausted \/
  read_object f (mkDecoder s st (outer :: stack)) depth c acc
    = Done (VObject (acc ++ l), mkDecoder t (value_end outer) stack, c + members_nodes l).
Definition array_complete (f : nat) : Prop := forall s st outer stack depth c acc l t,
  closes false st = true -> items_text (is_first st) s l t -> len (acc ++ l) <= MaxJSONArray ->
  items_fit (depth + 1) l -> c + items_nodes l <= MaxJSONTokens ->
  read_array f (mkDecoder s st (outer :: stack)) depth c acc = Exhausted \/
  read_array f (mkDecoder s st (outer :: stack)) depth c acc
    = Done (VArray (acc ++ l), mkDecoder t (value_end outer) stack, c + items_nodes l).

Lemma fits_depth depth v : fits depth v -> depth <= MaxJSONDepth.
Proof. by destruct v; intros [? ?]. Qed.
(** Where a value starts there is more. *)
Lemma text_starts u v t : value_text u v t -> exists c r, skip_space u = String c r /\ c <> "]"%char /\ c <> "}"%char.
Proof.
  destruct 1 as [s v t H|s r l t H _|s r l t H _]; [|by eexists _, _..].
  destruct (skip_space s) as [|c r]; [done|]. exists c, r. split; [done|]. pose proof (scalar_bracket _ _ _ _ H) as Hb.
  split; by intros ->.
Qed.
Lemma value_next f : object_complete f -> array_complete f -> value_complete (S f).
Proof.
  intros IHo IHa s st stack depth c u st' v t Hp Ha Ht Hf Hc. cbn [readValue].
  pose proof (nodes_pos v). pose proof (fits_depth _ _ Hf).
  destruct (Z.ltb_spec MaxJSONDepth depth); [lia|]. destruct (Z.ltb_spec MaxJSONTokens (c + 1)); [lia|]. cbn [orb].
  destruct (token_passes st s u st' stack Hp) as [g ->]. destruct Ht as [s' v t E|s' r l t E Hl|s' r l t E Hl].
  - rewrite (value_scalar _ _ _ _ _ _ Ha E). right. pose proof (scalar_shape _ _ _ E).
    destruct v as [| | |x| |]; try done. destruct Hf as [_ Hf]. by destruct (Z.ltb_spec MaxJSONString (slen x)); [lia|].
  - rewrite (open_token _ _ _ _ false _ Ha E). destruct Hf as (_ & Hn & Hf). cbn [nodes] in *.
    destruct (IHa r ArrayStart st' stack depth (c + 1) [] l t) as [->| ->]; try done; [lia|by left|right]. do 2 f_equal. lia.
  - rewrite (open_token _ _ _ _ true _ Ha E). destruct Hf as (_ & Hn & Hk & Hf). cbn [nodes] in *.
    destruct (IHo r ObjectStart st' stack depth (c + 1) [] l t) as [->| ->]; try done; [lia|by left|right]. do 2 f_equal. lia.
Qed.
Lemma key_token s st stack u k a : closes true st = true -> separated (is_first st) s u ->
  scalar (skip_space u) = Some (VString k, a) -> Token (mkDecoder s st stack) = Read (Scalar (VString k)) (mkDecoder a ObjectColon stack).
Proof.
  intros Hst Hs E.
  assert (exists st', passes st s u st' /\ (st' = ObjectStart \/ st' = ObjectKey)) as (st' & Hp & Hk)
    by (destruct st; try done; eexists; split; try done; auto).
  destruct (token_passes _ _ _ _ stack Hp) as [g ->]. destruct (skip_space u) as [|c r] eqn:Eu; [done|].
  rewrite (token_scalar _ _ _ _ _ _ Eu (scalar_bracket _ _ _ _ E)). unfold scalar_token.
  rewrite (scalar_key _ _ _ _ E), E. by destruct Hk as [->| ->].
Qed.
Lemma more_false object s st stack r : skip_space s = String (closer object) r -> More (mkDecoder s st stack) = false.
Proof. intros E. unfold More. cbn [d_rest]. rewrite E. by destruct object. Qed.
Lemma more_separated first s u st stack : separated first s u ->
  (exists c r, skip_space u = String c r /\ c <> "]"%char /\ c <> "}"%char) -> More (mkDecoder s st stack) = true.
Proof. intros Hs Hu. apply more_true. destruct first; cbn in Hs; [by subst|]. by eexists _, _. Qed.
Lemma object_next f : value_complete f -> object_complete f -> object_complete (S f).
Proof.
  intros IHv IHo s st outer stack depth c acc l t Hst Ht Hl Hk Hf Hc. cbn [read_object].
  remember (is_first st) as first eqn:Efirst. destruct Ht as [first s t E|first s u k a b v r l t Hs Ek Eb Hv Ht]; subst first.
  - rewrite (more_false true _ _ _ _ E), (close_token true _ _ _ _ _ Hst E), app_nil_r. right. cbn. do 2 f_equal. lia.
  - erewrite more_separated; [|done|].
    2: { destruct (skip_space u) as [|ch x]; [done|]. exists ch, x. pose proof (scalar_key _ _ _ _ Ek). split; [done|]. split; by intros ->. }
    rewrite (key_token _ _ _ _ _ _ Hst Hs Ek). destruct Hf as [[Hn Hfv] Hf]. cbn [foldr fst snd] in Hc. cbn [fst] in Hn.
    pose proof (members_nodes_nonneg l). replace (acc ++ (k, v) :: l) with ((acc ++ [(k, v)]) ++ l) in * by by rewrite <- app_assoc.
    pose proof (len_app_nonneg (acc ++ [(k, v)]) l) as Hlen. rewrite len_snoc in Hlen.
    destruct (Z.ltb_spec MaxJSONString (slen k)); [lia|]. destruct (Z.leb_spec MaxJSONArray (len acc)); [lia|]. cbn [orb].
    assert (has_key acc k = false) as ->.
    { apply has_key_false. rewrite !fmap_app in Hk. apply NoDup_app in Hk as [Hk _]. apply NoDup_app in Hk as (_ & Hk & _).
      intros Hin. apply (Hk k Hin). by apply list_elem_of_singleton. }
    destruct (IHv a ObjectColon (outer :: stack) (depth + 1) c b ObjectValue v r) as [->| ->]; try done; [lia|by left|]. cbn [value_end].
    destruct (IHo r ObjectComma outer stack depth (c + nodes v) (acc ++ [(k, v)]) l t) as [->| ->]; try done; [lia|by left|right].
    cbn [foldr snd]. do 2 f_equal. lia.
Qed.
Lemma array_next f : value_complete f -> array_complete f -> array_complete (S f).
Proof.
  intros IHv IHa s st outer stack depth c acc l t Hst Ht Hl Hf Hc. cbn [read_array].
  remember (is_first st) as first eqn:Efirst. destruct Ht as [first s t E|first s u v r l t Hs Hv Ht]; subst first.
  - rewrite (more_false false _ _ _ _ E), (close_token false _ _ _ _ _ Hst E), app_nil_r. right. cbn. do 2 f_equal. lia.
  - erewrite more_separated; [|done|by eapply text_starts]. destruct Hf as [Hfv Hf]. cbn [foldr] in Hc.
    pose proof (items_nodes_nonneg l). replace (acc ++ v :: l) with ((acc ++ [v]) ++ l) in * by by rewrite <- app_assoc.
    pose proof (len_app_nonneg (acc ++ [v]) l) as Hlen. rewrite len_snoc in Hlen.
    destruct (Z.leb_spec MaxJSONArray (len acc)); [lia|].
    assert (exists st', passes st s u st' /\ value_allowed st' = true /\ value_end st' = ArrayComma) as (st' & Hp & Ha & Ee)
      by (destruct st; try done; eexists; split; try done).
    destruct (IHv s st (outer :: stack) (depth + 1) c u st' v r) as [->| ->]; try done; [lia|by left|]. rewrite Ee.
    destruct (IHa r ArrayComma outer stack depth (c + nodes v) (acc ++ [v]) l t) as [->| ->]; try done; [lia|by left|right].
    cbn [foldr]. do 2 f_equal. lia.
Qed.
Lemma reads_complete f : value_complete f /\ object_complete f /\ array_complete f.
Proof.
  induction f as [|f (IHv & IHo & IHa)].
  - split_and!; intros until 0; by left.
  - split_and!; [by apply value_next|by apply object_next|by apply array_next].
Qed.

(** ** The reader against the grammar *)

Lemma object_fuel_enough : 2 * MaxJSONTokens + 1 <= Z.of_nat object_fuel.
Proof. unfold object_fuel. rewrite Z2Nat.id; [done|]. done. Qed.
Lemma readValue_grammar f s v d c' : 2 * MaxJSONTokens + 1 <= Z.of_nat f -> readValue f (mkDecoder s TopValue []) 0 0 = Done (v, d, c') <->
  exists t, value_text s v t /\ d = mkDecoder t TopValue [] /\ c' = nodes v /\ fits 0 v /\ nodes v <= MaxJSONTokens.
Proof.
  intros Hfuel. split.
  - intros [(u & st' & t & [-> ->] & Ht & ->) Hf -> Hm]%reads_sound; [|done]. by exists t.
  - intros (t & Ht & -> & -> & Hf & Hm). destruct (reads_complete f) as (Hv & _ & _).
    destruct (Hv s TopValue [] 0 0 s TopValue v t) as [E|E]; try done. by destruct (fuel_suffices f _ Hfuel E).
Qed.
Lemma end_token s : Token (mkDecoder s TopValue []) = EndOfFile <-> skip_space s = "".
Proof.
  split; intros H; [|unfold Token; cbn [d_rest d_state d_stack token_loop]; by rewrite H].
  destruct (skip_space s) as [|c r] eqn:E; [done|]. unfold Token in H. cbn [d_rest d_state d_stack] in H.
  destruct (bracket c) eqn:Eb.
  - cbn [token_loop] in H. rewrite E in H. by apply bracket_inv in Eb as [->|[->|[->|[->|[->| ->]]]]].
  - erewrite token_scalar in H by done. unfold scalar_token in H. cbn [value_allowed] in H. by repeat case_match.
Qed.
Lemma parse_grammar s l : ParseObject s = Done l <->
  slen s <= MaxBodyBytes /\ utf8_valid s = true /\ validEscapes s = true /\
  exists t, value_text s (VObject l) t /\ skip_space t = "" /\ fits 0 (VObject l) /\ nodes (VObject l) <= MaxJSONTokens.
Proof.
  unfold ParseObject. destruct (Z.ltb_spec MaxBodyBytes (slen s)); [split; [done|]; intros (? & _); lia|].
  destruct (utf8_valid s); [|split; [done|by intros (_ & ? & _)]]. destruct (validEscapes s); [|split; [done|by intros (_ & _ & ? & _)]].
  cbn [orb negb]. split.
  - destruct (readValue _ _ _ _) as [[[v d] c']| |] eqn:E; try done. destruct v; try done.
    destruct (Token d) eqn:Et; try done. intros [= ->]. apply readValue_grammar in E as (t & Ht & -> & _ & Hf & Hm); [|apply object_fuel_enough].
    apply end_token in Et. split_and!; try done. by exists t.
  - intros (_ & _ & _ & t & Ht & Et & Hf & Hm).
    assert (readValue object_fuel (mkDecoder s TopValue []) 0 0 = Done (VObject l, mkDecoder t TopValue [], nodes (VObject l))) as ->
      by (apply readValue_grammar; [apply object_fuel_enough|by exists t]).
    by apply end_token in Et as ->.
Qed.
Lemma parse_total s : ParseObject s <> Exhausted.
Proof.
  unfold ParseObject. case_match; [done|].
  pose proof (fuel_suffices _ (mkDecoder s TopValue []) object_fuel_enough) as H'.
  destruct (readValue _ _ _ _) as [[[v d] c']| |]; [|done..]. destruct v; try done. by destruct (Token d).
Qed.

(** ** No string is altered

    [string_body] replaces half surrogates, and its callers invalid UTF-8, by
    U+FFFD. [exact_body] has no text for them. *)

Fixpoint exact_body (s : string) : option (string * string) :=
  match s with
  | EmptyString => None
  | String c r =>
    if byte_of c =? 34 then Some (EmptyString, r)
    else if byte_of c <? 32 then None
    else if byte_of c =? 92 then
      match r with
      | String e t =>
        if byte_of e =? 117 then
          match t with
          | String a (String b (String x (String y t))) =>
            match hex4_value a b x y with
            | None => None
            | Some hi =>
              if low_surrogate hi then None
              else if high_surrogate hi then
                match t with
                | String s (String u (String a (String b (String x (String y t))))) =>
                  if (byte_of s =? 92) && (byte_of u =? 117) then
                    match hex4_value a b x y with
                    | Some lo =>
                      if low_surrogate lo
                      then option_map (fun '(v, w) => ((utf8_encode (65536 + (hi - 55296) * 1024 + (lo - 56320)) ++ v)%string, w)) (exact_body t)
                      else None
                    | None => None
                    end
                  else None
                | _ => None
                end
              else option_map (fun '(v, w) => ((utf8_encode hi ++ v)%string, w)) (exact_body t)
            end
          | _ => None
          end
        else match unescape_char e with
             | Some d => option_map (fun '(v, w) => (String d v, w)) (exact_body t)
             | None => None
             end
      | EmptyString => None
      end
    else option_map (fun '(v, w) => (String c v, w)) (exact_body r)
  end.
(** The lexemes of a text whose strings are exact. *)
Definition exact_scalar (s : string) : option (value * string) :=
  match s with
  | String c r =>
    if byte_of c =? 34 then option_map (fun '(v, w) => (VString v, w)) (exact_body r) else scalar s
  | EmptyString => None
  end.

Lemma escape_char e t : byte_of e <> 117 -> string_body (String "\" (String e t)) =
  match unescape_char e with Some d => option_map (fun '(x, y) => (String d x, y)) (string_body t) | None => None end.
Proof. intros H. cbn. by rewrite (proj2 (Z.eqb_neq _ _) H). Qed.
Lemma char_eq c z : byte_of c = z -> c = char_of z.
Proof. intros <-. by rewrite char_of_byte. Qed.
#[local] Arguments utf8_encode : simpl never.
#[local] Arguments hex4_value : simpl never.
#[local] Arguments high_surrogate : simpl never.
#[local] Arguments low_surrogate : simpl never.
#[local] Arguments Z.add : simpl never.
#[local] Arguments Z.sub : simpl never.
#[local] Arguments Z.mul : simpl never.

Lemma char_backslash c : byte_of c = 92 -> c = "\"%char.
Proof. intros ->%char_eq. reflexivity. Qed.
Lemma char_u c : byte_of c = 117 -> c = "u"%char.
Proof. intros ->%char_eq. reflexivity. Qed.
Lemma hex_value_ascii b n : hex_value b = Some n -> b < 128.
Proof. unfold hex_value, is_digit. repeat case_match; intros [= <-]; bsimp; lia. Qed.
Lemma hex4_valid a b x y n t : hex4_value a b x y = Some n ->
  utf8_valid (String a (String b (String x (String y t)))) = utf8_valid t.
Proof.
  unfold hex4_value. destruct (hex_value (byte_of a)) eqn:Ea; [|done]. destruct (hex_value (byte_of b)) eqn:Eb; [|done].
  destruct (hex_value (byte_of x)) eqn:Ec; [|done]. destruct (hex_value (byte_of y)) eqn:Ed; [|done]. intros _.
  apply hex_value_ascii in Ea, Eb, Ec, Ed. by rewrite !valid_ascii.
Qed.
Lemma unescape_ascii e d : unescape_char e = Some d -> byte_of e < 128 /\ byte_of d < 128 /\ byte_of e <> 117.
Proof.
  unfold unescape_char. repeat case_match; intros [= <-]; bsimp; rewrite ?byte_of_char by lia; lia.
Qed.
Lemma high_copy ch x : Forall (fun b => 128 <= b) (bytes ch) ->
  string_body (ch ++ x) = option_map (fun '(v, w) => ((ch ++ v)%string, w)) (string_body x) /\
  exact_body (ch ++ x) = option_map (fun '(v, w) => ((ch ++ v)%string, w)) (exact_body x) /\
  escapes_from true (ch ++ x) = escapes_from true x.
Proof.
  induction ch as [|c ch IH]; cbn [bytes]; intros H.
  - cbn. by destruct (string_body x) as [[]|], (exact_body x) as [[]|].
  - apply Forall_cons in H as [Hc H]. destruct (IH H) as (E1 & E2 & E3). cbn [String.append string_body exact_body escapes_from].
    rewrite E1, E2, E3. replace (byte_of c =? 34) with false by (symmetry; apply Z.eqb_neq; lia).
    replace (byte_of c <? 32) with false by (symmetry; apply Z.ltb_ge; lia).
    replace (byte_of c =? 92) with false by (symmetry; apply Z.eqb_neq; lia). cbn [negb orb].
    by destruct (string_body x) as [[]|], (exact_body x) as [[]|].
Qed.

(** What reading the rest of a string does to the text and to its escapes. *)
Record same_body (s : string) : Prop := {
  sb_exact : forall x t, string_body s = Some (x, t) -> escapes_from true s = true -> exact_body s = Some (x, t);
  sb_body : forall x t, exact_body s = Some (x, t) -> string_body s = Some (x, t) /\ escapes_from true s = escapes_from false t /\
    utf8_valid x = true /\ utf8_valid t = true }.
Lemma same_rune r s t : code_point r -> same_body t ->
  string_body s = option_map (fun '(v, w) => ((utf8_encode r ++ v)%string, w)) (string_body t) ->
  exact_body s = option_map (fun '(v, w) => ((utf8_encode r ++ v)%string, w)) (exact_body t) ->
  escapes_from true s = escapes_from true t -> same_body s.
Proof.
  intros Hr [H1 H2] E1 E2 E3. split; rewrite E1, E2, E3.
  - intros x w H He. destruct (string_body t) as [[v w']|]; [|done]. injection H as <- <-. by rewrite (H1 _ _ eq_refl He).
  - intros x w H. destruct (exact_body t) as [[v w']|]; [|done]. injection H as <- <-.
    destruct (H2 _ _ eq_refl) as (-> & Hw & Hv & Ht). by rewrite encode_valid.
Qed.
Lemma encode_ascii c : byte_of c < 128 -> utf8_encode (byte_of c) = String c "".
Proof. intros H. unfold utf8_encode. by rewrite (proj2 (Z.ltb_lt _ _) H), char_of_byte. Qed.
Lemma ascii_point c : byte_of c < 128 -> code_point (byte_of c).
Proof. intros H. pose proof (byte_of_range c). unfold code_point. lia. Qed.
Lemma no_body s : string_body s = None -> exact_body s = None -> same_body s.
Proof. intros E1 E2. split; intros x t; rewrite ?E1, ?E2; done. Qed.
Lemma refused_body s : escapes_from true s = false -> exact_body s = None -> same_body s.
Proof. intros E1 E2. split; intros x t; rewrite ?E1, ?E2; done. Qed.

(** A first surrogate half and what must follow it. *)
Lemma pair_steps hi t a b x y : hex4_value a b x y = Some hi -> high_surrogate hi = true -> low_surrogate hi = false ->
  let s := String "\" (String "u" (String a (String b (String x (String y t))))) in
  let joined lo := utf8_encode (65536 + (hi - 55296) * 1024 + (lo - 56320)) in
  match t with
  | String s1 (String u1 (String a (String b (String x (String y t))))) =>
    if (byte_of s1 =? 92) && (byte_of u1 =? 117) then
      match hex4_value a b x y with
      | Some lo =>
        if low_surrogate lo
        then escapes_from true s = escapes_from true t /\
             exact_body s = option_map (fun '(v, w) => ((joined lo ++ v)%string, w)) (exact_body t) /\
             string_body s = option_map (fun '(v, w) => ((joined lo ++ v)%string, w)) (string_body t)
        else escapes_from true s = false /\ exact_body s = None
      | None => escapes_from true s = false /\ exact_body s = None
      end
    else escapes_from true s = false /\ exact_body s = None
  | _ => escapes_from true s = false /\ exact_body s = None
  end.
Proof.
  intros Eh Hh Hl s joined.
  assert (escapes_from true s = match t with
          | String s (String u (String a (String b (String x (String y t))))) =>
            if negb (byte_of s =? 92) || negb (byte_of u =? 117) then false
            else match hex4_value a b x y with
                 | Some low => if low_surrogate low then escapes_from true t else false
                 | None => false
                 end
          | _ => false
          end) as E1 by (unfold s; cbn; by rewrite Eh, Hl, Hh).
  assert (exact_body s = match t with
          | String s (String u (String a (String b (String x (String y t))))) =>
            if (byte_of s =? 92) && (byte_of u =? 117) then
              match hex4_value a b x y with
              | Some lo => if low_surrogate lo
                           then option_map (fun '(v, w) => ((joined lo ++ v)%string, w)) (exact_body t) else None
              | None => None
              end
            else None
          | _ => None
          end) as E2 by (unfold s; cbn; by rewrite Eh, Hl, Hh).
  assert (forall s1 u1 a b x y t' lo, t = String s1 (String u1 (String a (String b (String x (String y t'))))) ->
            (byte_of s1 =? 92) && (byte_of u1 =? 117) = true -> hex4_value a b x y = Some lo -> low_surrogate lo = true ->
            string_body s = option_map (fun '(v, w) => ((joined lo ++ v)%string, w)) (string_body t')) as E3.
  { intros s1 u1 a' b' x' y' t' lo Et Es El Elo.
    change (string_body s) with (string_body (String "\" (String "u" (String a (String b (String x (String y t))))))).
    cbn [string_body]. change (byte_of "\") with 92. change (byte_of "u") with 117. cbn [Z.eqb Pos.eqb Z.ltb Z.compare Pos.compare Pos.compare_cont].
    rewrite Eh, Hh, Et. cbv beta iota zeta. by rewrite Es, El, Elo. }
  rewrite E1, E2. clear E1 E2.
  destruct t as [|s1 [|u1 [|a1 [|b1 [|x1 [|y1 t]]]]]]; try done.
  destruct ((byte_of s1 =? 92) && (byte_of u1 =? 117)) eqn:Es.
  2: { split; [|done]. apply andb_false_iff in Es as [->| ->]; by rewrite ?orb_true_r. }
  destruct (hex4_value a1 b1 x1 y1) as [lo|] eqn:El; [|by apply andb_true_iff in Es as [-> ->]].
  destruct (low_surrogate lo) eqn:Elo; [|by apply andb_true_iff in Es as [-> ->]].
  split_and!; [by apply andb_true_iff in Es as [-> ->]|done|by eapply E3].
Qed.
Lemma same_pair hi t a b x y : (forall u, (String.length u < String.length t)%nat -> utf8_valid u = true -> same_body u) ->
  utf8_valid t = true -> high_surrogate hi = true -> hex4_value a b x y = Some hi ->
  same_body (String "\" (String "u" (String a (String b (String x (String y t)))))).
Proof.
  intros IH Hv Hh Eh. assert (low_surrogate hi = false) as Hl by (unfold high_surrogate, low_surrogate in *; bsimp; lia).
  pose proof (pair_steps _ t _ _ _ _ Eh Hh Hl) as Hp.
  destruct t as [|s1 [|u1 [|a1 [|b1 [|x1 [|y1 t]]]]]]; try by apply refused_body; apply Hp.
  cbv zeta in Hp. destruct ((byte_of s1 =? 92) && (byte_of u1 =? 117)) eqn:Es; [|by apply refused_body; apply Hp].
  destruct (hex4_value a1 b1 x1 y1) as [lo|] eqn:El; [|by apply refused_body; apply Hp].
  destruct (low_surrogate lo) eqn:Elo; [|by apply refused_body; apply Hp].
  apply andb_true_iff in Es as [->%Z.eqb_eq%char_backslash ->%Z.eqb_eq%char_u].
  apply (same_rune (65536 + (hi - 55296) * 1024 + (lo - 56320)) _ t); [|..|apply Hp|apply Hp|apply Hp].
  - unfold high_surrogate, low_surrogate, code_point in *. bsimp. lia.
  - apply IH; [cbn; lia|]. rewrite !valid_ascii in Hv by done. by rewrite (hex4_valid _ _ _ _ _ _ El) in Hv.
Qed.
Lemma same_unicode t : (forall u, (String.length u < String.length t)%nat -> utf8_valid u = true -> same_body u) ->
  utf8_valid t = true -> same_body (String "\" (String "u" t)).
Proof.
  intros IH Hv. destruct t as [|a [|b [|x [|y t]]]]; try by apply no_body.
  destruct (hex4_value a b x y) as [hi|] eqn:Eh; [|apply no_body; cbn; by rewrite Eh].
  rewrite (hex4_valid _ _ _ _ _ _ Eh) in Hv. pose proof (hex4_range _ _ _ _ _ Eh).
  destruct (low_surrogate hi) eqn:Hl; [apply refused_body; cbn; by rewrite Eh, Hl|].
  destruct (high_surrogate hi) eqn:Hh; [apply (same_pair hi); try done; intros u Hu; apply IH; cbn in *; lia|].
  apply (same_rune hi _ t).
  - unfold high_surrogate, low_surrogate, code_point in *. bsimp. lia.
  - apply IH; [cbn; lia|done].
  - cbn. by rewrite Eh, Hl, Hh.
  - cbn. by rewrite Eh, Hl, Hh.
  - cbn. by rewrite Eh, Hl, Hh.
Qed.
Lemma same_escape s : (forall u, (String.length u < String.length s)%nat -> utf8_valid u = true -> same_body u) ->
  utf8_valid s = true -> same_body (String "\" s).
Proof.
  intros IH Hv. destruct s as [|e t]; [by apply no_body|].
  destruct (decide (byte_of e = 117)) as [->%char_u|Hu].
  { rewrite valid_ascii in Hv by done. apply same_unicode; [|done]. intros u Hl. apply IH. cbn. lia. }
  pose proof (escape_char e t Hu) as E1.
  assert (exact_body (String "\" (String e t)) =
    match unescape_char e with Some d => option_map (fun '(x, y) => (String d x, y)) (exact_body t) | None => None end) as E2.
  { cbn. by rewrite (proj2 (Z.eqb_neq _ _) Hu). }
  destruct (unescape_char e) as [d|] eqn:Ed; [|by apply no_body]. apply unescape_ascii in Ed as (He & Hd & _).
  rewrite valid_ascii in Hv by done. apply (same_rune (byte_of d) _ t); [by apply ascii_point| |by rewrite encode_ascii..|].
  - apply IH; [cbn; lia|done].
  - cbn. by rewrite (proj2 (Z.eqb_neq _ _) Hu).
Qed.
Lemma body_exact n : forall s, (String.length s < n)%nat -> utf8_valid s = true -> same_body s.
Proof.
  induction n as [|n IH]; intros s Hn Hv; [lia|].
  destruct (utf8_step s Hv) as [->|(r & x & -> & Hr & Hvx)]; [by apply no_body|].
  rewrite string_length_app in Hn. pose proof (proj1 (encode_length r)).
  assert (same_body x) as Hs by (apply IH; [lia|done]).
  destruct (encode_bytes r Hr) as [[Hl E]|[_ Hb]].
  - set (c := char_of r) in *. assert (byte_of c = r) as Hc by (apply byte_of_char; destruct Hr; lia). rewrite E in *. cbn [String.append].
    destruct (decide (byte_of c = 34)) as [E1|E34].
    { split; cbn [string_body exact_body escapes_from]; rewrite E1; cbn; [done|]. intros y t [= <- <-]. by split_and!. }
    destruct (decide (byte_of c = 92)) as [E1%char_backslash|E92].
    { rewrite E1. apply same_escape; [|done]. intros u Hu. apply IH. cbn in *. lia. }
    destruct (decide (byte_of c < 32)) as [E32|E32].
    { apply no_body; cbn [string_body exact_body]; rewrite (proj2 (Z.eqb_neq _ _) E34), (proj2 (Z.ltb_lt _ _) E32); done. }
    apply (same_rune r _ x); [done|done|..]; rewrite ?E; cbn [string_body exact_body escapes_from];
      rewrite (proj2 (Z.eqb_neq _ _) E34), (proj2 (Z.eqb_neq _ _) E92), ?(proj2 (Z.ltb_ge _ 32)) by lia; done.
  - destruct (high_copy (utf8_encode r) x Hb) as (E1 & E2 & E3). by apply (same_rune r _ x).
Qed.

(** Outside of strings no escape matters. *)
Lemma space_escapes s : escapes_from false (skip_space s) = escapes_from false s.
Proof.
  induction s as [|c s IH]; [done|]. cbn [skip_space]. destruct (is_json_space c) eqn:E; [|done].
  rewrite IH. cbn [escapes_from negb orb]. destruct (Z.eqb_spec (byte_of c) 34) as [E34|]; [|done].
  unfold is_json_space in E. rewrite E34 in E. done.
Qed.
Lemma space_valid s : utf8_valid s = true -> utf8_valid (skip_space s) = true.
Proof.
  induction s as [|c s IH]; intros H; [done|]. cbn [skip_space]. destruct (is_json_space c) eqn:E; [|done].
  apply IH. rewrite valid_ascii in H; [done|]. unfold is_json_space in E. bsimp. lia.
Qed.

(** *** Lexemes *)

(** ASCII without a quote. *)
Definition bare (x : string) : Prop := Forall (fun b => b < 128 /\ b <> 34) (bytes x).
Lemma bytes_app (x y : string) : bytes (x ++ y) = bytes x ++ bytes y.
Proof. induction x as [|c x IH]; [done|]. cbn. by rewrite IH. Qed.
Lemma bare_app x y : bare x -> bare y -> bare (x ++ y).
Proof. intros Hx Hy. unfold bare. rewrite bytes_app. by apply Forall_app. Qed.
Lemma bare_prefix x t : bare x ->
  escapes_from false (x ++ t) = escapes_from false t /\ utf8_valid (x ++ t) = utf8_valid t.
Proof.
  induction x as [|c x IH]; [done|]. intros [[Hc Hq] Hx]%Forall_cons. cbn [String.append escapes_from negb orb].
  rewrite valid_ascii, (proj2 (Z.eqb_neq _ _) Hq) by done. by apply IH.
Qed.
Lemma strip_span p : forall s t, strip p s = Some t -> s = (p ++ t)%string.
Proof.
  induction p as [|a p IH]; intros [|b s] t; cbn; try congruence.
  destruct (Ascii.eqb_spec a b) as [->|]; [|done]. by intros ->%IH.
Qed.
Lemma taken_span s : let '(x, t) := take_digits s in s = (x ++ t)%string /\ bare x.
Proof.
  induction s as [|c s IH]; cbn; [by split; [|constructor]|]. destruct (is_digit (byte_of c)) eqn:E; [|by split; [|constructor]].
  destruct (take_digits s) as [x t]. destruct IH as [-> H]. split; [done|]. constructor; [|done].
  unfold is_digit in E. bsimp. lia.
Qed.
Lemma digits_bare s x t : take_digits s = (x, t) -> s = (x ++ t)%string /\ bare x.
Proof. intros E. pose proof (taken_span s) as H. by rewrite E in H. Qed.
Lemma whole_bare s x t : take_whole s = (x, t) -> s = (x ++ t)%string /\ bare x.
Proof.
  destruct s as [|c s]; [apply digits_bare|]. destruct (decide (c = "0"%char)) as [->|Hc].
  - intros [= <- <-]. split; [done|]. by repeat constructor.
  - assert (take_whole (String c s) = take_digits (String c s)) as -> by (by destruct c as [[] [] [] [] [] [] [] []]).
    apply digits_bare.
Qed.
Lemma bare_char c : byte_of c < 128 -> byte_of c <> 34 -> bare (String c "").
Proof. by repeat constructor. Qed.

(** The optional parts of a number, each a span of its text. *)
Definition span (m : option (string * string)) (s : string) : Prop := forall x t, m = Some (x, t) -> s = (x ++ t)%string /\ bare x.
Lemma sign_span s : let '(sign, r) := match s with String "-" r => ("-", r) | _ => (EmptyString, s) end in
  s = (sign ++ r)%string /\ bare sign.
Proof.
  destruct s as [|c s]; [by split; [|constructor]|]. destruct c as [[] [] [] [] [] [] [] []];
    (split; [done|]); by repeat constructor.
Qed.
Lemma fraction_span s : span (match s with
  | String "." r => let '(x, y) := take_digits r in if x =s "" then None else Some (String "." x, y)
  | _ => Some (EmptyString, s) end) s.
Proof.
  intros x t. assert (Some (EmptyString, s) = Some (x, t) -> s = (x ++ t)%string /\ bare x) as H0 by (intros [= <- <-]; by split; [|constructor]).
  destruct s as [|c s]; [done|]. destruct (decide (c = "."%char)) as [->|Hc]; [clear H0|by destruct c as [[] [] [] [] [] [] [] []]].
  destruct (take_digits s) as [u v] eqn:E. apply digits_bare in E as [-> Hu]. destruct (u =s ""); [done|].
  intros [= <- <-]. split; [done|]. by constructor.
Qed.
Lemma exponent_sign_span s : let '(sign, r) := match s with
    String "+" t => ("+", t) | String "-" t => ("-", t) | _ => (EmptyString, s) end in s = (sign ++ r)%string /\ bare sign.
Proof.
  destruct s as [|c s]; [by split; [|constructor]|]. destruct c as [[] [] [] [] [] [] [] []];
    (split; [done|]); by repeat constructor.
Qed.
Lemma exponent_span (exp := fun (e : ascii) (r : string) =>
    let '(sg, r) := match r with String "+" t => ("+", t) | String "-" t => ("-", t) | _ => (EmptyString, r) end in
    let '(x, y) := take_digits r in
    if x =s "" then None else Some (String e (sg ++ x)%string, y)) s :
  span (match s with String "e" r => exp "e"%char r | String "E" r => exp "E"%char r | _ => Some (EmptyString, s) end) s.
Proof.
  intros x t. assert (Some (EmptyString, s) = Some (x, t) -> s = (x ++ t)%string /\ bare x) as H0 by (intros [= <- <-]; by split; [|constructor]).
  assert (forall e r, s = String e r -> byte_of e < 128 -> byte_of e <> 34 -> exp e r = Some (x, t) -> s = (x ++ t)%string /\ bare x) as He.
  { intros e r -> H1 H2. unfold exp. pose proof (exponent_sign_span r) as Hs.
    destruct (match r with String "+" t => _ | _ => _ end) as [sg r']. destruct Hs as [-> Hs].
    destruct (take_digits r') as [u v] eqn:E. apply digits_bare in E as [-> Hu]. destruct (u =s ""); [done|].
    intros [= <- <-]. split; [cbn; by rewrite string_app_assoc|]. constructor; [done|]. by apply bare_app. }
  destruct s as [|c s]; [done|]. destruct (decide (c = "e"%char)) as [->|H1]; [by apply He|].
  destruct (decide (c = "E"%char)) as [->|H2]; [by apply He|]. by destruct c as [[] [] [] [] [] [] [] []].
Qed.
Lemma number_bare s x t : number_literal s = Some (x, t) -> s = (x ++ t)%string /\ bare x.
Proof.
  unfold number_literal. pose proof (sign_span s) as Hs.
  destruct (match s with String "-" r => _ | _ => _ end) as [sign s1]. destruct Hs as [-> Hs].
  destruct (take_whole s1) as [whole s2] eqn:Ew. apply whole_bare in Ew as [-> Hw]. destruct (whole =s ""); [done|].
  pose proof (fraction_span s2) as Hf. destruct (match s2 with String "." r => _ | _ => _ end) as [[frac s3]|]; [|done].
  destruct (Hf _ _ eq_refl) as [-> Hfr]. clear Hf.
  pose proof (exponent_span s3) as He. cbv zeta in *. destruct (match s3 with String "e" r => _ | _ => _ end) as [[ex s4]|]; [|done].
  destruct (He _ _ eq_refl) as [-> Hx]. intros [= <- <-]. split; [by rewrite !string_app_assoc|]. by repeat apply bare_app.
Qed.

(** A scalar that is no string leaves the text outside of strings. *)
Lemma bare_scalar c r v t : byte_of c <> 34 -> scalar (String c r) = Some (v, t) ->
  escapes_from false (String c r) = escapes_from false t /\ utf8_valid (String c r) = utf8_valid t.
Proof.
  intros Hc H. cbn [scalar] in H. rewrite (proj2 (Z.eqb_neq _ _) Hc) in H.
  assert (exists x, String c r = (x ++ t)%string /\ bare x) as (x & -> & Hx); [|by apply bare_prefix].
  destruct (byte_of c =? 110); [|destruct (byte_of c =? 116); [|destruct (byte_of c =? 102)]].
  4: { destruct (number_literal (String c r)) as [[x y]|] eqn:E; [|done]. injection H as <- <-. exists x. by apply number_bare. }
  all: destruct (strip _ _) as [y|] eqn:E; [|done]; injection H as <- <-; apply strip_span in E;
    eexists; (split; [exact E|]); by repeat constructor.
Qed.
Lemma exact_lexeme s v t : utf8_valid s = true -> escapes_from false s = true -> scalar (skip_space s) = Some (v, t) ->
  exact_scalar (skip_space s) = Some (v, t).
Proof.
  intros Hv%space_valid He H. rewrite <- space_escapes in He. destruct (skip_space s) as [|c r]; [done|].
  unfold exact_scalar. destruct (Z.eqb_spec (byte_of c) 34) as [E|E]; [|done].
  cbn [scalar escapes_from] in *. rewrite E in *. cbn [Z.eqb Pos.eqb negb] in *. rewrite valid_ascii in Hv by lia.
  destruct (string_body r) as [[x y]|] eqn:Eb; [|done]. injection H as <- <-.
  destruct (body_exact _ r (Nat.lt_succ_diag_r _) Hv) as [H1 H2]. specialize (H1 _ _ Eb He). rewrite H1. cbn.
  destruct (H2 _ _ H1) as (_ & _ & Hx & _). by rewrite coerce_valid.
Qed.
Lemma lexeme_exact s v t : utf8_valid s = true -> exact_scalar (skip_space s) = Some (v, t) ->
  scalar (skip_space s) = Some (v, t) /\ utf8_valid t = true /\ escapes_from false s = escapes_from false t.
Proof.
  intros Hv%space_valid H. rewrite <- (space_escapes s). destruct (skip_space s) as [|c r]; [done|].
  unfold exact_scalar in H. destruct (Z.eqb_spec (byte_of c) 34) as [E|E].
  - cbn [scalar escapes_from]. rewrite E. cbn [Z.eqb Pos.eqb negb]. rewrite valid_ascii in Hv by lia.
    destruct (exact_body r) as [[x y]|] eqn:Eb; [|done]. injection H as <- <-.
    destruct (body_exact _ r (Nat.lt_succ_diag_r _) Hv) as [_ H2]. destruct (H2 _ _ Eb) as (-> & -> & Hx & Ht). cbn.
    by rewrite coerce_valid.
  - destruct (bare_scalar _ _ _ _ E H) as [E1 E2]. split_and!; [done|congruence|done].
Qed.
(** Passing over one character that is no part of a string. *)
Lemma over s c u : skip_space s = String c u -> byte_of c < 128 -> byte_of c <> 34 ->
  escapes_from false s = escapes_from false u /\ (utf8_valid s = true -> utf8_valid u = true).
Proof.
  intros E Hc Hq. rewrite <- (space_escapes s), E. destruct (bare_prefix (String c "") u (bare_char c Hc Hq)) as [H1 H2].
  split; [exact H1|]. intros Hv%space_valid. rewrite E in Hv. change (utf8_valid (String c u) = utf8_valid u) in H2. congruence.
Qed.
Lemma over_separated first s u : separated first s u ->
  escapes_from false s = escapes_from false u /\ (utf8_valid s = true -> utf8_valid u = true).
Proof. destruct first; cbn; [by intros ->|]. intros E. by eapply over. Qed.

Scheme text_value_mind := Minimality for text_value Sort Prop
  with text_items_mind := Minimality for text_items Sort Prop
  with text_members_mind := Minimality for text_members Sort Prop.
Combined Scheme text_mind from text_value_mind, text_items_mind, text_members_mind.


(** An exact text is a text, and its escapes are those of what follows. *)
Definition kept (P : Prop) (s t : string) : Prop :=
  utf8_valid s = true -> P /\ utf8_valid t = true /\ escapes_from false s = escapes_from false t.
Lemma kept_over (P : Prop) s u t : (escapes_from false s = escapes_from false u /\ (utf8_valid s = true -> utf8_valid u = true)) ->
  kept P u t -> kept P s t.
Proof. intros [E Hv] H Hs. rewrite E. apply H. auto. Qed.
Lemma kept_then (P Q R : Prop) s t u : (P -> Q -> R) -> kept P s t -> kept Q t u -> kept R s u.
Proof. intros HR H1 H2 Hs. destruct (H1 Hs) as (p & Ht & E1). destruct (H2 Ht) as (q & Hu & E2). split_and!; [auto|done|congruence]. Qed.
Lemma exact_texts :
  (forall s v t, text_value exact_scalar s v t -> kept (text_value scalar s v t) s t) /\
  (forall first s l t, text_items exact_scalar first s l t -> kept (text_items scalar first s l t) s t) /\
  (forall first s l t, text_members exact_scalar first s l t -> kept (text_members scalar first s l t) s t).
Proof.
  apply text_mind.
  - intros s v t H Hv. apply lexeme_exact in H as (H & Ht & E); [|done]. split_and!; [by constructor|done|done].
  - intros s r l t E _ IH. apply (kept_then True (text_items scalar true r l t) (text_value scalar s (VArray l) t) s r t); [by econstructor| |done].
    intros Hv. destruct (over _ _ _ E) as [H1 H2]; [done..|]. auto.
  - intros s r l t E _ IH. apply (kept_then True (text_members scalar true r l t) (text_value scalar s (VObject l) t) s r t); [by econstructor| |done].
    intros Hv. destruct (over _ _ _ E) as [H1 H2]; [done..|]. auto.
  - intros first s t E Hv. destruct (over _ _ _ E) as [H1 H2]; [done..|]. split_and!; [by constructor|auto|done].
  - intros first s u v r l t Hs _ IHv _ IHl. eapply kept_over; [by apply over_separated in Hs|].
    eapply kept_then; [|exact IHv|exact IHl]. intros. by econstructor.
  - intros first s t E Hv. destruct (over _ _ _ E) as [H1 H2]; [done..|]. split_and!; [by constructor|auto|done].
  - intros first s u k a b v r l t Hs Hk Eb _ IHv _ IHl. eapply kept_over; [by apply over_separated in Hs|].
    apply (kept_then (scalar (skip_space u) = Some (VString k, a)) (text_value scalar b v r /\ text_members scalar false r l t)
      (text_members scalar first s ((k, v) :: l) t) u a t).
    + intros H [Hv Hl]. by econstructor.
    + intros Hv. by apply lexeme_exact in Hk as (H & Ht & E).
    + eapply kept_over; [by eapply over|]. eapply kept_then; [|exact IHv|exact IHl]. auto.
Qed.

(** Where the escapes are valid a text is exact. *)
Definition exactly (P : Prop) (s : string) : Prop := utf8_valid s = true -> escapes_from false s = true -> P.
Lemma exactly_over (P : Prop) s u : (escapes_from false s = escapes_from false u /\ (utf8_valid s = true -> utf8_valid u = true)) ->
  exactly P u -> exactly P s.
Proof. intros [E Hv] H Hs He. rewrite E in He. auto. Qed.
Lemma exactly_then (P Q R : Prop) s t : exactly P s -> (P -> kept R s t) -> exactly Q t -> exactly (P /\ Q) s.
Proof.
  intros HP HR HQ Hs He. pose proof (HP Hs He) as p. destruct (HR p Hs) as (_ & Ht & E). split; [done|]. apply HQ; [done|congruence].
Qed.
Lemma texts_exact :
  (forall s v t, text_value scalar s v t -> exactly (text_value exact_scalar s v t) s) /\
  (forall first s l t, text_items scalar first s l t -> exactly (text_items exact_scalar first s l t) s) /\
  (forall first s l t, text_members scalar first s l t -> exactly (text_members exact_scalar first s l t) s).
Proof.
  apply text_mind.
  - intros s v t H Hv He. constructor. by apply exact_lexeme.
  - intros s r l t E _ IH. apply (exactly_over _ s r) in IH; [|by eapply over]. intros Hv He. econstructor; [done|auto].
  - intros s r l t E _ IH. apply (exactly_over _ s r) in IH; [|by eapply over]. intros Hv He. econstructor; [done|auto].
  - intros first s t E _ _. by constructor.
  - intros first s u v r l t Hs _ IHv _ IHl. pose proof (exactly_then _ _ _ _ _ IHv (proj1 exact_texts u v r) IHl) as H.
    apply (exactly_over _ s u) in H; [|by eapply over_separated]. intros Hv He. destruct (H Hv He). by econstructor.
  - intros first s t E _ _. by constructor.
  - intros first s u k a b v r l t Hs Hk Eb _ IHv _ IHl.
    pose proof (exactly_then _ _ _ _ _ IHv (proj1 exact_texts b v r) IHl) as H.
    apply (exactly_over _ a b) in H; [|by eapply over].
    assert (exactly (exact_scalar (skip_space u) = Some (VString k, a)) u) as Hk' by (intros Hv He; by apply exact_lexeme).
    pose proof (exactly_then _ _ _ _ _ Hk' (fun E Hv => lexeme_exact _ _ _ Hv E) H) as H'.
    apply (exactly_over _ s u) in H'; [|by eapply over_separated]. intros Hv He. destruct (H' Hv He) as (? & ? & ?). by econstructor.
Qed.

(** ** What ParseObject accepts *)

Lemma parse_exact s l : ParseObject s = Done l <->
  slen s <= MaxBodyBytes /\ utf8_valid s = true /\ fits 0 (VObject l) /\ nodes (VObject l) <= MaxJSONTokens /\
  exists t, text_value exact_scalar s (VObject l) t /\ skip_space t = "".
Proof.
  rewrite parse_grammar. split.
  - intros (Hs & Hv & He & t & Ht & Et & Hf & Hn). split_and!; try done. exists t. split; [|done]. by apply texts_exact.
  - intros (Hs & Hv & Hf & Hn & t & Ht & Et). destruct (proj1 exact_texts _ _ _ Ht Hv) as (Ht' & _ & E).
    split_and!; try done; [|by exists t]. unfold validEscapes. rewrite E, <- space_escapes, Et. done.
Qed.

(** ** What one daemon encodes the other accepts *)

(** What the reader makes of an encoded value. *)
Fixpoint value_of (j : json) : value :=
  match j with
  | JNull => VNull
  | JBool b => VBool b
  | JNum n => VNumber (format_int n)
  | JLit text => VNumber text
  | JStr s => VString s
  | JArr l => VArray (map value_of l)
  | JObj l => VObject (map (fun kv => (fst kv, value_of (snd kv))) l)
  end.
(** Texts in UTF-8, and numbers that are Go integers. *)
Fixpoint sendable (j : json) : Prop :=
  match j with
  | JLit _ => False
  | JStr s => utf8_valid s = true
  | JArr l => foldr (fun x P => sendable x /\ P) True l
  | JObj l => foldr (fun kv P => (utf8_valid (fst kv) = true /\ sendable (snd kv)) /\ P) True l
  | _ => True
  end.

(** *** Strings *)

Lemma escape_encode r x : code_point r -> escape (utf8_encode r ++ x) = (escape_rune (r, utf8_encode r) ++ escape x)%string.
Proof. intros H. unfold escape. by rewrite encode_chunk. Qed.
Lemma escape_ascii c T : byte_of c < 128 ->
  exact_body (escape_rune (byte_of c, String c "") ++ T) = option_map (fun '(v, w) => (String c v, w)) (exact_body T) /\
  utf8_valid (escape_rune (byte_of c, String c "") ++ T) = utf8_valid T.
Proof.
  intros H. split; [by destruct c as [[] [] [] [] [] [] [] []]; try reflexivity; vm_compute in H|].
  assert (Forall (fun b => b < 128) (bytes (escape_rune (byte_of c, String c "")))) as Hb
    by (destruct c as [[] [] [] [] [] [] [] []]; try (by vm_compute in H); vm_compute; by repeat constructor).
  revert Hb. induction (escape_rune _) as [|d s IH]; [done|]. intros Hb. inversion Hb; subst. cbn [String.append].
  rewrite valid_ascii by done. by apply IH.
Qed.
Lemma escape_high r : code_point r -> 128 <= r ->
  escape_rune (r, utf8_encode r) = utf8_encode r \/
  (r = 8232 \/ r = 8233) /\ escape_rune (r, utf8_encode r) = String "\" (String "u" (hex4 r)).
Proof.
  intros Hr Hl. unfold escape_rune. pose proof (proj2 (encode_length r) Hl) as Hlen.
  rewrite (proj2 (Nat.eqb_neq (String.length (utf8_encode r)) 1)) by lia. rewrite andb_false_r.
  repeat match goal with |- context [r =? ?n] =>
    match n with 8232 => fail 1 | 8233 => fail 1 | _ => rewrite (proj2 (Z.eqb_neq r n)) by lia end end.
  rewrite (proj2 (Z.ltb_ge r 32)) by lia. cbn [orb].
  destruct (Z.eqb_spec r 8232); [by right; auto|]. destruct (Z.eqb_spec r 8233); [by right; auto|]. by left.
Qed.
(** An escaped code point is read back. *)
Lemma escape_point r T : code_point r ->
  exact_body (escape_rune (r, utf8_encode r) ++ T) = option_map (fun '(v, w) => ((utf8_encode r ++ v)%string, w)) (exact_body T) /\
  utf8_valid (escape_rune (r, utf8_encode r) ++ T) = utf8_valid T.
Proof.
  intros Hr. destruct (encode_bytes r Hr) as [[Hl E]|[Hl Hb]].
  - rewrite E. destruct Hr as [Hr _]. pose proof (escape_ascii (char_of r) T) as H. rewrite byte_of_char in H by lia. by apply H.
  - destruct (escape_high r Hr Hl) as [->|[[-> | ->] ->]].
    + rewrite encode_valid by done. by destruct (high_copy (utf8_encode r) T Hb) as (_ & E & _).
    + change (hex4 8232) with "2028". cbn [String.append]. by rewrite !valid_ascii.
    + change (hex4 8233) with "2029". cbn [String.append]. by rewrite !valid_ascii.
Qed.
Lemma escaped n : forall s T, (String.length s < n)%nat -> utf8_valid s = true ->
  exact_body (escape s ++ String quote_char T) = Some (s, T) /\ utf8_valid (escape s ++ String quote_char T) = utf8_valid T.
Proof.
  induction n as [|n IH]; intros s T Hn Hv; [lia|]. destruct (utf8_step s Hv) as [->|(r & x & -> & Hr & Hx)]; [done|].
  rewrite string_length_app in Hn. pose proof (encode_length r).
  rewrite escape_encode, string_app_assoc by done. destruct (escape_point r (escape x ++ String quote_char T) Hr) as [-> ->].
  destruct (IH x T) as [-> ->]; [lia|done|]. done.
Qed.
Lemma quoted_lexeme s T : utf8_valid s = true ->
  exact_scalar (quote s ++ T) = Some (VString s, T) /\ utf8_valid (quote s ++ T) = utf8_valid T.
Proof.
  intros Hv. unfold quote. cbn [String.append]. rewrite string_app_assoc. cbn [String.append].
  destruct (escaped _ s T (Nat.lt_succ_diag_r _) Hv) as [E1 E2]. rewrite valid_ascii by done. split; [|done].
  unfold exact_scalar. cbn [Z.eqb]. change (byte_of quote_char =? 34) with true. cbv iota. by rewrite E1.
Qed.

(** *** Numbers *)

(** What does not continue a number. *)
Definition ends_number (T : string) : Prop :=
  match T with String c _ => c = ","%char \/ c = "]"%char \/ c = "}"%char | EmptyString => True end.
Lemma digits_taken x T : all_digits x = true -> ends_number T -> take_digits (x ++ T) = (x, T).
Proof.
  intros Hx HT. induction x as [|c x IH]; cbn [String.append].
  - destruct T as [|c T]; [done|]. cbn in HT. by destruct HT as [->|[->| ->]].
  - cbn in Hx. bsimp. destruct Hx as [Hc Hx]. cbn [take_digits]. by rewrite Hc, IH.
Qed.
Lemma whole_taken n T : 0 <= n -> ends_number T -> take_whole (format_uint n ++ T) = (format_uint n, T).
Proof.
  intros Hn HT. pose proof (format_uint_digits n Hn) as Hd. unfold take_whole.
  destruct (format_uint n) as [|c r] eqn:E; [by apply format_go_acc_ne in E|]. rewrite <- E in Hd |- *.
  destruct (ascii_dec c "0") as [->|Hc].
  - destruct (format_uint_no_zero n Hn) as [H|H]; rewrite E in H; [|done]. unfold slen in H. cbn in H.
    destruct r as [|d r]; [by rewrite E|cbn in H; lia].
  - rewrite <- (digits_taken _ T Hd HT), E. cbn [String.append].
    by destruct c as [[] [] [] [] [] [] [] []].
Qed.
(** The rest of [number_literal] behind a sign. *)
Lemma number_taken n T : ends_number T -> number_literal (format_int n ++ T) = Some (format_int n, T).
Proof.
  intros HT. unfold number_literal, format_int. destruct (Z.ltb_spec n 0) as [Hn|Hn].
  - cbn [String.append]. rewrite whole_taken by (lia || done).
    destruct (String.eqb_spec (format_uint (- n)) "") as [E|_]; [by apply format_go_acc_ne in E|].
    destruct T as [|c T]; [by rewrite !string_app_nil_r|]. by destruct HT as [->|[->| ->]]; rewrite !string_app_nil_r.
  - destruct (format_uint_first n Hn) as (c & r & E & Hc).
    assert ((match (format_uint n ++ T)%string with String "-" r => ("-", r) | _ => (EmptyString, (format_uint n ++ T)%string) end)
      = (EmptyString, (format_uint n ++ T)%string)) as ->
      by (rewrite E; cbn [String.append]; by destruct c as [[] [] [] [] [] [] [] []]).
    rewrite whole_taken by done.
    destruct (String.eqb_spec (format_uint n) "") as [E'|_]; [by apply format_go_acc_ne in E'|].
    destruct T as [|d T]; [by rewrite !string_app_nil_r|]. by destruct HT as [->|[->| ->]]; rewrite !string_app_nil_r.
Qed.

(** *** Values *)

Definition encoded (j : json) : Prop := forall T, ends_number T ->
  text_value exact_scalar (marshal j ++ T) (value_of j) T /\ utf8_valid (marshal j ++ T) = utf8_valid T.
Lemma digit_lexeme c r : is_digit (byte_of c) = true \/ c = "-"%char ->
  skip_space (String c r) = String c r /\ scalar (String c r) = option_map (fun '(x, y) => (VNumber x, y)) (number_literal (String c r)).
Proof. intros Hc. destruct c as [[] [] [] [] [] [] [] []]; try (by destruct Hc); done. Qed.
Lemma number_encoded n : encoded (JNum n).
Proof.
  intros T HT. cbn [marshal value_of]. pose proof (number_taken n T HT) as E.
  destruct (number_bare _ _ _ E) as [_ Hb]. destruct (format_int_first n) as (c & r & En & Hc).
  split; [|by apply bare_prefix].
  assert (is_digit (byte_of c) = true \/ c = "-"%char) as Hc' by (destruct (n <? 0); auto).
  apply J_scalar. rewrite En in *. cbn [String.append] in *.
  destruct (digit_lexeme c (r ++ T) Hc') as [-> Es]. unfold exact_scalar.
  destruct (Z.eqb_spec (byte_of c) 34) as [E34|_].
  - apply Forall_cons in Hb as [[_ Hb] _]. done.
  - rewrite Es, E. done.
Qed.
Lemma quote_space s T : skip_space (quote s ++ T) = (quote s ++ T)%string.
Proof. done. Qed.
Lemma items_next s s' v l t : text_items exact_scalar true s (v :: l) t -> skip_space s' = String "," s ->
  text_items exact_scalar false s' (v :: l) t.
Proof. intros H E. inversion H; subst. cbn in *. subst. by econstructor. Qed.
Lemma members_next s s' kv l t : text_members exact_scalar true s (kv :: l) t -> skip_space s' = String "," s ->
  text_members exact_scalar false s' (kv :: l) t.
Proof. intros H E. inversion H; subst. cbn in *. subst. by econstructor. Qed.
Lemma items_encoded T l : Forall encoded l ->
  text_items exact_scalar true (items l ++ T) (map value_of l) T /\ utf8_valid (items l ++ T) = utf8_valid T.
Proof.
  induction 1 as [|x l Hx Hl [IH1 IH2]]; [split; [by constructor|done]|].
  rewrite items_cons, string_app_assoc. destruct l as [|y l].
  - destruct (Hx ("]" ++ T)%string) as [H1 H2]; [cbn; auto|]. split; [|by rewrite H2]. cbn [map].
    eapply J_item; [done|exact H1|by constructor].
  - destruct (Hx (String "," (items (y :: l)) ++ T)%string) as [H1 H2]; [cbn; auto|].
    split; [|rewrite H2; cbn [String.append]; by rewrite valid_ascii]. cbn [map] in *.
    eapply J_item; [done|exact H1|by eapply items_next].
Qed.
Lemma members_encoded T l : Forall (fun kv => utf8_valid (fst kv) = true /\ encoded (snd kv)) l ->
  text_members exact_scalar true (members l ++ T) (map (fun kv => (fst kv, value_of (snd kv))) l) T /\
  utf8_valid (members l ++ T) = utf8_valid T.
Proof.
  induction 1 as [|[k x] l [Hk Hx] Hl [IH1 IH2]]; [split; [by constructor|done]|]. cbn [fst snd map] in *.
  rewrite members_cons, string_app_assoc. cbn [String.append]. rewrite string_app_assoc.
  set (R := (match l with [] => "}" | _ => String "," (members l) end ++ T)%string).
  destruct (Hx R) as [H1 H2]; [destruct l; cbn; auto|]. destruct (quoted_lexeme k (String ":" (marshal x ++ R)) Hk) as [Q1 Q2].
  split.
  - eapply J_member; [done|rewrite quote_space; exact Q1|done|exact H1|]. destruct l as [|kv l]; [by constructor|].
    by eapply members_next.
  - rewrite Q2, valid_ascii, H2 by done. destruct l; [done|]. unfold R. cbn [String.append]. by rewrite valid_ascii.
Qed.
Lemma value_encoded j : sendable j -> encoded j.
Proof.
  induction j as [|[]|n|t|s|l IH|l IH] using json_nested_ind; intros Hs.
  1-3: intros T _; split; [by apply J_scalar|done].
  - apply number_encoded.
  - done.
  - intros T _. cbn [marshal value_of]. destruct (quoted_lexeme s T Hs) as [H1 H2]. split; [|done]. by apply J_scalar.
  - intros T _. change (marshal (JArr l)) with (String "[" (items l)). cbn [String.append value_of].
    destruct (items_encoded T l) as [H1 H2].
    { cbn [sendable] in Hs. induction IH as [|x l Hx Hl IH']; [done|]. destruct Hs. constructor; auto. }
    split; [|by rewrite valid_ascii]. by eapply J_array.
  - intros T _. change (marshal (JObj l)) with (String "{" (members l)). cbn [String.append value_of].
    destruct (members_encoded T l) as [H1 H2].
    { cbn [sendable] in Hs. induction IH as [|x l Hx Hl IH']; [done|]. destruct Hs as [[] ?]. constructor; auto. }
    split; [|by rewrite valid_ascii]. by eapply J_object.
Qed.

(** A text has one reading. *)
Lemma separated_inj first s u u' : separated first s u -> separated first s u' -> u = u'.
Proof. destruct first; cbn; intros; congruence. Qed.
Lemma closed_not_item first s t u v r c : skip_space s = String c t -> c = "]"%char \/ c = "}"%char ->
  separated first s u -> text_value exact_scalar u v r -> False.
Proof.
  intros E Hc Hs Hv. destruct first; cbn in Hs; [subst u|rewrite E in Hs; destruct Hc; congruence].
  inversion Hv; subst; rewrite E in *; destruct Hc; subst; done.
Qed.
Lemma closed_not_member first s t u k a : skip_space s = String "}" t ->
  separated first s u -> exact_scalar (skip_space u) = Some (VString k, a) -> False.
Proof. intros E Hs. destruct first; cbn in Hs; [subst u; by rewrite E|congruence]. Qed.
Lemma text_unique :
  (forall s v t, text_value exact_scalar s v t -> forall v' t', text_value exact_scalar s v' t' -> v = v' /\ t = t') /\
  (forall first s l t, text_items exact_scalar first s l t -> forall l' t', text_items exact_scalar first s l' t' -> l = l' /\ t = t') /\
  (forall first s l t, text_members exact_scalar first s l t -> forall l' t', text_members exact_scalar first s l' t' -> l = l' /\ t = t').
Proof.
  apply text_mind.
  - intros s v t H v' t' H'. inversion H' as [? ? ? E|? ? ? ? E|? ? ? ? E]; subst; [rewrite H in E; naive_solver|by rewrite E in H..].
  - intros s r l t E _ IH v' t' H'. inversion H' as [? ? ? E'|? ? ? ? E' Hl|? ? ? ? E']; subst; [by rewrite E in E'| |congruence].
    rewrite E in E'. injection E' as <-. by destruct (IH _ _ Hl) as [-> ->].
  - intros s r l t E _ IH v' t' H'. inversion H' as [? ? ? E'|? ? ? ? E'|? ? ? ? E' Hl]; subst; [by rewrite E in E'|congruence|].
    rewrite E in E'. injection E' as <-. by destruct (IH _ _ Hl) as [-> ->].
  - intros first s t E l' t' H'. inversion H' as [? ? ? E'|? ? u v r l ? Hs Hv]; subst; [split; congruence|].
    exfalso. eapply (closed_not_item _ _ _ _ _ _ "]"); eauto.
  - intros first s u v r l t Hs Hv IHv _ IHl l' t' H'. inversion H' as [? ? ? E'|? ? u' v' r' l0 ? Hs' Hv' Hl']; subst.
    + exfalso. eapply (closed_not_item _ _ _ _ _ _ "]"); eauto.
    + rewrite (separated_inj _ _ _ _ Hs' Hs) in Hv'. destruct (IHv _ _ Hv') as [<- <-]. by destruct (IHl _ _ Hl') as [<- <-].
  - intros first s t E l' t' H'. inversion H' as [? ? ? E'|? ? u k a b v r l ? Hs Hk]; subst; [split; congruence|].
    exfalso. by eapply closed_not_member.
  - intros first s u k a b v r l t Hs Hk Eb Hv IHv _ IHl l' t' H'.
    inversion H' as [? ? ? E'|? ? u' k' a' b' v' r' l0 ? Hs' Hk' Eb' Hv' Hl']; subst; [exfalso; by eapply closed_not_member|].
    rewrite (separated_inj _ _ _ _ Hs' Hs), Hk in Hk'. injection Hk' as <- <-. rewrite Eb in Eb'. injection Eb' as <-.
    destruct (IHv _ _ Hv') as [<- <-]. by destruct (IHl _ _ Hl') as [<- <-].
Qed.

(** An encoded object within the limits is read back. *)
Lemma marshal_parse l m : sendable (JObj l) ->
  ParseObject (marshal (JObj l)) = Done m <->
  VObject m = value_of (JObj l) /\ slen (marshal (JObj l)) <= MaxBodyBytes /\
  fits 0 (VObject m) /\ nodes (VObject m) <= MaxJSONTokens.
Proof.
  intros Hs. destruct (value_encoded _ Hs "" I) as [Ht Hv]. rewrite string_app_nil_r in Ht, Hv. rewrite parse_exact. split.
  - intros (Hb & _ & Hf & Hn & t & Ht' & _). destruct (proj1 text_unique _ _ _ Ht' _ _ Ht) as [E _]. done.
  - intros (E & Hb & Hf & Hn). split_and!; try done. exists "". split; [|done]. by rewrite E.
Qed.

(** ** The theorems *)

(** C23. ParseObject accepts a text exactly when it is one JSON object in
    well-formed UTF-8 whose every string, escapes included, spells code points
    (so that decoding replaces nothing), followed by nothing but space, within
    the limits: 1 MiB of text, depth 16, 16,384 values, 4,096 entries of a
    container, 64 KiB of a string, and no key twice in any object. What it
    returns is that object. *)
Theorem ParseObject_exact s l : ParseObject s = Done l <->
  slen s <= MaxBodyBytes /\ utf8_valid s = true /\ fits 0 (VObject l) /\ nodes (VObject l) <= MaxJSONTokens /\
  exists t, text_value exact_scalar s (VObject l) t /\ skip_space t = "".
Proof. apply parse_exact. Qed.

(** C29. Reading ends: whatever the text, ParseObject gives a verdict, because
    no more than 16,385 values are ever begun; and with any more steps the
    verdict is the same. *)
Theorem ParseObject_terminates s : ParseObject s <> Exhausted /\
  forall fuel v d c, (object_fuel <= fuel)%nat ->
    readValue fuel (mkDecoder s TopValue []) 0 0 = Done (v, d, c) <->
    readValue object_fuel (mkDecoder s TopValue []) 0 0 = Done (v, d, c).
Proof.
  split; [apply parse_total|]. intros fuel v d c Hf. rewrite !readValue_grammar by (pose proof object_fuel_enough; lia). done.
Qed.
Lemma ParseObject_terminates_witness : (object_fuel <= S object_fuel)%nat /\
  forall v d c, readValue (S object_fuel) (mkDecoder "{}" TopValue []) 0 0 = Done (v, d, c) <->
                readValue object_fuel (mkDecoder "{}" TopValue []) 0 0 = Done (v, d, c).
Proof.
  split; [apply Nat.le_succ_diag_r|]. intros v d c. apply (ParseObject_terminates "{}"). apply Nat.le_succ_diag_r.
Defined.

(** C24. What one daemon marshals the other reads back: for an object whose
    strings are UTF-8 and whose numbers are Go integers, ParseObject returns
    the members that were encoded, in order and unaltered, and it refuses the
    text exactly when the object is beyond the limits of the boundary. *)
Theorem marshal_ParseObject l m : sendable (JObj l) ->
  ParseObject (marshal (JObj l)) = Done m <->
  VObject m = value_of (JObj l) /\ slen (marshal (JObj l)) <= MaxBodyBytes /\
  fits 0 (VObject m) /\ nodes (VObject m) <= MaxJSONTokens.
Proof. apply marshal_parse. Qed.
Definition sample_object : json :=
  JObj [("kind", JStr (String (char_of 34) (utf8_encode 233 ++ utf8_encode 8232))); ("count", JNum (-120)); ("list", JArr [JBool true; JObj []])].
Lemma marshal_ParseObject_witness :
  ParseObject (marshal sample_object) =
    Done [("kind", VString (String (char_of 34) (utf8_encode 233 ++ utf8_encode 8232))); ("count", VNumber "-120");
          ("list", VArray [VBool true; VObject []])].
Proof.
  refine (proj2 (marshal_ParseObject _ _ _) _); [by vm_compute|]. split_and!; try done.
  cbn. split_and!; try done; apply (bool_decide_unpack _); by vm_compute.
Defined.
Example ParseObject_sample :
  let q := String (char_of 34) "" in
  let a := (q ++ "a" ++ q ++ ":")%string in
  ParseObject ("{" ++ a ++ "[1, {}], " ++ q ++ "b" ++ q ++ ": " ++ q ++ "\u00e9" ++ q ++ "}")
    = Done [("a", VArray [VNumber "1"; VObject []]); ("b", VString (utf8_encode 233))] /\
  ParseObject ("{" ++ a ++ "1," ++ a ++ "2}") = Invalid /\
  ParseObject ("{" ++ a ++ q ++ "\ud800" ++ q ++ "}") = Invalid /\
  ParseObject ("{" ++ a ++ "[1,]}") = Invalid /\ ParseObject ("{} {}") = Invalid.
Proof. split_and!; vm_compute; reflexivity. Qed.
