(* ===== verification/Redact.v ===== *)
(** * internal/redact: what may leave the daemons in logs and exports

    [Document] masks the values of sensitive keys and the strings that look
    like secrets; [safe] lets through only fixed vocabularies and short codes.
    The theorems say that what is masked cannot be told from the output. *)

From S2P Require Import Prelude GoStrings GoJsonParse.

Module Redact.

(** go: internal/redact/redact.go:14-14 Marker *)
Definition Marker : string := "[REDACTED]".

(** [strings.ToLower], as far as ASCII texts can tell: the letters, and the
    two other runes whose lower case is an ASCII letter. *)
Definition lower_chunk (ch : Z * string) : string :=
  if fst ch <? 128 then to_lower (snd ch) else if fst ch =? 304 then "i" else if fst ch =? 8490 then "k" else snd ch.
Definition lower (s : string) : string := foldr (fun ch acc => (lower_chunk ch ++ acc)%string) "" (chunks s).
Definition sensitive_parts : list string :=
  ["password"; "privatekey"; "sharedsecret"; "credential"; "authorization"; "cookie"; "csrf"; "grant"; "token"; "masterkey";
   "keymaterial"; "plaintext"].
(** go: internal/redact/redact.go sensitive *)
Definition sensitive (key : string) : bool :=
  let key := lower (remove_byte "." (remove_byte "-" (remove_byte "_" key))) in
  existsb (contains_sub key) sensitive_parts || (key =s "secret") || (key =s "key").
Definition secret_parts : list string := ["PRIVATE KEY-----"; "ovsg_"; "ovst_"; "ovss_"; "ovsc_"; "$argon2id$"].
(** go: internal/redact/redact.go Text *)
Definition Text (value : string) : string := if existsb (contains_sub value) secret_parts then Marker else value.
(** go: internal/redact/redact.go Document *)
Fixpoint Document (v : value) : value :=
  match v with
  | VObject l => VObject (map (fun kv => (fst kv, if sensitive (fst kv) then VString Marker else Document (snd kv))) l)
  | VArray l => VArray (map Document l)
  | VString s => VString (Text s)
  | _ => v
  end.

(** ** Logs *)

(** A [slog.Value]; [SValuer] is a [LogValuer], which [Resolve] asks. *)
Inductive logged := SString (s : string) | SBool (b : bool) | SGroup (l : list (string * logged)) | SValuer (v : logged) | SOther.
Fixpoint resolve (v : logged) : logged := match v with SValuer v => resolve v | _ => v end.

(** go: internal/redact/redact.go:16-16 eventCode *)
Definition eventCode (s : string) : bool :=
  (1 <=? slen s) && (slen s <=? 96) &&
  forallb (fun b => ((97 <=? b) && (b <=? 122)) || ((65 <=? b) && (b <=? 90)) || is_digit b || (b =? 95) || (b =? 46) || (b =? 45)) (bytes s).
(** go: internal/redact/redact.go:18-27 messages *)
Definition messages : list string :=
  ["mirror_runtime_denied"; "invalid_process_configuration"; "auth_key_initialization_failed"; "auth_key_initialized";
   "database_initialization_failed"; "database_initialized"; "storage_degraded"; "authentication_degraded"; "bootstrap_failed";
   "local_administrator_initialized"; "service_start_failed"; "service_started"; "service_stopped"; "service_stopping";
   "session_key_initialization_failed"; "session_key_initialized"; "invalid_public_api_configuration"; "ipc_request_rejected";
   "security_action_failed"; "security_action_completed"].
(** go: internal/redact/redact.go:31-46 diagnosticValues *)
Definition diagnosticValues : list (string * list string) :=
  [("operation",
     ["runtime.inspect"; "auth.authenticate"; "auth.inspect"; "auth.check"; "auth.reauthenticate"; "auth.revoke"; "security.read";
      "security.execute"; "inventory.read"; "candidate.prepare"; "candidate.read"; "candidate.validate"; "safe.admit";
      "safe.resolve"; "safe.decide"; "tls.execute"; "tls.state"; "handshake"; "health"; "unknown"]);
   ("phase", ["protocol"; "queue"; "operation"]);
   ("error_class",
     ["none"; "ipc_queue_full"; "storage_busy"; "storage_canceled"; "storage_commit_unknown"; "storage_unavailable";
      "storage_not_found"; "deadline_exceeded"; "canceled"; "domain_rejection"; "transport_timeout"; "unclassified"]);
   ("request_state", ["active"; "canceled"; "deadline_exceeded"])].
Definition vocabulary (key : string) : option (list string) :=
  option_map snd (find (fun kv => fst kv =s key) diagnosticValues).
(** go: internal/redact/redact.go safe *)
Fixpoint safe (key : string) (v : logged) : string * logged :=
  if sensitive key then (key, SString Marker)
  else match vocabulary key with
       | Some allowed =>
         match resolve v with
         | SString s => (key, SString (if contains allowed s then s else Marker))
         | _ => (key, SString Marker)
         end
       | None =>
         match v with
         | SGroup attrs => (key, SGroup (map (fun kv => safe (fst kv) (snd kv)) attrs))
         | _ =>
           if contains ["service"; "code"; "scope"] key then
             match resolve v with
             | SString s => (key, SString (if eventCode s && (Text s =s s) then s else Marker))
             | _ => (key, SString Marker)
             end
           else match v with
                | SBool b => if key =s "configuration_ready" then (key, v) else (key, SString Marker)
                | _ => (key, SString Marker)
                end
         end
       end.
(** go: internal/redact/redact.go Handler.Handle *)
Definition Handle (message : string) (attrs : list (string * logged)) : string * list (string * logged) :=
  (if contains messages message then message else "redacted_event", map (fun kv => safe (fst kv) (snd kv)) attrs).
(** go: internal/redact/redact.go Handler.WithGroup *)
Definition WithGroup (name : string) : string := if negb (eventCode name) || sensitive name then "redacted" else name.

(** ** Documents *)

(** Equal as far as the public may know: anything may stand under a sensitive
    key, and any secret for another. *)
Inductive alike : value -> value -> Prop :=
  | A_same v : alike v v
  | A_secret s s' : Text s = Marker -> Text s' = Marker -> alike (VString s) (VString s')
  | A_array l l' : Forall2 alike l l' -> alike (VArray l) (VArray l')
  | A_object l l' : Forall2 (fun kv kv' => fst kv = fst kv' /\ (sensitive (fst kv) = true \/ alike (snd kv) (snd kv'))) l l' ->
      alike (VObject l) (VObject l').
(** Nothing to mask. *)
Fixpoint clean (v : value) : Prop :=
  match v with
  | VString s => Text s = s
  | VArray l => foldr (fun x P => clean x /\ P) True l
  | VObject l => foldr (fun kv P => (if sensitive (fst kv) then snd kv = VString Marker else clean (snd kv)) /\ P) True l
  | _ => True
  end.

Lemma Text_marker : Text Marker = Marker.
Proof. reflexivity. Qed.
Lemma Text_idem s : Text (Text s) = Text s.
Proof. unfold Text. destruct (existsb (contains_sub s) secret_parts) eqn:E; [reflexivity|by rewrite E]. Qed.
Lemma Document_clean : forall v, clean (Document v).
Proof.
  fix IH 1. intros [| | |s|l|l]; cbn; try done; [apply Text_idem| |].
  - induction l as [|v l Hl]; cbn; [done|]. split; [apply IH|done].
  - induction l as [|[k v] l Hl]; cbn; [done|]. split; [|done]. destruct (sensitive k); [done|apply IH].
Qed.
Lemma clean_Document : forall v, clean v -> Document v = v.
Proof.
  fix IH 1. intros [| | |s|l|l]; cbn; intros H; try done; [by rewrite H| |]; f_equal.
  - induction l as [|v l Hl]; cbn in *; [done|]. destruct H as [Hv H]. rewrite (IH _ Hv), Hl by done. done.
  - induction l as [|[k v] l Hl]; cbn in *; [done|]. destruct H as [Hv H]. rewrite Hl by done. f_equal. f_equal.
    destruct (sensitive k); [done|by apply IH].
Qed.
Lemma alike_Document : forall v v', alike v v' -> Document v = Document v'.
Proof.
  fix IH 3. intros v v' [w|s s' H H'|l l' H|l l' H]; cbn; [done|congruence|f_equal..].
  - induction H as [|x y l l' Hx _ Hl]; cbn; [done|]. by rewrite (IH _ _ Hx), Hl.
  - induction H as [|[k x] [k' y] l l' [Ek Hx] _ Hl]; cbn in *; [done|]. subst k'. rewrite Hl. f_equal. f_equal.
    destruct Hx as [->|Hx]; [done|]. by rewrite (IH _ _ Hx).
Qed.

(** C30. A document that leaves the daemon tells nothing of its secrets: two
    documents that differ only under sensitive keys, at any depth, or in
    strings that carry a secret of this system, are redacted to the same
    document; in the result no string carries such a secret and every
    sensitive key holds the marker; and a document is left as it is exactly
    when that is so already. *)
Theorem Document_tells_nothing v :
  (forall v', alike v v' -> Document v = Document v') /\ clean (Document v) /\ (Document v = v <-> clean v).
Proof.
  split_and!; [intros v'; apply alike_Document|apply Document_clean|].
  split; [|apply clean_Document]. intros <-. apply Document_clean.
Qed.
Lemma Document_tells_nothing_witness :
  Document (VObject [("user", VString "ada"); ("api_Token", VString "ovst_1"); ("note", VArray [VString "is ovsg_2"])]) =
  Document (VObject [("user", VString "ada"); ("api_Token", VNull); ("note", VArray [VString "is ovss_3"])]).
Proof.
  apply Document_tells_nothing. apply A_object. constructor; [split; [done|right; apply A_same]|].
  constructor; [split; [done|by left]|]. constructor; [|constructor]. split; [done|right]. apply A_array.
  constructor; [by apply A_secret|constructor].
Defined.

(** ** The log *)

(** What a logged attribute may hold. *)
Fixpoint printable (key : string) (v : logged) : Prop :=
  match v with
  | SString s => s = Marker \/ sensitive key = false /\
      match vocabulary key with
      | Some allowed => In s allowed
      | None => In key ["service"; "code"; "scope"] /\ eventCode s = true /\ Text s = s
      end
  | SBool _ => key = "configuration_ready"
  | SGroup l => sensitive key = false /\ foldr (fun kv P => printable (fst kv) (snd kv) /\ P) True l
  | SValuer _ | SOther => False
  end.
Lemma safe_printable : forall v key, let '(key', v') := safe key v in key' = key /\ printable key v'.
Proof.
  fix IH 1. intros v key. 
  assert (forall s, sensitive key = false -> vocabulary key = None -> contains ["service"; "code"; "scope"] key = true ->
    printable key (SString (if eventCode s && (Text s =s s) then s else Marker))) as Hc.
  { intros s Hs Hv Hk. cbn. destruct (eventCode s) eqn:Ee; [|by left]. destruct (String.eqb_spec (Text s) s); [|by left].
    right. rewrite Hv. split_and!; try done. exact (proj1 (contains_In _ _) Hk). }
  assert (forall s allowed, sensitive key = false -> vocabulary key = Some allowed ->
    printable key (SString (if contains allowed s then s else Marker))) as Hd.
  { intros s allowed Hs Hv. cbn. destruct (contains allowed s) eqn:E; [|by left]. right. rewrite Hv. split; [done|]. exact (proj1 (contains_In _ _) E). }
  destruct v as [s|b|l|w|]; cbn [safe]; (destruct (sensitive key) eqn:Es; [split; [done|by left]|]);
    (destruct (vocabulary key) as [allowed|] eqn:Ev; [cbn [resolve]; try (split; [done|by left]); try (split; [done|by apply Hd])|]).
  - destruct (contains _ key) eqn:Ek; cbn [resolve]; (split; [done|]); [by apply Hc|by left].
  - destruct (contains _ key) eqn:Ek; cbn [resolve]; [by split; [|left]|].
    destruct (String.eqb_spec key "configuration_ready"); (split; [done|]); [done|by left].
  - split; [done|]. cbn. split; [done|]. induction l as [|[k x] l Hl]; cbn; [done|]. split; [|done].
    specialize (IH x k). destruct (safe k x) as [k' x']. by destruct IH as [-> ?].
  - destruct (resolve w); (split; [done|]); (by left) || by apply Hd.
  - cbn [resolve]. destruct (contains _ key) eqn:Ek; [|by split; [|left]]. destruct (resolve w); (split; [done|]); (by left) || by apply Hc.
  - destruct (contains _ key) eqn:Ek; cbn [resolve]; split; done || by left.
Qed.

(** C27. The log is a closed vocabulary: whatever message and attributes a
    caller logs, groups and self-rendering values included, the message that
    is written is one of the fixed ones, and every text in it is the marker,
    a word of the fixed vocabulary of its key, or, for a service, a code or a
    scope, at most 96 letters, digits, dots, dashes and underscores that carry
    no secret. *)
Theorem log_closed message attrs : let '(text, out) := Handle message attrs in
  In text ("redacted_event" :: messages) /\ out.*1 = attrs.*1 /\ Forall (fun kv => printable (fst kv) (snd kv)) out.
Proof.
  unfold Handle. split_and!.
  - destruct (contains messages message) eqn:E; [right; exact (proj1 (contains_In _ _) E)|by left].
  - induction attrs as [|[k v] l IH]; [done|]. cbn. pose proof (safe_printable v k) as H.
    destruct (safe k v) as [k' v']. destruct H as [-> _]. by rewrite IH.
  - induction attrs as [|[k v] l IH]; cbn; constructor; [|done]. pose proof (safe_printable v k) as H.
    destruct (safe k v) as [k' v']. by destruct H as [-> H].
Qed.
End Redact.
