(* ===== verification/GoTime.v ===== *)
(** * package time as the source uses it

    A [time.Time] is its number of nanoseconds since the Unix epoch (UTC);
    durations and timeouts are nanoseconds too. [time_text] is the RFC 3339
    text with nanoseconds that [encoding/json] prints for years 0 to 9999. *)

From S2P Require Import Prelude GoStrings GoJson.

Definition Millisecond : Z := 1000000.
Definition Second : Z := 1000000000.

(** The zero [time.Time], 1 January of year 1. *)
Definition zero_time : Z := -62135596800 * Second.
Definition unix (t : Z) : Z := t / Second.
Definition unix_milli (t : Z) : Z := t / Millisecond.

(** Two's complement wrap-around of a 64-bit integer. *)
Definition int64 (z : Z) : Z := (z + 2 ^ 63) mod 2 ^ 64 - 2 ^ 63.

(** The proleptic Gregorian date of a day number counted from the epoch. *)
Definition civil (day : Z) : Z * Z * Z :=
  let z := day + 719468 in
  let era := z / 146097 in
  let doe := z mod 146097 in
  let yoe := (doe - doe / 1460 + doe / 36524 - doe / 146096) / 365 in
  let doy := doe - (365 * yoe + yoe / 4 - yoe / 100) in
  let mp := (5 * doy + 2) / 153 in
  let d := doy - (153 * mp + 2) / 5 + 1 in
  let m := if mp <? 10 then mp + 3 else mp - 9 in
  (yoe + era * 400 + (if m <=? 2 then 1 else 0), m, d).

Fixpoint pad_zero (width : nat) (s : string) : string :=
  match width with
  | O => s
  | S w => if (String.length s <=? w)%nat then String "0" (pad_zero w s) else s
  end.
Definition digits (width : nat) (n : Z) : string := pad_zero width (format_uint n).
Fixpoint trim_zeros (l : list Z) : list Z :=
  match l with 48 :: r => trim_zeros r | _ => l end.
Definition fraction (ns : Z) : string :=
  if ns =? 0 then ""
  else ("." ++ of_bytes (reverse (trim_zeros (reverse (bytes (digits 9 ns))))))%string.
Definition time_text (t : Z) : string :=
  let s := t / Second in
  let '(y, m, d) := civil (s / 86400) in
  let r := s mod 86400 in
  (digits 4 y ++ "-" ++ digits 2 m ++ "-" ++ digits 2 d ++ "T" ++ digits 2 (r / 3600) ++ ":"
   ++ digits 2 (r / 60 mod 60) ++ ":" ++ digits 2 (r mod 60) ++ fraction (t mod Second) ++ "Z")%string.
Definition time_json (t : Z) : json := JStr (time_text t).

Example time_text_sample : time_text (1700000000 * Second + 120000000) = "2023-11-14T22:13:20.12Z".
Proof. vm_compute. reflexivity. Qed.
Example time_text_zero : time_text zero_time = "0001-01-01T00:00:00Z".
Proof. vm_compute. reflexivity. Qed.

(** ** time.Parse with the layout of RFC 3339

    The texts that a body of the API contract may hold: its schema asserts
    the format [date-time] before the time is parsed. *)

(** The day number of a date, the inverse of [civil]. *)
Definition day_of (y m d : Z) : Z :=
  let y := if m <=? 2 then y - 1 else y in
  let era := y / 400 in
  let yoe := y mod 400 in
  let doy := (153 * (if 2 <? m then m - 3 else m + 9) + 2) / 5 + d - 1 in
  era * 146097 + yoe * 365 + yoe / 4 - yoe / 100 + doy - 719468.
Definition leap (y : Z) : bool := (y mod 4 =? 0) && (negb (y mod 100 =? 0) || (y mod 400 =? 0)).
Definition days_in (y m : Z) : Z :=
  if m =? 2 then (if leap y then 29 else 28)
  else if (m =? 4) || (m =? 6) || (m =? 9) || (m =? 11) then 30 else 31.

(** [n] digits, and what follows them. *)
Fixpoint take_digits (n : nat) (l : list Z) (acc : Z) : option (Z * list Z) :=
  match n, l with
  | O, _ => Some (acc, l)
  | S m, b :: r => if is_digit b then take_digits m r (acc * 10 + (b - 48)) else None
  | S _, [] => None
  end.
Definition field (n : nat) (lo hi : Z) (l : list Z) : option (Z * list Z) :=
  match take_digits n l 0 with
  | Some (v, r) => if (lo <=? v) && (v <=? hi) then Some (v, r) else None
  | None => None
  end.
Definition expect (c : Z) (l : list Z) : option (list Z) :=
  match l with b :: r => if b =? c then Some r else None | [] => None end.
(** Nanoseconds: nine digits count, the others are skipped. *)
Fixpoint nanoseconds (l : list Z) (unit_ acc : Z) : Z * list Z :=
  match l with
  | b :: r => if is_digit b then nanoseconds r (unit_ / 10) (acc + (b - 48) * unit_) else (acc, l)
  | [] => (acc, l)
  end.
Definition fraction_of (l : list Z) : Z * list Z :=
  match l with
  | 46 :: b :: r => if is_digit b then nanoseconds (b :: r) 100000000 0 else (0, l)
  | _ => (0, l)
  end.
(** The offset in seconds, at the end of the text. *)
Definition offset_of (l : list Z) : option Z :=
  match l with
  | [90] => Some 0
  | s :: r =>
    if (s =? 43) || (s =? 45) then
      match field 2 0 23 r with
      | Some (h, r) =>
        match expect 58 r ≫= field 2 0 59 with
        | Some (m, []) => Some ((if s =? 45 then -1 else 1) * (h * 3600 + m * 60))
        | _ => None
        end
      | None => None
      end
    else None
  | [] => None
  end.
Definition parse_rfc3339 (s : string) : option Z :=
  '(y, l) ← field 4 0 9999 (bytes s);
  '(m, l) ← expect 45 l ≫= field 2 1 12;
  '(d, l) ← expect 45 l ≫= field 2 1 (days_in y m);
  '(hour, l) ← expect 84 l ≫= field 2 0 23;
  '(minute, l) ← expect 58 l ≫= field 2 0 59;
  '(second, l) ← expect 58 l ≫= field 2 0 59;
  let '(ns, l) := fraction_of l in
  off ← offset_of l;
  Some ((day_of y m d * 86400 + hour * 3600 + minute * 60 + second - off) * Second + ns).

Example parse_sample : parse_rfc3339 "2023-11-14T22:13:20.12Z" = Some (1700000000 * Second + 120000000).
Proof. vm_compute. reflexivity. Qed.
Example parse_zone : parse_rfc3339 "2024-02-29T01:00:00+02:00" = parse_rfc3339 "2024-02-28T23:00:00Z".
Proof. vm_compute. reflexivity. Qed.
Example parse_no_day : parse_rfc3339 "2023-02-29T01:00:00Z" = None.
Proof. vm_compute. reflexivity. Qed.
