(* ===== verification/ApiTypes.v ===== *)
(** * internal/apitypes: identifiers, references and receipts

    The public transport's primitives. [UUID] recognises the canonical
    lower-case RFC 9562 form, [ManagementID] its random version 4 and
    [RequestTime] reads the millisecond time that [RequestID] writes into a
    version 7 identifier. *)

From S2P Require Import Prelude GoStrings.

(** go: internal/apitypes/types.go Ref *)
Record Ref := mkRef { ref_Kind : string; ref_ID : string }.
#[export] Instance Ref_eq_dec : EqDecision Ref.
Proof. solve_decision. Defined.

(** go: internal/apitypes/types.go Fail *)
Definition Fail (status : Z) (code : string) : error := EFail status code.

Definition byte_at (s : string) (i : nat) (c : ascii) : bool :=
  match String.get i s with Some d => Ascii.eqb d c | None => false end.

(** go: internal/apitypes/types.go UUID *)
Definition UUID (s : string) : bool :=
  if negb (String.length s =? 36)%nat || (s <>s to_lower s)
     || negb (byte_at s 8 "-") || negb (byte_at s 13 "-")
     || negb (byte_at s 18 "-") || negb (byte_at s 23 "-")
  then false
  else match hex_decode (remove_byte "-" s) with
       | Some b =>
         (List.length b =? 16)%nat && (Z.land (nth 8 b 0) 0xc0 =? 0x80)
         && (1 <=? Z.shiftr (nth 6 b 0) 4) && (Z.shiftr (nth 6 b 0) 4 <=? 8)
       | None => false
       end.

(** go: internal/apitypes/types.go RequestTime *)
Definition RequestTime (s : string) : option Z :=
  if negb (UUID s) || negb (byte_at s 14 "7") then None
  else match hex_decode (remove_byte "-" s) with
       | Some b => Some (fold_left (fun n v => Z.lor (Z.shiftl n 8) v) (take 6 b) 0)
       | None => None
       end.

(** go: internal/apitypes/types.go ManagementID *)
Definition ManagementID (s : string) : bool := UUID s && byte_at s 14 "4".

(** The identifier's text for its sixteen bytes, [fmt.Sprintf] of the slices
    of the hexadecimal form. *)
Definition uuid_text (b : list Z) : string :=
  let h := hex_encode b in
  (String.substring 0 8 h ++ "-" ++ String.substring 8 4 h ++ "-" ++ String.substring 12 4 h
   ++ "-" ++ String.substring 16 4 h ++ "-" ++ String.substring 20 12 h)%string.

(** go: internal/apitypes/types.go RequestID

    [rnd] is what the system's random source put into the sixteen bytes;
    [n] is [now.UnixMilli()], whose six low bytes are written big-endian. *)
Definition RequestID (rnd : list Z) (n : Z) : string :=
  let b := (fun i => Z.land (Z.shiftr n (8 * (5 - Z.of_nat i))) 255) <$> seq 0 6 in
  uuid_text (b ++ [Z.lor (Z.land (nth 6 rnd 0) 15) 0x70; nth 7 rnd 0;
                   Z.lor (Z.land (nth 8 rnd 0) 63) 0x80] ++ drop 9 rnd).

(** go: internal/apitypes/types.go Receipt *)
Record Receipt := mkReceipt {
  rc_RequestID : string; rc_Domain : string; rc_Epoch : string; rc_State : string;
  rc_Effect : string; rc_Resource : option Ref; rc_Job : option Ref; rc_CorrelationID : string }.
#[export] Instance Receipt_eq_dec : EqDecision Receipt.
Proof. solve_decision. Defined.

(** go: internal/apitypes/types.go Accepted *)
Record Accepted := mkAccepted {
  ac_RequestID : string; ac_Domain : string; ac_Epoch : string; ac_JobID : string;
  ac_Resource : option Ref; ac_CorrelationID : string }.

(** ** Hexadecimal text *)

Lemma hex_digit_value n : 0 <= n < 16 -> hex_value (byte_of (hex_digit n)) = Some n.
Proof.
  intros H. unfold hex_digit. destruct (Z.ltb_spec n 10); rewrite byte_of_char by lia;
    unfold hex_value, is_digit.
  - rewrite (proj2 (andb_true_iff _ _)); [f_equal; lia|]. bsimp. lia.
  - destruct ((48 <=? 87 + n) && (87 + n <=? 57)) eqn:E; [bsimp; lia|].
    rewrite (proj2 (andb_true_iff _ _)); [f_equal; lia|]. bsimp. lia.
Qed.

Definition hex_text (l : list Z) : Prop := Forall (fun b => 0 <= b < 256) l.

Lemma hex_halves b : 0 <= b < 256 -> 0 <= b / 16 < 16 /\ 0 <= b mod 16 < 16.
Proof.
  intros H. pose proof (Z.div_mod b 16 ltac:(lia)). pose proof (Z.mod_pos_bound b 16 ltac:(lia)). lia.
Qed.

Lemma hex_decode_encode l : hex_text l -> hex_decode (hex_encode l) = Some l.
Proof.
  induction l as [|b l IH]; intros H; [done|]. inversion H as [|? ? Hb Hl]; subst.
  destruct (hex_halves b Hb). cbn [hex_encode hex_decode].
  rewrite !hex_digit_value, IH by done.
  do 2 f_equal. pose proof (Z.div_mod b 16). lia.
Qed.

(** The sixteen digits, one by one. *)
Lemma hex_digit_cases (P : Z -> bool) :
  forallb P (seqZ 0 16) = true -> forall n, 0 <= n < 16 -> P n = true.
Proof. rewrite forallb_forall. intros H n Hn. apply H, list_elem_of_In, elem_of_seqZ. lia. Qed.

Lemma hex_digit_lower n : 0 <= n < 16 -> lower_byte (hex_digit n) = hex_digit n.
Proof.
  intros H. apply Ascii.eqb_eq.
  by apply (hex_digit_cases (fun n => Ascii.eqb (lower_byte (hex_digit n)) (hex_digit n))).
Qed.

Lemma hex_digit_no_dash n : 0 <= n < 16 -> Ascii.eqb (hex_digit n) "-" = false.
Proof.
  intros H. apply negb_true_iff.
  by apply (hex_digit_cases (fun n => negb (Ascii.eqb (hex_digit n) "-"))).
Qed.

(** ** A freshly made request identifier *)

(** Two digits of a byte in front of a text. *)
Definition hex_pair (b : Z) (rest : string) : string :=
  String (hex_digit (b / 16)) (String (hex_digit (b mod 16)) rest).
Definition dash (rest : string) : string := String "-" rest.

(** Only the length of a hexadecimal text matters to [substring]: the text of
    sixteen bytes, byte by byte. *)
Lemma uuid_text_bytes b0 b1 b2 b3 b4 b5 b6 b7 b8 b9 b10 b11 b12 b13 b14 b15 :
  uuid_text [b0; b1; b2; b3; b4; b5; b6; b7; b8; b9; b10; b11; b12; b13; b14; b15]
  = hex_pair b0 (hex_pair b1 (hex_pair b2 (hex_pair b3 (dash (hex_pair b4 (hex_pair b5 (dash
    (hex_pair b6 (hex_pair b7 (dash (hex_pair b8 (hex_pair b9 (dash (hex_pair b10 (hex_pair b11
    (hex_pair b12 (hex_pair b13 (hex_pair b14 (hex_pair b15 ""))))))))))))))))))).
Proof. reflexivity. Qed.

Lemma hex_pair_remove b r :
  0 <= b < 256 -> remove_byte "-" (hex_pair b r) = hex_pair b (remove_byte "-" r).
Proof.
  intros H. destruct (hex_halves b H). unfold hex_pair. cbn [remove_byte].
  by rewrite !hex_digit_no_dash.
Qed.
Lemma hex_pair_lower b r : 0 <= b < 256 -> to_lower (hex_pair b r) = hex_pair b (to_lower r).
Proof.
  intros H. destruct (hex_halves b H). unfold hex_pair. cbn [to_lower].
  by rewrite !hex_digit_lower.
Qed.
Lemma dash_remove r : remove_byte "-" (dash r) = remove_byte "-" r.
Proof. reflexivity. Qed.
Lemma dash_lower r : to_lower (dash r) = dash (to_lower r).
Proof. reflexivity. Qed.

Definition bytes16 (l : list Z) : Prop := List.length l = 16%nat /\ hex_text l.

Ltac explode16 l H :=
  do 16 (destruct l as [|? l]; [discriminate H|]); destruct l; [|discriminate H].

Lemma uuid_text_remove_dash l :
  bytes16 l -> remove_byte "-" (uuid_text l) = hex_encode l.
Proof.
  intros [Hl Hh]. explode16 l Hl. rewrite uuid_text_bytes.
  unfold hex_text in Hh. rewrite !Forall_cons in Hh. destruct_and!.
  rewrite !hex_pair_remove, !dash_remove, !hex_pair_remove, !dash_remove, !hex_pair_remove,
    !dash_remove, !hex_pair_remove, !dash_remove, !hex_pair_remove by done.
  reflexivity.
Qed.

Lemma uuid_text_lower l : bytes16 l -> to_lower (uuid_text l) = uuid_text l.
Proof.
  intros [Hl Hh]. explode16 l Hl. rewrite uuid_text_bytes.
  unfold hex_text in Hh. rewrite !Forall_cons in Hh. destruct_and!.
  rewrite !hex_pair_lower, !dash_lower, !hex_pair_lower, !dash_lower, !hex_pair_lower,
    !dash_lower, !hex_pair_lower, !dash_lower, !hex_pair_lower by done.
  reflexivity.
Qed.

(** The positions of the dashes and of the version digit. *)
Lemma uuid_text_positions l :
  List.length l = 16%nat ->
  String.length (uuid_text l) = 36%nat /\
  byte_at (uuid_text l) 8 "-" = true /\ byte_at (uuid_text l) 13 "-" = true /\
  byte_at (uuid_text l) 18 "-" = true /\ byte_at (uuid_text l) 23 "-" = true /\
  String.get 14 (uuid_text l) = Some (hex_digit (nth 6 l 0 / 16)).
Proof. intros Hl. explode16 l Hl. rewrite uuid_text_bytes. repeat split; reflexivity. Qed.

(** [UUID] on the text of sixteen bytes looks at the variant and version. *)
Lemma UUID_text l :
  bytes16 l ->
  UUID (uuid_text l) =
  (Z.land (nth 8 l 0) 0xc0 =? 0x80) && (1 <=? Z.shiftr (nth 6 l 0) 4) && (Z.shiftr (nth 6 l 0) 4 <=? 8).
Proof.
  intros Hb. destruct (uuid_text_positions l (proj1 Hb)) as (H1 & H2 & H3 & H4 & H5 & _).
  unfold UUID. rewrite H1, H2, H3, H4, H5, uuid_text_lower, uuid_text_remove_dash by done.
  rewrite hex_decode_encode by apply Hb. by rewrite String.eqb_refl, (proj1 Hb).
Qed.

Lemma byte_cases (P : Z -> bool) :
  forallb P (seqZ 0 256) = true -> forall b, 0 <= b < 256 -> P b = true.
Proof. rewrite forallb_forall. intros H b Hb. apply H, list_elem_of_In, elem_of_seqZ. lia. Qed.

Lemma version_byte b : 0 <= b < 256 -> Z.lor (Z.land b 15) 0x70 / 16 = 7 /\ 0 <= Z.lor (Z.land b 15) 0x70 < 256.
Proof.
  intros H. pose proof (byte_cases (fun b => (Z.lor (Z.land b 15) 0x70 / 16 =? 7)
    && (0 <=? Z.lor (Z.land b 15) 0x70) && (Z.lor (Z.land b 15) 0x70 <? 256)) eq_refl b H).
  bsimp. lia.
Qed.

Lemma variant_byte b : 0 <= b < 256 ->
  Z.land (Z.lor (Z.land b 63) 0x80) 0xc0 = 0x80 /\ 0 <= Z.lor (Z.land b 63) 0x80 < 256.
Proof.
  intros H. pose proof (byte_cases (fun b => (Z.land (Z.lor (Z.land b 63) 0x80) 0xc0 =? 0x80)
    && (0 <=? Z.lor (Z.land b 63) 0x80) && (Z.lor (Z.land b 63) 0x80 <? 256)) eq_refl b H).
  bsimp. lia.
Qed.

(** Appending the next byte of a big-endian number. *)
Lemma append_byte n : Z.lor (Z.shiftl (Z.shiftr n 8) 8) (Z.land n 255) = n.
Proof.
  change 255 with (Z.ones 8). apply Z.bits_inj'. intros i Hi.
  rewrite Z.lor_spec, Z.land_spec, Z.shiftl_spec by done.
  destruct (Z.lt_ge_cases i 8).
  - by rewrite Z.testbit_neg_r, Z.ones_spec_low, andb_true_r by lia.
  - rewrite Z.shiftr_spec, Z.ones_spec_high, andb_false_r, orb_false_r by lia. f_equal. lia.
Qed.

Lemma land_255_range n : 0 <= Z.land n 255 < 256.
Proof. change 255 with (Z.ones 8). rewrite Z.land_ones by lia. by apply Z.mod_pos_bound. Qed.

Lemma append_byte_at n k m :
  m = k + 8 -> 0 <= k ->
  Z.lor (Z.shiftl (Z.shiftr n m) 8) (Z.land (Z.shiftr n k) 255) = Z.shiftr n k.
Proof. intros -> Hk. rewrite <- Z.shiftr_shiftr by lia. apply append_byte. Qed.

(** The six bytes, read back after the bits above them. *)
Lemma big_endian_time n :
  fold_left (fun n v => Z.lor (Z.shiftl n 8) v)
    ((fun k => Z.land (Z.shiftr n k) 255) <$> [40; 32; 24; 16; 8; 0]) (Z.shiftr n 48) = n.
Proof.
  cbn -[Z.land Z.lor Z.shiftl Z.shiftr].
  rewrite (append_byte_at n 40 48), (append_byte_at n 32 40), (append_byte_at n 24 32),
    (append_byte_at n 16 24), (append_byte_at n 8 16), (append_byte_at n 0 8) by done.
  apply Z.shiftr_0_r.
Qed.

Lemma request_id_bytes rnd n :
  bytes16 rnd -> exists l, RequestID rnd n = uuid_text l /\ bytes16 l /\
    (exists r6 r8, 0 <= r6 < 256 /\ 0 <= r8 < 256 /\
      nth 6 l 0 = Z.lor (Z.land r6 15) 0x70 /\ nth 8 l 0 = Z.lor (Z.land r8 63) 0x80) /\
    take 6 l = (fun k => Z.land (Z.shiftr n k) 255) <$> [40; 32; 24; 16; 8; 0].
Proof.
  intros [Hl Hh]. explode16 rnd Hl. unfold hex_text in Hh. rewrite !Forall_cons in Hh.
  destruct_and!. eexists. split; [reflexivity|].
  split; [split; [reflexivity|]|split; [|reflexivity]].
  - cbn -[Z.land Z.lor Z.shiftr Z.mul]. unfold hex_text.
    repeat (apply Forall_cons; split); try (apply land_255_range); try done.
    + by apply version_byte.
    + by apply variant_byte.
  - eexists _, _. split; [|split; [|split; reflexivity]]; done.
Qed.

(** [RequestID] makes a valid version 7 identifier whose time is the one it
    was made with, for every random part and every 48-bit millisecond time. *)
Lemma RequestID_roundtrip rnd n :
  bytes16 rnd -> 0 <= n < 2 ^ 48 ->
  UUID (RequestID rnd n) = true /\ RequestTime (RequestID rnd n) = Some n.
Proof.
  intros Hr Hn.
  destruct (request_id_bytes rnd n Hr) as (l & -> & Hl & (r6 & r8 & H6 & H8 & E6 & E8) & Et).
  destruct (version_byte r6 H6) as [Hv _], (variant_byte r8 H8) as [Hw _].
  assert (HU : UUID (uuid_text l) = true).
  { rewrite UUID_text, E6, E8, Hw, Z.shiftr_div_pow2 by done.
    change (2 ^ 4) with 16. by rewrite Hv. }
  split; [done|]. unfold RequestTime. rewrite HU.
  destruct (uuid_text_positions l (proj1 Hl)) as (_ & _ & _ & _ & _ & Hp).
  unfold byte_at. rewrite Hp, E6, Hv.
  rewrite uuid_text_remove_dash, hex_decode_encode, Et by (done || apply Hl).
  pose proof (big_endian_time n) as F.
  rewrite (Z.shiftr_div_pow2 n 48), (Z.div_small n) in F by done. by rewrite F.
Qed.
