(* ===== verification/NetIP.v ===== *)
(** * net/netip: the addresses the source parses

    [ParseAddr], [Addr.String] and the classification methods the tunnel and
    multicast packages call, executable. A V6 address is its eight 16-bit
    groups. *)

From S2P Require Import Prelude GoStrings.

Inductive Addr : Type :=
  | V4 (octets : list Z)
  | V6 (groups : list Z) (zone : string).
#[export] Instance Addr_eq_dec : EqDecision Addr.
Proof. solve_decision. Defined.

(** [parseIPv4Fields]: the octets read so far (newest first), the value and
    the number of digits of the current one. *)
Fixpoint ipv4_fields (s : string) (got : list Z) (val : Z) (digits : nat) : option (list Z) :=
  match s with
  | EmptyString =>
    if (List.length got =? 3)%nat && negb (digits =? 0)%nat then Some (reverse (val :: got)) else None
  | String c r =>
    let b := byte_of c in
    if is_digit b then
      if (digits =? 1)%nat && (val =? 0) then None
      else let v := val * 10 + (b - 48) in
           if 255 <? v then None else ipv4_fields r got v (S digits)
    else if b =? 46 then
      if (digits =? 0)%nat || (List.length got =? 3)%nat then None
      else ipv4_fields r (val :: got) 0 0
    else None
  end.
Definition parse_ipv4 (s : string) : option (list Z) := ipv4_fields s [] 0 0.

(** One hexadecimal field: its value, its length and the rest. *)
Fixpoint hex_field (s : string) (acc : Z) (off : nat) : option (Z * nat * string) :=
  match s with
  | String c r =>
    match hex_value (byte_of c) with
    | Some d => if (3 <? off)%nat then None else hex_field r (acc * 16 + d) (S off)
    | None => Some (acc, off, s)
    end
  | EmptyString => Some (acc, off, s)
  end.

(** The loop of [parseIPv6]: the groups so far (newest first), the place of
    the ellipsis as the number of groups before it. Eight rounds suffice. *)
Fixpoint ipv6_fields (fuel : nat) (s : string) (got : list Z) (ellipsis : option nat)
  : option (list Z * option nat) :=
  match fuel with
  | O => if s =s "" then Some (got, ellipsis) else None
  | S f =>
    match hex_field s 0 0 with
    | None => None
    | Some (acc, off, rest) =>
      if (off =? 0)%nat then None
      else if has_prefix rest "." then
        if is_nil ellipsis && negb (List.length got =? 6)%nat || (6 <? List.length got)%nat then None
        else match parse_ipv4 s with
             | Some [a; b; c; d] => Some ((c * 256 + d) :: (a * 256 + b) :: got, ellipsis)
             | _ => None
             end
      else
        let got' := acc :: got in
        match rest with
        | EmptyString => Some (got', ellipsis)
        | String c r =>
          if negb (byte_of c =? 58) || (r =s "") then None
          else match r with
               | String ":"%char r' =>
                 if not_nil ellipsis then None
                 else if r' =s "" then Some (got', Some (List.length got'))
                 else ipv6_fields f r' got' (Some (List.length got'))
               | _ => ipv6_fields f r got' ellipsis
               end
        end
    end
  end.

Definition zeros8 : list Z := replicate 8 0.
Definition expand (got : list Z) (ellipsis : option nat) : option (list Z) :=
  let l := reverse got in
  let n := (8 - List.length l)%nat in
  match ellipsis with
  | Some e => if (n =? 0)%nat then None else Some (take e l ++ replicate n 0 ++ drop e l)
  | None => if (n =? 0)%nat then Some l else None
  end.

Fixpoint cut_zone (s : string) : string * option string :=
  match s with
  | EmptyString => (EmptyString, None)
  | String c r => if byte_of c =? 37 then (EmptyString, Some r)
                  else let '(h, z) := cut_zone r in (String c h, z)
  end.
Definition parse_ipv6 (s : string) : option Addr :=
  let '(body, zone) := cut_zone s in
  match zone with
  | Some EmptyString => None
  | _ =>
    let z := default EmptyString zone in
    if body =s "::" then Some (V6 zeros8 z)
    else
      let r := if has_prefix body "::"
               then ipv6_fields 8 (String.substring 2 (String.length body - 2) body) [] (Some 0%nat)
               else ipv6_fields 8 body [] None in
      match r with
      | Some (got, e) => match expand got e with Some g => Some (V6 g z) | None => None end
      | None => None
      end
  end.

(** [netip.ParseAddr] *)
Fixpoint first_mark (s : string) : option Z :=
  match s with
  | EmptyString => None
  | String c r => let b := byte_of c in
                  if (b =? 46) || (b =? 58) || (b =? 37) then Some b else first_mark r
  end.
Definition parse_addr (s : string) : option Addr :=
  match first_mark s with
  | Some 46 => V4 <$> parse_ipv4 s
  | Some 58 => parse_ipv6 s
  | _ => None
  end.

(** [Addr.String] *)
Definition ipv4_text (l : list Z) : string := join "." (format_uint <$> l).
Definition hex_group (g : Z) : string :=
  let d n := hex_digit (g / 16 ^ n mod 16) in
  if 4095 <? g then String (d 3) (String (d 2) (String (d 1) (String (d 0) "")))
  else if 255 <? g then String (d 2) (String (d 1) (String (d 0) ""))
  else if 15 <? g then String (d 1) (String (d 0) "")
  else String (d 0) "".
Fixpoint zero_run (l : list Z) : nat :=
  match l with g :: r => if g =? 0 then S (zero_run r) else O | [] => O end.
(** The first longest run of at least two zero groups: start and length. *)
Definition best_run (l : list Z) : option (nat * nat) :=
  fold_left (fun best i =>
    let n := zero_run (drop i l) in
    if (2 <=? n)%nat && match best with Some (_, m) => (m <? n)%nat | None => true end
    then Some (i, n) else best) (seq 0 8) None.
Definition ipv6_text (l : list Z) : string :=
  match best_run l with
  | Some (i, n) =>
    (join ":" (hex_group <$> take i l) ++ "::" ++ join ":" (hex_group <$> drop (i + n) l))%string
  | None => join ":" (hex_group <$> l)
  end.
Definition is4in6 (a : Addr) : bool :=
  match a with
  | V6 [0; 0; 0; 0; 0; 65535; _; _] _ => true
  | _ => false
  end.
Definition unmap (a : Addr) : Addr :=
  match a with
  | V6 [0; 0; 0; 0; 0; 65535; g; h] _ => V4 [g / 256; g mod 256; h / 256; h mod 256]
  | _ => a
  end.
Definition addr_zone (a : Addr) : string := match a with V4 _ => EmptyString | V6 _ z => z end.
Definition addr_text (a : Addr) : string :=
  match a with
  | V4 l => ipv4_text l
  | V6 l z =>
    ((if is4in6 a then match unmap a with V4 o => "::ffff:" ++ ipv4_text o | _ => "" end
      else ipv6_text l) ++ (if z =s "" then "" else "%" ++ z))%string
  end.

(** Classification. *)
Definition is4 (a : Addr) : bool := match a with V4 _ => true | V6 _ _ => false end.
Definition is_multicast (a : Addr) : bool :=
  match unmap a with
  | V4 (x :: _) => Z.land x 0xf0 =? 0xe0
  | V6 (g :: _) _ => g / 256 =? 0xff
  | _ => false
  end.
Definition is_loopback (a : Addr) : bool :=
  match unmap a with
  | V4 (x :: _) => x =? 127
  | V6 g _ => bool_decide (g = [0; 0; 0; 0; 0; 0; 0; 1])
  | _ => false
  end.
Definition is_link_local_unicast (a : Addr) : bool :=
  match unmap a with
  | V4 (x :: y :: _) => (x =? 169) && (y =? 254)
  | V6 (g :: _) _ => Z.land g 0xffc0 =? 0xfe80
  | _ => false
  end.
Definition is_global_unicast (a : Addr) : bool :=
  let b := unmap a in
  negb (bool_decide (b = V4 [0; 0; 0; 0])) && negb (bool_decide (b = V4 [255; 255; 255; 255]))
  && negb (bool_decide (b = V6 zeros8 "")) && negb (is_loopback b)
  && negb (is_multicast b) && negb (is_link_local_unicast b).

Example parse_v6 : addr_text <$> parse_addr "FF02:0:0::0:1234" = Some "ff02::1234"%string.
Proof. vm_compute. reflexivity. Qed.
Example parse_v6_full : addr_text <$> parse_addr "2001:db8:0:0:1:0:0:1" = Some "2001:db8::1:0:0:1"%string.
Proof. vm_compute. reflexivity. Qed.
Example parse_v6_mapped : addr_text <$> parse_addr "::ffff:10.0.0.1" = Some "::ffff:10.0.0.1"%string.
Proof. vm_compute. reflexivity. Qed.
Example parse_v6_bad : parse_addr "1::2::3" = None /\ parse_addr "1:2:3" = None /\ parse_addr "01.2.3.4" = None.
Proof. vm_compute. auto. Qed.

(** ** net.ParseMAC and HardwareAddr.String *)

(** [xtoi2] on the groups of two digits separated by [sep]. *)
Fixpoint mac_pairs (sep : ascii) (s : string) : option (list Z) :=
  match s with
  | String a (String b r) =>
    match hex_value (byte_of a), hex_value (byte_of b) with
    | Some h, Some l =>
      match r with
      | EmptyString => Some [h * 16 + l]
      | String c t =>
        if Ascii.eqb c sep then option_map (cons (h * 16 + l)) (mac_pairs sep t) else None
      end
    | _, _ => None
    end
  | _ => None
  end.
(** The groups of four digits separated by dots. *)
Fixpoint mac_quads (s : string) : option (list Z) :=
  match s with
  | String a (String b (String c (String d r))) =>
    match hex_decode (String a (String b (String c (String d "")))) with
    | Some l =>
      match r with
      | EmptyString => Some l
      | String e t => if Ascii.eqb e "." then option_map (app l) (mac_quads t) else None
      end
    | None => None
    end
  | _ => None
  end.
Definition mac_size (o : option (list Z)) : option (list Z) :=
  match o with
  | Some l => if existsb (Nat.eqb (List.length l)) [6; 8; 20]%nat then Some l else None
  | None => None
  end.
Definition parse_mac (s : string) : option (list Z) :=
  if slen s <? 14 then None
  else match String.get 2 s, String.get 4 s with
       | Some ":"%char, _ => mac_size (mac_pairs ":" s)
       | Some "-"%char, _ => mac_size (mac_pairs "-" s)
       | _, Some "."%char => mac_size (mac_quads s)
       | _, _ => None
       end.
Definition mac_text (l : list Z) : string := join ":" ((fun b => hex_encode [b]) <$> l).

(** ** A four-octet address prints as itself *)

Lemma ipv4_octet a : 0 <= a < 256 -> forall rest got,
  ipv4_fields (format_uint a ++ rest) got 0 0
  = ipv4_fields rest got a (String.length (format_uint a)).
Proof.
  intros Ha.
  assert (HF : Forall (fun a => forall rest got, ipv4_fields (format_uint a ++ rest) got 0 0
    = ipv4_fields rest got a (String.length (format_uint a))) (seqZ 0 256)).
  { let l := eval vm_compute in (seqZ 0 256) in change (seqZ 0 256) with l.
    repeat (apply List.Forall_cons; [intros rest got; reflexivity|]). constructor. }
  rewrite Forall_forall in HF. apply HF, elem_of_seqZ. lia.
Qed.

Lemma format_uint_nonempty n : String.length (format_uint n) <> 0%nat.
Proof.
  unfold format_uint. pose proof (format_go_acc_ne (Z.to_nat (Z.log2 n)) n "") as H.
  by destruct (format_go _ _ _).
Qed.

Lemma ipv4_octet_dot a rest got :
  0 <= a < 256 -> (List.length got < 3)%nat ->
  ipv4_fields (format_uint a ++ String "." rest) got 0 0 = ipv4_fields rest (a :: got) 0 0.
Proof.
  intros Ha Hg. rewrite ipv4_octet by done. cbn -[format_uint].
  pose proof (format_uint_nonempty a).
  destruct (Nat.eqb_spec (String.length (format_uint a)) 0); [done|].
  destruct (Nat.eqb_spec (List.length got) 3); [lia|done].
Qed.

(** [ParseAddr(ip.String())] gives every IPv4 address back. *)
Lemma parse_ipv4_text a b c d :
  0 <= a < 256 -> 0 <= b < 256 -> 0 <= c < 256 -> 0 <= d < 256 ->
  parse_ipv4 (ipv4_text [a; b; c; d]) = Some [a; b; c; d].
Proof.
  intros Ha Hb Hc Hd. unfold parse_ipv4, ipv4_text, join. cbn [fmap list_fmap String.concat].
  assert (Hdot : forall x, ("." ++ x)%string = String "." x) by reflexivity.
  rewrite !Hdot, (ipv4_octet_dot a), (ipv4_octet_dot b), (ipv4_octet_dot c)
    by (try done; simpl; lia).
  rewrite <- (string_app_nil_r (format_uint d)), ipv4_octet by done. cbn -[format_uint].
  pose proof (format_uint_nonempty d). by destruct (String.length (format_uint d)).
Qed.
