(* ===== verification/Multicast.v ===== *)
(** * internal/multicast: Bridge snooping configuration and group replies

    [Validate] and [Merge] (config.go) are the closed native configuration
    codec of the candidate's multicast intents; [DecodeGroups] (groups.go)
    reads one bounded [mdb/show] reply and never shortens it silently. *)

From S2P Require Import Prelude GoStrings NetIP.

Module Multicast.

(** ** config.go *)

(** go: internal/multicast/config.go Keys *)
Definition Keys : list string :=
  ["mcast-snooping-aging-time"; "mcast-snooping-table-size"; "mcast-snooping-disable-flood-unregistered"].

(** go: internal/multicast/config.go Configuration *)
Record Configuration := mkConfiguration {
  Enabled : bool;
  Parameters : gmap string (option string) }.
#[global] Instance Configuration_eq_dec : EqDecision Configuration.
Proof. solve_decision. Defined.

(** go: internal/multicast/config.go Request *)
Record Request := mkRequest {
  req_Enabled : bool;
  req_Parameters : gmap string (option string) }.

(** go: internal/multicast/config.go Clone

    The copy shares no pointer with the original; values are immutable here,
    so cloning is the identity on contents. *)
Definition Clone (c : Configuration) : Configuration :=
  mkConfiguration (Enabled c) (map_fold (fun k v out => <[k := v]> out) ∅ (Parameters c)).

(** The check of one key in the loop of [Validate]. *)
(** go: internal/multicast/config.go:42-67 Validate *)
Definition validate_key (c : Configuration) (key : string) : result unit :=
  match Parameters c !! key with
  | None => Err (ENew "MULTICAST_CONFIGURATION_INVALID")
  | Some None => Ok tt
  | Some (Some value) =>
    if key =s "mcast-snooping-disable-flood-unregistered" then
      fail_if (value <>s "true") && (value <>s "false") with ENew "MULTICAST_BOOLEAN_INVALID" ;;
      Ok tt
    else
      match parse_int value 32 with
      | None => Err (ENew "MULTICAST_INTEGER_INVALID")
      | Some n =>
        fail_if format_int n <>s value with ENew "MULTICAST_INTEGER_INVALID" ;;
        let '(min, max) :=
          if key =s "mcast-snooping-table-size" then (10, 1000000) else (15, 3600) in
        fail_if (n <? min) || (max <? n) with ENew "MULTICAST_INTEGER_OUT_OF_RANGE" ;;
        Ok tt
      end
  end.

Fixpoint validate_keys (c : Configuration) (keys : list string) : result unit :=
  match keys with
  | [] => Ok tt
  | k :: r => let? _ := validate_key c k in validate_keys c r
  end.

(** go: internal/multicast/config.go Validate *)
Definition Validate (c : Configuration) : result unit :=
  fail_if negb (Z.of_nat (size (Parameters c)) =? len Keys) with ENew "MULTICAST_CONFIGURATION_INVALID" ;;
  validate_keys c Keys.

(** The loop of [Merge] over the request's entries, in some map order. *)
Fixpoint merge_entries (out : Configuration) (l : list (string * option string)) : result Configuration :=
  match l with
  | [] => Ok out
  | (key, value) :: r =>
    match Parameters out !! key with
    | None => Err (ENew "MULTICAST_PARAMETER_UNSUPPORTED")
    | Some _ => merge_entries (mkConfiguration (Enabled out) (<[key := value]> (Parameters out))) r
    end
  end.

(** go: internal/multicast/config.go Merge *)
Definition Merge (original : Configuration) (request : Request) : result Configuration :=
  let? _ := Validate original in
  let out := Clone original in
  let out := mkConfiguration (req_Enabled request) (Parameters out) in
  let? out := merge_entries out (map_to_list (req_Parameters request)) in
  let? _ := Validate out in
  Ok out.

(** ** groups.go *)

(** go: internal/multicast/groups.go MaxGroupWire *)
Definition MaxGroupWire : Z := Z.shiftl 64 10.
(** go: internal/multicast/groups.go MaxGroups *)
Definition MaxGroups : Z := 256.

(** go: internal/multicast/groups.go Group *)
Record Group := mkGroup {
  Port : Z; VLAN : Z; Protocol : string; Address : string; Router : bool; Age : Z }.
#[export] Instance Group_eq_dec : EqDecision Group.
Proof. solve_decision. Defined.

Definition unproven : error := ENew "MULTICAST_GROUP_REPLY_UNPROVEN".

(** The first column: LOCAL, or a canonical native port number. *)
(** go: internal/multicast/groups.go:46-53 DecodeGroups *)
Definition decode_port (f : string) : result Z :=
  if f =s "LOCAL" then Ok 65534
  else match parse_uint f 16 with
       | None => Err unproven
       | Some port =>
         fail_if (port =? 0) || (65280 <=? port) || (format_uint port <>s f) with unproven ;;
         Ok port
       end.

(** go: internal/multicast/groups.go:59-78 DecodeGroups *)
Definition decode_member (proto addr : string) : result (string * bool) :=
  if addr =s "querier" then
    fail_if proto <>s "UNKNOWN" with unproven ;; Ok (EmptyString, true)
  else
    fail_if negb (contains ["IGMPv1"; "IGMPv2"; "IGMPv3"; "MLDv1"; "MLDv2"] proto) with unproven ;;
    match parse_addr addr with
    | None => Err unproven
    | Some ip =>
      fail_if (addr_zone ip <>s "") || negb (is_multicast ip) with unproven ;;
      fail_if negb (Bool.eqb (has_prefix proto "IGMP") (is4 ip)) with unproven ;;
      Ok (addr_text ip, false)
    end.

(** go: internal/multicast/groups.go:79-82 DecodeGroups *)
Definition group_key (port vlan : Z) (address : string) (router : bool) : string :=
  (format_uint port ++ "/" ++ format_uint vlan ++ "/" ++ address ++ (if router then "/router" else ""))%string.

(** go: internal/multicast/groups.go:42-87 DecodeGroups *)
Definition decode_row (line : string) : result Group :=
  match fields line with
  | [f0; f1; f2; f3; f4] =>
    let? port := decode_port f0 in
    match parse_uint f1 12, parse_uint f4 32 with
    | Some vlan, Some age =>
      fail_if (4094 <? vlan) || (format_uint vlan <>s f1) || (format_uint age <>s f4) with unproven ;;
      let? (address, router) := decode_member f2 f3 in
      Ok (mkGroup port vlan f2 address router age)
    | _, _ => Err unproven
    end
  | _ => Err unproven
  end.

Definition key_of (g : Group) : string := group_key (Port g) (VLAN g) (Address g) (Router g).

Fixpoint decode_rows (lines : list string) (out : list Group) (seen : list string) : result (list Group) :=
  match lines with
  | [] => Ok (reverse out)
  | line :: r =>
    fail_if MaxGroups <=? len out with unproven ;;
    let? g := decode_row line in
    fail_if contains seen (key_of g) with unproven ;;
    decode_rows r (g :: out) (key_of g :: seen)
  end.

(** go: internal/multicast/groups.go DecodeGroups *)
Definition DecodeGroups (data : string) : result (list Group) :=
  fail_if (slen data =? 0) || (MaxGroupWire <? slen data) || negb (utf8_valid data) with unproven ;;
  fail_if existsb (fun c => (127 <=? c) || ((c <? 32) && negb (c =? 10) && negb (c =? 9))) (bytes data)
    with unproven ;;
  match split_on (char_of 10) (trim_space data) with
  | [] => Err unproven
  | header :: rows =>
    fail_if join " " (fields header) <>s "port VLAN protocol GROUP Age" with unproven ;;
    decode_rows rows [] []
  end.

(** ** Configuration: what [Validate] accepts *)

(** A parameter's value in its qualified range, in canonical decimal. *)
Definition value_ok (key value : string) : Prop :=
  if key =s "mcast-snooping-disable-flood-unregistered" then value = "true" \/ value = "false"
  else exists n, value = format_int n /\
    if key =s "mcast-snooping-table-size" then 10 <= n <= 1000000 else 15 <= n <= 3600.

Definition well_formed (c : Configuration) : Prop :=
  dom (Parameters c) = list_to_set Keys /\
  forall key value, Parameters c !! key = Some (Some value) -> value_ok key value.

Lemma validate_key_ok c key :
  validate_key c key = Ok tt <->
  exists o, Parameters c !! key = Some o /\ forall v, o = Some v -> value_ok key v.
Proof.
  unfold validate_key, value_ok. destruct (Parameters c !! key) as [[v|]|]; cycle 1.
  { split; [|done]. intros _. by exists None. }
  { split; [done|]. by intros (o & ? & _). }
  transitivity (if key =s "mcast-snooping-disable-flood-unregistered" then v = "true" \/ v = "false"
    else exists n, v = format_int n /\
      if key =s "mcast-snooping-table-size" then 10 <= n <= 1000000 else 15 <= n <= 3600).
  2: { split; [intros H; eexists; split; [done|]; by intros ? [= <-] |].
       intros (o & [= <-] & H). by apply H. }
  destruct (key =s "mcast-snooping-disable-flood-unregistered").
  { destruct ((v <>s "true") && (v <>s "false")) eqn:E; bsimp; intuition congruence. }
  set (lo := if key =s "mcast-snooping-table-size" then 10 else 15).
  set (hi := if key =s "mcast-snooping-table-size" then 1000000 else 3600).
  transitivity (exists n, v = format_int n /\ lo <= n <= hi); cycle 1.
  { unfold lo, hi. by destruct (key =s "mcast-snooping-table-size"). }
  assert (Hlo : 0 <= lo) by (unfold lo; destruct (key =s _); lia).
  assert (Hhi : hi < 2 ^ 31) by (unfold hi; destruct (key =s _); lia).
  transitivity (match parse_int v 32 with
    | Some n => format_int n = v /\ lo <= n <= hi | None => False end).
  { destruct (parse_int v 32) as [n|]; [|done]. unfold lo, hi.
    destruct (key =s "mcast-snooping-table-size");
      (destruct (String.eqb_spec (format_int n) v); cbn; [|intuition discriminate]);
      (destruct (_ || _) eqn:E; bsimp; split; intros; [discriminate|lia|split; [done|lia]|done]). }
  split.
  - destruct (parse_int v 32) as [n|]; [|done]. intros [<- ?]. by exists n.
  - intros (n & -> & Hn). by rewrite parse_int_format by lia.
Qed.

Lemma validate_keys_ok c keys :
  validate_keys c keys = Ok tt <-> Forall (fun k => validate_key c k = Ok tt) keys.
Proof.
  induction keys as [|k keys IH]; cbn; [done|]. rewrite Forall_cons, <- IH.
  destruct (validate_key c k) as [[]|e]; split; [done|by intros []|discriminate|by intros []].
Qed.

Lemma Keys_NoDup : NoDup Keys.
Proof. by apply (bool_decide_unpack _). Qed.

(** [Validate] accepts exactly the configurations that hold the three managed
    keys and nothing else, each unset or a canonical value in its range: a
    requested integer is never clamped or normalised. *)
Lemma Validate_ok c : Validate c = Ok tt <-> well_formed c.
Proof.
  unfold Validate, well_formed. rewrite <- size_dom.
  assert (Hsz : size (list_to_set Keys : gset string) = 3%nat) by done.
  destruct (_ =? _) eqn:E; cbn [negb]; bsimp.
  - rewrite validate_keys_ok, Forall_forall. setoid_rewrite validate_key_ok. split.
    + intros H. assert (Hd : dom (Parameters c) = list_to_set Keys).
      { symmetry. apply set_subseteq_size_eq; [|rewrite Hsz; unfold len in E; cbn in E; lia].
        intros k Hk. apply elem_of_list_to_set in Hk. destruct (H k Hk) as (o & Ho & _).
        apply elem_of_dom. eauto. }
      split; [done|]. intros k v Hv.
      assert (Hk : k ∈ Keys) by (apply (elem_of_list_to_set (C := gset string)); rewrite <- Hd;
        apply elem_of_dom; eauto).
      destruct (H k Hk) as (o & Ho & Hok). apply Hok. congruence.
    + intros [Hd Hv] k Hk.
      apply (elem_of_list_to_set (C := gset string)) in Hk. rewrite <- Hd in Hk.
      apply elem_of_dom in Hk as [o Ho]. exists o. split; [done|]. intros v ->. eauto.
  - split; [done|]. intros [Hd _]. rewrite Hd, Hsz in E. exfalso. by apply E.
Qed.

Lemma Clone_id c : Clone c = c.
Proof.
  destruct c as [en ps]. unfold Clone. cbn. f_equal.
  apply (map_fold_weak_ind (fun out m => out = m)); [done|]. by intros k v m r _ ->.
Qed.

Lemma merge_entries_spec l : forall out res,
  NoDup l.*1 ->
  merge_entries out l = Ok res <->
  Forall (fun kv => is_Some (Parameters out !! fst kv)) l /\
  res = mkConfiguration (Enabled out) (list_to_map l ∪ Parameters out).
Proof.
  induction l as [|[k v] l IH]; intros out res Hnd; cbn.
  { rewrite (left_id_L ∅ (∪)). destruct out; cbn. split; [intros [= <-]; auto|by intros [_ ->]]. }
  apply NoDup_cons in Hnd as [Hk Hnd]. rewrite Forall_cons; cbn.
  destruct (Parameters out !! k) as [o|] eqn:Eo.
  2: { split; [done|]. intros [[[] _] _]. congruence. }
  rewrite IH by done. cbn.
  assert (HF : Forall (fun kv => is_Some (<[k:=v]> (Parameters out) !! kv.1)) l <->
               Forall (fun kv => is_Some (Parameters out !! kv.1)) l).
  { apply Forall_iff. intros [k' v']. cbn. destruct (decide (k = k')) as [->|Hne].
    - rewrite lookup_insert_eq, Eo. split; eauto.
    - by rewrite lookup_insert_ne. }
  rewrite HF. rewrite <- insert_union_l, insert_union_r by by apply not_elem_of_list_to_map_1.
  intuition eauto.
Qed.

(** [Merge] succeeds exactly when the original is valid, every requested key
    is managed and the outcome is valid; the outcome has the requested value
    for a requested key, removal included, and the captured one otherwise.
    In particular the map order of the request does not matter. *)
Lemma Merge_ok original request out :
  Merge original request = Ok out <->
  well_formed original /\ well_formed out /\
  dom (req_Parameters request) ⊆ dom (Parameters original) /\
  Enabled out = req_Enabled request /\
  Parameters out = req_Parameters request ∪ Parameters original.
Proof.
  unfold Merge. rewrite Clone_id. rewrite <- !Validate_ok.
  destruct (Validate original) as [[]|e]; [|split; [done|by intros []]].
  set (start := mkConfiguration (req_Enabled request) (Parameters original)).
  pose proof (merge_entries_spec (map_to_list (req_Parameters request)) start out
    (NoDup_fst_map_to_list _)) as Hm. rewrite list_to_map_to_list in Hm. cbn in Hm.
  assert (Hdom : Forall (fun kv => is_Some (Parameters original !! fst kv))
      (map_to_list (req_Parameters request)) <-> dom (req_Parameters request) ⊆ dom (Parameters original)).
  { rewrite Forall_forall. split.
    - intros H k [v Hv]%elem_of_dom. apply elem_of_dom.
      by apply (H (k, v)), elem_of_map_to_list.
    - intros H [k v] Hkv%elem_of_map_to_list. apply elem_of_dom, H, elem_of_dom. by eexists. }
  rewrite Hdom in Hm. destruct out as [en ps]; cbn in *. split.
  - intros H. destruct (merge_entries start _) as [o|] eqn:Eo; [|done].
    destruct (Validate o) as [[]|] eqn:Ev; [|done]. injection H as ->.
    destruct (proj1 Hm eq_refl) as [? [= -> ->]]. eauto 10.
  - intros (_ & Hv & Hs & -> & ->). rewrite (proj2 Hm) by done. by rewrite Hv.
Qed.

(** ** Group replies *)

(** What a decoded row may hold: a native port or the local one, a VLAN the
    switch can use, and a querier only as a router row. *)
Definition row_ok (g : Group) : Prop :=
  (1 <= Port g < 65280 \/ Port g = 65534) /\ 0 <= VLAN g <= 4094 /\ 0 <= Age g < 2 ^ 32 /\
  (if Router g then Protocol g = "UNKNOWN"%string /\ Address g = ""%string
   else exists ip, Address g = addr_text ip /\ is_multicast ip = true /\ addr_zone ip = ""%string /\
        is4 ip = has_prefix (Protocol g) "IGMP" /\
        In (Protocol g) ["IGMPv1"; "IGMPv2"; "IGMPv3"; "MLDv1"; "MLDv2"]%string).

Lemma decode_port_ok f p : decode_port f = Ok p -> 1 <= p < 65280 \/ p = 65534.
Proof.
  unfold decode_port. intros H. ok_inv; [by right|].
  match goal with E : parse_uint _ _ = Some _ |- _ => apply parse_uint_range in E end.
  bsimp. lia.
Qed.

Lemma decode_row_ok line g : decode_row line = Ok g -> row_ok g.
Proof.
  unfold decode_row, decode_member. intros H. ok_inv; bsimp; destruct_and?;
    repeat match goal with E : parse_uint _ _ = Some _ |- _ => apply parse_uint_range in E end;
    match goal with E : decode_port _ = Ok _ |- _ => apply decode_port_ok in E end;
    unfold row_ok; cbn; (split; [done|]; split; [lia|]; split; [lia|]).
  - done.
  - eexists. split; [done|]. repeat split; try done.
Qed.

(** [DecodeGroups] returns at most 256 rows, each well formed, no two of them
    for the same port, VLAN and group; every other reply is an error. *)
Lemma decode_rows_ok lines : forall out seen res,
  decode_rows lines out seen = Ok res ->
  Forall row_ok out -> seen = key_of <$> out -> NoDup seen -> len out <= MaxGroups ->
  Forall row_ok res /\ NoDup (key_of <$> res) /\ len res <= MaxGroups /\
  len res = len out + len lines.
Proof.
  induction lines as [|line lines IH]; intros out seen res H HF -> Hnd Hlen; cbn in H.
  - injection H as <-. repeat split.
    + by apply Forall_reverse.
    + rewrite fmap_reverse. by rewrite (reverse_Permutation (key_of <$> out)).
    + unfold len in *. by rewrite length_reverse.
    + unfold len in *. rewrite length_reverse. cbn. lia.
  - ok_inv. bsimp. match goal with E : decode_row _ = Ok _ |- _ => apply decode_row_ok in E end.
    apply IH in H; [|by constructor|done| |unfold len in *; cbn; lia].
    + destruct H as (? & ? & ? & Hl). split_and!; try done. unfold len in *. cbn [List.length] in *. lia.
    + constructor; [|done]. by rewrite list_elem_of_In.
Qed.

Lemma DecodeGroups_ok data res :
  DecodeGroups data = Ok res ->
  Forall row_ok res /\ NoDup (key_of <$> res) /\ len res <= MaxGroups /\
  len res = len (split_on (char_of 10) (trim_space data)) - 1.
Proof.
  unfold DecodeGroups. intros H. ok_inv.
  apply decode_rows_ok in H; [|done|done|constructor|done].
  destruct H as (? & ? & ? & ?). split_and!; try done. unfold len in *. cbn [List.length] in *. lia.
Qed.

End Multicast.
