(* ===== verification/Mirror.v ===== *)
(** * internal/mirror: Mirror selectors and their native image

    [Validate] (config.go) is the qualified range of a Mirror session;
    [Fields] and [Decode] (native.go) translate it to and from the private
    native image, through the management-identity/UUID translation of the
    caller. Native values are the [any] trees of the provider, for which the
    JSON values of [GoJson] are used. *)

From S2P Require Import Prelude GoStrings GoJson ApiTypes.

Module Mirror.

(** go: internal/mirror/config.go MaxSelectedPorts *)
Definition MaxSelectedPorts : Z := 32.
(** go: internal/mirror/config.go MaxSelectedVLANs *)
Definition MaxSelectedVLANs : Z := 256.

(** A nil slice is [None]: [Validate] refuses it.
    go: internal/mirror/config.go Configuration *)
Record Configuration := mkConfiguration {
  SelectAll : bool;
  SourcePorts : option (list string);
  DestinationPorts : option (list string);
  VLANs : option (list string);
  OutputPort : option string;
  OutputVLAN : option string;
  Snaplen : option string }.
#[global] Instance Configuration_eq_dec : EqDecision Configuration.
Proof. solve_decision. Defined.

(** The elements of a slice; a nil slice has none. *)
Definition elems (o : option (list string)) : list string := default [] o.

(** go: internal/mirror/config.go ValidName *)
Definition ValidName (name : string) : bool :=
  (name <>s "") && (slen name <=? 64) && utf8_valid name && (trim_space name =s name)
  && negb (contains_any name ",:") && negb (existsb is_control (runes name)).

(** go: internal/mirror/config.go decimal *)
Definition decimal (value : string) (min max : Z) : bool :=
  if (value =s "") || (5 <? slen value) || ((1 <? slen value) && byte_at value 0 "0") then false
  else match parse_go value 0 with
       | Some n => (min <=? n) && (n <=? max)
       | None => false
       end.

(** The loop over one list of port references.
    go: internal/mirror/config.go:53-61 Validate *)
Fixpoint ports_ok (ids seen : list string) : bool :=
  match ids with
  | [] => true
  | id :: r => if negb (ManagementID id) || contains seen id then false else ports_ok r (id :: seen)
  end.

(** go: internal/mirror/config.go:70-78 Validate *)
Fixpoint vlans_ok (values seen : list string) : bool :=
  match values with
  | [] => true
  | v :: r => if negb (decimal v 0 4094) || contains seen v then false else vlans_ok r (v :: seen)
  end.

(** go: internal/mirror/config.go Validate *)
Definition Validate (c : Configuration) : result unit :=
  let src := elems (SourcePorts c) in
  let dst := elems (DestinationPorts c) in
  let vlans := elems (VLANs c) in
  fail_if is_nil (SourcePorts c) || is_nil (DestinationPorts c) || is_nil (VLANs c)
          || (MaxSelectedPorts <? len src) || (MaxSelectedPorts <? len dst)
          || (MaxSelectedVLANs <? len vlans)
    with ENew "MIRROR_SELECTOR_BUDGET_OR_UNKNOWN" ;;
  fail_if negb (ports_ok src [] && ports_ok dst []) with ENew "MIRROR_PORT_REFERENCE_INVALID" ;;
  fail_if negb (SelectAll c) && (len src + len dst =? 0) with ENew "MIRROR_SELECTION_EMPTY" ;;
  fail_if SelectAll c && negb (len src + len dst =? 0) with ENew "MIRROR_SELECT_ALL_CONFLICT" ;;
  fail_if negb (vlans_ok vlans []) with ENew "MIRROR_VLAN_SELECTOR_INVALID" ;;
  fail_if Bool.eqb (is_nil (OutputPort c)) (is_nil (OutputVLAN c))
    with ENew "MIRROR_EXACTLY_ONE_OUTPUT_REQUIRED" ;;
  fail_if match OutputPort c with
          | Some p => negb (ManagementID p) || contains src p || contains dst p
          | None => false
          end with ENew "MIRROR_OUTPUT_PORT_CONFLICT" ;;
  fail_if match OutputVLAN c with
          | Some v => negb (decimal v 1 4094) || contains vlans v
          | None => false
          end with ENew "MIRROR_OUTPUT_VLAN_CONFLICT" ;;
  fail_if match Snaplen c with Some v => negb (decimal v 14 65535) | None => false end
    with ENew "MIRROR_SNAPLEN_INVALID" ;;
  Ok tt.

(** [slices.Compact]: equal neighbours become one. *)
Fixpoint compact (l : list string) : list string :=
  match l with
  | x :: (y :: _) as r => if x =s y then compact r else x :: compact r
  | _ => l
  end.
(** [slices.Sort] followed by [slices.Compact].
    go: internal/mirror/config.go PortIDs *)
Definition PortIDs (c : Configuration) : list string :=
  let out := elems (SourcePorts c) ++ elems (DestinationPorts c)
             ++ match OutputPort c with Some p => [p] | None => [] end in
  compact (merge_sort (fun a b => Is_true (String.leb a b)) out).

(** ** native.go *)

(** The translation of a list of native values; ports are resolved.
    go: internal/mirror/native.go:18-36 Decode *)
Fixpoint decode_values (resolve : option (string -> option string)) (values : list json)
  : result (list string) :=
  match values with
  | [] => Ok []
  | JStr text :: r =>
    match (match resolve with Some f => f text | None => Some text end) with
    | None => Err (ENew "MIRROR_PORT_BINDING_UNPROVEN")
    | Some t => let? rest := decode_values resolve r in Ok (t :: rest)
    end
  | _ :: _ => Err (ENew "MIRROR_CONFIGURATION_UNKNOWN")
  end.

Definition decode_set (raw : gmap string json) (key : string) (limit : Z)
    (resolve : option (string -> option string)) : result (list string) :=
  match raw !! key with
  | Some (JArr values) =>
    fail_if limit <? len values with ENew "MIRROR_CONFIGURATION_UNKNOWN" ;;
    decode_values resolve values
  | _ => Err (ENew "MIRROR_CONFIGURATION_UNKNOWN")
  end.

(** go: internal/mirror/native.go:37-55 Decode *)
Definition decode_opt (raw : gmap string json) (key : string)
    (resolve : option (string -> option string)) : result (option string) :=
  let? l := decode_set raw key 1 resolve in Ok (head l).

(** go: internal/mirror/native.go:58-72 Decode *)
Definition decode_filter (raw : gmap string json) : result unit :=
  match raw !! "filter" with
  | None => Ok tt
  | Some (JArr []) => Ok tt
  | Some (JArr [JStr text]) =>
    fail_if text <>s "" with ENew "MIRROR_ADVANCED_FILTER_UNQUALIFIED" ;; Ok tt
  | Some _ => Err (ENew "MIRROR_CONFIGURATION_UNKNOWN")
  end.

(** The Go code visits the keys in map order, which can only change which
    error is reported.
    go: internal/mirror/native.go Decode *)
Definition Decode (raw : gmap string json) (resolve : string -> option string) : result Configuration :=
  match raw !! "select_all" with
  | Some (JBool all) =>
    let? src := decode_set raw "select_src_port" MaxSelectedVLANs (Some resolve) in
    let? dst := decode_set raw "select_dst_port" MaxSelectedVLANs (Some resolve) in
    let? vlans := decode_set raw "select_vlan" MaxSelectedVLANs None in
    let? oport := decode_opt raw "output_port" (Some resolve) in
    let? ovlan := decode_opt raw "output_vlan" None in
    let? snap := decode_opt raw "snaplen" None in
    let? _ := decode_filter raw in
    let c := mkConfiguration all (Some src) (Some dst) (Some vlans) oport ovlan snap in
    let? _ := Validate c in
    Ok c
  | _ => Err (ENew "MIRROR_CONFIGURATION_UNKNOWN")
  end.

Fixpoint resolve_all (resolve : string -> option string) (l : list string) : result (list json) :=
  match l with
  | [] => Ok []
  | id :: r =>
    match resolve id with
    | Some u =>
      fail_if negb (UUID u) with ENew "MIRROR_PORT_BINDING_UNPROVEN" ;;
      let? rest := resolve_all resolve r in Ok (JStr u :: rest)
    | None => Err (ENew "MIRROR_PORT_BINDING_UNPROVEN")
    end
  end.
Definition opt_list (o : option string) : list string := match o with Some v => [v] | None => [] end.

(** go: internal/mirror/native.go Fields *)
Definition Fields (c : Configuration) (resolve : string -> option string) : result (gmap string json) :=
  let? _ := Validate c in
  let? src := resolve_all resolve (elems (SourcePorts c)) in
  let? dst := resolve_all resolve (elems (DestinationPorts c)) in
  let? oport := resolve_all resolve (opt_list (OutputPort c)) in
  Ok (<["select_all" := JBool (SelectAll c)]>
     (<["select_src_port" := JArr src]>
     (<["select_dst_port" := JArr dst]>
     (<["select_vlan" := JArr (JStr <$> elems (VLANs c))]>
     (<["output_port" := JArr oport]>
     (<["output_vlan" := JArr (JStr <$> opt_list (OutputVLAN c))]>
     (<["snaplen" := JArr (JStr <$> opt_list (Snaplen c))]> (∅ : gmap string json)))))))).

(** ** What [Validate] accepts *)

(** A canonical decimal of at most five digits in the range. *)
Lemma decimal_spec value min max :
  0 <= min -> max < 100000 ->
  decimal value min max = true <-> exists n, value = format_uint n /\ min <= n <= max.
Proof.
  intros Hmin Hmax. unfold decimal. split.
  - destruct value as [|c r]; [done|]. destruct (_ || _) eqn:E; [done|].
    destruct (parse_go (String c r) 0) as [n|] eqn:En; [|done].
    intros H. bsimp. exists n. split; [|lia]. symmetry. apply canonical_text with (n := n); [|done].
    destruct E as [[_ _] [Hs|Hz]].
    + left. destruct r; [done|]. unfold slen in Hs. cbn in Hs. lia.
    + right. intros E48. unfold byte_at in Hz. cbn in Hz.
      assert (c = "0"%char) as -> by (by apply byte_of_inj). done.
  - intros (n & -> & Hn).
    pose proof (parse_go_format n ltac:(lia)) as Hp. rewrite Hp.
    replace ((min <=? n) && (n <=? max)) with true by (symmetry; bsimp; lia).
    enough (((format_uint n =s "") || (5 <? slen (format_uint n)))
      || (1 <? slen (format_uint n)) && byte_at (format_uint n) 0 "0" = false) as -> by done.
    bsimp. split; [split|].
    + intros E. unfold format_uint in E. by apply format_go_acc_ne in E.
    + apply (format_uint_length n 5); lia.
    + destruct (format_uint_no_zero n ltac:(lia)) as [?|Hz]; [by left|right].
      unfold byte_at. destruct (String.get 0 _) as [d|]; [|done].
      apply Ascii.eqb_neq. congruence.
Qed.

(** The closed configuration the manager may write. *)
Record valid (c : Configuration) : Prop := {
  v_known : (not_nil (SourcePorts c) && not_nil (DestinationPorts c) && not_nil (VLANs c)) = true;
  v_budget : len (elems (SourcePorts c)) <= 32 /\ len (elems (DestinationPorts c)) <= 32
             /\ len (elems (VLANs c)) <= 256;
  v_ports : NoDup (elems (SourcePorts c)) /\ NoDup (elems (DestinationPorts c)) /\
    Forall (fun id => ManagementID id = true) (elems (SourcePorts c) ++ elems (DestinationPorts c));
  v_selection : SelectAll c = true <-> elems (SourcePorts c) = [] /\ elems (DestinationPorts c) = [];
  v_vlans : NoDup (elems (VLANs c)) /\
    Forall (fun v => exists n, v = format_uint n /\ 0 <= n <= 4094) (elems (VLANs c));
  v_output : match OutputPort c, OutputVLAN c with
    | Some p, None => ManagementID p = true /\ ~ In p (elems (SourcePorts c)) /\ ~ In p (elems (DestinationPorts c))
    | None, Some v => (exists n, v = format_uint n /\ 1 <= n <= 4094) /\ ~ In v (elems (VLANs c))
    | _, _ => False
    end;
  v_snaplen : forall v, Snaplen c = Some v -> exists n, v = format_uint n /\ 14 <= n <= 65535 }.

Lemma list_ok_spec (P : string -> bool) (f : list string -> list string -> bool) :
  (forall seen, f [] seen = true) ->
  (forall x r seen, f (x :: r) seen = if negb (P x) || contains seen x then false else f r (x :: seen)) ->
  forall l seen, f l seen = true <-> Forall (fun x => P x = true) l /\ NoDup l /\ Forall (fun x => x ∉ seen) l.
Proof.
  intros H0 H1 l. induction l as [|x l IH]; intros seen.
  { rewrite H0. split; [|done]. by repeat constructor. }
  rewrite H1, !Forall_cons, NoDup_cons.
  destruct (negb (P x) || contains seen x) eqn:E; bsimp.
  - split; [done|]. intros ([] & _ & [Hs _]). destruct E as [|E]; [congruence|].
    exfalso. by apply Hs, list_elem_of_In.
  - destruct E as [E1 E2]. rewrite IH. setoid_rewrite elem_of_cons.
    rewrite <- list_elem_of_In in E2. split.
    + intros (? & ? & HF). rewrite Forall_forall in HF. split_and!; try done.
      * intros Hx. apply (HF x Hx). by left.
      * rewrite Forall_forall. intros y Hy Hs. apply (HF y Hy). by right.
    + intros ([] & [Hx ?] & [_ HF]). split_and!; try done.
      rewrite Forall_forall in HF |- *. intros y Hy [->|Hs]; [done|]. by apply (HF y Hy).
Qed.

Lemma ports_ok_spec l : ports_ok l [] = true <-> Forall (fun x => ManagementID x = true) l /\ NoDup l.
Proof.
  rewrite (list_ok_spec ManagementID ports_ok) by done. split; [tauto|].
  intros [? ?]. split_and!; try done. apply Forall_forall. intros x _. apply not_elem_of_nil.
Qed.

Lemma vlans_ok_spec l : vlans_ok l [] = true <->
  Forall (fun v => exists n, v = format_uint n /\ 0 <= n <= 4094) l /\ NoDup l.
Proof.
  rewrite (list_ok_spec (fun v => decimal v 0 4094) vlans_ok) by done.
  assert (HF : Forall (fun v => decimal v 0 4094 = true) l <->
    Forall (fun v => exists n, v = format_uint n /\ 0 <= n <= 4094) l).
  { apply Forall_iff. intros v. by apply decimal_spec. }
  rewrite HF. split; [tauto|].
  intros [? ?]. split_and!; try done. apply Forall_forall. intros x _. apply not_elem_of_nil.
Qed.

Lemma len_nil_sum {A} (a b : list A) : len a + len b = 0 <-> a = [] /\ b = [].
Proof. unfold len. destruct a, b; cbn; split; try done; try lia; by intros []. Qed.

(** [Validate] accepts exactly the valid configurations. *)
Lemma Validate_valid c : Validate c = Ok tt <-> valid c.
Proof.
  unfold Validate, MaxSelectedPorts, MaxSelectedVLANs. split.
  - intros H. ok_inv. bsimp. rewrite !ports_ok_spec, ?vlans_ok_spec, ?len_nil_sum in *. destruct_and?.
    constructor.
    + bsimp. eauto.
    + done.
    + rewrite Forall_app. tauto.
    + split.
      * intros Ha. rewrite Ha in *. destruct_or?; try done.
      * intros Hn. destruct (SelectAll c) eqn:Ha; [done|]. destruct_or?; done.
    + done.
    + destruct (OutputPort c), (OutputVLAN c); cbn in *; try done; bsimp; destruct_and?;
        rewrite ?list_elem_of_In, ?decimal_spec in * by done; auto.
    + intros v Ev. destruct (Snaplen c); [|done]. simplify_eq. bsimp. by apply decimal_spec.
  - intros [Hk [Hs [Hd Hv]] (N1 & N2 & HF) Hsel Hvl Hout Hsnap]. bsimp. destruct_and?.
    rewrite Forall_app in HF. destruct HF as [HF1 HF2].
    rewrite (proj2 (ports_ok_spec _)), (proj2 (ports_ok_spec _)), (proj2 (vlans_ok_spec _)) by tauto.
    destruct (_ || _) eqn:E; [bsimp; destruct_or?; destruct_ex; (congruence || lia)|]. clear E. cbn [negb andb].
    assert (Ha : SelectAll c = (len (elems (SourcePorts c)) + len (elems (DestinationPorts c)) =? 0)).
    { apply eq_true_iff_eq. by rewrite Z.eqb_eq, len_nil_sum. }
    rewrite <- Ha, andb_negb_l, andb_negb_r.
    destruct (OutputPort c) as [p|], (OutputVLAN c) as [v|]; try done; cbn [is_nil Bool.eqb].
    + destruct Hout as (Hp & Ho1 & Ho2). rewrite <- contains_not_In in Ho1, Ho2.
      rewrite Hp, Ho1, Ho2. cbn. destruct (Snaplen c) as [s|]; [|done].
      by rewrite (proj2 (decimal_spec s 14 65535 ltac:(done) ltac:(done)) (Hsnap s eq_refl)).
    + destruct Hout as (Hp & Ho1). rewrite <- contains_not_In in Ho1.
      rewrite (proj2 (decimal_spec v 1 4094 ltac:(done) ltac:(done)) Hp), Ho1. cbn.
      destruct (Snaplen c) as [s|]; [|done].
      by rewrite (proj2 (decimal_spec s 14 65535 ltac:(done) ltac:(done)) (Hsnap s eq_refl)).
Qed.

(** ** The native image *)

Lemma decode_resolve_all to_uuid to_id l out :
  (forall id u, to_uuid id = Some u -> to_id u = Some id) ->
  resolve_all to_uuid l = Ok out -> decode_values (Some to_id) out = Ok l.
Proof.
  intros Hinv. revert out. induction l as [|id l IH]; intros out H; cbn in H; [by simplify_eq|].
  ok_inv. cbn. rewrite (Hinv _ _ E). by rewrite (IH _ eq_refl).
Qed.

Lemma resolve_all_length f l out : resolve_all f l = Ok out -> List.length out = List.length l.
Proof.
  revert out. induction l as [|id l IH]; intros out H; cbn in H; [by simplify_eq|].
  ok_inv. cbn. f_equal. by apply IH.
Qed.

Lemma decode_strings l : decode_values None (JStr <$> l) = Ok l.
Proof. induction l as [|v l IH]; [done|]. cbn. by rewrite IH. Qed.

Lemma opt_list_head o : head (opt_list o) = o.
Proof. by destruct o. Qed.
Lemma opt_list_len o : (1 <? len (opt_list o)) = false.
Proof. by destruct o. Qed.

Lemma len_resolved f l out : resolve_all f l = Ok out -> len out = len l.
Proof. intros H. unfold len. by rewrite (resolve_all_length _ _ _ H). Qed.

(** Writing a configuration and reading its native image back is the
    identity, for any pair of translations of which the second inverts the
    first; no selector, output or snap length is lost or renumbered. *)
Lemma Decode_Fields c to_uuid to_id raw :
  (forall id u, to_uuid id = Some u -> to_id u = Some id) ->
  Fields c to_uuid = Ok raw -> Decode raw to_id = Ok c.
Proof.
  intros Hinv H. unfold Fields in H.
  destruct (Validate c) as [[]|] eqn:Hv; [|done]. pose proof Hv as Hvalid. apply Validate_valid in Hvalid.
  destruct Hvalid as [Hk (Hs & Hd & Hl) _ _ _ _ _].
  destruct c as [all src dst vl op ov sn]. cbn in *.
  destruct src as [src|], dst as [dst|], vl as [vl|]; try discriminate Hk. cbn in *.
  destruct (resolve_all to_uuid src) as [js|] eqn:Es; [|done].
  destruct (resolve_all to_uuid dst) as [jd|] eqn:Ed; [|done].
  destruct (resolve_all to_uuid (opt_list op)) as [jo|] eqn:Eo; [|done]. injection H as <-.
  unfold Decode, decode_opt, decode_set, decode_filter, MaxSelectedVLANs.
  rewrite ?lookup_insert_eq, ?lookup_insert_ne, ?lookup_empty by done.
  repeat (rewrite lookup_insert_eq || (rewrite lookup_insert_ne by done)). rewrite ?lookup_empty.
  pose proof (len_resolved _ _ _ Es). pose proof (len_resolved _ _ _ Ed).
  pose proof (len_resolved _ _ _ Eo) as Ho.
  assert (Hf : len (JStr <$> vl) = len vl) by (unfold len; by rewrite length_fmap).
  assert (Hov : len (JStr <$> opt_list ov) = len (opt_list ov)) by (unfold len; by rewrite length_fmap).
  assert (Hsn : len (JStr <$> opt_list sn) = len (opt_list sn)) by (unfold len; by rewrite length_fmap).
  rewrite Hf, Ho, Hov, Hsn, !opt_list_len.
  rewrite !(proj2 (Z.ltb_ge _ _)) by lia.
  rewrite (decode_resolve_all _ _ _ _ Hinv Es), (decode_resolve_all _ _ _ _ Hinv Ed),
    (decode_resolve_all _ _ _ _ Hinv Eo), !decode_strings, !opt_list_head.
  by rewrite Hv.
Qed.

End Mirror.
