(* ===== verification/Tunnel.v ===== *)
(** * internal/tunnel: the native static tunnel configuration *)

From S2P Require Import Prelude GoStrings GoJson NetIP.

Module Tunnel.

(** go: internal/tunnel/config.go Types *)
Definition Types : list string := ["vxlan"; "geneve"; "gre"].
(** go: internal/tunnel/config.go Keys *)
Definition Keys : list string := ["remote_ip"; "local_ip"; "key"; "dst_port"].

(** go: internal/tunnel/config.go Configuration *)
Record Configuration := mkConfiguration {
  Type_ : string;
  Options : gmap string string }.
#[global] Instance Configuration_eq_dec : EqDecision Configuration.
Proof. solve_decision. Defined.

(** go: internal/tunnel/config.go Request *)
Record Request := mkRequest {
  req_Type : string;
  req_Options : gmap string (option string) }.

(** [c.Options[k]]: a missing key reads as the empty string. *)
Definition option_of (c : Configuration) (k : string) : string := default EmptyString (Options c !! k).

(** go: internal/tunnel/config.go endpoint *)
Definition endpoint (s : string) : option Addr :=
  match parse_addr s with
  | Some a =>
    if (addr_zone a =s "") && negb (is4in6 a) && (addr_text a =s s) && is_global_unicast a
       && negb (is_loopback a) && negb (is_link_local_unicast a)
    then Some a else None
  | None => None
  end.

(** go: internal/tunnel/config.go integer *)
Definition integer (s : string) (min max : Z) : bool :=
  match parse_uint s 64 with
  | Some n => (min <=? n) && (n <=? max) && (format_uint n =s s)
  | None => false
  end.

Definition dynamic_keys : list string := ["remote_ip"; "local_ip"; "key"; "in_key"; "out_key"].

(** go: internal/tunnel/config.go Validate *)
Definition Validate (c : Configuration) : result unit :=
  fail_if negb (contains Types (Type_ c)) with ENew "TUNNEL_TYPE_UNSUPPORTED" ;;
  fail_if existsb (fun kv => (snd kv =s "flow") && contains dynamic_keys (fst kv)) (map_to_list (Options c))
    with ENew "TUNNEL_DYNAMIC_READ_ONLY" ;;
  fail_if existsb (fun kv => negb (contains Keys (fst kv))) (map_to_list (Options c))
    with ENew "TUNNEL_ADVANCED_OPTIONS_READ_ONLY" ;;
  match endpoint (option_of c "remote_ip") with
  | None => Err (ENew "TUNNEL_STATIC_REMOTE_IP_REQUIRED")
  | Some remote =>
    fail_if (Type_ c =s "gre") && negb (is4 remote) with ENew "TUNNEL_GRE_IPV4_REQUIRED" ;;
    fail_if match Options c !! "local_ip" with
            | Some value =>
              match endpoint value with
              | Some local => negb (Bool.eqb (is4 local) (is4 remote)) || bool_decide (local = remote)
              | None => true
              end
            | None => false
            end with ENew "TUNNEL_LOCAL_IP_INVALID" ;;
    fail_if match Options c !! "key" with
            | Some value => negb (integer value 0 (if Type_ c =s "gre" then 4294967295 else 16777215))
            | None => false
            end with ENew "TUNNEL_KEY_OUT_OF_RANGE" ;;
    fail_if match Options c !! "dst_port" with
            | Some value => (Type_ c =s "gre") || negb (integer value 1 65535)
            | None => false
            end with ENew "TUNNEL_DESTINATION_PORT_INVALID" ;;
    Ok tt
  end.

Fixpoint merge_options (opts : gmap string string) (l : list (string * option string))
  : result (gmap string string) :=
  match l with
  | [] => Ok opts
  | (k, v) :: r =>
    fail_if negb (contains Keys k) with ENew "INVALID_TUNNEL_OPTION" ;;
    merge_options (match v with None => delete k opts | Some s => <[k := s]> opts end) r
  end.

(** go: internal/tunnel/config.go Merge *)
Definition Merge (before : Configuration) (r : Request) : result Configuration :=
  let typ := if req_Type r <>s "" then req_Type r else Type_ before in
  let? opts := merge_options (Options before) (map_to_list (req_Options r)) in
  let after := mkConfiguration typ opts in
  let? _ := Validate after in
  Ok after.

Fixpoint decode_options (opts : gmap string string) (l : list (string * json))
  : result (gmap string string) :=
  match l with
  | [] => Ok opts
  | (k, JStr s) :: r =>
    fail_if (128 <? slen k) || (4096 <? slen s) with ENew "TUNNEL_OPTIONS_UNKNOWN" ;;
    decode_options (<[k := s]> opts) r
  | _ :: _ => Err (ENew "TUNNEL_OPTIONS_UNKNOWN")
  end.

(** [raw] is [None] when the native value is not a map.
    go: internal/tunnel/config.go Decode *)
Definition Decode (typ : string) (raw : option (gmap string json)) : result Configuration :=
  match raw with
  | None => Err (ENew "TUNNEL_OPTIONS_UNKNOWN")
  | Some m =>
    fail_if 128 <? Z.of_nat (size m) with ENew "TUNNEL_OPTIONS_UNKNOWN" ;;
    let? opts := decode_options ∅ (map_to_list m) in
    let c := mkConfiguration typ opts in
    let? _ := Validate c in
    Ok c
  end.

(** go: internal/tunnel/config.go NativeIdentity *)
Definition NativeIdentity (c : Configuration) : result string :=
  let? _ := Validate c in
  let key := option_of c "key" in
  let key := if key =s "" then "0"%string else key in
  Ok (Type_ c ++ "/" ++ option_of c "remote_ip" ++ "/" ++ option_of c "local_ip" ++ "/" ++ key)%string.

(** ** What [Validate] accepts *)

(** [integer] accepts exactly the canonical decimals of the range. *)
Lemma integer_spec s min max :
  0 <= min -> max < 2 ^ 64 ->
  integer s min max = true <-> exists n, s = format_uint n /\ min <= n <= max.
Proof.
  intros Hmin Hmax. unfold integer. split.
  - destruct (parse_uint s 64) as [n|]; [|done]. intros H. bsimp. exists n. intuition congruence.
  - intros (n & -> & Hn). rewrite parse_format_uint by lia. rewrite String.eqb_refl. bsimp. lia.
Qed.

Lemma existsb_map_false {A} (P : string * A -> bool) (m : gmap string A) :
  existsb P (map_to_list m) = false <-> forall k v, m !! k = Some v -> P (k, v) = false.
Proof.
  split.
  - intros H k v Hk. apply not_true_iff_false. intros HP. rewrite <- not_true_iff_false in H.
    apply H, existsb_exists. exists (k, v). split; [|done].
    by apply list_elem_of_In, elem_of_map_to_list.
  - intros H. apply not_true_iff_false. intros (kv & Hin & HP)%existsb_exists.
    destruct kv as [k v]. apply list_elem_of_In, elem_of_map_to_list in Hin.
    by rewrite (H k v Hin) in HP.
Qed.

(** A static tunnel the manager may write: a known type, only the four
    managed options, a routable remote end, a different local end of the same
    family, a key and a UDP port in the range of the type. *)
Record valid (c : Configuration) : Prop := {
  v_type : In (Type_ c) Types;
  v_keys : forall k v, Options c !! k = Some v -> In k Keys;
  v_static : forall k v, Options c !! k = Some v -> In k dynamic_keys -> v <> "flow"%string;
  v_remote : exists remote, endpoint (option_of c "remote_ip") = Some remote /\
    (Type_ c = "gre"%string -> is4 remote = true) /\
    (forall v, Options c !! "local_ip" = Some v ->
       exists local, endpoint v = Some local /\ is4 local = is4 remote /\ local <> remote);
  v_key : forall v, Options c !! "key" = Some v -> exists n, v = format_uint n /\
    0 <= n <= (if Type_ c =s "gre" then 4294967295 else 16777215);
  v_port : forall v, Options c !! "dst_port" = Some v ->
    Type_ c <> "gre"%string /\ exists n, v = format_uint n /\ 1 <= n <= 65535 }.

Lemma Validate_static c : Validate c = Ok tt <-> valid c.
Proof.
  unfold Validate. split.
  - intros H. ok_inv. rewrite existsb_map_false in *. bsimp.
    constructor.
    + done.
    + intros k v Hk. match goal with E : forall k v, _ -> negb (contains _ _) = false |- _ =>
        specialize (E k v Hk) end. by bsimp.
    + intros k v Hk Hd ->. match goal with E : forall k v, _ -> _ && _ = false |- _ =>
        specialize (E k _ Hk); cbn [fst snd] in E; rewrite String.eqb_refl in E end.
      bsimp. by destruct_or?.
    + eexists. split; [done|]. split.
      * intros Hg. destruct_or?; done.
      * intros v Hv. rewrite Hv in *. destruct (endpoint v) as [local|]; [|done]. exists local.
        bsimp. destruct_and?. done.
    + intros v Hv. rewrite Hv in *. bsimp. apply integer_spec; [done|destruct (Type_ c =s "gre"); lia|done].
    + intros v Hv. rewrite Hv in *. bsimp. destruct_and?. split; [done|]. by apply integer_spec.
  - intros [Ht Hk Hs (remote & Hr & Hg & Hl) Hkey Hp].
    ok_guard E; [bsimp; done|].
    ok_guard E.
    { rewrite existsb_exists in E. destruct E as ([k v] & Hin & E). cbn [fst snd] in E. bsimp.
      destruct E as [-> Hd]. apply list_elem_of_In, elem_of_map_to_list in Hin. by apply (Hs k _ Hin Hd). }
    ok_guard E.
    { rewrite existsb_exists in E. destruct E as ([k v] & Hin & E). cbn [fst snd] in E. bsimp.
      apply list_elem_of_In, elem_of_map_to_list in Hin. by apply E, (Hk k v). }
    rewrite Hr. ok_guard E.
    { bsimp. destruct E as [Et E]. rewrite Hg in E; done. }
    ok_guard E.
    { destruct (Options c !! "local_ip") as [v|] eqn:Ev; [|done].
      destruct (Hl v eq_refl) as (local & E1 & E2 & Hne).
      rewrite E1, E2, Bool.eqb_reflx in E. bsimp. by destruct E. }
    ok_guard E.
    { destruct (Options c !! "key") as [v|] eqn:Ev; [|done]. bsimp.
      apply not_true_iff_false in E. apply E, integer_spec, Hkey; [done|destruct (Type_ c =s "gre"); lia|done]. }
    ok_guard E; [|done].
    destruct (Options c !! "dst_port") as [v|] eqn:Ev; [|done]. destruct (Hp v eq_refl) as [Hn Hr'].
    bsimp. destruct E as [E|E]; [done|].
    apply not_true_iff_false in E. by apply E, integer_spec.
Qed.

(** ** Merging a request *)

Lemma merge_options_spec l : forall opts out,
  NoDup l.*1 ->
  merge_options opts l = Ok out <->
  Forall (fun kv => In (fst kv) Keys) l /\
  forall k, out !! k = match (list_to_map l : gmap string (option string)) !! k with
                       | Some v => v | None => opts !! k end.
Proof.
  induction l as [|[k v] l IH]; intros opts out Hnd; cbn.
  { split; [intros [= ->]; done|]. intros [_ H]. f_equal. apply map_eq. intros i.
    by rewrite H, lookup_empty. }
  apply NoDup_cons in Hnd as [Hk Hnd]. rewrite Forall_cons. cbn.
  destruct (contains Keys k) eqn:Ec; cbn [negb]; bsimp.
  2: { split; [done|]. by intros [[? _] _]. }
  rewrite IH by done. apply (not_elem_of_list_to_map_1 (M := gmap string)) in Hk. cbn [fst] in Hk.
  split.
  - intros [HF H]. split; [done|]. intros i. rewrite H. destruct (decide (k = i)) as [<-|Hne].
    + rewrite Hk, lookup_insert_eq. destruct v; by rewrite ?lookup_insert_eq, ?lookup_delete_eq.
    + rewrite lookup_insert_ne by done.
      destruct v; by rewrite ?lookup_insert_ne, ?lookup_delete_ne by done.
  - intros [[_ HF] H]. split; [done|]. intros i. rewrite H. destruct (decide (k = i)) as [<-|Hne].
    + rewrite Hk, lookup_insert_eq. destruct v; by rewrite ?lookup_insert_eq, ?lookup_delete_eq.
    + rewrite lookup_insert_ne by done.
      destruct v; by rewrite ?lookup_insert_ne, ?lookup_delete_ne by done.
Qed.

(** [Merge] keeps every option the request does not name, replaces or removes
    the named ones, and succeeds exactly when the outcome is a valid static
    tunnel and every named option is managed. *)
Lemma Merge_static before r after :
  Merge before r = Ok after <->
  valid after /\ (forall k, is_Some (req_Options r !! k) -> In k Keys) /\
  Type_ after = (if req_Type r =s "" then Type_ before else req_Type r) /\
  forall k, Options after !! k = match req_Options r !! k with
                                 | Some v => v | None => Options before !! k end.
Proof.
  unfold Merge.
  rewrite <- (Validate_static after).
  assert (HF : Forall (fun kv => In (fst kv) Keys) (map_to_list (req_Options r)) <->
               forall k, is_Some (req_Options r !! k) -> In k Keys).
  { rewrite Forall_forall. split.
    - intros H k [v Hv]. by apply (H (k, v)), elem_of_map_to_list.
    - intros H [k v] Hin%elem_of_map_to_list. apply H. eauto. }
  assert (Hm : forall out, merge_options (Options before) (map_to_list (req_Options r)) = Ok out <->
    (forall k, is_Some (req_Options r !! k) -> In k Keys) /\
    forall k, out !! k = match req_Options r !! k with Some v => v | None => Options before !! k end).
  { intros out. rewrite merge_options_spec by apply NoDup_fst_map_to_list.
    by rewrite HF, list_to_map_to_list. }
  destruct after as [ty opts]; cbn [Type_ Options]. split.
  - intros H. destruct (merge_options _ _) as [o|] eqn:Eo; [|done].
    destruct (Validate _) as [[]|] eqn:Ev; [|done]. injection H as <- <-.
    destruct (proj1 (Hm o) eq_refl) as [H1 H2]. split_and!; try done. by destruct (req_Type r =s "").
  - intros (Hv & H1 & -> & H2).
    rewrite (proj2 (Hm opts) (conj H1 H2)).
    destruct (req_Type r =s ""); cbn [negb] in *; by rewrite Hv.
Qed.

End Tunnel.
