(* ===== verification/SpanningTree.v ===== *)
(** * internal/spanningtree: STP and RSTP parameters and their transitions

    [Validate] checks the seven basic Bridge keys, [ParseRuntime] reads the
    daemon's report, and the Assess functions decide which parameter changes
    the daemon's setters install, forward and back. *)

From S2P Require Import Prelude GoStrings GoJson NetIP.

Module SpanningTree.

(** go: internal/spanningtree/parameters.go Check *)
Record Check := mkCheck { check_Code : string; check_Fields : list string }.
(** go: internal/spanningtree/parameters.go Validation *)
Record Validation := mkValidation { State : string; Checks : list Check }.
(** go: internal/spanningtree/parameters.go Unavailable *)
Definition Unavailable (state : string) : Validation := mkValidation state [].

Definition add (v : Validation) (code : string) (fields : list string) : Validation :=
  mkValidation "invalid" (Checks v ++ [mkCheck code fields]).

(** The [read] closure: the checks so far, and the value when it is usable.
    go: internal/spanningtree/parameters.go:47-71 Validate *)
Definition read (other : gmap string json) (v : Validation) (key : string) (fallback min max : Z)
  : Validation * option Z :=
  match other !! key with
  | None => (v, Some fallback)
  | Some raw =>
    match raw with
    | JStr text =>
      if (text =s "") || (128 <? slen text) || negb (all_digits text)
      then (add v "SPANNING_TREE_INTEGER_REQUIRED" [key], None)
      else match parse_uint text 64 with
           | Some n => if (n <? min) || (max <? n)
                       then (add v "SPANNING_TREE_PARAMETER_RANGE" [key], None)
                       else (v, Some n)
           | None => (add v "SPANNING_TREE_PARAMETER_RANGE" [key], None)
           end
    | _ => (add v "SPANNING_TREE_INTEGER_REQUIRED" [key], None)
    end
  end.

Definition add_if (b : bool) (v : Validation) (code : string) (fields : list string) : Validation :=
  if b then add v code fields else v.
(** A relation between two values is checked when both are usable. *)
Definition both (f : Z -> Z -> bool) (x y : option Z) : bool :=
  match x, y with Some a, Some b => f a b | _, _ => false end.

(** An explicit hello time other than one second is not installed as written.
    go: internal/spanningtree/parameters.go:82-93 Validate *)
Definition caveat (o : gmap string json) (v : Validation) (hello : option Z) : Validation :=
  match o !! "stp-hello-time", hello with
  | Some _, Some h =>
    if negb (h =? 1)
    then mkValidation (if State v =s "valid" then "runtime-unverified" else State v)
           (Checks v ++ [mkCheck "STP_HELLO_TIME_NATIVE_UNIT_CAVEAT" ["stp-hello-time"]])
    else v
  | _, _ => v
  end.

(** go: internal/spanningtree/parameters.go Validate *)
Definition Validate (stp rstp : option bool) (other : option (gmap string json)) : Validation :=
  let v := Unavailable "valid" in
  match stp, rstp, other with
  | Some s, Some r, Some o =>
    let v := add_if (s && r) v "STP_RSTP_MUTUALLY_EXCLUSIVE" ["stp_enable"; "rstp_enable"] in
    let '(v, _) := read o v "stp-priority" 32768 0 65535 in
    let '(v, hello) := read o v "stp-hello-time" 2 1 10 in
    let '(v, age) := read o v "stp-max-age" 20 6 40 in
    let '(v, delay) := read o v "stp-forward-delay" 15 4 30 in
    let v := add_if (both (fun h a => a <? 2 * (h + 1)) hello age) v
               "STP_MAX_AGE_HELLO_RELATION" ["stp-max-age"; "stp-hello-time"] in
    let v := add_if (both (fun a d => 2 * (d - 1) <? a) age delay) v
               "STP_FORWARD_DELAY_MAX_AGE_RELATION" ["stp-forward-delay"; "stp-max-age"] in
    let v := caveat o v hello in
    let '(v, priority) := read o v "rstp-priority" 32768 0 61440 in
    let v := add_if (match priority with Some p => negb (p mod 4096 =? 0) | None => false end) v
               "RSTP_PRIORITY_MULTIPLE_4096" ["rstp-priority"] in
    let '(v, age) := read o v "rstp-max-age" 20 6 40 in
    let '(v, delay) := read o v "rstp-forward-delay" 15 4 30 in
    add_if (both (fun a d => 2 * (d - 1) <? a) age delay) v
      "RSTP_FORWARD_DELAY_MAX_AGE_RELATION" ["rstp-forward-delay"; "rstp-max-age"]
  | _, _, _ => mkValidation "unknown" []
  end.

(** ** The daemon's report *)

Definition MaxRuntimeBytes : Z := 131072.

(** go: internal/spanningtree/runtime.go Timers *)
Record Timers := mkTimers { HelloTime : Z; MaxAge : Z; ForwardDelay : Z }.
#[export] Instance Timers_eq_dec : EqDecision Timers.
Proof. solve_decision. Defined.
(** go: internal/spanningtree/runtime.go LocalParameters *)
Record LocalParameters := mkLocal { Priority : Z; SystemID : string; LTimers : Timers }.
#[export] Instance LocalParameters_eq_dec : EqDecision LocalParameters.
Proof. solve_decision. Defined.
(** go: internal/spanningtree/runtime.go Runtime *)
Record Runtime := mkRuntime {
  rt_Protocol : string; BridgeName : string; Local : LocalParameters;
  OperationalTimers : option Timers }.

(** go: internal/spanningtree/runtime.go:44-49 RuntimeName *)
Fixpoint name_chars (first : bool) (l : list Z) : bool :=
  match l with
  | [] => true
  | c :: r =>
    (((97 <=? c) && (c <=? 122)) || ((65 <=? c) && (c <=? 90)) || ((48 <=? c) && (c <=? 57))
     || (negb first && ((c =? 95) || (c =? 45) || (c =? 46)))) && name_chars false r
  end.
(** go: internal/spanningtree/runtime.go RuntimeName *)
Definition RuntimeName (name : string) : bool :=
  negb ((slen name =? 0) || (15 <? slen name)) && name_chars true (runes name).

Definition bad : error := ENew "SPANNING_TREE_RUNTIME_INVALID".
Definition sections : Type := gmap string (gmap string string).
Definition root_id : string := "Root ID:".
Definition bridge_id : string := "Bridge ID:".
Definition runtime_keys : list string :=
  ["stp-priority"; "stp-system-id"; "stp-hello-time"; "stp-max-age"; "stp-fwd-delay"].

Record scan := mkScan { sec : sections; section : string; footer : bool }.

(** One iteration of the loop over the lines after the title.
    go: internal/spanningtree/runtime.go:68-113 ParseRuntime *)
Definition scan_line (st : scan) (line : string) : result scan :=
  fail_if (1024 <? slen line) || has_prefix line "---- " with bad ;;
  if (line =s root_id) || (line =s bridge_id) then
    fail_if footer st || not_nil (sec st !! line)
            || ((line =s root_id) && negb (Z.of_nat (size (sec st)) =? 0))
            || ((line =s bridge_id) && is_nil (sec st !! root_id)) with bad ;;
    Ok (mkScan (<[line := ∅]> (sec st)) line (footer st))
  else
    match fields line with
    | [] => Ok st
    | first :: rest =>
      if first =s "Interface" then
        fail_if footer st || (section st <>s bridge_id)
                || (join " " (first :: rest) <>s "Interface Role State Cost Pri.Nbr") with bad ;;
        Ok (mkScan (sec st) (section st) true)
      else if footer st then
        fail_if has_prefix first "stp-" || has_suffix line "ID:" with bad ;; Ok st
      else
        fail_if (section st =s "") || negb (has_prefix line "  ") with bad ;;
        if (section st =s root_id)
           && ((trim_space line =s "This bridge is the root") || (first =s "root-port")
               || (first =s "root-path-cost"))
        then Ok st
        else
          let values := default ∅ (sec st !! section st) in
          match rest with
          | [value] =>
            fail_if default "" (values !! first) <>s "" with bad ;;
            fail_if negb (contains runtime_keys first) with bad ;;
            Ok (mkScan (<[section st := <[first := value]> values]> (sec st)) (section st) (footer st))
          | _ => Err bad
          end
    end.

Fixpoint scan_lines (st : scan) (lines : list string) : result scan :=
  match lines with
  | [] => Ok st
  | l :: r => let? st' := scan_line st l in scan_lines st' r
  end.

(** One numeric field of [decode]: seconds carry their unit.
    go: internal/spanningtree/runtime.go:128-147 ParseRuntime *)
Definition decode_number (values : gmap string string) (key : string) : result Z :=
  let raw := default "" (values !! key) in
  fail_if (key <>s "stp-priority") && negb (has_suffix raw "s") with bad ;;
  let raw := if key <>s "stp-priority" then trim_suffix raw "s" else raw in
  fail_if (raw =s "") || (5 <? slen raw) || negb (all_digits raw) with bad ;;
  match parse_uint raw 16 with Some n => Ok n | None => Err bad end.

(** go: internal/spanningtree/runtime.go:117-150 ParseRuntime *)
Definition decode (values : gmap string string) : result LocalParameters :=
  fail_if negb (Z.of_nat (size values) =? 5) with bad ;;
  let text := default "" (values !! "stp-system-id") in
  match parse_mac text with
  | Some mac =>
    fail_if negb (len mac =? 6) || (mac_text mac <>s text) with bad ;;
    let? priority := decode_number values "stp-priority" in
    let? hello := decode_number values "stp-hello-time" in
    let? age := decode_number values "stp-max-age" in
    let? delay := decode_number values "stp-fwd-delay" in
    Ok (mkLocal priority (mac_text mac) (mkTimers hello age delay))
  | None => Err bad
  end.

(** go: internal/spanningtree/runtime.go ParseRuntime *)
Definition ParseRuntime (protocol name text : string) : result Runtime :=
  fail_if ((protocol <>s "stp") && (protocol <>s "rstp")) || negb (RuntimeName name)
          || (MaxRuntimeBytes <? slen text) || negb (utf8_valid text)
          || contains_any text (String (char_of 0) (String (char_of 13) "")) with bad ;;
  let lines := split_on (char_of 10) text in
  match lines with
  | title :: rest =>
    fail_if (len lines <? 18) || (1024 <? len lines)
            || (title <>s ("---- " ++ name ++ " ----")%string) with bad ;;
    let? st := scan_lines (mkScan ∅ "" false) rest in
    fail_if negb (footer st) || negb (Z.of_nat (size (sec st)) =? 2) with bad ;;
    let? root := decode (default ∅ (sec st !! root_id)) in
    let? bridge := decode (default ∅ (sec st !! bridge_id)) in
    if protocol =s "stp"
    then Ok (mkRuntime protocol name (mkLocal (Priority bridge) (SystemID bridge) (LTimers root))
               (Some (LTimers bridge)))
    else Ok (mkRuntime protocol name bridge None)
  | [] => Err bad
  end.

(** ** Transitions *)

(** go: internal/spanningtree/transition.go Configuration *)
Record Configuration := mkConfiguration {
  STP : option bool; RSTP : option bool; Other : option (gmap string json) }.
(** go: internal/spanningtree/transition.go Transition *)
Record Transition := mkTransition { tr_State : string; tr_Checks : list string }.

(** go: internal/spanningtree/execution.go Protocol *)
Definition Protocol (c : Configuration) : string :=
  match STP c, RSTP c with
  | Some s, Some r =>
    if s && r then "unknown" else if s then "stp" else if r then "rstp" else "disabled"
  | _, _ => "unknown"
  end.

(** go: internal/spanningtree/execution.go:20-26 ExpectedLocal *)
Definition number (c : Configuration) (key : string) (fallback : Z) : Z :=
  match default ∅ (Other c) !! key with Some (JStr raw) => atoi_value raw | _ => fallback end.

Definition values (p : string) (c : Configuration) : LocalParameters :=
  let hello := if p =s "stp" then number c "stp-hello-time" 2 else 2 in
  mkLocal (number c (p ++ "-priority") 32768) ""
    (mkTimers hello (number c (p ++ "-max-age") 20) (number c (p ++ "-forward-delay") 15)).
(** go: internal/spanningtree/execution.go ExpectedLocal *)
Definition ExpectedLocal (c : Configuration) : LocalParameters := values (Protocol c) c.

Definition blocked (code : string) : Transition := mkTransition "blocked" [code].
Definition compatible : Transition := mkTransition "compatible" [].
(** [Validate(...).State != "valid"] on an image. *)
Definition unproven (c : Configuration) : bool := State (Validate (STP c) (RSTP c) (Other c)) <>s "valid".

(** The [protocol] closure dereferences both flags: it runs on validated images.
    go: internal/spanningtree/transition.go:30-38 AssessTransition *)
Definition protocol (c : Configuration) : string :=
  if default false (STP c) then "stp" else if default false (RSTP c) then "rstp" else "disabled".

(** go: internal/spanningtree/transition.go AssessTransition *)
Definition AssessTransition (before after : Configuration) (installed : Runtime) : Transition :=
  if unproven before || unproven after then blocked "SPANNING_TREE_TRANSITION_PARAMETERS_UNPROVEN" else
  let p := protocol before in
  if (p =s "disabled") || (protocol after <>s p) || (rt_Protocol installed <>s p)
     || negb (RuntimeName (BridgeName installed))
  then blocked "SPANNING_TREE_PROTOCOL_TRANSITION_UNPROVEN" else
  let b := values p before in
  let a := values p after in
  let b := mkLocal (Priority b) (SystemID (Local installed)) (LTimers b) in
  if negb (bool_decide (b = Local installed)) || (SystemID (Local installed) =s "")
  then blocked "SPANNING_TREE_INSTALLED_ORIGINAL_MISMATCH" else
  let checks :=
    if p =s "rstp"
    then (if 2 * (ForwardDelay (LTimers b) - 1) <? MaxAge (LTimers a)
          then ["RSTP_FORWARD_TIMER_ORDER_UNPROVEN"] else [])
         ++ (if 2 * (ForwardDelay (LTimers a) - 1) <? MaxAge (LTimers b)
             then ["RSTP_ROLLBACK_TIMER_ORDER_UNPROVEN"] else [])
    else [] in
  mkTransition (if is_empty checks then "compatible" else "blocked") checks.

(** go: internal/spanningtree/execution.go AssessSetterOrder *)
Definition AssessSetterOrder (before after : Configuration) : Transition :=
  if unproven before || unproven after then blocked "SPANNING_TREE_TRANSITION_PARAMETERS_UNPROVEN" else
  let b := Protocol before in
  let a := Protocol after in
  if b =s a then
    if b =s "rstp" then
      let old := LTimers (ExpectedLocal before) in
      let next := LTimers (ExpectedLocal after) in
      if 2 * (ForwardDelay old - 1) <? MaxAge next then blocked "RSTP_FORWARD_TIMER_ORDER_UNPROVEN"
      else if 2 * (ForwardDelay next - 1) <? MaxAge old then blocked "RSTP_ROLLBACK_TIMER_ORDER_UNPROVEN"
      else compatible
    else compatible
  else
    if existsb (fun c => (Protocol c =s "rstp") && (28 <? MaxAge (LTimers (ExpectedLocal c)))) [before; after]
    then blocked "RSTP_INITIAL_TIMER_ORDER_UNPROVEN"
    else compatible.

(** go: internal/spanningtree/execution.go AssessExecutionTransition *)
Definition AssessExecutionTransition (before after : Configuration) (installed : Runtime) : Transition :=
  if unproven before || unproven after then blocked "SPANNING_TREE_TRANSITION_PARAMETERS_UNPROVEN" else
  let b := Protocol before in
  let a := Protocol after in
  let rest := if (b =s a) && (b <>s "disabled") then AssessTransition before after installed
              else AssessSetterOrder before after in
  if b <>s "disabled" then
    let check := AssessTransition before before installed in
    if tr_State check <>s "compatible" then check else rest
  else if (rt_Protocol installed <>s "disabled") || negb (RuntimeName (BridgeName installed))
  then blocked "SPANNING_TREE_INSTALLED_ORIGINAL_MISMATCH"
  else rest.

(** ** Validation *)

(** What [read] accepts for a key: its default, or decimal digits in range. *)
Definition param (o : gmap string json) (key : string) (fallback min max n : Z) : Prop :=
  match o !! key with
  | None => n = fallback
  | Some (JStr text) => text <> "" /\ slen text <= 128 /\ all_digits text = true /\
                        parse_uint text 64 = Some n /\ min <= n <= max
  | Some _ => False
  end.

Lemma read_case o v key fallback min max v' x :
  read o v key fallback min max = (v', x) ->
  (State v' = "valid" <-> State v = "valid" /\ is_Some x) /\
  (forall n, x = Some n <-> param o key fallback min max n).
Proof.
  unfold read, param.
  assert (Hbad : forall c (P : Z -> Prop), (forall n, ~ P n) ->
    (add v c [key], @None Z) = (v', x) ->
    (State v' = "valid" <-> State v = "valid" /\ is_Some x) /\ (forall n, x = Some n <-> P n)).
  { intros c P HP [= <- <-]. split; [|intros n; split; [done|by intros ?%HP]].
    split; [done|]. by intros [_ []]. }
  assert (Hgood : forall m (P : Z -> Prop), (forall n, P n <-> n = m) ->
    (v, Some m) = (v', x) ->
    (State v' = "valid" <-> State v = "valid" /\ is_Some x) /\ (forall n, x = Some n <-> P n)).
  { intros m P HP [= <- <-]. split; [|intros n; rewrite HP; split; congruence].
    split; [eauto|]. by intros []. }
  destruct (o !! key) as [[]|]; try (apply Hbad; auto; fail); [|by apply Hgood].
  destruct (_ || _) eqn:E1.
  { apply Hbad. intros n (H1 & H2 & H3 & _). bsimp. rewrite H3 in E1. destruct E1 as [[E1|E1]|E1]; [done|lia|done]. }
  bsimp. destruct E1 as [[E1 E2] E3].
  destruct (parse_uint s 64) as [m|]; [|by apply Hbad; intros n (? & ? & ? & ? & ?)].
  destruct ((m <? min) || (max <? m)) eqn:E4; bsimp.
  - apply Hbad. intros n (? & ? & ? & [= <-] & ?). lia.
  - apply Hgood. intros n. split; [by intros (? & ? & ? & [= <-] & ?)|]. intros ->. split_and!; auto; lia.
Qed.

Lemma add_if_valid b v c f : State (add_if b v c f) = "valid" <-> b = false /\ State v = "valid".
Proof. destruct b; cbn; split; [done|by intros []|done|by intros []]. Qed.

Lemma both_false f x y : both f x y = false <-> forall a b, x = Some a -> y = Some b -> f a b = false.
Proof. destruct x, y; cbn; split; try done; [by intros ? ? ? [= <-] [= <-]|eauto]. Qed.

Lemma caveat_valid o v hello :
  State (caveat o v hello) = "valid" <->
  State v = "valid" /\ (is_Some (o !! "stp-hello-time") -> forall h, hello = Some h -> h = 1).
Proof.
  unfold caveat. destruct (o !! "stp-hello-time") as [j|]; [|split; [intros ?; split; [done|by intros []]|by intros []]].
  destruct hello as [h|]; [|split; [by intros ?|by intros []]].
  destruct (h =? 1) eqn:E; cbn; bsimp.
  - split; [intros ?; split; [done|by intros _ ? [= <-]]|by intros []].
  - split.
    + destruct (State v =s "valid") eqn:Ev; [done|]. by apply String.eqb_neq in Ev.
    + intros [_ H]. by destruct E; apply H.
Qed.

(** What the validator promises of both protocols' parameters. *)
Record valid (s r : bool) (o : gmap string json) : Prop := {
  valid_exclusive : s && r = false;
  valid_stp_priority : exists p, param o "stp-priority" 32768 0 65535 p;
  valid_stp : exists hello age delay,
    param o "stp-hello-time" 2 1 10 hello /\ param o "stp-max-age" 20 6 40 age /\
    param o "stp-forward-delay" 15 4 30 delay /\
    2 * (hello + 1) <= age <= 2 * (delay - 1) /\
    (is_Some (o !! "stp-hello-time") -> hello = 1);
  valid_rstp_priority : exists p, param o "rstp-priority" 32768 0 61440 p /\ p mod 4096 = 0;
  valid_rstp : exists age delay,
    param o "rstp-max-age" 20 6 40 age /\ param o "rstp-forward-delay" 15 4 30 delay /\
    age <= 2 * (delay - 1) }.

(** The checks of [Validate] pass exactly on the parameter sets of the IEEE
    relations, within the ranges, that OVS installs unrounded and unclamped. *)
Theorem Validate_parameters stp rstp other :
  State (Validate stp rstp other) = "valid" <->
  exists s r o, stp = Some s /\ rstp = Some r /\ other = Some o /\ valid s r o.
Proof.
  destruct stp as [s|], rstp as [r|], other as [o|]; cbn -[read add_if both caveat];
    try (split; [done|]; intros (? & ? & ? & ? & ? & ? & _); done).
  assert (H0 : State (Unavailable "valid") = "valid" <-> True) by done.
  revert H0. generalize (Unavailable "valid"). intros v0 H0.
  repeat match goal with |- context [read ?o ?v ?k ?f ?a ?b] =>
    let E := fresh "R" in let w := fresh "v" in let x := fresh "x" in
    destruct (read o v k f a b) as [w x] eqn:E; apply read_case in E; destruct E as [? ?];
    cbn [fst snd]; cbv beta iota end.
  rewrite add_if_valid, both_false.
  repeat match goal with H : State ?v = "valid" <-> _ |- context [State ?v] => rewrite H
    | |- context [State (add_if _ _ _ _)] => rewrite add_if_valid
    | |- context [State (caveat _ _ _)] => rewrite caveat_valid
    | |- context [both _ _ _ = false] => rewrite both_false end.
  clear - H1 H3 H5 H7 H9 H11 H13. split.
  - intros [Hr [[[Hp [[(Hs1 & Hs2 & Hx) Hh] [rp ->]]] [ra ->]] [rd ->]]].
    destruct Hx as [[[[[He _] [p ->]] [h ->]] [a ->]] [d ->]].
    exists s, r, o. split_and!; [done..|].
    pose proof (proj1 (H1 p) eq_refl). pose proof (proj1 (H3 h) eq_refl).
    pose proof (proj1 (H5 a) eq_refl). pose proof (proj1 (H7 d) eq_refl).
    pose proof (proj1 (H9 rp) eq_refl). pose proof (proj1 (H11 ra) eq_refl).
    pose proof (proj1 (H13 rd) eq_refl).
    specialize (Hr _ _ eq_refl eq_refl). specialize (Hs1 _ _ eq_refl eq_refl).
    specialize (Hs2 _ _ eq_refl eq_refl).
    apply Z.ltb_ge in Hr, Hs1, Hs2. apply negb_false_iff, Z.eqb_eq in Hp as Hm.
    split; [done|eauto|exists h, a, d; split_and!; auto; lia|eauto|exists ra, rd; split_and!; auto; lia].
  - intros (? & ? & ? & [= <-] & [= <-] & [= <-] & [He [p Hp] (h & a & d & Hh & Ha & Hd & Hr1 & Hr2)
      (rp & Hrp & Hm) (ra & rd & Hra & Hrd & Hr3)]).
    apply H1 in Hp as ->. apply H3 in Hh as ->. apply H5 in Ha as ->. apply H7 in Hd as ->.
    apply H9 in Hrp as ->. apply H11 in Hra as ->. apply H13 in Hrd as ->.
    split_and!; eauto.
    + intros ? ? [= <-] [= <-]. bsimp. lia.
    + by apply negb_false_iff, Z.eqb_eq.
    + intros ? ? [= <-] [= <-]. bsimp. lia.
    + intros ? ? [= <-] [= <-]. bsimp. lia.
    + intros Hs ? [= <-]. auto.
Qed.

(** ** Transitions *)

Lemma unproven_valid c : unproven c = false <->
  exists s r o, STP c = Some s /\ RSTP c = Some r /\ Other c = Some o /\ valid s r o.
Proof. unfold unproven. rewrite negb_false_iff, String.eqb_eq. apply Validate_parameters. Qed.

Lemma atoi_value_parse text n :
  text <> "" -> all_digits text = true -> parse_uint text 64 = Some n -> n < 2 ^ 63 ->
  atoi_value text = n.
Proof.
  intros Hne Hd Hp Hn. unfold parse_uint in Hp. destruct (text =s "") eqn:E; [done|].
  destruct (parse_go text 0) as [m|] eqn:Em; [|done].
  assert (m = n) as -> by (destruct (m <? 2 ^ 64); congruence).
  assert (Hmin : Z.min n (2 ^ 63 - 1) = n) by lia.
  destruct text as [|c r]; [done|]. cbn [all_digits] in Hd. apply andb_true_iff in Hd as [Hc _].
  unfold atoi_value.
  destruct c as [[] [] [] [] [] [] [] []]; cbn in Hc; try discriminate Hc; by rewrite Em, Hmin.
Qed.

(** On a valid image the setters receive the parameter the validator read. *)
Lemma number_param c o key fallback min max n :
  Other c = Some o -> param o key fallback min max n -> max < 2 ^ 63 -> number c key fallback = n.
Proof.
  intros Ho Hp Hm. unfold number, param in *. rewrite Ho. change (default ∅ (Some o)) with o.
  destruct (o !! key) as [[]|]; try done. destruct Hp as (H1 & H2 & H3 & H4 & H5).
  apply atoi_value_parse; auto. lia.
Qed.

(** What validation gives the RSTP setters. *)
Lemma rstp_local c : unproven c = false -> Protocol c = "rstp" ->
  HelloTime (LTimers (ExpectedLocal c)) = 2 /\
  MaxAge (LTimers (ExpectedLocal c)) <= 2 * (ForwardDelay (LTimers (ExpectedLocal c)) - 1).
Proof.
  intros (s & r & o & Hs & Hr & Ho & Hv)%unproven_valid Hp.
  destruct (valid_rstp _ _ _ Hv) as (a & d & Ha & Hd & Hle).
  unfold ExpectedLocal. rewrite Hp. unfold values. cbn -[number].
  rewrite (number_param _ _ _ _ _ _ _ Ho Ha), (number_param _ _ _ _ _ _ _ Ho Hd) by done.
  by split.
Qed.

(** The daemon's side: [bridge.c] calls [set_max_age] and then
    [set_forward_delay], and each one installs the value that agrees with the
    current peer. *)
Section setters.
Context (set_max_age set_forward_delay : Timers -> Z -> Timers).
Context (max_age_installs : forall t n, n <= 2 * (ForwardDelay t - 1) ->
           set_max_age t n = mkTimers (HelloTime t) n (ForwardDelay t)).
Context (forward_delay_installs : forall t n, MaxAge t <= 2 * (n - 1) ->
           set_forward_delay t n = mkTimers (HelloTime t) (MaxAge t) n).

Definition reconfigure (t to_ : Timers) : Timers :=
  set_forward_delay (set_max_age t (MaxAge to_)) (ForwardDelay to_).

Lemma reconfigure_installs t to_ :
  HelloTime t = HelloTime to_ ->
  MaxAge to_ <= 2 * (ForwardDelay t - 1) -> MaxAge to_ <= 2 * (ForwardDelay to_ - 1) ->
  reconfigure t to_ = to_.
Proof using max_age_installs forward_delay_installs.
  intros H1 H2 H3. unfold reconfigure. rewrite max_age_installs by done.
  rewrite forward_delay_installs by done. cbn. rewrite H1. by destruct to_.
Qed.

(** The RSTP timers the daemon holds before one endpoint of the transition is
    written: the other endpoint's when the engine stays, else the timers of a
    new engine, whose forward delay is 15. *)
Definition installed_before (other endpoint : Configuration) (fresh : Timers) : Timers :=
  if Protocol other =s Protocol endpoint then LTimers (ExpectedLocal other) else fresh.

(** A compatible pair installs both endpoints exactly: forward, and back. *)
Theorem AssessSetterOrder_installs before after fresh :
  HelloTime fresh = 2 -> ForwardDelay fresh = 15 ->
  tr_State (AssessSetterOrder before after) = "compatible" ->
  (Protocol after = "rstp" ->
   reconfigure (installed_before before after fresh) (LTimers (ExpectedLocal after))
   = LTimers (ExpectedLocal after)) /\
  (Protocol before = "rstp" ->
   reconfigure (installed_before after before fresh) (LTimers (ExpectedLocal before))
   = LTimers (ExpectedLocal before)).
Proof using max_age_installs forward_delay_installs.
  intros Hf2 Hf15. unfold AssessSetterOrder, installed_before.
  destruct (unproven before) eqn:Hb; [done|]. destruct (unproven after) eqn:Ha; [done|]. cbn [orb].
  pose proof (rstp_local _ Hb) as Lb. pose proof (rstp_local _ Ha) as La.
  rewrite (String.eqb_sym (Protocol after) (Protocol before)).
  destruct (Protocol before =s Protocol after) eqn:Ep; bsimp.
  - rewrite <- Ep in *. destruct (Protocol before =s "rstp") eqn:Er; bsimp; [|done].
    destruct (_ <? _) eqn:E1; [done|]. destruct (_ <? _) eqn:E2 in |- *; [done|]. intros _. bsimp.
    destruct (Lb Er), (La Er). split; intros _; apply reconfigure_installs; lia.
  - destruct (existsb _ _) eqn:Ex; [done|]. intros _. cbn [existsb] in Ex. bsimp.
    destruct Ex as [Eb [Ea _]].
    assert (Hinit : forall c, (Protocol c =s "rstp") && (28 <? MaxAge (LTimers (ExpectedLocal c))) = false ->
      unproven c = false -> Protocol c = "rstp" ->
      reconfigure fresh (LTimers (ExpectedLocal c)) = LTimers (ExpectedLocal c)).
    { intros c Hc Hu Hp. destruct (rstp_local c Hu Hp). rewrite Hp, String.eqb_refl in Hc. cbn [andb] in Hc. apply Z.ltb_ge in Hc.
      apply reconfigure_installs; lia. }
    bsimp. split; intros Er; apply Hinit; auto; bsimp; tauto.
Qed.
End setters.

Lemma Protocol_valid c : unproven c = false -> Protocol c = protocol c.
Proof.
  intros (s & r & o & Hs & Hr & _ & Hv)%unproven_valid. unfold Protocol, protocol.
  rewrite Hs, Hr. pose proof (valid_exclusive _ _ _ Hv). by destruct s, r.
Qed.

(** A compatible same-protocol transition starts from the observed original
    and is compatible for the setters too. *)
Lemma AssessTransition_compatible before after installed :
  tr_State (AssessTransition before after installed) = "compatible" ->
  rt_Protocol installed = Protocol before /\ Protocol before = Protocol after /\
  RuntimeName (BridgeName installed) = true /\ SystemID (Local installed) <> "" /\
  Priority (Local installed) = Priority (ExpectedLocal before) /\
  LTimers (Local installed) = LTimers (ExpectedLocal before) /\
  tr_State (AssessSetterOrder before after) = "compatible".
Proof.
  unfold AssessTransition, AssessSetterOrder, ExpectedLocal.
  destruct (unproven before) eqn:Hb; [done|]. destruct (unproven after) eqn:Ha; [done|]. cbn [orb].
  rewrite (Protocol_valid _ Hb), (Protocol_valid _ Ha).
  destruct (_ || negb (RuntimeName _)) eqn:E1; [done|]. bsimp.
  destruct E1 as [[[E1 E2] E3] E4]. rewrite E2, E3, String.eqb_refl.
  destruct (_ || _) eqn:E5; [done|]. bsimp. destruct E5 as [E5 E6].
  assert (Priority (Local installed) = Priority (values (protocol before) before) /\
          LTimers (Local installed) = LTimers (values (protocol before) before)) as [E7 E8]
    by (rewrite <- E5; by split).
  cbn [Priority SystemID LTimers].
  destruct (protocol before =s "rstp") eqn:Er.
  - destruct (_ <? _) eqn:F1; [by destruct (_ <? _)|]. destruct (_ <? _) eqn:F2 in |- *; [done|].
    intros _. split_and!; try done.
  - intros _. by split_and!.
Qed.

(** A compatible execution transition is compatible for the setters, and its
    original is the daemon's own report of the same protocol. *)
Theorem AssessExecutionTransition_sound before after installed :
  tr_State (AssessExecutionTransition before after installed) = "compatible" ->
  tr_State (AssessSetterOrder before after) = "compatible" /\
  rt_Protocol installed = Protocol before /\ RuntimeName (BridgeName installed) = true /\
  (Protocol before <> "disabled" ->
   SystemID (Local installed) <> "" /\
   Priority (Local installed) = Priority (ExpectedLocal before) /\
   LTimers (Local installed) = LTimers (ExpectedLocal before)).
Proof.
  unfold AssessExecutionTransition.
  destruct (unproven before || unproven after) eqn:Hu; [done|].
  destruct (Protocol before =s "disabled") eqn:Ed; cbn [negb].
  - destruct (_ || negb _) eqn:E1; [done|]. rewrite andb_false_r. bsimp. destruct E1 as [E1 E2].
    intros H. rewrite Ed. by split_and!.
  - destruct (tr_State (AssessTransition before before installed) =s "compatible") eqn:E1; cbn [negb].
    2: { apply String.eqb_neq in E1. by intros ?%E1. }
    apply String.eqb_eq, AssessTransition_compatible in E1 as (H1 & _ & H3 & H4 & H5 & H6 & _).
    rewrite andb_true_r. destruct (Protocol before =s Protocol after).
    + intros (_ & _ & _ & _ & _ & _ & H)%AssessTransition_compatible. by split_and!.
    + intros H. by split_and!.
Qed.

(** ** The daemon's report *)

(** A parsed report has 16-bit numbers and a MAC address of six octets. *)
Definition local_ok (l : LocalParameters) : Prop :=
  0 <= Priority l < 2 ^ 16 /\ 0 <= HelloTime (LTimers l) < 2 ^ 16 /\
  0 <= MaxAge (LTimers l) < 2 ^ 16 /\ 0 <= ForwardDelay (LTimers l) < 2 ^ 16 /\
  exists mac, List.length mac = 6%nat /\ parse_mac (SystemID l) = Some mac /\ SystemID l = mac_text mac.

Lemma decode_number_range values key n : decode_number values key = Ok n -> 0 <= n < 2 ^ 16.
Proof.
  unfold decode_number. intros H. repeat ok_step; subst; by eapply parse_uint_range.
Qed.

Lemma decode_local values l : decode values = Ok l ->
  local_ok l /\ SystemID l = default "" (values !! "stp-system-id").
Proof.
  unfold decode. intros H. repeat ok_step. subst. unfold local_ok. cbn. bsimp.
  destruct E1 as [E1 E6]. rewrite E6. unfold len in E1.
  repeat match goal with H : decode_number _ _ = Ok _ |- _ => apply decode_number_range in H end.
  split; [|done]. split_and!; try lia. exists l0. split_and!; try done. lia.
Qed.

(** An accepted report is of the requested protocol and name, its local
    identity and numbers are in range, and only STP has operational timers. *)
Theorem ParseRuntime_ok protocol name text r :
  ParseRuntime protocol name text = Ok r ->
  (protocol = "stp" \/ protocol = "rstp") /\ RuntimeName name = true /\
  rt_Protocol r = protocol /\ BridgeName r = name /\ slen text <= MaxRuntimeBytes /\
  head (split_on (char_of 10) text) = Some ("---- " ++ name ++ " ----")%string /\
  local_ok (Local r) /\ (is_Some (OperationalTimers r) <-> protocol = "stp").
Proof.
  unfold ParseRuntime. intros H. repeat ok_step; subst; bsimp; destruct_and?; subst.
  all: apply decode_local in E4 as [L4 _], E5 as [L5 _]; unfold local_ok in *.
  all: cbn [rt_Protocol BridgeName Local OperationalTimers Priority LTimers SystemID].
  all: split_and!; try tauto; try done.
  all: first [by split; [intros []|] | by destruct_or?; try discriminate; right].
Qed.

(** *** Concrete runs *)

Definition set_max_age (t : Timers) (n : Z) : Timers :=
  if n <=? 2 * (ForwardDelay t - 1) then mkTimers (HelloTime t) n (ForwardDelay t) else t.
Definition set_forward_delay (t : Timers) (n : Z) : Timers :=
  if MaxAge t <=? 2 * (n - 1) then mkTimers (HelloTime t) (MaxAge t) n else t.
Definition rstp_on (o : list (string * string)) : Configuration :=
  mkConfiguration (Some false) (Some true) (Some (list_to_map ((fun kv => (fst kv, JStr (snd kv))) <$> o))).
Definition stp_on : Configuration := mkConfiguration (Some true) (Some false) (Some ∅).
Definition mac_a : string := "02:00:00:00:00:01".

Lemma AssessSetterOrder_installs_witness :
  (reconfigure set_max_age set_forward_delay
     (installed_before stp_on (rstp_on [("rstp-max-age", "28")]) (mkTimers 2 20 15)) (mkTimers 2 28 15)
   = mkTimers 2 28 15).
Proof.
  refine (proj1 (AssessSetterOrder_installs set_max_age set_forward_delay _ _
    stp_on (rstp_on [("rstp-max-age", "28")]) (mkTimers 2 20 15) eq_refl eq_refl _) eq_refl).
  - intros t n H. unfold set_max_age. by rewrite (proj2 (Z.leb_le _ _) H).
  - intros t n H. unfold set_forward_delay. by rewrite (proj2 (Z.leb_le _ _) H).
  - vm_compute. reflexivity.
Defined.

Lemma AssessExecutionTransition_sound_witness :
  tr_State (AssessSetterOrder (rstp_on []) (rstp_on [("rstp-forward-delay", "20")])) = "compatible".
Proof.
  apply (AssessExecutionTransition_sound (rstp_on []) (rstp_on [("rstp-forward-delay", "20")])
    (mkRuntime "rstp" "br0" (mkLocal 32768 mac_a (mkTimers 2 20 15)) None)).
  vm_compute. reflexivity.
Defined.

Definition nl : string := String (char_of 10) "".
Definition report : string :=
  String.concat nl
    ["---- br-tree ----"; "Root ID:"; "  stp-priority    4096"; "  stp-system-id   02:00:00:00:00:01";
     "  stp-hello-time  1s"; "  stp-max-age     6s"; "  stp-fwd-delay   4s"; "  root-port       upstream";
     "  root-path-cost  2000"; ""; "Bridge ID:"; "  stp-priority    32768";
     "  stp-system-id   02:00:00:00:00:02"; "  stp-hello-time  2s"; "  stp-max-age     20s";
     "  stp-fwd-delay   15s"; ""; "  Interface  Role       State      Cost  Pri.Nbr";
     "  upstream   root       forwarding 2000  128.1"; ""].
Lemma ParseRuntime_ok_witness :
  ParseRuntime "stp" "br-tree" report
    = Ok (mkRuntime "stp" "br-tree" (mkLocal 32768 "02:00:00:00:00:02" (mkTimers 1 6 4)) (Some (mkTimers 2 20 15)))
  /\ slen report <= MaxRuntimeBytes.
Proof.
  assert (H : ParseRuntime "stp" "br-tree" report
    = Ok (mkRuntime "stp" "br-tree" (mkLocal 32768 "02:00:00:00:00:02" (mkTimers 1 6 4)) (Some (mkTimers 2 20 15))))
    by (vm_compute; reflexivity).
  split; [exact H|]. apply (ParseRuntime_ok _ _ _ _ H).
Defined.

End SpanningTree.
