(* ===== verification/CandidateTypes.v ===== *)
(** * internal/candidate: the data of bounded configuration intent

    The structs of types.go and of the per-feature files, with the JSON that
    their tags print: [Digest], the seal of an envelope and the document
    budgets are computed on it. A pointer is an [option], a slice whose
    nilness reaches the JSON is an [option] of a list, a map is a [gmap] (a
    nil map prints like an empty one). *)

From S2P Require Import Prelude GoStrings Sha256 GoJson ApiTypes Multicast Mirror Tunnel.

(** ** Shared encodings *)

Definition omit_str (k s : string) : list (string * json) := if s =s "" then [] else [(k, JStr s)].
Definition omit_int (k : string) (n : Z) : list (string * json) := if n =? 0 then [] else [(k, JNum n)].
Definition omit_bool (k : string) (b : bool) : list (string * json) := if b then [(k, JBool true)] else [].
Definition omit_list {A} (k : string) (f : A -> json) (l : list A) : list (string * json) :=
  if is_empty l then [] else [(k, jlist f l)].
Definition omit_map {A} (k : string) (f : A -> json) (m : gmap string A) : list (string * json) :=
  if bool_decide (m = ∅) then [] else [(k, jmap f m)].
Definition jstrs : option (list string) -> json := jslice JStr.
Definition jostr : option string -> json := jopt JStr.
Definition jpair (k : string) (j : json) : list (string * json) := [(k, j)].

Definition ref_json (r : Ref) : json := JObj [("kind", JStr (ref_Kind r)); ("id", JStr (ref_ID r))].

Definition multicast_json (c : Multicast.Configuration) : json :=
  JObj [("enabled", JBool (Multicast.Enabled c)); ("parameters", jmap jostr (Multicast.Parameters c))].
Definition mirror_json (c : Mirror.Configuration) : json :=
  JObj [("select_all", JBool (Mirror.SelectAll c)); ("source_port_ids", jstrs (Mirror.SourcePorts c));
        ("destination_port_ids", jstrs (Mirror.DestinationPorts c)); ("select_vlans", jstrs (Mirror.VLANs c));
        ("output_port_id", jostr (Mirror.OutputPort c)); ("output_vlan", jostr (Mirror.OutputVLAN c));
        ("snaplen", jostr (Mirror.Snaplen c))].
Definition tunnel_json (c : Tunnel.Configuration) : json :=
  JObj [("native_type", JStr (Tunnel.Type_ c)); ("options", jmap JStr (Tunnel.Options c))].
Definition tunnel_request_json (r : Tunnel.Request) : json :=
  JObj (omit_str "native_type" (Tunnel.req_Type r) ++ [("options", jmap jostr (Tunnel.req_Options r))]).

(** ** types.go: bindings and fields *)

(** go: internal/candidate/types.go Binding *)
Record Binding := mkBinding {
  ManagementID_ : string; OVSUUID : string; Table : string; Generation : string }.
#[export] Instance Binding_eq_dec : EqDecision Binding.
Proof. solve_decision. Defined.
Definition zero_binding : Binding := mkBinding "" "" "" "".
Definition binding_json (b : Binding) : json :=
  JObj [("management_id", JStr (ManagementID_ b)); ("ovs_uuid", JStr (OVSUUID b));
        ("table", JStr (Table b)); ("instance_generation", JStr (Generation b))].

(** go: internal/candidate/types.go VLAN *)
Record VLAN := mkVLAN {
  v_Mode : option string; v_Tag : option Z; Trunks : option (list Z); CVLANs : option (list Z) }.
#[export] Instance VLAN_eq_dec : EqDecision VLAN.
Proof. solve_decision. Defined.
Definition zero_vlan : VLAN := mkVLAN None None None None.
Definition vlan_json (v : VLAN) : json :=
  JObj [("vlan_mode", jostr (v_Mode v)); ("tag", jopt JNum (v_Tag v));
        ("trunks", jslice JNum (Trunks v)); ("cvlans", jslice JNum (CVLANs v))].

(** go: internal/candidate/bond.go Bond *)
Record Bond := mkBond { LACP : option string; b_Mode : option string; Fallback : option string }.
#[export] Instance Bond_eq_dec : EqDecision Bond.
Proof. solve_decision. Defined.
Definition zero_bond : Bond := mkBond None None None.
Definition bond_json (b : Bond) : json :=
  JObj [("lacp", jostr (LACP b)); ("bond_mode", jostr (b_Mode b)); ("lacp_fallback_ab", jostr (Fallback b))].

(** go: internal/candidate/qinq.go QinQContext *)
Record QinQContext := mkQinQ {
  VLANLimit : string; DatapathUUID : string; MaxVLANHeaders : string; q_Dependency : string;
  EtherType : option string }.
#[export] Instance QinQContext_eq_dec : EqDecision QinQContext.
Proof. solve_decision. Defined.
Definition qinq_json (q : QinQContext) : json :=
  JObj [("vlan_limit", JStr (VLANLimit q)); ("datapath_uuid", JStr (DatapathUUID q));
        ("max_vlan_headers", JStr (MaxVLANHeaders q)); ("dependency_revision", JStr (q_Dependency q));
        ("ethertype", jostr (EtherType q))].

(** go: internal/candidate/isolation.go IsolationChange *)
Record IsolationChange := mkIsolationChange { iso_Before : bool; iso_After : bool }.
#[export] Instance IsolationChange_eq_dec : EqDecision IsolationChange.
Proof. solve_decision. Defined.
Definition isolation_json (c : IsolationChange) : json :=
  JObj [("before", JBool (iso_Before c)); ("after", JBool (iso_After c))].

(** go: internal/candidate/multicast.go MulticastChange *)
Record MulticastChange := mkMulticastChange {
  mc_Before : Multicast.Configuration; mc_After : Multicast.Configuration }.
#[export] Instance MulticastChange_eq_dec : EqDecision MulticastChange.
Proof. solve_decision. Defined.
Definition multicast_change_json (c : MulticastChange) : json :=
  JObj [("before", multicast_json (mc_Before c)); ("after", multicast_json (mc_After c))].

(** go: internal/candidate/spanning_tree.go SpanningTreeConfig *)
Record SpanningTreeConfig := mkTreeConfig {
  t_STP : bool; t_RSTP : bool; t_Parameters : gmap string (option string) }.
#[export] Instance SpanningTreeConfig_eq_dec : EqDecision SpanningTreeConfig.
Proof. solve_decision. Defined.
Definition tree_json (c : SpanningTreeConfig) : json :=
  JObj [("stp_enable", JBool (t_STP c)); ("rstp_enable", JBool (t_RSTP c));
        ("parameters", jmap jostr (t_Parameters c))].
(** go: internal/candidate/spanning_tree.go SpanningTreeChange *)
Record SpanningTreeChange := mkTreeChange { tc_Before : SpanningTreeConfig; tc_After : SpanningTreeConfig }.
#[export] Instance SpanningTreeChange_eq_dec : EqDecision SpanningTreeChange.
Proof. solve_decision. Defined.
Definition tree_change_json (c : SpanningTreeChange) : json :=
  JObj [("before", tree_json (tc_Before c)); ("after", tree_json (tc_After c))].
(** Staging tells absent parameters from empty ones.
    go: internal/candidate/spanning_tree.go SpanningTreeRequest *)
Record SpanningTreeRequest := mkTreeRequest {
  tr_Protocol : string; tr_Parameters : option (gmap string (option string)) }.

(** go: internal/candidate/policing.go PolicingConfig *)
Record PolicingConfig := mkPolicing { Rate : Z; Burst : Z; PacketRate : Z; PacketBurst : Z }.
#[export] Instance PolicingConfig_eq_dec : EqDecision PolicingConfig.
Proof. solve_decision. Defined.
Definition policing_json (p : PolicingConfig) : json :=
  JObj [("ingress_policing_rate", JNum (Rate p)); ("ingress_policing_burst", JNum (Burst p));
        ("ingress_policing_kpkts_rate", JNum (PacketRate p));
        ("ingress_policing_kpkts_burst", JNum (PacketBurst p))].
(** go: internal/candidate/policing.go PolicingChange *)
Record PolicingChange := mkPolicingChange {
  pc_Before : PolicingConfig; pc_After : PolicingConfig; pc_Port : Binding; pc_Bridge : Binding;
  pc_Name : string; pc_IfIndex : Z; pc_Compensating : bool }.
#[export] Instance PolicingChange_eq_dec : EqDecision PolicingChange.
Proof. solve_decision. Defined.
Definition policing_change_json (c : PolicingChange) : json :=
  JObj ([("before", policing_json (pc_Before c)); ("after", policing_json (pc_After c));
         ("port", binding_json (pc_Port c)); ("bridge", binding_json (pc_Bridge c));
         ("name", JStr (pc_Name c)); ("ifindex", JNum (pc_IfIndex c))]
        ++ omit_bool "compensating" (pc_Compensating c)).
(** go: internal/candidate/policing.go PolicingRequest *)
Record PolicingRequest := mkPolicingRequest { pr_Mode : string; pr_Rate : Z }.

(** go: internal/candidate/mtu.go MTUDefault *)
Record MTUDefault := mkMTUDefault {
  md_MTU : Z; md_Dependency : string; md_Bindings : option (list Binding) }.
#[export] Instance MTUDefault_eq_dec : EqDecision MTUDefault.
Proof. solve_decision. Defined.
Definition mtu_default_json (d : MTUDefault) : json :=
  JObj [("mtu", JNum (md_MTU d)); ("dependency", JStr (md_Dependency d));
        ("bindings", jslice binding_json (md_Bindings d))].
(** go: internal/candidate/mtu.go MTUChange *)
Record MTUChange := mkMTUChange {
  m_Before : option Z; m_After : option Z; m_Port : Binding; m_Bridge : Binding;
  m_Default : option MTUDefault; m_Compensating : bool }.
#[export] Instance MTUChange_eq_dec : EqDecision MTUChange.
Proof. solve_decision. Defined.
Definition mtu_json (m : MTUChange) : json :=
  JObj ([("before", jopt JNum (m_Before m)); ("after", jopt JNum (m_After m));
         ("port", binding_json (m_Port m)); ("bridge", binding_json (m_Bridge m))]
        ++ omit_nil "default_context" mtu_default_json (m_Default m)
        ++ omit_bool "compensating" (m_Compensating m)).

(** ** The managed graphs *)

(** go: internal/candidate/bridge.go BridgeCreation *)
Record BridgeCreation := mkBridgeCreation {
  bc_Name : string; bc_Root : string; bc_Port : Binding; bc_Interface : Binding;
  bc_BeforePresent : bool; bc_AfterPresent : bool }.
#[export] Instance BridgeCreation_eq_dec : EqDecision BridgeCreation.
Proof. solve_decision. Defined.
Definition bridge_creation_json (c : BridgeCreation) : json :=
  JObj [("name", JStr (bc_Name c)); ("root_uuid", JStr (bc_Root c));
        ("local_port", binding_json (bc_Port c)); ("local_interface", binding_json (bc_Interface c));
        ("before_present", JBool (bc_BeforePresent c)); ("after_present", JBool (bc_AfterPresent c))].

(** go: internal/candidate/bridge_delete.go BridgeGraph *)
Record BridgeGraph := mkBridgeGraph {
  bg_Name : string; bg_Root : string; bg_Bridge : Binding; bg_Port : Binding; bg_Interface : Binding }.
#[export] Instance BridgeGraph_eq_dec : EqDecision BridgeGraph.
Proof. solve_decision. Defined.
Definition bridge_graph_json (g : BridgeGraph) : json :=
  JObj [("name", JStr (bg_Name g)); ("root_uuid", JStr (bg_Root g)); ("bridge", binding_json (bg_Bridge g));
        ("local_port", binding_json (bg_Port g)); ("local_interface", binding_json (bg_Interface g))].
(** go: internal/candidate/bridge_delete.go BridgeGraph.Bindings *)
Definition graph_Bindings (g : BridgeGraph) : list Binding := [bg_Bridge g; bg_Port g; bg_Interface g].

(** go: internal/candidate/bridge_delete.go BridgeDeletion *)
Record BridgeDeletion := mkBridgeDeletion {
  bd_Source : BridgeGraph; bd_Replacement : BridgeGraph; bd_SourceMarker : string;
  bd_Restoring : bool; bd_Observed : bool }.
#[export] Instance BridgeDeletion_eq_dec : EqDecision BridgeDeletion.
Proof. solve_decision. Defined.
Definition bridge_deletion_json (d : BridgeDeletion) : json :=
  JObj ([("source", bridge_graph_json (bd_Source d)); ("replacement", bridge_graph_json (bd_Replacement d));
         ("source_marker", JStr (bd_SourceMarker d))]
        ++ omit_bool "restoring" (bd_Restoring d) ++ omit_bool "observed" (bd_Observed d)).

(** go: internal/candidate/internal_port.go InternalPortCreation *)
Record InternalPortCreation := mkPortCreation {
  ip_Name : string; ip_VLANID : Z; ip_Root : string; ip_Bridge : Binding; ip_BridgeName : string;
  ip_Interface : Binding; ip_Members : option (list Binding); ip_LocalPort : Binding;
  ip_LocalInterface : Binding; ip_BeforePresent : bool; ip_AfterPresent : bool }.
#[export] Instance InternalPortCreation_eq_dec : EqDecision InternalPortCreation.
Proof. solve_decision. Defined.
Definition port_creation_json (p : InternalPortCreation) : json :=
  JObj [("name", JStr (ip_Name p)); ("vlan_id", JNum (ip_VLANID p)); ("root_uuid", JStr (ip_Root p));
        ("bridge", binding_json (ip_Bridge p)); ("bridge_name", JStr (ip_BridgeName p));
        ("interface", binding_json (ip_Interface p)); ("original_members", jslice binding_json (ip_Members p));
        ("local_port", binding_json (ip_LocalPort p)); ("local_interface", binding_json (ip_LocalInterface p));
        ("before_present", JBool (ip_BeforePresent p)); ("after_present", JBool (ip_AfterPresent p))].

(** go: internal/candidate/internal_port_delete.go InternalPortGraph *)
Record InternalPortGraph := mkPortGraph { pg_Port : Binding; pg_Configuration : InternalPortCreation }.
#[export] Instance InternalPortGraph_eq_dec : EqDecision InternalPortGraph.
Proof. solve_decision. Defined.
Definition port_graph_json (g : InternalPortGraph) : json :=
  JObj [("port", binding_json (pg_Port g)); ("configuration", port_creation_json (pg_Configuration g))].
(** go: internal/candidate/internal_port_delete.go InternalPortGraph.Bindings *)
Definition port_graph_Bindings (g : InternalPortGraph) : list Binding :=
  [pg_Port g; ip_Interface (pg_Configuration g)].

(** go: internal/candidate/internal_port_delete.go InternalPortDeletion *)
Record InternalPortDeletion := mkPortDeletion {
  pd_Source : InternalPortGraph; pd_Replacement : InternalPortGraph; pd_SourceMarker : string;
  pd_SourceDependency : string; pd_Restoring : bool; pd_Observed : bool }.
#[export] Instance InternalPortDeletion_eq_dec : EqDecision InternalPortDeletion.
Proof. solve_decision. Defined.
Definition port_deletion_json (d : InternalPortDeletion) : json :=
  JObj ([("source", port_graph_json (pd_Source d)); ("replacement", port_graph_json (pd_Replacement d));
         ("source_marker", JStr (pd_SourceMarker d)); ("source_dependency", JStr (pd_SourceDependency d))]
        ++ omit_bool "restoring" (pd_Restoring d) ++ omit_bool "observed" (pd_Observed d)).

(** ** Topology graphs *)

(** go: internal/candidate/mirror.go MirrorChange *)
Record MirrorChange := mkMirrorChange {
  mi_Object : Binding; mi_Bridge : Binding;
  mi_Before : option Mirror.Configuration; mi_After : option Mirror.Configuration }.
#[export] Instance MirrorChange_eq_dec : EqDecision MirrorChange.
Proof. solve_decision. Defined.
Definition mirror_change_json (c : MirrorChange) : json :=
  JObj [("object", binding_json (mi_Object c)); ("bridge", binding_json (mi_Bridge c));
        ("before", jopt mirror_json (mi_Before c)); ("after", jopt mirror_json (mi_After c))].

(** go: internal/candidate/tunnel.go TunnelChange *)
Record TunnelChange := mkTunnelChange {
  tu_Interface : Binding; tu_Before : option Tunnel.Configuration; tu_After : option Tunnel.Configuration }.
#[export] Instance TunnelChange_eq_dec : EqDecision TunnelChange.
Proof. solve_decision. Defined.
Definition tunnel_change_json (c : TunnelChange) : json :=
  JObj [("interface", binding_json (tu_Interface c)); ("before", jopt tunnel_json (tu_Before c));
        ("after", jopt tunnel_json (tu_After c))].

#[export] Instance TunnelRequest_eq_dec : EqDecision Tunnel.Request.
Proof. solve_decision. Defined.

(** go: internal/candidate/topology.go TopologyRequest *)
Record TopologyRequest := mkTopologyRequest {
  tq_Mirror : option Mirror.Configuration; tq_Tunnel : option Tunnel.Request; tq_Name : string;
  tq_NativeType : string; tq_InterfaceNames : list string; tq_Sources : list Binding;
  tq_Destination : option Binding; tq_Members : list Binding; tq_Peer : option Binding; tq_Ofport : Z }.
#[export] Instance TopologyRequest_eq_dec : EqDecision TopologyRequest.
Proof. solve_decision. Defined.
Definition topology_request_json (r : TopologyRequest) : json :=
  JObj (omit_nil "mirror" mirror_json (tq_Mirror r) ++ omit_nil "tunnel" tunnel_request_json (tq_Tunnel r)
        ++ omit_str "name" (tq_Name r) ++ omit_str "native_type" (tq_NativeType r)
        ++ omit_list "interface_names" JStr (tq_InterfaceNames r)
        ++ omit_list "source_ports" binding_json (tq_Sources r)
        ++ omit_nil "destination_bridge" binding_json (tq_Destination r)
        ++ omit_list "member_interfaces" binding_json (tq_Members r)
        ++ omit_nil "peer" binding_json (tq_Peer r) ++ omit_int "ofport_request" (tq_Ofport r)).

(** go: internal/candidate/topology.go TopologyConfigurationSummary *)
Record TopologyConfigurationSummary := mkSummary {
  ts_Mirror : option Mirror.Configuration; ts_Tunnel : option Tunnel.Configuration;
  ts_TunnelReason : string; ts_VLANMode : option (list string); ts_Tag : option (list string);
  ts_Trunks : option (list string); ts_CVLANs : option (list string); ts_LACP : option (list string);
  ts_BondMode : option (list string); ts_OfportRequest : option (list string);
  ts_MTURequest : option (list string); ts_PolicingRate : option string;
  ts_PolicingBurst : option string; ts_PacketRate : option string; ts_PacketBurst : option string;
  ts_Fallback : option string; ts_PatchPeer : option string }.
#[export] Instance Summary_eq_dec : EqDecision TopologyConfigurationSummary.
Proof. solve_decision. Defined.
Definition summary_json (s : TopologyConfigurationSummary) : json :=
  JObj (omit_nil "mirror" mirror_json (ts_Mirror s) ++ omit_nil "tunnel" tunnel_json (ts_Tunnel s)
        ++ omit_str "tunnel_reason" (ts_TunnelReason s)
        ++ omit_nil "vlan_mode" (jlist JStr) (ts_VLANMode s) ++ omit_nil "tag" (jlist JStr) (ts_Tag s)
        ++ omit_nil "trunks" (jlist JStr) (ts_Trunks s) ++ omit_nil "cvlans" (jlist JStr) (ts_CVLANs s)
        ++ omit_nil "lacp" (jlist JStr) (ts_LACP s) ++ omit_nil "bond_mode" (jlist JStr) (ts_BondMode s)
        ++ omit_nil "ofport_request" (jlist JStr) (ts_OfportRequest s)
        ++ omit_nil "mtu_request" (jlist JStr) (ts_MTURequest s)
        ++ omit_nil "ingress_policing_rate" JStr (ts_PolicingRate s)
        ++ omit_nil "ingress_policing_burst" JStr (ts_PolicingBurst s)
        ++ omit_nil "ingress_policing_kpkts_rate" JStr (ts_PacketRate s)
        ++ omit_nil "ingress_policing_kpkts_burst" JStr (ts_PacketBurst s)
        ++ omit_nil "lacp-fallback-ab" JStr (ts_Fallback s) ++ omit_nil "patch_peer" JStr (ts_PatchPeer s)).

(** go: internal/candidate/topology.go TopologyNode *)
Record TopologyNode := mkNode {
  n_Summary : option TopologyConfigurationSummary; n_Binding : Binding; n_Name : string;
  n_Type : string; n_Links : option (list Binding); n_Digest : string }.
#[export] Instance TopologyNode_eq_dec : EqDecision TopologyNode.
Proof. solve_decision. Defined.
Definition node_json (n : TopologyNode) : json :=
  JObj (omit_nil "configuration_summary" summary_json (n_Summary n)
        ++ [("binding", binding_json (n_Binding n)); ("name", JStr (n_Name n)); ("native_type", JStr (n_Type n));
            ("links", jslice binding_json (n_Links n)); ("configuration_digest", JStr (n_Digest n))]).

(** go: internal/candidate/topology.go TopologyChange *)
Record TopologyChange := mkTopologyChange {
  tp_Mirror : option MirrorChange; tp_MirrorAuthorityRevision : string; tp_MirrorDependency : string;
  tp_Tunnel : option TunnelChange; tp_TunnelAuthorityRevision : string; tp_TunnelDependency : string;
  tp_Allocations : gmap string string; tp_Request : TopologyRequest; tp_Root : string;
  tp_RootDependency : string; tp_Before : option (list TopologyNode); tp_After : option (list TopologyNode);
  tp_Replacements : gmap string Binding; tp_Restored : option (list TopologyNode);
  tp_Observed : bool; tp_Compensating : bool }.
#[export] Instance TopologyChange_eq_dec : EqDecision TopologyChange.
Proof. solve_decision. Defined.
Definition topology_json (c : TopologyChange) : json :=
  JObj (omit_nil "mirror_change" mirror_change_json (tp_Mirror c)
        ++ omit_str "mirror_authority_revision" (tp_MirrorAuthorityRevision c)
        ++ omit_str "mirror_dependency" (tp_MirrorDependency c)
        ++ omit_nil "tunnel_change" tunnel_change_json (tp_Tunnel c)
        ++ omit_str "tunnel_authority_revision" (tp_TunnelAuthorityRevision c)
        ++ omit_str "tunnel_dependency" (tp_TunnelDependency c)
        ++ omit_map "allocations" JStr (tp_Allocations c)
        ++ [("request", topology_request_json (tp_Request c)); ("root_uuid", JStr (tp_Root c));
            ("root_dependency", JStr (tp_RootDependency c));
            ("before", jslice node_json (tp_Before c)); ("after", jslice node_json (tp_After c));
            ("replacements", jmap binding_json (tp_Replacements c));
            ("restored", jslice node_json (tp_Restored c))]
        ++ omit_bool "observed" (tp_Observed c) ++ omit_bool "compensating" (tp_Compensating c)).

(** ** Intents and candidates *)

(** go: internal/candidate/types.go Intent *)
Record Intent := mkIntent {
  in_Multicast : option Multicast.Request; in_Protected : option bool;
  in_SpanningTree : option SpanningTreeRequest; in_Topology : option TopologyRequest;
  in_Policing : option PolicingRequest; in_ID : string; in_Operation : string; in_Object : Binding;
  in_Value : VLAN; in_Mode : string; in_LACP : string; in_Members : list string; in_Fallback : string;
  in_Name : string; in_VLANID : Z; in_MTURequest : Z }.

(** go: internal/candidate/types.go StoredIntent *)
Record StoredIntent := mkStored {
  i_Multicast : option MulticastChange; i_Isolation : option IsolationChange;
  i_SpanningTree : option SpanningTreeChange; i_Topology : option TopologyChange;
  i_Policing : option PolicingChange; i_QinQ : option QinQContext; i_MTU : option MTUChange;
  i_ID : string; i_Operation : string; i_Object : Binding; i_Value : VLAN; i_Before : VLAN;
  i_Dependency : string; i_Schema : string; i_Bond : option Bond; i_BeforeBond : option Bond;
  i_BondMembers : list string; i_Creation : option BridgeCreation; i_Deletion : option BridgeDeletion;
  i_PortDeletion : option InternalPortDeletion; i_PortCreation : option InternalPortCreation }.
#[export] Instance StoredIntent_eq_dec : EqDecision StoredIntent.
Proof. solve_decision. Defined.
Definition zero_intent : StoredIntent :=
  mkStored None None None None None None None "" "" zero_binding zero_vlan zero_vlan "" ""
    None None [] None None None None.
Definition intent_json (i : StoredIntent) : json :=
  JObj (omit_nil "multicast_change" multicast_change_json (i_Multicast i)
        ++ omit_nil "isolation_change" isolation_json (i_Isolation i)
        ++ omit_nil "spanning_tree_change" tree_change_json (i_SpanningTree i)
        ++ omit_nil "topology_change" topology_json (i_Topology i)
        ++ omit_nil "policing_change" policing_change_json (i_Policing i)
        ++ omit_nil "qinq_context" qinq_json (i_QinQ i) ++ omit_nil "mtu_change" mtu_json (i_MTU i)
        ++ [("intent_id", JStr (i_ID i)); ("operation", JStr (i_Operation i));
            ("object", binding_json (i_Object i)); ("value", vlan_json (i_Value i));
            ("before", vlan_json (i_Before i)); ("dependency_revision", JStr (i_Dependency i));
            ("schema_digest", JStr (i_Schema i))]
        ++ omit_nil "bond" bond_json (i_Bond i) ++ omit_nil "before_bond" bond_json (i_BeforeBond i)
        ++ omit_list "bond_member_interface_ids" JStr (i_BondMembers i)
        ++ omit_nil "bridge_creation" bridge_creation_json (i_Creation i)
        ++ omit_nil "bridge_deletion" bridge_deletion_json (i_Deletion i)
        ++ omit_nil "internal_port_deletion" port_deletion_json (i_PortDeletion i)
        ++ omit_nil "internal_port_creation" port_creation_json (i_PortCreation i)).

(** go: internal/candidate/types.go Candidate *)
Record Candidate := mkCandidate {
  c_ID : string; c_Revision : string; c_Generation : option string; c_BaseRevision : option string;
  c_State : string; c_Intents : option (list StoredIntent); c_Consumed : option Ref }.
#[export] Instance Candidate_eq_dec : EqDecision Candidate.
Proof. solve_decision. Defined.
Definition candidate_fields (c : Candidate) : list (string * json) :=
  [("id", JStr (c_ID c)); ("revision", JStr (c_Revision c)); ("instance_generation", jostr (c_Generation c));
   ("base_config_revision", jostr (c_BaseRevision c)); ("state", JStr (c_State c));
   ("intents", jslice intent_json (c_Intents c)); ("consumed_by", jopt ref_json (c_Consumed c))].
Definition candidate_json (c : Candidate) : json := JObj (candidate_fields c).
(** The elements of [c.Intents]; a nil slice has none. *)
Definition intents (c : Candidate) : list StoredIntent := default [] (c_Intents c).

(** go: internal/candidate/types.go Envelope *)
Record Envelope := mkEnvelope {
  e_Owner : string; e_Epoch : string; e_Sequence : Z; e_Candidate : Candidate; e_Seal : string }.
#[export] Instance Envelope_eq_dec : EqDecision Envelope.
Proof. solve_decision. Defined.
Definition envelope_json (e : Envelope) : json :=
  JObj [("owner_id", JStr (e_Owner e)); ("workspace_epoch", JStr (e_Epoch e)); ("sequence", JNum (e_Sequence e));
        ("candidate", candidate_json (e_Candidate e)); ("seal", JStr (e_Seal e))].

(** go: internal/candidate/types.go Resolution *)
Record Resolution := mkResolution { r_IntentID : string; r_Choice : string }.
(** go: internal/candidate/types.go Command *)
Record Command := mkCommand {
  cmd_RequestID : string; cmd_Operation : string; cmd_Intents : list Intent; cmd_IntentIDs : list string;
  cmd_Generation : string; cmd_ConfigRevision : string; cmd_ConflictSnapshot : option string;
  cmd_Resolutions : list Resolution }.

(** go: internal/candidate/types.go Gate *)
Record Gate := mkGate { g_Code : string; g_State : string; g_Reason : string; g_IntentID : string }.
#[export] Instance Gate_eq_dec : EqDecision Gate.
Proof. solve_decision. Defined.
Definition gate_json (g : Gate) : json :=
  JObj ([("code", JStr (g_Code g)); ("state", JStr (g_State g)); ("reason", JStr (g_Reason g))]
        ++ omit_str "intent_id" (g_IntentID g)).
(** The values of a difference are [any]: their JSON stands for them.
    go: internal/candidate/types.go Diff *)
Record Diff := mkDiff {
  d_Object : Binding; d_Field : string; d_Before : json; d_After : json; d_Authority : string;
  d_Current : json; d_Operation : string; d_IntentID : string; d_Conflict : bool }.
Definition diff_json (d : Diff) : json :=
  JObj [("object", binding_json (d_Object d)); ("field", JStr (d_Field d)); ("before", d_Before d);
        ("after", d_After d); ("authority", JStr (d_Authority d)); ("current", d_Current d);
        ("operation", JStr (d_Operation d)); ("intent_id", JStr (d_IntentID d));
        ("conflict", JBool (d_Conflict d))].
(** go: internal/candidate/types.go View *)
Record View := mkView {
  vw_Candidate : Candidate; vw_SafeApplyAvailable : bool; vw_CurrentGeneration : option string;
  vw_CurrentRevision : option string; vw_ConflictSnapshot : option string; vw_Diff : list Diff;
  vw_Checks : list Gate; vw_DiffTruncated : bool }.
Definition view_json (v : View) : json :=
  JObj (candidate_fields (vw_Candidate v)
        ++ [("safe_apply_available", JBool (vw_SafeApplyAvailable v));
            ("current_instance_generation", jostr (vw_CurrentGeneration v));
            ("current_config_revision", jostr (vw_CurrentRevision v));
            ("conflict_snapshot_id", jostr (vw_ConflictSnapshot v)); ("diff", jlist diff_json (vw_Diff v));
            ("checks", jlist gate_json (vw_Checks v)); ("diff_truncated", JBool (vw_DiffTruncated v))]).
