(* ===== verification/Intents.v ===== *)
(** * internal/candidate: what an intent touches, and its images

    The seal of an envelope (types.go), the operation classes and their
    capabilities (bond.go), the managed bindings of an intent (types.go,
    topology.go, bridge.go), and the images used for proof and compensation:
    [AfterImage] is what an applied intent looks like, [Reverse] what undoes
    it. *)

From S2P Require Import Prelude GoStrings Sha256 GoJson ApiTypes Multicast Mirror Tunnel.
From S2P Require Import CandidateTypes.

(** go: internal/candidate/types.go MaxIntents *)
Definition MaxIntents : Z := 32.
(** go: internal/candidate/types.go MaxDocument *)
Definition MaxDocument : Z := 40960.

(** ** The seal *)

(** [Seal] is blank while it is computed.
    go: internal/candidate/types.go Envelope.signature *)
Definition signature (e : Envelope) (key : list Z) : string :=
  let e := mkEnvelope (e_Owner e) (e_Epoch e) (e_Sequence e) (e_Candidate e) "" in
  hex_encode (hmac_sha256 key (bytes "ovs-candidate-original-v1" ++ [0] ++ bytes (marshal (envelope_json e)))).
(** go: internal/candidate/types.go Envelope.Sign *)
Definition Sign (e : Envelope) (key : list Z) : Envelope :=
  mkEnvelope (e_Owner e) (e_Epoch e) (e_Sequence e) (e_Candidate e) (signature e key).
(** go: internal/candidate/types.go Envelope.Verify *)
Definition Verify (e : Envelope) (key : list Z) (owner : string) : result unit :=
  let c := e_Candidate e in
  fail_if negb (len key =? 32) || (e_Owner e <>s owner) || negb (ManagementID (e_Epoch e))
          || negb (ManagementID (c_ID c)) || negb (ManagementID (c_Revision c))
          || (e_Sequence e <? 0) || (MaxIntents <? len (intents c))
    with Fail 422 "INVALID_CANDIDATE" ;;
  if (e_Sequence e =? 0) && (e_Seal e =s "") && is_empty (intents c) && (c_State c =s "empty")
     && is_nil (c_Generation c) && is_nil (c_BaseRevision c) && is_nil (c_Consumed c)
  then Ok tt
  else
    fail_if e_Seal e <>s signature e key with Fail 409 "CANDIDATE_INTEGRITY_FAILED" ;;
    Ok tt.

(** [Budget] takes the value's JSON.
    go: internal/candidate/types.go Budget *)
Definition Budget (j : json) : result unit :=
  fail_if MaxDocument <? slen (marshal j) with Fail 429 "CANDIDATE_BUDGET_EXCEEDED" ;; Ok tt.

(** ** Operation classes *)

(** go: internal/candidate/multicast.go BridgeMulticastSet *)
Definition BridgeMulticastSet : string := "bridge.multicast.configure".
(** go: internal/candidate/isolation.go PortIsolationSet *)
Definition PortIsolationSet : string := "port.isolation.set".
(** go: internal/candidate/spanning_tree.go SpanningTreePrepare *)
Definition SpanningTreePrepare : string := "bridge.spanning-tree.prepare".
(** go: internal/candidate/spanning_tree.go SpanningTreeConfigure *)
Definition SpanningTreeConfigure : string := "bridge.spanning-tree.configure".
(** go: internal/candidate/policing.go InterfacePolicingSet *)
Definition InterfacePolicingSet : string := "interface.policing.set".
(** go: internal/candidate/mtu.go InterfaceMTUSet *)
Definition InterfaceMTUSet : string := "interface.mtu.set".
(** go: internal/candidate/mtu.go InterfaceMTUClear *)
Definition InterfaceMTUClear : string := "interface.mtu.clear".
(** go: internal/candidate/internal_port.go InternalPortCreate *)
Definition InternalPortCreate : string := "port.create-internal".
(** go: internal/candidate/internal_port_delete.go InternalPortDelete *)
Definition InternalPortDelete : string := "port.delete-internal".
(** go: internal/candidate/bridge.go BridgeCreate *)
Definition BridgeCreate : string := "bridge.create-isolated".
(** go: internal/candidate/bridge_delete.go BridgeDelete *)
Definition BridgeDelete : string := "bridge.delete-isolated".
(** go: internal/candidate/mirror.go MirrorCreate *)
Definition MirrorCreate : string := "mirror.session.create".
(** go: internal/candidate/mirror.go MirrorConfigure *)
Definition MirrorConfigure : string := "mirror.session.configure".
(** go: internal/candidate/mirror.go MirrorDelete *)
Definition MirrorDelete : string := "mirror.session.delete".
(** go: internal/candidate/tunnel.go TunnelCreate *)
Definition TunnelCreate : string := "tunnel.static.create".
(** go: internal/candidate/tunnel.go TunnelConfigure *)
Definition TunnelConfigure : string := "tunnel.static.configure".
(** go: internal/candidate/tunnel.go TunnelDelete *)
Definition TunnelDelete : string := "tunnel.static.delete".

(** go: internal/candidate/bond.go IsBondOperation *)
Definition IsBondOperation (op : string) : bool := (op =s "bond.configure") || (op =s "port.lacp.set").
(** go: internal/candidate/mtu.go IsMTUOperation *)
Definition IsMTUOperation (op : string) : bool := (op =s InterfaceMTUSet) || (op =s InterfaceMTUClear).
(** go: internal/candidate/spanning_tree.go IsSpanningTreeOperation *)
Definition IsSpanningTreeOperation (op : string) : bool :=
  (op =s SpanningTreePrepare) || (op =s SpanningTreeConfigure).
(** go: internal/candidate/mirror.go IsMirrorOperation *)
Definition IsMirrorOperation (op : string) : bool :=
  (op =s MirrorCreate) || (op =s MirrorConfigure) || (op =s MirrorDelete).
(** go: internal/candidate/tunnel.go IsTunnelOperation *)
Definition IsTunnelOperation (op : string) : bool :=
  (op =s TunnelCreate) || (op =s TunnelConfigure) || (op =s TunnelDelete).
(** go: internal/candidate/topology.go IsTopologyOperation *)
Definition IsTopologyOperation (op : string) : bool :=
  IsMirrorOperation op || IsTunnelOperation op
  || contains ["port.create"; "bond.create"; "port.delete"; "bridge.delete-tree"; "port.move";
               "bond.members.set"; "interface.ofport.set"; "interface.ofport.clear";
               "interface.patch.connect"; "interface.patch.disconnect"] op.
(** go: internal/candidate/bridge_delete.go IsBridgeOperation *)
Definition IsBridgeOperation (op : string) : bool := (op =s BridgeCreate) || (op =s BridgeDelete).
(** go: internal/candidate/internal_port.go IsGraphOperation *)
Definition IsGraphOperation (op : string) : bool :=
  IsBridgeOperation op || (op =s InternalPortCreate) || (op =s InternalPortDelete) || IsTopologyOperation op.

Definition append_new (out : list string) (x : string) : list string :=
  if contains out x then out else out ++ [x].

(** The last matching assignment wins.
    go: internal/candidate/bond.go:23-74 Capabilities *)
Definition capability (op : string) : string :=
  if op =s BridgeDelete then "ovs.bridge.delete"
  else if op =s BridgeCreate then "ovs.bridge.create"
  else if IsBondOperation op then "ovs.port.bond.write"
  else if op =s "port.vlan.set" then "ovs.port.vlan.write"
  else if op =s InternalPortCreate then "ovs.port.internal.create"
  else if op =s InternalPortDelete then "ovs.port.internal.delete"
  else if IsMTUOperation op then "ovs.interface.mtu.write"
  else if op =s InterfacePolicingSet then "ovs.interface.policing.write"
  else if IsTunnelOperation op then "ovs.tunnel.static.write"
  else if IsMirrorOperation op then "ovs.mirror.write"
  else if IsTopologyOperation op then "ovs.topology.write"
  else if op =s SpanningTreeConfigure then "ovs.bridge.spanning-tree.write"
  else if op =s SpanningTreePrepare then "ovs.bridge.spanning-tree.prepare"
  else if op =s PortIsolationSet then "ovs.port.isolation.write"
  else if op =s BridgeMulticastSet then "ovs.bridge.multicast.write"
  else "unsupported-intent".

Definition add_capability (out : list string) (i : StoredIntent) : list string :=
  let out := if IsSpanningTreeOperation (i_Operation i) then append_new out "configuration.read" else out in
  append_new out (capability (i_Operation i)).

(** go: internal/candidate/bond.go Capabilities *)
Definition Capabilities (c : Candidate) : list string :=
  merge_sort (fun a b => Is_true (String.leb a b)) (fold_left add_capability (intents c) []).

(** ** Bindings *)

(** The restoration images: every deleted node with a reserved replacement.
    go: internal/candidate/topology.go TopologyCreations *)
Definition TopologyCreations (i : StoredIntent) (restoration : bool) : list Binding :=
  match i_Topology i with
  | None => []
  | Some t =>
    let before := default [] (tp_Before t) in
    if restoration then omap (fun n => tp_Replacements t !! OVSUUID (n_Binding n)) before
    else n_Binding <$> filter (fun n => n_Binding n ∉ (n_Binding <$> before)) (default [] (tp_After t))
  end.

Definition append_binding (out : list Binding) (b : Binding) : list Binding :=
  if bool_decide (b ∈ out) then out else out ++ [b].

(** go: internal/candidate/topology.go TopologyBindings *)
Definition TopologyBindings (i : StoredIntent) : list Binding :=
  match i_Topology i with
  | None => []
  | Some t =>
    fold_left append_binding (n_Binding <$> (default [] (tp_After t) ++ default [] (tp_Restored t)))
      (n_Binding <$> default [] (tp_Before t))
  end.

(** go: internal/candidate/bridge.go CreationBindings *)
Definition CreationBindings (i : StoredIntent) : list Binding :=
  match i_Topology i, i_PortCreation i, i_Creation i with
  | Some _, _, _ => TopologyCreations i false
  | _, Some p, _ => [i_Object i; ip_Interface p]
  | _, _, Some c => [i_Object i; bc_Port c; bc_Interface c]
  | _, _, None => []
  end.

Definition creation_context (p : InternalPortCreation) : list Binding :=
  [ip_Bridge p; ip_Interface p; ip_LocalPort p; ip_LocalInterface p] ++ default [] (ip_Members p).

(** go: internal/candidate/types.go:239-271 Bindings *)
Definition intent_bindings (i : StoredIntent) : list Binding :=
  i_Object i ::
  match i_Topology i with
  | Some _ => TopologyBindings i
  | None =>
    match i_Policing i with Some p => [pc_Port p; pc_Bridge p] | None => [] end
    ++ match i_MTU i with
       | Some m => [m_Port m; m_Bridge m]
                   ++ match m_Default m with Some d => default [] (md_Bindings d) | None => [] end
       | None => []
       end
    ++ match i_PortDeletion i with
       | Some d => creation_context (pg_Configuration (pd_Source d)) ++ port_graph_Bindings (pd_Replacement d)
       | None => []
       end
    ++ match i_PortCreation i with Some p => creation_context p | None => [] end
    ++ match i_Creation i with Some c => [bc_Port c; bc_Interface c] | None => [] end
    ++ match i_Deletion i with
       | Some d => [bg_Port (bd_Source d); bg_Interface (bd_Source d)] ++ graph_Bindings (bd_Replacement d)
       | None => []
       end
  end.
(** go: internal/candidate/types.go Bindings *)
Definition Bindings (c : Candidate) : list Binding := intents c ≫= intent_bindings.

(** ** Images *)

(** Setters of the intent's fields. *)
Definition with_field (i : StoredIntent)
    (mc : option MulticastChange) (iso : option IsolationChange) (st : option SpanningTreeChange)
    (tp : option TopologyChange) (pol : option PolicingChange) (mtu : option MTUChange)
    (op : string) (value before : VLAN) (bond beforeBond : option Bond)
    (cr : option BridgeCreation) (de : option BridgeDeletion)
    (pd : option InternalPortDeletion) (pc : option InternalPortCreation) : StoredIntent :=
  mkStored mc iso st tp pol (i_QinQ i) mtu (i_ID i) op (i_Object i) value before (i_Dependency i)
    (i_Schema i) bond beforeBond (i_BondMembers i) cr de pd pc.
Definition set_Multicast (i : StoredIntent) x := with_field i x (i_Isolation i) (i_SpanningTree i) (i_Topology i) (i_Policing i) (i_MTU i) (i_Operation i) (i_Value i) (i_Before i) (i_Bond i) (i_BeforeBond i) (i_Creation i) (i_Deletion i) (i_PortDeletion i) (i_PortCreation i).
Definition set_Isolation (i : StoredIntent) x := with_field i (i_Multicast i) x (i_SpanningTree i) (i_Topology i) (i_Policing i) (i_MTU i) (i_Operation i) (i_Value i) (i_Before i) (i_Bond i) (i_BeforeBond i) (i_Creation i) (i_Deletion i) (i_PortDeletion i) (i_PortCreation i).
Definition set_SpanningTree (i : StoredIntent) x := with_field i (i_Multicast i) (i_Isolation i) x (i_Topology i) (i_Policing i) (i_MTU i) (i_Operation i) (i_Value i) (i_Before i) (i_Bond i) (i_BeforeBond i) (i_Creation i) (i_Deletion i) (i_PortDeletion i) (i_PortCreation i).
Definition set_Topology (i : StoredIntent) x := with_field i (i_Multicast i) (i_Isolation i) (i_SpanningTree i) x (i_Policing i) (i_MTU i) (i_Operation i) (i_Value i) (i_Before i) (i_Bond i) (i_BeforeBond i) (i_Creation i) (i_Deletion i) (i_PortDeletion i) (i_PortCreation i).
Definition set_Policing (i : StoredIntent) x := with_field i (i_Multicast i) (i_Isolation i) (i_SpanningTree i) (i_Topology i) x (i_MTU i) (i_Operation i) (i_Value i) (i_Before i) (i_Bond i) (i_BeforeBond i) (i_Creation i) (i_Deletion i) (i_PortDeletion i) (i_PortCreation i).
Definition set_MTU (i : StoredIntent) op x := with_field i (i_Multicast i) (i_Isolation i) (i_SpanningTree i) (i_Topology i) (i_Policing i) x op (i_Value i) (i_Before i) (i_Bond i) (i_BeforeBond i) (i_Creation i) (i_Deletion i) (i_PortDeletion i) (i_PortCreation i).
Definition set_PortDeletion (i : StoredIntent) x := with_field i (i_Multicast i) (i_Isolation i) (i_SpanningTree i) (i_Topology i) (i_Policing i) (i_MTU i) (i_Operation i) (i_Value i) (i_Before i) (i_Bond i) (i_BeforeBond i) (i_Creation i) (i_Deletion i) x (i_PortCreation i).
Definition set_PortCreation (i : StoredIntent) x := with_field i (i_Multicast i) (i_Isolation i) (i_SpanningTree i) (i_Topology i) (i_Policing i) (i_MTU i) (i_Operation i) (i_Value i) (i_Before i) (i_Bond i) (i_BeforeBond i) (i_Creation i) (i_Deletion i) (i_PortDeletion i) x.
Definition set_Deletion (i : StoredIntent) x := with_field i (i_Multicast i) (i_Isolation i) (i_SpanningTree i) (i_Topology i) (i_Policing i) (i_MTU i) (i_Operation i) (i_Value i) (i_Before i) (i_Bond i) (i_BeforeBond i) (i_Creation i) x (i_PortDeletion i) (i_PortCreation i).
Definition set_Creation (i : StoredIntent) x := with_field i (i_Multicast i) (i_Isolation i) (i_SpanningTree i) (i_Topology i) (i_Policing i) (i_MTU i) (i_Operation i) (i_Value i) (i_Before i) (i_Bond i) (i_BeforeBond i) x (i_Deletion i) (i_PortDeletion i) (i_PortCreation i).
Definition set_Bonds (i : StoredIntent) bond before := with_field i (i_Multicast i) (i_Isolation i) (i_SpanningTree i) (i_Topology i) (i_Policing i) (i_MTU i) (i_Operation i) (i_Value i) (i_Before i) bond before (i_Creation i) (i_Deletion i) (i_PortDeletion i) (i_PortCreation i).
Definition set_VLANs (i : StoredIntent) value before := with_field i (i_Multicast i) (i_Isolation i) (i_SpanningTree i) (i_Topology i) (i_Policing i) (i_MTU i) (i_Operation i) value before (i_Bond i) (i_BeforeBond i) (i_Creation i) (i_Deletion i) (i_PortDeletion i) (i_PortCreation i).

(** A copy of a slice is never nil.
    go: internal/candidate/internal_port.go cloneInternalPort *)
Definition cloneInternalPort (p : InternalPortCreation) : InternalPortCreation :=
  mkPortCreation (ip_Name p) (ip_VLANID p) (ip_Root p) (ip_Bridge p) (ip_BridgeName p) (ip_Interface p)
    (Some (default [] (ip_Members p))) (ip_LocalPort p) (ip_LocalInterface p) (ip_BeforePresent p)
    (ip_AfterPresent p).
Definition set_presence (p : InternalPortCreation) (before after : bool) : InternalPortCreation :=
  mkPortCreation (ip_Name p) (ip_VLANID p) (ip_Root p) (ip_Bridge p) (ip_BridgeName p) (ip_Interface p)
    (ip_Members p) (ip_LocalPort p) (ip_LocalInterface p) before after.
(** go: internal/candidate/internal_port_delete.go clonePortDeletion *)
Definition clonePortDeletion (d : InternalPortDeletion) : InternalPortDeletion :=
  mkPortDeletion (mkPortGraph (pg_Port (pd_Source d)) (cloneInternalPort (pg_Configuration (pd_Source d))))
    (mkPortGraph (pg_Port (pd_Replacement d)) (cloneInternalPort (pg_Configuration (pd_Replacement d))))
    (pd_SourceMarker d) (pd_SourceDependency d) (pd_Restoring d) (pd_Observed d).
Definition set_phase (d : InternalPortDeletion) (restoring observed : bool) : InternalPortDeletion :=
  mkPortDeletion (pd_Source d) (pd_Replacement d) (pd_SourceMarker d) (pd_SourceDependency d) restoring observed.
Definition set_bridge_phase (d : BridgeDeletion) (restoring observed : bool) : BridgeDeletion :=
  mkBridgeDeletion (bd_Source d) (bd_Replacement d) (bd_SourceMarker d) restoring observed.
Definition set_bridge_presence (c : BridgeCreation) (before after : bool) : BridgeCreation :=
  mkBridgeCreation (bc_Name c) (bc_Root c) (bc_Port c) (bc_Interface c) before after.
Definition set_topology_phase (c : TopologyChange) (observed compensating : bool) : TopologyChange :=
  mkTopologyChange (tp_Mirror c) (tp_MirrorAuthorityRevision c) (tp_MirrorDependency c) (tp_Tunnel c)
    (tp_TunnelAuthorityRevision c) (tp_TunnelDependency c) (tp_Allocations c) (tp_Request c) (tp_Root c)
    (tp_RootDependency c) (tp_Before c) (tp_After c) (tp_Replacements c) (tp_Restored c) observed compensating.

(** go: internal/candidate/bond.go AfterImage *)
Definition AfterImage (i : StoredIntent) : StoredIntent :=
  match i_Multicast i with Some m => set_Multicast i (Some (mkMulticastChange (Multicast.Clone (mc_After m)) (Multicast.Clone (mc_After m)))) | None =>
  match i_Isolation i with Some m => set_Isolation i (Some (mkIsolationChange (iso_After m) (iso_After m))) | None =>
  match i_SpanningTree i with Some m => set_SpanningTree i (Some (mkTreeChange (tc_After m) (tc_After m))) | None =>
  match i_Topology i with Some c => set_Topology i (Some (set_topology_phase c true (tp_Compensating c))) | None =>
  match i_Policing i with Some m => set_Policing i (Some (mkPolicingChange (pc_After m) (pc_After m) (pc_Port m) (pc_Bridge m) (pc_Name m) (pc_IfIndex m) (pc_Compensating m))) | None =>
  match i_MTU i with Some m => set_MTU i (i_Operation i) (Some (mkMTUChange (m_After m) (m_After m) (m_Port m) (m_Bridge m) (m_Default m) (m_Compensating m))) | None =>
  match i_PortDeletion i with Some d => set_PortDeletion i (Some (set_phase (clonePortDeletion d) (pd_Restoring d) true)) | None =>
  match i_PortCreation i with Some p => set_PortCreation i (Some (set_presence (cloneInternalPort p) (ip_AfterPresent p) (ip_AfterPresent p))) | None =>
  match i_Deletion i with Some d => set_Deletion i (Some (set_bridge_phase d (bd_Restoring d) true)) | None =>
  match i_Creation i with Some c => set_Creation i (Some (set_bridge_presence c (bc_AfterPresent c) (bc_AfterPresent c))) | None =>
  if IsBondOperation (i_Operation i) then set_Bonds i (i_Bond i) (i_Bond i) else set_VLANs i (i_Value i) (i_Value i)
  end end end end end end end end end end.

(** go: internal/candidate/bond.go Reverse *)
Definition Reverse (i : StoredIntent) : StoredIntent :=
  match i_Multicast i with Some m => set_Multicast i (Some (mkMulticastChange (Multicast.Clone (mc_After m)) (Multicast.Clone (mc_Before m)))) | None =>
  match i_Isolation i with Some m => set_Isolation i (Some (mkIsolationChange (iso_After m) (iso_Before m))) | None =>
  match i_SpanningTree i with Some m => set_SpanningTree i (Some (mkTreeChange (tc_After m) (tc_Before m))) | None =>
  match i_Topology i with Some c => set_Topology i (Some (set_topology_phase c false true)) | None =>
  match i_Policing i with Some m => set_Policing i (Some (mkPolicingChange (pc_After m) (pc_Before m) (pc_Port m) (pc_Bridge m) (pc_Name m) (pc_IfIndex m) true)) | None =>
  match i_MTU i with Some m => set_MTU i (if is_nil (m_Before m) then InterfaceMTUClear else InterfaceMTUSet) (Some (mkMTUChange (m_After m) (m_Before m) (m_Port m) (m_Bridge m) (m_Default m) true)) | None =>
  match i_PortDeletion i with Some d => set_PortDeletion i (Some (set_phase (clonePortDeletion d) true false)) | None =>
  match i_PortCreation i with Some p => set_PortCreation i (Some (set_presence (cloneInternalPort p) (ip_AfterPresent p) (ip_BeforePresent p))) | None =>
  match i_Deletion i with Some d => set_Deletion i (Some (set_bridge_phase d true false)) | None =>
  match i_Creation i with Some c => set_Creation i (Some (set_bridge_presence c (bc_AfterPresent c) (bc_BeforePresent c))) | None =>
  if IsBondOperation (i_Operation i) then set_Bonds i (i_BeforeBond i) (i_Bond i) else set_VLANs i (i_Before i) (i_Value i)
  end end end end end end end end end end.

(** The child pair of an internal Port operation, [None] when the intent is
    not one.
    go: internal/candidate/internal_port_delete.go InternalPortGraphIntent *)
Definition InternalPortGraphIntent (i : StoredIntent) : option StoredIntent :=
  if (i_Operation i =s InternalPortCreate) && not_nil (i_PortCreation i) && is_nil (i_PortDeletion i) then Some i
  else if (i_Operation i <>s InternalPortDelete) || not_nil (i_PortCreation i) then None
  else match i_PortDeletion i with
       | None => None
       | Some d =>
         let g := if pd_Restoring d then pd_Replacement d else pd_Source d in
         let before := if pd_Observed d then pd_Restoring d else negb (pd_Restoring d) in
         let p := set_presence (cloneInternalPort (pg_Configuration g)) before (pd_Restoring d) in
         Some (mkStored None None None None None None None (i_ID i) InternalPortCreate (pg_Port g) zero_vlan
                 zero_vlan (i_Dependency i) (i_Schema i) None None [] None None None (Some p))
       end.

(** go: internal/candidate/bridge_delete.go BridgeGraphIntent *)
Definition BridgeGraphIntent (i : StoredIntent) : option StoredIntent :=
  if (i_Operation i =s BridgeCreate) && not_nil (i_Creation i) && is_nil (i_Deletion i) then Some i
  else if (i_Operation i <>s BridgeDelete) || not_nil (i_Creation i) then None
  else match i_Deletion i with
       | None => None
       | Some d =>
         let g := if bd_Restoring d then bd_Replacement d else bd_Source d in
         let before := if bd_Observed d then bd_Restoring d else negb (bd_Restoring d) in
         Some (mkStored None None None None None None None (i_ID i) (i_Operation i) (bg_Bridge g) zero_vlan
                 zero_vlan "" "" None None []
                 (Some (mkBridgeCreation (bg_Name g) (bg_Root g) (bg_Port g) (bg_Interface g) before (bd_Restoring d)))
                 None None None)
       end.
