(* ===== verification/Snapshots.v ===== *)
(** * internal/candidate: the projection of the native configuration

    A [Snapshot] is one immutable projection of what mgrd monitors: per
    operation class the objects it may touch, what is known of them, the
    authority over them, and digests of what they depend on. *)

From S2P Require Import Prelude GoStrings GoJson ApiTypes Multicast Mirror Tunnel.
From S2P Require Import CandidateTypes.

Module Snapshots.

(** ** Fields of ports, interfaces and bridges *)

(** go: internal/candidate/types.go Port *)
Record Port := mkPort {
  po_QinQ : option QinQContext; QinQSupported : bool; po_Binding : Binding; po_VLAN : VLAN; Known : bool;
  SchemaSupported : bool; Modes : list string; Dependency : string; Authority : string; Reason : string;
  po_Bond : Bond; BondKnown : bool; BondSupported : bool; BondDependency : string; BondAuthority : string;
  Members : list string; MemberKindsSupported : bool; LocalPort : bool; FloodVLANs : list Z;
  po_STP : bool; po_RSTP : bool }.
Definition zero_port : Port :=
  mkPort None false zero_binding zero_vlan false false [] "" "" "" zero_bond false false "" "" [] false false [] false
    false.
(** go: internal/candidate/isolation.go IsolationPort *)
Record IsolationPort := mkIsolationPort {
  isp_Binding : Binding; isp_Protected : bool; isp_Known : bool; isp_Supported : bool;
  isp_Authority : string; isp_Dependency : string; isp_Gate : string; isp_Bindings : list Binding }.
(** go: internal/candidate/multicast.go MulticastBridge *)
Record MulticastBridge := mkMulticastBridge {
  mb_Binding : Binding; mb_Configuration : Multicast.Configuration; mb_Known : bool; mb_Supported : bool;
  mb_Authority : string; mb_Dependency : string; mb_Gate : string; mb_Bindings : list Binding }.
(** go: internal/candidate/mtu.go InterfaceMTU *)
Record InterfaceMTU := mkInterfaceMTU {
  im_Binding : Binding; im_Port : Binding; im_Bridge : Binding; im_Requested : option Z; im_Observed : Z;
  im_Default : option MTUDefault; im_Known : bool; im_Supported : bool; im_Eligible : bool;
  im_Authority : string; im_Dependency : string }.
Definition zero_mtu : InterfaceMTU :=
  mkInterfaceMTU zero_binding zero_binding zero_binding None 0 None false false false "" "".
(** go: internal/candidate/policing.go InterfacePolicing *)
Record InterfacePolicing := mkInterfacePolicing {
  ipo_Binding : Binding; ipo_Port : Binding; ipo_Bridge : Binding; ipo_Configuration : PolicingConfig;
  ipo_Name : string; ipo_Type : string; ipo_IfIndex : Z; ipo_Known : bool; ipo_Supported : bool;
  ipo_Eligible : bool; ipo_Authority : string; ipo_Dependency : string }.
Definition zero_policing : InterfacePolicing :=
  mkInterfacePolicing zero_binding zero_binding zero_binding (mkPolicing 0 0 0 0) "" "" 0 false false false "" "".
(** go: internal/candidate/spanning_tree.go SpanningTreeBridge *)
Record SpanningTreeBridge := mkTreeBridge {
  sb_Binding : Binding; sb_Configuration : SpanningTreeConfig; sb_Known : bool; sb_Supported : bool;
  sb_Executable : bool; sb_Bindings : list Binding; sb_Authority : string; sb_Dependency : string;
  sb_GraphGate : string }.
Definition zero_tree : SpanningTreeBridge :=
  mkTreeBridge zero_binding (mkTreeConfig false false ∅) false false false [] "" "" "".

(** ** The managed graphs *)

(** A Go [map[string]bool] is read as a set: absent keys are false.
    go: internal/candidate/bridge.go CreationSnapshot *)
Record CreationSnapshot := mkCreationSnapshot {
  cs_Root : string; cs_Authority : string; cs_Supported : bool; cs_Capacity : bool;
  cs_AllowedNames : gmap string bool; cs_Names : gmap string bool; cs_Objects : gmap string Binding;
  cs_Retired : gmap string bool }.
Definition isset (m : gmap string bool) (k : string) : bool := default false (m !! k).
(** go: internal/candidate/bridge_delete.go ManagedBridge *)
Record ManagedBridge := mkManagedBridge {
  mg_Graph : BridgeGraph; mg_Marker : string; mg_Dependency : string; mg_RestoreCapacity : bool }.
(** go: internal/candidate/bridge_delete.go DeletionSnapshot *)
Record DeletionSnapshot := mkDeletionSnapshot {
  ds_AllowedNames : gmap string bool; ds_Graphs : gmap string ManagedBridge }.
(** go: internal/candidate/internal_port.go InternalPortParent *)
Record InternalPortParent := mkParent {
  pp_Binding : Binding; pp_Name : string; pp_Dependency : string; pp_Members : list Binding;
  pp_LocalPort : Binding; pp_LocalInterface : Binding; pp_Eligible : bool }.
Definition zero_parent : InternalPortParent := mkParent zero_binding "" "" [] zero_binding zero_binding false.
(** go: internal/candidate/internal_port.go InternalPortSnapshot *)
Record InternalPortSnapshot := mkPortSnapshot {
  ps_Supported : bool; ps_Capacity : bool; ps_Targets : gmap string bool;
  ps_Parents : gmap string InternalPortParent }.
(** go: internal/candidate/internal_port_delete.go ManagedInternalPort *)
Record ManagedInternalPort := mkManagedPort {
  mp_Graph : InternalPortGraph; mp_Marker : string; mp_Dependency : string; mp_RestoreCapacity : bool }.
(** go: internal/candidate/internal_port_delete.go InternalPortDeletionSnapshot *)
Record InternalPortDeletionSnapshot := mkPortDeletionSnapshot {
  pds_Targets : gmap string bool; pds_Graphs : gmap string ManagedInternalPort }.

(** ** The topology *)

(** The native columns of a row, by name; [any] values are JSON values. *)
Definition configuration : Type := gmap string json.
(** [MirrorRuntime] and [MirrorRuntimeFailure] only concern the read model.
    go: internal/candidate/topology.go TopologySnapshot *)
Record TopologySnapshot := mkTopologySnapshot {
  tt_MirrorAuthority : gmap string bool; tt_MirrorCreates : gmap string bool;
  tt_MirrorAuthorityRevision : string; tt_MirrorSupported : bool; tt_MirrorDefaults : configuration;
  tt_TunnelAuthority : gmap string bool; tt_TunnelCreates : gmap string bool; tt_TunnelTypes : list string;
  tt_TunnelAuthorityRevision : string; tt_TunnelSupported : bool; tt_Allocations : gmap string string;
  tt_Root : string; tt_RootDependency : string; tt_Supported : bool; tt_Capacity : bool;
  tt_Nodes : gmap string TopologyNode; tt_Configurations : gmap string configuration;
  tt_Defaults : gmap string configuration; tt_Authority : gmap string bool; tt_Creates : gmap string bool;
  tt_Retired : gmap string bool }.

(** ** The snapshot *)

(** go: internal/candidate/types.go Snapshot *)
Record Snapshot := mkSnapshot {
  Multicasts : gmap string MulticastBridge; Isolations : gmap string IsolationPort;
  SpanningTrees : gmap string SpanningTreeBridge; sn_Topology : TopologySnapshot;
  sn_Generation : string; sn_Revision : string; sn_Schema : string; sn_Policy : string;
  Ports : gmap string Port; Interfaces : gmap string InterfaceMTU; Policings : gmap string InterfacePolicing;
  Creation : CreationSnapshot; Deletion : DeletionSnapshot; PortDeletions : InternalPortDeletionSnapshot;
  InternalPorts : InternalPortSnapshot }.

(** The zero values of the Go structs. *)
Definition no_topology : TopologySnapshot :=
  mkTopologySnapshot ∅ ∅ "" false ∅ ∅ ∅ [] "" false ∅ "" "" false false ∅ ∅ ∅ ∅ ∅ ∅.
Definition no_creation : CreationSnapshot := mkCreationSnapshot "" "" false false ∅ ∅ ∅ ∅.
Definition no_deletion : DeletionSnapshot := mkDeletionSnapshot ∅ ∅.
Definition no_port_deletion : InternalPortDeletionSnapshot := mkPortDeletionSnapshot ∅ ∅.
Definition no_internal_port : InternalPortSnapshot := mkPortSnapshot false false ∅ ∅.

End Snapshots.
