(* ===== verification/Planning.v ===== *)
(** * internal/candidate: comparing intents on Port fields

    Which values a Port's VLAN and bond fields may take (plan.go, bond.go,
    qinq.go), how an intent on them is compared with the current native
    configuration, and the gates of its validation. *)

From S2P Require Import Prelude GoStrings Sha256 GoJson ApiTypes Multicast Mirror Tunnel.
From S2P Require Import CandidateTypes Intents Snapshots.

Module Planning.
Export Snapshots.

(** ** plan.go: values *)

Definition sort_ints : list Z -> list Z := merge_sort Z.le.
(** The copies are never nil.
    go: internal/candidate/plan.go normalize *)
Definition normalize (v : VLAN) : VLAN :=
  mkVLAN (v_Mode v) (v_Tag v) (Some (sort_ints (default [] (Trunks v)))) (Some (sort_ints (default [] (CVLANs v)))).

Fixpoint ids_valid (l seen : list Z) : bool :=
  match l with
  | [] => true
  | n :: r => if (n <? 1) || (4094 <? n) || existsb (Z.eqb n) seen then false else ids_valid r (n :: seen)
  end.
(** go: internal/candidate/plan.go inputValid *)
Definition inputValid (v : VLAN) : bool :=
  match v_Mode v with
  | None => false
  | Some mode =>
    if negb (contains ["access"; "trunk"; "native-tagged"; "native-untagged"; "dot1q-tunnel"] mode) then false
    else if negb (Bool.eqb (mode =s "trunk") (is_nil (v_Tag v))) then false
    else if match v_Tag v with Some t => (t <? 1) || (4094 <? t) | None => false end then false
    else if negb (ids_valid (default [] (Trunks v)) []) || negb (ids_valid (default [] (CVLANs v)) []) then false
    else if ((mode =s "access") || (mode =s "dot1q-tunnel")) && negb (is_empty (default [] (Trunks v))) then false
    else (mode =s "dot1q-tunnel") || is_empty (default [] (CVLANs v))
  end.

Definition vlan_digest (v : VLAN) : string := digest_json (vlan_json v).
(** go: internal/candidate/plan.go equal *)
Definition equal (a b : VLAN) : bool := vlan_digest (normalize a) =s vlan_digest (normalize b).

(** go: internal/candidate/plan.go ConflictID *)
Definition ConflictID (c : Candidate) (s : Snapshot) : string :=
  let h := digest_json (JArr [JStr (c_ID c); JStr (c_Revision c); JStr (sn_Generation s); JStr (sn_Revision s)]) in
  let cut a b := String.substring a (b - a) h in
  (cut 0 8 ++ "-" ++ cut 8 12 ++ "-4" ++ cut 13 16 ++ "-8" ++ cut 17 20 ++ "-" ++ cut 20 32)%nat%string.

(** go: internal/candidate/plan.go gate *)
Definition gate (code state id : string) : Gate := mkGate code state code id.
(** go: internal/candidate/plan.go Passed *)
Definition Passed (checks : list Gate) : bool := forallb (fun g => g_State g =s "allowed") checks.

(** ** qinq.go *)

(** go: internal/candidate/qinq.go qinqMode *)
Definition qinqMode (v : VLAN) : bool := match v_Mode v with Some m => m =s "dot1q-tunnel" | None => false end.
(** go: internal/candidate/qinq.go UsesQinQ *)
Definition UsesQinQ (i : StoredIntent) : bool :=
  (i_Operation i =s "port.vlan.set") && (not_nil (i_QinQ i) || qinqMode (i_Before i) || qinqMode (i_Value i)).
(** The effective mode of an absent one. *)
Definition implicit_mode (v : VLAN) : string := if not_nil (v_Tag v) then "access" else "trunk".
(** go: internal/candidate/qinq.go vlanOriginalSupported *)
Definition vlanOriginalSupported (v : VLAN) : bool :=
  inputValid (match v_Mode v with
              | None => mkVLAN (Some (implicit_mode v)) (v_Tag v) (Trunks v) (CVLANs v)
              | Some _ => v
              end).
(** go: internal/candidate/qinq.go QinQEditable *)
Definition QinQEditable (p : Port) : bool :=
  Known p && SchemaSupported p && (Authority p =s "local-managed") && QinQSupported p && not_nil (po_QinQ p)
  && contains (Modes p) "dot1q-tunnel" && vlanOriginalSupported (po_VLAN p).

Definition qinq_changed (i p : option QinQContext) : bool :=
  match i, p with
  | Some a, Some b => digest_json (qinq_json a) <>s digest_json (qinq_json b)
  | _, _ => true
  end.
Definition when (b : bool) (g : Gate) : list Gate := if b then [g] else [].
(** go: internal/candidate/qinq.go qinqChecks *)
Definition qinqChecks (i : StoredIntent) (p : Port) : list Gate :=
  when (negb (QinQSupported p) || is_nil (po_QinQ p) || negb (contains (Modes p) "dot1q-tunnel"))
    (gate "QINQ_CONTEXT_UNSUPPORTED" "blocked" (i_ID i))
  ++ when (qinq_changed (i_QinQ i) (po_QinQ p)) (gate "QINQ_DEPENDENCY_CHANGED" "blocked" (i_ID i))
  ++ when (negb (vlanOriginalSupported (i_Before i)) || negb (vlanOriginalSupported (i_Value i)))
       (gate "QINQ_NATIVE_SEMANTICS_UNPROVEN" "blocked" (i_ID i))
  ++ when (qinqMode (i_Value i) && is_empty (default [] (CVLANs (i_Value i))))
       (gate "EMPTY_CVLANS_MEANS_ALL_CUSTOMER_VLANS" "allowed" (i_ID i))
  ++ [gate "QINQ_SERVICE_TAG_AND_PRESERVED_TPID_REVIEW" "allowed" (i_ID i)].

(** ** bond.go *)

(** go: internal/candidate/bond.go nativeChoice *)
Definition nativeChoice (value : option string) (allowed : list string) : bool :=
  match value with None => true | Some v => contains allowed v end.
(** go: internal/candidate/bond.go bondNativeKnown *)
Definition bondNativeKnown (b : option Bond) : bool :=
  match b with
  | None => false
  | Some b => nativeChoice (LACP b) ["off"; "active"; "passive"]
              && nativeChoice (b_Mode b) ["active-backup"; "balance-slb"; "balance-tcp"]
              && nativeChoice (Fallback b) ["true"; "false"]
  end.
(** go: internal/candidate/bond.go bondModes *)
Definition bondModes (b : Bond) : string * string * bool :=
  (default "off" (LACP b), default "active-backup" (b_Mode b),
   match Fallback b with Some f => f =s "true" | None => false end).

(** [slices.Compact] *)
Fixpoint compact (l : list string) : list string :=
  match l with
  | x :: (y :: _) as r => if x =s y then compact r else x :: compact r
  | _ => l
  end.
Definition sort_strings : list string -> list string := merge_sort (fun a b => Is_true (String.leb a b)).

(** go: internal/candidate/bond.go bondDesired *)
Definition bondDesired (in_ : Intent) (p : Port) : result Bond :=
  fail_if negb (contains ["off"; "active"; "passive"] (in_LACP in_))
          || negb (contains [EmptyString; "preserve"; "enabled"; "disabled"; "default"] (in_Fallback in_))
          || (vlan_digest (in_Value in_) <>s vlan_digest zero_vlan)
    with Fail 422 "UNSUPPORTED_CONFIGURATION" ;;
  fail_if negb (BondKnown p) with Fail 409 "NATIVE_CONFIGURATION_UNKNOWN" ;;
  let? _ :=
    (if in_Operation in_ =s "bond.configure" then
       fail_if negb (contains ["active-backup"; "balance-slb"; "balance-tcp"] (in_Mode in_))
               || (len (in_Members in_) <? 2) || (32 <? len (in_Members in_))
         with Fail 422 "INVALID_BOND_CONFIGURATION" ;;
       let members := sort_strings (in_Members in_) in
       fail_if negb (len (compact members) =? len members) || negb (bool_decide (members = Members p))
         with Fail 409 "BOND_MEMBERSHIP_CHANGE_UNAVAILABLE" ;;
       Ok tt
     else
       fail_if (in_Mode in_ <>s "") || negb (is_empty (in_Members in_)) with Fail 422 "INVALID_LACP_CONFIGURATION" ;;
       Ok tt) in
  Ok (mkBond (Some (in_LACP in_))
        (if in_Operation in_ =s "bond.configure" then Some (in_Mode in_) else b_Mode (po_Bond p))
        (if in_Fallback in_ =s "enabled" then Some "true"
         else if in_Fallback in_ =s "disabled" then Some "false"
         else if in_Fallback in_ =s "default" then None
         else Fallback (po_Bond p))).

(** go: internal/candidate/bond.go bondChecks *)
Definition bondChecks (i : StoredIntent) (p : Port) : list Gate :=
  let block b code := when b (gate code "blocked" (i_ID i)) in
  let several := 1 <? len (Members p) in
  block (negb (BondSupported p)) "BOND_SCHEMA_UNSUPPORTED"
  ++ block (BondAuthority p <>s "local-managed")
       (if BondAuthority p =s "externally-controlled" then "EXTERNALLY_CONTROLLED" else "OWNERSHIP_UNKNOWN")
  ++ match i_BeforeBond i, i_Bond i with
     | Some old, Some new =>
       if negb (bondNativeKnown (Some old)) || negb (bondNativeKnown (Some new))
       then block true "NATIVE_BOND_SEMANTICS_UNPROVEN"
       else
         let '(oldLACP, oldMode, oldFallback) := bondModes old in
         let '(lacp, mode, fallback) := bondModes new in
         block ((oldFallback && (oldLACP =s "off"))
                || (several && (((oldMode =s "balance-tcp") && (oldLACP =s "off"))
                                || ((oldMode =s "balance-slb") && negb (is_empty (FloodVLANs p))))))
           "ORIGINAL_BOND_CONFIGURATION_UNPROVEN"
         ++ block (LocalPort p) "LOCAL_INTERNAL_PORT_PROTECTED"
         ++ block (negb (MemberKindsSupported p)) "BOND_MEMBER_TYPE_UNSUPPORTED"
         ++ block (is_empty (Members p) || ((i_Operation i =s "bond.configure") && (len (Members p) <? 2)))
              "BOND_MEMBER_COUNT_CHANGED"
         ++ block (several && (mode =s "balance-tcp") && (lacp =s "off")) "BALANCE_TCP_REQUIRES_LACP"
         ++ block (fallback && (lacp =s "off")) "LACP_FALLBACK_REQUIRES_LACP"
         ++ block (several && (mode =s "balance-slb") && negb (is_empty (FloodVLANs p)))
              "SLB_FLOOD_VLANS_INCOMPATIBLE"
         ++ block (several && (po_STP p || po_RSTP p)) "BOND_SPANNING_TREE_UNSUPPORTED"
         ++ when (lacp <>s "off") (gate "LACP_PARTNER_AND_MANAGEMENT_PATH_REVIEW_REQUIRED" "allowed" (i_ID i))
     | _, _ => block true "NATIVE_BOND_SEMANTICS_UNPROVEN"
     end.

(** go: internal/candidate/bond.go BondFieldsEditable *)
Definition BondFieldsEditable (p : Port) : bool :=
  BondKnown p
  && Passed (bondChecks (mkStored None None None None None None None "" "port.lacp.set" zero_binding zero_vlan zero_vlan
                           "" "" (Some (po_Bond p)) (Some (po_Bond p)) [] None None None None) p).

(** The captured original of an intent. *)
Definition with_original (i : StoredIntent) (before : VLAN) (dependency : string) (qinq : option QinQContext)
    (beforeBond : option Bond) (members : list string) : StoredIntent :=
  mkStored (i_Multicast i) (i_Isolation i) (i_SpanningTree i) (i_Topology i) (i_Policing i) qinq (i_MTU i) (i_ID i)
    (i_Operation i) (i_Object i) (i_Value i) before dependency (i_Schema i) (i_Bond i) beforeBond members
    (i_Creation i) (i_Deletion i) (i_PortDeletion i) (i_PortCreation i).
(** go: internal/candidate/bond.go currentOriginal *)
Definition currentOriginal (i : StoredIntent) (p : Port) : StoredIntent :=
  if IsBondOperation (i_Operation i) then
    with_original i (normalize zero_vlan) (BondDependency p) (i_QinQ i) (Some (po_Bond p)) (Members p)
  else
    let i := with_original i (normalize (po_VLAN p)) (Dependency p) (i_QinQ i) (i_BeforeBond i) (i_BondMembers i) in
    if UsesQinQ i then with_original i (i_Before i) (i_Dependency i) (po_QinQ p) (i_BeforeBond i) (i_BondMembers i)
    else i.

(** ** plan.go: comparison and staging of Port fields *)

Definition bond_digest (b : Bond) : string := digest_json (bond_json b).

(** The empty text: nothing stands against the intent.
    go: internal/candidate/plan.go comparison *)
Definition comparison (i : StoredIntent) (s : Snapshot) : Port * string :=
  let bond := IsBondOperation (i_Operation i) in
  let vlan := i_Operation i =s "port.vlan.set" in
  if Generation (i_Object i) <>s sn_Generation s then (zero_port, "GENERATION_RECONCILIATION_REQUIRED")
  else match Ports s !! ManagementID_ (i_Object i) with
       | None => (zero_port, "OBJECT_BINDING_CHANGED")
       | Some p =>
         if negb (bool_decide (po_Binding p = i_Object i)) then (zero_port, "OBJECT_BINDING_CHANGED")
         else
           (p,
            if negb vlan && negb bond then "UNSUPPORTED_CONFIGURATION"
            else if (vlan && negb (Known p)) || (bond && negb (BondKnown p)) then "NATIVE_CONFIGURATION_UNKNOWN"
            else if i_Schema i <>s sn_Schema s then "SCHEMA_CHANGED"
            else if bond && negb (bool_decide (i_BondMembers i = Members p)) then "BOND_MEMBER_BINDINGS_CHANGED"
            else if UsesQinQ i && qinq_changed (i_QinQ i) (po_QinQ p) then "QINQ_DEPENDENCY_CHANGED"
            else if (if bond then BondDependency p else Dependency p) <>s i_Dependency i then "DEPENDENCY_CHANGED"
            else if bond then
              match i_BeforeBond i, i_Bond i with
              | Some b, Some _ => if bond_digest (po_Bond p) <>s bond_digest b then "FIELD_CONFLICT" else EmptyString
              | _, _ => "FIELD_CONFLICT"
              end
            else if negb (equal (po_VLAN p) (i_Before i)) then "FIELD_CONFLICT" else EmptyString)
       end.

End Planning.
