(* ===== verification/Staging.v ===== *)
(** * internal/candidate: the commands that change a candidate

    How plan.go stages Port field intents, removes and rebases them, and
    closes a prepared candidate; the two single-intent groups isolation.go and
    multicast.go with their comparison, checks and staging. The groups that
    [Prepare] sends elsewhere are in [FieldGroups], [Graphs] and
    [TopologyStaging]; [Planner] composes them. *)

From S2P Require Import Prelude GoStrings Sha256 GoJson GoTime ApiTypes Multicast Mirror Tunnel.
From S2P Require Import CandidateTypes Intents Planning.
Import Planning.

Module Staging.

Definition with_intents (c : Candidate) (l : list StoredIntent) (generation base : option string) : Candidate :=
  mkCandidate (c_ID c) (c_Revision c) generation base (c_State c) (Some l) (c_Consumed c).
(** The candidate belongs to an earlier generation, or the intent does. *)
Definition stale (c : Candidate) (in_ : Intent) (s : Snapshot) : bool :=
  (Generation (in_Object in_) <>s sn_Generation s)
  || match c_Generation c with Some g => g <>s sn_Generation s | None => false end.

(** ** plan.go: Port fields *)

(** The staged intent with the same identifier, while no other intent names
    the same object.
    go: internal/candidate/plan.go:384-394 Prepare *)
Fixpoint find_prior (l : list StoredIntent) (in_ : Intent) (n : nat) (found : option nat) : result (option nat) :=
  match l with
  | [] => Ok found
  | prior :: r =>
    if i_ID prior =s in_ID in_ then
      fail_if negb (bool_decide (i_Object prior = in_Object in_)) || (i_Operation prior <>s in_Operation in_)
        with Fail 422 "INTENT_BINDING_MISMATCH" ;;
      find_prior r in_ (S n) (Some n)
    else
      fail_if ManagementID_ (i_Object prior) =s ManagementID_ (in_Object in_) with Fail 409 "DUPLICATE_FIELD_INTENT" ;;
      find_prior r in_ (S n) found
  end.

Definition with_bond (p : Port) (b : Bond) : Port :=
  mkPort (po_QinQ p) (QinQSupported p) (po_Binding p) (po_VLAN p) (Known p) (SchemaSupported p) (Modes p)
    (Dependency p) (Authority p) (Reason p) b (BondKnown p) (BondSupported p) (BondDependency p) (BondAuthority p)
    (Members p) (MemberKindsSupported p) (LocalPort p) (FloodVLANs p) (po_STP p) (po_RSTP p).
(** The edited fields of an intent that was staged before: what it captured
    stays. *)
Definition with_edit (i : StoredIntent) (value : VLAN) (qinq : option QinQContext) (bond : option Bond) : StoredIntent :=
  mkStored (i_Multicast i) (i_Isolation i) (i_SpanningTree i) (i_Topology i) (i_Policing i) qinq (i_MTU i) (i_ID i)
    (i_Operation i) (i_Object i) value (i_Before i) (i_Dependency i) (i_Schema i) bond (i_BeforeBond i)
    (i_BondMembers i) (i_Creation i) (i_Deletion i) (i_PortDeletion i) (i_PortCreation i).
Definition set_Value (i : StoredIntent) (value : VLAN) : StoredIntent := with_edit i value (i_QinQ i) (i_Bond i).

(** go: internal/candidate/plan.go:371-383 Prepare *)
Definition desired_fields (in_ : Intent) (p : Port) : result (VLAN * option Bond) :=
  if IsBondOperation (in_Operation in_) then
    let? desired := bondDesired in_ p in Ok (in_Value in_, Some desired)
  else
    fail_if negb (inputValid (in_Value in_)) || (in_Mode in_ <>s "") || (in_LACP in_ <>s "")
            || (in_Fallback in_ <>s "") || negb (is_empty (in_Members in_))
      with Fail 422 "UNSUPPORTED_CONFIGURATION" ;;
    Ok (normalize (in_Value in_), None).

(** Identity and operation already match; editing keeps the original native
    values and their captured dependencies.
    go: internal/candidate/plan.go:395-415 Prepare *)
Definition edit_staged (i : StoredIntent) (in_ : Intent) (p : Port) (value : VLAN) (desired : option Bond)
    : result StoredIntent :=
  let? desired :=
    (if IsBondOperation (in_Operation in_) then
       match i_Bond i with
       | None => Err (Fail 409 "NATIVE_CONFIGURATION_UNKNOWN")
       | Some prior => let? d := bondDesired in_ (with_bond p prior) in Ok (Some d)
       end
     else Ok desired) in
  let i := set_Value i (normalize value) in
  let qinq := if UsesQinQ i && is_nil (i_QinQ i) then po_QinQ p else i_QinQ i in
  Ok (with_edit i (i_Value i) qinq desired).

(** go: internal/candidate/plan.go:416-420 Prepare *)
Definition new_intent (in_ : Intent) (p : Port) (s : Snapshot) (value : VLAN) (desired : option Bond) : StoredIntent :=
  currentOriginal
    (mkStored None None None None None None None (in_ID in_) (in_Operation in_) (in_Object in_) (normalize value)
       zero_vlan "" (sn_Schema s) desired None [] None None None None) p.

(** One intent of a [stage] command.
    go: internal/candidate/plan.go:355-421 Prepare *)
Definition stage_port (c : Candidate) (in_ : Intent) (seen : list string) (s : Snapshot) : result (list StoredIntent) :=
  fail_if contains seen (in_ID in_) || negb (ManagementID (in_ID in_)) || (Table (in_Object in_) <>s "Port")
          || ((in_Operation in_ <>s "port.vlan.set") && negb (IsBondOperation (in_Operation in_)))
    with Fail 422 "UNSUPPORTED_CONFIGURATION" ;;
  fail_if stale c in_ s with Fail 409 "GENERATION_RECONCILIATION_REQUIRED" ;;
  match Ports s !! ManagementID_ (in_Object in_) with
  | None => Err (Fail 409 "OBJECT_BINDING_CHANGED")
  | Some p =>
    fail_if negb (bool_decide (po_Binding p = in_Object in_)) with Fail 409 "OBJECT_BINDING_CHANGED" ;;
    fail_if ((in_Operation in_ =s "port.vlan.set") && negb (Known p))
            || (IsBondOperation (in_Operation in_) && negb (BondKnown p))
      with Fail 409 "NATIVE_CONFIGURATION_UNKNOWN" ;;
    let? (value, desired) := desired_fields in_ p in
    let? index := find_prior (intents c) in_ 0 None in
    match index with
    | Some n =>
      match intents c !! n with
      | Some i => let? i := edit_staged i in_ p value desired in Ok (<[n := i]> (intents c))
      | None => Ok (intents c)
      end
    | None => Ok (intents c ++ [new_intent in_ p s value desired])
    end
  end.

(** go: internal/candidate/plan.go:355-421 Prepare *)
Fixpoint stage_loop (c : Candidate) (l : list Intent) (seen : list string) (s : Snapshot) : result Candidate :=
  match l with
  | [] => Ok c
  | in_ :: r =>
    let? next := stage_port c in_ seen s in
    stage_loop (with_intents c next (c_Generation c) (c_BaseRevision c)) r (in_ID in_ :: seen) s
  end.

(** go: internal/candidate/plan.go:355-428 Prepare *)
Definition stage_ports (c : Candidate) (l : list Intent) (s : Snapshot) : result Candidate :=
  let? c := stage_loop c l [] s in
  fail_if MaxIntents <? len (intents c) with Fail 429 "CANDIDATE_INTENT_LIMIT" ;;
  Ok (if is_nil (c_Generation c)
      then with_intents c (intents c) (Some (sn_Generation s)) (Some (sn_Revision s))
      else c).

(** ** plan.go: removing, rebasing, closing *)

(** [slices.IndexFunc] and [slices.Delete]. *)
Fixpoint remove_first (id : string) (l : list StoredIntent) : option (list StoredIntent) :=
  match l with
  | [] => None
  | i :: r => if i_ID i =s id then Some r else (cons i) <$> remove_first id r
  end.
(** go: internal/candidate/plan.go:429-441 Prepare *)
Fixpoint remove_intents (l : list StoredIntent) (ids seen : list string) : result (list StoredIntent) :=
  match ids with
  | [] => Ok l
  | id :: r =>
    fail_if contains seen id with Fail 422 "INVALID_INTENT" ;;
    match remove_first id l with
    | None => Err (Fail 404 "INTENT_NOT_FOUND")
    | Some l => remove_intents l r (id :: seen)
    end
  end.

(** The operations that are never rebased.
    go: internal/candidate/plan.go:463-486 Prepare *)
Definition restage (op : string) : option string :=
  if op =s SpanningTreePrepare then Some "SPANNING_TREE_RESTAGE_REQUIRED"
  else if IsTopologyOperation op then Some "TOPOLOGY_RESTAGE_REQUIRED"
  else if op =s InterfacePolicingSet then Some "POLICING_RESTAGE_REQUIRED"
  else if op =s BridgeMulticastSet then Some "MULTICAST_RESTAGE_REQUIRED"
  else if op =s PortIsolationSet then Some "ISOLATION_RESTAGE_REQUIRED"
  else if IsMTUOperation op then Some "MTU_RESTAGE_REQUIRED"
  else if (op =s BridgeDelete) || (op =s InternalPortDelete) then Some "DELETION_RESTAGE_REQUIRED"
  else if (op =s BridgeCreate) || (op =s InternalPortCreate) then Some "CREATION_RESTAGE_REQUIRED"
  else None.

(** go: internal/candidate/plan.go:454-460 Prepare *)
Fixpoint resolutions (l : list Resolution) (m : gmap string string) : result (gmap string string) :=
  match l with
  | [] => Ok m
  | r :: l =>
    fail_if (default EmptyString (m !! r_IntentID r) <>s "")
            || ((r_Choice r <>s "keep-current") && (r_Choice r <>s "keep-mine"))
      with Fail 422 "INVALID_RESOLUTION" ;;
    resolutions l (<[r_IntentID r := r_Choice r]> m)
  end.

Definition fatal_reasons : list string :=
  ["GENERATION_RECONCILIATION_REQUIRED"; "OBJECT_BINDING_CHANGED"; "NATIVE_CONFIGURATION_UNKNOWN";
   "SCHEMA_CHANGED"; "BOND_MEMBER_BINDINGS_CHANGED"].
(** The intents that stay, and the resolutions that no intent has used.
    go: internal/candidate/plan.go:461-501 Prepare *)
Fixpoint rebase_loop (l : list StoredIntent) (m : gmap string string) (s : Snapshot)
    : result (list StoredIntent * gmap string string) :=
  match l with
  | [] => Ok ([], m)
  | i :: r =>
    match restage (i_Operation i) with
    | Some code => Err (Fail 409 code)
    | None =>
      let '(p, reason) := comparison i s in
      fail_if contains fatal_reasons reason with Fail 409 reason ;;
      let choice := default EmptyString (m !! i_ID i) in
      fail_if (reason <>s "") && (choice =s "") with Fail 409 "RESOLUTION_REQUIRED" ;;
      let? (next, m) := rebase_loop r (delete (i_ID i) m) s in
      Ok (if choice =s "keep-current" then (next, m) else (currentOriginal i p :: next, m))
    end
  end.
(** A rebase whose comparison is not truncated.
    go: internal/candidate/plan.go:448-506 Prepare *)
Definition rebase (c : Candidate) (cmd : Command) (s : Snapshot) : result Candidate :=
  fail_if negb (bool_decide (c_Generation c = Some (sn_Generation s))) || (cmd_Generation cmd <>s sn_Generation s)
    with Fail 409 "GENERATION_RECONCILIATION_REQUIRED" ;;
  fail_if (cmd_ConfigRevision cmd <>s sn_Revision s)
          || negb (bool_decide (cmd_ConflictSnapshot cmd = Some (ConflictID c s)))
    with Fail 409 "CONFLICT_SNAPSHOT_CHANGED" ;;
  let? m := resolutions (cmd_Resolutions cmd) ∅ in
  let? (next, m) := rebase_loop (intents c) m s in
  fail_if negb (bool_decide (m = ∅)) with Fail 422 "INVALID_RESOLUTION" ;;
  Ok (with_intents c next (c_Generation c) (Some (sn_Revision s))).

(** [id] is the fresh revision; the sequence is an [int64].
    go: internal/candidate/plan.go:510-523 Prepare *)
Definition finish (e : Envelope) (c : Candidate) (id : string) : result Envelope :=
  let c := if is_empty (intents c)
           then mkCandidate (c_ID c) id None None "empty" (c_Intents c) (c_Consumed c)
           else mkCandidate (c_ID c) id (c_Generation c) (c_BaseRevision c) "dirty" (c_Intents c) (c_Consumed c) in
  let sequence := int64 (e_Sequence e + 1) in
  fail_if sequence <=? 0 with Fail 429 "CANDIDATE_REVISION_LIMIT" ;;
  let e := mkEnvelope (e_Owner e) (e_Epoch e) sequence c "" in
  let? _ := Budget (envelope_json e) in
  Ok e.

(** ** plan.go: what a Port intent changes, and its gates *)

(** A difference of the native configuration. *)
Definition diff (i : StoredIntent) (field : string) (before after current : json) (problem : string) : Diff :=
  mkDiff (i_Object i) field before after "ovsdb-configuration" current (i_Operation i) (i_ID i) (problem <>s "").
Definition vlan_values (v : VLAN) : list json :=
  [jostr (v_Mode v); jopt JNum (v_Tag v); jslice JNum (Trunks v); jslice JNum (CVLANs v)].
Definition bond_values (b : Bond) : list json := [jostr (LACP b); jostr (b_Mode b); jostr (Fallback b)].
Definition no_values : list json := [JNull; JNull; JNull].
Fixpoint diffs (i : StoredIntent) (fields : list string) (before after current : list json) (problem : string) : list Diff :=
  match fields, before, after, current with
  | f :: fs, b :: bs, a :: as_, c :: cs => diff i f b a c problem :: diffs i fs bs as_ cs problem
  | _, _, _, _ => []
  end.
(** go: internal/candidate/plan.go:188-225 Compare *)
Definition port_diffs (i : StoredIntent) (s : Snapshot) : list Diff :=
  let '(p, problem) := comparison i s in
  let bond := IsBondOperation (i_Operation i) in
  let fields := if bond then ["lacp"; "bond_mode"; "other_config.lacp-fallback-ab"]
                else ["vlan_mode"; "tag"; "trunks"; "cvlans"] in
  let before := if bond then match i_BeforeBond i with Some b => bond_values b | None => no_values end
                else vlan_values (i_Before i) in
  let after := if bond then match i_Bond i with Some b => bond_values b | None => no_values end
               else vlan_values (i_Value i) in
  let current := if bond then bond_values (po_Bond p) else vlan_values (po_VLAN p) in
  let known := if bond then BondKnown p else Known p in
  let now l := if known : bool then l else (fun _ => JNull) <$> l in
  if UsesQinQ i then
    diffs i (fields ++ ["qinq_context"]) (before ++ [jopt qinq_json (i_QinQ i)]) (after ++ [jopt qinq_json (i_QinQ i)])
      (now (current ++ [jopt qinq_json (po_QinQ p)])) problem
  else diffs i fields before after (now current) problem.
(** What a comparison adds to the state of the view.
    go: internal/candidate/plan.go:188-197 Compare *)
Definition port_state (state problem : string) : string :=
  if problem =s "" then state
  else if (problem =s "GENERATION_RECONCILIATION_REQUIRED") || (problem =s "OBJECT_BINDING_CHANGED")
          || (problem =s "BOND_MEMBER_BINDINGS_CHANGED") then "reconciliation-required"
  else if state =s "reconciliation-required" then state else "conflict".

Definition reserved (n : Z) : bool := (n =? 0) || (n =? 4095).
(** go: internal/candidate/plan.go:573-618 Checks *)
Definition port_checks (i : StoredIntent) (s : Snapshot) : list Gate :=
  match Ports s !! ManagementID_ (i_Object i) with
  | None => []
  | Some p =>
    if IsBondOperation (i_Operation i) then bondChecks i p
    else
      let blocked b code := when b (gate code "blocked" (i_ID i)) in
      let allowed b code := when b (gate code "allowed" (i_ID i)) in
      let mode := match v_Mode (i_Value i) with
                  | None => if UsesQinQ i then Some (implicit_mode (i_Value i)) else None
                  | Some m => Some m
                  end in
      blocked (negb (SchemaSupported p) || match mode with None => true | Some m => negb (contains (Modes p) m) end)
        "SCHEMA_UNSUPPORTED"
      ++ blocked (Authority p <>s "local-managed")
           (if Authority p =s "externally-controlled" then "EXTERNALLY_CONTROLLED" else "OWNERSHIP_UNKNOWN")
      ++ (if UsesQinQ i then qinqChecks i p
          else blocked (match v_Mode (i_Before i) with
                        | Some m => negb (contains ["access"; "trunk"; "native-tagged"; "native-untagged"] m)
                        | None => false
                        end || negb (is_empty (default [] (CVLANs (i_Before i)))))
                 "NATIVE_SEMANTICS_UNPROVEN")
      ++ allowed (is_nil (v_Mode (i_Before i))) "NATIVE_DEFAULT_MODE_PRESERVED"
      ++ blocked (existsb reserved (default [] (Trunks (i_Before i)) ++ default [] (CVLANs (i_Before i))))
           "RESERVED_VLAN_OBSERVED"
      ++ blocked (match v_Tag (i_Before i) with Some t => reserved t | None => false end) "RESERVED_VLAN_OBSERVED"
      ++ allowed (is_empty (default [] (Trunks (i_Value i)))
                  && match v_Mode (i_Value i) with
                     | Some m => (m <>s "access") && (m <>s "dot1q-tunnel")
                     | None => false
                     end)
           "EMPTY_TRUNKS_MEANS_ALL_VLANS"
  end.

(** ** isolation.go *)

(** The fields that only the other operations use are absent. *)
Definition only_group (in_ : Intent) : bool :=
  is_nil (in_SpanningTree in_) && is_nil (in_Topology in_) && is_nil (in_Policing in_) && (in_Name in_ =s "")
  && (in_VLANID in_ =? 0) && (in_MTURequest in_ =? 0) && (in_Mode in_ =s "") && (in_LACP in_ =s "")
  && (in_Fallback in_ =s "") && is_empty (in_Members in_) && (vlan_digest (in_Value in_) =s vlan_digest zero_vlan).
(** An intent whose VLAN values are the normalized empty ones. *)
Definition group_intent (in_ : Intent) (schema dependency : string) : StoredIntent :=
  mkStored None None None None None None None (in_ID in_) (in_Operation in_) (in_Object in_) (normalize zero_vlan)
    (normalize zero_vlan) dependency schema None None [] None None None None.
Definition stage_group (c : Candidate) (i : StoredIntent) (s : Snapshot) : Candidate :=
  with_intents c [i] (Some (sn_Generation s)) (Some (sn_Revision s)).
Definition zero_isolation : IsolationPort := mkIsolationPort zero_binding false false false "" "" "" [].

(** go: internal/candidate/isolation.go IsolationEditable *)
Definition IsolationEditable (p : IsolationPort) : bool :=
  isp_Known p && isp_Supported p && (isp_Authority p =s "local-managed") && (isp_Gate p =s "").
(** go: internal/candidate/isolation.go isolationProblem *)
Definition isolationProblem (i : StoredIntent) (s : Snapshot) : string :=
  match i_Isolation i with
  | None => "INVALID_PORT_ISOLATION"
  | Some change =>
    if (i_Operation i <>s PortIsolationSet) || (Table (i_Object i) <>s "Port") then "INVALID_PORT_ISOLATION"
    else if Generation (i_Object i) <>s sn_Generation s then "GENERATION_RECONCILIATION_REQUIRED"
    else match Isolations s !! ManagementID_ (i_Object i) with
         | None => "OBJECT_BINDING_CHANGED"
         | Some p =>
           if negb (bool_decide (isp_Binding p = i_Object i)) then "OBJECT_BINDING_CHANGED"
           else if i_Schema i <>s sn_Schema s then "SCHEMA_CHANGED"
           else if negb (isp_Known p) then "NATIVE_CONFIGURATION_UNKNOWN"
           else if i_Dependency i <>s isp_Dependency p then "ISOLATION_DEPENDENCY_CHANGED"
           else if negb (Bool.eqb (iso_Before change) (isp_Protected p)) then "FIELD_CONFLICT"
           else EmptyString
         end
  end.
(** go: internal/candidate/isolation.go isolationChecks *)
Definition isolationChecks (i : StoredIntent) (s : Snapshot) : list Gate :=
  let p := default zero_isolation (Isolations s !! ManagementID_ (i_Object i)) in
  when (negb (isp_Supported p)) (gate "ISOLATION_SCHEMA_UNSUPPORTED" "blocked" (i_ID i))
  ++ when (isp_Authority p <>s "local-managed") (gate "ISOLATION_AUTHORITY_REQUIRED" "blocked" (i_ID i))
  ++ when (isp_Gate p <>s "") (gate (isp_Gate p) "blocked" (i_ID i))
  ++ [gate "PROTECTED_PORT_NATIVE_SEMANTICS_REVIEW_REQUIRED" "allowed" (i_ID i)].
(** go: internal/candidate/isolation.go isolationDiff *)
Definition isolationDiff (i : StoredIntent) (s : Snapshot) : Diff :=
  let p := default zero_isolation (Isolations s !! ManagementID_ (i_Object i)) in
  diff i "protected" (jopt (fun c => JBool (iso_Before c)) (i_Isolation i))
    (jopt (fun c => JBool (iso_After c)) (i_Isolation i))
    (if isp_Known p then JBool (isp_Protected p) else JNull) (isolationProblem i s).
(** go: internal/candidate/isolation.go stageIsolation *)
Definition stageIsolation (c : Candidate) (cmd : Command) (s : Snapshot) : result Candidate :=
  match cmd_Intents cmd, (len (intents c) <=? 1) with
  | [in_], true =>
    match in_Protected in_ with
    | None => Err (Fail 422 "INVALID_PORT_ISOLATION")
    | Some protected =>
      fail_if (in_Operation in_ <>s PortIsolationSet) || negb (ManagementID (in_ID in_))
              || (Table (in_Object in_) <>s "Port") || negb (only_group in_)
        with Fail 422 "INVALID_PORT_ISOLATION" ;;
      fail_if stale c in_ s with Fail 409 "GENERATION_RECONCILIATION_REQUIRED" ;;
      match Isolations s !! ManagementID_ (in_Object in_) with
      | None => Err (Fail 409 "OBJECT_BINDING_CHANGED")
      | Some p =>
        fail_if negb (bool_decide (isp_Binding p = in_Object in_)) with Fail 409 "OBJECT_BINDING_CHANGED" ;;
        fail_if negb (IsolationEditable p) with Fail 409 "ISOLATION_AUTHORITY_OR_GRAPH_REQUIRED" ;;
        let change before := Some (mkIsolationChange before protected) in
        match intents c with
        | [prior] =>
          match i_Isolation prior with
          | None => Err (Fail 409 "ISOLATION_RESTAGE_REQUIRED")
          | Some m =>
            fail_if (i_Operation prior <>s in_Operation in_) || (i_ID prior <>s in_ID in_)
                    || negb (bool_decide (i_Object prior = in_Object in_))
              with Fail 409 "ISOLATION_RESTAGE_REQUIRED" ;;
            Ok (stage_group c (set_Isolation prior (change (iso_Before m))) s)
          end
        | _ => Ok (stage_group c (set_Isolation (group_intent in_ (sn_Schema s) (isp_Dependency p))
                                    (change (isp_Protected p))) s)
        end
      end
    end
  | _, _ => Err (Fail 422 "ISOLATION_SINGLE_INTENT_REQUIRED")
  end.

(** ** multicast.go *)

Definition zero_multicast : MulticastBridge :=
  mkMulticastBridge zero_binding (Multicast.mkConfiguration false ∅) false false "" "" "" [].
Definition multicast_digest (c : Multicast.Configuration) : string := digest_json (multicast_json c).

(** go: internal/candidate/multicast.go MulticastEditable *)
Definition MulticastEditable (b : MulticastBridge) : bool :=
  mb_Known b && mb_Supported b && (mb_Authority b =s "local-managed") && (mb_Gate b =s "")
  && is_ok (Multicast.Validate (mb_Configuration b)).
(** go: internal/candidate/multicast.go multicastProblem *)
Definition multicastProblem (i : StoredIntent) (s : Snapshot) : string :=
  match i_Multicast i with
  | None => "INVALID_MULTICAST_REQUEST"
  | Some change =>
    if (i_Operation i <>s BridgeMulticastSet) || (Table (i_Object i) <>s "Bridge")
       || negb (is_ok (Multicast.Validate (mc_Before change))) || negb (is_ok (Multicast.Validate (mc_After change)))
    then "INVALID_MULTICAST_REQUEST"
    else if Generation (i_Object i) <>s sn_Generation s then "GENERATION_RECONCILIATION_REQUIRED"
    else match Multicasts s !! ManagementID_ (i_Object i) with
         | None => "OBJECT_BINDING_CHANGED"
         | Some b =>
           if negb (bool_decide (mb_Binding b = i_Object i)) then "OBJECT_BINDING_CHANGED"
           else if i_Schema i <>s sn_Schema s then "SCHEMA_CHANGED"
           else if negb (mb_Known b) then "NATIVE_CONFIGURATION_UNKNOWN"
           else if i_Dependency i <>s mb_Dependency b then "MULTICAST_DEPENDENCY_CHANGED"
           else if multicast_digest (mc_Before change) <>s multicast_digest (mb_Configuration b) then "FIELD_CONFLICT"
           else EmptyString
         end
  end.
(** go: internal/candidate/multicast.go multicastChecks *)
Definition multicastChecks (i : StoredIntent) (s : Snapshot) : list Gate :=
  let b := default zero_multicast (Multicasts s !! ManagementID_ (i_Object i)) in
  when (negb (mb_Supported b)) (gate "MULTICAST_SCHEMA_UNSUPPORTED" "blocked" (i_ID i))
  ++ when (mb_Authority b <>s "local-managed") (gate "MULTICAST_AUTHORITY_REQUIRED" "blocked" (i_ID i))
  ++ when (mb_Gate b <>s "") (gate (mb_Gate b) "blocked" (i_ID i))
  ++ [gate "MULTICAST_NATIVE_FORWARDING_REVIEW_REQUIRED" "allowed" (i_ID i)].
Definition parameter (c : Multicast.Configuration) (key : string) : json :=
  jostr (mjoin (Multicast.Parameters c !! key)).
(** go: internal/candidate/multicast.go multicastDiff *)
Definition multicastDiff (i : StoredIntent) (s : Snapshot) : list Diff :=
  match i_Multicast i with
  | None => []
  | Some change =>
    let b := default zero_multicast (Multicasts s !! ManagementID_ (i_Object i)) in
    let problem := multicastProblem i s in
    let now (j : json) := if mb_Known b then j else JNull in
    let enabled c := JBool (Multicast.Enabled c) in
    diff i "mcast_snooping_enable" (enabled (mc_Before change)) (enabled (mc_After change))
      (now (enabled (mb_Configuration b))) problem
    :: ((fun key =>
           diff i ("other_config." ++ key)%string (parameter (mc_Before change) key) (parameter (mc_After change) key)
             (now (parameter (mb_Configuration b) key)) problem) <$> Multicast.Keys)
  end.

Definition merged (before : Multicast.Configuration) (request : Multicast.Request) : result MulticastChange :=
  match Multicast.Merge before request with
  | Ok after => Ok (mkMulticastChange before after)
  | Err e => Err (match e with ENew text => Fail 422 text | e => e end)
  end.
(** go: internal/candidate/multicast.go stageMulticast *)
Definition stageMulticast (c : Candidate) (cmd : Command) (s : Snapshot) : result Candidate :=
  match cmd_Intents cmd, (len (intents c) <=? 1) with
  | [in_], true =>
    match in_Multicast in_ with
    | None => Err (Fail 422 "INVALID_MULTICAST_REQUEST")
    | Some request =>
      fail_if (in_Operation in_ <>s BridgeMulticastSet) || negb (ManagementID (in_ID in_))
              || (Table (in_Object in_) <>s "Bridge") || not_nil (in_Protected in_) || negb (only_group in_)
        with Fail 422 "INVALID_MULTICAST_REQUEST" ;;
      fail_if stale c in_ s with Fail 409 "GENERATION_RECONCILIATION_REQUIRED" ;;
      match Multicasts s !! ManagementID_ (in_Object in_) with
      | None => Err (Fail 409 "OBJECT_BINDING_CHANGED")
      | Some b =>
        fail_if negb (bool_decide (mb_Binding b = in_Object in_)) with Fail 409 "OBJECT_BINDING_CHANGED" ;;
        fail_if negb (MulticastEditable b) with Fail 409 "MULTICAST_AUTHORITY_OR_GRAPH_REQUIRED" ;;
        match intents c with
        | [prior] =>
          match i_Multicast prior with
          | None => Err (Fail 409 "MULTICAST_RESTAGE_REQUIRED")
          | Some m =>
            fail_if (i_Operation prior <>s in_Operation in_) || (i_ID prior <>s in_ID in_)
                    || negb (bool_decide (i_Object prior = in_Object in_))
              with Fail 409 "MULTICAST_RESTAGE_REQUIRED" ;;
            let? change := merged (Multicast.Clone (mc_Before m)) request in
            Ok (stage_group c (set_Multicast prior (Some change)) s)
          end
        | _ =>
          let? change := merged (Multicast.Clone (mb_Configuration b)) request in
          Ok (stage_group c (set_Multicast (group_intent in_ (sn_Schema s) (mb_Dependency b)) (Some change)) s)
        end
      end
    end
  | _, _ => Err (Fail 422 "MULTICAST_SINGLE_INTENT_REQUIRED")
  end.

End Staging.
