(* ===== verification/FieldGroups.v ===== *)
(** * internal/candidate: MTU, policing and spanning tree intents

    The three single-intent groups of mtu.go, policing.go and
    spanning_tree.go: what their captured values may be, how an intent is
    compared with the current native configuration, its gates, its
    differences and its staging. Restaging keeps the sealed original. *)

From S2P Require Import Prelude GoStrings Sha256 GoJson ApiTypes Multicast Mirror Tunnel SpanningTree.
From S2P Require Import CandidateTypes Intents Planning Staging.
Import Planning Staging.

Module FieldGroups.

(** The fields that only the operations on values use are absent.
    go: internal/candidate/mtu.go:152 stageMTU *)
Definition no_values_requested (in_ : Intent) : bool :=
  (in_Name in_ =s "") && (in_VLANID in_ =? 0) && (in_Mode in_ =s "") && (in_LACP in_ =s "")
  && (in_Fallback in_ =s "") && is_empty (in_Members in_) && (vlan_digest (in_Value in_) =s vlan_digest zero_vlan).

(** ** mtu.go *)

(** go: internal/candidate/mtu.go SameMTU *)
Definition SameMTU (a b : option Z) : bool :=
  match a, b with None, None => true | Some x, Some y => x =? y | _, _ => false end.
(** go: internal/candidate/mtu.go ValidMTU *)
Definition ValidMTU (n : Z) : bool := (576 <=? n) && (n <=? 65535).
(** go: internal/candidate/mtu.go validMTURequest *)
Definition validMTURequest (n : option Z) : bool := match n with None => true | Some n => ValidMTU n end.
Definition mtu_or_default (n : option Z) (m : MTUChange) : Z :=
  match n, m_Default m with Some n, _ => n | None, Some d => md_MTU d | None, None => 0 end.
(** go: internal/candidate/mtu.go ExpectedMTU *)
Definition ExpectedMTU (m : MTUChange) : Z := mtu_or_default (m_After m) m.
(** go: internal/candidate/mtu.go OriginalMTU *)
Definition OriginalMTU (m : MTUChange) : Z := mtu_or_default (m_Before m) m.
(** go: internal/candidate/mtu.go MTUOriginalDeviceRequired *)
Definition MTUOriginalDeviceRequired (m : MTUChange) : bool :=
  not_nil (m_Default m) && negb (m_Compensating m) && negb (SameMTU (m_Before m) (m_After m))
  && (is_nil (m_Before m) || is_nil (m_After m)).
(** go: internal/candidate/mtu.go MTUEditable *)
Definition MTUEditable (p : InterfaceMTU) : bool :=
  im_Known p && im_Supported p && im_Eligible p && (im_Authority p =s "local-managed")
  && validMTURequest (im_Requested p)
  && (not_nil (im_Requested p) || match im_Default p with Some d => im_Observed p =? md_MTU d | None => false end).
(** go: internal/candidate/mtu.go MTUClearable *)
Definition MTUClearable (p : InterfaceMTU) : bool :=
  MTUEditable p && not_nil (im_Default p)
  && match im_Requested p with Some r => im_Observed p =? r | None => false end.

Definition mtu_default_changed (captured current : option MTUDefault) : bool :=
  match captured, current with
  | None, _ => false
  | Some a, Some b => digest_json (mtu_default_json a) <>s digest_json (mtu_default_json b)
  | Some _, None => true
  end.
(** go: internal/candidate/mtu.go:75 mtuProblem *)
Definition mtu_valid (i : StoredIntent) (m : MTUChange) : bool :=
  IsMTUOperation (i_Operation i) && (Table (i_Object i) =s "Interface") && validMTURequest (m_Before m)
  && validMTURequest (m_After m)
  && (if is_nil (m_After m) then i_Operation i =s InterfaceMTUClear else i_Operation i =s InterfaceMTUSet)
  && (not_nil (m_Before m) && not_nil (m_After m)
      || match m_Default m with Some d => ValidMTU (md_MTU d) | None => false end).
(** go: internal/candidate/mtu.go mtuProblem *)
Definition mtuProblem (i : StoredIntent) (s : Snapshot) : string :=
  match i_MTU i with
  | None => "INVALID_INTERFACE_MTU"
  | Some m =>
    if negb (mtu_valid i m) then "INVALID_INTERFACE_MTU"
    else if Generation (i_Object i) <>s sn_Generation s then "GENERATION_RECONCILIATION_REQUIRED"
    else match Interfaces s !! ManagementID_ (i_Object i) with
         | None => "OBJECT_BINDING_CHANGED"
         | Some p =>
           if negb (bool_decide (im_Binding p = i_Object i)) || negb (bool_decide (im_Port p = m_Port m))
              || negb (bool_decide (im_Bridge p = m_Bridge m)) then "OBJECT_BINDING_CHANGED"
           else if i_Schema i <>s sn_Schema s then "SCHEMA_CHANGED"
           else if negb (im_Known p) then "NATIVE_CONFIGURATION_UNKNOWN"
           else if i_Dependency i <>s im_Dependency p then "MTU_DEPENDENCY_CHANGED"
           else if negb (SameMTU (m_Before m) (im_Requested p)) then "FIELD_CONFLICT"
           else if mtu_default_changed (m_Default m) (im_Default p) then "MTU_DEFAULT_DEPENDENCY_CHANGED"
           else if MTUOriginalDeviceRequired m && negb (im_Observed p =? OriginalMTU m)
           then "MTU_ORIGINAL_DEVICE_UNPROVEN"
           else EmptyString
         end
  end.
Definition mtu_of (i : StoredIntent) (s : Snapshot) : InterfaceMTU :=
  default zero_mtu (Interfaces s !! ManagementID_ (i_Object i)).
(** go: internal/candidate/mtu.go mtuChecks *)
Definition mtuChecks (i : StoredIntent) (s : Snapshot) : list Gate :=
  let p := mtu_of i s in
  when (negb (im_Supported p)) (gate "MTU_SCHEMA_UNSUPPORTED" "blocked" (i_ID i))
  ++ when (negb (im_Eligible p)) (gate "STANDALONE_INTERNAL_MTU_REQUIRED" "blocked" (i_ID i))
  ++ when (im_Authority p <>s "local-managed")
       (gate (if im_Authority p =s "externally-controlled" then "EXTERNALLY_CONTROLLED" else "MTU_AUTHORITY_REQUIRED")
          "blocked" (i_ID i))
  ++ [gate "MTU_DEVICE_AND_MANAGEMENT_PATH_REVIEW_REQUIRED" "allowed" (i_ID i)].
(** go: internal/candidate/mtu.go mtuDiff *)
Definition mtuDiff (i : StoredIntent) (s : Snapshot) : Diff :=
  let value (f : MTUChange -> option Z) := jopt JNum (i_MTU i ≫= f) in
  let p := mtu_of i s in
  diff i "mtu_request" (value m_Before) (value m_After) (if im_Known p then jopt JNum (im_Requested p) else JNull)
    (mtuProblem i s).
(** [d] is the captured default of the intent.
    go: internal/candidate/mtu.go mtuDefaultDiff *)
Definition mtuDefaultDiff (i : StoredIntent) (d : MTUDefault) (s : Snapshot) : Diff :=
  let mtu d := JNum (md_MTU d) in
  mkDiff (i_Object i) "mtu_default_dependency" (mtu d) (mtu d) "ovsdb-operational" (jopt mtu (im_Default (mtu_of i s)))
    (i_Operation i) (i_ID i) (mtuProblem i s <>s "").
(** go: internal/candidate/plan.go:140-143 Compare *)
Definition mtuDiffs (i : StoredIntent) (s : Snapshot) : list Diff :=
  mtuDiff i s :: match i_MTU i ≫= m_Default with Some d => [mtuDefaultDiff i d s] | None => [] end.
(** go: internal/candidate/mtu.go hasMTU *)
Definition hasMTU (l : list StoredIntent) : bool := existsb (fun i => IsMTUOperation (i_Operation i)) l.

(** The first staging: the current request is the original, and a change from
    or to the default captures the default's context.
    go: internal/candidate/mtu.go:172-176 stageMTU *)
Definition capture_mtu (in_ : Intent) (p : InterfaceMTU) (after : option Z) (s : Snapshot) : StoredIntent :=
  set_MTU (group_intent in_ (sn_Schema s) (im_Dependency p)) (in_Operation in_)
    (Some (mkMTUChange (im_Requested p) after (im_Port p) (im_Bridge p)
             (if is_nil (im_Requested p) || is_nil after then im_Default p else None) false)).
(** go: internal/candidate/mtu.go stageMTU *)
Definition stageMTU (c : Candidate) (cmd : Command) (s : Snapshot) : result Candidate :=
  match cmd_Intents cmd, (len (intents c) <=? 1) with
  | [in_], true =>
    let set := in_Operation in_ =s InterfaceMTUSet in
    fail_if negb (IsMTUOperation (in_Operation in_)) with Fail 422 "MTU_SINGLE_INTENT_REQUIRED" ;;
    fail_if negb (ManagementID (in_ID in_)) || (Table (in_Object in_) <>s "Interface")
            || (if set then negb (ValidMTU (in_MTURequest in_)) else negb (in_MTURequest in_ =? 0))
            || negb (no_values_requested in_)
      with Fail 422 "INVALID_INTERFACE_MTU" ;;
    fail_if stale c in_ s with Fail 409 "GENERATION_RECONCILIATION_REQUIRED" ;;
    match Interfaces s !! ManagementID_ (in_Object in_) with
    | None => Err (Fail 409 "OBJECT_BINDING_CHANGED")
    | Some p =>
      fail_if negb (bool_decide (im_Binding p = in_Object in_)) with Fail 409 "OBJECT_BINDING_CHANGED" ;;
      fail_if negb (MTUEditable p) with Fail 409 "INTERNAL_MTU_AUTHORITY_REQUIRED" ;;
      let after := if set then Some (in_MTURequest in_) else None in
      fail_if negb set && negb (MTUClearable p) with Fail 409 "MTU_DEFAULT_UNPROVEN" ;;
      match intents c with
      | [prior] =>
        match i_MTU prior with
        | None => Err (Fail 409 "MTU_RESTAGE_REQUIRED")
        | Some m =>
          fail_if negb (IsMTUOperation (i_Operation prior)) || (i_ID prior <>s in_ID in_)
                  || negb (bool_decide (i_Object prior = in_Object in_))
                  || (is_nil (m_Default m) && is_nil after)
            with Fail 409 "MTU_RESTAGE_REQUIRED" ;;
          Ok (stage_group c (set_MTU prior (in_Operation in_)
                               (Some (mkMTUChange (m_Before m) after (m_Port m) (m_Bridge m) (m_Default m)
                                        (m_Compensating m)))) s)
        end
      | _ => Ok (stage_group c (capture_mtu in_ p after s) s)
      end
    end
  | _, _ => Err (Fail 422 "MTU_SINGLE_INTENT_REQUIRED")
  end.

(** ** policing.go *)

(** go: internal/candidate/policing.go ValidPolicing *)
Definition ValidPolicing (p : PolicingConfig) : bool :=
  (0 <=? Rate p) && (Rate p <=? 1000000) && (0 <=? PacketRate p) && (PacketRate p <=? 1000)
  && ((Rate p =? 0) || (PacketRate p =? 0)) && (Burst p =? 0) && (PacketBurst p =? 0).
(** go: internal/candidate/policing.go PolicingEditable *)
Definition PolicingEditable (p : InterfacePolicing) : bool :=
  ipo_Known p && ipo_Supported p && ipo_Eligible p && (ipo_Authority p =s "local-exclusive")
  && ValidPolicing (ipo_Configuration p).
(** [None]: the request is not valid.
    go: internal/candidate/policing.go requestedPolicing *)
Definition requestedPolicing (r : option PolicingRequest) : option PolicingConfig :=
  match r with
  | None => None
  | Some r =>
    let valid out := if (0 <? pr_Rate r) && ValidPolicing out then Some out else None in
    if pr_Mode r =s "disabled" then if pr_Rate r =? 0 then Some (mkPolicing 0 0 0 0) else None
    else if pr_Mode r =s "bandwidth" then valid (mkPolicing (pr_Rate r) 0 0 0)
    else if pr_Mode r =s "packets" then valid (mkPolicing 0 0 (pr_Rate r) 0)
    else None
  end.
(** go: internal/candidate/policing.go policingProblem *)
Definition policingProblem (i : StoredIntent) (s : Snapshot) : string :=
  match i_Policing i with
  | None => "INVALID_INTERFACE_POLICING"
  | Some m =>
    if (i_Operation i <>s InterfacePolicingSet) || (Table (i_Object i) <>s "Interface")
       || negb (ValidPolicing (pc_Before m)) || negb (ValidPolicing (pc_After m)) || (pc_Name m =s "")
       || (pc_IfIndex m <=? 0)
    then "INVALID_INTERFACE_POLICING"
    else if Generation (i_Object i) <>s sn_Generation s then "GENERATION_RECONCILIATION_REQUIRED"
    else match Policings s !! ManagementID_ (i_Object i) with
         | None => "OBJECT_BINDING_CHANGED"
         | Some p =>
           if negb (bool_decide (ipo_Binding p = i_Object i)) || negb (bool_decide (ipo_Port p = pc_Port m))
              || negb (bool_decide (ipo_Bridge p = pc_Bridge m)) || (ipo_Name p <>s pc_Name m)
              || negb (ipo_IfIndex p =? pc_IfIndex m) then "OBJECT_BINDING_CHANGED"
           else if i_Schema i <>s sn_Schema s then "SCHEMA_CHANGED"
           else if negb (ipo_Known p) then "NATIVE_CONFIGURATION_UNKNOWN"
           else if i_Dependency i <>s ipo_Dependency p then "POLICING_DEPENDENCY_CHANGED"
           else if negb (bool_decide (pc_Before m = ipo_Configuration p)) then "FIELD_CONFLICT"
           else EmptyString
         end
  end.
Definition policing_of (i : StoredIntent) (s : Snapshot) : InterfacePolicing :=
  default zero_policing (Policings s !! ManagementID_ (i_Object i)).
(** go: internal/candidate/policing.go policingChecks *)
Definition policingChecks (i : StoredIntent) (s : Snapshot) : list Gate :=
  let p := policing_of i s in
  when (negb (ipo_Supported p)) (gate "POLICING_SCHEMA_UNSUPPORTED" "blocked" (i_ID i))
  ++ when (negb (ipo_Eligible p)) (gate "STANDALONE_INTERNAL_POLICING_REQUIRED" "blocked" (i_ID i))
  ++ when (ipo_Authority p <>s "local-exclusive") (gate "EXCLUSIVE_INGRESS_AUTHORITY_REQUIRED" "blocked" (i_ID i))
  ++ [gate "POLICING_KERNEL_CHECK_AT_DISPATCH" "allowed" (i_ID i);
      gate "POLICING_TRAFFIC_AND_MANAGEMENT_PATH_REVIEW_REQUIRED" "allowed" (i_ID i)].
Definition policing_values (p : PolicingConfig) : list json :=
  [JNum (Rate p); JNum (Burst p); JNum (PacketRate p); JNum (PacketBurst p)].
(** go: internal/candidate/policing.go policingDiff *)
Definition policingDiff (i : StoredIntent) (s : Snapshot) : list Diff :=
  let p := policing_of i s in
  let zero := policing_values (mkPolicing 0 0 0 0) in
  let now := policing_values (ipo_Configuration p) in
  diffs i ["ingress_policing_rate"; "ingress_policing_burst"; "ingress_policing_kpkts_rate";
           "ingress_policing_kpkts_burst"]
    (match i_Policing i with Some m => policing_values (pc_Before m) | None => zero end)
    (match i_Policing i with Some m => policing_values (pc_After m) | None => zero end)
    (if ipo_Known p then now else (fun _ => JNull) <$> now) (policingProblem i s).
(** go: internal/candidate/policing.go hasPolicing *)
Definition hasPolicing (l : list StoredIntent) : bool := existsb (fun i => i_Operation i =s InterfacePolicingSet) l.
(** go: internal/candidate/policing.go stagePolicing *)
Definition stagePolicing (c : Candidate) (cmd : Command) (s : Snapshot) : result Candidate :=
  match cmd_Intents cmd, (len (intents c) <=? 1) with
  | [in_], true =>
    fail_if in_Operation in_ <>s InterfacePolicingSet with Fail 422 "POLICING_SINGLE_INTENT_REQUIRED" ;;
    match requestedPolicing (in_Policing in_) with
    | None => Err (Fail 422 "INVALID_INTERFACE_POLICING")
    | Some after =>
      fail_if negb (ManagementID (in_ID in_)) || (Table (in_Object in_) <>s "Interface")
              || negb (in_MTURequest in_ =? 0) || negb (no_values_requested in_)
        with Fail 422 "INVALID_INTERFACE_POLICING" ;;
      fail_if stale c in_ s with Fail 409 "GENERATION_RECONCILIATION_REQUIRED" ;;
      match Policings s !! ManagementID_ (in_Object in_) with
      | None => Err (Fail 409 "OBJECT_BINDING_CHANGED")
      | Some p =>
        fail_if negb (bool_decide (ipo_Binding p = in_Object in_)) with Fail 409 "OBJECT_BINDING_CHANGED" ;;
        fail_if negb (PolicingEditable p) with Fail 409 "EXCLUSIVE_INTERNAL_POLICING_AUTHORITY_REQUIRED" ;;
        match intents c with
        | [prior] =>
          match i_Policing prior with
          | None => Err (Fail 409 "POLICING_RESTAGE_REQUIRED")
          | Some m =>
            fail_if (i_Operation prior <>s InterfacePolicingSet) || (i_ID prior <>s in_ID in_)
                    || negb (bool_decide (i_Object prior = in_Object in_))
              with Fail 409 "POLICING_RESTAGE_REQUIRED" ;;
            Ok (stage_group c (set_Policing prior
                                 (Some (mkPolicingChange (pc_Before m) after (pc_Port m) (pc_Bridge m) (pc_Name m)
                                          (pc_IfIndex m) (pc_Compensating m)))) s)
          end
        | _ =>
          Ok (stage_group c (set_Policing (group_intent in_ (sn_Schema s) (ipo_Dependency p))
                               (Some (mkPolicingChange (ipo_Configuration p) after (ipo_Port p) (ipo_Bridge p)
                                        (ipo_Name p) (ipo_IfIndex p) false))) s)
        end
      end
    end
  | _, _ => Err (Fail 422 "POLICING_SINGLE_INTENT_REQUIRED")
  end.

(** ** spanning_tree.go *)

(** go: internal/candidate/spanning_tree.go SpanningTreeBasicKeys *)
Definition SpanningTreeBasicKeys : list string :=
  ["stp-priority"; "stp-hello-time"; "stp-max-age"; "stp-forward-delay"; "rstp-priority"; "rstp-max-age";
   "rstp-forward-delay"].
Definition msize {A} (m : gmap string A) : Z := Z.of_nat (size m).
(** go: internal/candidate/spanning_tree.go treeConfigValid *)
Definition treeConfigValid (c : SpanningTreeConfig) : bool :=
  (msize (t_Parameters c) =? len SpanningTreeBasicKeys)
  && forallb (fun k => match t_Parameters c !! k with
                       | None => false
                       | Some None => true
                       | Some (Some v) => slen v <=? 128
                       end) SpanningTreeBasicKeys.
(** go: internal/candidate/spanning_tree.go treeConfiguration *)
Definition treeConfiguration (c : SpanningTreeConfig) : SpanningTree.Configuration :=
  SpanningTree.mkConfiguration (Some (t_STP c)) (Some (t_RSTP c)) (Some (omap (fmap JStr) (t_Parameters c))).
(** go: internal/candidate/spanning_tree.go treeAssessment *)
Definition treeAssessment (c : SpanningTreeConfig) : SpanningTree.Validation :=
  let image := treeConfiguration c in
  SpanningTree.Validate (SpanningTree.STP image) (SpanningTree.RSTP image) (SpanningTree.Other image).
Definition tree_assessed (c : SpanningTreeConfig) : bool := SpanningTree.State (treeAssessment c) =s "valid".
(** go: internal/candidate/spanning_tree.go TreePreparationProblem *)
Definition TreePreparationProblem (p : SpanningTreeBridge) : string :=
  if negb (sb_Known p) then "SPANNING_TREE_CONFIGURATION_UNKNOWN"
  else if negb (sb_Supported p) then "SPANNING_TREE_SCHEMA_UNSUPPORTED"
  else if sb_Authority p <>s "local-managed" then "SPANNING_TREE_BRIDGE_AUTHORITY_REQUIRED"
  else sb_GraphGate p.
Definition tree_digest (c : SpanningTreeConfig) : string := digest_json (tree_json c).
(** go: internal/candidate/spanning_tree.go spanningTreeProblem *)
Definition spanningTreeProblem (i : StoredIntent) (s : Snapshot) : string :=
  match i_SpanningTree i with
  | None => "INVALID_SPANNING_TREE_DRAFT"
  | Some change =>
    if negb (IsSpanningTreeOperation (i_Operation i)) || (Table (i_Object i) <>s "Bridge")
       || negb (treeConfigValid (tc_Before change)) || negb (treeConfigValid (tc_After change))
    then "INVALID_SPANNING_TREE_DRAFT"
    else if Generation (i_Object i) <>s sn_Generation s then "GENERATION_RECONCILIATION_REQUIRED"
    else match SpanningTrees s !! ManagementID_ (i_Object i) with
         | None => "OBJECT_BINDING_CHANGED"
         | Some p =>
           if negb (bool_decide (sb_Binding p = i_Object i)) then "OBJECT_BINDING_CHANGED"
           else if i_Schema i <>s sn_Schema s then "SCHEMA_CHANGED"
           else if TreePreparationProblem p <>s "" then TreePreparationProblem p
           else if (i_Operation i =s SpanningTreeConfigure) && negb (sb_Executable p)
           then "SPANNING_TREE_EXECUTION_AUTHORITY_REQUIRED"
           else if tree_digest (tc_Before change) <>s tree_digest (sb_Configuration p) then "FIELD_CONFLICT"
           else if i_Dependency i <>s sb_Dependency p then "SPANNING_TREE_DEPENDENCY_CHANGED"
           else EmptyString
         end
  end.
Definition tree_of (i : StoredIntent) (s : Snapshot) : SpanningTreeBridge :=
  default zero_tree (SpanningTrees s !! ManagementID_ (i_Object i)).
(** go: internal/candidate/spanning_tree.go spanningTreeChecks *)
Definition spanningTreeChecks (i : StoredIntent) (s : Snapshot) : list Gate :=
  let block code := gate code "blocked" (i_ID i) in
  let configure := i_Operation i =s SpanningTreeConfigure in
  match i_SpanningTree i with
  | None => []
  | Some change =>
    let v := treeAssessment (tc_After change) in
    when (configure && negb (tree_assessed (tc_Before change))) (block "SPANNING_TREE_ORIGINAL_PARAMETERS_UNPROVEN")
    ++ ((fun c => block (SpanningTree.check_Code c)) <$> SpanningTree.Checks v)
    ++ (if configure && tree_assessed (tc_After change) && tree_assessed (tc_Before change)
        then block <$> SpanningTree.tr_Checks
                         (SpanningTree.AssessSetterOrder (treeConfiguration (tc_Before change))
                            (treeConfiguration (tc_After change)))
        else [])
  end
  ++ (if i_Operation i =s SpanningTreePrepare then [block "SPANNING_TREE_EXECUTION_PENDING"]
      else when (negb (sb_Executable (tree_of i s))) (block "SPANNING_TREE_EXECUTION_AUTHORITY_REQUIRED")
           ++ [gate "SPANNING_TREE_NATIVE_WITNESS_REQUIRED" "allowed" (i_ID i)]).
(** go: internal/candidate/spanning_tree.go spanningTreeDiff *)
Definition spanningTreeDiff (i : StoredIntent) (s : Snapshot) : list Diff :=
  match i_SpanningTree i with
  | None => []
  | Some change =>
    let p := tree_of i s in
    let '(before, after, current) := (tc_Before change, tc_After change, sb_Configuration p) in
    let add field (f : SpanningTreeConfig -> json) :=
      diff i field (f before) (f after) (if sb_Known p then f current else JNull) (spanningTreeProblem i s) in
    add "stp_enable" (fun c => JBool (t_STP c)) :: add "rstp_enable" (fun c => JBool (t_RSTP c))
    :: ((fun k => add ("other_config." ++ k)%string (fun c => jostr (mjoin (t_Parameters c !! k))))
          <$> SpanningTreeBasicKeys)
  end.
(** go: internal/candidate/spanning_tree.go hasSpanningTree *)
Definition hasSpanningTree (l : list StoredIntent) : bool :=
  existsb (fun i => IsSpanningTreeOperation (i_Operation i)) l.

(** A parameter of the request, for the protocol being enabled. The rune loop
    [strings.IndexFunc] looks for anything but a decimal digit.
    go: internal/candidate/spanning_tree.go:215 stageSpanningTree *)
Definition tree_parameter_ok (protocol k : string) (v : option string) : bool :=
  contains SpanningTreeBasicKeys k && (protocol <>s "disabled") && has_prefix k (protocol ++ "-")
  && match v with None => true | Some v => (0 <? slen v) && (slen v <=? 128) && all_digits v end.
(** The original of the draft with the requested protocol and parameters.
    go: internal/candidate/spanning_tree.go:211-219 stageSpanningTree *)
Definition tree_target (before : SpanningTreeConfig) (protocol : string) (parameters : gmap string (option string))
    : result SpanningTreeConfig :=
  fail_if negb (forallb (fun '(k, v) => tree_parameter_ok protocol k v) (map_to_list parameters))
    with Fail 422 "INVALID_SPANNING_TREE_PARAMETER" ;;
  Ok (mkTreeConfig (protocol =s "stp") (protocol =s "rstp") (parameters ∪ t_Parameters before)).
(** go: internal/candidate/spanning_tree.go stageSpanningTree *)
Definition stageSpanningTree (c : Candidate) (cmd : Command) (s : Snapshot) : result Candidate :=
  match cmd_Intents cmd, (len (intents c) <=? 1) with
  | [in_], true =>
    fail_if negb (IsSpanningTreeOperation (in_Operation in_)) with Fail 422 "SPANNING_TREE_SINGLE_INTENT_REQUIRED" ;;
    match in_SpanningTree in_ with
    | Some (mkTreeRequest protocol (Some parameters)) =>
      fail_if negb (contains ["disabled"; "stp"; "rstp"] protocol) || (7 <? msize parameters)
              || negb (ManagementID (in_ID in_)) || (Table (in_Object in_) <>s "Bridge")
              || not_nil (in_Topology in_) || not_nil (in_Policing in_) || negb (in_MTURequest in_ =? 0)
              || negb (no_values_requested in_)
        with Fail 422 "INVALID_SPANNING_TREE_DRAFT" ;;
      fail_if stale c in_ s with Fail 409 "GENERATION_RECONCILIATION_REQUIRED" ;;
      match SpanningTrees s !! ManagementID_ (in_Object in_) with
      | None => Err (Fail 409 "OBJECT_BINDING_CHANGED")
      | Some p =>
        fail_if negb (bool_decide (sb_Binding p = in_Object in_)) with Fail 409 "OBJECT_BINDING_CHANGED" ;;
        fail_if TreePreparationProblem p <>s "" with Fail 409 (TreePreparationProblem p) ;;
        fail_if (in_Operation in_ =s SpanningTreeConfigure) && negb (sb_Executable p)
          with Fail 403 "SPANNING_TREE_EXECUTION_AUTHORITY_REQUIRED" ;;
        let? (i, before) :=
          match intents c with
          | [prior] =>
            fail_if (i_Operation prior <>s in_Operation in_) || (i_ID prior <>s in_ID in_)
                    || negb (bool_decide (i_Object prior = in_Object in_)) || (spanningTreeProblem prior s <>s "")
              with Fail 409 "SPANNING_TREE_RESTAGE_REQUIRED" ;;
            match i_SpanningTree prior with
            | Some change => Ok (prior, tc_Before change)
            | None => Err (Fail 409 "SPANNING_TREE_RESTAGE_REQUIRED")
            end
          | _ => Ok (group_intent in_ (sn_Schema s) (sb_Dependency p), sb_Configuration p)
          end in
        let? after := tree_target before protocol parameters in
        Ok (stage_group c (set_SpanningTree i (Some (mkTreeChange before after))) s)
      end
    | _ => Err (Fail 422 "INVALID_SPANNING_TREE_DRAFT")
    end
  | _, _ => Err (Fail 422 "SPANNING_TREE_SINGLE_INTENT_REQUIRED")
  end.

End FieldGroups.
