(* ===== verification/Graphs.v ===== *)
(** * internal/candidate: isolated bridges and internal ports

    The four single-intent groups that create and delete managed graphs
    (bridge.go, bridge_delete.go, internal_port.go, internal_port_delete.go):
    identities minted before execution, graphs captured for deletion with a
    replacement for compensation, their comparison with the snapshot, gates,
    differences and staging.

    [fresh n] is the [n]-th identifier that [repository.NewID] returns while
    the command is prepared. *)

From S2P Require Import Prelude GoStrings Sha256 GoJson ApiTypes Multicast Mirror Tunnel.
From S2P Require Import CandidateTypes Intents Planning Staging FieldGroups.
Import Planning Staging FieldGroups.

Module Graphs.

(** A fresh binding draws two identifiers.
    go: internal/candidate/bridge.go:55-57 newBridgeIntent *)
Definition bind (fresh : nat -> string) (n : nat) (table : string) (s : Snapshot) : Binding :=
  mkBinding (fresh (2 * n)%nat) (fresh (2 * n + 1)%nat) table (sn_Generation s).
(** The fields that no graph operation takes. *)
Definition no_fields (in_ : Intent) : bool :=
  (in_Mode in_ =s "") && (in_LACP in_ =s "") && (in_Fallback in_ =s "") && is_empty (in_Members in_)
  && (vlan_digest (in_Value in_) =s vlan_digest zero_vlan).
(** The candidate belongs to an earlier generation. *)
Definition outdated (c : Candidate) (s : Snapshot) : bool :=
  match c_Generation c with Some g => g <>s sn_Generation s | None => false end.

(** ** bridge.go *)

Definition is_letter (b : Z) : bool := ((97 <=? b) && (b <=? 122)) || ((65 <=? b) && (b <=? 90)).
(** The regular expression [^[a-zA-Z][a-zA-Z0-9_.-]{0,14}$].
    go: internal/candidate/bridge.go ValidBridgeName *)
Definition ValidBridgeName (name : string) : bool :=
  match bytes name with
  | [] => false
  | b :: r =>
    is_letter b && (len r <=? 14)
    && forallb (fun b => is_letter b || is_digit b || (b =? 95) || (b =? 46) || (b =? 45)) r
  end.

(** go: internal/candidate/bridge.go newBridgeIntent *)
Definition newBridgeIntent (fresh : nat -> string) (in_ : Intent) (s : Snapshot) : result StoredIntent :=
  fail_if negb (ValidBridgeName (in_Name in_)) || negb (in_VLANID in_ =? 0)
          || negb (bool_decide (in_Object in_ = zero_binding)) || negb (no_fields in_)
    with Fail 422 "INVALID_ISOLATED_BRIDGE" ;;
  let root := cs_Root (Creation s) in
  Ok (mkStored None None None None None None None (in_ID in_) BridgeCreate (bind fresh 0 "Bridge" s)
        (normalize zero_vlan) (normalize zero_vlan) (digest_json (JArr [JStr root; JStr (in_Name in_)])) (sn_Schema s)
        None None []
        (Some (mkBridgeCreation (in_Name in_) root (bind fresh 1 "Port" s) (bind fresh 2 "Interface" s) false true))
        None None None).

(** The loop over the minted identities.
    go: internal/candidate/bridge.go:77-89 creationProblem *)
Fixpoint minted_problem (l : list Binding) (before after : bool) (s : Snapshot) : string :=
  match l with
  | [] => EmptyString
  | b :: r =>
    let current := cs_Objects (Creation s) !! OVSUUID b in
    if before then
      if bool_decide (current = Some b) then minted_problem r before after s else "OBJECT_BINDING_CHANGED"
    else if not_nil current then "OBJECT_BINDING_CHANGED"
    else if after && isset (cs_Retired (Creation s)) (OVSUUID b) then "CREATION_IDENTITY_CONSUMED"
    else minted_problem r before after s
  end.
(** go: internal/candidate/bridge.go creationProblem *)
Definition creationProblem (i : StoredIntent) (s : Snapshot) : string :=
  match i_Creation i with
  | None => "INVALID_ISOLATED_BRIDGE"
  | Some c =>
    if i_Operation i <>s BridgeCreate then "INVALID_ISOLATED_BRIDGE"
    else if (Generation (i_Object i) <>s sn_Generation s) || (bc_Root c <>s cs_Root (Creation s))
    then "GENERATION_RECONCILIATION_REQUIRED"
    else if i_Schema i <>s sn_Schema s then "SCHEMA_CHANGED"
    else if negb (bc_BeforePresent c) && bc_AfterPresent c && isset (cs_Names (Creation s)) (bc_Name c)
    then "OBJECT_NAME_IN_USE"
    else minted_problem (CreationBindings i) (bc_BeforePresent c) (bc_AfterPresent c) s
  end.
(** go: internal/candidate/bridge.go creationChecks *)
Definition creationChecks (i : StoredIntent) (s : Snapshot) : list Gate :=
  let cs := Creation s in
  when (match i_Creation i with
        | Some c => negb (bc_BeforePresent c) && bc_AfterPresent c && negb (cs_Capacity cs)
        | None => false
        end) (gate "BRIDGE_INVENTORY_CAPACITY" "blocked" (i_ID i))
  ++ when (negb (cs_Supported cs)) (gate "BRIDGE_LIFECYCLE_SCHEMA_UNSUPPORTED" "blocked" (i_ID i))
  ++ when ((cs_Authority cs <>s "local-managed")
           || match i_Creation i with Some c => negb (isset (cs_AllowedNames cs) (bc_Name c)) | None => true end)
       (gate "BRIDGE_CREATION_AUTHORITY_REQUIRED" "blocked" (i_ID i))
  ++ [gate "ISOLATED_BRIDGE_NO_UPLINK_OR_IP_CONFIGURATION" "allowed" (i_ID i)].
(** go: internal/candidate/plan.go:177-185 Compare *)
Definition creationDiff (i : StoredIntent) (s : Snapshot) : Diff :=
  diff i "isolated_bridge_graph" (JStr "absent")
    (jopt (fun c => JObj [("datapath_type", JStr "system"); ("fail_mode", JStr "secure");
                          ("interface_type", JStr "internal"); ("local_port", JStr (bc_Name c));
                          ("name", JStr (bc_Name c)); ("uplinks", JNum 0)]) (i_Creation i))
    (JStr (match i_Creation i with
           | Some c => if isset (cs_Names (Creation s)) (bc_Name c) then "name occupied" else "absent"
           | None => "absent"
           end)) (creationProblem i s).
(** go: internal/candidate/bridge.go hasCreation *)
Definition hasCreation (l : list StoredIntent) : bool := existsb (fun i => i_Operation i =s BridgeCreate) l.
(** go: internal/candidate/bridge.go stageCreation *)
Definition stageCreation (fresh : nat -> string) (c : Candidate) (cmd : Command) (s : Snapshot) : result Candidate :=
  match cmd_Intents cmd, (len (intents c) <=? 1) with
  | [in_], true =>
    fail_if (in_Operation in_ <>s BridgeCreate) || negb (ManagementID (in_ID in_))
      with Fail 422 "ISOLATED_BRIDGE_SINGLE_INTENT_REQUIRED" ;;
    let? i := newBridgeIntent fresh in_ s in
    fail_if outdated c s with Fail 409 "GENERATION_RECONCILIATION_REQUIRED" ;;
    let? i :=
      match intents c with
      | [prior] =>
        fail_if (i_Operation prior <>s BridgeCreate) || (i_ID prior <>s i_ID i)
                || match i_Creation prior with Some p => bc_Name p <>s in_Name in_ | None => true end
          with Fail 409 "CREATION_RESTAGE_REQUIRED" ;;
        Ok prior
      | _ => Ok i
      end in
    fail_if creationProblem i s <>s "" with Fail 409 (creationProblem i s) ;;
    Ok (stage_group c i s)
  | _, _ => Err (Fail 422 "ISOLATED_BRIDGE_SINGLE_INTENT_REQUIRED")
  end.

(** ** bridge_delete.go *)

(** The identifiers are valid and new; the seen ones with them. *)
Fixpoint distinct_ids (ids seen : list string) : option (list string) :=
  match ids with
  | [] => Some seen
  | id :: r => if negb (ManagementID id) || contains seen id then None else distinct_ids r (id :: seen)
  end.
(** One graph: its tables in order, one generation, fresh identities.
    go: internal/candidate/bridge_delete.go:174-184 validDeletionGraphs *)
Fixpoint graph_ids (l : list Binding) (tables : list string) (generation : string) (seen : list string)
    : option (list string) :=
  match l, tables with
  | b :: r, t :: ts =>
    if (Table b <>s t) || (Generation b <>s generation) then None
    else distinct_ids [ManagementID_ b; OVSUUID b] seen ≫= graph_ids r ts generation
  | _, _ => Some seen
  end.
Definition valid_marker (marker : string) : bool :=
  match hex_decode marker with Some m => len m =? 32 | None => false end.
(** go: internal/candidate/bridge_delete.go validDeletionGraphs *)
Definition validDeletionGraphs (d : BridgeDeletion) : bool :=
  let src := bd_Source d in
  let check g := graph_ids (graph_Bindings g) ["Bridge"; "Port"; "Interface"] (Generation (bg_Bridge src)) in
  valid_marker (bd_SourceMarker d) && ValidBridgeName (bg_Name src) && ManagementID (bg_Root src)
  && not_nil (check src [bg_Root src] ≫= check (bd_Replacement d)).

(** The source of a deletion that has been carried out is gone and retired.
    go: internal/candidate/bridge_delete.go:145-149 deletionProblem *)
Definition all_retired (l : list Binding) (s : Snapshot) : bool :=
  forallb (fun b => is_nil (cs_Objects (Creation s) !! OVSUUID b) && isset (cs_Retired (Creation s)) (OVSUUID b)) l.
(** The replacement exists exactly when the restoration was observed.
    go: internal/candidate/bridge_delete.go:154-163 deletionProblem *)
Fixpoint replacement_problem (l : list Binding) (restored : bool) (s : Snapshot) : string :=
  match l with
  | [] => EmptyString
  | b :: r =>
    let current := cs_Objects (Creation s) !! OVSUUID b in
    if restored then
      if bool_decide (current = Some b) then replacement_problem r restored s else "OBJECT_BINDING_CHANGED"
    else if not_nil current || isset (cs_Retired (Creation s)) (OVSUUID b) then "CREATION_IDENTITY_CONSUMED"
    else replacement_problem r restored s
  end.
(** go: internal/candidate/bridge_delete.go deletionProblem *)
Definition deletionProblem (i : StoredIntent) (s : Snapshot) : string :=
  match i_Deletion i with
  | None => "INVALID_ISOLATED_BRIDGE_DELETION"
  | Some d =>
    let src := bd_Source d in
    if (i_Operation i <>s BridgeDelete) || not_nil (i_Creation i) || negb (bool_decide (i_Object i = bg_Bridge src))
       || (bg_Name src <>s bg_Name (bd_Replacement d)) || (bg_Root src <>s bg_Root (bd_Replacement d))
       || negb (validDeletionGraphs d)
    then "INVALID_ISOLATED_BRIDGE_DELETION"
    else if (Generation (i_Object i) <>s sn_Generation s) || (bg_Root src <>s cs_Root (Creation s))
    then "GENERATION_RECONCILIATION_REQUIRED"
    else if i_Schema i <>s sn_Schema s then "SCHEMA_CHANGED"
    else
      let problem :=
        if negb (bd_Restoring d) && negb (bd_Observed d) then
          match ds_Graphs (Deletion s) !! ManagementID_ (i_Object i) with
          | None => "MANAGED_ISOLATED_BRIDGE_REQUIRED"
          | Some current =>
            if negb (bool_decide (mg_Graph current = src)) || (mg_Marker current <>s bd_SourceMarker d)
            then "MANAGED_ISOLATED_BRIDGE_REQUIRED"
            else if mg_Dependency current <>s i_Dependency i then "BRIDGE_GRAPH_CHANGED"
            else EmptyString
          end
        else if negb (all_retired (graph_Bindings src) s) then "DELETED_IDENTITY_NOT_RETIRED"
        else if negb (bd_Restoring d && bd_Observed d) && isset (cs_Names (Creation s)) (bg_Name src)
        then "OBJECT_NAME_IN_USE"
        else EmptyString in
      if problem <>s "" then problem
      else replacement_problem (graph_Bindings (bd_Replacement d)) (bd_Restoring d && bd_Observed d) s
  end.
(** go: internal/candidate/bridge_delete.go deletionChecks *)
Definition deletionChecks (i : StoredIntent) (s : Snapshot) : list Gate :=
  let cs := Creation s in
  when (negb (cs_Supported cs)) (gate "BRIDGE_LIFECYCLE_SCHEMA_UNSUPPORTED" "blocked" (i_ID i))
  ++ when (match i_Deletion i with
           | None => true
           | Some d => (cs_Authority cs <>s "local-managed")
                       || negb (isset (ds_AllowedNames (Deletion s)) (bg_Name (bd_Source d)))
           end) (gate "BRIDGE_DELETION_AUTHORITY_REQUIRED" "blocked" (i_ID i))
  ++ match i_Deletion i with
     | None => []
     | Some d =>
       let capacity :=
         if bd_Restoring d then cs_Capacity cs
         else match ds_Graphs (Deletion s) !! ManagementID_ (i_Object i) with
              | Some g => mg_RestoreCapacity g
              | None => false
              end in
       when (negb (bd_Observed d) && negb capacity) (gate "BRIDGE_RESTORATION_CAPACITY_REQUIRED" "blocked" (i_ID i))
     end
  ++ [gate "ROLLBACK_RECREATES_WITH_NEW_IDENTITIES" "allowed" (i_ID i);
      gate "EXACT_ISOLATED_GRAPH_REQUIRED_AT_DISPATCH" "allowed" (i_ID i)].
(** The value shown for a deletion: a map, printed in key order. *)
Definition deleted_json (replacement : json) : json :=
  JObj [("replacement", replacement); ("rollback", JStr "recreate with new identities"); ("state", JStr "absent")].
Definition deletion_state (owned named : bool) (graph : string) : string :=
  if owned then graph else if negb named then "absent" else "graph changed or name occupied".
(** go: internal/candidate/bridge_delete.go deletionDiff *)
Definition deletionDiff (i : StoredIntent) (s : Snapshot) : Diff :=
  diff i "isolated_bridge_deletion" (jopt (fun d => bridge_graph_json (bd_Source d)) (i_Deletion i))
    (jopt (fun d => deleted_json (bridge_graph_json (bd_Replacement d))) (i_Deletion i))
    (JStr (match i_Deletion i with
           | Some d => deletion_state (not_nil (ds_Graphs (Deletion s) !! ManagementID_ (i_Object i)))
                         (isset (cs_Names (Creation s)) (bg_Name (bd_Source d))) "managed isolated graph"
           | None => "unavailable"
           end)) (deletionProblem i s).
(** go: internal/candidate/bridge_delete.go hasDeletion *)
Definition hasDeletion (l : list StoredIntent) : bool := existsb (fun i => i_Operation i =s BridgeDelete) l.
(** go: internal/candidate/bridge_delete.go:103-109 stageDeletion *)
Definition capture_bridge (fresh : nat -> string) (in_ : Intent) (owned : ManagedBridge) (s : Snapshot) : StoredIntent :=
  let g := mg_Graph owned in
  set_Deletion (group_intent in_ (sn_Schema s) (mg_Dependency owned))
    (Some (mkBridgeDeletion g
             (mkBridgeGraph (bg_Name g) (bg_Root g) (bind fresh 0 "Bridge" s) (bind fresh 1 "Port" s)
                (bind fresh 2 "Interface" s))
             (mg_Marker owned) false false)).
(** go: internal/candidate/bridge_delete.go stageDeletion *)
Definition stageDeletion (fresh : nat -> string) (c : Candidate) (cmd : Command) (s : Snapshot) : result Candidate :=
  match cmd_Intents cmd, (len (intents c) <=? 1) with
  | [in_], true =>
    fail_if in_Operation in_ <>s BridgeDelete with Fail 422 "ISOLATED_BRIDGE_SINGLE_INTENT_REQUIRED" ;;
    fail_if negb (ManagementID (in_ID in_)) || (Table (in_Object in_) <>s "Bridge") || (in_Name in_ <>s "")
            || negb (no_fields in_)
      with Fail 422 "INVALID_ISOLATED_BRIDGE_DELETION" ;;
    fail_if stale c in_ s with Fail 409 "GENERATION_RECONCILIATION_REQUIRED" ;;
    match ds_Graphs (Deletion s) !! ManagementID_ (in_Object in_) with
    | None => Err (Fail 409 "MANAGED_ISOLATED_BRIDGE_REQUIRED")
    | Some owned =>
      fail_if negb (bool_decide (bg_Bridge (mg_Graph owned) = in_Object in_))
        with Fail 409 "MANAGED_ISOLATED_BRIDGE_REQUIRED" ;;
      let? i :=
        match intents c with
        | [prior] =>
          fail_if (i_Operation prior <>s BridgeDelete) || (i_ID prior <>s in_ID in_)
                  || negb (bool_decide (i_Object prior = in_Object in_)) || is_nil (i_Deletion prior)
            with Fail 409 "DELETION_RESTAGE_REQUIRED" ;;
          Ok prior
        | _ => Ok (capture_bridge fresh in_ owned s)
        end in
      fail_if deletionProblem i s <>s "" with Fail 409 (deletionProblem i s) ;;
      Ok (stage_group c i s)
    end
  | _, _ => Err (Fail 422 "ISOLATED_BRIDGE_SINGLE_INTENT_REQUIRED")
  end.

(** ** internal_port.go *)

(** go: internal/candidate/internal_port.go MaxInternalPortParentMembers *)
Definition MaxInternalPortParentMembers : Z := 32.
(** Distinct rows have distinct UUIDs: the unstable sort of the source and
    this one agree.
    go: internal/candidate/internal_port.go sortBindings *)
Definition sortBindings : list Binding -> list Binding :=
  merge_sort (fun a b => Is_true (String.leb (OVSUUID a) (OVSUUID b))).
(** go: internal/candidate/internal_port.go internalPortProblem *)
Definition internalPortProblem (i : StoredIntent) (s : Snapshot) : string :=
  match i_PortCreation i with
  | None => "INVALID_INTERNAL_PORT"
  | Some p =>
    if i_Operation i <>s InternalPortCreate then "INVALID_INTERNAL_PORT"
    else if (Generation (i_Object i) <>s sn_Generation s) || (ip_Root p <>s cs_Root (Creation s))
    then "GENERATION_RECONCILIATION_REQUIRED"
    else if i_Schema i <>s sn_Schema s then "SCHEMA_CHANGED"
    else match ps_Parents (InternalPorts s) !! ManagementID_ (ip_Bridge p) with
         | None => "OBJECT_BINDING_CHANGED"
         | Some parent =>
           let want := sortBindings (default [] (ip_Members p) ++ (if ip_BeforePresent p then [i_Object i] else [])) in
           if negb (bool_decide (pp_Binding parent = ip_Bridge p))
              || negb (bool_decide (pp_LocalPort parent = ip_LocalPort p))
              || negb (bool_decide (pp_LocalInterface parent = ip_LocalInterface p)) then "OBJECT_BINDING_CHANGED"
           else if pp_Dependency parent <>s i_Dependency i then "DEPENDENCY_CHANGED"
           else if negb (bool_decide (want = pp_Members parent)) then "BRIDGE_PORT_MEMBERSHIP_CHANGED"
           else if negb (ip_BeforePresent p) && ip_AfterPresent p && isset (cs_Names (Creation s)) (ip_Name p)
           then "OBJECT_NAME_IN_USE"
           else minted_problem (CreationBindings i) (ip_BeforePresent p) (ip_AfterPresent p) s
         end
  end.
Definition parent_of (p : InternalPortCreation) (s : Snapshot) : InternalPortParent :=
  default zero_parent (ps_Parents (InternalPorts s) !! ManagementID_ (ip_Bridge p)).
Definition port_target (p : InternalPortCreation) : string := (ManagementID_ (ip_Bridge p) ++ ":" ++ ip_Name p)%string.
(** go: internal/candidate/internal_port.go internalPortChecks *)
Definition internalPortChecks (i : StoredIntent) (s : Snapshot) : list Gate :=
  let ps := InternalPorts s in
  match i_PortCreation i with
  | None => [gate "INVALID_INTERNAL_PORT" "blocked" (i_ID i)]
  | Some p =>
    when (negb (ps_Supported ps)) (gate "INTERNAL_PORT_SCHEMA_UNSUPPORTED" "blocked" (i_ID i))
    ++ when (negb (ip_BeforePresent p) && ip_AfterPresent p && negb (ps_Capacity ps))
         (gate "INTERNAL_PORT_INVENTORY_CAPACITY" "blocked" (i_ID i))
    ++ when ((cs_Authority (Creation s) <>s "local-managed") || negb (isset (ps_Targets ps) (port_target p)))
         (gate "INTERNAL_PORT_CREATION_AUTHORITY_REQUIRED" "blocked" (i_ID i))
    ++ when (negb (pp_Eligible (parent_of p s))) (gate "INTERNAL_PORT_PARENT_UNSUPPORTED" "blocked" (i_ID i))
    ++ [gate "INTERNAL_ACCESS_PORT_NO_HOST_IP_CONFIGURATION" "allowed" (i_ID i)]
  end.
(** go: internal/candidate/internal_port.go internalPortDiff *)
Definition internalPortDiff (i : StoredIntent) (s : Snapshot) : Diff :=
  diff i "internal_port_graph" (JStr "absent")
    (jopt (fun p => JObj [("bridge", JStr (ip_BridgeName p)); ("bridge_id", JStr (ManagementID_ (ip_Bridge p)));
                          ("interface", binding_json (ip_Interface p)); ("interface_type", JStr "internal");
                          ("name", JStr (ip_Name p)); ("tag", JNum (ip_VLANID p)); ("vlan_mode", JStr "access")])
       (i_PortCreation i))
    (JStr (match i_PortCreation i with
           | Some p => if isset (cs_Names (Creation s)) (ip_Name p) then "name occupied" else "absent"
           | None => "absent"
           end)) (internalPortProblem i s).
(** go: internal/candidate/internal_port.go:145-149 stageInternalPort *)
Definition mint_port (fresh : nat -> string) (in_ : Intent) (parent : InternalPortParent) (s : Snapshot) : StoredIntent :=
  mkStored None None None None None None None (in_ID in_) InternalPortCreate (bind fresh 0 "Port" s)
    (normalize zero_vlan) (normalize zero_vlan) (pp_Dependency parent) (sn_Schema s) None None [] None None None
    (Some (mkPortCreation (in_Name in_) (in_VLANID in_) (cs_Root (Creation s)) (pp_Binding parent) (pp_Name parent)
             (bind fresh 1 "Interface" s) (Some (pp_Members parent)) (pp_LocalPort parent) (pp_LocalInterface parent)
             false true)).
Definition set_VLANID (p : InternalPortCreation) (vlan : Z) : InternalPortCreation :=
  mkPortCreation (ip_Name p) vlan (ip_Root p) (ip_Bridge p) (ip_BridgeName p) (ip_Interface p) (ip_Members p)
    (ip_LocalPort p) (ip_LocalInterface p) (ip_BeforePresent p) (ip_AfterPresent p).
(** go: internal/candidate/internal_port.go stageInternalPort *)
Definition stageInternalPort (fresh : nat -> string) (c : Candidate) (cmd : Command) (s : Snapshot) : result Candidate :=
  match cmd_Intents cmd, (len (intents c) <=? 1) with
  | [in_], true =>
    fail_if (in_Operation in_ <>s InternalPortCreate) || negb (ManagementID (in_ID in_))
      with Fail 422 "INTERNAL_PORT_SINGLE_INTENT_REQUIRED" ;;
    fail_if negb (ValidBridgeName (in_Name in_)) || (in_VLANID in_ <? 1) || (4094 <? in_VLANID in_)
            || (Table (in_Object in_) <>s "Bridge") || negb (no_fields in_)
      with Fail 422 "INVALID_INTERNAL_PORT" ;;
    fail_if stale c in_ s with Fail 409 "GENERATION_RECONCILIATION_REQUIRED" ;;
    match ps_Parents (InternalPorts s) !! ManagementID_ (in_Object in_) with
    | None => Err (Fail 409 "OBJECT_BINDING_CHANGED")
    | Some parent =>
      fail_if negb (bool_decide (pp_Binding parent = in_Object in_)) with Fail 409 "OBJECT_BINDING_CHANGED" ;;
      fail_if (in_Name in_ =s pp_Name parent) || is_empty (pp_Members parent)
              || (MaxInternalPortParentMembers <? len (pp_Members parent))
        with Fail 422 "INTERNAL_PORT_PARENT_UNSUPPORTED" ;;
      let? i :=
        match intents c with
        | [prior] =>
          match i_PortCreation prior with
          | None => Err (Fail 409 "CREATION_RESTAGE_REQUIRED")
          | Some p =>
            fail_if (i_Operation prior <>s InternalPortCreate) || (i_ID prior <>s in_ID in_)
                    || (ip_Name p <>s in_Name in_) || negb (bool_decide (ip_Bridge p = in_Object in_))
              with Fail 409 "CREATION_RESTAGE_REQUIRED" ;;
            Ok (set_PortCreation prior (Some (set_VLANID (cloneInternalPort p) (in_VLANID in_))))
          end
        | _ => Ok (mint_port fresh in_ parent s)
        end in
      fail_if internalPortProblem i s <>s "" with Fail 409 (internalPortProblem i s) ;;
      Ok (stage_group c i s)
    end
  | _, _ => Err (Fail 422 "INTERNAL_PORT_SINGLE_INTENT_REQUIRED")
  end.

(** ** internal_port_delete.go *)

Definition with_interface (p : InternalPortCreation) (b : Binding) : InternalPortCreation :=
  mkPortCreation (ip_Name p) (ip_VLANID p) (ip_Root p) (ip_Bridge p) (ip_BridgeName p) b (ip_Members p)
    (ip_LocalPort p) (ip_LocalInterface p) (ip_BeforePresent p) (ip_AfterPresent p).
Definition port_creation_digest (p : InternalPortCreation) : string := digest_json (port_creation_json p).
(** go: internal/candidate/internal_port_delete.go validPortDeletion *)
Definition validPortDeletion (d : InternalPortDeletion) : bool :=
  let p := pg_Configuration (pd_Source d) in
  let replacement := pg_Configuration (pd_Replacement d) in
  let members := default [] (ip_Members p) in
  let context := [ip_Bridge p; ip_LocalPort p; ip_LocalInterface p] ++ members in
  let known := ip_Root p :: (ManagementID_ <$> context) ++ (OVSUUID <$> context) in
  let check g := graph_ids (port_graph_Bindings g) ["Port"; "Interface"] (Generation (ip_Bridge p)) in
  valid_marker (pd_SourceMarker d) && ValidBridgeName (ip_Name p) && (ip_Name p <>s ip_BridgeName p)
  && (1 <=? ip_VLANID p) && (ip_VLANID p <=? 4094) && ManagementID (ip_Root p) && negb (is_empty members)
  && (len members <=? MaxInternalPortParentMembers)
  && (port_creation_digest (with_interface (cloneInternalPort p) (ip_Interface replacement))
      =s port_creation_digest replacement)
  && negb (ip_BeforePresent p) && negb (ip_AfterPresent p)
  && not_nil (check (pd_Source d) known ≫= check (pd_Replacement d)).
(** go: internal/candidate/internal_port_delete.go portDeletionProblem *)
Definition portDeletionProblem (i : StoredIntent) (s : Snapshot) : string :=
  match i_PortDeletion i with
  | None => "INVALID_INTERNAL_PORT_DELETION"
  | Some d =>
    let src := pd_Source d in
    if (i_Operation i <>s InternalPortDelete) || not_nil (i_PortCreation i) || not_nil (i_Creation i)
       || not_nil (i_Deletion i) || negb (bool_decide (i_Object i = pg_Port src)) || negb (validPortDeletion d)
    then "INVALID_INTERNAL_PORT_DELETION"
    else
      let problem :=
        if negb (pd_Restoring d) && negb (pd_Observed d) then
          match pds_Graphs (PortDeletions s) !! ManagementID_ (i_Object i) with
          | None => "MANAGED_INTERNAL_PORT_REQUIRED"
          | Some owned =>
            if (digest_json (port_graph_json (mp_Graph owned)) <>s digest_json (port_graph_json src))
               || (mp_Marker owned <>s pd_SourceMarker d) then "MANAGED_INTERNAL_PORT_REQUIRED"
            else if mp_Dependency owned <>s pd_SourceDependency d then "INTERNAL_PORT_GRAPH_CHANGED"
            else EmptyString
          end
        else if negb (all_retired (port_graph_Bindings src) s) then "DELETED_IDENTITY_NOT_RETIRED"
        else if negb (pd_Restoring d && pd_Observed d) && isset (cs_Names (Creation s)) (ip_Name (pg_Configuration src))
        then "OBJECT_NAME_IN_USE"
        else EmptyString in
      if problem <>s "" then problem
      else
        let problem := replacement_problem (port_graph_Bindings (pd_Replacement d)) (pd_Restoring d && pd_Observed d) s in
        if problem <>s "" then problem
        else internalPortProblem (default zero_intent (InternalPortGraphIntent i)) s
  end.
(** go: internal/candidate/internal_port_delete.go portDeletionChecks *)
Definition portDeletionChecks (i : StoredIntent) (s : Snapshot) : list Gate :=
  match i_PortDeletion i with
  | None => [gate "INVALID_INTERNAL_PORT_DELETION" "blocked" (i_ID i)]
  | Some d =>
    let p := pg_Configuration (pd_Source d) in
    let capacity :=
      if pd_Restoring d then ps_Capacity (InternalPorts s)
      else match pds_Graphs (PortDeletions s) !! ManagementID_ (i_Object i) with
           | Some g => mp_RestoreCapacity g
           | None => false
           end in
    when (negb (ps_Supported (InternalPorts s))) (gate "INTERNAL_PORT_SCHEMA_UNSUPPORTED" "blocked" (i_ID i))
    ++ when ((cs_Authority (Creation s) <>s "local-managed")
             || negb (isset (pds_Targets (PortDeletions s)) (port_target p)))
         (gate "INTERNAL_PORT_DELETION_AUTHORITY_REQUIRED" "blocked" (i_ID i))
    ++ when (negb (pp_Eligible (parent_of p s))) (gate "INTERNAL_PORT_PARENT_UNSUPPORTED" "blocked" (i_ID i))
    ++ when (negb (pd_Observed d) && negb capacity)
         (gate "INTERNAL_PORT_RESTORATION_CAPACITY_REQUIRED" "blocked" (i_ID i))
    ++ [gate "ROLLBACK_RECREATES_WITH_NEW_IDENTITIES" "allowed" (i_ID i);
        gate "EXACT_INTERNAL_PORT_GRAPH_REQUIRED_AT_DISPATCH" "allowed" (i_ID i)]
  end.
(** go: internal/candidate/internal_port_delete.go portDeletionDiff *)
Definition portDeletionDiff (i : StoredIntent) (s : Snapshot) : Diff :=
  diff i "internal_port_deletion" (jopt (fun d => port_graph_json (pd_Source d)) (i_PortDeletion i))
    (jopt (fun d => deleted_json (port_graph_json (pd_Replacement d))) (i_PortDeletion i))
    (JStr (match i_PortDeletion i with
           | Some d => deletion_state (not_nil (pds_Graphs (PortDeletions s) !! ManagementID_ (i_Object i)))
                         (isset (cs_Names (Creation s)) (ip_Name (pg_Configuration (pd_Source d))))
                         "managed internal access Port"
           | None => "unavailable"
           end)) (portDeletionProblem i s).
(** go: internal/candidate/internal_port_delete.go hasPortDeletion *)
Definition hasPortDeletion (l : list StoredIntent) : bool := existsb (fun i => i_Operation i =s InternalPortDelete) l.
(** go: internal/candidate/internal_port_delete.go:87-96 stagePortDeletion *)
Definition capture_port (fresh : nat -> string) (in_ : Intent) (owned : ManagedInternalPort) (s : Snapshot) : StoredIntent :=
  let g := mp_Graph owned in
  let p := pg_Configuration g in
  set_PortDeletion (group_intent in_ (sn_Schema s) (pp_Dependency (parent_of p s)))
    (Some (mkPortDeletion g
             (mkPortGraph (bind fresh 0 "Port" s) (with_interface (cloneInternalPort p) (bind fresh 1 "Interface" s)))
             (mp_Marker owned) (mp_Dependency owned) false false)).
(** go: internal/candidate/internal_port_delete.go stagePortDeletion *)
Definition stagePortDeletion (fresh : nat -> string) (c : Candidate) (cmd : Command) (s : Snapshot) : result Candidate :=
  match cmd_Intents cmd, (len (intents c) <=? 1) with
  | [in_], true =>
    fail_if in_Operation in_ <>s InternalPortDelete with Fail 422 "INTERNAL_PORT_SINGLE_INTENT_REQUIRED" ;;
    fail_if negb (ManagementID (in_ID in_)) || (Table (in_Object in_) <>s "Port") || (in_Name in_ <>s "")
            || negb (in_VLANID in_ =? 0) || negb (no_fields in_)
      with Fail 422 "INVALID_INTERNAL_PORT_DELETION" ;;
    fail_if stale c in_ s with Fail 409 "GENERATION_RECONCILIATION_REQUIRED" ;;
    match pds_Graphs (PortDeletions s) !! ManagementID_ (in_Object in_) with
    | None => Err (Fail 409 "MANAGED_INTERNAL_PORT_REQUIRED")
    | Some owned =>
      fail_if negb (bool_decide (pg_Port (mp_Graph owned) = in_Object in_))
        with Fail 409 "MANAGED_INTERNAL_PORT_REQUIRED" ;;
      let? i :=
        match intents c with
        | [prior] =>
          fail_if (i_Operation prior <>s InternalPortDelete) || (i_ID prior <>s in_ID in_)
                  || negb (bool_decide (i_Object prior = in_Object in_)) || is_nil (i_PortDeletion prior)
            with Fail 409 "DELETION_RESTAGE_REQUIRED" ;;
          Ok prior
        | _ => Ok (capture_port fresh in_ owned s)
        end in
      fail_if portDeletionProblem i s <>s "" with Fail 409 (portDeletionProblem i s) ;;
      Ok (stage_group c i s)
    end
  | _, _ => Err (Fail 422 "INTERNAL_PORT_SINGLE_INTENT_REQUIRED")
  end.

End Graphs.
