(* ===== verification/Topology.v ===== *)
(** * internal/candidate: topology intents against the snapshot

    The comparison, gates and differences of the graph operations
    (topology.go), with the parts of mirror.go and tunnel.go that compare
    mirror sessions and tunnels, and the native images that an applied graph
    has: [ConfigurationDigest], [RemapConfiguration], [TopologySummary] and
    [TopologyConfigurations].

    A native configuration is read from OVSDB: its values are booleans,
    strings, arrays and objects, so that [CloneConfiguration] (a round trip
    through encoding/json) copies it. Where the source ranges over a map of
    nodes and returns at the first hit, the model takes the order of
    [map_to_list]: it only decides between several problems that are present. *)

From S2P Require Import Prelude GoStrings Sha256 GoJson ApiTypes Multicast Mirror Tunnel.
From S2P Require Import CandidateTypes Intents Planning Staging FieldGroups Graphs.
Import Planning Staging FieldGroups Graphs.

Module Topology.

(** go: internal/candidate/topology.go MaxTopologyNodes *)
Definition MaxTopologyNodes : Z := 32.
(** go: internal/candidate/bridge.go BridgeCreationMarker *)
Definition BridgeCreationMarker : string := "ovs-webui.bridge-creation".

Definition nodes_of (t : TopologySnapshot) : list TopologyNode := snd <$> map_to_list (tt_Nodes t).
Definition config_of (t : TopologySnapshot) (id : string) : configuration :=
  default ∅ (tt_Configurations t !! id).
Definition elems {A} (o : option (list A)) : list A := default [] o.
(** [v, ok := raw.([]any)] and [v, ok := raw.(map[string]any)]. *)
Definition as_array (j : option json) : option (list json) := match j with Some (JArr l) => Some l | _ => None end.
Definition as_object (j : option json) : option (list (string * json)) :=
  match j with Some (JObj l) => Some l | _ => None end.
Definition as_map (j : option json) : option (gmap string json) := list_to_map <$> as_object j.
Definition is_string (s : string) (j : json) : bool := match j with JStr x => x =s s | _ => false end.

(** ** Native images *)

Definition sort_values (l : list json) : list json :=
  merge_sort (fun a b => Is_true (String.leb (digest_json a) (digest_json b))) l.
Definition without (keys : list string) (l : list (string * json)) : list (string * json) :=
  filter (fun kv => fst kv ∉ keys) l.
Definition recovery_keys : list string :=
  [BridgeCreationMarker; "ovs-webui.commit"; "ovs-webui.vlan-commit"; "ovs-webui.bridge-commit"].
Definition digest_value (column : string) (v : json) : json :=
  match v with
  | JObj l => if column =s "external_ids" then JObj (without recovery_keys l) else v
  | JArr l => JArr (sort_values l)
  | _ => v
  end.
Definition config_json (c : configuration) : json := jmap (fun v => v) c.
(** go: internal/candidate/topology.go ConfigurationDigest *)
Definition ConfigurationDigest (m : configuration) : string := digest_json (config_json (map_imap (fun k v => Some (digest_value k v)) m)).

(** go: internal/candidate/topology.go:1045-1061 RemapConfiguration *)
Fixpoint remap (replacements : gmap string Binding) (v : json) : json :=
  match v with
  | JStr x => match replacements !! x with Some b => JStr (OVSUUID b) | None => v end
  | JArr l => JArr (remap replacements <$> l)
  | JObj l => JObj ((fun kv => (fst kv, remap replacements (snd kv))) <$> l)
  | _ => v
  end.
(** go: internal/candidate/topology.go RemapConfiguration *)
Definition RemapConfiguration (cfg : configuration) (replacements : gmap string Binding) : configuration :=
  map_imap (fun k v => Some (if contains ["ports"; "interfaces"; "mirrors"] k then remap replacements v else v)) cfg.

(** Sorting by identity: the identities of a map of nodes are distinct.
    go: internal/candidate/topology.go topologyNodes *)
Definition topologyNodes (m : gmap string TopologyNode) : list TopologyNode :=
  merge_sort (fun a b => Is_true (String.leb (ManagementID_ (n_Binding a)) (ManagementID_ (n_Binding b))))
    (snd <$> map_to_list m).

(** [json.Unmarshal] into [*[]string], [*string] and the other columns of the
    summary: [None] when the value has another type. *)
Fixpoint strings_of (l : list json) : option (list string) :=
  match l with
  | [] => Some []
  | JStr s :: r => cons s <$> strings_of r
  | JNull :: r => cons EmptyString <$> strings_of r
  | _ :: _ => None
  end.
Definition column_list (cfg : configuration) (on : bool) (col : string) : option (option (list string)) :=
  if negb on then Some None
  else match cfg !! col with
       | None | Some JNull => Some None
       | Some (JArr l) => Some <$> strings_of l
       | Some _ => None
       end.
Definition value_text (v : option json) : option (option string) :=
  match v with
  | None | Some JNull => Some None
  | Some (JStr s) => Some (Some s)
  | Some _ => None
  end.
Definition column_text (cfg : configuration) (on : bool) (col : string) : option (option string) :=
  if on then value_text (cfg !! col) else Some None.
Definition error_text (e : error) : string := match e with ENew text => text | EFail _ code => code | _ => EmptyString end.
(** The public part of a tunnel's options: only managed keys, only short
    values. [Decode] returns the options it has read also when it refuses them.
    go: internal/candidate/topology.go:904-917 TopologySummary *)
Definition tunnel_summary (typ : string) (raw : option (gmap string json)) : Tunnel.Configuration * string :=
  let read := match raw with
              | Some m => if 128 <? msize m then ∅ else
                          match Tunnel.decode_options ∅ (map_to_list m) with Ok o => o | Err _ => ∅ end
              | None => ∅
              end in
  (Tunnel.mkConfiguration typ (filter (fun kv => contains Tunnel.Keys (fst kv) && (slen (snd kv) <=? 128) = true) read),
   match Tunnel.Decode typ raw with Ok _ => EmptyString | Err e => error_text e end).
(** go: internal/candidate/topology.go TopologySummary *)
Definition TopologySummary (table : string) (cfg : configuration) : option TopologyConfigurationSummary :=
  let port := table =s "Port" in
  let iface := table =s "Interface" in
  if negb (port || iface) then None
  else
    let typ := match cfg !! "type" with Some (JStr t) => t | _ => EmptyString end in
    let tunnel := iface && contains Tunnel.Types typ in
    let '(public, problem) := tunnel_summary typ (as_map (cfg !! "options")) in
    vlan_mode ← column_list cfg port "vlan_mode";
    tag ← column_list cfg port "tag";
    trunks ← column_list cfg port "trunks";
    cvlans ← column_list cfg port "cvlans";
    lacp ← column_list cfg port "lacp";
    bond_mode ← column_list cfg port "bond_mode";
    ofport ← column_list cfg iface "ofport_request";
    mtu ← column_list cfg iface "mtu_request";
    rate ← column_text cfg iface "ingress_policing_rate";
    burst ← column_text cfg iface "ingress_policing_burst";
    packet_rate ← column_text cfg iface "ingress_policing_kpkts_rate";
    packet_burst ← column_text cfg iface "ingress_policing_kpkts_burst";
    fallback ← (if port then value_text (as_map (cfg !! "other_config") ≫= (.!! "lacp-fallback-ab")) else Some None);
    peer ← (if iface && (typ =s "patch") then value_text (as_map (cfg !! "options") ≫= (.!! "peer")) else Some None);
    Some (mkSummary None (if tunnel then Some public else None) (if tunnel then problem else EmptyString)
            vlan_mode tag trunks cvlans lacp bond_mode ofport mtu rate burst packet_rate packet_burst fallback peer).

(** ** Mirrors and tunnels (mirror.go, tunnel.go) *)

(** go: internal/candidate/mirror.go mirrorResolve *)
Definition mirrorResolve (t : TopologySnapshot) (native : bool) (id : string) : option string :=
  let hit n := (Table (n_Binding n) =s "Port")
               && String.eqb (if native then OVSUUID (n_Binding n) else ManagementID_ (n_Binding n)) id in
  (fun n => if native then ManagementID_ (n_Binding n) else OVSUUID (n_Binding n)) <$> find hit (nodes_of t).
(** go: internal/candidate/mirror.go mirrorDecode *)
Definition mirrorDecode (t : TopologySnapshot) (n : TopologyNode) : result Mirror.Configuration :=
  Mirror.Decode (config_of t (ManagementID_ (n_Binding n))) (mirrorResolve t true).
(** The references to a mirror: the parent once per reference; [None] when a
    bridge's references are unknown.
    go: internal/candidate/mirror.go:47-63 mirrorParent *)
Fixpoint mirror_parents (t : TopologySnapshot) (object : Binding) (l : list TopologyNode) : option (list TopologyNode) :=
  match l with
  | [] => Some []
  | n :: r =>
    if Table (n_Binding n) <>s "Bridge" then mirror_parents t object r
    else
      refs ← as_array (config_of t (ManagementID_ (n_Binding n)) !! "mirrors");
      rest ← mirror_parents t object r;
      Some (((fun _ => n) <$> filter (fun v => is_string (OVSUUID object) v = true) refs) ++ rest)
  end.
(** go: internal/candidate/mirror.go mirrorParent *)
Definition mirrorParent (t : TopologySnapshot) (object : Binding) : option TopologyNode :=
  match mirror_parents t object (nodes_of t) with Some [n] => Some n | _ => None end.

(** What the intent's own nodes do not cover of the current topology.
    go: internal/candidate/tunnel.go tunnelDependency *)
Definition tunnelDependency (g : TopologyChange) (t : TopologySnapshot) : string :=
  let owned := (fun n => ManagementID_ (n_Binding n))
                 <$> elems (tp_Before g) ++ elems (tp_After g) ++ elems (tp_Restored g) in
  digest_json (jmap node_json (filter (fun kv => fst kv ∉ owned) (tt_Nodes t))).

(** Whether the configurations fit the operation: created from nothing,
    changed, or removed. *)
Definition images_fit {A} (op create configure delete : string) (before after : option A) : bool :=
  negb (((op =s create) && (not_nil before || is_nil after)) || ((op =s configure) && (is_nil before || is_nil after))
        || ((op =s delete) && (is_nil before || not_nil after))).
Definition all_valid {A} (validate : A -> result unit) (before after : option A) : bool :=
  let ok o := match o with Some c => is_ok (validate c) | None => true end in ok before && ok after.

(** The ports of the desired mirror are on its bridge; its output is not the
    bridge's own port.
    go: internal/candidate/mirror.go:96-104 mirrorTopologyProblem *)
Fixpoint mirror_ports_problem (desired : Mirror.Configuration) (bridge : TopologyNode) (t : TopologySnapshot)
    (ids : list string) : string :=
  match ids with
  | [] => EmptyString
  | id :: r =>
    match tt_Nodes t !! id with
    | None => "MIRROR_PORT_ON_OTHER_BRIDGE"
    | Some port =>
      if (Table (n_Binding port) <>s "Port") || negb (bool_decide (n_Binding port ∈ elems (n_Links bridge)))
      then "MIRROR_PORT_ON_OTHER_BRIDGE"
      else if bool_decide (Mirror.OutputPort desired = Some id) && (n_Name port =s n_Name bridge)
      then "MIRROR_LOCAL_INTERNAL_OUTPUT_PROTECTED"
      else mirror_ports_problem desired bridge t r
    end
  end.
Definition selects (c : Mirror.Configuration) (output : option string) : bool :=
  match output with
  | Some id => contains (Mirror.elems (Mirror.SourcePorts c)) id || contains (Mirror.elems (Mirror.DestinationPorts c)) id
  | None => false
  end.
(** The other mirrors of the bridge: none outputs into the selection of
    another.
    go: internal/candidate/mirror.go:105-123 mirrorTopologyProblem *)
Fixpoint mirror_others_problem (m : MirrorChange) (desired : Mirror.Configuration) (replacement : option Binding)
    (t : TopologySnapshot) (l : list TopologyNode) : string :=
  match l with
  | [] => EmptyString
  | other :: r =>
    let b := n_Binding other in
    if (Table b <>s "Mirror") || bool_decide (b = mi_Object m) || bool_decide (default zero_binding replacement = b)
    then mirror_others_problem m desired replacement t r
    else match mirrorParent t b with
         | None => "MIRROR_PARENT_UNPROVEN"
         | Some parent =>
           if negb (bool_decide (n_Binding parent = mi_Bridge m)) then mirror_others_problem m desired replacement t r
           else match mirrorDecode t other with
                | Err _ => "MIRROR_EXISTING_SESSION_UNQUALIFIED"
                | Ok config =>
                  if selects desired (Mirror.OutputPort config) || selects config (Mirror.OutputPort desired)
                  then "MIRROR_OUTPUT_SELECTION_CONFLICT"
                  else mirror_others_problem m desired replacement t r
                end
         end
  end.
(** go: internal/candidate/mirror.go mirrorTopologyProblem *)
Definition mirrorTopologyProblem (i : StoredIntent) (t : TopologySnapshot) : string :=
  match i_Topology i with
  | None => "MIRROR_SCHEMA_OR_GRAPH_UNSUPPORTED"
  | Some g =>
    match tp_Mirror g with
    | None => "MIRROR_SCHEMA_OR_GRAPH_UNSUPPORTED"
    | Some m =>
      let op := i_Operation i in
      if negb (tt_MirrorSupported t) || (Table (mi_Object m) <>s "Mirror") || (Table (mi_Bridge m) <>s "Bridge")
      then "MIRROR_SCHEMA_OR_GRAPH_UNSUPPORTED"
      else if negb (tp_Compensating g) && negb (tp_Observed g)
              && (tp_MirrorAuthorityRevision g <>s tt_MirrorAuthorityRevision t)
      then "MIRROR_AUTHORITY_REVISION_CHANGED"
      else if (tp_MirrorDependency g =s "") || (tp_MirrorDependency g <>s tunnelDependency g t)
      then "MIRROR_DEPENDENCY_CHANGED"
      else if negb (images_fit op MirrorCreate MirrorConfigure MirrorDelete (mi_Before m) (mi_After m))
              || negb (all_valid Mirror.Validate (mi_Before m) (mi_After m))
      then "INVALID_MIRROR_REQUEST"
      else match (if tp_Compensating g then mi_Before m else mi_After m) with
           | None => EmptyString
           | Some desired =>
             match tt_Nodes t !! ManagementID_ (mi_Bridge m) with
             | None => "MIRROR_BRIDGE_BINDING_CHANGED"
             | Some bridge =>
               if negb (bool_decide (n_Binding bridge = mi_Bridge m)) then "MIRROR_BRIDGE_BINDING_CHANGED"
               else
                 let problem := mirror_ports_problem desired bridge t (Mirror.PortIDs desired) in
                 if problem <>s "" then problem
                 else mirror_others_problem m desired (tp_Replacements g !! OVSUUID (mi_Object m)) t (nodes_of t)
             end
           end
    end
  end.

(** go: internal/candidate/tunnel.go:38-54 tunnelIdentityAvailable *)
Fixpoint identity_free (t : TopologySnapshot) (target : Binding) (typ identity : string) (l : list TopologyNode)
    : result unit :=
  match l with
  | [] => Ok tt
  | n :: r =>
    if (Table (n_Binding n) <>s "Interface") || bool_decide (n_Binding n = target) || (n_Type n <>s typ)
    then identity_free t target typ identity r
    else
      match Tunnel.Decode (n_Type n) (as_map (config_of t (ManagementID_ (n_Binding n)) !! "options")) with
      | Err _ => Err (ENew "TUNNEL_EXISTING_RECEIVE_IDENTITY_UNPROVEN")
      | Ok other =>
        match Tunnel.NativeIdentity other with
        | Err _ => Err (ENew "TUNNEL_RECEIVE_IDENTITY_IN_USE")
        | Ok value => fail_if value =s identity with ENew "TUNNEL_RECEIVE_IDENTITY_IN_USE" ;;
                      identity_free t target typ identity r
        end
      end
  end.
(** go: internal/candidate/tunnel.go tunnelIdentityAvailable *)
Definition tunnelIdentityAvailable (t : TopologySnapshot) (target : Binding) (desired : Tunnel.Configuration) : result unit :=
  let? identity := Tunnel.NativeIdentity desired in
  identity_free t target (Tunnel.Type_ desired) identity (nodes_of t).
(** go: internal/candidate/tunnel.go tunnelTopologyProblem *)
Definition tunnelTopologyProblem (i : StoredIntent) (t : TopologySnapshot) : string :=
  match i_Topology i with
  | None => "INVALID_TUNNEL_REQUEST"
  | Some g =>
    match tp_Tunnel g with
    | None => "INVALID_TUNNEL_REQUEST"
    | Some c =>
      if Table (tu_Interface c) <>s "Interface" then "INVALID_TUNNEL_REQUEST"
      else if (tp_TunnelDependency g =s "") || (tp_TunnelDependency g <>s tunnelDependency g t)
      then "TUNNEL_DEPENDENCY_CHANGED"
      else if negb (images_fit (i_Operation i) TunnelCreate TunnelConfigure TunnelDelete (tu_Before c) (tu_After c))
              || negb (all_valid Tunnel.Validate (tu_Before c) (tu_After c))
      then "INVALID_TUNNEL_REQUEST"
      else
        let '(desired, target) :=
          if tp_Compensating g
          then (tu_Before c, default (tu_Interface c) (tp_Replacements g !! OVSUUID (tu_Interface c)))
          else (tu_After c, tu_Interface c) in
        match desired with
        | None => EmptyString
        | Some desired =>
          if negb (contains (tt_TunnelTypes t) (Tunnel.Type_ desired)) then "TUNNEL_RUNTIME_TYPE_UNAVAILABLE"
          else match tunnelIdentityAvailable t target desired with Ok _ => EmptyString | Err e => error_text e end
        end
    end
  end.

(** ** The images of a graph *)

Definition jstrings (l : list string) : json := JArr (JStr <$> l).
Definition links_json (l : list Binding) : json := jstrings (OVSUUID <$> l).
Definition drop_key (column key : string) (cfg : configuration) : configuration :=
  match as_object (cfg !! column) with Some l => <[column := JObj (without [key] l)]> cfg | None => cfg end.
(** go: internal/candidate/topology.go clearBondFallback *)
Definition clearBondFallback : configuration -> configuration := drop_key "other_config" "lacp-fallback-ab".
(** The settings of a bond are cleared on a standalone Port. *)
Definition clear_bond (cfg : configuration) : configuration :=
  clearBondFallback (<["lacp" := JArr []]> (<["bond_mode" := JArr []]> cfg)).
(** go: internal/candidate/tunnel.go tunnelOptions *)
Definition tunnelOptions (c : Tunnel.Configuration) : json := jmap JStr (Tunnel.Options c).
Definition link_column (table : string) : string := if table =s "Port" then "interfaces" else "ports".
Definition is_nonempty {A} (l : list A) : bool := negb (is_empty l).

(** go: internal/candidate/mirror.go mirrorConfigureImages *)
Definition mirrorConfigureImages (i : StoredIntent) (t : TopologySnapshot) (node : TopologyNode) (cfg : configuration)
    : result configuration :=
  match i_Topology i ≫= tp_Mirror with
  | None => Err (Fail 422 "INVALID_MIRROR_REQUEST")
  | Some m =>
    let? cfg :=
      match mi_After m with
      | Some after =>
        if bool_decide (n_Binding node = mi_Object m)
        then let? fields := Mirror.Fields after (mirrorResolve t false) in Ok (fields ∪ cfg)
        else Ok cfg
      | None => Ok cfg
      end in
    if negb (bool_decide (n_Binding node = mi_Bridge m)) then Ok cfg
    else match as_array (cfg !! "mirrors") with
         | None => Err (Fail 409 "MIRROR_PARENT_UNPROVEN")
         | Some refs =>
           let uuid := OVSUUID (mi_Object m) in
           if i_Operation i =s MirrorCreate then Ok (<["mirrors" := JArr (refs ++ [JStr uuid])]> cfg)
           else if i_Operation i =s MirrorDelete then
             let rest := filter (fun v => is_string uuid v = false) refs in
             fail_if negb (len refs - len rest =? 1) with Fail 409 "MIRROR_PARENT_UNPROVEN" ;;
             Ok (<["mirrors" := JArr rest]> cfg)
           else Ok cfg
         end
  end.

(** The row that stands for a node that the snapshot does not hold.
    go: internal/candidate/topology.go:957-971 TopologyConfigurations *)
Definition new_image (i : StoredIntent) (t : TopologySnapshot) (n : TopologyNode) : configuration :=
  let table := Table (n_Binding n) in
  if (i_Operation i =s "bond.members.set") && (table =s "Port") then
    drop_key "external_ids" BridgeCreationMarker (clear_bond (config_of t (ManagementID_ (i_Object i))))
  else if (table =s "Mirror") && IsMirrorOperation (i_Operation i) then tt_MirrorDefaults t
  else default ∅ (tt_Defaults t !! table).
(** The peer of a patch pair is the other node of the command.
    go: internal/candidate/topology.go:1019-1030 TopologyConfigurations *)
Definition patch_image (i : StoredIntent) (g : TopologyChange) (nodes : list TopologyNode) (n : TopologyNode)
    (cfg : configuration) : configuration :=
  let op := i_Operation i in
  let paired b := bool_decide (b = i_Object i) || bool_decide (tq_Peer (tp_Request g) = Some b) in
  if (Table (n_Binding n) =s "Interface") && ((op =s "interface.patch.connect") || (op =s "interface.patch.disconnect"))
     && paired (n_Binding n) then
    let peers := filter (fun p => (Table (n_Binding p) =s "Interface") && negb (bool_decide (n_Binding p = n_Binding n))
                                  && paired (n_Binding p) = true) nodes in
    let name := match last peers with Some p => n_Name p | None => EmptyString end in
    <["options" := JObj (if op =s "interface.patch.connect" then [("peer", JStr name)] else [])]> cfg
  else cfg.
(** go: internal/candidate/topology.go:998-1018 TopologyConfigurations *)
Definition port_image (i : StoredIntent) (g : TopologyChange) (n : TopologyNode) (cfg : configuration) : configuration :=
  let op := i_Operation i in
  let own := bool_decide (n_Binding n = i_Object i) in
  let links := len (elems (n_Links n)) in
  let cfg := if (op =s "bond.create") && (Table (n_Binding n) =s "Port")
             then <["lacp" := jstrings ["off"]]> (<["bond_mode" := jstrings ["active-backup"]]> cfg) else cfg in
  let cfg := if (op =s "bond.members.set") && own && (1 <? links)
             then match as_array (cfg !! "bond_mode") with
                  | Some [] => <["bond_mode" := jstrings ["active-backup"]]> cfg
                  | _ => cfg
                  end
             else cfg in
  let cfg := if (op =s "bond.members.set") && own && (links =? 1) then clear_bond cfg else cfg in
  if own && ((op =s "interface.ofport.set") || (op =s "interface.ofport.clear")) then
    let ofport := tq_Ofport (tp_Request g) in
    <["ofport_request" := jstrings (if ofport =? 0 then [] else [format_int ofport])]> cfg
  else cfg.
(** go: internal/candidate/topology.go:956-1030 TopologyConfigurations *)
Definition desired_image (i : StoredIntent) (g : TopologyChange) (t : TopologySnapshot) (n : TopologyNode)
    : result configuration :=
  let b := n_Binding n in
  let table := Table b in
  let known := config_of t (ManagementID_ b) in
  let cfg := <["name" := JStr (n_Name n)]> (if bool_decide (known = ∅) then new_image i t n else known) in
  let? cfg :=
    if table =s "Interface" then
      let cfg := <["type" := JStr (n_Type n)]> cfg in
      match tp_Tunnel g with
      | Some c =>
        match tu_After c with
        | Some after =>
          if IsTunnelOperation (i_Operation i) && bool_decide (tu_Interface c = b) then
            fail_if negb (is_ok (Tunnel.Validate after)) || (Tunnel.Type_ after <>s n_Type n)
              with Fail 422 "INVALID_TUNNEL_REQUEST" ;;
            Ok (<["options" := tunnelOptions after]> cfg)
          else Ok cfg
        | None => Ok cfg
        end
      | None => Ok cfg
      end
    else Ok cfg in
  let cfg := if (table =s "Port") || (table =s "Bridge")
             then <[link_column table := links_json (elems (n_Links n))]> cfg else cfg in
  let? cfg := if IsMirrorOperation (i_Operation i) then mirrorConfigureImages i t n cfg else Ok cfg in
  Ok (patch_image i g (elems (tp_After g)) n (port_image i g n cfg)).
(** The row a replacement was made for; its own UUID otherwise. The
    replacements are distinct. *)
Definition original_uuid (replacements : gmap string Binding) (b : Binding) : string :=
  match find (fun kv => bool_decide (snd kv = b)) (map_to_list replacements) with
  | Some (id, _) => id
  | None => OVSUUID b
  end.
Fixpoint images_loop (image : TopologyNode -> result configuration) (nodes : list TopologyNode)
    (out : gmap string configuration) : result (gmap string configuration) :=
  match nodes with
  | [] => Ok out
  | n :: r =>
    let? cfg := image n in
    fail_if bool_decide (cfg = ∅) || (ConfigurationDigest cfg <>s n_Digest n)
      with Fail 409 "TOPOLOGY_PRIVATE_IMAGE_CHANGED" ;;
    images_loop image r (<[OVSUUID (n_Binding n) := cfg]> out)
  end.
(** go: internal/candidate/topology.go TopologyConfigurations *)
Definition TopologyConfigurations (i : StoredIntent) (t : TopologySnapshot) (original : gmap string configuration)
    : result (gmap string configuration) :=
  match i_Topology i with
  | None => Err (Fail 422 "INVALID_TOPOLOGY_INTENT")
  | Some g =>
    if tp_Compensating g then
      images_loop (fun n => Ok (RemapConfiguration
                                  (default ∅ (original !! original_uuid (tp_Replacements g) (n_Binding n)))
                                  (tp_Replacements g)))
        (elems (tp_Restored g)) ∅
    else images_loop (desired_image i g t) (elems (tp_After g)) ∅
  end.

(** ** topology.go: comparison, gates and differences *)

(** go: internal/candidate/topology.go:229-237 topologyProblem *)
Fixpoint present_problem (before : list TopologyNode) (t : TopologySnapshot) : string :=
  match before with
  | [] => EmptyString
  | n :: r =>
    match tt_Nodes t !! ManagementID_ (n_Binding n) with
    | None => "OBJECT_BINDING_CHANGED"
    | Some p =>
      if negb (bool_decide (n_Binding p = n_Binding n)) then "OBJECT_BINDING_CHANGED"
      else if n_Digest p <>s n_Digest n then "TOPOLOGY_CONFIGURATION_CHANGED"
      else present_problem r t
    end
  end.
(** go: internal/candidate/topology.go:246-264 topologyProblem *)
Fixpoint absent_problem (after before : list TopologyNode) (observed : bool) (t : TopologySnapshot) : string :=
  match after with
  | [] => EmptyString
  | n :: r =>
    let b := n_Binding n in
    if bool_decide (b ∈ (n_Binding <$> before)) then absent_problem r before observed t
    else if observed then
      if not_nil (tt_Nodes t !! ManagementID_ b) then "DELETED_OBJECT_STILL_PRESENT" else absent_problem r before observed t
    else if not_nil (tt_Nodes t !! ManagementID_ b) || isset (tt_Retired t) (OVSUUID b) then "CREATION_IDENTITY_CONSUMED"
    else if existsb (fun p => (Table (n_Binding p) =s Table b) && (n_Name p =s n_Name n)) (nodes_of t)
    then "OBJECT_NAME_IN_USE"
    else absent_problem r before observed t
  end.
(** The two sides of the change: what the snapshot must hold now, and what it
    must not hold yet, or any more.
    go: internal/candidate/topology.go:222-228 topologyProblem *)
Definition sides (g : TopologyChange) : list TopologyNode * list TopologyNode :=
  let '(before, after) :=
    if tp_Compensating g then (elems (tp_After g), elems (tp_Restored g)) else (elems (tp_Before g), elems (tp_After g)) in
  if tp_Observed g then (after, before) else (before, after).
(** go: internal/candidate/topology.go topologyProblem *)
Definition topologyProblem (i : StoredIntent) (s : Snapshot) : string :=
  let t := sn_Topology s in
  let op := i_Operation i in
  match i_Topology i with
  | None => "INVALID_TOPOLOGY_INTENT"
  | Some g =>
    if negb (IsTopologyOperation op) || is_empty (elems (tp_Before g)) || (MaxTopologyNodes <? len (elems (tp_Before g)))
       || (MaxTopologyNodes <? len (elems (tp_After g)))
    then "INVALID_TOPOLOGY_INTENT"
    else if i_Schema i <>s sn_Schema s then "SCHEMA_CHANGED"
    else if (Generation (i_Object i) <>s sn_Generation s) || (tp_Root g <>s tt_Root t)
    then "GENERATION_RECONCILIATION_REQUIRED"
    else if negb (tt_Supported t) then "TOPOLOGY_SCHEMA_UNSUPPORTED"
    else
      let mirror := if IsMirrorOperation op then mirrorTopologyProblem i t else EmptyString in
      if mirror <>s "" then mirror
      else if IsTunnelOperation op && (negb (tt_TunnelSupported t) || is_nil (tp_Tunnel g)) then "TUNNEL_SCHEMA_UNSUPPORTED"
      else if IsTunnelOperation op && negb (tp_Compensating g) && negb (tp_Observed g)
              && (tp_TunnelAuthorityRevision g <>s tt_TunnelAuthorityRevision t)
      then "TUNNEL_AUTHORITY_REVISION_CHANGED"
      else
        let tunnel := if IsTunnelOperation op then tunnelTopologyProblem i t else EmptyString in
        if tunnel <>s "" then tunnel
        else if tp_RootDependency g <>s tt_RootDependency t then "TOPOLOGY_ROOT_POLICY_CHANGED"
        else
          let '(before, after) := sides g in
          let problem := present_problem before t in
          let moved kv := negb ((tp_Observed g || tp_Compensating g) && (fst kv =s ManagementID_ (i_Object i)))
                          && (default EmptyString (tt_Allocations t !! fst kv) <>s snd kv) in
          if problem <>s "" then problem
          else if existsb moved (map_to_list (tp_Allocations g)) then "OFPORT_ALLOCATION_CHANGED"
          else absent_problem after before (tp_Observed g) t
  end.

(** The grant that the creation of [b] needs: its bridge and its name.
    go: internal/candidate/topology.go:291-311 topologyChecks *)
Definition granted (i : StoredIntent) (g : TopologyChange) (creates : gmap string bool) (b : Binding) : bool :=
  let after := elems (tp_After g) in
  let holds table child p := (Table (n_Binding p) =s table) && bool_decide (child ∈ elems (n_Links p)) in
  let child := match last (filter (fun p => holds "Port" b p = true) after) with Some p => n_Binding p | None => b end in
  let mirror := match tp_Mirror g with
                | Some m => if IsMirrorOperation (i_Operation i) then ManagementID_ (mi_Bridge m) else EmptyString
                | None => EmptyString
                end in
  let bridge := match last (filter (fun p => holds "Bridge" child p = true) after) with
                | Some p => ManagementID_ (n_Binding p)
                | None => mirror
                end in
  match find (fun n => bool_decide (n_Binding n = b)) after with
  | Some n => isset creates (bridge ++ ":" ++ n_Name n)%string
  | None => false
  end.
(** go: internal/candidate/topology.go topologyChecks *)
Definition topologyChecks (i : StoredIntent) (s : Snapshot) : list Gate :=
  let t := sn_Topology s in
  let op := i_Operation i in
  let problem := topologyProblem i s in
  when (problem <>s "") (gate problem "blocked" (i_ID i))
  ++ match i_Topology i with
     | None => []
     | Some g =>
       let '(authority, creates) :=
         if IsTunnelOperation op then (tt_TunnelAuthority t, tt_TunnelCreates t)
         else if IsMirrorOperation op then (tt_MirrorAuthority t, tt_MirrorCreates t)
         else (tt_Authority t, tt_Creates t) in
       (if negb (tp_Compensating g) && negb (tp_Observed g) then
          when (existsb (fun n => negb (isset authority (ManagementID_ (n_Binding n)))) (elems (tp_Before g)))
            (gate "TOPOLOGY_AUTHORITY_REQUIRED" "blocked" (i_ID i))
          ++ when (existsb (fun b => negb (granted i g creates b)) (TopologyCreations i false))
               (gate "TOPOLOGY_CREATION_GRANT_REQUIRED" "blocked" (i_ID i))
        else [])
       ++ [gate "HIGH_RISK_TOPOLOGY_SAFE_APPLY_REQUIRED" "allowed" (i_ID i);
           gate "MANAGEMENT_PATH_AND_SOLE_UPLINK_REVIEW_REQUIRED" "allowed" (i_ID i)]
     end.
(** go: internal/candidate/topology.go topologyDiff *)
Definition topologyDiff (i : StoredIntent) (s : Snapshot) : Diff :=
  match i_Topology i with
  | None => mkDiff (i_Object i) "native_topology" JNull JNull "" JNull (i_Operation i) (i_ID i) true
  | Some g =>
    let current := omap (fun n => tt_Nodes (sn_Topology s) !! ManagementID_ (n_Binding n)) (elems (tp_Before g)) in
    diff i "native_topology" (jslice node_json (tp_Before g)) (jslice node_json (tp_After g)) (jlist node_json current)
      (topologyProblem i s)
  end.

End Topology.
