(* ===== verification/TopologyStaging.v ===== *)
(** * internal/candidate: staging graph operations

    [stageTopology] (topology.go) and [stageMirror] (mirror.go) build the two
    images of a graph change: they load the nodes they touch, edit a private
    copy of their native configurations, reserve replacements for what is
    deleted, and accept the intent only when its own gates pass.

    The closures of [stageTopology] share mutable maps; [work] is that state,
    and [T] threads it. A problem found by a closure is remembered and reported
    at the end, so the code goes on with zero nodes: an assignment to a
    configuration that was not loaded is a write to a nil map, which panics
    ([Panicked]). [fresh n] is the [n]-th identifier drawn. *)

From S2P Require Import Prelude GoStrings Sha256 GoJson ApiTypes Multicast Mirror Tunnel.
From S2P Require Import CandidateTypes Intents Planning Staging FieldGroups Graphs Topology.
Import Planning Staging FieldGroups Graphs Topology.

Module TopologyStaging.

(** What a call does: it returns, or it panics. *)
Inductive outcome (A : Type) : Type :=
  | Returned (r : result A)
  | Panicked.
Arguments Returned {A} r.
Arguments Panicked {A}.

(** The variables that the closures share.
    go: internal/candidate/topology.go:359-364 stageTopology *)
Record work := mkWork {
  w_Before : gmap string TopologyNode; w_After : gmap string TopologyNode; w_Configs : gmap string configuration;
  w_Problem : string; w_Allocations : gmap string string; w_Drawn : nat }.
Definition no_work : work := mkWork ∅ ∅ ∅ "" ∅ 0.
Definition T (A : Type) : Type := work -> outcome (A * work).
#[global] Instance T_ret : MRet T := fun A a w => Returned (Ok (a, w)).
#[global] Instance T_bind : MBind T := fun A B f m w =>
  match m w with Returned (Ok (a, w)) => f a w | Returned (Err e) => Returned (Err e) | Panicked => Panicked end.
Definition fail {A} (code : string) : T A := fun _ => Returned (Err (Fail 409 code)).
Definition panic {A} : T A := fun _ => Panicked.
Definition refuse (b : bool) (code : string) : T unit := if b then fail code else mret tt.
Definition gets {A} (f : work -> A) : T A := fun w => Returned (Ok (f w, w)).
Definition modify (f : work -> work) : T unit := fun w => Returned (Ok (tt, f w)).
Definition lift {A} (r : result A) : T A :=
  match r with Ok a => mret a | Err e => fail (error_text e) end.

Definition set_after (f : gmap string TopologyNode -> gmap string TopologyNode) : T unit :=
  modify (fun w => mkWork (w_Before w) (f (w_After w)) (w_Configs w) (w_Problem w) (w_Allocations w) (w_Drawn w)).
Definition set_configs (f : gmap string configuration -> gmap string configuration) : T unit :=
  modify (fun w => mkWork (w_Before w) (w_After w) (f (w_Configs w)) (w_Problem w) (w_Allocations w) (w_Drawn w)).
Definition problem_is (code : string) : T unit :=
  modify (fun w => mkWork (w_Before w) (w_After w) (w_Configs w) code (w_Allocations w) (w_Drawn w)).
Definition problem_if (b : bool) (code : string) : T unit := if b then problem_is code else mret tt.
Definition allocate (id a : string) : T unit :=
  modify (fun w => mkWork (w_Before w) (w_After w) (w_Configs w) (w_Problem w) (<[id := a]> (w_Allocations w)) (w_Drawn w)).
(** [configs[id]]: nil when absent. *)
Definition config (id : string) : T configuration := gets (fun w => default ∅ (w_Configs w !! id)).
(** A write to [configs[id]] panics when the map is nil. *)
Definition edit (id : string) (f : configuration -> configuration) : T unit :=
  c ← gets (fun w => w_Configs w !! id);
  match c with Some cfg => set_configs <[id := f cfg]> | None => panic end.
Definition assign (id column : string) (v : json) : T unit := edit id <[column := v]>.
Fixpoint each {A} (f : A -> T unit) (l : list A) : T unit :=
  match l with [] => mret tt | x :: r => f x ≫= fun _ => each f r end.

Definition zero_node : TopologyNode := mkNode None zero_binding "" "" None "".
Definition node_id (n : TopologyNode) : string := ManagementID_ (n_Binding n).
Definition node_links (n : TopologyNode) : list Binding := elems (n_Links n).
Definition with_links (n : TopologyNode) (links : list Binding) : TopologyNode :=
  mkNode (n_Summary n) (n_Binding n) (n_Name n) (n_Type n) (Some links) (n_Digest n).
Definition with_type (n : TopologyNode) (typ : string) : TopologyNode :=
  mkNode (n_Summary n) (n_Binding n) (n_Name n) typ (n_Links n) (n_Digest n).

Section Closures.
Context (fresh : nat -> string) (s : Snapshot).
Let t : TopologySnapshot := sn_Topology s.

Definition draw : T string := fun w =>
  Returned (Ok (fresh (w_Drawn w),
                mkWork (w_Before w) (w_After w) (w_Configs w) (w_Problem w) (w_Allocations w) (S (w_Drawn w)))).
(** go: internal/candidate/topology.go:428 stageTopology *)
Definition new_binding (table : string) : T Binding :=
  id ← draw; uuid ← draw; mret (mkBinding id uuid table (sn_Generation s)).

(** go: internal/candidate/topology.go:365-375 stageTopology *)
Definition load (b : Binding) : T TopologyNode :=
  let id := ManagementID_ b in
  match tt_Nodes t !! id with
  | Some p =>
    if bool_decide (n_Binding p = b) then
      modify (fun w => mkWork (<[id := p]> (w_Before w)) (<[id := p]> (w_After w))
                         (<[id := config_of t id]> (w_Configs w)) (w_Problem w) (w_Allocations w) (w_Drawn w))
      ≫= fun _ => mret p
    else problem_is "OBJECT_BINDING_CHANGED" ≫= fun _ => mret zero_node
  | None => problem_is "OBJECT_BINDING_CHANGED" ≫= fun _ => mret zero_node
  end.
(** go: internal/candidate/topology.go:377-389 stageTopology *)
Definition parent (child : Binding) (table : string) : T TopologyNode :=
  match filter (fun p => (Table (n_Binding p) =s table) && bool_decide (child ∈ node_links p) = true) (nodes_of t) with
  | [p] => load (n_Binding p)
  | _ => problem_is "TOPOLOGY_PARENT_UNPROVEN" ≫= fun _ => mret zero_node
  end.
Definition is_false (j : option json) : bool := match j with Some (JBool false) => true | _ => false end.
(** go: internal/candidate/topology.go:390-399 stageTopology *)
Definition checkBridge (p : TopologyNode) : T unit :=
  let v := config_of t (node_id p) in
  if (Table (n_Binding p) <>s "Bridge") || ((n_Type p <>s "") && (n_Type p <>s "system"))
     || negb (is_false (v !! "stp_enable")) || negb (is_false (v !! "rstp_enable"))
  then problem_is "TOPOLOGY_BRIDGE_POLICY_UNSUPPORTED"
  else match as_array (v !! "controller") with
       | Some [] => mret tt
       | _ => problem_is "EXTERNALLY_CONTROLLED"
       end.
(** go: internal/candidate/topology.go:400-410 stageTopology *)
Definition portBridge (p : TopologyNode) : T TopologyNode :=
  b ← parent (n_Binding p) "Bridge";
  _ ← checkBridge b;
  _ ← problem_if (n_Name p =s n_Name b) "LOCAL_INTERNAL_PORT_PROTECTED";
  _ ← each (fun f => load f ≫= fun _ => mret tt) (node_links p);
  mret b.
(** go: internal/candidate/topology.go:411-423 stageTopology *)
Definition setLinks (p : TopologyNode) (links : list Binding) : T unit :=
  _ ← set_after <[node_id p := with_links p links]>;
  assign (node_id p) (if Table (n_Binding p) =s "Bridge" then "ports" else "interfaces") (links_json links).
(** go: internal/candidate/topology.go:424-426 stageTopology *)
Definition removeLink (p : TopologyNode) (b : Binding) : T unit :=
  setLinks p (filter (fun v => v <> b) (node_links p)).
(** go: internal/candidate/topology.go:427-443 stageTopology *)
Definition add (table name typ : string) (links : list Binding) : T TopologyNode :=
  b ← new_binding table;
  let p := mkNode None b name typ (Some links) "" in
  let cfg := default ∅ (tt_Defaults t !! table) in
  _ ← problem_if (bool_decide (cfg = ∅)) "TOPOLOGY_SCHEMA_UNSUPPORTED";
  _ ← set_configs <[ManagementID_ b := <["name" := JStr name]> cfg]>;
  _ ← set_after <[ManagementID_ b := p]>;
  _ ← (if table =s "Interface" then assign (ManagementID_ b) "type" (JStr typ) else setLinks p links);
  mret p.
(** go: internal/candidate/topology.go:444 stageTopology *)
Definition remove (p : TopologyNode) : T unit := set_after (delete (node_id p)).
Definition name_taken (name : string) : bool := existsb (fun p => n_Name p =s name) (nodes_of t).

(** ** The operations *)

(** go: internal/candidate/topology.go:454-476 stageTopology *)
Definition tunnel_create (n : TopologyNode) (r : TopologyRequest) : T (option TunnelChange) :=
  match tq_Tunnel r with
  | None => fail "INVALID_TUNNEL_CREATION"
  | Some request =>
    _ ← refuse ((Table (n_Binding n) <>s "Bridge") || negb (ValidBridgeName (tq_Name r))) "INVALID_TUNNEL_CREATION";
    _ ← checkBridge n;
    _ ← refuse (name_taken (tq_Name r)) "OBJECT_NAME_IN_USE";
    value ← lift (Tunnel.Merge (Tunnel.mkConfiguration "" ∅) request);
    _ ← refuse (negb (contains (tt_TunnelTypes t) (Tunnel.Type_ value))) "TUNNEL_RUNTIME_TYPE_UNAVAILABLE";
    iface ← add "Interface" (tq_Name r) (Tunnel.Type_ value) [];
    _ ← assign (node_id iface) "options" (tunnelOptions value);
    p ← add "Port" (tq_Name r) "" [n_Binding iface];
    _ ← setLinks n (node_links n ++ [n_Binding p]);
    _ ← lift (tunnelIdentityAvailable t (n_Binding iface) value);
    mret (Some (mkTunnelChange (n_Binding iface) None (Some value)))
  end.
(** go: internal/candidate/topology.go:477-511 stageTopology *)
Definition tunnel_change (configure : bool) (n : TopologyNode) (r : TopologyRequest) : T (option TunnelChange) :=
  match node_links n with
  | [child] =>
    _ ← refuse ((Table (n_Binding n) <>s "Port") || (if configure then is_nil (tq_Tunnel r) else not_nil (tq_Tunnel r)))
          "INVALID_TUNNEL_REQUEST";
    bridge ← portBridge n;
    iface ← load child;
    cfg ← config (node_id iface);
    value ← lift (Tunnel.Decode (n_Type iface) (as_map (cfg !! "options")));
    match tq_Tunnel r with
    | None =>
      _ ← removeLink bridge (n_Binding n);
      _ ← remove n;
      _ ← remove iface;
      mret (Some (mkTunnelChange (n_Binding iface) (Some value) None))
    | Some request =>
      after ← lift (Tunnel.Merge value request);
      _ ← refuse (negb (contains (tt_TunnelTypes t) (Tunnel.Type_ after))) "TUNNEL_RUNTIME_TYPE_UNAVAILABLE";
      _ ← set_after <[node_id iface := with_type iface (Tunnel.Type_ after)]>;
      _ ← assign (node_id iface) "type" (JStr (Tunnel.Type_ after));
      _ ← assign (node_id iface) "options" (tunnelOptions after);
      _ ← lift (tunnelIdentityAvailable t (n_Binding iface) after);
      mret (Some (mkTunnelChange (n_Binding iface) (Some value) (Some after)))
    end
  | _ => fail "INVALID_TUNNEL_REQUEST"
  end.

(** The new interfaces of a Port.
    go: internal/candidate/topology.go:535-548 stageTopology *)
Fixpoint add_members (names seen : list string) (typ : string) : T (list Binding) :=
  match names with
  | [] => mret []
  | name :: r =>
    _ ← refuse (negb (ValidBridgeName name) || contains seen name) "INVALID_INTERFACE_NAME";
    _ ← refuse (name_taken name) "OBJECT_NAME_IN_USE";
    p ← add "Interface" name typ [];
    rest ← add_members r (name :: seen) typ;
    mret (n_Binding p :: rest)
  end.
(** go: internal/candidate/topology.go:512-554 stageTopology *)
Definition port_create (bond : bool) (n : TopologyNode) (r : TopologyRequest) : T unit :=
  _ ← refuse ((Table (n_Binding n) <>s "Bridge") || negb (ValidBridgeName (tq_Name r))
              || negb (contains ["internal"; "system"] (tq_NativeType r))) "INVALID_PORT_CREATION";
  _ ← checkBridge n;
  _ ← refuse (name_taken (tq_Name r)) "OBJECT_NAME_IN_USE";
  _ ← refuse (negb bond && negb (is_empty (tq_InterfaceNames r))
              && negb (bool_decide (tq_InterfaceNames r = [tq_Name r]))) "INVALID_PORT_CREATION";
  let names := if bond then tq_InterfaceNames r else [tq_Name r] in
  _ ← refuse ((len names <? 1) || (8 <? len names) || (bond && ((tq_NativeType r <>s "system") || (len names <? 2))))
        "INVALID_BOND_MEMBERS";
  members ← add_members names [] (tq_NativeType r);
  p ← add "Port" (tq_Name r) "" members;
  _ ← (if bond then edit (node_id p) (fun c => <["lacp" := jstrings ["off"]]> (<["bond_mode" := jstrings ["active-backup"]]> c))
       else mret tt);
  setLinks n (node_links n ++ [n_Binding p]).
(** go: internal/candidate/topology.go:555-564 stageTopology *)
Definition port_delete (n : TopologyNode) : T unit :=
  _ ← refuse (Table (n_Binding n) <>s "Port") "INVALID_PORT_DELETION";
  b ← portBridge n;
  _ ← removeLink b (n_Binding n);
  _ ← remove n;
  each (fun f => load f ≫= remove) (node_links n).
(** go: internal/candidate/topology.go:565-577 stageTopology *)
Definition bridge_delete_tree (n : TopologyNode) : T unit :=
  _ ← refuse (Table (n_Binding n) <>s "Bridge") "INVALID_BRIDGE_DELETION";
  _ ← checkBridge n;
  _ ← remove n;
  each (fun b => p ← load b; _ ← remove p; each (fun f => load f ≫= remove) (node_links p)) (node_links n).
(** go: internal/candidate/topology.go:578-590 stageTopology *)
Definition port_move (n : TopologyNode) (r : TopologyRequest) : T unit :=
  match tq_Destination r with
  | None => fail "INVALID_PORT_MOVE"
  | Some destination =>
    _ ← refuse (Table (n_Binding n) <>s "Port") "INVALID_PORT_MOVE";
    from ← portBridge n;
    to_ ← load destination;
    _ ← checkBridge to_;
    _ ← refuse (bool_decide (n_Binding from = n_Binding to_)) "PORT_ALREADY_ATTACHED";
    _ ← removeLink from (n_Binding n);
    setLinks to_ (node_links to_ ++ [n_Binding n])
  end.

Definition vlan_columns : list string := ["vlan_mode"; "tag"; "trunks"; "cvlans"].
Definition column_digest (id column : string) : string := digest_json (default JNull (config_of t id !! column)).
(** The source ports that give their interface up; what is available grows.
    go: internal/candidate/topology.go:602-621 stageTopology *)
Fixpoint bond_sources (n bridge : TopologyNode) (l : list Binding) (available : gmap string Binding)
    : T (gmap string Binding) :=
  match l with
  | [] => mret available
  | src :: r =>
    known ← gets (fun w => not_nil (w_Before w !! ManagementID_ src));
    _ ← refuse known "DUPLICATE_BOND_SOURCE";
    _ ← refuse (bool_decide (src = n_Binding n)) "INVALID_BOND_SOURCE";
    p ← load src;
    match node_links p with
    | [child] =>
      _ ← refuse (Table (n_Binding p) <>s "Port") "BOND_SOURCE_REQUIRES_STANDALONE_SAME_BRIDGE_PORT";
      b ← portBridge p;
      _ ← refuse (negb (bool_decide (n_Binding b = n_Binding bridge))) "BOND_SOURCE_REQUIRES_STANDALONE_SAME_BRIDGE_PORT";
      _ ← refuse (existsb (fun col => column_digest (ManagementID_ src) col <>s column_digest (node_id n) col) vlan_columns)
            "BOND_SOURCE_VLAN_MISMATCH";
      _ ← remove p;
      bond_sources n bridge r (<[ManagementID_ child := child]> available)
    | _ => fail "BOND_SOURCE_REQUIRES_STANDALONE_SAME_BRIDGE_PORT"
    end
  end.
(** The members of the bond; their identities are seen.
    go: internal/candidate/topology.go:622-631 stageTopology *)
Fixpoint bond_members (l : list Binding) (available : gmap string Binding) (seen : list string) : T (list string) :=
  match l with
  | [] => mret seen
  | b :: r =>
    let id := ManagementID_ b in
    _ ← refuse (contains seen id || negb (bool_decide (default zero_binding (available !! id) = b)))
          "BOND_MEMBER_SOURCE_REQUIRED";
    f ← load b;
    _ ← refuse ((n_Type f <>s "") && (n_Type f <>s "system")) "BOND_MEMBER_TYPE_UNSUPPORTED";
    bond_members r available (id :: seen)
  end.
(** A member that leaves becomes a standalone Port with the VLAN of the bond.
    go: internal/candidate/topology.go:644-660 stageTopology *)
Fixpoint split_members (n : TopologyNode) (l : list Binding) (seen : list string) : T (list Binding) :=
  match l with
  | [] => mret []
  | b :: r =>
    if contains seen (ManagementID_ b) then split_members n r seen
    else
      f ← load b;
      p ← add "Port" (n_Name f) "" [b];
      let cfg := clear_bond (<["interfaces" := links_json [b]]> (<["name" := JStr (n_Name f)]> (config_of t (node_id n)))) in
      _ ← (match as_object (cfg !! "external_ids") with
           | Some _ => set_configs <[node_id p := drop_key "external_ids" BridgeCreationMarker cfg]>
           | None => panic
           end);
      rest ← split_members n r seen;
      mret (n_Binding p :: rest)
  end.
(** go: internal/candidate/topology.go:591-674 stageTopology *)
Definition bond_members_set (n : TopologyNode) (r : TopologyRequest) : T unit :=
  let members := tq_Members r in
  _ ← refuse ((Table (n_Binding n) <>s "Port") || (len members <? 1) || (8 <? len members) || (8 <? len (tq_Sources r)))
        "INVALID_BOND_MEMBERS";
  bridge ← portBridge n;
  available ← bond_sources n bridge (tq_Sources r) (list_to_map ((fun b => (ManagementID_ b, b)) <$> node_links n));
  seen ← bond_members members available [];
  _ ← each (fun src => match node_links (default zero_node (tt_Nodes t !! ManagementID_ src)) with
                       | f :: _ => refuse (negb (contains seen (ManagementID_ f))) "BOND_SOURCE_NOT_SELECTED"
                       | [] => panic
                       end) (tq_Sources r);
  added ← split_members n (node_links n) seen;
  _ ← setLinks bridge (filter (fun b => b ∉ tq_Sources r) (node_links bridge) ++ added);
  _ ← setLinks n members;
  if len members =? 1 then edit (node_id n) clear_bond
  else
    cfg ← config (node_id n);
    match as_array (cfg !! "bond_mode") with
    | None => panic
    | Some [] => assign (node_id n) "bond_mode" (jstrings ["active-backup"])
    | Some _ => mret tt
    end.

(** Every interface of the bridge has a known allocation, and none has the
    requested one.
    go: internal/candidate/topology.go:682-695 stageTopology *)
Definition ofport_allocations (n b : TopologyNode) (ofport : Z) : T unit :=
  each (fun pb =>
    port ← load pb;
    each (fun fb =>
      _ ← load fb;
      match tt_Allocations t !! ManagementID_ fb with
      | Some a =>
        _ ← refuse (a =s "") "OFPORT_ALLOCATION_UNPROVEN";
        _ ← allocate (ManagementID_ fb) a;
        refuse (negb (bool_decide (fb = n_Binding n)) && negb (ofport =? 0) && (a =s format_int ofport))
          "OFPORT_ALLOCATION_IN_USE"
      | None => fail "OFPORT_ALLOCATION_UNPROVEN"
      end) (node_links port)) (node_links b).
(** go: internal/candidate/topology.go:675-713 stageTopology *)
Definition ofport_set (set : bool) (n : TopologyNode) (r : TopologyRequest) : T unit :=
  let ofport := tq_Ofport r in
  _ ← refuse ((Table (n_Binding n) <>s "Interface") || (if set then (ofport <? 1) || (65279 <? ofport) else negb (ofport =? 0)))
        "INVALID_OFPORT_REQUEST";
  p ← parent (n_Binding n) "Port";
  b ← portBridge p;
  _ ← ofport_allocations n b ofport;
  let wanted := jstrings [format_int ofport] in
  let others := filter (fun f => f <> n_Binding n)
                  (node_links b ≫= fun port => node_links (default zero_node (tt_Nodes t !! ManagementID_ port))) in
  _ ← refuse (negb (ofport =? 0)
              && existsb (fun f => column_digest (ManagementID_ f) "ofport_request" =s digest_json wanted) others)
        "OFPORT_REQUEST_IN_USE";
  assign (node_id n) "ofport_request" (if ofport =? 0 then JArr [] else wanted).

(** go: internal/candidate/topology.go:720-738 stageTopology *)
Definition patch_end (connect : bool) (f : TopologyNode) : T unit :=
  p ← parent (n_Binding f) "Port";
  _ ← portBridge p;
  cfg ← config (node_id f);
  let options := len (default [] (as_object (cfg !! "options"))) in
  _ ← refuse (negb (len (node_links p) =? 1)
              || (if connect then (n_Type f <>s "internal") || negb (options =? 0)
                  else (n_Type f <>s "patch") || negb (options =? 1))) "PATCH_TYPE_TRANSITION_UNSUPPORTED";
  _ ← refuse (existsb (fun col => match as_array (cfg !! col) with Some [] => false | _ => true end)
                ["mtu_request"; "ofport_request"]) "PATCH_CONFIGURATION_DEPENDENCY";
  refuse (existsb (fun col => match cfg !! col with Some v => negb (is_string "0" v) | None => true end)
            ["ingress_policing_rate"; "ingress_policing_burst"; "ingress_policing_kpkts_rate";
             "ingress_policing_kpkts_burst"]) "PATCH_CONFIGURATION_DEPENDENCY".
Definition peer_name (cfg : configuration) : json := default JNull (as_map (cfg !! "options") ≫= (.!! "peer")).
(** go: internal/candidate/topology.go:742-753 stageTopology *)
Definition patch_write (connect : bool) (f peer : TopologyNode) : T unit :=
  let typ := if connect then "patch" else "internal" in
  _ ← assign (node_id f) "options" (JObj (if connect then [("peer", JStr (n_Name peer))] else []));
  _ ← assign (node_id f) "type" (JStr typ);
  set_after <[node_id f := with_type f typ]>.
(** go: internal/candidate/topology.go:714-753 stageTopology *)
Definition patch (connect : bool) (n : TopologyNode) (r : TopologyRequest) : T unit :=
  match tq_Peer r with
  | None => fail "INVALID_PATCH_PAIR"
  | Some b =>
    _ ← refuse ((Table (n_Binding n) <>s "Interface") || bool_decide (b = n_Binding n)) "INVALID_PATCH_PAIR";
    peer ← load b;
    _ ← each (patch_end connect) [n; peer];
    mine ← config (node_id n);
    theirs ← config (node_id peer);
    _ ← refuse (negb connect && (negb (is_string (n_Name peer) (peer_name mine)) || negb (is_string (n_Name n) (peer_name theirs))))
          "PATCH_PEER_NOT_RECIPROCAL";
    _ ← patch_write connect n peer;
    patch_write connect peer n
  end.

(** go: internal/candidate/topology.go:447-756 stageTopology *)
Definition operate (op : string) (n : TopologyNode) (r : TopologyRequest) : T (option TunnelChange) :=
  let plain (m : T unit) : T (option TunnelChange) := m ≫= fun _ => mret None in
  if IsTunnelOperation op then
    _ ← refuse (negb (tt_TunnelSupported t) || negb (tt_Supported t)) "TUNNEL_SCHEMA_UNSUPPORTED";
    if op =s TunnelCreate then tunnel_create n r else tunnel_change (op =s TunnelConfigure) n r
  else if op =s "port.create" then plain (port_create false n r)
  else if op =s "bond.create" then plain (port_create true n r)
  else if op =s "port.delete" then plain (port_delete n)
  else if op =s "bridge.delete-tree" then plain (bridge_delete_tree n)
  else if op =s "port.move" then plain (port_move n r)
  else if op =s "bond.members.set" then plain (bond_members_set n r)
  else if op =s "interface.ofport.set" then plain (ofport_set true n r)
  else if op =s "interface.ofport.clear" then plain (ofport_set false n r)
  else if op =s "interface.patch.connect" then plain (patch true n r)
  else if op =s "interface.patch.disconnect" then plain (patch false n r)
  else fail "UNSUPPORTED_CONFIGURATION".

(** The request without the properties that the operation takes.
    go: internal/candidate/topology.go:446-756 stageTopology *)
Definition clean (op : string) (r : TopologyRequest) : TopologyRequest :=
  let create := (op =s "port.create") || (op =s "bond.create") in
  let members := op =s "bond.members.set" in
  mkTopologyRequest (tq_Mirror r)
    (if IsTunnelOperation op then None else tq_Tunnel r)
    (if create || (op =s TunnelCreate) then EmptyString else tq_Name r)
    (if create then EmptyString else tq_NativeType r)
    (if create then [] else tq_InterfaceNames r)
    (if members then [] else tq_Sources r)
    (if op =s "port.move" then None else tq_Destination r)
    (if members then [] else tq_Members r)
    (if (op =s "interface.patch.connect") || (op =s "interface.patch.disconnect") then None else tq_Peer r)
    (if (op =s "interface.ofport.set") || (op =s "interface.ofport.clear") then 0 else tq_Ofport r).
Definition request_digest (r : TopologyRequest) : string := digest_json (topology_request_json r).
Definition zero_request : TopologyRequest := mkTopologyRequest None None "" "" [] [] None [] None 0.

(** ** The two images *)

Definition optional (v : option json) : option string := match as_array v with Some [JStr s] => Some s | _ => None end.
(** The bond that a Port with several interfaces becomes.
    go: internal/candidate/topology.go:776-815 stageTopology *)
Definition bond_image (p : TopologyNode) (after : gmap string TopologyNode) (configs : gmap string configuration)
    : result unit :=
  let cfg := default ∅ (configs !! node_id p) in
  let other := as_map (cfg !! "other_config") ≫= (.!! "lacp-fallback-ab") in
  let? fallback :=
    match other with
    | None => Ok None
    | Some (JStr f) => Ok (Some f)
    | Some _ => Err (ENew "NATIVE_BOND_SEMANTICS_UNPROVEN")
    end in
  let bond := mkBond (optional (cfg !! "lacp")) (optional (cfg !! "bond_mode")) fallback in
  fail_if negb (bondNativeKnown (Some bond)) with ENew "NATIVE_BOND_SEMANTICS_UNPROVEN" ;;
  let '(lacp, mode, fallback) := bondModes bond in
  fail_if ((mode =s "balance-tcp") && (lacp =s "off")) || (fallback && (lacp =s "off"))
    with ENew "LACP_COMPATIBILITY_REQUIRED" ;;
  let floods b := (Table (n_Binding b) =s "Bridge") && bool_decide (n_Binding p ∈ node_links b)
                  && match as_array (default ∅ (configs !! node_id b) !! "flood_vlans") with Some [] => false | _ => true end in
  fail_if (mode =s "balance-slb") && existsb floods (snd <$> map_to_list after) with ENew "SLB_FLOOD_VLANS_INCOMPATIBLE" ;;
  Ok tt.
Fixpoint bond_images (l : list TopologyNode) (after : gmap string TopologyNode) (configs : gmap string configuration)
    : result unit :=
  match l with
  | [] => Ok tt
  | p :: r =>
    let? _ := if (Table (n_Binding p) =s "Port") && (1 <? len (node_links p)) then bond_image p after configs else Ok tt in
    bond_images r after configs
  end.
(** go: internal/candidate/topology.go:816-818 stageTopology *)
Definition after_node (configs : gmap string configuration) (id : string) (p : TopologyNode) : TopologyNode :=
  let cfg := default ∅ (configs !! id) in
  mkNode (TopologySummary (Table (n_Binding p)) cfg) (n_Binding p) (n_Name p) (n_Type p) (n_Links p) (ConfigurationDigest cfg).
(** Replacements for what is deleted, drawn in map order.
    go: internal/candidate/topology.go:839-843 stageTopology *)
Fixpoint reserve (l : list (string * TopologyNode)) (after : gmap string TopologyNode) : T (gmap string Binding) :=
  match l with
  | [] => mret ∅
  | (id, p) :: r =>
    if not_nil (after !! id) then reserve r after
    else
      b ← new_binding (Table (n_Binding p));
      rest ← reserve r after;
      mret (<[OVSUUID (n_Binding p) := b]> rest)
  end.
(** A node as the compensation restores it.
    go: internal/candidate/topology.go:844-858 stageTopology *)
Definition restored_node (replacements : gmap string Binding) (id : string) (p : TopologyNode) : TopologyNode :=
  let replaced b := default b (replacements !! OVSUUID b) in
  mkNode (n_Summary p) (replaced (n_Binding p)) (n_Name p) (n_Type p) (Some (replaced <$> node_links p))
    (ConfigurationDigest (RemapConfiguration (config_of t id) replacements)).
Fixpoint index_of (l : list TopologyNode) (name table : string) : nat :=
  match l with
  | [] => 0
  | n :: r => if (n_Name n =s name) && (Table (n_Binding n) =s table) then 0 else S (index_of r name table)
  end.
(** In the order of the nodes they restore.
    go: internal/candidate/topology.go:859-861 stageTopology *)
Definition sort_restored (before : list TopologyNode) (l : list TopologyNode) : list TopologyNode :=
  merge_sort (fun a b => Is_true (Nat.leb (index_of before (n_Name a) (Table (n_Binding a)))
                                    (index_of before (n_Name b) (Table (n_Binding b))))) l.

(** The identities of the two images together.
    go: internal/candidate/topology.go:763-774 stageTopology *)
Definition over_budget (w : work) : bool :=
  (MaxTopologyNodes <? msize (w_Before w)) || (MaxTopologyNodes <? msize (w_After w)) || negb (tt_Capacity t)
  || (MaxTopologyNodes <? msize (w_Before w ∪ w_After w)).
Definition topology_intent (in_ : Intent) (g : TopologyChange) : StoredIntent :=
  set_Topology (group_intent in_ (sn_Schema s) (tt_RootDependency t)) (Some g).
Definition first_refusal (l : list Gate) : option Gate := find (fun g => negb (g_State g =s "allowed")) l.

(** go: internal/candidate/topology.go:355-875 stageTopology *)
Definition topology_change (in_ : Intent) (r : TopologyRequest) (n : TopologyNode) : T StoredIntent :=
  let op := in_Operation in_ in
  _ ← load (in_Object in_);
  tunnel ← operate op n r;
  _ ← refuse (request_digest (clean op r) <>s request_digest zero_request) "INVALID_TOPOLOGY_PROPERTIES";
  problem ← gets w_Problem;
  _ ← refuse (problem <>s "") problem;
  w ← gets id;
  _ ← refuse (over_budget w) "TOPOLOGY_BUDGET_EXCEEDED";
  _ ← lift (bond_images (snd <$> map_to_list (w_After w)) (w_After w) (w_Configs w));
  let after := map_imap (fun id p => Some (after_node (w_Configs w) id p)) (w_After w) in
  let before := topologyNodes (w_Before w) in
  replacements ← reserve (map_to_list (w_Before w)) after;
  let restored := sort_restored before ((fun kv => restored_node replacements (fst kv) (snd kv)) <$> map_to_list (w_Before w)) in
  let g := mkTopologyChange None "" "" tunnel (if not_nil tunnel then tt_TunnelAuthorityRevision t else EmptyString) ""
             (w_Allocations w) r (tt_Root t) (tt_RootDependency t) (Some before) (Some (topologyNodes after)) replacements
             (if is_empty restored then None else Some restored) false false in
  let g := if IsTunnelOperation op
           then mkTopologyChange None "" "" tunnel (tp_TunnelAuthorityRevision g) (tunnelDependency g t) (w_Allocations w) r
                  (tt_Root t) (tt_RootDependency t) (tp_Before g) (tp_After g) replacements (tp_Restored g) false false
           else g in
  let i := topology_intent in_ g in
  _ ← match first_refusal (topologyChecks i s) with Some g => fail (g_Code g) | None => mret tt end;
  mret i.

End Closures.

Definition staged (c : Candidate) (s : Snapshot) (m : T StoredIntent) : outcome Candidate :=
  match m no_work with
  | Returned (Ok (i, _)) => Returned (Ok (stage_group c i s))
  | Returned (Err e) => Returned (Err e)
  | Panicked => Panicked
  end.
Definition refused {A} (code : string) : outcome A := Returned (Err (Fail 409 code)).
(** The fields of the intent that only other operations take are absent.
    go: internal/candidate/topology.go:341 stageTopology *)
Definition only_topology (in_ : Intent) : bool :=
  is_nil (in_Multicast in_) && is_nil (in_Protected in_) && is_nil (in_SpanningTree in_) && is_nil (in_Policing in_)
  && (in_MTURequest in_ =? 0) && no_values_requested in_.

(** ** mirror.go *)

Section Mirrors.
Context (fresh : nat -> string) (s : Snapshot).
Let t : TopologySnapshot := sn_Topology s.

(** go: internal/candidate/mirror.go:192-195 stageMirror *)
Definition load_node (n : TopologyNode) : T unit :=
  modify (fun w => mkWork (<[node_id n := n]> (w_Before w)) (<[node_id n := n]> (w_After w))
                     (<[node_id n := config_of t (node_id n)]> (w_Configs w)) (w_Problem w) (w_Allocations w) (w_Drawn w)).
(** A port that a mirror selects, with its only interface.
    go: internal/candidate/mirror.go:256-267 stageMirror *)
Definition load_port (bridge : TopologyNode) (id : string) : T unit :=
  match tt_Nodes t !! id with
  | None => fail "MIRROR_PORT_ON_OTHER_BRIDGE"
  | Some port =>
    match node_links port with
    | [child] =>
      _ ← refuse ((Table (n_Binding port) <>s "Port") || negb (bool_decide (n_Binding port ∈ node_links bridge)))
            "MIRROR_PORT_ON_OTHER_BRIDGE";
      match tt_Nodes t !! ManagementID_ child with
      | None => fail "MIRROR_PORT_BINDING_UNPROVEN"
      | Some iface =>
        _ ← refuse (negb (bool_decide (n_Binding iface = child)) || (Table (n_Binding iface) <>s "Interface"))
              "MIRROR_PORT_BINDING_UNPROVEN";
        _ ← load_node port;
        load_node iface
      end
    | _ => fail "MIRROR_PORT_ON_OTHER_BRIDGE"
    end
  end.
(** go: internal/candidate/mirror.go:246-268 stageMirror *)
Definition load_selection (bridge : TopologyNode) (value : option Mirror.Configuration) : T unit :=
  match value with
  | None => mret tt
  | Some c =>
    each (load_port bridge)
      (Mirror.PortIDs c ++ (if Mirror.SelectAll c || not_nil (Mirror.OutputVLAN c)
                            then ManagementID_ <$> node_links bridge else []))
  end.
(** The session, its bridge and its current configuration.
    go: internal/candidate/mirror.go:196-231 stageMirror *)
Definition mirror_object (in_ : Intent) (r : TopologyRequest) (object : TopologyNode)
    : T (TopologyNode * TopologyNode * option Mirror.Configuration) :=
  if in_Operation in_ =s MirrorCreate then
    _ ← refuse ((Table (n_Binding object) <>s "Bridge") || negb (Mirror.ValidName (tq_Name r)) || is_nil (tq_Mirror r)
                || bool_decide (tt_MirrorDefaults t = ∅)) "INVALID_MIRROR_REQUEST";
    _ ← refuse (match as_array (config_of t (node_id object) !! "mirrors") with Some refs => 32 <=? len refs | None => true end)
          "MIRROR_NATIVE_SESSION_CAPACITY";
    _ ← refuse (existsb (fun n => (Table (n_Binding n) =s "Mirror") && (n_Name n =s tq_Name r)) (nodes_of t))
          "OBJECT_NAME_IN_USE";
    b ← new_binding fresh s "Mirror";
    let session := mkNode None b (tq_Name r) "mirror" (Some []) "" in
    _ ← set_configs <[ManagementID_ b := <["name" := JStr (tq_Name r)]> (tt_MirrorDefaults t)]>;
    _ ← set_after <[ManagementID_ b := session]>;
    mret (session, object, None)
  else
    _ ← refuse ((Table (n_Binding object) <>s "Mirror") || (tq_Name r <>s "")) "INVALID_MIRROR_REQUEST";
    match mirrorParent t (n_Binding object) with
    | None => fail "MIRROR_PARENT_UNPROVEN"
    | Some bridge =>
      value ← lift (mirrorDecode t object);
      _ ← load_node object;
      mret (object, bridge, Some value)
    end.
(** The desired session.
    go: internal/candidate/mirror.go:234-245 stageMirror *)
Definition mirror_target (in_ : Intent) (r : TopologyRequest) (session : TopologyNode) : T (option Mirror.Configuration) :=
  if in_Operation in_ =s MirrorDelete then
    _ ← refuse (not_nil (tq_Mirror r)) "INVALID_MIRROR_REQUEST";
    _ ← set_after (delete (node_id session));
    mret None
  else match tq_Mirror r with
       | None => fail "INVALID_MIRROR_REQUEST"
       | Some value =>
         _ ← refuse (negb (is_ok (Mirror.Validate value))) "INVALID_MIRROR_REQUEST";
         mret (Some value)
       end.
Definition mirror_summary (c : Mirror.Configuration) : TopologyConfigurationSummary :=
  mkSummary (Some c) None "" None None None None None None None None None None None None None None.
(** The wanted image of a node.
    go: internal/candidate/mirror.go:275-286 stageMirror *)
Definition mirror_node (i : StoredIntent) (after : option Mirror.Configuration) (configs : gmap string configuration)
    (n : TopologyNode) : result TopologyNode :=
  let? cfg := mirrorConfigureImages i t n (default ∅ (configs !! node_id n)) in
  Ok (mkNode (if Table (n_Binding n) =s "Mirror" then mirror_summary <$> after else n_Summary n) (n_Binding n) (n_Name n)
        (n_Type n) (n_Links n) (ConfigurationDigest cfg)).
Fixpoint mirror_nodes (image : TopologyNode -> result TopologyNode) (l : list (string * TopologyNode))
    : result (gmap string TopologyNode) :=
  match l with
  | [] => Ok ∅
  | (id, n) :: r => let? n := image n in let? rest := mirror_nodes image r in Ok (<[id := n]> rest)
  end.
(** A node as the compensation restores it: its links are those it had.
    go: internal/candidate/mirror.go:293-300 stageMirror *)
Definition mirror_restored (replacements : gmap string Binding) (id : string) (n : TopologyNode) : TopologyNode :=
  mkNode (n_Summary n) (default (n_Binding n) (replacements !! OVSUUID (n_Binding n))) (n_Name n) (n_Type n) (n_Links n)
    (ConfigurationDigest (RemapConfiguration (config_of t id) replacements)).

(** go: internal/candidate/mirror.go:189-308 stageMirror *)
Definition mirror_change (in_ : Intent) (r : TopologyRequest) (object : TopologyNode) : T StoredIntent :=
  '(session, bridge, before) ← mirror_object in_ r object;
  _ ← load_node bridge;
  after ← mirror_target in_ r session;
  _ ← load_selection bridge before;
  _ ← load_selection bridge after;
  w ← gets id;
  let change := mkMirrorChange (n_Binding session) (n_Binding bridge) before after in
  let graph dependency nodes replacements restored :=
    mkTopologyChange (Some change) (tt_MirrorAuthorityRevision t) dependency None "" "" ∅ r (tt_Root t)
      (tt_RootDependency t) (Some (topologyNodes (w_Before w))) nodes replacements restored false false in
  let i := topology_intent s in_ (graph "" None ∅ None) in
  match mirror_nodes (mirror_node i after (w_Configs w)) (map_to_list (w_After w)) with
  | Err _ => fail "MIRROR_PRIVATE_IMAGE_UNPROVEN"
  | Ok images =>
    replacements ← reserve fresh s (map_to_list (w_Before w)) images;
    let restored := (fun kv => mirror_restored replacements (fst kv) (snd kv)) <$> map_to_list (w_Before w) in
    let g dependency := graph dependency (Some (topologyNodes images)) replacements
                          (if is_empty restored then None else Some restored) in
    let i := topology_intent s in_ (g (tunnelDependency (g "") t)) in
    _ ← match first_refusal (topologyChecks i s) with Some g => fail (g_Code g) | None => mret tt end;
    mret i
  end.
End Mirrors.

(** The properties of other topology operations are absent.
    go: internal/candidate/mirror.go:176 stageMirror *)
Definition only_mirror (r : TopologyRequest) : bool :=
  is_nil (tq_Tunnel r) && (tq_NativeType r =s "") && is_empty (tq_InterfaceNames r) && is_empty (tq_Sources r)
  && is_empty (tq_Members r) && is_nil (tq_Destination r) && is_nil (tq_Peer r) && (tq_Ofport r =? 0).
(** go: internal/candidate/mirror.go stageMirror *)
Definition stageMirror (fresh : nat -> string) (c : Candidate) (cmd : Command) (s : Snapshot) : outcome Candidate :=
  let t := sn_Topology s in
  match cmd_Intents cmd, intents c with
  | [in_], [] =>
    match in_Topology in_ with
    | None => refused "INVALID_MIRROR_REQUEST"
    | Some r =>
      if negb (IsMirrorOperation (in_Operation in_)) || negb (ManagementID (in_ID in_)) || negb (only_mirror r)
         || negb (only_topology in_)
      then refused "INVALID_MIRROR_REQUEST"
      else if stale c in_ s then refused "GENERATION_RECONCILIATION_REQUIRED"
      else if negb (tt_MirrorSupported t) || negb (tt_Supported t) || negb (tt_Capacity t)
      then refused "MIRROR_SCHEMA_OR_GRAPH_UNSUPPORTED"
      else match tt_Nodes t !! ManagementID_ (in_Object in_) with
           | None => refused "OBJECT_BINDING_CHANGED"
           | Some object =>
             if negb (bool_decide (n_Binding object = in_Object in_)) then refused "OBJECT_BINDING_CHANGED"
             else staged c s (mirror_change fresh s in_ r object)
           end
    end
  | _, _ => refused "TOPOLOGY_RESTAGE_REQUIRED"
  end.

(** ** topology.go *)

(** go: internal/candidate/topology.go stageTopology *)
Definition stageTopology (fresh : nat -> string) (c : Candidate) (cmd : Command) (s : Snapshot) : outcome Candidate :=
  match cmd_Intents cmd with
  | [in_] =>
    if IsMirrorOperation (in_Operation in_) then stageMirror fresh c cmd s
    else if 1 <? len (intents c) then refused "TOPOLOGY_SINGLE_INTENT_REQUIRED"
    else match in_Topology in_ with
         | None => refused "INVALID_TOPOLOGY_INTENT"
         | Some r =>
           if negb (IsTopologyOperation (in_Operation in_)) || not_nil (tq_Mirror r) || negb (ManagementID (in_ID in_))
              || negb (only_topology in_)
           then refused "INVALID_TOPOLOGY_INTENT"
           else if stale c in_ s then refused "GENERATION_RECONCILIATION_REQUIRED"
           else if negb (is_empty (intents c)) then refused "TOPOLOGY_RESTAGE_REQUIRED"
           else match tt_Nodes (sn_Topology s) !! ManagementID_ (in_Object in_) with
                | None => refused "OBJECT_BINDING_CHANGED"
                | Some n =>
                  if negb (bool_decide (n_Binding n = in_Object in_)) then refused "OBJECT_BINDING_CHANGED"
                  else staged c s (topology_change fresh s in_ r n)
                end
         end
  | _ => refused "TOPOLOGY_SINGLE_INTENT_REQUIRED"
  end.
End TopologyStaging.
