(* ===== verification/Planner.v ===== *)
(** * internal/candidate: comparing, preparing and checking a candidate

    plan.go composed: [Compare] shows every intent against the snapshot,
    [Review] bounds what is shown, [Prepare] carries out a command and
    [Checks] collects the gates of a validation. Each sends an intent to the
    functions of its operation class, in the order of the source. *)

From S2P Require Import Prelude GoStrings Sha256 GoJson GoTime ApiTypes Multicast Mirror Tunnel.
From S2P Require Import CandidateTypes Intents Planning Staging FieldGroups Graphs Topology TopologyStaging.
Import Planning Staging FieldGroups Graphs Topology TopologyStaging.

Module Planner.

(** ** Operation classes, in the order of the switch *)

Inductive class : Type :=
  | CMulticast | CIsolation | CSpanningTree | CTopology | CPolicing | CMTU | CPortDelete | CPortCreate
  | CBridgeDelete | CBridgeCreate | CPort.
#[global] Instance class_eq_dec : EqDecision class.
Proof. solve_decision. Defined.
(** go: internal/candidate/plan.go:532-572 Checks *)
Definition class_of (op : string) : class :=
  if op =s BridgeMulticastSet then CMulticast
  else if op =s PortIsolationSet then CIsolation
  else if IsSpanningTreeOperation op then CSpanningTree
  else if IsTopologyOperation op then CTopology
  else if op =s InterfacePolicingSet then CPolicing
  else if IsMTUOperation op then CMTU
  else if op =s InternalPortDelete then CPortDelete
  else if op =s InternalPortCreate then CPortCreate
  else if op =s BridgeDelete then CBridgeDelete
  else if op =s BridgeCreate then CBridgeCreate
  else CPort.

(** ** Compare and Review *)

(** What stands against an intent, and its differences.
    go: internal/candidate/plan.go:94-225 Compare *)
Definition assess (i : StoredIntent) (s : Snapshot) : string * list Diff :=
  match class_of (i_Operation i) with
  | CMulticast => (multicastProblem i s, multicastDiff i s)
  | CIsolation => (isolationProblem i s, [isolationDiff i s])
  | CSpanningTree => (spanningTreeProblem i s, spanningTreeDiff i s)
  | CTopology => (topologyProblem i s, [topologyDiff i s])
  | CPolicing => (policingProblem i s, policingDiff i s)
  | CMTU => (mtuProblem i s, mtuDiffs i s)
  | CPortDelete => (portDeletionProblem i s, [portDeletionDiff i s])
  | CPortCreate => (internalPortProblem i s, [internalPortDiff i s])
  | CBridgeDelete => (deletionProblem i s, [deletionDiff i s])
  | CBridgeCreate => (creationProblem i s, [creationDiff i s])
  | CPort => (snd (comparison i s), port_diffs i s)
  end.
Definition next_state (i : StoredIntent) (state problem : string) : string :=
  if decide (class_of (i_Operation i) = CPort) then port_state state problem
  else if problem <>s "" then "reconciliation-required" else state.
(** The state, the gates and the differences of the view.
    go: internal/candidate/plan.go:94-226 Compare *)
Fixpoint compare_loop (l : list StoredIntent) (s : Snapshot) (state : string) : string * list Gate * list Diff :=
  match l with
  | [] => (state, [], [])
  | i :: r =>
    let '(problem, d) := assess i s in
    let '(state, gates, ds) := compare_loop r s (next_state i state problem) in
    (state, when (problem <>s "") (gate problem "blocked" (i_ID i)) ++ gates, d ++ ds)
  end.
Definition with_state (c : Candidate) (state : string) : Candidate :=
  mkCandidate (c_ID c) (c_Revision c) (c_Generation c) (c_BaseRevision c) state (c_Intents c) (c_Consumed c).
(** go: internal/candidate/plan.go Compare *)
Definition Compare (c : Candidate) (s : Snapshot) : View :=
  let '(state, gates, ds) := compare_loop (intents c) s (c_State c) in
  mkView (with_state c state) false (Some (sn_Generation s)) (Some (sn_Revision s)) (Some (ConflictID c s)) ds gates false.
(** go: internal/candidate/plan.go:234 Review *)
Definition review_limit : Z := Z.shiftl 47 10.
(** go: internal/candidate/plan.go Review *)
Definition Review (c : Candidate) (s : Snapshot) : View :=
  let v := Compare c s in
  if review_limit <? slen (marshal (view_json v)) then
    mkView (with_state (vw_Candidate v) "review-limited") (vw_SafeApplyAvailable v) (vw_CurrentGeneration v)
      (vw_CurrentRevision v) None [] [gate "DIFF_BUDGET_EXCEEDED" "blocked" ""] true
  else v.

(** ** Prepare *)

(** The values that only one operation class may carry.
    go: internal/candidate/plan.go:258-274 Prepare *)
Fixpoint carried (l : list Intent) : result unit :=
  match l with
  | [] => Ok tt
  | in_ :: r =>
    let op := in_Operation in_ in
    fail_if not_nil (in_Multicast in_) && (op <>s BridgeMulticastSet) with Fail 422 "INVALID_MULTICAST_REQUEST" ;;
    fail_if not_nil (in_Protected in_) && (op <>s PortIsolationSet) with Fail 422 "INVALID_PORT_ISOLATION" ;;
    fail_if not_nil (in_SpanningTree in_) && negb (IsSpanningTreeOperation op)
      with Fail 422 "INVALID_SPANNING_TREE_DRAFT" ;;
    fail_if not_nil (in_Topology in_) && negb (IsTopologyOperation op) with Fail 422 "INVALID_TOPOLOGY_INTENT" ;;
    fail_if not_nil (in_Policing in_) && (op <>s InterfacePolicingSet) with Fail 422 "INVALID_INTERFACE_POLICING" ;;
    carried r
  end.
(** The first class that the candidate or the command is of; Port fields
    otherwise.
    go: internal/candidate/plan.go:275-354 Prepare *)
Fixpoint stage_class (l : list class) (c : Candidate) (first : Intent) : class :=
  match l with
  | [] => CPort
  | k :: r =>
    if existsb (fun i => bool_decide (class_of (i_Operation i) = k)) (intents c)
       || bool_decide (class_of (in_Operation first) = k)
    then k else stage_class r c first
  end.
Definition group_classes : list class :=
  [CMulticast; CIsolation; CSpanningTree; CTopology; CPolicing; CMTU; CPortDelete; CPortCreate; CBridgeDelete;
   CBridgeCreate].
(** go: internal/candidate/plan.go:254-428 Prepare *)
Definition stage (fresh : nat -> string) (c : Candidate) (cmd : Command) (s : Snapshot) : outcome Candidate :=
  match cmd_Intents cmd with
  | [] => Returned (Err (Fail 422 "INVALID_INTENT"))
  | first :: _ =>
    if MaxIntents <? len (cmd_Intents cmd) then Returned (Err (Fail 422 "INVALID_INTENT"))
    else match carried (cmd_Intents cmd) with
         | Err e => Returned (Err e)
         | Ok _ =>
           match stage_class group_classes c first with
           | CMulticast => Returned (stageMulticast c cmd s)
           | CIsolation => Returned (stageIsolation c cmd s)
           | CSpanningTree => Returned (stageSpanningTree c cmd s)
           | CTopology => stageTopology fresh c cmd s
           | CPolicing => Returned (stagePolicing c cmd s)
           | CMTU => Returned (stageMTU c cmd s)
           | CPortDelete => Returned (stagePortDeletion fresh c cmd s)
           | CPortCreate => Returned (stageInternalPort fresh c cmd s)
           | CBridgeDelete => Returned (stageDeletion fresh c cmd s)
           | CBridgeCreate => Returned (stageCreation fresh c cmd s)
           | CPort => Returned (stage_ports c (cmd_Intents cmd) s)
           end
         end
  end.
(** go: internal/candidate/plan.go:248-509 Prepare *)
Definition change (fresh : nat -> string) (c : Candidate) (cmd : Command) (s : Snapshot) : outcome Candidate :=
  let keep l := with_intents c l (c_Generation c) (c_BaseRevision c) in
  if not_nil (c_Consumed c) then Returned (Err (Fail 409 "CANDIDATE_CONSUMED"))
  else if cmd_Operation cmd =s "stage" then stage fresh c cmd s
  else if cmd_Operation cmd =s "remove" then
    Returned (let? l := remove_intents (intents c) (cmd_IntentIDs cmd) [] in Ok (keep l))
  else if cmd_Operation cmd =s "discard" then Returned (Ok (keep []))
  else if cmd_Operation cmd =s "rebase" then
    if vw_DiffTruncated (Review c s) then Returned (Err (Fail 429 "DIFF_BUDGET_EXCEEDED"))
    else Returned (rebase c cmd s)
  else Returned (Err (Fail 422 "UNSUPPORTED_CONFIGURATION")).
(** The slice of intents is copied first, and is not nil from then on.
    [revision] is the identifier drawn last.
    go: internal/candidate/plan.go Prepare *)
Definition Prepare (fresh : nat -> string) (revision : string) (e : Envelope) (cmd : Command) (s : Snapshot)
    : outcome Envelope :=
  let c := e_Candidate e in
  match change fresh (with_intents c (intents c) (c_Generation c) (c_BaseRevision c)) cmd s with
  | Returned (Ok c) => Returned (finish e c revision)
  | Returned (Err e) => Returned (Err e)
  | Panicked => Panicked
  end.

(** ** Checks *)

(** go: internal/candidate/plan.go:532-619 Checks *)
Definition intent_checks (i : StoredIntent) (s : Snapshot) : list Gate :=
  match class_of (i_Operation i) with
  | CMulticast => multicastChecks i s
  | CIsolation => isolationChecks i s
  | CSpanningTree => spanningTreeChecks i s
  | CTopology => topologyChecks i s
  | CPolicing => policingChecks i s
  | CMTU => mtuChecks i s
  | CPortDelete => portDeletionChecks i s
  | CPortCreate => internalPortChecks i s
  | CBridgeDelete => deletionChecks i s
  | CBridgeCreate => creationChecks i s
  | CPort => port_checks i s
  end.
(** go: internal/candidate/plan.go Checks *)
Definition Checks (c : Candidate) (s : Snapshot) : list Gate * list Diff :=
  let v := Compare c s in
  (vw_Checks v ++ when (is_empty (intents c)) (gate "EMPTY_CANDIDATE" "blocked" "")
   ++ (intents c ≫= fun i => intent_checks i s) ++ [gate "SAFE_APPLY_REQUIRED" "allowed" ""],
   vw_Diff v).

End Planner.
