(* ===== verification/Candidates.v ===== *)
(** * internal/candidate: what staging and rebasing guarantee

    The invariant of a candidate and its preservation by every modelled
    command, the originals that staging captures and never replaces, the
    agreement of a staged or rebased intent with the snapshot it was captured
    from, and the meaning of passed gates. *)

From S2P Require Import Prelude GoStrings Sha256 GoJson GoTime ApiTypes Multicast Mirror Tunnel.
From S2P Require Import CandidateTypes Intents Planning Staging.
Import Planning Staging.

#[local] Opaque digest_json.
#[local] Arguments normalize : simpl never.
#[local] Arguments equal : simpl never.

(** ** The invariant *)

Definition object_of (i : StoredIntent) : string := ManagementID_ (i_Object i).
(** An intent on the fields of a Port: a VLAN edit, or a bond edit with its
    desired values. *)
Definition port_fields (i : StoredIntent) : Prop :=
  i_Operation i = "port.vlan.set" \/ IsBondOperation (i_Operation i) = true /\ i_Bond i <> None.
(** A candidate of Port fields: its intents have distinct identifiers, name
    distinct objects, and belong to the generation of the candidate; there
    are at most 32. *)
Record well_formed (c : Candidate) : Prop := mkWellFormed {
  wf_ids : NoDup (i_ID <$> intents c);
  wf_objects : NoDup (object_of <$> intents c);
  wf_generation : Forall (fun i => c_Generation c = Some (Generation (i_Object i))) (intents c);
  wf_bound : len (intents c) <= MaxIntents;
  wf_fields : Forall port_fields (intents c) }.
(** While a command is being staged, the generation may still be unset. *)
Record staging (g : string) (c : Candidate) : Prop := mkStaging {
  st_ids : NoDup (i_ID <$> intents c);
  st_objects : NoDup (object_of <$> intents c);
  st_generations : Forall (fun i => Generation (i_Object i) = g) (intents c);
  st_generation : c_Generation c = None \/ c_Generation c = Some g;
  st_fields : Forall port_fields (intents c) }.

(** What an intent captured when it was first staged. *)
Definition captured (i : StoredIntent) :=
  (i_ID i, i_Operation i, i_Object i, (i_Before i, i_Dependency i, i_Schema i), (i_BeforeBond i, i_BondMembers i)).
(** The context an intent needs is known: QinQ edits observe one. *)
Definition context_known (i : StoredIntent) (p : Port) : Prop := UsesQinQ i = true -> po_QinQ p <> None.

(** ** Lists *)

Lemma fmap_insert_same {A B} (f : A -> B) (l : list A) n x y :
  l !! n = Some x -> f y = f x -> f <$> <[n := y]> l = f <$> l.
Proof. intros H E. rewrite list_fmap_insert, E. apply list_insert_id. by rewrite list_lookup_fmap, H. Qed.

Lemma Forall_insert_same {A} (P : A -> Prop) (l : list A) n x : Forall P l -> P x -> Forall P (<[n := x]> l).
Proof. intros H Hx. by apply Forall_insert. Qed.

Lemma NoDup_fmap_snoc {A B} (f : A -> B) (l : list A) x :
  NoDup (f <$> l) -> Forall (fun y => f y <> f x) l -> NoDup (f <$> (l ++ [x])).
Proof.
  intros Hn Hf. rewrite fmap_app. apply NoDup_app. split_and!; [done| |apply NoDup_singleton].
  intros y Hy. cbn. rewrite list_elem_of_singleton. intros ->.
  apply list_elem_of_fmap in Hy as (z & E & Hz). rewrite Forall_forall in Hf. by destruct (Hf z Hz).
Qed.

Lemma len_app {A} (l1 l2 : list A) : len (l1 ++ l2) = len l1 + len l2.
Proof. unfold len. rewrite length_app. lia. Qed.

(** ** Normal VLAN values *)

#[local] Instance Zle_total : Total Z.le.
Proof. intros ??. lia. Qed.
Lemma sort_ints_id l : Sorted Z.le l -> sort_ints l = l.
Proof.
  intros H. apply (Sorted_unique Z.le); [exact (Sorted_merge_sort Z.le l)|done|].
  apply merge_sort_Permutation.
Qed.
Lemma sort_ints_sorted l : Sorted Z.le (sort_ints l).
Proof. exact (Sorted_merge_sort Z.le l). Qed.
Lemma sort_ints_perm l k : sort_ints l = sort_ints k <-> l ≡ₚ k.
Proof.
  split.
  - intros E. rewrite <- (merge_sort_Permutation Z.le l), <- (merge_sort_Permutation Z.le k). by fold sort_ints; rewrite E.
  - intros E. apply (Sorted_unique Z.le); [apply sort_ints_sorted..|].
    unfold sort_ints. by rewrite !merge_sort_Permutation.
Qed.

Lemma normalize_idem v : normalize (normalize v) = normalize v.
Proof. unfold normalize. cbn. f_equal; f_equal; apply sort_ints_id, sort_ints_sorted. Qed.

Lemma equal_normalize v : equal v (normalize v) = true.
Proof. unfold equal. by rewrite normalize_idem, String.eqb_refl. Qed.

(** ** Staging one intent *)

Lemma find_prior_spec in_ l : forall n found r,
  find_prior l in_ n found = Ok r ->
  (r = found /\ Forall (fun i => i_ID i <> in_ID in_ /\ object_of i <> ManagementID_ (in_Object in_)) l)
  \/ (exists k i, r = Some (n + k)%nat /\ l !! k = Some i /\
       i_ID i = in_ID in_ /\ i_Object i = in_Object in_ /\ i_Operation i = in_Operation in_).
Proof.
  induction l as [|j l IH]; intros n found r; cbn [find_prior].
  { intros [= <-]. auto. }
  destruct (i_ID j =s in_ID in_) eqn:E1; intros H.
  - destruct (_ || _) eqn:E2 in H; [done|]. apply IH in H as [[-> HF]|(k & i & -> & Hk & Hi)]; right.
    + exists 0%nat, j. bsimp. rewrite Nat.add_0_r. intuition.
    + exists (S k), i. by rewrite Nat.add_succ_r.
  - destruct (_ =s _) eqn:E2 in H; [done|]. apply IH in H as [[-> HF]|(k & i & -> & Hk & Hi)]; [left|right].
    + split; [done|]. constructor; [bsimp; auto|done].
    + exists (S k), i. by rewrite Nat.add_succ_r.
Qed.

Lemma edit_staged_captured i in_ p value desired i' :
  edit_staged i in_ p value desired = Ok i' -> captured i' = captured i.
Proof. unfold edit_staged. intros H. ok_inv; done. Qed.

Lemma edit_staged_fields i in_ p value desired i' :
  edit_staged i in_ p value desired = Ok i' -> in_Operation in_ = i_Operation i -> port_fields i -> port_fields i'.
Proof.
  unfold edit_staged, port_fields. intros H E Hf.
  destruct Hf as [Hf|[Hf _]]; rewrite E, Hf in H; ok_inv; [by left|right; by split].
Qed.

(** What one intent of a command does: it edits the intent it names, or it
    appends one that captures the present native values. *)
Lemma stage_port_spec c in_ seen s l :
  stage_port c in_ seen s = Ok l ->
  in_ID in_ ∉ seen /\ stale c in_ s = false /\
  ((exists n i i', intents c !! n = Some i /\ i_ID i = in_ID in_ /\ captured i' = captured i /\
                   (port_fields i -> port_fields i') /\ l = <[n := i']> (intents c))
   \/ (exists p value desired,
        Forall (fun i => i_ID i <> in_ID in_ /\ object_of i <> ManagementID_ (in_Object in_)) (intents c) /\
        Ports s !! ManagementID_ (in_Object in_) = Some p /\ po_Binding p = in_Object in_ /\
        (in_Operation in_ = "port.vlan.set" /\ Known p = true \/ IsBondOperation (in_Operation in_) = true /\ BondKnown p = true) /\
        desired_fields in_ p = Ok (value, desired) /\ l = intents c ++ [new_intent in_ p s value desired])).
Proof.
  unfold stage_port. intros H.
  destruct (_ || _ || _ || _) eqn:G1 in H; [done|].
  destruct (stale c in_ s) eqn:G2; [done|].
  destruct (Ports s !! _) as [p|] eqn:Ep; [|done].
  destruct (negb (bool_decide _)) eqn:G3; [done|].
  destruct (_ || _) eqn:G4 in H; [done|].
  destruct (desired_fields in_ p) as [[value desired]|] eqn:Ed; [|done].
  destruct (find_prior _ _ _ _) as [index|] eqn:Ef; [|done].
  assert (Hseen : in_ID in_ ∉ seen).
  { rewrite list_elem_of_In, <- contains_not_In. by destruct (contains seen (in_ID in_)). }
  split_and!; [done..|].
  apply find_prior_spec in Ef as [[-> HF]|(k & i & -> & Hk & Hid & Hob & Hop)].
  - injection H as <-. right. exists p, value, desired. split_and!; try done.
    { destruct (bool_decide_reflect (po_Binding p = in_Object in_)); done. }
    destruct (in_Operation in_ =s "port.vlan.set") eqn:Eo.
    + left. split; [by apply String.eqb_eq|]. by destruct (Known p).
    + right. destruct (IsBondOperation (in_Operation in_)), (BondKnown p); try done; bsimp; intuition.
  - cbn in H. rewrite Hk in H. destruct (edit_staged _ _ _ _ _) as [i'|] eqn:Ee; [|done].
    injection H as <-. left. exists k, i, i'. split_and!; try done; [by eapply edit_staged_captured|].
    intros Hf. by eapply edit_staged_fields.
Qed.

Lemma captured_fields i j : captured i = captured j ->
  i_ID i = i_ID j /\ i_Operation i = i_Operation j /\ i_Object i = i_Object j /\ i_Before i = i_Before j
  /\ i_Dependency i = i_Dependency j /\ i_Schema i = i_Schema j /\ i_BeforeBond i = i_BeforeBond j
  /\ i_BondMembers i = i_BondMembers j.
Proof. unfold captured. intros [= -> -> -> -> -> -> -> ->]. auto 10. Qed.

Lemma currentOriginal_identity i p :
  i_ID (currentOriginal i p) = i_ID i /\ i_Operation (currentOriginal i p) = i_Operation i
  /\ i_Object (currentOriginal i p) = i_Object i /\ i_Value (currentOriginal i p) = i_Value i
  /\ i_Bond (currentOriginal i p) = i_Bond i /\ i_Schema (currentOriginal i p) = i_Schema i.
Proof. unfold currentOriginal. destruct (IsBondOperation _); [done|]. by destruct (UsesQinQ _). Qed.

Lemma bond_not_vlan op : IsBondOperation op = true -> (op =s "port.vlan.set") = false.
Proof. unfold IsBondOperation. intros H. apply String.eqb_neq. intros ->. done. Qed.

Lemma qinq_same q : q <> None -> qinq_changed q q = false.
Proof. destruct q as [q|]; [|done]. intros _. unfold qinq_changed. by rewrite String.eqb_refl. Qed.

(** An intent whose original was captured from a port of this snapshot
    compares equal with it. *)
Lemma currentOriginal_clean i p s :
  Generation (i_Object i) = sn_Generation s -> Ports s !! object_of i = Some p -> po_Binding p = i_Object i ->
  i_Operation i = "port.vlan.set" /\ Known p = true
  \/ IsBondOperation (i_Operation i) = true /\ BondKnown p = true /\ i_Bond i <> None ->
  i_Schema i = sn_Schema s -> context_known (currentOriginal i p) p ->
  comparison (currentOriginal i p) s = (p, "").
Proof.
  intros Hg Hp Hb Hop Hs. unfold context_known, comparison.
  destruct (currentOriginal_identity i p) as (_ & -> & -> & _ & -> & ->).
  unfold object_of in Hp. rewrite Hg, String.eqb_refl, Hp, bool_decide_true, Hs, String.eqb_refl by done. cbn [negb].
  destruct Hop as [[Ho HK]|(Ho & HK & Hbd)].
  - unfold currentOriginal. rewrite Ho. cbn [IsBondOperation]. rewrite HK. cbn.
    set (i0 := with_original i _ _ _ _ _). destruct (UsesQinQ i0) eqn:EQ; intros Hc.
    + set (i1 := with_original i0 _ _ _ _ _) in *.
      destruct (UsesQinQ i1) eqn:E1; cbn.
      * rewrite qinq_same by auto. cbn. rewrite String.eqb_refl, equal_normalize. reflexivity.
      * rewrite String.eqb_refl, equal_normalize. reflexivity.
    + rewrite EQ. cbn. rewrite String.eqb_refl, equal_normalize. reflexivity.
  - rewrite (bond_not_vlan _ Ho), HK. unfold currentOriginal. rewrite Ho. cbn [negb andb orb].
    intros Hc. cbn -[UsesQinQ]. rewrite bool_decide_true by done.
    assert (HQ : UsesQinQ (with_original i (normalize zero_vlan) (BondDependency p) (i_QinQ i) (Some (po_Bond p)) (Members p)) = false).
    { unfold UsesQinQ. cbn. by rewrite (bond_not_vlan _ Ho). }
    rewrite HQ. cbn. rewrite String.eqb_refl. cbn. destruct (i_Bond i); [|done]. rewrite String.eqb_refl. reflexivity.
Qed.

(** ** Staging a command *)

Lemma stale_generation c in_ s :
  stale c in_ s = false ->
  Generation (in_Object in_) = sn_Generation s /\ (c_Generation c = None \/ c_Generation c = Some (sn_Generation s)).
Proof.
  unfold stale. intros H. apply orb_false_iff in H as [H1 H2]. bsimp. split; [done|].
  destruct (c_Generation c) as [g|]; [|auto]. right. f_equal. by bsimp.
Qed.

Lemma desired_fields_bond in_ p value desired :
  IsBondOperation (in_Operation in_) = true -> desired_fields in_ p = Ok (value, desired) -> desired <> None.
Proof. unfold desired_fields. intros ->. destruct (bondDesired in_ p); intros H; by simplify_eq. Qed.

Lemma stage_port_staging c in_ seen s l b :
  stage_port c in_ seen s = Ok l -> staging (sn_Generation s) c ->
  staging (sn_Generation s) (with_intents c l (c_Generation c) b).
Proof.
  intros H [Hi Ho Hg Hc HFd]. apply stage_port_spec in H as (_ & Hst & Hl).
  apply stale_generation in Hst as [Hgen _].
  destruct Hl as [(n & i & i' & Hn & _ & Hcap & Hf & ->)|(p & value & desired & HF & Hp & Hb & Hk & Hd & ->)].
  - apply captured_fields in Hcap as (Eid & _ & Eob & _).
    assert (Eo : object_of i' = object_of i) by (unfold object_of; by rewrite Eob).
    split; cbn; [by rewrite (fmap_insert_same _ _ _ i)..| |done|]; apply Forall_insert_same; try done.
    + rewrite Eob. exact (Forall_lookup_1 _ _ _ _ Hg Hn).
    + exact (Hf (Forall_lookup_1 _ _ _ _ HFd Hn)).
  - unfold new_intent. set (i0 := mkStored _ _ _ _ _ _ _ _ _ _ _ _ _ _ _ _ _ _ _ _ _).
    destruct (currentOriginal_identity i0 p) as (Eid & Eop & Eob & _ & Ebd & _).
    split; cbn; [apply NoDup_fmap_snoc; [done|]..| |done|].
    + eapply Forall_impl; [exact HF|]. intros x [Hx _]. by rewrite Eid.
    + eapply Forall_impl; [exact HF|]. intros x [_ Hx]. unfold object_of at 2. by rewrite Eob.
    + apply Forall_app. split; [done|]. constructor; [|done]. by rewrite Eob.
    + apply Forall_app. split; [done|]. constructor; [|done]. unfold port_fields. rewrite Eop, Ebd. cbn.
      destruct Hk as [[Hk _]|[Hk _]]; [by left|right]. split; [done|]. by eapply desired_fields_bond.
Qed.

(** The intents that were staged before keep their places and what they
    captured; those after them were appended by this command: they are in
    [fresh], which no later intent of the command edits. *)
Definition kept (l l' : list StoredIntent) : Prop :=
  forall n i, l !! n = Some i -> exists i', l' !! n = Some i' /\ captured i' = captured i.

Lemma kept_trans l1 l2 l3 : kept l1 l2 -> kept l2 l3 -> kept l1 l3.
Proof.
  intros H1 H2 n i Hi. destruct (H1 n i Hi) as (j & Hj & Ej). destruct (H2 n j Hj) as (k & Hk & Ek).
  exists k. split; [done|congruence].
Qed.

Lemma kept_insert l n i i' : l !! n = Some i -> captured i' = captured i -> kept l (<[n := i']> l).
Proof.
  intros Hn Hc m j Hj. destruct (decide (m = n)) as [->|Hne].
  - exists i'. rewrite list_lookup_insert_eq by by eapply lookup_lt_Some. split; congruence.
  - exists j. by rewrite list_lookup_insert_ne.
Qed.

Lemma kept_app l k : kept l (l ++ k).
Proof. intros n i Hi. exists i. split; [by apply lookup_app_l_Some|done]. Qed.

(** The intents that a command appended agree with the snapshot. *)
Definition agrees_with (s : Snapshot) (i : StoredIntent) : Prop :=
  exists p, Ports s !! object_of i = Some p /\ (context_known i p -> comparison i s = (p, "")).

Definition fresh (n0 : nat) (seen : list string) (s : Snapshot) (l : list StoredIntent) : Prop :=
  forall n i, (n0 <= n)%nat -> l !! n = Some i -> i_ID i ∈ seen /\ agrees_with s i.

Lemma new_intent_agrees in_ p s value desired :
  Generation (in_Object in_) = sn_Generation s -> Ports s !! ManagementID_ (in_Object in_) = Some p ->
  po_Binding p = in_Object in_ ->
  in_Operation in_ = "port.vlan.set" /\ Known p = true \/ IsBondOperation (in_Operation in_) = true /\ BondKnown p = true ->
  desired_fields in_ p = Ok (value, desired) -> agrees_with s (new_intent in_ p s value desired).
Proof.
  intros Hg Hp Hb Hk Hd. unfold new_intent. set (i0 := mkStored _ _ _ _ _ _ _ _ _ _ _ _ _ _ _ _ _ _ _ _ _).
  exists p. destruct (currentOriginal_identity i0 p) as (_ & _ & Eob & _).
  split; [unfold object_of; by rewrite Eob|]. intros Hc. apply currentOriginal_clean; try done.
  destruct Hk as [Hk|[Hk1 Hk2]]; [by left|right]. split_and!; try done.
  by eapply desired_fields_bond.
Qed.

Lemma stage_port_fresh c in_ seen s l n0 :
  stage_port c in_ seen s = Ok l -> (n0 <= List.length (intents c))%nat -> fresh n0 seen s (intents c) ->
  kept (intents c) l /\ fresh n0 (in_ID in_ :: seen) s l /\ (n0 <= List.length l)%nat.
Proof.
  intros H Hlen HF. apply stage_port_spec in H as (Hseen & Hst & Hl). apply stale_generation in Hst as [Hg _].
  destruct Hl as [(n & i & i' & Hn & Hid & Hcap & _ & ->)|(p & value & desired & _ & Hp & Hb & Hk & Hd & ->)].
  - assert (Hn0 : (n < n0)%nat).
    { destruct (decide (n0 <= n)%nat) as [Hle|]; [|lia]. destruct (HF n i Hle Hn) as [Hin _]. by rewrite Hid in Hin. }
    split_and!; [by eapply kept_insert| |by rewrite length_insert].
    intros m j Hm Hj. rewrite list_lookup_insert_ne in Hj by lia. destruct (HF m j Hm Hj). split; [set_solver|done].
  - split_and!; [apply kept_app| |rewrite length_app; lia].
    intros m j Hm [Hj|[Hge Hj]]%lookup_app_Some; [destruct (HF m j Hm Hj); split; [set_solver|done]|].
    apply list_lookup_singleton_Some in Hj as [_ <-]. split; [|by apply new_intent_agrees].
    unfold new_intent. match goal with |- i_ID (currentOriginal ?i ?p) ∈ _ =>
      rewrite (proj1 (currentOriginal_identity i p)) end. cbn. set_solver.
Qed.

Lemma stage_loop_spec l : forall c seen s c' n0,
  stage_loop c l seen s = Ok c' -> staging (sn_Generation s) c ->
  (n0 <= List.length (intents c))%nat -> fresh n0 seen s (intents c) ->
  staging (sn_Generation s) c' /\ kept (intents c) (intents c') /\
  c_Generation c' = c_Generation c /\
  exists seen', fresh n0 seen' s (intents c').
Proof.
  induction l as [|in_ l IH]; intros c seen s c' n0 H HS Hlen HF; cbn [stage_loop] in H.
  { injection H as <-. split_and!; try done; [intros n i Hi; eauto|eauto]. }
  destruct (stage_port c in_ seen s) as [next|] eqn:Ep; [|done].
  destruct (stage_port_fresh _ _ _ _ _ n0 Ep Hlen HF) as (Hk & HF' & Hlen').
  apply IH with (n0 := n0) in H as (HS' & Hk' & Hg' & Hfr); [|by eapply stage_port_staging|done..].
  split_and!; try done. by eapply kept_trans.
Qed.

Lemma well_formed_staging c s l :
  well_formed c -> (exists in_ r, l = in_ :: r /\ stale c in_ s = false) -> staging (sn_Generation s) c.
Proof.
  intros [Hi Ho Hg _ Hf] (in_ & _ & _ & Hst). apply stale_generation in Hst as [_ Hc]. split; try done.
  eapply Forall_impl; [exact Hg|]. intros x Hx. cbn in Hx. destruct Hc as [Hc|Hc]; congruence.
Qed.

Lemma stage_ports_spec c l s c' :
  l <> [] -> well_formed c -> stage_ports c l s = Ok c' ->
  well_formed c' /\ c_Generation c' = Some (sn_Generation s) /\ kept (intents c) (intents c') /\
  forall n i, (List.length (intents c) <= n)%nat -> intents c' !! n = Some i -> agrees_with s i.
Proof.
  intros Hne Hwf H. unfold stage_ports in H. destruct (stage_loop c l [] s) as [c1|] eqn:El; [|done].
  destruct (MaxIntents <? len (intents c1)) eqn:Eb; [done|]. apply Z.ltb_ge in Eb.
  assert (HS : staging (sn_Generation s) c).
  { apply (well_formed_staging c s l Hwf). destruct l as [|in_ l]; [done|]. exists in_, l. split; [done|].
    cbn in El. destruct (stage_port c in_ [] s) eqn:Ep; [|done]. by apply stage_port_spec in Ep as (_ & ? & _). }
  destruct (stage_loop_spec _ _ _ _ _ (List.length (intents c)) El HS) as ([Hi Ho Hg Hc Hf] & Hk & Hgen & seen & HF); [lia| |].
  { intros n i Hn Hi. apply lookup_lt_Some in Hi. lia. }
  assert (E : c_Generation c' = Some (sn_Generation s) /\ intents c' = intents c1).
  { destruct Hc as [Hc|Hc]; rewrite Hc in H; cbn in H; by injection H as <-. }
  destruct E as [Eg Ei]. rewrite Ei. split_and!; [|done|done|].
  - split; rewrite ?Ei, ?Eg; try done. eapply Forall_impl; [exact Hg|]. cbn. by intros x ->.
  - intros n i Hn Hi'. by destruct (HF n i Hn Hi').
Qed.

(** ** Removing *)

Lemma list_filter_all (P : StoredIntent -> Prop) `{forall x, Decision (P x)} l : Forall P l -> filter P l = l.
Proof. induction 1 as [|x l Hx _ IH]; [done|]. by rewrite filter_cons_True, IH. Qed.

Lemma remove_first_spec id l :
  NoDup (i_ID <$> l) ->
  match remove_first id l with
  | None => id ∉ i_ID <$> l
  | Some k => id ∈ i_ID <$> l /\ k = filter (fun i => i_ID i <> id) l
  end.
Proof.
  induction l as [|i l IH]; cbn; [intros _; apply not_elem_of_nil|]. intros [Hni Hnd]%NoDup_cons.
  destruct (i_ID i =s id) eqn:E; bsimp.
  - subst. split; [by left|]. rewrite decide_False by auto. symmetry. apply list_filter_all.
    apply Forall_forall. intros x Hx Ex. apply Hni. rewrite <- Ex. by apply list_elem_of_fmap_2.
  - rewrite decide_True by done. specialize (IH Hnd). destruct (remove_first id l) as [k|]; cbn.
    + destruct IH as [Hin ->]. split; [by right|done].
    + rewrite not_elem_of_cons. auto.
Qed.

Lemma filter_ids_NoDup {A} (f : StoredIntent -> A) (P : StoredIntent -> Prop) `{forall x, Decision (P x)} l :
  NoDup (f <$> l) -> NoDup (f <$> filter P l).
Proof. intros Hn. eapply sublist_NoDup; [exact Hn|]. apply fmap_sublist, sublist_filter. Qed.

(** [remove] takes exactly the named intents out. *)
Lemma remove_intents_spec ids : forall l seen r,
  NoDup (i_ID <$> l) -> remove_intents l ids seen = Ok r ->
  r = filter (fun i => i_ID i ∉ ids) l /\ NoDup ids /\ Forall (fun id => id ∈ i_ID <$> l /\ id ∉ seen) ids.
Proof.
  induction ids as [|id ids IH]; intros l seen r Hnd H; cbn [remove_intents] in H.
  { injection H as <-. split_and!; [|constructor|constructor]. symmetry. apply list_filter_all.
    apply Forall_forall. set_solver. }
  destruct (contains seen id) eqn:Es; [done|]. apply contains_not_In in Es.
  pose proof (remove_first_spec id l Hnd) as Hr. destruct (remove_first id l) as [k|]; [|done].
  destruct Hr as [Hin ->]. apply IH in H as (-> & Hn & HF); [|by apply filter_ids_NoDup].
  rewrite list_filter_filter. split_and!.
  - apply list_filter_iff. intros i. rewrite not_elem_of_cons. tauto.
  - constructor; [|done]. intros Hid. rewrite Forall_forall in HF. destruct (HF id Hid) as [_ Hx]. set_solver.
  - constructor; [by rewrite (list_elem_of_In seen)|]. eapply Forall_impl; [exact HF|]. intros x [Hx1 Hx2].
    split; [|set_solver]. apply list_elem_of_fmap in Hx1 as (i & -> & Hi). apply list_elem_of_filter in Hi as [_ Hi].
    by apply list_elem_of_fmap_2.
Qed.

(** ** Rebasing *)

Lemma comparison_known i s p reason :
  comparison i s = (p, reason) -> contains fatal_reasons reason = false -> port_fields i ->
  Generation (i_Object i) = sn_Generation s /\ Ports s !! object_of i = Some p /\ po_Binding p = i_Object i /\
  (i_Operation i = "port.vlan.set" /\ Known p = true
   \/ IsBondOperation (i_Operation i) = true /\ BondKnown p = true /\ i_Bond i <> None) /\
  i_Schema i = sn_Schema s.
Proof.
  unfold comparison, object_of. intros H Hf Hk.
  destruct (Generation _ <>s _) eqn:G1; [by simplify_eq|].
  destruct (Ports s !! _) as [q|]; [|by simplify_eq].
  destruct (negb (bool_decide _)) eqn:G2; [by simplify_eq|].
  injection H as <- H. apply negb_false_iff in G1, G2. apply bool_decide_eq_true in G2. apply String.eqb_eq in G1.
  destruct Hk as [Hk|[Hk Hb]].
  - rewrite Hk in H. cbn [IsBondOperation] in H. destruct (Known q); [|by subst].
    cbn [String.eqb Ascii.eqb Bool.eqb negb andb orb] in H.
    destruct (i_Schema i <>s sn_Schema s) eqn:G3; [by subst|]. apply negb_false_iff, String.eqb_eq in G3. auto 10.
  - rewrite (bond_not_vlan _ Hk), Hk in H. destruct (BondKnown q); [|by subst].
    cbn [negb andb orb] in H.
    destruct (i_Schema i <>s sn_Schema s) eqn:G3; [by subst|]. apply negb_false_iff, String.eqb_eq in G3. auto 10.
Qed.

Definition choice (m : gmap string string) (i : StoredIntent) : string := default EmptyString (m !! i_ID i).
(** The image of an intent that is kept: the user's value over the present
    original. *)
Definition rebased (s : Snapshot) (i : StoredIntent) : StoredIntent := currentOriginal i (fst (comparison i s)).

Lemma choice_delete m i l :
  i_ID i ∉ i_ID <$> l -> Forall (fun j => choice (delete (i_ID i) m) j = choice m j) l.
Proof.
  intros H. apply Forall_forall. intros j Hj. unfold choice. rewrite lookup_delete_ne; [done|].
  intros E. apply H. rewrite E. by apply list_elem_of_fmap_2.
Qed.

(** A rebase drops what the user resolved to the current value and recaptures
    the rest; a changed field without a choice refuses it. *)
Lemma rebase_loop_spec l : forall m s next m',
  NoDup (i_ID <$> l) -> rebase_loop l m s = Ok (next, m') ->
  next = rebased s <$> filter (fun i => choice m i <> "keep-current") l /\
  Forall (fun i => contains fatal_reasons (snd (comparison i s)) = false /\
                   (snd (comparison i s) <> "" -> choice m i <> "")) l.
Proof.
  induction l as [|i l IH]; intros m s next m' Hnd H; cbn [rebase_loop] in H.
  { injection H as <- <-. split; constructor. }
  apply NoDup_cons in Hnd as [Hni Hnd]. destruct (restage (i_Operation i)); [done|].
  destruct (comparison i s) as [p reason] eqn:Ec.
  destruct (contains fatal_reasons reason) eqn:E1; [done|].
  destruct ((reason <>s "") && _) eqn:E2; [done|].
  destruct (rebase_loop l _ s) as [[next1 m1]|] eqn:El; [|done].
  apply IH in El as [-> HF]; [|done]. pose proof (choice_delete m i l Hni) as Hc.
  assert (Hfilter : filter (fun j => choice (delete (i_ID i) m) j <> "keep-current") l
                    = filter (fun j => choice m j <> "keep-current") l).
  { clear -Hc. induction Hc as [|j l Hj _ IHc]; [done|]. rewrite !filter_cons, IHc, Hj. done. }
  rewrite Hfilter in H. split.
  - rewrite filter_cons. fold (choice m i) in H. destruct (choice m i =s "keep-current") eqn:E3.
    + apply String.eqb_eq in E3. rewrite decide_False by auto. by injection H as <- _.
    + apply String.eqb_neq in E3. rewrite decide_True by done. injection H as <- _. cbn. unfold rebased at 2. by rewrite Ec.
  - constructor.
    + rewrite Ec. cbn. split; [done|]. intros Hr. apply andb_false_iff in E2 as [E2|E2]; bsimp; [done|].
      by unfold choice.
    + apply Forall_forall. intros j Hj. rewrite Forall_forall in HF, Hc. specialize (HF j Hj). by rewrite (Hc j Hj) in HF.
Qed.

Lemma rebased_agrees s i :
  port_fields i -> contains fatal_reasons (snd (comparison i s)) = false -> agrees_with s (rebased s i).
Proof.
  unfold rebased. destruct (comparison i s) as [p reason] eqn:Ec. cbn. intros Hp Hf.
  destruct (comparison_known _ _ _ _ Ec Hf Hp) as (Hg & Hl & Hb & Hop & Hs).
  exists p. destruct (currentOriginal_identity i p) as (_ & _ & Eob & _). unfold object_of. rewrite Eob.
  split; [done|]. intros Hc. by apply currentOriginal_clean.
Qed.

Lemma rebased_identity s i :
  i_ID (rebased s i) = i_ID i /\ i_Object (rebased s i) = i_Object i /\ i_Value (rebased s i) = i_Value i /\
  i_Bond (rebased s i) = i_Bond i /\ i_Operation (rebased s i) = i_Operation i.
Proof.
  unfold rebased. by destruct (currentOriginal_identity i (fst (comparison i s))) as (-> & -> & -> & -> & -> & _).
Qed.

(** ** Multicast changes *)

Lemma merged_spec before request change :
  merged before request = Ok change ->
  mc_Before change = before /\ Multicast.Merge before request = Ok (mc_After change) /\
  Multicast.Validate before = Ok tt /\ Multicast.Validate (mc_After change) = Ok tt.
Proof.
  unfold merged. destruct (Multicast.Merge before request) as [after|] eqn:E; [|done]. intros [= <-]. cbn.
  apply Multicast.Merge_ok in E as (Hb & Ha & _). by apply Multicast.Validate_ok in Hb, Ha.
Qed.

(** ** The invariant across removal and rebase *)

Lemma filter_well_formed c (P : StoredIntent -> Prop) `{forall x, Decision (P x)} b :
  well_formed c -> well_formed (with_intents c (filter P (intents c)) (c_Generation c) b).
Proof.
  assert (HF : forall Q l, Forall Q l -> Forall Q (filter P l)).
  { intros Q l HQ. rewrite Forall_forall in *. intros x [_ Hx]%list_elem_of_filter. auto. }
  intros [Hi Ho Hg Hb Hf]. split; cbn; try (by apply filter_ids_NoDup); try by apply HF.
  unfold len in *. pose proof (sublist_length _ _ (sublist_filter P (intents c))). lia.
Qed.

Lemma map_well_formed c (f : StoredIntent -> StoredIntent) b :
  (forall i, i_ID (f i) = i_ID i /\ i_Object (f i) = i_Object i /\ (port_fields i -> port_fields (f i))) ->
  well_formed c -> well_formed (with_intents c (f <$> intents c) (c_Generation c) b).
Proof.
  intros Hf [Hi Ho Hg Hb Hp]. split; cbn; rewrite <- ?list_fmap_compose.
  - rewrite (list_fmap_ext _ i_ID); [done|]. intros ? i _. apply Hf.
  - rewrite (list_fmap_ext _ object_of); [done|]. intros ? i _. unfold object_of. cbn. by destruct (Hf i) as (_ & -> & _).
  - apply Forall_fmap. eapply Forall_impl; [exact Hg|]. intros i Hi'. cbn. by destruct (Hf i) as (_ & -> & _).
  - unfold len in *. by rewrite length_fmap.
  - apply Forall_fmap. eapply Forall_impl; [exact Hp|]. intros i Hi'. cbn. by apply Hf.
Qed.

Lemma rebase_spec c cmd s c' :
  well_formed c -> rebase c cmd s = Ok c' ->
  exists m, intents c' = rebased s <$> filter (fun i => choice m i <> "keep-current") (intents c) /\
    resolutions (cmd_Resolutions cmd) ∅ = Ok m /\
    Forall (fun i => contains fatal_reasons (snd (comparison i s)) = false /\
                     (snd (comparison i s) <> "" -> choice m i <> "")) (intents c) /\
    c' = with_intents c (intents c') (c_Generation c) (Some (sn_Revision s)) /\
    c_Generation c = Some (sn_Generation s) /\ cmd_ConflictSnapshot cmd = Some (ConflictID c s).
Proof.
  intros Hwf H. unfold rebase in H. ok_inv. bsimp.
  match goal with H : rebase_loop _ _ _ = Ok _ |- _ => apply rebase_loop_spec in H as [-> HF]; [|apply Hwf] end.
  eexists. split; [reflexivity|]. split_and!; try done; bsimp; intuition.
Qed.

Lemma rebased_fields s i : port_fields i -> port_fields (rebased s i).
Proof. unfold port_fields. by destruct (rebased_identity s i) as (_ & _ & _ & -> & ->). Qed.

Lemma rebase_well_formed c cmd s c' : well_formed c -> rebase c cmd s = Ok c' -> well_formed c'.
Proof.
  intros Hwf H. destruct (rebase_spec _ _ _ _ Hwf H) as (m & Ei & _ & _ & -> & _). rewrite Ei.
  pose proof (filter_well_formed c (fun i => choice m i <> "keep-current") None Hwf) as Hw.
  apply (map_well_formed _ (rebased s) (Some (sn_Revision s))) in Hw; [exact Hw|].
  intros i. destruct (rebased_identity s i) as (-> & -> & _). eauto using rebased_fields.
Qed.

Lemma remove_well_formed c ids l b :
  well_formed c -> remove_intents (intents c) ids [] = Ok l -> well_formed (with_intents c l (c_Generation c) b).
Proof.
  intros Hwf H. apply remove_intents_spec in H as (-> & _); [|apply Hwf]. by apply filter_well_formed.
Qed.

Lemma int64_range z : - 2 ^ 63 <= int64 z < 2 ^ 63.
Proof. unfold int64. pose proof (Z.mod_pos_bound (z + 2 ^ 63) (2 ^ 64) eq_refl). lia. Qed.
