(* ===== verification/Groups.v ===== *)
(** * internal/candidate: what staging a single-intent group guarantees

    Every group of operations stages one intent over one snapshot:
    [group_staged] is what their staging functions have in common, and
    [change_spec] what every command does to the candidate. *)

From S2P Require Import Prelude GoStrings Sha256 GoJson GoTime ApiTypes Multicast Mirror Tunnel SpanningTree.
From S2P Require Import CandidateTypes Intents Planning Staging Candidates FieldGroups Graphs Topology TopologyStaging Planner.
Import Planning Staging FieldGroups Graphs Topology TopologyStaging Planner.

#[local] Opaque digest_json.
#[local] Arguments normalize : simpl never.
#[local] Arguments equal : simpl never.
#[local] Arguments no_values_requested : simpl never.
#[local] Arguments no_fields : simpl never.

(** What an intent of a group captured when it was first staged: identity,
    schema, dependency and the original values, graphs and contexts. *)
Definition sealed_original (i : StoredIntent) :=
  ((i_ID i, i_Object i, i_Schema i, i_Dependency i),
   (mc_Before <$> i_Multicast i, iso_Before <$> i_Isolation i, tc_Before <$> i_SpanningTree i,
    (fun m => (m_Before m, m_Port m, m_Bridge m, m_Default m)) <$> i_MTU i,
    (fun m => (pc_Before m, pc_Port m, pc_Bridge m, pc_Name m, pc_IfIndex m)) <$> i_Policing i),
   (i_Creation i, i_Deletion i, i_PortDeletion i, (fun p => set_VLANID (cloneInternalPort p) 0) <$> i_PortCreation i)).

(** What the inventory (internal/inventory/mtu.go, device.go, policing_edit.go,
    spanning_tree_prepare.go) puts into a projection: a default MTU is in
    range, an interface eligible for policing has a device name and index, and
    a spanning tree configuration that may be prepared is complete. *)
Record projected (s : Snapshot) : Prop := mkProjected {
  pj_mtu : forall id p d, Interfaces s !! id = Some p -> im_Default p = Some d -> ValidMTU (md_MTU d) = true;
  pj_policing : forall id p, Policings s !! id = Some p -> ipo_Eligible p = true -> ipo_Name p <> "" /\ 0 < ipo_IfIndex p;
  pj_tree : forall id b, SpanningTrees s !! id = Some b -> TreePreparationProblem b = EmptyString ->
              treeConfigValid (sb_Configuration b) = true }.

(** A group's staging leaves one intent of its class and of the snapshot's
    generation, which agrees with the snapshot when it is the first, and keeps
    its captured original when it is not. *)
Record group_staged (k : class) (c : Candidate) (s : Snapshot) (i : StoredIntent) : Prop := mkGroupStaged {
  gs_generation : Generation (i_Object i) = sn_Generation s;
  gs_class : class_of (i_Operation i) = k;
  gs_single : intents c = [] \/ exists prior, intents c = [prior];
  gs_first : intents c = [] -> projected s -> fst (assess i s) = EmptyString;
  gs_sealed : forall prior, intents c = [prior] -> sealed_original i = sealed_original prior }.

(** ** Tactics for the staging functions *)

(** The guards that an accepted staging has passed. *)
Ltac staged_inv H :=
  unfold stage_group in *; ok_inv; bsimp; destruct_and?; subst.
(** The guards of a comparison that do not fire. *)
Ltac pass_guards :=
  repeat match goal with
         | |- context [if ?b then _ else _] =>
             lazymatch b with
             | context [if _ then _ else _] => fail
             | _ => let E := fresh "E" in
                    first [assert (E : b = false) by (bsimp; intuition (congruence || lia)); rewrite E; clear E
                          |assert (E : b = true) by (bsimp; intuition (congruence || lia)); rewrite E; clear E]
             end
         end.

Lemma len_le_1 {A} (l : list A) : len l <= 1 -> l = [] \/ exists x, l = [x].
Proof. unfold len. destruct l as [|x [|y l]]; cbn; [auto|eauto|lia]. Qed.

(** One intent over a candidate with at most one; the two cases of a prior
    intent. *)
Ltac stage_cases H c cmd :=
  destruct (cmd_Intents cmd) as [|in_ [|]]; try done;
  let El := fresh "El" in
  destruct (len (intents c) <=? 1) eqn:El; [|try discriminate H; done]; apply Z.leb_le, len_le_1 in El;
  let prior := fresh "prior" in
  destruct El as [El|[prior El]]; rewrite El in H; staged_inv H;
  repeat match goal with
         | E : stale _ _ _ = false |- _ => let Hg := fresh "Hg" in apply stale_generation in E as [Hg _]
         end;
  eexists; (split; [reflexivity|]); split; rewrite ?El; try done; eauto.
(** A restaged intent keeps its seal. *)
Ltac sealed :=
  intros ? [= <-]; unfold sealed_original; cbn;
  repeat match goal with H : _ = Some _ |- _ => rewrite H end; done.

(** The class of an intent whose operation is known. *)
Ltac by_operation :=
  repeat match goal with
         | H : i_Operation _ = _ |- _ => rewrite H
         | H : in_Operation _ = _ |- _ => rewrite H
         end; try reflexivity.

Lemma SameMTU_refl m : SameMTU m m = true.
Proof. destruct m; cbn; [by apply Z.eqb_eq|done]. Qed.

(** *** The classes *)

Lemma class_mtu op : IsMTUOperation op = true -> class_of op = CMTU.
Proof. unfold IsMTUOperation. intros [E|E]%orb_true_iff; apply String.eqb_eq in E as ->; by vm_compute. Qed.
Lemma class_tree op : IsSpanningTreeOperation op = true -> class_of op = CSpanningTree.
Proof. unfold IsSpanningTreeOperation. intros [E|E]%orb_true_iff; apply String.eqb_eq in E as ->; by vm_compute. Qed.
Lemma class_bond op : IsBondOperation op = true -> class_of op = CPort.
Proof.
  unfold IsBondOperation. intros H. bsimp. repeat destruct H as [H|H]; subst; by vm_compute.
Qed.
Lemma class_topology op : IsTopologyOperation op = true -> class_of op = CTopology.
Proof.
  unfold IsTopologyOperation, IsMirrorOperation, IsTunnelOperation. rewrite !orb_true_iff, contains_In, !String.eqb_eq.
  intros H. cbn [In] in H. repeat destruct H as [H|H]; try done; subst; by vm_compute.
Qed.

Definition problem_of (k : class) (i : StoredIntent) (s : Snapshot) : string :=
  match k with
  | CMulticast => multicastProblem i s
  | CIsolation => isolationProblem i s
  | CSpanningTree => spanningTreeProblem i s
  | CTopology => topologyProblem i s
  | CPolicing => policingProblem i s
  | CMTU => mtuProblem i s
  | CPortDelete => portDeletionProblem i s
  | CPortCreate => internalPortProblem i s
  | CBridgeDelete => deletionProblem i s
  | CBridgeCreate => creationProblem i s
  | CPort => snd (comparison i s)
  end.
Lemma assess_problem i s : fst (assess i s) = problem_of (class_of (i_Operation i)) i s.
Proof. unfold assess. by destruct (class_of _). Qed.

(** *** mtu.go *)

Lemma mtuProblem_none i s m p :
  i_MTU i = Some m -> mtu_valid i m = true -> Generation (i_Object i) = sn_Generation s ->
  Interfaces s !! ManagementID_ (i_Object i) = Some p -> im_Binding p = i_Object i ->
  im_Port p = m_Port m -> im_Bridge p = m_Bridge m -> i_Schema i = sn_Schema s -> im_Known p = true ->
  i_Dependency i = im_Dependency p -> SameMTU (m_Before m) (im_Requested p) = true ->
  mtu_default_changed (m_Default m) (im_Default p) = false ->
  (MTUOriginalDeviceRequired m = true -> im_Observed p = OriginalMTU m) -> mtuProblem i s = EmptyString.
Proof.
  intros Em Hv Hg Hp H1 H2 H3 H4 H5 H6 H7 H8 H9. unfold mtuProblem. rewrite Em, Hv, Hg, Hp, H4, H5, H6, H7, H8.
  rewrite !String.eqb_refl, !bool_decide_true by done. cbn.
  destruct (MTUOriginalDeviceRequired m); [|done]. by rewrite (H9 eq_refl), Z.eqb_refl.
Qed.

Lemma capture_mtu_clean in_ p (set : bool) s :
  projected s -> Interfaces s !! ManagementID_ (in_Object in_) = Some p -> im_Binding p = in_Object in_ ->
  in_Operation in_ = (if set then InterfaceMTUSet else InterfaceMTUClear) -> Table (in_Object in_) = "Interface" ->
  Generation (in_Object in_) = sn_Generation s -> MTUEditable p = true ->
  (if set then ValidMTU (in_MTURequest in_) = true else MTUClearable p = true) ->
  mtuProblem (capture_mtu in_ p (if set then Some (in_MTURequest in_) else None) s) s = EmptyString.
Proof.
  intros [Hd _ _] Hp Hb Ho Ht Hg He Hs. pose proof (fun d => Hd _ p d Hp) as Hd'. unfold MTUClearable in Hs. rewrite He in Hs.
  unfold MTUEditable in He. bsimp. destruct He as [[[[[Hk _] _] _] Hv] Hn].
  eapply mtuProblem_none; cbn -[IsMTUOperation ValidMTU]; try done; try apply SameMTU_refl.
  - unfold mtu_valid. cbn -[IsMTUOperation ValidMTU validMTURequest]. rewrite Ho, Ht, Hv.
    destruct set; cbn -[ValidMTU]; rewrite ?Hs; destruct (im_Requested p), (im_Default p) eqn:E; cbn -[ValidMTU] in *;
      rewrite ?(Hd' _ eq_refl); bsimp; intuition (done || (destruct_ex; done)).
  - destruct (is_nil (im_Requested p) || _); [|done]. destruct (im_Default p); [|done]. cbn. by rewrite String.eqb_refl.
  - unfold MTUOriginalDeviceRequired, OriginalMTU, mtu_or_default. cbn.
    destruct (im_Requested p) as [r|], (im_Default p) as [d|], set; cbn in *; bsimp; try done;
      intuition (destruct_ex; congruence).
Qed.

Lemma stageMTU_spec c cmd s c' :
  stageMTU c cmd s = Ok c' -> exists i, c' = stage_group c i s /\ group_staged CMTU c s i.
Proof.
  unfold stageMTU. intros H. stage_cases H c cmd; try by apply class_mtu.
  - intros _ Hpj. unfold assess. cbn -[mtuProblem IsMTUOperation class_of].
    rewrite class_mtu by done. cbn -[mtuProblem]. destruct (in_Operation in_ =s InterfaceMTUSet) eqn:Eop.
    + apply (capture_mtu_clean in_ _ true); bsimp; auto.
    + unfold IsMTUOperation in E. rewrite Eop in E. apply (capture_mtu_clean in_ _ false); bsimp; intuition congruence.
  - cbn. congruence.
  - sealed.
Qed.

(** *** policing.go *)

Lemma requestedPolicing_valid r p : requestedPolicing r = Some p -> ValidPolicing p = true.
Proof.
  unfold requestedPolicing. destruct r as [r|]; [|done].
  destruct (_ =s "disabled"); [destruct (_ =? 0); by intros [= <-]|].
  repeat (destruct (_ =s _); [destruct (_ && _) eqn:E; [|done]; intros [= <-]; by apply andb_true_iff in E as [_ E]|]). done.
Qed.

Lemma capture_policing_clean in_ p after s :
  projected s -> Policings s !! ManagementID_ (in_Object in_) = Some p -> ipo_Binding p = in_Object in_ ->
  in_Operation in_ = InterfacePolicingSet -> Table (in_Object in_) = "Interface" ->
  Generation (in_Object in_) = sn_Generation s -> PolicingEditable p = true -> ValidPolicing after = true ->
  policingProblem (set_Policing (group_intent in_ (sn_Schema s) (ipo_Dependency p))
    (Some (mkPolicingChange (ipo_Configuration p) after (ipo_Port p) (ipo_Bridge p) (ipo_Name p) (ipo_IfIndex p) false))) s
  = EmptyString.
Proof.
  intros Hj Hp Hb Ho Ht Hg He Ha. unfold PolicingEditable in He. bsimp. destruct He as [[[[Hk _] Hel] _] Hv].
  destruct (pj_policing _ Hj _ _ Hp Hel) as [Hn Hx].
  unfold policingProblem. cbn -[ValidPolicing]. rewrite Hp, Ho, Ht, Hv, Ha, Hb, Hg, Hk, !String.eqb_refl, Z.eqb_refl.
  rewrite !bool_decide_true by done. apply String.eqb_neq in Hn. rewrite Hn.
  replace (ipo_IfIndex p <=? 0) with false by (symmetry; apply Z.leb_gt; lia). done.
Qed.

Lemma stagePolicing_spec c cmd s c' :
  stagePolicing c cmd s = Ok c' -> exists i, c' = stage_group c i s /\ group_staged CPolicing c s i.
Proof.
  unfold stagePolicing. intros H. stage_cases H c cmd; cbn; try congruence; try sealed.
  - by rewrite E.
  - intros _ Hpj. unfold assess. cbn -[policingProblem class_of]. rewrite E.
    apply (capture_policing_clean in_); eauto using requestedPolicing_valid.
  - by by_operation.
Qed.

(** *** spanning_tree.go *)

Lemma tree_parameters_dom (ps m : gmap string (option string)) protocol :
  forallb (fun '(k, v) => tree_parameter_ok protocol k v) (map_to_list ps) = true ->
  forallb (fun k => not_nil (m !! k)) SpanningTreeBasicKeys = true -> size (ps ∪ m) = size m.
Proof.
  rewrite !forallb_forall. intros Hp Hm. rewrite <- !(size_dom (D := gset string)). f_equal.
  rewrite dom_union_L. apply subseteq_union_1_L. intros k [v Hk]%elem_of_dom.
  apply elem_of_map_to_list, list_elem_of_In, Hp in Hk. unfold tree_parameter_ok in Hk. bsimp.
  destruct Hk as [[[Hk _] _] _]. apply Hm in Hk. apply elem_of_dom. by apply not_nil_true.
Qed.

Lemma tree_target_valid before protocol ps after :
  treeConfigValid before = true -> tree_target before protocol ps = Ok after -> treeConfigValid after = true.
Proof.
  unfold tree_target, treeConfigValid. intros [Hs Hb]%andb_true_iff H.
  destruct (negb (forallb _ _)) eqn:Ep; [done|]. injection H as <-. apply negb_false_iff in Ep. cbn [t_Parameters].
  apply andb_true_iff. split.
  - unfold msize in *. erewrite tree_parameters_dom; [exact Hs|exact Ep|].
    apply forallb_forall. intros k Hk. rewrite forallb_forall in Hb. specialize (Hb k Hk).
    by destruct (t_Parameters before !! k).
  - apply forallb_forall. intros k Hk. rewrite forallb_forall in Hb, Ep. specialize (Hb k Hk).
    rewrite lookup_union. destruct (ps !! k) as [v|] eqn:Ek; cbn.
    + apply elem_of_map_to_list, list_elem_of_In, Ep in Ek. unfold tree_parameter_ok in Ek. bsimp.
      destruct (t_Parameters before !! k), v; cbn; try done; bsimp; tauto.
    + by destruct (t_Parameters before !! k).
Qed.

Lemma tree_problem_valid i s change :
  i_SpanningTree i = Some change -> spanningTreeProblem i s = "" -> treeConfigValid (tc_Before change) = true.
Proof.
  unfold spanningTreeProblem. intros -> H. destruct (_ || _) eqn:E in H; [done|]. bsimp. tauto.
Qed.

Lemma capture_tree_clean in_ p after s :
  projected s -> SpanningTrees s !! ManagementID_ (in_Object in_) = Some p -> sb_Binding p = in_Object in_ ->
  IsSpanningTreeOperation (in_Operation in_) = true -> Table (in_Object in_) = "Bridge" ->
  Generation (in_Object in_) = sn_Generation s -> TreePreparationProblem p = "" ->
  (in_Operation in_ =s SpanningTreeConfigure) && negb (sb_Executable p) = false -> treeConfigValid after = true ->
  spanningTreeProblem (set_SpanningTree (group_intent in_ (sn_Schema s) (sb_Dependency p))
    (Some (mkTreeChange (sb_Configuration p) after))) s = "".
Proof.
  intros Hj Hp Hb Ho Ht Hg He Hx Ha. pose proof (pj_tree _ Hj _ _ Hp He) as Hv.
  unfold spanningTreeProblem. cbn -[treeConfigValid IsSpanningTreeOperation TreePreparationProblem].
  rewrite Hp, Ho, Ht, Hv, Ha, Hb, Hg, He, Hx, !String.eqb_refl, bool_decide_true by done. done.
Qed.

Lemma stageSpanningTree_spec c cmd s c' :
  stageSpanningTree c cmd s = Ok c' -> exists i, c' = stage_group c i s /\ group_staged CSpanningTree c s i.
Proof.
  unfold stageSpanningTree. intros H. stage_cases H c cmd; cbn -[class_of]; try (by apply class_tree); try sealed; try congruence.
  - intros _ Hj. unfold assess. cbn -[spanningTreeProblem class_of]. rewrite class_tree by done.
    apply (capture_tree_clean in_); auto.
    + bsimp. tauto.
    + eapply tree_target_valid; [|eassumption]. by eapply pj_tree.
  - apply class_tree. congruence.
Qed.

(** *** isolation.go and multicast.go *)

Lemma stageIsolation_spec c cmd s c' :
  stageIsolation c cmd s = Ok c' -> exists i, c' = stage_group c i s /\ group_staged CIsolation c s i.
Proof.
  unfold stageIsolation. intros H. stage_cases H c cmd; cbn -[class_of]; try sealed; try congruence.
  - by by_operation.
  - intros _ _. rewrite assess_problem. cbn -[class_of]. rewrite H. cbn -[isolationProblem].
    unfold isolationProblem. cbn. rewrite H, H2, Hg, E2, E3, bool_decide_true, !String.eqb_refl by done. cbn.
    unfold IsolationEditable in E4. bsimp. destruct E4 as [[[-> _] _] _]. cbn. by rewrite Bool.eqb_reflx.
  - by by_operation.
Qed.
Lemma stageMulticast_spec c cmd s c' :
  stageMulticast c cmd s = Ok c' -> exists i, c' = stage_group c i s /\ group_staged CMulticast c s i.
Proof.
  unfold stageMulticast. intros H. stage_cases H c cmd; cbn -[class_of]; try congruence;
    match goal with E : merged _ _ = Ok _ |- _ => rewrite Multicast.Clone_id in E; apply merged_spec in E as (Hb & _ & V1 & V2) end.
  - by by_operation.
  - intros _ _. rewrite assess_problem. cbn -[class_of]. rewrite H1. cbn -[multicastProblem].
    unfold multicastProblem. cbn. rewrite H1, H3, Hg, E2, E3, Hb, V1, V2, bool_decide_true, !String.eqb_refl by done. cbn.
    unfold MulticastEditable in E4. bsimp. destruct E4 as [[[[-> _] _] _] _]. done.
  - by by_operation.
  - intros ? [= <-]. unfold sealed_original. cbn. rewrite Hb. by rewrite E5.
Qed.

(** *** The graph groups check their intent before they accept it *)

Lemma group_checked k c s i :
  class_of (i_Operation i) = k -> problem_of k i s = "" -> Generation (i_Object i) = sn_Generation s ->
  intents c = [] \/ (exists prior, intents c = [prior] /\ sealed_original i = sealed_original prior) ->
  group_staged k c s i.
Proof.
  intros Hk Hp Hg Hs. split; [done|done|..].
  - destruct Hs as [->|(x & -> & _)]; eauto.
  - intros _ _. by rewrite assess_problem, Hk.
  - intros prior Hc. destruct Hs as [Hs|(x & Hx & Hs)]; congruence.
Qed.

Lemma creationProblem_none i s :
  creationProblem i s = "" -> exists c, i_Creation i = Some c /\ i_Operation i = BridgeCreate /\
    Generation (i_Object i) = sn_Generation s /\
    minted_problem (CreationBindings i) (bc_BeforePresent c) (bc_AfterPresent c) s = "".
Proof.
  unfold creationProblem. destruct (i_Creation i) as [c|]; [|done]. intros H. exists c.
  repeat (match type of H with (if ?b then _ else _) = _ => destruct b eqn:?; [done|] end). bsimp. tauto.
Qed.
Lemma deletionProblem_none i s :
  deletionProblem i s = "" -> exists d, i_Deletion i = Some d /\ i_Operation i = BridgeDelete /\
    Generation (i_Object i) = sn_Generation s /\ i_Object i = bg_Bridge (bd_Source d) /\ validDeletionGraphs d = true /\
    replacement_problem (graph_Bindings (bd_Replacement d)) (bd_Restoring d && bd_Observed d) s = "".
Proof.
  unfold deletionProblem. destruct (i_Deletion i) as [d|]; [|done]. intros H. exists d.
  repeat (match type of H with (if ?b then _ else _) = _ => destruct b eqn:?; [done|] end).
  cbv zeta in H. destruct (_ <>s "") eqn:E in H; [bsimp; congruence|]. bsimp. tauto.
Qed.
Lemma portDeletionProblem_none i s :
  portDeletionProblem i s = "" -> exists d, i_PortDeletion i = Some d /\ i_Object i = pg_Port (pd_Source d) /\
    validPortDeletion d = true /\
    replacement_problem (port_graph_Bindings (pd_Replacement d)) (pd_Restoring d && pd_Observed d) s = "".
Proof.
  unfold portDeletionProblem. destruct (i_PortDeletion i) as [d|]; [|done]. intros H. exists d.
  destruct (_ || _) eqn:E in H; [done|]. cbv zeta in H. destruct (_ <>s "") eqn:E1 in H; [bsimp; congruence|].
  destruct (_ <>s "") eqn:E2 in H; [bsimp; congruence|]. bsimp. tauto.
Qed.
Lemma internalPortProblem_none i s :
  internalPortProblem i s = "" -> exists p, i_PortCreation i = Some p /\ i_Operation i = InternalPortCreate /\
    Generation (i_Object i) = sn_Generation s /\
    minted_problem (CreationBindings i) (ip_BeforePresent p) (ip_AfterPresent p) s = "".
Proof.
  unfold internalPortProblem. destruct (i_PortCreation i) as [p|]; [|done]. intros H. exists p.
  repeat (match type of H with
          | (if ?b then _ else _) = _ => destruct b eqn:?; [done|]
          | match ?o with _ => _ end = _ => destruct o; [|done]
          end; cbv zeta in H). bsimp. tauto.
Qed.

(** A staging function whose last guard is the problem of its intent. *)
Ltac checked_group H c cmd none :=
  destruct (cmd_Intents cmd) as [|in_ [|]]; try done;
  let El := fresh "El" in
  destruct (len (intents c) <=? 1) eqn:El; [|done]; apply Z.leb_le, len_le_1 in El;
  let prior := fresh "prior" in
  destruct El as [El|[prior El]]; rewrite El in H; staged_inv H;
  (eexists; split; [reflexivity|]);
  repeat match goal with
         | E : stale _ _ _ = false |- _ => let Hg := fresh "Hg" in apply stale_generation in E as [Hg _]
         end;
  apply group_checked; none; eauto.

Lemma stageCreation_spec fresh c cmd s c' :
  stageCreation fresh c cmd s = Ok c' -> exists i, c' = stage_group c i s /\ group_staged CBridgeCreate c s i.
Proof.
  unfold stageCreation. intros H.
  checked_group H c cmd ltac:(try match goal with E : creationProblem _ _ = "" |- _ =>
    pose proof (creationProblem_none _ _ E) as (? & ? & Ho & ? & ?); rewrite ?Ho end).
Qed.
Lemma stageDeletion_spec fresh c cmd s c' :
  stageDeletion fresh c cmd s = Ok c' -> exists i, c' = stage_group c i s /\ group_staged CBridgeDelete c s i.
Proof.
  unfold stageDeletion. intros H.
  checked_group H c cmd ltac:(try match goal with E : deletionProblem _ _ = "" |- _ =>
    pose proof (deletionProblem_none _ _ E) as (? & ? & Ho & ? & ?); rewrite ?Ho end).
Qed.
Lemma stageInternalPort_spec fresh c cmd s c' :
  stageInternalPort fresh c cmd s = Ok c' -> exists i, c' = stage_group c i s /\ group_staged CPortCreate c s i.
Proof.
  unfold stageInternalPort. intros H.
  checked_group H c cmd ltac:(try match goal with E : internalPortProblem _ _ = "" |- _ =>
    pose proof (internalPortProblem_none _ _ E) as (? & ? & Ho & ? & ?); rewrite ?Ho end).
  right. eexists. split; [done|]. unfold sealed_original. cbn.
  repeat match goal with H : _ = Some _ |- _ => rewrite H end. done.
Qed.
Lemma stagePortDeletion_spec fresh c cmd s c' :
  stagePortDeletion fresh c cmd s = Ok c' -> exists i, c' = stage_group c i s /\ group_staged CPortDelete c s i.
Proof.
  unfold stagePortDeletion. intros H.
  checked_group H c cmd ltac:(by_operation); cbn; [by by_operation|congruence].
Qed.

(** *** topology.go and mirror.go *)

Lemma T_bind_ok {A B} (m : T A) (f : A -> T B) w r w' :
  (m ≫= f) w = Returned (Ok (r, w')) -> exists a w1, m w = Returned (Ok (a, w1)) /\ f a w1 = Returned (Ok (r, w')).
Proof.
  unfold mbind, T_bind. destruct (m w) as [[[a w1]|e]|] eqn:E; try done. eauto.
Qed.
Lemma refuse_ok b code w r w' : refuse b code w = Returned (Ok (r, w')) -> b = false /\ w' = w.
Proof. unfold refuse. destruct b; [done|]. by intros [= _ <-]. Qed.
(** The steps of a graph change that returned. *)
Ltac steps H :=
  repeat (apply T_bind_ok in H as (? & ? & ? & H)).

Lemma first_refusal_none i s :
  first_refusal (topologyChecks i s) = None -> topologyProblem i s = "" /\ Forall (fun g => g_State g = "allowed") (topologyChecks i s).
Proof.
  intros H. assert (Forall (fun g => g_State g = "allowed") (topologyChecks i s)) as Ha.
  { apply Forall_forall. intros g Hg. eapply find_none in H; [|by apply list_elem_of_In]. bsimp. done. }
  split; [|done]. unfold topologyChecks in Ha. cbv zeta in Ha. apply Forall_app in Ha as [Ha _].
  destruct (topologyProblem i s =s "") eqn:E; [bsimp; done|]. cbn in Ha. by apply Forall_inv in Ha.
Qed.
Lemma checked_intent i s w r w' :
  (match first_refusal (topologyChecks i s) with Some g => fail (g_Code g) | None => mret tt end) w = Returned (Ok (r, w')) ->
  topologyProblem i s = "" /\ Forall (fun g => g_State g = "allowed") (topologyChecks i s).
Proof. destruct (first_refusal _) eqn:E; [done|]. intros _. by apply first_refusal_none. Qed.

Definition topology_staged (in_ : Intent) (s : Snapshot) (i : StoredIntent) : Prop :=
  i_Operation i = in_Operation in_ /\ i_Object i = in_Object in_ /\ i_ID i = in_ID in_ /\
  (exists g, i_Topology i = Some g /\ tp_Compensating g = false /\ tp_Observed g = false) /\
  topologyProblem i s = "" /\ Forall (fun g => g_State g = "allowed") (topologyChecks i s).

Lemma topology_change_spec fresh s in_ r n w i w' :
  topology_change fresh s in_ r n w = Returned (Ok (i, w')) -> topology_staged in_ s i.
Proof.
  unfold topology_change. intros H. steps H. injection H as <- <-.
  match goal with E : _ = Returned (Ok (_, _)) |- _ => apply checked_intent in E as [? ?] end.
  split_and!; try done. eexists. split; [reflexivity|]. by destruct (IsTunnelOperation _).
Qed.
Lemma mirror_change_spec fresh s in_ r object w i w' :
  mirror_change fresh s in_ r object w = Returned (Ok (i, w')) -> topology_staged in_ s i.
Proof.
  unfold mirror_change. intros H. apply T_bind_ok in H as ([[? ?] ?] & ? & _ & H). steps H.
  destruct (mirror_nodes _ _); [|done]. steps H. injection H as <- <-.
  match goal with E : _ = Returned (Ok (_, _)) |- _ => apply checked_intent in E as [? ?] end.
  split_and!; try done. eexists. by split; [reflexivity|].
Qed.

Lemma staged_ok c s m c' :
  staged c s m = Returned (Ok c') -> exists i w, m no_work = Returned (Ok (i, w)) /\ c' = stage_group c i s.
Proof. unfold staged. destruct (m no_work) as [[[i w]|]|]; try done. intros [= <-]. eauto. Qed.

(** A graph change is staged on an empty candidate, and only when none of its
    own gates refuses it. *)
Lemma stageTopology_spec fresh c cmd s c' :
  stageTopology fresh c cmd s = Returned (Ok c') ->
  exists in_ i, cmd_Intents cmd = [in_] /\ intents c = [] /\ c' = stage_group c i s /\ topology_staged in_ s i /\
                IsTopologyOperation (in_Operation in_) = true /\ Generation (in_Object in_) = sn_Generation s.
Proof.
  unfold stageTopology. destruct (cmd_Intents cmd) as [|in_ [|]] eqn:Ec; try done. intros H. exists in_.
  destruct (IsMirrorOperation _) eqn:Em in H.
  - unfold stageMirror in H. rewrite Ec in H. destruct (intents c); [|done]. destruct (in_Topology in_); [|done].
    rewrite Em in H. repeat (match type of H with
      | (if ?b then _ else _) = _ => destruct b eqn:?; [done|]
      | match ?o with _ => _ end = _ => destruct o; [|done]
      end).
    apply staged_ok in H as (i & w & H & ->). apply mirror_change_spec in H. exists i. split_and!; try done.
    + unfold IsTopologyOperation. by rewrite Em.
    + by match goal with E : stale _ _ _ = false |- _ => apply stale_generation in E as [Hg _] end.
  - repeat (match type of H with
      | (if ?b then _ else _) = _ => destruct b eqn:?; [done|]
      | match ?o with _ => _ end = _ => destruct o; [|done]
      end).
    apply staged_ok in H as (i & w & H & ->). apply topology_change_spec in H. exists i. bsimp. split_and!; try done; try tauto.
    by match goal with E : stale _ _ _ = false |- _ => apply stale_generation in E as [Hg _] end.
Qed.

(** ** Every group *)

Lemma stage_group_spec fresh c cmd s c' first :
  (exists r, cmd_Intents cmd = first :: r) -> stage_class group_classes c first <> CPort -> 
  stage fresh c cmd s = Returned (Ok c') ->
  exists i, c' = stage_group c i s /\ group_staged (stage_class group_classes c first) c s i.
Proof.
  intros [r Hr] Hk. unfold stage. rewrite Hr. destruct (_ <? _); [done|]. destruct (carried _); [|done].
  destruct (stage_class _ _ _) eqn:Ek; intros H; try done; try injection H as H.
  - by eapply stageMulticast_spec.
  - by eapply stageIsolation_spec.
  - by eapply stageSpanningTree_spec.
  - apply stageTopology_spec in H as (in_ & i & Hi & Hc & -> & (Ho & Hb & _ & _ & Hp & _) & Ht & Hg). exists i. split; [done|].
    apply group_checked; [rewrite Ho; by apply class_topology|done|congruence|by left].
  - by eapply stagePolicing_spec.
  - by eapply stageMTU_spec.
  - by eapply stagePortDeletion_spec.
  - by eapply stageInternalPort_spec.
  - by eapply stageDeletion_spec.
  - by eapply stageCreation_spec.
Qed.
