(* ===== verification/CandidateProperties.v ===== *)
(** * internal/candidate: the properties of staging, rebasing and the gates *)

From S2P Require Import Prelude GoStrings Sha256 GoJson GoTime ApiTypes Multicast Mirror Tunnel.
From S2P Require Import CandidateTypes Intents Planning Staging Candidates.
Import Planning Staging.

#[local] Opaque digest_json.

(** ** Commands on Port fields *)

(** Staging never replaces what an intent captured when it was first
    staged: identity, object, operation, original values, dependency, schema
    and members stay, wherever the new command edits. The intents it adds
    compare equal with the snapshot they were staged against. *)
Theorem staging_keeps_originals c l s c' :
  l <> [] -> well_formed c -> stage_ports c l s = Ok c' ->
  (forall n i, intents c !! n = Some i -> exists i', intents c' !! n = Some i' /\ captured i' = captured i) /\
  (forall n i, (List.length (intents c) <= n)%nat -> intents c' !! n = Some i -> agrees_with s i).
Proof. intros Hne Hwf H. destruct (stage_ports_spec _ _ _ _ Hne Hwf H) as (_ & _ & Hk & Hf). auto. Qed.

(** A rebase is a decision about every conflict: it is bound to the
    comparison the user saw, refuses an intent whose difference has no choice,
    drops exactly the intents resolved to the current value, and keeps the
    value of the others over an original that agrees with the snapshot. *)
Theorem rebase_resolves c cmd s c' :
  well_formed c -> rebase c cmd s = Ok c' ->
  cmd_ConflictSnapshot cmd = Some (ConflictID c s) /\
  exists m, resolutions (cmd_Resolutions cmd) ∅ = Ok m /\
    Forall (fun i => snd (comparison i s) <> "" -> choice m i <> "") (intents c) /\
    i_ID <$> intents c' = i_ID <$> filter (fun i => choice m i <> "keep-current") (intents c) /\
    Forall2 (fun i i' => i_Value i' = i_Value i /\ i_Bond i' = i_Bond i /\ agrees_with s i')
      (filter (fun i => choice m i <> "keep-current") (intents c)) (intents c').
Proof.
  intros Hwf H. destruct (rebase_spec _ _ _ _ Hwf H) as (m & Ei & Hm & HF & _ & _ & Hc).
  split; [done|]. exists m. rewrite Ei. split_and!; [done| | |].
  - eapply Forall_impl; [exact HF|]. by intros i [_ ?].
  - rewrite <- list_fmap_compose. apply list_fmap_ext. intros ? i _. apply rebased_identity.
  - apply Forall2_fmap_r, Forall_Forall2_diag, Forall_forall. intros i [_ Hin]%list_elem_of_filter.
    destruct (rebased_identity s i) as (_ & _ & Ev & Eb & _). split_and!; [exact Ev|exact Eb|].
    rewrite Forall_forall in HF. apply rebased_agrees; [|by apply HF].
    exact (proj1 (Forall_forall _ _) (wf_fields _ Hwf) i Hin).
Qed.

(** [remove] takes exactly the named intents out, and refuses a name that
    is repeated or not staged. *)
Theorem remove_exact l ids r :
  NoDup (i_ID <$> l) -> remove_intents l ids [] = Ok r ->
  r = filter (fun i => i_ID i ∉ ids) l /\ NoDup ids /\ Forall (fun id => id ∈ i_ID <$> l) ids.
Proof.
  intros Hn H. apply remove_intents_spec in H as (-> & ? & HF); [|done]. split_and!; try done.
  eapply Forall_impl; [exact HF|]. by intros id [? _].
Qed.

(** ** Gates *)

Create Rewrite HintDb gates.
Lemma Passed_app a b : Passed (a ++ b) = Passed a && Passed b.
Proof. apply forallb_app. Qed.
Lemma Passed_blocked b code id : Passed (when b (gate code "blocked" id)) = negb b.
Proof. by destruct b. Qed.
Lemma Passed_allowed b code id : Passed (when b (gate code "allowed" id)) = true.
Proof. by destruct b. Qed.
Lemma Passed_note code id : Passed [gate code "allowed" id] = true.
Proof. done. Qed.
#[local] Hint Rewrite Passed_app Passed_blocked Passed_allowed Passed_note : gates.
#[local] Opaque Passed when gate.

(** A disjunction of decidable facts, from left to right. *)
#[local] Ltac dec_or :=
  repeat match goal with
         | |- ?b = false \/ _ => destruct b; [right|by left]
         | |- ?x <> ?y \/ _ => destruct (decide (x = y)); [right|by left]
         | |- _ <= _ \/ _ => first [left; lia|right]
         | |- _ /\ _ => split
         end.

(** A bond configuration that Open vSwitch runs as configured: a fallback
    needs LACP, and on several members TCP balancing needs LACP while SLB
    balancing excludes flooded VLANs. *)
Definition bond_sound (p : Port) (b : Bond) : Prop :=
  let '(lacp, mode, fallback) := bondModes b in
  (fallback = true -> lacp <> "off") /\
  (1 < len (Members p) ->
   (mode = "balance-tcp" -> lacp <> "off") /\ (mode = "balance-slb" -> FloodVLANs p = [])).

(** The gates of a bond intent pass exactly when the port is ours to
    change and both the captured and the desired configuration are natively
    known and sound, on a port that is not local, whose members are
    supported, enough, and not under a spanning tree. *)
Theorem bond_gates i p :
  Passed (bondChecks i p) = true <->
  exists old new, i_BeforeBond i = Some old /\ i_Bond i = Some new /\
    bondNativeKnown (Some old) = true /\ bondNativeKnown (Some new) = true /\
    bond_sound p old /\ bond_sound p new /\
    BondSupported p = true /\ BondAuthority p = "local-managed" /\ LocalPort p = false /\
    MemberKindsSupported p = true /\ Members p <> [] /\
    (i_Operation i = "bond.configure" -> 2 <= len (Members p)) /\
    (1 < len (Members p) -> po_STP p = false /\ po_RSTP p = false).
Proof.
  unfold bondChecks. autorewrite with gates.
  destruct (i_BeforeBond i) as [old|]; [|autorewrite with gates; cbn [negb]; rewrite !andb_false_r; split; [done|by intros (? & ? & ? & _)]].
  destruct (i_Bond i) as [new|]; [|autorewrite with gates; cbn [negb]; rewrite !andb_false_r; split; [done|by intros (? & ? & ? & ? & _)]].
  destruct (bondNativeKnown (Some old)) eqn:K1, (bondNativeKnown (Some new)) eqn:K2; cbn [negb orb];
    autorewrite with gates;
    try (cbn [negb]; rewrite !andb_false_r; split; [done|intros (? & ? & ? & ? & ? & ? & _); simplify_eq; congruence]).
  unfold bond_sound. destruct (bondModes old) as [[l0 m0] f0] eqn:B0, (bondModes new) as [[l1 m1] f1] eqn:B1.
  autorewrite with gates. rewrite !negb_involutive. split.
  - intros H. bsimp. destruct H as (H1 & H2 & H3 & H4 & H5 & H6 & H7 & H8 & H9 & H10 & _).
    exists old, new. rewrite B0, B1. split_and!; try tauto; intuition congruence || (intros; intuition (lia || congruence)).
  - intros (o & n & [= <-] & [= <-] & _ & _ & Ho & Hn & H). rewrite B0 in Ho. rewrite B1 in Hn. bsimp.
    destruct H as (? & ? & ? & ? & ? & Hop & Hst), Ho as [Ho1 Ho2], Hn as [Hn1 Hn2].
    split_and!; try done.
    all: destruct (decide (1 < len (Members p))) as [Hs|Hs]; [destruct (Ho2 Hs), (Hn2 Hs), (Hst Hs)|];
      rewrite ?Logic.or_assoc; dec_or; auto.
Qed.

Definition standard_modes : list string := ["access"; "trunk"; "native-tagged"; "native-untagged"].
Definition no_reserved (v : VLAN) : Prop :=
  Forall (fun n => reserved n = false) (default [] (Trunks v) ++ default [] (CVLANs v) ++ option_list (v_Tag v)).

Lemma existsb_Forall {A} (f : A -> bool) l : existsb f l = false <-> Forall (fun x => f x = false) l.
Proof.
  induction l as [|x l IH]; cbn; [by split|]. by rewrite orb_false_iff, Forall_cons, IH.
Qed.

(** The gates of an ordinary VLAN intent pass exactly when the port's
    schema offers the desired mode, the port is locally managed, the captured
    value is one the model fully understands (a standard or absent mode and
    no customer VLANs), and no reserved VLAN was observed. *)
Theorem vlan_gates i s p :
  Ports s !! object_of i = Some p -> IsBondOperation (i_Operation i) = false -> UsesQinQ i = false ->
  (Passed (port_checks i s) = true <->
   SchemaSupported p = true /\ (exists m, v_Mode (i_Value i) = Some m /\ m ∈ Modes p) /\
   Authority p = "local-managed" /\
   (forall m, v_Mode (i_Before i) = Some m -> m ∈ standard_modes) /\
   default [] (CVLANs (i_Before i)) = [] /\ no_reserved (i_Before i)).
Proof.
  unfold object_of, port_checks, no_reserved. intros -> -> ->. autorewrite with gates. bsimp.
  rewrite !Forall_app, !existsb_app, !orb_false_iff, !existsb_Forall.
  assert (Hm : match match v_Mode (i_Value i) with Some m => Some m | None => None end with
               | Some m => negb (contains (Modes p) m) | None => true end = false
               <-> exists m, v_Mode (i_Value i) = Some m /\ m ∈ Modes p).
  { destruct (v_Mode (i_Value i)) as [m|]; [|split; [done|by intros (? & ? & _)]].
    bsimp. rewrite <- list_elem_of_In. split; [eauto|by intros (? & [= <-] & ?)]. }
  assert (Hb : match v_Mode (i_Before i) with
               | Some m => negb (contains standard_modes m) | None => false end = false
               <-> forall m, v_Mode (i_Before i) = Some m -> m ∈ standard_modes).
  { destruct (v_Mode (i_Before i)) as [m|]; [|by split]. bsimp. rewrite <- list_elem_of_In.
    split; [by intros ? ? [= <-]|auto]. }
  assert (Ht : match v_Tag (i_Before i) with Some t => reserved t | None => false end = false
               <-> Forall (fun n => reserved n = false) (option_list (v_Tag (i_Before i)))).
  { destruct (v_Tag (i_Before i)) as [t|]; cbn; [by rewrite Forall_singleton|by split]. }
  fold standard_modes. rewrite Hm, Hb, Ht. tauto.
Qed.

(** ** Comparing VLAN values *)

Definition plain_vlan (v : VLAN) : Prop := match v_Mode v with Some m => ascii_string m | None => True end.

Lemma plain_numbers l : plain (jlist JNum l).
Proof. induction l as [|n l IH]; [done|]. split; [done|exact IH]. Qed.

Lemma jlist_num_inj l k : jlist JNum l = jlist JNum k -> l = k.
Proof. intros [= E]. revert k E. induction l as [|x l IH]; intros [|y k] E; try done. injection E as -> E. f_equal. auto. Qed.

Lemma plain_normalized v : plain_vlan v -> plain (vlan_json (normalize v)).
Proof.
  intros Hv. unfold vlan_json, normalize, jslice. cbn [Trunks CVLANs v_Mode v_Tag jopt].
  split_and!; try apply plain_numbers; try by vm_compute; try (repeat constructor; done).
  - unfold plain_vlan in Hv. by destruct (v_Mode v).
  - by destruct (v_Tag v).
Qed.

(** Two VLAN values compare equal exactly when they agree on mode and tag
    and hold the same trunks and customer VLANs in any order, as long as their
    two normal forms do not collide under SHA-256. *)
Theorem equal_up_to_order a b :
  plain_vlan a -> plain_vlan b -> no_collision (vlan_json (normalize a)) (vlan_json (normalize b)) ->
  (equal a b = true <->
   v_Mode a = v_Mode b /\ v_Tag a = v_Tag b /\ default [] (Trunks a) ≡ₚ default [] (Trunks b)
   /\ default [] (CVLANs a) ≡ₚ default [] (CVLANs b)).
Proof.
  intros Ha Hb Hc. unfold equal, vlan_digest. rewrite String.eqb_eq.
  rewrite digest_json_eq by auto using plain_normalized. rewrite <- !sort_ints_perm. split.
  - unfold vlan_json, normalize, jslice, jostr. cbn [Trunks CVLANs v_Mode v_Tag jopt].
    intros E. injection E as E1 E2 E3 E4. split_and!.
    + destruct (v_Mode a), (v_Mode b); simplify_eq; done.
    + destruct (v_Tag a), (v_Tag b); simplify_eq; done.
    + apply jlist_num_inj. by unfold jlist; rewrite E3.
    + apply jlist_num_inj. by unfold jlist; rewrite E4.
  - intros (E1 & E2 & E3 & E4). unfold normalize. by rewrite E1, E2, E3, E4.
Qed.

(** ** Single-intent groups *)

Lemma group_stage (c : Candidate) : len (intents c) <=? 1 = true ->
  intents c = [] \/ exists prior, intents c = [prior].
Proof. unfold len. destruct (intents c) as [|i [|j l]]; cbn; [auto|eauto|]. intros H. apply Z.leb_le in H. lia. Qed.

(** Staging multicast snooping leaves one intent whose target is the
    captured configuration with the requested changes, both within the closed
    native configuration. A first staging captures the bridge as it is and
    compares equal with it; a later one keeps everything captured. *)
Theorem multicast_staged c cmd s c' :
  stageMulticast c cmd s = Ok c' ->
  exists in_ request b i change,
    cmd_Intents cmd = [in_] /\ in_Multicast in_ = Some request /\
    Multicasts s !! ManagementID_ (in_Object in_) = Some b /\ MulticastEditable b = true /\
    intents c' = [i] /\ c_Generation c' = Some (sn_Generation s) /\
    i_Multicast i = Some change /\ i_ID i = in_ID in_ /\ i_Object i = in_Object in_ /\
    Multicast.Merge (mc_Before change) request = Ok (mc_After change) /\
    ((intents c = [] /\ mc_Before change = mb_Configuration b /\ multicastProblem i s = EmptyString) \/
     exists prior m, intents c = [prior] /\ captured i = captured prior /\ i_Multicast prior = Some m /\
       mc_Before change = mc_Before m).
Proof.
  unfold stageMulticast. destruct (cmd_Intents cmd) as [|in_ [|]]; try done.
  destruct (len (intents c) <=? 1) eqn:E1; [|done]. apply group_stage in E1.
  destruct (in_Multicast in_) as [request|] eqn:E2; [|done].
  destruct (_ || _) eqn:G1; [done|]. destruct (stale c in_ s) eqn:G2; [done|].
  apply stale_generation in G2 as [Hg _].
  destruct (Multicasts s !! _) as [b|] eqn:Eb; [|done].
  destruct (negb (bool_decide _)) eqn:G3; [done|]. destruct (negb (MulticastEditable b)) eqn:G4; [done|].
  apply negb_false_iff in G4. apply negb_false_iff, bool_decide_eq_true in G3. rewrite !orb_false_iff in G1.
  destruct G1 as [[[[G1 _] GT] _] _]. apply negb_false_iff, String.eqb_eq in G1, GT.
  intros H. exists in_, request, b. destruct E1 as [E1|[prior E1]]; rewrite E1 in H |- *.
  - rewrite Multicast.Clone_id in H. destruct (merged _ _) as [change|] eqn:Em; [|done]. injection H as <-.
    apply merged_spec in Em as (Hbf & Hmg & V1 & V2). eexists _, change. rewrite Hbf.
    split_and!; try done. left. split_and!; try done. unfold multicastProblem. cbn.
    rewrite Hbf, G1, GT, V1, V2, Hg, String.eqb_refl, Eb, bool_decide_true, String.eqb_refl by done. cbn.
    unfold MulticastEditable in G4. rewrite !andb_true_iff in G4. destruct G4 as ((((-> & _) & _) & _) & _). cbn.
    by rewrite !String.eqb_refl.
  - destruct (i_Multicast prior) as [m|] eqn:Em; [|done]. destruct (_ || _) eqn:G5 in H; [done|].
    rewrite Multicast.Clone_id in H. destruct (merged _ _) as [change|] eqn:Eg; [|done]. injection H as <-.
    apply merged_spec in Eg as (Hbf & Hmg & _). rewrite !orb_false_iff in G5. destruct G5 as [[_ G5] G6].
    apply negb_false_iff, String.eqb_eq in G5. apply negb_false_iff, bool_decide_eq_true in G6.
    eexists _, change. rewrite Hbf. split_and!; try done. right. exists prior, m. done.
Qed.

(** Staging port isolation leaves one intent whose target is the requested
    flag. A first staging captures the port as it is and compares equal with
    it; a later one keeps everything captured. *)
Theorem isolation_staged c cmd s c' :
  stageIsolation c cmd s = Ok c' ->
  exists in_ protected p i change,
    cmd_Intents cmd = [in_] /\ in_Protected in_ = Some protected /\
    Isolations s !! ManagementID_ (in_Object in_) = Some p /\ IsolationEditable p = true /\
    intents c' = [i] /\ c_Generation c' = Some (sn_Generation s) /\
    i_Isolation i = Some change /\ i_ID i = in_ID in_ /\ i_Object i = in_Object in_ /\ iso_After change = protected /\
    ((intents c = [] /\ iso_Before change = isp_Protected p /\ isolationProblem i s = EmptyString) \/
     exists prior m, intents c = [prior] /\ captured i = captured prior /\ i_Isolation prior = Some m /\
       iso_Before change = iso_Before m).
Proof.
  unfold stageIsolation. destruct (cmd_Intents cmd) as [|in_ [|]]; try done.
  destruct (len (intents c) <=? 1) eqn:E1; [|done]. apply group_stage in E1.
  destruct (in_Protected in_) as [protected|] eqn:E2; [|done].
  destruct (_ || _) eqn:G1; [done|]. destruct (stale c in_ s) eqn:G2; [done|].
  apply stale_generation in G2 as [Hg _].
  destruct (Isolations s !! _) as [p|] eqn:Eb; [|done].
  destruct (negb (bool_decide _)) eqn:G3; [done|]. destruct (negb (IsolationEditable p)) eqn:G4; [done|].
  apply negb_false_iff in G4. apply negb_false_iff, bool_decide_eq_true in G3. rewrite !orb_false_iff in G1.
  destruct G1 as [[[G1 _] GT] _]. apply negb_false_iff, String.eqb_eq in G1, GT.
  intros H. exists in_, protected, p. destruct E1 as [E1|[prior E1]]; rewrite E1 in H |- *.
  - injection H as <-. eexists _, (mkIsolationChange (isp_Protected p) protected).
    split_and!; try done. left. split_and!; try done. unfold isolationProblem. cbn.
    rewrite G1, GT, Hg, String.eqb_refl, Eb, bool_decide_true, String.eqb_refl by done. cbn.
    unfold IsolationEditable in G4. rewrite !andb_true_iff in G4. destruct G4 as (((-> & _) & _) & _). cbn.
    by rewrite !String.eqb_refl, Bool.eqb_reflx.
  - destruct (i_Isolation prior) as [m|] eqn:Em; [|done]. destruct (_ || _) eqn:G5 in H; [done|].
    injection H as <-. rewrite !orb_false_iff in G5. destruct G5 as [[_ G5] G6].
    apply negb_false_iff, String.eqb_eq in G5. apply negb_false_iff, bool_decide_eq_true in G6.
    eexists _, (mkIsolationChange (iso_Before m) protected). split_and!; try done. right. exists prior, m. done.
Qed.

(** ** Witnesses: a snapshot with a VLAN port, a bond and a bridge *)

Module Example.
Definition port_binding : Binding := mkBinding "11111111-1111-4111-8111-111111111111" "u1" "Port" "g".
Definition bond_binding : Binding := mkBinding "22222222-2222-4222-8222-222222222222" "u2" "Port" "g".
Definition bridge_binding : Binding := mkBinding "33333333-3333-4333-8333-333333333333" "u3" "Bridge" "g".
Definition access (tag : Z) : VLAN := mkVLAN (Some "access") (Some tag) (Some []) (Some []).
Definition port : Port :=
  mkPort None false port_binding (access 10) true true standard_modes "vlan-dep" "local-managed" "" zero_bond false
    false "" "" [] false false [] false false.
Definition bond : Port :=
  mkPort None false bond_binding zero_vlan false true standard_modes "vlan-dep" "local-managed" ""
    (mkBond (Some "active") None None) true true "bond-dep" "local-managed" ["m1"; "m2"] true false [] false false.
Definition snooping : Multicast.Configuration :=
  Multicast.mkConfiguration true
    (list_to_map ((fun k => (k, if k =s "mcast-snooping-aging-time" then Some "300" else None)) <$> Multicast.Keys)).
Definition bridge : MulticastBridge :=
  mkMulticastBridge bridge_binding snooping true true "local-managed" "mc-dep" "" [].
Definition isolated : IsolationPort :=
  mkIsolationPort port_binding false true true "local-managed" "iso-dep" "" [].
Definition snapshot (revision : string) (p : Port) : Snapshot :=
  mkSnapshot {[ManagementID_ bridge_binding := bridge]} {[ManagementID_ port_binding := isolated]} ∅ no_topology "g"
    revision "schema" "policy" {[ManagementID_ port_binding := p; ManagementID_ bond_binding := bond]} ∅ ∅
    no_creation no_deletion no_port_deletion no_internal_port.
Definition now : Snapshot := snapshot "r1" port.
(** The port was moved to VLAN 30 by someone else. *)
Definition later : Snapshot :=
  snapshot "r2" (mkPort None false port_binding (access 30) true true standard_modes "vlan-dep" "local-managed" ""
                   zero_bond false false "" "" [] false false [] false false).
Definition empty : Candidate := mkCandidate "44444444-4444-4444-8444-444444444444" "rev" None None "empty" None None.
Definition envelope : Envelope := mkEnvelope "owner" "epoch" 0 empty "".
Definition intent_id : string := "55555555-5555-4555-8555-555555555555".
Definition edit (v : VLAN) : Intent :=
  mkIntent None None None None None intent_id "port.vlan.set" port_binding v "" "" [] "" "" 0 0.
Definition stage_command (i : Intent) : Command := mkCommand "r" "stage" [i] [] "" "" None [].

Definition get {A} (d : A) (r : result A) : A := match r with Ok a => a | Err _ => d end.
Definition staged : Candidate := Eval vm_compute in get empty (stage_ports empty [edit (access 20)] now).
Definition saved : Envelope := Eval vm_compute in get envelope (finish envelope staged "rev2").
Definition edited : Candidate := Eval vm_compute in get empty (stage_ports staged [edit (access 21)] now).
Definition keep_mine : Command :=
  Eval vm_compute in mkCommand "r" "rebase" [] [] "g" "r2" (Some (ConflictID staged later)) [mkResolution intent_id "keep-mine"].
Definition rebased_c : Candidate := Eval vm_compute in get empty (rebase staged keep_mine later).

Definition snooping_edit : Intent :=
  mkIntent (Some (Multicast.mkRequest false {["mcast-snooping-table-size" := Some "2048"]})) None None None None
    intent_id BridgeMulticastSet bridge_binding zero_vlan "" "" [] "" "" 0 0.
Definition protect : Intent :=
  mkIntent None (Some true) None None None intent_id PortIsolationSet port_binding zero_vlan "" "" [] "" "" 0 0.
Definition staged_snooping : Candidate :=
  Eval vm_compute in get empty (stageMulticast empty (stage_command snooping_edit) now).
Definition staged_protect : Candidate :=
  Eval vm_compute in get empty (stageIsolation empty (stage_command protect) now).

Lemma stage_ok : stage_ports empty [edit (access 20)] now = Ok staged.
Proof. vm_compute. reflexivity. Qed.
Lemma empty_wf : well_formed empty.
Proof. split; cbn; try constructor. unfold MaxIntents, len. cbn. lia. Qed.
Lemma staged_wf : well_formed staged.
Proof. refine (proj1 (stage_ports_spec _ _ _ _ _ empty_wf stage_ok)). discriminate. Qed.
End Example.

Lemma staging_keeps_originals_witness :
  stage_ports Example.staged [Example.edit (Example.access 21)] Example.now = Ok Example.edited /\
  exists i, intents Example.edited !! 0%nat = Some i /\ i_Value i = Example.access 21 /\ i_Before i = Example.access 10.
Proof.
  assert (E : stage_ports Example.staged [Example.edit (Example.access 21)] Example.now = Ok Example.edited)
    by (vm_compute; reflexivity).
  destruct (staging_keeps_originals _ [Example.edit (Example.access 21)] _ _ ltac:(discriminate) Example.staged_wf E)
    as [Hk _].
  destruct (Hk 0%nat _ eq_refl) as (i & Hi & Hc). split; [exact E|]. exists i. split; [exact Hi|].
  apply captured_fields in Hc as (_ & _ & _ & -> & _). injection Hi as <-. split; reflexivity.
Defined.

Lemma rebase_resolves_witness :
  rebase Example.staged Example.keep_mine Example.later = Ok Example.rebased_c /\
  i_ID <$> intents Example.rebased_c = [Example.intent_id].
Proof.
  assert (E : rebase Example.staged Example.keep_mine Example.later = Ok Example.rebased_c) by (vm_compute; reflexivity).
  pose proof (rebase_resolves _ _ _ _ Example.staged_wf E) as (_ & m & _).
  split; [exact E|vm_compute; reflexivity].
Defined.

Lemma remove_exact_witness :
  remove_intents (intents Example.staged) [Example.intent_id] [] = Ok [] /\
  filter (fun i => i_ID i ∉ [Example.intent_id]) (intents Example.staged) = [].
Proof.
  assert (E : remove_intents (intents Example.staged) [Example.intent_id] [] = Ok []) by (vm_compute; reflexivity).
  split; [exact E|]. symmetry. exact (proj1 (remove_exact _ _ _ (wf_ids _ Example.staged_wf) E)).
Defined.

Lemma vlan_gates_witness :
  let i := default zero_intent (intents Example.staged !! 0%nat) in
  Passed (port_checks i Example.now) = true /\ SchemaSupported Example.port = true /\ Authority Example.port = "local-managed".
Proof.
  set (i := default zero_intent (intents Example.staged !! 0%nat)). cbv zeta.
  assert (H : Passed (port_checks i Example.now) = true) by (vm_compute; reflexivity).
  destruct (proj1 (vlan_gates i Example.now Example.port ltac:(vm_compute; reflexivity) ltac:(vm_compute; reflexivity)
                     ltac:(vm_compute; reflexivity)) H) as (H1 & _ & H2 & _).
  split; [exact H|]. split; [exact H1|exact H2].
Defined.

Lemma equal_up_to_order_witness :
  equal (mkVLAN (Some "trunk") None (Some [20; 10]) None) (mkVLAN (Some "trunk") None (Some [10; 20]) (Some [])) = true.
Proof.
  apply equal_up_to_order.
  - vm_compute. repeat constructor.
  - vm_compute. repeat constructor.
  - intros _. vm_compute. reflexivity.
  - split; [reflexivity|]. split; [reflexivity|]. split; [apply Permutation_swap|constructor].
Defined.

Lemma multicast_staged_witness :
  exists i change, intents Example.staged_snooping = [i] /\ i_Multicast i = Some change /\
    Multicast.Enabled (mc_After change) = false /\ multicastProblem i Example.now = EmptyString.
Proof.
  assert (E : stageMulticast Example.empty (Example.stage_command Example.snooping_edit) Example.now
              = Ok Example.staged_snooping) by (vm_compute; reflexivity).
  destruct (multicast_staged _ _ _ _ E) as (in_ & request & b & i & change & Hin & Hrq & _ & _ & Hi & _ & Hm & _ & _ & Hmerge & Hcase).
  exists i, change. split; [exact Hi|]. split; [exact Hm|]. injection Hin as <-. injection Hrq as <-. split.
  - apply Multicast.Merge_ok in Hmerge as (_ & _ & _ & -> & _). reflexivity.
  - destruct Hcase as [(_ & _ & Hp)|(prior & m & Hpr & _)]; [exact Hp|discriminate Hpr].
Defined.

Lemma isolation_staged_witness :
  exists i change, intents Example.staged_protect = [i] /\ i_Isolation i = Some change /\
    iso_After change = true /\ isolationProblem i Example.now = EmptyString.
Proof.
  assert (E : stageIsolation Example.empty (Example.stage_command Example.protect) Example.now
              = Ok Example.staged_protect) by (vm_compute; reflexivity).
  destruct (isolation_staged _ _ _ _ E) as (in_ & protected & p & i & change & Hin & Hpr & _ & _ & Hi & _ & Hm & _ & _ & Ha & Hcase).
  exists i, change. split; [exact Hi|]. split; [exact Hm|]. injection Hin as <-. injection Hpr as <-. split; [exact Ha|].
  destruct Hcase as [(_ & _ & Hp)|(prior & m & Hx & _)]; [exact Hp|discriminate Hx].
Defined.
