(* ===== verification/PlannerProperties.v ===== *)
(** * internal/candidate: the properties of every command of [Prepare] *)

From S2P Require Import Prelude GoStrings Sha256 GoJson GoTime ApiTypes Multicast Mirror Tunnel SpanningTree.
From S2P Require Import CandidateTypes Intents Planning Staging FieldGroups Graphs Topology TopologyStaging Planner.
From S2P Require Import Candidates Groups CandidateProperties.
Import Planning Staging FieldGroups Graphs Topology TopologyStaging Planner.

#[local] Opaque digest_json.

(** ** Coherent candidates *)

(** A candidate of one group: a single intent of a class other than Port
    fields, of the generation of the candidate. *)
Definition grouped (c : Candidate) : Prop :=
  exists i, intents c = [i] /\ class_of (i_Operation i) <> CPort /\ c_Generation c = Some (Generation (i_Object i)).
(** Either Port fields, or one intent of one group: never both. *)
Definition coherent (c : Candidate) : Prop := well_formed c \/ grouped c.

(** A candidate that was prepared at least once: coherent, a state that tells
    whether there is something to apply, a bounded document, and no seal
    before it is signed. *)
Record prepared (e : Envelope) : Prop := mkPrepared {
  pr_coherent : coherent (e_Candidate e);
  pr_state : c_State (e_Candidate e) = if is_empty (intents (e_Candidate e)) then "empty" else "dirty";
  pr_generation : c_Generation (e_Candidate e) = None <-> intents (e_Candidate e) = [];
  pr_sequence : 0 < e_Sequence e < 2 ^ 63;
  pr_seal : e_Seal e = EmptyString;
  pr_budget : slen (marshal (envelope_json e)) <= MaxDocument }.

Lemma coherent_generation c : coherent c -> Forall (fun i => c_Generation c = Some (Generation (i_Object i))) (intents c).
Proof. intros [[]|(i & -> & _ & Hg)]; [done|]. by apply Forall_singleton. Qed.

Lemma coherent_ids c : coherent c -> NoDup (i_ID <$> intents c).
Proof. intros [[]|(i & -> & _)]; [done|]. apply NoDup_singleton. Qed.

(** An empty candidate is coherent whatever its generation. *)
Lemma coherent_nil c : intents c = [] -> coherent c.
Proof. intros E. left. split; rewrite ?E; cbn; try constructor. unfold len, MaxIntents. cbn. lia. Qed.

Lemma coherent_remove c ids l :
  coherent c -> remove_intents (intents c) ids [] = Ok l -> coherent (with_intents c l (c_Generation c) (c_BaseRevision c)).
Proof.
  intros [Hw|(i & Ei & Hk & Hg)] H; [left; by eapply remove_well_formed|].
  rewrite Ei in H. apply remove_intents_spec in H as (-> & _); [|apply NoDup_singleton].
  rewrite filter_cons. destruct (decide _); [|by apply coherent_nil]. right. exists i. cbn. done.
Qed.

Lemma coherent_rebase c cmd s c' : coherent c -> rebase c cmd s = Ok c' -> coherent c'.
Proof.
  intros [Hw|(i & Ei & Hk & Hg)] H; [left; by eapply rebase_well_formed|].
  unfold rebase in H. ok_inv. rewrite Ei in *.
  match goal with H : rebase_loop _ _ _ = Ok _ |- _ => apply rebase_loop_spec in H as [-> _]; [|apply NoDup_singleton] end.
  rewrite filter_cons. destruct (decide _); [|by apply coherent_nil].
  right. exists (rebased s i). destruct (rebased_identity s i) as (_ & Eo & _ & _ & Ep). cbn. by rewrite Eo, Ep.
Qed.

Lemma finish_spec e c id e' :
  coherent c -> finish e c id = Ok e' ->
  prepared e' /\ intents (e_Candidate e') = intents c /\ e_Sequence e' = int64 (e_Sequence e + 1) /\
  c_Revision (e_Candidate e') = id /\ e_Owner e' = e_Owner e /\ e_Epoch e' = e_Epoch e.
Proof.
  intros Hc H. unfold finish in H.
  destruct (int64 _ <=? 0) eqn:E1; [done|]. apply Z.leb_gt in E1.
  set (e1 := mkEnvelope _ _ _ _ _) in H. destruct (Budget _) as [u|] eqn:E2; [|done]. injection H as <-.
  unfold Budget in E2. destruct (MaxDocument <? _) eqn:E3; [done|]. apply Z.ltb_ge in E3.
  pose proof (int64_range (e_Sequence e + 1)) as Hr. pose proof (coherent_generation _ Hc) as Hg.
  assert (Ei : intents (e_Candidate e1) = intents c) by (cbn; by destruct (is_empty (intents c))).
  split_and!; try done; [|by cbn; destruct (is_empty (intents c))].
  split; rewrite ?Ei; try done; try (cbn; lia).
  - destruct (intents c) as [|i l] eqn:El; [by apply coherent_nil|]. cbn -[coherent].
    destruct Hc as [[]|(j & Ej & Hk & Hj)]; [left; by split|right; by exists j].
  - cbn. by destruct (is_empty (intents c)).
  - cbn. destruct (intents c) as [|i l] eqn:El; cbn; [done|]. split; [|done]. intros En.
    apply Forall_inv in Hg. congruence.
Qed.

(** ** Which group a command is staged in *)

Lemma stage_class_port l c first :
  CPort ∉ l -> stage_class l c first = CPort ->
  Forall (fun k => class_of (in_Operation first) <> k /\ Forall (fun i => class_of (i_Operation i) <> k) (intents c)) l.
Proof.
  induction l as [|k l IH]; [constructor|]. intros Hn H. cbn [stage_class] in H. apply not_elem_of_cons in Hn as [Hk Hn].
  destruct (_ || _) eqn:E in H; [congruence|]. apply orb_false_iff in E as [E1 E2]. constructor; [|auto].
  split; [by apply bool_decide_eq_false in E2|]. apply Forall_forall. intros i Hi Hk'.
  apply existsb_Forall in E1. rewrite Forall_forall in E1. specialize (E1 i Hi). by rewrite bool_decide_true in E1.
Qed.
Lemma group_classes_spec k : k <> CPort -> k ∈ group_classes.
Proof. intros H. unfold group_classes. destruct k; try done; set_solver. Qed.
Lemma ports_of_coherent c first :
  coherent c -> stage_class group_classes c first = CPort -> well_formed c.
Proof.
  intros [Hw|(i & Ei & Hk & _)] H; [done|]. exfalso. apply stage_class_port in H; [|by vm_compute; set_solver].
  rewrite Forall_forall in H. destruct (H _ (group_classes_spec _ Hk)) as [_ Hf]. rewrite Ei in Hf.
  by apply Forall_inv in Hf.
Qed.

(** An accepted staging is of Port fields, or of one group. *)
Lemma stage_spec fresh c cmd s c' :
  coherent c -> stage fresh c cmd s = Returned (Ok c') ->
  well_formed c /\ cmd_Intents cmd <> [] /\ stage_ports c (cmd_Intents cmd) s = Ok c' \/
  exists k i, k <> CPort /\ c' = stage_group c i s /\ group_staged k c s i.
Proof.
  intros Hc H. destruct (cmd_Intents cmd) as [|first r] eqn:Ei; [by unfold stage in H; rewrite Ei in H|].
  destruct (decide (stage_class group_classes c first = CPort)) as [E|E].
  - left. split; [by eapply ports_of_coherent|]. split; [done|]. unfold stage in H. rewrite Ei in H.
    destruct (_ <? _); [done|]. destruct (carried _); [|done]. rewrite E in H. by injection H.
  - right. destruct (stage_group_spec _ _ _ _ _ _ (ex_intro _ r Ei) E H) as (i & ? & ?). eauto.
Qed.

Lemma stage_coherent fresh c cmd s c' : coherent c -> stage fresh c cmd s = Returned (Ok c') -> coherent c'.
Proof.
  intros Hc H. destruct (stage_spec _ _ _ _ _ Hc H) as [(Hw & Hn & Hs)|(k & i & Hk & -> & [Hg Hcl _ _ _])].
  - left. by destruct (stage_ports_spec _ _ _ _ Hn Hw Hs).
  - right. exists i. split; [done|]. split; [congruence|]. cbn. by rewrite Hg.
Qed.

Lemma coherent_intents c c1 :
  intents c1 = intents c -> c_Generation c1 = c_Generation c -> coherent c -> coherent c1.
Proof.
  intros Ei Eg [[]|(i & Hi & Hk & Hg)].
  - left. split; rewrite ?Ei, ?Eg; done.
  - right. exists i. by rewrite Ei, Eg.
Qed.

(** What an accepted command did to the candidate, before it is closed. *)
Lemma Prepare_spec fresh revision e cmd s e' :
  coherent (e_Candidate e) -> Prepare fresh revision e cmd s = Returned (Ok e') ->
  exists c c', intents c = intents (e_Candidate e) /\ coherent c /\ coherent c' /\
    change fresh c cmd s = Returned (Ok c') /\ finish e c' revision = Ok e'.
Proof.
  intros Hc H. unfold Prepare in H. set (c := with_intents _ _ _ _) in H. exists c.
  assert (Hc1 : coherent c) by (by eapply coherent_intents; [| |exact Hc]).
  destruct (change fresh c cmd s) as [[c'|]|] eqn:E; try done. injection H as H. exists c'. split_and!; try done.
  unfold change in E. destruct (not_nil _); [done|].
  destruct (_ =s "stage"); [by eapply stage_coherent|].
  destruct (_ =s "remove").
  { injection E as E. destruct (remove_intents _ _ _) as [l|] eqn:Er; [|done]. injection E as <-. exact (coherent_remove c _ _ Hc1 Er). }
  destruct (_ =s "discard"); [injection E as <-; by apply coherent_nil|].
  destruct (_ =s "rebase"); [|done]. destruct (vw_DiffTruncated _); [done|]. injection E as E. by eapply coherent_rebase.
Qed.

(** C35. Every accepted command, of any group, leaves a prepared candidate:
    either intents on Port fields with distinct identifiers on distinct
    objects and at most 32 of them, or exactly one intent of another group,
    never a mixture; all of one generation, a state and generation that say
    whether there is anything to apply, the fresh revision, a positive [int64]
    sequence, a document within its budget, and no seal until mgrd signs it. *)
Theorem Prepare_invariant fresh revision e cmd s e' :
  coherent (e_Candidate e) -> Prepare fresh revision e cmd s = Returned (Ok e') ->
  prepared e' /\ e_Sequence e' = int64 (e_Sequence e + 1) /\ c_Revision (e_Candidate e') = revision /\
  e_Owner e' = e_Owner e /\ e_Epoch e' = e_Epoch e.
Proof.
  intros Hc H. destruct (Prepare_spec _ _ _ _ _ _ Hc H) as (c & c' & _ & _ & Hc' & _ & Hf).
  by destruct (finish_spec _ _ _ _ Hc' Hf) as (? & _ & ? & ? & ? & ?).
Qed.

(** C36. What an accepted [stage] of a group leaves: one intent of the class
    and generation it was staged in. When it is the first, comparing the
    candidate with the snapshot it was staged against shows no problem; when
    the group was staged before, the command keeps what the intent captured
    then (identity, schema, dependency, original values and graphs). *)
Theorem group_staging fresh revision e cmd s e' k i :
  coherent (e_Candidate e) -> projected s -> cmd_Operation cmd = "stage" ->
  Prepare fresh revision e cmd s = Returned (Ok e') ->
  intents (e_Candidate e') = [i] -> class_of (i_Operation i) = k -> k <> CPort ->
  Generation (i_Object i) = sn_Generation s /\
  (intents (e_Candidate e) = [] -> vw_Checks (Compare (e_Candidate e') s) = []) /\
  (forall prior, intents (e_Candidate e) = [prior] -> sealed_original i = sealed_original prior).
Proof.
  intros Hc Hj Hop H Hi Hk Hne. destruct (Prepare_spec _ _ _ _ _ _ Hc H) as (c & c' & Ei & Hc1 & Hc' & Hs & Hf).
  destruct (finish_spec _ _ _ _ Hc' Hf) as (_ & Ei' & _). rewrite Hi in Ei'.
  unfold change in Hs. destruct (not_nil _); [done|]. rewrite Hop in Hs. cbn in Hs.
  destruct (stage_spec _ _ _ _ _ Hc1 Hs) as [(Hw & Hn & Hp)|(k' & i' & Hk' & -> & [Hg Hcl _ H1 H2])].
  - exfalso. destruct (stage_ports_spec _ _ _ _ Hn Hw Hp) as ([_ _ _ _ Hfields] & _). rewrite <- Ei' in Hfields.
    apply Forall_inv in Hfields. apply Hne. rewrite <- Hk. unfold port_fields in Hfields.
    destruct Hfields as [->|[Hb _]]; [by vm_compute|]. by apply class_bond.
  - injection Ei' as ->. rewrite <- Ei. split_and!; try done. intros Hnil. specialize (H1 Hnil Hj).
    unfold Compare. rewrite Hi. cbn [compare_loop]. destruct (assess i' s) as [problem d]. cbn in H1. by rewrite H1.
Qed.

(** ** Identities *)

Lemma minted_problem_fresh l s :
  minted_problem l false true s = "" ->
  Forall (fun b => cs_Objects (Creation s) !! OVSUUID b = None /\ isset (cs_Retired (Creation s)) (OVSUUID b) = false) l.
Proof.
  induction l as [|b l IH]; [constructor|]. cbn [minted_problem]. intros H.
  destruct (not_nil _) eqn:E1; [done|]. destruct (isset _ _) eqn:E2; [done|]. bsimp. constructor; auto.
Qed.
Lemma replacement_problem_fresh l s :
  replacement_problem l false s = "" ->
  Forall (fun b => cs_Objects (Creation s) !! OVSUUID b = None /\ isset (cs_Retired (Creation s)) (OVSUUID b) = false) l.
Proof.
  induction l as [|b l IH]; [constructor|]. cbn [replacement_problem]. intros H.
  destruct (_ || _) eqn:E in H; [done|]. bsimp. constructor; tauto.
Qed.

Definition identities (l : list Binding) : list string := l ≫= fun b => [ManagementID_ b; OVSUUID b].

(** The identities [ids] are valid, distinct, and none of those [seen]. *)
Record new_ids (ids seen : list string) : Prop := mkNewIds {
  ni_distinct : NoDup ids;
  ni_valid : Forall (fun id => ManagementID id = true) ids;
  ni_new : Forall (fun id => id ∉ seen) ids }.

Lemma new_ids_app a b seen seen' :
  new_ids a seen -> (forall x, x ∈ seen' <-> x ∈ a \/ x ∈ seen) -> new_ids b seen' -> new_ids (a ++ b) seen.
Proof.
  intros [H1 H2 H3] Hs [H4 H5 H6]. rewrite Forall_forall in H6. split.
  - apply NoDup_app. split_and!; [done| |done]. intros x Hx Hb. apply (H6 x Hb), Hs. by left.
  - by apply Forall_app.
  - apply Forall_app. split; [done|]. apply Forall_forall. intros x Hx Hn. apply (H6 x Hx), Hs. by right.
Qed.
Lemma distinct_ids_spec ids : forall seen out,
  distinct_ids ids seen = Some out -> new_ids ids seen /\ forall x, x ∈ out <-> x ∈ ids \/ x ∈ seen.
Proof.
  induction ids as [|id ids IH]; intros seen out H; cbn [distinct_ids] in H.
  { injection H as <-. split; [split; constructor|set_solver]. }
  destruct (_ || _) eqn:E in H; [done|]. bsimp. destruct E as [E1 E2]. destruct (IH _ _ H) as [H1 H2].
  split; [|set_solver]. apply (new_ids_app [id] ids seen (id :: seen)); [|set_solver|done].
  split; [apply NoDup_singleton|by constructor|]. constructor; [|constructor]. by rewrite list_elem_of_In.
Qed.
Lemma graph_ids_spec l : forall tables g seen out,
  graph_ids l tables g seen = Some out -> List.length l = List.length tables ->
  new_ids (identities l) seen /\ (forall x, x ∈ out <-> x ∈ identities l \/ x ∈ seen) /\
  Forall (fun b => Generation b = g) l /\ Table <$> l = tables.
Proof.
  induction l as [|b l IH]; intros [|t ts] g seen out H Hl; try done.
  { injection H as <-. split_and!; try done; [split; constructor|set_solver]. }
  cbn [graph_ids] in H. destruct (_ || _) eqn:E in H; [done|]. bsimp. destruct E as [<- E2].
  destruct (distinct_ids _ seen) as [seen1|] eqn:E3; [|done]. cbn in H. injection Hl as Hl.
  apply distinct_ids_spec in E3 as [H1 H2]. destruct (IH _ _ _ _ H Hl) as (H3 & H4 & H5 & H6).
  split_and!; [by eapply (new_ids_app [_; _])| |by constructor|cbn; by f_equal].
  intros x. rewrite H4, H2. unfold identities. cbn [mbind list_bind]. set_solver.
Qed.

(** What makes a deletion reversible: the graph that would be recreated has
    the tables of the deleted one, in its generation, with identities that are
    valid, distinct from each other, from the deleted ones and from the known
    context, that no row has and that were never used before. *)
Record recoverable (s : Snapshot) (generation : string) (known : list string) (source replacement : list Binding) : Prop :=
  mkRecoverable {
  rc_ids : new_ids (identities (source ++ replacement)) known;
  rc_generation : Forall (fun b => Generation b = generation) (source ++ replacement);
  rc_tables : Table <$> replacement = Table <$> source;
  rc_fresh : Forall (fun b => cs_Objects (Creation s) !! OVSUUID b = None
                              /\ isset (cs_Retired (Creation s)) (OVSUUID b) = false) replacement }.

Lemma graphs_recoverable s g known tables source replacement out :
  graph_ids source tables g known ≫= graph_ids replacement tables g = Some out ->
  List.length source = List.length tables -> List.length replacement = List.length tables ->
  replacement_problem replacement false s = "" -> recoverable s g known source replacement.
Proof.
  intros H Hl1 Hl2 Hf. destruct (graph_ids source _ _ _) as [seen|] eqn:E; [|done]. cbn in H.
  apply graph_ids_spec in E as (H1 & H2 & H3 & H4); [|done]. apply graph_ids_spec in H as (H5 & _ & H7 & H8); [|done].
  split; [|by apply Forall_app|congruence|by apply replacement_problem_fresh].
  unfold identities in *. rewrite bind_app. by eapply new_ids_app.
Qed.

(** C37. Staging the deletion of an isolated bridge captures exactly the graph
    that the inventory proved to be ours, with its ownership marker, and
    reserves a replacement that compensation could create: same name and
    root, all new identities. *)
Theorem bridge_deletion_recoverable fresh c cmd s c' :
  intents c = [] -> stageDeletion fresh c cmd s = Ok c' ->
  exists i d owned, intents c' = [i] /\ i_Deletion i = Some d /\
    ds_Graphs (Deletion s) !! ManagementID_ (i_Object i) = Some owned /\
    bd_Source d = mg_Graph owned /\ bd_SourceMarker d = mg_Marker owned /\ i_Object i = bg_Bridge (bd_Source d) /\
    bg_Name (bd_Replacement d) = bg_Name (bd_Source d) /\ bg_Root (bd_Replacement d) = bg_Root (bd_Source d) /\
    recoverable s (sn_Generation s) [bg_Root (bd_Source d)] (graph_Bindings (bd_Source d)) (graph_Bindings (bd_Replacement d)).
Proof.
  unfold stageDeletion. intros Ec H. destruct (cmd_Intents cmd) as [|in_ [|]]; try done. rewrite Ec in H. staged_inv H.
  match goal with E : deletionProblem _ _ = "" |- _ => apply deletionProblem_none in E as (d & Hd & _ & Hg & Ho & Hv & Hr) end.
  eexists _, d, _. split; [reflexivity|]. injection Hd as <-. split_and!; try done; try congruence.
  unfold validDeletionGraphs in Hv. rewrite !andb_true_iff in Hv. destruct Hv as [_ Hv].
  apply not_nil_true in Hv as [out Hv]. cbn -[graph_ids replacement_problem] in *.
  rewrite <- Ho, Hg in Hv. by eapply graphs_recoverable.
Qed.

(** The same for the deletion of a managed internal port: the captured
    graph is the one that is proven to be ours, and the replacement differs
    from it in its own identities only, which are new even to every binding of
    the parent bridge. *)
Theorem port_deletion_recoverable fresh c cmd s c' :
  intents c = [] -> stagePortDeletion fresh c cmd s = Ok c' ->
  exists i d owned, intents c' = [i] /\ i_PortDeletion i = Some d /\
    pds_Graphs (PortDeletions s) !! ManagementID_ (i_Object i) = Some owned /\
    pd_Source d = mp_Graph owned /\ pd_SourceMarker d = mp_Marker owned /\ i_Object i = pg_Port (pd_Source d) /\
    let p := pg_Configuration (pd_Source d) in
    let context := [ip_Bridge p; ip_LocalPort p; ip_LocalInterface p] ++ default [] (ip_Members p) in
    (exists b, pg_Configuration (pd_Replacement d) = with_interface (cloneInternalPort p) b) /\
    recoverable s (Generation (ip_Bridge p)) (ip_Root p :: (ManagementID_ <$> context) ++ (OVSUUID <$> context))
      (port_graph_Bindings (pd_Source d)) (port_graph_Bindings (pd_Replacement d)).
Proof.
  unfold stagePortDeletion. intros Ec H. destruct (cmd_Intents cmd) as [|in_ [|]]; try done. rewrite Ec in H. staged_inv H.
  match goal with E : portDeletionProblem _ _ = "" |- _ => apply portDeletionProblem_none in E as (d & Hd & Ho & Hv & Hr) end.
  eexists _, d, _. split; [reflexivity|]. injection Hd as <-. split_and!; try done; [by eexists|].
  unfold validPortDeletion in Hv. cbv zeta in Hv. rewrite !andb_true_iff in Hv. destruct Hv as [_ Hv].
  apply not_nil_true in Hv as [out Hv]. cbn -[graph_ids replacement_problem] in *. by eapply graphs_recoverable.
Qed.

(** ** Graph changes *)

(** The grants of an operation: the nodes it may touch and the names it may
    create, for graphs, tunnels and mirrors. *)
Definition grants (op : string) (t : TopologySnapshot) : gmap string bool * gmap string bool :=
  if IsTunnelOperation op then (tt_TunnelAuthority t, tt_TunnelCreates t)
  else if IsMirrorOperation op then (tt_MirrorAuthority t, tt_MirrorCreates t)
  else (tt_Authority t, tt_Creates t).

Lemma present_problem_none before t :
  present_problem before t = "" ->
  Forall (fun n => exists p, tt_Nodes t !! ManagementID_ (n_Binding n) = Some p /\
                             n_Binding p = n_Binding n /\ n_Digest p = n_Digest n) before.
Proof.
  induction before as [|n r IH]; [constructor|]. cbn [present_problem]. intros H.
  destruct (tt_Nodes t !! _) as [p|] eqn:E; [|done]. destruct (negb _) eqn:E1 in H; [done|].
  destruct (_ <>s _) eqn:E2 in H; [done|]. bsimp. constructor; eauto.
Qed.
Lemma absent_problem_none after before t :
  absent_problem after before false t = "" ->
  Forall (fun n => n_Binding n ∉ n_Binding <$> before ->
            tt_Nodes t !! ManagementID_ (n_Binding n) = None /\ isset (tt_Retired t) (OVSUUID (n_Binding n)) = false) after.
Proof.
  induction after as [|n r IH]; [constructor|]. cbn [absent_problem]. intros H.
  destruct (bool_decide _) eqn:E in H; [apply bool_decide_eq_true in E; constructor; [done|auto]|].
  cbv iota in H. destruct (_ || _) eqn:E1 in H; [done|]. destruct (existsb _ _); [done|]. bsimp. constructor; [|auto].
  intros _. tauto.
Qed.
Lemma topologyProblem_none i s g :
  i_Topology i = Some g -> tp_Compensating g = false -> tp_Observed g = false -> topologyProblem i s = "" ->
  0 < len (elems (tp_Before g)) <= MaxTopologyNodes /\ len (elems (tp_After g)) <= MaxTopologyNodes /\
  present_problem (elems (tp_Before g)) (sn_Topology s) = "" /\
  absent_problem (elems (tp_After g)) (elems (tp_Before g)) false (sn_Topology s) = "".
Proof.
  intros Eg Hc Ho H. unfold topologyProblem in H. rewrite Eg in H. unfold sides in H. rewrite Hc, Ho in H.
  destruct (_ || _) eqn:E1 in H; [done|]. cbv zeta in H.
  repeat (match type of H with (if ?b then _ else _) = _ => destruct b eqn:?; [done || (bsimp; congruence)|] end).
  bsimp. unfold len in *. destruct E1 as [[[_ E1] E2] E3]. destruct (elems (tp_Before g)); [done|]. cbn in *.
  split_and!; try lia; done.
Qed.

(** A graph change that was staged touches at most 32 rows, all present
    exactly as captured and all within the grant of the operation; every row
    it would create has an identity that no row has and that was never used,
    under a bridge and a name that the grant covers. *)
Theorem topology_staged_safe fresh c cmd s c' :
  stageTopology fresh c cmd s = Returned (Ok c') ->
  exists i g, intents c = [] /\ intents c' = [i] /\ i_Topology i = Some g /\
    0 < len (elems (tp_Before g)) <= MaxTopologyNodes /\ len (elems (tp_After g)) <= MaxTopologyNodes /\
    Forall (fun n => exists p, tt_Nodes (sn_Topology s) !! ManagementID_ (n_Binding n) = Some p /\
                               n_Binding p = n_Binding n /\ n_Digest p = n_Digest n /\
                               isset (fst (grants (i_Operation i) (sn_Topology s))) (ManagementID_ (n_Binding n)) = true)
      (elems (tp_Before g)) /\
    Forall (fun b => tt_Nodes (sn_Topology s) !! ManagementID_ b = None /\
                     isset (tt_Retired (sn_Topology s)) (OVSUUID b) = false /\
                     granted i g (snd (grants (i_Operation i) (sn_Topology s))) b = true)
      (TopologyCreations i false).
Proof.
  intros H. apply stageTopology_spec in H as (in_ & i & _ & Hnil & -> & (_ & _ & _ & (g & Eg & Hc & Ho) & Hp & Hall) & _).
  exists i, g. destruct (topologyProblem_none _ _ _ Eg Hc Ho Hp) as (Hb & Ha & Hpres & Habs).
  apply present_problem_none in Hpres. apply absent_problem_none in Habs.
  assert (Hg : existsb (fun n => negb (isset (fst (grants (i_Operation i) (sn_Topology s))) (ManagementID_ (n_Binding n)))) (elems (tp_Before g)) = false
               /\ existsb (fun b => negb (granted i g (snd (grants (i_Operation i) (sn_Topology s))) b)) (TopologyCreations i false) = false).
  { unfold topologyChecks in Hall. rewrite Eg, Hc, Ho in Hall. apply Forall_app in Hall as [_ Hall]. cbn [negb andb] in Hall.
    unfold grants. destruct (if IsTunnelOperation _ then _ else _) as [au cr] in Hall |- *.
    apply Forall_app in Hall as [Hall _]. apply Forall_app in Hall as [H1 H2].
    destruct (existsb _ _) eqn:E1 in H1; [by apply Forall_inv in H1|].
    destruct (existsb _ _) eqn:E2 in H2; [by apply Forall_inv in H2|]. done. }
  destruct Hg as [Hg1%existsb_Forall Hg2%existsb_Forall].
  split_and!; try done; try lia.
  - apply Forall_forall. intros n Hn. rewrite Forall_forall in Hpres, Hg1.
    destruct (Hpres n Hn) as (p & ? & ? & ?). exists p. split_and!; try done. by apply negb_false_iff, Hg1.
  - apply Forall_forall. intros b Hb'. rewrite Forall_forall in Hg2. specialize (Hg2 b Hb'). apply negb_false_iff in Hg2.
    unfold TopologyCreations in Hb'. rewrite Eg in Hb'. apply list_elem_of_fmap in Hb' as (n & -> & Hn).
    apply list_elem_of_filter in Hn as [Hn1 Hn2]. rewrite Forall_forall in Habs. destruct (Habs n Hn2 Hn1). done.
Qed.

(** ** Witnesses: a switch with two bridges, and the graphs that are ours *)

Module Switch.
(** The [n]-th identifier. *)
Definition id_of (n : nat) : string :=
  ("000000" ++ String.substring 0 2 (hex_encode [Z.of_nat n]) ++ "-0000-4000-8000-000000000000")%string.
Definition fresh (n : nat) : string := id_of (100 + n).
Definition row (n : nat) (table : string) : Binding := mkBinding (id_of (2 * n)) (id_of (2 * n + 1)) table "g".
Definition br0 : Binding := row 1 "Bridge".
Definition br1 : Binding := row 2 "Bridge".
Definition veth : Binding := row 3 "Port".
Definition veth_if : Binding := row 4 "Interface".
Definition old : BridgeGraph := mkBridgeGraph "br-old" (id_of 50) (row 5 "Bridge") (row 6 "Port") (row 7 "Interface").
Definition marker : string := Eval vm_compute in String.concat "" (repeat "ab" 32).
(** An internal port of [br0] that is ours. *)
Definition int7 : InternalPortGraph :=
  mkPortGraph (row 8 "Port")
    (mkPortCreation "int7" 10 (id_of 50) br0 "br0" (row 9 "Interface") (Some [veth]) (row 10 "Port") (row 11 "Interface")
       false false).

Definition bridge_config (ports : list Binding) : configuration :=
  list_to_map [("stp_enable", JBool false); ("rstp_enable", JBool false); ("controller", JArr []); ("mirrors", JArr []);
               ("flood_vlans", JArr []); ("ports", links_json ports)].
Definition port_config : configuration := list_to_map [("interfaces", links_json []); ("external_ids", JObj [])].
Definition nodes : gmap string TopologyNode :=
  list_to_map ((fun n => (ManagementID_ (n_Binding n), n)) <$>
    [mkNode None br0 "br0" "" (Some [veth]) "d0"; mkNode None br1 "br1" "" (Some []) "d1";
     mkNode None veth "veth1" "" (Some [veth_if]) "d2"; mkNode None veth_if "veth1" "system" (Some []) "d3"]).
Definition everything : gmap string bool := (fun _ => true) <$> nodes.
Definition topology : TopologySnapshot :=
  mkTopologySnapshot ∅ ∅ "" false ∅ ∅ ∅ [] "" false ∅ (id_of 50) "root-dep" true true nodes
    (list_to_map [(ManagementID_ br0, bridge_config [veth]); (ManagementID_ br1, bridge_config []);
                  (ManagementID_ veth, port_config); (ManagementID_ veth_if, list_to_map [("type", JStr "system")])])
    (list_to_map [("Port", port_config); ("Interface", list_to_map [("type", JStr "")])])
    everything {[ (ManagementID_ br0 ++ ":tap9")%string := true ]} ∅.
Definition mtu : InterfaceMTU :=
  mkInterfaceMTU veth_if veth br0 (Some 1400) 1400 (Some (mkMTUDefault 1500 "default-dep" None)) true true true "local-managed" "mtu-dep".
Definition now : Snapshot :=
  mkSnapshot ∅ ∅ ∅ topology "g" "r1" "schema" "policy" ∅ {[ManagementID_ veth_if := mtu]} ∅
    (mkCreationSnapshot (id_of 50) "local-managed" true true ∅ {["br-old" := true]}
       (list_to_map ((fun b => (OVSUUID b, b)) <$> port_graph_Bindings int7)) ∅)
    (mkDeletionSnapshot {["br-old" := true]}
       {[ManagementID_ (bg_Bridge old) := mkManagedBridge old marker "graph-dep" true]})
    (mkPortDeletionSnapshot {[ (ManagementID_ br0 ++ ":int7")%string := true ]}
       {[ManagementID_ (pg_Port int7) := mkManagedPort int7 marker "int7-dep" true]})
    (mkPortSnapshot true true ∅
       {[ManagementID_ br0 := mkParent br0 "br0" "parent-dep" [veth; pg_Port int7] (row 10 "Port") (row 11 "Interface") true]}).

Definition intent (op : string) (object : Binding) (mtu : Z) (r : option TopologyRequest) : Intent :=
  mkIntent None None None r None (id_of 60) op object zero_vlan "" "" [] "" "" 0 mtu.
Definition empty : Candidate := mkCandidate (id_of 61) "rev" None None "empty" None None.
Definition envelope : Envelope := mkEnvelope "owner" "epoch" 0 empty "".
Definition command (i : Intent) : Command := mkCommand "r" "stage" [i] [] "" "" None [].
Definition mtu_set (n : Z) : Command := command (intent InterfaceMTUSet veth_if n None).
Definition delete_bridge : Command := command (intent BridgeDelete (bg_Bridge old) 0 None).
Definition delete_port : Command := command (intent InternalPortDelete (pg_Port int7) 0 None).
Definition create_port : Command :=
  command (intent "port.create" br0 0 (Some (mkTopologyRequest None None "tap9" "internal" [] [] None [] None 0))).
(** A move to a bridge that the snapshot does not know. *)
Definition move_port (b : Binding) : Command :=
  command (intent "port.move" veth 0 (Some (mkTopologyRequest None None "" "" [] [] (Some b) [] None 0))).

Definition get (o : outcome Envelope) : Envelope := match o with Returned (Ok e) => e | _ => envelope end.
Definition got (o : outcome Envelope) : bool := match o with Returned (Ok _) => true | _ => false end.
Definition with_mtu : Envelope := Eval vm_compute in get (Prepare fresh (id_of 70) envelope (mtu_set 1300) now).
Definition mtu_again : Envelope := Eval vm_compute in get (Prepare fresh (id_of 71) with_mtu (mtu_set 1200) now).
Lemma mtu_ok : Prepare fresh (id_of 70) envelope (mtu_set 1300) now = Returned (Ok with_mtu).
Proof. vm_compute. reflexivity. Qed.
Lemma mtu_again_ok : Prepare fresh (id_of 71) with_mtu (mtu_set 1200) now = Returned (Ok mtu_again).
Proof. vm_compute. reflexivity. Qed.
Definition or_empty (o : outcome Candidate) : Candidate := match o with Returned (Ok c) => c | _ => empty end.
Definition bridge_gone : Candidate := Eval vm_compute in or_empty (Returned (stageDeletion fresh empty delete_bridge now)).
Definition port_gone : Candidate := Eval vm_compute in or_empty (Returned (stagePortDeletion fresh empty delete_port now)).
Definition port_added : Candidate := Eval vm_compute in or_empty (stageTopology fresh empty create_port now).
Lemma bridge_gone_ok : stageDeletion fresh empty delete_bridge now = Ok bridge_gone.
Proof. vm_compute. reflexivity. Qed.
Lemma port_gone_ok : stagePortDeletion fresh empty delete_port now = Ok port_gone.
Proof. vm_compute. reflexivity. Qed.
Lemma port_added_ok : stageTopology fresh empty create_port now = Returned (Ok port_added).
Proof. vm_compute. reflexivity. Qed.
Lemma empty_coherent : coherent (e_Candidate envelope).
Proof. by apply coherent_nil. Qed.
Lemma now_projected : projected now.
Proof.
  split; cbn.
  - intros id p d H. apply lookup_singleton_Some in H as [_ <-]. by intros [= <-].
  - intros id p H. by rewrite lookup_empty in H.
  - intros id p H. by rewrite lookup_empty in H.
Qed.
End Switch.

Lemma Prepare_invariant_witness :
  Prepare Switch.fresh (Switch.id_of 70) Switch.envelope (Switch.mtu_set 1300) Switch.now = Returned (Ok Switch.with_mtu) /\
  prepared Switch.with_mtu /\ intents (e_Candidate Switch.with_mtu) <> [].
Proof.
  split; [exact Switch.mtu_ok|]. split; [|discriminate].
  exact (proj1 (Prepare_invariant _ _ _ _ _ _ Switch.empty_coherent Switch.mtu_ok)).
Defined.

Lemma group_staging_witness :
  vw_Checks (Compare (e_Candidate Switch.with_mtu) Switch.now) = [] /\
  exists prior i, intents (e_Candidate Switch.with_mtu) = [prior] /\ intents (e_Candidate Switch.mtu_again) = [i] /\
    i <> prior /\ sealed_original i = sealed_original prior.
Proof.
  split.
  - refine (proj1 (proj2 (group_staging Switch.fresh (Switch.id_of 70) Switch.envelope (Switch.mtu_set 1300) _ _ CMTU _ Switch.empty_coherent Switch.now_projected eq_refl
                            Switch.mtu_ok eq_refl _ _)) eq_refl); [vm_compute; reflexivity|discriminate].
  - eexists _, _. split; [reflexivity|]. split; [reflexivity|]. split; [discriminate|].
    refine (proj2 (proj2 (group_staging Switch.fresh (Switch.id_of 71) Switch.with_mtu (Switch.mtu_set 1200) _ _ CMTU _ _ Switch.now_projected eq_refl
                            Switch.mtu_again_ok eq_refl _ _)) _ eq_refl); [|vm_compute; reflexivity|discriminate].
    right. eexists. split; [reflexivity|]. split; [vm_compute; discriminate|reflexivity].
Defined.

Lemma bridge_deletion_recoverable_witness :
  exists i d, intents Switch.bridge_gone = [i] /\ i_Deletion i = Some d /\ bg_Name (bd_Replacement d) = bg_Name (bd_Source d) /\
    NoDup (identities (graph_Bindings (bd_Source d) ++ graph_Bindings (bd_Replacement d))).
Proof.
  destruct (bridge_deletion_recoverable _ Switch.empty _ _ _ eq_refl Switch.bridge_gone_ok)
    as (i & d & owned & Hi & Hd & _ & _ & _ & _ & Hn & _ & Hr).
  exists i, d. split; [exact Hi|]. split; [exact Hd|]. split; [exact Hn|]. exact (ni_distinct _ _ (rc_ids _ _ _ _ _ Hr)).
Defined.
Lemma port_deletion_recoverable_witness :
  exists i d, intents Switch.port_gone = [i] /\ i_PortDeletion i = Some d /\
    NoDup (identities (port_graph_Bindings (pd_Source d) ++ port_graph_Bindings (pd_Replacement d))).
Proof.
  destruct (port_deletion_recoverable _ Switch.empty _ _ _ eq_refl Switch.port_gone_ok)
    as (i & d & owned & Hi & Hd & _ & _ & _ & _ & _ & Hr).
  exists i, d. split; [exact Hi|]. split; [exact Hd|]. exact (ni_distinct _ _ (rc_ids _ _ _ _ _ Hr)).
Defined.
Lemma topology_staged_safe_witness :
  exists i, intents Switch.port_added = [i] /\ List.length (TopologyCreations i false) = 2%nat.
Proof.
  destruct (topology_staged_safe _ _ _ _ _ Switch.port_added_ok) as (i & g & _ & Hi & _).
  exists i. split; [exact Hi|]. injection Hi as <-. vm_compute. reflexivity.
Defined.

(** ** What the code does not do *)

(** A move to a bridge that is not in the snapshot writes to the configuration
    of a node that was never loaded: the request panics. *)
Lemma move_to_unknown_bridge_panics :
  Prepare Switch.fresh (Switch.id_of 70) Switch.envelope (Switch.move_port (Switch.row 30 "Bridge")) Switch.now = Panicked.
Proof. vm_compute. reflexivity. Qed.

(** Rebasing a spanning tree configuration is refused as if its object had
    changed; every other group, [SpanningTreePrepare] included, asks for the
    intent to be staged again. *)
Lemma tree_configuration_rebase i r m s :
  i_Operation i = SpanningTreeConfigure -> Generation (i_Object i) = sn_Generation s -> Ports s !! object_of i = None ->
  rebase_loop (i :: r) m s = Err (Fail 409 "OBJECT_BINDING_CHANGED").
Proof.
  intros Ho Hg Hp. cbn [rebase_loop]. rewrite Ho. cbn -[comparison contains]. unfold comparison, object_of in *.
  rewrite Hg, Hp, String.eqb_refl. done.
Qed.
