(* ===== verification/CodecProperties.v ===== *)
(** * Properties of the closed native configurations and of identifiers

    What the validators of internal/multicast, internal/mirror,
    internal/tunnel and internal/spanningtree accept, that writing and reading
    native values loses nothing, and what the seal of an envelope proves. *)

From S2P Require Import Prelude GoStrings Sha256 GoJson ApiTypes NetIP Multicast Mirror Tunnel SpanningTree.
From S2P Require Import CandidateTypes Intents.

(** A multicast snooping request merges exactly when the captured
    configuration holds the three managed keys with canonical values in range,
    the request names no other key, and the outcome is valid again; the
    outcome has the requested value for a named key, removal included, and the
    captured one otherwise. The map order of the request does not matter. *)
Theorem multicast_merge original request out :
  Multicast.Merge original request = Ok out <->
  Multicast.well_formed original /\ Multicast.well_formed out /\
  dom (Multicast.req_Parameters request) ⊆ dom (Multicast.Parameters original) /\
  Multicast.Enabled out = Multicast.req_Enabled request /\
  Multicast.Parameters out = Multicast.req_Parameters request ∪ Multicast.Parameters original.
Proof. apply Multicast.Merge_ok. Qed.

(** An accepted group reply has one row per line, at most 256, no row
    twice, and every row is one the switch can mean: a real port or the local
    one, a VLAN of twelve bits, a multicast address of the family of its
    protocol, or a querier without an address. *)
Theorem multicast_groups data res :
  Multicast.DecodeGroups data = Ok res ->
  Forall Multicast.row_ok res /\ NoDup (Multicast.key_of <$> res) /\ len res <= Multicast.MaxGroups /\
  len res = len (split_on (char_of 10) (trim_space data)) - 1.
Proof. apply Multicast.DecodeGroups_ok. Qed.

(** The mirror validator accepts exactly the closed configurations: known
    selectors within their budgets, distinct management identifiers, an
    explicit choice between everything and a selection, canonical VLANs, one
    output that is not its own source, and a snap length in range. *)
Theorem mirror_validate c : Mirror.Validate c = Ok tt <-> Mirror.valid c.
Proof. apply Mirror.Validate_valid. Qed.

(** Writing a mirror to native fields and reading them back is the
    identity, for any translation of ports that the reader inverts. *)
Theorem mirror_roundtrip c to_uuid to_id raw :
  (forall id u, to_uuid id = Some u -> to_id u = Some id) ->
  Mirror.Fields c to_uuid = Ok raw -> Mirror.Decode raw to_id = Ok c.
Proof. apply Mirror.Decode_Fields. Qed.

(** A tunnel request merges exactly when it names managed options only and
    the outcome is a static tunnel: a known type, a routable remote end, a
    different local end of the same family, a key and port in range. Options
    that are not named stay, named ones are replaced or removed. *)
Theorem tunnel_merge before r after :
  Tunnel.Merge before r = Ok after <->
  Tunnel.valid after /\ (forall k, is_Some (Tunnel.req_Options r !! k) -> In k Tunnel.Keys) /\
  Tunnel.Type_ after = (if Tunnel.req_Type r =s "" then Tunnel.Type_ before else Tunnel.req_Type r) /\
  forall k, Tunnel.Options after !! k = match Tunnel.req_Options r !! k with
                                        | Some v => v | None => Tunnel.Options before !! k end.
Proof. apply Tunnel.Merge_static. Qed.

(** Spanning tree parameters are valid exactly when both protocols are
    known and not enabled together, and every timer and priority is in range
    and in the IEEE relations, so that the daemon neither rounds nor clamps. *)
Theorem spanning_tree_validate stp rstp other :
  SpanningTree.State (SpanningTree.Validate stp rstp other) = "valid" <->
  exists s r o, stp = Some s /\ rstp = Some r /\ other = Some o /\ SpanningTree.valid s r o.
Proof. apply SpanningTree.Validate_parameters. Qed.

(** [RequestID] makes a version 7 identifier whose time reads back, for
    every random part and every 48-bit millisecond time. *)
Theorem request_id_roundtrip rnd n :
  bytes16 rnd -> 0 <= n < 2 ^ 48 ->
  UUID (RequestID rnd n) = true /\ RequestTime (RequestID rnd n) = Some n.
Proof. apply RequestID_roundtrip. Qed.

(** ** The seal *)

(** What every accepted envelope satisfies besides the seal. *)
Definition sealable (e : Envelope) (key : list Z) : Prop :=
  len key = 32 /\ ManagementID (e_Epoch e) = true /\ ManagementID (c_ID (e_Candidate e)) = true /\
  ManagementID (c_Revision (e_Candidate e)) = true /\ 0 <= e_Sequence e /\ len (intents (e_Candidate e)) <= MaxIntents.

(** The untouched envelope of a new workspace needs no seal. *)
Definition untouched (e : Envelope) : Prop :=
  e_Sequence e = 0 /\ e_Seal e = EmptyString /\ intents (e_Candidate e) = [].

Lemma Verify_spec e key owner :
  Verify e key owner = Ok tt ->
  e_Owner e = owner /\ sealable e key /\ (untouched e \/ e_Seal e = signature e key).
Proof.
  unfold Verify, sealable, untouched. intros H. destruct (_ || _) eqn:E1 in H; [done|].
  rewrite !orb_false_iff in E1. destruct E1 as [[[[[[E1 E2] E3] E4] E5] E6] E7]. bsimp.
  destruct (_ && _) eqn:E8 in H.
  - rewrite !andb_true_iff in E8. destruct E8 as [[[[[[E8 E9] E10] _] _] _] _]. bsimp.
    split_and!; try done. auto.
  - destruct (_ <>s _) eqn:E9 in H; [done|]. bsimp. split_and!; try done. by right.
Qed.

Lemma Sign_seal e key : e_Seal (Sign e key) = signature e key.
Proof. reflexivity. Qed.

(** C38. mgrd accepts the envelope it sealed, and a seal accepts no other
    envelope: one that verifies under the same key with the same seal has the
    same document, unless the two documents collide under HMAC-SHA-256. *)
Theorem seal_binds e e' key owner :
  sealable e key -> Verify e' key owner = Ok tt -> e_Seal e' = signature e key ->
  Verify (Sign e key) key (e_Owner e) = Ok tt /\
  (plain (envelope_json (mkEnvelope (e_Owner e) (e_Epoch e) (e_Sequence e) (e_Candidate e) "")) ->
   plain (envelope_json (mkEnvelope (e_Owner e') (e_Epoch e') (e_Sequence e') (e_Candidate e') "")) ->
   (signature e key = signature e' key ->
    marshal (envelope_json (mkEnvelope (e_Owner e) (e_Epoch e) (e_Sequence e) (e_Candidate e) ""))
    = marshal (envelope_json (mkEnvelope (e_Owner e') (e_Epoch e') (e_Sequence e') (e_Candidate e') ""))) ->
   candidate_json (e_Candidate e') = candidate_json (e_Candidate e) /\ e_Sequence e' = e_Sequence e /\
   e_Epoch e' = e_Epoch e /\ e_Owner e = owner).
Proof.
  intros (H1 & H2 & H3 & H4 & H5 & H6) Hv Hs. split.
  - unfold Verify, Sign. cbn [e_Owner e_Epoch e_Sequence e_Candidate e_Seal].
    rewrite H1, H2, H3, H4, String.eqb_refl. cbn [Z.eqb Pos.eqb negb orb].
    rewrite (proj2 (Z.ltb_ge _ _)), (proj2 (Z.ltb_ge MaxIntents _)) by done. cbn [orb].
    change (signature (mkEnvelope (e_Owner e) (e_Epoch e) (e_Sequence e) (e_Candidate e) (signature e key)) key)
      with (signature e key).
    rewrite String.eqb_refl. by destruct (_ && _).
  - intros P P' Hc. apply Verify_spec in Hv as (Ho & _ & [(_ & Hn & _)|Hn]).
    { exfalso. rewrite Hn in Hs. assert (L : String.length (signature e key) = 64%nat).
      { unfold signature, hmac_sha256. by rewrite hex_encode_length, sha256_length. }
      by rewrite <- Hs in L. }
    rewrite Hs in Hn. specialize (Hc Hn). apply marshal_inj in Hc; [|done..].
    unfold envelope_json in Hc. cbn [e_Owner e_Epoch e_Sequence e_Candidate e_Seal] in Hc.
    revert Hc. generalize (candidate_json (e_Candidate e)) (candidate_json (e_Candidate e')).
    intros c c' [= Eo Ee Es Ec]. split_and!; congruence.
Qed.

(** ** Witnesses *)

Definition group_report : string :=
  String.concat (String (char_of 10) "")
    [" port  VLAN  protocol  GROUP                Age"; "    1    10    IGMPv2    225.0.0.1              8"].
Lemma multicast_groups_witness : exists res,
  Multicast.DecodeGroups group_report = Ok res /\ len res = 1 /\ NoDup (Multicast.key_of <$> res).
Proof.
  destruct (Multicast.DecodeGroups group_report) as [res|e] eqn:E; [|vm_compute in E; discriminate E].
  exists res. destruct (multicast_groups _ _ E) as (_ & Hn & _ & Hl).
  split; [reflexivity|]. split; [rewrite Hl; vm_compute; reflexivity|exact Hn].
Defined.

Definition mirror_port (id : string) : option string :=
  if id =s "11111111-1111-4111-8111-111111111111" then Some "aaaaaaaa-1111-4111-8111-111111111111"
  else if id =s "22222222-2222-4222-8222-222222222222" then Some "bbbbbbbb-2222-4222-8222-222222222222"
  else None.
Definition mirror_id (uuid : string) : option string :=
  if uuid =s "aaaaaaaa-1111-4111-8111-111111111111" then Some "11111111-1111-4111-8111-111111111111"
  else if uuid =s "bbbbbbbb-2222-4222-8222-222222222222" then Some "22222222-2222-4222-8222-222222222222"
  else None.
Definition mirror_example : Mirror.Configuration :=
  Mirror.mkConfiguration false (Some ["11111111-1111-4111-8111-111111111111"]) (Some []) (Some ["10"; "20"])
    (Some "22222222-2222-4222-8222-222222222222") None (Some "128").
Lemma mirror_roundtrip_witness : exists raw,
  Mirror.Fields mirror_example mirror_port = Ok raw /\ Mirror.Decode raw mirror_id = Ok mirror_example.
Proof.
  destruct (Mirror.Fields mirror_example mirror_port) as [raw|e] eqn:E; [|vm_compute in E; discriminate E].
  exists raw. split; [reflexivity|]. refine (mirror_roundtrip _ mirror_port mirror_id raw _ E).
  intros id u. unfold mirror_port, mirror_id.
  destruct (id =s _) eqn:E1; [apply String.eqb_eq in E1; intros [= <-]; by rewrite E1|].
  destruct (id =s _) eqn:E2 in |- *; [apply String.eqb_eq in E2; intros [= <-]; by rewrite E2|]. discriminate.
Defined.

Lemma request_id_roundtrip_witness :
  RequestTime (RequestID (repeat 255 16) 1700000000000) = Some 1700000000000.
Proof.
  apply (request_id_roundtrip (repeat 255 16) 1700000000000); [|lia].
  split; [reflexivity|]. unfold hex_text. cbn. repeat constructor; lia.
Defined.

Definition seal_key : list Z := repeat 7 32.
Definition seal_candidate : Candidate :=
  mkCandidate "11111111-1111-4111-8111-111111111111" "22222222-2222-4222-8222-222222222222" (Some "g") (Some "r")
    "dirty" (Some [zero_intent]) None.
Definition seal_envelope : Envelope := mkEnvelope "owner" "33333333-3333-4333-8333-333333333333" 3 seal_candidate "".
Lemma seal_binds_witness :
  Verify (Sign seal_envelope seal_key) seal_key "owner" = Ok tt /\ signature seal_envelope seal_key <> EmptyString.
Proof.
  assert (Hv : Verify (Sign seal_envelope seal_key) seal_key "owner" = Ok tt) by (vm_compute; reflexivity).
  split; [|vm_compute; discriminate].
  refine (proj1 (seal_binds seal_envelope (Sign seal_envelope seal_key) seal_key "owner" _ Hv (Sign_seal _ _))).
  unfold sealable. split_and!; vm_compute; try reflexivity; discriminate.
Defined.
