(* ===== verification/ExecTypes.v ===== *)
(** * internal/execution, internal/safety, internal/tlscontrol: the journal's data

    Plans, outcomes and records of field executions (execution/types.go), the
    safety record with its deadlines (safety/types.go) and the clock sample
    and TLS trial state (tlscontrol/types.go). *)

From S2P Require Import Prelude GoStrings GoTime GoJson ApiTypes CandidateTypes.

(** ** Clocks and deadlines *)

(** go: internal/tlscontrol/types.go Clock *)
Record Clock := mkClock { BootID : string; NS : Z; Wall : Z }.

(** go: internal/tlscontrol/types.go RecoveryWindow *)
Definition RecoveryWindow : Z := 120 * Second.
(** go: internal/tlscontrol/types.go State *)
Record TLSState := mkTLSState {
  tls_Revision : string; tls_ActiveID : string; TrialID : string; tls_JobID : string;
  tls_BootID : string; StartedNS : Z; DeadlineNS : Z; DeadlineWall : Z }.
(** go: internal/tlscontrol/types.go State.Expired *)
Definition TLS_Expired (s : TLSState) (c : Clock) : bool :=
  (TrialID s <>s "")
  && ((BootID c =s "") || (BootID c <>s tls_BootID s) || (NS c <? StartedNS s) || (DeadlineNS s <=? NS c)
      || (DeadlineWall s <=? unix (Wall c)) || (unix (Wall c) <? DeadlineWall s - RecoveryWindow / Second)).

(** go: internal/safety/types.go ConfirmationWindow *)
Definition ConfirmationWindow : Z := 120 * Second.
(** go: internal/safety/types.go PreparationBudget *)
Definition PreparationBudget : Z := 30 * Second.

(** go: internal/safety/types.go Deadline *)
Record Deadline := mkDeadline { Boot : string; StartNS : Z; EndNS : Z; Started : Z; DWall : Z }.
#[export] Instance Deadline_eq_dec : EqDecision Deadline.
Proof. solve_decision. Defined.
(** go: internal/safety/types.go NewDeadline *)
Definition NewDeadline (c : Clock) (duration : Z) : Deadline :=
  mkDeadline (BootID c) (NS c) (int64 (NS c + duration)) (Wall c) (Wall c + duration).
(** go: internal/safety/types.go Deadline.Expired *)
Definition Expired (d : Deadline) (c : Clock) : bool :=
  (Boot d =s "") || (BootID c <>s Boot d) || (NS c <? StartNS d) || (EndNS d <=? NS c)
  || (Wall c <? Started d) || negb (Wall c <? DWall d).
Definition deadline_json (d : Deadline) : json :=
  JObj [("boot_id", JStr (Boot d)); ("start_ns", JNum (StartNS d)); ("deadline_ns", JNum (EndNS d));
        ("started_at", time_json (Started d)); ("deadline_wall", time_json (DWall d))].

(** ** Plans, outcomes and records *)

(** go: internal/execution/types.go AppliedFor *)
Definition AppliedFor : Z := 15 * Second.

(** go: internal/execution/types.go Plan *)
Record Plan := mkPlan {
  p_ID : string; p_Envelope : Envelope; p_Schema : string; p_Generation : string; p_Root : string;
  Marker : string; NextFloor : string; CurFloor : string; Prepared : Z; Native : json;
  GraphBindings : list Binding }.
Definition plan_json (p : Plan) : json :=
  JObj ([("id", JStr (p_ID p)); ("envelope", envelope_json (p_Envelope p)); ("schema", JStr (p_Schema p));
         ("generation", JStr (p_Generation p)); ("root", JStr (p_Root p)); ("marker", JStr (Marker p));
         ("next_floor", JStr (NextFloor p)); ("cur_floor", JStr (CurFloor p));
         ("prepared_at", time_json (Prepared p)); ("native", Native p)]
        ++ omit_list "graph_bindings" binding_json (GraphBindings p)).

(** go: internal/execution/types.go Outcome *)
Record Outcome := mkOutcome {
  Commit : string; Applied : string; o_Reason : string; o_Target : option string;
  o_Current : option string; Observed : option Z }.
Definition outcome_json (o : Outcome) : json :=
  JObj [("commit_outcome", JStr (Commit o)); ("applied_outcome", JStr (Applied o));
        ("reason_code", JStr (o_Reason o)); ("target_next_cfg", jostr (o_Target o));
        ("observed_cur_cfg", jostr (o_Current o)); ("observed_at", jopt time_json (Observed o))].
(** [execution.Outcome{Commit: .., Applied: .., Reason: ..}] *)
Definition outcome (commit applied reason : string) : Outcome :=
  mkOutcome commit applied reason None None None.
Definition zero_outcome : Outcome := outcome "" "" "".

(** go: internal/execution/types.go Request *)
Record Request := mkRequest { rq_ID : string; rq_ValidationID : string; rq_Envelope : Envelope }.
Definition request_json (r : Request) : json :=
  JObj [("request_id", JStr (rq_ID r)); ("validation_id", JStr (rq_ValidationID r));
        ("envelope", envelope_json (rq_Envelope r))].

(** go: internal/execution/types.go Authorization *)
Record Authorization := mkAuthorization {
  a_Owner : string; a_Credential : string; a_Epoch : string; a_Policy : string;
  a_ProviderPolicy : string; a_ChangeSet : string; a_Validation : string; a_Scope : string;
  a_Expires : Z; a_FieldCapabilities : string }.
#[export] Instance Authorization_eq_dec : EqDecision Authorization.
Proof. solve_decision. Defined.
Definition authorization_json (a : Authorization) : json :=
  JObj ([("Owner", JStr (a_Owner a)); ("Credential", JStr (a_Credential a)); ("Epoch", JStr (a_Epoch a));
         ("Policy", JStr (a_Policy a)); ("ProviderPolicy", JStr (a_ProviderPolicy a));
         ("ChangeSet", JStr (a_ChangeSet a)); ("Validation", JStr (a_Validation a));
         ("Scope", JStr (a_Scope a)); ("Expires", time_json (a_Expires a))]
        ++ omit_str "FieldCapabilities" (a_FieldCapabilities a)).

(** go: internal/execution/types.go Record *)
Record Execution := mkExecution {
  x_ID : string; x_Sequence : string; x_State : string; x_Owner : string; x_RequestID : string;
  x_JobID : string; x_Correlation : string; x_ValidationID : string; x_CandidateID : string;
  x_CandidateRevision : string; x_Generation : string; x_Created : Z; x_Updated : Z;
  x_Outcome : Outcome; x_Authorization : Authorization; x_Plan : Plan }.
Definition execution_fields (r : Execution) : list (string * json) :=
  [("id", JStr (x_ID r)); ("sequence", JStr (x_Sequence r)); ("state", JStr (x_State r));
   ("owner_id", JStr (x_Owner r)); ("request_id", JStr (x_RequestID r)); ("job_id", JStr (x_JobID r));
   ("correlation_id", JStr (x_Correlation r)); ("validation_id", JStr (x_ValidationID r));
   ("candidate_id", JStr (x_CandidateID r)); ("candidate_revision", JStr (x_CandidateRevision r));
   ("instance_generation", JStr (x_Generation r)); ("created_at", time_json (x_Created r));
   ("updated_at", time_json (x_Updated r)); ("outcome", outcome_json (x_Outcome r))].
(** The four fields the journal changes. *)
Definition set_execution (r : Execution) (seq state : string) (o : Outcome) (updated : Z) : Execution :=
  mkExecution (x_ID r) seq state (x_Owner r) (x_RequestID r) (x_JobID r) (x_Correlation r)
    (x_ValidationID r) (x_CandidateID r) (x_CandidateRevision r) (x_Generation r) (x_Created r) updated
    o (x_Authorization r) (x_Plan r).

(** go: internal/safety/types.go Record *)
Record SafetyRecord := mkSafety {
  LastWall : Z; s_State : string; s_Reason : string; Domain : string; Reservation : string;
  Fingerprint : string; Trigger : string; Preparation : Deadline; Confirmation : option Deadline;
  HealthyAt : option Z; ProbeFailures : Z; Rollback : option Plan; s_Outcome : Outcome }.
Definition safety_json (s : SafetyRecord) : json :=
  JObj [("last_wall", time_json (LastWall s)); ("state", JStr (s_State s)); ("reason", JStr (s_Reason s));
        ("domain", JStr (Domain s)); ("reservation_id", JStr (Reservation s));
        ("request_fingerprint", JStr (Fingerprint s)); ("recovery_trigger", JStr (Trigger s));
        ("preparation", deadline_json (Preparation s));
        ("confirmation", jopt deadline_json (Confirmation s)); ("healthy_at", jopt time_json (HealthyAt s));
        ("probe_failures", JNum (ProbeFailures s)); ("rollback_plan", jopt plan_json (Rollback s));
        ("rollback_outcome", outcome_json (s_Outcome s))].
(** go: internal/safety/types.go Terminal *)
Definition Terminal (state : string) : bool :=
  (state =s "confirmed") || (state =s "rolled-back") || (state =s "not-committed").

(** Setters of a safety record. *)
Definition set_state (s : SafetyRecord) (state reason : string) : SafetyRecord :=
  mkSafety (LastWall s) state reason (Domain s) (Reservation s) (Fingerprint s) (Trigger s) (Preparation s)
    (Confirmation s) (HealthyAt s) (ProbeFailures s) (Rollback s) (s_Outcome s).
Definition set_healthy (s : SafetyRecord) (h : option Z) : SafetyRecord :=
  mkSafety (LastWall s) (s_State s) (s_Reason s) (Domain s) (Reservation s) (Fingerprint s) (Trigger s)
    (Preparation s) (Confirmation s) h (ProbeFailures s) (Rollback s) (s_Outcome s).
Definition set_outcome (s : SafetyRecord) (o : Outcome) : SafetyRecord :=
  mkSafety (LastWall s) (s_State s) (s_Reason s) (Domain s) (Reservation s) (Fingerprint s) (Trigger s)
    (Preparation s) (Confirmation s) (HealthyAt s) (ProbeFailures s) (Rollback s) o.
Definition set_rollback (s : SafetyRecord) (p : option Plan) : SafetyRecord :=
  mkSafety (LastWall s) (s_State s) (s_Reason s) (Domain s) (Reservation s) (Fingerprint s) (Trigger s)
    (Preparation s) (Confirmation s) (HealthyAt s) (ProbeFailures s) p (s_Outcome s).
Definition set_trigger (s : SafetyRecord) (t : string) : SafetyRecord :=
  mkSafety (LastWall s) (s_State s) (s_Reason s) (Domain s) (Reservation s) (Fingerprint s) t
    (Preparation s) (Confirmation s) (HealthyAt s) (ProbeFailures s) (Rollback s) (s_Outcome s).
Definition set_failures (s : SafetyRecord) (n : Z) : SafetyRecord :=
  mkSafety (LastWall s) (s_State s) (s_Reason s) (Domain s) (Reservation s) (Fingerprint s) (Trigger s)
    (Preparation s) (Confirmation s) (HealthyAt s) n (Rollback s) (s_Outcome s).
Definition set_window (s : SafetyRecord) (last : Z) (c : option Deadline) : SafetyRecord :=
  mkSafety last (s_State s) (s_Reason s) (Domain s) (Reservation s) (Fingerprint s) (Trigger s)
    (Preparation s) c (HealthyAt s) (ProbeFailures s) (Rollback s) (s_Outcome s).
