(* ===== verification/Native.v ===== *)
(** * internal/provider/ovsdb: native values and guarded operations

    What the executor reads (the native schema, the observed rows) and what it
    builds: the atoms and columns of the OVSDB wire format, the operations of
    one transaction (execution.go, bond.go, schema.go), and the plan that
    collects them.

    The native schema is decoded by a library; the records hold what the source
    reads of it. A decoded column has its type object and a key: where the
    source does not test a pointer, an absent one is the zero type. The type
    names are those of RFC 7047. *)

From S2P Require Import Prelude GoStrings GoJson GoJsonParse GoTime ApiTypes.
From S2P Require Import CandidateTypes Intents Planning Staging ExecTypes.
Import Planning Staging.

(** ** Package strconv: which texts [ParseFloat(s, 64)] accepts

    The source only asks whether the conversion fails: the syntax of the
    package (decimal and hexadecimal literals, underscores between digits,
    infinities and NaN) and the range, a value that rounds to [2^1024] or more
    being out of it. *)

Module GoFloat.
Definition sign_rest (s : string) : string :=
  match s with String "+" r => r | String "-" r => r | _ => s end.
Definition lower (c : ascii) : Z := byte_of (lower_byte c).
Definition hex_letter (b : Z) : bool := (97 <=? b) && (b <=? 102).
Definition prefixed (letters : list Z) (s : string) : option string :=
  match s with String "0" (String c r) => if existsb (Z.eqb (lower c)) letters then Some r else None | _ => None end.

(** [underscoreOK]: an underscore stands between digits, or after a base
    prefix. [prev] is what came before: a digit, an underscore, or neither. *)
Inductive seen := Digit | Underscore | Other.
Fixpoint underscores_ok (hex : bool) (prev : seen) (s : string) : bool :=
  match s with
  | EmptyString => match prev with Underscore => false | _ => true end
  | String c r =>
    if is_digit (byte_of c) || (hex && hex_letter (lower c)) then underscores_ok hex Digit r
    else if byte_of c =? 95 then match prev with Digit => underscores_ok hex Underscore r | _ => false end
    else match prev with Underscore => false | _ => underscores_ok hex Other r end
  end.
Definition underscoreOK (s : string) : bool :=
  let s := sign_rest s in
  match prefixed [120] s with
  | Some r => underscores_ok true Digit r
  | None => match prefixed [98; 111] s with Some r => underscores_ok false Digit r | None => underscores_ok false Other s end
  end.

(** The mantissa: its digits as one integer, how many there are, how many
    follow the point, and the rest of the text. *)
Record mantissa := mkMantissa { m_Value : Z; m_Digits : Z; m_Fraction : Z; m_Rest : string }.
Fixpoint read_mantissa (base : Z) (s : string) (dot : bool) (v digits frac : Z) : mantissa :=
  match s with
  | EmptyString => mkMantissa v digits frac s
  | String c r =>
    let next d := read_mantissa base r dot (v * base + d) (digits + 1) (if dot then frac + 1 else frac) in
    if byte_of c =? 95 then read_mantissa base r dot v digits frac
    else if (byte_of c =? 46) && negb dot then read_mantissa base r true v digits frac
    else if is_digit (byte_of c) then next (byte_of c - 48)
    else if (base =? 16) && hex_letter (lower c) then next (lower c - 87)
    else mkMantissa v digits frac s
  end.
(** The exponent's digits; it stops growing at 10000. *)
Fixpoint read_exponent (s : string) (e : Z) : Z * string :=
  match s with
  | EmptyString => (e, s)
  | String c r =>
    if byte_of c =? 95 then read_exponent r e
    else if is_digit (byte_of c) then read_exponent r (if e <? 10000 then e * 10 + (byte_of c - 48) else e)
    else (e, s)
  end.
Definition exponent (marker : Z) (s : string) : option (option Z * string) :=
  match s with
  | String c r =>
    if lower c =? marker then
      let '(neg, r) := match r with String "-" t => (true, t) | String "+" t => (false, t) | _ => (false, r) end in
      match r with
      | String d _ => if is_digit (byte_of d)
                      then let '(e, rest) := read_exponent r 0 in Some (Some (if neg then - e else e), rest) else None
      | EmptyString => None
      end
    else Some (None, s)
  | EmptyString => Some (None, s)
  end.

Definition float_limit : Z := 2 ^ 1024 - 2 ^ 970.
Definition overflows (base : Z) (v digits e : Z) : bool :=
  if v =? 0 then false
  else if digits * 4 + e <=? 300 then false
  else if 1100 <=? e then true
  else if 0 <=? e then float_limit <=? v * base ^ e else float_limit * base ^ (- e) <=? v.

Definition special (s : string) : bool :=
  existsb (String.eqb (to_lower (sign_rest s))) ["inf"; "infinity"] || (to_lower s =s "nan").
Definition parse_float_ok (s : string) : bool :=
  special s ||
  let body := sign_rest s in
  let '(base, marker, body) := match prefixed [120] body with Some r => (16, 112, r) | None => (10, 101, body) end in
  let m := read_mantissa base body false 0 0 0 in
  (0 <? m_Digits m) &&
  match exponent marker (m_Rest m) with
  | Some (e, rest) =>
    (rest =s "") && ((base =? 10) || match e with Some _ => true | None => false end) && underscoreOK s
    && negb (if base =? 10 then overflows 10 (m_Value m) (m_Digits m) (default 0 e - m_Fraction m)
             else overflows 2 (m_Value m) (m_Digits m) (default 0 e - 4 * m_Fraction m))
  | None => false
  end.

Example parse_float_samples :
  parse_float_ok <$> ["1.5"; "1e308"; "1e309"; "1_000"; "_1"; "0x1p-2"; "0x1"; "-Inf"; "1e"; ""; "1..2"; "+0.5E+10";
                      "179769313486231580793e289"; "1.7976931348623158e308"; "1.7976931348623159e308"]
  = [true; true; false; true; false; true; false; true; false; false; false; true; false; true; false].
Proof. vm_compute. reflexivity. Qed.
End GoFloat.
Import GoFloat.

Module Native.

(** ** The native schema *)

Definition TypeInteger : string := "integer".
Definition TypeReal : string := "real".
Definition TypeBoolean : string := "boolean".
Definition TypeString : string := "string".
Definition TypeUUID : string := "uuid".
Definition TypeSet : string := "set".
Definition TypeMap : string := "map".
Definition Unlimited : Z := -1.

Record BaseType := mkBaseType {
  bt_Type : string; bt_Enum : list json; MinInteger : option Z; MaxInteger : option Z;
  RefTable : string; RefType : string }.
Definition zero_base : BaseType := mkBaseType "" [] None None "" "".
Record ColumnType := mkColumnType { ct_Key : option BaseType; ct_Value : option BaseType; ct_Min : Z; ct_Max : Z }.
Record ColumnSchema := mkColumn { co_Type : string; TypeObj : option ColumnType; Mutable : bool; Ephemeral : bool }.
Record TableSchema := mkTable { Columns : gmap string ColumnSchema; Indexes : list (list string); IsRoot : option bool }.
(** The parts of the public schema (inventory/types.go) that execution reads,
    with the native one, and the schema as it was received, from which discover
    qualifies two columns once.
    go: internal/provider/ovsdb/schema.go discovered *)
Record discovered := mkDiscovered {
  d_Raw : json; d_Digest : string; TunnelConfiguration : bool; MirrorConfiguration : bool;
  d_Tables : gmap string TableSchema }.
(** [d.native.Tables[table].Columns[name]]: nil for an unknown table. *)
Definition column (d : discovered) (table name : string) : option ColumnSchema :=
  d_Tables d !! table ≫= fun t => Columns t !! name.
Definition key_of (c : ColumnSchema) : BaseType := default zero_base (TypeObj c ≫= ct_Key).
Definition value_of (c : ColumnSchema) : option BaseType := TypeObj c ≫= ct_Value.
Definition min_of (c : ColumnSchema) : Z := default 0 (ct_Min <$> TypeObj c).
Definition max_of (c : ColumnSchema) : Z := default 0 (ct_Max <$> TypeObj c).

(** ** Observed rows *)

(** go: internal/inventory/types.go Row *)
Record Row := mkRow {
  Configuration : gmap string json; InterfaceOptionsEmpty : option bool; row_UUID : string; Values : gmap string json }.
Definition zero_row : Row := mkRow ∅ None "" ∅.
(** go: internal/inventory/types.go Rows *)
Definition Rows : Type := gmap string (gmap string Row).
(** A nil map has no row, and a missing row is the zero row. *)
Definition rows_of (rows : Rows) (table : string) : gmap string Row := default ∅ (rows !! table).
Definition row_of (rows : Rows) (table id : string) : Row := default zero_row (rows_of rows table !! id).
(** go: internal/inventory/types.go FileWitness *)
Record FileWitness := mkFileWitness {
  fw_Available : bool; fw_Device : Z; fw_Inode : Z; fw_Size : Z; fw_Offset : Z; fw_Length : Z; fw_Digest : string;
  fw_PriorMatches : bool; fw_ServerHasFile : bool; fw_ServerBinding : string }.
(** go: internal/inventory/types.go Evidence *)
Record Evidence := mkEvidence {
  ev_Endpoint : string; ev_Database : string; ev_Schema : string; ev_Root : string; ev_Anchors : option (list string);
  ev_Peer : string; ev_Boot : string; ev_File : FileWitness; ObservedAt : Z; ev_Continuous : bool }.
(** go: internal/inventory/types.go Observation *)
Record Observation := mkObservation { ob_Rows : Rows; ob_Evidence : Evidence }.
(** go: internal/inventory/execution.go ExecutionView *)
Record ExecutionView := mkView { ev_Candidate : Snapshot; ev_Observation : Observation }.

Definition file_json (f : FileWitness) : json :=
  JObj [("available", JBool (fw_Available f)); ("device", JNum (fw_Device f)); ("inode", JNum (fw_Inode f));
        ("size", JNum (fw_Size f)); ("offset", JNum (fw_Offset f)); ("length", JNum (fw_Length f));
        ("digest", JStr (fw_Digest f)); ("prior_matches", JBool (fw_PriorMatches f));
        ("server_has_file", JBool (fw_ServerHasFile f)); ("server_binding", JStr (fw_ServerBinding f))].
Definition evidence_json (e : Evidence) : json :=
  JObj [("endpoint", JStr (ev_Endpoint e)); ("database", JStr (ev_Database e)); ("schema", JStr (ev_Schema e));
        ("root", JStr (ev_Root e)); ("anchors", jslice JStr (ev_Anchors e)); ("peer", JStr (ev_Peer e));
        ("boot", JStr (ev_Boot e)); ("file", file_json (ev_File e)); ("observed_at", time_json (ObservedAt e));
        ("continuous", JBool (ev_Continuous e))].

(** [v, ok := raw.([]any)] and [v, ok := raw.(map[string]any)]. *)
Definition as_array (j : option json) : option (list json) := match j with Some (JArr l) => Some l | _ => None end.
Definition as_map (j : option json) : option (gmap string json) :=
  match j with Some (JObj l) => Some (list_to_map l) | _ => None end.
Definition is_text (s : string) (j : option json) : bool := match j with Some (JStr x) => x =s s | _ => false end.

(** ** Operations *)

(** go: internal/provider/ovsdb/execution.go uuidValue *)
Definition uuidValue (id : string) : json := JArr [JStr "uuid"; JStr id].
(** go: internal/provider/ovsdb/execution.go uuidCondition *)
Definition uuidCondition (id : string) : json := JArr [JStr "_uuid"; JStr "=="; uuidValue id].
(** go: internal/provider/ovsdb/execution.go uuidSet *)
Definition uuidSet (ids : list string) : json := JArr [JStr "set"; JArr (uuidValue <$> ids)].
Definition includes (column : string) (v : json) : json := JArr [JStr column; JStr "includes"; v].
Definition jset (l : list json) : json := JArr [JStr "set"; JArr l].
Definition jpairs (l : list (string * json)) : json :=
  JArr [JStr "map"; JArr ((fun kv => JArr [JStr (fst kv); snd kv]) <$> l)].

(** A row of an operation, by column. *)
Definition wire_row : Type := gmap string json.
Definition wire_row_json (r : wire_row) : json := jmap (fun v => v) r.
(** The operations that the source writes as maps, one constructor for each
    shape; [operation_json] is the map. *)
Inductive operation : Type :=
  | Wait (table : string) (where_ : list json) (columns : list string) (rows : list json)
  | Update (table : string) (where_ : list json) (row : wire_row)
  | Mutate (table : string) (where_ : list json) (mutations : list json)
  | Insert (table uuid : string) (row : wire_row)
  | Select (table : string) (where_ : list json) (columns : list string)
  | CommitDurable.
Definition operation_json (o : operation) : json :=
  match o with
  | Wait t w c r => JObj [("columns", jlist JStr c); ("op", JStr "wait"); ("rows", JArr r); ("table", JStr t);
                          ("timeout", JNum 0); ("until", JStr "=="); ("where", JArr w)]
  | Update t w r => JObj [("op", JStr "update"); ("row", wire_row_json r); ("table", JStr t); ("where", JArr w)]
  | Mutate t w m => JObj [("mutations", JArr m); ("op", JStr "mutate"); ("table", JStr t); ("where", JArr w)]
  | Insert t u r => JObj [("op", JStr "insert"); ("row", wire_row_json r); ("table", JStr t); ("uuid", JStr u)]
  | Select t w c => JObj [("columns", jlist JStr c); ("op", JStr "select"); ("table", JStr t); ("where", JArr w)]
  | CommitDurable => JObj [("durable", JBool true); ("op", JStr "commit")]
  end.
(** go: internal/provider/ovsdb/execution.go waitRows *)
Definition waitRows : string -> list json -> list string -> list json -> operation := Wait.
(** The guard that exactly the row [id] (or none) satisfies the condition. *)
Definition only_row (table : string) (where_ : list json) (ids : list string) : operation :=
  waitRows table where_ ["_uuid"] ((fun id => JObj [("_uuid", uuidValue id)]) <$> ids).

(** ** Native values *)

(** The text of a conversion error of package strconv is not used. *)
Definition conversion : error := ENew "strconv: parsing".
(** go: internal/provider/ovsdb/execution.go nativeAtom *)
Definition nativeAtom (value : json) (kind : string) : result json :=
  if kind =s TypeReal then
    match value with
    | JStr s => if parse_float_ok s then Ok (JLit s) else Err conversion
    | _ => Err (ENew "NATIVE_REAL_UNKNOWN")
    end
  else if kind =s TypeInteger then
    match value with
    | JStr s => if parse_int s 64 then Ok (JLit s) else Err conversion
    | _ => Err (ENew "NATIVE_INTEGER_UNKNOWN")
    end
  else if kind =s TypeUUID then
    match value with
    | JStr s => if UUID s then Ok (uuidValue s) else Err (ENew "NATIVE_UUID_UNKNOWN")
    | _ => Err (ENew "NATIVE_UUID_UNKNOWN")
    end
  else if kind =s TypeString then
    match value with JStr _ => Ok value | _ => Err (ENew "NATIVE_STRING_UNKNOWN") end
  else if kind =s TypeBoolean then
    match value with JBool _ => Ok value | _ => Err (ENew "NATIVE_BOOLEAN_UNKNOWN") end
  else Err (ENew "NATIVE_GUARD_UNSUPPORTED").
Fixpoint native_atoms (l : list json) (kind : string) : result (list json) :=
  match l with
  | [] => Ok []
  | v :: r => let? a := nativeAtom v kind in let? rest := native_atoms r kind in Ok (a :: rest)
  end.
Fixpoint native_pairs (l : list (string * json)) (kind : string) : result (list (string * json)) :=
  match l with
  | [] => Ok []
  | (k, v) :: r => let? a := nativeAtom v kind in let? rest := native_pairs r kind in Ok ((k, a) :: rest)
  end.
(** The keys of a map are printed as strings, in order.
    go: internal/provider/ovsdb/execution.go nativeValue *)
Definition nativeValue (value : json) (c : option ColumnSchema) : result json :=
  match c with
  | None => Err (ENew "NATIVE_GUARD_UNSUPPORTED")
  | Some c =>
    match TypeObj c ≫= ct_Key with
    | None => Err (ENew "NATIVE_GUARD_UNSUPPORTED")
    | Some key =>
      if co_Type c =s TypeMap then
        match as_map (Some value) with
        | None => Err (ENew "NATIVE_MAP_UNKNOWN")
        | Some m => let? pairs := native_pairs (sort_keys (map_to_list m)) (bt_Type (default zero_base (value_of c))) in
                    Ok (jpairs pairs)
        end
      else if co_Type c =s TypeSet then
        let? out := native_atoms (match value with JArr l => l | _ => [value] end) (bt_Type key) in Ok (jset out)
      else nativeAtom value (bt_Type key)
    end
  end.

(** The columns of a guard, encoded.
    go: internal/provider/ovsdb/execution.go:139-149 guard *)
Fixpoint guard_values (d : discovered) (table : string) (row : Row) (names : list string) (out : wire_row)
    : result wire_row :=
  match names with
  | [] => Ok out
  | name :: r =>
    match Values row !! name with
    | None => Err (ENew "NATIVE_DEPENDENCY_UNKNOWN")
    | Some value => let? v := nativeValue value (column d table name) in guard_values d table row r (<[name := v]> out)
    end
  end.
(** go: internal/provider/ovsdb/execution.go guard *)
Definition guard (d : discovered) (table : string) (row : Row) (names : list string) (where_ : list json)
    : result operation :=
  let? values := guard_values d table row names {["_uuid" := uuidValue (row_UUID row)]} in
  Ok (waitRows table where_ ("_uuid" :: names) [wire_row_json values]).

(** ** Reading values back *)

(** [a, ok := v.([]any); ok && len(a) == 2 && a[0] == tag], and [a[1]]. *)
Definition tagged (tag : string) (v : json) : option json :=
  match v with JArr [JStr t; x] => if t =s tag then Some x else None | _ => None end.
(** go: internal/provider/ovsdb/schema.go atom *)
Definition atom (v : json) (typ : string) : result json :=
  let invalid := Err (ENew "OVSDB_VALUE_TYPE_INVALID") in
  if typ =s TypeInteger then
    match v with JLit n => if parse_int n 64 then Ok (JStr n) else invalid | _ => invalid end
  else if typ =s TypeReal then
    match v with JLit n => if parse_float_ok n then Ok (JStr n) else invalid | _ => invalid end
  else if typ =s TypeString then
    match v with JStr s => if slen s <=? 4096 then Ok v else invalid | _ => invalid end
  else if typ =s TypeBoolean then
    match v with JBool _ => Ok v | _ => invalid end
  else if typ =s TypeUUID then
    match tagged "uuid" v with Some (JStr s) => if UUID s then Ok (JStr s) else invalid | _ => invalid end
  else invalid.
(** [fmt.Sprint] of an atom. *)
Definition sprint (v : json) : string :=
  match v with JStr s => s | JBool true => "true" | JBool false => "false" | _ => EmptyString end.
(** go: internal/provider/ovsdb/schema.go:203-220 normalize *)
Fixpoint normalize_pairs (pairs : list json) (key value : string) (out : gmap string json) : result (gmap string json) :=
  match pairs with
  | [] => Ok out
  | JArr [k; v] :: r =>
    let? k := atom k key in
    let? v := atom v value in
    fail_if not_nil (out !! sprint k) with ENew "OVSDB_DUPLICATE_KEY" ;;
    normalize_pairs r key value (<[sprint k := v]> out)
  | _ => Err (ENew "OVSDB_MAP_INVALID")
  end.
(** Elements are told apart by the digest of their JSON.
    go: internal/provider/ovsdb/schema.go:236-247 normalize *)
Fixpoint normalize_set (l : list json) (kind : string) (seen : list string) : result (list json) :=
  match l with
  | [] => Ok []
  | v :: r =>
    let? n := atom v kind in
    fail_if contains seen (digest_json n) with ENew "OVSDB_DUPLICATE_ELEMENT" ;;
    let? rest := normalize_set r kind (digest_json n :: seen) in
    Ok (n :: rest)
  end.
(** A map is an object with its keys in order; a set is sorted by its text.
    go: internal/provider/ovsdb/schema.go normalize *)
Definition normalize (v : json) (c : ColumnSchema) : result json :=
  let key := bt_Type (key_of c) in
  if co_Type c =s TypeMap then
    match tagged "map" v with
    | Some (JArr pairs) =>
      fail_if 128 <? len pairs with ENew "OVSDB_MAP_BUDGET" ;;
      let? m := normalize_pairs pairs key (bt_Type (default zero_base (value_of c))) ∅ in
      Ok (jmap (fun v => v) m)
    | Some _ => Err (ENew "OVSDB_MAP_BUDGET")
    | None => Err (ENew "OVSDB_MAP_INVALID")
    end
  else if co_Type c =s TypeSet then
    let? values :=
      match tagged "set" v with
      | Some (JArr l) => Ok l
      | Some _ => Err (ENew "OVSDB_SET_INVALID")
      | None => Ok [v]
      end in
    fail_if (4096 <? len values) || (len values <? min_of c) || (negb (max_of c =? Unlimited) && (max_of c <? len values))
      with ENew "OVSDB_SET_BUDGET" ;;
    let? out := normalize_set values key [] in
    Ok (JArr (merge_sort (fun a b => Is_true (String.leb (sprint a) (sprint b))) out))
  else atom v key.

(** ** Plans *)

(** [MirrorBuild] is what mirror_runtime.go qualifies; it is not read here.
    go: internal/provider/ovsdb/execution.go nativePlan *)
Record nativePlan := mkNativePlan {
  n_MirrorBuild : option json; n_MirrorAuthority : string; TopologyDevices : gmap string string;
  TopologyBefore : gmap string (gmap string json); TopologyAfter : gmap string (gmap string json);
  PolicingKernelBefore : string; Operations : list operation; CountIndexes : list Z; TargetIndex : Z;
  n_Evidence : Evidence; CreationMarker : string; InsertUUIDs : gmap Z string; TreeAuthority : string;
  TreePolicy : string }.
Definition omit_map {A} (k : string) (f : A -> json) (m : gmap string A) : list (string * json) :=
  if decide (map_to_list m = []) then [] else [(k, jmap f m)].
Definition insert_uuids_json (m : gmap Z string) : gmap string string :=
  list_to_map ((fun kv => (format_int (fst kv), snd kv)) <$> map_to_list m).
Definition native_json (n : nativePlan) : json :=
  JObj (omit_nil "mirror_build" (fun j => j) (n_MirrorBuild n) ++ omit_str "mirror_authority" (n_MirrorAuthority n)
        ++ omit_map "topology_devices" JStr (TopologyDevices n)
        ++ omit_map "topology_before" wire_row_json (TopologyBefore n)
        ++ omit_map "topology_after" wire_row_json (TopologyAfter n)
        ++ omit_str "policing_kernel_before" (PolicingKernelBefore n)
        ++ [("operations", jlist operation_json (Operations n)); ("count_indexes", jlist JNum (CountIndexes n));
            ("target_index", JNum (TargetIndex n)); ("evidence", evidence_json (n_Evidence n))]
        ++ omit_str "creation_marker" (CreationMarker n)
        ++ omit_map "insert_uuids" JStr (insert_uuids_json (InsertUUIDs n))
        ++ omit_str "tree_authority" (TreeAuthority n) ++ omit_str "tree_policy" (TreePolicy n)).

(** [json.Marshal] refuses a [json.Number] that is not a number literal. *)
Fixpoint encodable (j : json) : bool :=
  match j with
  | JLit t => match number_literal t with Some (_, r) => r =s "" | None => false end
  | JArr l => forallb encodable l
  | JObj l => forallb (fun kv => encodable (snd kv)) l
  | _ => true
  end.
(** go: internal/execution/types.go MaxPlanBytes *)
Definition MaxPlanBytes : Z := Z.shiftl 256 10.
Definition over_budget (j : json) : bool := negb (encodable j) || (MaxPlanBytes <? slen (marshal j)).

End Native.

(** * Native values there and back

    [normalize] (schema.go) reads a wire value, [nativeValue] (execution.go)
    writes one: what is written reads back the same. The sorted forms and the
    atoms come first. *)

Module NativeProofs.
Import Native.
#[local] Opaque digest_json.

(** ** Sorted keys *)

Lemma insert_key_permutation {A} (kv : string * A) l : insert_key kv l ≡ₚ kv :: l.
Proof.
  induction l as [|h t IH]; [done|]. cbn [insert_key]. destruct (string_leb _ _); [done|]. rewrite IH. constructor.
Qed.
Lemma sort_keys_permutation {A} (l : list (string * A)) : sort_keys l ≡ₚ l.
Proof. induction l as [|kv l IH]; [done|]. cbn [sort_keys foldr]. rewrite insert_key_permutation. by rewrite IH. Qed.
Lemma sort_keys_map {A} (m : gmap string A) : list_to_map (sort_keys (map_to_list m)) = m.
Proof.
  rewrite <- (list_to_map_to_list m) at 2. apply list_to_map_proper; [|apply sort_keys_permutation].
  rewrite sort_keys_permutation. apply NoDup_fst_map_to_list.
Qed.

(** ** Atoms *)

Lemma tagged_some tag v x : tagged tag v = Some x <-> v = JArr [JStr tag; x].
Proof.
  split; [|intros ->; cbn; by rewrite String.eqb_refl].
  destruct v as [| | | | |[|[| | | |t| |] [|y []]]|]; try done. cbn. destruct (t =s tag) eqn:E; [|done].
  apply String.eqb_eq in E as ->. by intros [= ->].
Qed.
Lemma uuid_atom w v : atom w TypeUUID = Ok v -> exists s, w = uuidValue s /\ v = JStr s /\ UUID s = true.
Proof.
  unfold atom. cbn. destruct (tagged "uuid" w) as [x|] eqn:E; [|done]. apply tagged_some in E as ->.
  destruct x; try done. destruct (UUID s) eqn:E; [|done]. intros [= <-]. by exists s.
Qed.
Lemma atom_native w kind v : atom w kind = Ok v -> nativeAtom v kind = Ok w.
Proof.
  intros H. destruct (kind =s TypeUUID) eqn:EU.
  { apply String.eqb_eq in EU. subst. apply uuid_atom in H as (s & -> & -> & E). unfold nativeAtom. cbn. by rewrite E. }
  unfold atom, nativeAtom in *. rewrite EU in *.
  destruct (kind =s TypeInteger) eqn:EI.
  { apply String.eqb_eq in EI. subst. destruct w; try done. destruct (parse_int _ _) eqn:E; [|done]. injection H as <-. cbn. by rewrite E. }
  destruct (kind =s TypeReal) eqn:ER.
  { destruct w; try done. destruct (parse_float_ok _) eqn:E; [|done]. injection H as <-. by rewrite E. }
  destruct (kind =s TypeString) eqn:ES.
  { destruct w; try done. destruct (_ <=? _); [|done]. by injection H as <-. }
  destruct (kind =s TypeBoolean) eqn:EB; [|done].
  destruct w; try done. by injection H as <-.
Qed.
(** An atom is determined by its kind and its text. *)
Definition of_text (kind text : string) : json := if kind =s TypeBoolean then JBool (text =s "true") else JStr text.
Lemma atom_text w kind v : atom w kind = Ok v -> v = of_text kind (sprint v).
Proof.
  intros H%atom_native. unfold nativeAtom, of_text in *. destruct (kind =s TypeBoolean) eqn:EB.
  - apply String.eqb_eq in EB. subst. cbn in *. destruct v as [|[]| | | | |]; done.
  - destruct v; try done; repeat (destruct (kind =s _); try done).
Qed.
Lemma atom_inj w1 w2 kind v1 v2 : atom w1 kind = Ok v1 -> atom w2 kind = Ok v2 -> sprint v1 = sprint v2 -> v1 = v2.
Proof. intros H1%atom_text H2%atom_text E. congruence. Qed.

(** ** Sets *)

Definition atoms_of (kind : string) : list json -> list json -> Prop := Forall2 (fun w v => atom w kind = Ok v).
Lemma normalize_set_ok l kind seen out : normalize_set l kind seen = Ok out <->
  atoms_of kind l out /\ NoDup (digest_json <$> out) /\ forall v, v ∈ out -> digest_json v ∉ seen.
Proof.
  revert seen out. induction l as [|w l IH]; intros seen out; cbn [normalize_set].
  - split; [intros [= <-]; split_and!; [constructor|constructor|]; by intros v Hv%elem_of_nil|].
    intros (H & _). inversion H. done.
  - split.
    + intros H. destruct (atom w kind) as [v|] eqn:Ev; [|done]. destruct (contains _ _) eqn:Ec; [done|].
      destruct (normalize_set l kind _) as [rest|] eqn:Er; [|done]. injection H as <-. apply IH in Er as (H1 & H2 & H3).
      apply contains_not_In in Ec. rewrite <- list_elem_of_In in Ec. split_and!; [by constructor| |].
      * constructor; [|done]. intros (x & Hx & Hin)%list_elem_of_fmap. specialize (H3 x Hin). rewrite <- Hx in H3. apply H3. left.
      * intros x [->|Hx]%elem_of_cons; [done|]. specialize (H3 x Hx). set_solver.
    + intros (H1 & H2 & H3). inversion H1 as [|? v ? rest Hv Hrest]; subst. rewrite Hv. cbn in H2. apply NoDup_cons in H2 as [H2 H4].
      destruct (contains seen (digest_json v)) eqn:Ec.
      { apply contains_In, list_elem_of_In in Ec. exfalso. apply (H3 v); [left|done]. }
      assert (normalize_set l kind (digest_json v :: seen) = Ok rest) as ->; [|done].
      apply IH. split_and!; [done|done|]. intros x Hx [E|Hs]%elem_of_cons; [|by apply (H3 x); [right|]].
      apply H2. rewrite <- E. by apply list_elem_of_fmap_2.
Qed.
Lemma native_atoms_of kind l : (forall v, v ∈ l -> exists w, atom w kind = Ok v) ->
  exists ws, native_atoms l kind = Ok ws /\ atoms_of kind ws l.
Proof.
  induction l as [|v l IH]; intros H; [by exists []; split; [|constructor]|].
  destruct (H v) as [w Hw]; [left|]. destruct IH as (ws & Hn & Hws); [intros; apply H; by right|].
  exists (w :: ws). cbn [native_atoms]. rewrite (atom_native _ _ _ Hw), Hn. split; [done|by constructor].
Qed.
Lemma atoms_source kind l out v : atoms_of kind l out -> v ∈ out -> exists w, atom w kind = Ok v.
Proof. intros H Hv. apply list_elem_of_lookup in Hv as [i Hi]. destruct (Forall2_lookup_r _ _ _ _ _ H Hi) as (w & _ & Hw). by exists w. Qed.

Lemma set_roundtrip w c key v : co_Type c = TypeSet -> TypeObj c ≫= ct_Key = Some key -> normalize w c = Ok v ->
  exists w', nativeValue v (Some c) = Ok w' /\ normalize w' c = Ok v.
Proof.
  intros Ht Hk. unfold normalize, nativeValue, key_of. rewrite Ht, Hk. cbn [default id]. change (TypeSet =s TypeMap) with false.
  change (TypeSet =s TypeSet) with true. cbv iota.
  destruct (match tagged "set" w with Some (JArr l) => Ok l | Some _ => _ | None => Ok [w] end) as [values|]; [|done].
  destruct (_ || _) eqn:Eb; [done|]. destruct (normalize_set values (bt_Type key) []) as [out|] eqn:En; [|done].
  intros [= <-]. apply normalize_set_ok in En as (Ha & Hd & _).
  set (sorted := merge_sort _ out).
  assert (sorted ≡ₚ out) as Hp by apply merge_sort_Permutation.
  destruct (native_atoms_of (bt_Type key) sorted) as (ws & Hn & Hws).
  { intros x Hx. rewrite Hp in Hx. by eapply atoms_source. }
  rewrite Hn. exists (jset ws). split; [done|]. unfold jset. change (tagged "set" (JArr [JStr "set"; JArr ws])) with (Some (JArr ws)). cbv iota.
  assert (len ws = len values) as El.
  { unfold len. f_equal. rewrite (Forall2_length _ _ _ Hws), Hp. symmetry. apply (Forall2_length _ _ _ Ha). }
  rewrite El, Eb. assert (normalize_set ws (bt_Type key) [] = Ok sorted) as ->.
  { apply normalize_set_ok. split_and!; [done|by rewrite Hp|]. intros x _ Hx. by apply elem_of_nil in Hx. }
  f_equal. f_equal. apply sorted_once. intros a b H1 H2. 
  destruct (atoms_source _ _ _ a Ha H1) as [wa Hwa], (atoms_source _ _ _ b Ha H2) as [wb Hwb]. by eapply atom_inj.
Qed.

(** ** Maps *)

(** The pairs of a wire map with text keys, and the values they read as. *)
Definition entry (kind : string) (p : json) (kv : string * json) : Prop :=
  exists w, p = JArr [JStr (fst kv); w] /\ slen (fst kv) <= 4096 /\ atom w kind = Ok (snd kv).
Lemma string_atom k v : atom k TypeString = Ok v <-> exists s, k = JStr s /\ v = JStr s /\ slen s <= 4096.
Proof.
  unfold atom. cbn. split.
  - destruct k; try done. destruct (_ <=? _) eqn:E; [|done]. intros [= <-]. exists s. split_and!; [done..|lia].
  - intros (s & -> & -> & Hs). by apply Z.leb_le in Hs as ->.
Qed.
Lemma normalize_pairs_ok pairs kind out m : normalize_pairs pairs TypeString kind out = Ok m <->
  exists l, Forall2 (entry kind) pairs l /\ NoDup (fst <$> l) /\ (forall k, k ∈ fst <$> l -> out !! k = None) /\
    m = list_to_map l ∪ out.
Proof.
  revert out. induction pairs as [|p pairs IH]; intros out; cbn [normalize_pairs].
  - split.
    + intros [= <-]. exists []. split_and!; [constructor|constructor|by intros k Hk%elem_of_nil|]. cbn. by rewrite (left_id_L ∅ (∪)).
    + intros (l & Hl & _ & _ & ->). inversion Hl. cbn. by rewrite (left_id_L ∅ (∪)).
  - split.
    + intros H. destruct p as [| | | | |[|k [|w []]]|]; try done.
      destruct (atom k TypeString) as [k'|] eqn:Ek; [|done]. apply string_atom in Ek as (s & -> & -> & Hs).
      destruct (atom w kind) as [v|] eqn:Ew; [|done]. cbn [sprint] in H.
      destruct (not_nil (out !! s)) eqn:Eo; [done|]. apply not_nil_false in Eo.
      apply IH in H as (l & Hl & Hnd & Hf & ->). exists ((s, v) :: l). split_and!.
      * constructor; [|done]. by exists w.
      * cbn. apply NoDup_cons. split; [|done]. intros Hin. specialize (Hf s Hin). by rewrite lookup_insert_eq in Hf.
      * cbn. intros k [->|Hk]%elem_of_cons; [done|]. specialize (Hf k Hk). by apply lookup_insert_None in Hf as [? _].
      * cbn. rewrite <- insert_union_l. symmetry. apply insert_union_r, not_elem_of_list_to_map_1.
        intros Hin. specialize (Hf s Hin). by rewrite lookup_insert_eq in Hf.
    + intros (l & Hl & Hnd & Hf & ->). inversion Hl as [|? [s v] ? l' (w & -> & Hs & Hw) Hl']; subst. cbn [fst snd] in *.
      rewrite (proj2 (string_atom (JStr s) (JStr s))) by (by exists s). rewrite Hw. cbn [sprint].
      rewrite (Hf s) by left. cbn [not_nil is_nil negb]. cbn in Hnd. apply NoDup_cons in Hnd as [Hn1 Hn2].
      apply IH. exists l'. split_and!; [done|done| |].
      * intros k Hk. rewrite lookup_insert_ne by (intros ->; done). apply Hf. by right.
      * cbn. rewrite <- insert_union_l. by apply insert_union_r, not_elem_of_list_to_map_1.
Qed.
Lemma native_pairs_of kind l : (forall kv, kv ∈ l -> exists w, atom w kind = Ok (snd kv)) ->
  exists ws, native_pairs l kind = Ok ws /\ Forall2 (fun p kv => fst p = fst kv /\ atom (snd p) kind = Ok (snd kv)) ws l.
Proof.
  induction l as [|[k v] l IH]; intros H; [by exists []; split; [|constructor]|].
  destruct (H (k, v)) as [w Hw]; [left|]. destruct IH as (ws & Hn & Hws); [intros; apply H; by right|].
  exists ((k, w) :: ws). cbn [native_pairs]. cbn in Hw. rewrite (atom_native _ _ _ Hw), Hn. split; [done|by constructor].
Qed.

Lemma wire_pairs kind ws l : Forall (fun kv => slen (fst kv) <= 4096) l ->
  Forall2 (fun (p kv : string * json) => fst p = fst kv /\ atom (snd p) kind = Ok (snd kv)) ws l ->
  Forall2 (entry kind) ((fun kv => JArr [JStr (fst kv); snd kv]) <$> ws) l.
Proof.
  intros Hl H. revert Hl. induction H as [|[k w] [k' v] ws l [Ek Hw] _ IH]; intros Hl; [constructor|]. cbn in *. subst k'.
  apply Forall_cons in Hl as [Hk Hl]. constructor; [by exists w|by apply IH].
Qed.
Lemma map_roundtrip w c key v : co_Type c = TypeMap -> TypeObj c ≫= ct_Key = Some key -> bt_Type key = TypeString ->
  normalize w c = Ok v -> exists w', nativeValue v (Some c) = Ok w' /\ normalize w' c = Ok v.
Proof.
  intros Ht Hk Hs. unfold normalize, nativeValue, key_of. rewrite Ht, Hk. cbn [default id]. rewrite Hs.
  change (TypeMap =s TypeMap) with true. cbv iota. set (kind := bt_Type (default zero_base (value_of c))).
  destruct (tagged "map" w) as [[| | | | |pairs|]|]; try done. destruct (128 <? len pairs) eqn:El; [done|].
  destruct (normalize_pairs pairs _ kind ∅) as [m|] eqn:Em; [|done]. intros [= <-].
  apply normalize_pairs_ok in Em as (l & Hl & Hnd & _ & Em). rewrite (right_id_L ∅ (∪)) in Em.
  assert (as_map (Some (jmap (fun v => v) m)) = Some m) as ->.
  { unfold jmap. cbn. f_equal. rewrite <- (sort_keys_map m) at 2. f_equal. transitivity (id <$> sort_keys (map_to_list m)); [|by rewrite list_fmap_id].
    apply list_fmap_ext. by intros _ [] _. }
  set (sorted := sort_keys (map_to_list m)).
  assert (sorted ≡ₚ l) as Hp by (unfold sorted; rewrite sort_keys_permutation, Em; by apply map_to_list_to_map).
  assert (forall kv, kv ∈ l -> slen (fst kv) <= 4096 /\ exists w, atom w kind = Ok (snd kv)) as Hin.
  { intros kv Hkv. apply list_elem_of_lookup in Hkv as [i Hi].
    destruct (Forall2_lookup_r _ _ _ _ _ Hl Hi) as (p & _ & x & _ & Hx & Ha). eauto. }
  destruct (native_pairs_of kind sorted) as (ws & Hn & Hws).
  { intros kv Hkv. rewrite Hp in Hkv. by apply Hin. }
  rewrite Hn. eexists. split; [done|]. unfold jpairs. rewrite (proj2 (tagged_some "map" _ _) eq_refl).
  assert (Forall2 (entry kind) ((fun kv => JArr [JStr (fst kv); snd kv]) <$> ws) sorted) as He.
  { apply wire_pairs; [|done]. apply Forall_forall. intros kv Hkv. rewrite Hp in Hkv. by apply Hin. }
  assert (128 <? len ((fun kv => JArr [JStr (fst kv); snd kv]) <$> ws) = false) as ->.
  { unfold len in *. rewrite (Forall2_length _ _ _ He), Hp, <- (Forall2_length _ _ _ Hl). done. }
  rewrite (proj2 (normalize_pairs_ok _ kind ∅ m)); [done|]. exists sorted. split_and!.
  - done.
  - unfold sorted. rewrite sort_keys_permutation. apply NoDup_fst_map_to_list.
  - intros. apply lookup_empty.
  - rewrite (right_id_L ∅ (∪)). unfold sorted. by rewrite sort_keys_map.
Qed.
Lemma atom_roundtrip w c key v : co_Type c <> TypeMap -> co_Type c <> TypeSet -> TypeObj c ≫= ct_Key = Some key ->
  normalize w c = Ok v -> exists w', nativeValue v (Some c) = Ok w' /\ normalize w' c = Ok v.
Proof.
  intros Hm Hs Hk. unfold normalize, nativeValue, key_of. rewrite Hk. apply String.eqb_neq in Hm, Hs. rewrite Hm, Hs.
  cbn [default id]. intros H. exists w. split; [by apply atom_native|done].
Qed.

End NativeProofs.
