(* ===== verification/Compile.v ===== *)
(** * internal/provider/ovsdb: compiling Port fields into one transaction

    [compileExecution] (execution.go, bond.go) for VLAN and bond intents: the
    guards that prove the captured context, the writes with their commit
    marker, the counter increment whose result proves the commit, and the
    durable commit. The parts every compiler shares come first. *)

From S2P Require Import Prelude GoStrings GoJson GoTime ApiTypes CandidateTypes Intents Planning Staging ExecTypes Native.
Import Planning Staging Native.

Module Compile.

(** ** What every compiler does *)

(** go: internal/provider/ovsdb/execution.go number *)
Definition number (value : option json) : result Z :=
  let unknown := Err (ENew "APPLIED_COUNTER_UNKNOWN") in
  match value with
  | Some (JStr s) => match parse_int s 64 with Some n => if n <? 0 then unknown else Ok n | None => unknown end
  | _ => unknown
  end.
Definition MaxInt64 : Z := 2 ^ 63 - 1.
(** The counters of the root row.
    go: internal/provider/ovsdb/execution.go:294-301 compileExecution *)
Definition counters (root : Row) : result (Z * Z) :=
  match number (Values root !! "next_cfg"), number (Values root !! "cur_cfg") with
  | Ok next, Ok cur => if (next =? MaxInt64) || (next <? cur) then Err (Fail 409 "APPLIED_COUNTER_UNSAFE") else Ok (next, cur)
  | _, _ => Err (Fail 409 "APPLIED_COUNTER_UNSAFE")
  end.
Definition counter_column (d : discovered) (name : string) : bool :=
  match column d "Open_vSwitch" name with
  | None => false
  | Some c => (co_Type c =s TypeInteger) && negb ((name =s "next_cfg") && (negb (Mutable c) || Ephemeral c))
  end.
(** go: internal/provider/ovsdb/topology.go topologyCounterChecks *)
Definition counter_columns (d : discovered) : bool := counter_column d "next_cfg" && counter_column d "cur_cfg".

(** go: internal/provider/ovsdb/execution.go nativeRefs *)
Definition nativeRefs (value : option json) : list string :=
  omap (fun v => match v with JStr s => Some s | _ => None end)
    (match value with Some (JArr l) => l | Some v => [v] | None => [] end).

(** A plan with one operation more; [counted]: its count is checked. *)
Definition push (n : nativePlan) (o : operation) : nativePlan :=
  mkNativePlan (n_MirrorBuild n) (n_MirrorAuthority n) (TopologyDevices n) (TopologyBefore n) (TopologyAfter n)
    (PolicingKernelBefore n) (Operations n ++ [o]) (CountIndexes n) (TargetIndex n) (n_Evidence n) (CreationMarker n)
    (InsertUUIDs n) (TreeAuthority n) (TreePolicy n).
Definition push_all (n : nativePlan) (l : list operation) : nativePlan := fold_left push l n.
Definition counted (n : nativePlan) (o : operation) : nativePlan :=
  mkNativePlan (n_MirrorBuild n) (n_MirrorAuthority n) (TopologyDevices n) (TopologyBefore n) (TopologyAfter n)
    (PolicingKernelBefore n) (Operations n ++ [o]) (CountIndexes n ++ [len (Operations n)]) (TargetIndex n)
    (n_Evidence n) (CreationMarker n) (InsertUUIDs n) (TreeAuthority n) (TreePolicy n).
(** An insertion whose identity the reply must repeat. *)
Definition inserted (n : nativePlan) (table uuid : string) (row : wire_row) : nativePlan :=
  mkNativePlan (n_MirrorBuild n) (n_MirrorAuthority n) (TopologyDevices n) (TopologyBefore n) (TopologyAfter n)
    (PolicingKernelBefore n) (Operations n ++ [Insert table uuid row]) (CountIndexes n) (TargetIndex n) (n_Evidence n)
    (CreationMarker n) (<[len (Operations n) := uuid]> (InsertUUIDs n)) (TreeAuthority n) (TreePolicy n).
Definition new_plan (e : Evidence) : nativePlan :=
  mkNativePlan None "" ∅ ∅ ∅ "" [] [] 0 e "" ∅ "" "".

Definition marker_mutations (key marker : string) : list json :=
  [JArr [JStr "external_ids"; JStr "delete"; jset [JStr key]];
   JArr [JStr "external_ids"; JStr "insert"; jpairs [(key, JStr marker)]]].
Definition increment : json := JArr [JStr "next_cfg"; JStr "+="; JNum 1].
(** The read of the counter that proves the commit, and the durable commit. *)
Definition target (n : nativePlan) (root : string) : nativePlan :=
  let at_target :=
    mkNativePlan (n_MirrorBuild n) (n_MirrorAuthority n) (TopologyDevices n) (TopologyBefore n) (TopologyAfter n)
      (PolicingKernelBefore n) (Operations n) (CountIndexes n) (len (Operations n)) (n_Evidence n) (CreationMarker n)
      (InsertUUIDs n) (TreeAuthority n) (TreePolicy n) in
  push_all at_target [Select "Open_vSwitch" [uuidCondition root] ["_uuid"; "next_cfg"]; CommitDurable].
(** The mark of the commit on the root row, with the increment or without.
    go: internal/provider/ovsdb/execution.go:436-439 compileExecution *)
Definition commit_fields (n : nativePlan) (root : string) : nativePlan :=
  target (counted n (Mutate "Open_vSwitch" [uuidCondition root] [increment])) root.
(** [now] is the reading of the clock.
    go: internal/provider/ovsdb/execution.go:440-444 compileExecution *)
Definition plan_of (id marker : string) (e : Envelope) (v : ExecutionView) (d : discovered) (root : string)
    (next cur : Z) (now : Z) (n : nativePlan) (bindings : list Binding) : result Plan :=
  fail_if over_budget (native_json n) with Fail 429 "EXECUTION_PLAN_BUDGET" ;;
  Ok (mkPlan id e (d_Digest d) (sn_Generation (ev_Candidate v)) root marker (format_int next) (format_int cur) now
        (native_json n) bindings).
(** The root row with counters no lower than observed, and room for one more. *)
Definition root_conditions (root : Row) (next cur : Z) : list json :=
  [uuidCondition (row_UUID root); JArr [JStr "next_cfg"; JStr "<"; JNum MaxInt64];
   JArr [JStr "next_cfg"; JStr ">="; JNum next]; JArr [JStr "cur_cfg"; JStr ">="; JNum cur]].
Definition root_row (v : ExecutionView) : Row :=
  row_of (ob_Rows (ev_Observation v)) "Open_vSwitch" (ev_Root (ob_Evidence (ev_Observation v))).

(** ** bond.go *)

Definition enum_has (b : BaseType) (s : string) : bool :=
  existsb (fun j => match j with JStr x => x =s s | _ => false end) (bt_Enum b).
(** go: internal/provider/ovsdb/bond.go bondConstraint *)
Definition bondConstraint (name : string) (c : ColumnSchema) : bool :=
  match TypeObj c ≫= ct_Key with
  | None => false
  | Some key =>
    if negb (Mutable c) || Ephemeral c || negb (min_of c =? 0) then false
    else if name =s "other_config" then
      (co_Type c =s TypeMap) && (bt_Type key =s TypeString)
      && match value_of c with Some v => (bt_Type v =s TypeString) && is_empty (bt_Enum v) | None => false end
      && is_empty (bt_Enum key) && (max_of c =? Unlimited)
    else if ((name <>s "lacp") && (name <>s "bond_mode")) || (bt_Type key <>s TypeString) || not_nil (value_of c)
            || negb (max_of c =? 1) then false
    else forallb (enum_has key)
           (if name =s "bond_mode" then ["active-backup"; "balance-slb"; "balance-tcp"] else ["off"; "active"; "passive"])
  end.
Definition jchoice (o : option string) : json := jset (option_list (JStr <$> o)).
(** go: internal/provider/ovsdb/bond.go bondRow *)
Definition bondRow (b : Bond) : wire_row := {["lacp" := jchoice (LACP b); "bond_mode" := jchoice (b_Mode b)]}.
(** go: internal/provider/ovsdb/bond.go fallbackMutations *)
Definition fallbackMutations (b : Bond) : list json :=
  JArr [JStr "other_config"; JStr "delete"; jset [JStr "lacp-fallback-ab"]] ::
  match Fallback b with
  | Some f => [JArr [JStr "other_config"; JStr "insert"; jpairs [("lacp-fallback-ab", JStr f)]]]
  | None => []
  end.
(** go: internal/provider/ovsdb/execution.go vlanRow *)
Definition vlanRow (v : VLAN) : wire_row :=
  {["vlan_mode" := jchoice (v_Mode v); "tag" := jset (option_list (JNum <$> v_Tag v));
    "trunks" := jset (JNum <$> default [] (Trunks v)); "cvlans" := jset (JNum <$> default [] (CVLANs v))]}.

(** ** The Port fields *)

(** go: internal/execution/types.go MarkerKey *)
Definition MarkerKey : string := "ovs-webui.vlan-commit".
Definition is_string_type (b : option BaseType) : bool := match b with Some b => bt_Type b =s TypeString | None => false end.
(** A map column of strings that may carry the marker.
    go: internal/provider/ovsdb/execution.go:371-378 compileExecution *)
Definition evidence_column (c : option ColumnSchema) : bool :=
  match c with
  | None => false
  | Some c => (co_Type c =s TypeMap) && Mutable c && negb (Ephemeral c) && (bt_Type (key_of c) =s TypeString)
              && is_string_type (value_of c)
  end.
(** go: internal/provider/ovsdb/execution.go:375-378 compileExecution *)
Definition labels_full (labels : option (gmap string json)) (key : string) : bool :=
  match labels with None => true | Some m => (128 <=? Z.of_nat (size m)) && match m !! key with None | Some JNull => true | _ => false end end.
Fixpoint push_guards (l : list (result operation)) (n : nativePlan) : result nativePlan :=
  match l with
  | [] => Ok n
  | g :: r => let? o := g in push_guards r (push n o)
  end.
(** The bridges that hold the port: the row, and its place under the root.
    go: internal/provider/ovsdb/execution.go:379-393 compileExecution *)
Fixpoint bridge_guards (d : discovered) (root port : Row) (bond : bool) (l : list Row) (n : nativePlan) : result nativePlan :=
  match l with
  | [] => Ok n
  | bridge :: r =>
    if negb (contains (nativeRefs (Values bridge !! "ports")) (row_UUID port)) then bridge_guards d root port bond r n
    else
      let columns := ["name"; "datapath_type"; "external_ids"]
                     ++ if bond then ["stp_enable"; "rstp_enable"; "flood_vlans"] else [] in
      let? g := guard d "Bridge" bridge columns [includes "ports" (uuidSet [row_UUID port])] in
      bridge_guards d root port bond r
        (push (push n g) (only_row "Open_vSwitch" [uuidCondition (row_UUID root); includes "bridges" (uuidSet [row_UUID bridge])]
                            [row_UUID root]))
  end.
(** The members of the port, and that they are of no other.
    go: internal/provider/ovsdb/execution.go:394-404 compileExecution *)
Fixpoint member_guards (d : discovered) (rows : Rows) (port : Row) (exclusive : bool) (ids : list string) (n : nativePlan)
    : result nativePlan :=
  match ids with
  | [] => Ok n
  | id :: r =>
    let? g := guard d "Interface" (row_of rows "Interface" id) ["name"; "type"; "options"; "external_ids"] [uuidCondition id] in
    let n := push n g in
    let n := if exclusive then push n (only_row "Port" [includes "interfaces" (uuidSet [id])] [row_UUID port]) else n in
    member_guards d rows port exclusive r n
  end.
(** What a bond intent needs of the schema and of the map that it edits.
    go: internal/provider/ovsdb/execution.go:350-365 compileExecution *)
Definition bond_ready (d : discovered) (port : Row) (i : StoredIntent) : result unit :=
  match i_Bond i, i_BeforeBond i with
  | Some b, Some _ =>
    fail_if existsb (fun name => match column d "Port" name with Some c => negb (bondConstraint name c) | None => true end)
              ["lacp"; "bond_mode"; "other_config"] with Fail 409 "BOND_SCHEMA_UNSUPPORTED" ;;
    fail_if match as_map (Values port !! "other_config") with
            | None => true
            | Some m => (128 <=? Z.of_nat (size m)) && match m !! "lacp-fallback-ab" with None | Some JNull => true | _ => false end
                        && not_nil (Fallback b)
            end with Fail 429 "BOND_MAP_CAPACITY" ;;
    Ok tt
  | _, _ => Err (Fail 422 "INVALID_EXECUTION_SCOPE")
  end.
(** The guard of the datapath that a QinQ intent relies on.
    go: internal/provider/ovsdb/execution.go:339-348 compileExecution *)
Definition qinq_guard (d : discovered) (rows : Rows) (i : StoredIntent) : result operation :=
  match i_QinQ i with
  | None => Err (Fail 409 "QINQ_CONTEXT_UNSUPPORTED")
  | Some q => guard d "Datapath" (row_of rows "Datapath" (DatapathUUID q)) ["capabilities"] [uuidCondition (DatapathUUID q)]
  end.
(** go: internal/provider/ovsdb/execution.go:405-419 compileExecution *)
Definition port_writes (port : string) (i : StoredIntent) (marker : string) (n : nativePlan) : nativePlan :=
  let where_ := [uuidCondition port] in
  let n :=
    match IsBondOperation (i_Operation i), i_Bond i with
    | true, Some b => counted (counted n (Update "Port" where_ (bondRow b))) (Mutate "Port" where_ (fallbackMutations b))
    | _, _ => counted n (Update "Port" where_ (vlanRow (i_Value i)))
    end in
  counted n (Mutate "Port" where_ (marker_mutations MarkerKey marker)).
(** go: internal/provider/ovsdb/execution.go:328-419 compileExecution *)
Definition compile_port (d : discovered) (v : ExecutionView) (root : Row) (marker : string) (i : StoredIntent) (n : nativePlan)
    : result nativePlan :=
  let rows := ob_Rows (ev_Observation v) in
  let bond := IsBondOperation (i_Operation i) in
  let qinq := UsesQinQ i in
  let port := row_of rows "Port" (OVSUUID (i_Object i)) in
  let? n := if qinq then let? g := qinq_guard d rows i in Ok (push n g) else Ok n in
  let? _ := if bond then bond_ready d port i else Ok tt in
  let columns :=
    if bond then ["name"; "interfaces"; "lacp"; "bond_mode"; "other_config"; "external_ids"]
    else ["name"; "interfaces"; "vlan_mode"; "tag"; "trunks"; "cvlans"; "external_ids"]
         ++ if qinq then ["other_config"] else [] in
  let? g := guard d "Port" port columns [uuidCondition (row_UUID port)] in
  let n := push n g in
  fail_if negb (evidence_column (column d "Port" "external_ids")) with Fail 409 "COMMIT_EVIDENCE_UNSUPPORTED" ;;
  fail_if labels_full (as_map (Values port !! "external_ids")) MarkerKey with Fail 429 "COMMIT_EVIDENCE_CAPACITY" ;;
  let? n := bridge_guards d root port bond (snd <$> map_to_list (rows_of rows "Bridge")) n in
  let? n := member_guards d rows port (bond || qinq) (nativeRefs (Values port !! "interfaces")) n in
  Ok (port_writes (row_UUID port) i marker n).
(** go: internal/provider/ovsdb/execution.go:328-435 compileExecution *)
Fixpoint compile_ports (d : discovered) (v : ExecutionView) (root : Row) (marker : string) (l : list StoredIntent)
    (seen : list string) (n : nativePlan) : result nativePlan :=
  match l with
  | [] => Ok n
  | i :: r =>
    fail_if ((i_Operation i <>s "port.vlan.set") && negb (IsBondOperation (i_Operation i)))
            || contains seen (OVSUUID (i_Object i)) with Fail 422 "INVALID_EXECUTION_SCOPE" ;;
    let? n := compile_port d v root marker i n in
    compile_ports d v root marker r (OVSUUID (i_Object i) :: seen) n
  end.
(** go: internal/provider/ovsdb/execution.go:292-444 compileExecution *)
Definition compile_fields (now : Z) (id marker : string) (e : Envelope) (v : ExecutionView) (d : discovered) : result Plan :=
  let root := root_row v in
  let l := intents (e_Candidate e) in
  let? (next, cur) := counters root in
  fail_if negb (counter_columns d) with Fail 409 "APPLIED_COUNTER_UNSUPPORTED" ;;
  let columns := "external_ids" :: if existsb UsesQinQ l then ["other_config"; "datapaths"] else [] in
  let? g := guard d "Open_vSwitch" root columns (root_conditions root next cur) in
  let? n := compile_ports d v root marker l [] (push (new_plan (ob_Evidence (ev_Observation v))) g) in
  fail_if is_empty l with Fail 422 "EMPTY_EXECUTION" ;;
  plan_of id marker e v d (row_UUID root) next cur now (commit_fields n (row_UUID root)) [].

End Compile.
