(* ===== verification/Compilers.v ===== *)
(** * internal/provider/ovsdb: compiling the single-field groups

    The transactions of MTU (mtu.go), policing (policing_edit.go), isolation
    (isolation.go), multicast snooping (multicast.go) and spanning tree
    configuration (spanning_tree_execution.go), with the fence over the four
    core tables that the last three repeat (spanning_tree_fence.go). *)

From S2P Require Import Prelude GoStrings GoJson GoTime ApiTypes Multicast CandidateTypes Intents Planning Staging.
From S2P Require Import FieldGroups Graphs Planner ExecTypes Native Compile.
Import Planning Staging FieldGroups Planner Native Compile.

Module Compilers.

Definition observed_rows (v : ExecutionView) : Rows := ob_Rows (ev_Observation v).
Definition observed_evidence (v : ExecutionView) : Evidence := ob_Evidence (ev_Observation v).
Definition has_integer_bounds (b : BaseType) (low high : Z) : bool :=
  match MinInteger b, MaxInteger b with Some lo, Some hi => (lo <=? low) && (high <=? hi) | _, _ => false end.
(** The labels of a row with room for a marker.
    go: internal/provider/ovsdb/mtu.go:60-67 compileMTUExecution *)
Definition labels_ready (d : discovered) (table : string) (row : Row) : result unit :=
  let labels := as_map (Values row !! "external_ids") in
  fail_if match column d table "external_ids" with Some c => negb (bondConstraint "other_config" c) | None => true end
          || is_nil labels with Fail 409 "COMMIT_EVIDENCE_UNSUPPORTED" ;;
  fail_if labels_full labels MarkerKey with Fail 429 "COMMIT_EVIDENCE_CAPACITY" ;;
  Ok tt.
(** The row is the only one that refers to the other. *)
Definition sole_parents (bridge port iface : string) : list operation :=
  [only_row "Port" [includes "interfaces" (uuidSet [iface])] [port];
   only_row "Bridge" [includes "ports" (uuidSet [port])] [bridge]].
Definition mark_row (n : nativePlan) (table uuid marker : string) : nativePlan :=
  counted n (Mutate table [uuidCondition uuid] (marker_mutations MarkerKey marker)).
(** The root row that holds the bridge. *)
Definition root_holding (root : Row) (bridge : string) (next cur : Z) : list json :=
  match root_conditions root next cur with c :: r => c :: includes "bridges" (uuidSet [bridge]) :: r | [] => [] end.

(** ** mtu.go *)

(** go: internal/provider/ovsdb/mtu.go mtuConstraint *)
Definition mtuConstraint (c : option ColumnSchema) : bool :=
  match c with
  | None => false
  | Some c =>
    match TypeObj c ≫= ct_Key with
    | None => false
    | Some key => Mutable c && negb (Ephemeral c) && (bt_Type key =s TypeInteger) && is_nil (value_of c)
                  && (min_of c =? 0) && (max_of c =? 1) && is_empty (bt_Enum key) && has_integer_bounds key 576 65535
    end
  end.
(** The reported MTU is the only value of its column. *)
Definition reports_mtu (row : Row) (n : Z) : bool :=
  match as_array (Values row !! "mtu") with Some [v] => is_text (format_int n) (Some v) | _ => false end.
(** The binding whose Port holds the interface; the last one counts.
    go: internal/provider/ovsdb/mtu.go:118-127 compileMTUExecution *)
Definition context_parent (rows : Rows) (bindings : list Binding) (iface : string) : string :=
  fold_left (fun found b =>
    if (Table b =s "Port") && contains (nativeRefs (Values (row_of rows "Port" (OVSUUID b)) !! "interfaces")) iface
    then OVSUUID b else found) bindings EmptyString.
(** go: internal/provider/ovsdb/mtu.go:91-131 compileMTUExecution *)
Fixpoint default_guards (d : discovered) (v : ExecutionView) (bridge : string) (all l : list Binding) (n : nativePlan)
    : result nativePlan :=
  let changed := Fail 409 "MTU_DEFAULT_DEPENDENCY_CHANGED" in
  match l with
  | [] => Ok n
  | b :: r =>
    match rows_of (observed_rows v) (Table b) !! OVSUUID b with
    | None => Err changed
    | Some row =>
      fail_if (Generation b <>s sn_Generation (ev_Candidate v)) || negb (ManagementID (ManagementID_ b))
              || ((Table b <>s "Port") && (Table b <>s "Interface")) with changed ;;
      let? columns :=
        if Table b =s "Interface" then
          fail_if negb (default false (InterfaceOptionsEmpty row)) with Fail 409 "MTU_OPTIONS_UNPROVEN" ;;
          match as_array (Values row !! "mtu_request") with
          | None => Err changed
          | Some request =>
            Ok (["name"; "type"; "options"; "mtu_request"; "ofport"; "error"; "external_ids"]
                ++ if negb (is_text "internal" (Values row !! "type")) || negb (is_empty request) then ["mtu"] else [])
          end
        else Ok ["name"; "interfaces"; "external_ids"] in
      let? g := guard d (Table b) row columns [uuidCondition (row_UUID row)] in
      let n := push n g in
      if Table b =s "Port" then
        default_guards d v bridge all r (push n (only_row "Bridge" [includes "ports" (uuidSet [row_UUID row])] [bridge]))
      else
        let parent := context_parent (observed_rows v) all (row_UUID row) in
        fail_if parent =s "" with changed ;;
        default_guards d v bridge all r (push n (only_row "Port" [includes "interfaces" (uuidSet [row_UUID row])] [parent]))
    end
  end.
(** The four rows of an interface, from the root down.
    go: internal/provider/ovsdb/mtu.go:69-88 compileMTUExecution *)
Definition interface_guards (d : discovered) (root bridge port iface : Row) (root_columns columns : list string)
    (next cur : Z) (n : nativePlan) : result nativePlan :=
  let? n := push_guards
    [guard d "Open_vSwitch" root root_columns (root_holding root (row_UUID bridge) next cur);
     guard d "Bridge" bridge ["name"; "datapath_type"; "ports"; "external_ids"] [uuidCondition (row_UUID bridge)];
     guard d "Port" port ["name"; "interfaces"; "external_ids"] [uuidCondition (row_UUID port)];
     guard d "Interface" iface columns [uuidCondition (row_UUID iface)]] n in
  Ok (push_all n (sole_parents (row_UUID bridge) (row_UUID port) (row_UUID iface))).
(** go: internal/provider/ovsdb/mtu.go compileMTUExecution *)
Definition compileMTUExecution (now : Z) (id marker : string) (e : Envelope) (v : ExecutionView) (d : discovered) : result Plan :=
  match intents (e_Candidate e) with
  | [i] =>
    match i_MTU i with
    | None => Err (Fail 409 "MTU_SCHEMA_UNSUPPORTED")
    | Some m =>
      fail_if negb (IsMTUOperation (i_Operation i)) || match m_Before m with Some b => negb (ValidMTU b) | None => false end
              || negb (ValidMTU (ExpectedMTU m)) || ((is_nil (m_Before m) || is_nil (m_After m)) && is_nil (m_Default m))
              || negb (mtuConstraint (column d "Interface" "mtu_request"))
        with Fail 409 "MTU_SCHEMA_UNSUPPORTED" ;;
      let rows := observed_rows v in
      let root := root_row v in
      let port := row_of rows "Port" (OVSUUID (m_Port m)) in
      let bridge := row_of rows "Bridge" (OVSUUID (m_Bridge m)) in
      let iface := row_of rows "Interface" (OVSUUID (i_Object i)) in
      fail_if negb (default false (InterfaceOptionsEmpty iface)) with Fail 409 "MTU_OPTIONS_UNPROVEN" ;;
      fail_if MTUOriginalDeviceRequired m && negb (reports_mtu iface (OriginalMTU m))
        with Fail 409 "MTU_ORIGINAL_DEVICE_UNPROVEN" ;;
      let columns := ["name"; "type"; "options"; "mtu_request"; "external_ids"]
                     ++ if MTUOriginalDeviceRequired m then ["mtu"] else [] in
      let? (next, cur) := counters root in
      fail_if negb (counter_columns d) with Fail 409 "APPLIED_COUNTER_UNSUPPORTED" ;;
      let? _ := labels_ready d "Interface" iface in
      let? n := interface_guards d root bridge port iface ["external_ids"] columns next cur (new_plan (observed_evidence v)) in
      let? n :=
        match m_Default m with
        | None => Ok n
        | Some context =>
          let bindings := default [] (md_Bindings context) in
          let current := Interfaces (ev_Candidate v) !! ManagementID_ (i_Object i) ≫= im_Default in
          fail_if match current with
                  | Some c => digest_json (mtu_default_json context) <>s digest_json (mtu_default_json c)
                  | None => true
                  end || is_empty bindings || (64 <? len bindings) with Fail 409 "MTU_DEFAULT_DEPENDENCY_CHANGED" ;;
          default_guards d v (row_UUID bridge) bindings bindings n
        end in
      let n := counted n (Update "Interface" [uuidCondition (row_UUID iface)]
                            {["mtu_request" := jset (option_list (JNum <$> m_After m))]}) in
      plan_of id marker e v d (row_UUID root) next cur now
        (commit_fields (mark_row n "Interface" (row_UUID iface) marker) (row_UUID root)) []
    end
  | _ => Err (Fail 422 "MTU_SINGLE_INTENT_REQUIRED")
  end.

(** ** policing_edit.go *)

Definition InterfaceConfigurationColumns : list string :=
  ["ofport_request"; "ingress_policing_rate"; "ingress_policing_burst"; "ingress_policing_kpkts_rate";
   "ingress_policing_kpkts_burst"].
(** go: internal/provider/ovsdb/interface_configuration.go interfaceConfigurationConstraint *)
Definition interfaceConfigurationConstraint (name : string) (c : option ColumnSchema) : bool :=
  match c with
  | None => false
  | Some c =>
    match TypeObj c ≫= ct_Key with
    | None => false
    | Some key =>
      if negb (contains InterfaceConfigurationColumns name) || (bt_Type key <>s TypeInteger) || not_nil (value_of c)
         || negb (is_empty (bt_Enum key)) || negb (max_of c =? 1) then false
      else match MinInteger key, MaxInteger key with
           | Some lo, Some hi =>
             if name =s "ofport_request" then (min_of c =? 0) && (lo =? 1) && (hi =? 65279)
             else (co_Type c =s TypeInteger) && (min_of c =? 1) && (lo =? 0)
           | _, _ => false
           end
    end
  end.
(** go: internal/provider/ovsdb/policing_edit.go policingConstraint *)
Definition policingConstraint (name : string) (c : option ColumnSchema) : bool :=
  if (name =s "ofport_request") || negb (interfaceConfigurationConstraint name c) then false
  else match c with
       | Some c => Mutable c && negb (Ephemeral c)
                   && match MaxInteger (key_of c) with Some hi => 1000000 <=? hi | None => false end
       | None => false
       end.
Definition policing_columns : list string :=
  ["ingress_policing_rate"; "ingress_policing_burst"; "ingress_policing_kpkts_rate"; "ingress_policing_kpkts_burst"].
(** go: internal/provider/ovsdb/policing_edit.go compilePolicingExecution *)
Definition compilePolicingExecution (now : Z) (id marker : string) (e : Envelope) (v : ExecutionView) (d : discovered)
    : result Plan :=
  match intents (e_Candidate e) with
  | [i] =>
    match i_Policing i with
    | None => Err (Fail 422 "INVALID_INTERFACE_POLICING")
    | Some m =>
      fail_if (i_Operation i <>s InterfacePolicingSet) || negb (ValidPolicing (pc_Before m)) || negb (ValidPolicing (pc_After m))
        with Fail 422 "INVALID_INTERFACE_POLICING" ;;
      fail_if existsb (fun name => negb (policingConstraint name (column d "Interface" name))) policing_columns
        with Fail 409 "POLICING_SCHEMA_UNSUPPORTED" ;;
      let rows := observed_rows v in
      let root := root_row v in
      let bridge := row_of rows "Bridge" (OVSUUID (pc_Bridge m)) in
      let port := row_of rows "Port" (OVSUUID (pc_Port m)) in
      let iface := row_of rows "Interface" (OVSUUID (i_Object i)) in
      fail_if negb (default false (InterfaceOptionsEmpty iface)) with Fail 409 "POLICING_OPTIONS_UNPROVEN" ;;
      let? (next, cur) := counters root in
      fail_if negb (counter_columns d) with Fail 409 "APPLIED_COUNTER_UNSUPPORTED" ;;
      let? _ := labels_ready d "Interface" iface in
      let? n := interface_guards d root bridge port iface ["external_ids"; "other_config"]
                  (["name"; "type"; "options"; "ifindex"; "ofport"; "error"] ++ policing_columns ++ ["external_ids"])
                  next cur (new_plan (observed_evidence v)) in
      let n := counted n (Update "Interface" [uuidCondition (row_UUID iface)]
                            {["ingress_policing_rate" := JNum (Rate (pc_After m));
                              "ingress_policing_kpkts_rate" := JNum (PacketRate (pc_After m))]}) in
      plan_of id marker e v d (row_UUID root) next cur now
        (commit_fields (mark_row n "Interface" (row_UUID iface) marker) (row_UUID root)) []
    end
  | _ => Err (Fail 422 "POLICING_SINGLE_INTENT_REQUIRED")
  end.

(** ** spanning_tree_fence.go *)

(** go: internal/provider/ovsdb/bridge.go bridgeStatusColumn *)
Definition bridgeStatusColumn (table col : string) : bool :=
  ((table =s "Bridge") && (col =s "datapath_version"))
  || ((table =s "Interface") && contains ["ofport"; "error"; "cfm_flap_count"] col).
Definition root_status : list string :=
  ["next_cfg"; "cur_cfg"; "ovs_version"; "db_version"; "system_type"; "system_version"; "datapaths"; "dpdk_version";
   "dpdk_initialized"; "statistics"; "iface_types"; "datapath_types"].
(** go: internal/provider/ovsdb/topology_schema.go graphConfigurationColumn *)
Definition graphConfigurationColumn (table name : string) (c : option ColumnSchema) : bool :=
  match c with
  | None => false
  | Some c =>
    if Ephemeral c || bridgeStatusColumn table name then false
    else if negb (contains ["Open_vSwitch"; "Bridge"; "Port"; "Interface"; "Mirror"] table) then false
    else if (table =s "Port") && (name =s "bond_active_slave") then false
    else negb ((table =s "Open_vSwitch") && contains root_status name)
  end.
Definition sort_strings : list string -> list string := merge_sort (fun a b => Is_true (String.leb a b)).
Definition columns_of (d : discovered) (table : string) : gmap string ColumnSchema := default ∅ (Columns <$> d_Tables d !! table).
(** The persistent configuration of a table, and the identity of its rows. *)
Definition configuration_columns (d : discovered) (table : string) : list string :=
  "_uuid" :: filter (fun name => graphConfigurationColumn table name (column d table name) = true)
               (fst <$> map_to_list (columns_of d table)).
(** go: internal/provider/ovsdb/spanning_tree_fence.go treeFenceTables *)
Definition treeFenceTables : list string := ["Open_vSwitch"; "Bridge"; "Port"; "Interface"].
(** go: internal/provider/ovsdb/spanning_tree_fence.go:29-37 treeFenceOperations *)
Definition fence_columns (d : discovered) (table : string) : list string :=
  sort_strings (configuration_columns d table ++ if table =s "Open_vSwitch" then ["next_cfg"; "cur_cfg"] else []).
Definition treeFenceChanged : error := ENew "SPANNING_TREE_NATIVE_FENCE_CHANGED".
(** go: internal/inventory/types.go MaxRows *)
Definition MaxRows : Z := 2048.
(** The value of a column of a fenced row; counters must be settled.
    go: internal/provider/ovsdb/spanning_tree_fence.go:55-72 treeFenceOperations *)
Definition fenced_value (d : discovered) (v : ExecutionView) (table id : string) (row : Row) (name : string) : result json :=
  let? value :=
    if (table =s "Open_vSwitch") && ((name =s "next_cfg") || (name =s "cur_cfg")) then
      match number (Values row !! "next_cfg"), number (Values row !! "cur_cfg") with
      | Ok next, Ok cur =>
        fail_if (id <>s ev_Root (observed_evidence v)) || negb (next =? cur)
          with ENew "SPANNING_TREE_CONFIGURATION_NOT_SETTLED" ;;
        Ok (Values row !! name)
      | _, _ => Err (ENew "SPANNING_TREE_CONFIGURATION_NOT_SETTLED")
      end
    else Ok (Configuration row !! name) in
  match value with
  | None => Err treeFenceChanged
  | Some value => match nativeValue value (column d table name) with Ok w => Ok w | Err _ => Err treeFenceChanged end
  end.
Fixpoint fenced_row (value : string -> result json) (names : list string) (out : wire_row) : result wire_row :=
  match names with
  | [] => Ok out
  | name :: r =>
    if name =s "_uuid" then fenced_row value r out
    else let? w := value name in fenced_row value r (<[name := w]> out)
  end.
(** The rows of one table in the order of their identities; [count] rows were
    taken before.
    go: internal/provider/ovsdb/spanning_tree_fence.go:38-76 treeFenceOperations *)
Fixpoint fenced_rows (d : discovered) (v : ExecutionView) (table : string) (columns : list string)
    (l : list (string * Row)) (count : Z) : result (list json) :=
  match l with
  | [] => Ok []
  | (id, row) :: r =>
    fail_if (MaxRows <? count + 1) || (row_UUID row <>s id) || negb (UUID id) with treeFenceChanged ;;
    let? values := fenced_row (fenced_value d v table id row) columns {["_uuid" := uuidValue id]} in
    let? rest := fenced_rows d v table columns r (count + 1) in
    Ok (wire_row_json values :: rest)
  end.
Fixpoint fence_tables (d : discovered) (v : ExecutionView) (tables : list string) (count : Z) : result (list operation) :=
  match tables with
  | [] => Ok []
  | table :: r =>
    match observed_rows v !! table with
    | None => Err treeFenceChanged
    | Some rows =>
      fail_if (table =s "Open_vSwitch") && negb (Z.of_nat (size rows) =? 1) with treeFenceChanged ;;
      let columns := fence_columns d table in
      let? expected := fenced_rows d v table columns (sort_keys (map_to_list rows)) count in
      let? rest := fence_tables d v r (count + Z.of_nat (size rows)) in
      Ok (waitRows table [] columns expected :: rest)
    end
  end.
(** go: internal/provider/ovsdb/spanning_tree_fence.go treeFenceOperations *)
Definition treeFenceOperations (v : ExecutionView) (d : discovered) : result (list operation) :=
  let? waits := fence_tables d v treeFenceTables 0 in
  let ops := waits ++ ((fun table => Select table [] ["_uuid"; "_version"]) <$> treeFenceTables) in
  fail_if over_budget (jlist operation_json ops) with ENew "SPANNING_TREE_FENCE_BUDGET" ;;
  Ok ops.

(** The counters of a settled root row.
    go: internal/provider/ovsdb/isolation.go:34-38 compileIsolationExecution *)
Definition settled_counters (root : Row) : result Z :=
  let? (next, cur) := counters root in
  fail_if negb (next =? cur) with Fail 409 "APPLIED_COUNTER_UNSAFE" ;;
  Ok next.
Definition sort_management (l : list Binding) : list Binding :=
  merge_sort (fun a b => Is_true (String.leb (ManagementID_ a) (ManagementID_ b))) l.

(** ** isolation.go *)

(** go: internal/provider/ovsdb/isolation.go isolationConstraint *)
Definition isolationConstraint (c : option ColumnSchema) : bool :=
  match c with
  | None => false
  | Some c =>
    match TypeObj c ≫= ct_Key with
    | None => false
    | Some key => Mutable c && negb (Ephemeral c) && (co_Type c =s TypeBoolean) && (bt_Type key =s TypeBoolean)
                  && is_nil (value_of c) && (min_of c =? 1) && (max_of c =? 1) && is_empty (bt_Enum key)
    end
  end.
(** A plan behind the whole-table waits of the fence.
    go: internal/provider/ovsdb/isolation.go:57-62 compileIsolationExecution *)
Definition fenced_plan (d : discovered) (v : ExecutionView) : result nativePlan :=
  let? ops := treeFenceOperations v d in
  Ok (push_all (new_plan (observed_evidence v)) (take 4 ops)).
(** go: internal/provider/ovsdb/isolation.go compileIsolationExecution *)
Definition compileIsolationExecution (now : Z) (id marker : string) (e : Envelope) (v : ExecutionView) (d : discovered)
    : result Plan :=
  match intents (e_Candidate e) with
  | [i] =>
    match i_Isolation i with
    | None => Err (Fail 422 "INVALID_PORT_ISOLATION")
    | Some m =>
      fail_if i_Operation i <>s PortIsolationSet with Fail 422 "INVALID_PORT_ISOLATION" ;;
      fail_if negb (Passed (fst (Checks (e_Candidate e) (ev_Candidate v)))) with Fail 409 "ISOLATION_EXECUTION_CONFLICT" ;;
      fail_if negb (isolationConstraint (column d "Port" "protected")) with Fail 409 "ISOLATION_SCHEMA_UNSUPPORTED" ;;
      let root := root_row v in
      let? next := settled_counters root in
      fail_if negb (counter_columns d) with Fail 409 "APPLIED_COUNTER_UNSUPPORTED" ;;
      let? _ := labels_ready d "Port" (row_of (observed_rows v) "Port" (OVSUUID (i_Object i))) in
      let? n := fenced_plan d v in
      let object := OVSUUID (i_Object i) in
      let n := counted n (Update "Port" [uuidCondition object] {["protected" := JBool (iso_After m)]}) in
      plan_of id marker e v d (row_UUID root) next next now
        (commit_fields (mark_row n "Port" object marker) (row_UUID root))
        (sort_management (default [] (isp_Bindings <$> Isolations (ev_Candidate v) !! ManagementID_ (i_Object i))))
    end
  | _ => Err (Fail 422 "INVALID_PORT_ISOLATION")
  end.

(** ** multicast.go *)

Definition free_string (spec : option json) : bool :=
  match spec with
  | Some (JStr s) => s =s "string"
  | Some (JObj l) => (len l =? 1) && is_text "string" (as_map spec ≫= (.!! "type"))
  | _ => false
  end.
(** go: internal/provider/ovsdb/multicast.go multicastMapConstraint *)
Definition multicastMapConstraint (c : option ColumnSchema) (raw : option json) : bool :=
  match c, as_map raw with
  | Some c, Some value =>
    bondConstraint "other_config" c && (Z.of_nat (size value) =? 4)
    && match value !! "min" with Some (JLit t) => t =s "0" | _ => false end && is_text "unlimited" (value !! "max")
    && free_string (value !! "key") && free_string (value !! "value")
  | _, _ => false
  end.
Definition member (j : option json) (k : string) : option json := as_map j ≫= (.!! k).
(** go: internal/provider/ovsdb/multicast.go multicastRawColumnType *)
Definition multicastRawColumnType (raw : json) (table name : string) : option json :=
  member (member (member (member (member (Some raw) "tables") table) "columns") name) "type".
(** What discover stores under [name].
    go: internal/provider/ovsdb/schema.go:87-90 discover *)
Definition multicastMaps (d : discovered) (name : string) : bool :=
  multicastMapConstraint (column d "Bridge" name) (multicastRawColumnType (d_Raw d) "Bridge" name).
(** The complete map of the bridge with the parameters of the target.
    go: internal/provider/ovsdb/multicast.go:106-113 compileMulticastExecution *)
Definition merged_parameters (after : Multicast.Configuration) (other : gmap string json) : gmap string json :=
  fold_left (fun m key => match default None (Multicast.Parameters after !! key) with
                          | Some value => <[key := JStr value]> m
                          | None => delete key m
                          end) Multicast.Keys other.
Definition MulticastMarker : string := "ovs-webui.multicast-commit".
(** go: internal/provider/ovsdb/multicast.go compileMulticastExecution *)
Definition compileMulticastExecution (now : Z) (id marker : string) (e : Envelope) (v : ExecutionView) (d : discovered)
    : result Plan :=
  match intents (e_Candidate e) with
  | [i] =>
    match i_Multicast i with
    | None => Err (Fail 422 "INVALID_MULTICAST_REQUEST")
    | Some m =>
      fail_if i_Operation i <>s BridgeMulticastSet with Fail 422 "INVALID_MULTICAST_REQUEST" ;;
      fail_if negb (Passed (fst (Checks (e_Candidate e) (ev_Candidate v)))) with Fail 409 "MULTICAST_EXECUTION_CONFLICT" ;;
      fail_if negb (isolationConstraint (column d "Bridge" "mcast_snooping_enable")) || negb (multicastMaps d "other_config")
        with Fail 409 "MULTICAST_SCHEMA_UNSUPPORTED" ;;
      let root := root_row v in
      let? next := settled_counters root in
      fail_if negb (counter_columns d) with Fail 409 "APPLIED_COUNTER_UNSUPPORTED" ;;
      let object := OVSUUID (i_Object i) in
      let bridge := row_of (observed_rows v) "Bridge" object in
      let labels := as_map (Configuration bridge !! "external_ids") in
      fail_if is_nil labels || negb (multicastMaps d "external_ids") with Fail 409 "COMMIT_EVIDENCE_UNSUPPORTED" ;;
      fail_if labels_full labels MulticastMarker with Fail 429 "COMMIT_EVIDENCE_CAPACITY" ;;
      let? n := fenced_plan d v in
      match as_map (Configuration bridge !! "other_config") with
      | None => Err (Fail 409 "MULTICAST_CONFIGURATION_UNKNOWN")
      | Some other =>
        let? encoded := nativeValue (wire_row_json (merged_parameters (mc_After m) other)) (column d "Bridge" "other_config") in
        let n := counted n (Update "Bridge" [uuidCondition object]
                   {["mcast_snooping_enable" := JBool (Multicast.Enabled (mc_After m)); "other_config" := encoded]}) in
        let n := counted n (Mutate "Bridge" [uuidCondition object] (marker_mutations MulticastMarker marker)) in
        plan_of id marker e v d (row_UUID root) next next now (commit_fields n (row_UUID root))
          (sort_management (default [] (mb_Bindings <$> Multicasts (ev_Candidate v) !! ManagementID_ (i_Object i))))
      end
    end
  | _ => Err (Fail 422 "INVALID_MULTICAST_REQUEST")
  end.

(** ** spanning_tree_execution.go *)

Definition SpanningTreeMarker : string := "ovs-webui.spanning-tree-commit".
(** go: internal/provider/ovsdb/spanning_tree_execution.go spanningTreeIntent *)
Definition spanningTreeIntent (c : Candidate) : option (StoredIntent * SpanningTreeChange) :=
  match intents c with
  | [i] => if i_Operation i =s SpanningTreeConfigure then (fun m => (i, m)) <$> i_SpanningTree i else None
  | _ => None
  end.
Definition with_tree_policy (n : nativePlan) (policy : string) : nativePlan :=
  mkNativePlan (n_MirrorBuild n) (n_MirrorAuthority n) (TopologyDevices n) (TopologyBefore n) (TopologyAfter n)
    (PolicingKernelBefore n) (Operations n) (CountIndexes n) (TargetIndex n) (n_Evidence n) (CreationMarker n)
    (InsertUUIDs n) (TreeAuthority n) policy.
Definition tree_insertions (after : SpanningTreeConfig) : list (string * json) :=
  omap (fun key => (fun value => (key, JStr value)) <$> default None (t_Parameters after !! key)) SpanningTreeBasicKeys.
(** go: internal/provider/ovsdb/spanning_tree_execution.go compileSpanningTreeExecution *)
Definition compileSpanningTreeExecution (now : Z) (id marker : string) (e : Envelope) (v : ExecutionView) (d : discovered)
    : result Plan :=
  match spanningTreeIntent (e_Candidate e) with
  | None => Err (Fail 422 "INVALID_EXECUTION_SCOPE")
  | Some (i, m) =>
    fail_if negb (Passed (fst (Checks (e_Candidate e) (ev_Candidate v)))) with Fail 409 "SPANNING_TREE_EXECUTION_CONFLICT" ;;
    let root := root_row v in
    let? next := settled_counters root in
    fail_if negb (counter_columns d) with Fail 409 "APPLIED_COUNTER_UNSUPPORTED" ;;
    let object := OVSUUID (i_Object i) in
    fail_if labels_full (as_map (Values (row_of (observed_rows v) "Bridge" object) !! "external_ids")) SpanningTreeMarker
      with Fail 429 "COMMIT_EVIDENCE_CAPACITY" ;;
    let? n := fenced_plan d v in
    let after := tc_After m in
    let n := counted (with_tree_policy n (sn_Policy (ev_Candidate v))) (Update "Bridge" [uuidCondition object]
               {["stp_enable" := JBool (t_STP after); "rstp_enable" := JBool (t_RSTP after)]}) in
    let n := counted n (Mutate "Bridge" [uuidCondition object]
               ([JArr [JStr "other_config"; JStr "delete"; jset (JStr <$> SpanningTreeBasicKeys)];
                 JArr [JStr "other_config"; JStr "insert"; jpairs (tree_insertions after)]]
                ++ marker_mutations SpanningTreeMarker marker)) in
    plan_of id marker e v d (row_UUID root) next next now (commit_fields n (row_UUID root))
      (sort_management (default [] (sb_Bindings <$> SpanningTrees (ev_Candidate v) !! ManagementID_ (i_Object i))))
  end.

End Compilers.
