(* ===== verification/GraphCompile.v ===== *)
(** * internal/provider/ovsdb: compiling graph changes

    The transactions that create and delete isolated bridges (bridge.go,
    bridge_delete.go) and internal ports (internal_port.go,
    internal_port_delete.go), and those of topology, tunnel and mirror
    operations (topology.go, mirror_execution.go); then the dispatch of
    [compileExecution] (execution.go).

    Where the source ranges over the schema, which is a map, the guards come
    in the order of [map_to_list]. *)

From S2P Require Import Prelude GoStrings GoJson GoTime ApiTypes Multicast CandidateTypes Intents Planning Staging.
From S2P Require Import FieldGroups Graphs Topology Planner ExecTypes Native Compile Compilers.
Import Planning Staging FieldGroups Graphs Topology Planner Native Compile Compilers.

Module GraphCompile.

(** [col.TypeObj.Key.Type] and its target. *)
Definition refers_to (c : ColumnSchema) (table : string) : bool :=
  (bt_Type (key_of c) =s TypeUUID) && (RefTable (key_of c) =s table).
(** The condition that a reference column includes the row. *)
Definition referring (name : string) (c : ColumnSchema) (uuid : string) : json :=
  includes name (if co_Type c =s TypeUUID then uuidValue uuid else uuidSet [uuid]).
(** Every column of the schema with its table. *)
Definition schema_columns (d : discovered) : list (string * string * ColumnSchema) :=
  map_to_list (d_Tables d) ≫= fun '(table, t) => (fun kv => (table, fst kv, snd kv)) <$> map_to_list (Columns t).

(** ** bridge.go *)

Definition bridgeMarkerKey : string := "ovs-webui.bridge-commit".
(** go: internal/provider/ovsdb/bridge.go bridgeIntent *)
Definition bridgeIntent (c : Candidate) : option StoredIntent :=
  match intents c with [i] => BridgeGraphIntent i | _ => None end.
Definition core_tables : list string := ["Open_vSwitch"; "Bridge"; "Port"; "Interface"].
Definition core_table_supported (d : discovered) (table : string) : bool :=
  match d_Tables d !! table with
  | None => false
  | Some t =>
    match IsRoot t with Some root => Bool.eqb root (table =s "Open_vSwitch") | None => false end
    && ((table =s "Open_vSwitch") || existsb (fun cols => bool_decide (cols = ["name"])) (Indexes t))
    && match Columns t !! "external_ids" with Some meta => bondConstraint "other_config" meta | None => false end
  end.
Definition strong_reference (d : discovered) (from col to_ : string) : bool :=
  match column d from col with
  | None => false
  | Some c => (co_Type c =s TypeSet) && Mutable c && negb (Ephemeral c) && refers_to c to_ && (RefType (key_of c) =s "strong")
  end.
Definition graph_reference (b : option BaseType) : bool :=
  match b with Some b => (bt_Type b =s TypeUUID) && contains ["Bridge"; "Port"; "Interface"] (RefTable b) | None => false end.
(** go: internal/provider/ovsdb/bridge.go bridgeSchemaSupported *)
Definition bridgeSchemaSupported (d : discovered) : bool :=
  forallb (core_table_supported d) core_tables
  && strong_reference d "Open_vSwitch" "bridges" "Bridge" && strong_reference d "Bridge" "ports" "Port"
  && strong_reference d "Port" "interfaces" "Interface"
  && forallb (fun '(_, _, c) => negb ((graph_reference (TypeObj c ≫= ct_Key) || graph_reference (value_of c))
                                      && (co_Type c =s TypeMap))) (schema_columns d).
(** go: internal/provider/ovsdb/bridge.go emptyNative *)
Definition emptyNative (c : ColumnSchema) : result json :=
  if min_of c =? 0 then Ok (if co_Type c =s TypeMap then jpairs [] else jset [])
  else if co_Type c =s TypeString then Ok (JStr "")
  else if (co_Type c =s TypeInteger) || (co_Type c =s TypeReal) then Ok (JNum 0)
  else if co_Type c =s TypeBoolean then Ok (JBool false)
  else Err (ENew "BRIDGE_LIFECYCLE_SCHEMA_UNSUPPORTED").
(** go: internal/provider/ovsdb/bridge.go:115-126 creationRows *)
Fixpoint empty_columns (table : string) (l : list (string * ColumnSchema)) (out : wire_row) : result wire_row :=
  match l with
  | [] => Ok out
  | (name, c) :: r =>
    if Ephemeral c || bridgeStatusColumn table name || contains ["name"; "external_ids"; "interfaces"] name
    then empty_columns table r out
    else let? v := emptyNative c in empty_columns table r (<[name := v]> out)
  end.
Fixpoint empty_rows (d : discovered) (name marker : string) (l : list Binding) (out : gmap string wire_row)
    : result (gmap string wire_row) :=
  match l with
  | [] => Ok out
  | b :: r =>
    let? row := empty_columns (Table b) (map_to_list (columns_of d (Table b)))
                  {["name" := JStr name; "external_ids" := jpairs [(BridgeCreationMarker, JStr marker)]]} in
    empty_rows d name marker r (<[Table b := row]> out)
  end.
Definition set_columns (table : string) (row : wire_row) (rows : gmap string wire_row) : gmap string wire_row :=
  <[table := row ∪ default ∅ (rows !! table)]> rows.
(** The rows of a new bridge, by table.
    go: internal/provider/ovsdb/bridge.go creationRows *)
Definition creationRows (d : discovered) (i : StoredIntent) (marker : string) : result (gmap string wire_row) :=
  let unsupported := Err (ENew "BRIDGE_LIFECYCLE_SCHEMA_UNSUPPORTED") in
  match i_Creation i with
  | None => unsupported
  | Some c =>
    if negb (bridgeSchemaSupported d) || negb (ValidBridgeName (bc_Name c)) || negb (slen marker =? 64) then unsupported
    else
      let? rows := empty_rows d (bc_Name c) marker (CreationBindings i) ∅ in
      Ok (set_columns "Bridge" {["datapath_type" := JStr "system"; "fail_mode" := jset [JStr "secure"];
                                 "ports" := uuidSet [OVSUUID (bc_Port c)]]}
           (set_columns "Port" {["interfaces" := uuidSet [OVSUUID (bc_Interface c)]]}
             (set_columns "Interface" {["type" := JStr "internal"]} rows)))
  end.

(** ** internal_port.go: the rows *)

(** go: internal/provider/ovsdb/internal_port.go internalPortIntent *)
Definition internalPortIntent (c : Candidate) : option StoredIntent :=
  match intents c with [i] => InternalPortGraphIntent i | _ => None end.
(** The modes of the column, when it may hold VLANs.
    go: internal/provider/ovsdb/vlan.go vlanConstraint *)
Definition vlanConstraint (name : string) (c : ColumnSchema) : option (list string) :=
  match TypeObj c ≫= ct_Key with
  | None => None
  | Some key =>
    if negb (Mutable c) || Ephemeral c || not_nil (value_of c) || negb (min_of c =? 0) then None
    else if name =s "vlan_mode" then
      if (bt_Type key <>s TypeString) || negb (max_of c =? 1) || is_empty (bt_Enum key) then None
      else mapM (fun j => match j with JStr s => Some s | _ => None end) (bt_Enum key)
    else if negb (contains ["tag"; "trunks"; "cvlans"] name) || (bt_Type key <>s TypeInteger) || negb (is_empty (bt_Enum key))
            || negb (has_integer_bounds key 1 4094) then None
    else if name =s "tag" then if max_of c =? 1 then Some [] else None
    else if (max_of c =? Unlimited) || (4094 <=? max_of c) then Some [] else None
  end.
(** go: internal/provider/ovsdb/internal_port.go internalPortSchemaSupported *)
Definition internalPortSchemaSupported (d : discovered) : bool :=
  bridgeSchemaSupported d
  && forallb (fun name => match column d "Port" name ≫= vlanConstraint name with
                          | Some modes => (name <>s "vlan_mode") || contains modes "access"
                          | None => false
                          end) ["vlan_mode"; "tag"; "trunks"; "cvlans"].
(** go: internal/provider/ovsdb/internal_port.go internalPortRows *)
Definition internalPortRows (d : discovered) (i : StoredIntent) (marker : string) : result (gmap string wire_row) :=
  match i_PortCreation i with
  | None => Err (ENew "INTERNAL_PORT_SCHEMA_UNSUPPORTED")
  | Some p =>
    fail_if negb (internalPortSchemaSupported d) || (ip_VLANID p <? 1) || (4094 <? ip_VLANID p)
      with ENew "INTERNAL_PORT_SCHEMA_UNSUPPORTED" ;;
    let synthetic := mkStored None None None None None None None "" "" (ip_Bridge p) zero_vlan zero_vlan "" "" None None []
                       (Some (mkBridgeCreation (ip_Name p) (ip_Root p) (i_Object i) (ip_Interface p) false false))
                       None None None in
    let? rows := creationRows d synthetic marker in
    Ok (set_columns "Port" {["vlan_mode" := jset [JStr "access"]; "tag" := jset [JNum (ip_VLANID p)]]} (delete "Bridge" rows))
  end.

(** ** Guards of a graph *)

(** Who may refer to a row of the graph: its parent in the graph only.
    go: internal/provider/ovsdb/bridge.go:177-200 graphGuards *)
Definition reference_guards (d : discovered) (b : Binding) (root bridge port : string) : list operation :=
  omap (fun '(table, name, c) =>
    if refers_to c (Table b) then
      let want := if (table =s "Open_vSwitch") && (name =s "bridges") && (Table b =s "Bridge") then [root]
                  else if (table =s "Bridge") && (name =s "ports") && (Table b =s "Port") then [bridge]
                  else if (table =s "Port") && (name =s "interfaces") && (Table b =s "Interface") then [port]
                  else [] in
      Some (only_row table [referring name c (OVSUUID b)] want)
    else None) (schema_columns d).
(** The row does not exist, and its name is free. *)
Definition absent_row (table uuid name : string) : list operation :=
  [only_row table [uuidCondition uuid] []; only_row table [JArr [JStr "name"; JStr "=="; JStr name]] []].
Definition sorted_columns (row : wire_row) : list string := sort_strings (fst <$> map_to_list row).
Definition present_row (b : Binding) (name : string) (row : wire_row) : operation :=
  let row : wire_row := <["_uuid" := uuidValue (OVSUUID b)]> row in
  waitRows (Table b) [JArr [JStr "name"; JStr "=="; JStr name]] (sorted_columns row) [wire_row_json row].
(** go: internal/provider/ovsdb/bridge.go graphGuards *)
Definition graphGuards (d : discovered) (i : StoredIntent) (marker : string) (present : bool) : result (list operation) :=
  let? (rows, (name, root, bridge, port)) :=
    match i_PortCreation i, i_Creation i with
    | Some p, _ => let? rows := internalPortRows d i marker in
                   Ok (rows, (ip_Name p, ip_Root p, OVSUUID (ip_Bridge p), OVSUUID (i_Object i)))
    | None, Some c => let? rows := creationRows d i marker in
                      Ok (rows, (bc_Name c, bc_Root c, OVSUUID (i_Object i), OVSUUID (bc_Port c)))
    | None, None => Err (ENew "BRIDGE_LIFECYCLE_SCHEMA_UNSUPPORTED")
    end in
  let guards b :=
    if present then present_row b name (default ∅ (rows !! Table b)) :: reference_guards d b root bridge port
    else absent_row (Table b) (OVSUUID b) name in
  Ok ((CreationBindings i ≫= guards)
      ++ if not_nil (i_PortCreation i) then [only_row "Bridge" [JArr [JStr "name"; JStr "=="; JStr name]] []]
         else if present then []
         else [only_row "Open_vSwitch" [uuidCondition root; includes "bridges" (uuidSet [OVSUUID (i_Object i)])] []]).
(** go: internal/provider/ovsdb/bridge_delete.go deletedSourceGuards *)
Definition deletedSourceGuards (x : BridgeDeletion) : list operation :=
  ((fun b => only_row (Table b) [uuidCondition (OVSUUID b)] []) <$> graph_Bindings (bd_Source x))
  ++ [only_row "Open_vSwitch" [uuidCondition (bg_Root (bd_Source x));
                               includes "bridges" (uuidSet [OVSUUID (bg_Bridge (bd_Source x))])] []].
(** go: internal/provider/ovsdb/internal_port_delete.go deletedPortSourceGuards *)
Definition deletedPortSourceGuards (x : InternalPortDeletion) : list operation :=
  ((fun b => only_row (Table b) [uuidCondition (OVSUUID b)] []) <$> port_graph_Bindings (pd_Source x))
  ++ [only_row "Bridge" [includes "ports" (uuidSet [OVSUUID (pg_Port (pd_Source x))])] []].

(** ** The plans of bridges and internal ports *)

Definition with_marker (n : nativePlan) (marker : string) : nativePlan :=
  mkNativePlan (n_MirrorBuild n) (n_MirrorAuthority n) (TopologyDevices n) (TopologyBefore n) (TopologyAfter n)
    (PolicingKernelBefore n) (Operations n) (CountIndexes n) (TargetIndex n) (n_Evidence n) marker (InsertUUIDs n)
    (TreeAuthority n) (TreePolicy n).
(** The root row may carry the marker.
    go: internal/provider/ovsdb/bridge.go:243-246 compileBridgeExecution *)
Definition root_labels (root : Row) : result unit :=
  fail_if labels_full (as_map (Values root !! "external_ids")) bridgeMarkerKey with Fail 409 "COMMIT_EVIDENCE_CAPACITY" ;;
  Ok tt.
Definition insert_rows (rows : gmap string wire_row) (l : list Binding) (n : nativePlan) : nativePlan :=
  fold_left (fun n b => inserted n (Table b) (OVSUUID b) (default ∅ (rows !! Table b))) (reverse l) n.
Definition link (column : string) (present : bool) (uuid : string) : json :=
  JArr [JStr column; JStr (if present then "insert" else "delete"); uuidSet [uuid]].
(** The intent of the candidate, not its graph. *)
Definition first_intent (e : Envelope) : StoredIntent := default zero_intent (head (intents (e_Candidate e))).
(** go: internal/provider/ovsdb/bridge.go compileBridgeExecution *)
Definition compileBridgeExecution (now : Z) (id marker creationMarker : string) (e : Envelope) (v : ExecutionView)
    (d : discovered) : result Plan :=
  match bridgeIntent (e_Candidate e) with
  | None => Err (Fail 422 "INVALID_EXECUTION_SCOPE")
  | Some i =>
    match i_Creation i with
    | None => Err (Fail 422 "INVALID_EXECUTION_SCOPE")
    | Some c =>
      fail_if Bool.eqb (bc_BeforePresent c) (bc_AfterPresent c) with Fail 422 "INVALID_EXECUTION_SCOPE" ;;
      let root := row_of (observed_rows v) "Open_vSwitch" (bc_Root c) in
      let? (next, cur) := counters root in
      fail_if negb (counter_columns d) with Fail 409 "APPLIED_COUNTER_UNSUPPORTED" ;;
      let? _ := root_labels root in
      let? g := guard d "Open_vSwitch" root ["external_ids"] (root_conditions root next cur) in
      let? ops := graphGuards d i creationMarker (bc_BeforePresent c) in
      let ops := ops ++ match i_Deletion (first_intent e) with
                        | Some x => if bd_Restoring x then deletedSourceGuards x else []
                        | None => []
                        end in
      let n := with_marker (push_all (new_plan (observed_evidence v)) (g :: ops)) creationMarker in
      let? n :=
        if bc_AfterPresent c then let? rows := creationRows d i creationMarker in Ok (insert_rows rows (CreationBindings i) n)
        else Ok n in
      let n := counted n (Mutate "Open_vSwitch" [uuidCondition (row_UUID root)]
                 ([link "bridges" (bc_AfterPresent c) (OVSUUID (i_Object i))]
                  ++ marker_mutations bridgeMarkerKey marker ++ [increment])) in
      plan_of id marker e v d (row_UUID root) next cur now (target n (row_UUID root)) []
    end
  end.

(** go: internal/inventory/internal_port.go InternalPortParentValues *)
Definition InternalPortParentValues (table : string) (row : Row) : gmap string json :=
  filter (fun kv => negb ((table =s "Bridge") && (fst kv =s "ports"))
                    && ((table <>s "Interface") || contains ["name"; "type"; "options"; "external_ids"] (fst kv)) = true)
    (Values row).
Fixpoint parent_rows (d : discovered) (v : ExecutionView) (l : list Binding) : result (list operation) :=
  match l with
  | [] => Ok []
  | b :: r =>
    let row := row_of (observed_rows v) (Table b) (OVSUUID b) in
    let values := InternalPortParentValues (Table b) row in
    fail_if (row_UUID row =s "") || bool_decide (values = ∅) with ENew "INTERNAL_PORT_PARENT_CHANGED" ;;
    let? g := guard d (Table b) row (sorted_columns values) [uuidCondition (OVSUUID b)] in
    let? rest := parent_rows d v r in
    Ok (g :: rest)
  end.
(** The parent bridge with its local port, and exactly its captured ports.
    go: internal/provider/ovsdb/internal_port.go internalParentGuards *)
Definition internalParentGuards (d : discovered) (i : StoredIntent) (v : ExecutionView) (present : bool)
    : result (list operation) :=
  match i_PortCreation i with
  | None => Err (ENew "INVALID_INTERNAL_PORT")
  | Some p =>
    match ps_Parents (InternalPorts (ev_Candidate v)) !! ManagementID_ (ip_Bridge p) with
    | None => Err (ENew "INTERNAL_PORT_PARENT_CHANGED")
    | Some parent =>
      fail_if negb (bool_decide (pp_Binding parent = ip_Bridge p)) || (pp_Dependency parent <>s i_Dependency i)
              || negb (bool_decide (pp_LocalPort parent = ip_LocalPort p))
              || negb (bool_decide (pp_LocalInterface parent = ip_LocalInterface p))
        with ENew "INTERNAL_PORT_PARENT_CHANGED" ;;
      let? ops := parent_rows d v [ip_Bridge p; ip_LocalPort p; ip_LocalInterface p] in
      let members := (uuidValue ∘ OVSUUID <$> default [] (ip_Members p))
                     ++ if present then [uuidValue (OVSUUID (i_Object i))] else [] in
      Ok (ops ++ [waitRows "Bridge" [uuidCondition (OVSUUID (ip_Bridge p))] ["ports"] [JObj [("ports", jset members)]];
                  only_row "Open_vSwitch" [includes "bridges" (uuidSet [OVSUUID (ip_Bridge p)])] [ip_Root p]])
    end
  end.
(** go: internal/provider/ovsdb/internal_port.go compileInternalPortExecution *)
Definition compileInternalPortExecution (now : Z) (id marker creationMarker : string) (e : Envelope) (v : ExecutionView)
    (d : discovered) : result Plan :=
  match internalPortIntent (e_Candidate e) with
  | None => Err (Fail 422 "INVALID_EXECUTION_SCOPE")
  | Some i =>
    match i_PortCreation i with
    | None => Err (Fail 422 "INVALID_EXECUTION_SCOPE")
    | Some p =>
      fail_if Bool.eqb (ip_BeforePresent p) (ip_AfterPresent p) with Fail 422 "INVALID_EXECUTION_SCOPE" ;;
      let root := row_of (observed_rows v) "Open_vSwitch" (ip_Root p) in
      let? (next, cur) := counters root in
      fail_if negb (counter_columns d) with Fail 409 "APPLIED_COUNTER_UNSUPPORTED" ;;
      let? _ := root_labels root in
      let? g := guard d "Open_vSwitch" root ["external_ids"] (root_conditions root next cur) in
      let? ops := graphGuards d i creationMarker (ip_BeforePresent p) in
      let? parents := internalParentGuards d i v (ip_BeforePresent p) in
      let ops := ops ++ parents ++ match i_PortDeletion (first_intent e) with
                                   | Some x => if pd_Restoring x then deletedPortSourceGuards x else []
                                   | None => []
                                   end in
      let n := with_marker (push_all (new_plan (observed_evidence v)) (g :: ops)) creationMarker in
      let? n :=
        if ip_AfterPresent p then let? rows := internalPortRows d i creationMarker in Ok (insert_rows rows (CreationBindings i) n)
        else Ok n in
      let n := counted n (Mutate "Bridge" [uuidCondition (OVSUUID (ip_Bridge p))]
                            [link "ports" (ip_AfterPresent p) (OVSUUID (i_Object i))]) in
      let n := counted n (Mutate "Open_vSwitch" [uuidCondition (row_UUID root)]
                            (marker_mutations bridgeMarkerKey marker ++ [increment])) in
      plan_of id marker e v d (row_UUID root) next cur now (target n (row_UUID root)) []
    end
  end.

End GraphCompile.
