(* ===== verification/TopologyCompile.v ===== *)
(** * internal/provider/ovsdb: compiling topology changes, and the dispatch

    The transaction of a graph operation (topology.go) with the fences of
    mirrors (mirror_execution.go), and [compileExecution] (execution.go), which
    sends a candidate to the compiler of its group. *)

From S2P Require Import Prelude GoStrings GoJson GoTime ApiTypes Multicast CandidateTypes Intents Planning Staging.
From S2P Require Import FieldGroups Graphs Topology Planner ExecTypes Native Compile Compilers GraphCompile.
Import Planning Staging FieldGroups Graphs Topology Planner Native Compile Compilers GraphCompile.

Module TopologyCompile.

(** go: internal/provider/ovsdb/topology.go topologyIntent *)
Definition topologyIntent (c : Candidate) : option (StoredIntent * TopologyChange) :=
  match intents c with
  | [i] => if IsTopologyOperation (i_Operation i) then (fun g => (i, g)) <$> i_Topology i else None
  | _ => None
  end.

(** ** Images *)

(** The columns of a configuration, encoded; each must be persistent.
    go: internal/provider/ovsdb/topology.go:106-117 topologyImages *)
Fixpoint image_values (d : discovered) (table : string) (l : list (string * json)) (out : wire_row) : result wire_row :=
  match l with
  | [] => Ok out
  | (name, value) :: r =>
    fail_if negb (graphConfigurationColumn table name (column d table name)) with ENew "TOPOLOGY_SCHEMA_CHANGED" ;;
    let? v := nativeValue value (column d table name) in
    image_values d table r (<[name := v]> out)
  end.
Definition named (n : TopologyNode) : list json :=
  [uuidCondition (OVSUUID (n_Binding n)); JArr [JStr "name"; JStr "=="; JStr (n_Name n)]].
(** go: internal/provider/ovsdb/topology.go topologyImages *)
Fixpoint topologyImages (d : discovered) (l : list TopologyNode) (images : gmap string configuration)
    : result (list operation) :=
  match l with
  | [] => Ok []
  | n :: r =>
    let b := n_Binding n in
    let cfg := default ∅ (images !! OVSUUID b) in
    fail_if ConfigurationDigest cfg <>s n_Digest n with ENew "TOPOLOGY_CONFIGURATION_CHANGED" ;;
    let? values := image_values d (Table b) (map_to_list cfg) {["_uuid" := uuidValue (OVSUUID b)]} in
    let? rest := topologyImages d r images in
    Ok (waitRows (Table b) (named n) (sort_strings ("_uuid" :: (fst <$> map_to_list cfg))) [wire_row_json values] :: rest)
  end.
(** Every reference to the nodes is the one of their parent in the graph; the
    root's are guarded elsewhere.
    go: internal/provider/ovsdb/topology.go topologyReferences *)
Definition topologyReferences (d : discovered) (l : list TopologyNode) (all : gmap string TopologyNode) : list operation :=
  l ≫= fun n =>
    let b := n_Binding n in
    omap (fun '(table, name, c) =>
      if refers_to c (Table b) && negb ((table =s "Open_vSwitch") && (name =s "bridges")) then
        let parents := filter (fun p => ((Table (n_Binding p) =s table) && bool_decide (b ∈ elems (n_Links p))
                                         && (((table =s "Bridge") && (name =s "ports")) || ((table =s "Port") && (name =s "interfaces"))))
                                        = true) (snd <$> map_to_list all) in
        Some (only_row table [referring name c (OVSUUID b)] (OVSUUID ∘ n_Binding <$> parents))
      else None) (schema_columns d).

(** ** mirror_execution.go *)

(** go: internal/provider/ovsdb/mirror_execution.go:49-78 mirrorFenceOperations *)
Fixpoint mirror_rows (d : discovered) (columns : list string) (l : list (string * Row)) : result (list json) :=
  let unknown := ENew "MIRROR_NATIVE_IMAGE_UNKNOWN" in
  match l with
  | [] => Ok []
  | (id, row) :: r =>
    fail_if (row_UUID row <>s id) || negb (UUID id) with unknown ;;
    let value name :=
      match Configuration row !! name with
      | None => Err unknown
      | Some value => match nativeValue value (column d "Mirror" name) with Ok w => Ok w | Err _ => Err unknown end
      end in
    let? values := fenced_row value columns {["_uuid" := uuidValue id]} in
    let? rest := mirror_rows d columns r in
    Ok (wire_row_json values :: rest)
  end.
(** go: internal/provider/ovsdb/mirror_execution.go mirrorFenceOperations *)
Definition mirrorFenceOperations (v : ExecutionView) (d : discovered) : result (list operation) :=
  fail_if negb (MirrorConfiguration d) || negb (tt_MirrorSupported (sn_Topology (ev_Candidate v)))
    with ENew "MIRROR_SCHEMA_UNSUPPORTED" ;;
  let? core := treeFenceOperations v d in
  match observed_rows v !! "Mirror" with
  | None => Err (ENew "MIRROR_NATIVE_IMAGE_UNKNOWN")
  | Some rows =>
    let columns := sort_strings (configuration_columns d "Mirror") in
    let count := Z.of_nat (size rows)
                 + foldr Z.add 0 ((fun t => Z.of_nat (size (rows_of (observed_rows v) t))) <$> treeFenceTables) in
    fail_if MaxRows <? count with ENew "MIRROR_NATIVE_IMAGE_BUDGET" ;;
    let? expected := mirror_rows d columns (sort_keys (map_to_list rows)) in
    Ok (take 4 core ++ [waitRows "Mirror" [] columns expected])
  end.
(** go: internal/provider/ovsdb/mirror_execution.go mirrorGraphReference *)
Definition mirrorGraphReference (table col : string) : bool :=
  ((table =s "Open_vSwitch") && (col =s "bridges")) || ((table =s "Bridge") && contains ["ports"; "mirrors"] col)
  || ((table =s "Port") && (col =s "interfaces"))
  || ((table =s "Mirror") && contains ["select_src_port"; "select_dst_port"; "output_port"] col).
(** The observed rows whose column names the node.
    go: internal/provider/ovsdb/mirror_execution.go:117-131 mirrorReferenceOperations *)
Fixpoint referring_rows (col uuid : string) (l : list (string * Row)) : result (list string) :=
  match l with
  | [] => Ok []
  | (id, row) :: r =>
    match as_array (Configuration row !! col) with
    | None => Err (ENew "MIRROR_NATIVE_IMAGE_UNKNOWN")
    | Some refs => let? rest := referring_rows col uuid r in
                   Ok (if existsb (fun j => is_text uuid (Some j)) refs then id :: rest else rest)
    end
  end.
(** go: internal/provider/ovsdb/mirror_execution.go:96-137 mirrorReferenceOperations *)
Fixpoint mirror_references (v : ExecutionView) (b : Binding) (l : list (string * string * ColumnSchema))
    : result (list operation) :=
  let foreign := ENew "MIRROR_FOREIGN_REFERENCE_UNQUALIFIED" in
  match l with
  | [] => Ok []
  | (table, col, c) :: r =>
    fail_if match value_of c with Some x => (bt_Type x =s TypeUUID) && (RefTable x =s Table b) | None => false end with foreign ;;
    if negb (refers_to c (Table b)) then mirror_references v b r
    else
      fail_if not_nil (value_of c) with foreign ;;
      let? want :=
        if mirrorGraphReference table col then
          match observed_rows v !! table with
          | None => Err (ENew "MIRROR_NATIVE_IMAGE_UNKNOWN")
          | Some rows => referring_rows col (OVSUUID b) (sort_keys (map_to_list rows))
          end
        else Ok [] in
      let? rest := mirror_references v b r in
      Ok (only_row table [referring col c (OVSUUID b)] want :: rest)
  end.
(** go: internal/provider/ovsdb/mirror_execution.go mirrorReferenceOperations *)
Fixpoint mirrorReferenceOperations (d : discovered) (l : list TopologyNode) (v : ExecutionView) : result (list operation) :=
  match l with
  | [] => Ok []
  | n :: r => let? ops := mirror_references v (n_Binding n) (schema_columns d) in
              let? rest := mirrorReferenceOperations d r v in
              Ok (ops ++ rest)
  end.

(** ** topology.go: the plan *)

Definition is_system (n : TopologyNode) : bool :=
  (Table (n_Binding n) =s "Interface") && ((n_Type n =s "system") || (n_Type n =s "")).
Definition is_bridge (n : TopologyNode) : bool := Table (n_Binding n) =s "Bridge".
Definition among (l : list TopologyNode) (n : TopologyNode) : bool :=
  existsb (fun b => bool_decide (n_Binding b = n_Binding n)) l.
Definition interface_guard (d : discovered) (v : ExecutionView) (column uuid : string) : result operation :=
  let row := row_of (observed_rows v) "Interface" uuid in
  guard d "Interface" row [column] [uuidCondition (row_UUID row)].
(** The columns of a node that change, encoded.
    go: internal/provider/ovsdb/topology.go:300-310 compileTopologyExecution *)
Fixpoint changed_values (d : discovered) (table : string) (old : option configuration) (l : list (string * json)) (out : wire_row)
    : result wire_row :=
  match l with
  | [] => Ok out
  | (name, value) :: r =>
    let same := match old with
                | Some cfg => digest_json value =s digest_json (default JNull (cfg !! name))
                | None => false
                end in
    if same then changed_values d table old r out
    else let? v := nativeValue value (column d table name) in changed_values d table old r (<[name := v]> out)
  end.
Definition with_images (n : nativePlan) (before after : gmap string configuration) : nativePlan :=
  mkNativePlan (n_MirrorBuild n) (n_MirrorAuthority n) (TopologyDevices n) before after (PolicingKernelBefore n)
    (Operations n) (CountIndexes n) (TargetIndex n) (n_Evidence n) (CreationMarker n) (InsertUUIDs n) (TreeAuthority n)
    (TreePolicy n).
(** The rows of the change: a new row is inserted with our marker, an existing
    one is updated where it changes. The images of the plan gain the marker.
    go: internal/provider/ovsdb/topology.go:297-335 compileTopologyExecution *)
Fixpoint write_nodes (d : discovered) (marker : string) (images : gmap string configuration) (before l : list TopologyNode)
    (n : nativePlan) : result nativePlan :=
  match l with
  | [] => Ok n
  | p :: r =>
    let b := n_Binding p in
    let cfg := default ∅ (TopologyAfter n !! OVSUUID b) in
    if among before p then
      let? row := changed_values d (Table b) (Some (default ∅ (images !! OVSUUID b))) (map_to_list cfg) ∅ in
      write_nodes d marker images before r
        (if bool_decide (row = ∅) then n else counted n (Update (Table b) [uuidCondition (OVSUUID b)] (delete "name" row)))
    else
      let? row := changed_values d (Table b) None (map_to_list cfg) ∅ in
      let n := push_all n (absent_row (Table b) (OVSUUID b) (n_Name p)) in
      let ids : gmap string json := <[BridgeCreationMarker := JStr marker]> (default ∅ (as_map (cfg !! "external_ids"))) in
      let n := with_images n (TopologyBefore n)
                 (<[OVSUUID b := <["external_ids" := wire_row_json ids]> cfg]> (TopologyAfter n)) in
      fail_if 128 <? Z.of_nat (size ids) with Fail 409 "COMMIT_EVIDENCE_CAPACITY" ;;
      let? encoded := nativeValue (wire_row_json ids) (column d (Table b) "external_ids") in
      write_nodes d marker images before r (inserted n (Table b) (OVSUUID b) (<["external_ids" := encoded]> row))
  end.
Definition link_bridges (root : string) (present : bool) (l others : list TopologyNode) (n : nativePlan) : nativePlan :=
  fold_left (fun n p =>
    if is_bridge p && negb (among others p)
    then counted n (Mutate "Open_vSwitch" [uuidCondition root] [link "bridges" present (OVSUUID (n_Binding p))]) else n) l n.
(** What mirrors and tunnels guard besides their nodes.
    go: internal/provider/ovsdb/topology.go:238-263 compileTopologyExecution *)
Definition domain_fence (unsupported : error) (d : discovered) (v : ExecutionView) (op : string) (root : Row) (uuid : string)
    : result (list operation) :=
  let? mirror := if IsMirrorOperation op then mirrorFenceOperations v d else Ok [] in
  let? tunnel :=
    if IsTunnelOperation op then
      fail_if negb (TunnelConfiguration d) || negb (tt_TunnelSupported (sn_Topology (ev_Candidate v))) with unsupported ;;
      let? fence := treeFenceOperations v d in
      let? types := guard d "Open_vSwitch" root ["iface_types"] [uuidCondition uuid] in
      Ok (take 4 fence ++ [types])
    else Ok [] in
  Ok (mirror ++ tunnel).
(** [checkpoint] holds the images that compensation restores.
    go: internal/provider/ovsdb/topology.go compileTopologyExecution *)
Definition compileTopologyExecution (now : Z) (id marker : string) (e : Envelope) (v : ExecutionView) (d : discovered)
    (checkpoint : gmap string configuration) : result Plan :=
  match topologyIntent (e_Candidate e) with
  | None => Err (Fail 422 "INVALID_EXECUTION_SCOPE")
  | Some (i, g) =>
    fail_if negb (bridgeSchemaSupported d) with Fail 422 "INVALID_EXECUTION_SCOPE" ;;
    let t := sn_Topology (ev_Candidate v) in
    let rows := observed_rows v in
    let '(before, after) :=
      if tp_Compensating g then (elems (tp_After g), elems (tp_Restored g)) else (elems (tp_Before g), elems (tp_After g)) in
    let images : gmap string configuration :=
      fold_left (fun m n => <[OVSUUID (n_Binding n) :=
        Configuration (row_of rows (Table (n_Binding n)) (OVSUUID (n_Binding n)))]> m) before ∅ in
    let? guards := topologyImages d before images in
    let? desired := TopologyConfigurations i t checkpoint in
    let root := row_of rows "Open_vSwitch" (tp_Root g) in
    let? (next, cur) := counters root in
    fail_if negb (counter_columns d) with Fail 409 "APPLIED_COUNTER_UNSUPPORTED" ;;
    let root_values := mkRow (Configuration root) (InterfaceOptionsEmpty root) (row_UUID root) (Configuration root) in
    let? rg := guard d "Open_vSwitch" root_values (sorted_columns (Configuration root)) (root_conditions root next cur) in
    let n := with_images (with_marker (push_all (new_plan (observed_evidence v)) (rg :: guards)) marker) images desired in
    let? fence := domain_fence (Fail 409 "TUNNEL_SCHEMA_UNSUPPORTED") d v (i_Operation i) root (row_UUID root) in
    let? n := push_guards ((fun p => interface_guard d v "ifindex" (OVSUUID (n_Binding p))) <$> filter (fun p => is_system p = true) before)
                (push_all n fence) in
    let? references := if IsMirrorOperation (i_Operation i) then mirrorReferenceOperations d before v
                       else Ok (topologyReferences d before (tt_Nodes t)) in
    let node_uuid id := default EmptyString ((OVSUUID ∘ n_Binding) <$> tt_Nodes t !! id) in
    let? n := push_guards ((fun kv => interface_guard d v "ofport" (node_uuid (fst kv))) <$> map_to_list (tp_Allocations g))
                (push_all n references) in
    let n := push_all n ((fun p => only_row "Open_vSwitch" [includes "bridges" (uuidSet [OVSUUID (n_Binding p)])] [tp_Root g])
                         <$> filter (fun p => is_bridge p = true) before) in
    let? n := write_nodes d marker images before after n in
    let n := link_bridges (row_UUID root) true after before (link_bridges (row_UUID root) false before after n) in
    let n := counted n (Mutate "Open_vSwitch" [uuidCondition (row_UUID root)]
               (marker_mutations bridgeMarkerKey marker ++ [increment])) in
    plan_of id marker e v d (tp_Root g) next cur now (target n (row_UUID root)) []
  end.

(** ** The dispatch *)

(** The marker that the rows of a graph carry: the one of the creation when it
    is being deleted, this one otherwise.
    go: internal/provider/ovsdb/execution.go:272-289 compileExecution *)
Definition creation_marker (restoring : option (bool * string)) (marker : string) : string :=
  match restoring with Some (false, source) => source | _ => marker end.
(** go: internal/provider/ovsdb/execution.go compileExecution *)
Definition compileExecution (now : Z) (id marker : string) (e : Envelope) (v : ExecutionView) (d : discovered) : result Plan :=
  let i := first_intent e in
  let op := i_Operation i in
  if op =s BridgeMulticastSet then compileMulticastExecution now id marker e v d
  else if op =s PortIsolationSet then compileIsolationExecution now id marker e v d
  else if not_nil (spanningTreeIntent (e_Candidate e)) then compileSpanningTreeExecution now id marker e v d
  else if not_nil (topologyIntent (e_Candidate e)) then compileTopologyExecution now id marker e v d ∅
  else if op =s InterfacePolicingSet then compilePolicingExecution now id marker e v d
  else if IsMTUOperation op then compileMTUExecution now id marker e v d
  else if not_nil (internalPortIntent (e_Candidate e)) then
    compileInternalPortExecution now id marker
      (creation_marker ((fun x => (pd_Restoring x, pd_SourceMarker x)) <$> i_PortDeletion i) marker) e v d
  else if not_nil (bridgeIntent (e_Candidate e)) then
    compileBridgeExecution now id marker
      (creation_marker ((fun x => (bd_Restoring x, bd_SourceMarker x)) <$> i_Deletion i) marker) e v d
  else compile_fields now id marker e v d.

End TopologyCompile.
