(* ===== verification/Provider.v ===== *)
(** * internal/provider/ovsdb: committing a plan and observing it

    [decodeCommit] reads the reply to the one mutation transaction,
    [Executor.Commit] sends it, [Executor.Observe] decides from a later
    observation whether it is applied (execution.go).

    Connections, host checks and proofs of other parts answer through the
    arguments of the functions. Replies are decoded JSON, numbers as literals;
    field names are matched exactly. *)

From S2P Require Import Prelude GoStrings GoJson GoJsonParse ApiTypes Multicast CandidateTypes Intents Planning Staging.
From S2P Require Import FieldGroups Graphs Planner ExecTypes Native Compile.
Import Planning Staging FieldGroups Planner Native Compile.

Module Provider.

(** ** The reply *)

(** [var results []map[string]json.RawMessage]. *)
Definition result_row (j : json) : option (option (gmap string json)) :=
  match j with JNull => Some None | JObj l => Some (Some (list_to_map l)) | _ => None end.
Definition decode_results (body : option json) : option (list (option (gmap string json))) :=
  match body with Some (JArr l) => mapM result_row l | Some JNull => Some [] | _ => None end.
Definition text_of (j : json) : option string :=
  match j with JStr s => Some s | JNull => Some EmptyString | _ => None end.
Definition texts_of (j : option json) : option (list string) :=
  match j with Some (JArr l) => mapM text_of l | Some JNull => Some [] | _ => None end.
(** [json.Number] takes a literal, or a string that holds one. *)
Definition number_of (j : option json) : option string :=
  match j with
  | Some (JLit t) => Some t
  | Some (JStr t) => if encodable (JLit t) then Some t else None
  | Some JNull | None => Some EmptyString
  | _ => None
  end.

(** What the errors of the results say: none, a transaction that was refused
    as a whole, or something that proves nothing. *)
Inductive verdict := Clean | Refused | Unclear.
(** go: internal/provider/ovsdb/execution.go:545-562 decodeCommit *)
Fixpoint errors_of (l : list (option (gmap string json))) : verdict :=
  match l with
  | [] => Clean
  | None :: _ => Unclear
  | Some r :: tail =>
    match r !! "error" with
    | None => errors_of tail
    | Some (JStr code) => if (code <>s "") && forallb is_nil tail then Refused else Unclear
    | Some _ => Unclear
    end
  end.
Definition field (l : list (option (gmap string json))) (index : Z) (k : string) : option json :=
  if index <? 0 then None else l !! Z.to_nat index ≫= fun r => r ≫= fun r => r !! k.
Definition counts_one (l : list (option (gmap string json))) (index : Z) : bool :=
  match field l index "count" with Some (JLit t) => bool_decide (parse_int t 64 = Some 1) | _ => false end.
Definition inserted_as (l : list (option (gmap string json))) (index : Z) (expected : string) : bool :=
  bool_decide (texts_of (field l index "uuid") = Some ["uuid"; expected]).
(** The counter of the only row, which must be the root.
    go: internal/provider/ovsdb/execution.go:578-589 decodeCommit *)
Definition counter_of (l : list (option (gmap string json))) (index : Z) (root : string) : option Z :=
  match field l index "rows" with
  | Some (JArr [JObj row]) =>
    let row : gmap string json := list_to_map row in
    if bool_decide (texts_of (row !! "_uuid") = Some ["uuid"; root])
    then number_of (row !! "next_cfg") ≫= fun t => parse_int t 64 else None
  | _ => None
  end.
Definition unknown_reply : Outcome := outcome "unknown" "unknown" "provider-result-invalid".
(** go: internal/provider/ovsdb/execution.go decodeCommit *)
Definition decodeCommit (n : nativePlan) (p : Plan) (body : option json) : Outcome :=
  match decode_results body with
  | None => unknown_reply
  | Some results =>
    if negb (len results =? len (Operations n)) && negb (len results =? len (Operations n) + 1) then unknown_reply
    else match errors_of results with
         | Unclear => unknown_reply
         | Refused => outcome "rejected" "not-applied" "ovsdb-transaction-rejected"
         | Clean =>
           if negb (len results =? len (Operations n)) || negb (forallb (counts_one results) (CountIndexes n))
              || negb (forallb (fun kv => inserted_as results (fst kv) (snd kv)) (map_to_list (InsertUUIDs n)))
           then unknown_reply
           else match counter_of results (TargetIndex n) (p_Root p) with
                | Some target =>
                  if target <=? atoi_value (NextFloor p) then unknown_reply
                  else mkOutcome "committed" "pending" "ovsdb-committed" (Some (format_int target)) None None
                | None => unknown_reply
                end
         end
  end.

(** ** Sending *)

(** A message of the server: an echo request (answered, or not), a reply, or
    the end of what can be read. *)
Inductive message : Type :=
  | Echo (answered : bool)
  | Reply (method id : string) (failed : bool) (body : option json)
  | Unreadable.
(** What the environment answers during one attempt, in the order it is asked:
    the clock, the context and every check before the bytes. *)
Record attempt := mkAttempt {
  at_Elapsed : list Z; at_Cancelled : list bool; at_Plan : option nativePlan; at_View : result ExecutionView;
  at_HostCheck : bool; at_Connect : option (string * bool * string); at_Policing : bool; at_Tree : option string;
  at_Mirror : list bool; at_BeforeSend : bool; at_Identity : bool; at_Written : Z; at_WriteFailed : bool;
  at_Replies : list message }.
Definition elapsed (a : attempt) (k : nat) : Z := default 0 (at_Elapsed a !! k).
Definition cancelled (a : attempt) (k : nat) : bool := default false (at_Cancelled a !! k).
Definition mirror_ok (a : attempt) (k : nat) : bool := default false (at_Mirror a !! k).
(** What the attempt does that others see. *)
Inductive event := Admitted_ | Bytes (n : Z).
(** go: internal/execution/types.go PreflightFor *)
Definition PreflightFor : Z := 5 * GoTime.Second.
Definition rejected (reason : string) : Outcome := outcome "rejected" "not-applied" reason.
Definition expired : string := "preflight-expired".
Definition no_reply : Outcome := outcome "unknown" "unknown" "provider-reply-unknown".
(** At most 32 messages are read.
    go: internal/provider/ovsdb/execution.go:519-536 Commit *)
Fixpoint read_reply (fuel : nat) (l : list message) (n : nativePlan) (p : Plan) : Outcome :=
  match fuel with
  | O => no_reply
  | S f =>
    match l with
    | [] | Unreadable :: _ => no_reply
    | Echo answered :: r => if answered then read_reply f r n p else no_reply
    | Reply method id failed body :: _ =>
      if (method <>s "") || (id <>s "2") || failed then no_reply else decodeCommit n p body
    end
  end.
(** go: internal/provider/ovsdb/execution.go:507-537 Commit *)
Definition send_bytes (a : attempt) (n : nativePlan) (p : Plan) (size : Z) : list event * Outcome :=
  if at_WriteFailed a || negb (at_Written a =? size) then
    if at_Written a =? 0 then ([Bytes 0], rejected "provider-not-sent") else ([Bytes (at_Written a)], no_reply)
  else ([Bytes size], read_reply 32 (at_Replies a) n p).
(** The request of the transaction.
    go: internal/provider/ovsdb/execution.go:463-474 Commit *)
Definition transact_json (n : nativePlan) : json :=
  JObj [("id", JNum 2); ("method", JStr "transact");
        ("params", JArr (JStr "Open_vSwitch" :: (operation_json <$> Operations n)))].
(** go: internal/provider/ovsdb/execution.go:447-537 Commit *)
Definition Commit (a : attempt) (p : Plan) : list event * Outcome :=
  let stop reason := ([], rejected reason) in
  if (elapsed a 0 <? 0) || (PreflightFor <? elapsed a 1) || cancelled a 0 then stop expired
  else match at_Plan a with
  | None => stop "execution-plan-invalid"
  | Some n =>
    if MaxPlanBytes <? slen (marshal (Native p)) then stop "execution-plan-invalid"
    else match at_View a with
    | Err _ => stop "identity-or-provider-unavailable"
    | Ok v =>
      let s := ev_Candidate v in
      if (sn_Generation s <>s p_Generation p) || (sn_Schema s <>s p_Schema p) then stop "identity-or-provider-unavailable"
      else if negb (Passed (fst (Checks (e_Candidate (p_Envelope p)) s))) then stop "execution-preflight-conflict"
      else if negb (at_HostCheck a) then stop "bridge-host-interface-conflict"
      else match at_Connect a with
      | None => stop "provider-connect-failed"
      | Some (digest, same_file, peer) =>
        if (digest <>s p_Schema p) || (peer <>s ev_Peer (n_Evidence n)) || negb same_file then stop "provider-identity-changed"
        else if (PreflightFor <? elapsed a 2) || cancelled a 1 then stop expired
        else if negb (encodable (transact_json n)) then stop "execution-plan-invalid"
        else if negb (at_Policing a) then stop "policing-dispatch-unproven"
        else match at_Tree a with
        | Some reason => stop reason
        | None =>
          if negb (mirror_ok a 0) then stop "mirror-runtime-unqualified"
          else if negb (at_BeforeSend a) then stop "dispatch-admission-denied"
          else
            let after (r : list event * Outcome) := (Admitted_ :: fst r, snd r) in
            if cancelled a 2 || (PreflightFor <? elapsed a 3) then after (stop expired)
            else if negb (at_Identity a) then after (stop "topology-host-identity-changed")
            else if negb (mirror_ok a 1) then after (stop "mirror-runtime-unqualified")
            else after (send_bytes a n p (slen (marshal (transact_json n)) + 1))
        end
      end
    end
  end.

(** ** Observing *)

Definition observed_as (out : Outcome) (applied reason : string) : Outcome :=
  mkOutcome (ExecTypes.Commit out) applied reason (o_Target out) (o_Current out) (Observed out).
(** The row that carries the marker of an intent, and the key of the marker.
    go: internal/provider/ovsdb/execution.go:612-633 Observe *)
Definition marked_row (p : Plan) (rows : Rows) (i : StoredIntent) : option Row * string :=
  let op := i_Operation i in
  if IsGraphOperation op then (rows_of rows "Open_vSwitch" !! p_Root p, "ovs-webui.bridge-commit")
  else
    let table := if IsMTUOperation op || (op =s InterfacePolicingSet) then "Interface"
                 else if (op =s SpanningTreeConfigure) || (op =s BridgeMulticastSet) then "Bridge" else "Port" in
    (rows_of rows table !! OVSUUID (i_Object i),
     if op =s SpanningTreeConfigure then "ovs-webui.spanning-tree-commit"
     else if op =s BridgeMulticastSet then "ovs-webui.multicast-commit" else MarkerKey).
Definition has_marker (p : Plan) (rows : Rows) (i : StoredIntent) : bool :=
  let '(row, key) := marked_row p rows i in
  match row with
  | Some row => is_text (Marker p) (as_map (Values row !! "external_ids") ≫= (.!! key))
  | None => false
  end.
Definition after_candidate (c : Candidate) : Candidate :=
  mkCandidate (c_ID c) (c_Revision c) (c_Generation c) (c_BaseRevision c) (c_State c)
    (Some (AfterImage <$> intents c)) (c_Consumed c).
(** [strings.ToLower(strings.ReplaceAll(code, "_", "-"))]. *)
Fixpoint dashes (s : string) : string :=
  match s with
  | EmptyString => EmptyString
  | String c r => String (if Ascii.eqb c "_" then "-"%char else c) (dashes r)
  end.
(** The first gate that blocks a multicast change, as a reason.
    go: internal/provider/ovsdb/execution.go:656-669 Observe *)
Definition changed_reason (after : Candidate) (checks : list Gate) : string :=
  match intents after with
  | [i] =>
    if i_Operation i =s BridgeMulticastSet then
      match find (fun g => g_State g =s "blocked") checks with
      | Some g =>
        if has_prefix (g_Code g) "MULTICAST_"
           || contains ["FIELD_CONFLICT"; "OBJECT_BINDING_CHANGED"; "GENERATION_RECONCILIATION_REQUIRED";
                        "SCHEMA_CHANGED"; "NATIVE_CONFIGURATION_UNKNOWN"] (g_Code g)
        then ("multicast-target-" ++ to_lower (dashes (g_Code g)))%string else "committed-target-changed"
      | None => "committed-target-changed"
      end
    else "committed-target-changed"
  | _ => "committed-target-changed"
  end.
(** No error is reported for the interface. *)
Definition no_error (row : Row) : bool := match as_array (Values row !! "error") with Some [] => true | _ => false end.
(** What the interfaces of the intents still owe: what [applied] becomes, and
    why.
    go: internal/provider/ovsdb/execution.go:694-758 Observe *)
Definition interface_verdict (p : Plan) (rows : Rows) (i : StoredIntent) : option (string * string) :=
  let op := i_Operation i in
  let iface := row_of rows "Interface" (OVSUUID (i_Object i)) in
  let failed := Some ("unknown", "interface-apply-error") in
  if op =s BridgeMulticastSet then
    if forallb (fun b => negb (Table b =s "Interface") || no_error (row_of rows "Interface" (OVSUUID b))) (GraphBindings p)
    then None else failed
  else if op =s SpanningTreeConfigure then None
  else if op =s InterfacePolicingSet then if no_error iface then None else failed
  else if IsMTUOperation op then
    if negb (no_error iface) then failed
    else match as_array (Values iface !! "mtu"), i_MTU i with
         | Some [v], Some m => if is_text (format_int (ExpectedMTU m)) (Some v) then None else Some ("pending", "awaiting-interface-mtu")
         | _, _ => Some ("pending", "awaiting-interface-mtu")
         end
  else if IsGraphOperation op then None
  else
    let members := row_of rows "Interface" <$> nativeRefs (Values (row_of rows "Port" (OVSUUID (i_Object i))) !! "interfaces") in
    match find (fun m => negb (no_error m)) members with
    | Some m => if is_nil (Values m !! "error") then Some ("unknown", "interface-apply-evidence-unavailable") else failed
    | None => None
    end.
Fixpoint first_verdict (p : Plan) (rows : Rows) (l : list StoredIntent) : option (string * string) :=
  match l with
  | [] => None
  | i :: r => match interface_verdict p rows i with Some v => Some v | None => first_verdict p rows r end
  end.
(** [mirror] and [verify] are the answers of mirrorAppliedProof and of
    verifyApplied, the latter with the counter it read and when.
    go: internal/provider/ovsdb/execution.go:594-789 Observe *)
Definition Observe (p : Plan) (prior : Outcome) (view : result ExecutionView) (mirror : bool) (verify : result (Z * Z))
    : Outcome :=
  match view with
  | Err _ => observed_as prior "unknown" "provider-resync-required"
  | Ok v =>
    let s := ev_Candidate v in
    let ob := ev_Observation v in
    let rows := ob_Rows ob in
    let l := intents (e_Candidate (p_Envelope p)) in
    if (sn_Generation s <>s p_Generation p) || (sn_Schema s <>s p_Schema p) || (ev_Root (ob_Evidence ob) <>s p_Root p)
    then observed_as prior "unknown" "identity-changed-recovery-required"
    else if (ExecTypes.Commit prior =s "committed") && not_nil (o_Target prior) && (ObservedAt (ob_Evidence ob) <? Prepared p)
    then observed_as prior "pending" "awaiting-post-commit-observation"
    else
      let commit := if existsb (has_marker p rows) l then "committed" else ExecTypes.Commit prior in
      let out := mkOutcome commit (Applied prior) (o_Reason prior) (o_Target prior) (o_Current prior) (Observed prior) in
      if negb (forallb (has_marker p rows) l) || (commit <>s "committed")
      then observed_as out "unknown" "commit-evidence-insufficient"
      else
        let after := after_candidate (e_Candidate (p_Envelope p)) in
        let checks := fst (Checks after s) in
        if negb (Passed checks) then observed_as out "unknown" (changed_reason after checks)
        else match o_Target out with
        | None => observed_as out "unknown" "applied-target-unavailable"
        | Some text =>
          let root := row_of rows "Open_vSwitch" (p_Root p) in
          match number (Values root !! "next_cfg"), number (Values root !! "cur_cfg"), parse_int text 64 with
          | Ok next, Ok cur, Some target =>
            if (next <? target) || (cur <? atoi_value (CurFloor p)) || (next <? cur)
            then observed_as out "unknown" "applied-counter-discontinuity"
            else
              let out := mkOutcome commit (Applied out) (o_Reason out) (o_Target out) (Some (format_int cur))
                           (Some (ObservedAt (ob_Evidence ob))) in
              if cur <? target then observed_as out "pending" "awaiting-ovs-vswitchd"
              else match first_verdict p rows (intents after) with
              | Some (applied, reason) => observed_as out applied reason
              | None =>
                if negb mirror then observed_as out "unknown" "mirror-runtime-unqualified"
                else match verify with
                | Err _ => observed_as out "unknown" "fresh-applied-evidence-unavailable"
                | Ok (current, at_) =>
                  mkOutcome commit "applied" "ovs-vswitchd-applied" (o_Target out) (Some (format_int current)) (Some at_)
                end
              end
          | _, _, _ => observed_as out "unknown" "applied-counter-discontinuity"
          end
        end
  end.

End Provider.
