(* ===== verification/Preparation.v ===== *)
(** * internal/provider/ovsdb: preparing plans, and the proof that one is applied

    [Prepare] (execution.go) and [PrepareRollback] (rollback.go) around the
    compilers: identity, checks, the wait-only preflight of deletions
    (bridge_delete.go, internal_port_delete.go) and the host evidence pinned
    into the plan (topology.go, policing_edit.go, mirror_runtime.go,
    spanning_tree_execution_linux.go). The read-only transaction that must
    succeed before a change counts as applied (applied.go, bridge.go,
    internal_port.go, topology.go), and the verdict on its reply.

    Connections, host reads and the qualification of runtimes answer through
    [host] and [probe]; [decode] is what encoding/json reads of a journaled
    plan. *)

From S2P Require Import Prelude GoStrings GoJson GoTime ApiTypes Multicast CandidateTypes Intents Planning Staging.
From S2P Require Import FieldGroups Graphs Topology Planner ExecTypes Native Compile Compilers GraphCompile TopologyCompile.
From S2P Require Import Provider.
Import Planning Staging FieldGroups Graphs Topology Planner Native Compile Compilers GraphCompile TopologyCompile.
Import Provider.

Module Preparation.

(** ** Reading proofs *)

(** The fields of a sample of the kernel that decide about a policing change.
    go: internal/inventory/policing.go PolicingAction *)
Record PolicingAction := mkAction {
  FilterKind : string; Priority : Z; Handle : string; BytesPerSecond : option string; PacketsPerSecond : option string;
  ExceedAction : string; ConformAction : string }.
(** go: internal/inventory/policing.go PolicingSample *)
Record PolicingSample := mkSample {
  IngressKind : string; WriteCompatible : bool; ConfigurationDigest_ : string; Availability : string;
  Actions : list PolicingAction }.
(** go: internal/inventory/policing_edit.go PolicingMatches *)
Definition PolicingMatches (s : PolicingSample) (p : PolicingConfig) : bool :=
  ValidPolicing p && (Availability s =s "known") && WriteCompatible s
  && if (Rate p =? 0) && (PacketRate p =? 0) then is_empty (Actions s) && (IngressKind s =s "none")
     else match Actions s with
          | [a] =>
            (IngressKind s =s "ingress") && (FilterKind a =s "matchall") && (Priority a =? 1) && (Handle a =s "0x00000001")
            && (ExceedAction a =s "drop") && (ConformAction a =s "continue")
            && if negb (Rate p =? 0)
               then bool_decide (BytesPerSecond a = Some (format_int (Rate p * 125))) && is_nil (PacketsPerSecond a)
               else bool_decide (PacketsPerSecond a = Some (format_int (PacketRate p * 1000))) && is_nil (BytesPerSecond a)
          | _ => false
          end.

Definition is_wait (o : operation) : bool := match o with Wait _ _ _ _ => true | _ => false end.
(** A result that is missing or reports an error. *)
Definition failed_result (r : option (gmap string json)) : bool :=
  match r with Some m => not_nil (m !! "error") | None => true end.

(** One exchange of a wait-only transaction: whether it was sent, whether the
    read deadline was set, what came back, and the context afterwards. *)
Record exchange := mkExchange { gx_Sent : bool; gx_Deadline : bool; gx_Replies : list message; gx_Context : option error }.
Definition unavailable : error := Fail 503 "BRIDGE_PREFLIGHT_UNAVAILABLE".
(** At most 32 messages are read.
    go: internal/provider/ovsdb/bridge_delete.go:59-84 verifyDeletionGuards *)
Fixpoint guards_reply (fuel : nat) (l : list message) (count : Z) (conflict : string) (context : option error) : result unit :=
  match fuel with
  | O => Err unavailable
  | S f =>
    match l with
    | [] | Unreadable :: _ => Err unavailable
    | Echo answered :: r => if answered then guards_reply f r count conflict context else Err unavailable
    | Reply method id failed body :: _ =>
      fail_if (method <>s "") || (id <>s "4") || failed with unavailable ;;
      match decode_results body with
      | None => Err unavailable
      | Some results =>
        fail_if negb (len results =? count) with unavailable ;;
        fail_if existsb failed_result results with Fail 409 conflict ;;
        match context with Some e => Err e | None => Ok tt end
      end
    end
  end.
(** go: internal/provider/ovsdb/bridge_delete.go verifyDeletionGuards *)
Definition verifyDeletionGuards (x : exchange) (guards : list operation) (conflict : string) : result unit :=
  fail_if negb (forallb is_wait guards) with Fail 503 "INVALID_DELETION_PROOF" ;;
  fail_if negb (gx_Sent x) || negb (gx_Deadline x) with unavailable ;;
  guards_reply 32 (gx_Replies x) (len guards) conflict (gx_Context x).
Definition first_of (c : Candidate) : StoredIntent := default zero_intent (head (intents c)).
(** The waits of the preflight.
    go: internal/provider/ovsdb/bridge_delete.go:27-37 verifyDeletionBefore *)
Definition deletion_guards (d : discovered) (c : Candidate) (marker : string) : result (list operation) :=
  match bridgeIntent c, i_Deletion (first_of c) with
  | Some i, Some x =>
    let present := match i_Creation i with Some b => bc_BeforePresent b | None => false end in
    let? guards := graphGuards d i marker present in
    Ok (guards ++ if bd_Restoring x then deletedSourceGuards x else [])
  | _, _ => Err (Fail 422 "INVALID_ISOLATED_BRIDGE_DELETION")
  end.
(** go: internal/provider/ovsdb/bridge_delete.go verifyDeletionBefore *)
Definition verifyDeletionBefore (x : exchange) (d : discovered) (c : Candidate) (marker : string) : result unit :=
  let? guards := deletion_guards d c marker in
  verifyDeletionGuards x guards "ISOLATED_BRIDGE_GRAPH_CHANGED".
(** go: internal/provider/ovsdb/internal_port_delete.go:22-37 verifyPortDeletionBefore *)
Definition port_deletion_guards (d : discovered) (c : Candidate) (v : ExecutionView) (marker : string)
    : result (list operation) :=
  match internalPortIntent c, i_PortDeletion (first_of c) with
  | Some i, Some x =>
    let present := match i_PortCreation i with Some p => ip_BeforePresent p | None => false end in
    let? guards := graphGuards d i marker present in
    let? parents := internalParentGuards d i v present in
    Ok (guards ++ parents ++ if pd_Restoring x then deletedPortSourceGuards x else [])
  | _, _ => Err (Fail 422 "INVALID_INTERNAL_PORT_DELETION")
  end.
(** go: internal/provider/ovsdb/internal_port_delete.go verifyPortDeletionBefore *)
Definition verifyPortDeletionBefore (x : exchange) (d : discovered) (c : Candidate) (v : ExecutionView) (marker : string)
    : result unit :=
  let? guards := port_deletion_guards d c v marker in
  verifyDeletionGuards x guards "INTERNAL_PORT_GRAPH_CHANGED".

(** ** Host evidence *)

(** What the environment answers while a plan is prepared: the projection, the
    connection (schema and peer), the database file, the host checks, the
    devices by name, the preflights, the kernel, the two runtimes. The errors
    of the last two stand for what wraps them; [h_Reviewed] is the runtime that
    the projection names. *)
Record host := mkHost {
  h_View : result ExecutionView; h_Connect : result (discovered * string); h_SameFile : list bool;
  h_BridgeHost : result unit; h_TopologyHost : result unit; h_Devices : result (gmap string string);
  h_Exchanges : list exchange; h_Policing : result PolicingSample; h_MirrorBuild : option json;
  h_Mirror : result string; h_Reviewed : string; h_Tree : result string; h_Now : Z }.
Definition same_file (h : host) (k : nat) : bool := default false (h_SameFile h !! k).
Definition exchange_of (h : host) (k : nat) : exchange := default (mkExchange false false [] None) (h_Exchanges h !! k).

Definition with_native (p : Plan) (j : json) : Plan :=
  mkPlan (p_ID p) (p_Envelope p) (p_Schema p) (p_Generation p) (p_Root p) (Marker p) (NextFloor p) (CurFloor p) (Prepared p)
    j (GraphBindings p).
(** A plan with its native part encoded again. *)
Definition repin (unencodable budget : error) (p : Plan) (n : nativePlan) : result Plan :=
  fail_if negb (encodable (native_json n)) with unencodable ;;
  fail_if MaxPlanBytes <? slen (marshal (native_json n)) with budget ;;
  Ok (with_native p (native_json n)).
Definition with_host (n : nativePlan) (build : option json) (authority : string) (devices : gmap string string)
    (policing tree : string) : nativePlan :=
  mkNativePlan build authority devices (TopologyBefore n) (TopologyAfter n) policing (Operations n) (CountIndexes n)
    (TargetIndex n) (n_Evidence n) (CreationMarker n) (InsertUUIDs n) tree (TreePolicy n).
Definition undecodable : error := ENew "encoding/json: decoding".
Definition plan_budget : error := Fail 429 "EXECUTION_PLAN_BUDGET".
Definition plan_invalid : error := Fail 503 "EXECUTION_PLAN_INVALID".

Section decoding.
(** What [json.Decoder.Decode] makes of a plan's native part. *)
Context (decode : json -> option nativePlan).

Definition devices_digest (m : gmap string string) : string := digest_json (jmap JStr m).
(** The interface has the index of the device of that name.
    go: internal/provider/ovsdb/topology.go:56-59 prepareTopologyHost *)
Definition index_proved (v : ExecutionView) (devices : gmap string string) (n : TopologyNode) : bool :=
  digest_json (default JNull (Values (row_of (observed_rows v) "Interface" (OVSUUID (n_Binding n))) !! "ifindex"))
  =s digest_json (JArr [JStr (default EmptyString (devices !! n_Name n))]).
(** go: internal/provider/ovsdb/topology.go prepareTopologyHost *)
Definition prepareTopologyHost (h : host) (p : Plan) (v : ExecutionView) (original : option nativePlan) : result Plan :=
  match topologyIntent (e_Candidate (p_Envelope p)) with
  | None => Ok p
  | Some (_, g) =>
    let? devices := h_Devices h in
    fail_if match original with
            | Some o => devices_digest devices <>s devices_digest (TopologyDevices o)
            | None => false
            end with Fail 409 "ROLLBACK_CONFLICT" ;;
    let before := elems (if tp_Compensating g then tp_After g else tp_Before g) in
    fail_if existsb (fun n => is_system n && negb (index_proved v devices n)) before
      with Fail 409 "HOST_DEVICE_BINDING_UNPROVEN" ;;
    match decode (Native p) with
    | None => Err plan_invalid
    | Some n =>
      let devices := if bool_decide (devices = ∅) then TopologyDevices n else devices in
      repin undecodable plan_budget p
        (with_host n (n_MirrorBuild n) (n_MirrorAuthority n) devices (PolicingKernelBefore n) (TreeAuthority n))
    end
  end.
(** go: internal/provider/ovsdb/policing_edit.go Executor.preparePolicingKernel *)
Definition preparePolicingKernel (h : host) (p : Plan) (original : option nativePlan) : result Plan :=
  match i_Policing (first_intent (p_Envelope p)) with
  | None => Ok p
  | Some m =>
    let? sample := h_Policing h in
    let untouched := match original with
                     | Some o => pc_Compensating m && (ConfigurationDigest_ sample =s PolicingKernelBefore o)
                     | None => false
                     end in
    fail_if negb (PolicingMatches sample (pc_Before m) || untouched) with Fail 409 "POLICING_KERNEL_CONFIGURATION_CONFLICT" ;;
    match decode (Native p) with
    | None => Err plan_invalid
    | Some n => repin undecodable plan_budget p
                  (with_host n (n_MirrorBuild n) (n_MirrorAuthority n) (TopologyDevices n) (ConfigurationDigest_ sample)
                     (TreeAuthority n))
    end
  end.
(** go: internal/provider/ovsdb/mirror_runtime.go isMirrorCandidate *)
Definition isMirrorCandidate (c : Candidate) : bool :=
  match intents c with [i] => IsMirrorOperation (i_Operation i) | _ => false end.
(** go: internal/provider/ovsdb/mirror_runtime.go pinMirrorRuntime *)
Definition pinMirrorRuntime (p : Plan) (build : json) (proof : string) : result Plan :=
  match decode (Native p) with
  | None => Err plan_invalid
  | Some n => repin plan_budget plan_budget p
                (with_host n (Some build) proof (TopologyDevices n) (PolicingKernelBefore n) (TreeAuthority n))
  end.
(** go: internal/provider/ovsdb/mirror_runtime.go Executor.prepareMirrorRuntime *)
Definition prepareMirrorRuntime (h : host) (p : Plan) (original : option nativePlan) (reviewed : string) : result Plan :=
  if negb (isMirrorCandidate (e_Candidate (p_Envelope p))) then Ok p
  else
    let unqualified := Fail 409 "MIRROR_RUNTIME_UNQUALIFIED" in
    match (match original with Some o => n_MirrorBuild o | None => h_MirrorBuild h end), decode (Native p) with
    | Some build, Some _ =>
      let? proof := h_Mirror h in
      fail_if (proof =s "")
              || match original with
                 | None => (reviewed =s "") || negb (has_prefix proof (reviewed ++ "/"))
                 | Some o => proof <>s n_MirrorAuthority o
                 end with unqualified ;;
      pinMirrorRuntime p build proof
    | _, _ => Err unqualified
    end.
(** go: internal/provider/ovsdb/spanning_tree_execution_linux.go Executor.prepareTreeExecution *)
Definition prepareTreeExecution (h : host) (p : Plan) : result Plan :=
  match spanningTreeIntent (e_Candidate (p_Envelope p)) with
  | None => Ok p
  | Some _ =>
    let? authority := h_Tree h in
    match decode (Native p) with
    | None => Err (ENew "SPANNING_TREE_PLAN_INVALID")
    | Some n =>
      fail_if authority =s "" with ENew "SPANNING_TREE_WITNESS_UNPROVEN" ;;
      repin (ENew "SPANNING_TREE_PLAN_BUDGET") (ENew "SPANNING_TREE_PLAN_BUDGET") p
        (with_host n (n_MirrorBuild n) (n_MirrorAuthority n) (TopologyDevices n) (PolicingKernelBefore n) authority)
    end
  end.

(** ** Preparing a plan *)

(** go: internal/provider/ovsdb/execution.go Executor.Prepare *)
Definition Prepare (h : host) (id marker : string) (e : Envelope) : result Plan :=
  let c := e_Candidate e in
  fail_if negb (ManagementID id) || negb (slen marker =? 64) || negb (is_ok (Budget (envelope_json e)))
    with Fail 422 "INVALID_EXECUTION_SCOPE" ;;
  let? v := h_View h in
  fail_if negb (Passed (fst (Checks c (ev_Candidate v)))) with Fail 409 "EXECUTION_PREFLIGHT_FAILED" ;;
  let? _ := h_BridgeHost h in
  let? (d, identity) := h_Connect h in
  let changed := Fail 409 "PROVIDER_IDENTITY_CHANGED" in
  fail_if (d_Digest d <>s sn_Schema (ev_Candidate v)) || (identity <>s ev_Peer (observed_evidence v)) with changed ;;
  let? _ :=
    match i_Deletion (first_of c) with
    | Some x => fail_if negb (same_file h 0) with changed ;; verifyDeletionBefore (exchange_of h 0) d c (bd_SourceMarker x)
    | None => Ok tt
    end in
  let? _ :=
    match i_PortDeletion (first_of c) with
    | Some x => fail_if negb (same_file h 1) with changed ;;
                verifyPortDeletionBefore (exchange_of h 1) d c v (pd_SourceMarker x)
    | None => Ok tt
    end in
  let? p := compileExecution (h_Now h) id marker e v d in
  let? p := prepareTopologyHost h p v None in
  let? p := preparePolicingKernel h p None in
  let? p := prepareMirrorRuntime h p None (h_Reviewed h) in
  prepareTreeExecution h p.

(** ** Compensation *)

Definition conflict : error := Fail 409 "ROLLBACK_CONFLICT".
(** A failure of the preflight that says the graph changed is a conflict. *)
Definition conflict_of (code : string) (r : result unit) : result unit :=
  match r with Err (EFail s c) => if c =s code then Err conflict else r | _ => r end.
Definition reversed (e : Envelope) : Envelope :=
  let c := e_Candidate e in
  mkEnvelope (e_Owner e) (e_Epoch e) (e_Sequence e)
    (mkCandidate (c_ID c) (c_Revision c) (c_Generation c) (c_BaseRevision c) (c_State c) (Some (Reverse <$> intents c))
       (c_Consumed c)) (e_Seal e).
(** The compensation of each group, from the reversed envelope.
    go: internal/provider/ovsdb/rollback.go:71-133 Executor.PrepareRollback *)
Definition compensation (h : host) (original : Plan) (n : nativePlan) (marker : string) (e : Envelope) (v : ExecutionView)
    (d : discovered) : result Plan :=
  let id := p_ID original in
  let c := e_Candidate e in
  let now := h_Now h in
  if not_nil (topologyIntent c) then
    fail_if negb (is_ok (h_TopologyHost h)) with conflict ;;
    let? p := compileTopologyExecution now id marker e v d (TopologyBefore n) in
    let? p := prepareTopologyHost h p v (Some n) in
    prepareMirrorRuntime h p (Some n) ""
  else if not_nil (internalPortIntent c) then
    fail_if negb (is_ok (h_BridgeHost h)) with conflict ;;
    if not_nil (i_PortDeletion (first_of c)) then
      let? _ := conflict_of "INTERNAL_PORT_GRAPH_CHANGED" (verifyPortDeletionBefore (exchange_of h 0) d c v marker) in
      compileInternalPortExecution now id marker marker e v d
    else compileInternalPortExecution now id marker (CreationMarker n) e v d
  else if not_nil (bridgeIntent c) then
    fail_if negb (is_ok (h_BridgeHost h)) with conflict ;;
    if not_nil (i_Deletion (first_of c)) then
      let? _ := conflict_of "ISOLATED_BRIDGE_GRAPH_CHANGED" (verifyDeletionBefore (exchange_of h 0) d c marker) in
      compileBridgeExecution now id marker marker e v d
    else compileBridgeExecution now id marker (CreationMarker n) e v d
  else
    let? p := compileExecution now id marker e v d in
    let? p :=
      match preparePolicingKernel h p (Some n) with
      | Err (EFail s code) =>
        if contains ["POLICING_KERNEL_CONFLICT"; "POLICING_KERNEL_CONFIGURATION_CONFLICT"] code then Err conflict
        else Err (EFail s code)
      | r => r
      end in
    prepareTreeExecution h p.
(** go: internal/provider/ovsdb/rollback.go Executor.PrepareRollback *)
Definition PrepareRollback (h : host) (original : Plan) (marker : string) : result Plan :=
  match decode (Native original) with
  | None => Err (Fail 503 "ROLLBACK_CHECKPOINT_INVALID")
  | Some n =>
    let changed := Fail 409 "ROLLBACK_GENERATION_CHANGED" in
    let? v := h_View h in
    let s := ev_Candidate v in
    fail_if (sn_Generation s <>s p_Generation original) || (sn_Schema s <>s p_Schema original)
            || (ev_Root (observed_evidence v) <>s p_Root original) with changed ;;
    let? (d, identity) := h_Connect h in
    fail_if (identity <>s ev_Peer (n_Evidence n)) || (d_Digest d <>s p_Schema original) || negb (same_file h 0) with changed ;;
    fail_if negb (forallb (has_marker original (observed_rows v)) (intents (e_Candidate (p_Envelope original)))) with conflict ;;
    let e := reversed (p_Envelope original) in
    fail_if negb (Passed (fst (Checks (e_Candidate e) s))) with conflict ;;
    compensation h original n marker e v d
  end.

(** ** The proof of what is applied *)

Definition label_is (root : Row) (key marker : string) : bool :=
  is_text marker (as_map (Values root !! "external_ids") ≫= (.!! key)).
(** [number] of the only value of [ofport], which may be a set or not. *)
Definition sole_port (row : Row) : option Z :=
  match (match as_array (Values row !! "ofport") with
         | Some [x] => number (Some x)
         | Some _ => Err undecodable
         | None => number (Values row !! "ofport")
         end) with
  | Ok n => Some n
  | Err _ => None
  end.
(** go: internal/provider/ovsdb/bridge.go createdInterfaceHealthy *)
Definition createdInterfaceHealthy (row : Row) : bool := no_error row && bool_decide (sole_port row = Some 65534).
(** go: internal/provider/ovsdb/internal_port.go internalInterfaceHealthy *)
Definition internalInterfaceHealthy (row : Row) : bool :=
  no_error row && match sole_port row with Some n => (1 <=? n) && (n <=? 65279) | None => false end.
(** The read of both counters, the last operation of every proof. *)
Definition counters_read (root : string) : operation :=
  Select "Open_vSwitch" [uuidCondition root] ["_uuid"; "next_cfg"; "cur_cfg"].
(** The root row with our marker, guarded.
    go: internal/provider/ovsdb/bridge.go:264-272 bridgeProof *)
Definition marked_root (d : discovered) (v : ExecutionView) (p : Plan) : result operation :=
  let root := row_of (observed_rows v) "Open_vSwitch" (p_Root p) in
  fail_if negb (label_is root bridgeMarkerKey (Marker p)) with ENew "BRIDGE_COMMIT_MARKER_CHANGED" ;;
  guard d "Open_vSwitch" root ["external_ids"] [uuidCondition (p_Root p)].
(** The interface of a graph that is present: healthy, and guarded.
    go: internal/provider/ovsdb/bridge.go:284-294 bridgeProof *)
Definition healthy_interface (d : discovered) (v : ExecutionView) (healthy : Row -> bool) (reason uuid : string)
    : result (list operation) :=
  let row := row_of (observed_rows v) "Interface" uuid in
  fail_if negb (healthy row) with ENew reason ;;
  let? g := guard d "Interface" row ["error"; "ofport"] [uuidCondition (row_UUID row)] in
  Ok [g].
(** go: internal/provider/ovsdb/bridge.go bridgeProof *)
Definition bridgeProof (p : Plan) (v : ExecutionView) (d : discovered) : result (list operation) :=
  match bridgeIntent (e_Candidate (p_Envelope p)), decode (Native p) with
  | Some i, Some n =>
    match i_Creation i with
    | None => Err (ENew "INVALID_BRIDGE_PLAN")
    | Some c =>
      let? g := marked_root d v p in
      let? guards := graphGuards d i (CreationMarker n) (bc_AfterPresent c) in
      let source := match i_Deletion (first_intent (p_Envelope p)) with
                    | Some x => if bd_Restoring x then deletedSourceGuards x else []
                    | None => []
                    end in
      let? health :=
        if bc_AfterPresent c
        then healthy_interface d v createdInterfaceHealthy "BRIDGE_INTERFACE_NOT_APPLIED" (OVSUUID (bc_Interface c))
        else Ok [] in
      Ok (g :: guards ++ source ++ health ++ [counters_read (p_Root p)])
    end
  | _, _ => Err (ENew "INVALID_BRIDGE_PLAN")
  end.
(** go: internal/provider/ovsdb/internal_port.go internalPortProof *)
Definition internalPortProof (p : Plan) (v : ExecutionView) (d : discovered) : result (list operation) :=
  match internalPortIntent (e_Candidate (p_Envelope p)), decode (Native p) with
  | Some i, Some n =>
    match i_PortCreation i with
    | None => Err (ENew "INVALID_INTERNAL_PORT_PLAN")
    | Some c =>
      let? g := marked_root d v p in
      let? guards := graphGuards d i (CreationMarker n) (ip_AfterPresent c) in
      let? parents := internalParentGuards d i v (ip_AfterPresent c) in
      let source := match i_PortDeletion (first_intent (p_Envelope p)) with
                    | Some x => if pd_Restoring x then deletedPortSourceGuards x else []
                    | None => []
                    end in
      let? health :=
        if ip_AfterPresent c
        then healthy_interface d v internalInterfaceHealthy "INTERNAL_PORT_INTERFACE_NOT_APPLIED" (OVSUUID (ip_Interface c))
        else Ok [] in
      Ok (g :: guards ++ source ++ parents ++ health ++ [counters_read (p_Root p)])
    end
  | _, _ => Err (ENew "INVALID_INTERNAL_PORT_PLAN")
  end.

(** *** topology.go *)

(** The interface is the local one of its bridge: port and bridge bear its
    name.
    go: internal/provider/ovsdb/topology.go:416-426 topologyProof *)
Definition is_local (after : list TopologyNode) (a : TopologyNode) : bool :=
  existsb (fun port =>
    (Table (n_Binding port) =s "Port") && (n_Name port =s n_Name a) && bool_decide (n_Binding a ∈ elems (n_Links port))
    && existsb (fun b => is_bridge b && (n_Name b =s n_Name port) && bool_decide (n_Binding port ∈ elems (n_Links b))) after)
    after.
Definition value_is (row : Row) (name : string) (j : json) : bool :=
  digest_json (default JNull (Values row !! name)) =s digest_json j.
(** The port number that was asked for is the one in use.
    go: internal/provider/ovsdb/topology.go:430-438 topologyProof *)
Definition ofport_proved (i : StoredIntent) (n : nativePlan) (a : TopologyNode) (row : Row) : result unit :=
  if contains ["interface.ofport.set"; "interface.ofport.clear"] (i_Operation i) && bool_decide (n_Binding a = i_Object i) then
    match as_array (default ∅ (TopologyAfter n !! OVSUUID (n_Binding a)) !! "ofport_request") with
    | None => Err (ENew "OFPORT_REQUEST_UNPROVEN")
    | Some requested =>
      fail_if (len requested =? 1) && negb (value_is row "ofport" (JArr requested)) with ENew "OFPORT_ALLOCATION_UNPROVEN" ;; Ok tt
    end
  else Ok tt.
(** What each node of the after image is guarded by.
    go: internal/provider/ovsdb/topology.go:408-452 topologyProof *)
Fixpoint node_proofs (d : discovered) (v : ExecutionView) (i : StoredIntent) (n : nativePlan) (root : string)
    (after l : list TopologyNode) : result (list operation) :=
  match l with
  | [] => Ok []
  | a :: r =>
    let uuid := OVSUUID (n_Binding a) in
    let place := if is_bridge a then [only_row "Open_vSwitch" [includes "bridges" (uuidSet [uuid])] [root]] else [] in
    let? own :=
      if negb (Table (n_Binding a) =s "Interface") then Ok []
      else
        let row := row_of (observed_rows v) "Interface" uuid in
        let idle := is_local after a && value_is row "ofport" (JArr [JStr "65534"]) && value_is row "error" (JArr []) in
        fail_if negb (internalInterfaceHealthy row) && negb idle with ENew "TOPOLOGY_INTERFACE_NOT_APPLIED" ;;
        let? _ := ofport_proved i n a row in
        let index := default EmptyString (TopologyDevices n !! n_Name a) in
        fail_if is_system a && ((index =s "") || negb (value_is row "ifindex" (JArr [JStr index])))
          with ENew "HOST_DEVICE_BINDING_UNPROVEN" ;;
        let? g := guard d "Interface" row (["error"; "ofport"] ++ if is_system a then ["ifindex"] else []) [uuidCondition (row_UUID row)] in
        Ok [g] in
    let? rest := node_proofs d v i n root after r in
    Ok (place ++ own ++ rest)
  end.
(** go: internal/provider/ovsdb/topology.go topologyProof *)
Definition topologyProof (p : Plan) (v : ExecutionView) (d : discovered) : result (list operation) :=
  match topologyIntent (e_Candidate (p_Envelope p)), decode (Native p) with
  | Some (i, g), Some n =>
    let '(after, before) :=
      if tp_Compensating g then (elems (tp_Restored g), elems (tp_After g)) else (elems (tp_After g), elems (tp_Before g)) in
    let? guards := topologyImages d after (TopologyAfter n) in
    let? fence := domain_fence (ENew "TUNNEL_RUNTIME_TYPE_UNAVAILABLE") d v (i_Operation i)
                    (row_of (observed_rows v) "Open_vSwitch" (tp_Root g)) (tp_Root g) in
    let? references :=
      if IsMirrorOperation (i_Operation i) then mirrorReferenceOperations d after v
      else Ok (topologyReferences d after (tt_Nodes (sn_Topology (ev_Candidate v)))) in
    let gone := (fun old => only_row (Table (n_Binding old)) [uuidCondition (OVSUUID (n_Binding old))] [])
                <$> filter (fun old => among after old = false) before in
    let root := row_of (observed_rows v) "Open_vSwitch" (tp_Root g) in
    fail_if negb (label_is root bridgeMarkerKey (Marker p)) with ENew "TOPOLOGY_COMMIT_MARKER_CHANGED" ;;
    let root_values := mkRow (Configuration root) (InterfaceOptionsEmpty root) (row_UUID root) (Configuration root) in
    let? rg := guard d "Open_vSwitch" root_values (sorted_columns (Configuration root)) [uuidCondition (tp_Root g)] in
    let? nodes := node_proofs d v i n (tp_Root g) after after in
    Ok (fence ++ guards ++ references ++ gone ++ rg :: nodes ++ [counters_read (tp_Root g)])
  | _, _ => Err (ENew "INVALID_TOPOLOGY_PLAN")
  end.

(** *** applied.go *)

(** The image that the guards are compiled from.
    go: internal/provider/ovsdb/applied.go:28-37 appliedProofOperations *)
Definition proof_image (i : StoredIntent) : StoredIntent :=
  let op := i_Operation i in
  if contains [PortIsolationSet; BridgeMulticastSet; InterfacePolicingSet; SpanningTreeConfigure] op || IsMTUOperation op
  then AfterImage i else i.
Definition proof_envelope (e : Envelope) : Envelope :=
  let c := e_Candidate e in
  mkEnvelope (e_Owner e) (e_Epoch e) (e_Sequence e)
    (mkCandidate (c_ID c) (c_Revision c) (c_Generation c) (c_BaseRevision c) (c_State c) (Some (proof_image <$> intents c))
       (c_Consumed c)) (e_Seal e).
Fixpoint all_guards (l : list (result operation)) : result (list operation) :=
  match l with
  | [] => Ok []
  | g :: r => let? o := g in let? rest := all_guards r in Ok (o :: rest)
  end.
(** The health of the interfaces that an intent concerns.
    go: internal/provider/ovsdb/applied.go:54-96 appliedProofOperations *)
Definition health_guards (d : discovered) (v : ExecutionView) (p : Plan) (i : StoredIntent) : result (list operation) :=
  let rows := observed_rows v in
  let op := i_Operation i in
  let own := row_of rows "Interface" (OVSUUID (i_Object i)) in
  let one columns := all_guards [guard d "Interface" own columns [uuidCondition (row_UUID own)]] in
  let errors ids := all_guards ((fun id => guard d "Interface" (row_of rows "Interface" id) ["error"] [uuidCondition id]) <$> ids) in
  if op =s BridgeMulticastSet then errors (OVSUUID <$> filter (fun b => (Table b =s "Interface") = true) (GraphBindings p))
  else if op =s SpanningTreeConfigure then Ok []
  else if op =s InterfacePolicingSet then one ["error"; "ifindex"]
  else if IsMTUOperation op then one ["error"; "mtu"]
  else errors (nativeRefs (Values (row_of rows "Port" (OVSUUID (i_Object i))) !! "interfaces")).
Fixpoint all_health (d : discovered) (v : ExecutionView) (p : Plan) (l : list StoredIntent) : result (list operation) :=
  match l with
  | [] => Ok []
  | i :: r => let? ops := health_guards d v p i in let? rest := all_health d v p r in Ok (ops ++ rest)
  end.
(** go: internal/provider/ovsdb/applied.go appliedProofOperations *)
Definition appliedProofOperations (now : Z) (p : Plan) (v : ExecutionView) (d : discovered) : result (list operation) :=
  let c := e_Candidate (p_Envelope p) in
  if not_nil (topologyIntent c) then topologyProof p v d
  else if not_nil (internalPortIntent c) then internalPortProof p v d
  else if not_nil (bridgeIntent c) then bridgeProof p v d
  else
    let? checked := compileExecution now (p_ID p) (Marker p) (proof_envelope (p_Envelope p)) v d in
    match decode (Native checked) with
    | None => Err undecodable
    | Some compiled =>
      let? health := all_health d v p (intents c) in
      Ok (filter (fun o => is_wait o = true) (Operations compiled) ++ health ++ [counters_read (p_Root p)])
    end.

(** ** The verdict on the reply *)

(** What the environment answers while an applied change is verified, in the
    order it is asked; [pr_Sent] tells whether the request was written. *)
Record probe := mkProbe {
  pr_Policing : list (result PolicingSample); pr_Connect : result (discovered * string); pr_SameFile : list bool;
  pr_Devices : list (result (gmap string string)); pr_Sent : bool; pr_Replies : list message; pr_Cancelled : bool;
  pr_BridgeHost : result unit; pr_Tree : result unit; pr_Compiled : Z; pr_Now : Z }.
Definition transport : error := ENew "transport".
Definition sample_at (r : probe) (k : nat) : result PolicingSample := default (Err transport) (pr_Policing r !! k).
Definition devices_at (r : probe) (k : nat) : result (gmap string string) := default (Err transport) (pr_Devices r !! k).
Definition file_at (r : probe) (k : nat) : bool := default false (pr_SameFile r !! k).
(** go: internal/provider/ovsdb/topology.go topologyHostIdentityCheck *)
Definition topologyHostIdentityCheck (devices : result (gmap string string)) (c : Candidate) (n : nativePlan) : result unit :=
  match topologyIntent c with
  | None => Ok tt
  | Some _ =>
    match devices with
    | Ok m => fail_if devices_digest m <>s devices_digest (TopologyDevices n) with Fail 409 "HOST_DEVICE_IDENTITY_CHANGED" ;; Ok tt
    | Err _ => Err (Fail 409 "HOST_DEVICE_IDENTITY_CHANGED")
    end
  end.
(** The policing change, when it is the only one.
    go: internal/provider/ovsdb/applied.go:105-108 Executor.verifyApplied *)
Definition sole_policing (p : Plan) : option PolicingChange :=
  match intents (e_Candidate (p_Envelope p)) with [i] => i_Policing i | _ => None end.
(** The counters of the root, read with the guards.
    go: internal/provider/ovsdb/applied.go:161-174 Executor.verifyApplied *)
Definition counters_of (p : Plan) (target : option string) (results : list (option (gmap string json))) : result Z :=
  let unproved := Err (ENew "APPLIED_TARGET_UNAVAILABLE") in
  match target, field results (len results - 1) "rows" with
  | Some target, Some (JArr [JObj row]) =>
    let row : gmap string json := list_to_map row in
    match texts_of (row !! "_uuid"), number_of (row !! "next_cfg"), number_of (row !! "cur_cfg") with
    | Some id, Some next, Some current =>
      fail_if negb (bool_decide (id = ["uuid"; p_Root p])) with ENew "APPLIED_TARGET_UNAVAILABLE" ;;
      match parse_int next 64, parse_int current 64, parse_int target 64 with
      | Some next, Some current, Some target =>
        fail_if (current <? target) || (next <? current) with ENew "APPLIED_COUNTER_UNPROVEN" ;; Ok current
      | _, _, _ => Err (ENew "APPLIED_COUNTER_UNPROVEN")
      end
    | _, _, _ => unproved
    end
  | _, _ => unproved
  end.
(** The results of the transaction, and what must still hold after it.
    go: internal/provider/ovsdb/applied.go:152-199 Executor.verifyApplied *)
Definition verdict_of (r : probe) (p : Plan) (n : nativePlan) (target : option string) (before : option PolicingSample)
    (ops : list operation) (body : option json) : result (Z * Z) :=
  let c := e_Candidate (p_Envelope p) in
  match decode_results body with
  | None => Err (ENew "APPLIED_PROOF_INVALID")
  | Some results =>
    fail_if negb (len results =? len ops) with ENew "APPLIED_PROOF_INVALID" ;;
    fail_if existsb failed_result results with ENew "APPLIED_GUARD_CHANGED" ;;
    let? current := counters_of p target results in
    fail_if pr_Cancelled r || negb (file_at r 1) with ENew "APPLIED_IDENTITY_CHANGED" ;;
    let? _ := pr_BridgeHost r in
    let? _ := topologyHostIdentityCheck (devices_at r 1) c n in
    let? _ :=
      match before, sole_policing p with
      | Some s, Some m =>
        let? sample := sample_at r 1 in
        fail_if negb (PolicingMatches sample (pc_After m)) || (ConfigurationDigest_ sample <>s ConfigurationDigest_ s)
          with ENew "POLICING_INSTALLED_RATE_CHANGED" ;; Ok tt
      | _, _ => Ok tt
      end in
    let? _ := pr_Tree r in
    Ok (current, pr_Now r)
  end.
(** go: internal/provider/ovsdb/applied.go:138-151 Executor.verifyApplied *)
Fixpoint proof_reply (fuel : nat) (l : list message) (r : probe) (p : Plan) (n : nativePlan) (target : option string)
    (before : option PolicingSample) (ops : list operation) : result (Z * Z) :=
  match fuel with
  | O => Err (ENew "APPLIED_PROOF_BUDGET")
  | S f =>
    match l with
    | [] | Unreadable :: _ => Err transport
    | Echo answered :: l => if answered then proof_reply f l r p n target before ops else Err transport
    | Reply method id failed body :: _ =>
      fail_if (method <>s "") || (id <>s "3") || failed with ENew "APPLIED_PROOF_INVALID" ;;
      verdict_of r p n target before ops body
    end
  end.
(** The counter that was read, and when.
    go: internal/provider/ovsdb/applied.go Executor.verifyApplied *)
Definition verifyApplied (r : probe) (p : Plan) (v : ExecutionView) (out : Outcome) : result (Z * Z) :=
  let c := e_Candidate (p_Envelope p) in
  let? before :=
    match sole_policing p with
    | None => Ok None
    | Some m => let? sample := sample_at r 0 in
                fail_if negb (PolicingMatches sample (pc_After m)) with ENew "POLICING_INSTALLED_RATE_UNPROVEN" ;; Ok (Some sample)
    end in
  let? (d, identity) := pr_Connect r in
  match decode (Native p) with
  | None => Err (ENew "APPLIED_IDENTITY_CHANGED")
  | Some n =>
    fail_if (identity <>s ev_Peer (n_Evidence n)) || (d_Digest d <>s p_Schema p) || negb (file_at r 0)
      with ENew "APPLIED_IDENTITY_CHANGED" ;;
    let? _ := topologyHostIdentityCheck (devices_at r 0) c n in
    let? ops := appliedProofOperations (pr_Compiled r) p v d in
    fail_if negb (pr_Sent r) with transport ;;
    proof_reply 32 (pr_Replies r) r p n (o_Target out) before ops
  end.
End decoding.

End Preparation.
