(* ===== verification/Guards.v ===== *)
(** * internal/provider/ovsdb: what makes a plan safe to send

    The contract between the compilers and the executor: every write of the
    transaction is confined to a row that an earlier guard of the same
    transaction pins, and every write's result is checked by the reply's
    decoder. The lemmas follow the way plans are built, one operation at a
    time ([push], [counted], [inserted], [target]). *)

From S2P Require Import Prelude GoStrings GoJson GoTime ApiTypes CandidateTypes Intents Planning Staging ExecTypes.
From S2P Require Import Native Compile.
Import Planning Staging Native Compile.

Module Guards.

(** ** Guards of one transaction *)

(** The operation fails the transaction unless the row is as expected in these
    columns: a guard of that row, or of its whole table. *)
Definition pins (table uuid : string) (columns : list string) (o : operation) : Prop :=
  match o with
  | Wait t w c _ => t = table /\ (w = [] \/ uuidCondition uuid ∈ w) /\ columns ⊆ c
  | _ => False
  end.
Definition pinned (l : list operation) (table uuid : string) (columns : list string) : Prop :=
  Exists (pins table uuid columns) l.
(** The operation fails the transaction if the row exists. *)
Definition vacant (l : list operation) (table uuid : string) : Prop := only_row table [uuidCondition uuid] [] ∈ l.

(** What must come before a write, [compared] being the columns that an update
    must have seen. *)
Definition write_ok (compared : string -> wire_row -> list string) (before : list operation) (o : operation) : Prop :=
  match o with
  | Update t w row => exists u, w = [uuidCondition u] /\ pinned before t u (compared t row)
  | Mutate t w _ => exists u, w = [uuidCondition u] /\ pinned before t u []
  | Insert t u _ => vacant before t u
  | _ => True
  end.
Definition guarded (compared : string -> wire_row -> list string) (l : list operation) : Prop :=
  forall i o, l !! i = Some o -> write_ok compared (take i l) o.

(** Every update or mutation is among the counted operations, every insertion
    among the identities that the reply must repeat, and nothing else is. *)
Definition changes (o : operation) : Prop := match o with Update _ _ _ | Mutate _ _ _ => True | _ => False end.
Record accounted (n : nativePlan) : Prop := {
  acc_counts : forall i, i ∈ CountIndexes n <-> exists o, Operations n !! Z.to_nat i = Some o /\ 0 <= i /\ changes o;
  acc_inserts : forall i u, InsertUUIDs n !! i = Some u <->
    0 <= i /\ exists t row, Operations n !! Z.to_nat i = Some (Insert t u row) }.

Section Compared.
Context (compared : string -> wire_row -> list string).

Record built (n : nativePlan) : Prop := {
  built_guarded : guarded compared (Operations n);
  built_accounted : accounted n }.

Lemma pinned_app l l' t u c : pinned l t u c -> pinned (l ++ l') t u c.
Proof. intros H. apply Exists_app. by left. Qed.
Lemma pinned_app_r l l' t u c : pinned l' t u c -> pinned (l ++ l') t u c.
Proof. intros H. apply Exists_app. by right. Qed.
Lemma pinned_weaken l t u c c' : c' ⊆ c -> pinned l t u c -> pinned l t u c'.
Proof.
  intros Hc Hl. apply (Exists_impl _ _ _ Hl). intros [] H; simpl in *; try done.
  destruct H as (? & ? & ?). split_and!; [done..|by transitivity c].
Qed.
Lemma guarded_snoc l o : guarded compared l -> write_ok compared l o -> guarded compared (l ++ [o]).
Proof.
  intros Hl Ho i x Hx. apply lookup_snoc_Some in Hx as [[Hi Hx]|[-> ->]].
  - rewrite take_app_le by lia. by apply Hl.
  - by rewrite take_app_length.
Qed.

Lemma to_nat_len {A} (l : list A) : Z.to_nat (len l) = List.length l.
Proof. unfold len. lia. Qed.
(** A position of a longer list is an old one, or the new one. *)
Lemma lookup_grown {A} (l : list A) (o : A) i x : 0 <= i ->
  (l ++ [o]) !! Z.to_nat i = Some x <-> l !! Z.to_nat i = Some x \/ (i = len l /\ x = o).
Proof.
  intros Hi. rewrite lookup_snoc_Some. unfold len. split.
  - intros [[_ H]|[H ->]]; [by left|right; split; [lia|done]].
  - intros [H|[-> ->]]; [left|right; split; [lia|done]]. split; [by eapply lookup_lt_Some|done].
Qed.

(** ** Building *)

(** Operations that change nothing; a guard is one that can only refuse. *)
Definition harmless (o : operation) : Prop := match o with Wait _ _ _ _ | Select _ _ _ | CommitDurable => True | _ => False end.
Definition reads (o : operation) : Prop := match o with Wait _ _ _ _ => True | _ => False end.

Lemma built_harmless n o : harmless o -> built n -> built (push n o).
Proof.
  intros Ho [Hg [Hc Hi]]. split; [apply guarded_snoc; [done|by destruct o]|]. split; cbn [push CountIndexes InsertUUIDs Operations].
  - intros i. rewrite Hc. split; intros (x & Hx & Hp & Hch); exists x.
    + split; [apply lookup_grown; auto|done].
    + apply lookup_grown in Hx as [Hx|[_ ->]]; [done|by destruct o|done].
  - intros i u. rewrite Hi. split; intros (Hp & t & row & Hx); (split; [done|]); exists t, row.
    + apply lookup_grown; auto.
    + apply lookup_grown in Hx as [Hx|[_ E]]; [done|by subst o|done].
Qed.
Lemma built_push n o : reads o -> built n -> built (push n o).
Proof. intros Ho. apply built_harmless. by destruct o. Qed.
Lemma built_push_all l n : Forall reads l -> built n -> built (push_all n l).
Proof. intros Hl. revert n. induction Hl as [|o l Ho _ IH]; intros n Hn; [done|]. cbn. by apply IH, built_push. Qed.
Lemma push_all_operations l n : Operations (push_all n l) = Operations n ++ l.
Proof.
  revert n. induction l as [|o l IH]; intros n; cbn; [by rewrite app_nil_r|].
  unfold push_all in IH. rewrite IH. cbn. by rewrite <- app_assoc.
Qed.
Lemma built_counted n o : changes o -> write_ok compared (Operations n) o -> built n -> built (counted n o).
Proof.
  intros Ho Hw [Hg [Hc Hi]]. split; [by apply guarded_snoc|].
  split; cbn [counted CountIndexes InsertUUIDs Operations].
  - intros i. rewrite elem_of_app, Hc, list_elem_of_singleton. split.
    + assert (0 <= len (Operations n)) by (unfold len; lia).
      intros [(x & Hx & Hp & Hch)| ->]; [exists x|exists o]; (split; [apply lookup_grown; auto|done]).
    + intros (x & Hx & Hp & Hch). apply lookup_grown in Hx as [Hx|[-> ->]]; [left; by exists x|by right|done].
  - intros i u. rewrite Hi. split; intros (Hp & t & row & Hx); (split; [done|]); exists t, row.
    + apply lookup_grown; auto.
    + apply lookup_grown in Hx as [Hx|[_ E]]; [done|by subst o|done].
Qed.
Lemma built_inserted n t u row : vacant (Operations n) t u -> built n -> built (inserted n t u row).
Proof.
  intros Hv [Hg [Hc Hi]]. split; [by apply guarded_snoc|].
  assert (InsertUUIDs n !! len (Operations n) = None) as Hfree.
  { destruct (InsertUUIDs n !! len (Operations n)) as [x|] eqn:E; [|done].
    apply Hi in E as (_ & t' & row' & E). apply lookup_lt_Some in E. unfold len in E. lia. }
  split; cbn [inserted CountIndexes InsertUUIDs Operations].
  - intros i. rewrite Hc. split; intros (x & Hx & Hp & Hch); exists x.
    + split; [apply lookup_grown; auto|done].
    + apply lookup_grown in Hx as [Hx|[_ ->]]; [done|by destruct Hch|done].
  - intros i v. rewrite lookup_insert_Some. rewrite Hi. split.
    + assert (0 <= len (Operations n)) by (unfold len; lia).
      intros [[<- <-]|(Hne & Hp & t' & row' & Hx)]; (split; [done|]); [exists t, row|exists t', row'];
        apply lookup_grown; auto.
    + intros (Hp & t' & row' & Hx). apply lookup_grown in Hx as [Hx|[-> [= -> -> ->]]]; [|by left|done].
      right. split; [|eauto]. intros <-. apply lookup_lt_Some in Hx. unfold len in Hx. lia.
Qed.

(** Guards only: what the loops over rows and bindings add. *)
Definition reading (n n' : nativePlan) : Prop := exists l, Forall reads l /\ n' = push_all n l.
Lemma reading_refl n : reading n n.
Proof. by exists []. Qed.
Lemma reading_push n o : reads o -> reading n (push n o).
Proof. intros Ho. exists [o]. split; [by repeat constructor|done]. Qed.
Lemma reading_push_all n l : Forall reads l -> reading n (push_all n l).
Proof. by exists l. Qed.
Lemma reading_trans n1 n2 n3 : reading n1 n2 -> reading n2 n3 -> reading n1 n3.
Proof.
  intros (l1 & H1 & ->) (l2 & H2 & ->). exists (l1 ++ l2). split; [by apply Forall_app|].
  unfold push_all. by rewrite fold_left_app.
Qed.
Lemma reading_pinned n n' t u c : reading n n' -> pinned (Operations n) t u c -> pinned (Operations n') t u c.
Proof. intros (l & _ & ->). rewrite push_all_operations. apply pinned_app. Qed.

(** Operations, counts and insertions are all that matters. *)
Lemma built_same n n' : Operations n' = Operations n -> CountIndexes n' = CountIndexes n -> InsertUUIDs n' = InsertUUIDs n ->
  built n -> built n'.
Proof. intros E1 E2 E3 [Hg [Hc Hi]]. split; [by rewrite E1|]. split; intros; rewrite ?E1, ?E2, ?E3; auto. Qed.
Lemma built_new e : built (new_plan e).
Proof.
  split; [by intros i o|]. split; cbn.
  - intros i. split; [intros H; by apply elem_of_nil in H|by intros (x & Hx & _)].
  - intros i u. split; [by rewrite lookup_empty|by intros (_ & t & row & Hx)].
Qed.
Lemma built_target n root : built n -> built (target n root).
Proof.
  intros Hn. unfold target. cbn [push_all fold_left]. do 2 (apply built_harmless; [done|]). by eapply built_same; [..|exact Hn].
Qed.

Lemma pinned_push n o t u c : pinned (Operations n) t u c -> pinned (Operations (push n o)) t u c.
Proof. apply pinned_app. Qed.
Lemma pinned_push_all n l t u c : pinned (Operations n) t u c -> pinned (Operations (push_all n l)) t u c.
Proof. rewrite push_all_operations. apply pinned_app. Qed.
Lemma pinned_counted n o t u c : pinned (Operations n) t u c -> pinned (Operations (counted n o)) t u c.
Proof. apply pinned_app. Qed.
Lemma pinned_inserted n t' u' row t u c : pinned (Operations n) t u c -> pinned (Operations (inserted n t' u' row)) t u c.
Proof. apply pinned_app. Qed.

Lemma built_counted_mutate n t u m : pinned (Operations n) t u [] -> built n -> built (counted n (Mutate t [uuidCondition u] m)).
Proof. intros Hp. apply built_counted; [done|]. by exists u. Qed.
Lemma built_counted_update n t u row : pinned (Operations n) t u (compared t row) -> built n ->
  built (counted n (Update t [uuidCondition u] row)).
Proof. intros Hp. apply built_counted; [done|]. by exists u. Qed.
Lemma built_commit_fields n root : pinned (Operations n) "Open_vSwitch" root [] -> built n -> built (commit_fields n root).
Proof. intros Hp Hn. by apply built_target, built_counted_mutate. Qed.

Lemma built_reading n n' : reading n n' -> built n -> built n'.
Proof. intros (l & Hl & ->). by apply built_push_all. Qed.

(** Steps that keep what was established, writes included. *)
Record growing (n n' : nativePlan) : Prop := {
  growing_built : built n -> built n';
  growing_pinned : forall t u c, pinned (Operations n) t u c -> pinned (Operations n') t u c }.
Lemma growing_refl n : growing n n.
Proof. by split. Qed.
Lemma growing_trans n1 n2 n3 : growing n1 n2 -> growing n2 n3 -> growing n1 n3.
Proof. intros [] []. split; auto. Qed.
Lemma growing_reading n n' : reading n n' -> growing n n'.
Proof. split; [by apply built_reading|intros; by eapply reading_pinned]. Qed.
Lemma growing_update n t u row : pinned (Operations n) t u (compared t row) -> growing n (counted n (Update t [uuidCondition u] row)).
Proof. split; [by apply built_counted_update|intros; by apply pinned_counted]. Qed.
Lemma growing_mutate n t u m : pinned (Operations n) t u [] -> growing n (counted n (Mutate t [uuidCondition u] m)).
Proof. split; [by apply built_counted_mutate|intros; by apply pinned_counted]. Qed.

(** ** Complete plans *)

(** The plan ends by reading the counter that it raised, and by the durable
    commit; it stays within the budget of the journal. *)
Record complete (n : nativePlan) (root : string) : Prop := {
  complete_tail : exists l, Operations n = l ++ [Select "Open_vSwitch" [uuidCondition root] ["_uuid"; "next_cfg"]; CommitDurable]
    /\ TargetIndex n = len l
    /\ exists m, Mutate "Open_vSwitch" [uuidCondition root] m ∈ l /\ increment ∈ m;
  complete_budget : over_budget (native_json n) = false }.
Definition sound (root : string) (p : Plan) : Prop :=
  exists n, Native p = native_json n /\ built n /\ complete n root.

Lemma plan_of_sound id marker e v d root r next cur now n bindings p m :
  plan_of id marker e v d root next cur now (target (counted n (Mutate "Open_vSwitch" [uuidCondition r] m)) r) bindings = Ok p ->
  increment ∈ m -> built n -> pinned (Operations n) "Open_vSwitch" r [] -> sound r p.
Proof.
  unfold plan_of. intros H Hm Hn Hp. ok_inv. eexists. split; [reflexivity|].
  split; [by apply built_target, built_counted_mutate|]. split; [|done].
  exists (Operations n ++ [Mutate "Open_vSwitch" [uuidCondition r] m]). split_and!.
  - unfold target. by rewrite push_all_operations.
  - reflexivity.
  - exists m. split; [|done]. apply elem_of_app. right. by apply list_elem_of_singleton.
Qed.
Lemma commit_fields_sound id marker e v d root r next cur now n bindings p :
  plan_of id marker e v d root next cur now (commit_fields n r) bindings = Ok p ->
  built n -> pinned (Operations n) "Open_vSwitch" r [] -> sound r p.
Proof. intros H. eapply plan_of_sound; [exact H|]. by apply list_elem_of_singleton. Qed.

End Compared.

(** Comparing less is guarded as well. *)
Lemma sound_weaken c c' root p : (forall t row, c' t row ⊆ c t row) -> sound c root p -> sound c' root p.
Proof.
  intros Hc (n & E & [Hg Ha] & Hn). exists n. split_and!; [done| |done]. split; [|done].
  intros i o Ho. specialize (Hg i o Ho). destruct o; try done. destruct Hg as (u & -> & Hu).
  exists u. split; [done|]. eapply pinned_weaken; [apply Hc|exact Hu].
Qed.

End Guards.
