(* ===== verification/CompileProofs.v ===== *)
(** * The compilers build safe plans

    For every group, the transaction that the compiler accepts is [sound]: the
    proofs follow the compilers operation by operation. *)

From S2P Require Import Prelude GoStrings GoJson GoTime ApiTypes Multicast CandidateTypes Intents Planning Staging.
From S2P Require Import FieldGroups Graphs Topology Planner ExecTypes Native Compile Compilers GraphCompile TopologyCompile.
From S2P Require Import Guards.
Import Planning Staging FieldGroups Graphs Topology Planner Native Compile Compilers GraphCompile TopologyCompile Guards.

Module CompileProofs.

(** The columns of an update that hold persistent configuration. *)
Definition persistent (d : discovered) (table : string) (row : wire_row) : list string :=
  filter (fun name => graphConfigurationColumn table name (column d table name) = true) (fst <$> map_to_list row).

Lemma guard_wait d table row names where_ o :
  guard d table row names where_ = Ok o -> exists rows, o = Wait table where_ ("_uuid" :: names) rows.
Proof. unfold guard. intros H. ok_inv. by eexists. Qed.
Lemma guard_reads d table row names where_ o : guard d table row names where_ = Ok o -> reads o.
Proof. by intros [rows ->]%guard_wait. Qed.
Lemma guard_pins d table row names where_ o u : guard d table row names where_ = Ok o ->
  uuidCondition u ∈ where_ -> pins table u names o.
Proof. intros [rows ->]%guard_wait H. split_and!; [done|by right|]. intros x Hx. by right. Qed.
Lemma pinned_guard d table row names where_ o u c n : guard d table row names where_ = Ok o ->
  uuidCondition u ∈ where_ -> c ⊆ names -> pinned (Operations (push n o)) table u c.
Proof.
  intros Hg Hu Hc. apply pinned_app_r. constructor. eapply guard_pins in Hg; [|done].
  destruct o; simpl in *; try done. destruct Hg as (? & ? & ?). split_and!; [done..|by transitivity names].
Qed.
Lemma root_conditions_uuid root next cur : uuidCondition (row_UUID root) ∈ root_conditions root next cur.
Proof. left. Qed.
Lemma root_holding_uuid root bridge next cur : uuidCondition (row_UUID root) ∈ root_holding root bridge next cur.
Proof. left. Qed.

(** ** The Port fields *)

Lemma bridge_guards_reading d root port bond l n n' : bridge_guards d root port bond l n = Ok n' -> reading n n'.
Proof.
  revert n. induction l as [|b l IH]; intros n H; simpl in H; [ok_inv; apply reading_refl|].
  destruct (negb _); [by apply IH|]. destruct (guard _ _ _ _ _) as [g|] eqn:E; [|done].
  eapply reading_trans; [|by eapply IH]. eapply reading_trans; apply reading_push; [by eapply guard_reads|done].
Qed.
Lemma member_guards_reading d rows port exclusive l n n' : member_guards d rows port exclusive l n = Ok n' -> reading n n'.
Proof.
  revert n. induction l as [|b l IH]; intros n H; simpl in H; [ok_inv; apply reading_refl|].
  destruct (guard _ _ _ _ _) as [g|] eqn:E; [|done].
  eapply reading_trans; [|by eapply IH]. eapply reading_trans; [apply reading_push; by eapply guard_reads|].
  destruct exclusive; [by apply reading_push|apply reading_refl].
Qed.


(** Run one call of the accepted compilation, keeping what it returned. *)
Ltac next_ok H :=
  match type of H with
  | (match ?c with Ok _ => _ | Err _ => _ end) = Ok _ => let E := fresh "E" in destruct c eqn:E; [|discriminate H]
  | (if ?b then Err _ else _) = Ok _ => let E := fresh "E" in destruct b eqn:E; [discriminate H|]
  end.

Lemma persistent_row d table (row : wire_row) names :
  (forall name, is_Some (row !! name) -> name ∈ names) -> persistent d table row ⊆ names.
Proof.
  intros H name Hin. unfold persistent in Hin. apply list_elem_of_filter in Hin as [_ Hin].
  apply list_elem_of_fmap in Hin as ([k v] & -> & Hin). apply elem_of_map_to_list in Hin. by eapply H.
Qed.
(** The columns of a row that is written out. *)
Ltac row_columns :=
  let x := fresh in let H := fresh in
  intros [x H]; repeat (apply lookup_insert_Some in H as [[<- _]|[_ H]]; [set_solver|]);
  first [apply lookup_singleton_Some in H as [<- _]; set_solver | by rewrite lookup_empty in H].
Lemma vlanRow_columns v name : is_Some (vlanRow v !! name) -> name ∈ ["vlan_mode"; "tag"; "trunks"; "cvlans"].
Proof. unfold vlanRow. by row_columns. Qed.
Lemma bondRow_columns b name : is_Some (bondRow b !! name) -> name ∈ ["lacp"; "bond_mode"].
Proof. unfold bondRow. by row_columns. Qed.

Lemma port_writes_growing d port i marker n :
  pinned (Operations n) "Port" port (if IsBondOperation (i_Operation i) then ["lacp"; "bond_mode"] else ["vlan_mode"; "tag"; "trunks"; "cvlans"]) ->
  (IsBondOperation (i_Operation i) = true -> i_Bond i <> None) ->
  growing (persistent d) n (port_writes port i marker n).
Proof.
  intros Hp Hb. unfold port_writes.
  assert (pinned (Operations n) "Port" port []) as H0 by (eapply pinned_weaken; [|exact Hp]; set_solver).
  destruct (IsBondOperation (i_Operation i)) eqn:Eop.
  - destruct (i_Bond i) as [b|]; [|by destruct Hb]. eapply growing_trans; [eapply growing_trans|].
    + apply growing_update. eapply pinned_weaken; [|exact Hp]. apply persistent_row, bondRow_columns.
    + apply growing_mutate. by apply pinned_counted.
    + apply growing_mutate. by do 2 apply pinned_counted.
  - eapply growing_trans; [apply growing_update|apply growing_mutate; by apply pinned_counted].
    eapply pinned_weaken; [|exact Hp]. apply persistent_row, vlanRow_columns.
Qed.
Lemma compile_port_growing d v root marker i n n' :
  compile_port d v root marker i n = Ok n' -> growing (persistent d) n n'.
Proof.
  unfold compile_port. intros H. set (port := row_of _ "Port" _) in *.
  next_ok H. assert (reading n a) as Ha.
  { destruct (UsesQinQ i); [|injection E as <-; apply reading_refl]. next_ok E. injection E as <-. apply reading_push.
    unfold qinq_guard in E0. destruct (i_QinQ i); [|done]. by eapply guard_reads. }
  next_ok H. next_ok H. next_ok H. next_ok H. next_ok H. next_ok H. injection H as <-.
  eapply growing_trans; [apply growing_reading|apply port_writes_growing].
  - eapply reading_trans; [exact Ha|]. eapply reading_trans; [apply reading_push; by eapply guard_reads|].
    eapply reading_trans; [by eapply bridge_guards_reading|by eapply member_guards_reading].
  - eapply reading_pinned; [by eapply member_guards_reading|]. eapply reading_pinned; [by eapply bridge_guards_reading|].
    eapply pinned_guard; [done|left|]. destruct (IsBondOperation _), (UsesQinQ i); set_solver.
  - intros Hb. rewrite Hb in E0. unfold bond_ready in E0. by destruct (i_Bond i).
Qed.
Lemma compile_ports_growing d v root marker l seen n n' :
  compile_ports d v root marker l seen n = Ok n' -> growing (persistent d) n n'.
Proof.
  revert seen n. induction l as [|i l IH]; intros seen n H; cbn [compile_ports] in H; [injection H as <-; apply growing_refl|].
  next_ok H. next_ok H. eapply growing_trans; [by eapply compile_port_growing|by eapply IH].
Qed.
Lemma new_pushed (c : string -> wire_row -> list string) e o : reads o -> built c (push (new_plan e) o).
Proof. intros Ho. apply built_push; [done|apply built_new]. Qed.
Lemma compile_fields_sound now id marker e v d p :
  compile_fields now id marker e v d = Ok p -> sound (persistent d) (row_UUID (root_row v)) p.
Proof.
  unfold compile_fields. intros H. next_ok H. destruct a as [next cur]. do 4 next_ok H.
  apply compile_ports_growing in E2 as [Hb Hp]. eapply commit_fields_sound; [exact H| |].
  - apply Hb, new_pushed. by eapply guard_reads.
  - apply Hp. eapply pinned_guard; [done|apply root_conditions_uuid|set_solver].
Qed.

(** ** MTU and policing *)

Lemma default_guards_reading d v bridge all l n n' : default_guards d v bridge all l n = Ok n' -> reading n n'.
Proof.
  revert n. induction l as [|b l IH]; intros n H; cbn [default_guards] in H; [injection H as <-; apply reading_refl|].
  destruct (rows_of _ _ !! _) as [row|]; [|done]. do 3 next_ok H.
  destruct (Table b =s "Port").
  - eapply reading_trans; [|by eapply IH]. eapply reading_trans; apply reading_push; [by eapply guard_reads|done].
  - next_ok H. eapply reading_trans; [|by eapply IH]. eapply reading_trans; apply reading_push; [by eapply guard_reads|done].
Qed.
Lemma interface_guards_reading d root bridge port iface rc cs next cur n n' :
  interface_guards d root bridge port iface rc cs next cur n = Ok n' -> reading n n'.
Proof.
  unfold interface_guards. intros H. next_ok H. injection H as <-. cbn [push_guards] in E. do 4 next_ok E. injection E as <-.
  do 2 (eapply reading_trans; [|by apply reading_push]).
  do 3 (eapply reading_trans; [|apply reading_push; by eapply guard_reads]). apply reading_push. by eapply guard_reads.
Qed.
Lemma interface_guards_pins d root bridge port iface rc cs next cur n n' :
  interface_guards d root bridge port iface rc cs next cur n = Ok n' ->
  pinned (Operations n') "Open_vSwitch" (row_UUID root) [] /\ pinned (Operations n') "Interface" (row_UUID iface) cs.
Proof.
  unfold interface_guards. intros H. next_ok H. injection H as <-. cbn [push_guards] in E. do 4 next_ok E. injection E as <-.
  split; do 2 apply pinned_push; [do 3 apply pinned_push|]; (eapply pinned_guard; [done|left|set_solver]).
Qed.
Lemma mtu_columns v name : is_Some (({["mtu_request" := v]} : wire_row) !! name) -> name ∈ ["mtu_request"].
Proof. by row_columns. Qed.
(** The end of the compilers that write one row: the update, its mark, the
    counter and the commit. *)
Lemma row_plan_sound d id marker e v root r next cur now n bindings table uuid row m p :
  plan_of id marker e v d root next cur now
    (commit_fields (counted (counted n (Update table [uuidCondition uuid] row)) (Mutate table [uuidCondition uuid] m)) r) bindings = Ok p ->
  built (persistent d) n -> pinned (Operations n) "Open_vSwitch" r [] -> pinned (Operations n) table uuid (persistent d table row) ->
  sound (persistent d) r p.
Proof.
  intros H Hb Hr Hu. eapply commit_fields_sound; [exact H| |by do 2 apply pinned_counted].
  apply built_counted_mutate; [|by apply built_counted_update].
  apply pinned_counted. eapply pinned_weaken; [|exact Hu]. set_solver.
Qed.
Lemma compileMTUExecution_sound now id marker e v d p :
  compileMTUExecution now id marker e v d = Ok p -> sound (persistent d) (row_UUID (root_row v)) p.
Proof.
  unfold compileMTUExecution. intros H. destruct (intents (e_Candidate e)) as [|i []]; [done| |done].
  destruct (i_MTU i) as [m|]; [|done]. do 3 next_ok H. next_ok H. destruct a as [next cur]. do 4 next_ok H.
  assert (reading a0 a1) as Ha.
  { destruct (m_Default m); [|injection E6 as <-; apply reading_refl]. next_ok E6. by eapply default_guards_reading. }
  destruct (interface_guards_pins _ _ _ _ _ _ _ _ _ _ _ E5) as [Hr Hi]. apply interface_guards_reading in E5.
  eapply row_plan_sound; [exact H| | |].
  - eapply built_reading; [exact Ha|]. eapply built_reading; [exact E5|apply built_new].
  - by eapply reading_pinned.
  - eapply reading_pinned; [exact Ha|]. eapply pinned_weaken; [|exact Hi].
    intros name Hin. apply (persistent_row _ _ _ _ (mtu_columns _)) in Hin. set_solver.
Qed.
Lemma policing_row_columns a b name :
  is_Some (({["ingress_policing_rate" := a; "ingress_policing_kpkts_rate" := b]} : wire_row) !! name) -> name ∈ policing_columns.
Proof. by row_columns. Qed.
Lemma compilePolicingExecution_sound now id marker e v d p :
  compilePolicingExecution now id marker e v d = Ok p -> sound (persistent d) (row_UUID (root_row v)) p.
Proof.
  unfold compilePolicingExecution. intros H. destruct (intents (e_Candidate e)) as [|i []]; [done| |done].
  destruct (i_Policing i) as [m|]; [|done]. do 3 next_ok H. next_ok H. destruct a as [next cur]. do 3 next_ok H.
  destruct (interface_guards_pins _ _ _ _ _ _ _ _ _ _ _ E5) as [Hr Hi]. apply interface_guards_reading in E5.
  eapply row_plan_sound; [exact H| |done|].
  - eapply built_reading; [exact E5|apply built_new].
  - eapply pinned_weaken; [|exact Hi].
    intros name Hin. apply (persistent_row _ _ _ _ (policing_row_columns _ _)) in Hin. set_solver.
Qed.

(** ** The fence, and the groups behind it *)

Lemma sort_strings_in l x : x ∈ sort_strings l <-> x ∈ l.
Proof. unfold sort_strings. by rewrite merge_sort_Permutation. Qed.
Lemma persistent_configuration d table row name :
  name ∈ persistent d table row -> name ∈ configuration_columns d table.
Proof.
  unfold persistent, configuration_columns. rewrite list_elem_of_filter. intros [Hc _]. right.
  apply list_elem_of_filter. split; [done|].
  unfold graphConfigurationColumn in Hc. destruct (column d table name) as [c|] eqn:E; [|done].
  unfold column in E. unfold columns_of. destruct (d_Tables d !! table) as [t|]; [|done]. cbn in *.
  apply list_elem_of_fmap. exists (name, c). split; [done|]. by apply elem_of_map_to_list.
Qed.
Lemma persistent_fenced d table row : persistent d table row ⊆ fence_columns d table.
Proof.
  intros name Hin. unfold fence_columns. apply sort_strings_in, elem_of_app. left. by eapply persistent_configuration.
Qed.
Lemma fence_tables_spec d v tables count ops : fence_tables d v tables count = Ok ops ->
  Forall reads ops /\ List.length ops = List.length tables /\
  forall t u, t ∈ tables -> pinned ops t u (fence_columns d t).
Proof.
  revert count ops. induction tables as [|t l IH]; intros count ops H; cbn [fence_tables] in H.
  - injection H as <-. split_and!; [done..|]. intros t u Ht. by apply elem_of_nil in Ht.
  - destruct (observed_rows v !! t) as [rows|]; [|done]. do 3 next_ok H. injection H as <-.
    destruct (IH _ _ E1) as (H1 & H2 & H3). split_and!; [by constructor|simpl; by f_equal|].
    intros t' u [->|Ht]%elem_of_cons; [left; by split_and!; [|left|]|right; by apply H3].
Qed.
Lemma treeFence_spec v d ops : treeFenceOperations v d = Ok ops ->
  Forall reads (take 4 ops) /\ forall t u, t ∈ treeFenceTables -> pinned (take 4 ops) t u (fence_columns d t).
Proof.
  unfold treeFenceOperations. intros H. next_ok H. next_ok H. injection H as <-.
  apply fence_tables_spec in E as (H1 & H2 & H3). rewrite take_app_le, take_ge by (rewrite H2; simpl; lia). by split.
Qed.
Lemma fenced_plan_spec c d v n : fenced_plan d v = Ok n ->
  built c n /\ forall t u, t ∈ treeFenceTables -> pinned (Operations n) t u (fence_columns d t).
Proof.
  unfold fenced_plan. intros H. next_ok H. injection H as <-. apply treeFence_spec in E as [H1 H2].
  split; [apply built_push_all; [done|apply built_new]|]. intros. rewrite push_all_operations. by apply H2.
Qed.
(** What the groups behind the fence use of it. *)
Lemma fenced_any d v n t u : fenced_plan d v = Ok n -> t ∈ treeFenceTables -> pinned (Operations n) t u [].
Proof. intros [_ H]%(fenced_plan_spec (fun _ _ => [])) Ht. eapply pinned_weaken; [|by apply H]. set_solver. Qed.
Lemma fenced_row_pinned d v n t u row : fenced_plan d v = Ok n -> t ∈ treeFenceTables ->
  pinned (Operations n) t u (persistent d t row).
Proof. intros [_ H]%(fenced_plan_spec (fun _ _ => [])) Ht. eapply pinned_weaken; [apply persistent_fenced|by apply H]. Qed.
Lemma fenced_built c d v n : fenced_plan d v = Ok n -> built c n.
Proof. by intros [H _]%(fenced_plan_spec c). Qed.

Lemma compileIsolationExecution_sound now id marker e v d p :
  compileIsolationExecution now id marker e v d = Ok p -> sound (persistent d) (row_UUID (root_row v)) p.
Proof.
  unfold compileIsolationExecution. intros H. destruct (intents (e_Candidate e)) as [|i []]; [done| |done].
  destruct (i_Isolation i) as [m|]; [|done]. do 7 next_ok H.
  eapply row_plan_sound; [exact H|by eapply fenced_built|eapply fenced_any; [done|set_solver]|].
  eapply fenced_row_pinned; [done|set_solver].
Qed.
Lemma compileMulticastExecution_sound now id marker e v d p :
  compileMulticastExecution now id marker e v d = Ok p -> sound (persistent d) (row_UUID (root_row v)) p.
Proof.
  unfold compileMulticastExecution. intros H. destruct (intents (e_Candidate e)) as [|i []]; [done| |done].
  destruct (i_Multicast i) as [m|]; [|done]. do 8 next_ok H.
  match type of H with match ?o with _ => _ end = _ => destruct o; [|done] end. next_ok H.
  eapply row_plan_sound; [exact H|by eapply fenced_built|eapply fenced_any; [done|set_solver]|].
  eapply fenced_row_pinned; [done|set_solver].
Qed.
Lemma compileSpanningTreeExecution_sound now id marker e v d p :
  compileSpanningTreeExecution now id marker e v d = Ok p -> sound (persistent d) (row_UUID (root_row v)) p.
Proof.
  unfold compileSpanningTreeExecution. intros H. destruct (spanningTreeIntent _) as [[i m]|]; [|done]. do 5 next_ok H.
  match goal with F : fenced_plan _ _ = Ok _ |- _ => rename F into Hf end.
  eapply commit_fields_sound; [exact H| |do 2 apply pinned_counted; eapply (fenced_any _ _ _ _ _ Hf); set_solver].
  apply built_counted_mutate; [apply pinned_counted; eapply (fenced_any _ _ _ _ _ Hf); set_solver|].
  apply built_counted_update; [eapply (fenced_row_pinned _ _ _ _ _ _ Hf); set_solver|].
  apply (built_same _ a0); [done..|]. eapply fenced_built, Hf.
Qed.

(** ** Bridges and internal ports *)

Lemma growing_same c n n' : Operations n' = Operations n -> CountIndexes n' = CountIndexes n -> InsertUUIDs n' = InsertUUIDs n ->
  growing c n n'.
Proof. intros E1 E2 E3. split; [by apply built_same|intros; by rewrite E1]. Qed.
(** Insertions of rows that the guards found absent. *)
Lemma insert_rows_growing c rows l n :
  (forall b, b ∈ l -> vacant (Operations n) (Table b) (OVSUUID b)) -> growing c n (insert_rows rows l n).
Proof.
  intros Hv. unfold insert_rows.
  assert (forall b, b ∈ reverse l -> vacant (Operations n) (Table b) (OVSUUID b)) as H by (intros; by apply Hv, elem_of_reverse).
  clear Hv. revert n H. generalize (reverse l). clear l.
  induction l as [|b l IH]; intros n H; [apply growing_refl|]. cbn.
  eapply growing_trans; [|apply IH].
  - split; [apply built_inserted, H; left|intros; by apply pinned_inserted].
  - intros b' Hb'. apply elem_of_app. left. apply H. by right.
Qed.
Lemma reference_guards_reads d b root bridge port : Forall reads (reference_guards d b root bridge port).
Proof.
  unfold reference_guards. apply Forall_forall. intros o. rewrite list_elem_of_omap. intros ([[t nm] c] & _ & H).
  destruct (refers_to c _); by simplify_eq.
Qed.
(** The guards of a graph read only; when the graph is to be created they find
    every row of it absent. *)
Lemma graphGuards_spec d i marker present ops : graphGuards d i marker present = Ok ops ->
  Forall reads ops /\ (present = false -> forall b, b ∈ CreationBindings i -> vacant ops (Table b) (OVSUUID b)).
Proof.
  unfold graphGuards. intros H. next_ok H. destruct a as [rows [[[name root] bridge] port]]. injection H as <-. split.
  - apply Forall_app. split.
    + apply Forall_bind, Forall_true. intros b. destruct present; [constructor; [done|apply reference_guards_reads]|].
      by repeat constructor.
    + destruct (not_nil _), present; by repeat constructor.
  - intros -> b Hb. apply elem_of_app. left. apply list_elem_of_bind. exists b. split; [left|done].
Qed.
(** What the plans of graphs start with: the guards and, if the graph is to be
    present, its rows. *)
Definition graph_plan (e : Evidence) (marker : string) (g : operation) (ops extra : list operation) : nativePlan :=
  with_marker (push_all (new_plan e) (g :: ops ++ extra)) marker.
Lemma graph_plan_built c d i marker before after rows e g ops extra :
  graphGuards d i marker before = Ok ops -> Bool.eqb before after = false -> reads g -> Forall reads extra ->
  let n := graph_plan e marker g ops extra in
  built c n /\ (after = true -> growing c n (insert_rows rows (CreationBindings i) n)).
Proof.
  intros H Hd Hg He n. apply graphGuards_spec in H as [Hr Hv]. split.
  - apply (built_same _ (push_all (new_plan e) (g :: ops ++ extra))); [done..|].
    apply built_push_all; [|apply built_new]. constructor; [done|]. by apply Forall_app.
  - intros ->. destruct before; [done|]. apply insert_rows_growing. intros b Hb. unfold n, graph_plan, vacant. cbn [with_marker Operations].
    rewrite push_all_operations. apply elem_of_app. right. right. apply elem_of_app. left. by apply Hv.
Qed.
Lemma deletedSourceGuards_reads x : Forall reads (deletedSourceGuards x).
Proof. apply Forall_app. split; [|by repeat constructor]. by apply Forall_fmap, Forall_true. Qed.
Lemma deletedPortSourceGuards_reads x : Forall reads (deletedPortSourceGuards x).
Proof. apply Forall_app. split; [|by repeat constructor]. by apply Forall_fmap, Forall_true. Qed.

Lemma compileBridgeExecution_sound now id marker creation e v d p :
  compileBridgeExecution now id marker creation e v d = Ok p ->
  exists root, sound (persistent d) root p.
Proof.
  unfold compileBridgeExecution. intros H. destruct (bridgeIntent _) as [i|]; [|done].
  destruct (i_Creation i) as [c|]; [|done]. next_ok H. set (root := row_of _ _ _) in *.
  next_ok H. destruct a as [next cur]. do 5 next_ok H.
  match type of E4 with graphGuards _ _ _ _ = Ok ?o => set (ops := o) in * end.
  match type of E5 with context [ops ++ ?x] => set (extra := x) in * end.
  assert (Forall reads extra) as Hx.
  { unfold extra. destruct (i_Deletion _) as [x|]; [|done]. destruct (bd_Restoring x); [apply deletedSourceGuards_reads|done]. }
  change (with_marker _ creation) with (graph_plan (observed_evidence v) creation a0 ops extra) in *.
  set (n := graph_plan _ _ _ _ _) in *.
  assert (pinned (Operations n) "Open_vSwitch" (row_UUID root) []) as Hp.
  { unfold n, graph_plan. cbn [with_marker Operations]. rewrite push_all_operations. apply pinned_app_r. left.
    eapply guard_pins in E3; [|apply root_conditions_uuid]. destruct a0; try done. destruct E3 as (-> & ? & ?). split_and!; [done..|set_solver]. }
  assert (growing (persistent d) n a2) as Hg.
  { destruct (bc_AfterPresent c) eqn:Ea; [|injection E5 as <-; apply growing_refl]. next_ok E5. injection E5 as <-.
    eapply (graph_plan_built _ d i); [exact E4|done|by eapply guard_reads|done|done]. }
  exists (row_UUID root). eapply plan_of_sound; [exact H| | |by apply Hg].
  - set_solver.
  - apply Hg. by eapply (graph_plan_built _ d i _ _ _ ∅); [exact E4|exact E|eapply guard_reads|].
Qed.

Lemma parent_rows_reads d v l ops : parent_rows d v l = Ok ops -> Forall reads ops.
Proof.
  revert ops. induction l as [|b l IH]; intros ops H; cbn [parent_rows] in H; [by injection H as <-|].
  do 3 next_ok H. injection H as <-. constructor; [by eapply guard_reads|by apply IH].
Qed.
Lemma internalParentGuards_spec d i v present ops q : internalParentGuards d i v present = Ok ops -> i_PortCreation i = Some q ->
  Forall reads ops /\ pinned ops "Bridge" (OVSUUID (ip_Bridge q)) [].
Proof.
  unfold internalParentGuards. intros H Eq. rewrite Eq in H. destruct (_ !! _) as [parent|]; [|done].
  do 2 next_ok H. injection H as <-. split.
  - apply Forall_app. split; [by eapply parent_rows_reads|by repeat constructor].
  - apply pinned_app_r. left. split_and!; [done|right; left|set_solver].
Qed.
Lemma compileInternalPortExecution_sound now id marker creation e v d p :
  compileInternalPortExecution now id marker creation e v d = Ok p ->
  exists root, sound (persistent d) root p.
Proof.
  unfold compileInternalPortExecution. intros H. destruct (internalPortIntent _) as [i|]; [|done].
  destruct (i_PortCreation i) as [q|] eqn:Eq; [|done]. next_ok H. set (root := row_of _ _ _) in *.
  next_ok H. destruct a as [next cur]. do 6 next_ok H.
  match type of E4 with graphGuards _ _ _ _ = Ok ?o => set (ops := o) in * end.
  destruct (internalParentGuards_spec _ _ _ _ _ _ E5 Eq) as [Hpr Hpb].
  match type of E6 with context [ops ++ ?x] => set (extra := x) in * end.
  assert (Forall reads extra) as Hx.
  { apply Forall_app. split; [done|]. destruct (i_PortDeletion _) as [x|]; [|done].
    destruct (pd_Restoring x); [apply deletedPortSourceGuards_reads|done]. }
  change (with_marker _ creation) with (graph_plan (observed_evidence v) creation a0 ops extra) in *.
  set (n := graph_plan _ _ _ _ _) in *.
  assert (Operations n = a0 :: ops ++ extra) as Eops by (unfold n, graph_plan; cbn [with_marker Operations]; by rewrite push_all_operations).
  assert (pinned (Operations n) "Open_vSwitch" (row_UUID root) []) as Hp.
  { rewrite Eops. left. eapply guard_pins in E3; [|apply root_conditions_uuid].
    destruct a0; try done. destruct E3 as (-> & ? & ?). split_and!; [done..|set_solver]. }
  assert (pinned (Operations n) "Bridge" (OVSUUID (ip_Bridge q)) []) as Hb.
  { rewrite Eops. right. by apply pinned_app_r, pinned_app. }
  assert (growing (persistent d) n a3) as Hg.
  { destruct (ip_AfterPresent q) eqn:Ea; [|injection E6 as <-; apply growing_refl]. next_ok E6. injection E6 as <-.
    eapply (graph_plan_built _ d i); [exact E4|done|by eapply guard_reads|done|done]. }
  exists (row_UUID root). eapply plan_of_sound; [exact H| | |by apply pinned_counted, Hg].
  - set_solver.
  - apply built_counted_mutate; [by apply Hg|]. apply Hg.
    by eapply (graph_plan_built _ d i _ _ _ ∅); [exact E4|exact E|eapply guard_reads|].
Qed.

(** ** Topology *)

Definition uncompared (table : string) (row : wire_row) : list string := [].
Lemma topologyImages_spec d l images ops : topologyImages d l images = Ok ops ->
  Forall reads ops /\ forall n, n ∈ l -> pinned ops (Table (n_Binding n)) (OVSUUID (n_Binding n)) [].
Proof.
  revert ops. induction l as [|n l IH]; intros ops H; cbn [topologyImages] in H.
  - injection H as <-. split; [done|]. intros n Hn. by apply elem_of_nil in Hn.
  - do 3 next_ok H. injection H as <-. destruct (IH _ eq_refl) as [H1 H2]. split; [by constructor|].
    intros n' [->|Hn]%elem_of_cons; [left; split_and!; [done|right; left|set_solver]|right; by apply H2].
Qed.
Lemma topologyReferences_reads d l all : Forall reads (topologyReferences d l all).
Proof.
  apply Forall_bind, Forall_true. intros n. apply Forall_forall. intros o. rewrite list_elem_of_omap.
  intros ([[t nm] c] & _ & H). cbv zeta beta in H.
  match type of H with (if ?b then _ else _) = _ => destruct b end; [by injection H as <-|done].
Qed.
Lemma mirror_references_reads v b l ops : mirror_references v b l = Ok ops -> Forall reads ops.
Proof.
  revert ops. induction l as [|[[t col] c] l IH]; intros ops H; cbn [mirror_references] in H; [by injection H as <-|].
  next_ok H. destruct (negb (refers_to c (Table b))); [by apply IH|]. do 3 next_ok H. injection H as <-. constructor; [done|by apply IH].
Qed.
Lemma mirrorReferenceOperations_reads d l v ops : mirrorReferenceOperations d l v = Ok ops -> Forall reads ops.
Proof.
  revert ops. induction l as [|n l IH]; intros ops H; cbn [mirrorReferenceOperations] in H; [by injection H as <-|].
  do 2 next_ok H. injection H as <-. apply Forall_app. split; [by eapply mirror_references_reads|by apply IH].
Qed.
Lemma domain_fence_reads u d v op root uuid ops : domain_fence u d v op root uuid = Ok ops -> Forall reads ops.
Proof.
  unfold domain_fence. intros H. do 2 next_ok H. injection H as <-. apply Forall_app. split.
  - destruct (IsMirrorOperation op); [|by injection E as <-]. unfold mirrorFenceOperations in E. do 2 next_ok E.
    destruct (_ !! _); [|done]. do 2 next_ok E. injection E as <-. apply treeFence_spec in E2 as [? _].
    apply Forall_app. split; [done|by repeat constructor].
  - destruct (IsTunnelOperation op); [|by injection E0 as <-]. do 3 next_ok E0. injection E0 as <-.
    apply treeFence_spec in E2 as [? _]. apply Forall_app. split; [done|]. constructor; [by eapply guard_reads|done].
Qed.
Lemma push_guards_reading l n n' : (forall g o, g ∈ l -> g = Ok o -> reads o) -> push_guards l n = Ok n' -> reading n n'.
Proof.
  revert n. induction l as [|g l IH]; intros n Hl H; cbn [push_guards] in H; [injection H as <-; apply reading_refl|].
  next_ok H. eapply reading_trans; [apply reading_push; eapply Hl; [left|done]|].
  apply IH; [|done]. intros g' o' Hg. apply Hl. by right.
Qed.
Lemma interface_guards_map {A} d v col (f : A -> string) (l : list A) n n' :
  push_guards ((fun p => interface_guard d v col (f p)) <$> l) n = Ok n' -> reading n n'.
Proof.
  apply push_guards_reading. intros g o Hg. apply list_elem_of_fmap in Hg as (p & -> & _). apply guard_reads.
Qed.

Lemma vacant_absent l t u name : vacant (l ++ absent_row t u name) t u.
Proof. apply elem_of_app. right. left. Qed.
Lemma among_pinned before p ops :
  (forall n, n ∈ before -> pinned ops (Table (n_Binding n)) (OVSUUID (n_Binding n)) []) ->
  among before p = true -> pinned ops (Table (n_Binding p)) (OVSUUID (n_Binding p)) [].
Proof.
  intros H Ha. unfold among in Ha. apply existsb_exists in Ha as (b & Hb & E%bool_decide_eq_true).
  rewrite <- E. apply H. by apply list_elem_of_In.
Qed.
Lemma write_nodes_growing d marker images before l n n' :
  (forall b, b ∈ before -> pinned (Operations n) (Table (n_Binding b)) (OVSUUID (n_Binding b)) []) ->
  write_nodes d marker images before l n = Ok n' -> growing uncompared n n'.
Proof.
  revert n. induction l as [|p l IH]; intros n Hp H; cbn [write_nodes] in H; [injection H as <-; apply growing_refl|].
  destruct (among before p) eqn:Ea.
  - next_ok H. case_bool_decide; [by apply IH|].
    assert (growing uncompared n (counted n (Update (Table (n_Binding p)) [uuidCondition (OVSUUID (n_Binding p))] (delete "name" a)))) as Hg
      by (apply growing_update; by eapply among_pinned).
    eapply growing_trans; [exact Hg|]. eapply IH; [|exact H]. intros b Hb. by apply Hg, Hp.
  - do 3 next_ok H. match type of H with write_nodes _ _ _ _ _ ?m = _ => assert (growing uncompared n m) as Hg end.
    { eapply growing_trans; [apply growing_reading, (reading_push_all n (absent_row (Table (n_Binding p)) (OVSUUID (n_Binding p)) (n_Name p)));
        by repeat constructor|].
      split; [|intros; by apply pinned_inserted]. intros Hb. apply built_inserted; [|by eapply built_same; [..|exact Hb]].
      cbn [with_images Operations]. rewrite push_all_operations. apply vacant_absent. }
    eapply growing_trans; [exact Hg|]. eapply IH; [|exact H]. intros b Hb. by apply Hg, Hp.
Qed.
Lemma link_bridges_growing root present l others n :
  pinned (Operations n) "Open_vSwitch" root [] -> growing uncompared n (link_bridges root present l others n).
Proof.
  unfold link_bridges. revert n. induction l as [|p l IH]; intros n Hp; [apply growing_refl|]. cbn [fold_left].
  destruct (is_bridge p && _); [|by apply IH]. eapply growing_trans; [by apply growing_mutate|]. apply IH. by apply pinned_counted.
Qed.
Lemma compileTopologyExecution_sound now id marker e v d checkpoint p :
  compileTopologyExecution now id marker e v d checkpoint = Ok p -> exists root, sound uncompared root p.
Proof.
  unfold compileTopologyExecution. intros H. destruct (topologyIntent _) as [[i g]|]; [|done]. next_ok H.
  destruct (if tp_Compensating g then _ else _) as [before after]. next_ok H. next_ok H. set (root := row_of _ _ _) in *.
  next_ok H. destruct a1 as [next cur]. do 7 next_ok H.
  set (images := fold_left _ before ∅) in *. set (n0 := with_images _ images a0) in *.
  apply topologyImages_spec in E0 as [Hr0 Hp0].
  assert (Operations n0 = a1 :: a) as En0 by (unfold n0; cbn [with_images with_marker Operations]; by rewrite push_all_operations).
  assert (built uncompared n0) as Hn0.
  { apply (built_same _ (push_all (new_plan (observed_evidence v)) (a1 :: a))); [done..|].
    apply built_push_all; [|apply built_new]. constructor; [by eapply guard_reads|done]. }
  assert (reading n0 (push_all a5 ((fun p => only_row "Open_vSwitch" [includes "bridges" (uuidSet [OVSUUID (n_Binding p)])] [tp_Root g])
    <$> filter (fun p => is_bridge p = true) before))) as Hr.
  { eapply reading_trans; [apply reading_push_all; by eapply domain_fence_reads|].
    eapply reading_trans; [apply (interface_guards_map d v _ _ _ _ _ E6)|].
    eapply reading_trans; [apply (reading_push_all _ a4)|].
    - destruct (IsMirrorOperation _); [by eapply mirrorReferenceOperations_reads|injection E7 as <-; apply topologyReferences_reads].
    - eapply reading_trans; [apply (interface_guards_map d v _ _ _ _ _ E8)|]. by apply reading_push_all, Forall_fmap, Forall_true. }
  assert (forall t u, pinned (Operations n0) t u [] -> pinned (Operations a6) t u []) as Hmono.
  { intros t u Hu. eapply write_nodes_growing; [|exact E9|by eapply reading_pinned].
    intros b Hb. eapply reading_pinned; [exact Hr|]. rewrite En0. right. by apply Hp0. }
  assert (pinned (Operations n0) "Open_vSwitch" (row_UUID root) []) as Hroot.
  { rewrite En0. left. eapply guard_pins in E4; [|apply root_conditions_uuid].
    destruct a1; try done. destruct E4 as (-> & ? & ?). split_and!; [done..|set_solver]. }
  pose proof (link_bridges_growing (row_UUID root) false before after a6 (Hmono _ _ Hroot)) as H1.
  pose proof (link_bridges_growing (row_UUID root) true after before _ (growing_pinned _ _ _ H1 _ _ _ (Hmono _ _ Hroot))) as H2.
  exists (row_UUID root). eapply plan_of_sound; [exact H|set_solver| |by apply H2, H1, Hmono].
  apply H2, H1. eapply write_nodes_growing; [|exact E9|by eapply built_reading].
  intros b Hb. eapply reading_pinned; [exact Hr|]. rewrite En0. right. by apply Hp0.
Qed.

End CompileProofs.
