(* ===== verification/ProviderProperties.v ===== *)
(** * internal/provider/ovsdb: what the executor guarantees

    What an accepted plan contains ([plan_guarded]), what its reply proves
    ([commit_evidence], [reply_verdict]), when bytes are written
    ([bytes_after_admission]) and what an applied outcome stands on
    ([applied_evidence], [applied_proof_reads], [applied_verified]); what a
    compensation undoes ([rollback_restores]); that encoding and normalising a
    native value agree ([native_roundtrip]). The witnesses move a port of a
    small switch to another VLAN, verify it and put it back. *)

From S2P Require Import Prelude GoStrings GoJson GoJsonParse GoTime ApiTypes Multicast CandidateTypes Intents Planning Staging.
From S2P Require Import FieldGroups Graphs Topology Planner ExecTypes Native Compile Compilers GraphCompile TopologyCompile.
From S2P Require Import Provider Preparation Guards CompileProofs.
Import Planning Staging FieldGroups Graphs Topology Planner Native Compile Compilers GraphCompile TopologyCompile.
Import Provider Preparation Guards CompileProofs NativeProofs.

Module ProviderProperties.
#[local] Opaque digest_json.

(** ** A switch with one port *)

Module Switch.
Definition base (t : string) : BaseType := mkBaseType t [] None None "" "".
Definition col (kind t : string) (lo hi : Z) : ColumnSchema := mkColumn kind (Some (mkColumnType (Some (base t)) None lo hi)) true false.
Definition labels : ColumnSchema :=
  mkColumn TypeMap (Some (mkColumnType (Some (base TypeString)) (Some (base TypeString)) 0 Unlimited)) true false.
Definition text : ColumnSchema := col TypeString TypeString 1 1.
Definition counter : ColumnSchema := col TypeInteger TypeInteger 1 1.
Definition choice : ColumnSchema := col TypeSet TypeString 0 1.
Definition refs : ColumnSchema := col TypeSet TypeUUID 0 Unlimited.
Definition vlans : ColumnSchema := col TypeSet TypeInteger 0 4096.
Definition table (l : list (string * ColumnSchema)) : TableSchema := mkTable (list_to_map l) [] None.
Definition schema : discovered :=
  mkDiscovered JNull "schema" false false (list_to_map
    [("Open_vSwitch", table [("next_cfg", counter); ("cur_cfg", counter); ("external_ids", labels); ("bridges", refs)]);
     ("Bridge", table [("name", text); ("datapath_type", text); ("external_ids", labels); ("ports", refs)]);
     ("Port", table [("name", text); ("interfaces", refs); ("vlan_mode", choice); ("tag", col TypeSet TypeInteger 0 1);
                     ("trunks", vlans); ("cvlans", vlans); ("external_ids", labels)]);
     ("Interface", table [("name", text); ("type", text); ("options", labels); ("external_ids", labels);
                          ("error", col TypeSet TypeString 0 Unlimited)])]).

Definition root_id : string := "a0000000-0000-4000-8000-000000000000".
Definition bridge_id : string := "b0000000-0000-4000-8000-000000000000".
Definition port_id : string := "c0000000-0000-4000-8000-000000000000".
Definition iface_id : string := "d0000000-0000-4000-8000-000000000000".
Definition marker : string := "plan-marker".
Definition row (id : string) (l : list (string * json)) : Row := mkRow ∅ None id (list_to_map l).
(** The rows before the change, and after it: the counters, the tag and the
    labels of the port. *)
Definition rows (next cur tag : string) (ids : list (string * json)) : Rows :=
  list_to_map
    [("Open_vSwitch", {[root_id := row root_id [("next_cfg", JStr next); ("cur_cfg", JStr cur); ("external_ids", JObj []);
                                                ("bridges", JArr [JStr bridge_id])]]});
     ("Bridge", {[bridge_id := row bridge_id [("name", JStr "br0"); ("datapath_type", JStr ""); ("external_ids", JObj []);
                                              ("ports", JArr [JStr port_id])]]});
     ("Port", {[port_id := row port_id [("name", JStr "veth1"); ("interfaces", JArr [JStr iface_id]);
                                        ("vlan_mode", JArr [JStr "access"]); ("tag", JArr [JStr tag]); ("trunks", JArr []);
                                        ("cvlans", JArr []); ("external_ids", JObj ids)]]});
     ("Interface", {[iface_id := row iface_id [("name", JStr "veth1"); ("type", JStr ""); ("options", JObj []);
                                               ("external_ids", JObj []); ("error", JArr [])]]})].
Definition binding : Binding := mkBinding "11111111-1111-4111-8111-111111111111" port_id "Port" "g".
Definition access (tag : Z) : VLAN := mkVLAN (Some "access") (Some tag) (Some []) (Some []).
Definition port (tag : Z) : Port :=
  mkPort None false binding (access tag) true true ["access"; "trunk"] "vlan-dep" "local-managed" "" zero_bond false
    false "" "" [] false false [] false false.
Definition snapshot (tag : Z) : Snapshot :=
  mkSnapshot ∅ ∅ ∅ no_topology "g" "r1" "schema" "policy" {[ManagementID_ binding := port tag]} ∅ ∅
    no_creation no_deletion no_port_deletion no_internal_port.
Definition evidence (at_ : Z) : Evidence :=
  mkEvidence "" "" "schema" root_id None "peer" "boot" (mkFileWitness true 0 0 0 0 0 "" true true "") at_ true.
Definition view (tag : Z) (next cur tag_text : string) (ids : list (string * json)) (at_ : Z) : ExecutionView :=
  mkView (snapshot tag) (mkObservation (rows next cur tag_text ids) (evidence at_)).
Definition before : ExecutionView := view 10 "7" "7" "10" [] 1.
Definition after : ExecutionView := view 20 "8" "8" "20" [(MarkerKey, JStr marker)] 3.

Definition edit : Intent :=
  mkIntent None None None None None "55555555-5555-4555-8555-555555555555" "port.vlan.set" binding (access 20) "" "" [] "" "" 0 0.
Definition empty : Candidate := mkCandidate "44444444-4444-4444-8444-444444444444" "rev" None None "empty" None None.
Definition candidate : Candidate :=
  Eval vm_compute in match stage_ports empty [edit] (snapshot 10) with Ok c => c | Err _ => empty end.
Definition envelope : Envelope := mkEnvelope "owner" "epoch" 1 candidate "seal".
Definition zero_plan : Plan := mkPlan "" envelope "" "" "" "" "" "" 0 JNull [].
Definition plan : Plan :=
  Eval vm_compute in match compileExecution 2 "execution" marker envelope before schema with Ok p => p | Err _ => zero_plan end.
Lemma compiles : compileExecution 2 "execution" marker envelope before schema = Ok plan.
Proof. vm_compute. reflexivity. Qed.

(** The plan before it is serialised. *)
Definition draft : result nativePlan :=
  let? g := guard schema "Open_vSwitch" (root_row before) ["external_ids"] (root_conditions (root_row before) 7 7) in
  compile_ports schema before (root_row before) marker (intents candidate) [] (push (new_plan (evidence 1)) g).
Definition native : nativePlan := match draft with Ok n => commit_fields n root_id | Err _ => new_plan (evidence 1) end.
Lemma native_ok : ExecTypes.Native plan = native_json native.
Proof. vm_compute. reflexivity. Qed.
Lemma native_accounted : accounted native.
Proof.
  unfold native. destruct draft as [n|] eqn:E; [|apply (built_new (fun _ _ => []))].
  unfold draft in E. next_ok E. assert (built (persistent schema) n /\ pinned (Operations n) "Open_vSwitch" root_id []) as [Hb Hp].
  { apply compile_ports_growing in E as [Hb Hp]. split; [apply Hb, new_pushed; by eapply guard_reads|].
    apply Hp. eapply pinned_guard; [done|left|set_solver]. }
  by eapply built_accounted, built_commit_fields.
Qed.
(** The reply of a server that did everything, and the exchange that brings
    it, behind an echo request. *)
Definition reply : json :=
  JArr ((fun o => match o with
                  | Update _ _ _ | Mutate _ _ _ => JObj [("count", JLit "1")]
                  | Select _ _ _ => JObj [("rows", JArr [JObj [("_uuid", uuidValue root_id); ("next_cfg", JLit "8")]])]
                  | _ => JObj []
                  end) <$> Operations native).
Definition exchange : attempt :=
  mkAttempt [0; 1; 2; 3] [] (Some native) (Ok before) true (Some ("schema", true, "peer")) true None [true; true] true true
    (slen (marshal (transact_json native)) + 1) false [Echo true; Reply "" "2" false (Some reply)].
Definition committed : Outcome := mkOutcome "committed" "pending" "ovsdb-committed" (Some "8") None None.
Lemma reply_ok : decodeCommit native plan (Some reply) = committed.
Proof. vm_compute. reflexivity. Qed.
Lemma exchange_ok : snd (Commit exchange plan) = committed.
Proof. vm_compute. reflexivity. Qed.
Lemma observe_ok : Observe plan committed (Ok after) true (Ok (8, 4)) =
  mkOutcome "committed" "applied" "ovs-vswitchd-applied" (Some "8") (Some "8") (Some 4).
Proof. vm_compute. reflexivity. Qed.
End Switch.

(** ** Plans *)

(** Topology changes compare whole configurations before they are written;
    their updates are pinned to the row only. *)
Definition compared_by (d : discovered) (e : Envelope) : string -> wire_row -> list string :=
  if topologyIntent (e_Candidate e) then uncompared else persistent d.
Lemma sound_compared d e root p : sound (persistent d) root p -> sound (compared_by d e) root p.
Proof.
  apply sound_weaken. intros t row. unfold compared_by. destruct (topologyIntent _); [|done]. set_solver.
Qed.
Lemma compileExecution_sound now id marker e v d p :
  compileExecution now id marker e v d = Ok p -> exists root, sound (compared_by d e) root p.
Proof.
  unfold compileExecution. intros H.
  repeat match type of H with (if ?b then _ else _) = _ => destruct b eqn:? end;
    try (eexists; apply sound_compared;
         eauto using compileMulticastExecution_sound, compileIsolationExecution_sound, compileSpanningTreeExecution_sound,
           compilePolicingExecution_sound, compileMTUExecution_sound, compile_fields_sound; fail);
    try (apply compileInternalPortExecution_sound in H as [root H]; exists root; by apply sound_compared);
    try (apply compileBridgeExecution_sound in H as [root H]; exists root; by apply sound_compared).
  apply compileTopologyExecution_sound in H as [root H]. exists root. unfold compared_by.
  match goal with E : not_nil (topologyIntent _) = true |- _ => apply not_nil_true in E as [x ->] end. done.
Qed.


(** ** Replies *)

Definition ok_result (r : option (gmap string json)) : Prop := exists m, r = Some m /\ m !! "error" = None.
Lemma errors_clean l : errors_of l = Clean <-> Forall ok_result l.
Proof.
  induction l as [|[r|] l IH]; cbn [errors_of]; [done| |by split; [|intros [(m & ? & _) _]%Forall_cons]].
  rewrite Forall_cons, <- IH. destruct (r !! "error") as [j|] eqn:E.
  - split; [|intros [(m & [= <-] & H) _]; congruence]. destruct j; try done. by destruct (_ && _).
  - split; [intros H; split; [by exists r|done]|tauto].
Qed.
(** The reply of a refused transaction: results without errors, one error that
    is named, and nothing done after it. *)
Definition refusal (l : list (option (gmap string json))) : Prop :=
  exists done_ r code rest, l = done_ ++ Some r :: rest /\ Forall ok_result done_ /\
    r !! "error" = Some (JStr code) /\ code <> "" /\ Forall (fun x => x = None) rest.
Lemma errors_refused l : errors_of l = Refused <-> refusal l.
Proof.
  induction l as [|[r|] l IH]; cbn [errors_of].
  - split; [done|]. intros (dn & r & code & rest & E & _). by destruct dn.
  - destruct (r !! "error") as [j|] eqn:E.
    + assert (refusal (Some r :: l) <-> exists code, j = JStr code /\ code <> "" /\ Forall (fun x => x = None) l) as ->.
      { split.
        - intros ([|x dn] & r' & code & rest & El & Hd & He & Hc & Hn); injection El as <- ->; [exists code; split_and!; [congruence|done..]|].
          apply Forall_cons in Hd as [(m & [= <-] & Hm) _]. congruence.
        - intros (code & -> & Hc & Hn). by exists [], r, code, l. }
      destruct j; try (split; [done|by intros (? & ? & _)]).
      destruct (_ && _) eqn:Eb.
      * bsimp. split; [intros _|done]. destruct Eb as [Hc Hn]. exists s. split_and!; [done|done|].
        apply Forall_forall. intros x Hx. rewrite forallb_forall in Hn. apply is_nil_true, Hn. by apply list_elem_of_In.
      * split; [done|]. intros (code & [= <-] & Hc & Hn). exfalso. revert Eb. apply not_false_iff_true. bsimp. split; [done|].
        apply forallb_forall. intros x Hx. apply is_nil_true. rewrite Forall_forall in Hn. apply Hn. by apply list_elem_of_In.
    + rewrite IH. split.
      * intros (dn & r' & code & rest & -> & Hd & H). exists (Some r :: dn), r', code, rest. split; [done|].
        split; [constructor; [by exists r|done]|done].
      * intros ([|x dn] & r' & code & rest & El & Hd & He & H); injection El as <- ->; [congruence|].
        exists dn, r', code, rest. split; [done|]. apply Forall_cons in Hd as [_ Hd]. done.
  - split; [done|]. intros ([|x dn] & r' & code & rest & El & Hd & _); [done|]. injection El as <- ->.
    apply Forall_cons in Hd as [(m & ? & _) _]. done.
Qed.

(** What the result of an operation must say when the transaction committed. *)
Definition confirmed (l : list (option (gmap string json))) (i : nat) (o : operation) : Prop :=
  match o with
  | Update _ _ _ | Mutate _ _ _ => counts_one l (Z.of_nat i) = true
  | Insert _ u _ => inserted_as l (Z.of_nat i) u = true
  | _ => True
  end.
Lemma checked_counts n l : accounted n ->
  forallb (counts_one l) (CountIndexes n) = true /\
  forallb (fun kv => inserted_as l (fst kv) (snd kv)) (map_to_list (InsertUUIDs n)) = true <->
  forall i o, Operations n !! i = Some o -> confirmed l i o.
Proof.
  intros [Hc Hi]. rewrite !forallb_forall. split.
  - intros [H1 H2] i o Ho.
    assert (changes o -> counts_one l (Z.of_nat i) = true) as Hcount.
    { intros Hch. apply H1, list_elem_of_In, Hc. exists o. rewrite Nat2Z.id. split_and!; [done|lia|done]. }
    destruct o; cbn [confirmed]; try done; try (by apply Hcount).
    apply (H2 (Z.of_nat i, uuid)), list_elem_of_In, elem_of_map_to_list, Hi. split; [lia|]. rewrite Nat2Z.id. eauto.
  - intros H. split.
    + intros i (o & Ho & Hp & Hch)%list_elem_of_In%Hc. specialize (H _ _ Ho).
      destruct o; try done; cbn [confirmed] in H; by rewrite Z2Nat.id in H.
    + intros [i u] (Hp & t & row & Ho)%list_elem_of_In%elem_of_map_to_list%Hi. specialize (H _ _ Ho). cbn in *.
      by rewrite Z2Nat.id in H.
Qed.

(** C33. A reply proves a commit exactly when it accounts for the whole
    transaction: one result per operation and none an error, every update and
    mutation changed exactly one row, every insertion took the identity that
    was asked for, and the counter of the root row moved past the value the
    plan was made at. *)
Theorem commit_evidence n p body :
  accounted n ->
  (ExecTypes.Commit (decodeCommit n p body) = "committed" <->
   exists l target, decode_results body = Some l /\ len l = len (Operations n) /\ Forall ok_result l /\
     (forall i o, Operations n !! i = Some o -> confirmed l i o) /\
     counter_of l (TargetIndex n) (p_Root p) = Some target /\ atoi_value (NextFloor p) < target).
Proof.
  intros Ha. unfold decodeCommit. destruct (decode_results body) as [l|]; [|split; [done|by intros (? & ? & ? & _)]].
  split.
  - intros H. destruct (_ && _) in H; [done|]. destruct (errors_of l) eqn:Ee; [|done..]. apply errors_clean in Ee.
    destruct (_ || _) eqn:Eb in H; [done|]. destruct (counter_of _ _ _) as [t|] eqn:Ec; [|done].
    destruct (t <=? _) eqn:Et; [done|]. bsimp. destruct Eb as [[Hl Hc] Hi]. exists l, t. split_and!; try done.
    by apply checked_counts.
  - intros (l' & t & [= <-] & Hl & He & Hc & Ht & Hf). apply errors_clean in He as ->. rewrite Ht.
    apply (checked_counts n l Ha) in Hc as [-> ->]. rewrite (proj2 (Z.eqb_eq _ _) Hl). cbn [negb andb orb].
    apply Z.leb_gt in Hf. by rewrite Hf.
Qed.

Lemma commit_evidence_witness : exists l, decode_results (Some Switch.reply) = Some l /\
  forall i o, Operations Switch.native !! i = Some o -> confirmed l i o.
Proof.
  destruct (proj1 (commit_evidence Switch.native Switch.plan (Some Switch.reply) Switch.native_accounted))
    as (l & t & Hl & _ & _ & Hc & _); [by rewrite Switch.reply_ok|].
  exists l. split; [exact Hl|exact Hc].
Defined.

(** Every other reply is told apart: [rejected] is concluded exactly from
    a transaction that the server refused as a whole (results without errors,
    one named error, nothing done after it), and anything else proves neither
    and leaves the outcome unknown. *)
Theorem reply_verdict n p body :
  let out := decodeCommit n p body in
  (ExecTypes.Commit out = "rejected" <->
   exists l, decode_results body = Some l /\ (len l = len (Operations n) \/ len l = len (Operations n) + 1) /\ refusal l) /\
  (ExecTypes.Commit out = "rejected" -> out = outcome "rejected" "not-applied" "ovsdb-transaction-rejected") /\
  (ExecTypes.Commit out <> "committed" -> ExecTypes.Commit out <> "rejected" -> out = unknown_reply).
Proof.
  cbv zeta. unfold decodeCommit. destruct (decode_results body) as [l|]; [|split_and!; [split; [done|by intros (? & ? & _)]|done..]].
  destruct (_ && _) eqn:El.
  { split_and!; [|done..]. split; [done|]. intros (l' & [= <-] & Hl & _). bsimp. lia. }
  assert (len l = len (Operations n) \/ len l = len (Operations n) + 1) as Hl by (bsimp; lia).
  destruct (errors_of l) eqn:Ee.
  - split; [split; [|intros (l' & [= <-] & _ & H%errors_refused); congruence]|].
    + destruct (_ || _); [done|]. destruct (counter_of _ _ _) as [t|]; [|done]. by destruct (t <=? _).
    + destruct (_ || _); [done|]. destruct (counter_of _ _ _) as [t|]; [|done]. by destruct (t <=? _).
  - split_and!; [|done..]. split; [intros _|done]. exists l. split_and!; [done|done|by apply errors_refused].
  - split_and!; [|done..]. split; [done|]. intros (l' & [= <-] & _ & H%errors_refused). congruence.
Qed.

(** ** Sending *)

(** What is true when the bytes leave: the plan still stands on a fresh view of
    the same switch, over the same peer and schema, within the preflight
    window, and the engine has admitted the dispatch. *)
Record cleared (a : attempt) (p : Plan) (n : nativePlan) : Prop := {
  cleared_plan : at_Plan a = Some n;
  cleared_view : exists v, at_View a = Ok v /\ sn_Generation (ev_Candidate v) = p_Generation p /\
    sn_Schema (ev_Candidate v) = p_Schema p /\ Passed (fst (Checks (e_Candidate (p_Envelope p)) (ev_Candidate v))) = true;
  cleared_peer : at_Connect a = Some (p_Schema p, true, ev_Peer (n_Evidence n));
  cleared_time : 0 <= elapsed a 0 /\ elapsed a 3 <= PreflightFor /\ cancelled a 2 = false;
  cleared_admission : at_BeforeSend a = true }.
(** The outcomes of an attempt that wrote [k] bytes. *)
Definition written_outcome (n : nativePlan) (p : Plan) (k : Z) (out : Outcome) : Prop :=
  (k = 0 /\ ExecTypes.Commit out = "rejected") \/ (k <> 0 /\ (out = no_reply \/ exists body, out = decodeCommit n p body)).

Lemma read_reply_outcome fuel l n p :
  read_reply fuel l n p = no_reply \/ exists body, read_reply fuel l n p = decodeCommit n p body.
Proof.
  revert l. induction fuel as [|f IH]; intros l; [by left|]. destruct l as [|[answered|m id failed body|] l]; cbn [read_reply]; [by left| | |by left].
  - destruct answered; [apply IH|by left].
  - destruct (_ || _); [by left|right; eauto].
Qed.
Lemma send_bytes_outcome a n p size : 0 < size ->
  exists k, fst (send_bytes a n p size) = [Bytes k] /\ written_outcome n p k (snd (send_bytes a n p size)).
Proof.
  intros Hs. unfold send_bytes. destruct (_ || _).
  - destruct (at_Written a =? 0) eqn:E; [exists 0|exists (at_Written a)]; (split; [done|]); [by left|].
    right. split; [lia|by left].
  - exists size. split; [done|]. right. split; [lia|apply read_reply_outcome].
Qed.


(** ** Observing *)

(** What an applied outcome stands on. *)
Record applied_on (p : Plan) (v : ExecutionView) (target next cur : Z) : Prop := {
  applied_identity : sn_Generation (ev_Candidate v) = p_Generation p /\ sn_Schema (ev_Candidate v) = p_Schema p /\
    ev_Root (ob_Evidence (ev_Observation v)) = p_Root p;
  applied_marked : forall i, i ∈ intents (e_Candidate (p_Envelope p)) -> has_marker p (ob_Rows (ev_Observation v)) i = true;
  applied_values : Passed (fst (Checks (after_candidate (e_Candidate (p_Envelope p))) (ev_Candidate v))) = true;
  applied_counters : let root := row_of (ob_Rows (ev_Observation v)) "Open_vSwitch" (p_Root p) in
    number (Values root !! "next_cfg") = Ok next /\ number (Values root !! "cur_cfg") = Ok cur /\
    target <= cur <= next /\ atoi_value (CurFloor p) <= cur;
  applied_interfaces : first_verdict p (ob_Rows (ev_Observation v)) (intents (after_candidate (e_Candidate (p_Envelope p)))) = None }.

Lemma verdict_not_applied p rows i a r : interface_verdict p rows i = Some (a, r) -> a <> "applied".
Proof. unfold interface_verdict. intros H. repeat case_match; simplify_eq; done. Qed.
Lemma first_verdict_not_applied p rows l a r : first_verdict p rows l = Some (a, r) -> a <> "applied".
Proof.
  induction l as [|i l IH]; cbn [first_verdict]; [done|]. destruct (interface_verdict p rows i) as [[x y]|] eqn:E; [|done].
  intros [= <- <-]. by eapply verdict_not_applied.
Qed.


(** Observing never withdraws what is known: the commit outcome stays what
    it was, or becomes [committed] because an object carries the marker. *)
Theorem observation_monotone p prior view mirror verify :
  let out := Observe p prior view mirror verify in
  ExecTypes.Commit out = ExecTypes.Commit prior \/
  (ExecTypes.Commit out = "committed" /\
   exists v i, view = Ok v /\ i ∈ intents (e_Candidate (p_Envelope p)) /\ has_marker p (ob_Rows (ev_Observation v)) i = true).
Proof.
  cbv zeta. unfold Observe. destruct view as [v|]; [|by left].
  destruct (_ || _); [by left|]. destruct (_ && _); [by left|].
  destruct (existsb _ _) eqn:Ex.
  - right. apply existsb_exists in Ex as (i & Hi & Hm).
    split; [|exists v, i; split_and!; [done|by apply list_elem_of_In|done]].
    repeat case_match; done.
  - left. repeat case_match; done.
Qed.

(** ** Native values *)

(** A value that was read from the switch and is written back in a guard
    reads as the same value: for every column whose map keys (if it is a map)
    are strings, encoding a normalised value succeeds and normalises to it. *)
Theorem native_roundtrip w c key v :
  TypeObj c ≫= ct_Key = Some key -> (co_Type c = TypeMap -> bt_Type key = TypeString) ->
  Native.normalize w c = Ok v ->
  exists w', nativeValue v (Some c) = Ok w' /\ Native.normalize w' c = Ok v.
Proof.
  intros Hk Hm H. destruct (decide (co_Type c = TypeMap)) as [Em|Em]; [by eapply map_roundtrip; eauto|].
  destruct (decide (co_Type c = TypeSet)) as [Es|Es]; [by eapply set_roundtrip|by eapply atom_roundtrip].
Qed.
Lemma native_roundtrip_witness : exists w',
  nativeValue (JArr [JStr "1"; JStr "7"]) (Some Switch.vlans) = Ok w' /\
  Native.normalize w' Switch.vlans = Ok (JArr [JStr "1"; JStr "7"]).
Proof.
  refine (native_roundtrip (jset [JLit "7"; JLit "1"]) Switch.vlans (Switch.base TypeInteger) _ eq_refl _ _);
    [discriminate|vm_compute; reflexivity].
Defined.

(** The keys of other maps do not survive: Bridge.flow_tables maps integers to
    rows, and its guard names the keys as strings. *)
Definition flow_tables : ColumnSchema :=
  mkColumn TypeMap (Some (mkColumnType (Some (Switch.base TypeInteger)) (Some (Switch.base TypeUUID)) 0 Unlimited)) true false.
Lemma integer_keys_become_strings :
  Native.normalize (JArr [JStr "map"; JArr [JArr [JLit "0"; uuidValue Switch.root_id]]]) flow_tables
    = Ok (JObj [("0", JStr Switch.root_id)]) /\
  nativeValue (JObj [("0", JStr Switch.root_id)]) (Some flow_tables) = Ok (jpairs [("0", uuidValue Switch.root_id)]) /\
  exists e, Native.normalize (jpairs [("0", uuidValue Switch.root_id)]) flow_tables = Err e.
Proof. split; [|split]; [vm_compute; reflexivity..|]. eexists. vm_compute. reflexivity. Qed.

(** ** The switch, once more: verified, and put back *)

Module Trial.
Import Switch.
(** The plan that the proof is compiled from. *)
Definition checked : nativePlan :=
  match (let? g := guard schema "Open_vSwitch" (root_row after) ["external_ids"] (root_conditions (root_row after) 8 8) in
         compile_ports schema after (root_row after) marker (intents candidate) [] (push (new_plan (evidence 3)) g)) with
  | Ok n => commit_fields n root_id
  | Err _ => native
  end.
Definition read (j : json) : option nativePlan :=
  if digest_json j =s digest_json (ExecTypes.Native plan) then Some native
  else if digest_json j =s digest_json (native_json checked) then Some checked else None.
Definition proof : result (list operation) := appliedProofOperations read 9 plan after schema.
Definition answer (o : operation) : json :=
  match o with
  | Select _ _ _ => JObj [("rows", JArr [JObj [("_uuid", uuidValue root_id); ("next_cfg", JLit "8"); ("cur_cfg", JLit "8")]])]
  | _ => JObj []
  end.
Definition value_or {A} (a : A) (r : result A) : A := match r with Ok x => x | Err _ => a end.
Definition results : json := JArr (map answer (value_or [] proof)).
Definition asked : probe :=
  mkProbe [] (Ok (schema, "peer")) [true; true] [] true [Echo true; Reply "" "3" false (Some results)] false (Ok tt) (Ok tt) 9 10.
Lemma verified_ok : verifyApplied read asked plan after committed = Ok (8, 10).
Proof. vm_compute. reflexivity. Qed.
Definition undo : string := "undo-marker".
Definition answers : host :=
  mkHost (Ok after) (Ok (schema, "peer")) [true] (Ok tt) (Ok tt) (Ok ∅) [] (Err transport) None (Err transport) "" (Err transport) 9.
Definition undone : Plan :=
  value_or zero_plan (PrepareRollback read answers plan undo).
Lemma undone_ok : PrepareRollback read answers plan undo = Ok undone.
Proof. vm_compute. reflexivity. Qed.
Lemma proof_ok : is_ok proof = true.
Proof. vm_compute. reflexivity. Qed.
End Trial.

(** ** The proof of what is applied *)

Lemma all_guards_reads l ops : (forall g o, g ∈ l -> g = Ok o -> reads o) -> all_guards l = Ok ops -> Forall reads ops.
Proof.
  revert ops. induction l as [|g l IH]; intros ops Hl H; cbn [all_guards] in H; [by injection H as <-|].
  do 2 next_ok H. injection H as <-. constructor; [eapply Hl; [left|done]|]. apply IH; [|done]. intros g' o Hg. apply Hl. by right.
Qed.
Lemma mapped_guards_reads {A} (f : A -> result operation) l ops : (forall x o, f x = Ok o -> reads o) ->
  all_guards (f <$> l) = Ok ops -> Forall reads ops.
Proof. intros Hf. apply all_guards_reads. intros g o Hg E. apply list_elem_of_fmap in Hg as (x & -> & _). eauto. Qed.
Lemma health_guards_reads d v p i ops : health_guards d v p i = Ok ops -> Forall reads ops.
Proof.
  unfold health_guards. cbv zeta. intros H.
  repeat match type of H with (if ?b then _ else _) = _ => destruct b end;
    try (by injection H as <-); try (eapply mapped_guards_reads in H; [exact H|]; intros x o; apply guard_reads);
    (apply all_guards_reads in H; [done|]); intros g o ->%list_elem_of_singleton; apply guard_reads.
Qed.
Lemma all_health_reads d v p l ops : all_health d v p l = Ok ops -> Forall reads ops.
Proof.
  revert ops. induction l as [|i l IH]; intros ops H; cbn [all_health] in H; [by injection H as <-|].
  do 2 next_ok H. injection H as <-. apply Forall_app. split; [by eapply health_guards_reads|by apply IH].
Qed.
Lemma healthy_interface_reads d v healthy reason uuid ops : healthy_interface d v healthy reason uuid = Ok ops -> Forall reads ops.
Proof. unfold healthy_interface. intros H. do 2 next_ok H. injection H as <-. constructor; [by eapply guard_reads|done]. Qed.
Lemma optional_interface_reads (b : bool) d v healthy reason uuid ops :
  (if b then healthy_interface d v healthy reason uuid else Ok []) = Ok ops -> Forall reads ops.
Proof. destruct b; [apply healthy_interface_reads|by intros [= <-]]. Qed.
Lemma marked_root_reads d v p g : marked_root d v p = Ok g -> reads g.
Proof. unfold marked_root. intros H. next_ok H. by eapply guard_reads. Qed.
Lemma node_proofs_reads d v i n root after l ops : node_proofs d v i n root after l = Ok ops -> Forall reads ops.
Proof.
  revert ops. induction l as [|a l IH]; intros ops H; cbn [node_proofs] in H; [by injection H as <-|].
  do 2 next_ok H. injection H as <-. rewrite !Forall_app. split_and!; [by destruct (is_bridge a); repeat constructor| |by apply IH].
  destruct (negb _); [by injection E as <-|]. do 4 next_ok E. injection E as <-. constructor; [by eapply guard_reads|done].
Qed.

(** What a proof transaction is made of: guards, and one read. *)
Definition proof_of (ops : list operation) : Prop := exists guards root, ops = guards ++ [counters_read root] /\ Forall reads guards.
Lemma proof_intro l root : Forall reads l -> proof_of (l ++ [counters_read root]).
Proof. intros H. by exists l, root. Qed.
Lemma bridgeProof_reads decode p v d ops : bridgeProof decode p v d = Ok ops -> proof_of ops.
Proof.
  unfold bridgeProof. intros H. destruct (bridgeIntent _) as [i|]; [|done]. destruct (decode _) as [n|]; [|done].
  destruct (i_Creation i) as [c|]; [|done]. do 3 next_ok H. injection H as <-. apply marked_root_reads in E.
  apply graphGuards_spec in E0 as [Hg _]. apply optional_interface_reads in E1. rewrite !app_comm_cons, !app_assoc.
  apply proof_intro. rewrite !Forall_app, Forall_cons. split_and!; try done.
  destruct (i_Deletion _) as [x|]; [|done]. destruct (bd_Restoring x); [apply deletedSourceGuards_reads|done].
Qed.
Lemma internalPortProof_reads decode p v d ops : internalPortProof decode p v d = Ok ops -> proof_of ops.
Proof.
  unfold internalPortProof. intros H. destruct (internalPortIntent _) as [i|]; [|done]. destruct (decode _) as [n|]; [|done].
  destruct (i_PortCreation i) as [c|] eqn:Ec; [|done]. do 4 next_ok H. injection H as <-. apply marked_root_reads in E.
  apply graphGuards_spec in E0 as [Hg _]. destruct (internalParentGuards_spec _ _ _ _ _ _ E1 Ec) as [Hp _].
  apply optional_interface_reads in E2. rewrite !app_comm_cons, !app_assoc.
  apply proof_intro. rewrite !Forall_app, Forall_cons. split_and!; try done.
  destruct (i_PortDeletion _) as [x|]; [|done]. destruct (pd_Restoring x); [apply deletedPortSourceGuards_reads|done].
Qed.
Lemma topologyProof_reads decode p v d ops : topologyProof decode p v d = Ok ops -> proof_of ops.
Proof.
  unfold topologyProof. intros H. destruct (topologyIntent _) as [[i g]|]; [|done]. destruct (decode _) as [n|]; [|done].
  destruct (if tp_Compensating g then _ else _) as [after before]. do 6 next_ok H. injection H as <-.
  apply topologyImages_spec in E as [H1 _]. apply domain_fence_reads in E0. apply node_proofs_reads in E4. apply guard_reads in E3.
  rewrite !app_comm_cons, !app_assoc. apply proof_intro. rewrite !Forall_app, ?Forall_cons. split_and!; try done.
  - destruct (IsMirrorOperation _); [by eapply mirrorReferenceOperations_reads|injection E1 as <-; apply topologyReferences_reads].
  - by apply Forall_fmap, Forall_true.
Qed.

(** C18. The transaction that decides whether a change counts as applied cannot
    change anything: whatever the plan and the group, it consists of guards,
    which only let it fail, and of one read of the two counters. *)
Theorem applied_proof_reads decode now p v d ops :
  appliedProofOperations decode now p v d = Ok ops ->
  exists guards root, ops = guards ++ [counters_read root] /\ Forall reads guards.
Proof.
  unfold appliedProofOperations. cbv zeta. intros H.
  destruct (not_nil (topologyIntent _)); [by eapply topologyProof_reads|].
  destruct (not_nil (internalPortIntent _)); [by eapply internalPortProof_reads|].
  destruct (not_nil (bridgeIntent _)); [by eapply bridgeProof_reads|].
  next_ok H. destruct (decode _) as [n|]; [|done]. next_ok H. injection H as <-. apply all_health_reads in E0.
  rewrite app_assoc. apply proof_intro, Forall_app. split; [|done]. apply Forall_forall.
  intros o [Ho _]%list_elem_of_filter. by destruct o.
Qed.
Lemma applied_proof_reads_witness : exists ops guards root,
  Trial.proof = Ok ops /\ ops = guards ++ [counters_read root] /\ Forall reads guards.
Proof.
  destruct Trial.proof as [ops|e] eqn:E; [|pose proof Trial.proof_ok as H; rewrite E in H; discriminate H].
  destruct (applied_proof_reads Trial.read 9 Switch.plan Switch.after Switch.schema ops E) as (guards & root & H).
  exists ops, guards, root. split; [reflexivity|exact H].
Defined.

(** What stands behind a verified change. *)
Record verified (decode : json -> option nativePlan) (r : probe) (p : Plan) (v : ExecutionView) (out : Outcome) (current : Z)
    : Prop := {
  vf_server : exists d identity n, pr_Connect r = Ok (d, identity) /\ decode (ExecTypes.Native p) = Some n /\
    identity = ev_Peer (n_Evidence n) /\ d_Digest d = p_Schema p /\ file_at r 0 = true /\ file_at r 1 = true /\
    exists ops body results text target, appliedProofOperations decode (pr_Compiled r) p v d = Ok ops /\
      Reply "" "3" false body ∈ pr_Replies r /\ decode_results body = Some results /\
      len results = len ops /\ Forall ok_result results /\
      o_Target out = Some text /\ parse_int text 64 = Some target /\ target <= current;
  vf_kernel : forall m, sole_policing p = Some m -> exists s0 s1, sample_at r 0 = Ok s0 /\ sample_at r 1 = Ok s1 /\
    PolicingMatches s0 (pc_After m) = true /\ PolicingMatches s1 (pc_After m) = true /\
    ConfigurationDigest_ s1 = ConfigurationDigest_ s0 }.

Lemma results_clean l : existsb failed_result l = false -> Forall ok_result l.
Proof.
  induction l as [|x l IH]; cbn [existsb]; intros H; [done|]. apply orb_false_iff in H as [Hx H]. constructor; [|by apply IH].
  destruct x as [m|]; [|done]. exists m. split; [done|]. cbn in Hx. by destruct (m !! "error").
Qed.
Lemma counters_proved p target results current : counters_of p target results = Ok current ->
  exists text t, target = Some text /\ parse_int text 64 = Some t /\ t <= current.
Proof.
  unfold counters_of. intros H. destruct target as [text|]; [|done]. ok_inv. bsimp. exists text. eexists. split_and!; [done..|lia].
Qed.
(** The reply is found among the messages. *)
Lemma proof_reply_inv fuel l r p n target before ops current at_ :
  proof_reply fuel l r p n target before ops = Ok (current, at_) ->
  exists body, Reply "" "3" false body ∈ l /\ verdict_of r p n target before ops body = Ok (current, at_).
Proof.
  revert l. induction fuel as [|f IH]; intros l H; [done|]. cbn [proof_reply] in H.
  destruct l as [|[answered|method id failed body|] l]; try done.
  - destruct answered; [|done]. apply IH in H as (body & Hb & H). exists body. split; [by right|done].
  - next_ok H. exists body. split; [|done]. bsimp. destruct_and?. destruct failed; [done|].
    repeat match goal with E : (_ =s _) = true |- _ => apply String.eqb_eq in E end. subst. left.
Qed.

(** C17. A change is verified as applied only by the switch itself: over a
    connection to the very server and file of the plan, the proof transaction
    came back with a result for each of its operations, none of them an error,
    with the counter of the commit reached; and for a policing change the
    kernel had the planned rate before and after, under one configuration. *)
Theorem applied_verified decode r p v out current at_ :
  verifyApplied decode r p v out = Ok (current, at_) -> verified decode r p v out current.
Proof.
  unfold verifyApplied. cbv zeta. intros H. next_ok H. rename a into before. next_ok H. destruct a as [d identity].
  destruct (decode _) as [n|] eqn:En; [|done]. do 4 next_ok H.
  apply proof_reply_inv in H as (body & Hb & H). unfold verdict_of in H. cbv zeta in H.
  destruct (decode_results body) as [results|] eqn:Er; [|done]. do 4 next_ok H.
  do 4 next_ok H. injection H as <- <-. bsimp. destruct_and?.
  apply counters_proved in E7 as (text & target & Et & Ep & Hle). split.
  - exists d, identity, n. split_and!; try done. exists a0, body, results, text, target.
    split_and!; try done. by apply results_clean.
  - intros m Em. rewrite Em in *. next_ok E. next_ok E. injection E as <-. next_ok E11. next_ok E11. bsimp. destruct_and?.
    eexists _, _. by split_and!.
Qed.
Lemma applied_verified_witness : verified Trial.read Trial.asked Switch.plan Switch.after Switch.committed 8.
Proof. exact (applied_verified Trial.read Trial.asked Switch.plan Switch.after Switch.committed 8 10 Trial.verified_ok). Defined.

(** ** Plans and the host *)

(** The host evidence that was added to a plan that was compiled: nothing else
    of its native part changes. *)
Inductive evidenced (decode : json -> option nativePlan) : Plan -> Plan -> Prop :=
  | Ev_done p : evidenced decode p p
  | Ev_pin p n build authority devices policing tree q :
      decode (ExecTypes.Native p) = Some n ->
      evidenced decode (with_native p (native_json (with_host n build authority devices policing tree))) q -> evidenced decode p q.
Lemma evidenced_trans decode p q r : evidenced decode p q -> evidenced decode q r -> evidenced decode p r.
Proof. induction 1; [done|]. intros. econstructor; eauto. Qed.
Lemma repin_evidenced decode e1 e2 p n b a dv pk tr q : decode (ExecTypes.Native p) = Some n ->
  repin e1 e2 p (with_host n b a dv pk tr) = Ok q -> evidenced decode p q.
Proof. unfold repin. intros Hn H. do 2 next_ok H. injection H as <-. econstructor; [done|constructor]. Qed.
Lemma prepareTopologyHost_evidenced decode h p v o q : prepareTopologyHost decode h p v o = Ok q -> evidenced decode p q.
Proof.
  unfold prepareTopologyHost. intros H. destruct (topologyIntent _) as [[i g]|]; [|injection H as <-; constructor].
  do 3 next_ok H. destruct (decode _) eqn:En; [|done]. by eapply repin_evidenced.
Qed.
Lemma preparePolicingKernel_evidenced decode h p o q : preparePolicingKernel decode h p o = Ok q -> evidenced decode p q.
Proof.
  unfold preparePolicingKernel. intros H. destruct (i_Policing _) as [m|]; [|injection H as <-; constructor].
  do 2 next_ok H. destruct (decode _) eqn:En; [|done]. by eapply repin_evidenced.
Qed.
Lemma prepareMirrorRuntime_evidenced decode h p o s q : prepareMirrorRuntime decode h p o s = Ok q -> evidenced decode p q.
Proof.
  unfold prepareMirrorRuntime. intros H. destruct (negb _); [injection H as <-; constructor|].
  destruct (match o with Some _ => _ | None => _ end); [|done]. destruct (decode _) eqn:En; [|done]. do 2 next_ok H.
  unfold pinMirrorRuntime in H. rewrite En in H. by eapply repin_evidenced.
Qed.
Lemma prepareTreeExecution_evidenced decode h p q : prepareTreeExecution decode h p = Ok q -> evidenced decode p q.
Proof.
  unfold prepareTreeExecution. intros H. destruct (spanningTreeIntent _); [|injection H as <-; constructor].
  next_ok H. destruct (decode _) eqn:En; [|done]. next_ok H. by eapply repin_evidenced.
Qed.

(** A compiled plan is for the execution, the marker and the document that it
    was compiled for. *)
Definition made_for (id marker : string) (e : Envelope) (p : Plan) : Prop := p_ID p = id /\ Marker p = marker /\ p_Envelope p = e.
Lemma plan_of_for id marker e v d root next cur now n b p : plan_of id marker e v d root next cur now n b = Ok p -> made_for id marker e p.
Proof. unfold plan_of. intros H. next_ok H. by injection H as <-. Qed.
Ltac reach_plan H :=
  lazymatch type of H with
  | plan_of _ _ _ _ _ _ _ _ _ _ _ = Ok _ => by apply plan_of_for in H
  | (match ?c with Ok _ => _ | Err _ => _ end) = Ok _ => destruct c as [?|]; [reach_plan H|discriminate H]
  | (if ?b then Err _ else _) = Ok _ => destruct b; [discriminate H|reach_plan H]
  | (match ?c with Some _ => _ | None => Err _ end) = Ok _ => destruct c as [?|]; [reach_plan H|discriminate H]
  | (let '(_, _) := ?c in _) = Ok _ => destruct c; reach_plan H
  | (match ?c with _ => _ end) = Ok _ => destruct c; try discriminate H; reach_plan H
  end.
Lemma compileTopologyExecution_for now id marker e v d c p :
  compileTopologyExecution now id marker e v d c = Ok p -> made_for id marker e p.
Proof. unfold compileTopologyExecution. cbv zeta. intros H. reach_plan H. Qed.
Lemma compileBridgeExecution_for now id marker c e v d p :
  compileBridgeExecution now id marker c e v d = Ok p -> made_for id marker e p.
Proof. unfold compileBridgeExecution. cbv zeta. intros H. reach_plan H. Qed.
Lemma compileInternalPortExecution_for now id marker c e v d p :
  compileInternalPortExecution now id marker c e v d = Ok p -> made_for id marker e p.
Proof. unfold compileInternalPortExecution. cbv zeta. intros H. reach_plan H. Qed.
Lemma compileExecution_for now id marker e v d p : compileExecution now id marker e v d = Ok p -> made_for id marker e p.
Proof.
  unfold compileExecution. cbv zeta. intros H.
  repeat match type of H with (if ?b then _ else _) = Ok _ => destruct b end;
    eauto using compileTopologyExecution_for, compileBridgeExecution_for, compileInternalPortExecution_for.
  - unfold compileMulticastExecution in H. cbv zeta in H. reach_plan H.
  - unfold compileIsolationExecution in H. cbv zeta in H. reach_plan H.
  - unfold compileSpanningTreeExecution in H. cbv zeta in H. reach_plan H.
  - unfold compilePolicingExecution in H. cbv zeta in H. reach_plan H.
  - unfold compileMTUExecution in H. cbv zeta in H. reach_plan H.
  - unfold compile_fields in H. cbv zeta in H. reach_plan H.
Qed.

(** A plan of the compilers that is safe to send, with its host evidence. *)
Definition prepared (decode : json -> option nativePlan) (d : discovered) (id marker : string) (e : Envelope) (p : Plan) : Prop :=
  exists c root, made_for id marker e c /\ sound (compared_by d e) root c /\ evidenced decode c p.
Lemma prepared_for decode d id marker e p : prepared decode d id marker e p -> made_for id marker e p.
Proof. intros (c & root & Hc & _ & He). induction He; [done|]. by apply IHHe. Qed.
Lemma prepared_compiled decode d id marker e c p : made_for id marker e c -> (exists root, sound (compared_by d e) root c) ->
  evidenced decode c p -> prepared decode d id marker e p.
Proof. intros Hm [root Hs] He. by exists c, root. Qed.
Lemma compensation_prepared decode h original n marker e v d p :
  compensation decode h original n marker e v d = Ok p -> prepared decode d (p_ID original) marker e p.
Proof.
  unfold compensation. cbv zeta. intros H. destruct (not_nil (topologyIntent _)) eqn:Et.
  { do 3 next_ok H. eapply prepared_compiled; [by eapply compileTopologyExecution_for| |].
    - apply compileTopologyExecution_sound in E0 as [root Hs]. exists root. unfold compared_by. by apply not_nil_true in Et as [x ->].
    - eapply evidenced_trans; [by eapply prepareTopologyHost_evidenced|by eapply prepareMirrorRuntime_evidenced]. }
  destruct (not_nil (internalPortIntent _)) eqn:Ei.
  { next_ok H. assert (exists creation, compileInternalPortExecution (h_Now h) (p_ID original) marker creation e v d = Ok p) as [c Hc].
    { destruct (not_nil (i_PortDeletion _)); [next_ok H|]; eauto. }
    eapply prepared_compiled; [by eapply compileInternalPortExecution_for| |constructor].
    apply compileInternalPortExecution_sound in Hc as [root Hs]. exists root. by apply sound_compared. }
  destruct (not_nil (bridgeIntent _)) eqn:Eb.
  { next_ok H. assert (exists creation, compileBridgeExecution (h_Now h) (p_ID original) marker creation e v d = Ok p) as [c Hc].
    { destruct (not_nil (i_Deletion _)); [next_ok H|]; eauto. }
    eapply prepared_compiled; [by eapply compileBridgeExecution_for| |constructor].
    apply compileBridgeExecution_sound in Hc as [root Hs]. exists root. by apply sound_compared. }
  next_ok H. eapply prepared_compiled; [by eapply compileExecution_for|by eapply compileExecution_sound|].
  destruct (preparePolicingKernel decode h a (Some n)) as [q|[]] eqn:Ep;
    try discriminate H; [|destruct (contains _ _) in H; discriminate H].
  eapply evidenced_trans; [by eapply preparePolicingKernel_evidenced|by eapply prepareTreeExecution_evidenced].
Qed.

(** C16. A compensation undoes our own change and nothing else: it is prepared
    only while generation, schema, root, server and file are those of the
    original plan, every object of it still carries its marker, and the
    reversed document passes every check. It is a plan for the original
    execution and the reversed document, compiled so that every write is
    guarded; only host evidence is added to it. *)
Theorem rollback_restores decode h original marker p :
  PrepareRollback decode h original marker = Ok p ->
  exists n v d, decode (ExecTypes.Native original) = Some n /\ h_View h = Ok v /\ h_Connect h = Ok (d, ev_Peer (n_Evidence n)) /\
    sn_Generation (ev_Candidate v) = p_Generation original /\ sn_Schema (ev_Candidate v) = p_Schema original /\
    ev_Root (observed_evidence v) = p_Root original /\ d_Digest d = p_Schema original /\ same_file h 0 = true /\
    (forall i, i ∈ intents (e_Candidate (p_Envelope original)) -> has_marker original (observed_rows v) i = true) /\
    Passed (fst (Checks (e_Candidate (reversed (p_Envelope original))) (ev_Candidate v))) = true /\
    prepared decode d (p_ID original) marker (reversed (p_Envelope original)) p.
Proof.
  unfold PrepareRollback. cbv zeta. intros H. destruct (decode _) as [n|] eqn:En; [|done]. next_ok H. rename a into v.
  next_ok H. next_ok H. destruct a as [d identity]. do 3 next_ok H. apply compensation_prepared in H.
  bsimp. destruct_and?. subst identity. exists n, v, d. split_and!; try done.
  intros i Hi. match goal with M : forallb _ _ = true |- _ => rewrite forallb_forall in M; apply M end. by apply list_elem_of_In.
Qed.
Lemma rollback_restores_witness : exists d, prepared Trial.read d "execution" Trial.undo (reversed Switch.envelope) Trial.undone.
Proof.
  destruct (rollback_restores Trial.read Trial.answers Switch.plan Trial.undo Trial.undone Trial.undone_ok)
    as (n & v & d & _ & _ & _ & _ & _ & _ & _ & _ & _ & _ & Hp). by exists d.
Defined.

(** What a plan was prepared from: the checks passed, the server is the one of
    the projection, and what is to be deleted was as captured. *)
Lemma Prepare_prepared decode h id marker e p : Prepare decode h id marker e = Ok p ->
  exists v d, h_View h = Ok v /\ h_Connect h = Ok (d, ev_Peer (observed_evidence v)) /\ d_Digest d = sn_Schema (ev_Candidate v) /\
    Passed (fst (Checks (e_Candidate e) (ev_Candidate v))) = true /\
    (forall x, i_Deletion (first_of (e_Candidate e)) = Some x -> same_file h 0 = true /\
       verifyDeletionBefore (exchange_of h 0) d (e_Candidate e) (bd_SourceMarker x) = Ok tt) /\
    (forall x, i_PortDeletion (first_of (e_Candidate e)) = Some x -> same_file h 1 = true /\
       verifyPortDeletionBefore (exchange_of h 1) d (e_Candidate e) v (pd_SourceMarker x) = Ok tt) /\
    prepared decode d id marker e p.
Proof.
  unfold Prepare. cbv zeta. intros H. next_ok H. next_ok H. rename a into v. do 3 next_ok H. destruct a0 as [d identity]. next_ok H.
  do 6 next_ok H. bsimp. destruct_and?. subst identity. exists v, d. split_and!; try done.
  - intros x Hx. rewrite Hx in *. destruct (same_file h 0); [|done]. split; [done|]. by destruct a0.
  - intros x Hx. rewrite Hx in *. destruct (same_file h 1); [|done]. split; [done|]. by destruct a1.
  - eapply prepared_compiled; [by eapply compileExecution_for|by eapply compileExecution_sound|].
    eapply evidenced_trans; [by eapply prepareTopologyHost_evidenced|].
    eapply evidenced_trans; [by eapply preparePolicingKernel_evidenced|].
    eapply evidenced_trans; [by eapply prepareMirrorRuntime_evidenced|by eapply prepareTreeExecution_evidenced].
Qed.
(** The preflight of a deletion sends guards only: the refusal of other
    operations never happens. *)
Lemma deletion_guards_read d c marker ops : deletion_guards d c marker = Ok ops -> forallb is_wait ops = true.
Proof.
  unfold deletion_guards. intros H. destruct (bridgeIntent c) as [i|]; [|done]. destruct (i_Deletion _) as [x|]; [|done].
  next_ok H. injection H as <-. apply graphGuards_spec in E as [Hg _].
  assert (Forall reads (a ++ if bd_Restoring x then deletedSourceGuards x else [])) as Hr.
  { apply Forall_app. split; [done|]. destruct (bd_Restoring x); [apply deletedSourceGuards_reads|done]. }
  apply forallb_forall. intros o Ho%list_elem_of_In. rewrite Forall_forall in Hr. specialize (Hr o Ho). by destruct o.
Qed.

End ProviderProperties.
