(* ===== verification/AuthTables.v ===== *)
(** * The authorization tables of the manager database

    migrations/manager/001_authority.sql, 004_auth.sql and 008_candidate.sql,
    typed. A capability set is stored as the list that its JSON encodes, a
    validation as the values of its two documents. *)

From S2P Require Import Prelude GoStrings GoTime GoJson ApiTypes CandidateTypes ExecTypes.

Module AuthTables.

(** ** Validations *)

(** go: internal/candidate/types.go Validation *)
Record Validation := mkValidation {
  v_ID : string; v_CandidateID : string; v_CandidateRevision : string; v_Generation : string;
  v_ConfigRevision : string; v_PolicyRevision : string; v_Expires : Z; v_Job : option Ref; v_State : string;
  v_Checks : list Gate; v_Diff : list Diff; v_ChangeSetID : string; v_Usable : bool;
  v_Invalidations : list Gate; v_Risk : string; v_ExecutionReady : bool }.
Definition validation_fields (v : Validation) : list (string * json) :=
  [("id", JStr (v_ID v)); ("candidate_id", JStr (v_CandidateID v));
   ("candidate_revision", JStr (v_CandidateRevision v)); ("instance_generation", JStr (v_Generation v));
   ("config_revision", JStr (v_ConfigRevision v)); ("policy_revision", JStr (v_PolicyRevision v));
   ("expires_at", time_json (v_Expires v)); ("job_ref", jopt ref_json (v_Job v)); ("state", JStr (v_State v));
   ("checks", jlist gate_json (v_Checks v)); ("diff", jlist diff_json (v_Diff v));
   ("changeset_id", JStr (v_ChangeSetID v)); ("usable", JBool (v_Usable v));
   ("invalidations", jlist gate_json (v_Invalidations v)); ("risk", JStr (v_Risk v));
   ("execution_ready", JBool (v_ExecutionReady v))].
(** go: internal/repository/auth/candidate.go validationRecord *)
Record validationRecord := mkValidationRecord {
  vr_Validation : Validation; vr_Credential : string; vr_AuthEpoch : string; vr_RequestEpoch : string;
  vr_Capabilities : string; vr_ProviderPolicy : string; vr_Validator : string }.
Definition validation_record_json (r : validationRecord) : json :=
  JObj (validation_fields (vr_Validation r)
        ++ [("credential_id", JStr (vr_Credential r)); ("auth_epoch", JStr (vr_AuthEpoch r));
            ("request_epoch", JStr (vr_RequestEpoch r)); ("capabilities_digest", JStr (vr_Capabilities r));
            ("provider_policy", JStr (vr_ProviderPolicy r)); ("validator", JStr (vr_Validator r))]).

(** What a Safe Apply left to the workspace.
    go: internal/safety/types.go Resolution *)
Record SafeResolution := mkResolution {
  sr_Confirmed : bool; sr_Pending : bool; sr_Transaction : option Ref; sr_Envelope : option Envelope }.

(** The public part of a certificate.
    go: internal/tlscontrol/types.go Descriptor *)
Record Descriptor := mkDescriptor {
  ds_ID : string; ds_Fingerprint : string; ds_InputDigest : string; ds_Hostname : string;
  ds_NotBefore : Z; ds_NotAfter : Z }.

(** ** Rows *)

Record principal_row := mkPrincipal { pr_name : string; pr_disabled : bool; pr_verifier : string }.
(** A row of [grants] or [api_tokens], keyed by the hash of the secret. *)
Record credential_row := mkCredential {
  cr_principal : string; cr_epoch : string; cr_ceiling : list string; cr_expires : Z; cr_revoked : option Z }.
Record auth_grant := mkAuthGrant { ag_id : string; ag_issued : Z; ag_last : Z; ag_elevated : Z }.
Record auth_token := mkAuthToken { at_id : string; at_name : string; at_created : Z; at_last : Z }.
(** A row of [candidate_witnesses], keyed by its owner. *)
Record witness_row := mkWitness {
  wi_candidate : string; wi_epoch : string; wi_sequence : Z; wi_revision : string; wi_hash : string }.
(** A row of [candidate_validations], keyed by its id. *)
Record validation_row := mkValidationRow {
  va_owner : string; va_candidate : string; va_revision : string; va_job : string; va_changeset : string;
  va_created : Z; va_envelope : Envelope; va_document : validationRecord }.
(** A row of [tls_certificates]. *)
Record certificate_row := mkCertificate {
  tc_principal : string; tc_revision : string; tc_descriptor : Descriptor; tc_state : string; tc_sequence : Z }.
Record audit_row := mkAudit {
  aa_id : string; aa_principal : string; aa_credential : string; aa_operation : string; aa_target : string;
  aa_result : string; aa_request : string; aa_created : Z }.

(** Who exists, with which roles. *)
Record policy_tables := mkPolicy {
  principals : gmap string principal_row;
  auth_principals : gmap string (string * Z);  (* revision, created *)
  roles : gmap string (list string);
  auth_roles : gmap string (string * string);  (* name, revision *)
  principal_roles : gset (string * string) }.
(** What was issued. *)
Record credential_tables := mkCredentials {
  grants : gmap string credential_row; auth_grants : gmap string auth_grant;
  api_tokens : gmap string credential_row; auth_tokens : gmap string auth_token }.
(** The row of [auth_state], the attempts (window, count) and the audit. *)
Record authority := mkAuthority {
  auth_epoch : string; auth_revision : string; auth_high : Z;
  auth_attempts : gmap string (Z * Z); auth_audit : list audit_row }.
(** The state of the inventory: its state, generation and reason, and the
    restore and pending columns. *)
Record inventory_row := mkInventory {
  iv_state : string; iv_generation : string; iv_reason : string; iv_restore : bool; iv_pending : string }.
(** The drafts of candidates, the certificates with their authority, and the
    inventory's row, which this component reads and a restore resets. *)
Record draft_tables := mkDrafts {
  candidate_witnesses : gmap string witness_row;
  candidate_validations : gmap string validation_row;
  inventory_state : option inventory_row;
  tls_certificates : gmap string certificate_row;
  tls_authority : TLSState }.
Record auth_tables := mkAuthTables {
  policy : policy_tables; creds : credential_tables; authz : authority; drafts : draft_tables }.

(** ** Updates *)

Definition with_policy (s : auth_tables) x : auth_tables := mkAuthTables x (creds s) (authz s) (drafts s).
Definition with_creds (s : auth_tables) x : auth_tables := mkAuthTables (policy s) x (authz s) (drafts s).
Definition with_authz (s : auth_tables) x : auth_tables := mkAuthTables (policy s) (creds s) x (drafts s).
Definition with_drafts (s : auth_tables) x : auth_tables := mkAuthTables (policy s) (creds s) (authz s) x.

Definition with_principals (p : policy_tables) x := mkPolicy x (auth_principals p) (roles p) (auth_roles p) (principal_roles p).
Definition with_auth_principals (p : policy_tables) x := mkPolicy (principals p) x (roles p) (auth_roles p) (principal_roles p).
Definition with_roles (p : policy_tables) x := mkPolicy (principals p) (auth_principals p) x (auth_roles p) (principal_roles p).
Definition with_auth_roles (p : policy_tables) x := mkPolicy (principals p) (auth_principals p) (roles p) x (principal_roles p).
Definition with_assignments (p : policy_tables) x := mkPolicy (principals p) (auth_principals p) (roles p) (auth_roles p) x.
Definition with_grants (c : credential_tables) x y := mkCredentials x y (api_tokens c) (auth_tokens c).
Definition with_tokens (c : credential_tables) x y := mkCredentials (grants c) (auth_grants c) x y.
Definition with_revision (a : authority) x := mkAuthority (auth_epoch a) x (auth_high a) (auth_attempts a) (auth_audit a).
Definition with_watermark (a : authority) x := mkAuthority (auth_epoch a) (auth_revision a) x (auth_attempts a) (auth_audit a).
Definition with_attempts (a : authority) x := mkAuthority (auth_epoch a) (auth_revision a) (auth_high a) x (auth_audit a).
Definition with_audit (a : authority) x := mkAuthority (auth_epoch a) (auth_revision a) (auth_high a) (auth_attempts a) (x :: auth_audit a).
Definition with_witnesses (t : draft_tables) x := mkDrafts x (candidate_validations t) (inventory_state t) (tls_certificates t) (tls_authority t).
Definition with_validations (t : draft_tables) x := mkDrafts (candidate_witnesses t) x (inventory_state t) (tls_certificates t) (tls_authority t).
Definition with_inventory (t : draft_tables) x := mkDrafts (candidate_witnesses t) (candidate_validations t) x (tls_certificates t) (tls_authority t).
Definition with_certificates (t : draft_tables) x := mkDrafts (candidate_witnesses t) (candidate_validations t) (inventory_state t) x (tls_authority t).
Definition with_tls (t : draft_tables) x := mkDrafts (candidate_witnesses t) (candidate_validations t) (inventory_state t) (tls_certificates t) x.
Definition no_trial (revision active : string) : TLSState := mkTLSState revision active "" "" "" 0 0 0.

Definition no_auth : auth_tables :=
  mkAuthTables (mkPolicy ∅ ∅ ∅ ∅ ∅) (mkCredentials ∅ ∅ ∅ ∅) (mkAuthority "" "" 0 ∅ []) (mkDrafts ∅ ∅ None ∅ (no_trial "" "")).

End AuthTables.
