(* ===== verification/Store.v ===== *)
(** * The manager database and its transactions

    The tables of migrations/manager that the execution core reads and
    writes, typed; a document column holds the value its JSON encodes. [tx]
    is the callback of [sqlite.Store.Write]: it runs against an environment
    that answers each clock reading, identifier and authority check in order,
    and its changes are kept only when it succeeds. *)

From S2P Require Import Prelude GoStrings GoTime GoJson ApiTypes CandidateTypes ExecTypes AuthTables.

(** ** Evidence documents (repository/evidence/types.go) *)

(** go: internal/repository/evidence/types.go Request *)
Record EvRequest := mkEvRequest {
  er_Principal : string; er_Credential : string; er_Capability : string; er_Operation : string;
  er_Domain : string; er_Epoch : string; er_ID : string; er_Correlation : string }.
(** [RequestFrom] of a context without a request. *)
Definition no_request : EvRequest := mkEvRequest "" "" "" "" "" "" "" "".

(** go: internal/repository/evidence/types.go Job *)
Record Job := mkJob {
  j_Related : list Ref; j_ID : string; j_Sequence : string; j_State : string; j_Operation : string;
  j_Owner : string; j_Capability : string; j_Resource : option Ref; j_Correlation : string;
  j_RequestID : string; j_RequestDomain : string; j_RequestEpoch : string; j_Credential : string;
  j_ChangeSet : string; j_Transaction : string; j_Cancellable : bool; j_CancelRequested : bool;
  j_Dispatch : string; j_Business : string; j_Commit : string; j_Applied : string;
  j_Confirmation : string; j_Reason : string; j_Handler : string; j_Created : Z; j_Updated : Z;
  j_Completed : option Z }.
Definition job_json (j : Job) : json :=
  JObj (omit_list "related_object_refs" ref_json (j_Related j)
        ++ [("id", JStr (j_ID j)); ("sequence", JStr (j_Sequence j)); ("state", JStr (j_State j));
            ("operation", JStr (j_Operation j)); ("owner_id", JStr (j_Owner j));
            ("capability", JStr (j_Capability j)); ("resource_ref", jopt ref_json (j_Resource j));
            ("correlation_id", JStr (j_Correlation j))]
        ++ omit_str "request_id" (j_RequestID j) ++ omit_str "request_domain" (j_RequestDomain j)
        ++ omit_str "request_epoch" (j_RequestEpoch j) ++ omit_str "credential_id" (j_Credential j)
        ++ omit_str "changeset_id" (j_ChangeSet j) ++ omit_str "transaction_id" (j_Transaction j)
        ++ [("cancellable", JBool (j_Cancellable j)); ("cancel_requested", JBool (j_CancelRequested j));
            ("dispatch_state", JStr (j_Dispatch j)); ("business_outcome", JStr (j_Business j));
            ("commit_outcome", JStr (j_Commit j)); ("applied_outcome", JStr (j_Applied j));
            ("confirmation_state", JStr (j_Confirmation j)); ("reason_code", JStr (j_Reason j));
            ("recovery_handler", JStr (j_Handler j)); ("created_at", time_json (j_Created j));
            ("updated_at", time_json (j_Updated j)); ("completed_at", jopt time_json (j_Completed j))]).

(** go: internal/repository/evidence/types.go Record *)
Record EvRecord := mkEvRecord {
  ev_Related : list Ref; ev_ID : string; ev_Collection : string; ev_Sequence : string;
  ev_Origin : string; ev_Actor : string; ev_Credential : string; ev_Capability : string;
  ev_Operation : string; ev_Object : option Ref; ev_ChangeSet : string; ev_Transaction : string;
  ev_Job : string; ev_RequestID : string; ev_RequestDomain : string; ev_RequestEpoch : string;
  ev_Correlation : string; ev_Result : string; ev_Reason : string; ev_Created : Z;
  ev_DedupKey : string; ev_Critical : bool }.
Definition record_json (r : EvRecord) : json :=
  JObj (omit_list "related_object_refs" ref_json (ev_Related r)
        ++ [("id", JStr (ev_ID r)); ("resource_kind", JStr (ev_Collection r));
            ("sequence", JStr (ev_Sequence r)); ("origin", JStr (ev_Origin r))]
        ++ omit_str "actor_id" (ev_Actor r) ++ omit_str "credential_id" (ev_Credential r)
        ++ omit_str "capability" (ev_Capability r)
        ++ [("operation", JStr (ev_Operation r)); ("object_ref", jopt ref_json (ev_Object r))]
        ++ omit_str "changeset_id" (ev_ChangeSet r) ++ omit_str "transaction_id" (ev_Transaction r)
        ++ omit_str "job_id" (ev_Job r) ++ omit_str "request_id" (ev_RequestID r)
        ++ omit_str "request_domain" (ev_RequestDomain r) ++ omit_str "request_epoch" (ev_RequestEpoch r)
        ++ [("correlation_id", JStr (ev_Correlation r)); ("result", JStr (ev_Result r))]
        ++ omit_str "reason_code" (ev_Reason r) ++ [("created_at", time_json (ev_Created r))]).

(** ** Rows and tables *)

(** A row of [evidence_records] with its fingerprint. *)
Record ev_row := mkEvRow { row_seq : Z; row_record : EvRecord; row_fingerprint : string }.
(** A row of [evidence_jobs]. *)
Record job_row := mkJobRow { jr_version : Z; jr_completed : option Z; jr_doc : Job }.
(** A row of [field_executions]. *)
Record exec_row := mkExecRow {
  fe_job : string; fe_owner : string; fe_validation : string; fe_state : string; fe_updated : Z;
  fe_doc : Execution }.
(** A row of [safe_applies]. *)
Record safe_row := mkSafeRow {
  sa_owner : string; sa_epoch : string; sa_request : string; sa_state : string; sa_domain : string;
  sa_doc : SafetyRecord }.
(** A row of [transaction_journal]; the document is [{}] until the first transition. *)
Record journal_row := mkJournalRow { tj_seq : Z; tj_state : string; tj_doc : option Execution }.
(** A row of [identities]. *)
Record identity_row := mkIdentity { id_generation : string; id_table : string; id_uuid : string; id_state : string }.
(** A row of [api_receipts], keyed by principal, epoch, domain and request. *)
Record receipt_row := mkReceiptRow {
  ar_fingerprint : string; ar_initial : Z; ar_status : Z; ar_body : string; ar_receipt : Receipt;
  ar_created : Z; ar_completed : option Z; ar_operation : string }.
(** A row of [request_receipts], keyed by its id. *)
Record transport_row := mkTransport {
  tr_request : string; tr_transaction : string; tr_correlation : string; tr_owner : string;
  tr_candidate : string; tr_revision : string; tr_payload : string; tr_created : Z }.
(** The row of [last_known_good]. *)
Record lkg_row := mkLKG { lk_transaction : string; lk_generation : string; lk_confirmed : Z; lk_plan : Plan }.

Definition receipt_key : Type := string * string * string * string.

Record db := mkDB {
  api_epoch : string;  (* api_authority *)
  api_high : Z;
  api_receipts : gmap receipt_key receipt_row;
  request_receipts : gmap string transport_row;
  jobs : gmap string (string * string);  (* transaction and state *)
  evidence_jobs : gmap string job_row;
  evidence_revision : Z;
  evidence_records : list ev_row;  (* the newest first *)
  evidence_next : Z;  (* AUTOINCREMENT *)
  record_objects : gset (string * string);
  transaction_journal : gmap string journal_row;
  field_executions : gmap string exec_row;
  safe_applies : gmap string safe_row;
  safe_resolutions : gmap (string * string * string) (string * AuthTables.SafeResolution);  (* fingerprint, document *)
  operation_protections : gmap (string * string) string;
  identities : gmap string identity_row;
  identity_creations : gmap string (string * string);
  last_known_good : option lkg_row;
  auth : AuthTables.auth_tables }.

(** ** Transactions *)

(** What the outside world answers inside one transaction: the n-th answer to
    each kind of question. *)
Record env := mkEnv {
  now_at : nat -> Z;
  clock_at : nat -> Clock;
  new_id : nat -> string;
  random_at : nat -> list Z;
  authorize_at : nat -> Request -> bool -> result Authorization;
  authority_at : nat -> Authorization -> option error;
  check_at : nat -> option error }.

Definition tx (A : Type) : Type := env -> nat -> db -> result (A * nat * db).

Definition ret {A} (a : A) : tx A := fun _ n d => Ok (a, n, d).
Definition fail {A} (e : error) : tx A := fun _ _ _ => Err e.
Definition bind {A B} (m : tx A) (k : A -> tx B) : tx B := fun w n d =>
  match m w n d with
  | Ok (a, n', d') => k a w n' d'
  | Err e => Err e
  end.
Notation "'do' x '<-' m 'in' k" := (bind m (fun x => k))
  (at level 10, x pattern, m at level 99, k at level 200, format "'[v' 'do'  x  '<-'  m  'in' '/' k ']'") : go_scope.
Definition guard (b : bool) (e : error) : tx unit := fun _ n d => if b then Err e else Ok (tt, n, d).
Definition get : tx db := fun _ n d => Ok (d, n, d).
Definition put (d : db) : tx unit := fun _ n _ => Ok (tt, n, d).
Definition modify (f : db -> db) : tx unit := fun _ n d => Ok (tt, n, f d).
Definition lift {A} (r : result A) : tx A := fun _ n d => match r with Ok a => Ok (a, n, d) | Err e => Err e end.

(** Questions to the outside world. *)
Definition ask {A} (f : env -> nat -> A) : tx A := fun w n d => Ok (f w n, S n, d).
Definition now : tx Z := ask now_at.
Definition clock : tx Clock := ask clock_at.
Definition NewID : tx string := ask new_id.

(** A violated SQL constraint. *)
Definition constraint_failed : error := ENew "SQLITE_CONSTRAINT".

(** [sqlite.Store.failure]: a typed rejection passes, anything else becomes
    one of the storage errors.
    go: internal/repository/sqlite/store.go Store.failure *)
Definition failure (e : error) : error :=
  match e with
  | ENoRows => ENotFound
  | EFail s c => EFail s c
  | EInvalid => EInvalid
  | ENotFound => EUnavailable
  | EUnavailable => EUnavailable
  | ECanceled => ECanceled
  | ENew t => if t =s "SQLITE_CONSTRAINT" then ENew "STORAGE_CONFLICT"
              else if t =s "STORAGE_CONFLICT" then ENew t else EUnavailable
  end.

(** Table updates. *)
Definition with_receipts (d : db) x := mkDB (api_epoch d) (api_high d) x (request_receipts d) (jobs d) (evidence_jobs d) (evidence_revision d) (evidence_records d) (evidence_next d) (record_objects d) (transaction_journal d) (field_executions d) (safe_applies d) (safe_resolutions d) (operation_protections d) (identities d) (identity_creations d) (last_known_good d) (auth d).
Definition with_high (d : db) x := mkDB (api_epoch d) x (api_receipts d) (request_receipts d) (jobs d) (evidence_jobs d) (evidence_revision d) (evidence_records d) (evidence_next d) (record_objects d) (transaction_journal d) (field_executions d) (safe_applies d) (safe_resolutions d) (operation_protections d) (identities d) (identity_creations d) (last_known_good d) (auth d).
Definition with_api (d : db) epoch x := mkDB epoch x (api_receipts d) (request_receipts d) (jobs d) (evidence_jobs d) (evidence_revision d) (evidence_records d) (evidence_next d) (record_objects d) (transaction_journal d) (field_executions d) (safe_applies d) (safe_resolutions d) (operation_protections d) (identities d) (identity_creations d) (last_known_good d) (auth d).
Definition with_transport (d : db) x := mkDB (api_epoch d) (api_high d) (api_receipts d) x (jobs d) (evidence_jobs d) (evidence_revision d) (evidence_records d) (evidence_next d) (record_objects d) (transaction_journal d) (field_executions d) (safe_applies d) (safe_resolutions d) (operation_protections d) (identities d) (identity_creations d) (last_known_good d) (auth d).
Definition with_jobs (d : db) x y rev := mkDB (api_epoch d) (api_high d) (api_receipts d) (request_receipts d) x y rev (evidence_records d) (evidence_next d) (record_objects d) (transaction_journal d) (field_executions d) (safe_applies d) (safe_resolutions d) (operation_protections d) (identities d) (identity_creations d) (last_known_good d) (auth d).
Definition with_records (d : db) x next objs := mkDB (api_epoch d) (api_high d) (api_receipts d) (request_receipts d) (jobs d) (evidence_jobs d) (evidence_revision d) x next objs (transaction_journal d) (field_executions d) (safe_applies d) (safe_resolutions d) (operation_protections d) (identities d) (identity_creations d) (last_known_good d) (auth d).
Definition with_journal (d : db) x := mkDB (api_epoch d) (api_high d) (api_receipts d) (request_receipts d) (jobs d) (evidence_jobs d) (evidence_revision d) (evidence_records d) (evidence_next d) (record_objects d) x (field_executions d) (safe_applies d) (safe_resolutions d) (operation_protections d) (identities d) (identity_creations d) (last_known_good d) (auth d).
Definition with_executions (d : db) x := mkDB (api_epoch d) (api_high d) (api_receipts d) (request_receipts d) (jobs d) (evidence_jobs d) (evidence_revision d) (evidence_records d) (evidence_next d) (record_objects d) (transaction_journal d) x (safe_applies d) (safe_resolutions d) (operation_protections d) (identities d) (identity_creations d) (last_known_good d) (auth d).
Definition with_safe (d : db) x := mkDB (api_epoch d) (api_high d) (api_receipts d) (request_receipts d) (jobs d) (evidence_jobs d) (evidence_revision d) (evidence_records d) (evidence_next d) (record_objects d) (transaction_journal d) (field_executions d) x (safe_resolutions d) (operation_protections d) (identities d) (identity_creations d) (last_known_good d) (auth d).
Definition with_resolutions (d : db) x := mkDB (api_epoch d) (api_high d) (api_receipts d) (request_receipts d) (jobs d) (evidence_jobs d) (evidence_revision d) (evidence_records d) (evidence_next d) (record_objects d) (transaction_journal d) (field_executions d) (safe_applies d) x (operation_protections d) (identities d) (identity_creations d) (last_known_good d) (auth d).
Definition with_protections (d : db) x := mkDB (api_epoch d) (api_high d) (api_receipts d) (request_receipts d) (jobs d) (evidence_jobs d) (evidence_revision d) (evidence_records d) (evidence_next d) (record_objects d) (transaction_journal d) (field_executions d) (safe_applies d) (safe_resolutions d) x (identities d) (identity_creations d) (last_known_good d) (auth d).
Definition with_identities (d : db) x y := mkDB (api_epoch d) (api_high d) (api_receipts d) (request_receipts d) (jobs d) (evidence_jobs d) (evidence_revision d) (evidence_records d) (evidence_next d) (record_objects d) (transaction_journal d) (field_executions d) (safe_applies d) (safe_resolutions d) (operation_protections d) x y (last_known_good d) (auth d).
Definition with_lkg (d : db) x := mkDB (api_epoch d) (api_high d) (api_receipts d) (request_receipts d) (jobs d) (evidence_jobs d) (evidence_revision d) (evidence_records d) (evidence_next d) (record_objects d) (transaction_journal d) (field_executions d) (safe_applies d) (safe_resolutions d) (operation_protections d) (identities d) (identity_creations d) x (auth d).
Definition with_auth (d : db) x := mkDB (api_epoch d) (api_high d) (api_receipts d) (request_receipts d) (jobs d) (evidence_jobs d) (evidence_revision d) (evidence_records d) (evidence_next d) (record_objects d) (transaction_journal d) (field_executions d) (safe_applies d) (safe_resolutions d) (operation_protections d) (identities d) (identity_creations d) (last_known_good d) x.

(** A count of the rows of a table that satisfy a condition. *)
Definition count {K} `{Countable K} {A} (P : K -> A -> bool) (m : gmap K A) : Z :=
  Z.of_nat (List.length (List.filter (fun kv => P (fst kv) (snd kv)) (map_to_list m))).

(** ** What a transaction may change

    [keeps R m]: whatever the environment answers, when [m] commits, the
    database before and after are related by [R]. The lemmas compose. *)
Definition keeps {A} (R : db -> db -> Prop) (m : tx A) : Prop :=
  forall w n d a n' d', m w n d = Ok (a, n', d') -> R d d'.

Lemma bind_inv {A B} (m : tx A) (k : A -> tx B) w n d b n' d' :
  bind m k w n d = Ok (b, n', d') ->
  exists a n1 d1, m w n d = Ok (a, n1, d1) /\ k a w n1 d1 = Ok (b, n', d').
Proof. unfold bind. destruct (m w n d) as [[[a n1] d1]|e]; [|done]. eauto. Qed.

Lemma guard_inv b e w n d u n' d' : guard b e w n d = Ok (u, n', d') -> b = false /\ n' = n /\ d' = d.
Proof. unfold guard. destruct b; [done|]. by intros [= _ -> ->]. Qed.

Section keeps_rules.
Context (R : db -> db -> Prop) `{!PreOrder R}.
Lemma keeps_ret {A} (a : A) : keeps R (ret a).
Proof. intros ? ? ? ? ? ? [= -> -> ->]. done. Qed.
Lemma keeps_fail {A} e : keeps R (@fail A e).
Proof. by intros ? ? ? ? ? ? H. Qed.
Lemma keeps_bind {A B} (m : tx A) (k : A -> tx B) : keeps R m -> (forall a, keeps R (k a)) -> keeps R (bind m k).
Proof.
  intros Hm Hk w n d b n' d' (a & n1 & d1 & H1 & H2)%bind_inv.
  etrans; [by eapply Hm|by eapply Hk].
Qed.
Lemma keeps_guard b e : keeps R (guard b e).
Proof. by intros ? ? ? ? ? ? (_ & -> & ->)%guard_inv. Qed.
Lemma keeps_get : keeps R get.
Proof. intros ? ? ? ? ? ? [= -> -> ->]. done. Qed.
Lemma keeps_ask {A} (f : env -> nat -> A) : keeps R (ask f).
Proof. intros ? ? ? ? ? ? [= <- <- ->]. done. Qed.
Lemma keeps_lift {A} (r : result A) : keeps R (lift r).
Proof. unfold lift. intros ? ? ? ? ? ?. destruct r; [|done]. by intros [= -> -> ->]. Qed.
Lemma keeps_modify f : (forall d, R d (f d)) -> keeps R (modify f).
Proof. intros H ? ? ? ? ? ? [= <- <- <-]. apply H. Qed.
End keeps_rules.

(** A transaction that keeps a projection of the database unchanged. *)
Definition same {B} (f : db -> B) (d d' : db) : Prop := f d' = f d.
#[export] Instance same_preorder {B} (f : db -> B) : PreOrder (same f).
Proof. split; [done|]. intros x y z H1 H2. unfold same in *. congruence. Qed.

Create HintDb keeps.
Ltac keeps_step :=
  match goal with
  | |- keeps _ (bind _ _) => apply keeps_bind; [try typeclasses eauto| |intros ?]
  | |- keeps _ (ret _) => apply keeps_ret; typeclasses eauto
  | |- keeps _ (fail _) => apply keeps_fail
  | |- keeps _ (guard _ _) => apply keeps_guard; typeclasses eauto
  | |- keeps _ get => apply keeps_get; typeclasses eauto
  | |- keeps _ (ask _) => apply keeps_ask; typeclasses eauto
  | |- keeps _ now => apply keeps_ask; typeclasses eauto
  | |- keeps _ clock => apply keeps_ask; typeclasses eauto
  | |- keeps _ NewID => apply keeps_ask; typeclasses eauto
  | |- keeps _ (lift _) => apply keeps_lift; typeclasses eauto
  | |- keeps (same _) (modify _) => apply keeps_modify; intros; reflexivity
  | |- keeps _ (match ?x with _ => _ end) => destruct x
  | |- keeps _ (let '(_, _) := ?x in _) => destruct x
  end.
Ltac keeps_tac := repeat keeps_step; eauto with keeps.

(** ** Inverting a committed transaction *)

Lemma lift_inv {A} (r : result A) w n d a n' d' : lift r w n d = Ok (a, n', d') -> r = Ok a /\ n' = n /\ d' = d.
Proof. unfold lift. destruct r; [|done]. by intros [= -> -> ->]. Qed.

Ltac tx_step :=
  match goal with
  | H : bind _ _ _ _ _ = Ok (_, _, _) |- _ =>
      let a := fresh "a" in let n := fresh "n" in let d := fresh "d" in let H' := fresh "H" in
      apply bind_inv in H as (a & n & d & H' & H)
  | H : guard _ _ _ _ _ = Ok (_, _, _) |- _ => let E := fresh "G" in apply guard_inv in H as (E & -> & ->)
  | H : lift _ _ _ _ = Ok (_, _, _) |- _ => let E := fresh "L" in apply lift_inv in H as (E & -> & ->)
  | H : ret _ _ _ _ = Ok (_, _, _) |- _ => injection H as ? ? ?
  | H : fail _ _ _ _ = Ok (_, _, _) |- _ => discriminate H
  | H : get _ _ _ = Ok (_, _, _) |- _ => injection H as ? ? ?
  | H : now _ _ _ = Ok (_, _, _) |- _ => injection H as ? ? ?
  | H : clock _ _ _ = Ok (_, _, _) |- _ => injection H as ? ? ?
  | H : NewID _ _ _ = Ok (_, _, _) |- _ => injection H as ? ? ?
  | H : ask _ _ _ _ = Ok (_, _, _) |- _ => injection H as ? ? ?
  | H : modify _ _ _ _ = Ok (_, _, _) |- _ => injection H as ? ? ?
  end.
Ltac tx_inv := repeat (tx_step; subst).
