(* ===== verification/Evidence.v ===== *)
(** * internal/repository/evidence: durable jobs and audit records

    [Append], [CreateJob] and [ChangeJob] take part in the caller's
    transaction. A job is a state machine: [queued] and [running] work moves
    on through [ChangeJob], which checks the expected sequence, the allowed
    transitions and the outcome vocabulary; a terminal state is final and
    completes the receipts that wait for the job. *)

From S2P Require Import Prelude GoStrings GoTime GoJson ApiTypes CandidateTypes ExecTypes Store.

Module Evidence.

(** go: internal/repository/evidence/types.go:17-26 MaxJobs *)
Definition MaxJobs : Z := 100000.
Definition MaxEvents : Z := 100000.
Definition MaxAudit : Z := 500000.
Definition MaxQueued : Z := 16.
Definition MaxRunning : Z := 2.
Definition ReservedControlRecords : Z := 128.
Definition MaxRelatedObjects : Z := 32.

(** ** types.go *)

Definition alnum (b : Z) : bool :=
  ((65 <=? b) && (b <=? 90)) || ((97 <=? b) && (b <=? 122)) || is_digit b.
(** [codePattern]: a letter or digit, then up to 127 of [[A-Za-z0-9_.:-]].
    go: internal/repository/evidence/types.go code *)
Definition code (s : string) : bool :=
  match bytes s with
  | [] => false
  | b :: r => alnum b && (len r <=? 127)
              && forallb (fun b => alnum b || (b =? 95) || (b =? 46) || (b =? 58) || (b =? 45)) r
  end.
(** go: internal/repository/evidence/types.go optionalID *)
Definition optionalID (s : string) : bool := (s =s "") || ManagementID s.
(** go: internal/repository/evidence/types.go optionalRequest *)
Definition optionalRequest (s : string) : bool := (s =s "") || UUID s.
(** go: internal/repository/evidence/types.go validRef *)
Definition validRef (r : option Ref) : bool :=
  match r with None => true | Some r => code (ref_Kind r) && ManagementID (ref_ID r) end.
Fixpoint related_ok (refs : list Ref) (seen : list string) : bool :=
  match refs with
  | [] => true
  | r :: rest =>
    if negb (validRef (Some r)) || contains seen (ref_ID r) then false
    else related_ok rest (ref_ID r :: seen)
  end.
(** go: internal/repository/evidence/types.go validRelated *)
Definition validRelated (refs : list Ref) : bool :=
  if MaxRelatedObjects <? len refs then false else related_ok refs [].
(** go: internal/repository/evidence/types.go Terminal *)
Definition Terminal (state : string) : bool :=
  (state =s "succeeded") || (state =s "failed") || (state =s "cancelled").
(** go: internal/repository/evidence/types.go validOutcomes *)
Definition validOutcomes (j : Job) : bool :=
  contains ["not-started"; "prepared"; "sent"; "unknown"; "completed"] (j_Dispatch j)
  && contains ["unknown"; "success"; "failure"; "cancelled"] (j_Business j)
  && contains ["not-sent"; "unknown"; "committed"; "rejected"; "not-applicable"] (j_Commit j)
  && contains ["not-applicable"; "unknown"; "pending"; "applied"; "not-applied"] (j_Applied j)
  && contains ["not-applicable"; "pending"; "confirmed"; "expired"] (j_Confirmation j)
  && code (j_Reason j).
(** go: internal/repository/evidence/types.go ControlOperation *)
Definition ControlOperation (op : string) : bool :=
  (op =s "cancelJob") || (op =s "confirmCertificate") || (op =s "decideTransaction")
  || (op =s "reconcileTransaction").

(** ** write.go: records *)

Definition or_else (s fallback : string) : string := if s =s "" then fallback else s.

(** A record as its writer fills it in. *)
Definition record (related : list Ref) (collection origin capability operation result reason : string)
    (object : option Ref) (job transaction changeset correlation : string)
    (request_id request_domain request_epoch : string) (critical : bool) (created : Z) : EvRecord :=
  mkEvRecord related "" collection "" origin "" "" capability operation object changeset transaction job
    request_id request_domain request_epoch correlation result reason created "" critical.

(** The defaults taken from the request and the environment.
    go: internal/repository/evidence/write.go:16-43 Append *)
Definition complete_record (req : EvRequest) (r : EvRecord) : tx EvRecord :=
  let correlation := or_else (ev_Correlation r) (er_Correlation req) in
  let '(rid, rdomain, repoch) :=
    if ev_RequestID r =s "" then (er_ID req, er_Domain req, er_Epoch req)
    else (ev_RequestID r, ev_RequestDomain r, ev_RequestEpoch r) in
  let capability := or_else (ev_Capability r) (er_Capability req) in
  let manager := ev_Origin r =s "Manager" in
  let actor := if manager then or_else (ev_Actor r) (er_Principal req) else "" in
  let credential := if manager then or_else (ev_Credential r) (er_Credential req) else "" in
  do correlation <- (if correlation =s "" then NewID else ret correlation) in
  do id <- (if ev_ID r =s "" then NewID else ret (ev_ID r)) in
  do created <- (if ev_Created r =? zero_time then now else ret (ev_Created r)) in
  ret (mkEvRecord (ev_Related r) id (ev_Collection r) (ev_Sequence r) (ev_Origin r) actor credential
         capability (ev_Operation r) (ev_Object r) (ev_ChangeSet r) (ev_Transaction r) (ev_Job r)
         rid rdomain repoch correlation (ev_Result r) (ev_Reason r) created (ev_DedupKey r) (ev_Critical r)).

(** go: internal/repository/evidence/write.go:44-46 Append *)
Definition record_invalid (r : EvRecord) : bool :=
  ((ev_Collection r <>s "event") && (ev_Collection r <>s "audit"))
  || ((ev_Origin r <>s "Manager") && (ev_Origin r <>s "External") && (ev_Origin r <>s "Unknown"))
  || negb (ManagementID (ev_ID r)) || negb (ManagementID (ev_Correlation r))
  || negb (optionalID (ev_Actor r)) || negb (optionalID (ev_Credential r))
  || negb (optionalID (ev_ChangeSet r)) || negb (optionalID (ev_Transaction r))
  || negb (optionalID (ev_Job r)) || negb (optionalID (ev_RequestEpoch r))
  || negb (optionalRequest (ev_RequestID r)) || negb (validRef (ev_Object r))
  || negb (validRelated (ev_Related r)) || negb (code (ev_Operation r)) || negb (code (ev_Result r))
  || ((ev_Reason r <>s "") && negb (code (ev_Reason r)))
  || ((ev_Capability r <>s "") && negb (code (ev_Capability r)))
  || ((ev_DedupKey r <>s "") && negb (code (ev_DedupKey r)))
  || ((ev_RequestDomain r <>s "") && (ev_RequestDomain r <>s "management")
      && (ev_RequestDomain r <>s "workspace")).

Definition set_identity (r : EvRecord) (id seq : string) (created : Z) : EvRecord :=
  mkEvRecord (ev_Related r) id (ev_Collection r) seq (ev_Origin r) (ev_Actor r) (ev_Credential r)
    (ev_Capability r) (ev_Operation r) (ev_Object r) (ev_ChangeSet r) (ev_Transaction r) (ev_Job r)
    (ev_RequestID r) (ev_RequestDomain r) (ev_RequestEpoch r) (ev_Correlation r) (ev_Result r)
    (ev_Reason r) created (ev_DedupKey r) (ev_Critical r).
Definition fingerprint_of (r : EvRecord) : string :=
  digest_json (record_json (set_identity r "" "" zero_time)).

Definition same_source (r : EvRecord) (row : ev_row) : bool :=
  (ev_Collection (row_record row) =s ev_Collection r) && (ev_Origin (row_record row) =s ev_Origin r)
  && (ev_DedupKey (row_record row) =s ev_DedupKey r).

Definition insert_record (r : EvRecord) (digest : string) : tx string :=
  do d <- get in
  let limit := (if ev_Collection r =s "audit" then MaxAudit else MaxEvents)
               - (if ev_Critical r then 0 else ReservedControlRecords) in
  do _ <- guard (limit <=? len (List.filter (fun row => ev_Collection (row_record row) =s ev_Collection r)
                                  (evidence_records d))) (Fail 429 "EVIDENCE_CAPACITY_REACHED") in
  do _ <- guard (existsb (fun row => ev_ID (row_record row) =s ev_ID r) (evidence_records d)) constraint_failed in
  let seq := evidence_next d in
  let r := set_identity r (ev_ID r) (format_int seq) (ev_Created r) in
  do _ <- guard (8192 <? slen (marshal (record_json r))) (Fail 422 "EVIDENCE_BUDGET_EXCEEDED") in
  let refs := ev_Related r ++ match ev_Object r with Some o => [o] | None => [] end in
  do _ <- modify (fun d =>
    with_records d (mkEvRow seq r digest :: evidence_records d) (seq + 1)
      (list_to_set ((fun ref => (ev_ID r, ref_ID ref)) <$> refs) ∪ record_objects d)) in
  ret (ev_ID r).

(** go: internal/repository/evidence/write.go Append *)
Definition Append (req : EvRequest) (r : EvRecord) : tx string :=
  do r <- complete_record req r in
  do _ <- guard (record_invalid r) (Fail 422 "INVALID_EVIDENCE") in
  let digest := fingerprint_of r in
  do d <- get in
  match (if ev_DedupKey r =s "" then None else List.find (same_source r) (evidence_records d)) with
  | Some prior =>
    do _ <- guard (row_fingerprint prior <>s digest) (Fail 409 "EVIDENCE_DEDUP_MISMATCH") in
    ret (ev_ID (row_record prior))
  | None => insert_record r digest
  end.

(** ** write.go: jobs *)

Definition set_sequence (j : Job) (seq : string) : Job :=
  mkJob (j_Related j) (j_ID j) seq (j_State j) (j_Operation j) (j_Owner j) (j_Capability j) (j_Resource j)
    (j_Correlation j) (j_RequestID j) (j_RequestDomain j) (j_RequestEpoch j) (j_Credential j)
    (j_ChangeSet j) (j_Transaction j) (j_Cancellable j) (j_CancelRequested j) (j_Dispatch j)
    (j_Business j) (j_Commit j) (j_Applied j) (j_Confirmation j) (j_Reason j) (j_Handler j)
    (j_Created j) (j_Updated j) (j_Completed j).

(** go: internal/repository/evidence/write.go:211-224 saveJob *)
Definition next_sequence (j : Job) (insert : bool) : result string :=
  if insert then
    let seq := if j_Sequence j =s "" then "1" else j_Sequence j in
    match parse_uint seq 64 with
    | Some n => if n =? 0 then Err (Fail 503 "JOB_SEQUENCE_INVALID") else Ok seq
    | None => Err (Fail 503 "JOB_SEQUENCE_INVALID")
    end
  else
    match parse_uint (j_Sequence j) 64 with
    | Some n => if (n =? 0) || (n =? 2 ^ 64 - 1) then Err (Fail 503 "JOB_SEQUENCE_INVALID")
                else Ok (format_uint (n + 1))
    | None => Err (Fail 503 "JOB_SEQUENCE_INVALID")
    end.

(** Writes both job tables under the next revision of the evidence state.
    go: internal/repository/evidence/write.go saveJob *)
Definition saveJob (j : Job) (insert : bool) : tx Job :=
  do d <- get in
  let version := evidence_revision d + 1 in
  do seq <- lift (next_sequence j insert) in
  let j := set_sequence j seq in
  do _ <- guard (8192 <? slen (marshal (job_json j))) (Fail 422 "JOB_BUDGET_EXCEEDED") in
  do _ <- guard (insert && not_nil (evidence_jobs d !! j_ID j)) constraint_failed in
  do _ <- modify (fun d =>
    with_jobs d
      (match jobs d !! j_ID j with Some (t, _) => <[j_ID j := (t, j_State j)]> (jobs d) | None => jobs d end)
      (if insert || not_nil (evidence_jobs d !! j_ID j)
       then <[j_ID j := mkJobRow version (unix_milli <$> j_Completed j) j]> (evidence_jobs d)
       else evidence_jobs d) version) in
  ret j.

(** go: internal/repository/evidence/write.go LoadJob *)
Definition LoadJob (id : string) : tx Job :=
  do d <- get in
  match evidence_jobs d !! id with
  | Some row => ret (jr_doc row)
  | None => fail (Fail 404 "NOT_FOUND")
  end.

(** The defaults of a new job.
    go: internal/repository/evidence/write.go:122-175 CreateJob *)
Definition complete_job (req : EvRequest) (j : Job) : tx Job :=
  do id <- (if j_ID j =s "" then NewID else ret (j_ID j)) in
  let correlation := or_else (j_Correlation j) (er_Correlation req) in
  do correlation <- (if correlation =s "" then NewID else ret correlation) in
  let '(rid, rdomain, repoch) :=
    if j_RequestID j =s "" then (er_ID req, er_Domain req, er_Epoch req)
    else (j_RequestID j, j_RequestDomain j, j_RequestEpoch j) in
  do created <- (if j_Created j =? zero_time then now else ret (j_Created j)) in
  ret (mkJob (j_Related j) id "1" (or_else (j_State j) "queued") (or_else (j_Operation j) (er_Operation req))
         (or_else (j_Owner j) (er_Principal req)) (or_else (j_Capability j) (er_Capability req))
         (j_Resource j) correlation rid rdomain repoch (or_else (j_Credential j) (er_Credential req))
         (j_ChangeSet j) (j_Transaction j) (j_Cancellable j) (j_CancelRequested j)
         (or_else (j_Dispatch j) "not-started") (or_else (j_Business j) "unknown")
         (or_else (j_Commit j) "not-sent") (or_else (j_Applied j) "not-applicable")
         (or_else (j_Confirmation j) "not-applicable") (or_else (j_Reason j) "admitted")
         (or_else (j_Handler j) "none") created created (j_Completed j)).

Definition job_invalid (j : Job) : bool :=
  negb (ManagementID (j_ID j)) || negb (ManagementID (j_Owner j)) || negb (ManagementID (j_Correlation j))
  || negb (code (j_Operation j)) || negb (code (j_Capability j)) || negb (validRef (j_Resource j))
  || negb (validRelated (j_Related j)) || negb (optionalID (j_ChangeSet j))
  || negb (optionalID (j_Transaction j)) || negb (optionalID (j_Credential j))
  || negb (optionalRequest (j_RequestID j)) || negb (optionalID (j_RequestEpoch j))
  || ((j_State j <>s "queued") && (j_State j <>s "running") && negb (Terminal (j_State j))
      && (j_State j <>s "needs-attention"))
  || ((j_Handler j <>s "none") && (j_Handler j <>s "tls-activation") && (j_Handler j <>s "provider")
      && (j_Handler j <>s "field-execution")).

Definition running_state (s : string) : bool := (s =s "running") || (s =s "cancel-requested").

(** A terminal job is complete and cannot be cancelled. *)
Definition settle (j : Job) : Job :=
  if Terminal (j_State j) then
    mkJob (j_Related j) (j_ID j) (j_Sequence j) (j_State j) (j_Operation j) (j_Owner j) (j_Capability j)
      (j_Resource j) (j_Correlation j) (j_RequestID j) (j_RequestDomain j) (j_RequestEpoch j)
      (j_Credential j) (j_ChangeSet j) (j_Transaction j) false (j_CancelRequested j) (j_Dispatch j)
      (j_Business j) (j_Commit j) (j_Applied j) (j_Confirmation j) (j_Reason j) (j_Handler j)
      (j_Created j) (j_Updated j) (Some (j_Updated j))
  else j.

Definition job_event (j : Job) (operation : string) (critical : bool) (created : Z) : EvRecord :=
  record (j_Related j) "event" "Manager" (j_Capability j) operation (j_State j) (j_Reason j) (j_Resource j)
    (j_ID j) (j_Transaction j) (j_ChangeSet j) (j_Correlation j) (j_RequestID j) (j_RequestDomain j)
    (j_RequestEpoch j) critical created.

(** go: internal/repository/evidence/write.go CreateJob *)
Definition CreateJob (req : EvRequest) (j : Job) : tx Job :=
  do j <- complete_job req j in
  do _ <- guard (job_invalid j) (Fail 422 "INVALID_JOB") in
  do d <- get in
  let limit := MaxJobs - (if ControlOperation (j_Operation j) then 0 else ReservedControlRecords) in
  do _ <- guard ((limit <=? Z.of_nat (size (jobs d)))
                 || ((j_State j =s "queued") && (MaxQueued <=? count (fun _ r => snd r =s "queued") (jobs d)))
                 || ((j_State j =s "running") && (MaxRunning <=? count (fun _ r => running_state (snd r)) (jobs d))))
       (Fail 429 "JOB_CAPACITY_REACHED") in
  let j := settle j in
  do _ <- guard (negb (validOutcomes j)) (Fail 422 "INVALID_JOB_OUTCOME") in
  do _ <- guard (not_nil (jobs d !! j_ID j)) constraint_failed in
  do _ <- modify (fun d => with_jobs d (<[j_ID j := (j_Transaction j, j_State j)]> (jobs d))
                             (evidence_jobs d) (evidence_revision d)) in
  do j <- saveJob j true in
  do _ <- Append req (job_event j "job-created" (ControlOperation (j_Operation j)) (j_Created j)) in
  ret j.

(** go: internal/repository/evidence/write.go Transition *)
Record Transition := mkTransition {
  t_State : string; t_Dispatch : string; t_Business : string; t_Commit : string; t_Applied : string;
  t_Confirmation : string; t_Reason : string }.

(** The transitions of the job state machine.
    go: internal/repository/evidence/write.go:275-284 ChangeJob *)
Definition valid_transition (handler from to_ : string) : bool :=
  if from =s "queued" then
    (to_ =s "running") || (to_ =s "cancelled") || (to_ =s "failed") || (to_ =s "needs-attention")
  else if (from =s "running") || (from =s "cancel-requested") || (from =s "needs-attention") then
    (to_ =s "cancel-requested") || (to_ =s "needs-attention") || Terminal to_
    || ((handler =s "field-execution") && (to_ =s "running") && (from =s "running"))
  else false.

(** The job a valid transition leads to.
    go: internal/repository/evidence/write.go:297-313 ChangeJob *)
Definition moved (j : Job) (t : Transition) (at_ : Z) : Job :=
  let cancel := t_State t =s "cancel-requested" in
  settle (mkJob (j_Related j) (j_ID j) (j_Sequence j) (t_State t) (j_Operation j) (j_Owner j)
    (j_Capability j) (j_Resource j) (j_Correlation j) (j_RequestID j) (j_RequestDomain j)
    (j_RequestEpoch j) (j_Credential j) (j_ChangeSet j) (j_Transaction j)
    (if cancel then false else j_Cancellable j) (if cancel then true else j_CancelRequested j)
    (or_else (t_Dispatch t) (j_Dispatch j)) (or_else (t_Business t) (j_Business j))
    (or_else (t_Commit t) (j_Commit j)) (or_else (t_Applied t) (j_Applied j))
    (or_else (t_Confirmation t) (j_Confirmation j)) (t_Reason t) (j_Handler j) (j_Created j) at_
    (j_Completed j)).

Definition optional_code (s : string) : bool := (s =s "") || code s.

Definition completed_receipt (row : receipt_row) (at_ : Z) : receipt_row :=
  let r := ar_receipt row in
  mkReceiptRow (ar_fingerprint row) (ar_initial row) (ar_status row) (ar_body row)
    (mkReceipt (rc_RequestID r) (rc_Domain r) (rc_Epoch r) "completed" (rc_Effect r) (rc_Resource r)
       (rc_Job r) (rc_CorrelationID r))
    (ar_created row) (Some (unix_milli at_)) (ar_operation row).
Definition waits_for (id : string) (row : receipt_row) : bool :=
  is_nil (ar_completed row) && match rc_Job (ar_receipt row) with Some r => ref_ID r =s id | None => false end.
(** Every receipt that waits for the job is completed; the update names the
    management domain.
    go: internal/repository/evidence/write.go completeReceipts *)
Definition completeReceipts (j : Job) (at_ : Z) : tx unit :=
  modify (fun d => with_receipts d (map_imap (fun k row =>
    if waits_for (j_ID j) row && (snd (fst k) =s "management")
    then Some (completed_receipt row at_) else Some row) (api_receipts d))).

(** go: internal/repository/evidence/write.go ChangeJob *)
Definition ChangeJob (req : EvRequest) (id expected : string) (t : Transition) (at_ : Z) : tx Job :=
  do j <- LoadJob id in
  do _ <- guard (expected <>s j_Sequence j) (Fail 409 "JOB_REVISION_CHANGED") in
  do _ <- guard (Terminal (j_State j)) (Fail 409 "JOB_TERMINAL") in
  do _ <- guard (negb (valid_transition (j_Handler j) (j_State j) (t_State t)) || negb (code (t_Reason t)))
       (Fail 422 "INVALID_JOB_TRANSITION") in
  do d <- get in
  do _ <- guard ((j_State j =s "queued") && (t_State t =s "running")
                 && (MaxRunning <=? count (fun _ r => running_state (snd r)) (jobs d)))
       (Fail 429 "JOB_RUNNING_CAPACITY_REACHED") in
  do _ <- guard (negb (forallb optional_code
                        [t_Dispatch t; t_Business t; t_Commit t; t_Applied t; t_Confirmation t]))
       (Fail 422 "INVALID_JOB_OUTCOME") in
  let j := moved j t at_ in
  do _ <- guard (negb (validOutcomes j)) (Fail 422 "INVALID_JOB_OUTCOME") in
  do j <- saveJob j false in
  do _ <- (if not_nil (j_Completed j) then completeReceipts j at_ else ret tt) in
  do _ <- Append req (job_event j "job-state-changed" true at_) in
  ret j.

End Evidence.
