(* ===== verification/Reservations.v ===== *)
(** * Identity reservations and field protections

    repository/inventory/creation.go reserves management identities for the
    objects a transaction may create; executions/bridge_delete.go and the
    admission loop of executions/engine.go take the operation protections
    that serialise transactions on the same native objects. Both are part of
    the admission transaction. *)

From S2P Require Import Prelude GoStrings GoTime GoJson ApiTypes CandidateTypes Intents ExecTypes Store.

Module Reservations.

(** go: internal/inventory/types.go MaxIdentities *)
Definition MaxIdentities : Z := 16384.

(** ** Identities *)

Definition consumed (d : db) (b : Binding) : bool :=
  not_nil (identities d !! ManagementID_ b)
  || (0 <? count (fun _ r => (id_generation r =s Generation b) && (id_table r =s Table b) && (id_uuid r =s OVSUUID b))
             (identities d)).

(** One binding of a reservation: a fresh identity, pending for the
    transaction.
    go: internal/repository/inventory/creation.go:39-52 ReserveCreations *)
Definition reserve_binding (transaction marker : string) (b : Binding) : tx unit :=
  do d <- get in
  do _ <- guard (consumed d b) (Fail 409 "CREATION_IDENTITY_CONSUMED") in
  do _ <- guard (not_nil (identity_creations d !! ManagementID_ b) || negb (slen marker =? 64)) constraint_failed in
  modify (fun d => with_identities d
    (<[ManagementID_ b := mkIdentity (Generation b) (Table b) (OVSUUID b) "pending"]> (identities d))
    (<[ManagementID_ b := (transaction, marker)]> (identity_creations d))).

Fixpoint reserve_bindings (transaction marker : string) (bs : list Binding) : tx unit :=
  match bs with
  | [] => ret tt
  | b :: r => do _ <- reserve_binding transaction marker b in reserve_bindings transaction marker r
  end.

(** go: internal/repository/inventory/creation.go reserveTopology *)
Definition reserveTopology (transaction marker : string) (bs : list Binding) : tx unit :=
  do d <- get in
  do _ <- guard (MaxIdentities <? Z.of_nat (size (identities d)) + len bs) (Fail 503 "IDENTITY_REGISTRY_FULL") in
  reserve_bindings transaction marker bs.

(** go: internal/repository/inventory/creation.go:25-31 ReserveCreations *)
Definition creation_valid (i : StoredIntent) : bool :=
  ((i_Operation i =s BridgeCreate)
   && match i_Creation i with Some c => negb (bc_BeforePresent c) && bc_AfterPresent c | None => false end)
  || ((i_Operation i =s InternalPortCreate)
      && match i_PortCreation i with Some p => negb (ip_BeforePresent p) && ip_AfterPresent p | None => false end).

(** go: internal/repository/inventory/creation.go:19-53 ReserveCreations *)
Definition reserve_creation (transaction marker : string) (i : StoredIntent) : tx unit :=
  match i_Topology i with
  | Some _ => reserveTopology transaction marker (TopologyCreations i false)
  | None =>
    if (i_Operation i <>s BridgeCreate) && (i_Operation i <>s InternalPortCreate) then ret tt
    else
      do _ <- guard (negb (creation_valid i)) (Fail 422 "INVALID_CREATION_RESERVATION") in
      reserveTopology transaction marker (CreationBindings i)
  end.
Fixpoint each {A} (f : A -> tx unit) (l : list A) : tx unit :=
  match l with
  | [] => ret tt
  | x :: r => do _ <- f x in each f r
  end.
(** go: internal/repository/inventory/creation.go ReserveCreations *)
Definition ReserveCreations (transaction marker : string) (l : list StoredIntent) : tx unit :=
  each (reserve_creation transaction marker) l.

(** go: internal/repository/inventory/creation.go RetirePending *)
Definition RetirePending (transaction : string) : tx unit :=
  modify (fun d => with_identities d
    (map_imap (fun k r =>
       if (id_state r =s "pending")
          && match identity_creations d !! k with Some (t, _) => t =s transaction | None => false end
       then Some (mkIdentity (id_generation r) (id_table r) (id_uuid r) "tombstone") else Some r)
       (identities d))
    (identity_creations d)).

(** go: internal/repository/inventory/creation.go:67-98 ReserveRestorations *)
Definition reserve_restoration (transaction marker : string) (i : StoredIntent) : tx unit :=
  match i_Topology i with
  | Some _ => reserveTopology transaction marker (TopologyCreations i true)
  | None =>
    if i_Operation i =s InternalPortDelete then
      do _ <- guard (match i_PortDeletion i with None => true | Some d => pd_Restoring d || pd_Observed d end)
           (Fail 422 "INVALID_RESTORATION_RESERVATION") in
      match InternalPortGraphIntent (Reverse i) with
      | None => fail (Fail 422 "INVALID_RESTORATION_RESERVATION")
      | Some creation => ReserveCreations transaction marker [creation]
      end
    else if i_Operation i <>s BridgeDelete then ret tt
    else
      match i_Deletion i with
      | None => fail (Fail 422 "INVALID_RESTORATION_RESERVATION")
      | Some del =>
        do _ <- guard (bd_Restoring del || bd_Observed del) (Fail 422 "INVALID_RESTORATION_RESERVATION") in
        let g := bd_Replacement del in
        ReserveCreations transaction marker
          [mkStored None None None None None None None "" BridgeCreate (bg_Bridge g) zero_vlan zero_vlan "" ""
             None None [] (Some (mkBridgeCreation (bg_Name g) (bg_Root g) (bg_Port g) (bg_Interface g) false true))
             None None None]
      end
  end.
(** go: internal/repository/inventory/creation.go ReserveRestorations *)
Definition ReserveRestorations (transaction marker : string) (l : list StoredIntent) : tx unit :=
  each (reserve_restoration transaction marker) l.

(** ** Operation protections *)

Definition protected (d : db) (resource : string) (fields : option (list string)) : bool :=
  0 <? count (fun k _ => (fst k =s resource)
                && match fields with None => true | Some fs => contains fs (snd k) end)
         (operation_protections d).

Definition insert_protection (resource field id : string) : tx unit :=
  do d <- get in
  do _ <- guard (not_nil (operation_protections d !! (resource, field))) constraint_failed in
  modify (fun d => with_protections d (<[(resource, field) := id]> (operation_protections d))).

(** The [protect] closure: no protection of any field of the resource.
    go: internal/repository/executions/bridge_delete.go:19-29 protectGraph *)
Definition protect (id resource field : string) : tx unit :=
  do d <- get in
  do _ <- guard (protected d resource None) (Fail 409 "FIELD_PROTECTED") in
  insert_protection resource field id.

(** go: internal/repository/executions/bridge_delete.go protectGraph *)
Definition protectGraph (id root : string) (bindings : list Binding) : tx unit :=
  do _ <- protect id root "root.bridge-creation" in
  each (fun b => protect id (ManagementID_ b) "object.lifecycle") bindings.

(** go: internal/repository/executions/bridge_delete.go protectDeletion *)
Definition protectDeletion (id : string) (d : BridgeDeletion) : tx unit :=
  protectGraph id (bg_Root (bd_Source d)) (graph_Bindings (bd_Source d) ++ graph_Bindings (bd_Replacement d)).

Definition field_paths : list string := ["port.vlan"; "port.bond"; "root.bridge-creation"; "object.lifecycle"].

(** The reservation of one intent's field group at admission.
    go: internal/repository/executions/engine.go:242-326 submit *)
Definition protect_intent (id root : string) (graph : list Binding) (i : StoredIntent) : tx unit :=
  let op := i_Operation i in
  if (op =s SpanningTreeConfigure) || (op =s PortIsolationSet) || (op =s BridgeMulticastSet) then
    do _ <- guard (is_empty graph)
         (Fail 409 (if op =s BridgeMulticastSet then "MULTICAST_GRAPH_RESERVATION_REQUIRED"
                    else if op =s PortIsolationSet then "ISOLATION_GRAPH_RESERVATION_REQUIRED"
                    else "SPANNING_TREE_GRAPH_RESERVATION_REQUIRED")) in
    protectGraph id root graph
  else if not_nil (i_Topology i) then protectGraph id root (TopologyBindings i)
  else
    match i_MTU i, i_PortDeletion i, i_PortCreation i, i_Deletion i with
    | Some m, _, _, _ =>
      protectGraph id root
        (fold_left append_binding (match m_Default m with Some d => default [] (md_Bindings d) | None => [] end)
           [m_Bridge m; m_Port m; i_Object i])
    | _, Some d, _, _ =>
      protectGraph id (ip_Root (pg_Configuration (pd_Source d)))
        (ip_Bridge (pg_Configuration (pd_Source d)) :: port_graph_Bindings (pd_Source d)
         ++ port_graph_Bindings (pd_Replacement d))
    | _, _, Some p, _ => protectGraph id (ip_Root p) [ip_Bridge p; i_Object i; ip_Interface p]
    | _, _, _, Some d => protectDeletion id d
    | _, _, _, None =>
      let '(field, resource) := match i_Creation i with
                                | Some c => ("root.bridge-creation", bc_Root c)
                                | None => ("port.vlan", ManagementID_ (i_Object i))
                                end in
      let field := if IsBondOperation op then "port.bond" else field in
      do d <- get in
      do _ <- guard (protected d resource (Some field_paths)) (Fail 409 "FIELD_PROTECTED") in
      insert_protection resource field id
    end.

Definition release_protections (id : string) : tx unit :=
  modify (fun d => with_protections d (filter (fun kv => snd kv <> id) (operation_protections d))).

End Reservations.
