(* ===== verification/Program.v ===== *)
(** * Programs of the manager: storage, provider and clock effects

    [prog] is the interaction tree of one goroutine: a finite tree of the
    effects it performs in order. A transaction is one atomic effect; between
    effects other goroutines may run, and the process may stop. [run]
    interprets a program against a world that answers every question. *)

From S2P Require Import Prelude GoStrings GoTime GoJson ApiTypes CandidateTypes ExecTypes Store.

(** Questions a goroutine asks outside a transaction. *)
Inductive query : Type -> Type :=
  | QNow : query Z
  | QClock : query Clock
  | QNewID : query string
  | QWritable : query bool  (* store.Status().Writable *)
  | QCanceled : query (option error)  (* ctx.Err() *)
  | QSlot : query (option error)  (* a password slot, or why there is none *)
  | QSalt : query (list Z)  (* sixteen random bytes *)
  | QWait : query (option error)  (* one turn of a timed wait *)
  | QAuthorize (r : Request) (replay : bool) : query (result Authorization)
  | QReauthorize : query (option error)
  | QAuthority (a : Authorization) : query (option error)
  | QLease (r : Request) : query (option error)
  | QProbe : query (option error)
  | QConsults : query bool  (* whether the provider consults execution.CheckAdmission *)
  | QPrepare (id marker : string) (e : Envelope) : query (result Plan)
  | QPrepareRollback (p : Plan) (marker : string) : query (result Plan)
  | QObserve (p : Plan) (o : Outcome) : query Outcome
  | QPreflight (p : Plan) : query (option Outcome)  (* Commit gives up before beforeSend *)
  | QDenied (p : Plan) : query Outcome  (* Commit's answer after beforeSend failed *)
  | QUnsent (p : Plan) : query (option Outcome).  (* Commit gives up after beforeSend *)

(** Mutation bytes leave the process for one of these reasons. *)
Inductive dispatch : Type :=
  | Forward (id : string)
  | Compensate (id : string).
#[export] Instance dispatch_eq_dec : EqDecision dispatch.
Proof. solve_decision. Defined.

Inductive prog (A : Type) : Type :=
  | Ret (a : A)
  | Query {X : Type} (q : query X) (k : X -> prog A)
  | Read {X : Type} (f : db -> result X) (k : result X -> prog A)
  | Write {X : Type} (f : tx X) (k : result X -> prog A)
  | Claim (id : string) (k : bool -> prog A)
  | Release (id : string) (k : prog A)
  | Fork (p : prog unit) (k : prog A)
  | Send (w : dispatch) (p : Plan) (k : Outcome -> prog A).
Arguments Ret {A} a.
Arguments Query {A X} q k.
Arguments Read {A X} f k.
Arguments Write {A X} f k.
Arguments Claim {A} id k.
Arguments Release {A} id k.
Arguments Fork {A} p k.
Arguments Send {A} w p k.

Fixpoint pbind {A B : Type} (m : prog A) (k : A -> prog B) : prog B :=
  match m with
  | Ret a => k a
  | Query q c => Query q (fun x => pbind (c x) k)
  | Read f c => Read f (fun x => pbind (c x) k)
  | Write f c => Write f (fun x => pbind (c x) k)
  | Claim id c => Claim id (fun b => pbind (c b) k)
  | Release id c => Release id (pbind c k)
  | Fork p c => Fork p (pbind c k)
  | Send w p c => Send w p (fun o => pbind (c o) k)
  end.
Notation "'run' x '<-' m 'in' k" := (pbind m (fun x => k))
  (at level 10, x pattern, m at level 99, k at level 200, format "'[v' 'run'  x  '<-'  m  'in' '/' k ']'") : go_scope.
(** [x, err := m; if err != nil { return err }; k] *)
Notation "'try' x '<-' m 'in' k" := (pbind m (fun r => match r with Ok x => k | Err e => Ret (Err e) end))
  (at level 10, x pattern, m at level 99, k at level 200, format "'[v' 'try'  x  '<-'  m  'in' '/' k ']'") : go_scope.
(** [if err := m; err != nil { return err }; k] on a question whose answer is the error. *)
Notation "'must' m ';;' k" := (pbind m (fun r => match r with None => k | Some e => Ret (Err e) end))
  (at level 10, m at level 99, k at level 200, format "'[v' 'must'  m  ';;' '/' k ']'") : go_scope.
Notation "'reject_if' b 'with' e ';;' k" := (if b then Ret (Err e) else k)
  (at level 10, b at level 99, e at level 99, k at level 200, format "'[v' 'reject_if'  b  'with'  e  ';;' '/' k ']'") : go_scope.

Definition query_ {X} (q : query X) : prog X := Query q Ret.
Definition read {X} (f : db -> result X) : prog (result X) := Read f Ret.
Definition write {X} (f : tx X) : prog (result X) := Write f Ret.
Definition ignore {A} (p : prog A) : prog unit := pbind p (fun _ => Ret tt).

(** [execution.Provider.Commit]: [beforeSend] runs at most once and succeeds
    immediately before mutation bytes are written.
    go: internal/execution/types.go Provider *)
Definition provider_commit (w : dispatch) (p : Plan) (beforeSend : prog (result unit)) : prog Outcome :=
  run early <- query_ (QPreflight p) in
  match early with
  | Some o => Ret o
  | None =>
    run r <- beforeSend in
    match r with
    | Err _ => query_ (QDenied p)
    | Ok _ =>
      run unsent <- query_ (QUnsent p) in
      match unsent with
      | Some o => Ret o
      | None => Send w p Ret
      end
    end
  end.

(** ** Running against a world *)

(** The n-th answer of every kind; [w_claims] is what the in-memory map of
    active transactions says. *)
Record world := mkWorld {
  w_query : forall X, query X -> nat -> X;
  w_env : nat -> env;
  w_send : dispatch -> Plan -> nat -> Outcome }.

Record state := mkState {
  st_db : db; st_active : gset string; st_sent : list (dispatch * Plan); st_tick : nat }.
Definition tick (s : state) : state := mkState (st_db s) (st_active s) (st_sent s) (S (st_tick s)).
Definition st_with_db (s : state) (d : db) : state := mkState d (st_active s) (st_sent s) (st_tick s).

(** [Store.Write] on a healthy store: commit or roll back. *)
Definition commit_tx {X} (f : tx X) (w : env) (d : db) : result X * db :=
  match f w 0%nat d with
  | Ok (a, _, d') => (Ok a, d')
  | Err e => (Err (failure e), d)
  end.
Definition read_db {X} (f : db -> result X) (d : db) : result X :=
  match f d with Ok x => Ok x | Err e => Err (failure e) end.

(** One goroutine alone, its forks run to their end where they start. *)
Fixpoint interpret {A : Type} (w : world) (m : prog A) (s : state) : A * state :=
  match m with
  | Ret a => (a, s)
  | Query q k => interpret w (k (w_query w _ q (st_tick s))) (tick s)
  | Read f k => interpret w (k (read_db f (st_db s))) (tick s)
  | Write f k =>
    let '(r, d) := commit_tx f (w_env w (st_tick s)) (st_db s) in
    interpret w (k r) (tick (st_with_db s d))
  | Claim id k =>
    if bool_decide (id ∈ st_active s) then interpret w (k false) (tick s)
    else interpret w (k true) (tick (mkState (st_db s) ({[id]} ∪ st_active s) (st_sent s) (st_tick s)))
  | Release id k => interpret w k (tick (mkState (st_db s) (st_active s ∖ {[id]}) (st_sent s) (st_tick s)))
  | Fork p k => let '(_, s') := interpret w p s in interpret w k s'
  | Send d p k =>
    interpret w (k (w_send w d p (st_tick s))) (tick (mkState (st_db s) (st_active s) ((d, p) :: st_sent s) (st_tick s)))
  end.
