(* ===== verification/Requests.v ===== *)
(** * internal/repository/requests: durable API idempotency

    A command's receipt is written in the transaction of its mutation; the
    same key and fingerprint replay it, another fingerprint is refused. *)

From S2P Require Import Prelude GoStrings Sha256 GoTime GoJson GoJsonParse ApiTypes CandidateTypes ExecTypes Store Evidence Program.

Module Requests.

(** go: internal/repository/requests/requests.go MaxReceipts *)
Definition MaxReceipts : Z := 100000.

(** go: internal/repository/requests/requests.go Command *)
Record Command := mkCommand {
  cm_Principal : string; cm_Epoch : string; cm_Domain : string; cm_ID : string; cm_Operation : string;
  cm_Method : string; cm_URI : string; cm_Precondition : string; cm_Credential : string;
  cm_Capability : string; cm_Payload : string; cm_Sensitive : bool; cm_FingerprintKey : list Z;
  cm_SecretResponse : bool }.
(** go: internal/repository/requests/requests.go Mutation *)
Record Mutation := mkMutation {
  mu_Status : Z; mu_Body : string; mu_Resource : option Ref; mu_Job : option Ref; mu_Terminal : bool;
  mu_SecretResponse : bool }.
(** go: internal/apitypes/types.go Result *)
Record Result_ := mkResult { rs_Status : Z; rs_Body : string; rs_Receipt : Receipt; rs_Replayed : bool }.

Definition receipt_json (r : Receipt) : json :=
  JObj [("request_id", JStr (rc_RequestID r)); ("request_domain", JStr (rc_Domain r));
        ("request_epoch", JStr (rc_Epoch r)); ("state", JStr (rc_State r)); ("command_effect", JStr (rc_Effect r));
        ("resource_ref", jopt ref_json (rc_Resource r)); ("job_ref", jopt ref_json (rc_Job r));
        ("correlation_id", JStr (rc_CorrelationID r))].
Definition accepted_json (a : Accepted) : json :=
  JObj [("request_id", JStr (ac_RequestID a)); ("request_domain", JStr (ac_Domain a));
        ("request_epoch", JStr (ac_Epoch a)); ("job_id", JStr (ac_JobID a));
        ("resource_ref", jopt ref_json (ac_Resource a)); ("correlation_id", JStr (ac_CorrelationID a))].

(** ** The fingerprint *)

(** The text before the first character for which [p] holds, and after it. *)
Fixpoint cut (p : ascii -> bool) (s : string) : string * option string :=
  match s with
  | EmptyString => (EmptyString, None)
  | String c r => if p c then (EmptyString, Some r) else let '(a, b) := cut p r in (String c a, b)
  end.
Fixpoint trim_left_zero (s : string) : string :=
  match s with String "0" r => trim_left_zero r | _ => s end.
Definition trim_right_zero (s : string) : string := reverse_string (trim_left_zero (reverse_string s)).

(** The decimal spelling without redundant zeros, and its exponent.
    go: internal/repository/requests/requests.go:136-166 canonicalValue *)
Definition canonical_number (lit : string) : option string :=
  let '(negative, text) := match lit with String "-" r => (true, r) | _ => (false, lit) end in
  let '(text, exp) := cut (fun c => Ascii.eqb c "e" || Ascii.eqb c "E") text in
  match match exp with None => Some 0 | Some t => parse_int t 32 end with
  | None => None
  | Some exponent =>
    let '(whole, frac) := cut (fun c => Ascii.eqb c ".") text in
    let '(text, exponent) := match frac with
                             | Some f => ((whole ++ f)%string, exponent - slen f)
                             | None => (whole, exponent)
                             end in
    let text := trim_left_zero text in
    if text =s "" then Some "0e0"
    else
      let trimmed := trim_right_zero text in
      let exponent := exponent + (slen text - slen trimmed) in
      Some ((if negative then "-" else "") ++ trimmed ++ "e" ++ format_int exponent)%string
  end.

(** Tagged values: a number never reads like a string or an array.
    go: internal/repository/requests/requests.go canonicalValue *)
Fixpoint canonicalValue (v : value) : option json :=
  match v with
  | VNumber t => option_map (fun c => JArr [JStr "number"; JStr c]) (canonical_number t)
  | VObject l =>
    option_map (fun m => JArr [JStr "object"; jmap id (last_wins m)])
      ((fix members (l : list (string * value)) : option (list (string * json)) :=
          match l with
          | [] => Some []
          | (k, x) :: r =>
            match canonicalValue x, members r with Some j, Some t => Some ((k, j) :: t) | _, _ => None end
          end) l)
  | VArray l =>
    option_map (fun m => JArr [JStr "array"; JArr m])
      ((fix items (l : list value) : option (list json) :=
          match l with
          | [] => Some []
          | x :: r => match canonicalValue x, items r with Some j, Some t => Some (j :: t) | _, _ => None end
          end) l)
  | VString s => Some (JArr [JStr "string"; JStr s])
  | VBool b => Some (JArr [JStr "boolean"; JBool b])
  | VNull => Some (JArr [JStr "null"])
  end.

(** The text that is hashed. *)
Definition fingerprint_text (c : Command) (payload : json) : string :=
  marshal (JArr [JStr (cm_Operation c); JStr (cm_Method c); JStr (cm_URI c); JStr (cm_Precondition c); payload]).

(** go: internal/repository/requests/requests.go fingerprint *)
Definition fingerprint (c : Command) : result string :=
  match parse_json (cm_Payload c) ≫= canonicalValue with
  | None => Err (Fail 422 "INVALID_REQUEST")
  | Some payload =>
    let data := fingerprint_text c payload in
    if cm_Sensitive c then
      fail_if len (cm_FingerprintKey c) <? 32 with Fail 503 "SECRETSTORE_UNAVAILABLE" ;;
      Ok ("hmac-sha256:" ++ hex_encode (hmac_sha256 (cm_FingerprintKey c) (bytes data)))%string
    else Ok ("sha256:" ++ sha256_hex data)%string
  end.

(** ** Receipts *)

Definition key_of (c : Command) : receipt_key := (cm_Principal c, cm_Epoch c, cm_Domain c, cm_ID c).

(** A stored receipt answers a command with its own fingerprint. *)
Definition replay_row (digest : string) (row : receipt_row) : result Result_ :=
  fail_if digest <>s ar_fingerprint row with Fail 409 "IDEMPOTENCY_MISMATCH" ;;
  Ok (mkResult (ar_status row) (ar_body row) (ar_receipt row) true).

(** [None]: no receipt yet.
    go: internal/repository/requests/requests.go Repository.Replay *)
Definition Replay (c : Command) (authorize : prog (option error)) : prog (result (option Result_)) :=
  must authorize ;;
  match fingerprint c with
  | Err e => Ret (Err e)
  | Ok digest =>
    run r <- read (fun d =>
      match api_receipts d !! key_of c with
      | None => Err ENoRows
      | Some row => replay_row digest row
      end) in
    Ret (match r with
         | Ok out => Ok (Some out)
         | Err ENoRows => Ok None
         | Err ENotFound => Ok None
         | Err e => Err e
         end)
  end.

(** The manager's authority owns this request domain. *)
Definition domain : string := "management".
Definition Minute : Z := 60 * Second.

(** Whether the service's answer may be stored.
    go: internal/repository/requests/requests.go:271-285 Repository.Execute *)
Definition response_invalid (r : Mutation) : bool :=
  (mu_Status r <? 200) || (299 <? mu_Status r) || (mu_Status r =? 204) || negb (json_valid (mu_Body r))
  || (65536 <? slen (mu_Body r))
  || ((mu_Status r =? 202)
      && match mu_Job r, mu_Resource r with
         | Some j, Some res => (ref_Kind j <>s "job") || negb (ManagementID (ref_ID j))
                               || negb (ManagementID (ref_ID res))
         | _, _ => true
         end).

(** The receipt, the answer and the row of an accepted mutation.
    go: internal/repository/requests/requests.go:286-312 Repository.Execute *)
Definition accept (c : Command) (digest correlation : string) (at_ : Z) (m : Mutation) : Result_ * receipt_row :=
  let receipt := mkReceipt (cm_ID c) (cm_Domain c) (cm_Epoch c)
                   (if mu_Terminal m then "completed" else "accepted")
                   (if not_nil (mu_Resource m) then "linked-resource" else "unknown")
                   (mu_Resource m) (mu_Job m) correlation in
  let body :=
    match mu_Status m =? 202, mu_Job m with
    | true, Some j => marshal (accepted_json (mkAccepted (cm_ID c) (cm_Domain c) (cm_Epoch c) (ref_ID j)
                                                (mu_Resource m) correlation))
    | _, _ => mu_Body m
    end in
  let secret := cm_SecretResponse c || mu_SecretResponse m in
  (mkResult (mu_Status m) body receipt false,
   mkReceiptRow digest (mu_Status m) (if secret then 200 else mu_Status m)
     (if secret then marshal (receipt_json receipt) else body) receipt (unix_milli at_)
     (if mu_Terminal m then Some (unix_milli at_) else None) (cm_Operation c)).

(** The admission of a new command inside the transaction.
    go: internal/repository/requests/requests.go:237-312 Repository.Execute *)
Definition execute_new (c : Command) (digest : string) (mutate : EvRequest -> tx Mutation) : tx Result_ :=
  do d <- get in
  do at_ <- now in
  do _ <- guard (api_epoch d <>s cm_Epoch c) (Fail 410 "REQUEST_EPOCH_CHANGED") in
  do _ <- guard (unix_milli at_ + 120000 <? api_high d) (Fail 503 "CLOCK_UNSAFE") in
  let key_time := default 0 (RequestTime (cm_ID c)) * Millisecond in
  do _ <- guard ((5 * Minute <? at_ - key_time) || (2 * Minute <? key_time - at_))
       (Fail 410 "REQUEST_KEY_EXPIRED") in
  let limit := MaxReceipts - (if Evidence.ControlOperation (cm_Operation c) then 0
                              else Evidence.ReservedControlRecords) in
  do _ <- guard (limit <=? Z.of_nat (size (api_receipts d))) (Fail 429 "RESOURCE_BUDGET_EXCEEDED") in
  do correlation <- NewID in
  do m <- mutate (mkEvRequest (cm_Principal c) (cm_Credential c) (cm_Capability c) (cm_Operation c)
                    (cm_Domain c) (cm_Epoch c) (cm_ID c) correlation) in
  do _ <- guard (response_invalid m) (Fail 500 "INVALID_SERVICE_RESPONSE") in
  do d <- get in
  do _ <- guard ((mu_Status m =? 202)
                 && match mu_Job m with Some j => is_nil (jobs d !! ref_ID j) | None => true end)
       (Fail 500 "JOB_NOT_DURABLE") in
  let '(out, row) := accept c digest correlation at_ m in
  do _ <- guard (not_nil (api_receipts d !! key_of c) || (65536 <? slen (ar_body row))
                 || (4096 <? slen (marshal (receipt_json (ar_receipt row))))) constraint_failed in
  do _ <- modify (fun d => with_high (with_receipts d (<[key_of c := row]> (api_receipts d)))
                             (Z.max (api_high d) (unix_milli at_))) in
  ret out.

(** [reauthorize] is asked again inside the transaction. *)
Definition execute_tx (c : Command) (digest : string) (mutate : EvRequest -> tx Mutation) : tx Result_ :=
  do denied <- ask check_at in
  match denied with
  | Some e => fail e
  | None =>
    do d <- get in
    match api_receipts d !! key_of c with
    | Some row => lift (replay_row digest row)
    | None => execute_new c digest mutate
    end
  end.

(** go: internal/repository/requests/requests.go Repository.Execute *)
Definition Execute (c : Command) (reauthorize : prog (option error)) (mutate : EvRequest -> tx Mutation)
  : prog (result Result_) :=
  reject_if is_nil (RequestTime (cm_ID c)) || negb (ManagementID (cm_Principal c))
            || negb (ManagementID (cm_Epoch c)) || (cm_Domain c <>s domain) || (cm_Operation c =s "")
            || (4096 <? slen (cm_URI c))
            || (cm_Payload c =s "") || (1048576 <? slen (cm_Payload c)) || negb (json_valid (cm_Payload c))
    with Fail 422 "INVALID_REQUEST" ;;
  must reauthorize ;;
  match fingerprint c with
  | Err e => Ret (Err e)
  | Ok digest => write (execute_tx c digest mutate)
  end.

End Requests.
