(* ===== verification/Executions.v ===== *)
(** * internal/repository/executions: the field journal (engine.go, evidence.go)

    [submit] admits a request durably (receipt, journal, reservations,
    protections, job) and dispatches its plan through the provider's
    write-ahead callback; [saveOutcome] and [transition] move the journal on;
    [Reconcile] and [Recover] only observe. *)

From S2P Require Import Prelude GoStrings Sha256 GoTime GoJson ApiTypes CandidateTypes Intents ExecTypes Store.
From S2P Require Import Evidence Reservations Program Requests.

Module Executions.

(** go: internal/repository/executions/engine.go MaxRecords *)
Definition MaxRecords : Z := 1024.
(** go: internal/repository/executions/engine.go MaxUnsettled *)
Definition MaxUnsettled : Z := 16.

(** The engine's fixed configuration: the key of its markers, and the options
    of [ConfigureSafety] ([None] until it succeeds): the probe's domain and the
    confirmation window.
    go: internal/repository/executions/engine.go Engine *)
Record Engine := mkEngine { en_key : list Z; en_safety : option (string * Z) }.

(** [safeAdmission]: the public command and the reservation of a Safe Apply.
    go: internal/repository/executions/safety.go safeAdmission *)
Record safeAdmission := mkAdmission { sf_command : Requests.Command; sf_reservation : string }.

(** go: internal/repository/executions/engine.go terminal *)
Definition terminal (r : Execution) : bool := (x_State r =s "succeeded") || (x_State r =s "failed").

(** A row whose document does not name it, or has no sequence, is unreadable.
    go: internal/repository/executions/engine.go load *)
Definition load (d : db) (id : string) : result Execution :=
  match field_executions d !! id with
  | None => Err ENoRows
  | Some row =>
    fail_if (x_ID (fe_doc row) <>s id) || (x_Sequence (fe_doc row) =s "") with EUnavailable ;;
    Ok (fe_doc row)
  end.
(** go: internal/repository/executions/safety.go loadSafety *)
Definition loadSafety (d : db) (id : string) : result SafetyRecord :=
  match safe_applies d !! id with
  | None => Err ENoRows
  | Some row =>
    fail_if (s_State (sa_doc row) =s "") || (Domain (sa_doc row) =s "") with EUnavailable ;;
    Ok (sa_doc row)
  end.
(** go: internal/repository/executions/engine.go Engine.Read *)
Definition Read_ (id : string) : prog (result Execution) := read (fun d => load d id).

(** The document's budget.
    go: internal/repository/executions/engine.go encode *)
Definition encode (r : Execution) : result unit :=
  fail_if 327680 <? slen (marshal (JObj (execution_fields r
            ++ [("authorization", authorization_json (x_Authorization r)); ("plan", plan_json (x_Plan r))])))
    with Fail 429 "EXECUTION_RECORD_BUDGET" ;; Ok tt.

(** ** evidence.go *)

Definition add_ref (out : list Ref) (r : Ref) : list Ref := if bool_decide (r ∈ out) then out else out ++ [r].
Definition ref_kind (table : string) : string :=
  if table =s "Bridge" then "bridge" else if table =s "Port" then "port"
  else if table =s "Interface" then "interface" else if table =s "Mirror" then "mirror" else "".
(** go: internal/repository/executions/evidence.go:14-52 interfaceEvidenceObjects *)
Definition evidence_refs (out : list Ref) (i : StoredIntent) : list Ref :=
  let id := ManagementID_ (i_Object i) in
  let table := Table (i_Object i) in
  if (i_Operation i =s PortIsolationSet) && (table =s "Port") && ManagementID id then out ++ [mkRef "port" id]
  else if ((i_Operation i =s SpanningTreeConfigure) || (i_Operation i =s BridgeMulticastSet))
          && (table =s "Bridge") && ManagementID id then out ++ [mkRef "bridge" id]
  else match i_Topology i with
       | Some t =>
         fold_left (fun out n => add_ref out (mkRef (ref_kind (Table (n_Binding n))) (ManagementID_ (n_Binding n))))
           (default [] (tp_Before t) ++ default [] (tp_After t)) out
       | None =>
         if ((not_nil (i_MTU i) && IsMTUOperation (i_Operation i))
             || (not_nil (i_Policing i) && (i_Operation i =s InterfacePolicingSet)))
            && (table =s "Interface") && ManagementID id
         then add_ref out (mkRef "interface" id) else out
       end.
(** go: internal/repository/executions/evidence.go interfaceEvidenceObjects *)
Definition interfaceEvidenceObjects (r : Execution) : list Ref :=
  fold_left evidence_refs (intents (e_Candidate (p_Envelope (x_Plan r)))) [].

(** ** Moving the journal *)

(** A refreshed observation time alone is not a transition.
    go: internal/repository/executions/engine.go sameOutcome *)
Definition sameOutcome (a b : Outcome) : bool :=
  let strip o := mkOutcome (Commit o) (Applied o) (o_Reason o) (o_Target o) (o_Current o) None in
  digest_json (outcome_json (strip a)) =s digest_json (outcome_json (strip b)).

(** [elapsed] is [time.Since(r.Created)].
    go: internal/repository/executions/engine.go stateFor *)
Definition stateFor (r : Execution) (o : Outcome) (elapsed : Z) : string :=
  if Commit o =s "rejected" then "failed"
  else if (Commit o =s "committed") && (Applied o =s "applied") then "succeeded"
  else if (Commit o =s "committed") && (Applied o =s "pending") && (x_State r <>s "recovery-required")
          && (elapsed <? AppliedFor) then "applying"
  else "recovery-required".

(** [None] when the sequence cannot be advanced.
    go: internal/repository/executions/engine.go:458-462 Engine.transition *)
Definition next_seq (s : string) : option Z :=
  match parse_int s 64 with
  | Some n => if (n <=? 0) || (n =? 2 ^ 63 - 1) then None else Some (n + 1)
  | None => None
  end.

Definition journal_request (r : Execution) : EvRequest :=
  mkEvRequest (x_Owner r) (a_Credential (x_Authorization r)) "configuration.apply" "createTransaction"
    "management" (a_Epoch (x_Authorization r)) (x_RequestID r) (x_Correlation r).

(** What the job says about an outcome; a Safe Apply keeps its job open.
    go: internal/repository/executions/engine.go:474-498 Engine.transition *)
Definition job_change (state : string) (o : Outcome) (job : Job) (safe : bool) : Evidence.Transition :=
  let '(jobState, dispatch, business) :=
    if state =s "succeeded" then ("succeeded", "completed", "success")
    else if Commit o =s "rejected" then ("failed", "completed", "failure")
    else (if state =s "recovery-required" then "needs-attention" else "running",
          if Commit o =s "unknown" then "unknown" else "sent", "unknown") in
  let '(jobState, business) :=
    if safe then
      (if (state =s "recovery-required") || (j_State job =s "needs-attention") then "needs-attention" else "running",
       "unknown")
    else (jobState, business) in
  Evidence.mkTransition jobState dispatch business (Commit o) (Applied o) "" (o_Reason o).

(** The journal and the execution row of a record.
    go: internal/repository/executions/engine.go:501-507 Engine.transition *)
Definition save_rows (r : Execution) (seq : Z) (journal_state : string) (updated : Z) (d : db) : db :=
  let d := with_journal d (match transaction_journal d !! x_ID r with
                           | Some _ => <[x_ID r := mkJournalRow seq journal_state (Some r)]> (transaction_journal d)
                           | None => transaction_journal d
                           end) in
  with_executions d (match field_executions d !! x_ID r with
                     | Some row => <[x_ID r := mkExecRow (fe_job row) (fe_owner row) (fe_validation row)
                                                (x_State r) (unix_milli updated) r]> (field_executions d)
                     | None => field_executions d
                     end).

Definition audit (r : Execution) (operation result reason : string) (created : Z) : EvRecord :=
  Evidence.record (interfaceEvidenceObjects r) "audit" "Manager" "" operation result reason
    (Some (mkRef "transaction" (x_ID r))) (x_JobID r) (x_ID r) (a_ChangeSet (x_Authorization r)) "" "" "" ""
    true created.

(** go: internal/repository/executions/engine.go Engine.transition *)
Definition transition (r : Execution) (o : Outcome) (state : string) : tx Execution :=
  match next_seq (x_Sequence r) with
  | None => fail EUnavailable
  | Some seq =>
    do updated <- now in
    let r := set_execution r (format_int seq) state o updated in
    do _ <- lift (encode r) in
    do job <- Evidence.LoadJob (x_JobID r) in
    do d <- get in
    let safe := not_nil (safe_applies d !! x_ID r) in
    let req := journal_request r in
    do _ <- Evidence.ChangeJob req (j_ID job) (j_Sequence job) (job_change state o job safe) updated in
    do _ <- modify (save_rows r seq state updated) in
    do _ <- (if terminal r && negb safe then
               do _ <- Reservations.RetirePending (x_ID r) in Reservations.release_protections (x_ID r)
             else ret tt) in
    do _ <- Evidence.Append req (audit r "field-execution-state" state (o_Reason o) updated) in
    ret r
  end.

Definition set_reason (o : Outcome) (reason : string) : Outcome :=
  mkOutcome (Commit o) (Applied o) reason (o_Target o) (o_Current o) (Observed o).

(** go: internal/repository/executions/engine.go:439-447 Engine.saveOutcome *)
Definition save_unsettled (r : Execution) (o : Outcome) : tx unit :=
  do t <- now in
  let state := stateFor r o (t - x_Created r) in
  do t' <- now in
  let o := if (state =s "recovery-required") && (Applied o =s "pending") && (AppliedFor <=? t' - x_Created r)
           then set_reason o "applied-budget-exhausted" else o in
  if sameOutcome (x_Outcome r) o && (x_State r =s state) then ret tt
  else do _ <- transition r o state in ret tt.

(** A settled safety decision owns the final job, not late field reads.
    go: internal/repository/executions/engine.go:422-448 Engine.saveOutcome *)
Definition save_outcome_tx (id : string) (o : Outcome) : tx unit :=
  do d <- get in
  do r <- lift (load d id) in
  if terminal r then ret tt
  else
    match loadSafety d id with
    | Ok s => if Terminal (s_State s) then ret tt else save_unsettled r o
    | Err ENoRows => save_unsettled r o
    | Err e => fail e
    end.
(** go: internal/repository/executions/engine.go Engine.saveOutcome *)
Definition saveOutcome (id : string) (o : Outcome) : prog (result unit) := write (save_outcome_tx id o).

(** ** Recovery *)

(** go: internal/repository/executions/engine.go Engine.Reconcile *)
Definition Reconcile (id : string) : prog (result unit) :=
  Claim id (fun mine =>
    if negb mine then Ret (Ok tt)
    else
      run out <- (try r <- Read_ id in
                  if terminal r then Ret (Ok tt)
                  else if x_State r =s "admitted" then
                    saveOutcome id (outcome "rejected" "not-applied" "recovered-before-dispatch")
                  else
                    run o <- query_ (QObserve (x_Plan r) (x_Outcome r)) in
                    saveOutcome id o) in
      Release id (Ret out)).

(** The safe applies that are still open. *)
Definition settled_safe (d : db) (id : string) : bool :=
  match safe_applies d !! id with Some row => Terminal (sa_state row) | None => false end.
Definition unsettled (d : db) (id : string) (row : exec_row) : bool :=
  negb (contains ["succeeded"; "failed"] (fe_state row)) && negb (settled_safe d id).

(** Oldest update first, at most [MaxUnsettled + 1].
    go: internal/repository/executions/engine.go:525-540 Engine.Recover *)
Definition recover_ids (d : db) : list string :=
  let rows := List.filter (fun kv => unsettled d (fst kv) (snd kv)) (map_to_list (field_executions d)) in
  let before a b := (fe_updated (snd a) <? fe_updated (snd b))
                    || ((fe_updated (snd a) =? fe_updated (snd b)) && String.leb (fst a) (fst b)) in
  take (Z.to_nat (MaxUnsettled + 1)) (fst <$> merge_sort (fun a b => Is_true (before a b)) rows).

Fixpoint reconcile_all (ids : list string) : prog (result unit) :=
  match ids with
  | [] => Ret (Ok tt)
  | id :: r =>
    run out <- Reconcile id in
    match out with
    | Err ECanceled => reconcile_all r
    | Err e => Ret (Err e)
    | Ok _ => reconcile_all r
    end
  end.

(** go: internal/repository/executions/engine.go Engine.Recover *)
Definition Recover : prog (result unit) :=
  try ids <- read (fun d => Ok (recover_ids d)) in
  reject_if MaxUnsettled <? len ids with Fail 503 "EXECUTION_RECOVERY_BUDGET" ;;
  try _ <- reconcile_all ids in
  must query_ QCanceled ;;
  Ret (Ok tt).

End Executions.
