(* ===== verification/SafeApply.v ===== *)
(** * internal/repository/executions: the Safe Apply coordinator (safety.go)

    An admitted apply is [preparing]; the recovery lane ([SafetyTick]) opens
    the confirmation window once the change is applied and the management
    path answers, dispatches the compensation when the window, the authority
    or the path is lost, and reconciles a dispatched compensation without
    sending it again. [Decide] confirms or requests the rollback. Every
    decision is a compare-and-swap on the record's sequence. *)

From S2P Require Import Prelude GoStrings Sha256 GoTime GoJson ApiTypes CandidateTypes Intents ExecTypes Store.
From S2P Require Import Evidence Reservations Program Requests Executions.

Module SafeApply.
Import Executions.

Section engine.
Context (en : Engine).

Definition domain : string := match en_safety en with Some (d, _) => d | None => EmptyString end.
Definition window : Z := match en_safety en with Some (_, w) => w | None => 0 end.

(** go: internal/repository/executions/safety.go Engine.ConfigureSafety *)
Definition ConfigureSafety (compensates : bool) (probe : option string) (authority : bool) (w : Z)
  : result Engine :=
  fail_if negb compensates || match probe with None => true | Some d => d =s "" end || negb authority
    with Fail 409 "SAFE_APPLY_CAPABILITY_UNAVAILABLE" ;;
  let w := if w =? 0 then ConfirmationWindow else w in
  fail_if (w <? 30 * Second) || (600 * Second <? w) with EInvalid ;;
  Ok (mkEngine (en_key en) (Some (default EmptyString probe, w))).

(** go: internal/repository/executions/safety.go Engine.SafetyAvailable *)
Definition SafetyAvailable : prog bool :=
  match en_safety en with None => Ret false | Some _ => query_ QWritable end.

(** go: internal/repository/executions/safety.go Engine.safetyReady *)
Definition safetyReady : prog (result unit) :=
  run available <- SafetyAvailable in
  if negb available then Ret (Err (Fail 409 "SAFE_APPLY_CAPABILITY_UNAVAILABLE"))
  else
    run c <- query_ QClock in
    reject_if BootID c =s "" with Fail 409 "SAFE_APPLY_CAPABILITY_UNAVAILABLE" ;;
    run p <- query_ QProbe in
    reject_if not_nil p with Fail 409 "MANAGEMENT_PATH_UNVERIFIED" ;;
    Ret (Ok tt).

(** ** Records *)

Definition open_in (dom : string) (d : db) : bool :=
  0 <? count (fun _ row => (sa_domain row =s dom) && negb (Terminal (sa_state row))) (safe_applies d).

(** The checkpoint of an admitted apply.
    go: internal/repository/executions/safety.go Engine.admitSafety *)
Definition admitSafety (r : Execution) (a : safeAdmission) : tx unit :=
  do d <- get in
  let epoch := Requests.cm_Epoch (sf_command a) in
  do _ <- guard (not_nil (safe_resolutions d !! (x_Owner r, epoch, x_RequestID r)))
       (Fail 409 "SAFE_APPLY_ALREADY_RESOLVED") in
  do _ <- guard (open_in domain d) (Fail 409 "MANAGEMENT_PATH_PROTECTED") in
  do denied <- ask (fun w n => authority_at w n (x_Authorization r)) in
  match denied with
  | Some e => fail e
  | None =>
    do c <- clock in
    do _ <- guard (BootID c =s "") (Fail 503 "SAFE_CLOCK_UNAVAILABLE") in
    let s := mkSafety zero_time "preparing" "checkpoint-durable" domain (sf_reservation a)
               (sha256_hex (Requests.cm_Payload (sf_command a))) "" (NewDeadline c PreparationBudget)
               None None 0 None zero_outcome in
    do _ <- guard (not_nil (safe_applies d !! x_ID r) || (640000 <? slen (marshal (safety_json s)))
                   || (0 <? count (fun _ row => (sa_owner row =s x_Owner r) && (sa_epoch row =s epoch)
                                                && (sa_request row =s x_RequestID r)) (safe_applies d)))
         constraint_failed in
    modify (fun d => with_safe d (<[x_ID r := mkSafeRow (x_Owner r) epoch (x_RequestID r) (s_State s)
                                                (Domain s) s]> (safe_applies d)))
  end.

Definition save_safe_row (id : string) (s : SafetyRecord) (d : db) : db :=
  with_safe d (match safe_applies d !! id with
               | Some row => <[id := mkSafeRow (sa_owner row) (sa_epoch row) (sa_request row) (s_State s)
                                       (sa_domain row) s]> (safe_applies d)
               | None => safe_applies d
               end).

(** go: internal/repository/executions/safety.go:157-171 Engine.updateSafety *)
Definition safety_job_change (r : Execution) (s : SafetyRecord) (j : Job) : Evidence.Transition :=
  let '(state, business, confirmation) :=
    if (s_State s =s "rolled-back") || (s_State s =s "not-committed") then ("failed", "failure", "expired")
    else if s_State s =s "confirmed" then ("succeeded", "success", "confirmed")
    else (if (s_State s =s "recovery-required") || (s_State s =s "rollback-conflict")
             || (j_State j =s "needs-attention") then "needs-attention" else "running", "unknown", "pending") in
  let o := if not_nil (Rollback s) then s_Outcome s else x_Outcome r in
  Evidence.mkTransition state "" business (Commit o) (Applied o) confirmation (s_Reason s).

Definition safety_audit (r : Execution) (s : SafetyRecord) : EvRecord :=
  mkEvRecord (interfaceEvidenceObjects r) "" "audit" "" "Manager" (x_Owner r)
    (a_Credential (x_Authorization r)) "configuration.apply" "safe-apply-state"
    (Some (mkRef "transaction" (x_ID r))) (a_ChangeSet (x_Authorization r)) (x_ID r) (x_JobID r)
    (x_RequestID r) "management" (a_Epoch (x_Authorization r)) (x_Correlation r) (s_State s) (s_Reason s)
    (x_Updated r) "" true.

(** The decision, the journal, the job, the protections, the checkpoint and
    the audit of one safety state, in one transaction.
    go: internal/repository/executions/safety.go Engine.updateSafety *)
Definition updateSafety (req : EvRequest) (r : Execution) (s : SafetyRecord) : tx unit :=
  match next_seq (x_Sequence r) with
  | None => fail EUnavailable
  | Some seq =>
    do c <- clock in
    let r := set_execution r (format_int seq) (x_State r) (x_Outcome r) (Wall c) in
    do _ <- guard (640000 <? slen (marshal (safety_json s))) EUnavailable in
    do _ <- modify (save_safe_row (x_ID r) s) in
    do _ <- lift (encode r) in
    do _ <- modify (save_rows r seq (s_State s) (x_Updated r)) in
    do j <- Evidence.LoadJob (x_JobID r) in
    do _ <- Evidence.ChangeJob req (j_ID j) (j_Sequence j) (safety_job_change r s j) (x_Updated r) in
    do _ <- (if Terminal (s_State s) then
               do _ <- Reservations.RetirePending (x_ID r) in Reservations.release_protections (x_ID r)
             else ret tt) in
    do _ <- (if s_State s =s "confirmed" then
               do _ <- guard (320000 <? slen (marshal (plan_json (x_Plan r)))) constraint_failed in
               modify (fun d => with_lkg d (Some (mkLKG (x_ID r) (x_Generation r) (unix_milli (x_Updated r)) (x_Plan r))))
             else ret tt) in
    do _ <- Evidence.Append req (safety_audit r s) in
    ret tt
  end.

Definition version_changed : error := Fail 409 "TRANSACTION_VERSION_CHANGED".

(** go: internal/repository/executions/safety.go:192-201 Engine.saveSafety *)
Definition save_safety_tx (r : Execution) (s : SafetyRecord) : tx unit :=
  do d <- get in
  do current <- lift (load d (x_ID r)) in
  do _ <- guard (x_Sequence current <>s x_Sequence r) version_changed in
  updateSafety no_request current s.
(** go: internal/repository/executions/safety.go Engine.saveSafety *)
Definition saveSafety (r : Execution) (s : SafetyRecord) : prog (result unit) := write (save_safety_tx r s).

Definition load_both (d : db) (id : string) : result (Execution * SafetyRecord) :=
  let? r := load d id in let? s := loadSafety d id in Ok (r, s).
(** go: internal/repository/executions/safety.go Engine.readSafety *)
Definition readSafety (id : string) : prog (result (Execution * SafetyRecord)) :=
  read (fun d => load_both d id).

(** go: internal/repository/executions/safety.go Engine.holdSafety *)
Definition holdSafety (r : Execution) (s : SafetyRecord) (state reason : string) : prog (result unit) :=
  if (s_State s =s state) && (s_Reason s =s reason) then Ret (Ok tt)
  else saveSafety r (set_healthy (set_state s state reason) None).

(** ** Compensation *)

(** go: internal/repository/executions/safety.go Engine.rollbackMarker *)
Definition rollbackMarker (id marker : string) : string :=
  hex_encode (hmac_sha256 (en_key en) (bytes "ovs-webui/rollback/v1" ++ [0] ++ bytes id ++ [0] ++ bytes marker)).

(** Why a compensation could not be prepared.
    go: internal/repository/executions/safety.go:420-427 Engine.rollback *)
Definition hold_reason (e : error) : string * string :=
  match e with
  | EFail _ c =>
    if c =s "ROLLBACK_CONFLICT" then ("rollback-conflict", "rollback-conflict")
    else if c =s "ROLLBACK_GENERATION_CHANGED" then ("recovery-required", "rollback-generation-changed")
    else ("recovery-required", "rollback-provider-unavailable")
  | _ => ("recovery-required", "rollback-provider-unavailable")
  end.

(** The dispatch intent: the plan is durable before its bytes are sent.
    go: internal/repository/executions/safety.go:430-435 Engine.rollback *)
Definition rolling_back (s : SafetyRecord) (p : Plan) : SafetyRecord :=
  let reason := "rollback-dispatch-durable" in
  set_outcome (set_healthy (set_state (set_rollback s (Some p)) "rolling-back" reason) None)
    (outcome "unknown" "unknown" reason).

(** The check that travels to the provider with the context: the checkpoint
    is reloaded. A provider that consults it hands back its refusal.
    go: internal/repository/executions/safety.go:402-417 Engine.rollback *)
Definition rollback_admission (r : Execution) : prog (result unit) :=
  try (current, state) <- readSafety (x_ID r) in
  reject_if Terminal (s_State state)
            || (digest_json (plan_json (x_Plan current)) <>s digest_json (plan_json (x_Plan r)))
    with Fail 409 "ROLLBACK_CHECKPOINT_CHANGED" ;;
  run available <- SafetyAvailable in
  run c <- query_ QClock in
  reject_if negb available || (BootID c =s "") with Fail 409 "SAFE_APPLY_CAPABILITY_UNAVAILABLE" ;;
  must query_ QCanceled ;;
  Ret (Ok tt).

(** [Commit] with the write-ahead callback, and whether the callback's
    transaction is durable ([durable]).
    go: internal/repository/executions/safety.go:436-445 Engine.rollback *)
Definition commit_rollback (r : Execution) (s : SafetyRecord) (p : Plan) : prog (bool * Outcome) :=
  run early <- query_ (QPreflight p) in
  match early with
  | Some o => Ret (false, o)
  | None =>
    run saved <- saveSafety r s in
    match saved with
    | Err _ => run o <- query_ (QDenied p) in Ret (false, o)
    | Ok _ =>
      run unsent <- query_ (QUnsent p) in
      match unsent with
      | Some o => Ret (true, o)
      | None => Send (Compensate (x_ID r)) p (fun o => Ret (true, o))
      end
    end
  end.

(** go: internal/repository/executions/safety.go Engine.rollback *)
Definition rollback (r : Execution) (s : SafetyRecord) : prog (result unit) :=
  run consults <- query_ QConsults in
  run admitted <- (if consults then rollback_admission r else Ret (Ok tt)) in
  run prepared <- (match admitted with
                   | Ok _ => query_ (QPrepareRollback (x_Plan r) (rollbackMarker (x_ID r) (Marker (x_Plan r))))
                   | Err e => Ret (Err e)
                   end) in
  match prepared with
  | Err e => let '(state, reason) := hold_reason e in holdSafety r s state reason
  | Ok p =>
    let s := rolling_back s p in
    run (durable, o) <- commit_rollback r s p in
    if negb durable then holdSafety r (set_rollback s None) "recovery-required" "rollback-not-dispatched"
    else
      try (r, s) <- readSafety (x_ID r) in
      let s := set_outcome s o in
      saveSafety r (if Commit o =s "rejected"
                    then set_state s "rollback-conflict" "rollback-transaction-rejected"
                    else set_state s (s_State s) (o_Reason o))
  end.

(** ** The recovery lane *)

Definition before (a b : Z) : bool := a <? b.

(** A dispatched compensation is reconciled, never sent again.
    go: internal/repository/executions/safety.go:268-288 Engine.safetyStep *)
Definition step_dispatched (r : Execution) (s : SafetyRecord) (p : Plan) : prog (result unit) :=
  run o <- query_ (QObserve p (s_Outcome s)) in
  let s' := set_outcome s o in
  run s'' <- (if (Commit o =s "committed") && (Applied o =s "applied") then
                run bad <- query_ QProbe in
                if is_nil bad then
                  run c <- query_ QClock in
                  Ret (set_healthy (set_state s' "rolled-back" "rollback-applied-management-reachable") (Some (Wall c)))
                else Ret (set_state s' "recovery-required" "rollback-management-path-unverified")
              else Ret (set_state s' "recovery-required" (o_Reason o))) in
  if (s_State s'' =s s_State s) && (s_Reason s'' =s s_Reason s) && sameOutcome (s_Outcome s'') (s_Outcome s)
  then Ret (Ok tt)
  else saveSafety r s''.

Definition reversed (c : Clock) (r : Execution) (s : SafetyRecord) : bool :=
  before (Wall c) (x_Updated r) || before (Wall c) (LastWall s).
(** go: internal/repository/executions/safety.go:308-315 Engine.safetyStep *)
Definition window_over (c : Clock) (r : Execution) (s : SafetyRecord) : bool :=
  match Confirmation s with Some d => Expired d c | None => Expired (Preparation s) c end || reversed c r s.
(** Why the compensation starts: the last condition that holds names it.
    go: internal/repository/executions/safety.go:318-335 Engine.safetyStep *)
Definition trigger (c : Clock) (r : Execution) (s : SafetyRecord) (revoked : bool) : string :=
  if s_State s =s "rollback-requested" then "authorized-rollback-requested"
  else if revoked then "apply-authority-revoked"
  else if reversed c r s then "clock-reversed"
  else if BootID c <>s Boot (Preparation s) then "boot-changed"
  else if not_nil (Confirmation s) then "confirmation-window-expired"
  else "preparation-budget-exhausted".

(** Applied, in time, authorised and reachable: the window is open.
    go: internal/repository/executions/safety.go:356-364 Engine.safetyStep *)
Definition awaiting (s : SafetyRecord) (c c2 : Clock) : SafetyRecord :=
  let s := set_window (set_healthy (set_failures s 0) (Some (Wall c))) (Wall c)
             (match Confirmation s with None => Some (NewDeadline c2 window) | Some d => Some d end) in
  set_state s "awaiting-confirmation" "applied-management-reachable".

(** Fresh proof without a transition.
    go: internal/repository/executions/safety.go:368-379 Engine.safetyStep *)
Definition refresh_tx (id : string) (r : Execution) (s : SafetyRecord) : tx unit :=
  do d <- get in
  do current <- lift (load d id) in
  do _ <- guard (x_Sequence current <>s x_Sequence r) version_changed in
  modify (fun d => with_safe d (match safe_applies d !! id with
    | Some row => <[id := mkSafeRow (sa_owner row) (sa_epoch row) (sa_request row) (sa_state row)
                            (sa_domain row) s]> (safe_applies d)
    | None => safe_applies d
    end)).

(** go: internal/repository/executions/safety.go:345-381 Engine.safetyStep *)
Definition step_reachability (id : string) (r : Execution) (s : SafetyRecord) (c : Clock) : prog (result unit) :=
  run bad <- query_ QProbe in
  if not_nil bad then
    let s := set_healthy (set_failures s (ProbeFailures s + 1)) None in
    if 3 <=? ProbeFailures s then rollback r (set_trigger s "management-path-probes-failed")
    else saveSafety r (set_state s (s_State s) "management-path-unverified")
  else
    let stable := (s_State s =s "awaiting-confirmation") && (ProbeFailures s =? 0) && not_nil (HealthyAt s) in
    run c2 <- (if is_nil (Confirmation s) then query_ QClock else Ret c) in
    let s := awaiting s c c2 in
    if stable then write (refresh_tx id r s) else saveSafety r s.

(** A committed change: its window, authority and reachability.
    go: internal/repository/executions/safety.go:308-344 Engine.safetyStep *)
Definition step_committed (id : string) (r : Execution) (s : SafetyRecord) (o : Outcome) : prog (result unit) :=
  run c <- query_ QClock in
  run denied <- query_ (QAuthority (x_Authorization r)) in
  let over := window_over c r s || not_nil denied || (s_State s =s "rollback-requested") in
  let s := if (Trigger s =s "") && over then set_trigger s (trigger c r s (not_nil denied)) else s in
  if Applied o <>s "applied" then
    (if over then rollback r s else holdSafety r s "recovery-required" (o_Reason o))
  else if over then rollback r s
  else step_reachability id r s c.

(** go: internal/repository/executions/safety.go:289-307 Engine.safetyStep *)
Definition step_applied (id : string) (r : Execution) (s : SafetyRecord) : prog (result unit) :=
  if Commit (x_Outcome r) =s "rejected" then holdSafety r s "not-committed" "apply-not-committed"
  else if x_State r =s "admitted" then Ret (Ok tt)
  else
    run o <- query_ (QObserve (x_Plan r) (x_Outcome r)) in
    try _ <- saveOutcome id o in
    try r <- Read_ id in
    if Commit o <>s "committed" then holdSafety r s "recovery-required" "apply-outcome-unknown"
    else step_committed id r s o.

(** The body of the step, under the claim.
    go: internal/repository/executions/safety.go:258-268 Engine.safetyStep *)
Definition step_claimed (id : string) : prog (result unit) :=
  try (r, s) <- readSafety id in
  if Terminal (s_State s) then Ret (Ok tt)
  else if Domain s <>s domain then holdSafety r s "recovery-required" "management-probe-policy-changed"
  else if s_State s =s "rollback-conflict" then Ret (Ok tt)
  else match Rollback s with
       | Some p => step_dispatched r s p
       | None => step_applied id r s
       end.

(** go: internal/repository/executions/safety.go Engine.safetyStep *)
Definition safetyStep (id : string) : prog (result unit) :=
  Claim id (fun mine =>
    if negb mine then Ret (Ok tt)
    else run out <- step_claimed id in Release id (Ret out)).

Fixpoint step_all (ids : list string) : prog (result unit) :=
  match ids with
  | [] => Ret (Ok tt)
  | id :: r => try _ <- safetyStep id in step_all r
  end.

(** go: internal/repository/executions/safety.go:225-238 Engine.SafetyTick *)
Definition open_ids (d : db) : list string :=
  take 33 (merge_sort (fun a b => Is_true (String.leb a b))
    (fst <$> List.filter (fun kv => negb (Terminal (sa_state (snd kv)))) (map_to_list (safe_applies d)))).

(** go: internal/repository/executions/safety.go Engine.SafetyTick *)
Definition SafetyTick : prog (result unit) :=
  match en_safety en with
  | None => Ret (Ok tt)
  | Some _ =>
    try ids <- read (fun d => Ok (open_ids d)) in
    reject_if 32 <? len ids with Fail 503 "SAFETY_RECOVERY_BUDGET" ;;
    step_all ids
  end.

(** ** Decisions *)

(** [claimDecision] polls every 10 ms for 2 s: at most 200 turns.
    go: internal/repository/executions/engine.go Engine.claimDecision *)
Fixpoint claimDecision (turns : nat) (id : string) : prog (result unit) :=
  must query_ QCanceled ;;
  Claim id (fun mine =>
    if mine then Ret (Ok tt)
    else match turns with
         | O => Ret (Err (Fail 409 "TRANSACTION_BUSY"))
         | S n => run w <- query_ QWait in
                  match w with Some e => Ret (Err e) | None => claimDecision n id end
         end).
Definition claim_turns : nat := 200.

(** The decision's transaction.
    go: internal/repository/executions/safety.go:502-544 Engine.Decide *)
Definition decide_tx (id sequence decision : string) (r : Execution) (s : SafetyRecord)
    (confirmation : Outcome) (req : EvRequest) : tx Requests.Mutation :=
  do denied <- ask check_at in
  match denied with
  | Some e => fail e
  | None =>
    do d <- get in
    do current <- lift (load d id) in
    do _ <- guard (x_Sequence current <>s sequence) version_changed in
    do (current, s) <-
      (if decision =s "confirm" then
         do c1 <- clock in do c2 <- clock in do c3 <- clock in
         do _ <- guard (match Confirmation s with Some dl => Expired dl c1 | None => true end
                        || before (Wall c2) (x_Updated current) || before (Wall c3) (LastWall s))
              (Fail 409 "DECISION_EXPIRED") in
         do revoked <- ask (fun w n => authority_at w n (x_Authorization r)) in
         match revoked with
         | Some e => fail e
         | None =>
           do c4 <- clock in
           do t <- now in
           let state := stateFor current confirmation (t - x_Created current) in
           ret (set_execution current (x_Sequence current) state confirmation (x_Updated current),
                set_healthy (set_state s "confirmed" "connectivity-confirmed") (Some (Wall c4)))
         end
       else if decision =s "rollback" then
         do _ <- guard (not_nil (Rollback s) || (s_State s =s "rollback-conflict"))
              (Fail 409 "ROLLBACK_ALREADY_DISPATCHED") in
         ret (current, set_state s "rollback-requested" "authorized-rollback-requested")
       else fail (Fail 422 "INVALID_DECISION")) in
    do _ <- updateSafety req current s in
    let ref := mkRef "transaction" id in
    do _ <- Evidence.Append req
         (Evidence.record (interfaceEvidenceObjects r) "audit" "Manager" "" "safe-apply-decision" decision ""
            (Some ref) (x_JobID r) id "" "" "" "" "" true zero_time) in
    ret (Requests.mkMutation 202 "{}" (Some ref) (Some (mkRef "job" (x_JobID r))) (decision =s "confirm") false)
  end.

(** The decision under the claim.
    go: internal/repository/executions/safety.go:476-544 Engine.Decide *)
Definition decide_claimed (id sequence decision : string) (c : Requests.Command)
  : prog (result Requests.Result_) :=
  let authorize := query_ QReauthorize in
  try found <- Requests.Replay c authorize in
  match found with
  | Some out => Ret (Ok out)
  | None =>
    try (r, s) <- readSafety id in
    reject_if x_Sequence r <>s sequence with version_changed ;;
    reject_if Terminal (s_State s) with Fail 409 "TRANSACTION_SETTLED" ;;
    try confirmation <-
      (if decision =s "confirm" then
         run c <- query_ QClock in
         reject_if (s_State s <>s "awaiting-confirmation")
                   || match Confirmation s with None => true | Some dl => Expired dl c end
                   || (Domain s <>s domain) with Fail 409 "DECISION_EXPIRED" ;;
         run o <- query_ (QObserve (x_Plan r) (x_Outcome r)) in
         reject_if (Commit o <>s "committed") || (Applied o <>s "applied")
           with Fail 409 "CONFIRMATION_EVIDENCE_UNAVAILABLE" ;;
         run bad <- query_ QProbe in
         reject_if not_nil bad with Fail 409 "CONFIRMATION_EVIDENCE_UNAVAILABLE" ;;
         Ret (Ok o)
       else Ret (Ok zero_outcome)) in
    Requests.Execute c authorize (decide_tx id sequence decision r s confirmation)
  end.

(** go: internal/repository/executions/safety.go Engine.Decide *)
Definition Decide (id sequence decision : string) (c : Requests.Command) : prog (result Requests.Result_) :=
  let authorize := query_ QReauthorize in
  try found <- Requests.Replay c authorize in
  match found with
  | Some out => Ret (Ok out)
  | None =>
    run available <- SafetyAvailable in
    reject_if negb available with Fail 503 "SAFE_APPLY_CAPABILITY_UNAVAILABLE" ;;
    try _ <- claimDecision claim_turns id in
    run out <- decide_claimed id sequence decision c in
    Release id (Ret out)
  end.
End engine.

End SafeApply.
