(* ===== verification/Admission.v ===== *)
(** * internal/repository/executions: admission and dispatch (engine.go, submit)

    One durable transaction admits a request; the provider's write-ahead
    callback turns the admitted journal into a dispatch intent before any
    mutation byte is sent. A Safe Apply runs its dispatch in a goroutine of
    its own, which takes over the claim. *)

From S2P Require Import Prelude GoStrings Sha256 GoTime GoJson ApiTypes CandidateTypes Intents ExecTypes Store.
From S2P Require Import Evidence Reservations Program Requests Executions SafeApply.

Module Admission.
Import Executions.

(** The public command of a plain submission.
    go: internal/repository/executions/engine.go:146-147 Engine.submit *)
Definition plain_command (c : Authorization) (input : Request) : Requests.Command :=
  Requests.mkCommand (a_Owner c) (a_Epoch c) "management" (rq_ID input) "createTransaction" "POST"
    "/api/v1/transactions" "" (a_Credential c) "configuration.apply" (marshal (request_json input)) false [] false.

Definition authority_changed : error := Fail 409 "EXECUTION_AUTHORITY_CHANGED".

(** [execution.WithAdmission]'s check of a forward execution.
    go: internal/repository/executions/engine.go:171-183 Engine.submit *)
Definition forward_admission (input : Request) (c : Authorization) : prog (result unit) :=
  must query_ (QLease input) ;;
  try fresh <- query_ (QAuthorize input false) in
  run t <- query_ QNow in
  reject_if negb (bool_decide (fresh = c)) || negb (t <? a_Expires fresh) with authority_changed ;;
  Ret (Ok tt).

(** The marker that names a commit in the native database.
    go: internal/repository/executions/engine.go:185-187 Engine.submit *)
Definition commit_marker (en : Engine) (id scope : string) : string :=
  hex_encode (hmac_sha256 (en_key en) (bytes "ovs-webui/field-commit/v1" ++ [0] ++ bytes id ++ [0] ++ bytes scope)).

(** The admitted record.
    go: internal/repository/executions/engine.go:216-218 Engine.submit *)
Definition admitted (id job correlation : string) (input : Request) (c : Authorization) (p : Plan) (at_ : Z) : Execution :=
  let cand := e_Candidate (rq_Envelope input) in
  mkExecution id "1" "admitted" (a_Owner c) (rq_ID input) job correlation (rq_ValidationID input) (c_ID cand)
    (c_Revision cand) (p_Generation p) at_ at_ (outcome "not-sent" "not-applied" "admitted") c p.

Definition zero_job : Job :=
  mkJob [] "" "" "" "" "" "" None "" "" "" "" "" "" "" false false "" "" "" "" "" "" "" zero_time zero_time None.
(** go: internal/repository/executions/engine.go:328-328 Engine.submit *)
Definition field_job (r : Execution) (ref : Ref) : Job :=
  mkJob (interfaceEvidenceObjects r) (x_JobID r) "" "running" "" "" "" (Some ref) "" "" "" "" ""
    (a_ChangeSet (x_Authorization r)) (x_ID r) false false "prepared" "" "" "unknown" "" "execution-admitted"
    "field-execution" (x_Created r) zero_time None.

Definition insert_transport (row : string) (t : transport_row) : tx unit :=
  do d <- get in
  do _ <- guard (not_nil (request_receipts d !! row)
                 || (0 <? count (fun _ o => (tr_request o =s tr_request t) || (tr_transaction o =s tr_transaction t)
                                            || (tr_correlation o =s tr_correlation t)) (request_receipts d)))
       constraint_failed in
  modify (fun d => with_transport d (<[row := t]> (request_receipts d))).

Definition insert_journal (r : Execution) : tx unit :=
  do d <- get in
  do _ <- guard (not_nil (transaction_journal d !! x_ID r)) constraint_failed in
  modify (fun d => with_journal d (<[x_ID r := mkJournalRow 1 (x_State r) None]> (transaction_journal d))).

Definition insert_execution (r : Execution) : tx unit :=
  do d <- get in
  do _ <- guard (not_nil (field_executions d !! x_ID r)
                 || (0 <? count (fun _ o => fe_job o =s x_JobID r) (field_executions d))) constraint_failed in
  modify (fun d => with_executions d
    (<[x_ID r := mkExecRow (x_JobID r) (x_Owner r) (x_ValidationID r) (x_State r) (unix_milli (x_Created r)) r]>
       (field_executions d))).

Section engine.
Context (en : Engine).

(** The admission transaction's mutation.
    go: internal/repository/executions/engine.go:201-343 Engine.submit *)
Definition admit_tx (id : string) (input : Request) (c : Authorization) (p : Plan) (safe : option safeAdmission)
    (req : EvRequest) : tx Requests.Mutation :=
  do fresh <- ask (fun w n => authorize_at w n input false) in
  do fresh <- lift fresh in
  do _ <- guard (negb (bool_decide (fresh = c))) authority_changed in
  do d <- get in
  do _ <- guard ((MaxRecords <=? Z.of_nat (size (field_executions d)))
                 || (MaxUnsettled <=? count (fun k row => unsettled d k row) (field_executions d)))
       (Fail 429 "EXECUTION_CAPACITY_REACHED") in
  do at_ <- now in
  do job <- NewID in
  let r := admitted id job (er_Correlation req) input c p at_ in
  do _ <- lift (encode r) in
  do row <- NewID in
  do request <- NewID in
  do _ <- insert_transport row (mkTransport request id (x_Correlation r) (a_Owner c) (x_CandidateID r)
                                  (x_CandidateRevision r) (a_Scope c) (unix_milli at_)) in
  do _ <- insert_journal r in
  let changes := intents (e_Candidate (rq_Envelope input)) in
  do _ <- Reservations.ReserveCreations id (Marker p) changes in
  do _ <- Reservations.ReserveRestorations id (SafeApply.rollbackMarker en id (Marker p)) changes in
  do _ <- Reservations.each (Reservations.protect_intent id (p_Root p) (GraphBindings p)) changes in
  let ref := mkRef "transaction" id in
  do _ <- Evidence.CreateJob req (field_job r ref) in
  do _ <- insert_execution r in
  do _ <- match safe with Some a => SafeApply.admitSafety en r a | None => ret tt end in
  do _ <- Evidence.Append req
       (Evidence.record (interfaceEvidenceObjects r) "audit" "Manager" "" "execute-fields" "admitted" ""
          (Some ref) (x_JobID r) id (a_ChangeSet c) "" "" "" "" false at_) in
  ret (Requests.mkMutation 202 "{}" (Some ref) (Some (mkRef "job" (x_JobID r))) false false).

(** The write-ahead transaction: the dispatch intent becomes durable.
    go: internal/repository/executions/engine.go:352-378 Engine.submit *)
Definition dispatch_tx (id : string) (input : Request) (c : Authorization) (safe : bool) : tx Execution :=
  do fresh <- ask (fun w n => authorize_at w n input false) in
  do fresh <- lift fresh in
  do t <- now in
  do _ <- guard (negb (bool_decide (fresh = c)) || negb (t <? a_Expires fresh)) authority_changed in
  do d <- get in
  do current <- lift (load d id) in
  do _ <- guard (x_State current <>s "admitted") (Fail 409 "EXECUTION_ALREADY_DISPATCHED") in
  do _ <- (if safe then
             do s <- lift (loadSafety d id) in
             do k <- clock in
             guard ((s_State s <>s "preparing") || Expired (Preparation s) k) (Fail 409 "SAFE_APPLY_EXPIRED")
           else ret tt) in
  transition current (outcome "unknown" "unknown" "dispatch-intent-durable") "committing".

(** go: internal/repository/executions/engine.go:348-379 Engine.submit *)
Definition beforeSend (id : string) (input : Request) (c : Authorization) (safe : bool) : prog (result unit) :=
  must query_ (QLease input) ;;
  try _ <- write (dispatch_tx id input c safe) in Ret (Ok tt).

(** Dispatch and first observation.
    go: internal/repository/executions/engine.go:347-393 Engine.submit *)
Definition dispatch_run (id : string) (input : Request) (c : Authorization) (p : Plan) (safe : bool)
  : prog (result unit) :=
  run o <- provider_commit (Forward id) p (beforeSend id input c safe) in
  try _ <- saveOutcome id o in
  if Commit o =s "committed" then
    run o <- query_ (QObserve p o) in saveOutcome id o
  else Ret (Ok tt).

(** From the prepared plan on: the claim is released when this call, or the
    goroutine that it starts, is done.
    go: internal/repository/executions/engine.go:191-407 Engine.submit *)
Definition admit_and_run (id : string) (input : Request) (c : Authorization) (p : Plan)
    (command : Requests.Command) (safe : option safeAdmission) : prog (result Requests.Result_) :=
  let authorize := run r <- query_ (QAuthorize input true) in
                   Ret (match r with Ok _ => None | Err e => Some e end) in
  Claim id (fun mine =>
    if negb mine then Ret (Err (Fail 409 "EXECUTION_BUSY"))
    else
      run out <- Requests.Execute command authorize (admit_tx id input c p safe) in
      match out with
      | Err e => Release id (Ret (Err e))
      | Ok out =>
        if Requests.rs_Replayed out then Release id (Ret (Ok out))
        else match safe with
             | Some _ =>
               Fork (run _ <- dispatch_run id input c p true in Release id (Ret tt)) (Ret (Ok out))
             | None =>
               run r <- dispatch_run id input c p false in
               Release id (Ret (match r with Ok _ => Ok out | Err e => Err e end))
             end
      end).

(** go: internal/repository/executions/engine.go Engine.submit *)
Definition submit (input : Request) (lease : bool) (safe : option safeAdmission)
  : prog (result Requests.Result_) :=
  reject_if negb (is_ok (Budget (envelope_json (rq_Envelope input)))) || negb (ManagementID (rq_ValidationID input))
    with Fail 422 "INVALID_EXECUTION" ;;
  try c <- query_ (QAuthorize input true) in
  let command := match safe with Some a => sf_command a | None => plain_command c input end in
  let authorize := run r <- query_ (QAuthorize input true) in
                   Ret (match r with Ok _ => None | Err e => Some e end) in
  try prior <- Requests.Replay command authorize in
  match prior with
  | Some out => Ret (Ok out)
  | None =>
    reject_if negb lease with Fail 409 "SAFE_APPLY_REQUIRED" ;;
    must query_ (QLease input) ;;
    try _ <- (if not_nil safe then SafeApply.safetyReady en else Ret (Ok tt)) in
    try c <- query_ (QAuthorize input false) in
    run id <- query_ QNewID in
    run consults <- query_ QConsults in
    try _ <- (if consults then forward_admission input c else Ret (Ok tt)) in
    try p <- query_ (QPrepare id (commit_marker en id (a_Scope c)) (rq_Envelope input)) in
    admit_and_run id input c p command safe
  end.

(** go: internal/repository/executions/engine.go Engine.Submit *)
Definition Submit (input : Request) (lease : bool) : prog (result Requests.Result_) := submit input lease None.
(** go: internal/repository/executions/safety.go Engine.SubmitSafe *)
Definition SubmitSafe (input : Request) (lease : bool) (command : Requests.Command) (reservation : string)
  : prog (result Requests.Result_) :=
  reject_if negb (ManagementID reservation) with Fail 422 "RESERVATION_REQUIRED" ;;
  submit input lease (Some (mkAdmission command reservation)).
End engine.

End Admission.
