(* ===== verification/Conformance.v ===== *)
(** * What a program sends and what its transactions keep

    [conforms P R]: whatever a program is told, it sends mutation bytes only
    for the reasons [P] allows, and each of its transactions keeps [R]. The
    interface [CoreTransactions] asks this of the nine transactions of the
    execution core; the lemmas give it to every program built from them. *)

From S2P Require Import Prelude GoStrings GoTime GoJson ApiTypes CandidateTypes Intents ExecTypes Store.
From S2P Require Import Evidence Reservations Program Requests Executions SafeApply Admission.

(** ** What the supporting transactions leave alone

    The evidence and identity writers never touch the execution journal, the
    safety records or the protections; [core] is that part of the database. *)

Definition core (d : db) :=
  (field_executions d, safe_applies d, operation_protections d, last_known_good d, transaction_journal d).

Lemma keeps_core_ret {A} (a : A) : keeps (same core) (ret a).
Proof. by apply keeps_ret; typeclasses eauto. Qed.

Lemma Append_core req r : keeps (same core) (Evidence.Append req r).
Proof. unfold Evidence.Append, Evidence.complete_record, Evidence.insert_record. keeps_tac. Qed.

Lemma saveJob_core j b : keeps (same core) (Evidence.saveJob j b).
Proof. unfold Evidence.saveJob. keeps_tac. Qed.

Lemma LoadJob_core id : keeps (same core) (Evidence.LoadJob id).
Proof. unfold Evidence.LoadJob. keeps_tac. Qed.
#[export] Hint Resolve Append_core saveJob_core LoadJob_core : keeps.

Lemma CreateJob_core req j : keeps (same core) (Evidence.CreateJob req j).
Proof. unfold Evidence.CreateJob, Evidence.complete_job. keeps_tac. Qed.

Lemma ChangeJob_core req id e t a : keeps (same core) (Evidence.ChangeJob req id e t a).
Proof. unfold Evidence.ChangeJob, Evidence.completeReceipts. keeps_tac. Qed.

Lemma RetirePending_core id : keeps (same core) (Reservations.RetirePending id).
Proof. unfold Reservations.RetirePending. keeps_tac. Qed.

Lemma each_keeps {A} R `{!PreOrder R} (f : A -> tx unit) l :
  (forall x, keeps R (f x)) -> keeps R (Reservations.each f l).
Proof.
  intros Hf. induction l as [|x l IH]; cbn.
  - by apply keeps_ret.
  - apply keeps_bind; [done|apply Hf|intros _; apply IH].
Qed.

Lemma reserve_bindings_core t m l : keeps (same core) (Reservations.reserve_bindings t m l).
Proof.
  induction l as [|b l IH]; cbn; [keeps_tac|].
  unfold Reservations.reserve_binding. keeps_tac.
Qed.
Lemma reserveTopology_core t m l : keeps (same core) (Reservations.reserveTopology t m l).
Proof. unfold Reservations.reserveTopology. pose proof reserve_bindings_core. keeps_tac. Qed.
#[export] Hint Resolve reserveTopology_core : keeps.
Lemma ReserveCreations_core t m l : keeps (same core) (Reservations.ReserveCreations t m l).
Proof.
  apply each_keeps; [typeclasses eauto|]. intros i. unfold Reservations.reserve_creation. keeps_tac.
Qed.
#[export] Hint Resolve ReserveCreations_core : keeps.
Lemma ReserveRestorations_core t m l : keeps (same core) (Reservations.ReserveRestorations t m l).
Proof.
  apply each_keeps; [typeclasses eauto|]. intros i. unfold Reservations.reserve_restoration. keeps_tac.
Qed.
#[export] Hint Resolve CreateJob_core ChangeJob_core RetirePending_core ReserveRestorations_core : keeps.

(** Reading off the parts of [core]. *)
Lemma core_parts d d' : same core d d' ->
  field_executions d' = field_executions d /\ safe_applies d' = safe_applies d /\
  operation_protections d' = operation_protections d /\ last_known_good d' = last_known_good d /\
  transaction_journal d' = transaction_journal d.
Proof. unfold same, core. intros H. by inversion H. Qed.

(** ** Programs *)

Fixpoint conforms {A : Type} (P : dispatch -> Prop) (R : db -> db -> Prop) (m : prog A) : Prop :=
  match m with
  | Ret _ => True
  | Query _ k => forall x, conforms P R (k x)
  | Read _ k => forall x, conforms P R (k x)
  | Write f k => keeps R f /\ forall x, conforms P R (k x)
  | Claim _ k => forall b, conforms P R (k b)
  | Release _ k => conforms P R k
  | Fork p k => conforms P R p /\ conforms P R k
  | Send d _ k => P d /\ forall o, conforms P R (k o)
  end.

Lemma conforms_bind {A B} P R (m : prog A) (k : A -> prog B) :
  conforms P R m -> (forall a, conforms P R (k a)) -> conforms P R (pbind m k).
Proof. induction m; cbn; naive_solver. Qed.

(** What a relation on databases asks of the transactions of the core. *)
Class CoreTransactions (R : db -> db -> Prop) : Prop := {
  ct_outcome : forall id o, keeps R (Executions.save_outcome_tx id o);
  ct_safety : forall r s, keeps R (SafeApply.save_safety_tx r s);
  ct_refresh : forall id r s, keeps R (SafeApply.refresh_tx id r s);
  ct_dispatch : forall id input c safe, keeps R (Admission.dispatch_tx id input c safe);
  ct_admit : forall c digest en id input a p safe,
    keeps R (Requests.execute_tx c digest (Admission.admit_tx en id input a p safe));
  ct_decide : forall c digest id seq d r s conf,
    keeps R (Requests.execute_tx c digest (SafeApply.decide_tx id seq d r s conf)) }.
#[export] Hint Resolve ct_outcome ct_safety ct_refresh ct_dispatch ct_admit ct_decide : keeps.
#[export] Instance any_change : CoreTransactions (fun _ _ => True).
Proof. by split. Qed.


Ltac sends_step :=
  match goal with
  | |- conforms _ _ (pbind _ _) => apply conforms_bind; [|intros ?]
  | |- conforms _ _ (match ?x with _ => _ end) => destruct x
  | |- conforms _ _ (let '(_, _) := ?x in _) => destruct x
  | |- conforms _ _ _ => progress cbn
  | |- _ /\ _ => split
  | |- keeps _ _ => solve [eauto with keeps]
  | |- forall _, _ => intros ?
  end.
Create HintDb sends.
Ltac sends_tac := repeat (sends_step; auto with sends); auto with sends.

Section senders.
Context (P : dispatch -> Prop) (R : db -> db -> Prop) `{!CoreTransactions R}.

Lemma query_sends {X} (q : query X) : conforms P R (query_ q).
Proof. done. Qed.
Lemma ask_sends {X B} (q : query X) (f : X -> B) : conforms P R (pbind (query_ q) (fun r => Ret (f r))).
Proof. done. Qed.
Hint Resolve @query_sends @ask_sends : sends.
Lemma saveOutcome_sends id o : conforms P R (Executions.saveOutcome id o).
Proof. unfold Executions.saveOutcome. sends_tac. Qed.
Lemma Read_sends id : conforms P R (Executions.Read_ id).
Proof. unfold Executions.Read_. sends_tac. Qed.
Lemma readSafety_sends id : conforms P R (SafeApply.readSafety id).
Proof. unfold SafeApply.readSafety. sends_tac. Qed.
Lemma saveSafety_sends r s : conforms P R (SafeApply.saveSafety r s).
Proof. unfold SafeApply.saveSafety. sends_tac. Qed.
Hint Resolve saveOutcome_sends Read_sends readSafety_sends saveSafety_sends : sends.
Lemma holdSafety_sends r s st reason : conforms P R (SafeApply.holdSafety r s st reason).
Proof. unfold SafeApply.holdSafety. sends_tac. Qed.
Lemma Reconcile_sends id : conforms P R (Executions.Reconcile id).
Proof. unfold Executions.Reconcile. sends_tac. Qed.
Lemma SafetyAvailable_sends en : conforms P R (SafeApply.SafetyAvailable en).
Proof. unfold SafeApply.SafetyAvailable. sends_tac. Qed.
Hint Resolve holdSafety_sends Reconcile_sends SafetyAvailable_sends : sends.
Lemma reconcile_all_sends ids : conforms P R (Executions.reconcile_all ids).
Proof. induction ids; cbn; sends_tac. Qed.
Hint Resolve reconcile_all_sends : sends.
Lemma Recover_sends : conforms P R Executions.Recover.
Proof. unfold Executions.Recover. sends_tac. Qed.
Lemma Replay_sends c a : conforms P R a -> conforms P R (Requests.Replay c a).
Proof. intros. unfold Requests.Replay. sends_tac. Qed.
Lemma Execute_sends c a m :
  (forall digest, keeps R (Requests.execute_tx c digest m)) -> conforms P R a -> conforms P R (Requests.Execute c a m).
Proof. intros. unfold Requests.Execute. sends_tac. Qed.
Hint Resolve Replay_sends Execute_sends ct_decide ct_admit : sends.
Lemma claimDecision_sends n id : conforms P R (SafeApply.claimDecision n id).
Proof. induction n; cbn [SafeApply.claimDecision]; sends_tac. Qed.
Hint Resolve claimDecision_sends : sends.
Lemma Decide_sends en id seq d c : conforms P R (SafeApply.Decide en id seq d c).
Proof. unfold SafeApply.Decide, SafeApply.decide_claimed. sends_tac. Qed.

Lemma rollback_sends en r s : P (Compensate (x_ID r)) -> conforms P R (SafeApply.rollback en r s).
Proof.
  intros HP. unfold SafeApply.rollback, SafeApply.rollback_admission, SafeApply.commit_rollback. sends_tac.
Qed.
Lemma submit_sends en input lease safe : (forall id, P (Forward id)) -> conforms P R (Admission.submit en input lease safe).
Proof.
  intros HP. unfold Admission.submit, SafeApply.safetyReady, Admission.forward_admission, Admission.admit_and_run,
    Admission.dispatch_run, provider_commit, Admission.beforeSend. sends_tac.
  apply Execute_sends; [intros; apply ct_admit|done].
Qed.
End senders.

Section recovery_lane.
Context (P : dispatch -> Prop) (R : db -> db -> Prop) `{!CoreTransactions R} (en : Executions.Engine).
Hypothesis HP : forall id, P (Compensate id).
Hint Resolve @query_sends @ask_sends saveOutcome_sends Read_sends readSafety_sends saveSafety_sends
  holdSafety_sends : sends.
Lemma rollback_compensates r s : conforms P R (SafeApply.rollback en r s).
Proof. apply rollback_sends; [typeclasses eauto|apply HP]. Qed.
Hint Resolve rollback_compensates : sends.

Lemma step_dispatched_sends r s p : conforms P R (SafeApply.step_dispatched r s p).
Proof.
  unfold SafeApply.step_dispatched. apply conforms_bind; [auto with sends|]. intros o.
  apply conforms_bind; [sends_tac|]. intros s'. case_match; auto with sends. done.
Qed.
Lemma step_reachability_sends id r s c : conforms P R (SafeApply.step_reachability en id r s c).
Proof.
  unfold SafeApply.step_reachability. apply conforms_bind; [auto with sends|]. intros bad.
  case_match; [case_match; auto with sends|]. apply conforms_bind; [by case_match|]. intros c2.
  case_match; [split; [apply ct_refresh|done]|auto with sends].
Qed.
Hint Resolve step_reachability_sends step_dispatched_sends : sends.
Lemma step_committed_sends id r s o : conforms P R (SafeApply.step_committed en id r s o).
Proof.
  unfold SafeApply.step_committed. apply conforms_bind; [auto with sends|]. intros c.
  apply conforms_bind; [auto with sends|]. intros denied. cbn zeta.
  repeat case_match; auto with sends.
Qed.
Hint Resolve step_committed_sends : sends.
Lemma step_applied_sends id r s : conforms P R (SafeApply.step_applied en id r s).
Proof.
  unfold SafeApply.step_applied. case_match; [auto with sends|]. case_match; [done|].
  apply conforms_bind; [auto with sends|]. intros o. apply conforms_bind; [auto with sends|].
  intros [u|e]; [|done]. apply conforms_bind; [auto with sends|]. intros [r'|e]; [|done].
  case_match; auto with sends.
Qed.
Hint Resolve step_applied_sends : sends.
Lemma safetyStep_sends id : conforms P R (SafeApply.safetyStep en id).
Proof.
  intros b. case_match; [done|]. apply conforms_bind; [|done].
  unfold SafeApply.step_claimed. apply conforms_bind; [auto with sends|]. intros [[r s]|e]; [|done].
  repeat case_match; auto with sends; done.
Qed.
End recovery_lane.

Lemma SafetyTick_sends (P : dispatch -> Prop) (R : db -> db -> Prop) `{!CoreTransactions R} en :
  (forall id, P (Compensate id)) -> conforms P R (SafeApply.SafetyTick en).
Proof.
  intros HP. unfold SafeApply.SafetyTick. destruct (Executions.en_safety en); [|done].
  assert (forall ids, conforms P R (SafeApply.step_all en ids)) as Hall.
  { induction ids as [|id ids IH]; [done|]. cbn [SafeApply.step_all]. apply conforms_bind.
    - by apply safetyStep_sends.
    - intros [u|e]; [apply IH|done]. }
  apply conforms_bind; [done|]. intros [ids|e]; [|done]. case_match; [done|apply Hall].
Qed.
