(* ===== verification/System.v ===== *)
(** * The manager process: goroutines, crashes and ownership

    [sys] is the durable database, the in-memory map of active transactions,
    everything the provider was ever sent and the running goroutines. A step
    performs one effect of one goroutine, with any answer of the outside
    world, starts an entry point, or stops the process.

    [wp] is the reasoning principle: a goroutine that holds the claim on a
    transaction owns that transaction's [slice] of the database. A program
    that meets its [wp] keeps the database's invariant, changes only the slice
    it owns and only as [advance] allows, and sends mutation bytes only for an
    intent that it has just made durable. [soundness] turns this into an
    invariant of the whole system under every interleaving and crash. *)

From S2P Require Import Prelude GoStrings GoTime GoJson ApiTypes CandidateTypes Intents ExecTypes Store.
From S2P Require Import AuthTables Evidence Reservations Program Requests Executions SafeApply Admission.
Import AuthTables.

(** ** Slices *)

Record slice := mkSlice {
  sl_exec : option exec_row; sl_safe : option safe_row; sl_prot : gmap (string * string) string }.

Definition slice_of (id : string) (d : db) : slice :=
  mkSlice (field_executions d !! id) (safe_applies d !! id)
    (filter (fun kv => snd kv = id) (operation_protections d)).

(** No outcome can follow: the decision of a Safe Apply, or the end of a plain
    execution, is final. *)
Definition settled (x : slice) : Prop :=
  match sl_safe x, sl_exec x with
  | Some s, _ => Terminal (sa_state s) = true
  | None, Some e => Executions.terminal (fe_doc e) = true
  | None, None => True
  end.

Definition seq_ok (s : string) : Prop := exists n, s = format_int n /\ 1 <= n < 2 ^ 63.

(** The durable intent behind a dispatch: the plan of a journal that has left
    [admitted], and the compensation of a safety record. *)
Definition forward_of (x : slice) : option Plan :=
  match sl_exec x with
  | Some e => if fe_state e =s "admitted" then None else Some (x_Plan (fe_doc e))
  | None => None
  end.
Definition rollback_of (x : slice) : option Plan := sl_safe x ≫= (fun s => Rollback (sa_doc s)).
Definition intent (w : dispatch) (x : slice) : option Plan :=
  match w with Forward _ => forward_of x | Compensate _ => rollback_of x end.
Definition target (w : dispatch) : string := match w with Forward id => id | Compensate id => id end.
(** The state that the write-ahead transaction leaves behind. *)
Definition written_ahead (w : dispatch) (x : slice) : Prop :=
  match w with
  | Forward _ => exists e, sl_exec x = Some e /\ fe_state e = "committing"
  | Compensate _ => exists s, sl_safe x = Some s /\ sa_state s = "rolling-back"
  end.

(** What every settled Safe Apply can show for itself. *)
Definition proof_of (e : Execution) (s : SafetyRecord) : Prop :=
  (s_State s = "confirmed" ->
   Commit (x_Outcome e) = "committed" /\ Applied (x_Outcome e) = "applied" /\ Rollback s = None /\ HealthyAt s <> None) /\
  (s_State s = "rolled-back" ->
   Commit (s_Outcome s) = "committed" /\ Applied (s_Outcome s) = "applied" /\ Rollback s <> None /\ HealthyAt s <> None) /\
  (s_State s = "not-committed" -> Commit (x_Outcome e) = "rejected" /\ Rollback s = None).

(** The per-transaction invariant. *)
Record slice_ok (id : string) (x : slice) : Prop := {
  ok_exec : forall e, sl_exec x = Some e ->
    x_ID (fe_doc e) = id /\ fe_state e = x_State (fe_doc e) /\ seq_ok (x_Sequence (fe_doc e));
  ok_safe : forall s, sl_safe x = Some s -> exists e, sl_exec x = Some e /\
    sa_state s = s_State (sa_doc s) /\ sa_domain s = Domain (sa_doc s) /\
    (Rollback (sa_doc s) <> None ->
     contains ["preparing"; "awaiting-confirmation"; "rollback-requested"] (s_State (sa_doc s)) = false) /\
    proof_of (fe_doc e) (sa_doc s);
  ok_prot : sl_prot x <> ∅ -> sl_exec x <> None /\ ~ settled x }.

(** One transaction's evolution over one write. *)
Definition exec_advance (e e' : exec_row) : Prop :=
  x_Plan (fe_doc e') = x_Plan (fe_doc e) /\ (fe_state e <> "admitted" -> fe_state e' <> "admitted") /\
  (fe_doc e' = fe_doc e \/
   exists n m, x_Sequence (fe_doc e) = format_int n /\ x_Sequence (fe_doc e') = format_int m /\ n < m).
Definition safe_advance (s s' : safe_row) : Prop :=
  sa_owner s' = sa_owner s /\ sa_epoch s' = sa_epoch s /\ sa_request s' = sa_request s /\
  sa_domain s' = sa_domain s /\ (Terminal (sa_state s) = true -> s' = s) /\
  (forall p, Rollback (sa_doc s) = Some p -> Rollback (sa_doc s') = Some p) /\
  (s_State (sa_doc s') = "confirmed" -> s_State (sa_doc s) = "awaiting-confirmation" \/ s' = s).
Record advance (x x' : slice) : Prop := {
  adv_exec : match sl_exec x, sl_exec x' with
             | None, None => True
             | None, Some e => fe_state e = "admitted"
             | Some e, Some e' => exec_advance e e'
             | Some _, None => False
             end;
  adv_safe : match sl_safe x, sl_safe x' with
             | None, None => True
             | None, Some s => sl_exec x = None /\ Rollback (sa_doc s) = None /\ Terminal (sa_state s) = false
             | Some s, Some s' => safe_advance s s'
             | Some _, None => False
             end;
  adv_prot : sl_exec x = None \/ sl_prot x' = sl_prot x \/ (sl_prot x' = ∅ /\ settled x') }.

(** ** The database invariant *)

Record inv (d : db) : Prop := {
  inv_slices : forall id, slice_ok id (slice_of id d);
  inv_domains : forall id1 id2 s1 s2,
    safe_applies d !! id1 = Some s1 -> safe_applies d !! id2 = Some s2 ->
    Terminal (sa_state s1) = false -> Terminal (sa_state s2) = false ->
    sa_domain s1 = sa_domain s2 -> id1 = id2 }.

(** ** Ownership *)

(** What the holder of a claim knows: the slice, and the dispatches it may
    still make. *)
Record owned := mkOwned { o_id : string; o_slice : slice; o_forward : bool; o_rollback : bool }.

Definition agrees (own : option owned) (d : db) : Prop :=
  match own with Some o => slice_of (o_id o) d = o_slice o | None => True end.

Definition right (o : owned) (w : dispatch) : bool :=
  match w with Forward _ => o_forward o | Compensate _ => o_rollback o end.

(** A write that makes an intent durable earns the right to one dispatch. *)
Definition earns (w : dispatch) (x x' : slice) : bool := is_nil (intent w x) && not_nil (intent w x').
Definition advanced (o : owned) (d' : db) : owned :=
  let x' := slice_of (o_id o) d' in
  mkOwned (o_id o) x' (o_forward o || earns (Forward (o_id o)) (o_slice o) x')
    (o_rollback o || earns (Compensate (o_id o)) (o_slice o) x').
Definition after_write (own : option owned) (d' : db) : option owned := (fun o => advanced o d') <$> own.

Definition others_same (own : option owned) (d d' : db) : Prop :=
  forall id, (forall o, own = Some o -> o_id o <> id) -> slice_of id d' = slice_of id d.

(** Bytes leave only for an intent that is durable, and at most once for it. *)
Definition permitted (own : option owned) (w : dispatch) (p : Plan) : Prop :=
  exists o, own = Some o /\ o_id o = target w /\ right o w = true /\ intent w (o_slice o) = Some p
            /\ written_ahead w (o_slice o).
Definition spend (own : option owned) (w : dispatch) : option owned :=
  (fun o => match w with
            | Forward _ => mkOwned (o_id o) (o_slice o) false (o_rollback o)
            | Compensate _ => mkOwned (o_id o) (o_slice o) (o_forward o) false
            end) <$> own.
Definition claimed (id : string) (d : db) : option owned := Some (mkOwned id (slice_of id d) false false).

(** A committed transaction keeps the invariant, the slices it does not own,
    and advances the one it owns. *)
Definition tx_ok (own : option owned) (d d' : db) : Prop :=
  inv d' /\ others_same own d d' /\
  (forall o, own = Some o -> advance (slice_of (o_id o) d) (slice_of (o_id o) d')).

Fixpoint wp {A : Type} (own : option owned) (m : prog A) (post : option owned -> A -> Prop) : Prop :=
  match m with
  | Ret a => post own a
  | Query q k => forall x, wp own (k x) post
  | Read f k =>
    (forall e, wp own (k (Err e)) post) /\
    (forall d x, inv d -> agrees own d -> f d = Ok x -> wp own (k (Ok x)) post)
  | Write f k =>
    (forall e, wp own (k (Err e)) post) /\
    (forall w d x n d', inv d -> agrees own d -> f w 0%nat d = Ok (x, n, d') ->
       tx_ok own d d' /\ wp (after_write own d') (k (Ok x)) post /\
       forall e, wp (after_write own d') (k (Err e)) post)
  | Claim id k =>
    own = None /\ wp None (k false) post /\ (forall d, inv d -> wp (claimed id d) (k true) post)
  | Release id k => (exists o, own = Some o /\ o_id o = id) /\ wp None k post
  | Fork p k => wp own p (fun own' _ => own' = None) /\ wp None k post
  | Send w p k => permitted own w p /\ (forall o, wp (spend own w) (k o) post)
  end.

(** A goroutine starts without a claim and ends without one. *)
Definition goroutine {A} (m : prog A) : Prop := wp None m (fun own _ => own = None).

Lemma wp_mono : forall {A} (m : prog A) own (P Q : option owned -> A -> Prop),
  wp own m P -> (forall o a, P o a -> Q o a) -> wp own m Q.
Proof.
  induction m as [B a|B X q k IH|B X f k IH|B X f k IH|B id k IH|B id k IH|B p _ k IH|B w p k IH];
    intros own P Q H HPQ; cbn in *.
  - auto.
  - intros x. eapply IH; eauto.
  - destruct H as [H1 H2]. split; intros; eapply IH; eauto.
  - destruct H as [H1 H2]. split; [intros; eapply IH; eauto|].
    intros w d x n d' Hi Ha Hf. destruct (H2 w d x n d' Hi Ha Hf) as (T & K & E).
    split; [done|]. split; [|intros e]; eapply IH; eauto.
  - destruct H as (H0 & H1 & H2). split_and!; [done| |intros d Hd]; eapply IH; eauto.
  - destruct H as [H0 H1]. split; [done|]. eapply IH; eauto.
  - destruct H as [H0 H1]. split; [done|]. eapply IH; eauto.
  - destruct H as [H0 H1]. split; [done|]. intros o. eapply IH; eauto.
Qed.

Lemma wp_bind : forall {A B} (m : prog A) own (c : A -> prog B) post,
  wp own m (fun o a => wp o (c a) post) -> wp own (pbind m c) post.
Proof.
  intros A B m. revert B.
  induction m as [A a|A X q k IH|A X f k IH|A X f k IH|A id k IH|A id k IH|A p _ k IH|A w p k IH];
    intros B own c post H; cbn in *.
  - done.
  - intros x. by apply IH.
  - destruct H as [H1 H2]. split; intros; apply IH; eauto.
  - destruct H as [H1 H2]. split; [intros; apply IH; eauto|].
    intros w d x n d' Hi Ha Hf. destruct (H2 w d x n d' Hi Ha Hf) as (T & K & E).
    split; [done|]. split; [|intros e]; apply IH; eauto.
  - destruct H as (H0 & H1 & H2). split_and!; [done| |intros d Hd]; apply IH; eauto.
  - destruct H as [H0 H1]. split; [done|]. by apply IH.
  - destruct H as [H0 H1]. split; [done|]. by apply IH.
  - destruct H as [H0 H1]. split; [done|]. intros o. by apply IH.
Qed.

(** ** Steps *)

Record sys := mkSys {
  durable : db; active : gset string; sent : list (dispatch * Plan); tasks : list (prog unit) }.

(** The entry points of the execution core. *)
Inductive core_entry : prog unit -> Prop :=
  | E_submit en input lease : core_entry (ignore (Admission.Submit en input lease))
  | E_submit_safe en input lease command reservation :
      core_entry (ignore (Admission.SubmitSafe en input lease command reservation))
  | E_decide en id seq decision command : core_entry (ignore (SafeApply.Decide en id seq decision command))
  | E_safety_tick en : core_entry (ignore (SafeApply.SafetyTick en))
  | E_recover : core_entry (ignore Executions.Recover)
  | E_reconcile id : core_entry (ignore (Executions.Reconcile id)).

(** One effect of a goroutine: the program that remains, and a goroutine it
    has started. *)
Inductive effect : db * gset string * list (dispatch * Plan) -> prog unit ->
    db * gset string * list (dispatch * Plan) -> prog unit -> option (prog unit) -> Prop :=
  | Eff_query d a l X (q : query X) k x : effect (d, a, l) (Query q k) (d, a, l) (k x) None
  | Eff_read d a l X (f : db -> result X) k x :
      f d = Ok x -> effect (d, a, l) (Read f k) (d, a, l) (k (Ok x)) None
  | Eff_read_error d a l X (f : db -> result X) k e : effect (d, a, l) (Read f k) (d, a, l) (k (Err e)) None
  | Eff_write d a l X (f : tx X) k w x n d' :
      f w 0%nat d = Ok (x, n, d') -> effect (d, a, l) (Write f k) (d', a, l) (k (Ok x)) None
  | Eff_write_error d a l X (f : tx X) k e : effect (d, a, l) (Write f k) (d, a, l) (k (Err e)) None
  | Eff_write_unknown d a l X (f : tx X) k w x n d' e :
      (* ErrCommitUnknown: durable, but reported as an error *)
      f w 0%nat d = Ok (x, n, d') -> effect (d, a, l) (Write f k) (d', a, l) (k (Err e)) None
  | Eff_claim d a l id k : id ∉ a -> effect (d, a, l) (Claim id k) (d, {[id]} ∪ a, l) (k true) None
  | Eff_busy d a l id k : id ∈ a -> effect (d, a, l) (Claim id k) (d, a, l) (k false) None
  | Eff_release d a l id k : effect (d, a, l) (Release id k) (d, a ∖ {[id]}, l) k None
  | Eff_fork d a l p k : effect (d, a, l) (Fork p k) (d, a, l) k (Some p)
  | Eff_send d a l w p k o : effect (d, a, l) (Send w p k) (d, a, (w, p) :: l) (k o) None.

(** A fresh process over a database without executions. *)
Definition initial (s : sys) : Prop :=
  field_executions (durable s) = ∅ /\ safe_applies (durable s) = ∅ /\
  operation_protections (durable s) = ∅ /\ active s = ∅ /\ sent s = [] /\ tasks s = [].

(** What other components leave alone: the transactions, who may do what,
    what was issued, the witnesses of drafts. *)
Definition owned_tables (d : db) :=
  (field_executions d, safe_applies d, operation_protections d,
   (policy (auth d), creds (auth d), candidate_witnesses (drafts (auth d)))).

Section steps.
(** The entry points of the process. *)
Context (entry : prog unit -> Prop).

Inductive step : sys -> sys -> Prop :=
  | Step_start d a l ts p : entry p -> step (mkSys d a l ts) (mkSys d a l (ts ++ [p]))
  | Step_run d a l ts i p d' a' l' p' forked :
      ts !! i = Some p -> effect (d, a, l) p (d', a', l') p' forked ->
      step (mkSys d a l ts) (mkSys d' a' l' (<[i := p']> ts ++ match forked with Some q => [q] | None => [] end))
  | Step_other d d' a l ts :
      (* the other components write the other tables *)
      owned_tables d' = owned_tables d ->
      step (mkSys d a l ts) (mkSys d' a l ts)
  | Step_crash d a l ts : step (mkSys d a l ts) (mkSys d ∅ l []).

Definition reachable (s : sys) : Prop := exists s0, initial s0 /\ rtc step s0 s.
End steps.
Arguments Step_start {entry}.
Arguments Step_run {entry}.
Arguments Step_other {entry}.
Arguments Step_crash {entry}.
