(* ===== verification/Soundness.v ===== *)
(** * Soundness of ownership: the invariant of the running process

    Every goroutine that meets [goroutine] preserves [sys_ok] at each of its
    steps, whatever the other goroutines do, whatever the outside world
    answers and wherever the process stops. *)

From S2P Require Import Prelude GoStrings GoTime GoJson ApiTypes CandidateTypes Intents ExecTypes Store.
From S2P Require Import Evidence Reservations Program Requests Executions SafeApply Admission System.

(** ** Advancing *)

#[export] Instance advance_refl : Reflexive advance.
Proof.
  intros x. split.
  - destruct (sl_exec x) as [e|]; [|done]. split_and!; auto.
  - destruct (sl_safe x) as [s|]; [|done]. split_and!; auto.
  - auto.
Qed.

Lemma advance_intent x x' w p : advance x x' -> intent w x = Some p -> intent w x' = Some p.
Proof.
  intros [He Hs _]. destruct w; cbn; unfold forward_of, rollback_of.
  - destruct (sl_exec x) as [e|], (sl_exec x') as [e'|]; try done.
    destruct He as (Hp & Hst & _). intros H.
    destruct (fe_state e =s "admitted") eqn:E; [done|]. bsimp.
    assert (fe_state e' =s "admitted" = false) as -> by (apply String.eqb_neq; auto).
    congruence.
  - destruct (sl_safe x) as [s|], (sl_safe x') as [s'|]; cbn; try done.
    destruct Hs as (_ & _ & _ & _ & _ & Hr & _). apply Hr.
Qed.

(** ** The ledger of dispatches *)

Definition sends (w : dispatch) (l : list (dispatch * Plan)) : nat :=
  List.length (List.filter (fun x => bool_decide (fst x = w)) l).

#[global] Arguments sends : simpl never.
Lemma sends_cons w w' p l :
  sends w ((w', p) :: l) = ((if bool_decide (w' = w) then 1 else 0) + sends w l)%nat.
Proof. unfold sends. cbn -[fst]. cbn. by destruct (bool_decide (w' = w)). Qed.
Lemma sends_pos w l : sends w l <> 0%nat -> exists p, (w, p) ∈ l.
Proof.
  induction l as [|[w' p] l IH]; [done|]. rewrite sends_cons.
  destruct (bool_decide_reflect (w' = w)); [subst; intros _; eexists; left|].
  intros H. destruct IH as [q Hq]; [done|]. eexists. by right.
Qed.

(** What an owner and the ledger know of each other. *)
Definition owner_ok (d : db) (l : list (dispatch * Plan)) (o : owned) : Prop :=
  slice_of (o_id o) d = o_slice o /\
  forall w, target w = o_id o -> right o w = true -> sends w l = 0%nat /\ intent w (o_slice o) <> None.

Record sys_ok (s : sys) : Prop := {
  so_inv : inv (durable s);
  so_owners : exists owners : list (option owned),
    Forall2 (fun p own => wp own p (fun own' _ => own' = None)) (tasks s) owners /\
    (forall i o, owners !! i = Some (Some o) -> o_id o ∈ active s /\ owner_ok (durable s) (sent s) o) /\
    (forall i j o o', owners !! i = Some (Some o) -> owners !! j = Some (Some o') -> o_id o = o_id o' -> i = j);
  so_once : forall w, (sends w (sent s) <= 1)%nat;
  so_journaled : forall w p, (w, p) ∈ sent s -> intent w (slice_of (target w) (durable s)) = Some p }.

Lemma sends_journaled s w : sys_ok s -> intent w (slice_of (target w) (durable s)) = None -> sends w (sent s) = 0%nat.
Proof.
  intros Hs Hi. destruct (decide (sends w (sent s) = 0%nat)) as [|H]; [done|].
  destruct (sends_pos _ _ H) as [p Hp]. apply (so_journaled _ Hs) in Hp. congruence.
Qed.

(** ** One effect *)

(** What one effect of a goroutine owning [own] does to the shared state. *)
Inductive effect_ok (own : option owned) (st st' : db * gset string * list (dispatch * Plan)) :
    option owned -> Prop :=
  | Ok_same : st' = st -> effect_ok own st st' own
  | Ok_write d' : st' = (d', st.1.2, st.2) -> tx_ok own st.1.1 d' -> effect_ok own st st' (after_write own d')
  | Ok_claim id : own = None -> id ∉ st.1.2 -> st' = (st.1.1, {[id]} ∪ st.1.2, st.2) ->
      effect_ok own st st' (claimed id st.1.1)
  | Ok_release o : own = Some o -> st' = (st.1.1, st.1.2 ∖ {[o_id o]}, st.2) -> effect_ok own st st' None
  | Ok_send w p : permitted own w p -> st' = (st.1.1, st.1.2, (w, p) :: st.2) -> effect_ok own st st' (spend own w).

#[local] Abbreviation fine own p := (wp own p (fun own' _ => own' = None)).

Lemma effect_sound st p st' p' forked :
  effect st p st' p' forked -> forall own,
  inv st.1.1 -> agrees own st.1.1 -> fine own p ->
  match forked with
  | None => exists own', effect_ok own st st' own' /\ fine own' p'
  | Some q => st' = st /\ fine None p' /\ fine own q
  end.
Proof.
  intros He. destruct He; intros own Hinv Ha Hw; cbn in *.
  - exists own. split; [by constructor|]. auto.
  - destruct Hw as [_ Hw]. exists own. split; [by constructor|]. eauto.
  - destruct Hw as [Hw _]. exists own. split; [by constructor|]. eauto.
  - destruct Hw as [_ Hw]. destruct (Hw w d x n d' Hinv Ha H) as (T & K & _).
    eexists. split; [by eapply Ok_write|]. auto.
  - destruct Hw as [Hw _]. exists own. split; [by constructor|]. eauto.
  - destruct Hw as [_ Hw]. destruct (Hw w d x n d' Hinv Ha H) as (T & _ & K).
    eexists. split; [by eapply Ok_write|]. auto.
  - destruct Hw as (-> & _ & Hw). eexists. split; [by eapply Ok_claim|]. auto.
  - destruct Hw as (-> & Hw & _). exists None. split; [by constructor|]. auto.
  - destruct Hw as ((o & -> & <-) & Hw). exists None. split; [by eapply Ok_release|]. auto.
  - by destruct Hw.
  - destruct Hw as (Hp & Hk). eexists. split; [by eapply Ok_send|]. auto.
Qed.

(** ** The shared state after an effect *)

(** The rest of the process, as one effect sees it. *)
Record rest_ok (st : db * gset string * list (dispatch * Plan)) (own : option owned)
    (others : owned -> Prop) : Prop := {
  ro_inv : inv st.1.1;
  ro_own : forall o, own = Some o -> o_id o ∈ st.1.2 /\ owner_ok st.1.1 st.2 o;
  ro_others : forall o, others o -> o_id o ∈ st.1.2 /\ owner_ok st.1.1 st.2 o;
  ro_apart : forall o o', own = Some o -> others o' -> o_id o <> o_id o';
  ro_once : forall w, (sends w st.2 <= 1)%nat;
  ro_journaled : forall w p, (w, p) ∈ st.2 -> intent w (slice_of (target w) st.1.1) = Some p }.

Lemma owner_ok_others own d d' l o :
  others_same own d d' -> (forall o', own = Some o' -> o_id o' <> o_id o) -> owner_ok d l o -> owner_ok d' l o.
Proof. intros Hs Hne [Ha Hw]. split; [|done]. by rewrite (Hs (o_id o)). Qed.

Lemma right_advanced o d' w : target w = o_id o -> right (advanced o d') w = true ->
  right o w = true \/ (intent w (o_slice o) = None /\ intent w (slice_of (o_id o) d') <> None).
Proof.
  unfold advanced, earns. destruct w; cbn -[intent]; intros <-; rewrite orb_true_iff, andb_true_iff, is_nil_true, not_nil_true;
    intros [?|[? [? E]]]; auto; right; (split; [done|]); cbn in *; by rewrite E.
Qed.

Lemma rest_ok_write d a l o others d' :
  rest_ok (d, a, l) (Some o) others -> tx_ok (Some o) d d' ->
  rest_ok (d', a, l) (Some (advanced o d')) others.
Proof.
  intros [Hi Ho Hot Hap H1 Hj] (Hi' & Hs & Hadv). cbn in *.
  specialize (Ho o eq_refl) as [Hin [Hsl Hr]]. specialize (Hadv o eq_refl).
  assert (forall w p, (w, p) ∈ l -> intent w (slice_of (target w) d') = Some p) as Hj'.
  { intros w p Hp. specialize (Hj w p Hp). destruct (decide (target w = o_id o)) as [E|E].
    - rewrite E in *. by eapply advance_intent.
    - rewrite (Hs (target w)); [done|]. by intros ? [= <-]. }
  split; cbn; try done.
  - intros ? [= <-]. split; [done|]. split; [done|]. intros w E Hw.
    destruct (right_advanced o d' w E Hw) as [Hw'|[Hn Hs']].
    + destruct (Hr w E Hw') as [H0 Hn]. split; [done|]. destruct (intent w (o_slice o)) as [p|] eqn:Ep; [|done].
      rewrite <- Hsl in Ep. cbn. by rewrite (advance_intent _ _ _ _ Hadv Ep).
    + split; [|done]. change (target w = o_id o) in E. destruct (decide (sends w l = 0%nat)) as [|Hp]; [done|].
      destruct (sends_pos _ _ Hp) as [p Hp']. specialize (Hj w p Hp').
      rewrite E, Hsl in Hj. congruence.
  - intros o' Ho'. destruct (Hot o' Ho') as [? ?]. split; [done|].
    eapply owner_ok_others; [done| |done]. intros ? [= <-]. auto.
  - intros ? o' [= <-] Ho'. cbn. auto.
Qed.

Lemma rest_ok_send d a l own others w p :
  rest_ok (d, a, l) own others -> permitted own w p -> rest_ok (d, a, (w, p) :: l) (spend own w) others.
Proof.
  intros [Hi Ho Hot Hap H1 Hj] (o & -> & Ht & Hr & Hp & _). cbn in *.
  specialize (Ho o eq_refl) as [Hin [Hsl Hw]].
  destruct (Hw w (eq_sym Ht) Hr) as [H0 _].
  assert (forall w', target w' <> o_id o -> sends w' ((w, p) :: l) = sends w' l) as Hot'.
  { intros w' Hne. rewrite sends_cons. destruct (bool_decide_reflect (w = w')); [|done]. by subst. }
  split; cbn; try done.
  - intros ? [= <-]. split; [by destruct w|]. split; [by destruct w|]. intros w' E Hw'.
    assert (target w' = o_id o /\ right o w' = true /\ w' <> w) as (E' & Hr' & Hne).
    { destruct w, w'; cbn in *; subst; done. }
    destruct (Hw w' E' Hr') as [? ?]. rewrite sends_cons, bool_decide_eq_false_2 by done.
    split; [done|]. by destruct w.
  - intros o' Ho'. destruct (Hot o' Ho') as [? [? Hw']]. split; [done|]. split; [done|].
    intros w' E. rewrite Hot'; [by apply Hw'|]. rewrite E. intros E'. eapply Hap; eauto.
  - intros ? o' [= <-] Ho'. assert (o_id o <> o_id o') by auto. by destruct w.
  - intros w'. rewrite sends_cons. specialize (H1 w'). destruct (bool_decide_reflect (w = w')); subst; lia.
  - intros w' p' [[= -> ->]|Hin']%elem_of_cons; [|auto]. by rewrite <- Ht, Hsl.
Qed.

Lemma rest_ok_effect st st' own own' others :
  rest_ok st own others -> effect_ok own st st' own' ->
  rest_ok st' own' others.
Proof.
  destruct st as [[d a] l]. intros HR He. pose proof HR as [Hi Ho Hot Hap H1 Hj]. cbn in *.
  destruct He as [->|d' -> T|id -> Hid ->|o -> ->|w p Hp ->]; cbn in *.
  - done.
  - destruct own as [o|]; [by eapply rest_ok_write|].
    destruct T as (Hi' & Hs & _). assert (forall id, slice_of id d' = slice_of id d) as E by (intros; by apply Hs).
    split; cbn; try done.
    + intros o' [? [Ha Hw]]%Hot. split; [done|]. split; [by rewrite E|done].
    + intros w p. rewrite E. apply Hj.
  - split; cbn; try done.
    + intros ? [= <-]. split; [set_solver|]. split; [done|]. by intros [].
    + intros o' [? ?]%Hot. split; [set_solver|done].
    + intros ? o' [= <-] [? _]%Hot. cbn. set_solver.
  - destruct (Ho o eq_refl) as [Hin _].
    split; cbn; try done. intros o' Ho'. destruct (Hot o' Ho') as [? ?]. split; [|done].
    specialize (Hap o o' eq_refl Ho'). set_solver.
  - by apply rest_ok_send.
Qed.

(** ** Steps *)

(** The tasks and their owners, seen from task [i]. *)
Definition others_of (owners : list (option owned)) (i : nat) (o : owned) : Prop :=
  exists j, j <> i /\ owners !! j = Some (Some o).

(** The owners of the running tasks: they hold what they own, apart from each
    other. *)
Record owners_ok (d : db) (a : gset string) (l : list (dispatch * Plan)) (owners : list (option owned)) : Prop := {
  oo_own : forall i o, owners !! i = Some (Some o) -> o_id o ∈ a /\ owner_ok d l o;
  oo_apart : forall i j o o', owners !! i = Some (Some o) -> owners !! j = Some (Some o') ->
    o_id o = o_id o' -> i = j }.

Lemma owners_rest d a l owners i own :
  inv d -> (forall w, (sends w l <= 1)%nat) ->
  (forall w p, (w, p) ∈ l -> intent w (slice_of (target w) d) = Some p) ->
  owners_ok d a l owners -> owners !! i = Some own -> rest_ok (d, a, l) own (others_of owners i).
Proof.
  intros Hi H1 Hj [Ho Hap] Hown. split; cbn; try done.
  - intros o ->. eauto.
  - intros o (j & _ & Hj'). eauto.
  - intros o o' -> (j & Hne & Hj') E. apply Hne. symmetry. eauto.
Qed.

Lemma rest_owners d a l owners i own :
  rest_ok (d, a, l) own (others_of owners i) ->
  (forall i j o o', owners !! i = Some (Some o) -> owners !! j = Some (Some o') -> o_id o = o_id o' -> i = j) ->
  (i < length owners)%nat -> owners_ok d a l (<[i := own]> owners).
Proof.
  intros [Hi Ho Hot Hap H1 Hj] Hdist Hlt. cbn in *.
  assert (forall k o, <[i := own]> owners !! k = Some (Some o) ->
            (k = i /\ own = Some o) \/ (k <> i /\ owners !! k = Some (Some o))) as Hk.
  { intros k o Hk. destruct (decide (k = i)) as [->|Hne].
    - rewrite list_lookup_insert_eq in Hk by done. naive_solver.
    - rewrite list_lookup_insert_ne in Hk by done. naive_solver. }
  split.
  - intros k o [[-> Hown]|[Hne Hl]]%Hk; [by apply Ho|]. apply Hot. by exists k.
  - intros k k' o o' [[-> Hown]|[Hne Hl]]%Hk [[-> Hown']|[Hne' Hl']]%Hk E; try done.
    + exfalso. eapply Hap; [done| |done]. by exists k'.
    + exfalso. eapply Hap; [done| |by symmetry]. by exists k.
    + eauto.
Qed.

(** Moving claims between tasks: [f] says where each owner was. *)
Lemma owners_move d a l owners owners' (f : nat -> nat) :
  owners_ok d a l owners ->
  (forall k o, owners' !! k = Some (Some o) -> owners !! f k = Some (Some o)) ->
  (forall k k' o o', owners' !! k = Some (Some o) -> owners' !! k' = Some (Some o') -> f k = f k' -> k = k') ->
  owners_ok d a l owners'.
Proof. intros [Ho Hap] Hf Hinj. split; [eauto|]. intros k k' o o' Hk Hk' E. eauto 10. Qed.

Lemma owners_fork d a l owners i own :
  owners_ok d a l owners -> owners !! i = Some own -> owners_ok d a l (<[i := None]> owners ++ [own]).
Proof.
  intros H Hi. set (n := length owners).
  assert (i < n)%nat as Hlt by (by eapply lookup_lt_Some).
  assert (forall k o, (<[i := None]> owners ++ [own]) !! k = Some (Some o) ->
            (k = n /\ own = Some o) \/ (k <> n /\ k <> i /\ owners !! k = Some (Some o))) as Hk.
  { intros k o Hk. apply lookup_app_Some in Hk as [Hk|[Hge Hk]].
    - right. pose proof (lookup_lt_Some _ _ _ Hk) as Hk'. rewrite length_insert in Hk'.
      destruct (decide (k = i)) as [->|Hne]; [by rewrite list_lookup_insert_eq in Hk|].
      rewrite list_lookup_insert_ne in Hk by done. split_and!; [unfold n; lia|done|done].
    - left. rewrite length_insert in *. apply list_lookup_singleton_Some in Hk as [Hz ?].
      split; [unfold n; lia|done]. }
  apply (owners_move _ _ _ owners _ (fun k => if decide (k = n) then i else k) H).
  - intros k o [[-> ->]|(Hn & Hne & Hl)]%Hk; [by rewrite decide_True|by rewrite decide_False].
  - intros k k' o o' [[-> _]|(Hn & Hne & _)]%Hk [[-> _]|(Hn' & Hne' & _)]%Hk; try done.
    + rewrite decide_True, decide_False by done. congruence.
    + rewrite decide_False, decide_True by done. congruence.
    + by rewrite !decide_False by done.
Qed.

Lemma owners_start d a l owners : owners_ok d a l owners -> owners_ok d a l (owners ++ [None]).
Proof.
  intros [Ho Hap].
  assert (forall k o, (owners ++ [None]) !! k = Some (Some o) -> owners !! k = Some (Some o)) as Hk.
  { by intros k o [?|[_ [_ ?]%list_lookup_singleton_Some]]%lookup_app_Some. }
  split; intros; eauto.
Qed.

(** Slices depend on three tables only. *)
Lemma slice_of_tables d d' id :
  field_executions d' = field_executions d -> safe_applies d' = safe_applies d ->
  operation_protections d' = operation_protections d -> slice_of id d' = slice_of id d.
Proof. unfold slice_of. by intros -> -> ->. Qed.
Lemma inv_tables d d' :
  field_executions d' = field_executions d -> safe_applies d' = safe_applies d ->
  operation_protections d' = operation_protections d -> inv d -> inv d'.
Proof.
  intros E1 E2 E3 [Hs Hd]. split; [|by rewrite E2].
  intros id. rewrite (slice_of_tables _ _ _ E1 E2 E3). apply Hs.
Qed.

Lemma owned_parts d d' : owned_tables d' = owned_tables d ->
  field_executions d' = field_executions d /\ safe_applies d' = safe_applies d /\
  operation_protections d' = operation_protections d.
Proof. unfold owned_tables. intros H. by inversion H. Qed.

Section soundness.
(** The entry points are goroutines that respect ownership. *)
Context (entry : prog unit -> Prop).
Hypothesis entries : forall p, entry p -> goroutine p.

Lemma run_sys_ok d a l ts i p d' a' l' p' forked :
  sys_ok (mkSys d a l ts) -> ts !! i = Some p -> effect (d, a, l) p (d', a', l') p' forked ->
  sys_ok (mkSys d' a' l' (<[i := p']> ts ++ match forked with Some q => [q] | None => [] end)).
Proof.
  intros [Hi (owners & Hts & Ho & Hdist) H1 Hj] Hl He. cbn in *.
  destruct (Forall2_lookup_l _ _ _ _ _ Hts Hl) as (own & Hown & Hwp).
  assert (i < length owners)%nat as Hlt by (by eapply lookup_lt_Some).
  assert (rest_ok (d, a, l) own (others_of owners i)) as HR by (by apply owners_rest).
  assert (agrees own d) as Ha.
  { destruct own as [o|]; [|done]. by destruct (ro_own _ _ _ HR o eq_refl) as [_ [? _]]. }
  pose proof (effect_sound _ _ _ _ _ He own Hi Ha Hwp) as Hs.
  destruct forked as [q|].
  - destruct Hs as ([= -> -> ->] & Hp & Hq). split; cbn; try done.
    exists (<[i := None]> owners ++ [own]). split.
    + apply Forall2_app; [by apply Forall2_insert|]. by repeat constructor.
    + destruct (owners_fork d a l owners i own) as [? ?]; [by split|done|]. by split.
  - destruct Hs as (own' & Hok & Hp). pose proof (rest_ok_effect _ _ _ _ _ HR Hok) as HR'.
    destruct (rest_owners _ _ _ _ _ _ HR' Hdist Hlt) as [Ho' Hap'].
    destruct HR'. rewrite app_nil_r. split; cbn; try done.
    exists (<[i := own']> owners). split; [by apply Forall2_insert|done].
Qed.

Lemma step_sys_ok s s' : sys_ok s -> step entry s s' -> sys_ok s'.
Proof.
  intros Hs Hstep. destruct Hstep as [d a l ts p Hp|d a l ts i p d' a' l' p' forked Hl He|d d' a l ts Eo|d a l ts].
  - destruct Hs as [Hi (owners & Hts & Ho & Hdist) H1 Hj]. cbn in *.
    split; cbn; try done. exists (owners ++ [None]). split.
    + apply Forall2_app; [done|]. constructor; [by apply entries|constructor].
    + destruct (owners_start d a l owners) as [? ?]; by split.
  - by eapply run_sys_ok.
  - destruct Hs as [Hi (owners & Hts & Ho & Hdist) H1 Hj]. cbn in *. apply owned_parts in Eo as (E1 & E2 & E3).
    pose proof (fun id => slice_of_tables _ _ id E1 E2 E3) as Es.
    split; cbn; [by eapply inv_tables| |done|intros w p Hp; rewrite Es; auto].
    exists owners. split_and!; [done| |done].
    intros i o Hio. destruct (Ho i o Hio) as [? [Hag Hr]]. split; [done|]. split; [by rewrite Es|done].
  - destruct Hs as [Hi _ H1 Hj]. cbn in *. split; cbn; try done.
    exists []. by split_and!; [constructor|done|done].
Qed.

Lemma initial_sys_ok s : initial s -> sys_ok s.
Proof.
  destruct s as [d a l ts]. intros (E1 & E2 & E3 & E4 & E5 & E6). cbn in *. subst.
  assert (forall id, slice_of id d = mkSlice None None ∅) as Es.
  { intros id. unfold slice_of. rewrite E1, E2, E3, !lookup_empty. f_equal. }
  split; cbn.
  - split.
    + intros id. rewrite Es. by split.
    + intros ? ? ? ?. by rewrite E2, lookup_empty.
  - exists []. by split_and!; [constructor|done|done].
  - intros w. unfold sends. cbn. lia.
  - by intros w p ?%elem_of_nil.
Qed.

Lemma reachable_sys_ok s : reachable entry s -> sys_ok s.
Proof.
  intros (s0 & Hi & Hr). apply initial_sys_ok in Hi. induction Hr; eauto using step_sys_ok.
Qed.

(** Every step moves every transaction only as [advance] allows. *)
Lemma step_advance s s' id :
  sys_ok s -> step entry s s' -> advance (slice_of id (durable s)) (slice_of id (durable s')).
Proof.
  intros Hs Hstep. destruct Hstep as [d a l ts p Hp|d a l ts i p d' a' l' p' forked Hl He|d d' a l ts Eo|d a l ts];
    cbn; try done.
  - destruct Hs as [Hi (owners & Hts & Ho & Hdist) H1 Hj]. cbn in *.
    destruct (Forall2_lookup_l _ _ _ _ _ Hts Hl) as (own & Hown & Hwp).
    assert (agrees own d) as Ha.
    { destruct own as [o|]; [|done]. by destruct (Ho i o Hown) as [_ [? _]]. }
    pose proof (effect_sound _ _ _ _ _ He own Hi Ha Hwp) as Hs.
    destruct forked as [q|]; [by destruct Hs as ([= -> -> ->] & _)|].
    destruct Hs as (own' & Hok & _). inversion Hok as [E|d1 E T|? ? ? E|? ? E|? ? ? E]; inversion E; subst; try done.
    destruct T as (_ & Hsame & Hadv). destruct own as [o|].
    + destruct (decide (o_id o = id)) as [<-|Hne]; [by apply Hadv|]. rewrite Hsame; [done|]. by intros ? [= <-].
    + by rewrite Hsame.
  - apply owned_parts in Eo as (E1 & E2 & E3). by rewrite (slice_of_tables _ _ _ E1 E2 E3).
Qed.

(** Bytes leave the process only when the write-ahead transaction of exactly
    that plan is durable. *)
Lemma step_sends s s' w p :
  sys_ok s -> step entry s s' -> sent s' = (w, p) :: sent s ->
  intent w (slice_of (target w) (durable s)) = Some p /\ written_ahead w (slice_of (target w) (durable s)).
Proof.
  intros Hs Hstep. destruct Hstep as [d a l ts p0 Hp|d a l ts i p0 d' a' l' p' forked Hl He|d d' a l ts Eo|d a l ts];
    cbn; try (intros E%(f_equal length); cbn in E; lia).
  destruct Hs as [Hi (owners & Hts & Ho & Hdist) H1 Hj]. cbn in *.
  destruct (Forall2_lookup_l _ _ _ _ _ Hts Hl) as (own & Hown & Hwp).
  assert (agrees own d) as Ha.
  { destruct own as [o|]; [|done]. by destruct (Ho i o Hown) as [_ [? _]]. }
  pose proof (effect_sound _ _ _ _ _ He own Hi Ha Hwp) as Hs. intros Hsent.
  destruct forked as [q|]; [destruct Hs as ([= -> -> ->] & _); apply (f_equal length) in Hsent; cbn in Hsent; lia|].
  destruct Hs as (own' & Hok & _).
  revert Hsent.
  inversion Hok as [E|d1 E T|? ? ? E|? ? E|w' q Hper E]; inversion E; subst;
    try (intros Hsent%(f_equal length); cbn in Hsent; lia).
  intros [= -> ->]. destruct Hper as (o & -> & Hid & _ & Hint & Hahead).
  cbn in Ha. by rewrite <- Hid, Ha.
Qed.
End soundness.
