(* ===== verification/Transitions.v ===== *)
(** * What the journal transactions do to the database

    The exact effect of [transition] and [updateSafety] on the execution
    journal, the safety records and the protections, and the invariant they
    preserve when they move a transaction on. *)

From S2P Require Import Prelude GoStrings GoTime GoJson ApiTypes CandidateTypes Intents ExecTypes Store.
From S2P Require Import Evidence Reservations Program Requests Conformance Executions SafeApply Admission System Soundness.

(** ** Sequences *)

Lemma next_seq_ok s m : seq_ok s -> Executions.next_seq s = Some m ->
  exists n, s = format_int n /\ m = n + 1 /\ 1 <= n < 2 ^ 63 - 1.
Proof.
  intros (n & -> & Hn). unfold Executions.next_seq. rewrite parse_int_format by lia.
  destruct ((n <=? 0) || (n =? 2 ^ 63 - 1)) eqn:E; [done|]. intros [= <-].
  apply orb_false_iff in E as [_ E%Z.eqb_neq]. exists n. split_and!; [done|done|lia|lia].
Qed.

Lemma format_int_inj n m : 1 <= n < 2 ^ 63 -> 1 <= m < 2 ^ 63 -> format_int n = format_int m -> n = m.
Proof.
  intros Hn Hm E. apply (f_equal (fun s => parse_int s 64)) in E.
  rewrite !parse_int_format in E by lia. congruence.
Qed.

(** The journal's version moves. *)
Definition later (s s' : string) : Prop := exists n m, s = format_int n /\ s' = format_int m /\ n < m.

Lemma next_seq_later s m : seq_ok s -> Executions.next_seq s = Some m ->
  seq_ok (format_int m) /\ later s (format_int m) /\ format_int m <> s.
Proof.
  intros Hs (n & -> & -> & Hn)%next_seq_ok; [|done]. split_and!.
  - exists (n + 1). split; [done|lia].
  - exists n, (n + 1). split_and!; [done|done|lia].
  - intros E%format_int_inj; lia.
Qed.

(** ** The two journal transactions *)

Definition released (id : string) (m : gmap (string * string) string) : gmap (string * string) string :=
  filter (fun kv => snd kv <> id) m.

(** What [save_rows] makes of an execution row. *)
Definition saved_row (e : exec_row) (r : Execution) : exec_row :=
  mkExecRow (fe_job e) (fe_owner e) (fe_validation e) (x_State r) (unix_milli (x_Updated r)) r.

Lemma core_eq {A} (m : tx A) w n d a n' d' :
  keeps (same core) m -> m w n d = Ok (a, n', d') ->
  field_executions d' = field_executions d /\ safe_applies d' = safe_applies d /\
  operation_protections d' = operation_protections d.
Proof. intros Hm H. apply Hm, core_parts in H. naive_solver. Qed.

Ltac core_step :=
  match goal with
  | H : ?m _ _ _ = Ok (_, _, _) |- _ =>
      let K := fresh "K" in
      assert (K : keeps (same core) m) by (solve [eauto with keeps]);
      apply (core_eq _ _ _ _ _ _ _ K) in H as (? & ? & ?); clear K
  end.
(** Invert a transaction and frame the calls that only touch other tables. *)
Ltac tx_frame := repeat first [tx_step; subst | core_step].

Lemma release_spec id (b : bool) w n d u n' d' :
  (if b then do _ <- Reservations.RetirePending id in Reservations.release_protections id else ret tt) w n d
    = Ok (u, n', d') ->
  field_executions d' = field_executions d /\ safe_applies d' = safe_applies d /\
  operation_protections d' = if b then released id (operation_protections d) else operation_protections d.
Proof.
  destruct b; intros H; [|by tx_inv]. unfold Reservations.release_protections in H. tx_frame.
  split_and!; [done|done|]. cbn. unfold released. by f_equal.
Qed.

Lemma save_rows_spec r seq st t d e : field_executions d !! x_ID r = Some e -> unix_milli t = unix_milli (x_Updated r) ->
  field_executions (Executions.save_rows r seq st t d) = <[x_ID r := saved_row e r]> (field_executions d) /\
  safe_applies (Executions.save_rows r seq st t d) = safe_applies d /\
  operation_protections (Executions.save_rows r seq st t d) = operation_protections d.
Proof. intros He Ht. unfold Executions.save_rows. cbn. rewrite He, Ht. by split_and!. Qed.

Lemma transition_spec r o state w n d r' n' d' e :
  Executions.transition r o state w n d = Ok (r', n', d') -> field_executions d !! x_ID r = Some e ->
  exists seq t, Executions.next_seq (x_Sequence r) = Some seq /\ r' = set_execution r (format_int seq) state o t /\
    field_executions d' = <[x_ID r := saved_row e r']> (field_executions d) /\
    safe_applies d' = safe_applies d /\
    operation_protections d' =
      (if Executions.terminal r' && is_nil (safe_applies d !! x_ID r)
       then released (x_ID r) (operation_protections d) else operation_protections d).
Proof.
  unfold Executions.transition. intros H He. destruct (Executions.next_seq (x_Sequence r)) as [seq|] eqn:Es; [|done].
  tx_frame. exists seq, (now_at w n). split; [done|]. split; [done|].
  match goal with H : (if _ then _ else _) _ _ _ = _ |- _ => apply release_spec in H as (? & ? & Hp) end.
  set (r' := set_execution r (format_int seq) state o (now_at w n)) in *.
  match goal with H : field_executions _ = field_executions (Executions.save_rows _ _ _ _ ?d4) |- _ =>
    destruct (save_rows_spec r' seq state (now_at w n) d4 e) as (S1 & S2 & S3); [change (x_ID r') with (x_ID r); congruence|done|] end.
  change (x_ID r') with (x_ID r) in *. split_and!; [congruence|congruence|].
  unfold not_nil in Hp. rewrite negb_involutive in Hp. rewrite S3 in Hp.
  replace (safe_applies d3) with (safe_applies d0) in Hp by congruence.
  replace (operation_protections d4) with (operation_protections d0) in Hp by congruence. congruence.
Qed.

Definition saved_safe (row : safe_row) (s : SafetyRecord) : safe_row :=
  mkSafeRow (sa_owner row) (sa_epoch row) (sa_request row) (s_State s) (sa_domain row) s.

Lemma lkg_spec (b e : bool) x w n d u n' d' :
  (if b then do _ <- guard e constraint_failed in modify (fun d => with_lkg d x) else ret tt) w n d
    = Ok (u, n', d') ->
  field_executions d' = field_executions d /\ safe_applies d' = safe_applies d /\
  operation_protections d' = operation_protections d /\
  last_known_good d' = if b then x else last_known_good d.
Proof. destruct b; intros H; by tx_inv. Qed.

Lemma updateSafety_spec req r s w n d u n' d' e row :
  SafeApply.updateSafety req r s w n d = Ok (u, n', d') ->
  field_executions d !! x_ID r = Some e -> safe_applies d !! x_ID r = Some row ->
  exists seq t, let r' := set_execution r (format_int seq) (x_State r) (x_Outcome r) t in
    Executions.next_seq (x_Sequence r) = Some seq /\
    field_executions d' = <[x_ID r := saved_row e r']> (field_executions d) /\
    safe_applies d' = <[x_ID r := saved_safe row s]> (safe_applies d) /\
    operation_protections d' =
      (if Terminal (s_State s) then released (x_ID r) (operation_protections d) else operation_protections d).
Proof.
  unfold SafeApply.updateSafety. intros H He Hrow.
  destruct (Executions.next_seq (x_Sequence r)) as [seq|] eqn:Es; [|done].
  tx_frame. exists seq, (Wall (clock_at w n)). cbn zeta. split; [done|].
  set (r' := set_execution r (format_int seq) (x_State r) (x_Outcome r) (Wall (clock_at w n))) in *.
  change (x_ID r') with (x_ID r) in *.
  apply release_spec in H7 as (R1 & R2 & R3). apply lkg_spec in H8 as (K1 & K2 & K3 & _).
  set (d1 := SafeApply.save_safe_row (x_ID r) s d0) in *.
  assert (safe_applies d1 = <[x_ID r := saved_safe row s]> (safe_applies d0)) as S0.
  { unfold d1, SafeApply.save_safe_row. cbn. by rewrite Hrow. }
  destruct (save_rows_spec r' seq (s_State s) (Wall (clock_at w n)) d1 e) as (S1 & S2 & S3); [exact He|done|].
  change (x_ID r') with (x_ID r) in *.
  split_and!; [|congruence|].
  - rewrite H, K1, R1, H2, H5, S1. done.
  - rewrite H1, K3, R3, H4, H9, S3. done.
Qed.

(** ** The invariant over one transaction *)

Lemma filter_released id id' m :
  filter (fun kv => snd kv = id') (released id m) = if decide (id = id') then ∅ else filter (fun kv => snd kv = id') m.
Proof.
  unfold released. case_decide as E.
  - rewrite map_filter_filter. apply map_empty_filter. intros k v _ [H1 H2]. cbn in *. congruence.
  - apply map_filter_filter_l. cbn. congruence.
Qed.

Lemma others_same_tables id own d d' :
  (forall o, own = Some o -> o_id o = id) -> own <> None ->
  (forall id', id' <> id -> field_executions d' !! id' = field_executions d !! id') ->
  (forall id', id' <> id -> safe_applies d' !! id' = safe_applies d !! id') ->
  operation_protections d' = operation_protections d \/
  operation_protections d' = released id (operation_protections d) ->
  others_same own d d'.
Proof.
  intros Hid Hown He Hs Hp id' Hne. destruct own as [o|]; [|done].
  specialize (Hid o eq_refl). assert (id' <> id) by (intros ->; by eapply Hne).
  unfold slice_of. rewrite He, Hs by done. f_equal.
  destruct Hp as [->| ->]; [done|]. rewrite filter_released, decide_False; congruence.
Qed.

Lemma slice_here id d e' s' fin d' :
  field_executions d' !! id = Some e' -> safe_applies d' !! id = s' ->
  operation_protections d' = (if fin : bool then released id (operation_protections d) else operation_protections d) ->
  slice_of id d' = mkSlice (Some e') s' (if fin then ∅ else sl_prot (slice_of id d)).
Proof.
  intros He Hs Hp. unfold slice_of. rewrite He, Hs, Hp. f_equal.
  destruct fin; [by rewrite filter_released, decide_True|done].
Qed.

(** Enough for a transaction to be acceptable: the slice of its owner. *)
Lemma tx_ok_intro o d d' :
  inv d -> others_same (Some o) d d' ->
  slice_ok (o_id o) (slice_of (o_id o) d') -> advance (slice_of (o_id o) d) (slice_of (o_id o) d') ->
  (safe_applies d !! o_id o = None -> forall s' id2 s2, safe_applies d' !! o_id o = Some s' ->
     safe_applies d !! id2 = Some s2 -> Terminal (sa_state s2) = false -> sa_domain s2 <> sa_domain s') ->
  tx_ok (Some o) d d'.
Proof.
  intros [Hs Hd] Hoth Hnew Hadv Hfresh. split_and!; [|done|by intros ? [= <-]].
  assert (forall id, id <> o_id o -> slice_of id d' = slice_of id d) as Hsame.
  { intros id Hne. apply Hoth. intros ? [= <-]. done. }
  assert (forall id, id <> o_id o -> safe_applies d' !! id = safe_applies d !! id) as Hsafe.
  { intros id Hne%Hsame. by injection Hne. }
  assert (forall s' id2 s2, safe_applies d' !! o_id o = Some s' -> Terminal (sa_state s') = false ->
            id2 <> o_id o -> safe_applies d !! id2 = Some s2 -> Terminal (sa_state s2) = false ->
            sa_domain s2 <> sa_domain s') as Hkey.
  { intros s' id2 s2 Hs' Ht' Hne Hs2 Ht2 E.
    destruct (safe_applies d !! o_id o) as [s|] eqn:Eo; [|by eapply Hfresh].
    destruct Hadv as [_ Ha _]. cbn in Ha. rewrite Eo, Hs' in Ha.
    destruct Ha as (_ & _ & _ & Hdom & Habs & _). apply Hne. eapply (Hd _ _ s2 s); [done|done|done| |congruence].
    destruct (Terminal (sa_state s)) eqn:Et; [|done]. rewrite (Habs eq_refl) in Ht'. congruence. }
  split.
  - intros id. destruct (decide (id = o_id o)) as [->|Hne]; [done|]. rewrite Hsame by done. apply Hs.
  - intros id1 id2 s1 s2 H1 H2 T1 T2 E.
    destruct (decide (id1 = o_id o)) as [->|N1], (decide (id2 = o_id o)) as [->|N2]; try done.
    + rewrite Hsafe in H2 by done. exfalso. by eapply Hkey.
    + rewrite Hsafe in H1 by done. exfalso. by eapply Hkey.
    + rewrite Hsafe in H1, H2 by done. eauto.
Qed.

Lemma proof_open e s : Terminal (s_State s) = false -> proof_of e s.
Proof.
  unfold Terminal. intros H. apply orb_false_iff in H as [[H1 H2]%orb_false_iff H3]. bsimp.
  by split_and!.
Qed.

Lemma transition_ok o d w r out state n r' n' d' e :
  inv d -> field_executions d !! o_id o = Some e -> fe_doc e = r ->
  (forall row, safe_applies d !! o_id o = Some row -> Terminal (sa_state row) = false) -> state <> "admitted" ->
  Executions.transition r out state w n d = Ok (r', n', d') ->
  tx_ok (Some o) d d' /\ safe_applies d' = safe_applies d /\
  exists e', field_executions d' !! o_id o = Some e' /\ fe_doc e' = r' /\ fe_state e' = state /\
    x_Plan r' = x_Plan r /\ x_ID r' = x_ID r /\ x_Sequence r' <> x_Sequence r.
Proof.
  intros Hi He <- Hopen Hst H. pose proof (inv_slices _ Hi (o_id o)) as Hsl.
  destruct (ok_exec _ _ Hsl e He) as (Hid & Hfe & Hseq).
  eapply transition_spec in H as (seq & t & Hn & -> & E1 & E2 & E3); [|by rewrite Hid].
  destruct (next_seq_later _ _ Hseq Hn) as (Hseq' & Hlater & Hne).
  set (r' := set_execution (fe_doc e) (format_int seq) state out t) in *. rewrite Hid in *.
  set (fin := Executions.terminal r' && is_nil (safe_applies d !! o_id o)) in *.
  assert (field_executions d' !! o_id o = Some (saved_row e r')) as He' by (by rewrite E1, lookup_insert_eq).
  assert (slice_of (o_id o) d' =
    mkSlice (Some (saved_row e r')) (safe_applies d !! o_id o) (if fin then ∅ else sl_prot (slice_of (o_id o) d))) as Es.
  { eapply slice_here; [done|by rewrite E2|done]. }
  split_and!; [|done|exists (saved_row e r'); split_and!; done].
  assert (fin = true -> settled (slice_of (o_id o) d')) as Hfin.
  { rewrite Es. unfold fin, settled. cbn. intros [? ->%is_nil_true]%andb_true_iff. done. }
  apply tx_ok_intro; [done| | | |intros Hnone s' ? ? Hs'; rewrite E2 in Hs'; congruence].
  - apply (others_same_tables (o_id o)); [by intros ? [= <-]|done| |by rewrite E2|destruct fin; auto].
    intros id' Hid'. by rewrite E1, lookup_insert_ne.
  - rewrite Es. split; cbn.
    + intros ? [= <-]. done.
    + intros s Hs. exists (saved_row e r'). destruct (ok_safe _ _ Hsl s Hs) as (? & _ & ? & ? & ? & _).
      split_and!; try done. apply proof_open. replace (s_State (sa_doc s)) with (sa_state s) by done. auto.
    + destruct fin eqn:Ef; [done|]. intros Hp. split; [done|]. unfold settled; cbn.
      destruct (safe_applies d !! o_id o) as [s|] eqn:Eo; [by rewrite Hopen|].
      unfold fin in Ef. rewrite andb_true_r in Ef. by rewrite Ef.
  - split; cbn; rewrite ?He, ?He', ?E2.
    + split_and!; [done|done|]. right. exact Hlater.
    + destruct (safe_applies d !! o_id o) as [s|] eqn:Eo; [|done]. split_and!; auto.
    + right. rewrite E3. destruct fin eqn:Ef; [right|by left]. split; [by rewrite filter_released, decide_True|auto].
Qed.

(** The changes of a safety record that the coordinator may make: its domain is
    fixed, a decision is final, a compensation stays, a confirmation follows
    the open window, and every decision carries its proof. *)
Record safe_step (r : Execution) (s s' : SafetyRecord) : Prop := {
  ss_domain : Domain s' = Domain s;
  ss_open : Terminal (s_State s) = false;
  ss_rollback : forall p, Rollback s = Some p -> Rollback s' = Some p;
  ss_confirm : s_State s' = "confirmed" -> s_State s = "awaiting-confirmation";
  ss_state : Rollback s' <> None ->
    contains ["preparing"; "awaiting-confirmation"; "rollback-requested"] (s_State s') = false;
  ss_proof : proof_of r s' }.

Lemma updateSafety_ok o d w req r s n u n' d' e row :
  inv d -> field_executions d !! o_id o = Some e -> safe_applies d !! o_id o = Some row ->
  x_ID r = o_id o -> x_Sequence r = x_Sequence (fe_doc e) -> x_Plan r = x_Plan (fe_doc e) ->
  (fe_state e <> "admitted" -> x_State r <> "admitted") -> safe_step r (sa_doc row) s ->
  SafeApply.updateSafety req r s w n d = Ok (u, n', d') ->
  tx_ok (Some o) d d' /\
  exists e', field_executions d' !! o_id o = Some e' /\ safe_applies d' !! o_id o = Some (saved_safe row s) /\
    x_Plan (fe_doc e') = x_Plan r /\ x_Sequence (fe_doc e') <> x_Sequence r.
Proof.
  intros Hi He Hrow Hid Hq Hplan Hst [Sd So Sr Sc Ss Sp] H. pose proof (inv_slices _ Hi (o_id o)) as Hsl.
  destruct (ok_exec _ _ Hsl e He) as (_ & Hfe & Hseq).
  destruct (ok_safe _ _ Hsl row Hrow) as (_ & _ & Hrs & Hrd & _ & _).
  eapply updateSafety_spec in H as (seq & t & Hn & E1 & E2 & E3); [|by rewrite Hid|by rewrite Hid].
  rewrite Hq in Hn. destruct (next_seq_later _ _ Hseq Hn) as (Hseq' & Hlater & Hne).
  set (r' := set_execution r (format_int seq) (x_State r) (x_Outcome r) t) in *. rewrite Hid in *.
  assert (field_executions d' !! o_id o = Some (saved_row e r')) as He' by (by rewrite E1, lookup_insert_eq).
  assert (safe_applies d' !! o_id o = Some (saved_safe row s)) as Hs' by (by rewrite E2, lookup_insert_eq).
  pose proof (slice_here _ _ _ _ _ _ He' Hs' E3) as Es.
  split; [|exists (saved_row e r'); split_and!; try done; by rewrite Hq].
  assert (Terminal (sa_state row) = false) as Hopen by congruence.
  apply tx_ok_intro; [done| | | |intros Hnone; congruence].
  - apply (others_same_tables (o_id o)); [by intros ? [= <-]|done| | |destruct (Terminal (s_State s)); auto];
      intros id' Hid'; rewrite ?E1, ?E2; by rewrite lookup_insert_ne.
  - rewrite Es. split; cbn.
    + intros ? [= <-]. done.
    + intros ? [= <-]. exists (saved_row e r'). cbn. split_and!; try done; congruence.
    + destruct (Terminal (s_State s)) eqn:Et; [done|]. intros _. split; [done|]. unfold settled. cbn. congruence.
  - split; cbn; rewrite ?He, ?He', ?Hrow, ?Hs'.
    + split_and!; [done|done|]. right. exact Hlater.
    + split_and!; try done; [by rewrite Hopen|]. intros Hc. left. auto.
    + right. rewrite E3. destruct (Terminal (s_State s)) eqn:Et; [right|by left].
      rewrite filter_released, decide_True by done. split; [done|]. rewrite Es. unfold settled. cbn. congruence.
Qed.

(** ** Saving an outcome *)

Lemma stateFor_moves r o t : Executions.stateFor r o t <> "admitted".
Proof. unfold Executions.stateFor. by repeat case_match. Qed.

Lemma load_ok d id r : Executions.load d id = Ok r ->
  exists e, field_executions d !! id = Some e /\ fe_doc e = r /\ x_ID r = id.
Proof. unfold Executions.load. intros H. ok_inv. bsimp. naive_solver. Qed.
Lemma loadSafety_ok d id s : Executions.loadSafety d id = Ok s ->
  exists row, safe_applies d !! id = Some row /\ sa_doc row = s.
Proof. unfold Executions.loadSafety. intros H. ok_inv. naive_solver. Qed.

(** Name the rows that a transaction has loaded. *)
Ltac loaded e He Hid :=
  match goal with H : Executions.load _ _ = Ok _ |- _ => apply load_ok in H as (e & He & <- & Hid) end.
Ltac loaded_safety row Hrow :=
  match goal with H : Executions.loadSafety _ _ = Ok _ |- _ => apply loadSafety_ok in H as (row & Hrow & <-) end.

#[export] Instance tx_ok_refl own : Reflexive (fun d d' => inv d -> tx_ok own d d').
Proof. intros d Hi. split_and!; [done|by intros ? _|done]. Qed.

Lemma save_outcome_ok o d w out n u n' d' :
  inv d -> Executions.save_outcome_tx (o_id o) out w n d = Ok (u, n', d') ->
  tx_ok (Some o) d d' /\ safe_applies d' = safe_applies d.
Proof.
  intros Hi H. unfold Executions.save_outcome_tx in H. tx_inv.
  loaded e He Hid.
  destruct (Executions.terminal (fe_doc e)); [tx_inv; split; [by apply tx_ok_refl|done]|].
  assert (forall s, safe_applies d0 !! o_id o = Some s -> sa_state s = s_State (sa_doc s)) as Hss.
  { intros s Hs. by destruct (ok_safe _ _ (inv_slices _ Hi (o_id o)) s Hs) as (? & _ & ? & _). }
  assert (forall st o', (forall row, safe_applies d0 !! o_id o = Some row -> Terminal (sa_state row) = false) ->
    Executions.save_unsettled (fe_doc e) o' w st d0 = Ok (u, n', d') -> tx_ok (Some o) d0 d' /\ safe_applies d' = safe_applies d0) as Hgo.
  { intros st o' Hop H'. unfold Executions.save_unsettled in H'. tx_inv.
    destruct (Executions.sameOutcome _ _ && _) in H'; tx_inv; [split; [by apply tx_ok_refl|done]|].
    match goal with H : Executions.transition _ _ _ _ _ _ = _ |- _ =>
      eapply (transition_ok o) in H as (? & ? & _); [done|done|done|done|done|apply stateFor_moves] end. }
  unfold Executions.loadSafety in H. destruct (safe_applies d0 !! o_id o) as [row|] eqn:Eo; [|by eapply Hgo].
  destruct (_ || _) in H; [tx_inv|].
  destruct (Terminal (s_State (sa_doc row))) eqn:Et; [tx_inv; split; [by apply tx_ok_refl|done]|].
  eapply Hgo; [|done]. intros ? [= <-]. by rewrite Hss.
Qed.

(** ** Saving a safety record *)

(** The record read with version [x_Sequence r] may become [s]. *)
Definition fits (x : slice) (r : Execution) (s : SafetyRecord) : Prop :=
  forall e, sl_exec x = Some e -> x_Sequence (fe_doc e) = x_Sequence r ->
    exists row, sl_safe x = Some row /\ safe_step (fe_doc e) (sa_doc row) s.

(** What a durable safety record leaves in the owner's slice. *)
Definition saved (x : slice) (r : Execution) (s : SafetyRecord) : Prop :=
  exists e row, sl_exec x = Some e /\ x_Sequence (fe_doc e) <> x_Sequence r /\
    sl_safe x = Some row /\ sa_state row = s_State s /\ sa_doc row = s.

Lemma save_safety_ok o d w r s n u n' d' :
  inv d -> agrees (Some o) d -> x_ID r = o_id o -> fits (o_slice o) r s ->
  SafeApply.save_safety_tx r s w n d = Ok (u, n', d') ->
  tx_ok (Some o) d d' /\ saved (slice_of (o_id o) d') r s.
Proof.
  intros Hi Ha Hid Hfit H. unfold SafeApply.save_safety_tx in H. tx_inv.
  loaded e He Hide. bsimp. rewrite Hid in *.
  cbn in Ha. rewrite <- Ha in Hfit.
  destruct (Hfit e He G) as (row & Hrow & Hstep).
  destruct (ok_exec _ _ (inv_slices _ Hi (o_id o)) e He) as (_ & Hfe & _).
  eapply (updateSafety_ok o) in H as (Hok & e' & He' & Hs' & Hp & Hne); try done; [|congruence].
  split; [done|]. exists e', (saved_safe row s). split_and!; try done. by rewrite <- G.
Qed.

(** ** The confirmation window stays open *)

Lemma refresh_ok o d w r s n u n' d' :
  inv d -> agrees (Some o) d -> fits (o_slice o) r s ->
  s_State s = "awaiting-confirmation" -> (forall row, sl_safe (o_slice o) = Some row -> sa_state row = s_State s) ->
  SafeApply.refresh_tx (o_id o) r s w n d = Ok (u, n', d') -> tx_ok (Some o) d d'.
Proof.
  intros Hi Ha Hfit Hst Hold H. unfold SafeApply.refresh_tx in H. tx_inv.
  loaded e He Hide. bsimp. cbn in Ha. rewrite <- Ha in Hfit, Hold.
  destruct (Hfit e He G) as (row & Hrow & [Sd So Sr Sc Ss Sp]). specialize (Hold row Hrow).
  cbn in Hrow. rewrite Hrow. pose proof (inv_slices _ Hi (o_id o)) as Hsl.
  set (row' := mkSafeRow (sa_owner row) (sa_epoch row) (sa_request row) (sa_state row) (sa_domain row) s).
  destruct (ok_safe _ _ Hsl row Hrow) as (e1 & He1 & Hrs & Hrd & _). assert (e1 = e) as -> by (cbn in He1; congruence).
  match goal with |- tx_ok _ _ ?d => set (d' := d) end.
  assert (slice_of (o_id o) d' = mkSlice (Some e) (Some row') (sl_prot (slice_of (o_id o) d0))) as Es.
  { eapply (slice_here _ _ _ _ false); [exact He|unfold d'; cbn; by rewrite lookup_insert_eq|done]. }
  apply tx_ok_intro; [done| | | |intros Hnone; congruence].
  - apply (others_same_tables (o_id o)); [by intros ? [= <-]|done|done| |by left].
    intros id' Hid'. unfold d'. cbn. by rewrite lookup_insert_ne.
  - rewrite Es. split; cbn.
    + intros ? [= <-]. by apply (ok_exec _ _ Hsl).
    + intros ? [= <-]. exists e. unfold row'. cbn. split_and!; try done; congruence.
    + intros Hp. destruct (ok_prot _ _ Hsl Hp) as [_ Hns]. split; [done|]. unfold settled. cbn.
      intros Ht. by rewrite Hold, Hst in Ht.
  - rewrite Es. split; cbn; rewrite ?He, ?Hrow.
    + split_and!; auto.
    + split_and!; try done; [by rewrite Hold, Hst|cbn; congruence].
    + by right; left.
Qed.
