(* ===== verification/Handlers.v ===== *)
(** * Admission, dispatch and decision: the transactions that open and close an
    apply

    Each preserves the invariant and moves only the transaction it names; the
    write-ahead transaction earns the right to one dispatch of exactly the
    admitted plan. *)

From S2P Require Import Prelude GoStrings GoTime GoJson ApiTypes CandidateTypes Intents ExecTypes Store.
From S2P Require Import Evidence Reservations Program Requests Conformance Executions SafeApply Admission System Soundness Transitions.

(** ** Dispatch *)

Lemma dispatch_ok o d w input c safe n r n' d' p :
  inv d -> agrees (Some o) d -> (safe = false -> sl_safe (o_slice o) = None) ->
  (exists e, sl_exec (o_slice o) = Some e /\ x_Plan (fe_doc e) = p) ->
  Admission.dispatch_tx (o_id o) input c safe w n d = Ok (r, n', d') ->
  tx_ok (Some o) d d' /\ permitted (Some (advanced o d')) (Forward (o_id o)) p.
Proof.
  intros Hi Ha Hsafe (e & He & Hp) H. unfold Admission.dispatch_tx in H. tx_inv.
  loaded e1 He1 Hid. pose proof Ha as Ha'. cbn in Ha.
  assert (e1 = e) as -> by (rewrite <- Ha in He; cbn in He; congruence). bsimp.
  destruct (ok_exec _ _ (inv_slices _ Hi (o_id o)) e He1) as (_ & Hst & _).
  match type of H with _ _ _ _ _ _ ?d1 = _ =>
    assert (d1 = d4 /\ forall row, safe_applies d4 !! o_id o = Some row -> Terminal (sa_state row) = false) as [-> Hopen] end.
  { destruct safe; tx_inv.
    - loaded_safety row Hrow. bsimp. split; [done|]. intros ? Hr. rewrite Hrow in Hr. injection Hr as <-.
      destruct (ok_safe _ _ (inv_slices _ Hi (o_id o)) row Hrow) as (_ & _ & -> & _).
      match goal with G : s_State _ = _ /\ _ |- _ => by destruct G as [-> _] end.
    - split; [done|]. intros row Hrow. rewrite <- Ha in Hsafe. cbn in Hsafe. rewrite Hsafe in Hrow by done. done. }
  eapply (transition_ok o) in H as (Hok & Hs & e' & He' & Hr' & Hst' & Hpl & _); try done.
  split; [done|]. exists (advanced o d'). split; [done|]. split; [done|].
  assert (forward_of (o_slice o) = None) as F1.
  { rewrite <- Ha. unfold forward_of. cbn. by rewrite He1, Hst, G. }
  assert (forward_of (slice_of (o_id o) d') = Some (x_Plan (fe_doc e))) as F2.
  { unfold forward_of. cbn. rewrite He', Hst'. cbn. by rewrite Hr', Hpl. }
  split_and!; cbn -[slice_of]; [|by rewrite F2|by exists e'].
  unfold earns. cbn -[slice_of]. rewrite F1, F2. by rewrite orb_true_r.
Qed.

(** ** The protections of an admission *)

(** Only the protections of [id] may be added. *)
Definition only_protects (id : string) (d d' : db) : Prop :=
  field_executions d' = field_executions d /\ safe_applies d' = safe_applies d /\
  forall id', id' <> id ->
    filter (fun kv => snd kv = id') (operation_protections d') = filter (fun kv => snd kv = id') (operation_protections d).
#[export] Instance only_protects_preorder id : PreOrder (only_protects id).
Proof.
  split; [done|]. intros x y z (A1 & A2 & A3) (B1 & B2 & B3).
  split_and!; [congruence|congruence|]. intros id' H. by rewrite B3, A3.
Qed.

Lemma insert_protection_only resource field id :
  keeps (only_protects id) (Reservations.insert_protection resource field id).
Proof.
  intros w n d u n' d' H. unfold Reservations.insert_protection in H. tx_inv.
  apply not_nil_false in G. split_and!; [done|done|]. intros id' Hid. cbn.
  rewrite map_filter_insert_not'; [done|cbn; congruence|]. intros ? E. rewrite G in E. done.
Qed.

Lemma protectGraph_only id root l : keeps (only_protects id) (Reservations.protectGraph id root l).
Proof.
  assert (forall r f, keeps (only_protects id) (Reservations.protect id r f)) as Hp.
  { intros r f. unfold Reservations.protect. pose proof insert_protection_only. keeps_tac. }
  unfold Reservations.protectGraph. apply keeps_bind; [typeclasses eauto|apply Hp|intros _].
  apply each_keeps; [typeclasses eauto|auto].
Qed.
#[export] Hint Resolve protectGraph_only insert_protection_only : keeps.

Lemma protect_intent_only id root graph i : keeps (only_protects id) (Reservations.protect_intent id root graph i).
Proof. unfold Reservations.protect_intent, Reservations.protectDeletion. keeps_tac. Qed.
Lemma protect_all_only id root graph l :
  keeps (only_protects id) (Reservations.each (Reservations.protect_intent id root graph) l).
Proof. apply each_keeps; [typeclasses eauto|]. intros. apply protect_intent_only. Qed.

(** ** Admission *)

Lemma insert_execution_spec r w n d u n' d' :
  Admission.insert_execution r w n d = Ok (u, n', d') ->
  field_executions d !! x_ID r = None /\ safe_applies d' = safe_applies d /\
  operation_protections d' = operation_protections d /\
  field_executions d' = <[x_ID r := mkExecRow (x_JobID r) (x_Owner r) (x_ValidationID r) (x_State r)
                                      (unix_milli (x_Created r)) r]> (field_executions d).
Proof. intros H. unfold Admission.insert_execution in H. tx_inv. bsimp. naive_solver. Qed.

Lemma admitSafety_spec en r a w n d u n' d' :
  SafeApply.admitSafety en r a w n d = Ok (u, n', d') ->
  field_executions d' = field_executions d /\ operation_protections d' = operation_protections d /\
  SafeApply.open_in (SafeApply.domain en) d = false /\
  exists row, safe_applies d' = <[x_ID r := row]> (safe_applies d) /\ sa_domain row = SafeApply.domain en /\
    sa_state row = "preparing" /\ s_State (sa_doc row) = "preparing" /\ sa_domain row = Domain (sa_doc row) /\
    Rollback (sa_doc row) = None.
Proof.
  intros H. unfold SafeApply.admitSafety in H. tx_inv.
  match goal with H : match ?c with _ => _ end _ _ _ = _ |- _ => destruct c end; tx_inv.
  split_and!; [done|done|done|]. by eexists.
Qed.

Lemma count_zero {A} (P : string -> A -> bool) (m : gmap string A) k v :
  (0 <? count P m) = false -> m !! k = Some v -> P k v = false.
Proof.
  intros Hc Hk. destruct (P k v) eqn:E; [|done]. exfalso.
  assert (In (k, v) (List.filter (fun kv => P (fst kv) (snd kv)) (map_to_list m))) as Hin.
  { apply filter_In. split; [|done]. by apply list_elem_of_In, elem_of_map_to_list. }
  unfold count in Hc. apply Z.ltb_ge in Hc. destruct (List.filter _ _); [done|cbn in Hc; lia].
Qed.

Lemma open_in_false dom d id s :
  SafeApply.open_in dom d = false -> safe_applies d !! id = Some s -> Terminal (sa_state s) = false -> sa_domain s <> dom.
Proof.
  intros H Hs Ht E. pose proof (count_zero _ _ _ _ H Hs) as K. cbn in K. rewrite Ht, E, String.eqb_refl in K. done.
Qed.

Lemma insert_transport_only row t w n d u n' d' :
  Admission.insert_transport row t w n d = Ok (u, n', d') ->
  field_executions d' = field_executions d /\ safe_applies d' = safe_applies d /\
  operation_protections d' = operation_protections d.
Proof. intros H. unfold Admission.insert_transport in H. by tx_inv. Qed.
Lemma insert_journal_only r w n d u n' d' :
  Admission.insert_journal r w n d = Ok (u, n', d') ->
  field_executions d' = field_executions d /\ safe_applies d' = safe_applies d /\
  operation_protections d' = operation_protections d.
Proof. intros H. unfold Admission.insert_journal in H. by tx_inv. Qed.

(** What admission does to the three tables. *)
Record admits (o : owned) (d d' : db) (p : Plan) (safe : bool) : Prop := {
  ad_fresh : field_executions d !! o_id o = None;
  ad_exec : exists e, field_executions d' = <[o_id o := e]> (field_executions d) /\
    x_ID (fe_doc e) = o_id o /\ fe_state e = "admitted" /\ x_State (fe_doc e) = "admitted" /\
    x_Sequence (fe_doc e) = "1" /\ x_Plan (fe_doc e) = p;
  ad_safe : if safe then exists row, safe_applies d' = <[o_id o := row]> (safe_applies d) /\
      sa_state row = "preparing" /\ s_State (sa_doc row) = "preparing" /\ sa_domain row = Domain (sa_doc row) /\
      Rollback (sa_doc row) = None /\
      (forall id s, safe_applies d !! id = Some s -> Terminal (sa_state s) = false -> sa_domain s <> sa_domain row)
    else safe_applies d' = safe_applies d;
  ad_prot : forall id', id' <> o_id o ->
    filter (fun kv => snd kv = id') (operation_protections d') = filter (fun kv => snd kv = id') (operation_protections d) }.

Lemma admit_spec en o input c p safe req w n d m n' d' :
  Admission.admit_tx en (o_id o) input c p safe req w n d = Ok (m, n', d') -> admits o d d' p (not_nil safe).
Proof.
  intros H. unfold Admission.admit_tx in H. tx_frame.
  repeat match goal with
  | H : Admission.insert_transport _ _ _ _ _ = _ |- _ => apply insert_transport_only in H as (? & ? & ?)
  | H : Admission.insert_journal _ _ _ _ = _ |- _ => apply insert_journal_only in H as (? & ? & ?)
  | H : Reservations.each _ _ _ _ _ = _ |- _ =>
      apply protect_all_only in H as (A1 & A2 & A3)
  | H : Admission.insert_execution _ _ _ _ = _ |- _ => apply insert_execution_spec in H as (F1 & F2 & F3 & F4)
  end.
  change (x_ID (Admission.admitted _ _ _ _ _ _ _)) with (o_id o) in *.
  match type of F4 with _ = <[_ := ?e]> _ => set (row := e) in * end.
  match goal with H : match safe with _ => _ end _ _ _ = _ |- _ => rename H into Hs end.
  destruct safe as [a|]; cbn [not_nil negb is_nil]; [apply admitSafety_spec in Hs as (S1 & S2 & S3 & srow & S4 & S5 & S6 & S7 & S8 & S9);
    change (x_ID (Admission.admitted _ _ _ _ _ _ _)) with (o_id o) in *|tx_inv].
  - split; [congruence|exists row; split_and!; [rewrite H0, S1, F4; f_equal; congruence|done..]| |].
    + exists srow. split_and!; try done; [congruence|]. intros id s' Hs' Ht. rewrite S5.
      apply (open_in_false _ _ id s' S3); congruence.
    + intros id' Hid. specialize (A3 id' Hid). congruence.
  - split; [congruence|exists row; split_and!; [rewrite H0, F4; f_equal; congruence|done..]|congruence|].
    intros id' Hid. specialize (A3 id' Hid). congruence.
Qed.

Lemma admits_ok o d d' p safe :
  inv d -> admits o d d' p safe ->
  tx_ok (Some o) d d' /\
  exists e, sl_exec (slice_of (o_id o) d') = Some e /\ x_Plan (fe_doc e) = p /\
    (safe = false -> sl_safe (slice_of (o_id o) d') = None).
Proof.
  intros Hi [Hf (e & E1 & Hid & Hst & Hxs & Hseq & Hp) Hs Hpr]. pose proof (inv_slices _ Hi (o_id o)) as Hsl.
  assert (safe_applies d !! o_id o = None) as Hs0.
  { destruct (safe_applies d !! o_id o) as [s|] eqn:E; [|done].
    destruct (ok_safe _ _ Hsl s E) as (? & He & _). cbn in He. congruence. }
  assert (sl_prot (slice_of (o_id o) d) = ∅) as Hp0.
  { destruct (decide (sl_prot (slice_of (o_id o) d) = ∅)) as [|Hne]; [done|].
    destruct (ok_prot _ _ Hsl Hne) as [He _]. cbn in He. congruence. }
  assert (field_executions d' !! o_id o = Some e) as He' by (by rewrite E1, lookup_insert_eq).
  assert (safe = false -> safe_applies d' !! o_id o = None) as Hs1 by (intros ->; by rewrite Hs).
  split; [|by exists e].
  apply tx_ok_intro; [done| | | |].
  - intros id Hne. specialize (Hne o eq_refl). unfold slice_of. rewrite E1, lookup_insert_ne, Hpr by done.
    f_equal. destruct safe; [destruct Hs as (row & -> & _); by rewrite lookup_insert_ne|by rewrite Hs].
  - split; cbn.
    + rewrite He'. intros ? [= <-]. rewrite Hst, Hxs, Hseq. split_and!; [done|done|]. by exists 1.
    + intros s Hs'. exists e. split; [done|]. destruct safe; [|by rewrite Hs1 in Hs'].
      destruct Hs as (row & E & R1 & R2 & R3 & R4 & _). rewrite E, lookup_insert_eq in Hs'. injection Hs' as <-.
      split_and!; [congruence|done|by rewrite R4|]. apply proof_open. by rewrite R2.
    + intros _. rewrite He'. split; [done|]. unfold settled. cbn. rewrite He'. destruct safe.
      * destruct Hs as (row & -> & R1 & _). by rewrite lookup_insert_eq, R1.
      * rewrite Hs1 by done. unfold Executions.terminal. by rewrite Hxs.
  - split; cbn; rewrite ?Hf, ?He', ?Hs0.
    + done.
    + destruct safe; [|by rewrite Hs1]. destruct Hs as (row & -> & R1 & R2 & R3 & R4 & _).
      by rewrite lookup_insert_eq, R1.
    + by left.
  - intros _ s' id2 s2 Hs' Hs2 Ht. destruct safe; [|by rewrite Hs1 in Hs'].
    destruct Hs as (row & E & _ & _ & _ & _ & R5). rewrite E, lookup_insert_eq in Hs'. injection Hs' as <-. eauto.
Qed.

(** ** The receipt of a mutation *)

Lemma execute_tx_spec c digest mutate w n d out n' d' :
  Requests.execute_tx c digest mutate w n d = Ok (out, n', d') ->
  (d' = d /\ Requests.rs_Replayed out = true) \/
  (Requests.rs_Replayed out = false /\ exists req m n1 n2 d2, mutate req w n1 d = Ok (m, n2, d2) /\
     field_executions d' = field_executions d2 /\ safe_applies d' = safe_applies d2 /\
     operation_protections d' = operation_protections d2).
Proof.
  intros H. unfold Requests.execute_tx in H. tx_inv.
  match goal with H : match ?c with _ => _ end _ _ _ = _ |- _ => destruct c end; [tx_inv|]. tx_inv.
  match goal with H : match ?c with _ => _ end _ _ _ = _ |- _ => destruct c as [row|] end.
  - left. tx_inv. split; [done|]. unfold Requests.replay_row in L. by ok_inv.
  - right. unfold Requests.execute_new in H. tx_inv.
    match goal with H : (let '(_, _) := ?c in _) _ _ _ = _ |- _ => destruct c as [out' row] eqn:E end. tx_inv.
    unfold Requests.accept in E. injection E as <- <-. split; [done|]. by eexists _, _, _, _, _.
Qed.

(** ** Decisions *)

(** The record and its safety state, as the owner has read them. *)
Definition reads (o : owned) (r : Execution) (s : SafetyRecord) : Prop :=
  slice_ok (o_id o) (o_slice o) /\ exists e row,
    sl_exec (o_slice o) = Some e /\ fe_doc e = r /\ sl_safe (o_slice o) = Some row /\ sa_doc row = s.

Lemma reads_rollback o r s : reads o r s ->
  contains ["preparing"; "awaiting-confirmation"; "rollback-requested"] (s_State s) = true -> Rollback s = None.
Proof.
  intros (Hsl & e & row & _ & _ & Hr & <-) Hc. destruct (ok_safe _ _ Hsl row Hr) as (_ & _ & _ & _ & H & _).
  destruct (Rollback (sa_doc row)); [|done]. rewrite H in Hc; done.
Qed.

Lemma decide_ok o d w id sequence decision r s confirmation req n m n' d' :
  inv d -> agrees (Some o) d -> reads o r s -> id = o_id o -> Terminal (s_State s) = false ->
  (decision = "confirm" -> s_State s = "awaiting-confirmation" /\
     Commit confirmation = "committed" /\ Applied confirmation = "applied") ->
  SafeApply.decide_tx id sequence decision r s confirmation req w n d = Ok (m, n', d') -> tx_ok (Some o) d d'.
Proof.
  intros Hi Ha Hr -> Hopen Hconf H. unfold SafeApply.decide_tx in H. tx_inv.
  match goal with H : match ?c with _ => _ end _ _ _ = _ |- _ => destruct c end; [tx_inv|]. tx_inv.
  loaded e He Hid. pose proof Hr as (_ & e' & row & He' & <- & Hrow & <-).
  cbn in Ha. rewrite <- Ha in He', Hrow. cbn in He', Hrow. assert (e' = e) as -> by congruence.
  match goal with x : Execution * SafetyRecord |- _ => destruct x as [cur s'] end.
  assert (d3 = d /\ x_ID cur = x_ID (fe_doc e) /\ x_Sequence cur = x_Sequence (fe_doc e) /\
          x_Plan cur = x_Plan (fe_doc e) /\ (fe_state e <> "admitted" -> x_State cur <> "admitted") /\
          safe_step cur (sa_doc row) s') as (-> & C1 & C2 & C3 & C4 & C5).
  { destruct (ok_exec _ _ (inv_slices _ Hi (o_id o)) e He) as (_ & Hfe & _). rewrite Hfe.
    destruct (String.eqb_spec decision "confirm") as [Ed|_].
    - destruct (Hconf Ed) as (Hst & Hc1 & Hc2). clear H Hconf. tx_inv.
      match goal with H : match ?c with _ => _ end _ _ _ = _ |- _ => destruct c end; tx_inv.
      split_and!; try done; [intros _; apply stateFor_moves|].
      assert (Rollback (sa_doc row) = None) as Hrb by (eapply reads_rollback; [done|by rewrite Hst]).
      split; cbn; try done.
    - clear H. destruct (String.eqb_spec decision "rollback") as [_|_]; tx_inv. bsimp. destruct_and!.
      split_and!; try done. }
  clear H3. tx_inv.
  match goal with H : SafeApply.updateSafety _ _ _ _ _ _ = _ |- _ =>
    apply (updateSafety_ok o _ _ _ _ _ _ _ _ _ e row) in H as [Hok _]; [|done|done|done|congruence|done..] end.
  core_step. destruct Hok as (Hi' & Hs & Hadv).
  match goal with E1 : field_executions d' = field_executions ?d1 |- _ =>
    pose proof (fun id => slice_of_tables d1 d' id) as Et end.
  split_and!.
  - eapply inv_tables; [done|done|done|done].
  - intros id Hne. rewrite Et by done. by apply Hs.
  - intros ? [= <-]. rewrite Et by done. by apply Hadv.
Qed.
