(* ===== verification/Goroutines.v ===== *)
(** * The manager's goroutines respect ownership

    The [wp] of every entry point of the execution core: [Submit],
    [SubmitSafe], [Decide], [SafetyTick], [Recover] and [Reconcile]. *)

From S2P Require Import Prelude GoStrings GoTime GoJson ApiTypes CandidateTypes Intents ExecTypes Store.
From S2P Require Import Evidence Reservations Program Requests Conformance Executions SafeApply Admission System Soundness Transitions Handlers.

Definition owns (id : string) (own : option owned) : Prop := exists o, own = Some o /\ o_id o = id.
Lemma owns_some o : owns (o_id o) (Some o).
Proof. by exists o. Qed.
#[export] Hint Resolve owns_some : core.

(** ** Quiet programs: questions and reads *)

Fixpoint quiet {A : Type} (m : prog A) : Prop :=
  match m with
  | Ret _ => True
  | Query _ k => forall x, quiet (k x)
  | Read _ k => forall x, quiet (k x)
  | _ => False
  end.

Lemma wp_quiet : forall {A} (m : prog A) own (post : option owned -> A -> Prop),
  quiet m -> (forall a, post own a) -> wp own m post.
Proof.
  induction m as [B a|B X q k IH|B X f k IH|B X f k IH|B id k IH|B id k IH|B p _ k IH|B w p k IH];
    intros own post Hq Hp; cbn in *; try done; auto.
Qed.

Lemma quiet_bind : forall {A B} (m : prog A) (c : A -> prog B), quiet m -> (forall a, quiet (c a)) -> quiet (pbind m c).
Proof.
  intros A B m. revert B.
  induction m as [A a|A X q k IH|A X f k IH|A X f k IH|A id k IH|A id k IH|A p _ k IH|A w p k IH];
    intros B c Hm Hc; cbn in *; try done; auto.
Qed.

Ltac quiet_step :=
  match goal with
  | |- quiet (pbind _ _) => apply quiet_bind; [|intros ?]
  | |- quiet (match ?x with _ => _ end) => destruct x
  | |- quiet _ => progress cbn
  end.
Ltac quiet_tac := repeat (quiet_step; intros); try done.

Lemma Replay_quiet c a : quiet a -> quiet (Requests.Replay c a).
Proof. intros H. unfold Requests.Replay. quiet_tac. Qed.
Lemma safetyReady_quiet en : quiet (SafeApply.safetyReady en).
Proof. unfold SafeApply.safetyReady, SafeApply.SafetyAvailable. quiet_tac. Qed.
Lemma rollback_admission_quiet en r : quiet (SafeApply.rollback_admission en r).
Proof. unfold SafeApply.rollback_admission, SafeApply.SafetyAvailable. quiet_tac. Qed.

(** ** Rules for the effects *)

Lemma wp_query {X A} (q : query X) (k : X -> prog A) own post :
  (forall x, wp own (k x) post) -> wp own (pbind (query_ q) k) post.
Proof. done. Qed.
Lemma wp_ret {A B} (a : A) (k : A -> prog B) own post : wp own (k a) post -> wp own (pbind (Ret a) k) post.
Proof. done. Qed.
Lemma wp_done {A} (a : A) own (post : option owned -> A -> Prop) : post own a -> wp own (Ret a) post.
Proof. done. Qed.
Lemma wp_release {A} o (a : A) (post : option owned -> A -> Prop) :
  post None a -> wp (Some o) (Release (o_id o) (Ret a)) post.
Proof. split; [by exists o|done]. Qed.
Lemma wp_claim {A} id (k : bool -> prog A) (post : option owned -> A -> Prop) :
  wp None (k false) post -> (forall o, o_id o = id -> slice_ok id (o_slice o) -> wp (Some o) (k true) post) ->
  wp None (Claim id k) post.
Proof. intros H1 H2. split_and!; [done|done|]. intros d Hd. apply H2; [done|]. apply (inv_slices _ Hd). Qed.
Tactic Notation "wp_if" ident(E) := match goal with |- wp _ (if ?b then _ else _) _ => destruct b eqn:E end.
Tactic Notation "wp_q" ident(x) := refine (wp_query _ _ _ _ _); intros x.

(** ** Reading under a claim *)

Lemma agrees_slice o d : inv d -> agrees (Some o) d -> slice_ok (o_id o) (o_slice o).
Proof. intros Hi Ha. cbn in Ha. rewrite <- Ha. apply (inv_slices _ Hi). Qed.

Lemma wp_readSafety o (post : option owned -> result (Execution * SafetyRecord) -> Prop) :
  (forall e, post (Some o) (Err e)) ->
  (forall r s, x_ID r = o_id o -> reads o r s -> post (Some o) (Ok (r, s))) ->
  wp (Some o) (SafeApply.readSafety (o_id o)) post.
Proof.
  intros He Hr. split; [done|]. intros d [r s] Hi Ha H. cbn. unfold SafeApply.load_both in H.
  ok_inv. loaded e Hfe Hid. loaded_safety row Hrow. apply Hr; [done|].
  split; [by eapply agrees_slice|]. exists e, row. cbn in Ha. rewrite <- Ha. by split_and!.
Qed.

Lemma wp_Read o (post : option owned -> result Execution -> Prop) :
  (forall e, post (Some o) (Err e)) ->
  (forall e, slice_ok (o_id o) (o_slice o) -> sl_exec (o_slice o) = Some e -> x_ID (fe_doc e) = o_id o ->
     post (Some o) (Ok (fe_doc e))) ->
  wp (Some o) (Executions.Read_ (o_id o)) post.
Proof.
  intros He Hr. split; [done|]. intros d r Hi Ha H. cbn. loaded e Hfe Hid.
  apply Hr; [by eapply agrees_slice| |done]. cbn in Ha. by rewrite <- Ha.
Qed.

(** ** Writing under a claim *)

Lemma wp_saveOutcome o out (post : option owned -> result unit -> Prop) :
  (forall o' res, o_id o' = o_id o -> sl_safe (o_slice o') = sl_safe (o_slice o) -> post (Some o') res) ->
  wp (Some o) (Executions.saveOutcome (o_id o) out) post.
Proof.
  intros H. split; [intros e; by apply H|]. intros w d x n d' Hi Ha Hf.
  destruct (save_outcome_ok o _ _ _ _ _ _ _ Hi Hf) as [Hok Hs].
  assert (forall res, post (Some (advanced o d')) res) as Hp.
  { intros res. apply H; [done|]. cbn in *. by rewrite Hs, <- Ha. }
  split; [done|]. split; [apply Hp|intros e; apply Hp].
Qed.

(** The holder of a claim changes the record it has read. *)
Record editing (o : owned) (r : Execution) (s : SafetyRecord) : Prop := {
  ed_id : x_ID r = o_id o;
  ed_from : exists s0, reads o r s0 /\ Terminal (s_State s0) = false /\ Domain s = Domain s0 /\
    Rollback s = Rollback s0 /\ s_State s = s_State s0 }.

Lemma reads_editing o r s : x_ID r = o_id o -> reads o r s -> Terminal (s_State s) = false -> editing o r s.
Proof. intros. split; [done|]. by exists s. Qed.
Lemma editing_change o r s s' : editing o r s -> Domain s' = Domain s -> Rollback s' = Rollback s ->
  s_State s' = s_State s -> editing o r s'.
Proof. intros [Hid (s0 & Hr & Ht & Hd & Hrb & Hst)] E1 E2 E3. split; [done|]. exists s0. split_and!; congruence || done. Qed.
Lemma editing_open o r s : editing o r s -> Terminal (s_State s) = false.
Proof. by intros [_ (s0 & _ & Ht & _ & _ & ->)]. Qed.

Lemma editing_fits o r s s' :
  editing o r s -> Domain s' = Domain s -> (forall p, Rollback s = Some p -> Rollback s' = Some p) ->
  s_State s' <> "confirmed" ->
  (Rollback s' <> None -> contains ["preparing"; "awaiting-confirmation"; "rollback-requested"] (s_State s') = false) ->
  proof_of r s' -> fits (o_slice o) r s'.
Proof.
  intros [_ (s0 & (_ & e & row & He & <- & Hrow & <-) & Ht & Hd & Hrb & Hst)] E1 E2 E3 E4 E5.
  intros e' He' _. assert (e' = e) as -> by congruence. exists row. split; [done|].
  split; [congruence|done|intros p Hp; apply E2; congruence|done|done|done].
Qed.

(** After a safety record was written, or was not. *)
Definition after_save (o : owned) (r : Execution) (s : SafetyRecord) (o' : owned) : Prop :=
  o_id o' = o_id o /\ saved (o_slice o') r s /\
  (rollback_of (o_slice o) = None -> Rollback s <> None -> o_rollback o' = true).

Lemma wp_saveSafety o r s (post : option owned -> result unit -> Prop) :
  x_ID r = o_id o -> fits (o_slice o) r s ->
  (forall e, post (Some o) (Err e)) ->
  (forall o' res, after_save o r s o' -> post (Some o') res) ->
  wp (Some o) (SafeApply.saveSafety r s) post.
Proof.
  intros Hid Hf He Hk. split; [done|]. intros w d x n d' Hi Ha H.
  destruct (save_safety_ok _ _ _ _ _ _ _ _ _ Hi Ha Hid Hf H) as [Hok Hs].
  assert (after_save o r s (advanced o d')) as Has.
  { split; [done|]. split; [done|]. intros Hn Hr. destruct Hs as (e & row & _ & _ & Hrow & _ & Hdoc).
    cbn -[slice_of]. unfold earns. cbn -[slice_of]. rewrite Hn. unfold rollback_of at 1. rewrite Hrow. cbn. rewrite Hdoc.
    destruct (Rollback s); [by rewrite orb_true_r|done]. }
  split; [done|]. split; [by apply Hk|intros e; by apply Hk].
Qed.

(** ** The coordinator *)

Section engine.
Context (en : Executions.Engine).
Local Abbreviation released_by o := (fun own _ => owns (o_id o) own) (only parsing).

Lemma wp_holdSafety o r s state reason :
  x_ID r = o_id o ->
  fits (o_slice o) r (set_healthy (set_state s state reason) None) ->
  wp (Some o) (SafeApply.holdSafety r s state reason) (released_by o).
Proof.
  intros Hid Hf. unfold SafeApply.holdSafety. case_match; [cbn; auto|].
  apply wp_saveSafety; [done|done|auto|]. intros o' res (Hid' & _). by exists o'.
Qed.

(** A record whose compensation has not started may be held for repair. *)
Lemma editing_hold o r s state reason :
  editing o r s -> contains ["preparing"; "awaiting-confirmation"; "rollback-requested"] state = false ->
  Terminal state = false -> fits (o_slice o) r (set_healthy (set_state s state reason) None).
Proof.
  intros He Hc Ht. eapply editing_fits; try done; cbn.
  - intros ->. by vm_compute in Ht.
  - by apply proof_open.
Qed.

(** *** Compensation *)

Lemma wp_commit_rollback o r s p :
  editing o r s -> Rollback s = None ->
  wp (Some o) (SafeApply.commit_rollback r (SafeApply.rolling_back s p) p) (fun own x =>
    exists o', own = Some o' /\ o_id o' = o_id o /\
      if fst x then saved (o_slice o') r (SafeApply.rolling_back s p)
      else o_slice o' = o_slice o \/ saved (o_slice o') r (SafeApply.rolling_back s p)).
Proof.
  intros He Hr. unfold SafeApply.commit_rollback.
  assert (fits (o_slice o) r (SafeApply.rolling_back s p)) as Hf.
  { eapply editing_fits; try done; cbn; first [congruence|by apply proof_open]. }
  wp_q early. destruct early as [early|]; [apply wp_done; exists o; split_and!; cbn; auto|].
  apply wp_bind, wp_saveSafety; [by destruct He|done| |].
  - intros e. wp_q out. apply wp_done. exists o; split_and!; cbn; auto.
  - intros o' [u|e] (Hid & Hs & Htok); [|wp_q out; apply wp_done; exists o'; split_and!; cbn; auto].
    wp_q unsent. destruct unsent as [out|]; [by exists o'|].
    assert (rollback_of (o_slice o) = None) as Hnone.
    { destruct He as [_ (s0 & (_ & e & row & _ & _ & Hrow & Hd) & _ & _ & Hrb & _)].
      unfold rollback_of. rewrite Hrow. cbn. rewrite Hd. congruence. }
    assert (rollback_of (o_slice o') = Some p) as Hsome.
    { destruct Hs as (e & row & _ & _ & Hrow & _ & Hd). unfold rollback_of. rewrite Hrow. cbn. by rewrite Hd. }
    destruct He as [Hrid _]. split.
    + exists o'. split_and!; [done|cbn; congruence|by apply Htok|done|].
      destruct Hs as (e & row & _ & _ & Hrow & Hst & _). exists row. by rewrite Hst.
    + intros out. eexists. split; [done|]. by split.
Qed.

(** Where the compensation stood when it was read back. *)
Lemma saved_reads o r s r' s' : saved (o_slice o) r s -> reads o r' s' -> s' = s.
Proof. intros (e & row & _ & _ & Hrow & _ & Hd) (_ & e' & row' & _ & _ & Hrow' & Hd'). congruence. Qed.

Lemma saved_fits o r s s' : saved (o_slice o) r s -> fits (o_slice o) r s'.
Proof. intros (e & row & He & Hne & _) e' He' Hq. congruence. Qed.

Lemma hold_reason_state e : let st := fst (SafeApply.hold_reason e) in
  contains ["preparing"; "awaiting-confirmation"; "rollback-requested"] st = false /\ Terminal st = false.
Proof. destruct e; cbn; repeat case_match; done. Qed.

Lemma wp_rollback o r s :
  editing o r s -> Rollback s = None ->
  wp (Some o) (SafeApply.rollback en r s) (released_by o).
Proof.
  intros He Hr. unfold SafeApply.rollback. pose proof (ed_id _ _ _ He) as Hid. wp_q consults.
  apply wp_bind. eapply (wp_quiet _ (Some o)); [destruct consults; [apply rollback_admission_quiet|done]|].
  intros admitted. apply wp_bind. eapply (wp_quiet _ (Some o)); [by destruct admitted|]. intros [p|e].
  - apply wp_bind. eapply wp_mono; [by apply wp_commit_rollback|].
    intros own [durable out] (o' & -> & Hid' & Hs). cbn [fst] in Hs. rewrite <- Hid'. destruct durable; cbn [negb].
    + rewrite Hid, <- Hid'. apply wp_bind, wp_readSafety; [intros e; apply wp_done; auto|].
      intros r' s' Hrid Hread. assert (s' = SafeApply.rolling_back s p) as -> by (by eapply saved_reads).
      assert (editing o' r' (SafeApply.rolling_back s p)) as He' by (by apply reads_editing).
      apply wp_saveSafety; [done| |auto|intros o'' res (Hid'' & _); by exists o''].
      eapply editing_fits; [exact He'| | | | |]; destruct (Commit out =s "rejected"); cbn; try done.
      all: by apply proof_open.
    + apply wp_holdSafety; [congruence|]. destruct Hs as [Hs|Hs]; [|by eapply saved_fits].
      rewrite Hs. eapply editing_fits; try done; cbn; first [congruence|by apply proof_open].
  - pose proof (hold_reason_state e) as [Hc Ht]. destruct (SafeApply.hold_reason e) as [state reason].
    apply wp_holdSafety; [done|]. by eapply editing_hold.
Qed.

(** *** The steps of the recovery lane *)

Lemma wp_save_editing o r s s' :
  editing o r s -> Domain s' = Domain s -> (forall p, Rollback s = Some p -> Rollback s' = Some p) ->
  s_State s' <> "confirmed" ->
  (Rollback s' <> None -> contains ["preparing"; "awaiting-confirmation"; "rollback-requested"] (s_State s') = false) ->
  proof_of r s' -> wp (Some o) (SafeApply.saveSafety r s') (released_by o).
Proof.
  intros He. intros. apply wp_saveSafety; [by destruct He|by eapply editing_fits|auto|].
  intros o' res (Hid' & _). by exists o'.
Qed.

Lemma wp_step_dispatched o r s p :
  editing o r s -> Rollback s = Some p -> wp (Some o) (SafeApply.step_dispatched r s p) (released_by o).
Proof.
  intros He Hr. unfold SafeApply.step_dispatched. wp_q out.
  assert (forall s', Domain s' = Domain s -> Rollback s' = Rollback s -> s_State s' <> "confirmed" ->
    contains ["preparing"; "awaiting-confirmation"; "rollback-requested"] (s_State s') = false -> proof_of r s' ->
    wp (Some o) (if (s_State s' =s s_State s) && (s_Reason s' =s s_Reason s)
                    && Executions.sameOutcome (s_Outcome s') (s_Outcome s) then Ret (Ok tt)
                 else SafeApply.saveSafety r s') (released_by o)) as Hgo.
  { intros s' E1 E2 E3 E4 E5. case_match; [apply wp_done; auto|].
    eapply wp_save_editing; try done; congruence. }
  apply wp_bind. destruct ((Commit out =s "committed") && (Applied out =s "applied")) eqn:Eo.
  - bsimp. destruct Eo as [Ec Ea]. wp_q bad. destruct (is_nil bad).
    + wp_q c. apply wp_done, Hgo; try done.
      split_and!; cbn; try done. intros _. split_and!; congruence.
    + apply wp_done, Hgo; try done; by apply proof_open.
  - apply wp_done, Hgo; try done; by apply proof_open.
Qed.

Lemma proof_same r s s' : Terminal (s_State s) = false -> s_State s' = s_State s -> proof_of r s'.
Proof. intros H E. apply proof_open. congruence. Qed.
Lemma open_unconfirmed s s' : Terminal (s_State s) = false -> s_State s' = s_State s -> s_State s' <> "confirmed".
Proof. intros H E E'. rewrite E' in E. by rewrite <- E in H. Qed.

Lemma wp_refresh o r s s' :
  editing o r s -> s_State s = "awaiting-confirmation" -> s_State s' = "awaiting-confirmation" ->
  Domain s' = Domain s -> Rollback s = None -> Rollback s' = None ->
  wp (Some o) (write (SafeApply.refresh_tx (o_id o) r s')) (released_by o).
Proof.
  intros He E1 E2 E3 E4 E5. split; [cbn; auto|]. intros w d x n d' Hi Ha H.
  assert (fits (o_slice o) r s') as Hf.
  { eapply editing_fits; try done; rewrite ?E2; try congruence. apply proof_open. by rewrite E2. }
  split; [|split; [|intros e]; by exists (advanced o d')].
  eapply refresh_ok; try done. intros row Hrow.
  destruct He as [_ (s0 & (Hsl & e & row' & _ & _ & Hrow' & <-) & _ & _ & _ & Hst)].
  destruct (ok_safe _ _ Hsl row Hrow) as (_ & _ & -> & _). assert (row' = row) as -> by congruence. congruence.
Qed.

Lemma wp_step_reachability o r s c :
  editing o r s -> Rollback s = None ->
  wp (Some o) (SafeApply.step_reachability en (o_id o) r s c) (released_by o).
Proof.
  intros He Hr. pose proof (editing_open _ _ _ He) as Ho. unfold SafeApply.step_reachability. wp_q bad.
  destruct (not_nil bad).
  - case_match.
    + apply wp_rollback; [|done]. by eapply editing_change.
    + eapply wp_save_editing; try done; [by eapply open_unconfirmed|by eapply proof_same].
  - apply wp_bind. set (stable := (s_State s =s "awaiting-confirmation") && _ && _).
    assert (forall c2, wp (Some o) (if stable then write (SafeApply.refresh_tx (o_id o) r (SafeApply.awaiting en s c c2))
                else SafeApply.saveSafety r (SafeApply.awaiting en s c c2)) (released_by o)) as Hgo.
    { intros c2. destruct stable eqn:Es.
      - unfold stable in Es. apply andb_true_iff in Es as [[Es _]%andb_true_iff _]. bsimp. by apply (wp_refresh o r s).
      - eapply wp_save_editing; try done; cbn; congruence. }
    destruct (is_nil (Confirmation s)); [wp_q c2|]; by apply wp_done.
Qed.

Lemma wp_step_committed o r s out :
  editing o r s -> Rollback s = None ->
  wp (Some o) (SafeApply.step_committed en (o_id o) r s out) (released_by o).
Proof.
  intros He Hr. unfold SafeApply.step_committed. wp_q c. wp_q denied.
  set (over := _ || _ || _).
  match goal with |- context [if (Trigger s =s "") && over then ?t else s] =>
    set (s1 := if (Trigger s =s "") && over then t else s) end.
  assert (editing o r s1 /\ Rollback s1 = None) as [He1 Hr1].
  { unfold s1. destruct (_ && over); [|done]. split; [by eapply editing_change|done]. }
  cbn zeta. destruct (Applied out <>s "applied"), over.
  - by apply wp_rollback.
  - apply wp_holdSafety; [by destruct He1|]. by eapply editing_hold.
  - by apply wp_rollback.
  - by apply wp_step_reachability.
Qed.

Lemma wp_step_applied o r s :
  editing o r s -> reads o r s -> Rollback s = None ->
  wp (Some o) (SafeApply.step_applied en (o_id o) r s) (released_by o).
Proof.
  intros He Hread Hr. pose proof (editing_open _ _ _ He) as Ho. pose proof (ed_id _ _ _ He) as Hid.
  unfold SafeApply.step_applied. destruct (Commit (x_Outcome r) =s "rejected") eqn:Ec.
  { apply wp_holdSafety; [done|]. bsimp. eapply editing_fits; try done; cbn; try congruence; by split_and!. }
  case_match; [apply wp_done; auto|]. wp_q out.
  apply wp_bind, wp_saveOutcome. intros o' [u|e] Hid' Hsafe; rewrite <- Hid'; [|apply wp_done; auto].
  apply wp_bind, wp_Read; [intros e; apply wp_done; auto|]. intros e Hsl He' Heid.
  assert (editing o' (fe_doc e) s) as Hed.
  { apply reads_editing; [done| |done]. destruct Hread as (_ & _ & row & _ & _ & Hrow & Hd).
    split; [done|]. exists e, row. split_and!; congruence. }
  case_match; [apply wp_holdSafety; [done|by eapply editing_hold]|by apply wp_step_committed].
Qed.

Lemma wp_step_claimed o : wp (Some o) (SafeApply.step_claimed en (o_id o)) (released_by o).
Proof.
  unfold SafeApply.step_claimed. apply wp_bind, wp_readSafety; [intros e; apply wp_done; auto|].
  intros r s Hid Hread. destruct (Terminal (s_State s)) eqn:Et; [apply wp_done; auto|].
  assert (editing o r s) as He by (by apply reads_editing).
  case_match; [apply wp_holdSafety; [done|by eapply editing_hold]|].
  case_match; [apply wp_done; auto|].
  destruct (Rollback s) as [p|] eqn:Er; [by apply wp_step_dispatched|by apply wp_step_applied].
Qed.

Lemma wp_safetyStep id : wp None (SafeApply.safetyStep en id) (fun own _ => own = None).
Proof.
  apply wp_claim; [by apply wp_done|]. intros o <- _. apply wp_bind. eapply wp_mono; [apply wp_step_claimed|].
  intros own out (o' & -> & <-). by apply wp_release.
Qed.

Lemma wp_SafetyTick : wp None (SafeApply.SafetyTick en) (fun own _ => own = None).
Proof.
  unfold SafeApply.SafetyTick. destruct (Executions.en_safety en); [|done].
  assert (forall ids, wp None (SafeApply.step_all en ids) (fun own _ => own = None)) as Hall.
  { induction ids as [|id ids IH]; [done|]. cbn [SafeApply.step_all]. apply wp_bind.
    eapply wp_mono; [apply wp_safetyStep|]. by intros own [u|e] ->. }
  apply wp_bind. split; [done|]. intros d ids _ _ _. apply wp_done. by case_match.
Qed.

(** *** Decisions *)

Lemma wp_Execute o c (authorize : prog (option error)) mutate :
  quiet authorize ->
  (forall w d req n m n' d', inv d -> agrees (Some o) d -> mutate req w n d = Ok (m, n', d') -> tx_ok (Some o) d d') ->
  wp (Some o) (Requests.Execute c authorize mutate) (released_by o).
Proof.
  intros Hq Hm. unfold Requests.Execute. case_match; [apply wp_done; auto|]. apply wp_bind.
  apply wp_quiet; [done|]. intros [e|]; [apply wp_done; auto|].
  destruct (Requests.fingerprint c) as [digest|e]; [|apply wp_done; auto].
  split; [intros e; by apply owns_some|]. intros w d out n d' Hi Ha Hx.
  split; [|split; [|intros e]; by exists (advanced o d')].
  apply execute_tx_spec in Hx as [[-> _]|(_ & req & m & n1 & n2 & d2 & Hmut & E1 & E2 & E3)]; [by apply tx_ok_refl|].
  destruct (Hm _ _ _ _ _ _ _ Hi Ha Hmut) as (Hi' & Hs & Hadv). split_and!.
  - by eapply inv_tables.
  - intros id Hne. rewrite (slice_of_tables d2 d') by done. by apply Hs.
  - intros ? [= <-]. rewrite (slice_of_tables d2 d') by done. by apply Hadv.
Qed.

Lemma wp_decide_claimed o sequence decision c :
  wp (Some o) (SafeApply.decide_claimed en (o_id o) sequence decision c) (released_by o).
Proof.
  unfold SafeApply.decide_claimed. apply wp_bind, wp_quiet; [by apply Replay_quiet|].
  intros [[out|]|e]; [apply wp_done; auto| |apply wp_done; auto].
  apply wp_bind, wp_readSafety; [intros e; apply wp_done; auto|]. intros r s Hid Hread.
  case_match; [apply wp_done; auto|]. destruct (Terminal (s_State s)) eqn:Et; [apply wp_done; auto|].
  assert (forall conf, (decision = "confirm" -> s_State s = "awaiting-confirmation" /\
            Commit conf = "committed" /\ Applied conf = "applied") ->
    wp (Some o) (Requests.Execute c (query_ QReauthorize)
      (SafeApply.decide_tx (o_id o) sequence decision r s conf)) (released_by o)) as Hgo.
  { intros conf Hconf. apply wp_Execute; [done|]. intros w d req n m n' d' Hi Ha Hx. exact (decide_ok _ _ _ _ _ _ _ _ _ _ _ _ _ _ Hi Ha Hread eq_refl Et Hconf Hx). }
  apply wp_bind. destruct (String.eqb_spec decision "confirm") as [Ed|Hne].
  - wp_q k. wp_if Eg; [apply wp_done, wp_done; auto|]. wp_q out. wp_if Eo; [apply wp_done, wp_done; auto|].
    wp_q bad. wp_if Eb; [apply wp_done, wp_done; auto|]. apply wp_done, Hgo. intros _. bsimp. naive_solver.
  - by apply wp_done, Hgo.
Qed.

Lemma wp_claimDecision turns id :
  wp None (SafeApply.claimDecision turns id) (fun own r =>
    match r with Ok _ => owns id own | Err _ => own = None end).
Proof.
  induction turns as [|n IH]; cbn [SafeApply.claimDecision]; wp_q x; (destruct x; [done|]);
    (apply wp_claim; [|intros o <- _; by apply wp_done]); [by apply wp_done|].
  wp_q y. destruct y; [by apply wp_done|exact IH].
Qed.

Lemma wp_Decide id sequence decision c :
  wp None (SafeApply.Decide en id sequence decision c) (fun own _ => own = None).
Proof.
  unfold SafeApply.Decide. apply wp_bind, wp_quiet; [by apply Replay_quiet|].
  intros [[out|]|e]; [by apply wp_done| |by apply wp_done].
  apply wp_bind, wp_quiet; [unfold SafeApply.SafetyAvailable; quiet_tac|]. intros [|]; [|by apply wp_done].
  cbn [negb]. apply wp_bind. eapply wp_mono; [apply wp_claimDecision|].
  intros own [u|e]; [|intros ->; by apply wp_done]. intros (o & -> & <-). apply wp_bind.
  eapply wp_mono; [apply wp_decide_claimed|]. intros own out (o' & -> & <-). by apply wp_release.
Qed.

(** *** Admission and dispatch *)

Lemma wp_dispatch_run o input c p safe :
  (exists e, sl_exec (o_slice o) = Some e /\ x_Plan (fe_doc e) = p) ->
  (safe = false -> sl_safe (o_slice o) = None) ->
  wp (Some o) (Admission.dispatch_run (o_id o) input c p safe) (released_by o).
Proof.
  intros Hp Hs. unfold Admission.dispatch_run, provider_commit. apply wp_bind.
  assert (forall o', o_id o' = o_id o -> forall out,
    wp (Some o') (try _ <- Executions.saveOutcome (o_id o) out in
      if Commit out =s "committed" then run last <- query_ (QObserve p out) in Executions.saveOutcome (o_id o) last
      else Ret (Ok tt)) (released_by o)) as Hgo.
  { intros o' Hid out. rewrite <- Hid. apply wp_bind, wp_saveOutcome. intros o2 [u|e] Hid2 _.
    - case_match; [|apply wp_done; by exists o2]. wp_q out2. rewrite <- Hid2. apply wp_saveOutcome.
      intros o3 res Hid3 _. exists o3. split; [done|congruence].
    - apply wp_done. by exists o2. }
  wp_q early. destruct early as [early|]; [by apply wp_done, Hgo|].
  unfold Admission.beforeSend. apply wp_bind. wp_q lease.
  destruct lease as [e|]; [apply wp_done; wp_q out; by apply wp_done, Hgo|].
  apply wp_bind. split.
  { intros e. apply wp_done, wp_done. wp_q out. by apply wp_done, Hgo. }
  intros w d r n d' Hi Ha H. destruct (dispatch_ok _ _ _ _ _ _ _ _ _ _ _ Hi Ha Hs Hp H) as [Hok Hper].
  split; [done|]. split.
  - apply wp_done, wp_done. wp_q unsent. destruct unsent as [out|]; [by apply wp_done, Hgo|].
    split; [done|]. intros out. apply wp_done. by apply Hgo.
  - intros e. apply wp_done, wp_done. wp_q out. by apply wp_done, Hgo.
Qed.

Lemma wp_admit_and_run id input c p command safe :
  wp None (Admission.admit_and_run en id input c p command safe) (fun own _ => own = None).
Proof.
  unfold Admission.admit_and_run. apply wp_claim; [by apply wp_done|]. intros o <- _. apply wp_bind.
  set (post := fun own (res : result Requests.Result_) =>
    exists o', own = Some o' /\ o_id o' = o_id o /\ match res with
      | Ok out => Requests.rs_Replayed out = false ->
          (exists e, sl_exec (o_slice o') = Some e /\ x_Plan (fe_doc e) = p) /\
          (is_nil safe = true -> sl_safe (o_slice o') = None)
      | Err _ => True
      end).
  apply (wp_mono _ _ post).
  - unfold Requests.Execute. case_match; [apply wp_done; by exists o|]. apply wp_bind, wp_quiet.
    { by apply quiet_bind. }
    intros [e|]; [apply wp_done; by exists o|].
    destruct (Requests.fingerprint command) as [digest|e]; [|apply wp_done; by exists o].
    split; [intros e; by exists o|]. intros w d out n d' Hi Ha Hx.
    apply execute_tx_spec in Hx as [[-> Hrep]|(_ & req & m & n1 & n2 & d2 & Hmut & E1 & E2 & E3)].
    { split; [by apply tx_ok_refl|]. split; [|intros e; by exists (advanced o d)].
      exists (advanced o d). split; [done|]. split; [done|]. congruence. }
    apply admit_spec in Hmut. destruct (admits_ok _ _ _ _ _ Hi Hmut) as ((Hi' & Hs & Hadv) & e & He & Hpl & Hsf).
    pose proof (fun id => slice_of_tables d2 d' id E1 E2 E3) as Et. split.
    { split_and!; [by eapply inv_tables|intros id Hne; rewrite Et; by apply Hs|].
      intros ? [= <-]. rewrite Et. by apply Hadv. }
    split; [|intros e'; by exists (advanced o d')]. exists (advanced o d'). split; [done|]. split; [done|].
    intros _. cbn [advanced o_slice o_id]. rewrite Et. split; [by exists e|]. intros Hn. apply Hsf.
    unfold not_nil. by rewrite Hn.
  - intros own [out|e] (o' & -> & Hid & Hpost); rewrite <- Hid; [|by apply wp_release].
    destruct (Requests.rs_Replayed out); [by apply wp_release|]. destruct (Hpost eq_refl) as [Hp Hs].
    destruct safe as [a|].
    + split; [|done]. apply wp_bind. eapply wp_mono; [by apply wp_dispatch_run|].
      intros own r (o2 & -> & <-). by apply wp_release.
    + apply wp_bind. eapply wp_mono; [apply wp_dispatch_run; [done|by intros _; apply Hs]|].
      intros own r (o2 & -> & <-). by apply wp_release.
Qed.

Lemma wp_submit input lease safe :
  wp None (Admission.submit en input lease safe) (fun own _ => own = None).
Proof.
  unfold Admission.submit. wp_if E1; [by apply wp_done|]. wp_q c. destruct c as [c|e]; [|by apply wp_done].
  cbn zeta. apply wp_bind, wp_quiet; [by apply Replay_quiet, quiet_bind|].
  intros [[out|]|e]; [by apply wp_done| |by apply wp_done].
  wp_if E2; [by apply wp_done|]. wp_q lost. destruct lost as [e|]; [by apply wp_done|].
  apply wp_bind, wp_quiet; [case_match; [apply safetyReady_quiet|done]|]. intros [u|e]; [|by apply wp_done].
  wp_q c2. destruct c2 as [c2|e]; [|by apply wp_done]. wp_q id. wp_q consults.
  apply wp_bind, wp_quiet; [destruct consults; [unfold Admission.forward_admission; quiet_tac|done]|].
  intros [u2|e]; [|by apply wp_done]. wp_q p. destruct p as [p|e]; [|by apply wp_done].
  apply wp_admit_and_run.
Qed.
End engine.

(** ** Recovery *)

Lemma wp_Reconcile id : wp None (Executions.Reconcile id) (fun own _ => own = None).
Proof.
  unfold Executions.Reconcile. apply wp_claim; [by apply wp_done|]. intros o <- _. apply wp_bind.
  apply (wp_mono _ _ (fun own _ => owns (o_id o) own)).
  - apply wp_bind, wp_Read; [intros e; apply wp_done; auto|]. intros e _ _ _.
    assert (forall out, wp (Some o) (Executions.saveOutcome (o_id o) out) (fun own _ => owns (o_id o) own)) as Hs.
    { intros out. apply wp_saveOutcome. intros o' res Hid _. by exists o'. }
    wp_if E1; [apply wp_done; auto|]. wp_if E2; [apply Hs|]. wp_q out. apply Hs.
  - intros own out (o' & -> & <-). by apply wp_release.
Qed.

Lemma wp_Recover : wp None Executions.Recover (fun own _ => own = None).
Proof.
  assert (forall ids, wp None (Executions.reconcile_all ids) (fun own _ => own = None)) as Hall.
  { induction ids as [|id ids IH]; [done|]. cbn [Executions.reconcile_all]. apply wp_bind.
    eapply wp_mono; [apply wp_Reconcile|]. by intros own [u|[]] ->. }
  unfold Executions.Recover. apply wp_bind. split; [done|]. intros d ids _ _ _. apply wp_done.
  wp_if E; [by apply wp_done|]. apply wp_bind. eapply wp_mono; [apply Hall|].
  intros own [u|e] ->; [|by apply wp_done]. wp_q x. by destruct x; apply wp_done.
Qed.

(** ** Every entry point *)

Lemma ignore_goroutine {A} (m : prog A) : wp None m (fun own _ => own = None) -> goroutine (ignore m).
Proof. intros H. unfold goroutine, ignore. apply wp_bind. eapply wp_mono; [exact H|]. by intros own a ->. Qed.

Lemma core_goroutine p : core_entry p -> goroutine p.
Proof.
  destruct 1; apply ignore_goroutine.
  - apply wp_submit.
  - unfold Admission.SubmitSafe. wp_if E; [by apply wp_done|apply wp_submit].
  - apply wp_Decide.
  - apply wp_SafetyTick.
  - apply wp_Recover.
  - apply wp_Reconcile.
Qed.
