(* ===== verification/Scenario.v ===== *)
(** * Concrete runs of the execution core

    One manager, one port, a world that answers every question: a Safe Apply
    that is confirmed, and one that loses its management path and is rolled
    back. The runs evaluate, and each is a run of the process
    ([interpret_steps]), so that the theorems on reachable processes apply to
    them. *)

From S2P Require Import Prelude GoStrings Sha256 GoTime GoJson ApiTypes CandidateTypes Intents ExecTypes AuthTables Store.
From S2P Require Import Evidence Reservations Program Requests Executions SafeApply Admission System.

(** ** A run alone is a run of the process *)

Definition sys_of (s : state) (ts : list (prog unit)) : sys := mkSys (st_db s) (st_active s) (st_sent s) ts.

(** The other tasks stay as they are. *)
Definition keeps_tasks (i : nat) (ts ts' : list (prog unit)) : Prop :=
  forall j p, j <> i -> ts !! j = Some p -> ts' !! j = Some p.

Lemma keeps_insert i ts (p : prog unit) : keeps_tasks i ts (<[i := p]> ts).
Proof. intros j q Hne Hj. by rewrite list_lookup_insert_ne. Qed.

Section runs.
Context (entry : prog unit -> Prop).
#[local] Notation step := (System.step entry).
#[local] Notation reachable := (System.reachable entry).

Lemma run_effect w s i ts m s' m' :
  ts !! i = Some m ->
  effect (st_db s, st_active s, st_sent s) m (st_db s', st_active s', st_sent s') m' None ->
  (forall ts0, ts0 !! i = Some m' -> exists ts', rtc step (sys_of s' ts0) (sys_of (snd (interpret w m' s')) ts') /\
     keeps_tasks i ts0 ts') ->
  exists ts', rtc step (sys_of s ts) (sys_of (snd (interpret w m' s')) ts') /\ keeps_tasks i ts ts'.
Proof.
  intros Hi He IH. assert (i < length ts)%nat as Hlt by (by eapply lookup_lt_Some).
  destruct (IH (<[i := m']> ts)) as (ts' & Hr & Hk); [by apply list_lookup_insert_eq|].
  exists ts'. split.
  - eapply rtc_l; [|exact Hr]. pose proof (Step_run (entry:=entry) _ _ _ ts i m _ _ _ m' None Hi He) as H.
    by rewrite app_nil_r in H.
  - intros j p Hne Hj. apply Hk; [done|]. by rewrite list_lookup_insert_ne.
Qed.

Lemma interpret_steps w : forall (m : prog unit) s ts i, ts !! i = Some m ->
  exists ts', rtc step (sys_of s ts) (sys_of (snd (interpret w m s)) ts') /\ keeps_tasks i ts ts'.
Proof.
  fix IH 1. intros m s ts i Hi. destruct m as [a|X q k|X f k|X f k|id k|id k|p k|v p k].
  - exists ts. split; [apply rtc_refl|by intros j p0 _ ?].
  - apply (run_effect w s i ts _ (tick s) _ Hi); [apply Eff_query|]. intros ts0 H0. by apply IH.
  - cbn [interpret]. apply (run_effect w s i ts _ (tick s) _ Hi); [|intros ts0 H0; by apply IH].
    unfold read_db. destruct (f (st_db s)) eqn:E; [by apply Eff_read|apply Eff_read_error].
  - cbn [interpret]. unfold commit_tx.
    destruct (f (w_env w (st_tick s)) 0%nat (st_db s)) as [[[x n] d']|e] eqn:E.
    + apply (run_effect w s i ts _ (tick (st_with_db s d')) _ Hi); [by eapply Eff_write|]. intros ts0 H0. by apply IH.
    + apply (run_effect w s i ts _ (tick (st_with_db s (st_db s))) _ Hi); [by apply Eff_write_error|].
      intros ts0 H0. by apply IH.
  - cbn [interpret]. case_bool_decide as Hin.
    + apply (run_effect w s i ts _ (tick s) _ Hi); [by apply Eff_busy|]. intros ts0 H0. by apply IH.
    + apply (run_effect w s i ts _ (tick (mkState _ _ _ _)) _ Hi); [by apply Eff_claim|]. intros ts0 H0. by apply IH.
  - cbn [interpret]. apply (run_effect w s i ts _ (tick (mkState _ _ _ _)) _ Hi); [apply Eff_release|].
    intros ts0 H0. by apply IH.
  - cbn [interpret]. assert (i < length ts)%nat as Hlt by (by eapply lookup_lt_Some).
    set (ts1 := <[i := k]> ts ++ [p]).
    destruct (IH p s ts1 (length ts)) as (ts2 & Hr2 & Hk2).
    { unfold ts1. rewrite lookup_app_r; rewrite length_insert; [by rewrite Nat.sub_diag|done]. }
    destruct (interpret w p s) as [u s'] eqn:Ep. cbn [snd] in Hr2.
    destruct (IH k s' ts2 i) as (ts3 & Hr3 & Hk3).
    { apply Hk2; [lia|]. unfold ts1. rewrite lookup_app_l by (by rewrite length_insert). by apply list_lookup_insert_eq. }
    exists ts3. split.
    + eapply rtc_l; [exact (Step_run (entry:=entry) _ _ _ ts i _ _ _ _ k (Some p) Hi (Eff_fork _ _ _ p k))|].
      etrans; [exact Hr2|exact Hr3].
    + intros j q Hne Hj. apply Hk3; [done|]. apply lookup_lt_Some in Hj as Hj'. apply Hk2; [lia|].
      unfold ts1. rewrite lookup_app_l by (by rewrite length_insert). by rewrite list_lookup_insert_ne.
  - cbn [interpret]. apply (run_effect w s i ts _ (tick (mkState _ _ _ _)) _ Hi); [apply Eff_send|].
    intros ts0 H0. by apply IH.
Qed.

(** Entry points run to their end one after the other. *)
Lemma run_rtc w s ts p :
  entry p -> exists ts', rtc step (sys_of s ts) (sys_of (snd (interpret w p s)) ts').
Proof.
  intros Hp. destruct (interpret_steps w p s (ts ++ [p]) (length ts)) as (ts' & Hr' & _).
  { rewrite lookup_app_r by done. by rewrite Nat.sub_diag. }
  exists ts'. eapply rtc_l; [by apply Step_start|exact Hr'].
Qed.
Lemma reachable_rtc s s' : reachable s -> rtc step s s' -> reachable s'.
Proof. intros (s0 & H0 & Hr) Hr'. exists s0. split; [done|]. by etrans. Qed.

(** Where a run first leaves a set of states. *)
Lemma rtc_leaves (P : sys -> Prop) `{!forall s, Decision (P s)} s s' :
  rtc step s s' -> P s -> ~ P s' -> exists s1 s2, rtc step s s1 /\ step s1 s2 /\ P s1 /\ ~ P s2.
Proof.
  induction 1 as [s|s1 s2 s3 Hs Hr IH]; intros H1 H2; [done|].
  destruct (decide (P s2)) as [Hp|Hp].
  - destruct (IH Hp H2) as (a & b & Ha & Hb). exists a, b. split; [by eapply rtc_l|done].
  - exists s1, s2. split_and!; done || apply rtc_refl.
Qed.

End runs.

(** ** The world of the scenarios *)

Definition zeros (n : nat) : string := of_bytes (List.repeat 48 n).
(** A management identifier for a number. *)
Definition id_of (n : Z) : string :=
  let d := format_uint n in
  ("10000000-0000-4000-8000-" ++ zeros (12 - String.length d) ++ d)%string.

Definition epoch : string := id_of 1.
Definition owner : string := id_of 2.
Definition object_id : string := id_of 3.
Definition start : Z := 1700000000000 * Millisecond.

Definition binding : Binding := mkBinding object_id (id_of 4) "Port" (id_of 5).
Definition vlan (tag : Z) : VLAN := mkVLAN (Some "access") (Some tag) None None.
Definition change : StoredIntent :=
  mkStored None None None None None None None (id_of 6) "port.vlan.set" binding (vlan 20) (vlan 10) "rev" "8.5.0"
    None None [] None None None None.
Definition the_candidate : Candidate :=
  mkCandidate (id_of 7) (id_of 8) (Some (id_of 5)) (Some "rev") "open" (Some [change]) None.
Definition the_envelope : Envelope := mkEnvelope owner (id_of 9) 3 the_candidate "seal".
Definition request_id : string := RequestID (List.repeat 7 16) 1700000000000.
Definition input : Request := mkRequest request_id (id_of 10) the_envelope.
Definition authz : Authorization :=
  mkAuthorization owner (id_of 11) epoch "policy" "provider" (id_of 7) (id_of 10) "scope" (start + 3600 * Second) "".

Definition the_engine : Executions.Engine :=
  Executions.mkEngine (List.repeat 5 32) (Some ("management-path", 120 * Second)).
Definition safe_command : Requests.Command :=
  Requests.mkCommand owner epoch "management" request_id "createTransaction" "POST" "/api/v1/safe-applies" ""
    (id_of 11) "configuration.apply" "{}" false [] false.
Definition decide_command (payload : string) : Requests.Command :=
  Requests.mkCommand owner epoch "management" (RequestID (List.repeat 9 16) 1700000000001) "decideTransaction" "POST"
    "/api/v1/transactions/decision" "" (id_of 11) "configuration.apply" payload false [] false.

Definition clock_now (t n : nat) : Clock :=
  mkClock "boot-1" ((Z.of_nat t * 1000 + Z.of_nat n) * Millisecond) (start + (Z.of_nat t * 1000 + Z.of_nat n) * Millisecond).
Definition prepared (id marker : string) (e : Envelope) : Plan :=
  mkPlan id e "8.5.0" (id_of 5) (id_of 12) marker "5" "4" start (JObj []) [].

(** The answers at tick [t]; [lost t] says whether the management path is lost. *)
Definition answer (lost : nat -> bool) {X} (q : query X) (t : nat) : X :=
  match q in query X return X with
  | QNow => start + Z.of_nat t * Second
  | QClock => clock_now t 0
  | QNewID => id_of (100000 + Z.of_nat t)
  | QWritable => true
  | QCanceled => None
  | QSlot => None
  | QSalt => replicate 16 0
  | QWait => None
  | QAuthorize _ _ => Ok authz
  | QReauthorize => None
  | QAuthority _ => None
  | QLease _ => None
  | QProbe => if lost t then Some (ENew "unreachable") else None
  | QConsults => true
  | QPrepare id marker e => Ok (prepared id marker e)
  | QPrepareRollback p marker => Ok (prepared (p_ID p) marker (p_Envelope p))
  | QObserve _ _ => outcome "committed" "applied" "observed"
  | QPreflight _ => None
  | QDenied _ => outcome "rejected" "not-applied" "denied"
  | QUnsent _ => None
  end.
Definition world_env (t : nat) : env :=
  mkEnv (fun n => start + (Z.of_nat t * 1000 + Z.of_nat n) * Millisecond) (clock_now t)
    (fun n => id_of (1000000 + Z.of_nat t * 1000 + Z.of_nat n)) (fun n => Z.of_nat t :: Z.of_nat n :: replicate 30 0)
    (fun _ _ _ => Ok authz) (fun _ _ => None) (fun _ => None).
Definition world_of (lost : nat -> bool) : world :=
  mkWorld (fun X q t => answer lost q t) world_env (fun _ _ _ => outcome "committed" "pending" "committed").

Definition empty_db : db :=
  mkDB epoch 0 ∅ ∅ ∅ ∅ 0 [] 1 ∅ ∅ ∅ ∅ ∅ ∅ ∅ ∅ None AuthTables.AuthTables.no_auth.
Definition fresh : state := mkState empty_db ∅ [] 0.

Definition apply_safely : prog unit :=
  ignore (Admission.SubmitSafe the_engine input true safe_command (id_of 13)).
Definition tick_once : prog unit := ignore (SafeApply.SafetyTick the_engine).
Definition transaction_id : string := id_of 100008.

Definition steady : world := world_of (fun _ => false).
Definition after_submit : state := snd (interpret steady apply_safely fresh).

(** *** Confirmed *)

Definition after_tick : state := snd (interpret steady tick_once after_submit).
Definition decide (sequence decision : string) : prog unit :=
  ignore (SafeApply.Decide the_engine transaction_id sequence decision (decide_command "{}")).
Definition confirmed : state := snd (interpret steady (decide "5" "confirm") after_tick).

(** *** Rolled back: the path is lost from tick 30 on, and comes back at tick 70 *)

Definition outage : world := world_of (fun t => (30 <=? t)%nat && (t <? 70)%nat).
Fixpoint ticks (n : nat) (s : state) : state :=
  match n with O => s | S k => ticks k (snd (interpret outage tick_once s)) end.

Definition safe_state (s : state) : option (string * string) :=
  (fun row => (sa_state row, s_Reason (sa_doc row))) <$> safe_applies (st_db s) !! transaction_id.
Definition versions (s : state) : option string :=
  (fun row => x_Sequence (fe_doc row)) <$> field_executions (st_db s) !! transaction_id.
