(* ===== verification/Jobs.v ===== *)
(** * The life of a job

    [jobs_move]: jobs move only along the job state machine of
    evidence/write.go, one version at a time, and a job that has ended never
    moves. The operations of the evidence store and every transaction of the
    execution core keep it. *)

From S2P Require Import Prelude GoStrings GoTime GoJson ApiTypes CandidateTypes Intents ExecTypes Store.
From S2P Require Import Evidence Reservations Program Requests Executions SafeApply Admission Conformance.

(** ** One move *)

(** The version that [saveJob] writes. *)
Definition next_version (s s' : string) : Prop := exists n, s' = format_uint (n + 1) /\ parse_uint s 64 = Some n /\ 1 <= n < 2 ^ 64 - 1.

Record job_move (j j' : Job) : Prop := {
  jm_from : Evidence.Terminal (j_State j) = false;
  jm_valid : Evidence.valid_transition (j_Handler j) (j_State j) (j_State j') = true;
  jm_outcome : Evidence.validOutcomes j' = true;
  jm_version : next_version (j_Sequence j) (j_Sequence j');
  jm_same : (j_ID j', j_Operation j', j_Owner j', j_Capability j', j_Resource j', j_Transaction j', j_Handler j')
            = (j_ID j, j_Operation j, j_Owner j, j_Capability j, j_Resource j, j_Transaction j, j_Handler j);
  jm_completed : Evidence.Terminal (j_State j') = true -> j_Completed j' = Some (j_Updated j') /\ j_Cancellable j' = false }.

(** Jobs are stored under their identifier; each moves along the machine. *)
Definition keyed (d : db) : Prop := forall id row, evidence_jobs d !! id = Some row -> j_ID (jr_doc row) = id.
Definition jobs_move (d d' : db) : Prop :=
  keyed d -> keyed d' /\ forall id row, evidence_jobs d !! id = Some row ->
    exists row', evidence_jobs d' !! id = Some row' /\ rtc job_move (jr_doc row) (jr_doc row').
#[export] Instance jobs_move_preorder : PreOrder jobs_move.
Proof.
  split.
  - intros d Hk. split; [done|]. intros id row H. exists row. split; [done|apply rtc_refl].
  - intros x y z H1 H2 Hk. destruct (H1 Hk) as [Hky M1]. destruct (H2 Hky) as [Hkz M2]. split; [done|].
    intros id row H. destruct (M1 id row H) as (row1 & E1 & R1). destruct (M2 id row1 E1) as (row2 & E2 & R2).
    exists row2. split; [done|]. by etrans.
Qed.
Lemma jobs_same d d' : evidence_jobs d' = evidence_jobs d -> jobs_move d d'.
Proof.
  intros E Hk. split; [intros id row; rewrite E; apply Hk|]. intros id row H. exists row. rewrite E.
  split; [done|apply rtc_refl].
Qed.

Ltac jobs_tac :=
  repeat first
    [ keeps_step
    | match goal with |- keeps jobs_move (modify _) => apply keeps_modify; intros; apply jobs_same; reflexivity end ];
  eauto with keeps.

Lemma Append_same_jobs req r : keeps (same evidence_jobs) (Evidence.Append req r).
Proof. unfold Evidence.Append, Evidence.complete_record, Evidence.insert_record. keeps_tac. Qed.
Lemma Append_jobs req r : keeps jobs_move (Evidence.Append req r).
Proof. unfold Evidence.Append, Evidence.complete_record, Evidence.insert_record. jobs_tac. Qed.
Lemma LoadJob_jobs id : keeps jobs_move (Evidence.LoadJob id).
Proof. unfold Evidence.LoadJob. jobs_tac. Qed.
#[export] Hint Resolve Append_jobs LoadJob_jobs : keeps.

Lemma moved_same j t at_ : let j' := Evidence.moved j t at_ in
  j_State j' = Evidence.t_State t /\ j_Reason j' = Evidence.t_Reason t /\ j_ID j' = j_ID j /\
  j_Sequence j' = j_Sequence j /\
  (j_ID j', j_Operation j', j_Owner j', j_Capability j', j_Resource j', j_Transaction j', j_Handler j')
    = (j_ID j, j_Operation j, j_Owner j, j_Capability j, j_Resource j, j_Transaction j, j_Handler j) /\
  (Evidence.Terminal (Evidence.t_State t) = true -> j_Completed j' = Some (j_Updated j') /\ j_Cancellable j' = false).
Proof. unfold Evidence.moved, Evidence.settle. cbn. by destruct (Evidence.Terminal (Evidence.t_State t)). Qed.

(** A job written over the one it was loaded from. *)
Lemma saveJob_update j w n d j' n' d' :
  Evidence.saveJob j false w n d = Ok (j', n', d') ->
  next_version (j_Sequence j) (j_Sequence j') /\ j' = Evidence.set_sequence j (j_Sequence j') /\
  (evidence_jobs d !! j_ID j <> None -> exists row', jr_doc row' = j' /\
     evidence_jobs d' = <[j_ID j := row']> (evidence_jobs d)).
Proof.
  intros H. unfold Evidence.saveJob in H. tx_inv. unfold Evidence.next_sequence in L.
  destruct (parse_uint (j_Sequence j) 64) as [v|] eqn:Ev; [|done].
  destruct ((v =? 0) || (v =? 2 ^ 64 - 1)) eqn:E; [done|]. injection L as <-.
  apply orb_false_iff in E as [E1%Z.eqb_neq E2%Z.eqb_neq].
  apply parse_uint_range in Ev as Hv. split_and!; [exists v; split_and!; done || lia|done|].
  intros Hrow. eexists (mkJobRow _ _ _). cbn. destruct (evidence_jobs d0 !! j_ID j); [|done]. by split.
Qed.

Lemma saveJob_insert j w n d j' n' d' :
  Evidence.saveJob j true w n d = Ok (j', n', d') ->
  evidence_jobs d !! j_ID j = None /\
  exists row, jr_doc row = j' /\ j_ID j' = j_ID j /\ evidence_jobs d' = <[j_ID j := row]> (evidence_jobs d).
Proof.
  intros H. unfold Evidence.saveJob in H. tx_inv. cbn in *.
  match goal with G : not_nil _ = false |- _ => apply not_nil_false in G end.
  split; [done|]. by eexists (mkJobRow _ _ _).
Qed.

Lemma CreateJob_jobs req j : keeps jobs_move (Evidence.CreateJob req j).
Proof.
  intros w n d x n' d' H. unfold Evidence.CreateJob in H. tx_inv.
  match goal with H : Evidence.complete_job _ _ _ _ _ = _ |- _ =>
    assert (K : keeps jobs_move (Evidence.complete_job req j)) by (unfold Evidence.complete_job; jobs_tac); apply K in H end.
  match goal with H : Evidence.Append _ _ _ _ _ = _ |- _ => apply Append_jobs in H end.
  etrans; [eassumption|]. etrans; [|eassumption].
  match goal with H : Evidence.saveJob _ _ _ _ _ = _ |- _ => apply saveJob_insert in H as (Hn & row & Hd & Hid & E) end.
  intros Hk. split.
  - intros id r. rewrite E. cbn. intros [[<- <-]|[_ Hr]]%lookup_insert_Some; [congruence|by apply Hk].
  - intros id r Hr. exists r. rewrite E. split; [|apply rtc_refl]. cbn in *.
    rewrite lookup_insert_ne; [done|]. congruence.
Qed.

Lemma ChangeJob_move req id expected t at_ w n d j n' d' :
  Evidence.ChangeJob req id expected t at_ w n d = Ok (j, n', d') ->
  exists row, evidence_jobs d !! id = Some row /\ j_Sequence (jr_doc row) = expected /\
    j_State j = Evidence.t_State t /\ j_Reason j = Evidence.t_Reason t /\
    (j_ID (jr_doc row) = id -> job_move (jr_doc row) j /\
       exists row', jr_doc row' = j /\ evidence_jobs d' = <[id := row']> (evidence_jobs d)).
Proof.
  intros H. unfold Evidence.ChangeJob in H. tx_inv. unfold Evidence.LoadJob in H0. tx_inv.
  match goal with H : match evidence_jobs ?d !! id with _ => _ end _ _ _ = _ |- _ =>
    destruct (evidence_jobs d !! id) as [row|] eqn:Er end; tx_inv.
  match goal with H : Evidence.Append _ _ _ _ _ = _ |- _ => apply Append_same_jobs in H as Ea end.
  match goal with H : Evidence.saveJob _ _ _ _ _ = _ |- _ => apply saveJob_update in H as (Hv & Ej & Hu) end.
  assert (evidence_jobs d' = evidence_jobs d8) as Ec.
  { rewrite Ea. unfold Evidence.completeReceipts in *. 
    match goal with H : (if ?b then _ else _) _ _ _ = _ |- _ => destruct b; by tx_inv end. }
  pose proof (moved_same (jr_doc row) t at_) as (M1 & M2 & M3 & M4 & M5 & M6).
  set (j0 := Evidence.moved (jr_doc row) t at_) in *.
  apply negb_false_iff, String.eqb_eq in G4. apply orb_false_iff in G2 as [G2%negb_false_iff _].
  apply negb_false_iff in G.
  exists row. split_and!; [done|congruence|by rewrite Ej|by rewrite Ej|]. intros Hid.
  split; [|destruct Hu as (row' & Hr' & E); [congruence|exists row'; split; [done|congruence]]].
  rewrite Ej. split; cbn; try done.
  - by rewrite M1.
  - by rewrite <- M4.
  - by rewrite M1.
Qed.
Lemma ChangeJob_jobs req id expected t at_ : keeps jobs_move (Evidence.ChangeJob req id expected t at_).
Proof.
  intros w n d j n' d' H Hk. apply ChangeJob_move in H as (row & Hrow & _ & _ & _ & Hm).
  destruct (Hm (Hk _ _ Hrow)) as (Hmove & row' & Hr' & E). split.
  - intros id' r. rewrite E. intros [[<- <-]|[_ Hr]]%lookup_insert_Some; [|by apply Hk].
    destruct Hmove as [_ _ _ _ Hs _]. rewrite Hr'. injection Hs as ->. by apply Hk.
  - intros id' r Hr. rewrite E. destruct (decide (id' = id)) as [->|Hne].
    + exists row'. rewrite lookup_insert_eq. assert (r = row) as -> by congruence. split; [done|].
      rewrite Hr'. by apply rtc_once.
    + exists r. rewrite lookup_insert_ne by done. split; [done|apply rtc_refl].
Qed.
#[export] Hint Resolve CreateJob_jobs ChangeJob_jobs : keeps.

(** ** Every transaction of the core *)

Lemma tables_jobs {A} (m : tx A) : keeps (same evidence_jobs) m -> keeps jobs_move m.
Proof. intros H w n d a n' d' E. apply jobs_same. by eapply H. Qed.

Lemma RetirePending_jobs id : keeps jobs_move (Reservations.RetirePending id).
Proof. unfold Reservations.RetirePending. jobs_tac. Qed.
Lemma release_jobs id : keeps jobs_move (Reservations.release_protections id).
Proof. unfold Reservations.release_protections. jobs_tac. Qed.
#[export] Hint Resolve RetirePending_jobs release_jobs : keeps.

Lemma reserve_bindings_jobs t m l : keeps jobs_move (Reservations.reserve_bindings t m l).
Proof. induction l as [|b l IH]; cbn; [jobs_tac|]. unfold Reservations.reserve_binding. jobs_tac. Qed.
#[export] Hint Resolve reserve_bindings_jobs : keeps.
Lemma ReserveCreations_jobs t m l : keeps jobs_move (Reservations.ReserveCreations t m l).
Proof.
  apply each_keeps; [typeclasses eauto|]. intros i. unfold Reservations.reserve_creation, Reservations.reserveTopology. jobs_tac.
Qed.
#[export] Hint Resolve ReserveCreations_jobs : keeps.
Lemma ReserveRestorations_jobs t m l : keeps jobs_move (Reservations.ReserveRestorations t m l).
Proof.
  apply each_keeps; [typeclasses eauto|]. intros i. unfold Reservations.reserve_restoration, Reservations.reserveTopology. jobs_tac.
Qed.
Lemma protect_jobs id root graph l : keeps jobs_move (Reservations.each (Reservations.protect_intent id root graph) l).
Proof.
  assert (forall r f, keeps jobs_move (Reservations.insert_protection r f id)) as H1.
  { intros. unfold Reservations.insert_protection. jobs_tac. }
  assert (forall root l, keeps jobs_move (Reservations.protectGraph id root l)) as H2.
  { intros. unfold Reservations.protectGraph, Reservations.protect. jobs_tac.
    apply each_keeps; [typeclasses eauto|]. intros b. unfold Reservations.protect. jobs_tac. }
  apply each_keeps; [typeclasses eauto|]. intros i. unfold Reservations.protect_intent, Reservations.protectDeletion. jobs_tac.
Qed.
#[export] Hint Resolve ReserveRestorations_jobs protect_jobs : keeps.

Lemma transition_jobs r o state : keeps jobs_move (Executions.transition r o state).
Proof. unfold Executions.transition. jobs_tac. Qed.
#[export] Hint Resolve transition_jobs : keeps.
Lemma updateSafety_jobs req r s : keeps jobs_move (SafeApply.updateSafety req r s).
Proof. unfold SafeApply.updateSafety. jobs_tac. Qed.
#[export] Hint Resolve updateSafety_jobs : keeps.
Lemma save_outcome_jobs id o : keeps jobs_move (Executions.save_outcome_tx id o).
Proof. unfold Executions.save_outcome_tx, Executions.save_unsettled. jobs_tac. Qed.
Lemma save_safety_jobs r s : keeps jobs_move (SafeApply.save_safety_tx r s).
Proof. unfold SafeApply.save_safety_tx. jobs_tac. Qed.
Lemma refresh_jobs id r s : keeps jobs_move (SafeApply.refresh_tx id r s).
Proof. unfold SafeApply.refresh_tx. jobs_tac. Qed.
Lemma dispatch_tx_jobs id input c safe : keeps jobs_move (Admission.dispatch_tx id input c safe).
Proof. unfold Admission.dispatch_tx. jobs_tac. Qed.
Lemma admitSafety_jobs en r a : keeps jobs_move (SafeApply.admitSafety en r a).
Proof. unfold SafeApply.admitSafety. jobs_tac. Qed.
#[export] Hint Resolve admitSafety_jobs : keeps.
Lemma admit_jobs en id input c p safe req : keeps jobs_move (Admission.admit_tx en id input c p safe req).
Proof.
  unfold Admission.admit_tx, Admission.insert_transport, Admission.insert_journal, Admission.insert_execution. jobs_tac.
Qed.
Lemma decide_tx_jobs id sequence decision r s conf req :
  keeps jobs_move (SafeApply.decide_tx id sequence decision r s conf req).
Proof. unfold SafeApply.decide_tx. jobs_tac. Qed.
Lemma execute_tx_jobs c digest mutate :
  (forall req, keeps jobs_move (mutate req)) -> keeps jobs_move (Requests.execute_tx c digest mutate).
Proof. intros H. unfold Requests.execute_tx, Requests.execute_new. jobs_tac. Qed.
#[export] Hint Resolve save_outcome_jobs save_safety_jobs refresh_jobs dispatch_tx_jobs admit_jobs decide_tx_jobs
  execute_tx_jobs : keeps.

#[export] Instance jobs_transactions : CoreTransactions jobs_move.
Proof. split; intros; eauto with keeps. Qed.

(** The entry points of the execution core. *)
Inductive core_program : forall {A : Type}, prog A -> Prop :=
  | CP_submit en input lease : core_program (Admission.Submit en input lease)
  | CP_submit_safe en input lease c res : core_program (Admission.SubmitSafe en input lease c res)
  | CP_decide en id seq d c : core_program (SafeApply.Decide en id seq d c)
  | CP_tick en : core_program (SafeApply.SafetyTick en)
  | CP_recover : core_program Executions.Recover
  | CP_reconcile id : core_program (Executions.Reconcile id).

Lemma core_conforms {A} (m : prog A) R `{!CoreTransactions R} : core_program m -> conforms (fun _ => True) R m.
Proof.
  destruct 1.
  - by apply submit_sends.
  - unfold Admission.SubmitSafe. case_match; [done|]. by apply submit_sends.
  - by apply Decide_sends.
  - by apply SafetyTick_sends.
  - by apply Recover_sends.
  - by apply Reconcile_sends.
Qed.

(** A job that has ended is final: no later state is possible. *)
Theorem job_final j j' : Evidence.Terminal (j_State j) = true -> rtc job_move j j' -> j' = j.
Proof. intros Ht Hr. destruct Hr as [|j1 j2 j3 [Hf]]; [done|]. congruence. Qed.
