(* ===== verification/AuthTypes.v ===== *)
(** * internal/authn and the policy of internal/repository/auth

    Capabilities and their transport aliases, the role templates, what an
    operation requires of the claims of a credential (policy.go), credential
    texts and their hashes (authn/secrets.go), claims (authn/types.go). *)

From S2P Require Import Prelude GoStrings Sha256 GoTime GoJson ApiTypes CandidateTypes Intents Planning.
Import Planning.

Module AuthTypes.

(** ** Limits *)

(** go: internal/authn/types.go SessionIdle *)
Definition SessionIdle : Z := 15 * 60 * Second.
(** go: internal/authn/types.go SessionAbsolute *)
Definition SessionAbsolute : Z := 8 * 3600 * Second.
(** go: internal/authn/types.go Elevation *)
Definition Elevation : Z := 5 * 60 * Second.
(** go: internal/authn/types.go MaxPrincipals *)
Definition MaxPrincipals : Z := 1000.
(** go: internal/authn/types.go MaxRoles *)
Definition MaxRoles : Z := 128.
(** go: internal/authn/types.go MaxGrants *)
Definition MaxGrants : Z := 4096.
(** go: internal/authn/types.go MaxTokens *)
Definition MaxTokens : Z := 4096.

(** go: internal/authn/types.go Claims *)
Record Claims := mkClaims {
  cl_Principal : string; cl_Credential : string; cl_Kind : string; cl_Display : string;
  cl_Capabilities : list string; cl_Revision : string; cl_Epoch : string; cl_RequestEpoch : string;
  cl_Issued : Z; cl_Expires : Z; cl_Elevated : Z }.
(** The times of claims are whole seconds. *)
Definition no_claims (principal : string) : Claims := mkClaims principal "" "" "" [] "" "" "" 0 0 0.

(** ** Credential texts *)

(** Six bits at a time. *)
Fixpoint sextets (l : list Z) : list Z :=
  match l with
  | a :: b :: c :: r => a / 4 :: a mod 4 * 16 + b / 16 :: b mod 16 * 4 + c / 64 :: c mod 64 :: sextets r
  | [a; b] => [a / 4; a mod 4 * 16 + b / 16; b mod 16 * 4]
  | [a] => [a / 4; a mod 4 * 16]
  | [] => []
  end.
(** The URL-safe alphabet of base64. *)
Definition url_char (i : Z) : ascii :=
  char_of (if i <? 26 then 65 + i else if i <? 52 then 71 + i else if i <? 62 then i - 4 else if i =? 62 then 45 else 95).
Definition encode_url (l : list Z) : string := string_of_list_ascii (url_char <$> sextets l).
(** The index of a character in the URL-safe base64 alphabet. *)
Definition base64_index (c : ascii) : option Z :=
  let b := byte_of c in
  if (65 <=? b) && (b <=? 90) then Some (b - 65)
  else if (97 <=? b) && (b <=? 122) then Some (b - 71)
  else if is_digit b then Some (b + 4)
  else if b =? 45 then Some 62 else if b =? 95 then Some 63 else None.
(** [n] characters that encode 32 bytes exactly: the last one carries four
    bits, and the two that are left over are zero. *)
Fixpoint encoded (n : nat) (s : string) : bool :=
  match n, s with
  | S O, String c EmptyString => match base64_index c with Some i => i mod 4 =? 0 | None => false end
  | S m, String c r => not_nil (base64_index c) && encoded m r
  | _, _ => false
  end.
Fixpoint strip_prefix (p s : string) : option string :=
  match p, s with
  | EmptyString, _ => Some s
  | String a p', String b s' => if Ascii.eqb a b then strip_prefix p' s' else None
  | _, EmptyString => None
  end.
(** The prefix and the canonical encoding of 32 bytes, which has 43 characters.
    go: internal/authn/secrets.go ValidSecret *)
Definition ValidSecret (value prefix : string) : bool :=
  match strip_prefix prefix value with Some r => encoded 43 r | None => false end.
(** The hash as text; the tables are keyed by it.
    go: internal/authn/secrets.go Hash *)
Definition Hash (value : string) : string := sha256_hex value.

(** ** Capabilities *)

(** go: internal/repository/auth/policy.go aliases *)
Definition aliases : list (string * string) :=
  [("state.read", "state.read"); ("workspace.read", "workspace.read"); ("workspace.write", "workspace.write");
   ("config.stage", "workspace.write"); ("config.validate", "configuration.validate"); ("config.read", "configuration.read");
   ("config.apply", "configuration.apply"); ("config.decide", "configuration.confirm"); ("request.read", "requests.read");
   ("job.read", "jobs.read"); ("job.cancel", "jobs.cancel"); ("event.read", "events.read"); ("audit.read", "audit.read");
   ("user.read", "access.users.manage"); ("user.manage", "access.users.manage"); ("role.read", "access.roles.manage");
   ("role.manage", "access.roles.manage"); ("token.read", "access.tokens.self"); ("token.manage", "access.tokens.self");
   ("access.read", "access.aaa.manage"); ("access.configure", "access.aaa.manage");
   ("certificate.read", "access.tls.manage"); ("certificate.manage", "access.tls.manage");
   ("backup.read", "backup.create"); ("backup.manage", "backup.create"); ("recovery.read", "configuration.read");
   ("recovery.manage", "backup.restore"); ("diagnostic.read", "diagnostics.read"); ("diagnostic.run", "diagnostics.active");
   ("capture.run", "diagnostics.disruptive"); ("support.export", "support_bundle.create");
   ("lifecycle.manage", "ovs.lifecycle.manage"); ("config.export", "configuration.read");
   ("artifact.read", "artifacts.read"); ("artifact.write", "artifacts.write"); ("openflow.manage", "openflow.local.write")].
Definition alias (capability : string) : option string :=
  snd <$> find (fun kv => fst kv =s capability) aliases.
(** go: internal/repository/auth/policy.go readCapabilities *)
Definition readCapabilities : list string :=
  ["inventory.read"; "state.read"; "capabilities.read"; "jobs.read"; "events.read"; "audit.read"; "workspace.read";
   "configuration.read"; "requests.read"; "diagnostics.read"; "artifacts.read"; "access.tokens.self"].
(** go: internal/repository/auth/policy.go securityCapabilities *)
Definition securityCapabilities : list string :=
  ["access.users.manage"; "access.roles.manage"; "access.aaa.manage"; "access.tokens.manage"; "access.tls.manage"].
(** go: internal/repository/auth/policy.go networkCapabilities *)
Definition networkCapabilities : list string :=
  ["ovs.bridge.spanning-tree.prepare"; "ovs.topology.write"; "workspace.write"; "configuration.validate";
   "configuration.apply"; "configuration.confirm"; "configuration.rollback"; "ovs.port.vlan.write"; "ovs.port.bond.write";
   "ovs.bridge.create"; "ovs.bridge.delete"; "ovs.port.internal.create"; "ovs.port.internal.delete";
   "ovs.interface.mtu.write"; "ovs.interface.policing.write"; "diagnostics.active"; "diagnostics.disruptive";
   "support_bundle.create"; "backup.create"; "backup.restore"; "configuration.import"; "management_network.write";
   "ovs.lifecycle.manage"; "jobs.cancel"; "artifacts.write"].
(** go: internal/repository/auth/policy.go managementCapabilities *)
Definition managementCapabilities : list string :=
  ["management.policy.write"; "management.debug.write"; "management.services.control"; "openflow.local.write"].

(** Sorted, without repetitions.
    go: internal/repository/auth/policy.go unique *)
Definition unique (values : list string) : list string := compact (sort_strings values).
(** go: internal/repository/auth/policy.go allCapabilities *)
Definition allCapabilities : list string :=
  unique (readCapabilities ++ networkCapabilities ++ securityCapabilities ++ managementCapabilities).
(** go: internal/repository/auth/policy.go Templates *)
Definition Templates : list (string * list string) :=
  [("Reader", unique readCapabilities);
   ("Operator", unique (readCapabilities ++ ["diagnostics.active"; "jobs.cancel"]));
   ("NetworkAdmin", unique (readCapabilities ++ networkCapabilities));
   ("SecurityAdmin", unique (readCapabilities ++ securityCapabilities));
   ("Administrator", allCapabilities)].
(** go: internal/repository/auth/spanning_tree_execution.go SpanningTreeExecutionCapability *)
Definition SpanningTreeExecutionCapability : string := "ovs.bridge.spanning-tree.write".
(** The capabilities that only a role of its own may hold. *)
Definition reserved_capabilities : list string :=
  ["ovs.mirror.write"; "ovs.tunnel.static.write"; "ovs.bridge.multicast.write"; "ovs.port.isolation.write";
   SpanningTreeExecutionCapability].
(** go: internal/repository/auth/policy.go knownCapability *)
Definition knownCapability (c : string) : bool := contains reserved_capabilities c || contains allCapabilities c.
(** go: internal/repository/auth/policy.go validateCapabilities *)
Definition validateCapabilities (values : list string) : result unit :=
  fail_if (128 <? len values) || negb (len (unique values) =? len values) with Fail 422 "INVALID_CAPABILITIES" ;;
  fail_if existsb (fun c => negb (knownCapability c)) values with Fail 422 "UNKNOWN_CAPABILITY" ;;
  Ok tt.
(** go: internal/repository/auth/policy.go subset *)
Definition subset (values ceiling : list string) : bool := forallb (contains ceiling) values.
(** go: internal/repository/auth/policy.go intersection *)
Definition intersection (values ceiling : list string) : list string :=
  unique (filter (fun c => contains ceiling c = true) values).

(** [now] is in seconds. A grant is elevated after a recent password check.
    go: internal/repository/auth/policy.go require *)
Definition require (c : Claims) (capability : string) (elevated : bool) (now : Z) : result unit :=
  if (capability =s "config.decide")
     && (contains (cl_Capabilities c) "configuration.confirm" || contains (cl_Capabilities c) "configuration.rollback")
  then Ok tt
  else if (capability =s "session.read") || (capability =s "session.end") then
    fail_if cl_Kind c <>s "grant" with Fail 403 "BROWSER_SESSION_REQUIRED" ;; Ok tt
  else
    match (match alias capability with
           | Some canonical => Some canonical
           | None => if knownCapability capability then Some capability else None
           end) with
    | None => Err (Fail 403 "CAPABILITY_UNKNOWN")
    | Some canonical =>
      fail_if negb (contains (cl_Capabilities c) canonical) with Fail 403 "CAPABILITY_DENIED" ;;
      fail_if elevated && ((cl_Kind c <>s "grant") || (cl_Elevated c <=? now)) with Fail 403 "REAUTHENTICATION_REQUIRED" ;;
      Ok tt
    end.

(** ** Names *)

Definition username_first (c : ascii) : bool :=
  let b := byte_of c in is_digit b || ((65 <=? b) && (b <=? 90)) || ((97 <=? b) && (b <=? 122)).
Definition username_rest (c : ascii) : bool :=
  let b := byte_of c in username_first c || (b =? 95) || (b =? 46) || (b =? 64) || (b =? 45).
Fixpoint all_chars (p : ascii -> bool) (s : string) : bool :=
  match s with EmptyString => true | String c r => p c && all_chars p r end.
(** go: internal/repository/auth/auth.go usernamePattern *)
Definition valid_username (s : string) : bool :=
  match s with String c r => username_first c && all_chars username_rest r && (slen r <=? 127) | EmptyString => false end.
(** go: internal/repository/auth/password.go validPassword *)
Definition validPassword (password : string) : bool := (12 <=? slen password) && (slen password <=? 1024).
(** go: internal/repository/auth/password.go passwordPrefix *)
Definition passwordPrefix : string := "$argon2id$v=19$m=65536,t=3,p=1$".

End AuthTypes.
