(* ===== verification/IpcServer.v ===== *)
(** * internal/ipc: admission of requests to the manager

    The request budgets (budget.go) as a step relation over their two
    channels, and the HTTP handler (server.go, auth.go, tls.go,
    diagnostics.go) as a tree of what it asks for and does, in the order of
    the code; deferred releases run when it returns. *)

From S2P Require Import Prelude GoStrings GoJson GoJsonParse GoTime ApiTypes CandidateTypes Intents Planning AuthTypes IpcJson.
Import AuthTypes IpcJson.

(** ** Budgets *)

Module IpcQueue.

(** Where a goroutine is in [acquire], or after it; [ok] is whether it keeps
    the slot it took when it gives its place in the queue back. *)
Inductive refusal := QueueFull | Interrupted.
Inductive phase :=
  | Entering | Trying | Queueing | Waiting | Woken | Yielding
  | Leaving (ok : bool) | Holding | Released | Refused (r : refusal).
#[export] Instance refusal_eq_dec : EqDecision refusal.
Proof. solve_decision. Defined.
#[export] Instance phase_eq_dec : EqDecision phase.
Proof. solve_decision. Defined.
(** A goroutine and whether its context is done. *)
Record caller := mkCaller { c_phase : phase; c_done : bool }.
(** The lengths of the two channels, and the goroutines.
    go: internal/ipc/budget.go:19-19 budget *)
Record queue := mkQueue { q_active : Z; q_waiting : Z; q_callers : list caller }.

Section budget.
(** The capacities of the channels.
    go: internal/ipc/budget.go newBudget *)
Context (active waiting : Z).

(** One atomic step: a channel operation, a [select] or a test of the
    context. The last [select] may take either ready case.
    go: internal/ipc/budget.go budget.acquire *)
Inductive move : bool -> phase * Z * Z -> phase * Z * Z -> Prop :=
  | M_dead a w : move true (Entering, a, w) (Refused Interrupted, a, w)
  | M_live a w : move false (Entering, a, w) (Trying, a, w)
  | M_slot d a w : a < active -> move d (Trying, a, w) (Holding, a + 1, w)
  | M_busy d a w : active <= a -> move d (Trying, a, w) (Queueing, a, w)
  | M_wait d a w : w < waiting -> move d (Queueing, a, w) (Waiting, a, w + 1)
  | M_full d a w : waiting <= w -> move d (Queueing, a, w) (Refused QueueFull, a, w)
  | M_wake d a w : a < active -> move d (Waiting, a, w) (Woken, a + 1, w)
  | M_done a w : move true (Waiting, a, w) (Leaving false, a, w)
  | M_take a w : move false (Woken, a, w) (Leaving true, a, w)
  | M_late a w : move true (Woken, a, w) (Yielding, a, w)
  | M_yield d a w : 0 < a -> move d (Yielding, a, w) (Leaving false, a - 1, w)
  | M_leave d (ok : bool) a w : 0 < w -> move d (Leaving ok, a, w) (if ok then Holding else Refused Interrupted, a, w - 1)
  | M_free d a w : 0 < a -> move d (Holding, a, w) (Released, a - 1, w).

(** Requests arrive, their contexts end, and their goroutines move. *)
Inductive arrival : queue -> queue -> Prop :=
  | Q_arrive a w l : arrival (mkQueue a w l) (mkQueue a w (l ++ [mkCaller Entering false])).
Inductive progress : queue -> queue -> Prop :=
  | Q_cancel a w l i p : l !! i = Some (mkCaller p false) -> progress (mkQueue a w l) (mkQueue a w (<[i := mkCaller p true]> l))
  | Q_move a w l i p d p' a' w' : l !! i = Some (mkCaller p d) -> move d (p, a, w) (p', a', w') ->
      progress (mkQueue a w l) (mkQueue a' w' (<[i := mkCaller p' d]> l)).
Definition step (q q' : queue) : Prop := arrival q q' \/ progress q q'.
Definition idle : queue := mkQueue 0 0 [].
End budget.
End IpcQueue.

(** ** The handler *)

Module IpcServer.
Import IpcQueue.

(** go: internal/ipc/budget.go:8-15 Class *)
Inductive Class := Auth | Control | Reading | Heavy.
#[export] Instance Class_eq_dec : EqDecision Class.
Proof. solve_decision. Defined.
(** go: internal/ipc/budget.go defaultBudgets *)
Definition defaultBudgets (c : Class) : Z * Z :=
  match c with Auth => (4, 8) | Control => (4, 8) | Reading => (8, 16) | Heavy => (2, 16) end.
(** go: internal/ipc/protocol.go Protocol *)
Record Protocol := mkProtocol { Major : Z; Minor : Z; Software : string; SchemaDigest : string }.
#[export] Instance Protocol_eq_dec : EqDecision Protocol.
Proof. solve_decision. Defined.

(** What reading the body gives, and what the handler reads of a request. *)
Inductive body := Data (data : string) | TooLarge | Broken.
Record request := mkRequest {
  r_trusted : bool; r_ProtoMajor : Z; r_ProtoMinor : Z; r_RawPath : string; r_RawQuery : string; r_Upgrade : string;
  r_Path : string; r_Method : string; r_ContentLength : Z; r_TransferEncoding : list string;
  r_ContentType : list string; r_ContentEncoding : string; r_Authorization : list string; r_Body : body }.
(** [Header.Get]: the first value. *)
Definition get_header (l : list string) : string := match l with x :: _ => x | [] => "" end.

Inductive verdict := Allowed | AuthorizerDown | Denied.
(** How an operation of the manager ends: well, with a problem of the API, or
    with another error. *)
Inductive ending := Fine | Problem (status : Z) (code : string) | Failure.

(** What the handler asks for and does. *)
Inductive handler (Input : Type) : Type :=
  | Finish
  | Respond (status : Z) (code : string) (k : handler Input)
  | Acquire (c : Class) (k : option refusal -> handler Input)
  | Free (c : Class) (k : handler Input)
  | Load (k : bool -> handler Input)
  | Store (b : bool) (k : handler Input)
  | Expired (k : bool -> handler Input)
  | Operate (op credential : string) (input : Input) (k : ending -> handler Input)
  | Authorize (grant : string) (k : verdict -> handler Input)
  | Inspect (k : bool -> handler Input).
Arguments Finish {Input}.
Arguments Respond {Input}.
Arguments Acquire {Input}.
Arguments Free {Input}.
Arguments Load {Input}.
Arguments Store {Input}.
Arguments Expired {Input}.
Arguments Operate {Input}.
Arguments Authorize {Input}.
Arguments Inspect {Input}.

Section handler.
(** The decoded input of an operation: its type as [reflect] sees it, what
    [encoding/json] makes of a text, and the method and URI of a command.
    [media_type] is [mime.ParseMediaType]. *)
Context {Input : Type} (target : string -> gotype) (typed : string -> string -> option Input).
Context (method_uri : Input -> string * string) (typed_offer : string -> option Protocol) (offer_type : gotype).
Context (media_type : string -> option (string * list (string * string))).
(** The manager's parts that are present, and the protocol.
    go: internal/ipc/server.go:28-37 Handler *)
Context (has_auth has_safety has_candidate has_tls : bool) (protocol : Protocol).

Notation handler := (handler Input).

(** [defer]: what runs when the function returns. *)
Fixpoint deferred (c : Class) (h : handler) : handler :=
  match h with
  | Finish => Free c Finish
  | Respond s code k => Respond s code (deferred c k)
  | Acquire c' k => Acquire c' (fun r => deferred c (k r))
  | Free c' k => Free c' (deferred c k)
  | Load k => Load (fun b => deferred c (k b))
  | Store b k => Store b (deferred c k)
  | Expired k => Expired (fun b => deferred c (k b))
  | Operate op cred i k => Operate op cred i (fun r => deferred c (k r))
  | Authorize g k => Authorize g (fun v => deferred c (k v))
  | Inspect k => Inspect (fun b => deferred c (k b))
  end.
(** Every rejection ends the connection.
    go: internal/ipc/server.go Handler.problem *)
Definition problem (status : Z) (code : string) : handler := Respond status code Finish.
(** go: internal/ipc/server.go Handler.write *)
Definition ok : handler := Respond 200 "" Finish.
(** go: internal/ipc/server.go Handler.queueError *)
Definition queueError (e : refusal) : handler :=
  match e with QueueFull => problem 429 "IPC_QUEUE_FULL" | Interrupted => problem 504 "IPC_DEADLINE_EXCEEDED" end.
Definition queued (c : Class) (k : handler) : handler :=
  Acquire c (fun r => match r with Some e => queueError e | None => deferred c k end).
(** go: internal/ipc/server.go Handler.decode *)
Definition decode {A} (r : request) (t : gotype) (read : string -> option A) (k : A -> handler) : handler :=
  if r_Method r <>s "POST" then problem 405 "IPC_METHOD_NOT_ALLOWED"
  else
    let rejected :=
      match media_type (get_header (r_ContentType r)) with
      | None => true
      | Some (media, params) =>
        (media <>s "application/json") || negb (len (r_ContentType r) =? 1) || (r_ContentEncoding r <>s "")
        || (1 <? len params)
        || ((len params =? 1) && negb (existsb (fun kv => (fst kv =s "charset") && (to_lower (snd kv) =s "utf-8")) params))
      end in
    if rejected then problem 415 "IPC_CONTENT_TYPE_REQUIRED"
    else match r_Body r with
         | TooLarge => problem 413 "IPC_BODY_TOO_LARGE"
         | Broken => problem 400 "IPC_INVALID_BODY"
         | Data data =>
           match DecodeStrict read t data with
           | None => problem 400 "IPC_INVALID_BODY"
           | Some input => k input
           end
         end.

Definition operations : string := "/ipc/v1/operations/".
Definition trim_prefix (s p : string) : string := match strip_prefix p s with Some r => r | None => s end.
(** The value of the one header, after [Bearer]. *)
Definition bearer (r : request) : option string :=
  match r_Authorization r with [v] => strip_prefix "Bearer " v | _ => None end.
(** go: internal/ipc/auth.go:22-32 Handler.authOperation *)
Definition class_of (op : string) : Class :=
  if contains ["auth.authenticate"; "auth.reauthenticate"] op then Auth
  else if contains ["auth.revoke"; "safe.decide"; "safe.resolve"] op then Control
  else if contains ["security.execute"; "candidate.prepare"; "candidate.validate"; "safe.admit"] op then Heavy
  else Reading.
(** go: internal/ipc/auth.go:78-82 Handler.authOperation *)
Definition decision_path (input : Input) : bool :=
  let '(method, uri) := method_uri input in
  let id := trim_suffix (trim_prefix uri "/api/v1/transactions/") "/decisions" in
  (method =s "POST") && (uri =s ("/api/v1/transactions/" ++ id ++ "/decisions")%string) && ManagementID id.
(** go: internal/ipc/auth.go:154-167 Handler.authOperation *)
Definition answer (e : ending) : handler :=
  match e with
  | Problem status code => problem status code
  | Failure => problem 503 "AUTH_UNAVAILABLE"
  | Fine => Expired (fun late => if late then problem 503 "REQUEST_INTERRUPTED" else ok)
  end.
(** The credential, and then the operation.
    go: internal/ipc/auth.go:56-153 Handler.authOperation *)
Definition run_operation (r : request) (op credential : string) : handler :=
  let run (check : Input -> bool) :=
    decode r (target op) (typed op) (fun input =>
      if check input then Operate op credential input answer else problem 403 "OPERATION_DENIED") in
  if contains ["safe.admit"; "safe.resolve"] op then
    if negb has_safety then problem 503 "SAFE_APPLY_UNAVAILABLE" else run (fun _ => true)
  else if op =s "safe.decide" then run decision_path
  else if contains ["candidate.prepare"; "candidate.read"; "candidate.validate"] op then
    if negb has_candidate then problem 503 "CANDIDATE_SERVICE_UNAVAILABLE" else run (fun _ => true)
  else run (fun _ => true).
(** go: internal/ipc/auth.go Handler.authOperation *)
Definition authOperation (r : request) : handler :=
  if negb has_auth then problem 503 "AUTH_UNAVAILABLE"
  else
    let op := trim_prefix (r_Path r) operations in
    queued (class_of op)
      (if op =s "auth.authenticate" then
         if negb (is_empty (r_Authorization r)) then problem 400 "AMBIGUOUS_AUTHENTICATION"
         else run_operation r op ""
       else match bearer r with
            | None => problem 401 "UNAUTHENTICATED"
            | Some credential =>
              if negb (ValidSecret credential "ovsg_") && negb (ValidSecret credential "ovst_")
              then problem 401 "UNAUTHENTICATED"
              else run_operation r op credential
            end).

(** go: internal/ipc/tls.go:56-65 Handler.tlsOperation *)
Definition tls_answer (e : ending) : handler :=
  match e with
  | Problem status code => problem status code
  | Failure => problem 503 "TLS_AUTHORITY_UNAVAILABLE"
  | Fine => ok
  end.
(** go: internal/ipc/tls.go Handler.tlsOperation *)
Definition tlsOperation (r : request) : handler :=
  if negb has_tls then problem 503 "TLS_AUTHORITY_UNAVAILABLE"
  else
    queued (if has_suffix (r_Path r) "tls.execute" then Heavy else Control)
      (if has_suffix (r_Path r) "tls.state" then
         decode r (target "tls.state") (typed "tls.state") (fun input =>
           if negb (is_empty (r_Authorization r)) then problem 400 "AMBIGUOUS_AUTHENTICATION"
           else Operate "tls.state" "" input tls_answer)
       else
         decode r (target "tls.execute") (typed "tls.execute") (fun input =>
           match bearer r with
           | None => problem 401 "UNAUTHENTICATED"
           | Some grant =>
             if negb (ValidSecret grant "ovsg_") then problem 403 "BROWSER_SESSION_REQUIRED"
             else Operate "tls.execute" grant input tls_answer
           end)).

(** go: internal/ipc/server.go:110-127 Handler.ServeHTTP *)
Definition handshake (r : request) : handler :=
  Store false (queued Auth
    (decode r offer_type typed_offer (fun offer =>
       if negb (bool_decide (offer = protocol)) || (Software offer =s "") then problem 409 "IPC_VERSION_MISMATCH"
       else Store true ok))).
Definition late (k : handler) : handler :=
  Expired (fun b => if b then problem 504 "IPC_DEADLINE_EXCEEDED" else k).
(** go: internal/ipc/server.go:128-180 Handler.ServeHTTP *)
Definition runtime_inspect (r : request) : handler :=
  queued Reading
    (decode r (StructOf []) (fun data => Some tt) (fun _ =>
       match bearer r with
       | None => problem 401 "IPC_GRANT_REQUIRED"
       | Some grant =>
         if (grant =s "") || (4096 <? slen grant) || contains_any grant (of_bytes [32; 9; 13; 10])
         then problem 401 "IPC_GRANT_REQUIRED"
         else late (Authorize grant (fun v =>
           match v with
           | Allowed => late (Inspect (fun failed =>
               late (if failed then problem 503 "IPC_OPERATION_UNAVAILABLE" else ok)))
           | _ => late (match v with AuthorizerDown => problem 503 "IPC_AUTH_UNAVAILABLE" | _ => problem 403 "IPC_OPERATION_DENIED" end)
           end))
       end)).
Definition after_handshake (k : handler) : handler :=
  Load (fun negotiated => if negotiated then k else problem 409 "IPC_HANDSHAKE_REQUIRED").
(** The operations of the manager by path.
    go: internal/ipc/server.go:85-103 Handler.ServeHTTP *)
Definition auth_operations : list string :=
  ["safe.admit"; "safe.resolve"; "safe.decide"; "auth.authenticate"; "auth.inspect"; "auth.check"; "auth.reauthenticate";
   "auth.revoke"; "security.read"; "security.execute"; "inventory.read"; "candidate.prepare"; "candidate.read"; "candidate.validate"].
Definition path_of_operation (op : string) : string := (operations ++ op)%string.
(** go: internal/ipc/server.go Handler.ServeHTTP *)
Definition ServeHTTP (r : request) : handler :=
  if negb (r_trusted r) then problem 403 "IPC_PEER_DENIED"
  else if negb (r_ProtoMajor r =? 1) || negb (r_ProtoMinor r =? 1) || (r_RawPath r <>s "") || (r_RawQuery r <>s "")
          || (r_Upgrade r <>s "") then problem 400 "IPC_INVALID_REQUEST"
  else if contains (path_of_operation <$> auth_operations) (r_Path r) then after_handshake (authOperation r)
  else if contains (path_of_operation <$> ["tls.execute"; "tls.state"]) (r_Path r) then after_handshake (tlsOperation r)
  else if r_Path r =s "/ipc/v1/health" then
    if (r_Method r <>s "GET") || negb (r_ContentLength r =? 0) || negb (is_empty (r_TransferEncoding r))
    then problem 400 "IPC_INVALID_REQUEST" else ok
  else if r_Path r =s "/ipc/v1/handshake" then handshake r
  else if r_Path r =s path_of_operation "runtime.inspect" then after_handshake (runtime_inspect r)
  else problem 404 "IPC_OPERATION_UNKNOWN".
End handler.
End IpcServer.

(** ** What a request goes through *)

Module IpcRules.
Import IpcQueue IpcServer.

Section rules.
Context {Input : Type} (target : string -> gotype) (typed : string -> string -> option Input).
Context (method_uri : Input -> string * string) (typed_offer : string -> option Protocol) (offer_type : gotype).
Context (media_type : string -> option (string * list (string * string))).
Context (has_auth has_safety has_candidate has_tls : bool) (protocol : Protocol).
Notation serve := (ServeHTTP target typed method_uri typed_offer offer_type media_type has_auth has_safety has_candidate has_tls protocol).
Notation decode := (decode (Input := Input) media_type).

(** The budget of an operation, and the credential it runs with. *)
Definition budget_of (op : string) : Class :=
  if op =s "tls.execute" then Heavy else if op =s "tls.state" then Control else class_of op.
Definition credentialed (op credential : string) : Prop :=
  if contains ["auth.authenticate"; "tls.state"] op then credential = ""
  else ValidSecret credential "ovsg_" = true \/ op <> "tls.execute" /\ ValidSecret credential "ovst_" = true.
(** The body of the request, accepted as a value of the type. *)
Definition body_of {A} (r : request) (t : gotype) (read : string -> option A) (a : A) : Prop :=
  r_Method r = "POST" /\ exists data, r_Body r = Data data /\ DecodeStrict read t data = Some a.

(** [disciplined final held ready answered h]: whatever [h] is told, it takes
    one slot at a time and ends with [final]; it answers once; it runs an
    operation only after it has seen the connection negotiated, with the slot
    of the operation's class, a credential of its form and the decoded body of
    this very request; and it marks a connection negotiated only when the offer
    in the body is its own protocol. *)
Fixpoint disciplined (r : request) (final held : option Class) (ready answered : bool) (h : handler Input) : Prop :=
  match h with
  | Finish => held = final /\ answered = true
  | Respond _ _ k => answered = false /\ disciplined r final held ready true k
  | Acquire c k => held = None /\ answered = false /\ disciplined r final (Some c) ready answered (k None)
                   /\ forall e, disciplined r final None ready answered (k (Some e))
  | Free c k => held = Some c /\ disciplined r final None ready answered k
  | Load k => forall b, disciplined r final held b answered (k b)
  | Store b k => (b = true -> exists offer, body_of r offer_type typed_offer offer /\ offer = protocol /\ Software offer <> "")
                 /\ disciplined r final held b answered k
  | Expired k => forall b, disciplined r final held ready answered (k b)
  | Operate op credential input k =>
    ready = true /\ answered = false /\ held = Some (budget_of op) /\ credentialed op credential /\ r_trusted r = true /\
    body_of r (target op) (typed op) input /\ forall e, disciplined r final held ready answered (k e)
  | Authorize grant k =>
    ready = true /\ answered = false /\ held = Some Reading /\ grant <> "" /\ forall v, disciplined r final held ready answered (k v)
  | Inspect k => ready = true /\ answered = false /\ held = Some Reading /\ forall b, disciplined r final held ready answered (k b)
  end.

Lemma deferred_ok r c h : forall held ready answered,
  disciplined r (Some c) held ready answered h -> disciplined r None held ready answered (deferred c h).
Proof. induction h; cbn; intros; destruct_and?; naive_solver. Qed.
Lemma problem_ok r held ready status code : disciplined r held held ready false (problem status code).
Proof. done. Qed.
Lemma queueError_ok r ready e : disciplined r None None ready false (queueError e).
Proof. by destruct e. Qed.
Lemma queued_ok r c ready k : disciplined r (Some c) (Some c) ready false k -> disciplined r None None ready false (queued c k).
Proof. intros H. split_and!; [done|done|by apply deferred_ok|apply queueError_ok]. Qed.
Lemma decode_ok {A} r (t : gotype) (read : string -> option A) k c ready :
  (forall a, body_of r t read a -> disciplined r (Some c) (Some c) ready false (k a)) ->
  disciplined r (Some c) (Some c) ready false (decode r t read k).
Proof.
  intros H. unfold IpcServer.decode. destruct (String.eqb_spec (r_Method r) "POST"); [|done]. cbn [negb].
  match goal with |- disciplined _ _ _ _ _ (if ?b then _ else _) => destruct b; [done|] end.
  destruct (r_Body r) as [data| |] eqn:Eb; [|done..]. destruct (DecodeStrict read t data) eqn:Ed; [|done].
  apply H. split; [done|]. by exists data.
Qed.
Lemma answer_ok r held ready e : disciplined r held held ready false (answer e).
Proof. destruct e; try done. by intros []. Qed.
Lemma tls_answer_ok r held ready e : disciplined r held held ready false (tls_answer e).
Proof. by destruct e. Qed.
Lemma late_ok r held ready k : disciplined r held held ready false k -> disciplined r held held ready false (late k).
Proof. by intros H []. Qed.

Lemma operation_ok r op credential : r_trusted r = true -> budget_of op = class_of op -> credentialed op credential ->
  disciplined r (Some (class_of op)) (Some (class_of op)) true false
    (run_operation target typed method_uri media_type has_safety has_candidate r op credential).
Proof.
  intros Ht Hb Hc.
  assert (forall check : Input -> bool, disciplined r (Some (class_of op)) (Some (class_of op)) true false
    (decode r (target op) (typed op) (fun input => if check input then Operate op credential input answer else problem 403 "OPERATION_DENIED"))) as H.
  { intros check. apply decode_ok. intros input Hi. destruct (check input); [|done].
    split_and!; try done; [by rewrite Hb|]. apply answer_ok. }
  unfold run_operation. repeat case_match; first [done|exact (H (fun _ => true))|exact (H (decision_path method_uri))].
Qed.
Lemma authOperation_ok r op : r_trusted r = true -> In op auth_operations -> r_Path r = path_of_operation op ->
  disciplined r None None true false (authOperation target typed method_uri media_type has_auth has_safety has_candidate r).
Proof.
  intros Ht Hop Hp. unfold authOperation. destruct has_auth; [|done]. cbn [negb].
  assert (trim_prefix (r_Path r) operations = op /\ budget_of op = class_of op /\ (op = "auth.authenticate" \/
    contains ["auth.authenticate"; "tls.state"] op = false /\ op <> "tls.execute")) as (-> & Hb & Ho).
  { rewrite Hp. cbn in Hop. repeat destruct Hop as [<-|Hop]; try done; (split_and!; [reflexivity|reflexivity|]); (by left) || by right. }
  apply queued_ok. destruct (String.eqb_spec op "auth.authenticate") as [->|Hne].
  - destruct (negb _); [done|]. by apply (operation_ok r "auth.authenticate").
  - destruct Ho as [?|[Ho Ho']]; [done|]. destruct (bearer r) as [credential|]; [|done].
    destruct (ValidSecret credential "ovsg_") eqn:Eg; [|destruct (ValidSecret credential "ovst_") eqn:Et; [|done]]; cbn [negb andb];
      apply operation_ok; try done; unfold credentialed; rewrite Ho; auto.
Qed.
Lemma tlsOperation_ok r op : r_trusted r = true -> In op ["tls.execute"; "tls.state"] -> r_Path r = path_of_operation op ->
  disciplined r None None true false (tlsOperation target typed media_type has_tls r).
Proof.
  intros Ht Hop Hp. unfold tlsOperation. destruct has_tls; [|done]. cbn [negb]. rewrite Hp.
  destruct Hop as [<-|[<-|[]]]; apply queued_ok.
  - change (has_suffix (path_of_operation "tls.execute") "tls.state") with false. cbv iota.
    change (has_suffix (path_of_operation "tls.execute") "tls.execute") with true. cbv iota.
    apply decode_ok. intros input Hi. destruct (bearer r) as [grant|]; [|done].
    destruct (ValidSecret grant "ovsg_") eqn:Eg; [|done]. split_and!; try done; [by left|]. apply tls_answer_ok.
  - change (has_suffix (path_of_operation "tls.state") "tls.state") with true. cbv iota.
    change (has_suffix (path_of_operation "tls.state") "tls.execute") with false. cbv iota.
    apply decode_ok. intros input Hi. destruct (negb _); [done|]. split_and!; try done. apply tls_answer_ok.
Qed.
Lemma after_ok r ready k : disciplined r None None true false k -> disciplined r None None ready false (after_handshake k).
Proof. by intros H []. Qed.
Lemma handshake_ok r ready : disciplined r None None ready false (handshake (Input := Input) typed_offer offer_type media_type protocol r).
Proof.
  split; [done|]. apply queued_ok, decode_ok. intros offer Ho. case_bool_decide as E; [|done].
  destruct (String.eqb_spec (Software offer) ""); [done|]. split; [|done]. intros _. by exists offer.
Qed.
Lemma runtime_inspect_ok r : disciplined r None None true false (runtime_inspect (Input := Input) media_type r).
Proof.
  apply queued_ok, decode_ok. intros _ _. destruct (bearer r) as [grant|]; [|done].
  destruct (String.eqb_spec grant ""); [done|]. cbn [orb]. case_match; [done|].
  apply late_ok. split_and!; try done. intros []; apply late_ok; try done. split_and!; try done. intros []; by apply late_ok.
Qed.

Lemma served_path l path : contains (path_of_operation <$> l) path = true -> exists op, path = path_of_operation op /\ In op l.
Proof. intros H. pose proof (proj1 (contains_In _ _) H) as (op & <- & Hop)%in_map_iff. by exists op. Qed.

(** C26. Every request is admitted in order: the handler takes at most one slot
    and returns it on every path, errors included; it
    answers exactly once; an operation of the manager runs only on a connection
    of the trusted peer that was negotiated, holding a slot of its class, with
    a credential of the right form and on the strictly decoded body of this
    request; and a connection becomes negotiated only by the offer of the
    manager's own protocol. *)
Theorem requests_admitted r ready : disciplined r None None ready false (serve r).
Proof.
  unfold ServeHTTP. destruct (r_trusted r) eqn:Ht; [|done]. cbn [negb].
  match goal with |- disciplined _ _ _ _ _ (if ?b then _ else _) => destruct b; [done|] end.
  destruct (contains (path_of_operation <$> auth_operations) (r_Path r)) eqn:Ea.
  { apply served_path in Ea as (op & Hp & Hop).
    apply after_ok. by eapply authOperation_ok. }
  destruct (contains (path_of_operation <$> ["tls.execute"; "tls.state"]) (r_Path r)) eqn:Et.
  { apply served_path in Et as (op & Hp & Hop).
    apply after_ok. by eapply tlsOperation_ok. }
  destruct (r_Path r =s "/ipc/v1/health"); [by case_match|].
  destruct (r_Path r =s "/ipc/v1/handshake"); [apply handshake_ok|].
  destruct (r_Path r =s _); [|done]. apply after_ok, runtime_inspect_ok.
Qed.
End rules.
End IpcRules.

(** ** The budgets keep their bounds and drain *)

Module IpcBudget.
Import IpcQueue.

Section budget.
Context (active waiting : Z).
Notation step := (step active waiting).
Notation progress := (progress active waiting).
Notation move := (move active waiting).

(** The slots that a goroutine holds in each of the channels. *)
Definition in_active (c : caller) : Z :=
  match c_phase c with Woken | Yielding | Leaving true | Holding => 1 | _ => 0 end.
Definition in_waiting (c : caller) : Z :=
  match c_phase c with Waiting | Woken | Yielding | Leaving _ => 1 | _ => 0 end.
Definition total (f : caller -> Z) (l : list caller) : Z := foldr (fun c n => f c + n) 0 l.
#[local] Arguments total : simpl never.

(** No slot is lost and none is invented. *)
Record balanced (q : queue) : Prop := {
  ba_active : q_active q = total in_active (q_callers q);
  ba_waiting : q_waiting q = total in_waiting (q_callers q);
  ba_capacity : 0 <= q_active q <= active /\ 0 <= q_waiting q <= waiting }.

Lemma total_cons f c l : total f (c :: l) = f c + total f l.
Proof. done. Qed.
Lemma total_app f l m : total f (l ++ m) = total f l + total f m.
Proof. induction l as [|c l IH]; [done|]. cbn [app]. rewrite !total_cons. lia. Qed.
Lemma count_nonneg f l : (forall c, 0 <= f c) -> 0 <= total f l.
Proof. intros Hf. induction l as [|c l IH]; [done|]. rewrite total_cons. specialize (Hf c). lia. Qed.
Lemma total_mono f g l : (forall c, f c <= g c) -> total f l <= total g l.
Proof. intros Hf. induction l as [|c l IH]; [done|]. rewrite !total_cons. specialize (Hf c). lia. Qed.
Lemma count_insert f l i c c' : l !! i = Some c -> total f (<[i := c']> l) = total f l - f c + f c'.
Proof.
  intros H. rewrite insert_take_drop by (by eapply lookup_lt_Some).
  rewrite <- (take_drop_middle l i c H) at 3. rewrite !total_app, !total_cons. lia.
Qed.
Lemma total_pos f l i c : (forall c, 0 <= f c) -> l !! i = Some c -> f c <= total f l.
Proof.
  intros Hf. revert i. induction l as [|d l IH]; intros [|i] H; try done; rewrite total_cons.
  - injection H as ->. pose proof (count_nonneg f l Hf). lia.
  - specialize (IH i H). pose proof (Hf d). lia.
Qed.
Lemma in_active_nonneg c : 0 <= in_active c.
Proof. destruct c as [[| | | | | |[]| | |] ?]; cbn; lia. Qed.
Lemma in_waiting_nonneg c : 0 <= in_waiting c.
Proof. destruct c as [[| | | | | |[]| | |] ?]; cbn; lia. Qed.

Lemma move_balanced d p a w p' a' w' : move d (p, a, w) (p', a', w') ->
  a' = a - in_active (mkCaller p d) + in_active (mkCaller p' d) /\
  w' = w - in_waiting (mkCaller p d) + in_waiting (mkCaller p' d) /\
  (0 <= a <= active -> 0 <= a' <= active) /\ (0 <= w <= waiting -> 0 <= w' <= waiting).
Proof. inversion 1; subst; cbn; try (destruct ok; cbn); lia. Qed.
Lemma progress_balanced q q' : progress q q' -> balanced q -> balanced q'.
Proof.
  destruct 1 as [a w l i p Hi|a w l i p d p' a' w' Hi Hm]; intros [Ha Hw Hc]; cbn in *.
  - assert (in_active (mkCaller p true) = in_active (mkCaller p false) /\ in_waiting (mkCaller p true) = in_waiting (mkCaller p false))
      as [E1 E2] by done.
    split; cbn; [..|done]; rewrite (count_insert _ _ _ _ _ Hi); lia.
  - apply move_balanced in Hm as (Ea & Ew & Ca & Cw). split; cbn; [rewrite (count_insert _ _ _ _ _ Hi)..|]; lia.
Qed.
Lemma step_balanced q q' : step q q' -> balanced q -> balanced q'.
Proof.
  intros [H|H]; [|by apply progress_balanced]. destruct H as [a w l]. intros [Ha Hw Hc]. cbn in *.
  split; cbn; [rewrite total_app..|done]; change (total in_active [mkCaller Entering false]) with 0; change (total in_waiting [mkCaller Entering false]) with 0; lia.
Qed.
Lemma idle_balanced : 0 <= active -> 0 <= waiting -> balanced idle.
Proof. by split. Qed.
Lemma reachable_balanced q : 0 <= active -> 0 <= waiting -> rtc step idle q -> balanced q.
Proof.
  intros Ha Hw. apply (rtc_ind_r balanced); [by apply idle_balanced|]. intros x y _ Hs Hx. by eapply step_balanced.
Qed.

(** What a goroutine still has to do. *)
Definition work (c : caller) : Z :=
  (if c_done c then 0 else 1) +
  match c_phase c with
  | Entering => 8 | Trying => 7 | Queueing => 6 | Waiting => 5 | Woken => 4 | Yielding => 3
  | Leaving _ => 2 | Holding => 1 | Released | Refused _ => 0
  end.
Lemma work_nonneg c : 0 <= work c.
Proof. destruct c as [p d]. destruct p, d; vm_compute; discriminate. Qed.
Definition finished (c : caller) : Prop := match c_phase c with Released | Refused _ => True | _ => False end.
Lemma finished_or c : finished c \/ ~ finished c.
Proof. destruct c as [[] ?]; cbn; auto. Qed.
Lemma move_works d p a w p' a' w' : move d (p, a, w) (p', a', w') -> work (mkCaller p' d) < work (mkCaller p d).
Proof. inversion 1; subst; unfold work; cbn; cbn [c_phase c_done]; try destruct ok; lia. Qed.
Lemma progress_works q q' : progress q q' -> total work (q_callers q') < total work (q_callers q).
Proof.
  destruct 1 as [a w l i p Hi|a w l i p d p' a' w' Hi Hm]; cbn; rewrite (count_insert _ _ _ _ _ Hi).
  - assert (work (mkCaller p true) = work (mkCaller p false) - 1) by (unfold work; cbn; lia). lia.
  - apply move_works in Hm. lia.
Qed.
Lemma run_bounded n q q' : nsteps progress n q q' -> Z.of_nat n <= total work (q_callers q) - total work (q_callers q').
Proof. induction 1 as [q|n q q1 q' H _ IH]; [lia|]. apply progress_works in H. lia. Qed.
Lemma total_work_nonneg l : 0 <= total work l.
Proof. apply count_nonneg, work_nonneg. Qed.

(** Whoever holds a slot can go on. *)
Lemma active_moves q : balanced q -> 0 < q_active q -> exists q', progress q q'.
Proof.
  intros [Ha Hw Hc] Hpos. destruct q as [a w l]. cbn in *.
  assert (exists i c, l !! i = Some c /\ in_active c = 1) as (i & [p d] & Hi & Hp).
  { rewrite Ha in Hpos. clear -Hpos. induction l as [|c l IH]; [done|]. destruct (decide (in_active c = 1)) as [E|E]; [by exists 0%nat, c|].
    assert (in_active c = 0) as E0 by (destruct c as [[| | | | | |[]| | |] ?]; done).
    destruct IH as (i & c' & Hi & Hc); [rewrite total_cons in Hpos; lia|]. by exists (S i), c'. }
  pose proof (total_pos in_waiting l i _ in_waiting_nonneg Hi) as Hwp.
  destruct p as [| | | | | |[]| | |]; cbn in Hp; try done; [destruct d| | |]; eexists; eapply (Q_move active waiting); try exact Hi;
    constructor; cbn in Hwp; lia.
Qed.
(** Any goroutine that is not done can go on, or another can. *)
Lemma unfinished_moves q i c : 0 < active -> balanced q -> q_callers q !! i = Some c -> ~ finished c -> exists q', progress q q'.
Proof.
  intros Hpos Hb Hi Hf. destruct (decide (0 < q_active q)) as [H|H]; [by apply active_moves|].
  destruct Hb as [Ha Hw Hc]. destruct q as [a w l], c as [p d]. cbn in *.
  pose proof (total_pos in_waiting l i _ in_waiting_nonneg Hi) as Hwp.
  pose proof (total_pos in_active l i _ in_active_nonneg Hi) as Hap.
  destruct p as [| | | | | |ok| | |]; try (by destruct Hf).
  - destruct d; eexists; eapply (Q_move active waiting); try exact Hi; constructor.
  - eexists. eapply (Q_move active waiting); [exact Hi|]. apply M_slot. lia.
  - destruct (decide (w < waiting)); eexists; (eapply (Q_move active waiting); [exact Hi|]); [by apply M_wait|apply M_full; lia].
  - eexists. eapply (Q_move active waiting); [exact Hi|]. apply M_wake. lia.
  - cbn in Hap. lia.
  - cbn in Hap. lia.
  - eexists. eapply (Q_move active waiting); [exact Hi|]. apply M_leave. cbn in Hwp. lia.
  - cbn in Hap. lia.
Qed.

(** The budgets hold: at no time do more goroutines run in a class than
    its first capacity, nor wait for it than its second, whatever the arrivals
    and the contexts that end meanwhile; and the slots in use are exactly those
    of the goroutines that hold one, so that a class at rest has all of them. *)
Theorem budget_kept q : 0 <= active -> 0 <= waiting -> rtc step idle q ->
  total (fun c => if bool_decide (c_phase c = Holding) then 1 else 0) (q_callers q) <= active /\
  total (fun c => if bool_decide (c_phase c = Waiting) then 1 else 0) (q_callers q) <= waiting /\
  (Forall finished (q_callers q) -> q_active q = 0 /\ q_waiting q = 0).
Proof.
  intros Ha Hw [Ea Ew Hc]%reachable_balanced; [|done..].
  split_and!.
  - etrans; [|by apply Hc]. rewrite Ea. apply total_mono. intros [[| | | | | |[]| | |] ?]; cbn; case_bool_decide; done || lia.
  - etrans; [|by apply Hc]. rewrite Ew. apply total_mono. intros [[| | | | | |[]| | |] ?]; cbn; case_bool_decide; done || lia.
  - intros Hf. rewrite Ea, Ew. clear -Hf. induction Hf as [|[p d] l Hc _ IH]; [done|].
    rewrite !total_cons. by destruct p.
Qed.

(** C27. The queue drains: from every state the process can reach, once no
    request arrives any more, every run is finite (its length is bounded by
    the work of the goroutines that are left), and it can stop only when every
    goroutine was served and gave its slot back, or was refused. No request
    waits for ever for a slot. *)
Theorem queue_drains q : 0 < active -> 0 <= waiting -> rtc step idle q ->
  (forall n q', nsteps progress n q q' -> Z.of_nat n <= total work (q_callers q)) /\
  (forall q', rtc progress q q' -> (forall q'', ~ progress q' q'') -> Forall finished (q_callers q')).
Proof.
  intros Ha Hw Hq%reachable_balanced; [|lia|done]. split.
  - intros n q' H%run_bounded. pose proof (total_work_nonneg (q_callers q')). lia.
  - intros q' Hr Hstop. assert (balanced q') as Hb.
    { revert Hq. clear Hstop. induction Hr as [q|q q1 q2 H _ IH]; [done|]. intros Hq. apply IH. by eapply progress_balanced. }
    apply Forall_lookup. intros i c Hi. destruct (finished_or c) as [E|E]; [done|].
    destruct (unfinished_moves q' i c) as [q'' H]; [done..|]. by destruct (Hstop q'').
Qed.
End budget.

(** A class of four slots and eight places, with a request in it. *)
Definition served_one : queue := mkQueue 1 0 [mkCaller Holding false].
Lemma served_one_reachable : rtc (step 4 8) idle served_one.
Proof.
  eapply rtc_l; [left; apply (Q_arrive 0 0 [])|]. cbn [app].
  eapply rtc_l; [right; apply (Q_move 4 8 0 0 [mkCaller Entering false] 0 Entering false Trying 0 0 eq_refl); constructor|].
  eapply rtc_l; [right; apply (Q_move 4 8 0 0 [mkCaller Trying false] 0 Trying false Holding (0 + 1) 0 eq_refl); constructor; done|].
  apply rtc_refl.
Qed.
Lemma budget_kept_witness :
  total (fun c => if bool_decide (c_phase c = Holding) then 1 else 0) (q_callers served_one) <= 4.
Proof. apply (budget_kept 4 8 served_one); [done|done|exact served_one_reachable]. Defined.
Lemma queue_drains_witness : rtc (step 4 8) idle served_one /\
  forall n q', nsteps (progress 4 8) n served_one q' -> Z.of_nat n <= 2.
Proof. split; [exact served_one_reachable|]. apply (queue_drains 4 8 served_one); [done|done|exact served_one_reachable]. Defined.
End IpcBudget.
