(* ===== verification/AuthStore.v ===== *)
(** * internal/repository/auth: credentials and what they allow

    The claims of a credential (auth.go) and the checks of an operation
    (policy.go, commands.go), as parts of transactions on the manager
    database. *)

From S2P Require Import Prelude GoStrings Sha256 GoTime GoJson ApiTypes CandidateTypes Intents Planning ExecTypes AuthTables Store Evidence AuthTypes.
Import Planning AuthTypes AuthTables.

Module AuthStore.

(** Updates of one group of tables. *)
Definition on_policy (f : policy_tables -> policy_tables) : tx unit :=
  modify (fun d => with_auth d (with_policy (auth d) (f (policy (auth d))))).
Definition on_creds (f : credential_tables -> credential_tables) : tx unit :=
  modify (fun d => with_auth d (with_creds (auth d) (f (creds (auth d))))).
Definition on_authz (f : authority -> authority) : tx unit :=
  modify (fun d => with_auth d (with_authz (auth d) (f (authz (auth d))))).
Definition on_drafts (f : draft_tables -> draft_tables) : tx unit :=
  modify (fun d => with_auth d (with_drafts (auth d) (f (drafts (auth d))))).

(** ** auth.go: the parts of every transaction *)

(** The transaction's context carries its request, [no_request] outside
    of [requests.Execute].
    go: internal/repository/auth/auth.go Repository.audit *)
Definition audit (req : EvRequest) (c : Claims) (op target result_ requestID : string) (object job : option Ref) : tx unit :=
  do at_ <- now in
  let object := match object with
                | Some r => Some r
                | None => if ManagementID target then Some (mkRef "security-resource" target) else None
                end in
  do id <- Evidence.Append req
    (mkEvRecord [] "" "audit" "" "Manager" (cl_Principal c) (cl_Credential c) "" op object "" ""
       (match job with Some j => ref_ID j | None => EmptyString end) requestID "" "" "" result_ "" at_ ""
       ((op =s "tls-recovery") || Evidence.ControlOperation op)) in
  do at_ <- now in
  on_authz (fun a => with_audit a (mkAudit id (cl_Principal c) (cl_Credential c) op target result_ requestID (unix at_))).
(** A claim's clock must not run behind the stored one.
    go: internal/repository/auth/auth.go Repository.clock *)
Definition clock_of (d : db) (t : Z) : result (string * string) :=
  fail_if unix_milli t <? auth_high (authz (auth d)) with Fail 503 "AUTH_CLOCK_UNSAFE" ;;
  Ok (auth_epoch (authz (auth d)), auth_revision (authz (auth d))).
Definition clock : tx (string * string) :=
  do t <- now in
  do d <- get in
  lift (clock_of d t).
(** go: internal/repository/auth/auth.go Repository.watermark *)
Definition watermark : tx unit :=
  do at_ <- now in
  on_authz (fun a => with_watermark a (Z.max (auth_high a) (unix_milli at_))).

(** The roles of a principal; each must have both of its rows. *)
Definition role_ids (p : policy_tables) (principal : string) : list string :=
  omap (fun pr => if fst pr =s principal then Some (snd pr) else None) (elements (principal_roles p)).
Definition role_sets (p : policy_tables) (principal : string) : list (list string) :=
  omap (fun role => if auth_roles p !! role then roles p !! role else None) (role_ids p principal).
(** go: internal/repository/auth/policy.go capabilities *)
Definition capabilities (p : policy_tables) (principal : string) : result (list string) :=
  let sets := role_sets p principal in
  fail_if existsb (fun caps => negb (is_ok (validateCapabilities caps))) sets with Fail 503 "AUTH_POLICY_INVALID" ;;
  Ok (unique (concat sets)).

(** What a credential is: its kind, row, identifier, issue, last use and
    elevation. Both rows and both rows of the principal must exist. *)
Record credential := mkCred {
  k_kind : string; k_row : credential_row; k_id : string; k_issued : Z; k_last : Z; k_elevated : Z;
  k_principal : principal_row }.
Definition known (d : db) (row : credential_row) (k : principal_row -> credential) : option credential :=
  match principals (policy (auth d)) !! cr_principal row, auth_principals (policy (auth d)) !! cr_principal row with
  | Some p, Some _ => Some (k p)
  | _, _ => None
  end.
(** go: internal/repository/auth/auth.go:166-186 Repository.claims *)
Definition find_credential (d : db) (credential : string) : result AuthStore.credential :=
  let hash := Hash credential in
  let found :=
    if ValidSecret credential "ovsg_" then
      match grants (creds (auth d)) !! hash, auth_grants (creds (auth d)) !! hash with
      | Some g, Some a => known d g (mkCred "grant" g (ag_id a) (ag_issued a) (ag_last a) (ag_elevated a))
      | _, _ => None
      end
    else if ValidSecret credential "ovst_" then
      match api_tokens (creds (auth d)) !! hash, auth_tokens (creds (auth d)) !! hash with
      | Some t, Some a => known d t (mkCred "token" t (at_id a) (at_created a) (at_last a) 0)
      | _, _ => None
      end
    else None in
  match found with Some k => Ok k | None => Err (Fail 401 "UNAUTHENTICATED") end.
Definition SessionIdleSeconds : Z := SessionIdle / Second.
Definition SessionAbsoluteSeconds : Z := SessionAbsolute / Second.
(** [now] is in seconds.
    go: internal/repository/auth/auth.go:187-190 Repository.claims *)
Definition ended (k : credential) (epoch : string) (now : Z) : bool :=
  pr_disabled (k_principal k) || not_nil (cr_revoked (k_row k)) || (cr_epoch (k_row k) <>s epoch)
  || (cr_expires (k_row k) <=? now) || (now <? k_issued k)
  || ((k_kind k =s "grant") && ((k_last k + SessionIdleSeconds <=? now)
                                || (k_issued k + SessionAbsoluteSeconds <? cr_expires (k_row k)))).
(** What a credential lets its holder do now: the current capabilities of
    its principal, under the ceiling of its issue. [t1] and [t2] are the two
    clock readings.
    go: internal/repository/auth/auth.go Repository.claims *)
Definition claims_of (d : db) (credential : string) (t1 t2 : Z) : result Claims :=
  let? (epoch, revision) := clock_of d t1 in
  let? k := find_credential d credential in
  fail_if ended k epoch (unix t2) with Fail 401 "CREDENTIAL_EXPIRED_OR_REVOKED" ;;
  let row := k_row k in
  fail_if negb (is_ok (validateCapabilities (cr_ceiling row))) with Fail 503 "AUTH_POLICY_INVALID" ;;
  let? current := capabilities (policy (auth d)) (cr_principal row) in
  Ok (mkClaims (cr_principal row) (k_id k) (k_kind k) (pr_name (k_principal k)) (intersection current (cr_ceiling row))
        revision epoch (api_epoch d) (k_issued k) (cr_expires row) (k_elevated k)).
Definition claims (credential : string) : tx Claims :=
  do t1 <- now in
  do t2 <- now in
  do d <- get in
  lift (claims_of d credential t1 t2).

(** The last use of a credential.
    go: internal/repository/auth/auth.go Repository.touch *)
Definition touch (credential : string) (c : Claims) : tx unit :=
  let hash := Hash credential in
  do at_ <- now in
  do _ <- on_creds (fun t =>
    if cl_Kind c =s "token" then
      with_tokens t (api_tokens t) (alter (fun a => mkAuthToken (at_id a) (at_name a) (at_created a) (unix at_)) hash (auth_tokens t))
    else
      with_grants t (grants t) (alter (fun a => mkAuthGrant (ag_id a) (ag_issued a) (unix at_) (ag_elevated a)) hash (auth_grants t))) in
  watermark.

(** ** Checks on resources *)

Definition count_if (b : bool) (e : error) : result unit := fail_if negb b with e ;; Ok tt.
Definition not_found : error := Fail 404 "NOT_FOUND".
Definition token_owner (d : db) (id : string) : option string :=
  match find (fun kv => at_id (snd kv) =s id) (map_to_list (auth_tokens (creds (auth d)))) with
  | Some (hash, _) => cr_principal <$> api_tokens (creds (auth d)) !! hash
  | None => None
  end.
(** The native table that a public kind of object lives in. *)
Definition object_table (kind : string) : string :=
  if kind =s "bridge" then "Bridge" else if (kind =s "port") || (kind =s "bond") || (kind =s "tunnel") then "Port"
  else if kind =s "interface" then "Interface" else "Mirror".
(** go: internal/repository/auth/policy.go:241-267 checkRefs *)
Definition check_object (d : db) (c : Claims) (ref : Ref) : result unit :=
  let? _ := require c "inventory.read" false 0 in
  let? _ := if (ref_Kind ref =s "tunnel") || (ref_Kind ref =s "mirror") then require c "configuration.read" false 0 else Ok tt in
  match inventory_state (drafts (auth d)) with
  | None => Err (Fail 503 "OBJECT_AUTHORITY_UNAVAILABLE")
  | Some iv =>
    fail_if iv_state iv <>s "confirmed" with Fail 503 "INSTANCE_RECONCILIATION_REQUIRED" ;;
    count_if (match identities d !! ref_ID ref with
              | Some i => (id_generation i =s iv_generation iv) && (id_table i =s object_table (ref_Kind ref)) && (id_state i =s "active")
              | None => false
              end) not_found
  end.
(** go: internal/repository/auth/policy.go:148-284 checkRefs *)
Definition check_ref (d : db) (c : Claims) (ref : Ref) : result unit :=
  let kind := ref_Kind ref in
  let id := ref_ID ref in
  fail_if ((kind <>s "request") && negb (ManagementID id)) || ((kind =s "request") && negb (UUID id))
    with Fail 422 "INVALID_RESOURCE_SCOPE" ;;
  if kind =s "transaction" then
    let? _ := require c "configuration.read" false 0 in
    count_if (match field_executions d !! id with Some r => fe_owner r =s cl_Principal c | None => false end) not_found
  else if kind =s "candidate" then
    let? _ := require c "workspace.read" false 0 in
    let? _ := require c "configuration.read" false 0 in
    count_if (match candidate_witnesses (drafts (auth d)) !! cl_Principal c with
              | Some w => wi_candidate w =s id
              | None => false
              end) not_found
  else if kind =s "validation" then
    let? _ := require c "config.validate" false 0 in
    count_if (match candidate_validations (drafts (auth d)) !! id with
              | Some v => va_owner v =s cl_Principal c
              | None => false
              end) not_found
  else if kind =s "request" then
    count_if (existsb (fun kv => let '(principal, _, _, request) := fst kv in (principal =s cl_Principal c) && (request =s id))
                (map_to_list (api_receipts d))) not_found
  else if kind =s "job" then
    match evidence_jobs d !! id with
    | Some r => fail_if j_Owner (jr_doc r) <>s cl_Principal c with not_found ;; require c (j_Capability (jr_doc r)) false 0
    | None => Err not_found
    end
  else if (kind =s "event") || (kind =s "audit") then
    let? _ := require c (if kind =s "audit" then "audit.read" else "events.read") false 0 in
    count_if (existsb (fun r => (ev_Collection (row_record r) =s kind) && (ev_ID (row_record r) =s id)) (evidence_records d))
      not_found
  else if kind =s "token" then
    match token_owner d id with
    | None => Err not_found
    | Some owner => fail_if (owner <>s cl_Principal c) && negb (contains (cl_Capabilities c) "access.tokens.manage")
                      with Fail 403 "RESOURCE_DENIED" ;; Ok tt
    end
  else if kind =s "user" then require c "user.read" false 0
  else if kind =s "role" then require c "role.read" false 0
  else if contains ["bridge"; "port"; "interface"; "bond"; "tunnel"; "mirror"] kind then check_object d c ref
  else if kind =s "certificate" then
    let? _ := require c "certificate.read" false 0 in
    count_if (not_nil (tls_certificates (drafts (auth d)) !! id)) not_found
  else Err (Fail 503 "OBJECT_AUTHORITY_UNAVAILABLE").
Fixpoint check_each (d : db) (c : Claims) (refs : list Ref) : result unit :=
  match refs with
  | [] => Ok tt
  | r :: rest => let? _ := check_ref d c r in check_each d c rest
  end.
(** go: internal/repository/auth/policy.go:144-147 checkRefs *)
Definition checkRefs (d : db) (c : Claims) (refs : list Ref) : result unit :=
  fail_if 32 <? len refs with Fail 422 "INVALID_RESOURCE_SCOPE" ;;
  check_each d c refs.

(** ** Checks of an operation *)

(** What a command needs of the contract's operation.
    go: internal/apicontract/contract.go Operation *)
Record Operation := mkOperation {
  op_ID : string; op_Capability : string; op_ResourceKind : string; op_Domain : string;
  op_Sensitive : bool; op_SecretResponse : bool }.
(** Receipts and jobs are checked against their owner and original operation.
    go: internal/repository/evidence/types.go Operation *)
Definition own_evidence (id : string) : bool :=
  contains ["readRequestReceipt"; "listJobs"; "readJob"; "listEvents"; "readEvent"; "listAudit"; "readAudit"; "exportJobs";
            "exportEvents"; "exportAudit"] id.
(** The order of a map is arbitrary: [ids] is one of them.
    go: internal/repository/auth/commands.go refsFor *)
Definition refsFor (op : Operation) (ids : list string) : list Ref := mkRef (op_ResourceKind op) <$> ids.
(** go: internal/repository/auth/commands.go Repository.checkOperation *)
Definition check_operation_of (d : db) (credential : string) (op : Operation) (refs : list Ref) (elevated : bool)
    (t1 t2 t3 : Z) : result Claims :=
  let? c := claims_of d credential t1 t2 in
  let? _ := require c (op_Capability op) elevated (unix t3) in
  let? _ := if own_evidence (op_ID op) then Ok tt else checkRefs d c refs in
  Ok c.
Definition checkOperation (credential : string) (op : Operation) (refs : list Ref) (elevated : bool) : tx Claims :=
  do t1 <- now in
  do t2 <- now in
  do t3 <- now in
  do d <- get in
  lift (check_operation_of d credential op refs elevated t1 t2 t3).

End AuthStore.
