(* ===== verification/AuthCommands.v ===== *)
(** * internal/repository/auth: users, roles and tokens (commands.go)

    [mutate] carries out one security command inside the transaction of its
    receipt; [execute_mutation] is the whole callback, which authorizes again
    before and demands a local administrator after it. The role provisioning
    functions are root's own. *)

From S2P Require Import Prelude GoStrings Sha256 GoTime GoJson ApiTypes CandidateTypes Intents Planning ExecTypes AuthTables Store Evidence Requests AuthTypes AuthStore.
Import Planning AuthTypes AuthTables AuthStore.

Module AuthCommands.

(** ** The parts of a command *)

(** The fields of the decoded body that some command reads.
    go: internal/repository/auth/commands.go:272-276 Repository.mutate *)
Record Payload := mkPayload {
  pl_username : string; pl_role_ids : list string; pl_disabled : bool; pl_name : string;
  pl_capabilities : list string; pl_scopes : list string; pl_expires_at : string }.

Definition quoted (s : string) : string := (String "034" s ++ String "034" "")%string.
(** The revision that [If-Match] must name.
    go: internal/repository/auth/commands.go revision *)
Definition revision (current : option string) (expected : string) : result unit :=
  match current with
  | None => Err not_found
  | Some rev => fail_if expected <>s quoted rev with Fail 412 "PRECONDITION_FAILED" ;; Ok tt
  end.

Definition role_caps (p : policy_tables) (role : string) : option (list string) :=
  if auth_roles p !! role then roles p !! role else None.
Fixpoint assignable (p : policy_tables) (c : Claims) (ids : list string) : result unit :=
  match ids with
  | [] => Ok tt
  | role :: rest =>
    match role_caps p role with
    | None => Err (Fail 422 "ROLE_NOT_FOUND")
    | Some caps =>
      fail_if negb (is_ok (validateCapabilities caps)) with Fail 503 "AUTH_POLICY_INVALID" ;;
      fail_if negb (subset caps (cl_Capabilities c)) with Fail 403 "CAPABILITY_CEILING_EXCEEDED" ;;
      assignable p c rest
    end
  end.
(** Nobody hands out a role that exceeds its own capabilities.
    go: internal/repository/auth/commands.go roleAssignment *)
Definition roleAssignment (p : policy_tables) (c : Claims) (ids : list string) : result unit :=
  fail_if (64 <? len ids) || negb (len (unique ids) =? len ids) with Fail 422 "INVALID_ROLE_ASSIGNMENT" ;;
  assignable p c ids.
Definition assigned_to (id : string) (ids : list string) : gset (string * string) := list_to_set (pair id <$> ids).
(** go: internal/repository/auth/commands.go replaceRoles *)
Definition replaceRoles (id : string) (ids : list string) (p : policy_tables) : policy_tables :=
  with_assignments p (filter (fun pr => fst pr <> id) (principal_roles p) ∪ assigned_to id ids).

Definition revoke_at (at_ : Z) (r : credential_row) : credential_row :=
  mkCredential (cr_principal r) (cr_epoch r) (cr_ceiling r) (cr_expires r)
    (match cr_revoked r with Some t => Some t | None => Some at_ end).
Definition revoke_of (id : string) (at_ : Z) (r : credential_row) : credential_row :=
  if cr_principal r =s id then revoke_at at_ r else r.
(** Every credential of the principal is revoked.
    go: internal/repository/auth/commands.go Repository.invalidatePrincipal *)
Definition invalidatePrincipal (id : string) : tx unit :=
  do t1 <- now in
  do _ <- on_creds (fun c => with_grants c (revoke_of id (unix t1) <$> grants c) (auth_grants c)) in
  do t2 <- now in
  on_creds (fun c => with_tokens c (revoke_of id (unix t2) <$> api_tokens c) (auth_tokens c)).

(** The enabled principals with a local password, in some order. *)
Definition local_principals (p : policy_tables) : list string :=
  omap (fun kv => if negb (pr_disabled (snd kv)) && has_prefix (pr_verifier (snd kv)) passwordPrefix
                     && not_nil (auth_principals p !! fst kv)
                  then Some (fst kv) else None) (map_to_list (principals p)).
Fixpoint find_administrator (p : policy_tables) (ids : list string) : result unit :=
  match ids with
  | [] => Err (Fail 409 "LAST_LOCAL_ADMINISTRATOR")
  | id :: rest =>
    let? caps := capabilities p id in
    if subset allCapabilities caps then Ok tt else find_administrator p rest
  end.
(** Somebody who may do everything can still log in.
    go: internal/repository/auth/commands.go Repository.lastAdministrator *)
Definition lastAdministrator (p : policy_tables) : result unit := find_administrator p (local_principals p).

(** ** Rows *)

Definition named (p : policy_tables) (name : string) : bool :=
  existsb (fun kv => pr_name (snd kv) =s name) (map_to_list (principals p)).
(** Another role has this name. *)
Definition role_named (p : policy_tables) (name id : string) : bool :=
  existsb (fun kv => (fst (snd kv) =s name) && (fst kv <>s id)) (map_to_list (auth_roles p)).

Definition insert_principal (id name verifier : string) : tx unit :=
  do d <- get in
  let p := policy (auth d) in
  do _ <- guard (not_nil (principals p !! id) || named p name || (4096 <? slen verifier)) constraint_failed in
  on_policy (fun p => with_principals p (<[id := mkPrincipal name false verifier]> (principals p))).
Definition insert_auth_principal (id revision : string) (created : Z) : tx unit :=
  do d <- get in
  do _ <- guard (not_nil (auth_principals (policy (auth d)) !! id)) constraint_failed in
  on_policy (fun p => with_auth_principals p (<[id := (revision, created)]> (auth_principals p))).
Definition insert_role (id : string) (caps : list string) : tx unit :=
  do d <- get in
  do _ <- guard (not_nil (roles (policy (auth d)) !! id)) constraint_failed in
  on_policy (fun p => with_roles p (<[id := caps]> (roles p))).
Definition insert_auth_role (id name revision : string) : tx unit :=
  do d <- get in
  do _ <- guard (not_nil (auth_roles (policy (auth d)) !! id) || role_named (policy (auth d)) name id) constraint_failed in
  on_policy (fun p => with_auth_roles p (<[id := (name, revision)]> (auth_roles p))).
Definition insert_token (hash : string) (row : credential_row) (a : auth_token) : tx unit :=
  do d <- get in
  let t := creds (auth d) in
  do _ <- guard (not_nil (api_tokens t !! hash) || not_nil (auth_tokens t !! hash)
                 || existsb (fun kv => at_id (snd kv) =s at_id a) (map_to_list (auth_tokens t))
                 || is_nil (principals (policy (auth d)) !! cr_principal row)) constraint_failed in
  on_creds (fun t => with_tokens t (<[hash := row]> (api_tokens t)) (<[hash := a]> (auth_tokens t))).
Definition insert_grant (hash : string) (row : credential_row) (a : auth_grant) : tx unit :=
  do d <- get in
  let t := creds (auth d) in
  do _ <- guard (not_nil (grants t !! hash) || not_nil (auth_grants t !! hash)
                 || existsb (fun kv => ag_id (snd kv) =s ag_id a) (map_to_list (auth_grants t))
                 || is_nil (principals (policy (auth d)) !! cr_principal row)) constraint_failed in
  on_creds (fun t => with_grants t (<[hash := row]> (grants t)) (<[hash := a]> (auth_grants t))).
Definition update_principal (id : string) (f : principal_row -> principal_row) : tx unit :=
  on_policy (fun p => with_principals p (alter f id (principals p))).
Definition set_disabled (b : bool) (r : principal_row) : principal_row := mkPrincipal (pr_name r) b (pr_verifier r).
Definition set_verifier (v : string) (r : principal_row) : principal_row := mkPrincipal (pr_name r) (pr_disabled r) v.

Definition job_of (id : string) (resource : option Ref) (state business confirmation reason handler : string) (created : Z) : Job :=
  mkJob [] id "" state "" "" "" resource "" "" "" "" "" "" "" false false "" business "" "" confirmation reason handler
    created zero_time None.

(** ** One security command *)

Definition ref_ (kind id : string) : option Ref := Some (mkRef kind id).
Definition done (kind id : string) : Requests.Mutation := Requests.mkMutation 202 "{}" (ref_ kind id) None true false.
(** The 32 random bytes are an answer of the environment.
    go: internal/authn/secrets.go Secret *)
Definition Secret (prefix : string) : tx string := ask (fun w n => (prefix ++ encode_url (random_at w n))%string).

(** go: internal/repository/auth/commands.go:271-300 Repository.mutate *)
Definition create_user (c : Claims) (v : Payload) (verifier : string) (now_ : Z) : tx Requests.Mutation :=
  let name := pl_username v in
  do _ <- guard (negb (valid_username name)) (Fail 422 "INVALID_USERNAME") in
  do d <- get in
  let p := policy (auth d) in
  do _ <- lift (roleAssignment p c (pl_role_ids v)) in
  do _ <- guard (named p name) (Fail 409 "USERNAME_EXISTS") in
  do _ <- guard (MaxPrincipals <=? Z.of_nat (size (principals p))) (Fail 429 "PRINCIPAL_CAPACITY_REACHED") in
  do id <- NewID in
  do _ <- insert_principal id name verifier in
  do rev <- NewID in
  do _ <- insert_auth_principal id rev now_ in
  do _ <- on_policy (replaceRoles id (pl_role_ids v)) in
  ret (done "user" id).
(** go: internal/repository/auth/commands.go:308-323 Repository.mutate *)
Definition change_user (c : Claims) (v : Payload) (id : string) : tx unit :=
  do d <- get in
  do _ <- lift (roleAssignment (policy (auth d)) c (pl_role_ids v)) in
  do _ <- on_policy (replaceRoles id (pl_role_ids v)) in
  do _ <- update_principal id (set_disabled (pl_disabled v)) in
  if pl_disabled v then invalidatePrincipal id else ret tt.
(** go: internal/repository/auth/commands.go:324-330 Repository.mutate *)
Definition change_password (verifier id : string) : tx unit :=
  do _ <- update_principal id (set_verifier verifier) in
  invalidatePrincipal id.
(** The row stays: receipts and audit refer to it.
    go: internal/repository/auth/commands.go:331-342 Repository.mutate *)
Definition delete_user (id : string) : tx unit :=
  do _ <- update_principal id (fun r => set_verifier "" (set_disabled true r)) in
  do _ <- on_policy (replaceRoles id []) in
  invalidatePrincipal id.
(** go: internal/repository/auth/commands.go:301-345 Repository.mutate *)
Definition existing_user (c : Claims) (op : string) (id expected : string) (v : Payload) (verifier : string)
    : tx Requests.Mutation :=
  do d <- get in
  do _ <- lift (revision (fst <$> auth_principals (policy (auth d)) !! id) expected) in
  do _ <- (if op =s "changeUser" then change_user c v id
           else if op =s "changePassword" then change_password verifier id
           else delete_user id) in
  do rev <- NewID in
  do _ <- on_policy (fun p => with_auth_principals p (alter (fun r => (rev, snd r)) id (auth_principals p))) in
  ret (done "user" id).
(** go: internal/repository/auth/commands.go:346-386 Repository.mutate *)
Definition write_role (c : Claims) (create : bool) (path expected : string) (v : Payload) : tx Requests.Mutation :=
  let name := pl_name v in
  let caps := pl_capabilities v in
  do _ <- lift (validateCapabilities caps) in
  do _ <- guard (negb (subset caps (cl_Capabilities c))) (Fail 403 "CAPABILITY_CEILING_EXCEEDED") in
  do d <- get in
  let p := policy (auth d) in
  do _ <- guard (role_named p name path) (Fail 409 "ROLE_NAME_EXISTS") in
  if create then
    do _ <- guard (MaxRoles <=? Z.of_nat (size (auth_roles p))) (Fail 429 "ROLE_CAPACITY_REACHED") in
    do id <- NewID in
    do _ <- insert_role id (unique caps) in
    do rev <- NewID in
    do _ <- insert_auth_role id name rev in
    ret (done "role" id)
  else
    do _ <- lift (revision (snd <$> auth_roles p !! path) expected) in
    do _ <- on_policy (fun p => with_roles p (alter (fun _ => unique caps) path (roles p))) in
    do rev <- NewID in
    do _ <- on_policy (fun p => with_auth_roles p (alter (fun _ => (name, rev)) path (auth_roles p))) in
    ret (done "role" path).

Definition token_json (id name secret : string) (scopes : list string) (expiry : Z) : json :=
  JObj [("expires_at", time_json expiry); ("id", JStr id); ("name", JStr name); ("revoked", JBool false);
        ("scopes", jlist JStr scopes); ("secret", JStr secret); ("secret_available", JBool true)].
Definition Year : Z := 365 * 24 * 3600 * Second.

(** Whether the requested expiry lies within the next year. *)
Definition expiry_ok (expiry t1 t2 : Z) : bool := (t1 <? expiry) && (expiry <=? t2 + Year).
(** go: internal/repository/auth/commands.go:387-420 Repository.mutate *)
Definition create_token (c : Claims) (v : Payload) (now_ : Z) : tx Requests.Mutation :=
  let scopes := pl_scopes v in
  do _ <- lift (validateCapabilities scopes) in
  do _ <- guard (negb (subset scopes (cl_Capabilities c))) (Fail 403 "CAPABILITY_CEILING_EXCEEDED") in
  do t1 <- now in
  do t2 <- now in
  match parse_rfc3339 (pl_expires_at v) with
  | None => fail (Fail 422 "INVALID_TOKEN_EXPIRY")
  | Some expiry =>
    do _ <- guard (negb (expiry_ok expiry t1 t2)) (Fail 422 "INVALID_TOKEN_EXPIRY") in
    do d <- get in
    let t := creds (auth d) in
    do _ <- guard (MaxTokens <=? Z.of_nat (size (api_tokens t))) (Fail 429 "TOKEN_CAPACITY_REACHED") in
    do id <- NewID in
    do secret <- Secret "ovst_" in
    do _ <- insert_token (Hash secret) (mkCredential (cl_Principal c) (cl_Epoch c) (unique scopes) (unix expiry) None)
         (mkAuthToken id (pl_name v) now_ 0) in
    ret (Requests.mkMutation 201 (marshal (token_json id (pl_name v) secret (unique scopes) expiry)) (ref_ "token" id) None
           true true)
  end.
Definition token_hash (t : credential_tables) (id : string) : option string :=
  fst <$> find (fun kv => at_id (snd kv) =s id) (map_to_list (auth_tokens t)).
(** go: internal/repository/auth/commands.go:421-433 Repository.mutate *)
Definition revoke_token (c : Claims) (id : string) (now_ : Z) : tx Requests.Mutation :=
  do d <- get in
  match token_owner d id with
  | None => fail ENoRows
  | Some owner =>
    do _ <- guard ((owner <>s cl_Principal c) && negb (contains (cl_Capabilities c) "access.tokens.manage"))
         (Fail 403 "RESOURCE_DENIED") in
    do _ <- on_creds (fun t => match token_hash t id with
                               | Some hash => with_tokens t (alter (revoke_at now_) hash (api_tokens t)) (auth_tokens t)
                               | None => t
                               end) in
    ret (done "token" id)
  end.
(** [path] is the identifier in the path of the request, if it has one.
    go: internal/repository/auth/commands.go:270-436 Repository.mutate *)
Definition dispatch_command (c : Claims) (op path expected : string) (v : Payload) (verifier : string) (now_ : Z)
    : tx Requests.Mutation :=
  if op =s "createUser" then create_user c v verifier now_
  else if contains ["changeUser"; "changePassword"; "deleteUser"] op then existing_user c op path expected v verifier
  else if op =s "createRole" then write_role c true path expected v
  else if op =s "changeRole" then write_role c false path expected v
  else if op =s "createToken" then create_token c v now_
  else if op =s "revokeToken" then revoke_token c path now_
  else fail (Fail 503 "DOMAIN_SERVICE_UNAVAILABLE").
Definition set_job (m : Requests.Mutation) (job : option Ref) : Requests.Mutation :=
  Requests.mkMutation (Requests.mu_Status m) (Requests.mu_Body m) (Requests.mu_Resource m) job (Requests.mu_Terminal m)
    (Requests.mu_SecretResponse m).
Definition new_revision : tx unit := do rev <- NewID in on_authz (fun a => with_revision a rev).
(** go: internal/repository/auth/commands.go Repository.mutate *)
Definition mutate (c : Claims) (op path expected : string) (v : Payload) (verifier requestID : string) (req : EvRequest)
    : tx Requests.Mutation :=
  do at_ <- now in
  do m <- dispatch_command c op path expected v verifier (unix at_) in
  do m <- (if Requests.mu_Status m =? 202 then
             do id <- NewID in
             do at_ <- now in
             do _ <- Evidence.CreateJob req
                  (job_of id (Requests.mu_Resource m) "succeeded" "success" "" "security-operation-completed" "" at_) in
             ret (set_job m (ref_ "job" id))
           else ret m) in
  do _ <- new_revision in
  do _ <- audit req c op (match Requests.mu_Resource m with Some r => ref_ID r | None => EmptyString end) "success" requestID
       (Requests.mu_Resource m) (Requests.mu_Job m) in
  ret m.
(** The credential is checked again inside the transaction, an administrator
    must remain after it.
    go: internal/repository/auth/commands.go:150-168 Repository.ExecuteAuth *)
Definition execute_mutation (credential : string) (op : Operation) (path expected : string) (v : Payload)
    (verifier requestID : string) (req : EvRequest) : tx Requests.Mutation :=
  do c <- checkOperation credential op (refsFor op (if path =s "" then [] else [path])) true in
  do m <- mutate c (op_ID op) path expected v verifier requestID req in
  do d <- get in
  do _ <- lift (lastAdministrator (policy (auth d))) in
  do _ <- touch credential c in
  ret m.

End AuthCommands.
