(* ===== verification/AuthSessions.v ===== *)
(** * internal/repository/auth: passwords and sessions (auth.go, password.go, safety.go)

    Password verifiers, the bootstrap, the bounded attempts, logging in,
    elevation and logging out; the authority of an apply that is reloaded
    without its bearer; root's provisioning of the execution roles. *)

From S2P Require Import Prelude GoStrings Sha256 GoTime GoJson ApiTypes CandidateTypes Intents Planning ExecTypes AuthTables Store Evidence Program AuthTypes AuthStore AuthCommands.
Import Planning AuthTypes AuthTables AuthStore AuthCommands.

Module AuthSessions.

(** ** encoding/base64, without padding *)

Definition std_char (i : Z) : ascii :=
  char_of (if i <? 26 then 65 + i else if i <? 52 then 71 + i else if i <? 62 then i - 4 else if i =? 62 then 43 else 47).
Definition std_index (b : Z) : option Z :=
  if (65 <=? b) && (b <=? 90) then Some (b - 65)
  else if (97 <=? b) && (b <=? 122) then Some (b - 71)
  else if is_digit b then Some (b + 4)
  else if b =? 43 then Some 62 else if b =? 47 then Some 63 else None.
(** One sextet left over is an error, the spare bits are not looked at. *)
Fixpoint octets (l : list Z) : option (list Z) :=
  match l with
  | a :: b :: c :: d :: r =>
    option_map (fun t => a * 4 + b / 16 :: b mod 16 * 16 + c / 4 :: c mod 4 * 64 + d :: t) (octets r)
  | [a; b; c] => Some [a * 4 + b / 16; b mod 16 * 16 + c / 4]
  | [a; b] => Some [a * 4 + b / 16]
  | [_] => None
  | [] => Some []
  end.
Definition encode_std (l : list Z) : string := string_of_list_ascii (std_char <$> sextets l).
(** Line ends are skipped. *)
Definition decode_std (s : string) : option (list Z) :=
  mapM std_index (List.filter (fun b => negb (b =? 10) && negb (b =? 13)) (bytes s)) ≫= octets.

(** ** password.go *)

Section passwords.
(** [argon2.IDKey] with the parameters of [passwordPrefix]. *)
Context (derive : string -> list Z -> list Z).

(** go: internal/repository/auth/password.go hashPassword *)
Definition hashPassword (password : string) (salt : list Z) : result string :=
  fail_if negb (validPassword password) with Fail 422 "PASSWORD_POLICY_REJECTED" ;;
  Ok (passwordPrefix ++ encode_std salt ++ "$" ++ encode_std (derive password salt))%string.
(** The salt and the hash of a verifier with the known parameters. *)
Definition parse_verifier (verifier : string) : option (list Z * list Z) :=
  match strip_prefix passwordPrefix verifier with
  | None => None
  | Some rest =>
    match split_on "$"%char rest with
    | [salt; hash] =>
      match decode_std salt, decode_std hash with
      | Some s, Some h => if (len s =? 16) && (len h =? 32) then Some (s, h) else None
      | _, _ => None
      end
    | _ => None
    end
  end.
(** An unknown principal costs the same work.
    go: internal/repository/auth/password.go verifyPassword *)
Definition verifyPassword (password verifier : string) : bool :=
  let '(salt, expected, valid) :=
    match parse_verifier verifier with
    | Some (s, h) => (s, h, true)
    | None => (replicate 16 0, replicate 32 0, false)
    end in
  bool_decide (derive password salt = expected) && valid.

(** ** auth.go: bootstrap and attempts *)

Fixpoint insert_templates (templates : list (string * list string)) (admin : string) : tx string :=
  match templates with
  | [] => ret admin
  | (name, caps) :: rest =>
    do id <- NewID in
    do _ <- insert_role id caps in
    do rev <- NewID in
    do _ <- insert_auth_role id name rev in
    insert_templates rest (if name =s "Administrator" then id else admin)
  end.
Definition principal_claims (id : string) : Claims := no_claims id.
(** [order] is an order of [Templates], a map.
    go: internal/repository/auth/auth.go:89-122 Repository.Bootstrap *)
Definition bootstrap_tx (order : list (string * list string)) (username hash : string) : tx unit :=
  do d <- get in
  do _ <- guard (negb (Z.of_nat (size (principals (policy (auth d)))) =? 0)) (Fail 409 "ALREADY_BOOTSTRAPPED") in
  do admin <- insert_templates order "" in
  do id <- NewID in
  do _ <- insert_principal id username hash in
  do rev <- NewID in
  do at_ <- now in
  do _ <- insert_auth_principal id rev (unix at_) in
  do _ <- on_policy (fun p => with_assignments p ({[ (id, admin) ]} ∪ principal_roles p)) in
  audit no_request (principal_claims id) "bootstrap" id "success" "" None None.
(** go: internal/repository/auth/auth.go Repository.Bootstrap *)
Definition Bootstrap (order : list (string * list string)) (username password : string) : prog (result unit) :=
  reject_if negb (valid_username username) with Fail 422 "INVALID_USERNAME" ;;
  run salt <- query_ QSalt in
  match hashPassword password salt with
  | Err e => Ret (Err e)
  | Ok hash =>
    must query_ QCanceled ;;
    write (bootstrap_tx order username hash)
  end.

Definition attempts_total (m : gmap string (Z * Z)) : Z := map_fold (fun _ r n => snd r + n) 0 m.
Definition attempt_limit : Z := 10.
Definition attempts_limit : Z := 60.
(** At most ten for a name and sixty in all within a minute.
    go: internal/repository/auth/auth.go Repository.attempt *)
Definition attempt (username : string) : tx unit :=
  do _ <- clock in
  do at_ <- now in
  let now_ := unix at_ in
  let hash := Hash (to_lower username) in
  do _ <- on_authz (fun a => with_attempts a (filter (fun kv => now_ - 60 <= fst (snd kv)) (auth_attempts a))) in
  do d <- get in
  let m := auth_attempts (authz (auth d)) in
  do _ <- guard (attempts_limit <=? attempts_total m) (Fail 429 "AUTH_RATE_LIMITED") in
  do _ <- guard (match m !! hash with Some r => attempt_limit <=? snd r | None => false end) (Fail 429 "AUTH_RATE_LIMITED") in
  do _ <- on_authz (fun a => with_attempts a
       (<[hash := match m !! hash with Some r => (fst r, snd r + 1) | None => (now_, 1) end]> (auth_attempts a))) in
  watermark.

(** ** auth.go: sessions *)

(** go: internal/authn/types.go Login *)
Record Login := mkLogin { lg_Provider : string; lg_Username : string; lg_Password : string }.
(** go: internal/authn/types.go LoginResult *)
Record LoginResult := mkLoginResult { lr_Grant : string; lr_Claims : Claims }.

Definition live_grants (t : credential_tables) (now_ : Z) : Z :=
  count (fun _ g => is_nil (cr_revoked g) && (now_ <? cr_expires g)) (grants t).
(** A grant of all that the principal may do now.
    go: internal/repository/auth/auth.go:336-370 Repository.Authenticate *)
Definition issue_grant (id : string) : tx LoginResult :=
  do (epoch, _) <- clock in
  do t <- now in
  do d <- get in
  do _ <- guard (MaxGrants <=? live_grants (creds (auth d)) (unix t)) (Fail 429 "AUTH_GRANT_CAPACITY_REACHED") in
  do caps <- lift (capabilities (policy (auth d)) id) in
  do grant <- Secret "ovsg_" in
  do issued <- now in
  do at_ <- now in
  let expiry := unix (at_ + SessionAbsolute) in
  do cred <- NewID in
  do _ <- insert_grant (Hash grant) (mkCredential id epoch caps expiry None) (mkAuthGrant cred (unix issued) (unix issued) 0) in
  do c <- claims grant in
  do _ <- audit no_request c "authenticate" id "success" "" None None in
  do _ <- watermark in
  ret (mkLoginResult grant c).
Definition reject_login : tx (option LoginResult) :=
  do _ <- audit no_request (no_claims "") "authenticate" "" "rejected" "" None None in ret None.
(** [None]: rejected, with evidence of it. The password that was checked must
    still be the current one.
    go: internal/repository/auth/auth.go:322-371 Repository.Authenticate *)
Definition login_tx (denied : bool) (id verifier : string) : tx (option LoginResult) :=
  if denied then reject_login
  else
    do d <- get in
    match principals (policy (auth d)) !! id with
    | None => fail ENoRows
    | Some p =>
      if pr_disabled p || (pr_verifier p <>s verifier) then reject_login
      else do r <- issue_grant id in ret (Some r)
    end.
(** The principal of a name, with its id. *)
Definition find_principal (p : policy_tables) (name : string) : result (string * principal_row) :=
  match find (fun kv => (pr_name (snd kv) =s name) && not_nil (auth_principals p !! fst kv)) (map_to_list (principals p)) with
  | Some kv => Ok kv
  | None => Err ENoRows
  end.
Definition password_range (s : string) : bool := (1 <=? slen s) && (slen s <=? 1024).
Definition rejected : error := Fail 401 "AUTHENTICATION_REJECTED".
(** go: internal/repository/auth/auth.go Repository.Authenticate *)
Definition Authenticate (l : Login) : prog (result LoginResult) :=
  reject_if lg_Provider l <>s "local" with Fail 503 "AUTH_PROVIDER_UNAVAILABLE" ;;
  reject_if negb (valid_username (lg_Username l)) || negb (password_range (lg_Password l)) with rejected ;;
  must query_ QSlot ;;
  try _ <- write (attempt (lg_Username l)) in
  run found <- read (fun d => find_principal (policy (auth d)) (lg_Username l)) in
  match (match found with
         | Ok (id, p) => Ok (id, pr_verifier p, pr_disabled p)
         | Err ENotFound => Ok (EmptyString, EmptyString, false)
         | Err e => Err e
         end) with
  | Err e => Ret (Err e)
  | Ok (id, verifier, disabled) =>
    let valid := verifyPassword (lg_Password l) verifier in
    must query_ QCanceled ;;
    try out <- write (login_tx (negb valid || disabled || (id =s "")) id verifier) in
    match out with
    | Some r => Ret (Ok r)
    | None => Ret (Err rejected)
    end
  end.

(** A read transaction that needs the clock: it is read before the rows are. *)
Definition read_claims (credential : string) : prog (result Claims) :=
  run t1 <- query_ QNow in
  run t2 <- query_ QNow in
  read (fun d => claims_of d credential t1 t2).
(** go: internal/repository/auth/auth.go Repository.InspectAuth *)
Definition InspectAuth (credential : string) : prog (result Claims) :=
  run writable <- query_ QWritable in
  reject_if negb writable with Fail 503 "AUTH_UNAVAILABLE" ;;
  read_claims credential.
(** go: internal/repository/auth/auth.go Repository.CheckAuth *)
Definition CheckAuth (credential capability : string) (refs : list Ref) : prog (result Claims) :=
  run writable <- query_ QWritable in
  reject_if negb writable with Fail 503 "AUTH_UNAVAILABLE" ;;
  run t1 <- query_ QNow in
  run t2 <- query_ QNow in
  run t3 <- query_ QNow in
  read (fun d =>
    let? c := claims_of d credential t1 t2 in
    let? _ := require c capability false (unix t3) in
    let? _ := checkRefs d c refs in
    Ok c).

(** go: internal/repository/auth/auth.go:412-440 Repository.Reauthenticate *)
Definition elevate_tx (credential verifier : string) (valid : bool) : tx (option Claims) :=
  do c <- claims credential in
  do d <- get in
  match principals (policy (auth d)) !! cl_Principal c with
  | None => fail ENoRows
  | Some p =>
    if negb (valid && (pr_verifier p =s verifier)) then
      do _ <- audit no_request c "reauthenticate" (cl_Principal c) "rejected" "" None None in ret None
    else
      do at_ <- now in
      let until := Z.min (at_ + Elevation) (cl_Expires c * Second) in
      do _ <- on_creds (fun t => with_grants t (grants t)
        (alter (fun a => mkAuthGrant (ag_id a) (ag_issued a) (ag_last a) (unix until)) (Hash credential) (auth_grants t))) in
      let c := mkClaims (cl_Principal c) (cl_Credential c) (cl_Kind c) (cl_Display c) (cl_Capabilities c) (cl_Revision c)
                 (cl_Epoch c) (cl_RequestEpoch c) (cl_Issued c) (cl_Expires c) (unix until) in
      do _ <- audit no_request c "reauthenticate" (cl_Principal c) "success" "" None None in
      do _ <- touch credential c in
      ret (Some c)
  end.
(** go: internal/repository/auth/auth.go Repository.Reauthenticate *)
Definition Reauthenticate (credential password : string) : prog (result Claims) :=
  try c <- InspectAuth credential in
  reject_if cl_Kind c <>s "grant" with Fail 403 "BROWSER_SESSION_REQUIRED" ;;
  reject_if negb (password_range password) with rejected ;;
  must query_ QSlot ;;
  try _ <- write (attempt (cl_Display c)) in
  try verifier <- read (fun d => match principals (policy (auth d)) !! cl_Principal c with
                                 | Some p => Ok (pr_verifier p)
                                 | None => Err ENoRows
                                 end) in
  let valid := verifyPassword password verifier in
  must query_ QCanceled ;;
  try out <- write (elevate_tx credential verifier valid) in
  match out with
  | Some c => Ret (Ok c)
  | None => Ret (Err rejected)
  end.
End passwords.

(** go: internal/repository/auth/auth.go:454-470 Repository.RevokeAuth *)
Definition revoke_tx (credential : string) : tx unit :=
  do c <- claims credential in
  do _ <- guard (cl_Kind c <>s "grant") (Fail 403 "BROWSER_SESSION_REQUIRED") in
  do at_ <- now in
  do _ <- on_creds (fun t => with_grants t
    (alter (fun g => mkCredential (cr_principal g) (cr_epoch g) (cr_ceiling g) (cr_expires g) (Some (unix at_)))
       (Hash credential) (grants t)) (auth_grants t)) in
  do _ <- audit no_request c "revoke-session" (cl_Credential c) "success" "" None None in
  watermark.
(** go: internal/repository/auth/auth.go Repository.RevokeAuth *)
Definition RevokeAuth (credential : string) : prog (result unit) :=
  must query_ QCanceled ;;
  write (revoke_tx credential).
(** go: internal/repository/auth/auth.go Repository.Ready *)
Definition Ready : prog bool :=
  run writable <- query_ QWritable in
  if negb writable then Ret false
  else
    run r <- read (fun d => Ok (0 <? count (fun id p => negb (pr_disabled p) && not_nil (auth_principals (policy (auth d)) !! id))
                                        (principals (policy (auth d))))) in
    Ret (match r with Ok b => b | Err _ => false end).

(** ** safety.go: the authority of an apply *)

Definition apply_revoked : error := Fail 403 "APPLY_AUTHORITY_REVOKED".
(** Reloaded by the identifier of the credential: the bearer is not kept. *)
Definition find_by_id (d : db) (id owner : string) : option credential :=
  let t := creds (auth d) in
  let pick {A} (rows : gmap string A) (creds_ : gmap string credential_row) (name : A -> string)
           (k : A -> credential_row -> principal_row -> credential) : option credential :=
    match find (fun kv => name (snd kv) =s id) (map_to_list rows) with
    | Some (hash, a) =>
      match creds_ !! hash with
      | Some r => if cr_principal r =s owner then k a r <$> principals (policy (auth d)) !! owner else None
      | None => None
      end
    | None => None
    end in
  match pick (auth_grants t) (grants t) ag_id (fun a r => mkCred "grant" r (ag_id a) (ag_issued a) (ag_last a) (ag_elevated a)) with
  | Some k => Some k
  | None => pick (auth_tokens t) (api_tokens t) at_id (fun a r => mkCred "token" r (at_id a) (at_created a) (at_last a) 0)
  end.
(** go: internal/repository/auth/safety.go:53-56 Repository.safeAuthority *)
Definition apply_ended (k : credential) (epoch : string) (now_ : Z) : bool :=
  (cr_epoch (k_row k) <>s epoch) || pr_disabled (k_principal k) || not_nil (cr_revoked (k_row k))
  || (now_ <? k_issued k) || (cr_expires (k_row k) <=? now_)
  || ((k_kind k =s "grant") && (k_last k + SessionIdleSeconds <=? now_)).
(** The capabilities of fields that an execution may have been admitted for. *)
Definition field_capabilities : list string :=
  ["ovs.mirror.write"; "ovs.tunnel.static.write"; "ovs.port.isolation.write"; "ovs.bridge.multicast.write";
   SpanningTreeExecutionCapability; "ovs.topology.write"; "ovs.port.vlan.write"; "ovs.port.bond.write"; "ovs.bridge.create";
   "ovs.bridge.delete"; "ovs.port.internal.create"; "ovs.port.internal.delete"; "ovs.interface.mtu.write";
   "ovs.interface.policing.write"].
Definition apply_requires : list string :=
  ["configuration.apply"; "configuration.confirm"; "configuration.read"; "inventory.read"].
Definition apply_fields (a : Authorization) : list string :=
  split_on "," (if a_FieldCapabilities a =s "" then "ovs.port.vlan.write" else a_FieldCapabilities a).
(** go: internal/repository/auth/safety.go Repository.safeAuthority *)
Definition safeAuthority (d : db) (a : Authorization) (t1 t2 : Z) : result unit :=
  let? (epoch, _) := clock_of d t1 in
  match find_by_id d (a_Credential a) (a_Owner a) with
  | None => Err apply_revoked
  | Some k =>
    fail_if apply_ended k epoch (unix t2) with apply_revoked ;;
    fail_if api_epoch d <>s a_Epoch a with apply_revoked ;;
    let? current := capabilities (policy (auth d)) (a_Owner a) in
    fail_if negb (forallb (contains field_capabilities) (apply_fields a)) with apply_revoked ;;
    fail_if negb (forallb (fun c => contains (cr_ceiling (k_row k)) c && contains current c) (apply_requires ++ apply_fields a))
      with apply_revoked ;;
    Ok tt
  end.
Fixpoint require_all (c : Claims) (caps : list string) (now_ : Z) : result unit :=
  match caps with
  | [] => Ok tt
  | cap :: r => let? _ := require c cap false now_ in require_all c r now_
  end.
(** go: internal/repository/auth/spanning_tree_execution.go Repository.SpanningTreeExecutionAuthorizer *)
Definition SpanningTreeExecutionAuthorizer (d : db) (credential : string) (t1 t2 t3 : Z) (cancelled : bool) : result unit :=
  let? c := claims_of d credential t1 t2 in
  let? _ := require_all c ["inventory.read"; "configuration.read"; "workspace.write"; "configuration.apply";
                           SpanningTreeExecutionCapability] (unix t3) in
  fail_if cancelled with Fail 503 "SPANNING_TREE_PREFLIGHT_CANCELLED" ;;
  Ok tt.

(** ** Root's provisioning of execution roles *)

Definition without (capability : string) (caps : list string) : list string :=
  List.filter (fun c => c <>s capability) caps.
Definition role_evidence (operation result_ id : string) (at_ : Z) : EvRecord :=
  Evidence.record [] "audit" "Manager" "" operation result_ "offline-root-policy" (Some (mkRef "role" id)) "" "" "" "" "" "" ""
    false at_.
Definition set_execution_role (capability operation id : string) (enabled : bool) : tx unit :=
  do d <- get in
  match role_caps (policy (auth d)) id with
  | None => fail (Fail 404 "ROLE_NOT_FOUND")
  | Some caps =>
    do _ <- guard (negb (is_ok (validateCapabilities caps))) EUnavailable in
    if Bool.eqb (contains caps capability) enabled then ret tt
    else
      let caps := without capability caps ++ (if enabled then [capability] else []) in
      do _ <- on_policy (fun p => with_roles p (alter (fun _ => unique caps) id (roles p))) in
      do rev <- NewID in
      do _ <- on_policy (fun p => with_auth_roles p (alter (fun r => (fst r, rev)) id (auth_roles p))) in
      do at_ <- now in
      do _ <- Evidence.Append no_request
           (role_evidence operation (if enabled then "granted" else "revoked") id at_) in
      ret tt
  end.
Definition provision (capability operation id : string) (enabled : bool) : prog (result unit) :=
  reject_if negb (ManagementID id) with Fail 422 "INVALID_ROLE" ;;
  write (set_execution_role capability operation id enabled).
(** go: internal/repository/auth/isolation_role.go Repository.SetIsolationExecutionRole *)
Definition SetIsolationExecutionRole : string -> bool -> prog (result unit) :=
  provision "ovs.port.isolation.write" "port-isolation-execution-role".
(** go: internal/repository/auth/mirror_role.go Repository.SetMirrorExecutionRole *)
Definition SetMirrorExecutionRole : string -> bool -> prog (result unit) :=
  provision "ovs.mirror.write" "mirror-execution-role".
(** go: internal/repository/auth/multicast_role.go Repository.SetMulticastExecutionRole *)
Definition SetMulticastExecutionRole : string -> bool -> prog (result unit) :=
  provision "ovs.bridge.multicast.write" "multicast-execution-role".
(** go: internal/repository/auth/tunnel_role.go Repository.SetStaticTunnelExecutionRole *)
Definition SetStaticTunnelExecutionRole : string -> bool -> prog (result unit) :=
  provision "ovs.tunnel.static.write" "static-tunnel-execution-role".
(** go: internal/repository/auth/spanning_tree_role.go Repository.SetSpanningTreeExecutionRole *)
Definition SetSpanningTreeExecutionRole : string -> bool -> prog (result unit) :=
  provision SpanningTreeExecutionCapability "spanning-tree-execution-role".

End AuthSessions.
