(* ===== verification/AuthDrafts.v ===== *)
(** * internal/repository/auth: drafts and what they authorize (candidate.go, execution.go)

    The witness of an owner's candidate, which only moves forward; preparing
    and validating a candidate under the current claims; and the
    authorization that the execution engine asks for. *)

From S2P Require Import Prelude GoStrings Sha256 GoTime GoJson ApiTypes CandidateTypes Intents Snapshots Planning TopologyStaging Planner ExecTypes AuthTables Store Evidence Requests Executions AuthTypes AuthStore AuthCommands AuthSessions.
Import Planning Planner AuthTypes AuthTables AuthStore AuthCommands AuthSessions.

Module AuthDrafts.

(** go: internal/candidate/types.go ValidFor *)
Definition ValidFor : Z := 300 * Second.
(** go: internal/candidate/types.go ValidatorVersion *)
Definition ValidatorVersion : string := "native-mirror-sessions-v1".
Definition denied : error := Fail 403 "CAPABILITY_DENIED".
(** [plan.Digest] of an envelope. *)
Definition envelope_digest (e : Envelope) : string := digest_json (envelope_json e).
Definition capabilities_digest (caps : list string) : string := digest_json (jlist JStr caps).

(** ** Which capabilities a draft needs *)

(** go: internal/repository/auth/candidate.go intentCapabilities *)
Definition intentCapabilities (caps : list string) (c : Candidate) : bool := forallb (contains caps) (Capabilities c).
Definition tree_capabilities : list string :=
  ["ovs.mirror.write"; "ovs.tunnel.static.write"; "ovs.bridge.multicast.write"; "ovs.port.isolation.write";
   "ovs.bridge.spanning-tree.prepare"; "ovs.bridge.spanning-tree.write"].
(** go: internal/repository/auth/candidate.go hasTreeCapability *)
Definition hasTreeCapability (caps : list string) : bool := existsb (contains caps) tree_capabilities.
(** go: internal/repository/auth/candidate.go treeReadDenied *)
Definition treeReadDenied (c : Candidate) (caps : list string) : bool :=
  hasTreeCapability (Capabilities c) && negb (contains caps "configuration.read").
(** Each of the three is required at its own clock reading.
    go: internal/repository/auth/candidate.go Repository.candidateClaims *)
Definition candidate_claims_of (d : db) (credential capability : string) (t1 t2 t3 t4 t5 : Z) : result Claims :=
  let? c := claims_of d credential t1 t2 in
  let? _ := require c capability false (unix t3) in
  let? _ := require c "configuration.read" false (unix t4) in
  let? _ := require c "inventory.read" false (unix t5) in
  Ok c.
Definition candidateClaims (credential capability : string) : tx Claims :=
  do t1 <- now in do t2 <- now in do t3 <- now in do t4 <- now in do t5 <- now in
  do d <- get in
  lift (candidate_claims_of d credential capability t1 t2 t3 t4 t5).

(** ** The witness *)

Definition changed : error := Fail 409 "CANDIDATE_WITNESS_CHANGED".
(** Whether an envelope may follow the witness; [Some] when it is behind it.
    go: internal/repository/auth/candidate.go:178-184 candidateFence *)
Definition fence (w : witness_row) (e : Envelope) : result unit :=
  fail_if (wi_candidate w <>s c_ID (e_Candidate e)) || (wi_epoch w <>s e_Epoch e)
    with Fail 409 "WORKSPACE_RECONCILIATION_REQUIRED" ;;
  fail_if (e_Sequence e <? wi_sequence w)
          || ((wi_sequence w =? e_Sequence e)
              && ((wi_revision w <>s c_Revision (e_Candidate e)) || (wi_hash w <>s envelope_digest e))) with changed ;;
  Ok tt.
Definition witness_of (e : Envelope) : witness_row :=
  mkWitness (c_ID (e_Candidate e)) (e_Epoch e) (e_Sequence e) (c_Revision (e_Candidate e)) (envelope_digest e).
(** Another owner's witness names the candidate. *)
Definition candidate_taken (t : draft_tables) (owner id : string) : bool :=
  existsb (fun kv => (wi_candidate (snd kv) =s id) && (fst kv <>s owner)) (map_to_list (candidate_witnesses t)).
(** The column holds a 64-bit integer that is not negative. *)
Definition sequence_column (n : Z) : bool := (0 <=? n) && (n <? 2 ^ 63).
(** The upsert keeps the candidate and the epoch, which are the same.
    go: internal/repository/auth/candidate.go:191-192 candidateFence *)
Definition record_witness (e : Envelope) : tx unit :=
  do d <- get in
  let t := drafts (auth d) in
  do _ <- guard (candidate_taken t (e_Owner e) (c_ID (e_Candidate e)) || negb (sequence_column (e_Sequence e))
                 || is_nil (principals (policy (auth d)) !! e_Owner e)) constraint_failed in
  on_drafts (fun t => with_witnesses t
    (<[e_Owner e := match candidate_witnesses t !! e_Owner e with
                    | Some w => mkWitness (wi_candidate w) (wi_epoch w) (e_Sequence e) (c_Revision (e_Candidate e))
                                  (envelope_digest e)
                    | None => witness_of e
                    end]> (candidate_witnesses t))).
(** go: internal/repository/auth/candidate.go candidateFence *)
Definition candidateFence (e : Envelope) (advance : bool) : tx unit :=
  do d <- get in
  match candidate_witnesses (drafts (auth d)) !! e_Owner e with
  | Some w =>
    do _ <- lift (fence w e) in
    if (wi_sequence w =? e_Sequence e) || negb advance then ret tt else record_witness e
  | None => if advance then record_witness e else ret tt
  end.

(** ** Preparing *)

(** Drafts whose originals are configuration evidence.
    go: internal/repository/auth/candidate.go:104-106 Repository.PrepareCandidate *)
Definition tree_intent (i : Intent) : bool :=
  let op := in_Operation i in
  IsMirrorOperation op || IsTunnelOperation op || IsSpanningTreeOperation op || (op =s PortIsolationSet)
  || (op =s BridgeMulticastSet).
Definition tree_draft (c : Candidate) (cmd : Command) : bool :=
  hasTreeCapability (Capabilities c) || existsb tree_intent (cmd_Intents cmd).
(** The last class that the draft or the command is of.
    go: internal/repository/auth/candidate.go:111-126 Repository.PrepareCandidate *)
Definition tree_capability (c : Candidate) (cmd : Command) : string :=
  let has cap (p : string -> bool) :=
    contains (Capabilities c) cap || existsb (fun i => p (in_Operation i)) (cmd_Intents cmd) in
  if has "ovs.mirror.write" IsMirrorOperation then "ovs.mirror.write"
  else if has "ovs.tunnel.static.write" IsTunnelOperation then "ovs.tunnel.static.write"
  else if has "ovs.bridge.spanning-tree.write" (String.eqb SpanningTreeConfigure) then "ovs.bridge.spanning-tree.write"
  else if has "ovs.port.isolation.write" (String.eqb PortIsolationSet) then "ovs.port.isolation.write"
  else if has "ovs.bridge.multicast.write" (String.eqb BridgeMulticastSet) then "ovs.bridge.multicast.write"
  else "ovs.bridge.spanning-tree.prepare".
Definition tree_stage_denied (c : Candidate) (cmd : Command) (caps : list string) : bool :=
  (cmd_Operation cmd =s "stage") && tree_draft c cmd
  && (negb (contains caps "configuration.read") || negb (contains caps (tree_capability c cmd))).

(** A quoted tag of at most 128 letters, digits, dashes and underscores.
    go: internal/repository/auth/read.go etagPattern *)
Definition strong_etag (s : string) : bool :=
  match bytes s with
  | 34 :: r =>
    let n := len r - 1 in
    (1 <=? n) && (n <=? 128) && (List.last r 0 =? 34)
    && forallb (fun b => Evidence.alnum b || (b =? 95) || (b =? 45)) (removelast r)
  | _ => false
  end.
(** What the handler checks before it asks the provider for a snapshot.
    [c] are the claims that [CheckAuth] returned.
    go: internal/repository/auth/candidate.go:95-129 Repository.PrepareCandidate *)
Definition prepare_admission (key : list Z) (c : Claims) (e : Envelope) (precondition epoch : string) (cmd : Command) : result unit :=
  let? _ := Verify e key (cl_Principal c) in
  fail_if negb (strong_etag precondition) || (precondition <>s quoted (c_Revision (e_Candidate e))) with Fail 412 "ETAG_MISMATCH" ;;
  fail_if epoch <>s e_Epoch e with Fail 410 "REQUEST_EPOCH_CHANGED" ;;
  fail_if tree_draft (e_Candidate e) cmd && negb (contains (cl_Capabilities c) "configuration.read") with denied ;;
  fail_if tree_stage_denied (e_Candidate e) cmd (cl_Capabilities c) with denied ;;
  Ok tt.

Section drafts.
(** The sealing key, and the identifiers that one [Prepare] draws: the new
    objects' and the next revision. *)
Context (key : list Z) (fresh : nat -> string) (revision_ : string).

(** [None]: the planner panicked and the transaction was rolled back.
    go: internal/repository/auth/candidate.go:144-167 Repository.PrepareCandidate *)
Definition prepare_tx (credential : string) (c : Claims) (e : Envelope) (cmd : Command) (s : Snapshot) : tx (option Envelope) :=
  do current <- candidateClaims credential "config.stage" in
  do _ <- guard (tree_stage_denied (e_Candidate e) cmd (cl_Capabilities current)) denied in
  do _ <- candidateFence e false in
  match Prepare fresh revision_ e cmd s with
  | TopologyStaging.Returned (Err err) => fail err
  | TopologyStaging.Panicked => ret None
  | TopologyStaging.Returned (Ok out) =>
    do _ <- guard ((cmd_Operation cmd =s "stage") && hasTreeCapability (Capabilities (e_Candidate out))
                   && negb (intentCapabilities (cl_Capabilities current) (e_Candidate out))) denied in
    let out := Sign out key in
    do _ <- lift (Budget (envelope_json out)) in
    do _ <- touch credential c in
    ret (Some out)
  end.

(** ** Validating *)

(** go: internal/repository/auth/candidate.go candidateProblem *)
Definition candidateProblem (e : error) : Gate :=
  let code := match e with EFail _ code => code | _ => "PROVIDER_UNAVAILABLE" end in
  mkGate code "blocked" code "".
Definition blocked (code : string) : Gate := mkGate code "blocked" code "".
Definition with_validity (v : Validation) (usable : bool) (gates : list Gate) (ready : bool) : Validation :=
  mkValidation (v_ID v) (v_CandidateID v) (v_CandidateRevision v) (v_Generation v) (v_ConfigRevision v)
    (v_PolicyRevision v) (v_Expires v) (v_Job v) (v_State v) (v_Checks v) (v_Diff v) (v_ChangeSetID v) usable gates
    (v_Risk v) ready.
(** go: internal/repository/auth/candidate.go invalidation *)
Definition invalidation (v : Validation) (code : string) : Validation :=
  with_validity v false (v_Invalidations v ++ [blocked code]) (v_ExecutionReady v).
Definition invalidate_if (b : bool) (code : string) (v : Validation) : Validation := if b then invalidation v code else v.
(** What has changed since a validation.
    go: internal/repository/auth/candidate.go:288-322 Repository.ReadCandidate *)
Definition review (r : validationRecord) (original e : Envelope) (c : Claims) (now_ : Z) (s : result Snapshot)
    (safety : bool) : Validation :=
  let v := vr_Validation r in
  let v := invalidate_if ((c_ID (e_Candidate e) <>s v_CandidateID v) || (c_Revision (e_Candidate e) <>s v_CandidateRevision v))
             "CANDIDATE_CHANGED" v in
  let v := invalidate_if (negb (now_ <? v_Expires v)) "VALIDATION_EXPIRED" v in
  let v := invalidate_if ((cl_Revision c <>s v_PolicyRevision v) || (cl_Epoch c <>s vr_AuthEpoch r)
                          || (cl_RequestEpoch c <>s vr_RequestEpoch r)
                          || (capabilities_digest (cl_Capabilities c) <>s vr_Capabilities r)
                          || (vr_Validator r <>s ValidatorVersion)) "POLICY_CHANGED" v in
  let v := invalidate_if (cl_Credential c <>s vr_Credential r) "VALIDATION_CREDENTIAL_CHANGED" v in
  let v := invalidate_if (negb (intentCapabilities (cl_Capabilities c) (e_Candidate original))) "CAPABILITY_DENIED" v in
  let v := match s with
           | Err err => invalidation v (g_Code (candidateProblem err))
           | Ok s =>
             let v := invalidate_if (sn_Policy s <>s vr_ProviderPolicy r) "AUTHORITY_POLICY_CHANGED" v in
             let failed := List.filter (fun g => g_State g <>s "allowed") (fst (Checks (e_Candidate original) s)) in
             if is_empty failed then v
             else with_validity v false (v_Invalidations v ++ failed) (v_ExecutionReady v)
           end in
  with_validity v (v_Usable v) (v_Invalidations v) (v_Usable v && safety).
(** The review of a candidate that was not validated.
    go: internal/repository/auth/candidate.go:278-286 Repository.ReadCandidate *)
Definition review_candidate (c : Candidate) (s : result Snapshot) (safety : bool) : View :=
  let v := match s with
           | Ok s => Review c s
           | Err err =>
             mkView (if is_empty (intents c) then c else Planner.with_state c "stale") false None None None []
               [candidateProblem err] false
           end in
  mkView (vw_Candidate v) safety (vw_CurrentGeneration v) (vw_CurrentRevision v) (vw_ConflictSnapshot v) (vw_Diff v)
    (vw_Checks v) (vw_DiffTruncated v).
(** [prior]: the validation that is asked for, with its envelope. The answer
    is the JSON of the view.
    go: internal/repository/auth/candidate.go:257-333 Repository.ReadCandidate *)
Definition read_tx (credential : string) (prior : option (validationRecord * Envelope)) (e : Envelope)
    (s : result Snapshot) (safety : bool) : tx string :=
  do c <- candidateClaims credential (if is_nil prior then "workspace.read" else "config.validate") in
  let reviewed := match prior with Some (_, original) => e_Candidate original | None => e_Candidate e end in
  do _ <- guard (treeReadDenied reviewed (cl_Capabilities c)) denied in
  do _ <- candidateFence e true in
  do body <- match prior with
             | None => ret (marshal (view_json (review_candidate (e_Candidate e) s safety)))
             | Some (r, original) =>
               do at_ <- now in
               ret (marshal (JObj (validation_fields (review r original e c at_ s safety))))
             end in
  do _ <- guard (Z.shiftl 48 10 <? slen body) (Fail 429 "RESPONSE_BUDGET_EXCEEDED") in
  do _ <- touch credential c in
  ret body.

(** The state, the checks and the differences of a new validation.
    go: internal/repository/auth/candidate.go:400-413 Repository.ValidateCandidate *)
Definition evaluate (caps : list string) (c : Candidate) (s : result Snapshot) : string * list Gate * list Diff :=
  let '(state, checks, diff) :=
    match s with
    | Ok s => let '(checks, diff) := Checks c s in (if Passed checks then "passed" else "blocked", checks, diff)
    | Err err => ("failed", [candidateProblem err], [])
    end in
  if intentCapabilities caps c then (state, checks, diff) else ("blocked", checks ++ [blocked "CAPABILITY_DENIED"], diff).
Definition ok_or {A} (f : Snapshot -> A) (x : A) (s : result Snapshot) : A := match s with Ok s => f s | Err _ => x end.
(** The generation that the provider, or else the candidate, names.
    go: internal/repository/auth/candidate.go:414-421 Repository.ValidateCandidate *)
Definition generation_of (c : Candidate) (s : result Snapshot) : result string :=
  let g := ok_or sn_Generation "" s in
  if g <>s "" then Ok g
  else match c_Generation c with Some g => Ok g | None => Err (Fail 503 "PROVIDER_UNAVAILABLE") end.
Definition risk_of (c : Candidate) : string :=
  if existsb (fun i => IsTopologyOperation (i_Operation i)) (intents c)
  then "high-topology-safe-apply-required" else "connectivity-unknown-safe-apply-required".
Definition insert_validation (id : string) (row : validation_row) : tx unit :=
  do d <- get in
  let m := candidate_validations (drafts (auth d)) in
  do _ <- guard (not_nil (m !! id) || is_nil (jobs d !! va_job row)
                 || existsb (fun kv => (va_job (snd kv) =s va_job row) || (va_changeset (snd kv) =s va_changeset row))
                      (map_to_list m)) constraint_failed in
  on_drafts (fun t => with_validations t (<[id := row]> (candidate_validations t))).
Definition validation_job (id job changeset state business : string) (at_ : Z) : Job :=
  mkJob [] job "" (if state =s "failed" then "failed" else "succeeded") "" "" "" (Some (mkRef "validation" id)) "" "" "" "" ""
    changeset "" false false "completed" business "not-applicable" "" "" ("validation-" ++ state)%string "" at_ zero_time None.
(** go: internal/repository/auth/candidate.go:381-466 Repository.ValidateCandidate *)
Definition validate_tx (credential capability : string) (e : Envelope) (s : result Snapshot) (req : EvRequest)
    : tx Requests.Mutation :=
  do c <- candidateClaims credential capability in
  do _ <- guard (treeReadDenied (e_Candidate e) (cl_Capabilities c)) denied in
  do _ <- candidateFence e true in
  do d <- get in
  do _ <- guard (10000 <=? Z.of_nat (size (candidate_validations (drafts (auth d))))) (Fail 429 "VALIDATION_CAPACITY_REACHED") in
  let cand := e_Candidate e in
  let '(state, checks, diff) := evaluate (cl_Capabilities c) cand s in
  do generation <- lift (generation_of cand s) in
  let config := ok_or sn_Revision "" s in
  do id <- NewID in do changeset <- NewID in do job <- NewID in
  do at_ <- now in
  let expires := Z.min (at_ + ValidFor) (cl_Expires c * Second) in
  let v := mkValidation id (c_ID cand) (c_Revision cand) generation (if config =s "" then "unavailable" else config)
             (cl_Revision c) expires (Some (mkRef "job" job)) state checks diff changeset (state =s "passed") [] (risk_of cand)
             false in
  let record := mkValidationRecord v (cl_Credential c) (cl_Epoch c) (cl_RequestEpoch c)
                  (capabilities_digest (cl_Capabilities c)) (ok_or sn_Policy "" s) ValidatorVersion in
  do _ <- guard ((Z.shiftl 48 10 <? slen (marshal (validation_record_json record)))
                 || (MaxDocument <? slen (marshal (envelope_json e)))) (Fail 429 "CANDIDATE_BUDGET_EXCEEDED") in
  do t1 <- now in
  do _ <- Evidence.CreateJob req
       (validation_job id job changeset state (if state =s "failed" then "failure" else "success") t1) in
  do t2 <- now in
  do _ <- insert_validation id
       (mkValidationRow (cl_Principal c) (c_ID cand) (c_Revision cand) job changeset (unix_milli t2) e record) in
  do t3 <- now in
  do _ <- Evidence.Append req
       (Evidence.record [] "audit" "Manager" "" "validate-candidate" state ("validation-" ++ state)%string
          (Some (mkRef "validation" id)) job "" changeset "" "" "" "" false t3) in
  do _ <- touch credential c in
  ret (Requests.mkMutation 202 "{}" (Some (mkRef "validation" id)) (Some (mkRef "job" job)) true false).

(** ** execution.go: the authorization of an apply *)

Definition authority_only (c : Claims) : Authorization :=
  mkAuthorization (cl_Principal c) (cl_Credential c) (cl_RequestEpoch c) "" "" "" "" "" zero_time "".
(** Execution needs the very witness of the envelope.
    go: internal/repository/auth/execution.go:122-130 Repository.ExecutionAuthorizer *)
Definition exact_witness (d : db) (owner : string) (e : Envelope) : result unit :=
  match candidate_witnesses (drafts (auth d)) !! owner with
  | None => Err (Fail 409 "WORKSPACE_WITNESS_REQUIRED")
  | Some w =>
    fail_if (wi_candidate w <>s c_ID (e_Candidate e)) || (wi_epoch w <>s e_Epoch e)
            || negb (wi_sequence w =? e_Sequence e) || (wi_revision w <>s c_Revision (e_Candidate e))
            || (wi_hash w <>s envelope_digest e) with Fail 409 "WORKSPACE_WITNESS_CHANGED" ;;
    Ok tt
  end.
(** go: internal/repository/auth/execution.go:142-149 Repository.ExecutionAuthorizer *)
Definition authorization_of (c : Claims) (validation : string) (r : validationRecord) (e : Envelope) : Authorization :=
  let v := vr_Validation r in
  mkAuthorization (cl_Principal c) (cl_Credential c) (cl_RequestEpoch c) (v_PolicyRevision v) (vr_ProviderPolicy r)
    (v_ChangeSetID v) validation
    (digest_json (JArr [JStr validation; envelope_json e; JStr (v_Risk v); JStr (vr_ProviderPolicy r)]))
    (v_Expires v)
    (join "," (List.filter (fun c => c <>s "configuration.read") (Capabilities (e_Candidate e)))).
(** The validation that an apply relies on: the caller's, of the same
    envelope, usable, and made under the present authority.
    go: internal/repository/auth/execution.go:102-121 Repository.ExecutionAuthorizer *)
Definition usable_validation (d : db) (c : Claims) (in_ : Request) (now_ : Z) : result (validationRecord * Envelope) :=
  match candidate_validations (drafts (auth d)) !! rq_ValidationID in_ with
  | None => Err not_found
  | Some row =>
    fail_if va_owner row <>s cl_Principal c with not_found ;;
    let r := va_document row in
    let v := vr_Validation r in
    let e := va_envelope row in
    fail_if envelope_digest e <>s envelope_digest (rq_Envelope in_) with Fail 409 "VALIDATION_SCOPE_CHANGED" ;;
    fail_if (v_State v <>s "passed") || negb (v_Usable v) || negb (now_ <? v_Expires v)
      with Fail 409 "VALIDATION_NOT_USABLE" ;;
    fail_if (cl_Credential c <>s vr_Credential r) || (cl_Epoch c <>s vr_AuthEpoch r)
            || (cl_RequestEpoch c <>s vr_RequestEpoch r) || (cl_Revision c <>s v_PolicyRevision v)
            || (capabilities_digest (cl_Capabilities c) <>s vr_Capabilities r)
            || (vr_Validator r <>s ValidatorVersion) with Fail 409 "VALIDATION_AUTHORITY_CHANGED" ;;
    Ok (r, e)
  end.
(** [snapshot] answers for the bindings of a candidate; [ts] are the clock
    readings.
    go: internal/repository/auth/execution.go Repository.ExecutionAuthorizer *)
Definition ExecutionAuthorizer (credential : string) (snapshot : list Binding -> result Snapshot) (d : db)
    (ts : Z * Z * Z * Z * Z) (now_ : Z) (in_ : Request) (replay : bool) : result Authorization :=
  let '(t1, t2, t3, t4, t5) := ts in
  let? c := candidate_claims_of d credential "config.apply" t1 t2 t3 t4 t5 in
  fail_if cl_Principal c <>s e_Owner (rq_Envelope in_) with Fail 403 "RESOURCE_DENIED" ;;
  let? _ := Verify (rq_Envelope in_) key (cl_Principal c) in
  if replay then Ok (authority_only c)
  else
    fail_if negb (intentCapabilities (cl_Capabilities c) (e_Candidate (rq_Envelope in_))) with denied ;;
    let? (r, e) := usable_validation d c in_ now_ in
    let? _ := exact_witness d (cl_Principal c) e in
    let? s := snapshot (Bindings (e_Candidate e)) in
    fail_if sn_Policy s <>s vr_ProviderPolicy r with Fail 409 "AUTHORITY_POLICY_CHANGED" ;;
    fail_if negb (Passed (fst (Checks (e_Candidate e) s))) with Fail 409 "EXECUTION_PREFLIGHT_CONFLICT" ;;
    Ok (authorization_of c (rq_ValidationID in_) r e).

(** ** safety.go: the draft after an apply *)

(** The private message of a Safe Apply.
    go: internal/safety/types.go Request *)
Record SafeRequest := mkSafeRequest {
  sq_Envelope : Envelope; sq_Epoch : string; sq_RequestID : string; sq_Reservation : string; sq_Fingerprint : string }.
(** The successor of the envelope: the same draft again, or an empty one once
    its apply is confirmed.
    go: internal/repository/auth/safety.go:263-275 Repository.ResolveSafeApply *)
Definition successor (e : Envelope) (confirmed : bool) (rev id : string) : Envelope :=
  let c := e_Candidate e in
  let c := if confirmed then mkCandidate id rev None None "empty" (Some []) None
           else mkCandidate (c_ID c) rev (c_Generation c) (c_BaseRevision c)
                  (if is_empty (intents c) then "empty" else "staged") (c_Intents c) (c_Consumed c) in
  Sign (mkEnvelope (e_Owner e) (e_Epoch e) (int64 (e_Sequence e + 1)) c (e_Seal e)) key.
(** The confirmed draft's witness moves to the successor, if it is exact.
    go: internal/repository/auth/safety.go:277-283 Repository.ResolveSafeApply *)
Definition move_witness (owner : string) (e next : Envelope) : tx unit :=
  do d <- get in
  let m := candidate_witnesses (drafts (auth d)) in
  do _ <- guard (negb (match m !! owner with
                       | Some w => (wi_candidate w =s c_ID (e_Candidate e)) && (wi_epoch w =s e_Epoch e)
                                   && (wi_sequence w =? e_Sequence e) && (wi_hash w =s envelope_digest e)
                       | None => false
                       end)) (Fail 409 "WORKSPACE_WITNESS_CHANGED") in
  do _ <- guard (candidate_taken (drafts (auth d)) owner (c_ID (e_Candidate next)) 
                 || negb (sequence_column (e_Sequence next))) constraint_failed in
  on_drafts (fun t => with_witnesses t (<[owner := mkWitness (c_ID (e_Candidate next)) (e_Epoch e) (e_Sequence next)
                                                     (c_Revision (e_Candidate next)) (envelope_digest next)]>
                                          (candidate_witnesses t))).
(** The open apply of a request: its transaction, and its safety record.
    go: internal/repository/auth/safety.go:233-235 Repository.ResolveSafeApply *)
Definition apply_of (d : db) (owner epoch request : string) : option string :=
  fst <$> find (fun kv => (sa_owner (snd kv) =s owner) && (sa_epoch (snd kv) =s epoch) && (sa_request (snd kv) =s request))
            (map_to_list (safe_applies d)).
(** go: internal/repository/auth/safety.go:253-293 Repository.ResolveSafeApply *)
Definition settle (q : SafeRequest) (c : Claims) (tx_ : option Ref) (confirmed : bool) : tx SafeResolution :=
  let e := sq_Envelope q in
  let key_ := (cl_Principal c, sq_Epoch q, sq_RequestID q) in
  do _ <- candidateFence e false in
  do d <- get in
  do _ <- guard (10000 <=? Z.of_nat (size (safe_resolutions d))) (Fail 429 "SAFE_RESOLUTION_CAPACITY") in
  do rev <- NewID in
  do id <- (if confirmed then NewID else ret "") in
  do rev <- (if confirmed then NewID else ret rev) in
  let next := successor e confirmed rev id in
  do _ <- (if confirmed then move_witness (cl_Principal c) e next else candidateFence next true) in
  let out := mkResolution confirmed false tx_ (Some next) in
  do _ <- modify (fun d => with_resolutions d (<[key_ := (sq_Fingerprint q, out)]> (safe_resolutions d))) in
  do at_ <- now in
  do _ <- Evidence.Append no_request
       (mkEvRecord [] "" "audit" "" "Manager" (cl_Principal c) (cl_Credential c) "workspace.read" "safe-workspace-resolved"
          tx_ "" "" "" "" "" "" "" "resolved" "" at_ "" true) in
  ret out.
(** What became of an apply, once; an open one stays pending.
    go: internal/repository/auth/safety.go:210-294 Repository.ResolveSafeApply *)
Definition resolve_tx (credential : string) (q : SafeRequest)
    : tx SafeResolution :=
  do c <- candidateClaims credential "workspace.read" in
  do _ <- lift (Verify (sq_Envelope q) key (cl_Principal c)) in
  do d <- get in
  match safe_resolutions d !! (cl_Principal c, sq_Epoch q, sq_RequestID q) with
  | Some (prior, out) =>
    do _ <- guard (prior <>s sq_Fingerprint q) (Fail 409 "IDEMPOTENCY_MISMATCH") in
    ret out
  | None =>
    match apply_of d (cl_Principal c) (sq_Epoch q) (sq_RequestID q) with
    | None => settle q c None false
    | Some id =>
      do s <- lift (Executions.loadSafety d id) in
      do _ <- guard ((Reservation s <>s sq_Reservation q) || (Fingerprint s <>s sq_Fingerprint q))
           (Fail 409 "RESERVATION_MISMATCH") in
      let tx_ := Some (mkRef "transaction" id) in
      if negb (ExecTypes.Terminal (s_State s)) then ret (mkResolution false true tx_ None)
      else settle q c tx_ (s_State s =s "confirmed")
    end
  end.
End drafts.

End AuthDrafts.
