(* ===== verification/AuthTLS.v ===== *)
(** * internal/repository/auth: certificates and restores (tls.go, restore.go)

    A new certificate is tried: it becomes the active one when it is confirmed
    over a fresh connection inside the recovery window, and is rolled back
    otherwise. [PrepareRestore] withdraws every credential. *)

From S2P Require Import Prelude GoStrings Sha256 GoTime GoJson ApiTypes CandidateTypes Intents Planning ExecTypes AuthTables Store Evidence Requests AuthTypes AuthStore AuthCommands.
Import Planning AuthTypes AuthTables AuthStore AuthCommands.

Module AuthTLS.

(** ** tls.go *)

(** go: internal/tlscontrol/types.go Command *)
Record TLSCommand := mkTLSCommand { tl_Candidate : option Descriptor; tl_ServedID : string; tl_Precondition : string; tl_RequestID : string }.

Definition hex_lower (b : Z) : bool := is_digit b || ((97 <=? b) && (b <=? 102)).
(** go: internal/repository/auth/tls.go digestPattern *)
Definition digest_text (s : string) : bool := (slen s =? 64) && forallb hex_lower (bytes s).
(** go: internal/repository/auth/tls.go tlsOperation *)
Definition tlsOperation (id : string) : bool := contains ["createCertificate"; "activateCertificate"; "confirmCertificate"] id.
(** What a command must carry; [etag] is the test of its precondition.
    go: internal/repository/auth/tls.go:41-48 Repository.ExecuteTLS *)
Definition tls_command_ok (op : string) (etag : bool) (c : TLSCommand) : result unit :=
  if op =s "createCertificate" then
    match tl_Candidate c with
    | Some d =>
      fail_if negb (ManagementID (ds_ID d)) || negb (digest_text (ds_Fingerprint d)) || negb (digest_text (ds_InputDigest d))
              || (ds_Hostname d =s "") || (253 <? slen (ds_Hostname d)) || (ds_NotAfter d <=? ds_NotBefore d)
              || (tl_ServedID c <>s "") || (tl_Precondition c <>s "") with Fail 422 "TLS_DESCRIPTOR_INVALID" ;;
      Ok tt
    | None => Err (Fail 422 "TLS_DESCRIPTOR_INVALID")
    end
  else
    fail_if not_nil (tl_Candidate c) || negb etag || ((op =s "activateCertificate") && (tl_ServedID c <>s ""))
      with Fail 422 "INVALID_REQUEST" ;;
    Ok tt.

Definition on_certificates (f : gmap string certificate_row -> gmap string certificate_row) : tx unit :=
  on_drafts (fun t => with_certificates t (f (tls_certificates t))).
Definition set_tls (x : TLSState) : tx unit := on_drafts (fun t => with_tls t x).
(** go: internal/repository/auth/tls.go tlsState *)
Definition tlsState : tx TLSState := do d <- get in ret (tls_authority (drafts (auth d))).
(** An update of a certificate's state draws a revision and a sequence. *)
Definition move_certificate (id state : string) : tx unit :=
  do rev <- NewID in
  on_certificates (alter (fun r => mkCertificate (tc_principal r) rev (tc_descriptor r) state (tc_sequence r + 1)) id).
Definition trial_receipt (job : string) (kv : receipt_key * receipt_row) : bool :=
  let '((_, _, domain, _), row) := kv in
  (domain =s "management") && match rc_Job (ar_receipt row) with Some r => ref_ID r =s job | None => false end.
(** go: internal/repository/auth/tls.go Repository.finishTLS *)
Definition finishTLS (req : EvRequest) (s : TLSState) (confirmed : bool) : tx unit :=
  let target := if confirmed then "active" else "rolled-back" in
  do job <- Evidence.LoadJob (tls_JobID s) in
  do at_ <- now in
  do _ <- Evidence.ChangeJob req (j_ID job) (j_Sequence job)
       (Evidence.mkTransition (if confirmed then "succeeded" else "failed") ""
          (if confirmed then "success" else "failure") "" "" (if confirmed then "confirmed" else "expired") target) at_ in
  do d <- get in
  match find (trial_receipt (tls_JobID s)) (map_to_list (api_receipts d)) with
  | None => fail ENoRows
  | Some ((principal, epoch, domain, request), row) =>
    do at_ <- now in
    do _ <- modify (fun d => with_receipts d
         (<[(principal, epoch, domain, request) := Evidence.completed_receipt row at_]> (api_receipts d))) in
    do _ <- (if confirmed && (tls_ActiveID s <>s "") then move_certificate (tls_ActiveID s) "superseded" else ret tt) in
    do _ <- move_certificate (TrialID s) target in
    do rev <- NewID in
    do _ <- set_tls (no_trial rev (if confirmed then TrialID s else tls_ActiveID s)) in
    do _ <- new_revision in
    audit (mkEvRequest (er_Principal req) (er_Credential req) (j_Capability job) "tls-recovery" "management" epoch request
             (j_Correlation job))
      (mkClaims (er_Principal req) (er_Credential req) "" "" [] "" "" "" 0 0 0)
      "tls-recovery" (TrialID s) target request (j_Resource job) (Some (mkRef "job" (j_ID job)))
  end.
(** An expired trial is rolled back before its state is told.
    go: internal/repository/auth/tls.go Repository.TLSState *)
Definition tls_state_tx : tx TLSState :=
  do s <- tlsState in
  do k <- Store.clock in
  if TLS_Expired s k then do _ <- finishTLS no_request s false in tlsState else ret s.

Definition certificate_capacity : Z := 128.
(** go: internal/repository/auth/tls.go:86-101 Repository.ExecuteTLS *)
Definition create_certificate (c : Claims) (d : Descriptor) : tx unit :=
  do t1 <- now in
  do t2 <- now in
  do _ <- guard ((t1 <? ds_NotBefore d) || (ds_NotAfter d <=? t2 + RecoveryWindow)) (Fail 422 "TLS_CANDIDATE_EXPIRED") in
  do db_ <- get in
  let m := tls_certificates (drafts (auth db_)) in
  do _ <- guard (certificate_capacity <=? Z.of_nat (size m)) (Fail 429 "TLS_CANDIDATE_CAPACITY_REACHED") in
  do rev <- NewID in
  do _ <- guard (not_nil (m !! ds_ID d) || is_nil (principals (policy (auth db_)) !! cl_Principal c)) constraint_failed in
  on_certificates (fun m => <[ds_ID d := mkCertificate (cl_Principal c) rev d "validated" 1]> m).
(** One trial at a time, of a certificate that is not the active one.
    go: internal/repository/auth/tls.go:102-125 Repository.ExecuteTLS *)
Definition activate_certificate (id expected job : string) (s : TLSState) : tx unit :=
  do d <- get in
  let row := tls_certificates (drafts (auth d)) !! id in
  do _ <- lift (revision (tc_revision <$> row) expected) in
  do _ <- guard ((TrialID s <>s "") || (tls_ActiveID s =s id)) (Fail 409 "TLS_ACTIVATION_CONFLICT") in
  match row with
  | None => fail ENoRows
  | Some row =>
    do k <- Store.clock in
    do _ <- guard ((ds_NotAfter (tc_descriptor row) <=? Wall k + RecoveryWindow) || (BootID k =s ""))
         (Fail 422 "TLS_CANDIDATE_EXPIRED") in
    do rev <- NewID in
    do _ <- set_tls (mkTLSState rev (tls_ActiveID s) id job (BootID k) (NS k) (int64 (NS k + RecoveryWindow))
                       (unix (Wall k + RecoveryWindow))) in
    move_certificate id "awaiting-confirmation"
  end.
(** Confirmed by the certificate itself, inside the window.
    go: internal/repository/auth/tls.go:126-135 Repository.ExecuteTLS *)
Definition confirm_certificate (req : EvRequest) (id served expected : string) (s : TLSState) : tx unit :=
  do d <- get in
  do _ <- lift (revision (tc_revision <$> tls_certificates (drafts (auth d)) !! id) expected) in
  do k <- Store.clock in
  do _ <- guard ((TrialID s <>s id) || (served <>s id) || TLS_Expired s k) (Fail 409 "TLS_FRESH_CONNECTION_REQUIRED") in
  finishTLS req s true.
Definition tls_job (id job op : string) (at_ : Z) : Job :=
  let resource := Some (mkRef "certificate" id) in
  if op =s "activateCertificate"
  then job_of job resource "running" "unknown" "pending" "awaiting-fresh-connection-confirmation" "tls-activation" at_
  else job_of job resource "succeeded" "success" "" "tls-metadata-recorded" "" at_.
(** [path] is the certificate of the request's path.
    go: internal/repository/auth/tls.go:73-156 Repository.ExecuteTLS *)
Definition tls_mutation (credential : string) (op : Operation) (path : string) (cmd : TLSCommand) (req : EvRequest)
    : tx Requests.Mutation :=
  do c <- checkOperation credential op (refsFor op (if path =s "" then [] else [path])) true in
  do job <- NewID in
  do s <- tlsState in
  do id <- (match tl_Candidate cmd with
            | Some d => if op_ID op =s "createCertificate" then do _ <- create_certificate c d in ret (ds_ID d) else ret path
            | None => ret path
            end) in
  do _ <- (if op_ID op =s "activateCertificate" then activate_certificate path (tl_Precondition cmd) job s
           else if op_ID op =s "confirmCertificate" then confirm_certificate req path (tl_ServedID cmd) (tl_Precondition cmd) s
           else ret tt) in
  do at_ <- now in
  do _ <- Evidence.CreateJob req (tls_job id job (op_ID op) at_) in
  do _ <- new_revision in
  do _ <- audit req c (op_ID op) id "success" (tl_RequestID cmd) (ref_ "certificate" id) (ref_ "job" job) in
  do _ <- touch credential c in
  ret (Requests.mkMutation 202 "{}" (ref_ "certificate" id) (ref_ "job" job) (op_ID op <>s "activateCertificate") false).

(** ** restore.go *)

(** After a backup was installed: every credential is revoked, nobody is
    elevated, both epochs are new, and the inventory must be reconciled.
    go: internal/repository/auth/restore.go Repository.PrepareRestore *)
Definition PrepareRestore : tx unit :=
  do s <- tlsState in
  do _ <- (if TrialID s <>s "" then finishTLS no_request s false else ret tt) in
  do at_ <- now in
  do _ <- on_creds (fun t => mkCredentials (revoke_at (unix at_) <$> grants t)
                               ((fun a => mkAuthGrant (ag_id a) (ag_issued a) (ag_last a) 0) <$> auth_grants t)
                               (revoke_at (unix at_) <$> api_tokens t) (auth_tokens t)) in
  do epoch <- NewID in
  do rev <- NewID in
  do _ <- on_authz (fun a => mkAuthority epoch rev (unix_milli at_) (auth_attempts a) (auth_audit a)) in
  do api <- NewID in
  do _ <- modify (fun d => with_api d api (unix_milli at_)) in
  do _ <- on_drafts (fun t => with_inventory t
       ((fun iv => mkInventory "reconciliation-required" (iv_generation iv) "management-restore" true "") <$> inventory_state t)) in
  audit no_request (no_claims "") "restore-security" "" "completed" "" None None.

End AuthTLS.
