(* ===== verification/AuthService.v ===== *)
(** * internal/repository/auth: the manager's authenticated services

    The handlers that mgrd exposes over its private IPC, from the decoded
    command to the stored receipt: security commands and their dispatch
    (commands.go), job cancellation (evidence.go), certificates (tls.go),
    drafts (candidate.go), applies and decisions (safety.go, execution.go).
    What the API contract makes of a request (its operation, its parameters,
    its decoded body) comes from internal/apicontract and is an argument. *)

From S2P Require Import Prelude GoStrings Sha256 GoTime GoJson ApiTypes CandidateTypes Intents Snapshots Planning ExecTypes AuthTables Store Evidence Program Requests Executions SafeApply Admission.
From S2P Require Import AuthTypes AuthStore AuthCommands AuthSessions AuthDrafts AuthTLS.
Import Planning AuthTypes AuthTables AuthStore AuthCommands AuthSessions AuthDrafts AuthTLS.

Module AuthService.

(** go: internal/authn/types.go Command *)
Record Command := mkCommand {
  ac_Method : string; ac_URI : string; ac_Epoch : string; ac_RequestID : string; ac_Precondition : string; ac_Payload : string }.
(** The fields of a decoded body that the services outside [mutate] read. *)
Record Body := mkBody {
  bd_request_id : string; bd_password : string; bd_decision : string; bd_expected_sequence : string;
  bd_candidate_id : string; bd_candidate_revision : string; bd_validation_id : string; bd_mode : string }.

Section service.
(** The contract: the operation and the identifier in its path, whether there
    is a query; the check of the parameters; the decoded body with its
    canonical text. [decode_command] is [json.Unmarshal] into [plan.Command]. *)
Context (operation : string -> string -> result (Operation * string * bool)).
Context (ValidateParameters : Operation -> Command -> result unit).
Context (Decode : Operation -> string -> result (Payload * Body * string)).
Context (decode_command : string -> option CandidateTypes.Command).
(** [argon2.IDKey], the provider's candidate snapshot, the manager's key and
    the execution engine, once it is configured. *)
Context (derive : string -> list Z -> list Z).
Context (snapshot : list Binding -> result Snapshot).
Context (key : list Z) (fields : option Executions.Engine).

Definition mismatch : error := Fail 409 "IDEMPOTENCY_KEY_MISMATCH".
Definition operation_denied : error := Fail 403 "OPERATION_DENIED".
Definition path_of (id : string) : list string := if id =s "" then [] else [id].
(** go: internal/repository/auth/candidate.go Repository.candidateCommand *)
Definition candidateCommand (input : Command) (id : string) : result (Operation * string * Body * string) :=
  let? (op, path, query) := operation (ac_Method input) (ac_URI input) in
  fail_if (op_ID op <>s id) || query with operation_denied ;;
  let? _ := ValidateParameters op input in
  let? (_, v, body) := Decode op (ac_Payload input) in
  fail_if bd_request_id v <>s ac_RequestID input with mismatch ;;
  Ok (op, path, v, body).

(** The durable command of an operation. *)
Definition command_of (c : Claims) (op : Operation) (input : Command) (capability precondition payload : string)
    (sensitive : bool) (fingerprint_key : list Z) (secret : bool) : Requests.Command :=
  Requests.mkCommand (cl_Principal c) (ac_Epoch input) "management" (ac_RequestID input) (op_ID op) (ac_Method input)
    (ac_URI input) precondition (cl_Credential c) capability payload sensitive fingerprint_key secret.

Definition error_of {A} (r : result A) : option error := match r with Ok _ => None | Err e => Some e end.
(** A check in a read transaction, as [Execute]'s reauthorization. *)
Definition recheck (check : db -> Z -> Z -> Z -> result unit) : prog (option error) :=
  run t1 <- query_ QNow in
  run t2 <- query_ QNow in
  run t3 <- query_ QNow in
  run r <- read (fun d => check d t1 t2 t3) in
  Ret (error_of r).
Definition operation_check (credential : string) (op : Operation) (refs : list Ref) (elevated : bool) (d : db) (t1 t2 t3 : Z)
    : result unit := let? _ := check_operation_of d credential op refs elevated t1 t2 t3 in Ok tt.

(** ** evidence.go: cancelling a job *)

(** go: internal/repository/auth/evidence.go:44-58 Repository.cancelJob *)
Definition cancel_check (credential : string) (op : Operation) (id : string) (d : db) (t1 t2 t3 t4 : Z) : result (Claims * Job) :=
  let? c := check_operation_of d credential op [] false t1 t2 t3 in
  match evidence_jobs d !! id with
  | None => Err not_found
  | Some row =>
    fail_if j_Owner (jr_doc row) <>s cl_Principal c with not_found ;;
    let? _ := require c (j_Capability (jr_doc row)) false (unix t4) in
    Ok (c, jr_doc row)
  end.
(** Work that was not dispatched is cancelled at once; the rest is asked to
    stop, and says itself what became of it.
    go: internal/repository/auth/evidence.go:75-81 Repository.cancelJob *)
Definition cancellation (j : Job) : Evidence.Transition :=
  if (j_State j =s "queued") && (j_Dispatch j =s "not-started")
  then Evidence.mkTransition "cancelled" "" "cancelled" "not-sent" "" "" "cancelled-before-dispatch"
  else Evidence.mkTransition "cancel-requested" "" "" "" "" "" "cancellation-requested".
(** go: internal/repository/auth/evidence.go:62-96 Repository.cancelJob *)
Definition cancel_tx (credential : string) (op : Operation) (id request : string) (req : EvRequest) : tx Requests.Mutation :=
  do t1 <- now in do t2 <- now in do t3 <- now in do t4 <- now in
  do d <- get in
  do (c, j) <- lift (cancel_check credential op id d t1 t2 t3 t4) in
  do _ <- guard (Evidence.Terminal (j_State j) || (negb (j_Cancellable j) && negb (j_CancelRequested j)))
       (Fail 409 "JOB_NOT_CANCELLABLE") in
  do _ <- (if j_CancelRequested j then ret tt
           else do at_ <- now in
                do _ <- Evidence.ChangeJob req (j_ID j) (j_Sequence j) (cancellation j) at_ in ret tt) in
  do at_ <- now in
  do ack <- Evidence.CreateJob req (job_of "" (ref_ "job" (j_ID j)) "succeeded" "success" "" "cancellation-request-recorded" "" at_) in
  do _ <- audit req c (op_ID op) (j_ID j) "cancel-requested" request (ref_ "job" (j_ID j)) (ref_ "job" (j_ID ack)) in
  do _ <- touch credential c in
  ret (Requests.mkMutation 202 "{}" (ref_ "job" (j_ID j)) (ref_ "job" (j_ID ack)) true false).
(** go: internal/repository/auth/evidence.go Repository.cancelJob *)
Definition cancelJob (credential : string) (input : Command) : prog (result Requests.Result_) :=
  match operation (ac_Method input) (ac_URI input) with
  | Err e => Ret (Err e)
  | Ok (op, path, _) =>
    reject_if (op_ID op <>s "cancelJob") || (op_Domain op <>s "management") with operation_denied ;;
    match ValidateParameters op input with
    | Err e => Ret (Err e)
    | Ok _ =>
      match Decode op (ac_Payload input) with
      | Err e => Ret (Err e)
      | Ok (_, v, body) =>
        reject_if bd_request_id v <>s ac_RequestID input with mismatch ;;
        must query_ QCanceled ;;
        try c <- InspectAuth credential in
        Requests.Execute (command_of c op input "jobs.cancel" "" body false [] false)
          (run t4 <- query_ QNow in
           recheck (fun d t1 t2 t3 => let? _ := cancel_check credential op path d t1 t2 t3 t4 in Ok tt))
          (cancel_tx credential op path (ac_RequestID input))
      end
    end
  end.

(** ** execution.go: reconciliation *)

Definition reconcile_job (ref : Ref) (id : string) : Job :=
  mkJob [] "" "" "succeeded" "" "" "" (Some ref) "" "" "" "" "" "" id false false "completed" "success" "not-applicable" "" ""
    "reconciliation-observed" "" zero_time zero_time None.
(** go: internal/repository/auth/execution.go:63-76 Repository.reconcileFields *)
Definition reconcile_tx (credential : string) (op : Operation) (id : string) (req : EvRequest) : tx Requests.Mutation :=
  do _ <- checkOperation credential op (refsFor op [id]) false in
  let ref := mkRef "transaction" id in
  do job <- Evidence.CreateJob req (reconcile_job ref id) in
  do _ <- Evidence.Append req
       (Evidence.record [] "audit" "Manager" "" "reconcile-fields" "observed" "" (Some ref) (j_ID job) id "" "" "" "" "" false
          zero_time) in
  ret (Requests.mkMutation 202 "{}" (Some ref) (ref_ "job" (j_ID job)) true false).
(** go: internal/repository/auth/execution.go Repository.reconcileFields *)
Definition reconcileFields (credential : string) (input : Command) : prog (result Requests.Result_) :=
  match candidateCommand input "reconcileTransaction" with
  | Err e => Ret (Err e)
  | Ok (op, id, _, body) =>
    let authorize := recheck (operation_check credential op (refsFor op [id]) false) in
    run t1 <- query_ QNow in
    run t2 <- query_ QNow in
    run t3 <- query_ QNow in
    try c <- read (fun d => check_operation_of d credential op (refsFor op [id]) false t1 t2 t3) in
    let cmd := command_of c op input "configuration.read" "" body false [] false in
    try prior <- Requests.Replay cmd authorize in
    match prior with
    | Some out => Ret (Ok out)
    | None =>
      reject_if is_nil fields with Fail 503 "EXECUTION_RECOVERY_UNAVAILABLE" ;;
      try _ <- Executions.Reconcile id in
      Requests.Execute cmd authorize (reconcile_tx credential op id)
    end
  end.

(** ** safety.go: applies and decisions *)

(** go: internal/repository/auth/safety.go:175-178 Repository.decideSafeApply *)
Definition decision_capability (decision : string) : string :=
  if decision =s "rollback" then "configuration.rollback" else "configuration.confirm".
(** go: internal/repository/auth/safety.go:180-190 Repository.decideSafeApply *)
Definition decide_check (credential capability : string) (refs : list Ref) (d : db) (t1 t2 t3 : Z) : result Claims :=
  let? c := claims_of d credential t1 t2 in
  let? _ := require c capability false (unix t3) in
  let? _ := checkRefs d c refs in
  Ok c.
(** go: internal/repository/auth/safety.go Repository.decideSafeApply *)
Definition decideSafeApply (credential : string) (input : Command) : prog (result Requests.Result_) :=
  match candidateCommand input "decideTransaction" with
  | Err e => Ret (Err e)
  | Ok (op, id, v, body) =>
    let capability := decision_capability (bd_decision v) in
    run t1 <- query_ QNow in
    run t2 <- query_ QNow in
    run t3 <- query_ QNow in
    try c <- read (fun d => decide_check credential capability (refsFor op [id]) d t1 t2 t3) in
    match fields with
    | None => Ret (Err (Fail 503 "SAFE_APPLY_UNAVAILABLE"))
    | Some en =>
      SafeApply.Decide en id (bd_expected_sequence v) (bd_decision v) (command_of c op input capability "" body false [] false)
    end
  end.
(** The request of an apply. [reservation] names web's reservation.
    go: internal/repository/auth/safety.go Repository.safeCommand *)
Definition safeCommand (e : Envelope) (input : Command) (reservation : string) : result Request :=
  let? (_, _, v, _) := candidateCommand input "createTransaction" in
  fail_if negb (ManagementID reservation) || negb (is_ok (Budget (envelope_json e))) with Fail 422 "INVALID_SAFE_APPLY" ;;
  fail_if bd_mode v <>s "safe-apply" with Fail 409 "SAFE_APPLY_REQUIRED" ;;
  fail_if (bd_candidate_id v <>s c_ID (e_Candidate e)) || (bd_candidate_revision v <>s c_Revision (e_Candidate e))
    with Fail 409 "CANDIDATE_CHANGED" ;;
  Ok (mkRequest (ac_RequestID input) (bd_validation_id v) e).
(** The engine asks for the authorization of [ExecutionAuthorizer] and for the
    reserved lease through the environment.
    go: internal/repository/auth/safety.go Repository.AdmitSafeApply *)
Definition AdmitSafeApply (credential : string) (e : Envelope) (input : Command) (reservation payload : string)
    : prog (result Requests.Result_) :=
  match safeCommand e input reservation with
  | Err err => Ret (Err err)
  | Ok req =>
    try c <- CheckAuth credential "config.apply" [] in
    reject_if ac_Epoch input <>s cl_RequestEpoch c with Fail 410 "REQUEST_EPOCH_CHANGED" ;;
    match fields with
    | None => Ret (Err (Fail 409 "SAFE_APPLY_REQUIRED"))
    | Some en =>
      Admission.SubmitSafe en req true
        (Requests.mkCommand (cl_Principal c) (cl_RequestEpoch c) "management" (rq_ID req) "createTransaction" (ac_Method input)
           (ac_URI input) "" (cl_Credential c) "configuration.apply" payload false [] false) reservation
    end
  end.
(** go: internal/repository/auth/safety.go Repository.ResolveSafeApply *)
Definition ResolveSafeApply (credential : string) (input : Command) (q : SafeRequest) : prog (result SafeResolution) :=
  match safeCommand (sq_Envelope q) input (sq_Reservation q) with
  | Err e => Ret (Err e)
  | Ok _ => write (resolve_tx key credential q)
  end.

(** ** commands.go: the security commands *)

(** go: internal/repository/auth/commands.go securityCommand *)
Definition securityCommand (id : string) : bool :=
  contains ["createUser"; "changeUser"; "changePassword"; "deleteUser"; "createRole"; "changeRole"; "createToken"; "revokeToken"] id.
(** Password work happens before the gate, under an earlier check.
    go: internal/repository/auth/commands.go:116-130 Repository.ExecuteAuth *)
Definition prepare_password (credential : string) (op : Operation) (path : string) (v : Body) : prog (result string) :=
  if (op_ID op =s "createUser") || (op_ID op =s "changePassword") then
    try _ <- CheckAuth credential (op_Capability op) (refsFor op (path_of path)) in
    must query_ QSlot ;;
    run salt <- query_ QSalt in
    Ret (hashPassword derive (bd_password v) salt)
  else Ret (Ok EmptyString).
(** go: internal/repository/auth/commands.go:94-168 Repository.ExecuteAuth *)
Definition execute_security (credential : string) (op : Operation) (path : string) (input : Command) : prog (result Requests.Result_) :=
  reject_if negb (securityCommand (op_ID op)) || (op_Domain op <>s "management") with Fail 503 "DOMAIN_SERVICE_UNAVAILABLE" ;;
  match ValidateParameters op input with
  | Err e => Ret (Err e)
  | Ok _ =>
    reject_if (ac_Precondition input <>s "") && negb (strong_etag (ac_Precondition input))
      with Fail 428 "STRONG_PRECONDITION_REQUIRED" ;;
    match Decode op (ac_Payload input) with
    | Err e => Ret (Err e)
    | Ok (v, b, body) =>
      reject_if bd_request_id b <>s ac_RequestID input with mismatch ;;
      try verifier <- prepare_password credential op path b in
      must query_ QCanceled ;;
      try c <- InspectAuth credential in
      Requests.Execute
        (command_of c op input (default EmptyString (alias (op_Capability op))) (ac_Precondition input) body (op_Sensitive op) key
           (op_SecretResponse op))
        (recheck (operation_check credential op (refsFor op (path_of path)) true))
        (execute_mutation credential op path (ac_Precondition input) v verifier (ac_RequestID input))
    end
  end.
(** go: internal/repository/auth/commands.go Repository.ExecuteAuth *)
Definition ExecuteAuth (credential : string) (input : Command) : prog (result Requests.Result_) :=
  match operation (ac_Method input) (ac_URI input) with
  | Err e => Ret (Err e)
  | Ok (op, path, _) =>
    if op_ID op =s "cancelJob" then cancelJob credential input
    else if op_ID op =s "reconcileTransaction" then reconcileFields credential input
    else if op_ID op =s "decideTransaction" then decideSafeApply credential input
    else if op_ID op =s "createTransaction" then
      match candidateCommand input "createTransaction" with
      | Err e => Ret (Err e)
      | Ok _ =>
        try _ <- CheckAuth credential (op_Capability op) [] in
        Ret (Err (Fail 409 "SAFE_APPLY_REQUIRED"))
      end
    else execute_security credential op path input
  end.

(** ** tls.go: certificates *)

(** go: internal/repository/auth/tls.go Repository.ExecuteTLS *)
Definition ExecuteTLS (credential : string) (input : Command) (cmd : TLSCommand) (payload : string) : prog (result Requests.Result_) :=
  match operation (ac_Method input) (ac_URI input) with
  | Err e => Ret (Err e)
  | Ok (op, path, _) =>
    reject_if negb (tlsOperation (op_ID op)) || (op_Domain op <>s "management") with operation_denied ;;
    match ValidateParameters op input with
    | Err e => Ret (Err e)
    | Ok _ =>
      match tls_command_ok (op_ID op) (strong_etag (tl_Precondition cmd)) cmd with
      | Err e => Ret (Err e)
      | Ok _ =>
        must query_ QCanceled ;;
        try _ <- write tls_state_tx in
        must query_ QCanceled ;;
        try c <- InspectAuth credential in
        Requests.Execute
          (command_of c op input (default EmptyString (alias (op_Capability op))) (tl_Precondition cmd) payload true key false)
          (recheck (operation_check credential op (refsFor op (path_of path)) true))
          (tls_mutation credential op path cmd)
      end
    end
  end.

(** ** candidate.go: drafts *)

(** What planning must have seen.
    go: internal/repository/auth/candidate.go:130-143 Repository.PrepareCandidate *)
Definition prepare_bindings (c : Candidate) (cmd : CandidateTypes.Command) : list Binding :=
  Bindings c ++ (cmd_Intents cmd ≫= fun i =>
    in_Object i :: (if (in_Operation i =s BridgeCreate) || (in_Operation i =s InternalPortDelete)
                    then [mkBinding "" "" "Bridge" ""] else [])).
Definition zero_snapshot : Snapshot :=
  Snapshots.mkSnapshot ∅ ∅ ∅ Snapshots.no_topology "" "" "" "" ∅ ∅ ∅ Snapshots.no_creation Snapshots.no_deletion
    Snapshots.no_port_deletion Snapshots.no_internal_port.
Definition prepare_snapshot (c : Candidate) (cmd : CandidateTypes.Command) : result Snapshot :=
  if (cmd_Operation cmd =s "stage") || (cmd_Operation cmd =s "rebase") then snapshot (prepare_bindings c cmd) else Ok zero_snapshot.
(** [None]: the planner panicked. [fresh] and [revision] are the identifiers
    that it draws.
    go: internal/repository/auth/candidate.go Repository.PrepareCandidate *)
Definition PrepareCandidate (fresh : nat -> string) (revision_ credential : string) (input : Command) (e : Envelope)
    : prog (result (option Envelope)) :=
  match candidateCommand input "changeCandidate" with
  | Err err => Ret (Err err)
  | Ok (_, _, _, body) =>
    match decode_command body with
    | None => Ret (Err (Fail 422 "INVALID_INTENT"))
    | Some cmd =>
      must query_ QCanceled ;;
      try c <- CheckAuth credential "config.stage" [] in
      match prepare_admission key c e (ac_Precondition input) (ac_Epoch input) cmd with
      | Err err => Ret (Err err)
      | Ok _ =>
        match prepare_snapshot (e_Candidate e) cmd with
        | Err err => Ret (Err err)
        | Ok s => write (prepare_tx key fresh revision_ credential c e cmd s)
        end
      end
    end
  end.
(** The validation that a review asks for, of its owner.
    go: internal/repository/auth/candidate.go:239-253 Repository.ReadCandidate *)
Definition own_validation (d : db) (c : Claims) (id : string) : result (validationRecord * Envelope) :=
  match candidate_validations (drafts (auth d)) !! id with
  | Some row => if va_owner row =s cl_Principal c then Ok (va_document row, va_envelope row) else Err not_found
  | None => Err not_found
  end.
(** go: internal/repository/auth/candidate.go Repository.ReadCandidate *)
Definition ReadCandidate (credential : string) (e : Envelope) (validation : string) : prog (result string) :=
  must query_ QCanceled ;;
  try c <- CheckAuth credential (if validation =s "" then "workspace.read" else "config.validate") [] in
  match Verify e key (cl_Principal c) with
  | Err err => Ret (Err err)
  | Ok _ =>
    try prior <- (if validation =s "" then Ret (Ok None)
                  else read (fun d => let? p := own_validation d c validation in Ok (Some p))) in
    let reviewed := match prior with Some (_, original) => e_Candidate original | None => e_Candidate e end in
    reject_if treeReadDenied reviewed (cl_Capabilities c) with denied ;;
    run safety <- match fields with Some en => SafeApply.SafetyAvailable en | None => Ret false end in
    write (read_tx credential prior e (snapshot (Bindings reviewed)) safety)
  end.
(** go: internal/repository/auth/candidate.go Repository.ValidateCandidate *)
Definition ValidateCandidate (credential : string) (input : Command) (e : Envelope) : prog (result Requests.Result_) :=
  match candidateCommand input "createValidation" with
  | Err err => Ret (Err err)
  | Ok (op, _, v, body) =>
    must query_ QCanceled ;;
    let check d t1 t2 t3 :=
      let? c := candidate_claims_of d credential (op_Capability op) t1 t2 t3 t3 t3 in
      fail_if treeReadDenied (e_Candidate e) (cl_Capabilities c) with denied ;;
      Ok c in
    let authorize := recheck (fun d t1 t2 t3 => let? _ := check d t1 t2 t3 in Ok tt) in
    run t1 <- query_ QNow in
    run t2 <- query_ QNow in
    run t3 <- query_ QNow in
    try c <- read (fun d => check d t1 t2 t3) in
    let cmd := command_of c op input "configuration.validate" "" body false [] false in
    try prior <- Requests.Replay cmd authorize in
    match prior with
    | Some out => Ret (Ok out)
    | None =>
      match Verify e key (cl_Principal c) with
      | Err err => Ret (Err err)
      | Ok _ =>
        reject_if (bd_candidate_id v <>s c_ID (e_Candidate e)) || (bd_candidate_revision v <>s c_Revision (e_Candidate e))
          with Fail 409 "CANDIDATE_CHANGED" ;;
        Requests.Execute cmd authorize
          (validate_tx credential (op_Capability op) e (snapshot (Bindings (e_Candidate e))))
      end
    end
  end.
End service.

End AuthService.
