(* ===== verification/AuthFrames.v ===== *)
(** * What the authenticated services do to the database

    [service] lists the services; [AuthSteps R] is what a relation must keep
    in the steps their transactions are made of. [services_conform]: then
    every transaction of every service keeps it, whatever the world answers,
    and only an admitted apply sends mutation bytes. *)

From S2P Require Import Prelude GoStrings GoTime GoJson ApiTypes CandidateTypes Intents Snapshots Planning ExecTypes AuthTables Store Evidence Program Requests Executions SafeApply Admission Conformance.
From S2P Require Import AuthTypes AuthStore AuthCommands AuthSessions AuthDrafts AuthTLS AuthService.
Import Snapshots AuthTypes AuthTables AuthStore AuthCommands AuthSessions AuthDrafts AuthTLS AuthService.

(** ** Steps *)

(** A credential keeps its holder, epoch, ceiling and expiry, and stays
    revoked once it is. *)
Definition row_kept (r r' : credential_row) : Prop :=
  (cr_principal r', cr_epoch r', cr_ceiling r', cr_expires r') = (cr_principal r, cr_epoch r, cr_ceiling r, cr_expires r)
  /\ (cr_revoked r <> None -> cr_revoked r' <> None).
Definition rows_kept (m m' : gmap string credential_row) : Prop :=
  forall k r, m !! k = Some r -> exists r', m' !! k = Some r' /\ row_kept r r'.
Definition creds_kept (t t' : credential_tables) : Prop := rows_kept (grants t) (grants t') /\ rows_kept (api_tokens t) (api_tokens t').
(** Nothing is issued either. *)
Definition rows_updated (m m' : gmap string credential_row) : Prop := rows_kept m m' /\ forall k, m !! k = None -> m' !! k = None.
Definition creds_updated (t t' : credential_tables) : Prop :=
  rows_updated (grants t) (grants t') /\ rows_updated (api_tokens t) (api_tokens t').

(** The steps that leave users and roles alone. *)
Class AuthBase (R : db -> db -> Prop) : Prop := {
  st_preorder :: PreOrder R;
  st_append : forall req r, keeps R (Evidence.Append req r);
  st_create : forall req j, keeps R (Evidence.CreateJob req j);
  st_change : forall req id seq t at_, keeps R (Evidence.ChangeJob req id seq t at_);
  st_execute : forall c digest m, (forall req, keeps R (m req)) -> keeps R (Requests.execute_tx c digest m);
  st_receipt : forall k row, keeps R (modify (fun d => with_receipts d (<[k := row]> (api_receipts d))));
  st_api : forall epoch t, keeps R (modify (fun d => with_api d epoch t));
  st_resolution : forall k x, keeps R (modify (fun d => with_resolutions d (<[k := x]> (safe_resolutions d))));
  st_authz : forall f, keeps R (on_authz f);
  st_creds : forall f, (forall t, creds_updated t (f t)) -> keeps R (on_creds f);
  st_drafts : forall f, (forall t, candidate_witnesses (f t) = candidate_witnesses t) -> keeps R (on_drafts f);
  st_fence : forall e b, keeps R (candidateFence e b);
  st_witness : forall o e key b rev id, keeps R (move_witness o e (successor key e b rev id)) }.
(** The transactions that change users and roles or issue credentials. *)
Class AuthSteps (R : db -> db -> Prop) : Prop := {
  st_bootstrap : forall order name hash, order ≡ₚ Templates -> keeps R (bootstrap_tx order name hash);
  st_login : forall b id verifier, keeps R (login_tx b id verifier);
  st_role : forall cap op id b, contains reserved_capabilities cap = true -> keeps R (set_execution_role cap op id b);
  st_command : forall cred op path etag v verifier id req, keeps R (execute_mutation cred op path etag v verifier id req) }.
#[export] Hint Resolve st_append st_create st_change st_execute st_receipt st_api st_resolution st_authz
  st_fence st_witness st_bootstrap st_role st_login st_command : keeps.
(** A relation that does not look at users and roles, nor at what a new
    credential allows. *)
Class PolicyFree (R : db -> db -> Prop) : Prop := {
  st_policy : forall f, keeps R (on_policy f);
  st_grant : forall h r a, keeps R (insert_grant h r a);
  st_token : forall h r a, keeps R (insert_token h r a) }.

(** ** Revocations *)

Lemma row_kept_refl r : row_kept r r.
Proof. by split. Qed.
Lemma rows_kept_refl m : rows_kept m m.
Proof. intros k r H. exists r. split; [done|apply row_kept_refl]. Qed.
#[export] Instance rows_kept_preorder : PreOrder rows_kept.
Proof.
  split; [exact rows_kept_refl|]. intros x y z H1 H2 k r H. destruct (H1 _ _ H) as (r1 & E1 & [S1 V1]).
  destruct (H2 _ _ E1) as (r2 & E2 & [S2 V2]). exists r2. split; [done|]. split; [congruence|auto].
Qed.
#[export] Instance creds_kept_preorder : PreOrder creds_kept.
Proof.
  split; [by split|]. intros x y z [H1 H2] [H3 H4]. split; by etrans.
Qed.
Lemma revoked_kept at_ r : row_kept r (revoke_at at_ r).
Proof. split; [done|]. cbn. by destruct (cr_revoked r). Qed.
Lemma revoked_of_kept id at_ r : row_kept r (revoke_of id at_ r).
Proof. unfold revoke_of. case_match; [apply revoked_kept|apply row_kept_refl]. Qed.
Lemma rows_updated_refl m : rows_updated m m.
Proof. split; [apply rows_kept_refl|done]. Qed.
Lemma fmap_kept f (m : gmap string credential_row) : (forall r, row_kept r (f r)) -> rows_updated m (f <$> m).
Proof.
  intros Hf. split.
  - intros k r H. exists (f r). by rewrite lookup_fmap, H.
  - intros k H. by rewrite lookup_fmap, H.
Qed.
Lemma alter_kept f h (m : gmap string credential_row) : (forall r, row_kept r (f r)) -> rows_updated m (alter f h m).
Proof.
  intros Hf. split.
  - intros k r H. destruct (decide (k = h)) as [->|Hne].
    + exists (f r). by rewrite lookup_alter_eq, H.
    + exists r. rewrite lookup_alter_ne by done. split; [done|apply row_kept_refl].
  - intros k H. apply lookup_alter_None. done.
Qed.
Lemma insert_kept h row (m : gmap string credential_row) : m !! h = None -> rows_kept m (<[h := row]> m).
Proof. intros Hn k r H. exists r. rewrite lookup_insert_ne by congruence. split; [done|apply row_kept_refl]. Qed.
#[export] Hint Resolve row_kept_refl rows_kept_refl rows_updated_refl revoked_kept revoked_of_kept fmap_kept alter_kept insert_kept : kept.

Ltac kept_tac := intros; split; cbn; eauto with kept.

Ltac auth_step :=
  match goal with
  | |- keeps _ (on_creds _) => apply st_creds; intros ?; repeat case_match; kept_tac
  | |- keeps _ (on_drafts _) => apply st_drafts; by intros []
  | |- keeps _ (on_certificates _) => unfold on_certificates
  | |- keeps _ (set_tls _) => unfold set_tls
  | |- keeps _ Store.clock => apply keeps_ask; typeclasses eauto
  | _ => keeps_step
  end.
Ltac auth_tac := repeat auth_step; eauto with keeps.

Section base.
Context (R : db -> db -> Prop) `{!AuthBase R}.

Lemma audit_keeps req c op target result_ id o j : keeps R (audit req c op target result_ id o j).
Proof. unfold audit. auth_tac. Qed.
Lemma clock_keeps : keeps R AuthStore.clock.
Proof. unfold AuthStore.clock. auth_tac. Qed.
Lemma watermark_keeps : keeps R watermark.
Proof. unfold watermark. auth_tac. Qed.
Lemma claims_keeps cred : keeps R (claims cred).
Proof. unfold claims. auth_tac. Qed.
Lemma checkOperation_keeps cred op refs b : keeps R (checkOperation cred op refs b).
Proof. unfold checkOperation. auth_tac. Qed.
Lemma candidateClaims_keeps cred cap : keeps R (candidateClaims cred cap).
Proof. unfold candidateClaims. auth_tac. Qed.
Lemma LoadJob_keeps id : keeps R (Evidence.LoadJob id).
Proof. unfold Evidence.LoadJob. auth_tac. Qed.
Lemma Secret_keeps p : keeps R (Secret p).
Proof. unfold Secret. auth_tac. Qed.
Hint Resolve audit_keeps clock_keeps watermark_keeps claims_keeps checkOperation_keeps candidateClaims_keeps LoadJob_keeps
  Secret_keeps : keeps.
Lemma touch_keeps cred c : keeps R (touch cred c).
Proof. unfold touch. auth_tac. Qed.
Lemma invalidate_keeps id : keeps R (invalidatePrincipal id).
Proof. unfold invalidatePrincipal. auth_tac. Qed.
Lemma new_revision_keeps : keeps R new_revision.
Proof. unfold new_revision. auth_tac. Qed.
Lemma move_certificate_keeps id state : keeps R (move_certificate id state).
Proof. unfold move_certificate. auth_tac. Qed.
Hint Resolve touch_keeps invalidate_keeps new_revision_keeps move_certificate_keeps : keeps.
Lemma attempt_keeps name : keeps R (attempt name).
Proof. unfold attempt. auth_tac. Qed.
Lemma elevate_keeps cred verifier valid : keeps R (elevate_tx cred verifier valid).
Proof. unfold elevate_tx. auth_tac. Qed.
Lemma revoke_keeps cred : keeps R (revoke_tx cred).
Proof.
  unfold revoke_tx. auth_tac. apply alter_kept. intros r. split; [done|by cbn].
Qed.
Lemma finishTLS_keeps req s b : keeps R (finishTLS req s b).
Proof. unfold finishTLS, set_tls. auth_tac. Qed.
Hint Resolve finishTLS_keeps : keeps.
Lemma tls_state_keeps : keeps R tls_state_tx.
Proof. unfold tls_state_tx, tlsState. auth_tac. Qed.
Lemma tls_mutation_keeps cred op path cmd req : keeps R (tls_mutation cred op path cmd req).
Proof.
  unfold tls_mutation, create_certificate, activate_certificate, confirm_certificate, tlsState, on_certificates, set_tls.
  auth_tac.
Qed.
Lemma PrepareRestore_keeps : keeps R PrepareRestore.
Proof. unfold PrepareRestore, tlsState. auth_tac. Qed.
Lemma prepare_keeps key fresh rev cred c e cmd s : keeps R (prepare_tx key fresh rev cred c e cmd s).
Proof. unfold prepare_tx. auth_tac. Qed.
Lemma read_keeps cred prior e s b : keeps R (read_tx cred prior e s b).
Proof. unfold read_tx. auth_tac. Qed.
Lemma insert_validation_keeps id row : keeps R (insert_validation id row).
Proof. unfold insert_validation. auth_tac. Qed.
Hint Resolve insert_validation_keeps : keeps.
Lemma validate_keeps cred cap e s req : keeps R (validate_tx cred cap e s req).
Proof. unfold validate_tx. auth_tac. Qed.
Lemma resolve_keeps key cred q : keeps R (resolve_tx key cred q).
Proof. unfold resolve_tx, settle. auth_tac. Qed.
Lemma cancel_keeps cred op id request req : keeps R (cancel_tx cred op id request req).
Proof. unfold cancel_tx. auth_tac. Qed.
Lemma reconcile_keeps cred op id req : keeps R (reconcile_tx cred op id req).
Proof. unfold reconcile_tx. auth_tac. Qed.
End base.
#[export] Hint Resolve audit_keeps clock_keeps watermark_keeps claims_keeps checkOperation_keeps candidateClaims_keeps
  Secret_keeps touch_keeps invalidate_keeps new_revision_keeps attempt_keeps elevate_keeps revoke_keeps
  tls_state_keeps tls_mutation_keeps PrepareRestore_keeps prepare_keeps read_keeps validate_keeps resolve_keeps cancel_keeps
  reconcile_keeps : keeps.

(** ** Relations that do not look at users and roles *)

Section free.
Context (R : db -> db -> Prop) `{!AuthBase R, !PolicyFree R}.
Hint Resolve st_policy st_grant st_token : keeps.
Lemma insert_templates_keeps l admin : keeps R (insert_templates l admin).
Proof. revert admin. induction l as [|[name caps] l IH]; intros admin; cbn; unfold insert_role, insert_auth_role; auth_tac. Qed.
Hint Resolve insert_templates_keeps : keeps.
Lemma mutate_keeps c op path etag v verifier id req : keeps R (mutate c op path etag v verifier id req).
Proof.
  unfold mutate, dispatch_command, create_user, existing_user, change_user, change_password, delete_user, write_role,
    create_token, revoke_token, update_principal, insert_principal, insert_auth_principal, insert_role, insert_auth_role.
  auth_tac.
Qed.
Hint Resolve mutate_keeps : keeps.
Lemma free_steps : AuthSteps R.
Proof.
  split; intros.
  - unfold bootstrap_tx, insert_principal, insert_auth_principal. auth_tac.
  - unfold login_tx, reject_login, issue_grant. auth_tac.
  - unfold set_execution_role. auth_tac.
  - unfold execute_mutation. auth_tac.
Qed.
End free.

(** ** The services *)

(** What a judgement on programs must allow for it to hold of every service:
    the constructs, the writes that keep [R], the programs of the core. *)
Class Judgement (R : db -> db -> Prop) (J : forall {A}, prog A -> Prop) : Prop := {
  j_ret : forall A (a : A), J (Ret a);
  j_bind : forall A B (m : prog A) (k : A -> prog B), J m -> (forall a, J (k a)) -> J (pbind m k);
  j_query : forall X (q : query X), J (query_ q);
  j_read : forall X (f : db -> result X), J (read f);
  j_write : forall X (f : tx X), keeps R f -> J (write f);
  j_decide : forall en id seq d c, J (SafeApply.Decide en id seq d c);
  j_reconcile : forall id, J (Executions.Reconcile id) }.
Create HintDb judged.
Ltac judge_step :=
  match goal with
  | |- forall _, _ => intros ?
  | |- _ (Ret _) => apply j_ret
  | |- _ (query_ _) => apply j_query
  | |- _ (read _) => apply j_read
  | |- _ (write _) => apply j_write; eauto with keeps
  | |- _ (SafeApply.Decide _ _ _ _ _) => apply j_decide
  | |- _ (Executions.Reconcile _) => apply j_reconcile
  | |- _ => solve [eauto with judged]
  | |- _ (pbind _ _) => apply j_bind
  | |- _ (match ?x with _ => _ end) => destruct x
  | |- _ (let '(_, _) := ?x in _) => destruct x
  end.
Ltac judge := repeat judge_step.

Section services.
Context (operation : string -> string -> result (Operation * string * bool)).
Context (ValidateParameters : Operation -> AuthService.Command -> result unit).
Context (Decode : Operation -> string -> result (Payload * Body * string)).
Context (decode_command : string -> option CandidateTypes.Command).
Context (derive : string -> list Z -> list Z) (snapshot : list Binding -> result Snapshot).
Context (key : list Z) (fields : option Executions.Engine).

(** The entry points of internal/repository/auth that may write; the flag
    tells which of them admits an apply. *)
Inductive service : bool -> forall {A : Type}, prog A -> Prop :=
  | S_bootstrap order name password : order ≡ₚ Templates -> service false (Bootstrap derive order name password)
  | S_authenticate l : service false (Authenticate derive l)
  | S_reauthenticate cred password : service false (Reauthenticate derive cred password)
  | S_revoke cred : service false (RevokeAuth cred)
  | S_provision cap op id b : contains reserved_capabilities cap = true -> service false (provision cap op id b)
  | S_execute cred input : service false (ExecuteAuth operation ValidateParameters Decode derive key fields cred input)
  | S_tls cred input cmd payload : service false (ExecuteTLS operation ValidateParameters key cred input cmd payload)
  | S_tls_state : service false (write tls_state_tx)
  | S_prepare fresh rev cred input e :
      service false (PrepareCandidate operation ValidateParameters Decode decode_command snapshot key fresh rev cred input e)
  | S_read cred e id : service false (ReadCandidate snapshot key fields cred e id)
  | S_validate cred input e : service false (ValidateCandidate operation ValidateParameters Decode snapshot key cred input e)
  | S_resolve cred input q : service false (ResolveSafeApply operation ValidateParameters Decode key cred input q)
  | S_admit cred e input res payload :
      service true (AdmitSafeApply operation ValidateParameters Decode fields cred e input res payload)
  | S_restore : service false (write PrepareRestore).

Section judged.
Context (R : db -> db -> Prop) (J : forall A, prog A -> Prop) `{!AuthBase R, !AuthSteps R, !Judgement R J}.

Lemma read_claims_judged cred : J _ (read_claims cred).
Proof. unfold read_claims. judge. Qed.
Hint Resolve read_claims_judged : judged.
Lemma InspectAuth_judged cred : J _ (InspectAuth cred).
Proof. unfold InspectAuth. judge. Qed.
Lemma CheckAuth_judged cred cap refs : J _ (CheckAuth cred cap refs).
Proof. unfold CheckAuth. judge. Qed.
Lemma recheck_judged check : J _ (recheck check).
Proof. unfold recheck. judge. Qed.
Lemma available_judged en : J _ (SafeApply.SafetyAvailable en).
Proof. unfold SafeApply.SafetyAvailable. judge. Qed.
Lemma Replay_judged c a : J _ a -> J _ (Requests.Replay c a).
Proof. intros. unfold Requests.Replay. judge. Qed.
Lemma Execute_judged c a m : (forall req, keeps R (m req)) -> J _ a -> J _ (Requests.Execute c a m).
Proof. intros. unfold Requests.Execute. judge. Qed.
Hint Resolve InspectAuth_judged CheckAuth_judged recheck_judged available_judged Replay_judged : judged.
Hint Extern 5 (J _ (Requests.Execute _ _ _)) => apply Execute_judged; [intros; eauto with keeps|judge] : judged.

Lemma cancelJob_judged cred input : J _ (cancelJob operation ValidateParameters Decode cred input).
Proof. unfold cancelJob. judge. Qed.
Lemma reconcileFields_judged cred input : J _ (reconcileFields operation ValidateParameters Decode fields cred input).
Proof. unfold reconcileFields. judge. Qed.
Lemma decideSafeApply_judged cred input : J _ (decideSafeApply operation ValidateParameters Decode fields cred input).
Proof. unfold decideSafeApply. judge. Qed.
Lemma execute_security_judged cred op path input :
  J _ (execute_security ValidateParameters Decode derive key cred op path input).
Proof. unfold execute_security, prepare_password. judge. Qed.
Hint Resolve cancelJob_judged reconcileFields_judged decideSafeApply_judged execute_security_judged : judged.
Lemma ExecuteAuth_judged cred input : J _ (ExecuteAuth operation ValidateParameters Decode derive key fields cred input).
Proof. unfold ExecuteAuth. judge. Qed.

Lemma services_judged admits {A} (m : prog A) :
  (admits = true -> forall en req lease c res, J _ (Admission.SubmitSafe en req lease c res)) -> service admits m -> J _ m.
Proof.
  intros Hsubmit. destruct 1.
  - unfold Bootstrap. judge.
  - unfold Authenticate. judge.
  - unfold Reauthenticate. judge.
  - unfold RevokeAuth. judge.
  - unfold provision. judge.
  - apply ExecuteAuth_judged.
  - unfold ExecuteTLS. judge.
  - judge.
  - unfold PrepareCandidate. judge.
  - unfold ReadCandidate. judge.
  - unfold ValidateCandidate. judge.
  - unfold ResolveSafeApply. judge.
  - unfold AdmitSafeApply. specialize (Hsubmit eq_refl). judge.
  - judge.
Qed.
End judged.
End services.
