(* ===== verification/Manager.v ===== *)
(** * The manager as a whole

    The entry points of the process: those of the execution core and every
    service of internal/repository/auth. The services only reach transactions
    through the core ([services_goroutine]), so what [sys_ok] says holds under
    every interleaving of all of them. *)

From S2P Require Import Prelude GoStrings GoTime GoJson ApiTypes CandidateTypes Intents Snapshots ExecTypes AuthTables Store.
From S2P Require Import Evidence Reservations Program Requests Executions SafeApply Admission Conformance System Soundness.
From S2P Require Import Transitions Handlers Goroutines Scenario Jobs.
From S2P Require Import AuthTypes AuthStore AuthCommands AuthSessions AuthDrafts AuthTLS AuthService AuthFrames.
Import Snapshots AuthTypes AuthTables AuthStore AuthCommands AuthSessions AuthDrafts AuthTLS AuthService.

(** ** The entry points *)

(** The contract, the provider and the key are any. *)
Inductive entry : prog unit -> Prop :=
  | E_core p : core_entry p -> entry p
  | E_service A (m : prog A) operation parameters decode decode_command derive snapshot key fields admits :
      service operation parameters decode decode_command derive snapshot key fields admits m -> entry (ignore m).
Notation step := (System.step entry).
Notation reachable := (System.reachable entry).

(** ** What every program sends and keeps *)

#[export] Instance conforms_judgement P R `{!CoreTransactions R} : Judgement R (fun A => @conforms A P R).
Proof.
  split; intros; try done.
  - by apply conforms_bind.
  - by apply Decide_sends.
  - by apply Reconcile_sends.
Qed.
Lemma submit_conforms (P : dispatch -> Prop) R `{!CoreTransactions R} en req lease c res :
  (forall id, P (Forward id)) -> conforms P R (Admission.SubmitSafe en req lease c res).
Proof. intros HP. unfold Admission.SubmitSafe. case_match; [done|]. by apply submit_sends. Qed.
Lemma services_conform (P : dispatch -> Prop) R `{!CoreTransactions R, !AuthBase R, !AuthSteps R}
    operation parameters decode decode_command derive snapshot key fields admits A (m : prog A) :
  (admits = true -> forall id, P (Forward id)) ->
  service operation parameters decode decode_command derive snapshot key fields admits m -> conforms P R m.
Proof.
  intros HP. apply (services_judged _ _ _ _ _ _ _ _ R (fun A => @conforms A P R)). intros Ha *.
  apply submit_conforms; [done|by apply HP].
Qed.

(** ** The services are goroutines *)

#[export] Instance core_base : AuthBase (same core).
Proof.
  split; intros; unfold candidateFence, record_witness, move_witness, on_creds, on_drafts, on_authz;
    try solve [keeps_tac]; try solve [eauto with keeps].
  - typeclasses eauto.
  - unfold Requests.execute_tx, Requests.execute_new. keeps_tac.
Qed.
#[export] Instance core_policy : PolicyFree (same core).
Proof. split; intros; unfold on_policy, insert_grant, insert_token, on_creds; keeps_tac. Qed.
#[export] Instance core_steps : AuthSteps (same core) := free_steps _.
Lemma core_tx_ok d d' : same core d d' -> inv d -> tx_ok None d d'.
Proof.
  intros (E1 & E2 & E3 & _)%core_parts Hi. split_and!.
  - by eapply inv_tables.
  - intros id _. by apply slice_of_tables.
  - done.
Qed.
#[export] Instance goroutine_judgement : Judgement (same core) (fun A => @goroutine A).
Proof.
  split; intros; unfold goroutine in *.
  - by apply wp_done.
  - apply wp_bind. eapply wp_mono; [eassumption|]. by intros own a ->.
  - done.
  - done.
  - split; [done|]. intros w d x n d' Hi _ Hf. split; [|done]. apply core_tx_ok; [by eapply H|done].
  - apply wp_Decide.
  - apply wp_Reconcile.
Qed.
Lemma submit_goroutine en req lease c res : goroutine (Admission.SubmitSafe en req lease c res).
Proof. unfold Admission.SubmitSafe. case_match; [by apply wp_done|apply wp_submit]. Qed.
Lemma entries_goroutine p : entry p -> goroutine p.
Proof.
  destruct 1 as [p Hp|A m ? ? ? ? ? ? ? ? ? Hm]; [by apply core_goroutine|]. apply ignore_goroutine.
  refine (services_judged _ _ _ _ _ _ _ _ (same core) (fun A => @goroutine A) _ m _ Hm). intros _ *. apply submit_goroutine.
Qed.

(** ** What the process keeps *)

Section kept.
Context (R : db -> db -> Prop) `{!AuthBase R, !AuthSteps R, !CoreTransactions R}.
Notation keeping := (conforms (fun _ => True) R).

Lemma entry_keeping p : entry p -> keeping p.
Proof.
  assert (forall A (m : prog A), keeping m -> keeping (ignore m)) as Hi.
  { intros A m H. by apply conforms_bind. }
  destruct 1 as [p Hp|A m ? ? ? ? ? ? ? ? ? Hm]; [destruct Hp; apply Hi, core_conforms; (done || constructor)|].
  apply Hi. by eapply services_conform.
Qed.
Lemma effect_keeping st m st' m' forked : effect st m st' m' forked -> keeping m ->
  R (fst (fst st)) (fst (fst st')) /\ keeping m' /\ forall q, forked = Some q -> keeping q.
Proof. pose proof st_preorder. destruct 1; cbn; intros Hm; try destruct Hm as [Hk Hm]; split_and!; try done; try naive_solver; eauto. Qed.

(** Steps of other components leave [R] alone. *)
Hypothesis others : forall d d', owned_tables d' = owned_tables d -> R d d'.
Lemma step_keeping s s' : step s s' -> Forall keeping (tasks s) ->
  R (durable s) (durable s') /\ Forall keeping (tasks s').
Proof.
  pose proof st_preorder. destruct 1 as [d a l ts p Hp|d a l ts i p d' a' l' p' forked Hl He|d d' a l ts Eo|d a l ts]; cbn; intros Ht.
  - split; [done|]. apply Forall_app. split; [done|]. by apply Forall_singleton, entry_keeping.
  - apply effect_keeping in He as (HR & Hp & Hq); [|by eapply Forall_lookup_1]. split; [done|].
    apply Forall_app. split; [by apply Forall_insert|]. destruct forked; [|done]. apply Forall_singleton. auto.
  - auto.
  - by split.
Qed.
Lemma process_keeping s s' : reachable s -> rtc step s s' -> R (durable s) (durable s').
Proof.
  pose proof st_preorder. intros (s0 & (_ & _ & _ & _ & _ & E) & Hr) Hs.
  assert (forall a b, rtc step a b -> Forall keeping (tasks a) -> R (durable a) (durable b) /\ Forall keeping (tasks b)) as Hk.
  { induction 1 as [a|a b c Hab _ IH]; [done|]. intros Ha. apply step_keeping in Hab as [H1 Hb]; [|done].
    apply IH in Hb as [H2 Hc]. split; [by etrans|done]. }
  apply Hk in Hr as [_ Hr]; [|by rewrite E]. by apply Hk in Hs as [? _].
Qed.
End kept.
