(* ===== verification/SafetyProperties.v ===== *)
(** * What every reachable state of the manager guarantees

    The properties of Safe Apply under every interleaving of requests,
    recovery passes and decisions, every answer of the provider, the storage
    and the clocks, and every crash. *)

From S2P Require Import Prelude GoStrings GoTime GoJson ApiTypes CandidateTypes Intents ExecTypes Store.
From S2P Require Import Evidence Reservations Program Requests Executions SafeApply Admission System Soundness.
From S2P Require Import Transitions Handlers Goroutines Scenario Manager.

Lemma process_ok s : reachable s -> sys_ok s.
Proof. apply reachable_sys_ok, entries_goroutine. Qed.
Lemma process_step s s' : reachable s -> step s s' -> reachable s'.
Proof. intros (s0 & H0 & Hr) Hs. exists s0. split; [done|]. by eapply rtc_r. Qed.
Lemma process_advance s s' id : reachable s -> step s s' -> advance (slice_of id (durable s)) (slice_of id (durable s')).
Proof. intros Hr Hs. eapply step_advance; [by apply process_ok|done]. Qed.

(** ** The scenarios are reachable *)

Lemma fresh_reachable : reachable (sys_of fresh []).
Proof. exists (sys_of fresh []). split; [done|apply rtc_refl]. Qed.
Lemma submit_run : exists ts, rtc step (sys_of fresh []) (sys_of after_submit ts).
Proof. apply run_rtc, E_core, E_submit_safe. Qed.
Lemma tick_run ts : exists ts', rtc step (sys_of after_submit ts) (sys_of after_tick ts').
Proof. apply run_rtc, E_core, E_safety_tick. Qed.
Lemma confirm_run ts : exists ts', rtc step (sys_of after_tick ts) (sys_of confirmed ts').
Proof. apply run_rtc, E_core, E_decide. Qed.
Lemma ticks_run n : forall s ts, exists ts', rtc step (sys_of s ts) (sys_of (ticks n s) ts').
Proof.
  induction n as [|n IH]; intros s ts; [exists ts; apply rtc_refl|]. cbn [ticks].
  destruct (run_rtc entry outage s ts tick_once) as [ts1 H1]; [apply E_core, E_safety_tick|].
  destruct (IH (snd (interpret outage tick_once s)) ts1) as [ts2 H2]. exists ts2. by etrans.
Qed.

Lemma after_tick_reachable : exists ts, reachable (sys_of after_tick ts).
Proof.
  destruct submit_run as [ts1 H1], (tick_run ts1) as [ts2 H2]. exists ts2.
  eapply reachable_rtc; [apply fresh_reachable|]. by etrans.
Qed.
Lemma confirmed_reachable : exists ts, reachable (sys_of confirmed ts).
Proof. destruct after_tick_reachable as [ts H], (confirm_run ts) as [ts' H']. exists ts'. by eapply reachable_rtc. Qed.
Lemma rolled_back_reachable n : exists ts, reachable (sys_of (ticks n after_tick) ts).
Proof.
  destruct after_tick_reachable as [ts H], (ticks_run n after_tick ts) as [ts' H']. exists ts'. by eapply reachable_rtc.
Qed.

(** ** Dispatch *)

(** C1. Over the whole life of a database, across any number of restarts, the
    mutation bytes of an execution are sent at most once, those of its
    compensation at most once, and what was sent is the plan that its journal
    (its safety record) durably holds. *)
Theorem dispatch_at_most_once s w :
  reachable s ->
  (sends w (sent s) <= 1)%nat /\
  forall p, (w, p) ∈ sent s -> intent w (slice_of (target w) (durable s)) = Some p.
Proof. intros [_ _ H1 H2]%process_ok. eauto. Qed.
Lemma dispatch_at_most_once_witness : exists ts s, s = sys_of (ticks 4 after_tick) ts /\
  sends (Forward transaction_id) (sent s) = 1%nat /\ sends (Compensate transaction_id) (sent s) = 1%nat /\
  forall w, (sends w (sent s) <= 1)%nat.
Proof.
  destruct (rolled_back_reachable 4) as [ts H]. exists ts. eexists. split; [done|].
  split; [vm_compute; reflexivity|]. split; [vm_compute; reflexivity|].
  intros w. exact (proj1 (dispatch_at_most_once _ w H)).
Defined.

Lemma step_sends_one s s' w : step s s' -> sends w (sent s) = 0%nat -> sends w (sent s') <> 0%nat ->
  exists p, sent s' = (w, p) :: sent s.
Proof.
  intros Hs H1 H2. destruct Hs as [| d a l ts i p d' a' l' p' forked Hi He| |]; cbn in *; try done.
  remember (d, a, l) as st eqn:E. remember (d', a', l') as st' eqn:E'.
  destruct He; inversion E; inversion E'; subst; try done.
  exists p. rewrite sends_cons in H2. case_bool_decide; [by subst|]. done.
Qed.

(** C3. The write-ahead rule: at every step that sends mutation bytes, the
    database already holds the dispatch intent of exactly that plan, in the
    state [committing] (for a compensation, [rolling-back]). *)
Theorem write_ahead s s' w p :
  reachable s -> step s s' -> sent s' = (w, p) :: sent s ->
  intent w (slice_of (target w) (durable s)) = Some p /\ written_ahead w (slice_of (target w) (durable s)).
Proof. intros Hr. apply step_sends. by apply process_ok. Qed.
Lemma write_ahead_witness : exists s s' p, reachable s /\ step s s' /\ sent s' = (Forward transaction_id, p) :: sent s /\
  written_ahead (Forward transaction_id) (slice_of transaction_id (durable s)).
Proof.
  destruct submit_run as [ts Hr].
  destruct (rtc_leaves entry (fun s => sends (Forward transaction_id) (sent s) = 0%nat) _ _ Hr) as (s1 & s2 & H1 & Hs & P1 & P2);
    [reflexivity|vm_compute; discriminate|].
  assert (reachable s1) as Hr1 by (eapply reachable_rtc; [apply fresh_reachable|exact H1]).
  destruct (step_sends_one _ _ _ Hs P1 P2) as [p Hp].
  exists s1, s2, p. split_and!; [exact Hr1|exact Hs|exact Hp|].
  exact (proj2 (write_ahead s1 s2 (Forward transaction_id) p Hr1 Hs Hp)).
Defined.

(** ** Decisions *)

Lemma rtc_advance {B} (f : slice -> B) (P : slice -> Prop) s s' id :
  reachable s -> rtc step s s' ->
  (forall x x', advance x x' -> P x -> P x' /\ f x' = f x) ->
  P (slice_of id (durable s)) -> f (slice_of id (durable s')) = f (slice_of id (durable s)).
Proof.
  intros Hr Hs Hf. induction Hs as [s|s1 s2 s3 Hs _ IH]; intros HP; [done|].
  destruct (Hf _ _ (process_advance _ _ id Hr Hs) HP) as [HP2 E].
  rewrite IH; [done|by eapply process_step|done].
Qed.

(** C4. A decision is final: a Safe Apply that is [confirmed], [rolled-back]
    or [not-committed] keeps its record, unchanged, through every later step
    of the process, restarts included. *)
Theorem decision_final s s' id row :
  reachable s -> rtc step s s' -> safe_applies (durable s) !! id = Some row -> Terminal (sa_state row) = true ->
  safe_applies (durable s') !! id = Some row.
Proof.
  intros Hr Hs Hrow Ht. rewrite <- Hrow.
  apply (rtc_advance sl_safe (fun x => sl_safe x = Some row) _ _ id Hr Hs); [|done].
  intros x x' [_ Ha _] E. rewrite E in Ha. destruct (sl_safe x') as [row'|] eqn:E'; [|done].
  destruct Ha as (_ & _ & _ & _ & Habs & _). by rewrite (Habs Ht), E.
Qed.
Lemma row_state (d : db) id st : sa_state <$> safe_applies d !! id = Some st ->
  exists row, safe_applies d !! id = Some row /\ sa_state row = st.
Proof. destruct (safe_applies d !! id) as [row|]; [|done]. intros [= <-]. by exists row. Qed.
Lemma confirmed_row : exists row, safe_applies (st_db confirmed) !! transaction_id = Some row /\ sa_state row = "confirmed".
Proof. apply row_state. vm_compute. reflexivity. Qed.

Lemma decision_final_witness : exists s s' row, reachable s /\ step s s' /\ active s' = ∅ /\
  sa_state row = "confirmed" /\ safe_applies (durable s') !! transaction_id = Some row.
Proof.
  destruct confirmed_reachable as [ts H], confirmed_row as (row & E & Hst).
  pose proof (Step_crash (entry:=entry) (st_db confirmed) (st_active confirmed) (st_sent confirmed) ts) as Hc.
  eexists _, _, row. split_and!; [exact H|exact Hc|reflexivity|exact Hst|].
  apply (decision_final _ _ _ row H (rtc_once _ _ Hc)); [exact E|]. by rewrite Hst.
Defined.


(** C10. A durable compensation is never withdrawn or replaced. *)
Theorem compensation_kept s s' id p :
  reachable s -> rtc step s s' -> rollback_of (slice_of id (durable s)) = Some p ->
  rollback_of (slice_of id (durable s')) = Some p.
Proof.
  intros Hr Hs Hp. rewrite <- Hp.
  apply (rtc_advance rollback_of (fun x => rollback_of x = Some p) _ _ id Hr Hs); [|done].
  intros x x' Ha E. pose proof (advance_intent x x' (Compensate id) p Ha E) as E'. cbn in E'. by rewrite E, E'.
Qed.
Lemma compensation_kept_witness : exists p,
  rollback_of (slice_of transaction_id (st_db (ticks 3 after_tick))) = Some p /\
  rollback_of (slice_of transaction_id (st_db (ticks 1 (ticks 3 after_tick)))) = Some p.
Proof.
  destruct (rolled_back_reachable 3) as [ts H], (ticks_run 1 (ticks 3 after_tick) ts) as [ts' H'].
  destruct (rollback_of (slice_of transaction_id (st_db (ticks 3 after_tick)))) as [p|] eqn:E;
    [|exfalso; revert E; vm_compute; discriminate].
  exists p. split; [reflexivity|]. exact (compensation_kept _ _ _ p H H' E).
Defined.


(** C12. One management path, one apply: two open Safe Applies never share a
    probe domain. *)
Theorem one_apply_per_domain s id1 id2 r1 r2 :
  reachable s -> safe_applies (durable s) !! id1 = Some r1 -> safe_applies (durable s) !! id2 = Some r2 ->
  Terminal (sa_state r1) = false -> Terminal (sa_state r2) = false -> sa_domain r1 = sa_domain r2 -> id1 = id2.
Proof. intros [[_ Hd] _ _ _]%process_ok. apply Hd. Qed.
Lemma one_apply_per_domain_witness : exists row, safe_applies (st_db after_tick) !! transaction_id = Some row /\
  sa_domain row = "management-path" /\
  forall id row', safe_applies (st_db after_tick) !! id = Some row' -> Terminal (sa_state row') = false ->
    sa_domain row' = sa_domain row -> id = transaction_id.
Proof.
  destruct after_tick_reachable as [ts H].
  assert ((fun row => (sa_domain row, sa_state row)) <$> safe_applies (st_db after_tick) !! transaction_id
          = Some ("management-path", "awaiting-confirmation")) as E by (vm_compute; reflexivity).
  destruct (safe_applies (st_db after_tick) !! transaction_id) as [row|] eqn:Er; [|discriminate E].
  injection E as Ed Es. exists row. split; [reflexivity|]. split; [exact Ed|]. intros id row' Hr' Ht Hd.
  apply (one_apply_per_domain _ id transaction_id row' row H Hr' Er Ht); [by rewrite Es|exact Hd].
Defined.

Lemma kept_safe s s' id row : reachable s -> step s s' -> safe_applies (durable s) !! id = Some row ->
  exists row', safe_applies (durable s') !! id = Some row'.
Proof.
  intros Hr Hs E. destruct (process_advance _ _ id Hr Hs) as [_ Ha _]. cbn in Ha. rewrite E in Ha.
  destruct (safe_applies (durable s') !! id); [by eexists|done].
Qed.

(** A confirmation follows the open confirmation window: the step that
    confirms a Safe Apply finds it [awaiting-confirmation], with no
    compensation on its way. *)
Theorem confirmed_from_window s s' id row row' :
  reachable s -> step s s' ->
  safe_applies (durable s) !! id = Some row -> safe_applies (durable s') !! id = Some row' ->
  sa_state row <> "confirmed" -> sa_state row' = "confirmed" ->
  sa_state row = "awaiting-confirmation" /\ Rollback (sa_doc row) = None.
Proof.
  intros Hr Hs Hrow Hrow' H1 H2. pose proof (process_ok _ Hr) as [Hi _ _ _].
  pose proof (process_ok _ (process_step _ _ Hr Hs)) as [Hi' _ _ _].
  destruct (ok_safe _ _ (inv_slices _ Hi id) row Hrow) as (_ & _ & E & _ & Hst & _).
  destruct (ok_safe _ _ (inv_slices _ Hi' id) row' Hrow') as (_ & _ & E' & _).
  destruct (process_advance _ _ id Hr Hs) as [_ Ha _]. cbn in Ha. rewrite Hrow, Hrow' in Ha.
  destruct Ha as (_ & _ & _ & _ & _ & _ & Hc). destruct Hc as [Hc|Hc]; [congruence| |congruence].
  split; [congruence|]. destruct (Rollback (sa_doc row)) eqn:Er; [|done]. rewrite Hc in Hst. by specialize (Hst ltac:(done)).
Qed.
Lemma confirmed_from_window_witness : exists s s' row row', reachable s /\ step s s' /\
  safe_applies (durable s) !! transaction_id = Some row /\ safe_applies (durable s') !! transaction_id = Some row' /\
  sa_state row' = "confirmed" /\ sa_state row = "awaiting-confirmation" /\ Rollback (sa_doc row) = None.
Proof.
  destruct after_tick_reachable as [ts H], (confirm_run ts) as [ts' Hr].
  destruct (rtc_leaves entry (fun s => match safe_applies (durable s) !! transaction_id with
                                 | Some row => sa_state row <>s "confirmed" | None => false end = true) _ _ Hr)
    as (s1 & s2 & H1 & Hs & P1 & P2); [vm_compute; reflexivity|vm_compute; discriminate|].
  assert (reachable s1) as Hr1 by (eapply reachable_rtc; [exact H|exact H1]).
  destruct (safe_applies (durable s1) !! transaction_id) as [row|] eqn:E1; [|discriminate P1].
  destruct (kept_safe _ _ _ row Hr1 Hs E1) as [row' E2]. rewrite E2 in P2.
  apply not_true_is_false, negb_false_iff, String.eqb_eq in P2. apply negb_true_iff, String.eqb_neq in P1.
  exists s1, s2, row, row'. split_and!; [exact Hr1|exact Hs|exact E1|exact E2|exact P2| |];
    apply (confirmed_from_window s1 s2 transaction_id row row' Hr1 Hs E1 E2 P1 P2).
Defined.

Lemma same_doc_state s s' id e e' : reachable s -> step s s' ->
  field_executions (durable s) !! id = Some e -> field_executions (durable s') !! id = Some e' ->
  fe_doc e' = fe_doc e -> fe_state e' = fe_state e.
Proof.
  intros Hr Hs E E' Hd. pose proof (process_ok _ Hr) as [Hi _ _ _].
  pose proof (process_ok _ (process_step _ _ Hr Hs)) as [Hi' _ _ _].
  destruct (ok_exec _ _ (inv_slices _ Hi id) e E) as (_ & -> & _).
  destruct (ok_exec _ _ (inv_slices _ Hi' id) e' E') as (_ & -> & _). by rewrite Hd.
Qed.
Lemma fresh_admitted s s' id e' : reachable s -> step s s' ->
  field_executions (durable s) !! id = None -> field_executions (durable s') !! id = Some e' -> fe_state e' = "admitted".
Proof.
  intros Hr Hs E E'. destruct (process_advance _ _ id Hr Hs) as [Ha _ _]. cbn in Ha. by rewrite E, E' in Ha.
Qed.

(** Every change of a journal record is a new version: its sequence grows,
    its plan stays, and it never returns to [admitted]. *)
Theorem journal_versions s s' id e e' :
  reachable s -> step s s' ->
  field_executions (durable s) !! id = Some e -> field_executions (durable s') !! id = Some e' ->
  x_Plan (fe_doc e') = x_Plan (fe_doc e) /\
  (fe_state e <> "admitted" -> fe_state e' <> "admitted") /\
  (fe_doc e' = fe_doc e \/ later (x_Sequence (fe_doc e)) (x_Sequence (fe_doc e'))).
Proof.
  intros Hr Hs He He'. destruct (process_advance _ _ id Hr Hs) as [Ha _ _]. cbn in Ha. by rewrite He, He' in Ha.
Qed.
Lemma journal_versions_witness : exists s s' e e', reachable s /\ step s s' /\
  field_executions (durable s) !! transaction_id = Some e /\ field_executions (durable s') !! transaction_id = Some e' /\
  fe_state e = "admitted" /\ fe_state e' <> "admitted" /\ later (x_Sequence (fe_doc e)) (x_Sequence (fe_doc e')).
Proof.
  destruct submit_run as [ts Hr].
  destruct (rtc_leaves entry (fun s => match field_executions (durable s) !! transaction_id with
                                 | Some e => fe_state e =s "admitted" | None => true end = true) _ _ Hr)
    as (s1 & s2 & H1 & Hs & P1 & P2); [reflexivity|vm_compute; discriminate|].
  assert (reachable s1) as Hr1 by (eapply reachable_rtc; [apply fresh_reachable|exact H1]).
  destruct (field_executions (durable s2) !! transaction_id) as [e'|] eqn:E2; [|by destruct P2].
  apply not_true_is_false, String.eqb_neq in P2.
  destruct (field_executions (durable s1) !! transaction_id) as [e|] eqn:E1.
  - apply String.eqb_eq in P1. exists s1, s2, e, e'. split_and!; [exact Hr1|exact Hs|exact E1|exact E2|exact P1|exact P2|].
    destruct (journal_versions s1 s2 transaction_id e e' Hr1 Hs E1 E2) as (_ & _ & [E|Hl]); [|exact Hl].
    exfalso. apply P2. rewrite <- P1. by apply (same_doc_state s1 s2 transaction_id).
  - exfalso. apply P2. by apply (fresh_admitted s1 s2 transaction_id).
Defined.
