(* ===== verification/Contract.v ===== *)
(** * The contract of a transaction

    What the manager promises for one transaction, without its database: it
    is admitted once, with a plan that stays; its intent and, until it is
    decided, its compensation are recorded once and for good; the bytes of
    either leave once, after the record; it is decided once. Every step of
    the manager is a sequence of such moves ([manager_refines]). *)

From S2P Require Import Prelude GoStrings GoTime GoJson ApiTypes CandidateTypes Intents ExecTypes AuthTables Store.
From S2P Require Import Evidence Program Requests Executions SafeApply Admission System Soundness Scenario Manager SafetyProperties.

(** ** The specification *)

Record apply := mkApply { ap_plan : Plan; ap_dispatched : bool; ap_undo : option Plan; ap_verdict : option string }.
Record promise := mkPromise { pm_apply : option apply; pm_sent : list (dispatch * Plan) }.

(** What may leave for a transaction. *)
Definition recorded (a : apply) (w : dispatch) : option Plan :=
  match w with
  | Forward _ => if ap_dispatched a then Some (ap_plan a) else None
  | Compensate _ => ap_undo a
  end.
(** A confirmed apply was never compensated, one that is rolled back was. *)
Definition verdict_fits (v : string) (undo : option Plan) : Prop :=
  (v = "confirmed" -> undo = None) /\ (v = "rolled-back" -> undo <> None) /\ (v = "not-committed" -> undo = None).
Inductive move : promise -> promise -> Prop :=
  | M_admit p l : move (mkPromise None l) (mkPromise (Some (mkApply p false None None)) l)
  | M_dispatch p u v l : move (mkPromise (Some (mkApply p false u v)) l) (mkPromise (Some (mkApply p true u v)) l)
  | M_compensate p b q l : move (mkPromise (Some (mkApply p b None None)) l) (mkPromise (Some (mkApply p b (Some q) None)) l)
  | M_decide p b u v l : Terminal v = true -> verdict_fits v u ->
      move (mkPromise (Some (mkApply p b u None)) l) (mkPromise (Some (mkApply p b u (Some v))) l)
  | M_send a w p l : recorded a w = Some p -> (forall q, (w, q) ∉ l) ->
      move (mkPromise (Some a) l) (mkPromise (Some a) ((w, p) :: l)).

(** ** What the manager's state means *)

Definition verdict_of (x : slice) : option string :=
  match sl_safe x with Some s => if Terminal (sa_state s) then Some (sa_state s) else None | None => None end.
Definition apply_of (x : slice) : option apply :=
  (fun e => mkApply (x_Plan (fe_doc e)) (negb (fe_state e =s "admitted")) (rollback_of x) (verdict_of x)) <$> sl_exec x.
Definition sent_of (id : string) (l : list (dispatch * Plan)) : list (dispatch * Plan) :=
  filter (fun wp => target (fst wp) = id) l.
Definition promise_of (id : string) (s : sys) : promise :=
  mkPromise (apply_of (slice_of id (durable s))) (sent_of id (sent s)).

Lemma recorded_intent x w p a : apply_of x = Some a -> intent w x = Some p -> recorded a w = Some p.
Proof.
  unfold apply_of, intent, forward_of. destruct (sl_exec x) as [e|]; [|done]. intros [= <-]. destruct w; cbn; [|done].
  by destruct (fe_state e =s "admitted").
Qed.
Lemma verdict_ok id x v : slice_ok id x -> verdict_of x = Some v -> Terminal v = true /\ verdict_fits v (rollback_of x).
Proof.
  unfold verdict_of, rollback_of. intros Hx H. destruct (sl_safe x) as [s|] eqn:Es; [|done].
  destruct (Terminal (sa_state s)) eqn:Et; [|done]. injection H as <-. split; [done|].
  destruct (ok_safe _ _ Hx s Es) as (e & _ & E & _ & _ & (H1 & H2 & H3)). cbn. rewrite E. unfold verdict_fits. naive_solver.
Qed.

(** Moves of an admitted transaction that leave its plan alone. *)
Lemma apply_moves p b b' u u' v v' l :
  (b = true -> b' = true) -> (forall q, u = Some q -> u' = Some q) ->
  (v <> None -> v' = v /\ u' = u) -> (forall x, v' = Some x -> Terminal x = true /\ verdict_fits x u') ->
  rtc move (mkPromise (Some (mkApply p b u v)) l) (mkPromise (Some (mkApply p b' u' v')) l).
Proof.
  intros Hb Hu Hv Hf. transitivity (mkPromise (Some (mkApply p b' u v)) l).
  { destruct b, b'; try apply rtc_refl; [by discriminate Hb|]. apply rtc_once, M_dispatch. }
  destruct v as [v|]; [destruct Hv as [-> ->]; [done|apply rtc_refl]|]. transitivity (mkPromise (Some (mkApply p b' u' None)) l).
  { destruct u as [q|]; [rewrite (Hu q eq_refl); apply rtc_refl|]. destruct u'; [apply rtc_once, M_compensate|apply rtc_refl]. }
  destruct v' as [v'|]; [|apply rtc_refl]. destruct (Hf v' eq_refl). by apply rtc_once, M_decide.
Qed.
Lemma advance_moves id x x' l : slice_ok id x -> slice_ok id x' -> advance x x' ->
  rtc move (mkPromise (apply_of x) l) (mkPromise (apply_of x') l).
Proof.
  intros Hx Hx' [Ae As _]. unfold apply_of.
  destruct (sl_exec x) as [e|] eqn:Ee, (sl_exec x') as [e'|] eqn:Ee'; cbn; try done; try apply rtc_refl.
  - destruct Ae as (Hp & Hst & _). rewrite Hp. apply apply_moves.
    + destruct (String.eqb_spec (fe_state e) "admitted"), (String.eqb_spec (fe_state e') "admitted"); naive_solver.
    + unfold rollback_of. destruct (sl_safe x) as [s|], (sl_safe x') as [s'|]; cbn; try done.
      intros q. apply As.
    + unfold rollback_of, verdict_of. destruct (sl_safe x) as [s|], (sl_safe x') as [s'|]; cbn; try done.
      destruct (Terminal (sa_state s)) eqn:Et; [|done]. destruct As as (_ & _ & _ & _ & H & _). by rewrite (H Et), Et.
    + intros v. by apply (verdict_ok id).
  - assert (rollback_of x' = None /\ verdict_of x' = None) as [-> ->].
    { unfold rollback_of, verdict_of. destruct (sl_safe x) as [s|] eqn:Es.
      - destruct (ok_safe _ _ Hx s Es) as (e & E & _). congruence.
      - destruct (sl_safe x') as [s'|]; [|done]. destruct As as (_ & Hr & Ht). cbn. by rewrite Ht, Hr. }
    rewrite Ae. apply rtc_once, M_admit.
Qed.

(** ** The refinement *)

Lemma step_wire s s' : step s s' ->
  sent s' = sent s \/ exists w p, sent s' = (w, p) :: sent s /\ durable s' = durable s.
Proof.
  destruct 1 as [| d a l ts i p d' a' l' p' forked _ He| |]; cbn; auto.
  remember (d, a, l) as st eqn:E. remember (d', a', l') as st' eqn:E'.
  destruct He; inversion E; inversion E'; subst; auto. right. by eexists _, _.
Qed.
Lemma sent_of_elem id w p l : (w, p) ∈ sent_of id l <-> target w = id /\ (w, p) ∈ l.
Proof. unfold sent_of. by rewrite list_elem_of_filter. Qed.

Lemma sends_elem w q l : (w, q) ∈ l -> (1 <= sends w l)%nat.
Proof.
  induction l as [|[w' q'] l IH]; [by intros ?%not_elem_of_nil|]. rewrite sends_cons.
  intros [[= <- <-]|Hin]%elem_of_cons; [rewrite bool_decide_true by done; lia|]. specialize (IH Hin). lia.
Qed.
Lemma intent_apply id x w p : slice_ok id x -> intent w x = Some p -> exists a, apply_of x = Some a.
Proof.
  intros Hx. unfold intent, forward_of, rollback_of, apply_of. destruct (sl_exec x) as [e|] eqn:Ee; [by eexists|].
  destruct w; [done|]. destruct (sl_safe x) as [s|] eqn:Es; [|done]. destruct (ok_safe _ _ Hx s Es) as (e & E & _). congruence.
Qed.

(** C2. The manager keeps its contract: whatever it does, seen from any one
    transaction, each of its steps is a sequence of the moves that the
    specification allows: admission, the record of an intent, the record of a
    compensation, the one decision, and the bytes of a recorded intent that
    were never sent before. *)
Theorem manager_refines s s' id : reachable s -> step s s' -> rtc move (promise_of id s) (promise_of id s').
Proof.
  intros Hr Hs. pose proof (process_ok _ Hr) as Hok. pose proof (process_ok _ (process_step _ _ Hr Hs)) as Hok'.
  destruct (step_wire _ _ Hs) as [El|(w & p & El & Ed)]; unfold promise_of; rewrite El.
  - apply (advance_moves id); [apply Hok|apply Hok'|by apply process_advance].
  - rewrite Ed. unfold sent_of. rewrite filter_cons. cbn [fst]. case_decide as Ew; [|apply rtc_refl].
    destruct (step_sends _ s s' w p Hok Hs El) as [Hi _]. rewrite Ew in *.
    destruct (intent_apply id _ w p (inv_slices _ (so_inv _ Hok) id) Hi) as [a Ea]. rewrite Ea.
    apply rtc_once, M_send; [by apply (recorded_intent (slice_of id (durable s)))|].
    intros q [_ Hq]%sent_of_elem. pose proof (so_once _ Hok' w) as H1. rewrite El, sends_cons, bool_decide_true in H1 by done.
    pose proof (sends_elem w q _ Hq). lia.
Qed.
Lemma manager_refines_witness : exists s s', reachable s /\ step s s' /\
  verdict_of (slice_of transaction_id (durable s)) = None /\ verdict_of (slice_of transaction_id (durable s')) <> None /\
  rtc move (promise_of transaction_id s) (promise_of transaction_id s').
Proof.
  destruct after_tick_reachable as [ts H], (confirm_run ts) as [ts' Hr].
  destruct (rtc_leaves entry (fun s => is_nil (verdict_of (slice_of transaction_id (durable s))) = true) _ _ Hr)
    as (s1 & s2 & H1 & Hs & P1 & P2); [vm_compute; reflexivity|vm_compute; discriminate|].
  assert (reachable s1) as Hr1 by (eapply reachable_rtc; [exact H|exact H1]).
  exists s1, s2. split; [exact Hr1|]. split; [exact Hs|].
  split; [by destruct (verdict_of (slice_of transaction_id (durable s1)))|].
  split; [intros E; apply P2; by rewrite E|]. exact (manager_refines s1 s2 transaction_id Hr1 Hs).
Defined.
