(* ===== verification/AuthPolicy.v ===== *)
(** * Sets of capabilities

    [unique] keeps the elements and drops the repetitions; a valid set is a
    list of distinct known capabilities; what a principal may do is the union
    of its roles. *)

From S2P Require Import Prelude GoStrings GoTime GoJson ApiTypes CandidateTypes Planning ExecTypes AuthTables Store AuthTypes AuthStore AuthCommands AuthSessions.
Import Planning AuthTypes AuthTables AuthStore AuthCommands AuthSessions.

#[global] Arguments allCapabilities : simpl never.
#[global] Arguments reserved_capabilities : simpl never.

(** ** unique *)

Lemma compact_elem l x : x ∈ compact l <-> x ∈ l.
Proof.
  induction l as [|a [|b r] IH]; [done|done|]. cbn [compact]. destruct (a =s b) eqn:E.
  - apply String.eqb_eq in E as ->. rewrite IH. set_solver.
  - set_solver.
Qed.
Lemma unique_elem l x : x ∈ unique l <-> x ∈ l.
Proof. unfold unique, sort_strings. by rewrite compact_elem, merge_sort_Permutation. Qed.
Lemma compact_nodup l : StronglySorted (fun a b => Is_true (String.leb a b)) l -> NoDup (compact l).
Proof.
  induction 1 as [|a l Hs IH Ha]; [constructor|]. destruct l as [|b r]; [by apply NoDup_singleton|]. cbn [compact].
  destruct (a =s b) eqn:E; [done|]. apply String.eqb_neq in E. constructor; [|done]. intros Hin.
  apply (compact_elem (b :: r)) in Hin. apply E. apply (leb_antisym_instance a b); [by inversion Ha|].
  apply elem_of_cons in Hin as [->|Hin]; [by inversion Ha|]. inversion Hs as [|? ? _ Hb]; subst.
  rewrite Forall_forall in Hb. by apply Hb.
Qed.
Lemma unique_nodup l : NoDup (unique l).
Proof. apply compact_nodup, StronglySorted_merge_sort; typeclasses eauto. Qed.
Lemma compact_length l : (length (compact l) <= length l)%nat.
Proof. induction l as [|a [|b r] IH]; cbn in *; [lia|lia|]. destruct (a =s b); cbn in *; lia. Qed.
Lemma compact_id l : length (compact l) = length l -> compact l = l.
Proof.
  induction l as [|a [|b r] IH]; [done|done|]. cbn [compact]. destruct (a =s b).
  - intros H. pose proof (compact_length (b :: r)). cbn in *. lia.
  - cbn in *. intros H. f_equal. apply IH. lia.
Qed.
Lemma nodup_compact l : NoDup l -> compact l = l.
Proof.
  induction 1 as [|a [|b r] Ha Hl IH]; [done|done|]. cbn [compact].
  assert ((a =s b) = false) as -> by (apply String.eqb_neq; intros ->; apply Ha; set_solver). by f_equal.
Qed.
Lemma unique_length l : len (unique l) = len l <-> NoDup l.
Proof.
  unfold len, unique, sort_strings. rewrite Nat2Z.inj_iff.
  set (s := merge_sort (fun a b => Is_true (String.leb a b)) l).
  assert (s ≡ₚ l) as Hp by apply merge_sort_Permutation. rewrite <- (Permutation_length Hp), <- Hp. split.
  - intros H. apply compact_id in H. rewrite <- H. apply compact_nodup, StronglySorted_merge_sort; typeclasses eauto.
  - intros H. by rewrite nodup_compact.
Qed.

(** ** Valid sets *)

(** Distinct capabilities that are known; there are fewer than 128 of them. *)
Definition valid (l : list string) : Prop := NoDup l /\ forall c, c ∈ l -> knownCapability c = true.
Lemma known_bound l : valid l -> len l <= 128.
Proof.
  intros [Hd Hk]. unfold len.
  assert (length l <= length (reserved_capabilities ++ allCapabilities))%nat as H.
  { apply NoDup_incl_length; [by apply NoDup_ListNoDup|]. intros c Hc%list_elem_of_In%Hk.
    apply in_app_iff. apply orb_true_iff in Hc as [Hc|Hc]; apply contains_In in Hc; [by left|by right]. }
  assert (length (reserved_capabilities ++ allCapabilities) <= 128)%nat as Hn by (vm_compute; lia). lia.
Qed.
Lemma valid_ok l : is_ok (validateCapabilities l) = true <-> valid l.
Proof.
  unfold validateCapabilities. split.
  - intros H. destruct ((128 <? len l) || negb (len (unique l) =? len l)) eqn:E; [done|].
    destruct (existsb (fun c => negb (knownCapability c)) l) eqn:Ek; [done|]. bsimp. destruct E as [_ E].
    apply unique_length in E. split; [done|]. intros c Hc. destruct (knownCapability c) eqn:Kc; [done|].
    assert (existsb (fun c => negb (knownCapability c)) l = true); [|congruence].
    apply existsb_exists. exists c. split; [by apply list_elem_of_In|by rewrite Kc].
  - intros Hv. pose proof (known_bound l Hv) as Hb. destruct Hv as [Hd Hk].
    assert ((128 <? len l) = false) as -> by (apply Z.ltb_ge; lia).
    assert ((len (unique l) =? len l) = true) as -> by (by apply Z.eqb_eq, unique_length). cbn.
    destruct (existsb _ l) eqn:E; [|done]. apply existsb_exists in E as (c & Hc%list_elem_of_In & Hn).
    by rewrite Hk in Hn.
Qed.
Lemma valid_not l : is_ok (validateCapabilities l) = false <-> ~ valid l.
Proof. rewrite <- valid_ok. by destruct (is_ok _). Qed.
Lemma unique_valid l : (forall c, c ∈ l -> knownCapability c = true) -> valid (unique l).
Proof. intros H. split; [apply unique_nodup|]. intros c. rewrite unique_elem. apply H. Qed.
Lemma all_valid : valid allCapabilities.
Proof. apply valid_ok. by vm_compute. Qed.

Lemma contains_elem l x : contains l x = true <-> x ∈ l.
Proof. by rewrite contains_In, list_elem_of_In. Qed.
Lemma subset_elem l l' : subset l l' = true <-> forall x, x ∈ l -> x ∈ l'.
Proof.
  unfold subset. rewrite forallb_forall. setoid_rewrite contains_elem. setoid_rewrite list_elem_of_In. done.
Qed.
Lemma intersection_elem l l' x : x ∈ intersection l l' <-> x ∈ l /\ x ∈ l'.
Proof. unfold intersection. rewrite unique_elem, list_elem_of_filter, contains_elem. tauto. Qed.

(** ** What a principal may do *)

Definition may (p : policy_tables) (id c : string) : Prop := exists set, set ∈ role_sets p id /\ c ∈ set.
Lemma capabilities_ok p id caps : capabilities p id = Ok caps ->
  (forall set, set ∈ role_sets p id -> valid set) /\ (forall c, c ∈ caps <-> may p id c).
Proof.
  unfold capabilities. destruct (existsb _ _) eqn:E; [done|]. intros [= <-]. split.
  - intros set Hs. apply valid_ok. destruct (is_ok (validateCapabilities set)) eqn:Ei; [done|].
    assert (existsb (fun caps => negb (is_ok (validateCapabilities caps))) (role_sets p id) = true); [|congruence].
    apply existsb_exists. exists set. split; [by apply list_elem_of_In|by rewrite Ei].
  - intros c. rewrite unique_elem. unfold may. rewrite list_elem_of_In, in_concat.
    setoid_rewrite list_elem_of_In. done.
Qed.
Lemma capabilities_valid p id : (forall set, set ∈ role_sets p id -> valid set) -> exists caps, capabilities p id = Ok caps.
Proof.
  intros H. unfold capabilities. destruct (existsb _ _) eqn:E; [|by eexists].
  apply existsb_exists in E as (set & Hs%list_elem_of_In & Hn). apply negb_true_iff, valid_not in Hn. by destruct Hn; apply H.
Qed.
Lemma role_sets_elem p id set :
  set ∈ role_sets p id <-> exists role, (id, role) ∈ principal_roles p /\ role_caps p role = Some set.
Proof.
  unfold role_sets, role_ids, role_caps. rewrite list_elem_of_omap. setoid_rewrite list_elem_of_omap. split.
  - intros (role & ([i r] & Hin%elem_of_elements & Heq) & Hset). cbn in *. destruct (i =s id) eqn:E; [|done].
    apply String.eqb_eq in E as ->. injection Heq as ->. eauto.
  - intros (role & Hin & Hset). exists role. split; [|done]. exists (id, role). split; [by apply elem_of_elements|].
    cbn. by rewrite String.eqb_refl.
Qed.

(** ** An administrator *)

Definition administrator (p : policy_tables) (id : string) : Prop :=
  exists row, principals p !! id = Some row /\ pr_disabled row = false /\ has_prefix (pr_verifier row) passwordPrefix = true
    /\ auth_principals p !! id <> None
    /\ exists caps, capabilities p id = Ok caps /\ forall c, c ∈ allCapabilities -> c ∈ caps.
Definition administered (p : policy_tables) : Prop := exists id, administrator p id.
Lemma local_principals_elem p id : id ∈ local_principals p ->
  exists row, principals p !! id = Some row /\ pr_disabled row = false /\ has_prefix (pr_verifier row) passwordPrefix = true
    /\ auth_principals p !! id <> None.
Proof.
  unfold local_principals. rewrite list_elem_of_omap. intros ([i row] & Hin%elem_of_map_to_list & H). cbn in *.
  destruct (_ && _) eqn:E; [|done]. injection H as ->. bsimp. destruct E as [[H1 H2] (x & H3)]. exists row. by rewrite H3.
Qed.
Lemma lastAdministrator_ok p : lastAdministrator p = Ok tt -> administered p.
Proof.
  unfold lastAdministrator. assert (forall id, id ∈ local_principals p -> id ∈ local_principals p) as H by done. revert H.
  generalize (local_principals p) at 1 3. intros l. induction l as [|id l IH]; intros Hl; [done|]. cbn [find_administrator].
  destruct (capabilities p id) as [caps|] eqn:E; [|done]. destruct (subset allCapabilities caps) eqn:Es.
  - intros _. exists id. destruct (local_principals_elem p id) as (row & H1 & H2 & H3 & H4); [apply Hl; set_solver|].
    exists row. split_and!; try done. exists caps. split; [done|]. by apply subset_elem.
  - intros H. apply IH; [|exact H]. set_solver.
Qed.

(** ** Roles of root *)

Lemma reserved_apart c : contains reserved_capabilities c = true -> c ∉ allCapabilities.
Proof.
  intros H Hin. assert (forallb (fun c => negb (contains allCapabilities c)) reserved_capabilities = true) as Hd by by vm_compute.
  rewrite forallb_forall in Hd. apply contains_In, Hd in H. apply contains_elem in Hin. by rewrite Hin in H.
Qed.
(** [p'] has the roles of [p], some with one reserved capability granted or
    withdrawn. *)
Record regranted (cap : string) (p p' : policy_tables) : Prop := {
  rg_principals : principals p' = principals p;
  rg_auth : auth_principals p' = auth_principals p;
  rg_assigned : principal_roles p' = principal_roles p;
  rg_roles : forall role set', role_caps p' role = Some set' -> exists set, role_caps p role = Some set /\
    (valid set -> valid set') /\ forall c, c <> cap -> c ∈ set <-> c ∈ set';
  rg_kept : forall role set, role_caps p role = Some set -> exists set', role_caps p' role = Some set' }.

Lemma regranted_administrator cap p p' id : contains reserved_capabilities cap = true -> regranted cap p p' ->
  administrator p id -> administrator p' id.
Proof.
  intros Hc R (row & H1 & H2 & H3 & H4 & caps & H5 & H6). apply capabilities_ok in H5 as [Hv Hm].
  exists row. rewrite (rg_principals _ _ _ R), (rg_auth _ _ _ R). split_and!; try done.
  destruct (capabilities_valid p' id) as [caps' E].
  - intros set'. rewrite role_sets_elem, (rg_assigned _ _ _ R). intros (role & Ha & Hr).
    destruct (rg_roles _ _ _ R _ _ Hr) as (set & Hs & Hval & _). apply Hval, Hv, role_sets_elem. eauto.
  - exists caps'. split; [done|]. apply capabilities_ok in E as [_ Hm']. intros c Hin. apply Hm'.
    pose proof Hin as Hin'. apply H6, Hm in Hin as (set & Hs & Hcs). apply role_sets_elem in Hs as (role & Ha & Hr).
    destruct (rg_kept _ _ _ R _ _ Hr) as [set' Hr']. exists set'. split.
    + apply role_sets_elem. exists role. by rewrite (rg_assigned _ _ _ R).
    + destruct (rg_roles _ _ _ R _ _ Hr') as (set0 & E0 & _ & Heq). assert (set0 = set) as -> by congruence.
      apply Heq; [|done]. intros ->. by apply (reserved_apart cap).
Qed.
Lemma elem_without cap c caps : c ∈ without cap caps <-> c ∈ caps /\ c <> cap.
Proof.
  unfold without. rewrite list_elem_of_In, filter_In, <- list_elem_of_In. unfold negb.
  destruct (String.eqb_spec c cap); naive_solver.
Qed.
Lemma regrant_valid cap caps (b : bool) : contains reserved_capabilities cap = true -> valid caps ->
  let caps' := unique (without cap caps ++ (if b then [cap] else [])) in
  valid caps' /\ forall c, c <> cap -> c ∈ caps <-> c ∈ caps'.
Proof.
  intros Hc [_ Hk]. cbn. split.
  - apply unique_valid. intros c [H|H]%elem_of_app.
    + apply elem_without in H as [H _]. by apply Hk.
    + destruct b; [|by apply not_elem_of_nil in H]. apply list_elem_of_singleton in H as ->. unfold knownCapability. by rewrite Hc.
  - intros c Hne. rewrite unique_elem, elem_of_app, elem_without. destruct b; set_solver.
Qed.
Definition regrant (cap id rev : string) (caps : list string) (b : bool) (p : policy_tables) : policy_tables :=
  let caps' := unique (without cap caps ++ (if b then [cap] else [])) in
  with_auth_roles (with_roles p (alter (fun _ => caps') id (roles p))) (alter (fun r => (fst r, rev)) id (auth_roles p)).
Lemma regrant_caps cap id rev caps b p role :
  role_caps (regrant cap id rev caps b p) role =
  if decide (role = id) then (fun _ => unique (without cap caps ++ (if b then [cap] else []))) <$> role_caps p role
  else role_caps p role.
Proof.
  unfold role_caps, regrant. cbn -[unique]. case_decide as E.
  - subst. rewrite !lookup_alter_eq. by destruct (auth_roles p !! id).
  - by rewrite !lookup_alter_ne by done.
Qed.
Lemma regrant_ok cap id rev caps b p : contains reserved_capabilities cap = true -> role_caps p id = Some caps -> valid caps ->
  regranted cap p (regrant cap id rev caps b p).
Proof.
  intros Hc Hr Hv. pose proof (regrant_valid cap caps b Hc Hv) as [Hv' Hin]. split; try done.
  - intros role set'. rewrite regrant_caps. case_decide as E; [|intros H; eexists; split; [exact H|tauto]].
    subst. rewrite Hr. intros [= <-]. exists caps. by split.
  - intros role set H. rewrite regrant_caps. case_decide; [rewrite H|]; eauto.
Qed.
