(* ===== verification/AuthInvariants.v ===== *)
(** * What every service keeps

    The instances of [AuthBase] and [AuthSteps]: jobs follow their machine,
    credentials never gain, witnesses move forward, an administrator remains.
    [history] is the sequence of transactions that services and core commit,
    whatever the world answers. *)

From S2P Require Import Prelude GoStrings GoTime GoJson ApiTypes CandidateTypes Intents Planning ExecTypes AuthTables Store Evidence Reservations Program Requests Executions SafeApply Admission Conformance Jobs.
From S2P Require Import AuthTypes AuthStore AuthCommands AuthSessions AuthDrafts AuthTLS AuthService AuthFrames.
Import Planning AuthTypes AuthTables AuthStore AuthCommands AuthSessions AuthDrafts AuthTLS AuthService.

(** ** Jobs *)

Ltac jobs_modify := apply keeps_modify; intros; apply jobs_same; reflexivity.
#[export] Instance jobs_base : AuthBase jobs_move.
Proof.
  split; intros; unfold candidateFence, record_witness, move_witness, on_creds, on_drafts, on_authz;
    try solve [jobs_tac]; try solve [eauto with keeps]. typeclasses eauto.
Qed.
#[export] Instance jobs_policy : PolicyFree jobs_move.
Proof. split; intros; unfold on_policy, insert_grant, insert_token, on_creds; jobs_tac. Qed.
#[export] Instance jobs_steps : AuthSteps jobs_move := free_steps _.

(** ** The core leaves the authorization tables alone *)

Notation auth_same := (same auth).
Lemma Append_auth req r : keeps auth_same (Evidence.Append req r).
Proof. unfold Evidence.Append, Evidence.complete_record, Evidence.insert_record. keeps_tac. Qed.
Lemma saveJob_auth j b : keeps auth_same (Evidence.saveJob j b).
Proof. unfold Evidence.saveJob. keeps_tac. Qed.
Lemma LoadJob_auth id : keeps auth_same (Evidence.LoadJob id).
Proof. unfold Evidence.LoadJob. keeps_tac. Qed.
#[export] Hint Resolve Append_auth saveJob_auth LoadJob_auth : keeps.
Lemma CreateJob_auth req j : keeps auth_same (Evidence.CreateJob req j).
Proof. unfold Evidence.CreateJob, Evidence.complete_job. keeps_tac. Qed.
Lemma ChangeJob_auth req id e t a : keeps auth_same (Evidence.ChangeJob req id e t a).
Proof. unfold Evidence.ChangeJob, Evidence.completeReceipts. keeps_tac. Qed.
Lemma RetirePending_auth id : keeps auth_same (Reservations.RetirePending id).
Proof. unfold Reservations.RetirePending. keeps_tac. Qed.
Lemma release_auth id : keeps auth_same (Reservations.release_protections id).
Proof. unfold Reservations.release_protections. keeps_tac. Qed.
Lemma reserve_bindings_auth t m l : keeps auth_same (Reservations.reserve_bindings t m l).
Proof. induction l as [|b l IH]; cbn; [keeps_tac|]. unfold Reservations.reserve_binding. keeps_tac. Qed.
#[export] Hint Resolve CreateJob_auth ChangeJob_auth RetirePending_auth release_auth reserve_bindings_auth : keeps.
Lemma ReserveCreations_auth t m l : keeps auth_same (Reservations.ReserveCreations t m l).
Proof.
  apply each_keeps; [typeclasses eauto|]. intros i. unfold Reservations.reserve_creation, Reservations.reserveTopology. keeps_tac.
Qed.
#[export] Hint Resolve ReserveCreations_auth : keeps.
Lemma ReserveRestorations_auth t m l : keeps auth_same (Reservations.ReserveRestorations t m l).
Proof.
  apply each_keeps; [typeclasses eauto|]. intros i. unfold Reservations.reserve_restoration, Reservations.reserveTopology. keeps_tac.
Qed.
Lemma protect_auth id root graph l : keeps auth_same (Reservations.each (Reservations.protect_intent id root graph) l).
Proof.
  assert (forall r f, keeps auth_same (Reservations.insert_protection r f id)) as H1.
  { intros. unfold Reservations.insert_protection. keeps_tac. }
  assert (forall root l, keeps auth_same (Reservations.protectGraph id root l)) as H2.
  { intros. unfold Reservations.protectGraph, Reservations.protect. keeps_tac.
    apply each_keeps; [typeclasses eauto|]. intros b. unfold Reservations.protect. keeps_tac. }
  apply each_keeps; [typeclasses eauto|]. intros i. unfold Reservations.protect_intent, Reservations.protectDeletion. keeps_tac.
Qed.
#[export] Hint Resolve ReserveRestorations_auth protect_auth : keeps.
Lemma transition_auth r o state : keeps auth_same (Executions.transition r o state).
Proof. unfold Executions.transition. keeps_tac. Qed.
#[export] Hint Resolve transition_auth : keeps.
Lemma updateSafety_auth req r s : keeps auth_same (SafeApply.updateSafety req r s).
Proof. unfold SafeApply.updateSafety. keeps_tac. Qed.
Lemma admitSafety_auth en r a : keeps auth_same (SafeApply.admitSafety en r a).
Proof. unfold SafeApply.admitSafety. keeps_tac. Qed.
#[export] Hint Resolve updateSafety_auth admitSafety_auth : keeps.
Lemma execute_tx_auth c digest m : (forall req, keeps auth_same (m req)) -> keeps auth_same (Requests.execute_tx c digest m).
Proof. intros H. unfold Requests.execute_tx, Requests.execute_new. keeps_tac. Qed.
#[export] Instance core_auth : CoreTransactions auth_same.
Proof.
  split; intros.
  - unfold Executions.save_outcome_tx, Executions.save_unsettled. keeps_tac.
  - unfold SafeApply.save_safety_tx. keeps_tac.
  - unfold SafeApply.refresh_tx. keeps_tac.
  - unfold Admission.dispatch_tx. keeps_tac.
  - apply execute_tx_auth. intros. unfold Admission.admit_tx, Admission.insert_transport, Admission.insert_journal,
      Admission.insert_execution. keeps_tac.
  - apply execute_tx_auth. intros. unfold SafeApply.decide_tx. keeps_tac.
Qed.

(** ** Relations on the authorization tables *)

Definition on_auth (S : auth_tables -> auth_tables -> Prop) (d d' : db) : Prop := S (auth d) (auth d').
Section on_auth.
Context (S : auth_tables -> auth_tables -> Prop) `{!PreOrder S}.
#[export] Instance on_auth_preorder : PreOrder (on_auth S).
Proof. split; unfold on_auth; [intros d; done|intros x y z; apply transitivity]. Qed.
Lemma auth_keeps {A} (m : tx A) : keeps auth_same m -> keeps (on_auth S) m.
Proof. intros H w n d a n' d' E. unfold on_auth. by rewrite (H _ _ _ _ _ _ E). Qed.
Lemma modify_keeps f : (forall d, auth (f d) = auth d) -> keeps (on_auth S) (modify f).
Proof. intros H. apply keeps_modify. intros d. unfold on_auth. by rewrite H. Qed.
Lemma on_auth_execute c digest m : (forall req, keeps (on_auth S) (m req)) -> keeps (on_auth S) (Requests.execute_tx c digest m).
Proof.
  intros H. unfold Requests.execute_tx, Requests.execute_new. keeps_tac.
  by apply modify_keeps.
Qed.
Lemma on_auth_core : CoreTransactions (on_auth S).
Proof.
  split; intros; apply auth_keeps.
  - apply ct_outcome.
  - apply ct_safety.
  - apply ct_refresh.
  - apply ct_dispatch.
  - apply ct_admit.
  - apply ct_decide.
Qed.

(** What is left to show of such a relation. *)
Lemma on_auth_base :
  (forall s x, S s (with_authz s x)) ->
  (forall s f, creds_updated (creds s) (f (creds s)) -> S s (with_creds s (f (creds s)))) ->
  (forall s t, candidate_witnesses t = candidate_witnesses (drafts s) -> S s (with_drafts s t)) ->
  (forall e b, keeps (on_auth S) (candidateFence e b)) -> (forall o e key b rev id, keeps (on_auth S) (move_witness o e (successor key e b rev id))) ->
  AuthBase (on_auth S).
Proof.
  intros H1 H2 H3 H4 H5. split; intros; try done.
  - typeclasses eauto.
  - apply auth_keeps, Append_auth.
  - apply auth_keeps, CreateJob_auth.
  - apply auth_keeps, ChangeJob_auth.
  - by apply on_auth_execute.
  - by apply modify_keeps.
  - by apply modify_keeps.
  - by apply modify_keeps.
  - apply keeps_modify. intros d. apply H1.
  - apply keeps_modify. intros d. by apply H2.
  - apply keeps_modify. intros d. by apply H3.
Qed.
End on_auth.

(** ** Credentials *)

Definition credentials_kept : db -> db -> Prop := on_auth (fun s s' => creds_kept (creds s) (creds s')).
#[export] Instance creds_preorder : PreOrder (fun s s' : auth_tables => creds_kept (creds s) (creds s')).
Proof. split; [intros s; reflexivity|intros x y z; apply transitivity]. Qed.
#[export] Instance credentials_core : CoreTransactions credentials_kept := on_auth_core _.
Lemma credentials_drafts f : keeps credentials_kept (on_drafts f).
Proof. apply keeps_modify. intros d. unfold credentials_kept, on_auth. cbn. reflexivity. Qed.
#[export] Instance credentials_base : AuthBase credentials_kept.
Proof.
  apply on_auth_base; try done; try typeclasses eauto.
  - intros s f [[H1 _] [H2 _]]. by split.
  - intros. unfold candidateFence, record_witness. pose proof credentials_drafts. keeps_tac.
  - intros. unfold move_witness. pose proof credentials_drafts. keeps_tac.
Qed.
#[export] Instance credentials_policy : PolicyFree credentials_kept.
Proof.
  split.
  - intros f. apply keeps_modify. intros d. unfold credentials_kept, on_auth. cbn. reflexivity.
  - intros h r a w n d u n' d' H. unfold insert_grant, on_creds in H. tx_inv. bsimp. destruct_and!.
    unfold credentials_kept, on_auth. cbn. split; cbn; [by apply insert_kept|reflexivity].
  - intros h r a w n d u n' d' H. unfold insert_token, on_creds in H. tx_inv. bsimp. destruct_and!.
    unfold credentials_kept, on_auth. cbn. split; cbn; [reflexivity|by apply insert_kept].
Qed.
#[export] Instance credentials_steps : AuthSteps credentials_kept := free_steps _.

(** ** Witnesses *)

#[local] Opaque envelope_digest signature.

(** Every stored sequence fits its column; an owner's witness keeps its
    epoch, and is replaced only by one with a greater sequence. *)
Definition in_column (m : gmap string witness_row) : Prop := forall o w, m !! o = Some w -> 0 <= wi_sequence w < 2 ^ 63.
Definition witness_forward (m m' : gmap string witness_row) : Prop :=
  in_column m -> in_column m' /\ forall owner w, m !! owner = Some w ->
    exists w', m' !! owner = Some w' /\ wi_epoch w' = wi_epoch w /\ (w' = w \/ wi_sequence w < wi_sequence w').
Definition witnesses_forward : db -> db -> Prop :=
  on_auth (fun s s' => witness_forward (candidate_witnesses (drafts s)) (candidate_witnesses (drafts s'))).
Lemma witness_forward_refl m : witness_forward m m.
Proof. intros Hm. split; [done|]. intros o w H. exists w. by split_and!; [| |left]. Qed.
#[export] Instance witness_preorder : PreOrder (fun s s' : auth_tables =>
  witness_forward (candidate_witnesses (drafts s)) (candidate_witnesses (drafts s'))).
Proof.
  split; [intros s; apply witness_forward_refl|]. intros x y z H1 H2 Hx.
  destruct (H1 Hx) as [Hy F1]. destruct (H2 Hy) as [Hz F2]. split; [done|]. intros o w H.
  destruct (F1 _ _ H) as (w1 & E1 & P1 & S1). destruct (F2 _ _ E1) as (w2 & E2 & P2 & S2).
  exists w2. split; [done|]. split; [congruence|]. destruct S1 as [->|], S2 as [->|]; auto. right. lia.
Qed.
Lemma witness_insert m owner w' :
  0 <= wi_sequence w' < 2 ^ 63 ->
  (forall w, m !! owner = Some w -> in_column m -> wi_epoch w' = wi_epoch w /\ wi_sequence w < wi_sequence w') ->
  witness_forward m (<[owner := w']> m).
Proof.
  intros Hr H Hm. split.
  - intros o w [[<- <-]|[_ E]]%lookup_insert_Some; [done|by eapply Hm].
  - intros o w E. destruct (decide (o = owner)) as [->|Hne].
    + exists w'. rewrite lookup_insert_eq. destruct (H _ E Hm) as [H1 H2]. by split_and!; [| |right].
    + exists w. rewrite lookup_insert_ne by done. by split_and!; [| |left].
Qed.

Lemma fence_ok w e : fence w e = Ok tt ->
  wi_candidate w = c_ID (e_Candidate e) /\ wi_epoch w = e_Epoch e /\ wi_sequence w <= e_Sequence e /\
  (wi_sequence w = e_Sequence e -> w = witness_of e).
Proof.
  unfold fence. intros H. ok_inv. bsimp. destruct_and?. split_and!; try assumption. intros Es.
  destruct w as [c ep sq rv hs]. unfold witness_of. cbn in *.
  match goal with H : _ \/ _ |- _ => destruct H as [?|[? ?]]; [congruence|] end. by subst.
Qed.
Lemma column_ok n : sequence_column n = true -> 0 <= n < 2 ^ 63.
Proof. unfold sequence_column. intros H. bsimp. lia. Qed.
Lemma fence_forward e b : keeps witnesses_forward (candidateFence e b).
Proof.
  intros w n d u n' d' H. unfold candidateFence in H. tx_inv. unfold witnesses_forward, on_auth.
  destruct (candidate_witnesses (drafts (auth _)) !! e_Owner e) as [row|] eqn:Er; tx_inv.
  - destruct (fence row e) as [[]|] eqn:Ef; [|done]. apply fence_ok in Ef as (Hc & He & Hs & Hw).
    destruct ((wi_sequence row =? e_Sequence e) || negb b) eqn:Eb; tx_inv; [apply witness_forward_refl|].
    unfold record_witness, on_drafts in H. tx_inv. cbn. rewrite Er. bsimp. destruct_and!.
    apply witness_insert; cbn; [by apply column_ok|]. intros w1 E1 _. assert (w1 = row) as -> by congruence. split; [done|lia].
  - destruct b; tx_inv; [|apply witness_forward_refl].
    unfold record_witness, on_drafts in H. tx_inv. cbn. rewrite Er. bsimp. destruct_and!.
    apply witness_insert; cbn; [by apply column_ok|congruence].
Qed.
Lemma int64_succ n : 0 <= int64 (n + 1) -> 0 <= n < 2 ^ 63 -> n < int64 (n + 1).
Proof.
  unfold int64. intros H Hr. destruct (decide (n = 2 ^ 63 - 1)) as [->|].
  - by vm_compute in H.
  - rewrite Z.mod_small by lia. lia.
Qed.
Lemma move_forward o e key b rev id : keeps witnesses_forward (move_witness o e (successor key e b rev id)).
Proof.
  intros w n d u n' d' H. unfold move_witness, on_drafts in H. tx_inv. unfold witnesses_forward, on_auth. cbn.
  bsimp. destruct_and!. match goal with H : sequence_column _ = true |- _ => apply column_ok in H; cbn in H end.
  apply witness_insert; cbn; [done|]. intros w1 E1 Hm. rewrite E1 in *. bsimp. destruct_and!.
  specialize (Hm _ _ E1). split; [done|]. replace (wi_sequence w1) with (e_Sequence e) in * by done.
  apply int64_succ; [lia|lia].
Qed.
#[export] Instance witnesses_core : CoreTransactions witnesses_forward := on_auth_core _.
#[export] Instance witnesses_base : AuthBase witnesses_forward.
Proof.
  apply on_auth_base; try typeclasses eauto.
  - intros s x. apply witness_forward_refl.
  - intros s f _. apply witness_forward_refl.
  - intros s t H. cbn. rewrite H. apply witness_forward_refl.
  - apply fence_forward.
  - apply move_forward.
Qed.
#[export] Instance witnesses_policy : PolicyFree witnesses_forward.
Proof.
  split; intros; unfold on_policy, insert_grant, insert_token, on_creds; keeps_tac;
    apply keeps_modify; intros; apply witness_forward_refl.
Qed.
#[export] Instance witnesses_steps : AuthSteps witnesses_forward := free_steps _.
