(* ===== verification/ManagerProperties.v ===== *)
(** * The programs of the manager, one by one

    Who may write mutation bytes and how jobs move, for every program; and the
    exact conditions under which the write-ahead and the confirmation
    transactions commit, with what they then write. *)

From S2P Require Import Prelude GoStrings GoTime GoJson ApiTypes CandidateTypes Intents Snapshots ExecTypes AuthTables Store.
From S2P Require Import Evidence Reservations Program Requests Executions SafeApply Admission Conformance System Soundness.
From S2P Require Import Transitions Handlers Scenario Jobs.
From S2P Require Import AuthTypes AuthStore AuthCommands AuthSessions AuthDrafts AuthTLS AuthService AuthFrames Manager AuthInvariants.
Import Snapshots AuthTypes AuthTables AuthStore AuthCommands AuthSessions AuthDrafts AuthTLS AuthService.

(** ** Senders *)

Definition is_forward (w : dispatch) : Prop := match w with Forward _ => True | Compensate _ => False end.
Definition is_compensation (w : dispatch) : Prop := ~ is_forward w.
Definition nothing (w : dispatch) : Prop := False.
Definition only_sends (P : dispatch -> Prop) {A} (m : prog A) : Prop := conforms P (fun _ _ => True) m.

#[export] Instance any_base : AuthBase (fun _ _ => True).
Proof. by split. Qed.
#[export] Instance any_steps : AuthSteps (fun _ _ => True).
Proof. by split. Qed.

(** C13. Only the recovery lane sends a compensation, and it sends nothing
    else. Only a submission and the service that admits an apply send a forward
    change. Recovery after a restart, reconciliation, decisions and every other
    service (sign-in, security and TLS commands, drafts, resolutions) send
    nothing. All of this whatever the provider, the storage and the clocks
    answer. *)
Theorem who_sends en :
  only_sends is_compensation (SafeApply.SafetyTick en) /\
  only_sends nothing Executions.Recover /\
  (forall id, only_sends nothing (Executions.Reconcile id)) /\
  (forall id seq d c, only_sends nothing (SafeApply.Decide en id seq d c)) /\
  (forall input lease, only_sends is_forward (Admission.Submit en input lease)) /\
  (forall operation parameters decode decode_command derive snapshot key fields admits A (m : prog A),
     service operation parameters decode decode_command derive snapshot key fields admits m ->
     only_sends (if admits then is_forward else nothing) m).
Proof.
  pose proof any_change. split_and!.
  - apply SafetyTick_sends; [done|]. by intros ? [].
  - by apply Recover_sends.
  - intros. by apply Reconcile_sends.
  - intros. by apply Decide_sends.
  - intros. by apply submit_sends.
  - intros * Hm. eapply services_conform; [..|exact Hm]; try typeclasses eauto. by intros ->.
Qed.
Lemma who_sends_witness : only_sends nothing (Reauthenticate (fun _ salt => salt) "credential" "password").
Proof.
  destruct (who_sends (Executions.mkEngine [] None)) as (_ & _ & _ & _ & _ & H).
  refine (H (fun _ _ => Err EUnavailable) (fun _ _ => Ok tt) (fun _ _ => Err EUnavailable) (fun _ => None)
    (fun _ salt => salt) (fun _ => Err EUnavailable) [] None false _ _ _). apply S_reauthenticate.
Defined.

(** ** Jobs *)


(** ** The write-ahead transaction *)

(** The dispatch intent commits only for an execution that is still
    [admitted], under an authorization that is unchanged and unexpired at that
    moment and, for a Safe Apply, within the preparation budget; it then makes
    the record [committing] with an unknown outcome. An execution that has
    left [admitted] is refused. *)
Theorem dispatch_intent id input c safe w n d :
  (forall r n' d', Admission.dispatch_tx id input c safe w n d = Ok (r, n', d') ->
     authorize_at w n input false = Ok c /\ now_at w (S n) < a_Expires c /\
     (safe = true -> exists row k, safe_applies d !! id = Some row /\ s_State (sa_doc row) = "preparing" /\
                       Expired (Preparation (sa_doc row)) k = false) /\
     exists e e', field_executions d !! id = Some e /\ x_State (fe_doc e) = "admitted" /\
       field_executions d' !! id = Some e' /\ fe_doc e' = r /\ fe_state e' = "committing" /\
       x_Outcome r = outcome "unknown" "unknown" "dispatch-intent-durable" /\ x_Plan r = x_Plan (fe_doc e)) /\
  (forall e, authorize_at w n input false = Ok c -> now_at w (S n) < a_Expires c ->
     Executions.load d id = Ok e -> x_State e <> "admitted" ->
     Admission.dispatch_tx id input c safe w n d = Err (Fail 409 "EXECUTION_ALREADY_DISPATCHED")).
Proof.
  split.
  - intros r n' d' H. unfold Admission.dispatch_tx in H. tx_inv. bsimp. loaded e He Hid.
    match goal with G : _ = c /\ _ |- _ => destruct G as [-> Hexp] end.
    match goal with He : field_executions ?d0 !! id = _, H : Executions.transition _ _ _ _ _ ?d1 = _ |- _ =>
      assert (d1 = d0 /\ (safe = true -> exists row k, safe_applies d0 !! id = Some row /\
        s_State (sa_doc row) = "preparing" /\ Expired (Preparation (sa_doc row)) k = false)) as [-> Hs] end.
    { destruct safe; tx_inv; [|done]. loaded_safety row Hrow. bsimp. split; [done|]. intros _. destruct_and!. eauto. }
    pose proof H as Ht. eapply transition_spec in H as (seq & t & Hn & -> & E1 & _ & _); [|by rewrite Hid].
    split_and!; try done. exists e. eexists. rewrite E1, Hid, lookup_insert_eq. by split_and!.
  - intros e Ha Ht Hl Hst. unfold Admission.dispatch_tx, bind, ask, lift, now, guard, get. cbn [fst snd].
    rewrite Ha. unfold ask. rewrite bool_decide_eq_true_2 by done. cbn [negb orb].
    rewrite (proj2 (Z.ltb_lt _ _) Ht). cbn [negb]. rewrite Hl.
    apply String.eqb_neq in Hst. by rewrite Hst.
Qed.

(** The database right after the admission of the scenario's apply. *)
Definition the_plan : Plan := prepared transaction_id "marker" the_envelope.
Definition admitted_db : db :=
  match Admission.admit_tx the_engine transaction_id input Scenario.authz (mkPlan transaction_id the_envelope "8.5.0" (id_of 5)
          (id_of 12) (Admission.commit_marker the_engine transaction_id "scope") "5" "4" start (JObj []) [])
          (Some (Executions.mkAdmission safe_command (id_of 13)))
          (mkEvRequest owner (id_of 11) "configuration.apply" "createTransaction" "management" epoch request_id (id_of 14))
          (world_env 1) 0%nat empty_db with
  | Ok (_, _, d) => d
  | Err _ => empty_db
  end.
Lemma dispatch_intent_witness :
  (exists r n' d', Admission.dispatch_tx transaction_id input Scenario.authz true (world_env 2) 0%nat admitted_db = Ok (r, n', d') /\
     exists e', field_executions d' !! transaction_id = Some e' /\ fe_state e' = "committing") /\
  Admission.dispatch_tx transaction_id input Scenario.authz true (world_env 2) 0%nat (st_db after_tick)
    = Err (Fail 409 "EXECUTION_ALREADY_DISPATCHED").
Proof.
  split.
  - assert (is_ok (Admission.dispatch_tx transaction_id input Scenario.authz true (world_env 2) 0%nat admitted_db) = true) as Hk
      by (vm_compute; reflexivity).
    destruct (Admission.dispatch_tx transaction_id input Scenario.authz true (world_env 2) 0%nat admitted_db)
      as [[[r n'] d']|e] eqn:E; [|discriminate Hk].
    exists r, n', d'. split; [reflexivity|].
    destruct (dispatch_intent transaction_id input Scenario.authz true (world_env 2) 0%nat admitted_db) as [H _].
    destruct (H _ _ _ E) as (_ & _ & _ & e & e' & _ & _ & He' & _ & Hs & _). exists e'. exact (conj He' Hs).
  - assert (is_ok (Executions.load (st_db after_tick) transaction_id) = true) as Hk by (vm_compute; reflexivity).
    destruct (Executions.load (st_db after_tick) transaction_id) as [e|] eqn:El; [|discriminate Hk].
    apply (dispatch_intent transaction_id input Scenario.authz true (world_env 2) 0%nat (st_db after_tick)) with (e := e);
      [reflexivity|vm_compute; reflexivity|exact El|].
    assert (match Executions.load (st_db after_tick) transaction_id with Ok e => x_State e <>s "admitted" | Err _ => true end = true)
      as Hs by (vm_compute; reflexivity).
    rewrite El in Hs. apply negb_true_iff, String.eqb_neq in Hs. exact Hs.
Defined.

(** ** The confirmation transaction *)

Lemma core_lkg {A} (m : tx A) w n d a n' d' :
  keeps (same core) m -> m w n d = Ok (a, n', d') -> last_known_good d' = last_known_good d.
Proof. intros Hm H. by apply Hm, core_parts in H as (_ & _ & _ & ? & _). Qed.
Ltac lkg_step :=
  match goal with
  | H : ?m _ _ _ = Ok (_, _, _) |- _ =>
      let K := fresh "K" in
      assert (K : keeps (same core) m) by (solve [eauto with keeps]); apply (core_lkg _ _ _ _ _ _ _ K) in H; clear K
  end.

Lemma release_lkg id (b : bool) w n d u n' d' :
  (if b then do _ <- Reservations.RetirePending id in Reservations.release_protections id else ret tt) w n d
    = Ok (u, n', d') -> last_known_good d' = last_known_good d.
Proof.
  destruct b; intros H; [|by tx_inv]. unfold Reservations.release_protections in H. tx_inv. by lkg_step.
Qed.

Lemma updateSafety_lkg req r s w n d u n' d' :
  SafeApply.updateSafety req r s w n d = Ok (u, n', d') ->
  exists t, last_known_good d' = if s_State s =s "confirmed"
    then Some (mkLKG (x_ID r) (x_Generation r) (unix_milli t) (x_Plan r)) else last_known_good d.
Proof.
  unfold SafeApply.updateSafety. intros H. destruct (Executions.next_seq (x_Sequence r)) as [seq|]; [|done].
  tx_inv. repeat lkg_step. exists (Wall (clock_at w n)).
  match goal with H : (if Terminal _ then _ else _) _ _ _ = _ |- _ => apply release_lkg in H end.
  match goal with H : (if _ =s "confirmed" then _ else _) _ _ _ = _ |- _ => apply lkg_spec in H as (_ & _ & _ & Hl) end.
  set (r' := set_execution r (format_int seq) (x_State r) (x_Outcome r) (Wall (clock_at w n))) in *.
  match goal with E : last_known_good _ = last_known_good (Executions.save_rows _ _ _ _ _) |- _ =>
    change (last_known_good (Executions.save_rows _ _ _ _ _)) with (last_known_good d0) in E end.
  destruct (s_State s =s "confirmed"); [|congruence].
  match type of Hl with ?x = _ => transitivity x; [congruence|exact Hl] end.
Qed.

(** A confirmation commits only for the version that was read, inside the
    open confirmation window, with the authority intact; it then settles the
    apply as [confirmed], makes its plan the last known good configuration,
    and gives up every protection the transaction held. *)
Theorem confirmation_committed id sequence r s conf req w n d m n' d' row :
  SafeApply.decide_tx id sequence "confirm" r s conf req w n d = Ok (m, n', d') ->
  safe_applies d !! id = Some row ->
  (exists dl k, Confirmation s = Some dl /\ Expired dl k = false) /\
  (exists k, authority_at w k (x_Authorization r) = None) /\
  exists e t, field_executions d !! id = Some e /\ x_Sequence (fe_doc e) = sequence /\
    (exists row', safe_applies d' !! id = Some row' /\ sa_state row' = "confirmed") /\
    (exists e', field_executions d' !! id = Some e' /\ x_Outcome (fe_doc e') = conf) /\
    last_known_good d' = Some (mkLKG id (x_Generation (fe_doc e)) (unix_milli t) (x_Plan (fe_doc e))) /\
    forall k, operation_protections d' !! k <> Some id.
Proof.
  intros H Hrow. unfold SafeApply.decide_tx in H. tx_inv.
  match goal with H : match ?c with _ => _ end _ _ _ = _ |- _ => destruct c end; [tx_inv|]. tx_inv.
  loaded e He Hid. match goal with x : Execution * SafetyRecord |- _ => destruct x as [cur s'] end.
  change ("confirm" =s "confirm") with true in *. cbv iota in *. tx_inv.
  match goal with H : match authority_at ?w ?k ?a with _ => _ end _ _ _ = _ |- _ => destruct (authority_at w k a) eqn:Ea end; tx_inv.
  match goal with H : SafeApply.updateSafety _ _ _ _ _ _ = _ |- _ =>
    pose proof H as Hl; eapply updateSafety_spec in H as (seq & t & _ & E1 & E2 & E3); [|exact He|exact Hrow];
    apply updateSafety_lkg in Hl as [t' Hl] end.
  match goal with H : Evidence.Append _ _ _ _ _ = _ |- _ =>
    pose proof (core_lkg _ _ _ _ _ _ _ (Append_core _ _) H) as Hl2;
    apply (core_eq _ _ _ _ _ _ _ (Append_core _ _)) in H as (F1 & F2 & F3) end.
  apply orb_false_iff in G0 as [[G0 _]%orb_false_iff _]. apply negb_false_iff, String.eqb_eq in G.
  split_and!.
  - destruct (Confirmation s) as [dl|]; [|done]. by exists dl, (clock_at w (S n)).
  - by eexists.
  - exists e, t'. split_and!; [exact He|exact G| | |by rewrite Hl2, Hl|].
    + eexists. rewrite F2, E2. split; [apply lookup_insert_eq|done].
    + eexists. rewrite F1, E1. split; [apply lookup_insert_eq|done].
    + intros k. rewrite F3, E3. cbn. intros Hk. by apply map_lookup_filter_Some in Hk as [_ Hne].
Qed.
Lemma confirmation_committed_witness : exists row r s m n' d',
  safe_applies (st_db after_tick) !! transaction_id = Some row /\
  SafeApply.decide_tx transaction_id "5" "confirm" r s (outcome "committed" "applied" "observed")
    (mkEvRequest owner (id_of 11) "configuration.apply" "decideTransaction" "management" epoch request_id (id_of 14))
    (world_env 39) 0%nat (st_db after_tick) = Ok (m, n', d') /\
  forall k, operation_protections d' !! k <> Some transaction_id.
Proof.
  assert (match SafeApply.load_both (st_db after_tick) transaction_id, safe_applies (st_db after_tick) !! transaction_id with
          | Ok (r, s), Some _ => is_ok (SafeApply.decide_tx transaction_id "5" "confirm" r s
              (outcome "committed" "applied" "observed")
              (mkEvRequest owner (id_of 11) "configuration.apply" "decideTransaction" "management" epoch request_id (id_of 14))
              (world_env 39) 0%nat (st_db after_tick))
          | _, _ => false end = true) as Hk by (vm_compute; reflexivity).
  destruct (SafeApply.load_both (st_db after_tick) transaction_id) as [[r s]|e]; [|discriminate Hk].
  destruct (safe_applies (st_db after_tick) !! transaction_id) as [row|] eqn:Er; [|discriminate Hk].
  destruct (SafeApply.decide_tx _ _ _ _ _ _ _ _ _ _) as [[[m n'] d']|e] eqn:Ed; [|discriminate Hk].
  exists row, r, s, m, n', d'. split; [reflexivity|]. split; [exact Ed|].
  destruct (confirmation_committed _ _ _ _ _ _ _ _ _ _ _ _ _ Ed Er) as (_ & _ & e & t & _ & _ & _ & _ & _ & Hp). exact Hp.
Defined.
