(* ===== verification/AuthCodec.v ===== *)
(** * The texts of secrets and verifiers

    base64 without padding is decoded to the bytes it encodes; a fresh secret
    is a valid credential text; a verifier of a password is read back. *)

From S2P Require Import Prelude GoStrings GoTime GoJson ApiTypes CandidateTypes Intents Planning ExecTypes AuthTables Store.
From S2P Require Import AuthTypes AuthStore AuthCommands AuthSessions.
Import AuthTypes AuthCommands AuthSessions.

Definition byte (b : Z) : Prop := 0 <= b < 256.
Definition sextet (i : Z) : Prop := 0 <= i < 64.

(** Three bytes at a time. *)
Lemma triples (P : list Z -> Prop) :
  P [] -> (forall a, P [a]) -> (forall a b, P [a; b]) -> (forall a b c r, P r -> P (a :: b :: c :: r)) -> forall l, P l.
Proof.
  intros H0 H1 H2 H3. fix IH 1. intros [|a [|b [|c r]]]; [exact H0|apply H1|apply H2|]. apply H3, IH.
Qed.
Lemma split_byte a k m : byte a -> k * m = 256 -> 0 < k -> 0 < m -> 0 <= a / k < m /\ 0 <= a mod k < k.
Proof.
  intros [H0 H1] Hm Hk Hp. split; [|by apply Z.mod_pos_bound]. split; [by apply Z.div_pos|].
  apply Z.div_lt_upper_bound; lia.
Qed.
Ltac bytes_tac :=
  repeat match goal with
  | H : Forall byte (_ :: _) |- _ => apply Forall_cons in H as [? H]
  end.
Ltac parts a := pose proof (split_byte a 4 64 ltac:(done) ltac:(done) ltac:(done) ltac:(done));
  pose proof (split_byte a 16 16 ltac:(done) ltac:(done) ltac:(done) ltac:(done));
  pose proof (split_byte a 64 4 ltac:(done) ltac:(done) ltac:(done) ltac:(done)).
Lemma sextets_range l : Forall byte l -> Forall sextet (sextets l).
Proof.
  induction l as [|a|a b|a b c r IH] using triples; intros H; bytes_tac; cbn -[Z.div Z.modulo Z.mul].
  - done.
  - parts a. repeat constructor; unfold sextet; lia.
  - parts a. parts b. repeat constructor; unfold sextet; lia.
  - parts a. parts b. parts c. repeat constructor; unfold sextet; try lia. by apply IH.
Qed.
Lemma join_parts a k m : 0 < k -> 0 < m -> a / k * k + a mod k = a.
Proof. intros Hk _. pose proof (Z.div_mod a k ltac:(lia)). lia. Qed.
(** [q] is the upper part of a number whose lower part is [r]. *)
Lemma div_parts q r k : 0 <= r < k -> (q * k + r) / k = q.
Proof. intros H. rewrite Z.div_add_l by lia. rewrite Z.div_small by lia. lia. Qed.
Lemma mod_parts q r k : 0 <= r < k -> (q * k + r) mod k = r.
Proof. intros H. rewrite Z.add_comm, Z.mod_add by lia. by apply Z.mod_small. Qed.
Lemma octets_sextets l : Forall byte l -> octets (sextets l) = Some l.
Proof.
  induction l as [|a|a b|a b c r IH] using triples; intros H; bytes_tac; cbn -[Z.div Z.modulo Z.mul].
  - done.
  - parts a. rewrite Z.div_mul by done. by rewrite (join_parts a 4 1).
  - parts a. parts b. rewrite div_parts, mod_parts, Z.div_mul by lia. by rewrite (join_parts a 4 1), (join_parts b 16 1).
  - parts a. parts b. parts c. rewrite IH by done. cbn -[Z.div Z.modulo Z.mul].
    rewrite !div_parts, !mod_parts by lia. by rewrite (join_parts a 4 1), (join_parts b 16 1), (join_parts c 64 1).
Qed.

(** What holds of the 64 indices. *)
Lemma all_sextets (p : Z -> bool) : forallb p (seqZ 0 64) = true -> forall i, sextet i -> p i = true.
Proof. intros H i Hi. rewrite forallb_forall in H. apply H, list_elem_of_In, elem_of_seqZ. unfold sextet in Hi. lia. Qed.
Lemma std_char_index i : sextet i -> std_index (byte_of (std_char i)) = Some i /\ byte_of (std_char i) <> 10
  /\ byte_of (std_char i) <> 13 /\ Ascii.eqb (std_char i) "$"%char = false.
Proof.
  intros Hi. pose proof (all_sextets (fun i => bool_decide (std_index (byte_of (std_char i)) = Some i)
     && negb (byte_of (std_char i) =? 10) && negb (byte_of (std_char i) =? 13) && negb (Ascii.eqb (std_char i) "$"%char))
     ltac:(by vm_compute) i Hi) as H. bsimp. tauto.
Qed.
Lemma url_char_index i : sextet i -> base64_index (url_char i) = Some i.
Proof.
  intros Hi. apply (bool_decide_eq_true_1 (base64_index (url_char i) = Some i)).
  exact (all_sextets (fun i => bool_decide (base64_index (url_char i) = Some i)) ltac:(by vm_compute) i Hi).
Qed.
Lemma bytes_of_list l : bytes (string_of_list_ascii l) = byte_of <$> l.
Proof. induction l as [|c l IH]; [done|]. cbn. by rewrite IH. Qed.
Lemma decode_encode l : Forall byte l -> decode_std (encode_std l) = Some l.
Proof.
  intros H. pose proof (sextets_range l H) as Hs. unfold decode_std, encode_std. rewrite bytes_of_list.
  rewrite <- (octets_sextets l H). revert Hs. generalize (sextets l). clear. intros s Hs.
  assert (mapM std_index (List.filter (fun b => negb (b =? 10) && negb (b =? 13)) (byte_of <$> (std_char <$> s))) = Some s) as ->; [|done].
  induction Hs as [|i s Hi _ IH]; [done|]. cbn [fmap list_fmap List.filter].
  destruct (std_char_index i Hi) as (E & H1 & H2 & _).
  assert (negb (byte_of (std_char i) =? 10) && negb (byte_of (std_char i) =? 13) = true) as -> by (bsimp; lia).
  cbn [mapM]. rewrite E. cbn. by rewrite IH.
Qed.

(** ** Verifiers *)

Lemma strip_prefix_app p s : strip_prefix p (p ++ s)%string = Some s.
Proof. induction p as [|c p IH]; [done|]. cbn. by rewrite Ascii.eqb_refl. Qed.
Lemma split_plain sep s : (forall c, c ∈ list_ascii_of_string s -> Ascii.eqb c sep = false) -> split_on sep s = [s].
Proof.
  induction s as [|c s IH]; intros H; [done|]. cbn. rewrite (H c), IH by set_solver. done.
Qed.
Lemma split_app sep s t : (forall c, c ∈ list_ascii_of_string s -> Ascii.eqb c sep = false) ->
  split_on sep (s ++ String sep t)%string = s :: split_on sep t.
Proof.
  induction s as [|c s IH]; intros H; cbn.
  - by rewrite Ascii.eqb_refl.
  - rewrite (H c) by set_solver. rewrite IH by set_solver. done.
Qed.
Lemma encode_plain l : Forall byte l -> forall c, c ∈ list_ascii_of_string (encode_std l) -> Ascii.eqb c "$"%char = false.
Proof.
  intros H c. unfold encode_std. rewrite list_ascii_of_string_of_list_ascii. intros (i & -> & Hi)%list_elem_of_fmap.
  apply std_char_index. pose proof (sextets_range l H) as Hs. rewrite Forall_forall in Hs. by apply Hs.
Qed.
Lemma parse_verifier_ok salt hash : Forall byte salt -> Forall byte hash -> len salt = 16 -> len hash = 32 ->
  parse_verifier (passwordPrefix ++ encode_std salt ++ "$" ++ encode_std hash)%string = Some (salt, hash).
Proof.
  intros Hs Hh Ls Lh. unfold parse_verifier. rewrite strip_prefix_app.
  change ("$" ++ encode_std hash)%string with (String "$"%char (encode_std hash)).
  rewrite split_app by (by apply encode_plain). rewrite split_plain by (by apply encode_plain).
  rewrite !decode_encode by done. by rewrite Ls, Lh.
Qed.

(** ** Secrets *)

Lemma encoded_url k : forall l, length l = (3 * k + 2)%nat -> Forall byte l -> encoded (4 * k + 3) (encode_url l) = true.
Proof.
  induction k as [|k IH]; intros l Hl H.
  - destruct l as [|a [|b [|]]]; try done. bytes_tac. parts a. parts b. unfold encode_url. cbn -[Z.div Z.modulo Z.mul url_char base64_index].
    rewrite !url_char_index by (unfold sextet; lia). cbn -[Z.div Z.modulo Z.mul]. by rewrite Z.mod_mul.
  - destruct l as [|a [|b [|c r]]]; try (cbn in Hl; lia). bytes_tac. parts a. parts b. parts c.
    replace (4 * S k + 3)%nat with (S (S (S (S (4 * k + 3))))) by lia.
    unfold encode_url. cbn -[Z.div Z.modulo Z.mul url_char base64_index Nat.mul Nat.add encoded].
    cbn [encoded]. rewrite !url_char_index by (unfold sextet; lia). cbn.
    specialize (IH r ltac:(cbn in Hl; lia) H). unfold encode_url in IH. cbn in IH. destruct (_ + 3)%nat eqn:E; [lia|exact IH].
Qed.
Lemma secret_valid prefix l : len l = 32 -> Forall byte l -> ValidSecret (prefix ++ encode_url l) prefix = true.
Proof.
  intros Hl H. unfold ValidSecret. rewrite strip_prefix_app. apply (encoded_url 10 l); [|done]. unfold len in Hl. lia.
Qed.
