(* ===== verification/PublicApi.v ===== *)
(** * internal/publicapi: the public API of the web daemon

    The operations of the OpenAPI contract (internal/apicontract/contract.go)
    with the checks of a request and of a response, and the HTTP handler
    (handler.go) as a tree of what it asks for and does, in the order of the
    code. The compiled JSON schemas are values of a type of their own. *)

From S2P Require Import Prelude GoStrings GoJson GoJsonParse GoTime ApiTypes CandidateTypes Intents Planning AuthTypes IpcJson Requests.
Import IpcJson Requests.

(** ** net/url and encoding/json *)

Definition unescape_plus : ascii -> ascii := fun c => if Ascii.eqb c "+" then " "%char else c.
(** [url.QueryUnescape] *)
Fixpoint query_unescape (s : string) : option string :=
  match s with
  | EmptyString => Some EmptyString
  | String c r =>
    if Ascii.eqb c "%" then
      match r with
      | String a (String b t) =>
        match hex_value (byte_of a), hex_value (byte_of b) with
        | Some x, Some y => String (char_of (x * 16 + y)) <$> query_unescape t
        | _, _ => None
        end
      | _ => None
      end
    else String (unescape_plus c) <$> query_unescape r
  end.
Definition unreserved (b : Z) : bool :=
  is_digit b || ((65 <=? b) && (b <=? 90)) || ((97 <=? b) && (b <=? 122)) || existsb (Z.eqb b) [45; 95; 46; 126].
Definition upper_hex (n : Z) : ascii := char_of (if n <? 10 then 48 + n else 55 + n).
(** [url.QueryEscape] *)
Fixpoint query_escape (s : string) : string :=
  match s with
  | EmptyString => EmptyString
  | String c r =>
    let b := byte_of c in
    if unreserved b then String c (query_escape r)
    else if b =? 32 then String "+" (query_escape r)
    else String "%" (String (upper_hex (b / 16)) (String (upper_hex (b mod 16)) (query_escape r)))
  end.
Notation values := (gmap string (list string)).
(** [url.ParseQuery]; any error refuses the whole. *)
Definition parse_query (raw : string) : option values :=
  foldl (fun m piece =>
    match m with
    | None => None
    | Some m =>
      if contains_sub piece ";" then None
      else if piece =s "" then Some m
      else
        let '(key, value) := cut (Ascii.eqb "=") piece in
        match query_unescape key, query_unescape (default "" value) with
        | Some k, Some v => Some (<[k := default [] (m !! k) ++ [v]]> m)
        | _, _ => None
        end
    end) (Some ∅) (split_on "&" raw).
(** [Values.Encode]: sorted by key. *)
Definition encode_query (m : values) : string :=
  join "&" (flat_map (fun kv => map (fun v => (query_escape (fst kv) ++ "=" ++ query_escape v)%string) (snd kv))
                     (sort_keys (map_to_list m))).

(** [json.Unmarshal] into an [any]. *)
Definition unmarshal (s : string) : option value :=
  match read_value (json_fuel s) s with
  | Some (v, r) => if skip_space r =s "" then Some v else None
  | None => None
  end.
(** [json.Marshal] of what was read; the keys of a map are sorted. *)
Fixpoint to_json (v : value) : json :=
  match v with
  | VNull => JNull
  | VBool b => JBool b
  | VNumber text => JLit text
  | VString s => JStr s
  | VArray l => JArr (map to_json l)
  | VObject l => jmap id (last_wins (map (fun kv => (fst kv, to_json (snd kv))) l))
  end.

(** Decoding into a struct: a member is matched to the field whose name has the
    same letters in any case (the long s of Unicode is an s, the Kelvin sign a
    k), a null leaves a string alone and clears a pointer, other members are
    skipped and a value of the wrong type is an error. *)
Fixpoint fold_name (s : string) : string :=
  match s with
  | String a (String b r as t) =>
    if (byte_of a =? 197) && (byte_of b =? 191) then String "s" (fold_name r)
    else match r with
         | String c u => if (byte_of a =? 226) && (byte_of b =? 132) && (byte_of c =? 170) then String "k" (fold_name u)
                         else String (lower_byte a) (fold_name t)
         | EmptyString => String (lower_byte a) (fold_name t)
         end
  | String a EmptyString => String (lower_byte a) ""
  | EmptyString => EmptyString
  end.
Definition into_string (old : string) (v : value) : option string :=
  match v with VString s => Some s | VNull => Some old | _ => None end.
(** A struct: [field] sets the field of a name, if there is one. *)
Definition into_struct {A} (field : string -> option (A -> value -> option A)) (old : A) (v : value) : option A :=
  match v with
  | VNull => Some old
  | VObject l =>
    foldl (fun a kv => match a, field (fold_name (fst kv)) with
                       | Some a, Some set => set a (snd kv)
                       | _, _ => a
                       end) (Some old) l
  | _ => None
  end.
Definition into_pointer {A} (zero : A) (into : A -> value -> option A) (old : option A) (v : value) : option (option A) :=
  match v with VNull => Some None | _ => Some <$> into (default zero old) v end.

(** ** The contract *)

Module PublicContract.
Section contract.
(** A compiled schema of the jsonschema package, and its [Validate]; an int64
    is given to it by its digits. *)
Context {Schema : Type} (validate : Schema -> value -> bool).

(** go: internal/apicontract/contract.go Parameter *)
Record Parameter_ := mkParameter {
  p_Name : string; p_In : string; p_Required : bool; p_integer : bool; p_compiled : Schema }.
(** The response schemas by status; 204 may have none.
    go: internal/apicontract/contract.go Operation *)
Record Operation := mkOperation {
  op_ID : string; op_Method : string; op_Path : string; op_Domain : string; op_Capability : string; op_ResourceKind : string;
  op_Sensitive : bool; op_SecretResponse : bool; op_Parameters : list Parameter_; op_Body : option Schema;
  op_Responses : gmap Z (option Schema) }.
(** go: internal/apicontract/contract.go:124-124 New *)
Definition op_Public (op : Operation) : bool :=
  contains ["readOpenAPI"; "readContract"; "readRuntime"; "createSession"] (op_ID op).

(** A segment of a path: a parameter or a text.
    go: internal/apicontract/contract.go:125-134 New *)
Definition wildcard (piece : string) : option string :=
  if has_prefix piece "{" && has_suffix piece "}" then Some (String.substring 1 (String.length piece - 2) piece) else None.
(** go: internal/apicontract/contract.go:125-134 New *)
Fixpoint match_pieces (pieces segments : list string) : option (list (string * string)) :=
  match pieces, segments with
  | [], [] => Some []
  | p :: pieces, s :: segments =>
    match wildcard p with
    | Some name => if s =s "" then None else cons (name, s) <$> match_pieces pieces segments
    | None => if p =s s then match_pieces pieces segments else None
    end
  | _, _ => None
  end.
(** The operation and its path parameters, or the methods of the path.
    go: internal/apicontract/contract.go Contract.Match *)
Fixpoint Match (operations : list Operation) (method path : string) (allowed : list string)
    : (Operation * gmap string string) + list string :=
  match operations with
  | [] => inr allowed
  | op :: rest =>
    match match_pieces (split_on "/" (op_Path op)) (split_on "/" path) with
    | None => Match rest method path allowed
    | Some m =>
      if op_Method op <>s method then Match rest method path (allowed ++ [op_Method op])
      else inl (op, last_wins m)
    end
  end.

(** The bound on a number's spelling; [parse_int] reads the exponent.
    go: internal/apicontract/contract.go boundedNumbers *)
Definition bounded_number (text : string) : bool :=
  if 64 <? slen text then false
  else match cut (fun c => Ascii.eqb c "e" || Ascii.eqb c "E") text with
       | (_, None) => true
       | (_, Some exponent) => match parse_int exponent 32 with Some e => (-308 <=? e) && (e <=? 308) | None => false end
       end.
(** go: internal/apicontract/contract.go boundedNumbers *)
Fixpoint boundedNumbers (v : value) : bool :=
  match v with
  | VNumber text => bounded_number text
  | VObject l => forallb (fun kv => boundedNumbers (snd kv)) l
  | VArray l => forallb boundedNumbers l
  | _ => true
  end.

Section parameters.
Context (path : gmap string string) (query : values) (header : string -> list string).
(** go: internal/apicontract/contract.go:190-199 Operation.ValidateParameters *)
Definition parameter_values (p : Parameter_) : list string :=
  if p_In p =s "path" then [default "" (path !! p_Name p)]
  else if p_In p =s "query" then default [] (query !! p_Name p)
  else if p_In p =s "header" then header (p_Name p) else [].
(** go: internal/apicontract/contract.go:200-222 Operation.ValidateParameters *)
Definition check_parameter (p : Parameter_) : result unit :=
  match parameter_values p with
  | _ :: _ :: _ => Err (Fail 400 "AMBIGUOUS_REQUEST")
  | [] =>
    if p_Required p then
      if p_Name p =s "If-Match" then Err (Fail 428 "PRECONDITION_REQUIRED") else Err (Fail 400 "REQUIRED_PARAMETER")
    else Ok tt
  | [text] =>
    let? v := (if p_integer p then
                 match parse_int text 64 with Some n => Ok (VNumber (format_int n)) | None => Err (Fail 422 "INVALID_PARAMETER") end
               else Ok (VString text)) in
    fail_if negb (validate (p_compiled p) v) with Fail 422 "INVALID_PARAMETER" ;; Ok tt
  end.
Fixpoint check_parameters (l : list Parameter_) : result unit :=
  match l with [] => Ok tt | p :: l => let? _ := check_parameter p in check_parameters l end.
(** go: internal/apicontract/contract.go Operation.ValidateParameters *)
Definition ValidateParameters (op : Operation) : result unit :=
  let? _ := check_parameters (op_Parameters op) in
  let known := p_Name <$> List.filter (fun p => p_In p =s "query") (op_Parameters op) in
  fail_if existsb (fun kv => negb (contains known (fst kv))) (map_to_list query) with Fail 400 "UNKNOWN_PARAMETER" ;;
  Ok tt.
End parameters.

(** The members and the canonical text of a body.
    go: internal/apicontract/contract.go Operation.Decode *)
Definition Decode (op : Operation) (data : string) : result (list (string * value) * string) :=
  match ParseObject data with
  | Done fields =>
    fail_if negb (boundedNumbers (VObject fields)) with Fail 400 "INVALID_JSON" ;;
    match op_Body op with
    | Some schema =>
      fail_if negb (validate schema (VObject fields)) with Fail 422 "INVALID_REQUEST" ;;
      Ok (fields, marshal (to_json (VObject fields)))
    | None => Err (Fail 422 "INVALID_REQUEST")
    end
  | _ => Err (Fail 400 "INVALID_JSON")
  end.
(** go: internal/apicontract/contract.go Operation.ValidateResponse *)
Definition ValidateResponse (op : Operation) (status : Z) (body : string) : result unit :=
  let invalid := Err (Fail 500 "INVALID_SERVICE_RESPONSE") in
  if MaxBodyBytes <? slen body then invalid
  else match op_Responses op !! status with
       | Some None => if (status =? 204) && (body =s "") then Ok tt else invalid
       | None => invalid
       | Some (Some schema) =>
         if (status =? 204) && (body =s "") then Ok tt
         else match ParseObject body with
              | Done fields =>
                if boundedNumbers (VObject fields) && validate schema (VObject fields) then Ok tt else invalid
              | _ => invalid
              end
       end.
End contract.
#[global] Arguments Parameter_ : clear implicits.
#[global] Arguments Operation : clear implicits.
End PublicContract.

(** ** The handler *)

Module PublicHandler.
Import PublicContract.

(** go: internal/publicapi/handler.go Subject *)
Record Subject := mkSubject {
  su_ID : string; su_PermissionRevision : string; su_CredentialKind : string; su_CSRFToken : string;
  su_Credential : string; su_SessionCookie : string; su_TLSIdentity : string }.
#[export] Instance Subject_eq_dec : EqDecision Subject.
Proof. solve_decision. Defined.
Definition nobody : Subject := mkSubject "" "" "" "" "" "" "".
(** A cookie that the browser keeps until a time, or one that it drops. *)
Record Cookie := mkCookie { ck_Name : string; ck_Value : string; ck_Expires : Z; ck_MaxAge : Z; ck_guarded : bool }.
(** go: internal/publicapi/handler.go Response *)
Record Response := mkResponse { rp_Status : Z; rp_Body : string; rp_ETag : string; rp_Cookie : option Cookie }.

(** The errors that the handler tells apart. *)
Inductive failure := Known (status : Z) (code : string) | NotFound | Busy | CommitUnknown | Interrupted | Unexpected.
(** go: internal/publicapi/handler.go problem *)
Definition problem (f : failure) : Z * string :=
  match f with
  | Known status code => (status, code)
  | NotFound => (404, "NOT_FOUND")
  | Busy => (429, "RESOURCE_BUDGET_EXCEEDED")
  | CommitUnknown => (503, "RESULT_UNKNOWN")
  | Interrupted => (503, "REQUEST_INTERRUPTED")
  | Unexpected => (503, "SERVICE_UNAVAILABLE")
  end.
Definition failure_of (e : error) : failure := match e with EFail status code => Known status code | _ => Unexpected end.

(** What the handler reads of a request; the body is [None] when it cannot be
    read within its budget. *)
Record request := mkRequest {
  r_RawPath : string; r_RawQuery : string; r_Path : string; r_Method : string; r_Header : string -> list string;
  r_ContentLength : Z; r_TransferEncoding : list string; r_Body : option string }.
(** [Header.Get]: the first value. *)
Definition header (r : request) (name : string) : string := hd "" (r_Header r name).

(** One to 128 letters, digits, underscores and dashes in quotes.
    go: internal/publicapi/handler.go:114-114 strongETag *)
Definition tag_char (c : ascii) : bool :=
  let b := byte_of c in is_digit b || ((65 <=? b) && (b <=? 90)) || ((97 <=? b) && (b <=? 122)) || (b =? 95) || (b =? 45).
Definition version_text (s : string) : bool :=
  (1 <=? slen s) && (slen s <=? 128) && forallb tag_char (list_ascii_of_string s).
Definition quoted (s : string) : string := String (char_of 34) (s ++ String (char_of 34) "").
Definition strongETag (s : string) : bool :=
  match s with
  | String q r => (byte_of q =? 34) && has_suffix r (String (char_of 34) "")
                  && version_text (String.substring 0 (String.length r - 1) r)
  | EmptyString => false
  end.

(** The four budgets of requests. *)
Inductive pool := Reads | Controls | Heavies | Auths.
#[export] Instance pool_eq_dec : EqDecision pool.
Proof. solve_decision. Defined.
(** go: internal/publicapi/handler.go:107-107 New *)
Definition capacity (p : pool) : Z := match p with Reads => 8 | Controls => 4 | Heavies => 2 | Auths => 4 end.

Section handler.
Context {Schema : Type} (validate : Schema -> value -> bool).
Notation Operation := (Operation Schema).

(** go: internal/publicapi/handler.go Query *)
Record Query := mkQuery { q_Operation : Operation; q_Path : gmap string string; q_Values : values }.

(** What is written to the client. *)
Inductive reply :=
  | Rejected (status : Z) (code : string) (request : option (string * string))
  | NotAllowed (methods : list string)
  | Document | ContractInfo | RuntimeInfo
  | Sent (status : Z) (body etag : string) (cookie : option Cookie) (receipt : option Requests.Result_).
(** What the handler asks for and does. *)
Inductive handler :=
  | Finish
  | Reply (a : reply) (k : handler)
  | HangUp (k : handler)
  | Take (p : pool) (k : bool -> handler)
  | Free (p : pool) (k : handler)
  | Runtime (k : option failure -> handler)
  | Authenticate (k : Subject + failure -> handler)
  | Allow (s : Subject) (capability : string) (refs : list Ref) (k : option failure -> handler)
  | Session (s : Subject) (q : Query) (body : string) (k : Response + failure -> handler)
  | Read (s : Subject) (q : Query) (k : Response + failure -> handler)
  | Execute (s : Subject) (q : Query) (c : Command) (k : Requests.Result_ + failure -> handler)
  | Stream (s : Subject) (k : handler).

(** [defer free()]: the slot is given back when the function returns, once. *)
Fixpoint deferred (p : pool) (h : handler) : handler :=
  match h with
  | Finish => Free p Finish
  | Reply a k => Reply a (deferred p k)
  | HangUp k => HangUp (deferred p k)
  | Take q k => Take q (fun b => deferred p (k b))
  | Free q k => Free q k
  | Runtime k => Runtime (fun e => deferred p (k e))
  | Authenticate k => Authenticate (fun e => deferred p (k e))
  | Allow s c refs k => Allow s c refs (fun e => deferred p (k e))
  | Session s q b k => Session s q b (fun e => deferred p (k e))
  | Read s q k => Read s q (fun e => deferred p (k e))
  | Execute s q c k => Execute s q c (fun e => deferred p (k e))
  | Stream s k => Stream s (deferred p k)
  end.

(** The parts the handler is made of. [media_type] is [mime.ParseMediaType].
    go: internal/publicapi/handler.go:79-88 Handler *)
Context (operations : list Operation) (receipt_schema : Schema) (origin : string).
Context (has_gateway has_runtime : bool).
Context (media_type : string -> option (string * list (string * string))).

Definition fail_with (f : failure) : handler := let '(status, code) := problem f in Reply (Rejected status code None) Finish.
Definition fail (status : Z) (code : string) : handler := fail_with (Known status code).

(** The revision of a body: what [json.Unmarshal] makes of its member. *)
Definition revision_of (body : string) : string :=
  match unmarshal body with
  | Some v => default "" (into_struct (fun name => if name =s "revision" then Some into_string else None) "" v)
  | None => ""
  end.
(** go: internal/publicapi/handler.go sendResponse *)
Definition sendResponse (r : Response) (receipt : option Requests.Result_) : handler :=
  let etag := if (rp_ETag r =s "") && (0 <? slen (rp_Body r)) && (revision_of (rp_Body r) <>s "")
              then quoted (revision_of (rp_Body r)) else rp_ETag r in
  Reply (Sent (rp_Status r) (if rp_Status r =? 204 then "" else rp_Body r) (if strongETag etag then etag else "")
              (rp_Cookie r) receipt) Finish.

(** Decoding the two bodies that are compared with their receipts. *)
Definition into_ref : option Ref -> value -> option (option Ref) :=
  into_pointer (mkRef "" "")
    (into_struct (fun name =>
       if name =s "kind" then Some (fun r v => (fun s => mkRef s (ref_ID r)) <$> into_string (ref_Kind r) v)
       else if name =s "id" then Some (fun r v => (fun s => mkRef (ref_Kind r) s) <$> into_string (ref_ID r) v)
       else None)).
Definition accepted_of (body : string) : option Accepted :=
  unmarshal body ≫= into_struct (fun name =>
    if name =s "request_id" then Some (fun a v => (fun s => mkAccepted s (ac_Domain a) (ac_Epoch a) (ac_JobID a) (ac_Resource a) (ac_CorrelationID a)) <$> into_string (ac_RequestID a) v)
    else if name =s "request_domain" then Some (fun a v => (fun s => mkAccepted (ac_RequestID a) s (ac_Epoch a) (ac_JobID a) (ac_Resource a) (ac_CorrelationID a)) <$> into_string (ac_Domain a) v)
    else if name =s "request_epoch" then Some (fun a v => (fun s => mkAccepted (ac_RequestID a) (ac_Domain a) s (ac_JobID a) (ac_Resource a) (ac_CorrelationID a)) <$> into_string (ac_Epoch a) v)
    else if name =s "job_id" then Some (fun a v => (fun s => mkAccepted (ac_RequestID a) (ac_Domain a) (ac_Epoch a) s (ac_Resource a) (ac_CorrelationID a)) <$> into_string (ac_JobID a) v)
    else if name =s "resource_ref" then Some (fun a v => (fun o => mkAccepted (ac_RequestID a) (ac_Domain a) (ac_Epoch a) (ac_JobID a) o (ac_CorrelationID a)) <$> into_ref (ac_Resource a) v)
    else if name =s "correlation_id" then Some (fun a v => (fun s => mkAccepted (ac_RequestID a) (ac_Domain a) (ac_Epoch a) (ac_JobID a) (ac_Resource a) s) <$> into_string (ac_CorrelationID a) v)
    else None) (mkAccepted "" "" "" "" None "").
Definition set_receipt (r : Receipt) (name s : string) : Receipt :=
  mkReceipt (if name =s "request_id" then s else rc_RequestID r) (if name =s "request_domain" then s else rc_Domain r)
    (if name =s "request_epoch" then s else rc_Epoch r) (if name =s "state" then s else rc_State r)
    (if name =s "command_effect" then s else rc_Effect r) (rc_Resource r) (rc_Job r)
    (if name =s "correlation_id" then s else rc_CorrelationID r).
Definition get_receipt (r : Receipt) (name : string) : string :=
  if name =s "request_id" then rc_RequestID r else if name =s "request_domain" then rc_Domain r
  else if name =s "request_epoch" then rc_Epoch r else if name =s "state" then rc_State r
  else if name =s "command_effect" then rc_Effect r else rc_CorrelationID r.
Definition with_refs (r : Receipt) (resource job : option Ref) : Receipt :=
  mkReceipt (rc_RequestID r) (rc_Domain r) (rc_Epoch r) (rc_State r) (rc_Effect r) resource job (rc_CorrelationID r).
Definition receipt_of (body : string) : option Receipt :=
  unmarshal body ≫= into_struct (fun name =>
    if contains ["request_id"; "request_domain"; "request_epoch"; "state"; "command_effect"; "correlation_id"] name
    then Some (fun r v => set_receipt r name <$> into_string (get_receipt r name) v)
    else if name =s "resource_ref" then Some (fun r v => (fun o => with_refs r o (rc_Job r)) <$> into_ref (rc_Resource r) v)
    else if name =s "job_ref" then Some (fun r v => with_refs r (rc_Resource r) <$> into_ref (rc_Job r) v)
    else None) (mkReceipt "" "" "" "" "" None None "").

(** ** ServeHTTP *)

(** go: internal/publicapi/handler.go:371-373 sameReceipt *)
Definition sameReceipt (a b : Receipt) : bool := bool_decide (a = b).
(** go: internal/publicapi/handler.go sameRef *)
Definition sameRef (a b : option Ref) : bool := bool_decide (a = b).

(** What came back for a command, after its execution.
    go: internal/publicapi/handler.go:337-362 Handler.ServeHTTP *)
Definition executed (op : Operation) (c : Command) (result : Requests.Result_) : handler :=
  let fail_command (status : Z) (code : string) := Reply (Rejected status code (Some (cm_ID c, op_Domain op))) Finish in
  let invalid := fail_command 500 "INVALID_SERVICE_RESPONSE" in
  let receipt := rs_Receipt result in
  if (rc_RequestID receipt <>s cm_ID c) || (rc_Domain receipt <>s op_Domain op) || (rc_Epoch receipt <>s cm_Epoch c)
     || negb (ManagementID (rc_CorrelationID receipt)) then invalid
  else
    let accepted :=
      if rs_Status result =? 202 then
        match accepted_of (rs_Body result), rc_Job receipt with
        | Some a, Some job =>
          (ac_RequestID a =s cm_ID c) && (ac_Epoch a =s cm_Epoch c) && (ac_Domain a =s op_Domain op)
          && (ac_CorrelationID a =s rc_CorrelationID receipt) && (ac_JobID a =s ref_ID job)
          && sameRef (ac_Resource a) (rc_Resource receipt)
        | _, _ => false
        end
      else true in
    if negb accepted then invalid
    else if rs_Replayed result && op_SecretResponse op then
      match receipt_of (rs_Body result) with
      | Some r =>
        if validate receipt_schema (default VNull (unmarshal (rs_Body result))) && (rs_Status result =? 200) && sameReceipt r receipt
        then sendResponse (mkResponse (rs_Status result) (rs_Body result) "" None) (Some result)
        else invalid
      | None => invalid
      end
    else match ValidateResponse validate op (rs_Status result) (rs_Body result) with
         | Ok _ => sendResponse (mkResponse (rs_Status result) (rs_Body result) "" None) (Some result)
         | Err e => let '(status, code) := problem (failure_of e) in fail_command status code
         end.
(** A response that is checked against the contract and sent.
    go: internal/publicapi/handler.go:296-319 Handler.ServeHTTP *)
Definition answered (op : Operation) (e : Response + failure) : handler :=
  match e with
  | inr f => fail_with f
  | inl response =>
    match ValidateResponse validate op (rp_Status response) (rp_Body response) with
    | Err e => fail_with (failure_of e)
    | Ok _ => sendResponse response None
    end
  end.
(** The command of a request: its key is the request_id of its body.
    go: internal/publicapi/handler.go:328-331 Handler.ServeHTTP *)
Definition command_of (r : request) (s : Subject) (q : Query) (id payload : string) : Command :=
  let op := q_Operation q in
  let uri := if is_empty (map_to_list (q_Values q)) then r_Path r else (r_Path r ++ "?" ++ encode_query (q_Values q))%string in
  mkCommand (su_ID s) (header r "X-OVS-Request-Epoch") (op_Domain op) id (op_ID op) (r_Method r) uri (header r "If-Match")
    "" "" payload (op_Sensitive op) [] (op_SecretResponse op).
(** go: internal/publicapi/handler.go:321-336 Handler.ServeHTTP *)
Definition execute (r : request) (s : Subject) (q : Query) (fields : list (string * value)) (payload : string) : handler :=
  match last_wins fields !! "request_id" with
  | Some (VString id) =>
    if id <>s header r "Idempotency-Key" then fail 409 "IDEMPOTENCY_KEY_MISMATCH"
    else
      let c := command_of r s q id payload in
      Execute s q c (fun e =>
        match e with
        | inl result => executed (q_Operation q) c result
        | inr f => let '(status, code) := problem f in Reply (Rejected status code (Some (id, op_Domain (q_Operation q)))) Finish
        end)
  | _ => fail 409 "IDEMPOTENCY_KEY_MISMATCH"
  end.
(** go: internal/publicapi/handler.go:291-320 Handler.ServeHTTP *)
Definition dispatch (r : request) (s : Subject) (q : Query) (fields : list (string * value)) (payload : string) : handler :=
  let op := q_Operation q in
  if negb has_gateway then fail 503 "SERVICE_UNAVAILABLE"
  else if contains ["createSession"; "deleteSession"; "reauthenticateSession"] (op_ID op) then Session s q payload (answered op)
  else if op_Domain op =s "" then Read s q (answered op)
  else execute r s q fields payload.
(** The body, or that there is none.
    go: internal/publicapi/handler.go:264-290 Handler.ServeHTTP *)
Definition with_body (r : request) (s : Subject) (q : Query) : handler :=
  let op := q_Operation q in
  let go :=
    match op_Body op with
    | Some _ =>
      let json := match media_type (header r "Content-Type") with
                  | None => false
                  | Some (media, params) =>
                    let charset := default "" ((list_to_map params : gmap string string) !! "charset") in
                    (media =s "application/json") && ((charset =s "") || (to_lower charset =s "utf-8"))
                  end in
      if negb json then fail 415 "JSON_REQUIRED"
      else match r_Body r with
           | None => HangUp (fail 413 "REQUEST_TOO_LARGE")
           | Some data =>
             match Decode validate op data with
             | Err e => fail_with (failure_of e)
             | Ok (fields, payload) => dispatch r s q fields payload
             end
           end
    | None =>
      if (r_Method r <>s "GET") && (negb (r_ContentLength r =? 0) || negb (is_empty (r_TransferEncoding r)))
      then fail 400 "UNEXPECTED_BODY"
      else dispatch r s q [] ""
    end in
  if op_ID op =s "activateCertificate" then HangUp go else go.
(** The page of an event stream leaves its slot.
    go: internal/publicapi/handler.go:259-263 Handler.ServeHTTP *)
Definition admitted (r : request) (p : pool) (s : Subject) (q : Query) : handler :=
  if op_ID (q_Operation q) =s "subscribeResourceChanges" then Free p (Stream s Finish) else with_body r s q.
(** go: internal/publicapi/handler.go:236-243 Handler.ServeHTTP *)
Definition refs_of (q : Query) : list Ref :=
  if op_ID (q_Operation q) =s "readRequestReceipt" then []
  else (fun kv => mkRef (op_ResourceKind (q_Operation q)) (snd kv)) <$> map_to_list (q_Path q).
(** go: internal/publicapi/handler.go:248-257 Handler.ServeHTTP *)
Definition cookie_checks (r : request) (s : Subject) (q : Query) (k : handler) : handler :=
  if su_CredentialKind s =s "cookie" then
    if ((r_Method r <>s "GET") || (op_ID (q_Operation q) =s "subscribeResourceChanges"))
       && ((header r "Origin" =s "") || (origin =s "")) then fail 403 "ORIGIN_REJECTED"
    else if (r_Method r <>s "GET") && ((slen (su_CSRFToken s) <? 16) || (su_CSRFToken s <>s header r "X-OVS-CSRF-Token"))
    then fail 403 "CSRF_REJECTED"
    else k
  else k.
(** go: internal/publicapi/handler.go:221-247 Handler.ServeHTTP *)
Definition authorized (r : request) (p : pool) (q : Query) : handler :=
  let op := q_Operation q in
  if (op_ID op =s "createSession") && ((origin =s "") || (header r "Origin" <>s origin)) then fail 403 "ORIGIN_REJECTED"
  else if op_Public op then admitted r p nobody q
  else Authenticate (fun e =>
    match e with
    | inr f => fail_with f
    | inl s =>
      if negb (ManagementID (su_ID s)) || (su_PermissionRevision s =s "") then fail 503 "AUTH_UNAVAILABLE"
      else Allow s (op_Capability op) (refs_of q) (fun e =>
        match e with Some f => fail_with f | None => cookie_checks r s q (admitted r p s q) end)
    end).
(** go: internal/publicapi/handler.go:189-198 Handler.ServeHTTP *)
Definition pool_of (op : Operation) : pool :=
  if contains ["createSession"; "deleteSession"; "reauthenticateSession"] (op_ID op) then Auths
  else if contains ["decideTransaction"; "reconcileTransaction"] (op_ID op) then Controls
  else if op_Domain op <>s "" then Heavies else Reads.
(** go: internal/publicapi/handler.go:199-220 Handler.ServeHTTP *)
Definition budgeted (r : request) (q : Query) : handler :=
  let op := q_Operation q in
  let p := pool_of op in
  Take p (fun free =>
    if negb free then fail 429 "RESOURCE_BUDGET_EXCEEDED"
    else deferred p
      (if op_ID op =s "readRuntime" then
         if negb has_runtime then fail 503 "MANAGEMENT_DEGRADED"
         else Runtime (fun e => match e with Some f => fail_with f | None => Reply RuntimeInfo Finish end)
       else authorized r p q)).
Definition single_headers : list string :=
  ["Authorization"; "Origin"; "Content-Type"; "Idempotency-Key"; "X-OVS-Request-Epoch"; "If-Match"; "X-OVS-CSRF-Token"].
(** The shape of a request and its origin.
    go: internal/publicapi/handler.go:144-186 Handler.ServeHTTP *)
Definition checked (r : request) (op : Operation) (path : gmap string string) : handler :=
  match parse_query (r_RawQuery r) with
  | None => fail 400 "INVALID_QUERY"
  | Some query =>
    if existsb (fun h => 1 <? len (r_Header r h)) single_headers then fail 400 "AMBIGUOUS_REQUEST"
    else if (header r "Authorization" <>s "") && (header r "Cookie" <>s "") then fail 400 "AMBIGUOUS_AUTHENTICATION"
    else match ValidateParameters validate path query (r_Header r) op with
         | Err e => fail_with (failure_of e)
         | Ok _ =>
           if (header r "If-Match" <>s "") && negb (strongETag (header r "If-Match")) then fail 428 "STRONG_PRECONDITION_REQUIRED"
           else if (r_Method r =s "GET") && (negb (r_ContentLength r =? 0) || negb (is_empty (r_TransferEncoding r)))
           then HangUp (fail 400 "UNEXPECTED_BODY")
           else if ((r_Method r <>s "GET") || (op_ID op =s "subscribeResourceChanges"))
                   && ((header r "Origin" <>s "") && ((origin =s "") || (header r "Origin" <>s origin)))
           then fail 403 "ORIGIN_REJECTED"
           else if op_ID op =s "readOpenAPI" then Reply Document Finish
           else if op_ID op =s "readContract" then Reply ContractInfo Finish
           else budgeted r (mkQuery op path query)
         end
  end.
(** go: internal/publicapi/handler.go Handler.ServeHTTP *)
Definition ServeHTTP (r : request) : handler :=
  if (r_RawPath r <>s "") || (4096 <? slen (r_RawQuery r)) || contains_sub (r_Path r) "//" then fail 400 "INVALID_REQUEST"
  else match Match operations (r_Method r) (r_Path r) [] with
       | inr [] => fail 404 "NOT_FOUND"
       | inr allowed => Reply (NotAllowed allowed) Finish
       | inl (op, path) => checked r op path
       end.
End handler.
End PublicHandler.

(** ** What a request goes through *)

Module PublicRules.
Import PublicContract PublicHandler.

Section rules.
Context {Schema : Type} (validate : Schema -> value -> bool).
Context (operations : list (Operation Schema)) (receipt_schema : Schema) (origin : string).
Context (has_gateway has_runtime : bool).
Context (media_type : string -> option (string * list (string * string))).
Context (r : request).
Notation serve := (ServeHTTP validate operations receipt_schema origin has_gateway has_runtime media_type r).
Notation handler := (handler (Schema := Schema)).
Notation Query := (Query (Schema := Schema)).

(** The operation of the contract that the request names, its parameters
    accepted; and the body that the operation takes. *)
Definition routed (q : Query) : Prop :=
  Match operations (r_Method r) (r_Path r) [] = inl (q_Operation q, q_Path q) /\
  parse_query (r_RawQuery r) = Some (q_Values q) /\
  ValidateParameters validate (q_Path q) (q_Values q) (r_Header r) (q_Operation q) = Ok tt.
Definition bodied (q : Query) (fields : list (string * value)) (payload : string) : Prop :=
  match op_Body (q_Operation q) with
  | None => fields = [] /\ payload = ""
  | Some _ => exists data, r_Body r = Some data /\ Decode validate (q_Operation q) data = Ok (fields, payload)
  end.
(** The request comes from a page of the public origin. *)
Definition same_origin : Prop := header r "Origin" = origin /\ origin <> "".
(** A browser's session is used only by the pages of the origin; to change
    something they show its secret. *)
Definition browser_safe (s : Subject) (q : Query) : Prop :=
  su_CredentialKind s = "cookie" ->
  (r_Method r <> "GET" \/ op_ID (q_Operation q) = "subscribeResourceChanges" -> same_origin) /\
  (r_Method r <> "GET" -> 16 <= slen (su_CSRFToken s) /\ header r "X-OVS-CSRF-Token" = su_CSRFToken s).
(** For whom an operation runs: the authenticated subject to whom its
    capability on the resources of the path was granted; the sign-in of a page
    of the origin runs for nobody. *)
Definition entitled (who : option Subject) (granted : bool) (s : Subject) (q : Query) : Prop :=
  if op_Public (q_Operation q) then s = nobody /\ (op_ID (q_Operation q) = "createSession" -> same_origin)
  else who = Some s /\ granted = true /\ ManagementID (su_ID s) = true /\ browser_safe s q.
(** A response of the contract: it fits the operation, or it is the receipt of
    a command whose answer was secret. *)
Definition presentable (a : reply) : Prop :=
  match a with
  | Sent status body etag cookie receipt =>
    exists q : Query, routed q /\
    (forall result, receipt = Some result ->
       rc_RequestID (rs_Receipt result) = header r "Idempotency-Key" /\
       rc_Domain (rs_Receipt result) = op_Domain (q_Operation q) /\ rc_Epoch (rs_Receipt result) = header r "X-OVS-Request-Epoch") /\
    ((exists raw, ValidateResponse validate (q_Operation q) status raw = Ok tt /\ body = if status =? 204 then "" else raw) \/
     exists result, receipt = Some result /\ rs_Replayed result = true /\ op_SecretResponse (q_Operation q) = true /\
       status = 200 /\ receipt_of body = Some (rs_Receipt result))
  | _ => True
  end.

(** [orderly final held who granted answered h]: whatever [h] is told, it takes
    the one slot of its operation and gives it back on every path; it answers
    once, and only with what the contract allows; it asks for the capability
    of the operation on the resources of its path; and it reads, changes or
    streams only for whom it is entitled to, on the decoded body of this very
    request. *)
Fixpoint orderly (final held : option pool) (who : option Subject) (granted answered : bool) (h : handler) : Prop :=
  match h with
  | Finish => held = final /\ answered = true
  | Reply a k => answered = false /\ presentable a /\ orderly final held who granted true k
  | HangUp k => orderly final held who granted answered k
  | Take p k =>
    held = None /\ (exists q, routed q /\ p = pool_of (q_Operation q)) /\
    orderly final (Some p) who granted answered (k true) /\ orderly final None who granted answered (k false)
  | Free p k => held = Some p /\ orderly None None who granted answered k
  | Runtime k => held <> None /\ forall e, orderly final held who granted answered (k e)
  | Authenticate k =>
    held <> None /\ who = None /\ (forall s, orderly final held (Some s) false answered (k (inl s))) /\
    forall f, orderly final held who granted answered (k (inr f))
  | Allow s capability refs k =>
    who = Some s /\ (exists q, routed q /\ capability = op_Capability (q_Operation q) /\ refs = refs_of q) /\
    orderly final held who true answered (k None) /\ forall f, orderly final held who granted answered (k (Some f))
  | Session s q body k =>
    answered = false /\ held = Some (pool_of (q_Operation q)) /\ routed q /\ entitled who granted s q /\
    (exists fields, bodied q fields body) /\ forall e, orderly final held who granted answered (k e)
  | Read s q k =>
    answered = false /\ held = Some (pool_of (q_Operation q)) /\ routed q /\ entitled who granted s q /\
    op_Domain (q_Operation q) = "" /\ forall e, orderly final held who granted answered (k e)
  | Execute s q c k =>
    answered = false /\ held = Some (pool_of (q_Operation q)) /\ routed q /\ entitled who granted s q /\
    op_Domain (q_Operation q) <> "" /\ cm_Principal c = su_ID s /\ cm_ID c = header r "Idempotency-Key" /\
    (exists fields, bodied q fields (cm_Payload c) /\ last_wins fields !! "request_id" = Some (VString (cm_ID c))) /\
    forall e, orderly final held who granted answered (k e)
  | Stream s k =>
    answered = false /\ held = None /\ (exists q, routed q /\ entitled who granted s q) /\
    orderly final held who granted true k
  end.

Lemma deferred_once_ok p h : forall held who granted answered,
  orderly (Some p) held who granted answered h -> orderly None held who granted answered (deferred p h).
Proof. induction h; cbn; intros; destruct_and?; naive_solver. Qed.
Lemma fail_ok held who granted f : orderly held held who granted false (fail_with f).
Proof. unfold fail_with. by destruct (problem f). Qed.
Lemma rejected_ok held who granted status code request :
  orderly held held who granted false (Reply (Rejected status code request) Finish).
Proof. done. Qed.
Lemma sendResponse_ok held who granted response receipt :
  (forall etag, presentable (Sent (rp_Status response) (if rp_Status response =? 204 then "" else rp_Body response) etag (rp_Cookie response) receipt)) ->
  orderly held held who granted false (sendResponse response receipt).
Proof. intros H. split_and!; [done|apply H|done..]. Qed.
Lemma valid_response op status body u : ValidateResponse validate op status body = Ok u -> ValidateResponse validate op status body = Ok tt.
Proof. by destruct u. Qed.

Section route.
Context (q : Query) (Hq : routed q).
Notation op := (q_Operation q).
Notation p := (pool_of op).

Lemma answered_ok who granted e : orderly (Some p) (Some p) who granted false (answered validate op e).
Proof.
  destruct e as [response|f]; [|apply fail_ok]. cbn. destruct (ValidateResponse _ _ _ _) eqn:E; [|apply fail_ok].
  apply sendResponse_ok. intros etag. exists q. split_and!; [done|done|]. left. exists (rp_Body response). split; [|done]. by eapply valid_response.
Qed.
Lemma executed_ok who granted c result :
  cm_ID c = header r "Idempotency-Key" -> cm_Epoch c = header r "X-OVS-Request-Epoch" ->
  orderly (Some p) (Some p) who granted false (executed validate receipt_schema op c result).
Proof.
  intros Hid He. unfold executed.
  destruct (_ || _ || _ || _) eqn:E; [done|]. apply orb_false_iff in E as [E _].
  apply orb_false_iff in E as [[E1%negb_false_iff%String.eqb_eq E2%negb_false_iff%String.eqb_eq]%orb_false_iff E3%negb_false_iff%String.eqb_eq].
  assert (forall res, Some result = Some res -> rc_RequestID (rs_Receipt res) = header r "Idempotency-Key" /\
    rc_Domain (rs_Receipt res) = op_Domain op /\ rc_Epoch (rs_Receipt res) = header r "X-OVS-Request-Epoch") as Hr
    by (intros ? [= <-]; split_and!; congruence).
  match goal with |- orderly _ _ _ _ _ (if negb ?b then _ else _) => destruct b; [cbn [negb]|done] end.
  destruct (rs_Replayed result && op_SecretResponse op) eqn:Es.
  - apply andb_true_iff in Es as [Es1 Es2]. destruct (receipt_of _) as [receipt|] eqn:Eo; [|done].
    destruct (_ && _ && _) eqn:Ev; [|done]. apply andb_true_iff in Ev as [[Ev Es3%Z.eqb_eq]%andb_true_iff Ev2].
    apply sendResponse_ok. intros etag. exists q. split_and!; [done..|]. right. exists result.
    apply bool_decide_eq_true_1 in Ev2. cbn. rewrite Es3. cbn. subst receipt. by split_and!.
  - destruct (ValidateResponse _ _ _ _) eqn:Ev; [|by destruct (problem _)].
    apply sendResponse_ok. intros etag. exists q. split_and!; [done..|]. left. exists (rs_Body result).
    split; [by eapply valid_response|done].
Qed.
Lemma dispatched_ok who granted s fields payload : entitled who granted s q -> bodied q fields payload ->
  orderly (Some p) (Some p) who granted false (dispatch validate receipt_schema has_gateway r s q fields payload).
Proof.
  intros Hs Hb. unfold dispatch. destruct has_gateway; [cbn [negb]|apply fail_ok].
  destruct (contains _ _); [split_and!; try done; [by exists fields|apply answered_ok]|].
  destruct (String.eqb_spec (op_Domain op) ""); [split_and!; try done; apply answered_ok|].
  unfold execute. destruct (last_wins fields !! "request_id") as [v|] eqn:Ev; [|apply fail_ok].
  destruct v as [| | |id| |]; try apply fail_ok. destruct (String.eqb_spec id (header r "Idempotency-Key")) as [->|]; [cbn [negb]|apply fail_ok].
  split_and!; try done; [by exists fields|]. intros [result|f]; [by apply executed_ok|by destruct (problem f)].
Qed.
Lemma with_body_ok who granted s : entitled who granted s q ->
  orderly (Some p) (Some p) who granted false (with_body validate receipt_schema has_gateway media_type r s q).
Proof.
  intros Hs. unfold with_body.
  match goal with |- orderly _ _ _ _ _ (if ?b then HangUp ?k else _) =>
    assert (orderly (Some p) (Some p) who granted false k) as H; [|by destruct b] end.
  pose proof (fun fields payload => dispatched_ok who granted s fields payload Hs) as Hd. unfold bodied in Hd.
  destruct (op_Body op) as [schema|].
  - match goal with |- orderly _ _ _ _ _ (if negb ?b then _ else _) => destruct b; [cbn [negb]|apply fail_ok] end.
    destruct (r_Body r) as [data|]; [|apply fail_ok]. destruct (Decode validate op data) as [[fields payload]|] eqn:Ed; [|apply fail_ok].
    apply Hd. by exists data.
  - destruct (_ && _); [apply fail_ok|by apply Hd].
Qed.
Lemma admitted_ok who granted s : entitled who granted s q ->
  orderly None (Some p) who granted false (deferred p (admitted validate receipt_schema has_gateway media_type r p s q)).
Proof.
  intros Hs. unfold admitted. destruct (_ =s _); [|apply deferred_once_ok; by apply with_body_ok].
  split; [done|]. split_and!; try done. by exists q.
Qed.
Lemma authorized_ok :
  (r_Method r <> "GET" \/ op_ID op = "subscribeResourceChanges" -> header r "Origin" = "" \/ same_origin) ->
  orderly None (Some p) None false false (deferred p (authorized validate receipt_schema origin has_gateway media_type r p q)).
Proof.
  intros Ho. unfold authorized. destruct (_ && _) eqn:E; [apply deferred_once_ok; apply fail_ok|].
  destruct (op_Public op) eqn:Ep.
  - apply admitted_ok. unfold entitled. rewrite Ep. split; [done|]. intros Hc. rewrite Hc in E. cbn in E.
    apply orb_false_iff in E as [E1%String.eqb_neq E2%negb_false_iff%String.eqb_eq]. done.
  - split_and!; [done|done| |intros f; apply deferred_once_ok; apply fail_ok]. intros s.
    destruct (negb (ManagementID (su_ID s)) || _) eqn:Em; [apply deferred_once_ok; apply fail_ok|].
    apply orb_false_iff in Em as [Em%negb_false_iff _].
    split_and!; [done|by exists q| |intros f; apply deferred_once_ok; apply fail_ok].
    unfold cookie_checks. destruct (String.eqb_spec (su_CredentialKind s) "cookie") as [Ec|Ec].
    + destruct ((_ || _) && _) eqn:E1; [apply deferred_once_ok; apply fail_ok|]. destruct (negb _ && _) eqn:E2; [apply deferred_once_ok; apply fail_ok|].
      apply admitted_ok. unfold entitled. rewrite Ep. split_and!; [done..|]. intros _. split.
      * intros Hm. destruct (Ho Hm) as [H|H]; [|done]. rewrite H in E1. apply andb_false_iff in E1 as [E1|E1]; [|done].
        apply orb_false_iff in E1 as [E1%negb_false_iff%String.eqb_eq E3%String.eqb_neq]. by destruct Hm.
      * intros Hm. apply andb_false_iff in E2 as [E2%negb_false_iff%String.eqb_eq|E2]; [done|].
        apply orb_false_iff in E2 as [E2%Z.ltb_ge E3%negb_false_iff%String.eqb_eq]. done.
    + apply admitted_ok. unfold entitled. rewrite Ep. by split_and!.
Qed.
Lemma budgeted_ok :
  (r_Method r <> "GET" \/ op_ID op = "subscribeResourceChanges" -> header r "Origin" = "" \/ same_origin) ->
  orderly None None None false false (budgeted validate receipt_schema origin has_gateway has_runtime media_type r q).
Proof.
  intros Ho. unfold budgeted. split_and!; [done|by exists q| |apply fail_ok]. cbn [negb].
  destruct (op_ID op =s "readRuntime"); [|by apply authorized_ok].
  apply deferred_once_ok. destruct has_runtime; [|apply fail_ok]. split; [done|]. intros [f|]; [apply fail_ok|done].
Qed.
End route.

(** C25. A request of the public API is admitted in order: it takes the slot
    of its operation and gives it back on every path; it is answered once; an
    operation runs only when its contract accepts the parameters and the body,
    for the authenticated subject to whom its capability was granted on the
    resources of the path, and, when a browser's session asks, from a page of
    the public origin that shows the session's secret; a command runs under
    the key of its own body; and only answers that the contract allows leave. *)
Theorem api_admitted : orderly None None None false false serve.
Proof.
  unfold ServeHTTP. destruct (_ || _ || _); [apply fail_ok|].
  destruct (Match _ _ _ _) as [[op path]|allowed] eqn:Em; [|by destruct allowed; [apply fail_ok|]].
  unfold checked. destruct (parse_query _) as [query|] eqn:Eq; [|apply fail_ok].
  destruct (existsb _ _); [apply fail_ok|]. destruct (_ && _); [apply fail_ok|].
  destruct (ValidateParameters _ _ _ _ _) as [[]|] eqn:Ev; [|apply fail_ok]. destruct (_ && _); [apply fail_ok|].
  destruct (_ && _); [apply fail_ok|]. destruct ((_ || _) && _) eqn:Eo; [apply fail_ok|].
  destruct (op_ID op =s "readOpenAPI"); [done|]. destruct (op_ID op =s "readContract"); [done|].
  apply budgeted_ok; [done|]. cbn [q_Operation]. intros Hm. apply andb_false_iff in Eo as [Eo|Eo].
  - apply orb_false_iff in Eo as [E1%negb_false_iff%String.eqb_eq E2%String.eqb_neq]. by destruct Hm.
  - apply andb_false_iff in Eo as [E%negb_false_iff%String.eqb_eq|E]; [by left|].
    apply orb_false_iff in E as [E1%String.eqb_neq E2%negb_false_iff%String.eqb_eq]. by right.
Qed.
End rules.
End PublicRules.

(** ** The authority of the web daemon (internal/web/auth.go)

    It keeps no rights of its own: a session is a sealed mapping from a cookie
    to a grant of the manager (internal/repository/sessions), and every
    question goes to the manager with the credential. *)

Module WebAuthentication.
Import PublicContract PublicHandler AuthTypes.

(** go: internal/repository/sessions/sessions.go Mapping *)
Record Mapping := mkMapping { mp_Grant : string; mp_PrincipalID : string; mp_CSRF : string; mp_ExpiresAt : Z }.
Definition sessionCookie : string := "__Host-ovs_session".
(** go: internal/web/auth.go authError *)
Definition authError (f : failure) : failure :=
  match f with
  | Known status code => Known status code
  | NotFound => Known 401 "UNAUTHENTICATED"
  | _ => Known 503 "AUTH_UNAVAILABLE"
  end.

Section authority.
(** What the manager says of a credential, and the sealed mapping of a
    cookie. *)
Context (InspectAuth : string -> Claims + failure) (Load : string -> Mapping + failure).
Context (CheckAuth : string -> string -> list Ref -> Claims + failure).

(** [cookies] are the values of the session cookie in the request.
    go: internal/web/auth.go Authentication.Authenticate *)
Definition Authenticate (r : request) (cookies : list string) (certificate : string) : Subject + failure :=
  if header r "Authorization" <>s "" then
    if negb (len (r_Header r "Authorization") =? 1) || (header r "Cookie" <>s "") then inr (Known 400 "AMBIGUOUS_AUTHENTICATION")
    else match strip_prefix "Bearer " (header r "Authorization") with
         | None => inr (Known 401 "UNAUTHENTICATED")
         | Some credential =>
           if negb (ValidSecret credential "ovst_") then inr (Known 401 "API_TOKEN_REQUIRED")
           else match InspectAuth credential with
                | inr f => inr (authError f)
                | inl c =>
                  if cl_Kind c <>s "token" then inr (Known 401 "API_TOKEN_REQUIRED")
                  else inl (mkSubject (cl_Principal c) (cl_Revision c) "bearer" "" credential "" "")
                end
         end
  else match cookies with
       | [cookie] =>
         match Load cookie with
         | inr f => inr (authError f)
         | inl m =>
           match InspectAuth (mp_Grant m) with
           | inr f => inr (authError f)
           | inl c =>
             if (cl_Principal c <>s mp_PrincipalID m) || (cl_Kind c <>s "grant") then inr (Known 401 "SESSION_INVALID")
             else inl (mkSubject (cl_Principal c) (cl_Revision c) "cookie" (mp_CSRF m) (mp_Grant m) cookie certificate)
           end
         end
       | _ => inr (Known 401 "UNAUTHENTICATED")
       end.
(** go: internal/web/auth.go Authentication.Revalidate *)
Definition Revalidate (s : Subject) : Subject + failure :=
  let inspect :=
    match InspectAuth (su_Credential s) with
    | inr f => inr (authError f)
    | inl c =>
      if cl_Principal c <>s su_ID s then inr (Known 401 "SESSION_INVALID")
      else inl (mkSubject (su_ID s) (cl_Revision c) (su_CredentialKind s) (su_CSRFToken s) (su_Credential s) (su_SessionCookie s) (su_TLSIdentity s))
    end in
  if su_CredentialKind s =s "cookie" then
    match Load (su_SessionCookie s) with
    | inr f => inr (authError f)
    | inl m =>
      if (mp_Grant m <>s su_Credential s) || (mp_PrincipalID m <>s su_ID s) || (mp_CSRF m <>s su_CSRFToken s)
      then inr (Known 401 "SESSION_INVALID") else inspect
    end
  else inspect.
(** go: internal/web/auth.go Authentication.Allow *)
Definition Allow (s : Subject) (capability : string) (refs : list Ref) : option failure :=
  match CheckAuth (su_Credential s) capability refs with
  | inr f => Some (authError f)
  | inl c => if cl_Principal c <>s su_ID s then Some (Known 401 "SESSION_INVALID") else None
  end.

(** A subject is what the manager says of its credential: a token that the
    request carries, or the grant of the mapping that its one cookie opens; and
    it stays valid as long as the manager and the mapping say the same. *)
Lemma authenticated_subject r cookies certificate s : Authenticate r cookies certificate = inl s ->
  Revalidate s = inl s /\
  exists c, InspectAuth (su_Credential s) = inl c /\ cl_Principal c = su_ID s /\ cl_Revision c = su_PermissionRevision s /\
  (su_CredentialKind s = "bearer" /\ cl_Kind c = "token" /\ strip_prefix "Bearer " (header r "Authorization") = Some (su_Credential s) \/
   su_CredentialKind s = "cookie" /\ cl_Kind c = "grant" /\ header r "Authorization" = "" /\ cookies = [su_SessionCookie s] /\
   exists m, Load (su_SessionCookie s) = inl m /\ mp_Grant m = su_Credential s /\ mp_CSRF m = su_CSRFToken s).
Proof.
  intros H. unfold Authenticate in H. destruct (String.eqb_spec (header r "Authorization") "") as [Ea|Ea]; cbn [negb] in H.
  - destruct cookies as [|cookie [|]]; try done. destruct (Load cookie) as [m|] eqn:El; [|done].
    destruct (InspectAuth (mp_Grant m)) as [c|] eqn:Ei; [|done]. destruct (_ || _) eqn:E; [done|]. injection H as <-.
    apply orb_false_iff in E as [Ep%negb_false_iff%String.eqb_eq Ek%negb_false_iff%String.eqb_eq].
    unfold Revalidate. cbn. rewrite El, Ei, Ep, !String.eqb_refl. cbn. split; [done|]. exists c. split_and!; try done.
    right. split_and!; try done. by exists m.
  - destruct (_ || _); [done|]. destruct (strip_prefix _ _) as [credential|] eqn:Es; [|done]. destruct (negb _); [done|].
    destruct (InspectAuth credential) as [c|] eqn:Ei; [|done]. destruct (String.eqb_spec (cl_Kind c) "token") as [Ek|]; [|done].
    injection H as <-. unfold Revalidate. cbn. rewrite Ei, String.eqb_refl. cbn. split; [done|]. exists c. split_and!; try done. by left.
Qed.
End authority.

Section session.
(** A sign-in, what is typed again, and their decoders. *)
Context {Login Again : Type} (login_type again_type : gotype).
Context (typed_login : string -> option Login) (typed_again : string -> option Again).

(** What the handler of a session asks for. [SignIn] gives a grant and its
    claims; [Represent] is the body that shows the claims and the secret. *)
Inductive steps :=
  | Done (e : Response + failure)
  | SignIn (i : Login) (k : string * Claims + failure -> steps)
  | Save (cookie : string) (m : Mapping) (k : option failure -> steps)
  | Represent (c : Claims) (csrf : string) (k : string + failure -> steps)
  | Revoke (grant : string) (k : option failure -> steps)
  | Delete (cookie : string) (k : option failure -> steps)
  | Again_ (grant : string) (i : Again) (k : Claims + failure -> steps).

(** The two secrets that a sign-in makes. *)
Context (cookie csrf : string).
(** go: internal/web/auth.go:140-163 Authentication.Session *)
Definition create_session (body : string) : steps :=
  match DecodeStrict typed_login login_type body with
  | None => Done (inr (Known 422 "INVALID_REQUEST"))
  | Some i =>
    SignIn i (fun e =>
      match e with
      | inr f => Done (inr (authError f))
      | inl (grant, c) =>
        let m := mkMapping grant (cl_Principal c) csrf (cl_Expires c) in
        Save cookie m (fun e =>
          match e with
          | Some f => Revoke grant (fun _ => Done (inr (authError f)))
          | None =>
            Represent c csrf (fun e =>
              match e with
              | inr f => Revoke grant (fun _ => Delete cookie (fun _ => Done (inr (authError f))))
              | inl body => Done (inl (mkResponse 201 body "" (Some (mkCookie sessionCookie cookie (mp_ExpiresAt m) 0 true))))
              end)
          end)
      end)
  end.
(** go: internal/web/auth.go:164-180 Authentication.Session *)
Definition reauthenticate_session (s : Subject) (body : string) : steps :=
  if su_CredentialKind s <>s "cookie" then Done (inr (Known 403 "BROWSER_SESSION_REQUIRED"))
  else match DecodeStrict typed_again again_type body with
       | None => Done (inr (Known 422 "INVALID_REQUEST"))
       | Some i =>
         Again_ (su_Credential s) i (fun e =>
           match e with
           | inr f => Done (inr (authError f))
           | inl c =>
             Represent c (su_CSRFToken s) (fun e =>
               match e with inr f => Done (inr (authError f)) | inl body => Done (inl (mkResponse 200 body "" None)) end)
           end)
       end.
(** go: internal/web/auth.go:181-192 Authentication.Session *)
Definition delete_session (s : Subject) : steps :=
  if su_CredentialKind s <>s "cookie" then Done (inr (Known 403 "BROWSER_SESSION_REQUIRED"))
  else Revoke (su_Credential s) (fun e =>
    match e with
    | Some f => Done (inr (authError f))
    | None =>
      Delete (su_SessionCookie s) (fun e =>
        match e with
        | Some f => Done (inr (authError f))
        | None => Done (inl (mkResponse 204 "" "" (Some (mkCookie sessionCookie "" 1 (-1) true))))
        end)
    end).
(** go: internal/web/auth.go Authentication.Session *)
Definition Session (op : string) (s : Subject) (body : string) : steps :=
  if op =s "createSession" then create_session body
  else if op =s "reauthenticateSession" then reauthenticate_session s body
  else if op =s "deleteSession" then delete_session s
  else Done (inr (Known 503 "SERVICE_UNAVAILABLE")).

(** What became of a sign-in so far: the grant it was given, the mapping that
    was sealed under the cookie, and whether the grant was given back. *)
Record progress := mkProgress { pg_grant : option string; pg_saved : option (string * Mapping); pg_revoked : bool; pg_deleted : bool }.
Definition nothing_yet : progress := mkProgress None None false false.
(** [tidy p h]: whatever [h] is told, a session that is not answered with its
    cookie leaves no grant behind that was not asked back, and none of its
    mappings; the cookie that leaves is the one under which its own grant was
    sealed, and is kept from scripts and other sites. *)
Fixpoint tidy (p : progress) (h : steps) : Prop :=
  match h with
  | Done (inr _) =>
    match pg_grant p with None => True | Some _ => pg_revoked p = true /\ (pg_saved p = None \/ pg_deleted p = true) end
  | Done (inl r) =>
    match pg_grant p with
    | None => True
    | Some grant =>
      pg_revoked p = false /\
      exists value m k, pg_saved p = Some (value, m) /\ mp_Grant m = grant /\ rp_Cookie r = Some k /\
        ck_Name k = sessionCookie /\ ck_Value k = value /\ ck_guarded k = true /\ ck_Expires k = mp_ExpiresAt m
    end
  | SignIn _ k =>
    (forall grant c, tidy (mkProgress (Some grant) (pg_saved p) (pg_revoked p) (pg_deleted p)) (k (inl (grant, c)))) /\
    forall f, tidy p (k (inr f))
  | Save value m k =>
    (pg_grant p = Some (mp_Grant m) /\ tidy (mkProgress (pg_grant p) (Some (value, m)) (pg_revoked p) (pg_deleted p)) (k None)) /\
    forall f, tidy p (k (Some f))
  | Represent _ _ k => forall e, tidy p (k e)
  | Revoke grant k => (forall g, pg_grant p = Some g -> g = grant) /\
    forall e, tidy (mkProgress (pg_grant p) (pg_saved p) true (pg_deleted p)) (k e)
  | Delete value k => (forall v m, pg_saved p = Some (v, m) -> v = value) /\
    forall e, tidy (mkProgress (pg_grant p) (pg_saved p) (pg_revoked p) true) (k e)
  | Again_ _ _ k => forall e, tidy p (k e)
  end.

End session.
End WebAuthentication.
