(* ===== verification/PublicStream.v ===== *)
(** * internal/publicapi: cursors and the stream of changes

    The cursors of paged reads (cursor.go), signed with a key of the process;
    the hub that hands invalidation hints to the subscribed streams, and one
    stream (stream.go). *)

From S2P Require Import Prelude GoStrings GoJson GoJsonParse GoTime Sha256 ApiTypes CandidateTypes Intents Planning AuthTypes AuthStore AuthCommands AuthSessions AuthCodec.
From S2P Require Import IpcJson IpcGrammar Requests PublicApi.
Import AuthTypes AuthSessions IpcJson PublicHandler.

(** ** Cursors *)

Module Cursors.

(** go: internal/publicapi/cursor.go PageScope *)
Record PageScope := mkScope {
  ps_Principal : string; ps_PermissionRevision : string; ps_Operation : string; ps_Filter : string; ps_Order : string;
  ps_Generation : string; ps_Snapshot : string }.
#[export] Instance PageScope_eq_dec : EqDecision PageScope.
Proof. solve_decision. Defined.
(** go: internal/publicapi/cursor.go cursorEnvelope *)
Record cursorEnvelope := mkEnvelope { ce_Scope : PageScope; ce_LastKey : string; ce_ExpiresAt : Z }.

Definition scope_json (s : PageScope) : json :=
  JObj [("principal", JStr (ps_Principal s)); ("permission_revision", JStr (ps_PermissionRevision s));
        ("operation", JStr (ps_Operation s)); ("filter", JStr (ps_Filter s)); ("order", JStr (ps_Order s));
        ("generation", JStr (ps_Generation s)); ("snapshot", JStr (ps_Snapshot s))].
Definition envelope_members (e : cursorEnvelope) : list (string * json) :=
  [("scope", scope_json (ce_Scope e)); ("last_key", JStr (ce_LastKey e)); ("expires_at", JNum (ce_ExpiresAt e))].
(** What [reflect] tells of the envelope. *)
Definition scope_type : gotype :=
  StructOf (map (fun '(tag, name) => (true, tag, name, OtherType))
    [("principal", "Principal"); ("permission_revision", "PermissionRevision"); ("operation", "Operation");
     ("filter", "Filter"); ("order", "Order"); ("generation", "Generation"); ("snapshot", "Snapshot")]).
Definition envelope_type : gotype :=
  StructOf [(true, "scope", "Scope", scope_type); (true, "last_key", "LastKey", OtherType); (true, "expires_at", "ExpiresAt", OtherType)].

(** Decoding into the envelope. *)
Definition into_int64 (old : Z) (v : value) : option Z :=
  match v with VNumber text => parse_int text 64 | VNull => Some old | _ => None end.
Definition into_scope : PageScope -> value -> option PageScope :=
  into_struct (fun name =>
    if name =s "principal" then Some (fun s v => (fun x => mkScope x (ps_PermissionRevision s) (ps_Operation s) (ps_Filter s) (ps_Order s) (ps_Generation s) (ps_Snapshot s)) <$> into_string (ps_Principal s) v)
    else if name =s "permission_revision" then Some (fun s v => (fun x => mkScope (ps_Principal s) x (ps_Operation s) (ps_Filter s) (ps_Order s) (ps_Generation s) (ps_Snapshot s)) <$> into_string (ps_PermissionRevision s) v)
    else if name =s "operation" then Some (fun s v => (fun x => mkScope (ps_Principal s) (ps_PermissionRevision s) x (ps_Filter s) (ps_Order s) (ps_Generation s) (ps_Snapshot s)) <$> into_string (ps_Operation s) v)
    else if name =s "filter" then Some (fun s v => (fun x => mkScope (ps_Principal s) (ps_PermissionRevision s) (ps_Operation s) x (ps_Order s) (ps_Generation s) (ps_Snapshot s)) <$> into_string (ps_Filter s) v)
    else if name =s "order" then Some (fun s v => (fun x => mkScope (ps_Principal s) (ps_PermissionRevision s) (ps_Operation s) (ps_Filter s) x (ps_Generation s) (ps_Snapshot s)) <$> into_string (ps_Order s) v)
    else if name =s "generation" then Some (fun s v => (fun x => mkScope (ps_Principal s) (ps_PermissionRevision s) (ps_Operation s) (ps_Filter s) (ps_Order s) x (ps_Snapshot s)) <$> into_string (ps_Generation s) v)
    else if name =s "snapshot" then Some (fun s v => (fun x => mkScope (ps_Principal s) (ps_PermissionRevision s) (ps_Operation s) (ps_Filter s) (ps_Order s) (ps_Generation s) x) <$> into_string (ps_Snapshot s) v)
    else None).
Definition into_envelope : cursorEnvelope -> value -> option cursorEnvelope :=
  into_struct (fun name =>
    if name =s "scope" then Some (fun e v => (fun x => mkEnvelope x (ce_LastKey e) (ce_ExpiresAt e)) <$> into_scope (ce_Scope e) v)
    else if name =s "last_key" then Some (fun e v => (fun x => mkEnvelope (ce_Scope e) x (ce_ExpiresAt e)) <$> into_string (ce_LastKey e) v)
    else if name =s "expires_at" then Some (fun e v => mkEnvelope (ce_Scope e) (ce_LastKey e) <$> into_int64 (ce_ExpiresAt e) v)
    else None).
Definition no_envelope : cursorEnvelope := mkEnvelope (mkScope "" "" "" "" "" "" "") "" 0.
(** The text that [DecodeStrict] hands on is the one object it has read. *)
Definition envelope_of (data : string) : option cursorEnvelope :=
  match ParseObject data with Done fields => into_envelope no_envelope (VObject fields) | _ => None end.

(** base64.RawURLEncoding; line ends are skipped when reading. *)
Definition decode_url (s : string) : option (list Z) :=
  mapM base64_index (List.filter (fun c => negb (byte_of c =? 10) && negb (byte_of c =? 13)) (list_ascii_of_string s)) ≫= octets.

Section cursors.
(** The key of the process and the clock.
    go: internal/publicapi/cursor.go Cursors *)
Context (key : list Z) (now : Z).

(** go: internal/publicapi/cursor.go Cursors.Issue *)
Definition Issue (scope : PageScope) (lastKey : string) (expires : Z) : result string :=
  fail_if negb (ManagementID (ps_Principal scope)) || negb (ManagementID (ps_Snapshot scope)) || (128 <? slen lastKey)
          || (ps_Operation scope =s "") || (ps_PermissionRevision scope =s "") || (1024 <? slen (ps_Filter scope))
          || (now + 30 * Second <? expires) || (expires <=? now) with Fail 422 "INVALID_CURSOR_SCOPE" ;;
  let data := bytes (marshal (JObj (envelope_members (mkEnvelope scope lastKey (unix_milli expires))))) in
  Ok (encode_url data ++ "." ++ encode_url (hmac_sha256 key data))%string.
(** go: internal/publicapi/cursor.go Cursors.Read *)
Definition Read (token : string) (expected : PageScope) : result string :=
  let expired := Err (Fail 410 "CURSOR_EXPIRED") in
  if 4096 <? slen token then expired
  else match split_on "." token with
       | [first; second] =>
         match decode_url first, decode_url second with
         | Some data, Some signature =>
           if negb (bool_decide (signature = hmac_sha256 key data)) then expired
           else match DecodeStrict envelope_of envelope_type (of_bytes data) with
                | Some decoded =>
                  if negb (bool_decide (ce_Scope decoded = expected)) || (ce_ExpiresAt decoded <=? unix_milli now)
                     || (128 <? slen (ce_LastKey decoded)) then expired
                  else Ok (ce_LastKey decoded)
                | None => expired
                end
         | _, _ => expired
         end
       | _ => expired
       end.
End cursors.
End Cursors.

(** ** A cursor is read back *)

Module CursorRules.
Import Cursors.

Lemma url_char_plain i : sextet i -> byte_of (url_char i) <> 10 /\ byte_of (url_char i) <> 13 /\ Ascii.eqb (url_char i) "."%char = false.
Proof.
  intros Hi. pose proof (all_sextets (fun i => negb (byte_of (url_char i) =? 10) && negb (byte_of (url_char i) =? 13)
    && negb (Ascii.eqb (url_char i) "."%char)) ltac:(by vm_compute) i Hi) as H. bsimp. tauto.
Qed.
Lemma decode_url_encode l : Forall byte l -> decode_url (encode_url l) = Some l.
Proof.
  intros H. pose proof (sextets_range l H) as Hs. unfold decode_url, encode_url. rewrite list_ascii_of_string_of_list_ascii.
  rewrite <- (octets_sextets l H). revert Hs. generalize (sextets l). clear. intros s Hs.
  assert (mapM base64_index (List.filter (fun c => negb (byte_of c =? 10) && negb (byte_of c =? 13)) (url_char <$> s)) = Some s) as ->; [|done].
  induction Hs as [|i s Hi _ IH]; [done|]. cbn [fmap list_fmap List.filter].
  destruct (url_char_plain i Hi) as (H1 & H2 & _).
  assert (negb (byte_of (url_char i) =? 10) && negb (byte_of (url_char i) =? 13) = true) as -> by (bsimp; lia).
  cbn [mapM]. rewrite (url_char_index i Hi). cbn. by rewrite IH.
Qed.
Lemma encode_url_plain l : Forall byte l -> forall c, c ∈ list_ascii_of_string (encode_url l) -> Ascii.eqb c "."%char = false.
Proof.
  intros H c. unfold encode_url. rewrite list_ascii_of_string_of_list_ascii. intros (i & -> & Hi)%list_elem_of_fmap.
  apply url_char_plain. pose proof (sextets_range l H) as Hs. rewrite Forall_forall in Hs. by apply Hs.
Qed.
Lemma sextets_longer l : (List.length l <= List.length (sextets l))%nat.
Proof. induction l as [|a|a b|a b c r IH] using triples; cbn [sextets List.length] in *; lia. Qed.
Lemma length_of_list_ascii l : String.length (string_of_list_ascii l) = List.length l.
Proof. induction l; cbn; congruence. Qed.
Lemma encode_url_longer l : len l <= slen (encode_url l).
Proof. unfold encode_url, slen, len. rewrite length_of_list_ascii, length_fmap. pose proof (sextets_longer l). lia. Qed.
Lemma bytes_range s : Forall byte (bytes s).
Proof. induction s as [|c s IH]; [constructor|]. constructor; [apply byte_of_range|done]. Qed.
Lemma bytes_slen s : len (bytes s) = slen s.
Proof. unfold len, slen. f_equal. induction s as [|c s IH]; [done|]. cbn. by rewrite IH. Qed.
Lemma word_bytes_range w : Forall byte (word_bytes w).
Proof. repeat constructor; apply Z.mod_pos_bound; done. Qed.
Lemma sha256_range m : Forall byte (sha256 m).
Proof.
  unfold sha256. generalize (hash_blocks (List.length (words (pad m))) (words (pad m)) initial_hash). intros l.
  induction l as [|w l IH]; [constructor|]. rewrite fmap_cons. cbn [concat]. apply Forall_app. split; [apply word_bytes_range|done].
Qed.

(** A text is no longer than its encoding. *)
Lemma escape_longer n : forall s, (String.length s < n)%nat -> utf8_valid s = true -> (String.length s <= String.length (escape s))%nat.
Proof.
  induction n as [|n IH]; intros s Hn Hv; [lia|]. destruct (utf8_step s Hv) as [->|(r & x & -> & Hr & Hx)]; [done|].
  rewrite escape_encode, !string_length_app by done. rewrite string_length_app in Hn. pose proof (encode_length r) as [Hl _].
  specialize (IH x ltac:(lia) Hx).
  assert (String.length (utf8_encode r) <= String.length (escape_rune (r, utf8_encode r)))%nat; [|lia].
  destruct (encode_bytes r Hr) as [[H E]|[H _]].
  - rewrite E. cbn [String.length]. unfold escape_rune. repeat case_match; cbn; lia.
  - destruct (escape_high r Hr H) as [->|[[-> | ->] ->]]; [done|vm_compute; lia..].
Qed.
Lemma quote_longer s : utf8_valid s = true -> slen s <= slen (quote s).
Proof.
  intros Hv. pose proof (escape_longer _ s (Nat.lt_succ_diag_r _) Hv). unfold slen, quote. cbn [String.length]. rewrite string_length_app. lia.
Qed.
Lemma slen_app a b : slen (a ++ b) = slen a + slen b.
Proof. unfold slen. rewrite string_length_app. lia. Qed.
Lemma slen_nonneg a : 0 <= slen a.
Proof. unfold slen. lia. Qed.
Lemma slen_cons c a : slen (String c a) = 1 + slen a.
Proof. unfold slen. cbn. lia. Qed.
Lemma member_longer l : Forall (fun kv => match snd kv with JStr s => utf8_valid s = true -> slen s <= slen (marshal (JObj l)) | _ => slen (marshal (snd kv)) <= slen (marshal (JObj l)) end) l.
Proof.
  apply Forall_forall. intros [k x] Hin.
  assert (slen (marshal x) <= slen (marshal (JObj l))) as H.
  { change (marshal (JObj l)) with (String "{" (members l)). rewrite slen_cons.
    induction l as [|[k' y] l IH]; [by apply not_elem_of_nil in Hin|]. rewrite members_cons, slen_app, slen_cons, slen_app.
    pose proof (slen_nonneg (quote k')). pose proof (slen_nonneg (marshal y)).
    apply elem_of_cons in Hin as [[= -> ->]|Hin].
    - pose proof (slen_nonneg (match l with [] => "}" | _ => String "," (members l) end)). lia.
    - specialize (IH Hin). destruct l; [by apply not_elem_of_nil in Hin|]. rewrite slen_cons. lia. }
  cbn [snd]. destruct x; try done. intros Hv. pose proof (quote_longer s Hv). change (marshal (JStr s)) with (quote s) in H. lia.
Qed.

(** The texts of a scope. *)
Definition scope_texts (s : PageScope) : list string :=
  [ps_Principal s; ps_PermissionRevision s; ps_Operation s; ps_Filter s; ps_Order s; ps_Generation s; ps_Snapshot s].
Lemma envelope_sendable e : Forall (fun s => utf8_valid s = true) (ce_LastKey e :: scope_texts (ce_Scope e)) ->
  sendable (JObj (envelope_members e)).
Proof. intros H. unfold scope_texts in H. rewrite !Forall_cons in H. destruct_and?.
  cbn [sendable envelope_members scope_json foldr fst snd]. split_and!; first [assumption|reflexivity|exact I]. Qed.
(** The members of an envelope are read back as they were. *)
Lemma envelope_parsed e : Forall (fun s => utf8_valid s = true) (ce_LastKey e :: scope_texts (ce_Scope e)) ->
  slen (marshal (JObj (envelope_members e))) <= 4096 ->
  ParseObject (marshal (JObj (envelope_members e))) = Done (map (fun kv => (fst kv, value_of (snd kv))) (envelope_members e)).
Proof.
  intros Hv Hl. pose proof (envelope_sendable e Hv) as Hs. rewrite (marshal_parse _ _ Hs).
  pose proof (member_longer (envelope_members e)) as H1. unfold envelope_members in H1. rewrite !Forall_cons in H1.
  destruct H1 as (Hscope & Hkey & _). cbn [snd] in Hscope, Hkey.
  pose proof (member_longer (match scope_json (ce_Scope e) with JObj l => l | _ => [] end)) as H2. cbn [scope_json] in H2. rewrite !Forall_cons in H2. cbn [snd] in H2.
  unfold scope_texts in Hv. rewrite !Forall_cons in Hv. fold (envelope_members e) in *. unfold scope_json in *.
  destruct_and?. repeat match goal with H : ?P = true -> _, H' : ?P = true |- _ => specialize (H H') end.
  split_and!; [reflexivity|unfold MaxBodyBytes; lia| |by vm_compute].
  assert (forall s, slen s <= 4096 -> slen s <= MaxJSONString) as Hm by (unfold MaxJSONString; lia).
  cbn [envelope_members scope_json map value_of fst snd fits foldr].
  split_and!; first [exact I|apply Hm; lia|reflexivity|discriminate|apply (bool_decide_unpack _); vm_compute; exact I].
Qed.
Lemma envelope_types e : exactFields (VObject (map (fun kv => (fst kv, value_of (snd kv))) (envelope_members e))) envelope_type = true.
Proof. reflexivity. Qed.
#[export] Instance Ok_inj {A} : Inj (=) (=) (@Ok A).
Proof. by intros ? ? [=]. Qed.
Lemma members_decoded scope k t :
  into_envelope no_envelope (VObject [("scope", value_of (scope_json scope)); ("last_key", VString k); ("expires_at", VNumber t)])
  = mkEnvelope scope k <$> parse_int t 64.
Proof. by destruct scope. Qed.
Lemma envelope_decoded e : 0 <= ce_ExpiresAt e < 2 ^ 63 ->
  into_envelope no_envelope (VObject (map (fun kv => (fst kv, value_of (snd kv))) (envelope_members e))) = Some e.
Proof.
  intros He. pose proof (parse_int_format (ce_ExpiresAt e) 64 He ltac:(done)) as E.
  etrans; [apply members_decoded|]. rewrite E. by destruct e.
Qed.

(** A signed text is taken apart again. *)
Lemma token_read key key' later d expected : Forall byte d ->
  let token := (encode_url d ++ "." ++ encode_url (hmac_sha256 key d))%string in
  slen token <= 4096 ->
  Read key' later token expected =
    if bool_decide (hmac_sha256 key d = hmac_sha256 key' d) then
      match DecodeStrict envelope_of envelope_type (of_bytes d) with
      | Some decoded =>
        if negb (bool_decide (ce_Scope decoded = expected)) || (ce_ExpiresAt decoded <=? unix_milli later) || (128 <? slen (ce_LastKey decoded))
        then Err (Fail 410 "CURSOR_EXPIRED") else Ok (ce_LastKey decoded)
      | None => Err (Fail 410 "CURSOR_EXPIRED")
      end
    else Err (Fail 410 "CURSOR_EXPIRED").
Proof.
  intros Hd token Hl. unfold Read. rewrite (proj2 (Z.ltb_ge _ _)) by done. unfold token.
  assert (Forall byte (hmac_sha256 key d)) as Hm by apply sha256_range. revert Hm. generalize (hmac_sha256 key d). intros m Hm.
  change ("." ++ encode_url m)%string with (String "."%char (encode_url m)).
  rewrite split_app, split_plain, !decode_url_encode by (by apply encode_url_plain || done).
  by case_bool_decide.
Qed.


(** A page of a listing: its cursor is good until it expires. *)
Definition sample_scope : PageScope :=
  mkScope "0a0b0c0d-0e0f-4a1b-8c2d-3e4f5a6b7c8d" "7" "listJobs" "state=running" "created" "3" "1a0b0c0d-0e0f-4a1b-8c2d-3e4f5a6b7c8d".
Definition sample_time : Z := 1700000000 * Second.
Definition sample_token : string :=
  Eval vm_compute in match Issue [1; 2; 3] sample_time sample_scope "row-9" (sample_time + 20 * Second) with Ok t => t | Err _ => "" end.
Lemma sample_issued : Issue [1; 2; 3] sample_time sample_scope "row-9" (sample_time + 20 * Second) = Ok sample_token.
Proof. vm_compute. reflexivity. Qed.
End CursorRules.

(** ** The hub *)

Module Hubs.

(** go: internal/publicapi/stream.go Hint *)
Record Hint := mkHint { hi_Resource : Ref; hi_Version : string; hi_CorrelationID : string; hi_Counter : bool }.
#[export] Instance Hint_eq_dec : EqDecision Hint.
Proof. solve_decision. Defined.
(** go: internal/publicapi/stream.go queuedHint *)
Record queuedHint := mkQueued { qh_hint : Hint; qh_size : Z; qh_ready : Z }.
(** The token of the wake channel is [sb_wake].
    go: internal/publicapi/stream.go subscriber *)
Record subscriber := mkSubscriber {
  sb_subject : Subject; sb_refs : list Ref; sb_queue : list queuedHint; sb_bytes : Z; sb_overflow : bool;
  sb_wake : bool; sb_canceled : bool }.
(** The streams by the identity of their subscriber.
    go: internal/publicapi/stream.go Hub *)
Record Hub := mkHub { hb_clients : gmap Z subscriber; hb_closed : bool }.
(** go: internal/publicapi/stream.go:62-67 newHub *)
Definition newHub : Hub := mkHub ∅ false.
Definition maxEntries : Z := 256.
Definition maxBytes : Z := 2 ^ 20.

(** go: internal/publicapi/stream.go:163-166 streamCapabilities *)
Definition streamCapabilities (kind : string) : string :=
  if contains ["bridge"; "port"; "interface"; "bond"; "health"; "capability"; "statistic"] kind then "state.read"
  else if kind =s "candidate" then "workspace.read"
  else if kind =s "validation" then "config.validate"
  else if kind =s "transaction" then "config.read"
  else if kind =s "job" then "job.read"
  else if kind =s "event" then "event.read"
  else if kind =s "audit" then "audit.read"
  else "".

(** go: internal/publicapi/stream.go Hub.Close *)
Definition Close (h : Hub) : Hub :=
  if hb_closed h then h
  else mkHub ((fun s => mkSubscriber (sb_subject s) (sb_refs s) (sb_queue s) (sb_bytes s) (sb_overflow s) (sb_wake s) true)
              <$> hb_clients h) true.
Definition streams_of (clients : gmap Z subscriber) (principal : string) : Z :=
  Z.of_nat (size (filter (fun kv => su_ID (sb_subject (snd kv)) = principal) clients)).
(** go: internal/publicapi/stream.go Hub.add *)
Definition add (id : Z) (s : subscriber) (h : Hub) : option Hub :=
  if hb_closed h || (16 <=? Z.of_nat (size (hb_clients h))) then None
  else if 4 <=? streams_of (hb_clients h) (su_ID (sb_subject s)) then None
  else Some (mkHub (<[id := s]> (hb_clients h)) (hb_closed h)).
(** go: internal/publicapi/stream.go Hub.remove *)
Definition remove (id : Z) (h : Hub) : Hub := mkHub (delete id (hb_clients h)) (hb_closed h).

Definition hint_json (v : Hint) : json :=
  JObj [("Resource", JObj [("kind", JStr (ref_Kind (hi_Resource v))); ("id", JStr (ref_ID (hi_Resource v)))]);
        ("Version", JStr (hi_Version v)); ("CorrelationID", JStr (hi_CorrelationID v)); ("Counter", JBool (hi_Counter v))].
Definition same_counter (v : Hint) (item : queuedHint) : bool :=
  hi_Counter (qh_hint item) && bool_decide (hi_Resource (qh_hint item) = hi_Resource v).
(** The first entry of the same counter takes the new hint; its size changes.
    go: internal/publicapi/stream.go:118-128 Hub.Publish *)
Fixpoint replace_counter (v : Hint) (size : Z) (l : list queuedHint) : option (list queuedHint * Z) :=
  match l with
  | [] => None
  | item :: l =>
    if same_counter v item then Some (mkQueued v size (qh_ready item) :: l, size - qh_size item)
    else match replace_counter v size l with Some (l, d) => Some (item :: l, d) | None => None end
  end.
(** go: internal/publicapi/stream.go:114-145 Hub.Publish *)
Definition deliver (v : Hint) (size now : Z) (s : subscriber) : subscriber :=
  if negb (bool_decide (hi_Resource v ∈ sb_refs s)) || sb_overflow s then s
  else
    let appended ready := (sb_queue s ++ [mkQueued v size ready], sb_bytes s + size) in
    let '(queue, bytes) :=
      if hi_Counter v then
        match replace_counter v size (sb_queue s) with
        | Some (queue, d) => (queue, sb_bytes s + d)
        | None => appended (now + Second)
        end
      else appended now in
    let full := (maxEntries <? len queue) || (maxBytes <? bytes) in
    mkSubscriber (sb_subject s) (sb_refs s) (if full then [] else queue) (if full then 0 else bytes) full true (sb_canceled s).
(** go: internal/publicapi/stream.go:103-105 Hub.Publish *)
Definition publishable (v : Hint) : bool :=
  ManagementID (ref_ID (hi_Resource v)) && (streamCapabilities (ref_Kind (hi_Resource v)) <>s "")
  && strongETag (quoted (hi_Version v)) && ((hi_CorrelationID v =s "") || ManagementID (hi_CorrelationID v)).
(** Each stream reads the clock on its own.
    go: internal/publicapi/stream.go Hub.Publish *)
Definition Publish (v : Hint) (now : Z -> Z) (h : Hub) : Hub :=
  if negb (publishable v) || hb_closed h then h
  else mkHub (map_imap (fun id s => Some (deliver v (slen (marshal (hint_json v))) (now id) s)) (hb_clients h)) (hb_closed h).

Inductive delivery := Overflowed | Nothing | Next (v : Hint).
(** go: internal/publicapi/stream.go Hub.next *)
Definition next (now : Z) (s : subscriber) : subscriber * delivery :=
  if sb_overflow s then (s, Overflowed)
  else match sb_queue s with
       | [] => (s, Nothing)
       | v :: rest =>
         if now <? qh_ready v then (s, Nothing)
         else (mkSubscriber (sb_subject s) (sb_refs s) rest (sb_bytes s - qh_size v) (sb_overflow s) (sb_wake s) (sb_canceled s),
               Next (qh_hint v))
       end.
(** The subscriber of a stream that was accepted.
    go: internal/publicapi/stream.go:201-201 Handler.stream *)
Definition subscribed (subject : Subject) (refs : list Ref) : subscriber := mkSubscriber subject refs [] 0 false false false.
Definition woken (s : subscriber) : subscriber :=
  mkSubscriber (sb_subject s) (sb_refs s) (sb_queue s) (sb_bytes s) (sb_overflow s) false (sb_canceled s).

(** What happens to the hub, one lock at a time. *)
Inductive hub_step : Hub -> Hub -> Prop :=
  | H_close h : hub_step h (Close h)
  | H_add h id subject refs h' : hb_clients h !! id = None -> add id (subscribed subject refs) h = Some h' -> hub_step h h'
  | H_remove h id : hub_step h (remove id h)
  | H_publish h v now : hub_step h (Publish v now h)
  | H_next h id s now : hb_clients h !! id = Some s ->
      hub_step h (mkHub (<[id := fst (next now s)]> (hb_clients h)) (hb_closed h))
  | H_wake h id s : hb_clients h !! id = Some s -> hub_step h (mkHub (<[id := woken s]> (hb_clients h)) (hb_closed h)).
End Hubs.

(** ** The hub keeps its budgets *)

Module HubRules.
Import Hubs.

Definition total_size (l : list queuedHint) : Z := foldr (fun q n => qh_size q + n) 0 l.
Definition counters (l : list queuedHint) : list Ref :=
  (fun q => hi_Resource (qh_hint q)) <$> List.filter (fun q => hi_Counter (qh_hint q)) l.
(** A subscriber in its budget. *)
Record bounded (s : subscriber) : Prop := {
  bo_entries : len (sb_queue s) <= maxEntries;
  bo_bytes : sb_bytes s = total_size (sb_queue s) /\ total_size (sb_queue s) <= maxBytes;
  bo_overflow : sb_overflow s = true -> sb_queue s = [];
  bo_hints : Forall (fun q => 0 <= qh_size q /\ hi_Resource (qh_hint q) ∈ sb_refs s /\ publishable (qh_hint q) = true) (sb_queue s);
  bo_counters : NoDup (counters (sb_queue s)) }.
Record budgeted (h : Hub) : Prop := {
  bu_streams : Z.of_nat (size (hb_clients h)) <= 16;
  bu_principal : forall principal, streams_of (hb_clients h) principal <= 4;
  bu_clients : map_Forall (fun _ => bounded) (hb_clients h) }.

Lemma total_size_cons q l : total_size (q :: l) = qh_size q + total_size l.
Proof. done. Qed.
#[local] Arguments total_size : simpl never.
Lemma total_size_app l m : total_size (l ++ m) = total_size l + total_size m.
Proof. induction l as [|q l IH]; [done|]. cbn [app]. rewrite !total_size_cons. lia. Qed.
Lemma total_size_nonneg l : Forall (fun q => 0 <= qh_size q) l -> 0 <= total_size l.
Proof. induction 1; [done|]. rewrite total_size_cons. lia. Qed.
Lemma counters_app l m : counters (l ++ m) = counters l ++ counters m.
Proof. unfold counters. by rewrite List.filter_app, fmap_app. Qed.

(** The hints that a new one does not replace. *)
Definition kept (v w : Hint) : bool := negb (hi_Counter v && hi_Counter w && bool_decide (hi_Resource w = hi_Resource v)).
Definition hints (s : subscriber) : list Hint := qh_hint <$> sb_queue s.
Lemma same_counter_kept v q : hi_Counter v = true -> same_counter v q = negb (kept v (qh_hint q)).
Proof. intros H. unfold kept, same_counter. by rewrite H, negb_involutive. Qed.
Lemma replace_counter_some v size l l' d (P : queuedHint -> Prop) : hi_Counter v = true -> replace_counter v size l = Some (l', d) ->
  (forall ready, P (mkQueued v size ready)) ->
  counters l' = counters l /\ List.length l' = List.length l /\ total_size l' = total_size l + d /\
  v ∈ qh_hint <$> l' /\ List.filter (kept v) (qh_hint <$> l') = List.filter (kept v) (qh_hint <$> l) /\ (Forall P l -> Forall P l').
Proof.
  intros Hv. revert l' d. induction l as [|q l IH]; intros l' d H HP; [done|]. cbn [replace_counter] in H.
  pose proof (same_counter_kept v q Hv) as Hk. destruct (same_counter v q) eqn:E.
  - injection H as <- <-. unfold same_counter in E. apply andb_true_iff in E as [E1 E2%bool_decide_eq_true_1].
    assert (kept v v = false) as Hs by (unfold kept; rewrite Hv; by rewrite bool_decide_eq_true_2).
    unfold counters. rewrite !fmap_cons. cbn [List.filter qh_hint]. rewrite Hv, E1, Hs.
    destruct (kept v (qh_hint q)); [done|]. rewrite !fmap_cons, !total_size_cons. cbn [qh_hint qh_size List.length].
    split_and!; try done; [by rewrite E2|lia|set_solver|]. intros [_ ?]%Forall_cons. by constructor.
  - destruct (replace_counter v size l) as [[l1 d1]|]; [|done]. injection H as <- <-.
    destruct (IH l1 d1 eq_refl HP) as (H1 & H2 & H3 & H4 & H5 & H6).
    rewrite (counters_app [q] l1 : counters (q :: l1) = _), (counters_app [q] l : counters (q :: l) = _), H1, !fmap_cons, !total_size_cons.
    cbn [List.filter List.length]. rewrite H5. split_and!; try done; [lia|lia|set_solver|].
    intros [? ?]%Forall_cons. constructor; auto.
Qed.
Lemma replace_counter_none v size l : replace_counter v size l = None -> hi_Resource v ∉ counters l.
Proof.
  induction l as [|q l IH]; intros H; [by apply not_elem_of_nil|]. cbn [replace_counter] in H.
  destruct (same_counter v q) eqn:E; [done|]. destruct (replace_counter v size l) as [[]|]; [done|]. specialize (IH eq_refl).
  unfold counters in *. cbn [List.filter]. unfold same_counter in E. destruct (hi_Counter (qh_hint q)); [|done].
  cbn in E. apply bool_decide_eq_false_1 in E. rewrite fmap_cons. apply not_elem_of_cons. split; [congruence|done].
Qed.

Lemma deliver_bounded v size now s : 0 <= size -> publishable v = true -> bounded s -> bounded (deliver v size now s).
Proof.
  intros Hs Hp Hb. unfold deliver. destruct (negb _ || _) eqn:E; [done|]. apply orb_false_iff in E as [Hr%negb_false_iff%bool_decide_eq_true_1 Ho].
  destruct Hb as [Hn [Hb Hm] _ Hh Hc].
  match goal with |- bounded (let '(queue, bytes) := ?c in _) =>
    assert (forall queue bytes, c = (queue, bytes) -> bytes = total_size queue /\ NoDup (counters queue) /\
      Forall (fun q => 0 <= qh_size q /\ hi_Resource (qh_hint q) ∈ sb_refs s /\ publishable (qh_hint q) = true) queue) as H;
    [|destruct c as [queue bytes]; destruct (H queue bytes eq_refl) as (H1 & H2 & H3)] end.
  - assert (forall ready, hi_Resource v ∉ counters (sb_queue s) \/ hi_Counter v = false ->
      sb_bytes s + size = total_size (sb_queue s ++ [mkQueued v size ready]) /\ NoDup (counters (sb_queue s ++ [mkQueued v size ready])) /\
      Forall (fun q => 0 <= qh_size q /\ hi_Resource (qh_hint q) ∈ sb_refs s /\ publishable (qh_hint q) = true) (sb_queue s ++ [mkQueued v size ready])) as Happ.
    { intros ready Hnew. rewrite total_size_app, counters_app, total_size_cons. split_and!; [cbn; rewrite Hb; unfold total_size; cbn; lia| |].
      - assert (counters [mkQueued v size ready] = if hi_Counter v then [hi_Resource v] else []) as ->
          by (unfold counters; cbn; by destruct (hi_Counter v)).
        apply NoDup_app. destruct (hi_Counter v); split_and!; try done; try apply NoDup_nil_2; try apply NoDup_singleton.
        + intros x Hx ->%list_elem_of_singleton. naive_solver.
        + intros x _ Hx. by apply not_elem_of_nil in Hx.
      - apply Forall_app. split; [done|]. by repeat constructor. }
    intros queue bytes Hq. destruct (hi_Counter v) eqn:Hv; [|injection Hq as <- <-; by auto].
    destruct (replace_counter v size (sb_queue s)) as [[l d]|] eqn:Er; injection Hq as <- <-; [|apply Happ; left; by eapply replace_counter_none].
    destruct (replace_counter_some _ _ _ _ _ (fun q => 0 <= qh_size q /\ hi_Resource (qh_hint q) ∈ sb_refs s /\ publishable (qh_hint q) = true) Hv Er)
      as (H1 & _ & H3 & _ & _ & H6); [done|]. rewrite H1, H3, Hb. by auto.
  - subst bytes. destruct (_ || _) eqn:Ef; [split; cbn; try done; by constructor|].
    apply orb_false_iff in Ef as [E1%Z.ltb_ge E2%Z.ltb_ge]. by split.
Qed.
(** A stream that a hint concerns gets it, or is told to start over. *)
Lemma deliver_kept v size now s : hi_Resource v ∈ sb_refs s -> sb_overflow s = false ->
  let s' := deliver v size now s in
  sb_overflow s' = true /\ (forall t, snd (next t s') = Overflowed) \/
  sb_overflow s' = false /\ v ∈ hints s' /\
  List.filter (kept v) (hints s') = List.filter (kept v) (hints s) ++ if hi_Counter v then [] else [v].
Proof.
  intros Hr Ho. cbv zeta. unfold deliver. rewrite (bool_decide_eq_true_2 _ Hr), Ho. cbn [negb orb].
  match goal with |- context [let '(queue, bytes) := ?c in _] =>
    assert (forall queue bytes, c = (queue, bytes) -> v ∈ qh_hint <$> queue /\
      List.filter (kept v) (qh_hint <$> queue) = List.filter (kept v) (hints s) ++ if hi_Counter v then [] else [v]) as H;
    [|destruct c as [queue bytes]; destruct (H queue bytes eq_refl) as (H1 & H2)] end.
  - assert (forall ready, v ∈ qh_hint <$> (sb_queue s ++ [mkQueued v size ready]) /\
      List.filter (kept v) (qh_hint <$> (sb_queue s ++ [mkQueued v size ready])) =
      List.filter (kept v) (hints s) ++ if hi_Counter v then [] else [v]) as Happ.
    { intros ready. rewrite fmap_app, List.filter_app. cbn [fmap list_fmap List.filter qh_hint]. split; [set_solver|]. f_equal.
      unfold kept. destruct (hi_Counter v); [by rewrite bool_decide_eq_true_2|done]. }
    intros queue bytes Hq. destruct (hi_Counter v) eqn:Hv; [|injection Hq as <- <-; apply Happ].
    destruct (replace_counter v size (sb_queue s)) as [[l d]|] eqn:Er; injection Hq as <- <-; [|apply Happ].
    destruct (replace_counter_some _ _ _ _ _ (fun _ => True) Hv Er) as (_ & _ & _ & H4 & H5 & _); [done|].
    by rewrite H5, app_nil_r.
  - destruct (_ || _); [by left|by right].
Qed.
Lemma next_bounded now s : bounded s -> bounded (fst (next now s)).
Proof.
  intros Hb. unfold next. destruct (sb_overflow s) eqn:Eo; [done|]. destruct (sb_queue s) as [|q l] eqn:Eq; [done|].
  destruct (_ <? _); [done|]. destruct Hb as [Hn [Hb Hm] _ Hh Hc]. rewrite Eq in *. rewrite total_size_cons in *.
  apply Forall_cons in Hh as [(Hq & _) Hh]. split; cbn; try done.
  - unfold len in *. cbn in Hn. lia.
  - split; lia.
  - unfold counters in *. cbn [List.filter] in Hc. destruct (hi_Counter _); [|done]. rewrite fmap_cons in Hc. by apply NoDup_cons in Hc as [_ Hc].
Qed.

(** A step that adds no stream and keeps those it leaves in their budget. *)
Definition tamer (h h' : Hub) : Prop := forall id s', hb_clients h' !! id = Some s' ->
  exists s, hb_clients h !! id = Some s /\ sb_subject s' = sb_subject s /\ (bounded s -> bounded s').
Lemma dom_size (m m' : gmap Z subscriber) : dom m' ⊆ dom m -> (size m' <= size m)%nat.
Proof. intros H. rewrite <- !(size_dom (D := gset Z)). by apply subseteq_size. Qed.
Lemma tamer_budgeted h h' : tamer h h' -> budgeted h -> budgeted h'.
Proof.
  intros Ht [Hs Hp Hc]. split.
  - enough (size (hb_clients h') <= size (hb_clients h))%nat by lia. apply dom_size. intros id [s' H]%elem_of_dom.
    destruct (Ht _ _ H) as (s & E & _). apply elem_of_dom. by exists s.
  - intros principal. specialize (Hp principal). unfold streams_of in *.
    match type of Hp with Z.of_nat ?n <= _ => match goal with |- Z.of_nat ?m <= _ => enough (m <= n)%nat by lia end end.
    apply dom_size. intros id [s' [H E]%map_lookup_filter_Some]%elem_of_dom. destruct (Ht _ _ H) as (s & Hs' & Es & _).
    apply elem_of_dom. exists s. apply map_lookup_filter_Some. cbn in *. split; congruence.
  - intros id s' H. destruct (Ht _ _ H) as (s & E & _ & Hb). apply Hb. by apply (Hc id).
Qed.
Lemma update_tamer h id s s' closed : hb_clients h !! id = Some s -> sb_subject s' = sb_subject s -> (bounded s -> bounded s') ->
  tamer h (mkHub (<[id := s']> (hb_clients h)) closed).
Proof. intros H Es Hb j t Ht. cbn in Ht. apply lookup_insert_Some in Ht as [[<- <-]|[_ Ht]]; [by exists s|by exists t]. Qed.
Lemma add_budgeted id subject refs h h' : hb_clients h !! id = None -> add id (subscribed subject refs) h = Some h' ->
  budgeted h -> budgeted h'.
Proof.
  intros Hid Ha [Hs Hp Hc]. unfold add in Ha. destruct (_ || _) eqn:E; [done|]. apply orb_false_iff in E as [_ E%Z.leb_gt].
  destruct (4 <=? _) eqn:E4; [done|]. apply Z.leb_gt in E4. injection Ha as <-. split; cbn.
  - rewrite map_size_insert_None by done. lia.
  - intros principal. specialize (Hp principal). unfold streams_of in *. destruct (decide (su_ID subject = principal)) as [<-|Hne].
    + rewrite map_filter_insert_True by done. rewrite map_size_insert_None by (apply map_lookup_filter_None; by left). cbn in E4. lia.
    + rewrite map_filter_insert_False by done. rewrite delete_id by done. done.
  - apply map_Forall_insert_2; [|done]. by split; cbn; try constructor.
Qed.
Lemma slen_pos s : 0 <= slen s.
Proof. unfold slen. lia. Qed.
Lemma deliver_subject v size now s : sb_subject (deliver v size now s) = sb_subject s.
Proof. unfold deliver. destruct (_ || _); [done|]. by destruct (if hi_Counter v then _ else _). Qed.
Lemma step_budgeted h h' : hub_step h h' -> budgeted h -> budgeted h'.
Proof.
  destruct 1 as [h|h id subject refs h' Hid Ha|h id|h v now|h id s now Hid|h id s Hid].
  - apply tamer_budgeted. unfold Close. destruct (hb_closed h); intros id s' H; [by exists s'|]. cbn in H.
    apply lookup_fmap_Some in H as (s & <- & H). exists s. split_and!; [done..|]. by intros [].
  - by eapply add_budgeted.
  - apply tamer_budgeted. intros j s' H. cbn in H. apply lookup_delete_Some in H as [_ H]. by exists s'.
  - apply tamer_budgeted. unfold Publish. destruct (negb _ || _) eqn:E; intros id s' H; [by exists s'|]. cbn [hb_clients] in H.
    apply orb_false_iff in E as [E%negb_false_iff _].
    rewrite map_lookup_imap in H. destruct (hb_clients h !! id) as [s|]; [|done]. apply (inj Some) in H as <-. exists s.
    split_and!; [done|apply deliver_subject|]. apply deliver_bounded; [apply slen_pos|done].
  - apply tamer_budgeted. eapply update_tamer; [done| |apply next_bounded].
    unfold next. destruct (sb_overflow s); [done|]. destruct (sb_queue s); [done|]. by destruct (_ <? _).
  - apply tamer_budgeted. eapply update_tamer; [done..|]. by intros [].
Qed.


(** A stream of one job, with a hint in its queue. *)
Definition sample_ref : Ref := mkRef "job" "0a0b0c0d-0e0f-4a1b-8c2d-3e4f5a6b7c8d".
Definition sample_hint : Hint := mkHint sample_ref "v1" "" false.
Definition one_stream : Hub := mkHub {[ 1 := subscribed nobody [sample_ref] ]} false.
End HubRules.

(** ** One stream *)

Module EventStream.
Import Hubs.

Section stream.
Context {Schema : Type} (validate : Schema -> value -> bool) (subscription_schema : Schema).
(** The type of a subscription and what [DecodeStrict] makes of its text. *)
Context (subscription_type : gotype) (typed : string -> option (list Ref)).
(** The subject of the request. *)
Context (subject : Subject).

(** What the authority answers during one check. *)
Record answers := mkAnswers { au_current : Subject + failure; au_allow : Subject -> string -> Ref -> option failure }.
(** go: internal/publicapi/stream.go:212-221 Handler.stream *)
Fixpoint check_refs (a : answers) (current : Subject) (refs : list Ref) : option failure :=
  match refs with
  | [] => None
  | ref :: refs =>
    let capability := streamCapabilities (ref_Kind ref) in
    if (capability =s "") || negb (ManagementID (ref_ID ref)) then Some (Known 403 "FORBIDDEN")
    else match au_allow a current capability ref with Some f => Some f | None => check_refs a current refs end
  end.
(** go: internal/publicapi/stream.go:202-222 Handler.stream *)
Definition check (a : answers) (refs : list Ref) : option failure :=
  match au_current a with
  | inr f => Some f
  | inl current =>
    if (su_ID current <>s su_ID subject) || (su_PermissionRevision current <>s su_PermissionRevision subject)
    then Some (Known 403 "AUTHORIZATION_CHANGED")
    else check_refs a current refs
  end.

(** Why a connection is closed, and an accepted subscription.
    go: internal/publicapi/stream.go:192-233 Handler.stream *)
Definition open_stream (text : bool) (data : string) (a : answers) (id : Z) (h : Hub) : Hub * list Ref + string :=
  match (if text then DecodeStrict typed subscription_type data else None) with
  | None => inr "INVALID_SUBSCRIPTION"
  | Some refs =>
    if (32 <? len refs) || (len refs =? 0) || negb (validate subscription_schema (default VNull (unmarshal data)))
    then inr "INVALID_SUBSCRIPTION"
    else match check a refs with
         | Some _ => inr "AUTHORIZATION_CHANGED"
         | None =>
           match add id (subscribed subject refs) h with
           | None => inr "RESOURCE_BUDGET_EXCEEDED"
           | Some h => inl (h, refs)
           end
         end
  end.

(** go: internal/publicapi/stream.go envelope *)
Record envelope := mkEvent {
  ev_StreamID : string; ev_Sequence : string; ev_Type : string; ev_Resource : option Ref; ev_Version : option string;
  ev_ObservedAt : Z; ev_Correlation : option string }.
(** The goroutine of a stream between two turns. *)
Record state := mkState { st_sequence : Z; st_open : bool }.
Context (streamID : string) (resources : list Ref).

(** A frame is sent after a new check of the authority; [written] is whether
    the connection took it.
    go: internal/publicapi/stream.go:246-271 Handler.stream *)
Definition send (a : answers) (now : Z) (written : bool) (kind : string) (hint : option Hint) (st : state) : state * list envelope :=
  let refs := match hint with Some v => [hi_Resource v] | None => resources end in
  match check a refs with
  | Some _ => (mkState (st_sequence st) false, [])
  | None =>
    if st_sequence st =? 2 ^ 64 - 1 then (mkState (st_sequence st) false, [])
    else
      let n := st_sequence st + 1 in
      let e := mkEvent streamID (format_uint n) kind (hi_Resource <$> hint) (hi_Version <$> hint) now
                 (match hint with Some v => if hi_CorrelationID v =s "" then None else Some (hi_CorrelationID v) | None => None end) in
      (mkState n written, [e])
  end.
(** What the loop is told: the beat, or what the hub had for it. *)
Inductive event := Beat | Given (d : delivery) | Ended.
Record input := mkInput { in_event : event; in_answers : answers; in_now : Z; in_written : bool }.
(** go: internal/publicapi/stream.go:280-309 Handler.stream *)
Definition turn (i : input) (st : state) : state * list envelope :=
  if negb (st_open st) then (st, [])
  else match in_event i with
       | Ended => (mkState (st_sequence st) false, [])
       | Beat => send (in_answers i) (in_now i) (in_written i) "heartbeat" None st
       | Given Nothing => (st, [])
       | Given Overflowed =>
         let '(st, l) := send (in_answers i) (in_now i) (in_written i) "resync.required" None st in
         (mkState (st_sequence st) false, l)
       | Given (Next v) =>
         send (in_answers i) (in_now i) (in_written i) (if hi_Counter v then "state.coalesced" else "resource.changed") (Some v) st
       end.
Fixpoint turns (l : list input) (st : state) : list (input * envelope) :=
  match l with
  | [] => []
  | i :: l => let '(st, sent) := turn i st in (pair i <$> sent) ++ turns l st
  end.
(** A new connection starts with the notice that nothing is known of the past.
    go: internal/publicapi/stream.go:272-309 Handler.stream *)
Definition run (first : input) (l : list input) : list (input * envelope) :=
  let '(st, sent) := send (in_answers first) (in_now first) (in_written first) "resync.required" None (mkState 0 true) in
  (pair first <$> sent) ++ (if st_open st then turns l st else []).
End stream.
End EventStream.

(** ** What a stream says *)

Module StreamRules.
Import Hubs EventStream.

Section rules.
Context (subject : Subject) (streamID : string) (resources : list Ref).
Notation check := (check subject).
Notation turns := (turns subject streamID resources).
Notation run := (run subject streamID resources).

(** A frame that the authority allowed when it was sent: the resource it names,
    or all the resources of the stream. *)
Definition allowed (ie : input * envelope) : Prop :=
  check (in_answers (fst ie)) (match ev_Resource (snd ie) with Some ref => [ref] | None => resources end) = None.
(** The frames are numbered from [n + 1] on. *)
Fixpoint numbered (n : Z) (l : list (input * envelope)) : Prop :=
  match l with [] => True | ie :: l => ev_Sequence (snd ie) = format_uint (n + 1) /\ n + 1 < 2 ^ 64 /\ numbered (n + 1) l end.

Lemma send_ok a now written kind hint st : 0 <= st_sequence st < 2 ^ 64 ->
  let '(st', l) := send subject streamID resources a now written kind hint st in
  l = [] /\ st_open st' = false /\ st_sequence st' = st_sequence st \/
  exists e, l = [e] /\ st_sequence st' = st_sequence st + 1 /\ st_sequence st + 1 < 2 ^ 64 /\
    ev_Sequence e = format_uint (st_sequence st + 1) /\ ev_Type e = kind /\ ev_Resource e = hi_Resource <$> hint /\
    check a (match ev_Resource e with Some ref => [ref] | None => resources end) = None.
Proof.
  intros Hs. unfold send. destruct (EventStream.check _ _ _) eqn:E; [by left|].
  destruct (Z.eqb_spec (st_sequence st) (2 ^ 64 - 1)); [by left|]. right. eexists. split; [done|]. cbn.
  split_and!; try done; [lia|]. by destruct hint.
Qed.
Lemma turns_ok l : forall st, 0 <= st_sequence st < 2 ^ 64 -> numbered (st_sequence st) (turns l st) /\ Forall allowed (turns l st).
Proof.
  induction l as [|i l IH]; intros st Hs; [done|]. cbn [EventStream.turns]. 
  assert (let '(st', sent) := turn subject streamID resources i st in
    sent = [] /\ st_sequence st' = st_sequence st \/
    exists e, sent = [e] /\ st_sequence st' = st_sequence st + 1 /\ st_sequence st + 1 < 2 ^ 64 /\
      ev_Sequence e = format_uint (st_sequence st + 1) /\ allowed (i, e)) as H.
  { unfold turn. destruct (st_open st); [cbn [negb]|by left].
    destruct (in_event i) as [|[| |v]|]; try (by left).
    - pose proof (send_ok (in_answers i) (in_now i) (in_written i) "heartbeat" None st Hs) as H. destruct (send _ _ _ _ _ _ _ _) as [st' sent].
      destruct H as [(-> & _ & ->)|(e & -> & H1 & H2 & H3 & _ & _ & H4)]; [by left|right; by exists e].
    - pose proof (send_ok (in_answers i) (in_now i) (in_written i) "resync.required" None st Hs) as H. destruct (send _ _ _ _ _ _ _ _) as [st' sent].
      destruct H as [(-> & _ & E)|(e & -> & H1 & H2 & H3 & _ & _ & H4)]; [by left|right; by exists e].
    - pose proof (send_ok (in_answers i) (in_now i) (in_written i) (if hi_Counter v then "state.coalesced" else "resource.changed") (Some v) st Hs) as H.
      destruct (send _ _ _ _ _ _ _ _) as [st' sent].
      destruct H as [(-> & _ & ->)|(e & -> & H1 & H2 & H3 & _ & _ & H4)]; [by left|right; by exists e]. }
  destruct (turn _ _ _ i st) as [st' sent].
  destruct H as [[-> E]|(e & -> & E & Hl & Hn & Ha)]; cbn [fmap list_fmap app].
  - rewrite <- E. apply IH. by rewrite E.
  - destruct (IH st') as [I1 I2]; [lia|]. rewrite E in I1. split; [by split_and!|by constructor].
Qed.

(** C38. A stream keeps its authority and its order: its first frame says that
    nothing is known of the past; its frames are numbered from one without a
    gap, whatever the hub and the clocks do; and none is sent unless the
    authority has just confirmed the subject with unchanged permissions and
    its capability on what the frame names. *)
Theorem stream_authorized first l :
  numbered 0 (run first l) /\ Forall allowed (run first l) /\
  (forall ie, head (run first l) = Some ie -> ev_Type (snd ie) = "resync.required" /\ ev_Resource (snd ie) = None).
Proof.
  unfold EventStream.run. pose proof (send_ok (in_answers first) (in_now first) (in_written first) "resync.required" None (mkState 0 true) ltac:(done)) as H.
  destruct (send _ _ _ _ _ _ _ _) as [st sent]. destruct H as [(-> & -> & _)|(e & -> & E & _ & Hn & Ht & Hr & Ha)]; cbn [fmap list_fmap app].
  - split_and!; [done|by constructor|by intros ? [=]].
  - cbn in E, Hn. assert (numbered 1 (if st_open st then turns l st else []) /\ Forall allowed (if st_open st then turns l st else [])) as [I1 I2].
    { destruct (st_open st); [|done]. pose proof (turns_ok l st) as I. rewrite E in I. by apply I. }
    split_and!; [by split_and!|by constructor|]. by intros ? [= <-].
Qed.
End rules.
End StreamRules.
