(* ===== verification/AuthLaws.v ===== *)
(** * What no transaction of the services takes away or gives away

    Three relations that every transaction of every service keeps: an
    administrator remains ([administered_kept]); nobody gains what the caller
    does not have ([granted], [powers]); stored capability sets are sets of
    known capabilities ([typed]). *)

From S2P Require Import Prelude GoStrings GoTime GoJson ApiTypes CandidateTypes Intents Planning ExecTypes AuthTables Store Evidence Program Requests Conformance.
From S2P Require Import AuthTypes AuthStore AuthCommands AuthSessions AuthDrafts AuthTLS AuthService AuthFrames AuthPolicy AuthInvariants.
Import Planning AuthTypes AuthTables AuthStore AuthCommands AuthSessions AuthDrafts AuthTLS AuthService.

(** ** An administrator remains

    Once some enabled principal with a local password may do everything, some
    principal always can: no command, provisioning or session ends it. *)

Definition administered_kept : db -> db -> Prop :=
  on_auth (fun s s' => administered (policy s) -> administered (policy s')).
#[export] Instance administered_preorder :
  PreOrder (fun s s' : auth_tables => administered (policy s) -> administered (policy s')).
Proof. split; [by intros s|]. intros x y z H1 H2 H. auto. Qed.
#[export] Instance administered_core : CoreTransactions administered_kept := on_auth_core _.

Lemma same_policy {A} (m : tx A) : keeps (same (fun d => policy (auth d))) m -> keeps administered_kept m.
Proof. intros H w n d a n' d' E. unfold administered_kept, on_auth. by rewrite (H _ _ _ _ _ _ E). Qed.

Notation policy_same := (same (fun d => policy (auth d))).
Lemma auth_policy {A} (m : tx A) : keeps (same auth) m -> keeps policy_same m.
Proof. intros H w n d a n' d' E. unfold same in *. by rewrite (H _ _ _ _ _ _ E). Qed.
Lemma creds_policy f : keeps policy_same (on_creds f).
Proof. by apply keeps_modify. Qed.
Lemma authz_policy f : keeps policy_same (on_authz f).
Proof. by apply keeps_modify. Qed.
Lemma drafts_policy f : keeps policy_same (on_drafts f).
Proof. by apply keeps_modify. Qed.
Lemma append_policy req r : keeps policy_same (Evidence.Append req r).
Proof. apply auth_policy, Append_auth. Qed.
Hint Resolve creds_policy authz_policy drafts_policy append_policy : keeps.
Lemma touch_policy cred c : keeps policy_same (touch cred c).
Proof. unfold touch, watermark. keeps_tac. Qed.

#[export] Instance administered_base : AuthBase administered_kept.
Proof.
  apply on_auth_base; try typeclasses eauto; try done; intros; apply same_policy;
    unfold candidateFence, record_witness, move_witness; keeps_tac.
Qed.

Lemma bootstrap_administered order name hash : keeps administered_kept (bootstrap_tx order name hash).
Proof.
  intros w n d a n' d' H [id (row & Hr & _)]. unfold bootstrap_tx in H. do 2 (tx_step; subst). bsimp. exfalso.
  tx_inv. bsimp. match goal with H : Z.of_nat (size ?m) = 0 |- _ => assert (m = ∅) as E by (apply map_size_empty_inv; lia) end.
  by rewrite E in Hr.
Qed.
Lemma role_administered cap op id b : contains reserved_capabilities cap = true ->
  keeps administered_kept (set_execution_role cap op id b).
Proof.
  intros Hc w n d a n' d' H. unfold set_execution_role in H. tx_inv.
  destruct (role_caps _ id) as [caps|] eqn:Er; [|done]. tx_inv. apply negb_false_iff, valid_ok in G.
  destruct (Bool.eqb (contains caps cap) b); [tx_inv; by intros Ha|]. tx_inv. unfold on_policy in *. tx_inv.
  unfold administered_kept, on_auth. erewrite (append_policy _ _ _ _ _ _ _ _ H4). cbn. intros [i Hi]. exists i.
  eapply (regranted_administrator cap); [done|by eapply (regrant_ok cap id (new_id w n))|done].
Qed.
Lemma command_administered cred op path etag v verifier id req :
  keeps administered_kept (execute_mutation cred op path etag v verifier id req).
Proof.
  intros w n d a n' d' H _. unfold execute_mutation in H. tx_inv.
  match goal with H : lastAdministrator _ = Ok ?u, T : touch _ _ _ _ _ = _ |- _ =>
    destruct u; apply lastAdministrator_ok in H; unfold same in *; by rewrite (touch_policy _ _ _ _ _ _ _ _ T) end.
Qed.
Lemma login_administered b id verifier : keeps administered_kept (login_tx b id verifier).
Proof.
  apply same_policy. unfold login_tx, reject_login, issue_grant, Secret, insert_grant, claims, AuthStore.clock, audit, watermark.
  keeps_tac.
Qed.
#[export] Instance administered_steps : AuthSteps administered_kept.
Proof.
  split; [intros; apply bootstrap_administered|apply login_administered|apply role_administered|apply command_administered].
Qed.

(** ** Nobody gains what the caller does not have

    [granted caps p p']: from [p] to [p'] no principal gains a capability
    outside of [caps]. Every security command keeps it for the capabilities
    of its caller, and issues tokens only to the caller and under them. *)

(** *** Powers *)

Definition granted (caps : list string) (p p' : policy_tables) : Prop :=
  forall id x, may p' id x -> may p id x \/ x ∈ caps.
#[export] Instance granted_preorder caps : PreOrder (granted caps).
Proof. split; [by intros p id x; left|]. intros x y z H1 H2 id c [H%H1|H]%H2; auto. Qed.
Lemma may_roles p id x :
  may p id x <-> exists role set, (id, role) ∈ principal_roles p /\ role_caps p role = Some set /\ x ∈ set.
Proof.
  unfold may. setoid_rewrite role_sets_elem. split.
  - intros (set & (role & Ha & Hr) & Hx). eauto.
  - intros (role & set & Ha & Hr & Hx). eauto.
Qed.
(** The assignments are as before, or hand out roles under [caps]. *)
Lemma granted_assigned caps id ids p :
  (forall role set, role ∈ ids -> role_caps p role = Some set -> forall x, x ∈ set -> x ∈ caps) ->
  granted caps p (replaceRoles id ids p).
Proof.
  intros H i x (role & set & Ha & Hr & Hx)%may_roles. cbn in Ha, Hr.
  apply elem_of_union in Ha as [Ha|Ha].
  - left. apply may_roles. apply elem_of_filter in Ha as [_ Ha]. eauto.
  - right. apply elem_of_list_to_set, list_elem_of_fmap in Ha as (r & [= <- <-] & Hin). eauto.
Qed.
(** One role changes, to a set under [caps]. *)
Lemma granted_role caps id set p p' :
  principal_roles p' = principal_roles p ->
  (forall role set', role_caps p' role = Some set' -> role_caps p role = Some set' \/ role = id /\ set' = set) ->
  (forall x, x ∈ set -> x ∈ caps) -> granted caps p p'.
Proof.
  intros Ha Hr Hs i x (role & set' & H1 & H2 & H3)%may_roles. rewrite Ha in H1. apply Hr in H2 as [H2|[-> ->]]; [|auto].
  left. apply may_roles. eauto.
Qed.
Lemma granted_same caps p p' : principal_roles p' = principal_roles p -> (forall role, role_caps p' role = role_caps p role) ->
  granted caps p p'.
Proof. intros Ha Hr i x (role & set & H1 & H2 & H3)%may_roles. left. apply may_roles. rewrite Ha in H1. rewrite Hr in H2. eauto. Qed.

Lemma assignable_ok p c ids role set : assignable p c ids = Ok tt -> role ∈ ids -> role_caps p role = Some set ->
  valid set /\ forall x, x ∈ set -> x ∈ cl_Capabilities c.
Proof.
  induction ids as [|r ids IH]; [by intros _ ?%not_elem_of_nil|]. cbn [assignable].
  destruct (role_caps p r) as [caps|] eqn:Er; [|done]. destruct (is_ok (validateCapabilities caps)) eqn:Ev; [|done].
  destruct (subset caps (cl_Capabilities c)) eqn:Es; [|done]. cbn. intros H [->|Hin]%elem_of_cons Hr; [|auto].
  assert (caps = set) as -> by congruence. by split; [apply valid_ok|apply subset_elem].
Qed.
Lemma roleAssignment_ok p c ids role set : roleAssignment p c ids = Ok tt -> role ∈ ids -> role_caps p role = Some set ->
  valid set /\ forall x, x ∈ set -> x ∈ cl_Capabilities c.
Proof. unfold roleAssignment. destruct (_ || _); [done|]. apply assignable_ok. Qed.

(** *** Commands *)

Definition powers (caps : list string) : db -> db -> Prop := on_auth (fun s s' => granted caps (policy s) (policy s')).
#[export] Instance powers_preorder caps : PreOrder (powers caps).
Proof. split; [by intros d id x; left|]. intros x y z H1 H2 id c [H%H1|H]%H2; auto. Qed.
Lemma same_powers caps {A} (m : tx A) : keeps policy_same m -> keeps (powers caps) m.
Proof.
  intros H w n d a n' d' E. unfold powers, on_auth. rewrite (H _ _ _ _ _ _ E). reflexivity.
Qed.
Lemma modify_powers caps f : (forall p, principal_roles (f p) = principal_roles p) ->
  (forall p role, role_caps (f p) role = role_caps p role) -> keeps (powers caps) (on_policy f).
Proof. intros H1 H2. apply keeps_modify. intros d. by apply granted_same; cbn. Qed.
Lemma invalidate_policy id : keeps policy_same (invalidatePrincipal id).
Proof. unfold invalidatePrincipal. keeps_tac. Qed.

(** The tables that say who may do what. *)
Definition role_tables (d : db) :=
  let p := policy (auth d) in (roles p, auth_roles p, principal_roles p).
Lemma tables_caps d d' : same role_tables d d' ->
  role_caps (policy (auth d')) = role_caps (policy (auth d)) /\
  principal_roles (policy (auth d')) = principal_roles (policy (auth d)).
Proof. unfold same, role_tables, role_caps. intros H. inversion H. by split. Qed.
Lemma tables_powers caps {A} (m : tx A) : keeps (same role_tables) m -> keeps (powers caps) m.
Proof.
  intros H w n d a n' d' E. destruct (tables_caps _ _ (H _ _ _ _ _ _ E)) as [E1 E2]. apply granted_same; [done|].
  intros role. by rewrite E1.
Qed.
Lemma policy_tables_same {A} (m : tx A) : keeps policy_same m -> keeps (same role_tables) m.
Proof. intros H w n d a n' d' E. unfold same, role_tables in *. by rewrite (H _ _ _ _ _ _ E). Qed.
Lemma creds_tables f : keeps (same role_tables) (on_creds f).
Proof. by apply keeps_modify. Qed.
Lemma authz_tables f : keeps (same role_tables) (on_authz f).
Proof. by apply keeps_modify. Qed.
Lemma principals_tables f : (forall p, (roles (f p), auth_roles (f p), principal_roles (f p)) = (roles p, auth_roles p, principal_roles p)) ->
  keeps (same role_tables) (on_policy f).
Proof. intros H. apply keeps_modify. intros d. unfold same, role_tables. cbn. apply H. Qed.
Lemma append_tables req r : keeps (same role_tables) (Evidence.Append req r).
Proof. apply policy_tables_same, append_policy. Qed.
Lemma create_job_tables req j : keeps (same role_tables) (Evidence.CreateJob req j).
Proof. apply policy_tables_same, auth_policy, CreateJob_auth. Qed.
Hint Resolve creds_tables authz_tables append_tables create_job_tables : keeps.
Hint Extern 3 (keeps (same role_tables) (on_policy _)) => apply principals_tables; intros; reflexivity : keeps.
Lemma insert_principal_tables id name v : keeps (same role_tables) (insert_principal id name v).
Proof. unfold insert_principal. keeps_tac. Qed.
Lemma insert_auth_principal_tables id rev t : keeps (same role_tables) (insert_auth_principal id rev t).
Proof. unfold insert_auth_principal. keeps_tac. Qed.
Lemma update_principal_tables id f : keeps (same role_tables) (update_principal id f).
Proof. unfold update_principal. keeps_tac. Qed.
Lemma invalidate_tables id : keeps (same role_tables) (invalidatePrincipal id).
Proof. unfold invalidatePrincipal. keeps_tac. Qed.
Lemma audit_tables req c op target r id o j : keeps (same role_tables) (audit req c op target r id o j).
Proof. unfold audit. keeps_tac. Qed.
Lemma touch_tables cred c : keeps (same role_tables) (touch cred c).
Proof. unfold touch, watermark. keeps_tac. Qed.
Lemma revoke_token_tables c id t : keeps (same role_tables) (revoke_token c id t).
Proof. unfold revoke_token. keeps_tac. Qed.
Lemma insert_token_tables h r a : keeps (same role_tables) (insert_token h r a).
Proof. unfold insert_token. keeps_tac. Qed.
Hint Resolve insert_principal_tables insert_auth_principal_tables update_principal_tables invalidate_tables audit_tables
  touch_tables revoke_token_tables insert_token_tables : keeps.
Lemma create_token_tables c v t : keeps (same role_tables) (create_token c v t).
Proof. unfold create_token, Secret. keeps_tac. Qed.
Hint Resolve create_token_tables : keeps.
Lemma revision_tables id rev : keeps (same role_tables)
  (on_policy (fun p => with_auth_principals p (alter (fun r => (rev, snd r)) id (auth_principals p)))).
Proof. keeps_tac. Qed.

(** Assigning roles after a check that it is allowed. *)
Lemma assign_powers c id ids d d1 d2 : roleAssignment (policy (auth d)) c ids = Ok tt -> same role_tables d d1 ->
  policy (auth d2) = replaceRoles id ids (policy (auth d1)) -> powers (cl_Capabilities c) d d2.
Proof.
  intros Hr Hs E. unfold powers, on_auth. rewrite E. etrans; [|apply granted_assigned].
  - apply tables_caps in Hs as [E1 E2]. apply granted_same; [done|]. intros role. by rewrite E1.
  - intros role set Hin Hset. apply tables_caps in Hs as [E1 _]. rewrite E1 in Hset.
    apply (roleAssignment_ok _ _ _ _ _ Hr Hin Hset).
Qed.
Lemma create_user_powers c v verifier t : keeps (powers (cl_Capabilities c)) (create_user c v verifier t).
Proof.
  intros w n d a n' d' H. unfold create_user in H. tx_inv. unfold on_policy in *. tx_inv.
  match goal with H : roleAssignment _ _ _ = Ok ?u |- _ => destruct u end.
  eapply assign_powers; [eassumption| |reflexivity]. etrans; [by eapply insert_principal_tables|by eapply insert_auth_principal_tables].
Qed.
Lemma change_user_powers c v id : keeps (powers (cl_Capabilities c)) (change_user c v id).
Proof.
  intros w n d a n' d' H. unfold change_user in H. tx_inv. unfold on_policy in *. tx_inv.
  match goal with H : roleAssignment _ _ _ = Ok ?u |- _ => destruct u end.
  match goal with H : (if _ then _ else _) _ _ _ = _, U : update_principal _ _ _ _ ?d1 = _ |- _ =>
    transitivity d1; [eapply assign_powers; [eassumption|done|reflexivity]|];
    etrans; [by eapply (tables_powers _ _ (update_principal_tables _ _)) in U|];
    destruct (pl_disabled v); [by eapply (tables_powers _ _ (invalidate_tables _)) in H|tx_inv; reflexivity] end.
Qed.
Lemma delete_user_powers c id : keeps (powers c) (delete_user id).
Proof.
  intros w n d a n' d' H. unfold delete_user in H. tx_inv. unfold on_policy in *. tx_inv.
  etrans; [by eapply (tables_powers _ _ (update_principal_tables _ _))|].
  etrans; [|by eapply (tables_powers _ _ (invalidate_tables _))]. unfold powers, on_auth. cbn.
  apply granted_assigned. by intros role set ?%not_elem_of_nil.
Qed.
Lemma existing_powers c op id etag v verifier : keeps (powers (cl_Capabilities c)) (existing_user c op id etag v verifier).
Proof.
  unfold existing_user. pose proof (powers_preorder (cl_Capabilities c)).
  apply keeps_bind; [done|by apply keeps_get|intros d].
  apply keeps_bind; [done|by apply keeps_lift|intros _]. apply keeps_bind; [done| |intros _].
  - destruct (op =s "changeUser"); [apply change_user_powers|]. destruct (op =s "changePassword"); [|apply delete_user_powers].
    apply tables_powers. unfold change_password. keeps_tac.
  - apply tables_powers. keeps_tac.
Qed.
(** A role that is written stays under its writer's capabilities. *)
Lemma write_role_powers c create path etag v : keeps (powers (cl_Capabilities c)) (write_role c create path etag v).
Proof.
  intros w n d a n' d' H. unfold write_role in H. tx_inv.
  match goal with G : negb (subset _ _) = false |- _ => apply negb_false_iff in G;
    pose proof (proj1 (subset_elem _ _) G) as Hs end.
  assert (forall x, x ∈ unique (pl_capabilities v) -> x ∈ cl_Capabilities c) as Hu.
  { intros x. rewrite unique_elem. apply Hs. }
  destruct create; unfold insert_role, insert_auth_role, on_policy in H; tx_inv;
    (eapply granted_role; [reflexivity| |exact Hu]); intros role set'; unfold role_caps; cbn -[unique].
  - match goal with |- context [<[?id := _]> _] => destruct (decide (role = id)) as [->|Hne] end.
    + rewrite !lookup_insert_eq. intros [= <-]. by right.
    + rewrite !lookup_insert_ne by done. by left.
  - destruct (decide (role = path)) as [->|Hne].
    + rewrite !lookup_alter_eq. destruct (auth_roles _ !! path), (roles _ !! path); cbn -[unique]; try done.
      intros [= <-]. by right.
    + rewrite !lookup_alter_ne by done. by left.
Qed.
Lemma dispatch_powers c op path etag v verifier t :
  keeps (powers (cl_Capabilities c)) (dispatch_command c op path etag v verifier t).
Proof.
  unfold dispatch_command. repeat case_match; try apply keeps_fail;
    eauto using create_user_powers, existing_powers, write_role_powers, tables_powers, create_token_tables, revoke_token_tables.
Qed.
Lemma mutate_powers c op path etag v verifier id req : keeps (powers (cl_Capabilities c)) (mutate c op path etag v verifier id req).
Proof.
  unfold mutate. pose proof (powers_preorder (cl_Capabilities c)).
  apply keeps_bind; [done|by apply keeps_ask|intros at_]. apply keeps_bind; [done|apply dispatch_powers|intros m].
  apply tables_powers. unfold new_revision. keeps_tac.
Qed.

(** *** Tokens *)

(** Every token is an old one, or belongs to the caller and is under its
    capabilities. *)
Definition issued_rows (c : Claims) (m m' : gmap string credential_row) : Prop :=
  forall h row', m' !! h = Some row' ->
    (exists row, m !! h = Some row /\ cr_principal row = cr_principal row' /\ cr_ceiling row = cr_ceiling row') \/
    (cr_principal row' = cl_Principal c /\ forall x, x ∈ cr_ceiling row' -> x ∈ cl_Capabilities c).
#[export] Instance issued_preorder c : PreOrder (issued_rows c).
Proof.
  split; [intros m h row H; left; eauto|]. intros x y z H1 H2 h row [(r & E & E1 & E2)|H]%H2; [|by right].
  rewrite <- E1, <- E2. apply H1 in E as [(r' & E' & E3 & E4)|H]; [left|by right]. exists r'. by split_and!.
Qed.
Definition issues (c : Claims) : db -> db -> Prop := on_auth (fun s s' => issued_rows c (api_tokens (creds s)) (api_tokens (creds s'))).
#[export] Instance issues_preorder c : PreOrder (issues c).
Proof. split; [by intros d; unfold issues, on_auth|]. intros x y z. unfold issues, on_auth. apply transitivity. Qed.
Lemma issued_fmap c f m : (forall r, cr_principal (f r) = cr_principal r /\ cr_ceiling (f r) = cr_ceiling r) -> issued_rows c m (f <$> m).
Proof. intros Hf h row' (row & <- & E)%lookup_fmap_Some. left. exists row. destruct (Hf row). by split_and!. Qed.
Lemma issued_alter c f k m : (forall r, cr_principal (f r) = cr_principal r /\ cr_ceiling (f r) = cr_ceiling r) -> issued_rows c m (alter f k m).
Proof.
  intros Hf h row' [(-> & row & E & ->)|[Hne E]]%lookup_alter_Some; left; [|by exists row'].
  exists row. destruct (Hf row). by split_and!.
Qed.
Lemma revoked_same id t r : cr_principal (revoke_of id t r) = cr_principal r /\ cr_ceiling (revoke_of id t r) = cr_ceiling r.
Proof. unfold revoke_of. by destruct (_ =s _). Qed.
Lemma creds_same_issues c {A} (m : tx A) : keeps (same (fun d => creds (auth d))) m -> keeps (issues c) m.
Proof. intros H w n d a n' d' E. unfold issues, on_auth. rewrite (H _ _ _ _ _ _ E). reflexivity. Qed.
Lemma policy_issues c f : keeps (issues c) (on_policy f).
Proof. by apply creds_same_issues, keeps_modify. Qed.
Lemma authz_issues c f : keeps (issues c) (on_authz f).
Proof. by apply creds_same_issues, keeps_modify. Qed.
Lemma auth_issues c {A} (m : tx A) : keeps (same auth) m -> keeps (issues c) m.
Proof. intros H. apply creds_same_issues. intros w n d a n' d' E. unfold same. by rewrite (H _ _ _ _ _ _ E). Qed.
Lemma append_issues c req r : keeps (issues c) (Evidence.Append req r).
Proof. apply auth_issues, Append_auth. Qed.
Lemma create_job_issues c req j : keeps (issues c) (Evidence.CreateJob req j).
Proof. apply auth_issues, CreateJob_auth. Qed.
Hint Resolve policy_issues authz_issues append_issues create_job_issues : keeps.
Lemma creds_issues c f : (forall t, issued_rows c (api_tokens t) (api_tokens (f t))) -> keeps (issues c) (on_creds f).
Proof. intros H. apply keeps_modify. intros d. apply H. Qed.
Ltac issues_step :=
  match goal with
  | |- keeps (issues _) (on_creds _) => apply creds_issues; intros ?; cbn; repeat case_match; cbn
  | |- issued_rows _ ?m ?m => reflexivity
  | |- issued_rows _ _ (_ <$> _) => apply issued_fmap; apply revoked_same
  | |- issued_rows _ _ (alter _ _ _) => apply issued_alter; by intros
  | |- keeps (issues _) Store.clock => apply keeps_ask; typeclasses eauto
  | _ => keeps_step
  end.
Ltac issues_tac := repeat issues_step; eauto with keeps.
Lemma invalidate_issues c id : keeps (issues c) (invalidatePrincipal id).
Proof. unfold invalidatePrincipal. issues_tac. Qed.
Lemma touch_issues c cred c' : keeps (issues c) (touch cred c').
Proof. unfold touch, watermark. issues_tac. Qed.
Lemma audit_issues c req c' op target r id o j : keeps (issues c) (audit req c' op target r id o j).
Proof. unfold audit. issues_tac. Qed.
Hint Resolve invalidate_issues touch_issues audit_issues : keeps.
#[local] Arguments Hash : simpl never.
#[local] Arguments unique : simpl never.
Lemma create_token_issues c v t : keeps (issues c) (create_token c v t).
Proof.
  intros w n d a n' d' H. unfold create_token in H. tx_inv.
  match goal with G : negb (subset _ _) = false |- _ => apply negb_false_iff in G; pose proof (proj1 (subset_elem _ _) G) as Hs end.
  destruct (parse_rfc3339 (pl_expires_at v)); [|by tx_inv]. unfold Secret, insert_token, on_creds in H. tx_inv.
  intros h row'. cbn. intros [[<- <-]|[_ E]]%lookup_insert_Some; [right|left; eauto].
  split; [reflexivity|]. intros x. cbn [cr_ceiling]. rewrite unique_elem. apply Hs.
Qed.
Lemma dispatch_issues c op path etag v verifier t : keeps (issues c) (dispatch_command c op path etag v verifier t).
Proof.
  pose proof create_token_issues.
  unfold dispatch_command, create_user, existing_user, change_user, change_password, delete_user, write_role,
    revoke_token, update_principal, insert_principal, insert_auth_principal, insert_role, insert_auth_role.
  issues_tac.
Qed.
Lemma mutate_issues c op path etag v verifier id req : keeps (issues c) (mutate c op path etag v verifier id req).
Proof. unfold mutate, new_revision. pose proof dispatch_issues. issues_tac. Qed.

(** ** Stored capability sets are valid

    [typed]: every role and the ceiling of every credential is a set of
    distinct known capabilities. Every transaction keeps it. *)

Definition ceilings_valid (m : gmap string credential_row) : Prop := forall h row, m !! h = Some row -> valid (cr_ceiling row).
Definition roles_valid (p : policy_tables) : Prop := forall role set, roles p !! role = Some set -> valid set.
Record typed (s : auth_tables) : Prop := {
  ty_roles : roles_valid (policy s);
  ty_grants : ceilings_valid (grants (creds s));
  ty_tokens : ceilings_valid (api_tokens (creds s)) }.
Definition typed_kept : db -> db -> Prop := on_auth (fun s s' => typed s -> typed s').
#[export] Instance typed_preorder : PreOrder (fun s s' : auth_tables => typed s -> typed s').
Proof. split; [by intros s|]. intros x y z H1 H2 H. auto. Qed.
#[export] Instance typed_kept_preorder : PreOrder typed_kept.
Proof. unfold typed_kept. typeclasses eauto. Qed.
#[export] Instance typed_core : CoreTransactions typed_kept := on_auth_core _.

Lemma updated_valid m m' : rows_updated m m' -> ceilings_valid m -> ceilings_valid m'.
Proof.
  intros [Hk Hn] Hv h row' E'. destruct (m !! h) as [row|] eqn:E.
  - destruct (Hk _ _ E) as (r & Er & Hr & _). assert (r = row') as -> by congruence.
    injection Hr as _ _ Hc _. rewrite Hc. by apply (Hv h).
  - apply Hn in E. congruence.
Qed.
Lemma insert_valid h row m : valid (cr_ceiling row) -> ceilings_valid m -> ceilings_valid (<[h := row]> m).
Proof. intros Hr Hv h' row' [[<- <-]|[_ E]]%lookup_insert_Some; [done|by eapply Hv]. Qed.

Lemma drafts_typed f : keeps typed_kept (on_drafts f).
Proof. apply keeps_modify. intros d [H1 H2 H3]. by split. Qed.
Lemma authz_typed f : keeps typed_kept (on_authz f).
Proof. apply keeps_modify. intros d [H1 H2 H3]. by split. Qed.
Lemma roles_typed f : (forall p, roles_valid p -> roles_valid (f p)) -> keeps typed_kept (on_policy f).
Proof. intros Hf. apply keeps_modify. intros d [H1 H2 H3]. split; cbn; auto. Qed.
Lemma policy_typed f : (forall p, roles (f p) = roles p) -> keeps typed_kept (on_policy f).
Proof. intros Hf. apply roles_typed. intros p Hp role set. rewrite Hf. apply Hp. Qed.
Hint Extern 3 (keeps typed_kept (on_policy _)) => apply policy_typed; intros; reflexivity : keeps.
Hint Resolve drafts_typed : keeps.
#[export] Instance typed_base : AuthBase typed_kept.
Proof.
  apply on_auth_base; try typeclasses eauto.
  - intros s x [H1 H2 H3]. by split.
  - intros s f [U1 U2] [H1 H2 H3]. split; cbn; [done|by eapply updated_valid|by eapply updated_valid].
  - intros s t _ [H1 H2 H3]. by split.
  - intros. unfold candidateFence, record_witness. keeps_tac.
  - intros. unfold move_witness. keeps_tac.
Qed.

Lemma insert_role_typed id caps : valid caps -> keeps typed_kept (insert_role id caps).
Proof.
  intros Hv. unfold insert_role. keeps_tac. apply roles_typed. intros p Hp role set. cbn.
  intros [[<- <-]|[_ E]]%lookup_insert_Some; [done|by eapply Hp].
Qed.
Lemma insert_templates_typed l admin : (forall t, t ∈ l -> valid (snd t)) -> keeps typed_kept (insert_templates l admin).
Proof.
  revert admin. induction l as [|[name caps] l IH]; intros admin Hl; cbn; [keeps_tac|].
  assert (valid caps) as Hv by (apply (Hl (name, caps)); set_solver).
  pose proof (fun id => insert_role_typed id caps Hv). unfold insert_auth_role. auth_tac. apply IH. set_solver.
Qed.
Lemma templates_valid : forall t, t ∈ Templates -> valid (snd t).
Proof.
  assert (forallb (fun t => is_ok (validateCapabilities (snd t))) Templates = true) as H by by vm_compute.
  intros t Ht. rewrite forallb_forall in H. by apply valid_ok, H, list_elem_of_In.
Qed.
Lemma insert_grant_typed h r a : valid (cr_ceiling r) -> keeps typed_kept (insert_grant h r a).
Proof.
  intros Hv. unfold insert_grant. keeps_tac. apply keeps_modify. intros d [H1 H2 H3]. split; cbn; [done|by apply insert_valid|done].
Qed.
Lemma insert_token_typed h r a : valid (cr_ceiling r) -> keeps typed_kept (insert_token h r a).
Proof.
  intros Hv. unfold insert_token. keeps_tac. apply keeps_modify. intros d [H1 H2 H3]. split; cbn; [done|done|by apply insert_valid].
Qed.
Lemma capabilities_set p id caps : capabilities p id = Ok caps -> valid caps.
Proof.
  intros E. pose proof E as [Hv Hm]%capabilities_ok. unfold capabilities in E. destruct (existsb _ _); [done|].
  injection E as <-. apply unique_valid. intros c Hc. apply unique_elem, Hm in Hc as (set & Hs & Hc). by apply (Hv set Hs).
Qed.
Lemma bind_lift R {A B} (r : result A) (k : A -> tx B) : (forall a, r = Ok a -> keeps R (k a)) -> keeps R (do x <- lift r in k x).
Proof. intros H w n d a n' d' E. tx_inv. by eapply H. Qed.
Lemma bind_guard R {B} b e (k : unit -> tx B) : (b = false -> keeps R (k tt)) -> keeps R (do x <- guard b e in k x).
Proof. intros H w n d a n' d' E. tx_inv. destruct a0. by eapply H. Qed.

(** As [auth_tac], remembering what was checked. *)
Ltac checked_step :=
  match goal with
  | |- keeps _ (bind (lift _) _) => apply bind_lift; intros ? ?
  | |- keeps _ (bind (guard _ _) _) => apply bind_guard; intros ?
  | |- keeps _ (insert_grant _ _ _) => apply insert_grant_typed
  | |- keeps _ (insert_token _ _ _) => apply insert_token_typed
  | |- keeps _ (insert_role _ _) => apply insert_role_typed
  | |- keeps _ _ => first [solve [eauto with keeps] | auth_step]
  end.
Ltac checked := pose proof typed_base; repeat checked_step; eauto with keeps.

Lemma login_typed b id verifier : keeps typed_kept (login_tx b id verifier).
Proof. unfold login_tx, reject_login, issue_grant, Secret. checked. by eapply capabilities_set. Qed.
Lemma bootstrap_typed order name hash : order ≡ₚ Templates -> keeps typed_kept (bootstrap_tx order name hash).
Proof.
  intros Ho. assert (forall t, t ∈ order -> valid (snd t)) as Hv by (intros t; rewrite Ho; apply templates_valid).
  pose proof (fun admin => insert_templates_typed order admin Hv).
  unfold bootstrap_tx, insert_principal, insert_auth_principal. checked.
Qed.
Lemma known_valid caps : is_ok (validateCapabilities caps) = true -> valid (unique caps).
Proof. intros H%valid_ok. by apply unique_valid, H. Qed.
Lemma ok_is {A} (r : result A) a : r = Ok a -> is_ok r = true.
Proof. by intros ->. Qed.
Lemma alter_roles_typed id set : valid set -> keeps typed_kept (on_policy (fun p => with_roles p (alter (fun _ => set) id (roles p)))).
Proof.
  intros Hv. apply roles_typed. intros p Hp role set'. cbn. intros [(-> & s & E & ->)|[_ E]]%lookup_alter_Some; [done|by eapply Hp].
Qed.
Lemma role_typed cap op id b : contains reserved_capabilities cap = true -> keeps typed_kept (set_execution_role cap op id b).
Proof.
  intros Hc. unfold set_execution_role. checked.
  match goal with H : negb _ = false |- _ => apply negb_false_iff, valid_ok in H; apply alter_roles_typed; by apply regrant_valid end.
Qed.
Lemma command_typed cred op path etag v verifier id req : keeps typed_kept (execute_mutation cred op path etag v verifier id req).
Proof.
  unfold execute_mutation, mutate, dispatch_command, create_user, existing_user, change_user, change_password, delete_user, write_role,
    create_token, revoke_token, update_principal, insert_principal, insert_auth_principal, insert_auth_role, Secret.
  checked; [|apply alter_roles_typed|]; apply known_valid; by eapply ok_is.
Qed.
#[export] Instance typed_steps : AuthSteps typed_kept.
Proof. split; [apply bootstrap_typed|apply login_typed|apply role_typed|apply command_typed]. Qed.
