(* ===== verification/AuthProperties.v ===== *)
(** * What the authenticated services guarantee

    The theorems about users, roles, credentials and sessions: over the whole
    process where they are invariants, about one transaction where they say
    what it does. *)

From S2P Require Import Prelude GoStrings Sha256 GoTime GoJson ApiTypes CandidateTypes Intents Snapshots Planning ExecTypes AuthTables Store.
From S2P Require Import Evidence Reservations Program Requests Executions SafeApply Admission Conformance System Scenario Manager.
From S2P Require Import AuthTypes AuthStore AuthCommands AuthSessions AuthDrafts AuthTLS AuthService AuthFrames.
From S2P Require Import AuthPolicy AuthInvariants AuthLaws AuthCodec.
Import Planning AuthTypes AuthTables AuthStore AuthCommands AuthSessions AuthDrafts AuthTLS AuthService.
#[local] Arguments Hash : simpl never.
#[local] Arguments unique : simpl never.

Lemma owned_auth d d' : owned_tables d' = owned_tables d ->
  policy (auth d') = policy (auth d) /\ creds (auth d') = creds (auth d) /\
  candidate_witnesses (drafts (auth d')) = candidate_witnesses (drafts (auth d)).
Proof. unfold owned_tables. intros H. by inversion H. Qed.

(** ** An administrator remains *)

(** C6. Nobody can lock everybody out: once some enabled local user may do
    everything, some such user exists in every later state of the process,
    whatever commands, logins, role provisioning, restores and crashes come. *)
Theorem administrator_kept s s' :
  reachable s -> rtc step s s' -> administered (policy (auth (durable s))) -> administered (policy (auth (durable s'))).
Proof.
  intros Hr Hs. apply (process_keeping administered_kept); [|done|done].
  intros d d' (E & _)%owned_auth. unfold administered_kept, on_auth. by rewrite E.
Qed.

(** *** A manager that was set up *)

Definition derive_demo (password : string) (salt : list Z) : list Z := take 32 ((bytes password ++ salt) ++ replicate 32 0).
Definition password : string := "correct-horse-battery".
Definition setup : prog unit := ignore (Bootstrap derive_demo Templates "admin" password).
Definition installed : state := snd (interpret steady setup fresh).
Lemma entry_service {A} (m : prog A) :
  service (fun _ _ => Err EUnavailable) (fun _ _ => Ok tt) (fun _ _ => Err EUnavailable) (fun _ => None) derive_demo
    (fun _ => Err EUnavailable) [] None false m -> entry (ignore m).
Proof. apply E_service. Qed.
Lemma installed_reachable : exists ts, reachable (sys_of installed ts).
Proof.
  destruct (run_rtc entry steady fresh [] setup) as [ts Hr].
  - apply entry_service, S_bootstrap. done.
  - exists ts. eapply reachable_rtc; [exists (sys_of fresh []); split; [done|apply rtc_refl]|]. exact Hr.
Qed.
Lemma installed_administered : administered (policy (auth (st_db installed))).
Proof. apply lastAdministrator_ok. vm_compute. reflexivity. Qed.
Lemma administrator_kept_witness : exists s s', reachable s /\ step s s' /\ administered (policy (auth (durable s'))).
Proof.
  destruct installed_reachable as [ts H].
  pose proof (Step_crash (entry:=entry) (st_db installed) (st_active installed) (st_sent installed) ts) as Hc.
  eexists _, _. split_and!; [exact H|exact Hc|]. exact (administrator_kept _ _ H (rtc_once _ _ Hc) installed_administered).
Defined.

(** ** Stored sets *)

(** C40. Every capability set that is stored is one: distinct, known
    capabilities, in every role and under every credential, in every state
    that the process reaches from such a state. *)
Theorem sets_typed s s' : reachable s -> rtc step s s' -> typed (auth (durable s)) -> typed (auth (durable s')).
Proof.
  intros Hr Hs. apply (process_keeping typed_kept); [|done|done].
  intros d d' (E1 & E2 & _)%owned_auth [H1 H2 H3]. split; by rewrite ?E1, ?E2.
Qed.
Lemma sets_typed_witness : exists ts role set, reachable (sys_of installed ts) /\
  roles (policy (auth (st_db installed))) !! role = Some set /\ valid set.
Proof.
  assert (rtc step (sys_of fresh []) (sys_of fresh [])) as Hf by apply rtc_refl.
  assert (reachable (sys_of fresh [])) as Hr by (exists (sys_of fresh []); by split).
  destruct (run_rtc entry steady fresh [] setup) as [ts Hi]; [by apply entry_service, S_bootstrap|].
  assert (typed (auth (st_db fresh))) as Ht by (split; by intros ? ?).
  assert (exists x, head (map_to_list (roles (policy (auth (st_db installed))))) = Some x) as [[role set] Hx] by (vm_compute; by eexists).
  exists ts, role, set.
  assert (roles (policy (auth (st_db installed))) !! role = Some set) as Hl.
  { apply elem_of_map_to_list. destruct (map_to_list _); [done|]. injection Hx as ->. apply list_elem_of_here. }
  split_and!; [by eapply reachable_rtc|exact Hl|].
  exact (ty_roles _ (sets_typed _ _ Hr Hi Ht) role set Hl).
Defined.

(** ** What a credential allows *)

(** The row that a credential text names. *)
Definition row_of (d : db) (credential : string) : option credential_row :=
  if ValidSecret credential "ovsg_" then grants (creds (auth d)) !! Hash credential
  else if ValidSecret credential "ovst_" then api_tokens (creds (auth d)) !! Hash credential else None.
Lemma find_row d credential k : find_credential d credential = Ok k -> row_of d credential = Some (k_row k) /\
  principals (policy (auth d)) !! cr_principal (k_row k) = Some (k_principal k).
Proof.
  unfold find_credential, row_of, known. intros H.
  repeat (case_match; try discriminate); simplify_eq/=; by split.
Qed.
(** The capability that an operation asks for, by its stored name. *)
Definition demanded (capability : string) : option string :=
  match alias capability with
  | Some c => Some c
  | None => if knownCapability capability then Some capability else None
  end.
Lemma require_ok c capability elevated now_ : require c capability elevated now_ = Ok tt ->
  capability ∉ ["config.decide"; "session.read"; "session.end"] ->
  exists canonical, demanded capability = Some canonical /\ canonical ∈ cl_Capabilities c /\
    (elevated = true -> cl_Kind c = "grant" /\ now_ < cl_Elevated c).
Proof.
  unfold require. intros H Hn. assert ((capability =s "config.decide") = false) as E1 by (apply String.eqb_neq; set_solver).
  assert ((capability =s "session.read") = false) as E2 by (apply String.eqb_neq; set_solver).
  assert ((capability =s "session.end") = false) as E3 by (apply String.eqb_neq; set_solver).
  rewrite E1, E2, E3 in H. cbn [andb orb] in H. fold (demanded capability) in H.
  destruct (demanded capability) as [canonical|]; [|done]. exists canonical. split; [done|].
  destruct (contains (cl_Capabilities c) canonical) eqn:Ec; [|done]. apply contains_elem in Ec. split; [done|].
  intros ->. cbn in H. destruct (_ || _) eqn:E in H; [done|]. bsimp. destruct E as [? ?]. split; [done|lia].
Qed.
Lemma claims_live d credential t1 t2 c : claims_of d credential t1 t2 = Ok c ->
  exists k, find_credential d credential = Ok k /\ cl_Principal c = cr_principal (k_row k) /\ cl_Kind c = k_kind k /\
    cl_Elevated c = k_elevated k /\ ended k (auth_epoch (authz (auth d))) (unix t2) = false /\
    auth_high (authz (auth d)) <= unix_milli t1 /\
    (forall x, x ∈ cl_Capabilities c <-> may (policy (auth d)) (cr_principal (k_row k)) x /\ x ∈ cr_ceiling (k_row k)).
Proof.
  unfold claims_of, clock_of. intros H. destruct (unix_milli t1 <? _) eqn:Et; [done|]. cbn in H.
  destruct (find_credential d credential) as [k|] eqn:Ek; [|done].
  destruct (ended k _ _) eqn:Ee; [done|]. destruct (is_ok (validateCapabilities _)); [|done]. cbn in H.
  destruct (capabilities _ _) as [current|] eqn:Ec; [|done]. injection H as <-. exists k. cbn.
  apply capabilities_ok in Ec as [_ Hm]. split_and!; try done; [by apply Z.ltb_ge|]. intros x. by rewrite intersection_elem, Hm.
Qed.


(** *** A session *)

Definition login : prog (result LoginResult) := Authenticate derive_demo (mkLogin "local" "admin" password).
Definition session : state := snd (interpret steady (ignore login) installed).
Definition grant : string := match fst (interpret steady login installed) with Ok r => lr_Grant r | Err _ => EmptyString end.
Definition session_time : Z := w_query steady Z QNow (st_tick session).
Definition create_operation : Operation := mkOperation "createRole" "workspace.write" "role" "management" true false.
Definition session_claims : result Claims :=
  check_operation_of (st_db session) grant create_operation [] false session_time session_time session_time.
Lemma session_ok : match session_claims with Ok c => cl_Kind c =s "grant" | Err _ => false end = true.
Proof. vm_compute. reflexivity. Qed.

(** ** Revocation *)

Lemma row_later s s' credential row : reachable s -> rtc step s s' -> row_of (durable s) credential = Some row ->
  exists row', row_of (durable s') credential = Some row' /\ row_kept row row'.
Proof.
  intros Hr Hs Hrow. assert (credentials_kept (durable s) (durable s')) as [Hg Ht].
  { apply (process_keeping credentials_kept); [|done|done]. intros d d' (_ & E & _)%owned_auth.
    unfold credentials_kept, on_auth. rewrite E. reflexivity. }
  unfold row_of in *. case_match; [by apply Hg|]. case_match; [by apply Ht|done].
Qed.

(** C19. A revocation is final: a credential that was revoked is refused in
    every later state, whenever it is presented, and no credential ever
    changes its holder, its epoch, its ceiling or its expiry. *)
Theorem revocation_final s s' credential row :
  reachable s -> rtc step s s' -> row_of (durable s) credential = Some row ->
  (exists row', row_of (durable s') credential = Some row' /\
     (cr_principal row', cr_epoch row', cr_ceiling row', cr_expires row')
     = (cr_principal row, cr_epoch row, cr_ceiling row, cr_expires row)) /\
  (cr_revoked row <> None -> forall t1 t2 c, claims_of (durable s') credential t1 t2 <> Ok c).
Proof.
  intros Hr Hs Hrow. destruct (row_later _ _ _ _ Hr Hs Hrow) as (row' & Hrow' & Hsame & Hrev). split; [by exists row'|].
  intros Hv t1 t2 c (k & Hk & _ & _ & _ & He & _)%claims_live. apply find_row in Hk as [Hk _].
  assert (k_row k = row') as E by congruence. unfold ended in He. rewrite E in He. specialize (Hrev Hv).
  destruct (cr_revoked row'); [|done]. cbn in He. by rewrite orb_true_r in He.
Qed.
Definition logout : prog unit := ignore (RevokeAuth grant).
Definition logged_out : state := snd (interpret steady logout session).
Lemma session_reachable : exists ts, reachable (sys_of session ts).
Proof.
  destruct installed_reachable as [ts H].
  destruct (run_rtc entry steady installed ts (ignore login)) as [ts' H']; [by apply entry_service, S_authenticate|].
  exists ts'. eapply reachable_rtc; [exact H|]. exact H'.
Qed.
Lemma logged_out_reachable : exists ts, reachable (sys_of logged_out ts).
Proof.
  destruct session_reachable as [ts H]. destruct (run_rtc entry steady session ts logout) as [ts' H']; [by apply entry_service, S_revoke|].
  exists ts'. by eapply reachable_rtc.
Qed.
Lemma revocation_final_witness : exists ts row, reachable (sys_of logged_out ts) /\
  row_of (st_db session) grant <> None /\ row_of (st_db logged_out) grant = Some row /\ cr_revoked row <> None /\
  forall t1 t2 c, claims_of (st_db logged_out) grant t1 t2 <> Ok c.
Proof.
  destruct logged_out_reachable as [ts H].
  assert (match row_of (st_db logged_out) grant with Some r => not_nil (cr_revoked r) | None => false end = true) as E
    by (vm_compute; reflexivity).
  destruct (row_of (st_db logged_out) grant) as [row|] eqn:Er; [|discriminate E]. exists ts, row.
  assert (cr_revoked row <> None) as Hv by (intros E'; by rewrite E' in E).
  split_and!; [exact H|vm_compute; discriminate|reflexivity|exact Hv|].
  exact (proj2 (revocation_final _ _ grant row H (rtc_refl _ _) Er) Hv).
Defined.

(** ** Commands *)

Lemma execute_parts cred op path etag v verifier id req w n d m n' d' :
  execute_mutation cred op path etag v verifier id req w n d = Ok (m, n', d') ->
  exists c n1 n2 d2, check_operation_of d cred op (refsFor op (if path =s "" then [] else [path])) true
      (now_at w n) (now_at w (S n)) (now_at w (S (S n))) = Ok c /\
    mutate c (op_ID op) path etag v verifier id req w n1 d = Ok (m, n2, d2) /\
    touch cred c w n2 d2 = Ok (tt, n', d') /\ lastAdministrator (policy (auth d2)) = Ok tt.
Proof.
  unfold execute_mutation. intros H. unfold checkOperation in H. tx_inv.
  repeat match goal with u : unit |- _ => destruct u end. by do 4 eexists; split_and!.
Qed.

(** C7. No command lets anybody gain what its caller does not have: whatever
    users, roles and tokens it writes, a capability that some user holds
    afterwards was held before or belongs to the caller, and a token that is
    new is the caller's own, with a ceiling under the caller's capabilities. *)
Theorem no_escalation cred op path etag v verifier id req w n d m n' d' :
  execute_mutation cred op path etag v verifier id req w n d = Ok (m, n', d') ->
  exists c, claims_of d cred (now_at w n) (now_at w (S n)) = Ok c /\
    (forall user x, may (policy (auth d')) user x -> may (policy (auth d)) user x \/ x ∈ cl_Capabilities c) /\
    (forall h row, api_tokens (creds (auth d')) !! h = Some row -> api_tokens (creds (auth d)) !! h = None ->
       cr_principal row = cl_Principal c /\ forall x, x ∈ cr_ceiling row -> x ∈ cl_Capabilities c).
Proof.
  intros (c & n1 & n2 & d2 & Hc & Hm & Ht & _)%execute_parts. exists c. split_and!.
  - unfold check_operation_of in Hc. destruct (claims_of _ _ _ _) as [c'|]; [|done].
    destruct (require _ _ _ _); [|done]. cbn in Hc. destruct (if own_evidence _ then _ else _); [|done]. congruence.
  - intros user x Hx. assert (powers (cl_Capabilities c) d d') as Hp; [|by apply Hp].
    etrans; [by eapply mutate_powers|]. by eapply (same_powers _ _ (touch_policy _ _)).
  - intros h row Hrow Hn. assert (issues c d d') as Hi.
    { etrans; [by eapply mutate_issues|by eapply touch_issues]. }
    destruct (Hi h row Hrow) as [(r & E & _)|H]; [congruence|done].
Qed.

(** *** A command *)

Definition elevated_session : state := snd (interpret steady (ignore (Reauthenticate derive_demo grant password)) session).
Definition role_operation : Operation := mkOperation "createRole" "role.manage" "role" "management" true false.
Definition role_payload : Payload := mkPayload "" [] false "Watchers" ["state.read"; "jobs.read"] [] "".
Definition command_env : env := world_env (st_tick elevated_session).
Definition command_request : EvRequest :=
  mkEvRequest owner (id_of 11) "access.roles.manage" "createRole" "management" epoch request_id (id_of 14).
Notation role_written :=
  (execute_mutation grant role_operation "" "" role_payload "" request_id command_request command_env 0%nat (st_db elevated_session)).
Lemma role_written_ok : is_ok role_written = true.
Proof. vm_compute. reflexivity. Qed.
Lemma no_escalation_witness : exists m n' d', role_written = Ok (m, n', d') /\
  forall user x, may (policy (auth d')) user x ->
    may (policy (auth (st_db elevated_session))) user x \/
    exists c, claims_of (st_db elevated_session) grant (now_at command_env 0%nat) (now_at command_env 1%nat) = Ok c /\ x ∈ cl_Capabilities c.
Proof.
  pose proof role_written_ok as H. destruct role_written as [[[m n'] d']|] eqn:E; [|discriminate H]. exists m, n', d'.
  split; [reflexivity|].
  destruct (no_escalation grant role_operation "" "" role_payload "" request_id command_request command_env 0%nat
              (st_db elevated_session) m n' d' E) as (c & Hc & Hm & _).
  intros user x Hx. destruct (Hm user x Hx) as [Hx'|Hx']; [left; exact Hx'|right; exists c; split; [exact Hc|exact Hx']].
Defined.
