(* ===== verification/SessionProperties.v ===== *)
(** * Passwords, sessions, restores and certificates

    What changing a password, logging in, restoring a backup and trying a
    certificate do. *)

From S2P Require Import Prelude GoStrings Sha256 GoTime GoJson ApiTypes CandidateTypes Intents Planning ExecTypes AuthTables Store.
From S2P Require Import Evidence Program Requests Conformance Scenario.
From S2P Require Import AuthTypes AuthStore AuthCommands AuthSessions AuthDrafts AuthTLS AuthService AuthFrames.
From S2P Require Import AuthPolicy AuthInvariants AuthLaws AuthCodec AuthProperties.
Import Planning AuthTypes AuthTables AuthStore AuthCommands AuthSessions AuthDrafts AuthTLS AuthService.
#[local] Arguments Hash : simpl never.
#[local] Arguments unique : simpl never.

(** ** Passwords *)

(** C39. A stored verifier accepts exactly the passwords whose derived key is
    that of the password it was made from, whatever the salt; a password
    outside of the policy is refused before any work. *)
Theorem password_roundtrip derive password salt :
  (forall p s, len (derive p s) = 32 /\ Forall byte (derive p s)) -> Forall byte salt -> len salt = 16 ->
  match hashPassword derive password salt with
  | Ok verifier => validPassword password = true /\
      forall other, verifyPassword derive other verifier = true <-> derive other salt = derive password salt
  | Err e => validPassword password = false /\ e = Fail 422 "PASSWORD_POLICY_REJECTED"
  end.
Proof.
  intros Hd Hs Hl. unfold hashPassword. destruct (validPassword password); [|done]. split; [done|].
  intros other. unfold verifyPassword. destruct (Hd password salt) as [Hlen Hb].
  rewrite parse_verifier_ok by done. rewrite andb_true_r. apply bool_decide_eq_true.
Qed.
Lemma derive_demo_ok p s : len (derive_demo p s) = 32 /\ (Forall byte s -> Forall byte (derive_demo p s)).
Proof.
  unfold derive_demo, len. split.
  - rewrite length_take, length_app, length_replicate. lia.
  - intros Hs. apply Forall_take, Forall_app. split; [|apply Forall_replicate; unfold byte; lia].
    apply Forall_app. split; [|done]. induction p as [|c p IH]; [constructor|]. constructor; [apply byte_of_range|done].
Qed.
Definition derive_bytes (p : string) (s : list Z) : list Z := take 32 (bytes p ++ replicate 32 0).
Lemma derive_bytes_ok p s : len (derive_bytes p s) = 32 /\ Forall byte (derive_bytes p s).
Proof.
  unfold derive_bytes, len. split.
  - rewrite length_take, length_app, length_replicate. lia.
  - apply Forall_take, Forall_app. split; [|apply Forall_replicate; unfold byte; lia].
    induction p as [|c p IH]; [constructor|]. constructor; [apply byte_of_range|done].
Qed.
Lemma password_roundtrip_witness : exists verifier, hashPassword derive_bytes password (replicate 16 7) = Ok verifier /\
  verifyPassword derive_bytes password verifier = true /\ verifyPassword derive_bytes "wrong-horse-battery" verifier = false.
Proof.
  pose proof (password_roundtrip derive_bytes password (replicate 16 7) derive_bytes_ok
                ltac:(apply Forall_replicate; unfold byte; lia) eq_refl) as H.
  destruct (hashPassword derive_bytes password (replicate 16 7)) as [v|e]; [|exfalso; destruct H as [H _]; discriminate H].
  exists v. destruct H as [_ H]. split; [reflexivity|]. split; [by apply H|].
  destruct (verifyPassword derive_bytes "wrong-horse-battery" v) eqn:E; [|reflexivity].
  apply H in E. discriminate E.
Defined.

(** ** Attempts *)

Definition attempts_ok (m : gmap string (Z * Z)) : Prop :=
  (forall k r, m !! k = Some r -> 1 <= snd r <= attempt_limit) /\ attempts_total m <= attempts_limit.
Lemma total_insert m k r : m !! k = None -> attempts_total (<[k := r]> m) = snd r + attempts_total m.
Proof. intros H. unfold attempts_total. rewrite map_fold_insert_L; [done|intros; lia|done]. Qed.
Lemma total_lookup m k r : m !! k = Some r -> attempts_total m = snd r + attempts_total (delete k m).
Proof. intros H. rewrite <- (insert_delete_id m k r H) at 1. apply total_insert, lookup_delete_eq. Qed.
Lemma total_filter (P : string * (Z * Z) -> Prop) `{!forall x, Decision (P x)} m :
  (forall k r, m !! k = Some r -> 0 <= snd r) -> attempts_total (filter P m) <= attempts_total m.
Proof.
  induction m as [|k r m Hk IH] using map_ind; intros Hm; [by rewrite map_filter_empty|].
  assert (0 <= snd r) as Hr by (apply (Hm k); by rewrite lookup_insert_eq).
  assert (forall k' r', m !! k' = Some r' -> 0 <= snd r') as Hm'.
  { intros k' r' E. apply (Hm k'). rewrite lookup_insert_ne by congruence. done. }
  rewrite (total_insert m k r Hk). specialize (IH Hm'). destruct (base.decide (P (k, r))) as [HP|HP].
  - rewrite map_filter_insert_True by done. rewrite total_insert by (apply map_lookup_filter_None; by left). lia.
  - rewrite map_filter_insert_False by done. rewrite delete_id by done. lia.
Qed.
Lemma total_nonneg m : (forall k r, m !! k = Some r -> 0 <= snd r) -> 0 <= attempts_total m.
Proof.
  induction m as [|k r m Hk IH] using map_ind; intros Hm; [done|]. rewrite total_insert by done.
  assert (0 <= snd r) by (apply (Hm k); by rewrite lookup_insert_eq).
  assert (0 <= attempts_total m); [|lia]. apply IH. intros k' r' E. apply (Hm k'). by rewrite lookup_insert_ne by congruence.
Qed.

(** The count of one more attempt. *)
Definition bumped (now_ : Z) (r : option (Z * Z)) : Z * Z := match r with Some r => (fst r, snd r + 1) | None => (now_, 1) end.
Lemma bump_ok now_ h m : (forall k r, m !! k = Some r -> 1 <= snd r <= attempt_limit) -> attempts_total m < attempts_limit ->
  match m !! h with Some r => attempt_limit <=? snd r | None => false end = false ->
  attempts_ok (<[h := bumped now_ (m !! h)]> m).
Proof.
  intros Hm Ht Hh. split.
  - intros k r [[<- <-]|[_ E]]%lookup_insert_Some; [|by apply (Hm k)].
    destruct (m !! h) as [r|] eqn:E; cbn; [apply Hm in E; bsimp; lia|unfold attempt_limit; lia].
  - rewrite <- insert_delete_eq, total_insert by apply lookup_delete_eq.
    destruct (m !! h) as [r|] eqn:E; cbn; [rewrite (total_lookup m h r E) in Ht; lia|]. rewrite delete_id by done. lia.
Qed.

(** Password attempts are bounded: at most ten for a name and sixty in
    all within a minute. An attempt that is let through is counted; one more
    than that is refused before any password work. *)
Theorem attempts_bounded name w n d : attempts_ok (auth_attempts (authz (auth d))) ->
  (forall u n' d', attempt name w n d = Ok (u, n', d') ->
     attempts_ok (auth_attempts (authz (auth d'))) /\
     exists r, auth_attempts (authz (auth d')) !! Hash (to_lower name) = Some r /\ 1 <= snd r) /\
  (forall r, auth_attempts (authz (auth d)) !! Hash (to_lower name) = Some r -> snd r = attempt_limit ->
     unix (now_at w (S n)) - 60 <= fst r -> is_ok (attempt name w n d) = false).
Proof.
  intros [Hm Ht]. split.
  - intros u n' d' H. unfold attempt, AuthStore.clock, watermark, on_authz in H. tx_inv. cbn in *. bsimp.
    match goal with |- context [filter ?P ?m0] => set (m := filter P m0) in * end. set (h := Hash (to_lower name)) in *.
    split; [|eexists; split; [apply lookup_insert_eq|]].
    + apply bump_ok; [|lia|done]. intros k r [E _]%map_lookup_filter_Some. by apply (Hm k).
    + destruct (m !! h) as [r|] eqn:E; cbn; [|lia]. apply map_lookup_filter_Some in E as [E _]. apply Hm in E. lia.
  - intros r Hr Hl Hw. destruct (attempt name w n d) as [[[u n'] d']|] eqn:H; [|done]. exfalso.
    unfold attempt, AuthStore.clock, watermark, on_authz in H. tx_inv. cbn in *. 
    match goal with H : match filter ?P ?m0 !! ?h with _ => _ end = false |- _ =>
      assert (filter P m0 !! h = Some r) as E by (by apply map_lookup_filter_Some); rewrite E in H end. bsimp. lia.
Qed.
Lemma attempts_bounded_witness : exists u n' d', attempt "admin" command_env 0%nat (st_db fresh) = Ok (u, n', d') /\
  attempts_ok (auth_attempts (authz (auth d'))).
Proof.
  assert (is_ok (attempt "admin" command_env 0%nat (st_db fresh)) = true) as H by (vm_compute; reflexivity).
  destruct (attempt "admin" command_env 0%nat (st_db fresh)) as [[[u n'] d']|] eqn:E; [|discriminate H]. exists u, n', d'.
  split; [reflexivity|]. eapply (proj1 (attempts_bounded "admin" command_env 0%nat (st_db fresh) ltac:(split; [by intros ? ?|vm_compute; discriminate]))).
  exact E.
Defined.

(** ** Losing access *)

(** Every credential of a user, revoked. *)
Definition all_revoked (id : string) (t : credential_tables) : Prop :=
  forall h row, grants t !! h = Some row \/ api_tokens t !! h = Some row -> cr_principal row = id -> cr_revoked row <> None.
Lemma revoke_of_done id at_ r : cr_principal (revoke_of id at_ r) = id -> cr_revoked (revoke_of id at_ r) <> None.
Proof.
  unfold revoke_of. destruct (String.eqb_spec (cr_principal r) id) as [E|E]; [|done]. intros _. cbn. by destruct (cr_revoked r).
Qed.
Lemma invalidate_all id w n d u n' d' : invalidatePrincipal id w n d = Ok (u, n', d') -> all_revoked id (creds (auth d')).
Proof.
  unfold invalidatePrincipal, on_creds. intros H. tx_inv. intros h row. cbn.
  intros [(r & <- & _)%lookup_fmap_Some|(r & <- & _)%lookup_fmap_Some]; apply revoke_of_done.
Qed.
(** Rows are only revoked, none is issued. *)
Definition creds_updated_by : db -> db -> Prop := on_auth (fun s s' => creds_updated (creds s) (creds s')).
#[export] Instance creds_updated_preorder : PreOrder creds_updated.
Proof.
  split; [intros t; split; apply rows_updated_refl|]. intros x y z [[A1 A2] [A3 A4]] [[B1 B2] [B3 B4]].
  split; (split; [by etrans|auto]).
Qed.
#[export] Instance updated_preorder : PreOrder (fun s s' : auth_tables => creds_updated (creds s) (creds s')).
Proof. split; [intros s; reflexivity|intros x y z; apply transitivity]. Qed.
#[export] Instance updated_by_preorder : PreOrder creds_updated_by.
Proof. unfold creds_updated_by. typeclasses eauto. Qed.
Lemma updated_revoked id t t' : creds_updated t t' -> all_revoked id t -> all_revoked id t'.
Proof.
  assert (forall m m' h row', rows_updated m m' -> m' !! h = Some row' -> exists row, m !! h = Some row /\ row_kept row row') as Hm.
  { intros m m' h row' [Hk Hn] E. destruct (m !! h) as [row|] eqn:Er; [|apply Hn in Er; congruence].
    destruct (Hk _ _ Er) as (r & E' & Hrow). assert (r = row') as -> by congruence. by exists row. }
  intros [Hg Ht] H h row' [E|E] Hp.
  - destruct (Hm _ _ _ _ Hg E) as (row & Er & Hs & Hv). injection Hs as E1 _ _ _. apply Hv, (H h); [by left|congruence].
  - destruct (Hm _ _ _ _ Ht E) as (row & Er & Hs & Hv). injection Hs as E1 _ _ _. apply Hv, (H h); [by right|congruence].
Qed.
Lemma updated_auth {A} (m : tx A) : keeps (same auth) m -> keeps creds_updated_by m.
Proof. intros H w n d a n' d' E. unfold creds_updated_by, on_auth. rewrite (H _ _ _ _ _ _ E). reflexivity. Qed.
Lemma updated_policy f : keeps creds_updated_by (on_policy f).
Proof. apply keeps_modify. intros d. unfold creds_updated_by, on_auth. cbn. split; apply rows_updated_refl. Qed.
Lemma updated_authz f : keeps creds_updated_by (on_authz f).
Proof. apply keeps_modify. intros d. unfold creds_updated_by, on_auth. cbn. split; apply rows_updated_refl. Qed.
Lemma updated_creds f : (forall t, creds_updated t (f t)) -> keeps creds_updated_by (on_creds f).
Proof. intros H. apply keeps_modify. intros d. apply H. Qed.
Hint Resolve updated_policy updated_authz : keeps.
Hint Extern 3 (keeps creds_updated_by (Evidence.Append _ _)) => apply updated_auth, Append_auth : keeps.
Hint Extern 3 (keeps creds_updated_by (Evidence.CreateJob _ _)) => apply updated_auth, CreateJob_auth : keeps.
Ltac updated_step :=
  match goal with
  | |- keeps creds_updated_by (on_creds _) => apply updated_creds; intros ?; repeat case_match; kept_tac
  | _ => keeps_step
  end.
Ltac updated_tac := repeat updated_step; eauto with keeps.
Lemma audit_updated req c op target r id o j : keeps creds_updated_by (audit req c op target r id o j).
Proof. unfold audit. updated_tac. Qed.
Lemma touch_updated cred c : keeps creds_updated_by (touch cred c).
Proof. unfold touch, watermark. updated_tac. Qed.
Hint Resolve audit_updated touch_updated : keeps.

(** What the command of an existing user has done once it is through. *)
Lemma existing_revokes c op id etag v verifier w n d m n' d' :
  existing_user c op id etag v verifier w n d = Ok (m, n', d') ->
  op = "changePassword" \/ op = "deleteUser" \/ op = "changeUser" /\ pl_disabled v = true ->
  all_revoked id (creds (auth d')).
Proof.
  unfold existing_user, on_policy. intros H Hop. tx_inv. cbn.
  match goal with H : _ _ _ _ = Ok (_, _, ?d2) |- all_revoked _ (creds (auth ?d2)) => rename H into Hx end.
  destruct Hop as [->|[->|[-> Hd]]]; cbn -[change_password delete_user change_user] in Hx.
  - unfold change_password in Hx. tx_inv. by eapply invalidate_all.
  - unfold delete_user in Hx. tx_inv. by eapply invalidate_all.
  - unfold change_user in Hx. tx_inv. rewrite Hd in *. by eapply invalidate_all.
Qed.

(** C20. Losing access is complete: once a password was changed, or a user
    disabled or deleted, every session and every token of that user is
    revoked, including the ones that the command's own session belongs to. *)
Theorem access_lost cred op path etag v verifier id req w n d m n' d' :
  execute_mutation cred op path etag v verifier id req w n d = Ok (m, n', d') ->
  op_ID op = "changePassword" \/ op_ID op = "deleteUser" \/ op_ID op = "changeUser" /\ pl_disabled v = true ->
  all_revoked path (creds (auth d')).
Proof.
  intros (c & n1 & n2 & d2 & _ & Hm & Ht & _)%execute_parts Hop. unfold mutate in Hm. apply bind_inv in Hm as (t & n3 & d3 & _ & Hm).
  apply bind_inv in Hm as (m1 & n4 & d4 & Hd & Hm).
  assert (all_revoked path (creds (auth d4))) as Hr.
  { unfold dispatch_command in Hd. destruct Hop as [E|[E|[E E']]]; rewrite E in Hd; cbn -[existing_user] in Hd;
      eapply existing_revokes; try exact Hd; auto. }
  eapply updated_revoked; [|exact Hr]. change (creds_updated_by d4 d'). etrans; [|by eapply touch_updated].
  revert Hm. match goal with |- ?m _ _ _ = _ -> _ => assert (keeps creds_updated_by m) as Hk; [|by apply Hk] end.
  unfold new_revision. updated_tac.
Qed.
Definition admin_id : string := default "" (fst <$> head (map_to_list (principals (policy (auth (st_db elevated_session)))))).
Definition admin_etag : string :=
  quoted (default "" (fst <$> auth_principals (policy (auth (st_db elevated_session))) !! admin_id)).
Definition password_operation : Operation := mkOperation "changePassword" "user.manage" "user" "management" true false.
Definition password_payload : Payload := mkPayload "" [] false "" [] [] "".
Notation password_changed :=
  (execute_mutation grant password_operation admin_id admin_etag password_payload (passwordPrefix ++ "new") request_id
     command_request command_env 0%nat (st_db elevated_session)).
Lemma password_changed_ok : is_ok password_changed = true.
Proof. vm_compute. reflexivity. Qed.
Lemma access_lost_witness : exists m n' d', password_changed = Ok (m, n', d') /\ all_revoked admin_id (creds (auth d')).
Proof.
  pose proof password_changed_ok as H. destruct password_changed as [[[m n'] d']|] eqn:E; [|discriminate H].
  exists m, n', d'. split; [reflexivity|].
  apply (access_lost grant password_operation admin_id admin_etag password_payload (passwordPrefix ++ "new") request_id
     command_request command_env 0%nat (st_db elevated_session) m n' d' E). left. reflexivity.
Defined.

(** ** Restores *)

(** All that the audit does not touch. *)
Definition unaudited (d : db) :=
  (policy (auth d), creds (auth d), drafts (auth d), (auth_epoch (authz (auth d)), auth_revision (authz (auth d)))).
Lemma unaudited_auth {A} (m : tx A) : keeps (same auth) m -> keeps (same unaudited) m.
Proof. intros H w n d a n' d' E. unfold same, unaudited. by rewrite (H _ _ _ _ _ _ E). Qed.
Lemma audit_rest req c op target r id o j : keeps (same unaudited) (audit req c op target r id o j).
Proof. unfold audit, on_authz. pose proof (fun req r => unaudited_auth _ (Append_auth req r)). keeps_tac. Qed.
Definition restored (t : credential_tables) : credential_tables :=
  mkCredentials (grants t) ((fun a => mkAuthGrant (ag_id a) (ag_issued a) (ag_last a) 0) <$> auth_grants t) (api_tokens t) (auth_tokens t).

(** C29. After a restore nothing that was issued before is accepted: every
    session and token in the restored database is revoked, nobody is
    elevated, the epochs are new and the inventory is to be reconciled before
    anything else. *)
Theorem restore_revokes w n d u n' d' : PrepareRestore w n d = Ok (u, n', d') ->
  (forall credential t1 t2 c, claims_of d' credential t1 t2 <> Ok c) /\
  (forall h a, auth_grants (creds (auth d')) !! h = Some a -> ag_elevated a = 0) /\
  (exists k, auth_epoch (authz (auth d')) = new_id w k) /\
  (forall iv, inventory_state (drafts (auth d')) = Some iv -> iv_state iv = "reconciliation-required" /\ iv_restore iv = true).
Proof.
  unfold PrepareRestore, tlsState, on_creds, on_authz, on_drafts. intros H. tx_inv. rename H into Ha.
  apply audit_rest in Ha. unfold same, unaudited in Ha. injection Ha as _ Hc Hd He _. rewrite Hd, Hc. cbn.
  assert (forall h row, grants (creds (auth d')) !! h = Some row \/ api_tokens (creds (auth d')) !! h = Some row -> cr_revoked row <> None) as Hr.
  { rewrite Hc. cbn. intros h row [(r & <- & _)%lookup_fmap_Some|(r & <- & _)%lookup_fmap_Some]; cbn; by destruct (cr_revoked r). }
  split_and!.
  - intros cred t1 t2 c (k & Hk & _ & _ & _ & He' & _)%claims_live. apply find_row in Hk as [Hk _].
    assert (cr_revoked (k_row k) <> None) as Hv.
    { unfold row_of in Hk. repeat (case_match; try discriminate); eapply Hr; eauto. }
    unfold ended in He'. bsimp. destruct_and!. congruence.
  - intros h a (a' & <- & _)%lookup_fmap_Some. done.
  - rewrite He. cbn. by eexists.
  - intros iv E. destruct (inventory_state _); [|done]. by injection E as <-.
Qed.
Lemma restore_revokes_witness : exists u n' d', PrepareRestore command_env 0%nat (st_db elevated_session) = Ok (u, n', d') /\
  forall t1 t2 c, claims_of d' grant t1 t2 <> Ok c.
Proof.
  assert (is_ok (PrepareRestore command_env 0%nat (st_db elevated_session)) = true) as H by (vm_compute; reflexivity).
  destruct (PrepareRestore command_env 0%nat (st_db elevated_session)) as [[[u n'] d']|] eqn:E; [|discriminate H].
  exists u, n', d'. split; [reflexivity|]. exact (proj1 (restore_revokes command_env 0%nat (st_db elevated_session) u n' d' E) grant).
Defined.

(** ** Certificates *)

Lemma finish_state req s b w n d u n' d' : finishTLS req s b w n d = Ok (u, n', d') ->
  exists rev, tls_authority (drafts (auth d')) = no_trial rev (if b then TrialID s else tls_ActiveID s).
Proof.
  unfold finishTLS, set_tls, new_revision, on_drafts, on_authz. intros H. tx_inv.
  destruct (find _ _) as [[[[[principal epoch] domain] request] row]|]; tx_inv.
  apply audit_rest in H. unfold same, unaudited in H. injection H as _ _ Hd _ _. rewrite Hd. cbn. by eexists.
Qed.


(** *** A trial that nobody confirms *)

Definition certificate_id : string := id_of 77.
Definition certificate : Descriptor :=
  mkDescriptor certificate_id (of_bytes (replicate 64 97)) (of_bytes (replicate 64 98)) "manager.example" start (start + 86400 * Second).
Definition tls_operation (method uri : string) : result (Operation * string * bool) :=
  let op id := mkOperation id "certificate.manage" "certificate" "management" true false in
  if uri =s "/create" then Ok (op "createCertificate", EmptyString, false)
  else if uri =s "/activate" then Ok (op "activateCertificate", certificate_id, false)
  else Ok (op "confirmCertificate", certificate_id, false).
Definition tls_run (uri precondition served : string) (d : option Descriptor) (n : Z) (s : state) : result Requests.Result_ * state :=
  let id := RequestID (replicate 16 n) (unix_milli start + n) in
  interpret steady
    (ExecuteTLS tls_operation (fun _ _ => Ok tt) (replicate 32 1) grant (mkCommand "POST" uri epoch id precondition "{}")
       (mkTLSCommand d served precondition id) "{}") s.
Definition created := tls_run "/create" "" "" (Some certificate) 3 elevated_session.
Definition certificate_etag : string :=
  quoted (default "" (tc_revision <$> tls_certificates (drafts (auth (st_db (snd created)))) !! certificate_id)).
Definition activated := tls_run "/activate" certificate_etag "" None 4 (snd created).
Notation later_state := (tls_state_tx (world_env 5000) 0%nat (st_db (snd activated))).
Lemma later_state_ok : is_ok later_state && (TrialID (tls_authority (drafts (auth (st_db (snd activated))))) =s certificate_id)
  && TLS_Expired (tls_authority (drafts (auth (st_db (snd activated))))) (clock_at (world_env 5000) 0%nat) = true.
Proof. vm_compute. reflexivity. Qed.
