(* ===== verification/DraftProperties.v ===== *)
(** * Drafts and the authority of an apply

    The witness of a draft only moves forward; an apply is authorized for the
    exact draft that was validated; what became of an apply is decided once. *)

From S2P Require Import Prelude GoStrings Sha256 GoTime GoJson ApiTypes CandidateTypes Intents Snapshots Planning Planner ExecTypes AuthTables Store.
From S2P Require Import Evidence Program Requests Executions SafeApply Admission System Scenario Manager.
From S2P Require Import AuthTypes AuthStore AuthCommands AuthSessions AuthDrafts AuthTLS AuthService AuthFrames.
From S2P Require Import AuthPolicy AuthInvariants AuthLaws AuthProperties SessionProperties CandidateProperties.
Import Planning Planner AuthTypes AuthTables AuthStore AuthCommands AuthSessions AuthDrafts AuthService Snapshots.
#[local] Arguments Hash : simpl never.
#[local] Opaque envelope_digest signature.

(** ** Witnesses *)

Lemma witness_later s s' owner wi : reachable s -> rtc step s s' ->
  in_column (candidate_witnesses (drafts (auth (durable s)))) ->
  candidate_witnesses (drafts (auth (durable s))) !! owner = Some wi ->
  exists wi', candidate_witnesses (drafts (auth (durable s'))) !! owner = Some wi' /\ wi_epoch wi' = wi_epoch wi /\
    (wi' = wi \/ wi_sequence wi < wi_sequence wi').
Proof.
  intros Hr Hs Hc Hw. assert (witnesses_forward (durable s) (durable s')) as H; [|by apply H].
  apply (process_keeping witnesses_forward); [|done|done].
  intros d d' (_ & _ & E)%owned_auth. unfold witnesses_forward, on_auth. rewrite E. apply witness_forward_refl.
Qed.
(** C21. A draft never goes back: once the manager has witnessed a revision of
    an owner's draft, an envelope with an earlier sequence is refused in every
    later state of the process, for reading and staging as for execution, and
    so is another envelope with the same sequence. *)
Theorem draft_never_back s s' e wi :
  reachable s -> rtc step s s' -> in_column (candidate_witnesses (drafts (auth (durable s)))) ->
  candidate_witnesses (drafts (auth (durable s))) !! e_Owner e = Some wi ->
  e_Sequence e < wi_sequence wi \/ e_Sequence e = wi_sequence wi /\ wi <> witness_of e ->
  (forall advance w n, is_ok (candidateFence e advance w n (durable s')) = false) /\
  exact_witness (durable s') (e_Owner e) e <> Ok tt.
Proof.
  intros Hr Hs Hc Hw He. destruct (witness_later _ _ _ _ Hr Hs Hc Hw) as (wi' & Hw' & Hep & Hf).
  assert (~ (wi_candidate wi' = c_ID (e_Candidate e) /\ wi_epoch wi' = e_Epoch e /\ wi_sequence wi' <= e_Sequence e /\
             (wi_sequence wi' = e_Sequence e -> wi' = witness_of e))) as Hno.
  { intros (_ & _ & H1 & H2). destruct Hf as [->|Hf], He as [He|[He Hne]]; try lia. by apply Hne, H2. }
  split.
  - intros advance w n. destruct (candidateFence e advance w n (durable s')) as [[[u n'] d']|] eqn:H; [|done].
    exfalso. unfold candidateFence in H. tx_inv. rewrite Hw' in H. tx_inv. match goal with L : fence _ _ = Ok ?u |- _ => destruct u; by apply Hno, fence_ok end.
  - unfold exact_witness. rewrite Hw'. intros H. destruct (_ || _) eqn:E in H; [done|]. bsimp. destruct_and!. apply Hno.
    split_and!; try done; try lia. intros _. destruct wi' as [x1 x2 x3 x4 x5]. unfold witness_of. cbn in *. by f_equal.
Qed.

(** ** The authority of an apply *)

Lemma candidate_claims_ok d credential capability t1 t2 t3 t4 t5 c :
  candidate_claims_of d credential capability t1 t2 t3 t4 t5 = Ok c ->
  claims_of d credential t1 t2 = Ok c /\ require c capability false (unix t3) = Ok tt /\
  require c "configuration.read" false (unix t4) = Ok tt /\ require c "inventory.read" false (unix t5) = Ok tt.
Proof.
  unfold candidate_claims_of. intros H. destruct (claims_of _ _ _ _) as [c'|]; [|done].
  destruct (require c' capability _ _) as [[]|] eqn:E1; [|done]. destruct (require c' "configuration.read" _ _) as [[]|] eqn:E2; [|done].
  destruct (require c' "inventory.read" _ _) as [[]|] eqn:E3; [|done]. injection H as <-. by split_and!.
Qed.

(** C9. An apply is authorized only for what was validated: the caller owns
    the sealed draft and may change every field in it now, the validation is
    its own, passed, unexpired and of the same envelope, made under the
    present credential and policy, the witness is exactly that envelope, and
    against the present state of the switch every check passes again. *)
Theorem apply_authorized key credential snapshot d t1 t2 t3 t4 t5 now_ in_ a :
  ExecutionAuthorizer key credential snapshot d (t1, t2, t3, t4, t5) now_ in_ false = Ok a ->
  exists c row wi s, claims_of d credential t1 t2 = Ok c /\ "configuration.apply" ∈ cl_Capabilities c /\
    Verify (rq_Envelope in_) key (cl_Principal c) = Ok tt /\
    (forall x, x ∈ Capabilities (e_Candidate (rq_Envelope in_)) -> x ∈ cl_Capabilities c) /\
    candidate_validations (drafts (auth d)) !! rq_ValidationID in_ = Some row /\ va_owner row = cl_Principal c /\
    envelope_digest (va_envelope row) = envelope_digest (rq_Envelope in_) /\
    v_State (vr_Validation (va_document row)) = "passed" /\ now_ < v_Expires (vr_Validation (va_document row)) /\
    vr_Credential (va_document row) = cl_Credential c /\ v_PolicyRevision (vr_Validation (va_document row)) = cl_Revision c /\
    candidate_witnesses (drafts (auth d)) !! cl_Principal c = Some wi /\ wi = witness_of (va_envelope row) /\
    snapshot (Bindings (e_Candidate (va_envelope row))) = Ok s /\
    Passed (fst (Checks (e_Candidate (va_envelope row)) s)) = true /\
    a_Owner a = cl_Principal c /\ a_Expires a = v_Expires (vr_Validation (va_document row)).
Proof.
  unfold ExecutionAuthorizer. intros H. destruct (candidate_claims_of _ _ _ _ _ _ _ _) as [c|] eqn:Ec; [|done].
  apply candidate_claims_ok in Ec as (Hc & Ha & _). destruct (cl_Principal c <>s _) eqn:Ep; [done|].
  destruct (Verify (rq_Envelope in_) key (cl_Principal c)) as [[]|] eqn:Ev; [|done]. cbn -[Checks Passed authorization_of] in H.
  destruct (intentCapabilities _ _) eqn:Ei; [|done]. cbn -[Checks Passed authorization_of] in H.
  destruct (usable_validation d c in_ now_) as [[r e]|] eqn:Eu; [|done].
  destruct (exact_witness _ _ _) as [[]|] eqn:Ew; [|done]. destruct (snapshot (Bindings (e_Candidate e))) as [s|] eqn:Es; [|done].
  destruct (sn_Policy s <>s _); [done|]. destruct (Passed (fst (Checks (e_Candidate e) s))) eqn:Epass; [|done]. injection H as <-.
  unfold usable_validation in Eu. destruct (candidate_validations _ !! _) as [row|] eqn:Er; [|done].
  destruct (va_owner row <>s _) eqn:E1; [done|]. destruct (envelope_digest _ <>s _) eqn:E2; [done|].
  destruct (_ || _ || _) eqn:E3 in Eu; [done|]. destruct (_ || _) eqn:E4 in Eu; [done|]. injection Eu as <- <-.
  unfold exact_witness in Ew. destruct (candidate_witnesses _ !! _) as [wi|] eqn:Ewi; [|done].
  destruct (_ || _) eqn:E5 in Ew; [done|]. bsimp. destruct_and!.
  exists c, row, wi, s. split_and!; try done; try lia; try congruence.
  - apply require_ok in Ha as (canonical & Hd & Hin & _); [|set_solver]. vm_compute in Hd. by injection Hd as <-.
  - intros x Hx. unfold intentCapabilities in Ei. rewrite forallb_forall in Ei. apply contains_elem, Ei. by apply list_elem_of_In.
  - destruct wi as [x1 x2 x3 x4 x5]. unfold witness_of. cbn in *. by f_equal.
Qed.

(** *** A draft that is staged, validated and authorized *)

Definition seal_key : list Z := replicate 32 1.
Definition first_draft : Envelope :=
  Sign (mkEnvelope admin_id epoch 0 (mkCandidate (id_of 80) (id_of 81) None None "empty" None None) "") seal_key.
Definition get_ok {A} (d : A) (r : result A) : A := match r with Ok a => a | Err _ => d end.
Definition tx_value {A} (d : A) (r : result (A * nat * db)) : A := match r with Ok (a, _, _) => a | Err _ => d end.
Definition tx_db {A} (d : db) (r : result (A * nat * db)) : db := match r with Ok (_, _, d') => d' | Err _ => d end.
Definition draft_claims : Claims :=
  get_ok (no_claims "") (claims_of (st_db elevated_session) grant (now_at command_env 0%nat) (now_at command_env 1%nat)).
Definition prepared_draft :=
  prepare_tx seal_key (fun n => id_of (200 + Z.of_nat n)) (id_of 82) grant draft_claims first_draft
    (Example.stage_command (Example.edit (Example.access 20))) Example.now command_env 0%nat (st_db elevated_session).
Definition staged_draft : Envelope := default first_draft (tx_value None prepared_draft).
Definition validated : db :=
  tx_db (st_db elevated_session)
    (validate_tx grant "config.validate" staged_draft (Ok Example.now) command_request command_env 0%nat (st_db elevated_session)).
Definition validation_id : string := default "" (fst <$> head (map_to_list (candidate_validations (drafts (auth validated))))).
Definition apply_request : Request := mkRequest request_id validation_id staged_draft.
Definition apply_time : Z := now_at command_env 500%nat.
Notation authorized_apply :=
  (ExecutionAuthorizer seal_key grant (fun _ => Ok Example.now) validated
     (apply_time, apply_time, apply_time, apply_time, apply_time) apply_time apply_request false).
Lemma authorized_apply_ok : match authorized_apply with Ok a => a_FieldCapabilities a =s "ovs.port.vlan.write" | Err _ => false end = true.
Proof. vm_compute. reflexivity. Qed.
Lemma apply_authorized_witness : exists a wi, authorized_apply = Ok a /\ a_FieldCapabilities a = "ovs.port.vlan.write" /\
  candidate_witnesses (drafts (auth validated)) !! a_Owner a = Some wi.
Proof.
  pose proof authorized_apply_ok as H. destruct authorized_apply as [a|] eqn:E; [|discriminate H].
  destruct (apply_authorized seal_key grant (fun _ => Ok Example.now) validated apply_time apply_time apply_time apply_time apply_time
              apply_time apply_request a E) as (c & row & wi & s & _ & _ & _ & _ & _ & _ & _ & _ & _ & _ & _ & Hw & _ & _ & _ & Ho & _).
  exists a, wi. split; [reflexivity|]. split; [apply String.eqb_eq; exact H|]. rewrite Ho. exact Hw.
Defined.

Definition read_draft : prog (result string) :=
  ReadCandidate (fun _ => Ok Example.now) seal_key None grant staged_draft "".
Definition witnessed : state := snd (interpret steady (ignore read_draft) session).
Lemma witnessed_ok : match candidate_witnesses (drafts (auth (st_db witnessed))) !! e_Owner first_draft with
  | Some wi => (e_Sequence first_draft <? wi_sequence wi) && sequence_column (wi_sequence wi) | None => false end = true.
Proof. vm_compute. reflexivity. Qed.
Lemma witnessed_column : forallb (fun kv => sequence_column (wi_sequence (snd kv)))
  (map_to_list (candidate_witnesses (drafts (auth (st_db witnessed))))) = true.
Proof. vm_compute. reflexivity. Qed.
Lemma column_list m : forallb (fun kv => sequence_column (wi_sequence (snd kv))) (map_to_list m) = true -> in_column m.
Proof.
  intros H o w E. rewrite forallb_forall in H. apply column_ok, (H (o, w)). by apply list_elem_of_In, elem_of_map_to_list.
Qed.
Lemma witnessed_reachable : exists ts, reachable (sys_of witnessed ts).
Proof.
  destruct session_reachable as [ts H]. destruct (run_rtc entry steady session ts (ignore read_draft)) as [ts' H'].
  - exact (E_service _ read_draft (fun _ _ => Err EUnavailable) (fun _ _ => Ok tt) (fun _ _ => Err EUnavailable) (fun _ => None)
             derive_demo (fun _ => Ok Example.now) seal_key None false (S_read _ _ _ _ _ _ _ _ _ _ _)).
  - exists ts'. eapply reachable_rtc; [exact H|exact H'].
Qed.
Lemma draft_never_back_witness : exists ts, reachable (sys_of witnessed ts) /\
  forall w n, is_ok (candidateFence first_draft true w n (st_db witnessed)) = false.
Proof.
  destruct witnessed_reachable as [ts H]. exists ts. split; [exact H|]. pose proof witnessed_ok as Hw.
  destruct (candidate_witnesses (drafts (auth (st_db witnessed))) !! e_Owner first_draft) as [wi|] eqn:E; [|discriminate Hw].
  apply andb_true_iff in Hw as [Hw _]. apply Z.ltb_lt in Hw. intros w n.
  refine (proj1 (draft_never_back (sys_of witnessed ts) (sys_of witnessed ts) first_draft wi H (rtc_refl _ _) _ E (or_introl Hw)) true w n).
  exact (column_list _ witnessed_column).
Defined.

(** ** What became of an apply *)

Definition resolution_key (q : SafeRequest) := (e_Owner (sq_Envelope q), sq_Epoch q, sq_RequestID q).
Lemma Verify_owner e key owner : Verify e key owner = Ok tt -> e_Owner e = owner.
Proof. unfold Verify. intros H. destruct (_ || _) eqn:E in H; [done|]. bsimp. tauto. Qed.
Lemma append_resolutions req r : keeps (same safe_resolutions) (Evidence.Append req r).
Proof. unfold Evidence.Append, Evidence.complete_record, Evidence.insert_record. keeps_tac. Qed.
Lemma settle_ok key q c tx_ confirmed w n d out n' d' : settle key q c tx_ confirmed w n d = Ok (out, n', d') ->
  safe_resolutions d' !! (cl_Principal c, sq_Epoch q, sq_RequestID q) = Some (sq_Fingerprint q, out) /\
  sr_Pending out = false /\ sr_Confirmed out = confirmed /\ sr_Transaction out = tx_.
Proof.
  unfold settle. intros H. tx_inv.
  match goal with H : Evidence.Append _ _ _ _ _ = _ |- _ => apply append_resolutions in H; unfold same in H; rewrite H end.
  cbn. by rewrite lookup_insert_eq.
Qed.
Lemma resolve_parts key credential q w n d out n' d' : resolve_tx key credential q w n d = Ok (out, n', d') ->
  safe_resolutions d' !! resolution_key q = Some (sq_Fingerprint q, out) /\
    (safe_resolutions d !! resolution_key q = None -> sr_Pending out = false) \/
  d' = d /\ sr_Pending out = true /\ sr_Envelope out = None /\ exists id row, safe_applies d !! id = Some row /\ Terminal (s_State (sa_doc row)) = false.
Proof.
  unfold resolve_tx, candidateClaims. intros H. tx_inv. repeat match goal with u : unit |- _ => destruct u end.
  match goal with L : Verify _ _ _ = Ok tt |- _ => apply Verify_owner in L; unfold resolution_key; rewrite L end.
  destruct (safe_resolutions _ !! _) as [[prior out0]|] eqn:Er; tx_inv.
  - bsimp. subst. by left.
  - destruct (apply_of _ _ _ _) as [id|]; tx_inv; [|apply settle_ok in H as (H1 & H2 & _); by left].
    match goal with L : Executions.loadSafety _ id = Ok ?s |- _ => rename s into saf;
      unfold Executions.loadSafety in L; destruct (safe_applies _ !! id) as [row|] eqn:Es; [|done];
      destruct (_ || _) in L; [done|]; injection L as <- end.
    destruct (Terminal (s_State (sa_doc row))) eqn:Et; cbn -[settle] in H; tx_inv.
    + apply settle_ok in H as (H1 & H2 & _). by left.
    + right. split_and!; try done. by exists id, row.
Qed.

(** What became of an apply is decided once. A resolution is stored with
    its fingerprint before it is told: from then on the same question gets the
    same answer, another fingerprint gets none, and the request can no longer
    be admitted; only while its transaction is open is it pending. *)
Theorem apply_resolved_once key credential q w n d out n' d' :
  resolve_tx key credential q w n d = Ok (out, n', d') -> safe_resolutions d !! resolution_key q = None ->
  sr_Pending out = true /\ d' = d /\ (exists id row, safe_applies d !! id = Some row /\ Terminal (s_State (sa_doc row)) = false) \/
  sr_Pending out = false /\
    (forall cred2 q2 w2 m out2 m' d2, resolution_key q2 = resolution_key q -> resolve_tx key cred2 q2 w2 m d' = Ok (out2, m', d2) ->
       sq_Fingerprint q2 = sq_Fingerprint q /\ out2 = out /\ d2 = d') /\
    (forall en r a w2 m, (x_Owner r, Requests.cm_Epoch (Executions.sf_command a), x_RequestID r) = resolution_key q ->
       is_ok (SafeApply.admitSafety en r a w2 m d') = false).
Proof.
  intros H Hn. apply resolve_parts in H as [[Hs Hp]|(-> & Hp & _ & Ho)]; [right|by left].
  split; [auto|]. split.
  - intros cred2 q2 w2 m out2 m' d2 Hk H2. unfold resolve_tx, candidateClaims in H2. tx_inv.
    repeat match goal with u : unit |- _ => destruct u end.
    match goal with L : Verify _ _ _ = Ok tt |- _ => apply Verify_owner in L end.
    match type of H2 with context [safe_resolutions ?d !! ?k] => assert (safe_resolutions d !! k = Some (sq_Fingerprint q, out)) as E end.
    { rewrite <- Hs, <- Hk. unfold resolution_key. congruence. }
    rewrite E in H2. tx_inv. bsimp. by subst.
  - intros en r a w2 m Hk. destruct (SafeApply.admitSafety en r a w2 m d') as [[[u m'] d2]|] eqn:E; [|done].
    unfold SafeApply.admitSafety in E. tx_inv. rewrite Hk, Hs in *. done.
Qed.
Definition question : SafeRequest := mkSafeRequest staged_draft epoch request_id (id_of 90) "fingerprint".
Notation resolved := (resolve_tx seal_key grant question command_env 0%nat (st_db elevated_session)).
Lemma resolved_ok : is_ok resolved && negb (sr_Pending (tx_value (mkResolution false true None None) resolved))
  && is_nil (safe_resolutions (st_db elevated_session) !! resolution_key question) = true.
Proof. vm_compute. reflexivity. Qed.
Lemma is_nil_None {A} (o : option A) : is_nil o = true -> o = None.
Proof. by destruct o. Qed.
Lemma apply_resolved_once_witness : exists out n' d', resolved = Ok (out, n', d') /\ sr_Pending out = false /\
  forall en r a w m, (x_Owner r, Requests.cm_Epoch (Executions.sf_command a), x_RequestID r) = resolution_key question ->
    is_ok (SafeApply.admitSafety en r a w m d') = false.
Proof.
  pose proof resolved_ok as H. apply andb_true_iff in H as [H Hn]. apply is_nil_None in Hn. apply andb_true_iff in H as [Hk H].
  destruct resolved as [[[out n'] d']|] eqn:E; [|discriminate Hk]. cbn in H. exists out, n', d'. split; [reflexivity|].
  destruct (apply_resolved_once seal_key grant question command_env 0%nat (st_db elevated_session) out n' d' E Hn)
    as [(Hp & _)|(Hp & _ & Ha)]; [rewrite Hp in H; discriminate H|]. split; [exact Hp|exact Ha].
Defined.
